(* ===== verification/_CoqProject ===== *)
-Q . S2P
Prelude.v
Text.v
ConfigOpt.v
StrUtil.v
StrProps.v
OptionTable.v
Licence.v
InitOptions.v
Rules.v
HostOps.v
ConfigHost.v
TargetOs.v
HwConfig.v
DistConfig.v
FeatureConfig.v
CreateConfig.v
JpkgConfig.v
Output.v
Accesses.v
Discipline.v
FeatureCover.v
HwCover.v
DistCover.v
HostCover.v
CreateCover.v
ConfigProps.v
JpkgProps.v
MainProps.v
HostProps.v
ToolProps.v
MtdCheck.v
PackageProps.v
OutputProps.v
Crc32.v
MkImage.v
MkImageProps.v
MpsBuffer.v
MpsProps.v
MpsConc.v
Dma.v
DmaRing.v
DmaTx.v
DmaTrace.v
DmaRx.v
DmaIrq.v
DmaInit.v
DmaFair.v
Icu.v
IcuProps.v
PciOps.v
PciProps.v
Port.v
PortProps.v
Mailbox.v
MailboxProps.v
MailboxDevice.v
MailboxDelivery.v
MpsClient.v
MpsBacklog.v
MpsPreempt.v
MpsRemote.v
Deu.v
DeuHash.v
DeuProps.v
DeuCipher.v
DeuDes.v
DeuSec.v
Switch.v
SwitchBits.v
SwitchProps.v
SwitchText.v
