(* ===== verification/Prelude.v ===== *)
(** * The Twinpass firmware: a verification of its own code

    The repository is the source of a Jungo OpenRG gateway for Infineon's Twinpass, a SoC
    with two MIPS processors: third-party packages and a Linux 2.4 tree, and the code written
    for this product, which is what this library models:

    - [src/core0/pkg/build], the configuration engine.  [create_config] reads
      [-f NAME=VALUE] arguments and a distribution, hardware and operating system, runs about
      twelve thousand lines of rules over an array of 2093 options, and prints rg_config.mk,
      rg_config.h and rg_config.c, from which everything else is built;
    - [src/core0/pkg/boot/u-boot], the image tools: the checksum and mkimage, which wraps the
      result of the build for the boot loader;
    - [src/core0/vendor/infineon/twinpass/bsp], the board support of the running system: the
      GPIO pins with the watchdog, interrupts, PCI configuration, the central DMA driver, the
      queues of packet buffers, the message mailboxes between the two processors with the
      packets and remote calls on them, and the encryption unit with the functions of the
      IPsec stack.

    ** Files and what they model

    - Prelude: tactics, C integers and strings, tries of names.  Text: lines and numbers.
    - ConfigOpt (config_opt.h, the operations on options of feature_config.c): [option_t],
      the array of options with the user's choices as the state [cfg], the monad
      with the reasons to exit, [_token_set] with its priorities, the getters.
    - OptionTable (config_opt.c): the tables, row by row.  InitOptions, Licence
      (create_config.c): initial values, copies of the array, licensed modules.
    - StrUtil, StrProps (str.c): the string utilities, on buffers with their bounds where
      they edit in place, and their theorems.
    - Rules: the statements the rules are made of, and the logic [covers], which reduces a
      property of a rule program to a check of the list of its accesses.
    - TargetOs, HwConfig, DistConfig, FeatureConfig (config_target_os.c, hw_config.c,
      dist_config.c, feature_config.c): the rules, statement by statement.
    - HostOps, ConfigHost (config_host.c, and sys_get of create_config.c): the build host,
      the tool chain, the libraries and the flags, on StrUtil's formatted strings.
    - CreateConfig, JpkgConfig (create_config.c): the command line, the order of the rules in
      [main], the passes over the distributions of a package.  Output (create_config.c): the
      check of the values and the printing.
    - Accesses, Discipline: what one access may write and why it may exit.  FeatureCover,
      HwCover, DistCover, HostCover, CreateCover: the accesses of each piece of the rules.
    - ConfigProps, JpkgProps, MainProps, MtdCheck, PackageProps, OutputProps: the theorems on
      the configuration.  HostProps, ToolProps: those on the host configuration, run backwards
      from the state in which it returned.
    - Crc32, MkImage, MkImageProps (crc32.c, mkimage.c, image.h).
    - MpsBuffer, MpsProps, MpsConc (mps_tpe_buffer.c and .h): the rings of buffers, the pools,
      the timer, and the two processors interleaved on one ring.
    - Mailbox, MailboxProps, MailboxDevice, MailboxDelivery (mps_tpe_device.c and .h,
      mps_dualcore.h): the message FIFOs in the shared SRAM; one FIFO as a list of messages;
      the four FIFOs, sending and receiving; the interrupt handler, the tasklets, the callbacks.
    - MpsClient (mps_tpe_linux.c, list.h): packets and their back log, messages of the
      applications, lists of buffers, requests to the other processor, the two callbacks.
      MpsBacklog: the sender with the timer and the receiver; MpsPreempt: a call cut into its
      steps, with interrupts that send; MpsRemote: a question and its answer through both
      command FIFOs, interrupt handlers and callbacks, for any turns of the two processors.
    - Deu (drivers/crypto: ifxdeu-sha1.c, ifxdeu-md5.c, ifxdeu-aes.c, ifxdeu-des.c,
      sec_api.c): the registers of the unit, the hash and cipher drivers, HMAC and CBC.
      DeuHash: padding and folding over blocks as a reference, and the interface [HashDriver],
      which both drivers implement.  DeuProps: digests, keyed hashes, interruption.
      DeuCipher, DeuDes: block chaining as a reference, the loops of the two ciphers, the weak
      keys.  DeuSec: the theorems on encryption.
    - Switch (drivers/net/admmod.c, adm6996.h): the Ethernet switch, its settings and the text
      handlers of /proc.  SwitchBits: settings as groups of bits of registers.  SwitchProps:
      the operations on all the settings.  SwitchText: what is written to bandwidth_control,
      weights that do not fit, protocol filters.
    - Port, PortProps (port.c, port_defs.h, port.h): pins, owners, ioctls, the watchdog.
    - Dma (dma-core.c and .h, danube_dma.h): channels, devices, descriptors, the interrupt
      handlers and the tasklet, registration, reading and writing, initialisation.  DmaRing:
      a ring as a rotated list, runs on one channel.  DmaTx, DmaTrace: the transmit ring as a
      queue, and with the controller at work; DmaRx: the receive ring; DmaIrq: the choice of
      the channel, interrupts and tasklet; DmaInit: the links made by the initialisation,
      reservation, unregistering; DmaFair: the turns a channel waits.
    - Icu, IcuProps (interrupt.c): the enable registers and the dispatchers; the interface
      [IrqControl], which they implement and the DMA driver uses.
    - PciOps, PciProps (ops-danube.c): access to the configuration space, by byte, half word
      and word.

    The parts meet as in the code.  The rules are programs over ConfigOpt's state and are
    put in sequence by CreateConfig and JpkgConfig, the last of them ConfigHost, and Output
    prints the result; ConfigHost edits its texts with StrUtil; MkImage
    calls Crc32; the mailbox keeps its received messages in a ring that is the ring of
    MpsBuffer with a fixed capacity, and reuses its theorems; MpsClient sends through
    Mailbox and takes its buffers from MpsBuffer; sec_api.c's part of Deu calls its drivers.

    ** What the theorems show

    Configuration.  [_token_set] on the linear array is [map_token_set] on a map from names
    to records.  From the state in which [main] starts, for every command line, user choice,
    licence and build host: command-line settings are final; the array keeps its names and types and
    priorities never drop; a run stops only for the listed reasons; the stored values have
    the types the printing needs, but for the listed options; enabled options stay enabled,
    but for the listed ones; the loop over the queued distributions ends; a package turns its
    modules on; what make and cpp read back from the files is what was decided, for values
    that are single lines without # and backslash.  The host
    configuration takes only Linux hosts; it selects one C library, the one asked for or the
    one of the tool chain; all the tools of the target are in one directory with one prefix.
    str_replace ends and replaces; str_trim stays in its buffer; str_wscmp ignores space.

    Images.  The table-driven checksum is the shift register of its polynomial and sees every
    change within four bytes; an image lists back with the header it was given; corrupted
    data is noticed; a multi-file image is read back, with four-byte longs.  Of a name the
    first 32 bytes are kept.

    The running system.  The rings are bounded first-in first-out queues, also when the two
    processors interleave access by access, and no call waits for the other; the loops over
    them end; the pools are well formed after every timer tick.  The four message FIFOs are
    four independent lists, whatever the lengths of the messages; every message reaches its
    callback, in order, while there is room and memory; a drained FIFO accepts.  Packets leave
    in the order in which they were given, each once; also when the call is interrupted by
    calls of its own kind, though not in order then, and not when the interrupt comes between
    the pointer stores of list_add_tail or list_del.  A back log drains; a question of one
    processor to the other returns the other's answer, whatever the turns of the two, when the
    callback flag was clear, and leaves FIFOs and flags ready for the next.  No sequence of
    ioctls touches a pin that a module has reserved, under another number than the ioctl's own.
    A transmit channel is a bounded queue: each buffer comes back once, in order, after its
    packet was sent; a receive channel delivers each frame once, in order, while there are
    buffers; no DMA interrupt is lost, and a pending channel is served in time.
    The interrupt registers are a set of lines, the dispatchers take the lowest; a byte
    written to a configuration register changes that byte.

    The encryption unit.  Both hash drivers compute the digest of the whole message, however
    it is cut; the keyed hashes are HMAC; the CBC functions are block chaining on whole blocks
    and decryption undoes encryption, whatever state the unit was in; the search for weak
    keys finds the sixteen there are.

    The switch.  Each operation changes the settings it is for, and the ones the source
    changes with them, and no other, though they share registers; the six numbers written to
    bandwidth_control become the limits; a protocol filter reads back as it was set; a weight
    that does not fit its field is written to another register.

    Several theorems state where the code fails: options whose rules contradict their
    declaration, the Cygwin hosts, str_mid, str_replace on an empty text, images built
    on hosts with eight-byte longs, the queue under an interrupt, queue and pool
    initialisation, messages published before they are copied, messages that survive a
    reset or are lost at a full queue, ports outside the map; for DMA, a frame reordered
    by a failed allocation, a channel that keeps the tasklet spinning, receive buffers
    freed twice, the number of MCTRL1's channel; a configuration word of ones; a packet
    reported as refused and sent, a list insertion or deletion interrupted by another
    insertion, the callback flag left set by an abandoned question; a pin reserved under the
    ioctl's number, and the watchdog's pet undone by a pin operation it interrupts; a digest computed
    while the unit serves somebody else, the room for an MD5 authenticator, refused keys that
    leave interrupts off, and messages that end inside a block; of the switch, limits taken
    away with the flag of the bandwidth control, and numbers that spill into an address.

    ** Bounds and fuel

    - [vsnprintf_4096] cuts texts at 4095 characters, as the buffer does.
    - [str_replace] has one turn per character of the text, str_replace_correct shows that
      it is enough; [str_count_str] and [str_wscmp] likewise.
    - [jpkg_fuel] bounds the passes over the queued distributions: main_exits holds whatever
      the fuel, and jpkg_loop_ends shows one pass per queued distribution is enough.
    - [free_fuel], [topup_fuel]: one turn per slot of the ring, shown to be enough.
    - [read_fuel] and [dispatch_fuel]: one turn for each two words of the largest FIFO, one
      for each slot of the ring; messages_delivered holds with them.
    - [bklog_loop] has one turn per packet; the loops over blocks of Deu one more turn than
      there are bytes, and digest_of_pieces, twinpass_aes_cbc and twinpass_des_cbc hold with
      them.
    - The handlers of the switch read at most [BUF] characters for a word, as the code does,
      and take a fixed number of words.
    - [reclaim_fuel]: one turn more than there are descriptors; write_queue holds with it.
    - Integers are [Z] with their wrap-around written out ([int32], [u32], registers of 32
      bits).  Memory is sequentially consistent: caches and barriers are not modelled.

    ** Parameters

    [enabled] stands for the licence engine's is_feature_enabled, [host] for the machine that
    builds (environment, answers of shell commands by their text, stat and lstat; popen is
    taken to succeed), [DANUBE_GPIO] for an
    address of the SoC, the lists [allocs] and [kmallocs] for what the kernel's allocators
    return; the callbacks of the mailbox are calls recorded with their message.  For DMA,
    [CPHYSADDR] and [va] translate addresses, [request_irq] grants interrupt lines, [client]
    is the intr_handler of a device: [quiet] says that it leaves the rings alone when told
    that one is full, [runs busy] that it returns and leaves the tasklet's variables alone;
    the controller's steps are [hw_sends] and [hw_receives], in the order of the ring; the
    receiving controller keeps a position of its own.
    [cfg_read] and [cfg_write] are the accesses of the PCI bus; a plain register ([plain])
    keeps what is written to it.  For the encryption unit, [hash_iv], [compress], [aes_step]
    and [des_step] are the functions its registers compute, and [chip_id] the version of the
    chip; [aes_cbc_unit] and [des_cbc_unit] say that a step in mode 1 is a step of cipher block
    chaining, [block_cipher] that decryption inverts encryption of a block.  The switch's
    registers ([mdio_acc]) keep what is written to them and have no state besides.

    ** Not modelled

    - device_config.c (compiled out), major_features.c, the small wrappers of pkg/build, and
      pkg/util but for str.c; of str.c, ftoa and strdup_log.
    - The text of mkimage's messages and its parsing of argv; opening and closing files.
    - Of the MPS driver: the character device (open, close, ioctl) and the /proc files of
      mps_tpe_linux.c, its receive functions that nobody calls and the functions on packet
      buffers of the other processor's image; the firmware download, the interrupt mitigation
      and the kernel threads (compiled out), the statistics of CONFIG_PROC_FS.
    - Of the encryption unit: the waits for its busy flags, powering it on, the branches of
      CONFIG_CRYPTO_DEV_DANUBE_DMA, and the CFB and OFB functions, which nobody calls.
    - Of the switch driver: the texts of its read handlers, the MAC table, the dispatch of the
      ioctls, the module's registration, the EEPROM mode and the waits for the busy flag.
    - The /proc files of port.c and dma-core.c, dma_cleanup, the rest of the board's set-up,
      the other network drivers, the USB and serial drivers,
      which are register-level hardware I/O; wireless modules; the Linux kernel and the
      third-party packages, which are not this product's code. *)
From Stdlib Require Export Ascii.
From stdpp Require Export base list strings gmap.
From Stdlib Require Export ZArith Lia.

#[global] Open Scope string_scope.
#[global] Open Scope Z_scope.

(** ** Tactics shared by all files *)

(** [destruct_match] splits on the innermost scrutinee in the goal or a hypothesis. *)
Ltac destruct_match :=
  match goal with
  | |- context [match ?x with _ => _ end] =>
      lazymatch x with context [match _ with _ => _ end] => fail | _ => destruct x eqn:? end
  | H : context [match ?x with _ => _ end] |- _ =>
      lazymatch x with context [match _ with _ => _ end] => fail | _ => destruct x eqn:? end
  end.

(** Turns boolean tests in the context into propositions. *)
Ltac bool_to_prop :=
  repeat match goal with
  | H : (_ =? _)%string = true |- _ => apply String.eqb_eq in H
  | H : (_ =? _)%string = false |- _ => apply String.eqb_neq in H
  | H : (_ =? _)%Z = true |- _ => apply Z.eqb_eq in H
  | H : (_ =? _)%Z = false |- _ => apply Z.eqb_neq in H
  | H : (_ <? _)%Z = true |- _ => apply Z.ltb_lt in H
  | H : (_ <? _)%Z = false |- _ => apply Z.ltb_ge in H
  | H : (_ <=? _)%Z = true |- _ => apply Z.leb_le in H
  | H : (_ <=? _)%Z = false |- _ => apply Z.leb_gt in H
  | H : negb _ = true |- _ => apply negb_true_iff in H
  | H : negb _ = false |- _ => apply negb_false_iff in H
  | H : _ && _ = true |- _ => apply andb_true_iff in H; destruct H
  | H : _ || _ = false |- _ => apply orb_false_iff in H; destruct H
  end.

(** ** C strings and integers *)

(** [(int)x]: the value of [x] as a 32-bit two's complement integer. *)
Definition int32 (z : Z) : Z := (z + 2 ^ 31) mod 2 ^ 32 - 2 ^ 31.

Lemma int32_range z : - 2 ^ 31 <= int32 z < 2 ^ 31.
Proof. unfold int32. pose proof (Z.mod_pos_bound (z + 2 ^ 31) (2 ^ 32)). lia. Qed.

Lemma int32_small z : - 2 ^ 31 <= z < 2 ^ 31 -> int32 z = z.
Proof. intros H. unfold int32. rewrite Z.mod_small; lia. Qed.

(** C truth: an [int] used as a condition. *)
Definition nz (z : Z) : bool := negb (z =? 0).

(** [a & b] used as a condition. *)
Definition has_flag (a b : Z) : bool := nz (Z.land a b).

(** [isxdigit], [isdigit] and [isspace] of the "C" locale. *)
Definition code (c : Ascii.ascii) : Z := Z.of_nat (Ascii.nat_of_ascii c).
Definition in_range (lo hi z : Z) : bool := (lo <=? z) && (z <=? hi).
Definition isdigit (c : Ascii.ascii) : bool := in_range 48 57 (code c).
Definition isxdigit (c : Ascii.ascii) : bool :=
  isdigit c || in_range 65 70 (code c) || in_range 97 102 (code c).
Definition isspace (c : Ascii.ascii) : bool := in_range 9 13 (code c) || (code c =? 32).

(** The value of a hexadecimal digit. *)
Definition digit_val (c : Ascii.ascii) : Z :=
  if isdigit c then code c - 48
  else if in_range 65 70 (code c) then code c - 55 else code c - 87.

(** [forallb] on the characters of a string. *)
Fixpoint all_chars (p : Ascii.ascii -> bool) (s : string) : bool :=
  match s with
  | EmptyString => true
  | String c s' => p c && all_chars p s'
  end.

(** The longest prefix of characters satisfying [p]. *)
Fixpoint span (p : Ascii.ascii -> bool) (s : string) : string * string :=
  match s with
  | EmptyString => (EmptyString, EmptyString)
  | String c s' =>
      if p c then let (a, b) := span p s' in (String c a, b) else (EmptyString, s)
  end.

Lemma span_app p s : s = (span p s).1 +:+ (span p s).2.
Proof.
  induction s as [|c s IH]; simpl; [done|].
  destruct (p c); simpl; [|done].
  destruct (span p s); simpl in *. by rewrite IH.
Qed.

Lemma span_all p s : all_chars p s = true -> span p s = (s, EmptyString).
Proof.
  induction s as [|c s IH]; simpl; [done|].
  intros H. bool_to_prop. rewrite H, IH; done.
Qed.

Lemma all_chars_app p s t : all_chars p (s +:+ t) = all_chars p s && all_chars p t.
Proof. induction s as [|c s IH]; simpl; [done|]. by rewrite IH, andb_assoc. Qed.

(** The number a string of base-[b] digits denotes, most significant digit first. *)
Fixpoint digits_val (b acc : Z) (s : string) : Z :=
  match s with
  | EmptyString => acc
  | String c s' => digits_val b (acc * b + digit_val c) s'
  end.

(** ** Binary tries keyed by strings

    A checking device, not a model of code: whether every name a program uses
    is in a table of two thousand names is decided by one evaluation of a
    boolean function over such a trie. *)
Module Trie.
Inductive t (A : Type) :=
| Leaf
| Node (v : option A) (l r : t A).
Arguments Leaf {A}.
Arguments Node {A} v l r.

Fixpoint path (s : string) : list bool :=
  match s with
  | EmptyString => []
  | String (Ascii a b c d e f g h) s' => a :: b :: c :: d :: e :: f :: g :: h :: path s'
  end.

Fixpoint find_path {A} (p : list bool) (m : t A) : option A :=
  match m with
  | Leaf => None
  | Node v l r =>
      match p with
      | [] => v
      | b :: p' => find_path p' (if b then r else l)
      end
  end.

Fixpoint insert_path {A} (p : list bool) (x : A) (m : t A) : t A :=
  let '(v, l, r) := match m with Leaf => (None, Leaf, Leaf) | Node v l r => (v, l, r) end in
  match p with
  | [] => Node (Some x) l r
  | b :: p' => if b then Node v l (insert_path p' x r) else Node v (insert_path p' x l) r
  end.

Definition find {A} (s : string) (m : t A) : option A := find_path (path s) m.
Definition insert {A} (s : string) (x : A) (m : t A) : t A := insert_path (path s) x m.
Definition of_list {A} (l : list (string * A)) : t A :=
  foldr (fun p m => insert p.1 p.2 m) Leaf l.

Lemma path_inj s s' : path s = path s' -> s = s'.
Proof.
  revert s'. induction s as [|[a b c d e f g h] s IH]; intros [|[a' b' c' d' e' f' g' h'] s'];
    simpl; try done.
  intros [= -> -> -> -> -> -> -> -> Hp]. f_equal. auto.
Qed.

Lemma find_path_insert_eq {A} p (x : A) m : find_path p (insert_path p x m) = Some x.
Proof.
  revert m. induction p as [|b p IH]; intros [|v l r]; simpl; [done..| |]; destruct b; apply IH.
Qed.

Lemma find_path_insert_ne {A} p q (x : A) m :
  p <> q -> find_path q (insert_path p x m) = find_path q m.
Proof.
  revert q m. induction p as [|b p IH]; intros [|b' q] [|v l r] Hne; simpl; try congruence;
    try destruct b; try destruct b'; simpl; try done; try (by destruct q);
    rewrite IH by congruence; by destruct q.
Qed.

Lemma find_of_list {A} (l : list (string * A)) s x :
  find s (of_list l) = Some x -> (s, x) ∈ l.
Proof.
  induction l as [|[k y] l IH]; simpl.
  { unfold find. by destruct (path s). }
  unfold find, insert. destruct (decide (path k = path s)) as [He|Hne].
  - rewrite He, find_path_insert_eq. apply path_inj in He. intros [= ->]. set_solver.
  - rewrite find_path_insert_ne by done. intros H. apply list_elem_of_further, IH, H.
Qed.

Lemma find_of_list_None {A} (l : list (string * A)) s :
  find s (of_list l) = None -> s ∉ l.*1.
Proof.
  induction l as [|[k y] l IH]; simpl; [set_solver|].
  unfold find, insert. destruct (decide (path k = path s)) as [He|Hne].
  - by rewrite He, find_path_insert_eq.
  - rewrite find_path_insert_ne by done. intros H. apply not_elem_of_cons. split; [|by apply IH].
    congruence.
Qed.

(** The first entry of a list for a key is the one the trie holds. *)
Lemma find_of_list_first {A} (l : list (string * A)) s :
  find s (of_list l) = snd <$> (list_find (fun p => p.1 = s) l ≫= fun p => Some p.2).
Proof.
  induction l as [|[k y] l IH]; simpl.
  { unfold find. by destruct (path s). }
  unfold find, insert. case_decide as Hk; simpl in *.
  - subst. by rewrite find_path_insert_eq.
  - rewrite find_path_insert_ne by (intros ?%path_inj; done).
    etrans; [apply IH|]. by destruct (list_find _ l) as [[]|].
Qed.

(** No key occurs twice. *)
Fixpoint distinct {A} (seen : t A) (l : list (string * A)) : bool :=
  match l with
  | [] => true
  | (k, x) :: l' =>
      match find k seen with
      | Some _ => false
      | None => distinct (insert k x seen) l'
      end
  end.

Lemma distinct_NoDup_aux {A} (l : list (string * A)) seen :
  distinct seen l = true -> NoDup l.*1 /\ forall k, k ∈ l.*1 -> find k seen = None.
Proof.
  revert seen. induction l as [|[k x] l IH]; intros seen; simpl.
  { intros _. split; [constructor | set_solver]. }
  destruct (find k seen) eqn:Ek; [done|]. intros [Hnd Hf]%IH.
  assert (Hk : k ∉ l.*1).
  { intros Hk. specialize (Hf _ Hk). unfold find, insert in Hf.
    by rewrite find_path_insert_eq in Hf. }
  split; [by constructor|]. intros k' [->|Hk']%elem_of_cons; [done|].
  specialize (Hf _ Hk'). unfold find, insert in Hf. rewrite find_path_insert_ne in Hf; [done|].
  intros ?%path_inj. by subst.
Qed.

Lemma distinct_NoDup {A} (l : list (string * A)) :
  distinct Leaf l = true -> NoDup l.*1.
Proof. intros H. by apply distinct_NoDup_aux in H as [? _]. Qed.
End Trie.
