(* ===== verification/Text.v ===== *)
(** * Text: lines, decimal numbers, splitting

    The text functions the printing files share, and the readers of the text
    they print (a makefile's and a C header's lines). *)
From S2P Require Import Prelude.

Definition nl : string := String "010" EmptyString.
Definition dquote : string := String "034" EmptyString.

(** ** [%d] *)
Definition digit_char (d : Z) : Ascii.ascii := Ascii.ascii_of_nat (Z.to_nat (48 + d)).

Fixpoint print_digits (fuel : nat) (n : Z) (acc : string) : string :=
  match fuel with
  | O => acc
  | S fuel' =>
      let acc' := String (digit_char (n mod 10)) acc in
      if n / 10 =? 0 then acc' else print_digits fuel' (n / 10) acc'
  end.
(** A number has at most as many decimal digits as binary ones. *)
Definition print_nat (n : Z) : string := print_digits (S (Z.to_nat (Z.log2 n))) n "".
Definition print_int (n : Z) : string :=
  if n <? 0 then String "-" (print_nat (- n)) else print_nat n.

(** ** Lines *)
Definition is_nl (c : Ascii.ascii) : bool := Ascii.eqb c "010".
Definition no_nl (s : string) : bool := all_chars (fun c => negb (is_nl c)) s.

(** The lines of a text; a last line without terminator counts. *)
Fixpoint lines (s : string) : list string :=
  match s with
  | EmptyString => []
  | String c s' =>
      if is_nl c then EmptyString :: lines s'
      else match lines s' with
           | [] => [String c EmptyString]
           | l :: ls => String c l :: ls
           end
  end.

(** ** Splitting *)
Fixpoint strip_prefix (p s : string) : option string :=
  match p, s with
  | EmptyString, _ => Some s
  | String a p', String b s' => if Ascii.eqb a b then strip_prefix p' s' else None
  | String _ _, EmptyString => None
  end.

(** [s] before and after the first [c]. *)
Definition split_at (c : Ascii.ascii) (s : string) : option (string * string) :=
  let (a, b) := span (fun x => negb (Ascii.eqb x c)) s in
  match b with String _ b' => Some (a, b') | EmptyString => None end.

(** ** Lemmas *)
#[global] Arguments String.append !s1 s2 / : simpl nomatch.

Lemma append_assoc (a b c : string) : (a +:+ b) +:+ c = a +:+ (b +:+ c).
Proof. induction a as [|x a IH]; [done|]. cbn. by rewrite IH. Qed.
Lemma append_nil_r (a : string) : a +:+ "" = a.
Proof. induction a as [|x a IH]; [done|]. cbn. by rewrite IH. Qed.
Lemma length_append (a b : string) :
  String.length (a +:+ b) = (String.length a + String.length b)%nat.
Proof. induction a as [|x a IH]; [done|]. cbn. by rewrite IH. Qed.

Lemma lines_line l r : no_nl l = true -> lines (l +:+ nl +:+ r) = l :: lines r.
Proof.
  induction l as [|c l IH]; [done|]. unfold no_nl. cbn [all_chars]. intros H. bool_to_prop.
  change (String c l +:+ nl +:+ r) with (String c (l +:+ nl +:+ r)). cbn [lines].
  rewrite H. by rewrite IH.
Qed.

Lemma strip_prefix_app p s : strip_prefix p (p +:+ s) = Some s.
Proof. induction p as [|c p IH]; [done|]. cbn. by rewrite Ascii.eqb_refl. Qed.

(** A prefix holding a character that [s] avoids is not found. *)
Lemma strip_prefix_avoid q p s :
  all_chars q s = true -> all_chars q p = false -> strip_prefix p s = None.
Proof.
  revert s. induction p as [|c p IH]; intros [|d s] Hs Hp; simpl in *; try done.
  destruct (Ascii.eqb c d) eqn:E; [|done]. apply Ascii.eqb_eq in E as ->. bool_to_prop.
  rewrite H in Hp. by apply IH.
Qed.

Lemma split_at_app c a b :
  all_chars (fun x => negb (Ascii.eqb x c)) a = true ->
  split_at c (a +:+ String c b) = Some (a, b).
Proof.
  unfold split_at. induction a as [|x a IH]; cbn.
  { by rewrite Ascii.eqb_refl. }
  intros H. bool_to_prop. rewrite H. simpl. specialize (IH H0).
  destruct (span _ (a +:+ String c b)) as [u [|? w]]; [done|]. by injection IH as -> ->.
Qed.

Lemma all_chars_impl (p q : Ascii.ascii -> bool) s :
  (forall c, p c = true -> q c = true) -> all_chars p s = true -> all_chars q s = true.
Proof.
  intros Hpq. induction s as [|c s IH]; simpl; [done|]. intros H. bool_to_prop.
  by rewrite Hpq, IH.
Qed.

Lemma no_nl_app a b : no_nl (a +:+ b) = no_nl a && no_nl b.
Proof. apply all_chars_app. Qed.

(** *** Decimal numbers *)
Lemma code_digit_char d : 0 <= d < 10 -> code (digit_char d) = 48 + d.
Proof.
  intros Hd. unfold code, digit_char. rewrite Ascii.nat_ascii_embedding by lia. lia.
Qed.
Lemma digit_char_spec d : 0 <= d < 10 ->
  isdigit (digit_char d) = true /\ digit_val (digit_char d) = d.
Proof.
  intros Hd. assert (Hi : isdigit (digit_char d) = true).
  { unfold isdigit, in_range. rewrite code_digit_char by done. apply andb_true_iff.
    rewrite !Z.leb_le. lia. }
  split; [done|]. unfold digit_val. rewrite Hi, code_digit_char by done. lia.
Qed.

Lemma print_digits_isdigit fuel n acc :
  all_chars isdigit acc = true -> all_chars isdigit (print_digits fuel n acc) = true.
Proof.
  revert n acc. induction fuel as [|fuel IH]; intros n acc Ha; simpl; [done|].
  assert (Hd : all_chars isdigit (String (digit_char (n mod 10)) acc) = true).
  { simpl. rewrite (proj1 (digit_char_spec (n mod 10) (Z.mod_pos_bound n 10 eq_refl))). done. }
  destruct (_ =? _); auto.
Qed.

(** The digits in front of [acc] denote [n]. *)
Lemma digits_val_print fuel n acc :
  0 <= n < 10 ^ Z.of_nat fuel -> (0 < fuel)%nat ->
  exists k, 0 <= k /\ forall x, digits_val 10 x (print_digits fuel n acc) =
                               digits_val 10 (x * 10 ^ k + n) acc.
Proof.
  revert n acc. induction fuel as [|fuel IH]; intros n acc Hn Hf; [lia|].
  cbn [print_digits].
  destruct (digit_char_spec (n mod 10)) as [_ Hv]; [by apply Z.mod_pos_bound|].
  pose proof (Z.div_mod n 10 ltac:(lia)) as Hdm. pose proof (Z.mod_pos_bound n 10 eq_refl).
  destruct (n / 10 =? 0) eqn:E; bool_to_prop.
  - exists 1. split; [lia|]. intros x. cbn [digits_val]. rewrite Hv. f_equal. lia.
  - rewrite Nat2Z.inj_succ, Z.pow_succ_r in Hn by lia.
    assert (0 < n / 10) by (pose proof (Z.div_pos n 10); lia).
    assert (n / 10 < 10 ^ Z.of_nat fuel) by (apply Z.div_lt_upper_bound; lia).
    destruct fuel as [|fuel]; [simpl in *; lia|].
    destruct (IH (n / 10) (String (digit_char (n mod 10)) acc)) as (k & Hk0 & Hk); [lia..|].
    exists (Z.succ k). split; [lia|]. intros x. rewrite Hk. cbn [digits_val]. rewrite Hv. f_equal.
    rewrite Z.pow_succ_r by done. lia.
Qed.

Lemma print_nat_isdigit n : all_chars isdigit (print_nat n) = true.
Proof. by apply print_digits_isdigit. Qed.

Lemma pow2_pow10 k : (2 ^ Z.of_nat k <= 10 ^ Z.of_nat k).
Proof. apply Z.pow_le_mono_l. lia. Qed.

Lemma print_nat_val n : 0 <= n -> digits_val 10 0 (print_nat n) = n.
Proof.
  intros Hn. unfold print_nat.
  destruct (digits_val_print (S (Z.to_nat (Z.log2 n))) n "") as (k & _ & Hk); [|lia|].
  - split; [done|]. eapply Z.lt_le_trans; [|apply pow2_pow10].
    rewrite Nat2Z.inj_succ, Z2Nat.id by apply Z.log2_nonneg.
    destruct (decide (n = 0)) as [->|]; [done|]. apply Z.log2_spec. lia.
  - rewrite Hk. simpl. lia.
Qed.

Lemma print_int_no_nl n : no_nl (print_int n) = true.
Proof.
  assert (H : no_nl (print_nat (Z.abs n)) = true).
  { eapply all_chars_impl; [|apply print_nat_isdigit]. intros c Hc.
    destruct (is_nl c) eqn:E; [|done]. apply Ascii.eqb_eq in E as ->. by vm_compute in Hc. }
  unfold print_int. destruct (n <? 0) eqn:E; bool_to_prop.
  - replace (- n) with (Z.abs n) by lia. exact H.
  - by replace n with (Z.abs n) at 1 by lia.
Qed.
