(* ===== verification/ConfigOpt.v ===== *)
(** * ConfigOpt: the option database of create_config

    The data of [pkg/build/config_opt.h] ([option_t], the [opt_type_t] flags,
    the [set_prio_t] priorities), the error-state monad in which the
    configuration programs run, and the operations of
    [pkg/build/feature_config.c] on the option array: lookup, [_token_set]
    with its priorities, the typed getters.  The theorems give the exact effect
    of [_token_set], the invariants every configuration step keeps (the shape
    of the array, the priority of an option never drops, an option set on the
    command line is final), and the refinement of the linear array by a finite
    map from option names to records. *)
From S2P Require Import Prelude.

(** ** opt_type_t: bit flags *)
Definition OPT_NONE : Z := 0.
Definition OPT_MODULE_EXPAND : Z := 0x1.
Definition OPT_STATIC_ON_DEVELOP : Z := 0x2.
Definition OPT_NOSTRIP : Z := 0x4.
Definition OPT_MAJOR_FEATURE : Z := 0x8.
Definition OPT_STRIP_ON_Y : Z := 0x10.
Definition OPT_THEME : Z := 0x20.
Definition OPT_MODULE : Z := 0x40.
Definition OPT_HARDWARE : Z := 0x80.
Definition OPT_H : Z := 0x100.
Definition OPT_HC : Z := 0x200.
Definition OPT_MK : Z := 0x400.
Definition OPT_INT : Z := 0x800.
Definition OPT_STR : Z := 0x1000.
Definition OPT_C_STR : Z := 0x2000.
Definition OPT_NUMBER : Z := 0x4000.
Definition OPT_EXPORT : Z := 0x8000.

(** ** set_prio_t *)
Definition SET_PRIO_INIT : Z := 1.
Definition SET_PRIO_TOKEN_SET_DEFAULT : Z := 2.
Definition SET_PRIO_TOKEN_SET : Z := 3.
Definition SET_PRIO_CMD_LINE : Z := 4.

(** ** option_t.  A NULL [char *] is [None]; [otype] is the field [type].  An
    option array is the list of its entries before the NULL-token terminator. *)
Record option_t := mk_option {
  token : string;
  value : option string;
  otype : Z;
  description : option string;
  file : option string;
  line : Z;
  set_prio : Z }.

(** The assignments [opt->file = file; opt->line = line; opt->value = ...;
    opt->set_prio = ...]. *)
Definition option_assign (o : option_t) (f : string) (l : Z) (v : string) (p : Z) : option_t :=
  mk_option (token o) (Some v) (otype o) (description o) (Some f) l p.

(** ** The state the configuration program mutates *)

(** Messages the program prints on stderr without stopping. *)
Inductive diag :=
| Replacing (tok old new : string)
| EnablingUnlicensed (name : string)
| DisablingUnlicensed (name : string).

(** The globals of create_config.c.  [jpkg_dists] is the linked list of
    [jpkg_dist_t], a name and an option array each. *)
Record cfg := mk_cfg {
  openrg_config_options : list option_t;
  hw : option string;
  os : string;
  dist : option string;
  is_evaluation : bool;
  jpkg_dists : list (string * list option_t);
  stderr_log : list diag }.

Definition set_options (s : cfg) (a : list option_t) : cfg :=
  mk_cfg a (hw s) (os s) (dist s) (is_evaluation s) (jpkg_dists s) (stderr_log s).
Definition log_diag (d : diag) (s : cfg) : cfg :=
  mk_cfg (openrg_config_options s) (hw s) (os s) (dist s) (is_evaluation s) (jpkg_dists s)
    (stderr_log s ++ [d])%list.

(** Why the program stops before its end: one constructor per [conf_err] or
    [exit] site, and [Undefined] for an execution with no defined behaviour
    (a NULL handed to [strcmp], a buffer overrun, a [printf] directive with no
    argument). *)
Inductive exit_reason :=
| NoSuchOption (tok : string)
| NoSuchHw (hw : string)                         (** no such name in [openrg_hw_options] *)
| ValueTooLong (tok : string)
| NotModuleExpand (tok : string)
| StringAsInteger (tok : string)
| FailedDependency (dependent tok : string)
| IncorrectMTD
| NoDist
| InvalidDist (d : string)
| NoHwDescription (h : string)
| Eth2AndWan
| NotLegal (name : string)
| NoHw
| NoLicense (name : string)
| InternalOption (tok : string)
| NotNumeric (tok : string)
| NotYN (tok : string)
| NotYMN (tok : string)
| Duplicated (tok : string)
| HostErr (msg : string)
| Undefined (why : string).

(** ** The monad: state passing with early exit *)
Inductive res (A : Type) :=
| Ok (a : A) (s : cfg)
| Exit (e : exit_reason) (s : cfg).
Arguments Ok {A} a s.
Arguments Exit {A} e s.

Definition M (A : Type) : Type := cfg -> res A.

Definition ret {A} (a : A) : M A := fun s => Ok a s.
Definition bind {A B} (m : M A) (k : A -> M B) : M B := fun s =>
  match m s with
  | Ok a s' => k a s'
  | Exit e s' => Exit e s'
  end.
Definition conf_err {A} (e : exit_reason) : M A := fun s => Exit e s.
Definition get : M cfg := fun s => Ok s s.
Definition put (s : cfg) : M unit := fun _ => Ok tt s.

Declare Scope cfg_scope.
Delimit Scope cfg_scope with cfg.
Bind Scope cfg_scope with M.
Notation "x <- m ;; k" := (bind m (fun x => k))
  (at level 100, m at next level, right associativity) : cfg_scope.
Notation "m1 ;;; m2" := (bind m1 (fun _ => m2))
  (at level 100, right associativity) : cfg_scope.
#[global] Open Scope cfg_scope.

(** Final state and outcome of a run. *)
Definition final {A} (r : res A) : cfg := match r with Ok _ s => s | Exit _ s => s end.
Definition outcome {A} (r : res A) : option exit_reason :=
  match r with Ok _ _ => None | Exit e _ => Some e end.

(** ** Looking options up *)

(** [for (i = 0; array[i].token && strcmp(array[i].token, token); i++);
     return array[i].token ? array+i : NULL;]
    The returned pointer is the index of the entry. *)
Fixpoint option_token_get_nofail (array : list option_t) (tok : string) : option nat :=
  match array with
  | [] => None
  | o :: array' =>
      if (token o =? tok)%string then Some 0%nat
      else S <$> option_token_get_nofail array' tok
  end.

(** The entry a pointer returned by [option_token_get] designates. *)
Definition option_token_get (tok : string) : M (nat * option_t) := fun s =>
  match option_token_get_nofail (openrg_config_options s) tok with
  | Some i =>
      match openrg_config_options s !! i with
      | Some o => Ok (i, o) s
      | None => Exit (NoSuchOption tok) s
      end
  | None => Exit (NoSuchOption tok) s
  end.

Definition token_get_str (tok : string) : M (option string) :=
  p <- option_token_get tok;; ret (value p.2).

Definition token_getz (tok : string) : M string :=
  v <- token_get_str tok;; ret (default "" v).

Definition token_is_y (tok : string) : M Z :=
  v <- token_get_str tok;;
  ret (match v with None => 0 | Some val => if (val =? "y")%string then 1 else 0 end).

(** ** Numbers *)

(** [val[0]=='0' && val[1]=='x'] and the rest. *)
Definition hex_prefix (val : string) : option string :=
  match val with
  | String c0 (String c1 rest) =>
      if Ascii.eqb c0 "0" && Ascii.eqb c1 "x" then Some rest else None
  | _ => None
  end.

(** The loop [for (i=0; val[i] && isxdigit(val[i]); i++); return i>0 && !val[i];] *)
Definition only_xdigits (val : string) : bool :=
  let (run, rest) := span isxdigit val in
  negb (run =? "")%string && (rest =? "")%string.

Definition str_is_number_value (val : string) : bool :=
  if (val =? "")%string then true
  else match hex_prefix val with
       | Some rest => only_xdigits rest
       | None => only_xdigits val
       end.

(** [sscanf(val, "%d", &i)] and [sscanf(val, "%x", &i)]: white space, an
    optional sign, digits (for [%x] after an optional [0x]); [i] keeps its
    initial 0 when no digit matches.  The conversion saturates at the 64-bit
    [long] limits and the result is stored in an [int]. *)
Definition skip_space (s : string) : string := (span isspace s).2.

Definition split_sign (s : string) : Z * string :=
  match s with
  | String c r =>
      if Ascii.eqb c "-" then (-1, r)
      else if Ascii.eqb c "+" then (1, r) else (1, s)
  | EmptyString => (1, s)
  end.

Definition clamp64 (z : Z) : Z := Z.max (- 2 ^ 63) (Z.min z (2 ^ 63 - 1)).

Definition sscanf_d (val : string) : Z :=
  let (sg, r) := split_sign (skip_space val) in
  let (ds, _) := span isdigit r in
  if (ds =? "")%string then 0 else int32 (clamp64 (sg * digits_val 10 0 ds)).

Definition sscanf_x (val : string) : Z :=
  let (sg, r) := split_sign (skip_space val) in
  let r' := match hex_prefix r with Some t => t | None => r end in
  let (ds, _) := span isxdigit r' in
  if (ds =? "")%string then 0
  else int32 (sg * Z.min (digits_val 16 0 ds) (2 ^ 64 - 1)).

Definition str_to_number (val : string) : Z :=
  if (val =? "")%string then 0
  else match hex_prefix val with
       | Some _ => sscanf_x val
       | None => sscanf_d val
       end.

(** [!strcmp(val, "y") || !strcmp(val, "m")] *)
Definition is_y_m (val : string) : bool := (val =? "y")%string || (val =? "m")%string.

Definition token_get (tok : string) : M Z :=
  p <- option_token_get tok;;
  let o := p.2 in
  if has_flag (otype o) (Z.lor OPT_STR OPT_C_STR) then conf_err (StringAsInteger tok)
  else
    v <- token_get_str tok;;
    match v with
    | None => ret 0
    | Some val =>
        if has_flag (otype o) OPT_NUMBER then ret (str_to_number val)
        else ret (if is_y_m val then 1 else 0)
    end.

(** ** Formatting *)

(** [vsnprintf] for formats whose directives are [%s] and [%%]; a NULL string
    argument prints as [(null)]; [None] when a directive has no argument or is
    another one. *)
Fixpoint format (fmt : string) (args : list (option string)) : option string :=
  match fmt with
  | EmptyString => Some EmptyString
  | String c fmt' =>
      if Ascii.eqb c "%" then
        match fmt' with
        | String d fmt'' =>
            if Ascii.eqb d "s" then
              match args with
              | a :: args' => String.append (default "(null)" a) <$> format fmt'' args'
              | [] => None
              end
            else if Ascii.eqb d "%" then String "%" <$> format fmt'' args
            else None
        | EmptyString => None
        end
      else String c <$> format fmt' args
  end.

(** ** Setting an option *)

(** [char value[4096]; vsnprintf(value, sizeof(value), value_, ap)] *)
Definition vsnprintf_4096 (fmt : string) (args : list (option string)) : M string :=
  match format fmt args with
  | Some v => ret (String.substring 0 4095 v)
  | None => conf_err (Undefined "format")
  end.

(** [if (!strcmp(value, "m")) { ... }]: the module checks.  [!opt->type &
    OPT_MODULE_EXPAND] parses as [(!opt->type) & OPT_MODULE_EXPAND]. *)
Definition module_value (tok : string) (o : option_t) (v : string) : M string :=
  if (v =? "m")%string then
    if has_flag (if otype o =? 0 then 1 else 0) OPT_MODULE_EXPAND
    then conf_err (NotModuleExpand tok)
    else if has_flag (otype o) OPT_STATIC_ON_DEVELOP then
      dev <- token_get "CONFIG_RG_DEV";;
      ret (if nz dev then "y" else v)
    else ret v
  else ret v.

(** The "Replacing ..." warning. *)
Definition replace_warning (prio : Z) (tok : string) (o : option_t) (v : string) : M unit :=
  match value o with
  | Some old =>
      if (prio =? set_prio o) && negb (old =? v)%string
      then fun s => Ok tt (log_diag (Replacing tok old v) s)
      else ret tt
  | None => ret tt
  end.

(** [opt->... = ...] through the pointer. *)
Definition option_store (i : nat) (o : option_t) : M unit := fun s =>
  Ok tt (set_options s (<[i := o]> (openrg_config_options s))).

Definition _token_set (f : string) (l : Z) (prio : Z) (tok fmt : string)
    (args : list (option string)) : M unit :=
  v <- vsnprintf_4096 fmt args;;
  if (4094 <? Z.of_nat (String.length v)) then conf_err (ValueTooLong tok) else
  p <- option_token_get tok;;
  let '(i, o) := p in
  if prio <? set_prio o then ret tt else
  v' <- module_value tok o v;;
  replace_warning prio tok o v';;;
  option_store i (option_assign o f l v' prio).

Definition _token_set_y (f : string) (l : Z) (tok : string) : M unit :=
  _token_set f l SET_PRIO_TOKEN_SET tok "y" [].

Definition _token_set_m (f : string) (l : Z) (tok : string) : M unit :=
  v <- token_get "CONFIG_RG_OS_VXWORKS";;
  if nz v then _token_set f l SET_PRIO_TOKEN_SET tok "y" []
  else _token_set f l SET_PRIO_TOKEN_SET tok "m" [].

(** [__FILE__] in feature_config.c, without the directory the build passes. *)
Definition FEATURE_CONFIG_C : string := "feature_config.c".

Definition _set_big_endian (f : string) (l : Z) (is_big : bool) : M unit :=
  (if is_big then _token_set_y FEATURE_CONFIG_C 98 "CONFIG_CPU_BIG_ENDIAN"
   else _token_set_y FEATURE_CONFIG_C 100 "CONFIG_CPU_LITTLE_ENDIAN");;;
  _token_set f l SET_PRIO_TOKEN_SET "TARGET_ENDIANESS" (if is_big then "BIG" else "LITTLE") [].

(** ** Lemmas on the monad *)
Lemma bind_assoc {A B C} (m : M A) (f : A -> M B) (g : B -> M C) s :
  bind (bind m f) g s = bind m (fun x => bind (f x) g) s.
Proof. unfold bind. by destruct (m s). Qed.

Lemma bind_ret_l {A B} (a : A) (k : A -> M B) s : bind (ret a) k s = k a s.
Proof. done. Qed.

(** ** Lemmas on lookup *)

(** The record found for a name. *)
Definition lookup_option (a : list option_t) (tok : string) : option option_t :=
  i ← option_token_get_nofail a tok; a !! i.

(** What a reader of the array may rely on: the names, the types and the
    descriptions, in order; nothing in the program changes them. *)
Definition shape (a : list option_t) : list (string * Z * option string) :=
  (fun o => (token o, otype o, description o)) <$> a.

Lemma nofail_Some a tok i :
  option_token_get_nofail a tok = Some i ->
  exists o, a !! i = Some o /\ token o = tok.
Proof.
  revert i. induction a as [|o a IH]; intros i; simpl; [done|].
  destruct (token o =? tok)%string eqn:E.
  - intros [= <-]. bool_to_prop. by exists o.
  - destruct (option_token_get_nofail a tok) as [j|]; simpl; [|done].
    intros [= <-]. destruct (IH j eq_refl) as (o' & ? & ?). by exists o'.
Qed.

Lemma nofail_None a tok :
  option_token_get_nofail a tok = None <-> tok ∉ (token <$> a).
Proof.
  induction a as [|o a IH]; simpl.
  { split; [set_solver | done]. }
  rewrite not_elem_of_cons. destruct (token o =? tok)%string eqn:E; bool_to_prop.
  - split; [done|]. intros [? _]; congruence.
  - rewrite fmap_None, IH. naive_solver.
Qed.

Lemma lookup_option_Some a tok i :
  option_token_get_nofail a tok = Some i ->
  exists o, a !! i = Some o /\ token o = tok /\ lookup_option a tok = Some o.
Proof.
  intros H. destruct (nofail_Some _ _ _ H) as (o & Ho & ?).
  exists o. unfold lookup_option. rewrite H. by repeat split.
Qed.

Lemma lookup_option_None a tok :
  option_token_get_nofail a tok = None <-> lookup_option a tok = None.
Proof.
  unfold lookup_option. destruct (option_token_get_nofail a tok) eqn:E; [|done].
  destruct (nofail_Some _ _ _ E) as (o & Ho & _). simpl. by rewrite Ho.
Qed.

Lemma lookup_option_token a tok o : lookup_option a tok = Some o -> token o = tok.
Proof.
  unfold lookup_option. destruct (option_token_get_nofail a tok) eqn:E; [|done].
  destruct (nofail_Some _ _ _ E) as (o' & Ho & ?). simpl. rewrite Ho. congruence.
Qed.

Lemma option_token_get_eq tok s :
  option_token_get tok s =
    match option_token_get_nofail (openrg_config_options s) tok,
          lookup_option (openrg_config_options s) tok with
    | Some i, Some o => Ok (i, o) s
    | _, _ => Exit (NoSuchOption tok) s
    end.
Proof.
  unfold option_token_get, lookup_option.
  destruct (option_token_get_nofail _ tok) eqn:E; simpl; [|done].
  by destruct (_ !! _).
Qed.

(** The first match in an array and in an array of the same names agree. *)
Lemma nofail_tokens a b tok :
  (token <$> a) = (token <$> b) ->
  option_token_get_nofail a tok = option_token_get_nofail b tok.
Proof.
  revert b. induction a as [|o a IH]; intros [|o' b]; simpl; [done..|].
  intros [= Ht Hr]. rewrite Ht, (IH b Hr). done.
Qed.

Lemma shape_tokens a b : shape a = shape b -> (token <$> a) = (token <$> b).
Proof.
  unfold shape. revert b. induction a as [|o a IH]; intros [|o' b]; simpl; [done..|].
  intros [= ? ? ? ?]. f_equal; auto.
Qed.

Lemma shape_lookup a b i o :
  shape a = shape b -> a !! i = Some o ->
  exists o', b !! i = Some o' /\ token o' = token o /\ otype o' = otype o.
Proof.
  intros Hs Ho. assert (H : shape a !! i = shape b !! i) by by rewrite Hs.
  unfold shape in H. rewrite !list_lookup_fmap, Ho in H. simpl in H.
  destruct (b !! i) as [o'|]; [|done]. injection H as ? ? ?. by exists o'.
Qed.

(** Writing through the pointer of an existing entry, keeping its name, type
    and description. *)
Lemma shape_insert a i o o' :
  a !! i = Some o -> token o' = token o -> otype o' = otype o ->
  description o' = description o -> shape (<[i := o']> a) = shape a.
Proof.
  intros Ho Ht Hty Hd. unfold shape. rewrite list_fmap_insert.
  apply list_insert_id. rewrite list_lookup_fmap, Ho. simpl. congruence.
Qed.

Lemma nofail_insert a i o o' tok :
  a !! i = Some o -> token o' = token o ->
  option_token_get_nofail (<[i := o']> a) tok = option_token_get_nofail a tok.
Proof.
  intros Ho Ht. apply nofail_tokens. rewrite list_fmap_insert.
  apply list_insert_id. rewrite list_lookup_fmap, Ho. simpl. congruence.
Qed.

(** ** The effect of [_token_set] *)

(** The value stored when the text [v] is given to an option [o]: [v] itself,
    or "y" in place of "m" for an option linked statically on development
    builds. *)
Definition stored_value (o : option_t) (v v' : string) : Prop :=
  v' = v \/ (v = "m" /\ v' = "y" /\ has_flag (otype o) OPT_STATIC_ON_DEVELOP = true).

(** A state [s'] that differs from [s] in entry [i] of the array and in the
    messages printed. *)
Definition written (s : cfg) (i : nat) (o : option_t) (s' : cfg) : Prop :=
  openrg_config_options s' = <[i := o]> (openrg_config_options s) /\
  hw s' = hw s /\ os s' = os s /\ dist s' = dist s /\ is_evaluation s' = is_evaluation s /\
  jpkg_dists s' = jpkg_dists s.

(** The ways [_token_set] can stop. *)
Inductive set_error (s : cfg) (tok fmt : string) (args : list (option string)) : exit_reason -> Prop :=
| err_format : format fmt args = None -> set_error s tok fmt args (Undefined "format")
| err_long v : format fmt args = Some v -> (4094 < String.length v)%nat ->
    set_error s tok fmt args (ValueTooLong tok)
| err_unknown : lookup_option (openrg_config_options s) tok = None ->
    set_error s tok fmt args (NoSuchOption tok)
| err_module o : lookup_option (openrg_config_options s) tok = Some o ->
    otype o = 0 -> format fmt args = Some "m" -> set_error s tok fmt args (NotModuleExpand tok)
| err_dev e s' : format fmt args = Some "m" -> token_get "CONFIG_RG_DEV" s = Exit e s' ->
    set_error s tok fmt args e.

Lemma option_token_get_pure tok s : final (option_token_get tok s) = s.
Proof. rewrite option_token_get_eq. by repeat destruct_match. Qed.

Lemma token_get_str_eq tok s :
  token_get_str tok s =
    match lookup_option (openrg_config_options s) tok with
    | Some o => Ok (value o) s
    | None => Exit (NoSuchOption tok) s
    end.
Proof.
  unfold token_get_str, bind. rewrite option_token_get_eq.
  destruct (option_token_get_nofail _ tok) eqn:E.
  - destruct (lookup_option_Some _ _ _ E) as (o & _ & _ & ->). done.
  - by rewrite (proj1 (lookup_option_None _ _) E).
Qed.

(** The integer reading of an option, when its type allows one. *)
Definition int_value (o : option_t) : Z :=
  match value o with
  | None => 0
  | Some v => if has_flag (otype o) OPT_NUMBER then str_to_number v
              else if is_y_m v then 1 else 0
  end.

Lemma token_get_eq tok s :
  token_get tok s =
    match lookup_option (openrg_config_options s) tok with
    | None => Exit (NoSuchOption tok) s
    | Some o =>
        if has_flag (otype o) (Z.lor OPT_STR OPT_C_STR)
        then Exit (StringAsInteger tok) s else Ok (int_value o) s
    end.
Proof.
  unfold token_get, bind at 1. rewrite option_token_get_eq.
  destruct (option_token_get_nofail _ tok) eqn:E; [|by rewrite (proj1 (lookup_option_None _ _) E)].
  destruct (lookup_option_Some _ _ _ E) as (o & _ & _ & Ho). rewrite Ho. simpl.
  destruct (has_flag _ (Z.lor _ _)); [done|].
  unfold bind. rewrite token_get_str_eq, Ho. unfold int_value.
  by repeat destruct_match.
Qed.

Lemma module_value_cases tok o v s :
  (exists v', module_value tok o v s = Ok v' s /\ stored_value o v v') \/
  (otype o = 0 /\ v = "m" /\ module_value tok o v s = Exit (NotModuleExpand tok) s) \/
  (exists e, v = "m" /\ module_value tok o v s = Exit e s /\ token_get "CONFIG_RG_DEV" s = Exit e s).
Proof.
  unfold module_value.
  destruct (v =? "m")%string eqn:Ev; [|left; exists v; split; [done | by left]].
  bool_to_prop. subst v.
  destruct (otype o =? 0) eqn:Eo; simpl; bool_to_prop; [by right; left|].
  destruct (has_flag (otype o) OPT_STATIC_ON_DEVELOP) eqn:Es;
    [|left; exists "m"; split; [done | by left]].
  unfold bind. rewrite token_get_eq.
  destruct (lookup_option _ _) as [d|]; [|by right; right; eauto].
  destruct (has_flag (otype d) _); [by right; right; eauto|].
  left. eexists. split; [done|]. destruct (nz _); [right | left]; done.
Qed.

Lemma length_substring_0 n v :
  String.length (String.substring 0 n v) = (n `min` String.length v)%nat.
Proof.
  revert n. induction v as [|c v IH]; intros [|n]; simpl; [done..|]. by rewrite IH.
Qed.

Lemma substring_0_all n v : (String.length v <= n)%nat -> String.substring 0 n v = v.
Proof.
  revert n. induction v as [|c v IH]; intros [|n]; simpl; intros Hl; [done..|lia|].
  f_equal. apply IH. lia.
Qed.

(** The complete case analysis of [_token_set]. *)
Lemma token_set_cases f l prio tok fmt args s :
  (exists e, _token_set f l prio tok fmt args s = Exit e s /\ set_error s tok fmt args e) \/
  (exists o, lookup_option (openrg_config_options s) tok = Some o /\ prio < set_prio o /\
     _token_set f l prio tok fmt args s = Ok tt s) \/
  (exists i o v v' s',
     option_token_get_nofail (openrg_config_options s) tok = Some i /\
     openrg_config_options s !! i = Some o /\ token o = tok /\
     lookup_option (openrg_config_options s) tok = Some o /\ set_prio o <= prio /\
     format fmt args = Some v /\ (String.length v <= 4094)%nat /\ stored_value o v v' /\
     _token_set f l prio tok fmt args s = Ok tt s' /\
     written s i (option_assign o f l v' prio) s').
Proof.
  unfold _token_set, vsnprintf_4096, bind.
  destruct (format fmt args) as [v|] eqn:Ef; simpl; [|left; eauto using err_format].
  rewrite length_substring_0.
  destruct (4094 <? _) eqn:El; bool_to_prop.
  { left. eexists. split; [done|]. eapply err_long; [done|lia]. }
  rewrite substring_0_all by lia. rewrite option_token_get_eq.
  destruct (option_token_get_nofail _ tok) as [i|] eqn:Ei.
  2:{ left. eexists. split; [done|]. by apply err_unknown, lookup_option_None. }
  destruct (lookup_option_Some _ _ _ Ei) as (o & Ho & Ht & Hl). rewrite Hl.
  destruct (prio <? set_prio o) eqn:Ep; bool_to_prop; [right; left; eauto|].
  destruct (module_value_cases tok o v s) as [(v' & -> & Hv)|[(? & -> & ->)|(e & -> & -> & He)]].
  2:{ left. eexists. split; [done|]. eapply err_module; eauto. }
  2:{ left. eexists. split; [done|]. eapply err_dev; eauto. }
  right; right. unfold replace_warning, option_store.
  destruct (value o) as [old|];
    [destruct ((prio =? set_prio o) && negb (old =? v')%string)|];
    (eexists i, o, v, v', _; do 4 (split; [done|]);
     repeat split; try done; simpl; lia).
Qed.

(** ** A program logic for configuration steps

    [triple I R E m]: from a state satisfying [I], the step [m] returns in a
    state satisfying [I] and related to the first by [R], or exits with a
    reason in [E], in a state still related by [R]. *)
Definition triple (I : cfg -> Prop) (R : cfg -> cfg -> Prop) (E : exit_reason -> Prop)
    {A} (m : M A) : Prop :=
  forall s, I s ->
    match m s with
    | Ok _ s' => I s' /\ R s s'
    | Exit e s' => E e /\ R s s'
    end.

Section Triple.
Context (I : cfg -> Prop) (R : cfg -> cfg -> Prop) (E : exit_reason -> Prop).
Context `{!PreOrder R}.

Lemma triple_ret {A} (a : A) : triple I R E (ret a).
Proof. intros s Hs. by split. Qed.

Lemma triple_bind {A B} (m : M A) (k : A -> M B) :
  triple I R E m -> (forall a, triple I R E (k a)) -> triple I R E (bind m k).
Proof.
  intros Hm Hk s Hs. unfold bind. specialize (Hm s Hs).
  destruct (m s) as [a s1|e s1]; [|done]. destruct Hm as [HI HR].
  specialize (Hk a s1 HI). destruct (k a s1); destruct Hk; split; try done;
    by etrans.
Qed.

Lemma triple_conf_err {A} e : E e -> triple I R E (@conf_err A e).
Proof. intros He s Hs. by split. Qed.

(** A step that reads the state only. *)
Lemma triple_pure {A} (m : M A) :
  (forall s, I s -> final (m s) = s /\ from_option E True (outcome (m s))) ->
  triple I R E m.
Proof.
  intros H s Hs. destruct (H s Hs) as [Hf Ho].
  destruct (m s); simpl in *; subst; by split.
Qed.
End Triple.

Lemma triple_weaken (I : cfg -> Prop) (R R' : cfg -> cfg -> Prop) (E E' : exit_reason -> Prop)
    {A} (m : M A) :
  triple I R E m -> (forall s s', R s s' -> R' s s') -> (forall e, E e -> E' e) ->
  triple I R' E' m.
Proof. intros H HR HE s Hs. specialize (H s Hs). destruct (m s); naive_solver. Qed.

(** ** Refinement: the array as a finite map

    The program addresses options by name only (the array order matters to the
    printing loops alone), so the abstract state is a map from names to
    records. *)
Definition abs (a : list option_t) : gmap string option_t :=
  list_to_map ((fun o => (token o, o)) <$> a).

Lemma abs_lookup a tok : abs a !! tok = lookup_option a tok.
Proof.
  unfold abs, lookup_option. induction a as [|o a IH]; simpl; [done|].
  destruct (token o =? tok)%string eqn:E; bool_to_prop.
  - subst tok. by rewrite lookup_insert_eq.
  - rewrite lookup_insert_ne by done. etrans; [apply IH|].
    by destruct (option_token_get_nofail a tok).
Qed.

Lemma lookup_option_insert a i o o' tok :
  option_token_get_nofail a (token o) = Some i -> a !! i = Some o -> token o' = token o ->
  lookup_option (<[i := o']> a) tok =
    if decide (token o = tok) then Some o' else lookup_option a tok.
Proof.
  intros Hi Ho Ht. unfold lookup_option. rewrite (nofail_insert a i o o' tok Ho Ht).
  destruct (decide (token o = tok)) as [<-|Hne].
  - rewrite Hi. simpl. apply list_lookup_insert_eq. by apply lookup_lt_Some in Ho.
  - destruct (option_token_get_nofail a tok) as [j|] eqn:Ej; simpl; [|done].
    rewrite list_lookup_insert_ne; [done|]. intros <-.
    destruct (nofail_Some _ _ _ Ej) as (o2 & Ho2 & Ht2). congruence.
Qed.

Lemma abs_insert a i o o' :
  option_token_get_nofail a (token o) = Some i -> a !! i = Some o -> token o' = token o ->
  abs (<[i := o']> a) = <[token o := o']> (abs a).
Proof.
  intros Hi Ho Ht. apply map_eq. intros tok.
  rewrite abs_lookup, (lookup_option_insert a i o o' tok Hi Ho Ht), lookup_insert.
  by rewrite abs_lookup.
Qed.

(** The abstract operation: give option [tok] the text [v] with priority
    [prio].  [inr] is the reason the program stops. *)
Definition map_token_get (m : gmap string option_t) (tok : string) : Z + exit_reason :=
  match m !! tok with
  | None => inr (NoSuchOption tok)
  | Some o => if has_flag (otype o) (Z.lor OPT_STR OPT_C_STR) then inr (StringAsInteger tok)
              else inl (int_value o)
  end.

Definition map_token_set (f : string) (l prio : Z) (tok v : string) (m : gmap string option_t)
    : gmap string option_t + exit_reason :=
  if (4094 <? Z.of_nat (String.length v)) then inr (ValueTooLong tok) else
  match m !! tok with
  | None => inr (NoSuchOption tok)
  | Some o =>
      if prio <? set_prio o then inl m
      else if negb (v =? "m")%string then inl (<[tok := option_assign o f l v prio]> m)
      else if otype o =? 0 then inr (NotModuleExpand tok)
      else if negb (has_flag (otype o) OPT_STATIC_ON_DEVELOP)
           then inl (<[tok := option_assign o f l v prio]> m)
      else match map_token_get m "CONFIG_RG_DEV" with
           | inr e => inr e
           | inl d => inl (<[tok := option_assign o f l (if nz d then "y" else v) prio]> m)
           end
  end.

(** What a run on the array says about the map. *)
Definition map_result (r : res unit) : gmap string option_t + exit_reason :=
  match r with
  | Ok _ s => inl (abs (openrg_config_options s))
  | Exit e _ => inr e
  end.

Lemma map_token_get_eq tok s :
  map_token_get (abs (openrg_config_options s)) tok =
  match token_get tok s with Ok v _ => inl v | Exit e _ => inr e end.
Proof.
  unfold map_token_get. rewrite abs_lookup, token_get_eq. by repeat destruct_match.
Qed.

Lemma option_store_abs tok i o o' w v s :
  option_token_get_nofail (openrg_config_options s) tok = Some i ->
  openrg_config_options s !! i = Some o -> token o = tok -> token o' = tok ->
  map_result ((replace_warning w tok o v;;; option_store i o') s) =
  inl (<[tok := o']> (abs (openrg_config_options s))).
Proof.
  intros Hi Ho <- Ht.
  transitivity (@inl _ exit_reason (abs (<[i := o']> (openrg_config_options s)))).
  - unfold replace_warning, option_store, bind.
    destruct (value o) as [old|]; [|done]. by destruct (_ && _).
  - by rewrite (abs_insert _ i o o' Hi Ho Ht).
Qed.

Lemma module_value_map tok o v s (k : string -> M unit) :
  map_result (bind (module_value tok o v) k s) =
  if negb (v =? "m")%string then map_result (k v s)
  else if otype o =? 0 then inr (NotModuleExpand tok)
  else if negb (has_flag (otype o) OPT_STATIC_ON_DEVELOP) then map_result (k v s)
  else match map_token_get (abs (openrg_config_options s)) "CONFIG_RG_DEV" with
       | inr e => inr e
       | inl d => map_result (k (if nz d then "y" else v) s)
       end.
Proof.
  unfold module_value. destruct (v =? "m")%string; simpl; [|done].
  destruct (otype o =? 0); simpl; [done|].
  destruct (has_flag (otype o) OPT_STATIC_ON_DEVELOP); simpl; [|done].
  rewrite map_token_get_eq. unfold bind, ret.
  rewrite token_get_eq. by repeat destruct_match.
Qed.

(** C1. Whatever text the format yields, _token_set computes on the linear option array
    exactly what map_token_set computes on the finite map from option names to records: the
    priorities, the module checks, the value stored, and every way of stopping. *)
Theorem token_set_refines_map f l prio tok fmt args v s :
  format fmt args = Some v ->
  map_result (_token_set f l prio tok fmt args s) =
  map_token_set f l prio tok v (abs (openrg_config_options s)).
Proof.
  intros Hf. unfold _token_set, vsnprintf_4096, map_token_set. rewrite Hf.
  unfold bind at 1. simpl. rewrite length_substring_0.
  destruct (4094 <? Z.of_nat (String.length v)) eqn:El; bool_to_prop.
  { replace (_ <? _) with true; [done|]. symmetry. apply Z.ltb_lt. lia. }
  rewrite substring_0_all by lia. replace (_ <? _) with false by (symmetry; apply Z.ltb_ge; lia).
  unfold bind at 1. rewrite option_token_get_eq, abs_lookup.
  destruct (option_token_get_nofail _ tok) as [i|] eqn:Ei;
    [|by rewrite (proj1 (lookup_option_None _ _) Ei)].
  destruct (lookup_option_Some _ _ _ Ei) as (o & Ho & Ht & ->).
  destruct (prio <? set_prio o); [done|]. rewrite module_value_map.
  assert (Hst : forall w, map_result
      ((replace_warning prio tok o w;;; option_store i (option_assign o f l w prio)) s) =
      inl (<[tok := option_assign o f l w prio]> (abs (openrg_config_options s)))).
  { intros w. by apply option_store_abs with (o := o). }
  rewrite !Hst. repeat destruct_match; by rewrite ?Hst.
Qed.

(** A small option array for the concrete runs below. *)
Definition sample_options : list option_t :=
  [ mk_option "CONFIG_RG_DEV" (Some "y") OPT_NONE None None 0 SET_PRIO_INIT;
    mk_option "CONFIG_RG_MTD" None (Z.lor OPT_MODULE_EXPAND OPT_STATIC_ON_DEVELOP) None None 0 0;
    mk_option "CONFIG_NUM" (Some "12") OPT_NUMBER None None 0 SET_PRIO_CMD_LINE ].
Definition sample : cfg := mk_cfg sample_options (Some "TWINPASS") "LINUX_24" (Some "TWINPASS") false [] [].

Lemma token_set_refines_map_witness :
  map_result (_token_set "f" 1 SET_PRIO_TOKEN_SET "CONFIG_RG_MTD" "%s" [Some "m"] sample) =
  map_token_set "f" 1 SET_PRIO_TOKEN_SET "CONFIG_RG_MTD" "m" (abs (openrg_config_options sample)).
Proof. apply token_set_refines_map. reflexivity. Defined.
