(* ===== verification/StrUtil.v ===== *)
(** * StrUtil: the string utilities

    pkg/util/str.c.  The functions that edit a string in place work on a
    [buffer], the bytes of an allocation, and say so when they touch a byte
    outside it; the functions that only read, or that build a new string, work on
    the text.  A pointer into a string is what is left of the string from there.
    A [char **] argument that points to NULL is [None]. *)
From S2P Require Import Prelude Text ConfigOpt.

(** ** Memory *)
Abbreviation buffer := (list Ascii.ascii).
Definition NUL : Ascii.ascii := "000"%char.

(** [strlen]: [None] when the buffer has no terminator. *)
Fixpoint strlen (b : buffer) : option Z :=
  match b with
  | [] => None
  | c :: b' => if Ascii.eqb c NUL then Some 0 else Z.succ <$> strlen b'
  end.

(** [b[i] = c]. *)
Definition store (b : buffer) (i : Z) (c : Ascii.ascii) : option buffer :=
  if (0 <=? i) && (i <? Z.of_nat (length b)) then Some (<[Z.to_nat i := c]> b) else None.

(** [memmove(b + dst, b + src, n)]: both ranges must be in the buffer. *)
Definition memmove (b : buffer) (dst src n : Z) : option buffer :=
  if (0 <=? dst) && (0 <=? src) && (0 <=? n) &&
     (dst + n <=? Z.of_nat (length b)) && (src + n <=? Z.of_nat (length b))
  then Some (take (Z.to_nat dst) b ++ take (Z.to_nat n) (drop (Z.to_nat src) b) ++
             drop (Z.to_nat (dst + n)) b)%list
  else None.

(** [strdup(s)]: a buffer just large enough. *)
Definition strdup (s : string) : buffer := (String.list_ascii_of_string s ++ [NUL])%list.

(** The text a buffer holds. *)
Fixpoint text (b : buffer) : option string :=
  match b with
  | [] => None
  | c :: b' => if Ascii.eqb c NUL then Some EmptyString else String c <$> text b'
  end.

(** ** Allocation *)
Definition str_alloc (s : option buffer) : buffer := strdup "".
Definition str_init : buffer := strdup "".
Definition strdup_null (s : option string) : buffer := strdup (default "" s).
Definition strdup_n (s : option string) : option buffer := strdup <$> s.
Definition str_use (s : option buffer) (str : option buffer) : buffer :=
  match str with None => strdup "" | Some b => b end.
Definition str_free (s : option buffer) : option buffer := None.
Definition str_cpy (s : option buffer) (str : option string) : buffer := strdup_null str.
(** [strnlen]: the length, at most [n] ([int n] converts to [size_t]). *)
Definition strndup_null (s : option string) (n : Z) : buffer :=
  match s with
  | None => strdup ""
  | Some t => strdup (if n <? 0 then t else String.substring 0 (Z.to_nat n) t)
  end.
Definition str_ncpy (s : option buffer) (str : option string) (len : Z) : buffer :=
  strndup_null str len.
(** [str_cat] copies both texts into a new buffer. *)
Definition str_cat (s : option buffer) (str : string) : option buffer :=
  match s with
  | None => Some (strdup str)
  | Some b => t ← text b; Some (strdup (t +:+ str))
  end.

(** ** Cutting, in place *)
Definition str_left (s : option buffer) (len : Z) : option buffer :=
  match s with
  | None => Some (str_alloc s)
  | Some b => n ← strlen b; if n <=? len then Some b else store b len NUL
  end.
Definition str_right (s : option buffer) (len : Z) : option buffer :=
  match s with
  | None => Some (str_alloc s)
  | Some b => n ← strlen b; if n <=? len then Some b else memmove b 0 (n - len) (len + 1)
  end.
(** The test [if (!s)] is on the [char **], which callers never pass as NULL. *)
Definition str_mid (s : option buffer) (from len : Z) : option buffer :=
  match s with
  | None => None
  | Some b =>
      n ← strlen b;
      if n <? from then store b 0 NUL
      else let n := if n <? from + len then from + len else n in
           memmove b 0 from (n + 1)
  end.

(** [for (str=s+strlen(s); str>s && isspace(str[-1]); str--)]. *)
Fixpoint rtrim_end (b : buffer) (k : nat) : nat :=
  match k with
  | O => O
  | S k' => match b !! k' with
            | Some c => if isspace c then rtrim_end b k' else k
            | None => k
            end
  end.
Definition strrtrim (b : buffer) : option buffer :=
  n ← strlen b; store b (Z.of_nat (rtrim_end b (Z.to_nat n))) NUL.
Definition strchomp := strrtrim.

(** [ws_skip]: what the pointer points to afterwards. *)
Fixpoint ws_skip (p : buffer) : buffer :=
  match p with
  | [] => []
  | c :: p' => if isspace c then ws_skip p' else p
  end.
Definition strltrim (b : buffer) : option buffer :=
  let str := ws_skip b in
  n ← strlen str; memmove b 0 (Z.of_nat (length b - length str)) (n + 1).
Definition strtrim (b : buffer) : option buffer := strltrim b ≫= strrtrim.

Definition str_rtrim (s : option buffer) : option buffer :=
  match s with None => Some (str_alloc s) | Some b => strrtrim b end.
Definition str_chomp := str_rtrim.
Definition str_ltrim (s : option buffer) : option buffer :=
  match s with None => Some (str_alloc s) | Some b => strltrim b end.
Definition str_trim (s : option buffer) : option buffer :=
  b ← str_ltrim s; str_rtrim (Some b).

(** ** Letters *)
Definition tolower (c : Ascii.ascii) : Ascii.ascii :=
  if in_range 65 90 (code c) then Ascii.ascii_of_nat (Z.to_nat (code c + 32)) else c.
Definition toupper (c : Ascii.ascii) : Ascii.ascii :=
  if in_range 97 122 (code c) then Ascii.ascii_of_nat (Z.to_nat (code c - 32)) else c.
(** [for (p = s; *p; p++) *p = f( *p)]; a buffer without terminator is overrun. *)
Fixpoint map_chars (f : Ascii.ascii -> Ascii.ascii) (b : buffer) : option buffer :=
  match b with
  | [] => None
  | c :: b' => if Ascii.eqb c NUL then Some b else cons (f c) <$> map_chars f b'
  end.
Definition str_tolower (s : option buffer) : option buffer :=
  match s with None => Some (str_alloc s) | Some b => map_chars tolower b end.
Definition str_toupper (s : option buffer) : option buffer :=
  match s with None => Some (str_alloc s) | Some b => map_chars toupper b end.
Definition strtoupper (s : option buffer) : option (option buffer) :=
  match s with None => Some None | Some b => Some <$> map_chars toupper b end.

(** ** Comparing *)

(** [strcmp], [strncmp]: the difference of the first two characters that differ,
    as [unsigned char]. *)
Fixpoint strcmp (s t : string) : Z :=
  match s, t with
  | EmptyString, EmptyString => 0
  | EmptyString, String d _ => - code d
  | String c _, EmptyString => code c
  | String c s', String d t' => if Ascii.eqb c d then strcmp s' t' else code c - code d
  end.
Definition strncmp (s t : string) (n : nat) : Z :=
  strcmp (String.substring 0 n s) (String.substring 0 n t).
Definition strcasecmp (s t : string) : Z :=
  let low u := String.string_of_list_ascii (tolower <$> String.list_ascii_of_string u) in strcmp (low s) (low t).
Definition strncasecmp (s t : string) (n : nat) : Z :=
  strcasecmp (String.substring 0 n s) (String.substring 0 n t).

(** [strchr(set, c)] for a character that is not the terminator. *)
Definition in_set (set : string) (c : Ascii.ascii) : bool :=
  existsb (Ascii.eqb c) (String.list_ascii_of_string set).

Definition str_cmpsub (s sub : option string) : Z :=
  strncmp (default "" s) (default "" sub) (String.length (default "" sub)).
Definition str_cmp (s1 s2 : option string) : Z := strcmp (default "" s1) (default "" s2).

(** [for (i = 0; s[i] && !strchr(delim, s[i]); i++)], then the two comparisons. *)
Definition str_cmpdelim (s sub delim : string) : Z :=
  let (a, rest) := span (fun c => negb (in_set delim c)) s in
  match rest with
  | EmptyString => strcmp s sub
  | String _ _ =>
      if (String.length a =? String.length sub)%nat then strncmp s sub (String.length a) else 1
  end.
Definition str_casecmpdelim (s sub delim : string) : Z :=
  let (a, rest) := span (fun c => negb (in_set delim c)) s in
  match rest with
  | EmptyString => strcasecmp s sub
  | String _ _ =>
      if (String.length a =? String.length sub)%nat then strncasecmp s sub (String.length a) else 1
  end.

(** A [char], which is signed. *)
Definition schar (c : Ascii.ascii) : Z := if code c <? 128 then code c else code c - 256.
(** The character a pointer designates. *)
Definition head (s : string) : Z := match s with EmptyString => 0 | String c _ => schar c end.

(** [ws_skip] and [inc] on a pointer into a text. *)
Definition skip_ws (s : string) : string := (span isspace s).2.
Definition inc (s : string) : string :=
  match s with EmptyString => EmptyString | String _ s' => skip_ws s' end.

(** [for (; *p && *p == *q; inc(&p), inc(&q)); return *q - *p;]: a turn takes a
    character from [p], so its length is enough fuel. *)
Fixpoint wscmp_loop (fuel : nat) (p q : string) : Z :=
  match fuel with
  | O => head q - head p
  | S fuel' =>
      if negb (head p =? 0) && (head p =? head q) then wscmp_loop fuel' (inc p) (inc q)
      else head q - head p
  end.
Definition str_wscmp (p q : string) : Z :=
  let p := skip_ws p in let q := skip_ws q in wscmp_loop (String.length p) p q.

(** ** Tests *)
Definition str_isempty (s : option string) : bool :=
  match s with None => true | Some t => (t =? "")%string end.
Definition str_isspace (s : option string) : bool :=
  match s with None => true | Some t => (skip_ws t =? "")%string end.
Definition str_isnumber (s : string) (allow_ws : bool) : bool :=
  let s := if allow_ws then skip_ws s else s in
  let (digits, s) := span isdigit s in
  let i := String.length digits in
  if (i =? 0)%nat || (10 <? i)%nat then false
  else let s := if allow_ws then skip_ws s else s in (s =? "")%string.
Definition str_isxdigit (s : option string) : bool :=
  match s with None => false | Some t => ((span isxdigit t).2 =? "")%string end.

Definition char_is_valid (c : Ascii.ascii) : bool := (32 <=? code c) && (code c <=? 126).
Definition charset_is_valid (s : option string) : bool :=
  match s with None => true | Some t => ((span char_is_valid t).2 =? "")%string end.
(** [strcspn]. *)
Definition strcspn (s reject : string) : nat :=
  String.length (span (fun c => negb (in_set reject c)) s).1.
Definition username_reject : string := " :@" +:+ dquote +:+ "|\/=+<>[]*?,;".
Definition sip_username_reject : string := " :@" +:+ dquote +:+ "|\=+<>[]?,;".
Definition username_charset_is_valid (s : option string) : bool :=
  match s with
  | None => true
  | Some t => charset_is_valid s && (strcspn t username_reject =? String.length t)%nat
  end.
Definition sip_username_charset_is_valid (s : option string) : bool :=
  match s with
  | None => true
  | Some t => charset_is_valid s && (strcspn t sip_username_reject =? String.length t)%nat
  end.

(** ** Searching *)
Definition str_drop (n : nat) (s : string) : string := String.substring n (String.length s - n) s.

(** [strstr]: how far into [s] the first occurrence is. *)
Fixpoint strstr (s needle : string) : option nat :=
  if String.prefix needle s then Some 0%nat
  else match s with
       | EmptyString => None
       | String _ s' => S <$> strstr s' needle
       end.

(** [for (pos = 0; pos+needle_len<=n; pos++)]: the first character, then
    [memcmp]; [None] when a byte outside the haystack is read, [Some None] is the
    NULL returned.  [turns] is how often the loop's test can hold. *)
Fixpoint strnstr_loop (turns : nat) (hay needle : buffer) (pos : nat) : option (option nat) :=
  match turns with
  | O => Some None
  | S turns' =>
      c ← hay !! pos;
      if Ascii.eqb c (default NUL (needle !! 0%nat)) then
        if (pos + length needle <=? length hay)%nat then
          if bool_decide (take (length needle) (drop pos hay) = needle) then Some (Some pos)
          else strnstr_loop turns' hay needle (S pos)
        else None
      else strnstr_loop turns' hay needle (S pos)
  end.
(** [needle] is a text, without its terminator. *)
Definition strnstr (hay : buffer) (needle : string) (n : nat) : option (option nat) :=
  let needle := String.list_ascii_of_string needle in
  strnstr_loop (S n - length needle) hay needle 0.

Definition strchrs (s chrs : string) : option string :=
  match (span (fun c => negb (in_set chrs c)) s).2 with
  | EmptyString => None
  | t => Some t
  end.

(** The loop of [str_count_str]; [None] when the fuel runs out. *)
Fixpoint count_str_loop (fuel : nat) (haystack needle : string) (count : Z) : option Z :=
  match fuel with
  | O => None
  | S fuel' =>
      match strstr haystack needle with
      | None => Some count
      | Some k =>
          count_str_loop fuel' (str_drop (k + String.length needle) haystack) needle (count + 1)
      end
  end.
(** A turn takes the needle off the haystack. *)
Definition str_count_str (haystack needle : string) : option Z :=
  count_str_loop (S (String.length haystack)) haystack needle 0.

Fixpoint str_count_chrs (s chrs : string) : Z :=
  match s with
  | EmptyString => 0
  | String c s' => (if in_set chrs c then 1 else 0) + str_count_chrs s' chrs
  end.

(** [for (; endpos>=str && *endpos!=ch; endpos--)]: [n] characters are left to
    look at, the last of them under [endpos]. *)
Fixpoint strrevchr (str : buffer) (ch : Ascii.ascii) (n : nat) : option nat :=
  match n with
  | O => None
  | S k => if bool_decide (str !! k = Some ch) then Some k else strrevchr str ch k
  end.

(** ** Building *)

(** The three [memcpy] into the new buffer; a negative count has no meaning. *)
Definition str_insert (s : option string) (from nremove : Z) (replace : option string)
    : option string :=
  let t := default "" s in
  let src_len := Z.of_nat (String.length t) in
  let from := Z.min src_len from in
  let nremove := Z.min (src_len - from) nremove in
  if (from <? 0) || (nremove <? 0) then None
  else Some (String.substring 0 (Z.to_nat from) t +:+ default "" replace +:+
             str_drop (Z.to_nat (from + nremove)) t).

(** [for (i = 0; (found = strstr( *s + i, search)); i += replace_len)]. *)
Fixpoint replace_loop (fuel : nat) (s : string) (i : nat) (search replace : string)
    : option string :=
  match fuel with
  | O => None
  | S fuel' =>
      match strstr (str_drop i s) search with
      | None => Some s
      | Some k =>
          let i := (i + k)%nat in
          s' ← str_insert (Some s) (Z.of_nat i) (Z.of_nat (String.length search)) (Some replace);
          replace_loop fuel' s' (i + String.length replace) search replace
      end
  end.
(** A turn with a search text takes at least a character off what is left to
    search, [*s + i]. *)
Definition str_replace (s : option string) (search replace : string) : option string :=
  match s with
  | None => Some ""
  | Some t => replace_loop (S (String.length t)) t 0 search replace
  end.

Definition PRINTF_CAT : Z := 1.
(** [str_vprintf_full]: an empty [*s] is replaced, another one is extended when
    [PRINTF_CAT] is given; [None] is the error exit on a bad format. *)
Definition str_vprintf_full (s : option string) (flags : Z) (fmt : string)
    (args : list (option string)) : option string :=
  let cat := if has_flag flags PRINTF_CAT then default "" s else "" in
  t ← format fmt args; Some (cat +:+ t).
Definition str_catprintf (s : option string) (fmt : string) (args : list (option string))
    : option string := str_vprintf_full s PRINTF_CAT fmt args.
Definition str_printf (s : option string) (fmt : string) (args : list (option string))
    : option string := str_vprintf_full s 0 fmt args.

(** [str_catfast]: [str_slen] is the length the caller kept. *)
Definition str_catfast (s str : option string) (str_slen : Z) : option (string * Z) :=
  let t := default "" s in
  match str with
  | None => Some (t, str_slen)
  | Some u =>
      if (0 <=? str_slen) && (str_slen <=? Z.of_nat (String.length t))
      then Some (String.substring 0 (Z.to_nat str_slen) t +:+ u,
                 str_slen + Z.of_nat (String.length u))
      else None
  end.

Definition str_valid_terminate_nl (s : option string) : string :=
  match s with
  | None => ""
  | Some t =>
      if (t =? "")%string || bool_decide (last (String.list_ascii_of_string t) = Some "010"%char)
      then t else t +:+ " "
  end.

(** [strncpy(dst, src, n); dst[n] = 0;] *)
Definition strncpyz (dst : buffer) (src : string) (n : Z) : option buffer :=
  if (0 <=? n) && (n <? Z.of_nat (length dst)) then
    let copied := String.list_ascii_of_string (String.substring 0 (Z.to_nat n) src) in
    store (copied ++ replicate (Z.to_nat n - length copied) NUL ++ drop (Z.to_nat n) dst)%list n NUL
  else None.

(** [static char ret[16]; snprintf(ret, sizeof(ret), "%d", num)]. *)
Definition itoa (num : Z) : string := String.substring 0 15 (print_int num).

(** [strtok( *s, delim)] on the copy: leading delimiters stay in front of the
    token, the one behind it becomes the end of the text. *)
Definition str_cpytok (s : option buffer) (str : option string) (delim : string) : buffer :=
  let t := default "" str in
  let (skipped, rest) := span (in_set delim) t in
  let (token, behind) := span (fun c => negb (in_set delim c)) rest in
  if (rest =? "")%string then strdup t
  else (String.list_ascii_of_string (skipped +:+ token) ++ NUL ::
        match behind with
        | EmptyString => []
        | String _ behind => String.list_ascii_of_string behind ++ [NUL]
        end)%list.

Definition str_vprintf (s : option string) (fmt : string) (args : list (option string))
    : option string := str_vprintf_full s 0 fmt args.

(** [memcpy(dst + at, src, n)] of a text into a buffer. *)
Definition copy_in (dst : buffer) (at_ : Z) (src : buffer) : option buffer :=
  if (0 <=? at_) && (at_ + Z.of_nat (length src) <=? Z.of_nat (length dst))
  then Some (take (Z.to_nat at_) dst ++ src ++ drop (Z.to_nat at_ + length src) dst)%list
  else None.
(** The formatted text, without its terminator, and its length. *)
Definition str2buf (buf : buffer) (fmt : string) (args : list (option string)) : option (buffer * Z) :=
  t ← str_vprintf_full None 0 fmt args;
  buf ← copy_in buf 0 (String.list_ascii_of_string t);
  Some (buf, Z.of_nat (String.length t)).
(** [memcpy(str, buf, buf_size); str[buf_size] = 0;] *)
Definition buf2str (str buf : buffer) (buf_size : Z) : option buffer :=
  if (0 <=? buf_size) && (buf_size <=? Z.of_nat (length buf)) then
    str ← copy_in str 0 (take (Z.to_nat buf_size) buf);
    store str buf_size NUL
  else None.
(** [vsnprintf(buf + strlen(buf), 0x7fffffff, fmt, ap)]: nothing bounds it but the buffer. *)
Definition strcat_printf (buf : buffer) (fmt : string) (args : list (option string)) : option buffer :=
  n ← strlen buf;
  t ← format fmt args;
  copy_in buf n (strdup (String.substring 0 (Z.to_nat 2147483646) t)).
