(* ===== verification/StrProps.v ===== *)
(** * StrProps: what the string utilities compute

    The in-place functions stay inside their buffer and cut what they say, but for
    [str_mid]; [str_replace] replaces the leftmost occurrences one after the
    other and ends unless the searched text is empty; [str_wscmp] orders texts
    without their white space, the other way round from [strcmp]. *)
From S2P Require Import Prelude Text ConfigOpt StrUtil.

Abbreviation chars := String.list_ascii_of_string.
Definition no_nul (t : string) : bool := all_chars (fun c => negb (Ascii.eqb c NUL)) t.

(** ** Texts *)
Lemma chars_app a b : chars (a +:+ b) = (chars a ++ chars b)%list.
Proof. induction a as [|c a IH]; [done|]. cbn. by rewrite IH. Qed.
Lemma length_chars a : length (chars a) = String.length a.
Proof. induction a as [|c a IH]; [done|]. cbn. by rewrite IH. Qed.
Lemma substring_app a b : String.substring 0 (String.length a) (a +:+ b) = a.
Proof. induction a as [|c a IH]; cbn; [by destruct b|]. by rewrite IH. Qed.
Lemma str_drop_app a b : str_drop (String.length a) (a +:+ b) = b.
Proof.
  unfold str_drop. rewrite length_append.
  replace (String.length a + String.length b - String.length a)%nat with (String.length b) by lia.
  induction a as [|c a IH]; [|exact IH]. cbn.
  rewrite <- (append_nil_r b) at 2. apply substring_app.
Qed.
Lemma append_inj a a' b b' :
  a +:+ b = a' +:+ b' -> String.length a = String.length a' -> a = a' /\ b = b'.
Proof.
  revert a'. induction a as [|c a IH]; intros [|c' a']; cbn; try done.
  intros [= -> H] [= Hl]. by destruct (IH _ H Hl) as [-> ->].
Qed.
(** Two ways of cutting a text. *)
Lemma append_split a a' b b' :
  a +:+ b = a' +:+ b' -> (String.length a <= String.length a')%nat -> exists u, a' = a +:+ u /\ b = u +:+ b'.
Proof.
  revert a'. induction a as [|c a IH]; intros a'; [by exists a'|].
  destruct a' as [|c' a']; cbn; [lia|]. intros [= -> H] Hl.
  destruct (IH a' H ltac:(lia)) as (u & -> & ->). by exists u.
Qed.

(** ** [strstr] finds the first occurrence *)
Definition occurs_at (needle s : string) (k : nat) : Prop :=
  exists a b, s = a +:+ needle +:+ b /\ String.length a = k.

Lemma prefix_occurs needle s : String.prefix needle s = true <-> exists b, s = needle +:+ b.
Proof.
  revert s. induction needle as [|c n IH]; intros s; cbn [String.prefix].
  - split; [by exists s | by destruct s].
  - destruct s as [|d s]; [split; [done | by intros [b [=]]]|].
    change (String.prefix (String c n) (String d s)) with
      (if Ascii.ascii_dec c d then String.prefix n s else false).
    destruct (Ascii.ascii_dec c d) as [<-|Hne].
    + rewrite IH. split; intros [b H]; exists b; cbn in *; congruence.
    + split; [done | intros [b [= ? ?]]; congruence].
Qed.

Lemma strstr_spec s needle :
  match strstr s needle with
  | Some k => occurs_at needle s k /\ forall j, occurs_at needle s j -> (k <= j)%nat
  | None => forall j, ~ occurs_at needle s j
  end.
Proof.
  induction s as [|c s IH]; cbn [strstr]; destruct (String.prefix needle _) eqn:E.
  - apply prefix_occurs in E as [b E]. split; [by exists "", b | lia].
  - intros j (a & b & H & _). destruct a; [|done].
    enough (String.prefix needle "" = true) by congruence. apply prefix_occurs. by exists b.
  - apply prefix_occurs in E as [b E]. split; [by exists "", b | lia].
  - assert (Hcons : forall j, occurs_at needle (String c s) j -> exists j', j = S j' /\ occurs_at needle s j').
    { intros j (a & b & H & <-). destruct a as [|d a].
      - enough (String.prefix needle (String c s) = true) by congruence. apply prefix_occurs. by exists b.
      - injection H as <- H. exists (String.length a). split; [done|]. by exists a, b. }
    destruct (strstr s needle) as [k|]; cbn.
    + destruct IH as [(a & b & -> & <-) Hmin]. split; [by exists (String c a), b|].
      intros j (j' & -> & Hj)%Hcons. apply Hmin in Hj. lia.
    + intros j (j' & -> & Hj)%Hcons. by apply IH in Hj.
Qed.

(** ** [str_insert] *)
Lemma str_insert_middle a b c r :
  str_insert (Some (a +:+ b +:+ c)) (Z.of_nat (String.length a)) (Z.of_nat (String.length b)) (Some r) =
  Some (a +:+ r +:+ c).
Proof.
  unfold str_insert. cbn [default from_option id]. rewrite !length_append, !Nat2Z.inj_add.
  rewrite Z.min_r, (Z.min_r _ (Z.of_nat (String.length b))) by lia.
  destruct (_ || _) eqn:E; bool_to_prop; [apply orb_true_iff in E as [E|E]; bool_to_prop; lia|].
  rewrite Nat2Z.id, substring_app, <- Nat2Z.inj_add, Nat2Z.id, <- length_append.
  by rewrite <- (append_assoc a b c), str_drop_app.
Qed.

(** ** [str_replace] *)

(** [r] is [s] with the leftmost occurrence replaced, then the leftmost one of
    what follows it, and so on. *)
Inductive replaced (search replace : string) : string -> string -> Prop :=
| replaced_none s : (forall j, ~ occurs_at search s j) -> replaced search replace s s
| replaced_first a b r :
    (forall j, occurs_at search (a +:+ search +:+ b) j -> (String.length a <= j)%nat) ->
    replaced search replace b r ->
    replaced search replace (a +:+ search +:+ b) (a +:+ replace +:+ r).

Lemma replace_loop_runs fuel d s search replace :
  search <> "" -> (String.length s < fuel)%nat ->
  exists r, replace_loop fuel (d +:+ s) (String.length d) search replace = Some (d +:+ r) /\
    replaced search replace s r.
Proof.
  intros Hs. revert d s. induction fuel as [|fuel IH]; intros d s Hf; [lia|].
  cbn [replace_loop]. rewrite str_drop_app. pose proof (strstr_spec s search) as Hst.
  destruct (strstr s search) as [k|]; [|exists s; split; [done | by constructor]].
  destruct Hst as [(a & b & -> & <-) Hmin].
  rewrite <- length_append, <- (append_assoc d a), str_insert_middle. cbn [mbind option_bind].
  rewrite <- length_append, <- (append_assoc (d +:+ a)).
  destruct (IH ((d +:+ a) +:+ replace) b) as (r & -> & Hr).
  { rewrite !length_append in Hf. destruct search; [done|]. cbn in Hf. lia. }
  exists (a +:+ replace +:+ r). rewrite !append_assoc. split; [done|]. by constructor.
Qed.

Lemma strstr_empty s : strstr s "" = Some 0%nat.
Proof. by destruct s. Qed.

Lemma replace_empty_diverges fuel d s replace :
  replace_loop fuel (d +:+ s) (String.length d) "" replace = None.
Proof.
  revert d. induction fuel as [|fuel IH]; intros d; [done|]. cbn [replace_loop].
  rewrite str_drop_app, strstr_empty, Nat.add_0_r.
  pose proof (str_insert_middle d "" s replace) as Hi. change ("" +:+ s) with s in Hi. rewrite Hi.
  cbn [mbind option_bind]. rewrite <- append_assoc, <- length_append. apply IH.
Qed.

Lemma replace_loop_more fuel extra s i search replace r :
  replace_loop fuel s i search replace = Some r ->
  replace_loop (fuel + extra) s i search replace = Some r.
Proof.
  revert s i. induction fuel as [|fuel IH]; intros s i; [done|]. cbn [replace_loop Nat.add].
  destruct (strstr _ search) as [k|]; [|done].
  destruct (str_insert _ _ _ _) as [s'|]; [apply IH|done].
Qed.

(** C36. str_replace on a search text that is not empty: the loop ends, and the result is
    the text with every occurrence replaced, from left to right and without looking into
    what was put in. On an empty search text it never ends. *)
Theorem str_replace_correct s search replace :
  (search <> "" -> exists r, replaced search replace s r /\
     str_replace (Some s) search replace = Some r /\
     forall extra, replace_loop (S (String.length s) + extra) s 0 search replace = Some r) /\
  (search = "" -> forall fuel, replace_loop fuel s 0 search replace = None).
Proof.
  split.
  - intros Hs.
    destruct (replace_loop_runs (S (String.length s)) "" s search replace Hs) as (r & Hr & ?); [lia|].
    exists r. split; [done|]. split; [exact Hr|]. intros extra. by apply replace_loop_more.
  - intros -> fuel. apply (replace_empty_diverges fuel "").
Qed.

(** flex's version line, as config_host.c cleans it. *)
Lemma str_replace_correct_witness :
  exists r, replaced "flex" "" "flex version 2.5.4" r /\
    str_replace (Some "flex version 2.5.4") "flex" "" = Some r /\
    forall extra, replace_loop (S (String.length "flex version 2.5.4") + extra)
      "flex version 2.5.4" 0 "flex" "" = Some r.
Proof. apply (str_replace_correct "flex version 2.5.4" "flex" ""). done. Defined.

(** ** Blocks *)
Lemma text_terminated t rest :
  no_nul t = true -> text (chars t ++ NUL :: rest)%list = Some t.
Proof.
  unfold no_nul. induction t as [|c t IH]; [done|]. cbn [all_chars]. intros H. bool_to_prop.
  cbn. rewrite H. cbn in IH. by rewrite IH.
Qed.
Lemma text_inv b t :
  text b = Some t -> no_nul t = true /\ exists rest, b = (chars t ++ NUL :: rest)%list.
Proof.
  revert t. induction b as [|c b IH]; intros t; [done|]. cbn [text].
  destruct (Ascii.eqb c NUL) eqn:E.
  - intros [= <-]. split; [done|]. apply Ascii.eqb_eq in E as ->. by exists b.
  - destruct (text b) as [u|]; [|done]. intros [= <-].
    destruct (IH u eq_refl) as [Hn [rest ->]]. split; [|by exists rest].
    unfold no_nul in *. cbn. by rewrite E.
Qed.
Lemma strlen_terminated t rest :
  no_nul t = true -> strlen (chars t ++ NUL :: rest)%list = Some (Z.of_nat (String.length t)).
Proof.
  unfold no_nul. induction t as [|c t IH]; [done|]. cbn [all_chars]. intros H. bool_to_prop.
  cbn [String.list_ascii_of_string app strlen String.length]. rewrite H, IH by done. cbn. f_equal. lia.
Qed.

(** A text given as a list of its characters. *)
Lemma chars_of_list l : chars (String.string_of_list_ascii l) = l.
Proof. apply String.list_ascii_of_string_of_list_ascii. Qed.
Lemma no_nul_chars t : no_nul t = true <-> NUL ∉ chars t.
Proof.
  unfold no_nul. induction t as [|c t IH]; cbn; [split; [set_solver|done]|].
  rewrite not_elem_of_cons, andb_true_iff, negb_true_iff, Ascii.eqb_neq, IH. naive_solver.
Qed.

(** A terminator stored in the text cuts it there. *)
Lemma store_cuts w v rest b' :
  NUL ∉ w -> store (w ++ v ++ NUL :: rest)%list (Z.of_nat (length w)) NUL = Some b' ->
  text b' = Some (String.string_of_list_ascii w) /\ length b' = length (w ++ v ++ NUL :: rest)%list.
Proof.
  intros Hw. unfold store. destruct (_ && _); [|done]. intros [= <-].
  split; [|apply length_insert]. rewrite Nat2Z.id, insert_app_r_alt, Nat.sub_diag by lia.
  rewrite <- (chars_of_list w) at 1. destruct v as [|x v]; cbn;
    apply text_terminated; apply no_nul_chars; by rewrite chars_of_list.
Qed.
Lemma store_in b i : (i < length b)%nat -> exists b', store b (Z.of_nat i) NUL = Some b'.
Proof.
  intros Hi. unfold store. destruct (_ && _) eqn:E; [by eexists|].
  apply andb_false_iff in E as [E|E]; bool_to_prop; lia.
Qed.

(** ** Trimming *)
Abbreviation all_space := (Forall (fun c => isspace c = true)).

Lemma rtrim_end_spec l rest k :
  (k <= length l)%nat ->
  exists w v, take k l = (w ++ v)%list /\ all_space v /\
    (forall c, last w = Some c -> isspace c = false) /\ rtrim_end (l ++ rest)%list k = length w.
Proof.
  induction k as [|k IH]; intros Hk; cbn [rtrim_end]; [by exists [], []|].
  destruct (lookup_lt_is_Some_2 l k ltac:(lia)) as [c Hc].
  rewrite lookup_app_l, Hc, (take_S_r l k c Hc) by lia. destruct (isspace c) eqn:E.
  - destruct (IH ltac:(lia)) as (w & v & -> & Hv & Hw & Hr). exists w, (v ++ [c])%list.
    rewrite (assoc_L app). split; [done|]. split; [|done]. apply Forall_app. by split; [|constructor].
  - exists (take k l ++ [c])%list, []. rewrite app_nil_r. split; [done|]. split; [constructor|].
    split; [intros d; rewrite last_snoc; by intros [= <-]|].
    rewrite length_app, length_take. cbn. lia.
Qed.

Lemma strrtrim_spec b s :
  text b = Some s ->
  exists b' w v, strrtrim b = Some b' /\ chars s = (w ++ v)%list /\ all_space v /\
    (forall c, last w = Some c -> isspace c = false) /\
    text b' = Some (String.string_of_list_ascii w) /\ length b' = length b.
Proof.
  intros (Hn & rest & ->)%text_inv. unfold strrtrim. rewrite strlen_terminated by done.
  cbn [mbind option_bind]. rewrite Nat2Z.id, <- length_chars.
  destruct (rtrim_end_spec (chars s) (NUL :: rest) (length (chars s))) as (w & v & Hs & Hv & Hl & ->);
    [done|]. rewrite take_ge in Hs by done.
  destruct (store_in (chars s ++ NUL :: rest)%list (length w)) as [b' Hb'].
  { rewrite Hs, !length_app. cbn. lia. }
  exists b', w, v. split; [done|]. do 3 (split; [done|]). rewrite Hs, <- (assoc_L app) in Hb'.
  rewrite Hs, <- (assoc_L app). apply store_cuts; [|done].
  apply no_nul_chars in Hn. rewrite Hs in Hn. set_solver.
Qed.

Lemma ws_skip_spec l rest :
  exists u w, l = (u ++ w)%list /\ all_space u /\ (forall c, hd_error w = Some c -> isspace c = false) /\
    ws_skip (l ++ NUL :: rest)%list = (w ++ NUL :: rest)%list.
Proof.
  induction l as [|c l IH]; cbn; [by exists [], []|]. destruct (isspace c) eqn:E.
  - destruct IH as (u & w & -> & Hu & Hw & ->). exists (c :: u), w. by split; [|split; [constructor|]].
  - exists [], (c :: l). split; [done|]. split; [constructor|]. split; [by intros d [= <-]|done].
Qed.

(** A move to the front that takes the terminator along. *)
Lemma memmove_front u w rest x n b' :
  NUL ∉ w -> Z.of_nat (length w) <= n ->
  memmove (u ++ w ++ NUL :: rest)%list 0 (Z.of_nat (length u)) (n + 1) = Some b' ->
  x = String.string_of_list_ascii w -> text b' = Some x.
Proof.
  intros Hw Hn Hm ->. unfold memmove in Hm. destruct (_ && _); [|done]. injection Hm as <-.
  rewrite Nat2Z.id, drop_app_length. cbn [take app Z.to_nat].
  replace (Z.to_nat (n + 1)) with (length w + S (Z.to_nat n - length w))%nat by lia.
  rewrite take_app_add. cbn [firstn]. rewrite <- (assoc_L app). cbn [app].
  rewrite <- (chars_of_list w) at 1. apply text_terminated, no_nul_chars. by rewrite chars_of_list.
Qed.
Lemma memmove_in b src n :
  0 <= src -> 0 <= n -> src + n <= Z.of_nat (length b) ->
  exists b', memmove b 0 src n = Some b' /\ length b' = length b.
Proof.
  intros. unfold memmove. destruct (_ && _) eqn:E.
  - eexists. split; [done|]. rewrite !length_app, !length_take, !length_drop. lia.
  - exfalso. apply not_true_iff_false in E. apply E. rewrite !andb_true_iff, !Z.leb_le. lia.
Qed.

Lemma strltrim_spec b s :
  text b = Some s ->
  exists b' u w, strltrim b = Some b' /\ chars s = (u ++ w)%list /\ all_space u /\
    (forall c, hd_error w = Some c -> isspace c = false) /\
    text b' = Some (String.string_of_list_ascii w) /\ length b' = length b.
Proof.
  intros (Hn & rest & ->)%text_inv. unfold strltrim.
  destruct (ws_skip_spec (chars s) rest) as (u & w & Hs & Hu & Hw & ->).
  assert (Hnw : NUL ∉ w) by (apply no_nul_chars in Hn; rewrite Hs in Hn; set_solver).
  assert (Hlen : strlen (w ++ NUL :: rest)%list = Some (Z.of_nat (length w))).
  { rewrite <- (chars_of_list w), strlen_terminated, <- length_chars; [done|].
    apply no_nul_chars. by rewrite chars_of_list. }
  rewrite Hlen, Hs, <- (assoc_L app), (length_app u). cbn [mbind option_bind].
  replace (length u + length (w ++ NUL :: rest) - length (w ++ NUL :: rest))%nat with (length u) by lia.
  destruct (memmove_in (u ++ w ++ NUL :: rest)%list (Z.of_nat (length u)) (Z.of_nat (length w) + 1))
    as (b' & Hb' & Hl); [lia..| |].
  { rewrite !length_app. cbn. lia. }
  exists b', u, w. do 4 (split; [done|]). split; [by eapply memmove_front | by rewrite Hl, length_app].
Qed.

(** [t] is [s] without the white space at its ends. *)
Definition trimmed (s t : string) : Prop :=
  exists u v, chars s = (u ++ chars t ++ v)%list /\ all_space u /\ all_space v /\
    (forall c, hd_error (chars t) = Some c -> isspace c = false) /\
    (forall c, last (chars t) = Some c -> isspace c = false).

Lemma hd_error_app_l {A} (w v : list A) c : hd_error w = Some c -> hd_error (w ++ v)%list = Some c.
Proof. by destruct w. Qed.

(** str_trim, in place, on the bytes of any terminated buffer: it stays inside the
    buffer, and leaves the text without the white space at its two ends and nothing else
    changed, the text of white space alone included. *)
Theorem str_trim_correct b s :
  text b = Some s ->
  exists b' t, str_trim (Some b) = Some b' /\ text b' = Some t /\ trimmed s t /\
    length b' = length b.
Proof.
  intros Hs. destruct (strltrim_spec b s Hs) as (b1 & u & w & Hl & Hu & Hsu & Hhd & Ht1 & Hlen1).
  destruct (strrtrim_spec b1 _ Ht1) as (b2 & w' & v & Hr & Hv & Hsv & Hlast & Ht2 & Hlen2).
  rewrite chars_of_list in Hv. subst w.
  exists b2, (String.string_of_list_ascii w'). split; [by unfold str_trim, str_ltrim; rewrite Hl|].
  split; [done|]. split; [|congruence]. exists u, v. rewrite chars_of_list.
  do 3 (split; [done|]). split; [|done]. intros c Hc. by apply Hhd, hd_error_app_l.
Qed.

Lemma str_trim_correct_witness :
  exists b' t, str_trim (Some (strdup "  2.5.4 ")) = Some b' /\ text b' = Some t /\
    trimmed "  2.5.4 " t /\ length b' = length (strdup "  2.5.4 ").
Proof. apply str_trim_correct. reflexivity. Defined.

(** ** [str_mid] *)
Lemma chars_str_drop n s : chars (str_drop n s) = drop n (chars s).
Proof.
  destruct (decide (n <= String.length s)%nat) as [Hn|Hn].
  - assert (Hs : s = String.string_of_list_ascii (take n (chars s)) +:+
                     String.string_of_list_ascii (drop n (chars s))).
    { rewrite <- (String.string_of_list_ascii_of_string s) at 1.
      rewrite <- (String.string_of_list_ascii_of_string (_ +:+ _)).
      by rewrite chars_app, !chars_of_list, take_drop. }
    assert (Hl : String.length (String.string_of_list_ascii (take n (chars s))) = n).
    { rewrite <- length_chars, chars_of_list, length_take, length_chars. lia. }
    assert (Hd : forall u w, String.length u = n -> s = u +:+ w -> chars (str_drop n s) = chars w)
      by (intros u w <- ->; by rewrite str_drop_app).
    exact (eq_trans (Hd _ _ Hl Hs) (chars_of_list _)).
  - unfold str_drop. replace (String.length s - n)%nat with 0%nat by lia.
    rewrite drop_ge by (rewrite length_chars; lia).
    assert (H0 : forall m t, String.substring m 0 t = "").
    { intros m. induction m as [|m IH]; intros [|c t]; cbn; auto. }
    by rewrite H0.
Qed.

(** str_mid. *)
Theorem str_mid_overruns b s from len :
  text b = Some s -> 0 <= from -> 0 <= len ->
  (forall b', str_mid (Some b) from len = Some b' ->
     text b' = Some (str_drop (Z.to_nat from) s)) /\
  (b = strdup s -> 0 < from <= Z.of_nat (String.length s) -> str_mid (Some b) from len = None).
Proof.
  intros (Hn & rest & ->)%text_inv Hf Hlen. unfold str_mid.
  rewrite strlen_terminated by done. cbn [mbind option_bind].
  destruct (_ <? from) eqn:Ef; bool_to_prop.
  - split; [|lia]. intros b' Hb'.
    pose proof (store_cuts [] (chars s) rest b') as Hc. destruct (Hc ltac:(set_solver) Hb') as [-> _].
    cbn. f_equal. rewrite <- (String.string_of_list_ascii_of_string (str_drop _ _)), chars_str_drop.
    rewrite drop_ge; [done|]. rewrite length_chars. lia.
  - assert (Hsplit : (chars s ++ NUL :: rest)%list =
      (take (Z.to_nat from) (chars s) ++ drop (Z.to_nat from) (chars s) ++ NUL :: rest)%list)
      by (by rewrite (assoc_L app), take_drop).
    assert (Hlt : Z.of_nat (length (take (Z.to_nat from) (chars s))) = from).
    { rewrite length_take, length_chars. lia. }
    assert (Hle : forall m, Z.of_nat (String.length s) <= m ->
      Z.of_nat (length (drop (Z.to_nat from) (chars s))) <= m).
    { intros m. rewrite length_drop, length_chars. lia. }
    set (m := if _ <? _ then _ else _).
    assert (Hm : Z.of_nat (String.length s) <= m).
    { subst m. destruct (_ <? from + len) eqn:E; bool_to_prop; lia. }
    split.
    + intros b'. rewrite Hsplit. intros Hb'.
      apply (memmove_front (take (Z.to_nat from) (chars s)) (drop (Z.to_nat from) (chars s)) rest _ m);
        [| by apply Hle | by rewrite Hlt |].
      * apply no_nul_chars in Hn. intros H. apply Hn. rewrite <- (take_drop (Z.to_nat from)). set_solver.
      * by rewrite <- chars_str_drop, String.string_of_list_ascii_of_string.
    + intros Hb Hr. unfold memmove. destruct (_ && _) eqn:E; [|done]. bool_to_prop.
      rewrite Hb in *. unfold strdup in *. rewrite length_app, length_chars in *. cbn in *. lia.
Qed.

Lemma str_mid_overruns_witness :
  (forall b', str_mid (Some (strdup "abcdef")) 2 1 = Some b' ->
     text b' = Some (str_drop 2 "abcdef")) /\
  (strdup "abcdef" = strdup "abcdef" -> 0 < 2 <= Z.of_nat (String.length "abcdef") ->
   str_mid (Some (strdup "abcdef")) 2 1 = None).
Proof. apply (str_mid_overruns (strdup "abcdef") "abcdef" 2 1); [reflexivity | lia | lia]. Defined.

(** ** [str_wscmp] *)
Fixpoint strip (s : string) : string :=
  match s with
  | EmptyString => EmptyString
  | String c s' => if isspace c then strip s' else String c (strip s')
  end.

(** The difference of the first characters that differ, as [char]; the end of a
    text is 0. *)
Fixpoint first_difference (s t : string) : Z :=
  match s, t with
  | String c s', String d t' =>
      if Ascii.eqb c d then first_difference s' t' else schar c - schar d
  | _, _ => head s - head t
  end.

Lemma schar_code c d : schar c = schar d -> c = d.
Proof.
  unfold schar. intros H. assert (Hc : code c = code d).
  { assert (forall x, 0 <= code x < 256) as Hb.
    { intros x. unfold code. pose proof (Ascii.nat_ascii_bounded x). lia. }
    pose proof (Hb c). pose proof (Hb d). repeat destruct_match; bool_to_prop; lia. }
  rewrite <- (Ascii.ascii_nat_embedding c), <- (Ascii.ascii_nat_embedding d).
  f_equal. unfold code in *. lia.
Qed.

Lemma schar_nonzero c : negb (Ascii.eqb c NUL) = true -> schar c <> 0.
Proof.
  intros H Hz. apply negb_true_iff, Ascii.eqb_neq in H. apply H. by apply schar_code.
Qed.

Lemma strip_skip s : strip (skip_ws s) = strip s.
Proof.
  unfold skip_ws. induction s as [|c s IH]; [done|]. cbn. destruct (isspace c) eqn:E; cbn.
  - destruct (span isspace s). exact IH.
  - by rewrite E.
Qed.
Lemma skip_ws_head s c r : skip_ws s = String c r -> isspace c = false.
Proof.
  unfold skip_ws. induction s as [|d s IH]; [done|]. cbn. destruct (isspace d) eqn:E.
  - destruct (span isspace s). exact IH.
  - by intros [= <- _].
Qed.
Lemma skip_ws_length s : (String.length (skip_ws s) <= String.length s)%nat.
Proof.
  unfold skip_ws. rewrite (span_app isspace s) at 2. rewrite length_append. lia.
Qed.
Lemma skip_ws_no_nul s : no_nul s = true -> no_nul (skip_ws s) = true.
Proof.
  unfold skip_ws, no_nul. rewrite (span_app isspace s) at 1. rewrite all_chars_app. intros H.
  by bool_to_prop.
Qed.

Lemma wscmp_loop_spec fuel p q :
  no_nul p = true -> no_nul q = true ->
  (forall c r, p = String c r -> isspace c = false) ->
  (forall c r, q = String c r -> isspace c = false) ->
  (String.length p <= fuel)%nat ->
  wscmp_loop fuel p q = first_difference (strip q) (strip p).
Proof.
  revert p q. induction fuel as [|fuel IH]; intros p q Hp Hq Hsp Hsq Hl.
  { destruct p; [|cbn in Hl; lia]. destruct q as [|d q]; [done|].
    cbn. by rewrite (Hsq d q eq_refl). }
  destruct p as [|c p]; [destruct q as [|d q]; [done|]; cbn; by rewrite (Hsq d q eq_refl)|].
  unfold no_nul in Hp. cbn [all_chars] in Hp. apply andb_true_iff in Hp as [Hc Hp].
  pose proof (schar_nonzero c Hc) as Hcz. cbn [wscmp_loop head strip]. rewrite (Hsp c p eq_refl).
  replace (schar c =? 0) with false by (symmetry; by apply Z.eqb_neq). cbn [negb andb].
  destruct q as [|d q].
  { cbn. replace (schar c =? 0) with false by (symmetry; by apply Z.eqb_neq). done. }
  unfold no_nul in Hq. cbn [all_chars] in Hq. apply andb_true_iff in Hq as [Hd Hq].
  cbn [head strip first_difference]. rewrite (Hsq d q eq_refl). cbn [first_difference].
  destruct (schar c =? schar d) eqn:E; bool_to_prop.
  - apply schar_code in E as ->. rewrite Ascii.eqb_refl. cbn [inc].
    rewrite IH; [by rewrite !strip_skip | by apply skip_ws_no_nul | by apply skip_ws_no_nul |
      apply skip_ws_head | apply skip_ws_head |].
    pose proof (skip_ws_length p). cbn in Hl. lia.
  - destruct (Ascii.eqb d c) eqn:Edc; [|done]. apply Ascii.eqb_eq in Edc. congruence.
Qed.

Lemma first_difference_eq s t :
  no_nul s = true -> no_nul t = true -> first_difference s t = 0 <-> s = t.
Proof.
  revert t. induction s as [|c s IH]; intros [|d t] Hs Ht; unfold no_nul in *;
    cbn [all_chars first_difference head] in *; [done|..].
  - apply andb_true_iff in Ht as [Hd%schar_nonzero _]. split; [lia | done].
  - apply andb_true_iff in Hs as [Hc%schar_nonzero _]. split; [lia | done].
  - apply andb_true_iff in Hs as [_ Hs]. apply andb_true_iff in Ht as [_ Ht].
    destruct (Ascii.eqb c d) eqn:E.
    + apply Ascii.eqb_eq in E as ->. rewrite IH by done. split; [by intros -> | by intros [= ->]].
    + apply Ascii.eqb_neq in E. split; [|by intros [= ? _]].
      intros Hz. exfalso. apply E, schar_code. lia.
Qed.

Lemma strip_no_nul s : no_nul s = true -> no_nul (strip s) = true.
Proof.
  unfold no_nul. induction s as [|c s IH]; [done|]. cbn. intros H. bool_to_prop.
  destruct (isspace c); cbn; [auto|]. rewrite H. auto.
Qed.

(** str_wscmp compares two texts as they are without their white space, wherever it
    stands: it returns 0 exactly when they agree, and otherwise the difference of the first
    characters that differ, the second text minus the first, the opposite sign of the strcmp
    its header likens it to. *)
Theorem str_wscmp_order p q :
  no_nul p = true -> no_nul q = true ->
  str_wscmp p q = first_difference (strip q) (strip p) /\
  (str_wscmp p q = 0 <-> strip p = strip q).
Proof.
  intros Hp Hq. assert (H : str_wscmp p q = first_difference (strip q) (strip p)).
  { unfold str_wscmp. rewrite <- (strip_skip p), <- (strip_skip q).
    apply wscmp_loop_spec; [by apply skip_ws_no_nul.. | apply skip_ws_head | apply skip_ws_head | done]. }
  split; [done|]. rewrite H, first_difference_eq by (by apply strip_no_nul). done.
Qed.

Lemma str_wscmp_order_witness :
  str_wscmp " a b" "a c " = first_difference "ac" "ab" /\
  (str_wscmp " a b" "a c " = 0 <-> strip " a b" = strip "a c ").
Proof. apply (str_wscmp_order " a b" "a c "); reflexivity. Defined.
