(* ===== verification/OptionTable.v ===== *)
(** * OptionTable: the option tables of pkg/build/config_opt.c

    [openrg_hw_options], [openrg_os_options], [openrg_distribution_options] and
    [config_options_base], row by row.  The big tables are cut into consecutive
    pieces, each naming the lines of config_opt.c it translates, and put
    together again at the end.  A row of the source with one to four
    initialisers is [opt1] to [opt4]; the members it leaves out are zero, as in
    C; the NULL row that ends each array is the end of the list. *)
From S2P Require Import Prelude ConfigOpt.

Notation NULL := (@None string) (only parsing).
Notation "a .| b" := (Z.lor a b) (at level 50, left associativity).

Definition opt4 (tok : string) (v : option string) (ty : Z) (d : option string) : option_t :=
  mk_option tok v ty d None 0 0.
Definition opt3 tok v ty : option_t := opt4 tok v ty None.
Definition opt2 tok v : option_t := opt3 tok v 0.
Definition opt1 tok : option_t := opt2 tok None.

(** config_opt.c, lines 34 to 101. *)
Definition openrg_hw_options : list option_t := [
  opt2 "WADB102GB" (Some "BCM6348");
  opt2 "ASUS6020VI" (Some "BCM6348");
  opt2 "WADB100G" (Some "BCM6348");
  opt2 "MPC8272ADS" (Some "FreeScale mpc8272ads");
  opt2 "EP8248" (Some "Embedded Planet EP8248 (FreeScale mpc8248)");
  opt2 "MPC8349ITX" (Some "FreeScale mpc8349-itx");
  opt2 "ALLWELL_RTL_RTL" (Some "Allwell");
  opt2 "ALLWELL_RTL_RTL_ISL38XX" (Some "Allwell");
  opt2 "ALLWELL_RTL_EEP" (Some "Allwell 1030N");
  opt2 "ALLWELL_ATMNULL_RTL" (Some "Allwell");
  opt2 "PCBOX_EEP_EEP" (Some "Generic PCBOX");
  opt2 "CX82100" (Some "Conexant CX82100");
  opt2 "TI_404" (Some "TNETC440");
  opt2 "AR531X_G" (Some "Atheros AR531x");
  opt2 "AR531X_AG" (Some "Atheros AR531x A+G");
  opt2 "AR531X_WRT55AG" (Some "Gemtek WRT55AG Atheros AR531X");
  opt2 "WRT108G" (Some "WRT108G");
  opt2 "TI_TNETWA100" (Some "TI TNETWA100 AP VX");
  opt2 "I386_BOCHS" (Some "Jungo i386");
  opt2 "IXDP425" (Some "IXDP425");
  opt2 "IXDP425_TMT" (Some "IXDP425");
  opt2 "MATECUMBE" (Some "Matecumbe");
  opt2 "COYOTE" (Some "Coyote");
  opt2 "KINGSCANYON" (Some "Kings Canyon");
  opt2 "ROCKAWAYBEACH" (Some "Rockaway Beach");
  opt2 "HG21" (Some "HG21");
  opt2 "NAPA" (Some "Napa");
  opt2 "BAMBOO" (Some "Bamboo");
  opt2 "BCM94702" (Some "Broadcom 94702");
  opt2 "BCM94704" (Some "Broadcom 94704");
  opt2 "BCM94712" (Some "Broadcom 94712");
  opt2 "BCM96358" (Some "Broadcom 96358");
  opt2 "RTA770W" (Some "Belkin RTA770W");
  opt2 "GTWX5803" (Some "Gemtek GTWX5803");
  opt2 "RTA770W_RGLOADER" (Some "Belkin RTA770W RGLoader");
  opt2 "WRT54G" (Some "Cybertan WRT54G");
  opt2 "USR8200" (Some "US Robotics USR8200");
  opt2 "GTWX5715" (Some "Gemtek WX5715");
  opt2 "WAV54G" (Some "Cybertan WAV54G");
  opt2 "INCAIP" (Some "Infineon INCA-IP");
  opt2 "INCAIP_LSP" (Some "Infineon INCA-IP LSP");
  opt2 "INCAIP_RGLOADER" (Some "RGLoader for Infineon INCA-IP");
  opt2 "ALLTEK" (Some "Alltek INCA-IP ATA");
  opt2 "FLEXTRONICS" (Some "Infineon Flextronics");
  opt2 "ALLTEK_VLAN" (Some "Alltek INCA-IP IAD");
  opt2 "ALLTEK_RGLOADER" (Some "RGLoader for Infineon INCA-IP ATA/IAD");
  opt2 "ADM5120P" (Some "ADMTek 5120P");
  opt2 "BCM91125E" (Some "Broadcom 91125E");
  opt2 "COLORADO" (Some "Interface Masters Colorado");
  opt2 "CX8620XR" (Some "Conexant CX8620X Reference Board");
  opt2 "CX8620XD" (Some "Conexant CX8620X Development Board");
  opt2 "CX9451X" (Some "Conexant CX9451x Solos");
  opt2 "COMCERTO" (Some "Mindspeed M828xx Development Board");
  opt2 "CENTROID" (Some "Storlink Centroid");
  opt2 "MONTEJADE" (Some "Monte Jade");
  opt2 "PUNDIT" (Some "Asus Pundit");
  opt2 "BRUCE" (Some "Jabil Bruce");
  opt2 "JIWIS800" (Some "JStream JI-WIS 800 Platform");
  opt2 "JIWIS832" (Some "JStream JI-WIS 832 Platform");
  opt2 "JIWIS832FL" (Some "JStream JI-WIS 832FL (Forval) Platform");
  opt2 "TWINPASS" (Some "Infineon TwinPass Reference Board");
  opt2 "ULTRALINE3_TWINPASS" (Some "Westell UltraLine Series3");
  opt2 "ULTRALINE3_TWINPASS_TURBO" (Some "Westell UltraLine Series3 Turbo");
  opt2 "AD6834" (Some "ADI AD6834 Reference Board");
  opt2 "CENTAUR" (Some "MICREL CENTAUR KS8695PX");
  opt2 "UML" (Some "UML");
  opt2 "JPKG" (Some "JPKG") ].

(** config_opt.c, lines 106 to 110. *)
Definition openrg_os_options : list option_t := [
  opt2 "LINUX_22" NULL;
  opt2 "LINUX_24" NULL;
  opt2 "LINUX_26" NULL;
  opt2 "ECOS" NULL;
  opt2 "VXWORKS" NULL ].

(** config_opt.c, lines 116 to 265. *)
Definition openrg_distribution_options_1 : list option_t := [
  opt2 "INCAIP_LSP" NULL;
  opt2 "INCAIP" NULL;
  opt2 "INCAIP_IPPHONE" NULL;
  opt2 "INCAIP_ATA" NULL;
  opt2 "INCAIP_ATA_OSIP" NULL;
  opt2 "INCAIP_VGW" NULL;
  opt2 "INCAIP_VGW_OSIP" NULL;
  opt2 "INCAIP_FULLSOURCE" NULL;
  opt2 "FLEXTRONICS_IPPHONE" NULL;
  opt2 "ADM5120_LSP" NULL;
  opt2 "BCM91125E" NULL;
  opt2 "BCM_SB1125" NULL;
  opt2 "RGLOADER_ADM5120" NULL;
  opt2 "ADM5120_VGW" NULL;
  opt2 "ADM5120_VGW_OSIP" NULL;
  opt2 "ADM5120_ATA" NULL;
  opt2 "BCM94702" NULL;
  opt2 "BCM94704" NULL;
  opt2 "USI_BCM94712" NULL;
  opt2 "SRI_USI_BCM94712" NULL;
  opt2 "RTA770W" NULL;
  opt2 "RTA770W_EVAL" NULL;
  opt2 "RGLOADER_RTA770W" NULL;
  opt2 "GTWX5803" NULL;
  opt2 "RGLOADER_GTWX5803" NULL;
  opt2 "WRT54G" NULL;
  opt2 "BCM96358" NULL;
  opt2 "BCM96358_LSP" NULL;
  opt2 "ALLWELL_RTL_RTL" NULL;
  opt2 "ALLWELL_RTL_RTL_SSI" NULL;
  opt2 "ALLWELL_RTL_RTL_ISL38XX" NULL;
  opt2 "ALLWELL_RTL_RTL_ALADDIN" NULL;
  opt2 "ALLWELL_RTL_RTL_WELLTECH" NULL;
  opt2 "ALLWELL_RTL_EEP" NULL;
  opt2 "ALLWELL_ATMNULL_RTL" NULL;
  opt2 "PCBOX_EEP_EEP" NULL;
  opt2 "PCBOX_EEP_EEP_EICON" NULL;
  opt2 "PCBOX_RTL_RTL_EICON" NULL;
  opt2 "X86_FRG_TMT" NULL;
  opt2 "CX82100_SCHMID" NULL;
  opt2 "CENTROID" NULL;
  opt2 "RGLOADER_CENTROID" NULL;
  opt2 "IXDP425" NULL;
  opt2 "IXDP425_WIRELESS" NULL;
  opt2 "IXDP425_ATM_WIRELESS" NULL;
  opt2 "IXDP425_FULLSOURCE" NULL;
  opt2 "IXDP425_NETKLASS" NULL;
  opt2 "IXDP425_VPN" NULL;
  opt2 "IXDP425_FRG" NULL;
  opt2 "IXDP425_TMT" NULL;
  opt2 "WADB102GB" NULL;
  opt2 "RGLOADER_WADB102GB" (Some "WADB102GB RGLOADER");
  opt2 "ASUS6020VI" NULL;
  opt2 "WADB100G" NULL;
  opt2 "RGLOADER_WADB100G" (Some "WADB100G RGLOADER");
  opt2 "MPC8272ADS_LSP" NULL;
  opt2 "MPC8272ADS" NULL;
  opt2 "EP8248_LSP_26" NULL;
  opt2 "EP8248_26" NULL;
  opt2 "MPC8349ITX_LSP" NULL;
  opt2 "MPC8349ITX" NULL;
  opt2 "IXDP425_LSP" NULL;
  opt2 "IXDP425_ATM" NULL;
  opt2 "COYOTE_CAVIUM" NULL;
  opt2 "MATECUMBE" NULL;
  opt2 "COYOTE" NULL;
  opt2 "COYOTE_ACTIONTEC_OSIP" NULL;
  opt2 "KINGSCANYON" NULL;
  opt2 "RGLOADER_KINGSCANYON_LSP" NULL;
  opt2 "KINGSCANYON_LSP" NULL;
  opt2 "KINGSCANYON_WIRELESS" NULL;
  opt2 "ROCKAWAYBEACH" NULL;
  opt2 "ROCKAWAYBEACH_WIRELESS" NULL;
  opt2 "HG21" NULL;
  opt2 "COYOTE_LSP" NULL;
  opt2 "COYOTE_WIRELESS_80211B" NULL;
  opt2 "COYOTE_WIRELESS_ISL" NULL;
  opt2 "COYOTE_WIRELESS_SOFTMAC" NULL;
  opt2 "COYOTE_WIRELESS_RALINK" NULL;
  opt2 "COYOTE_EEP" NULL;
  opt2 "BRUCE" NULL;
  opt2 "RGLOADER_BRUCE" NULL;
  opt2 "COYOTE_ATM_WIRELESS_ISL" (Some "Coyote with ADSL and Wireless");
  opt2 "COYOTE_ALL" (Some "Coyote with everything on it");
  opt2 "NAPA" NULL;
  opt2 "BAMBOO" NULL;
  opt2 "BAMBOO_ALADDIN" NULL;
  opt2 "USR8200" NULL;
  opt2 "USR8200_ALADDIN" NULL;
  opt2 "USR8200_EVAL" NULL;
  opt2 "USR8200_TUTORIAL" NULL;
  opt2 "GTWX5715" NULL;
  opt2 "IXDP425_CYBERTAN" NULL;
  opt2 "WAV54G" NULL;
  opt2 "MONTEJADE" NULL;
  opt2 "MONTEJADE_ATM" NULL;
  opt2 "TWINPASS" NULL;
  opt2 "ULTRALINE3_TWINPASS" NULL;
  opt2 "WSTL_ULS3_DUAL_MOCA_64" NULL;
  opt2 "WSTL_ULS3_DUAL_MOCA_USB_64" NULL;
  opt2 "WSTL_ULS3_DUAL_MOCA_USB_11N_64" NULL;
  opt2 "WSTL_ULS3_VDSL_IKANOS_64" NULL;
  opt2 "WSTL_ULS3_VDSL_INFINEON_64" NULL;
  opt2 "WSTL_ULS3_VDSL_IKANOS_GENERIC_64" NULL;
  opt2 "WSTL_ULS3_WAN_ETHERNET_64" NULL;
  opt2 "WSTL_ULS3_WAN_ETHERNET_CO_64" NULL;
  opt2 "WSTL_ULS3_DMOCA_GENERIC_64" NULL;
  opt2 "WSTL_ULS3_VDSL_INFINEON_GENERIC_64" NULL;
  opt2 "WSTL_ULS3_TURBO_DUAL_MOCA_64" NULL;
  opt2 "WSTL_ULS3_TURBO_DUAL_MOCA_11N_64" NULL;
  opt2 "WSTL_ULS3_TURBO_M100_64" NULL;
  opt2 "WSTL_ULS3_TURBO_COMMON_ART_64" NULL;
  opt2 "WSTL_ULS3_VDSL_INFINEON_GENERIC_USB_64" NULL;
  opt2 "AD6834" NULL;
  opt2 "AD6834_26" NULL;
  opt2 "AD6834_26_LSP" NULL;
  opt2 "REDBOOT_RICHFIELD" NULL;
  opt2 "REDBOOT_MATECUMBE" NULL;
  opt2 "REDBOOT_COYOTE" NULL;
  opt2 "REDBOOT_NAPA" NULL;
  opt2 "CX8620XR_LSP" NULL;
  opt2 "CX8620XD_LSP" NULL;
  opt2 "CX8620XR" NULL;
  opt2 "CX8620XD_FILESERVER" NULL;
  opt2 "CX8620XD_SOHO" NULL;
  opt2 "RGLOADER_CX8620XD" NULL;
  opt2 "SOLOS" NULL;
  opt2 "SOLOS_LSP" NULL;
  opt2 "MALINDI" NULL;
  opt2 "MALINDI2" NULL;
  opt2 "RGLOADER_MATECUMBE" NULL;
  opt2 "RGLOADER_IXDP425" NULL;
  opt2 "RGLOADER_IXDP425_16MB" NULL ].

(** config_opt.c, lines 266 to 400. *)
Definition openrg_distribution_options_2 : list option_t := [
  opt2 "RGLOADER_IXDP425_LSP" NULL;
  opt2 "RGLOADER_NAPA" NULL;
  opt2 "RGLOADER_KINGSCANYON" NULL;
  opt2 "RGLOADER_ROCKAWAYBEACH" NULL;
  opt2 "RGLOADER_USR8200" NULL;
  opt2 "RGLOADER_COYOTE" NULL;
  opt2 "RGLOADER_COYOTE_64MB_RAM" NULL;
  opt2 "RGLOADER_COYOTE_64MB_RAM_32MB_FLASH" NULL;
  opt2 "RGLOADER_COYOTE_LSP" NULL;
  opt2 "RGLOADER_HG21" NULL;
  opt2 "RGLOADER_GTWX5715" NULL;
  opt2 "RGLOADER_BAMBOO" NULL;
  opt2 "RGLOADER_ALLWELL_RTL_RTL" NULL;
  opt2 "RGLOADER_ALLWELL_RTL_EEP" NULL;
  opt2 "RGLOADER_ALLWELL_EEP_EEP" NULL;
  opt2 "RGLOADER_UML" NULL;
  opt2 "RGLOADER_WAV54G" NULL;
  opt2 "RGLOADER_X86_TMT" NULL;
  opt2 "RGLOADER_INCAIP" NULL;
  opt2 "RGLOADER_ALLTEK" NULL;
  opt2 "RGLOADER_ALLTEK_FULLSOURCE" NULL;
  opt2 "RGLOADER_FLEXTRONICS" NULL;
  opt2 "RGLOADER_MONTEJADE" NULL;
  opt2 "RGLOADER_JIWIS8XX" NULL;
  opt2 "TI_WPA_VX" NULL;
  opt2 "TI_404_VX_EVAL" NULL;
  opt2 "TI_404_VX_CH_ESCROW_FULL" NULL;
  opt2 "TI_404_VX_CH_ESCROW_PARTIAL" NULL;
  opt2 "TI_TNETC440_VX_CH" NULL;
  opt2 "HITRON_TNETC440_VX" NULL;
  opt2 "HITRON_TNETC440_VX_CH" NULL;
  opt2 "TI_404_VX_CH_EVAL" NULL;
  opt2 "ARRIS_TI_404_VX" NULL;
  opt2 "ARRIS_TI_404_VX_CH" NULL;
  opt2 "T_TI_404_VX" NULL;
  opt2 "T_TI_404_VX_CH" NULL;
  opt2 "AR2313_LIZZY" NULL;
  opt2 "AR2313_ZIPPY" NULL;
  opt2 "ATHEROS_AR531X_VX" NULL;
  opt2 "WRT108G_VX" NULL;
  opt2 "WRT55AG" NULL;
  opt2 "WRT55AG_INT" NULL;
  opt2 "ATHEROS_AR531X_AG_VX" NULL;
  opt2 "I386_BOCHS_VX" NULL;
  opt2 "BOCHS_LIZZY" NULL;
  opt2 "BOCHS_ZIPPY" NULL;
  opt2 "ALLWELL_RTL_RTL_VALGRIND" NULL;
  opt2 "UML_ATM" NULL;
  opt2 "UML_ATM_VALGRIND" NULL;
  opt2 "UML" NULL;
  opt2 "UML_GLIBC" NULL;
  opt2 "UML_DUAL_WAN" NULL;
  opt2 "UML_26" NULL;
  opt2 "UML_LSP" NULL;
  opt2 "UML_LSP_26" NULL;
  opt2 "UML_VALGRIND" NULL;
  opt2 "UML_IPPHONE_VALGRIND" NULL;
  opt2 "UML_IPPHONE" NULL;
  opt2 "UML_ATA" NULL;
  opt2 "UML_ATA_OSIP" NULL;
  opt2 "UML_ATA_OSIP_VALGRIND" NULL;
  opt2 "UML_ATA_VALGRIND" NULL;
  opt2 "CENTAUR" (Some "MICREL CENTAUR KS8695PX");
  opt2 "CENTAUR_VGW" (Some "MICREL CENTAUR KS8695PX VOICE GATEWAY");
  opt2 "CENTAUR_LSP" (Some "MICREL CENTAUR KS8695PX LSP");
  opt2 "RGLOADER_CENTAUR" (Some "MICREL CENTAUR KS8695PX RGLOADER");
  opt2 "JIWIS8XX" (Some "JStream JI-WIS 8XX");
  opt2 "JPKG_SRC" NULL;
  opt2 "JPKG_I386" NULL;
  opt2 "JPKG_UML" NULL;
  opt2 "JPKG_ARMV5B" NULL;
  opt2 "JPKG_ARMV5L" NULL;
  opt2 "JPKG_PPC" NULL;
  opt2 "JPKG_BCM9634X" NULL;
  opt2 "JPKG_MIPSEB" NULL;
  opt2 "JPKG_SB1250" NULL;
  opt2 "JPKG_TWINPASS" NULL;
  opt2 "JPKG_XSCALE" NULL;
  opt2 "JPKG_ARM_920T_LE" NULL;
  opt2 "JPKG_LX4189" NULL;
  opt2 "JPKG_LOCAL_I386" NULL;
  opt2 "JPKG_ARMV4L" NULL;
  opt2 "JPKG_ARM_LINUX_UCLIBC" NULL;
  opt2 "FULL" (Some "Full distribution (OS-less, HW-less)");
  opt2 "RGTV" NULL;
  opt2 "JNET_SERVER" NULL ].

Definition openrg_distribution_options : list option_t :=
  (openrg_distribution_options_1 ++
   openrg_distribution_options_2)%list.

(** config_opt.c, lines 408 to 557. *)
Definition config_options_base_1 : list option_t := [
  opt2 "CONFIG_RG_DEV_IF_EEPRO100" NULL;
  opt2 "CONFIG_RG_DEV_IF_EEPRO1000" NULL;
  opt2 "CONFIG_RG_DEV_IF_ETH1394" NULL;
  opt2 "CONFIG_RG_DEV_IF_INCAIP_ETH" NULL;
  opt2 "CONFIG_RG_DEV_IF_INCAIP_VLAN" NULL;
  opt2 "CONFIG_RG_DEV_IF_ISL38XX" NULL;
  opt2 "CONFIG_RG_DEV_IF_ISL_SOFTMAC" NULL;
  opt3 "CONFIG_RG_DEV_IF_BCM43XX" NULL OPT_HC;
  opt2 "CONFIG_RG_DEV_IF_PRISM2" NULL;
  opt2 "CONFIG_RG_DEV_IF_RT2560" NULL;
  opt2 "CONFIG_RG_DEV_IF_RT2561" NULL;
  opt2 "CONFIG_RG_DEV_IF_AGN100" NULL;
  opt2 "CONFIG_RG_DEV_IF_AR531X_WLAN_G" NULL;
  opt2 "CONFIG_RG_DEV_IF_AR531X_WLAN_A" NULL;
  opt2 "CONFIG_RG_DEV_IF_AR531X_ETH" NULL;
  opt2 "CONFIG_RG_DEV_IF_IXP425_DSL" NULL;
  opt2 "CONFIG_RG_DEV_IF_IXP425_ETH" NULL;
  opt2 "CONFIG_RG_DEV_IF_NATSEMI" NULL;
  opt2 "CONFIG_RG_DEV_IF_NE2000" NULL;
  opt2 "CONFIG_RG_DEV_IF_NE2K_VX" NULL;
  opt2 "CONFIG_RG_DEV_IF_RTL8139" NULL;
  opt2 "CONFIG_RG_DEV_IF_MPC82XX_ETH" NULL;
  opt2 "CONFIG_RG_DEV_IF_TI404_CBL" NULL;
  opt2 "CONFIG_RG_DEV_IF_TI404_LAN" NULL;
  opt2 "CONFIG_RG_DEV_IF_TI_CABLE" NULL;
  opt2 "CONFIG_RG_DEV_IF_UML" NULL;
  opt2 "CONFIG_RG_DEV_IF_UML_HW_SWITCH" NULL;
  opt2 "CONFIG_RG_DEV_IF_USB_RNDIS" NULL;
  opt2 "CONFIG_RG_DEV_IF_VLAN" NULL;
  opt2 "CONFIG_RG_DEV_IF_PPPOA" NULL;
  opt2 "CONFIG_RG_DEV_IF_PPPOE" NULL;
  opt2 "CONFIG_RG_DEV_IF_PPPSTUB" NULL;
  opt2 "CONFIG_RG_DEV_IF_PPPOES_CONN" NULL;
  opt2 "CONFIG_RG_DEV_IF_PPPOH" NULL;
  opt2 "CONFIG_RG_DEV_IF_ETHOA" NULL;
  opt2 "CONFIG_RG_DEV_IF_PPTPC" NULL;
  opt2 "CONFIG_RG_DEV_IF_PPTPS_CONN" NULL;
  opt2 "CONFIG_RG_DEV_IF_L2TPS_CONN" NULL;
  opt2 "CONFIG_RG_DEV_IF_IPSEC_DEV" NULL;
  opt2 "CONFIG_RG_DEV_IF_IPSEC_CONN" NULL;
  opt2 "CONFIG_RG_DEV_IF_IPSEC_TEMPL" NULL;
  opt2 "CONFIG_RG_DEV_IF_IPSEC_TEMPL_TRANSIENT" NULL;
  opt2 "CONFIG_RG_DEV_IF_IPSEC_TEMPL_CONN" NULL;
  opt2 "CONFIG_RG_DEV_IF_BRIDGE" NULL;
  opt2 "CONFIG_RG_DEV_IF_CHWAN_MASTER" NULL;
  opt2 "CONFIG_RG_DEV_IF_DOCSIS" NULL;
  opt2 "CONFIG_RG_DEV_IF_ETH_SHADOW" NULL;
  opt2 "CONFIG_RG_DEV_IF_ELCP" NULL;
  opt2 "CONFIG_RG_DEV_IF_CAS" NULL;
  opt2 "CONFIG_RG_DEV_IF_CLIP" NULL;
  opt2 "CONFIG_RG_DEV_IF_L2TPC" NULL;
  opt2 "CONFIG_RG_DEV_IF_TICPE" NULL;
  opt2 "CONFIG_RG_DEV_IF_USER_VLAN" NULL;
  opt2 "CONFIG_RG_DEV_IF_IPV6_OVER_IPV4_TUN" NULL;
  opt2 "CONFIG_RG_DEV_IF_IPOA" NULL;
  opt2 "CONFIG_RG_DEV_IF_ATM_NULL" NULL;
  opt2 "CONFIG_RG_DEV_IF_BCM963XX_ETH" NULL;
  opt2 "CONFIG_RG_DEV_IF_CX821XX_ETH" NULL;
  opt2 "CONFIG_RG_DEV_IF_BCM963XX_ADSL" NULL;
  opt2 "CONFIG_RG_DEV_IF_BCM4710_ETH" NULL;
  opt2 "CONFIG_RG_DEV_IF_ADM5120_ETH" NULL;
  opt2 "CONFIG_RG_DEV_IF_CX8620X_SWITCH" NULL;
  opt2 "CONFIG_RG_DEV_IF_AD6834_ETH" NULL;
  opt2 "CONFIG_RG_DEV_IF_AD68XX_ADSL" NULL;
  opt2 "CONFIG_RG_DEV_IF_KS8695_ETH" NULL;
  opt2 "CONFIG_RG_DEV_IF_BCM5325A_HW_SWITCH" NULL;
  opt2 "CONFIG_RG_DEV_IF_BCM5325E_HW_SWITCH" NULL;
  opt2 "CONFIG_RG_DEV_IF_BRCM91125E_ETH" NULL;
  opt2 "CONFIG_RG_DEV_IF_RTL8305SC_HW_SWITCH" NULL;
  opt2 "CONFIG_RG_DEV_IF_RTL8305SB_HW_SWITCH" NULL;
  opt2 "CONFIG_RG_DEV_IF_COMCERTO_ETH" NULL;
  opt2 "CONFIG_RG_DEV_IF_SOLOS_WLAN" NULL;
  opt2 "CONFIG_RG_DEV_IF_SOLOS_LAN" NULL;
  opt2 "CONFIG_RG_DEV_IF_SOLOS_DMZ" NULL;
  opt2 "CONFIG_RG_DEV_IF_SOLOS_DSL" NULL;
  opt2 "CONFIG_RG_DEV_IF_AR521X" NULL;
  opt2 "CONFIG_RG_DEV_IF_AR521X_VAP" NULL;
  opt2 "CONFIG_RG_DEV_IF_AR50WL" NULL;
  opt2 "CONFIG_RG_DEV_IF_AR50WL_VAP" NULL;
  opt2 "CONFIG_RG_DEV_IF_TWINPASS_ETH" NULL;
  opt2 "CONFIG_RG_DEV_IF_MV88E60XX_HW_SWITCH" NULL;
  opt2 "CONFIG_RG_DEV_IF_MV88E60XX_HW_WAN_SWITCH" NULL;
  opt2 "CONFIG_RG_DEV_IF_MOCA_EN2210_MII" NULL;
  opt2 "CONFIG_RG_DEV_IF_IKANOS_VDSL" NULL;
  opt2 "CONFIG_RG_DEV_IF_INFINEON_VDSL" NULL;
  opt2 "CONFIG_RG_DEV_IF_PSB6973_HW_SWITCH" NULL;
  opt2 "CONFIG_RG_DEV_IF_PSB6973_HW_WAN_SWITCH" NULL;
  opt2 "CONFIG_RG_TURBO_SWITCH_IGMP" NULL;
  opt3 "CONFIG_RG_TURBO_SWITCH_IGMP_MODULE" NULL (OPT_MK .| OPT_HC .| OPT_MODULE_EXPAND);
  opt3 "CONFIG_BOOTLDR_UBOOT" NULL OPT_HC;
  opt3 "CONFIG_BOOTLDR_UBOOT_COMP" NULL (OPT_HC .| OPT_C_STR);
  opt3 "RG_PROD_STR" NULL OPT_C_STR;
  opt3 "CONFIG_RG_OS" NULL (OPT_C_STR .| OPT_EXPORT);
  opt3 "CONFIG_RG_HW" NULL (OPT_HC .| OPT_C_STR .| OPT_EXPORT);
  opt3 "RMT_UPG_SITE" NULL (OPT_HC .| OPT_C_STR);
  opt3 "RMT_UPG_URL" NULL (OPT_HC .| OPT_C_STR);
  opt2 "CONFIG_RG_DEV_IF_SL2312_ETH" NULL;
  opt3 "CONFIG_RG_HW_DESC_STR" NULL (OPT_HC .| OPT_C_STR);
  opt3 "CONFIG_RG_DIST" NULL (OPT_HC .| OPT_C_STR);
  opt3 "CONFIG_RG_WIRELESS_COUNTRY_REGION" NULL (OPT_HC .| OPT_C_STR);
  opt3 "CONFIG_RG_WIRELESS_COUNTRY_CODE" NULL (OPT_HC .| OPT_C_STR);
  opt3 "CONFIG_RG_HTTP_AUTH" NULL OPT_HC;
  opt2 "CONFIG_RG_JPKG" NULL;
  opt3 "CONFIG_RG_JPKG_DEBUG" NULL (OPT_MK .| OPT_EXPORT);
  opt3 "CONFIG_RG_JPKG_SRC" NULL OPT_HC;
  opt2 "CONFIG_RG_JPKG_BIN" NULL;
  opt2 "CONFIG_RG_JPKG_I386" NULL;
  opt2 "CONFIG_RG_JPKG_UML" NULL;
  opt2 "CONFIG_RG_JPKG_ARMV5B" NULL;
  opt2 "CONFIG_RG_JPKG_ARMV5L" NULL;
  opt2 "CONFIG_RG_JPKG_ARMV4L" NULL;
  opt2 "CONFIG_RG_JPKG_PPC" NULL;
  opt2 "CONFIG_RG_JPKG_MIPSEB" NULL;
  opt2 "CONFIG_RG_JPKG_BCM9634X" NULL;
  opt2 "CONFIG_RG_JPKG_SB1250" NULL;
  opt2 "CONFIG_RG_JPKG_TWINPASS" NULL;
  opt2 "CONFIG_RG_JPKG_XSCALE" NULL;
  opt2 "CONFIG_RG_JPKG_ARM_920T_LE" NULL;
  opt2 "CONFIG_RG_JPKG_LX4189" NULL;
  opt2 "CONFIG_RG_JPKG_LOCAL_I386" NULL;
  opt2 "CONFIG_RG_JPKG_BUILD_LIBC" NULL;
  opt2 "CONFIG_RG_JPKG_ARM_LINUX_UCLIBC" NULL;
  opt2 "CONFIG_RG_FULL_FEATURES" NULL;
  opt3 "CONFIG_RG_SMB" NULL OPT_HC;
  opt3 "JPKG_DISTS" NULL (OPT_MK .| OPT_STR);
  opt3 "JPKG_ARCH" NULL (OPT_H .| OPT_STR);
  opt2 "CONFIG_MMU" NULL;
  opt2 "CONFIG_CLEAN_COMPILE" NULL;
  opt2 "CONFIG_BROKEN_ON_SMP" NULL;
  opt3 "CONFIG_INIT_ENV_ARG_LIMIT" NULL OPT_NUMBER;
  opt2 "CONFIG_PRINTK" NULL;
  opt2 "CONFIG_BUG" NULL;
  opt2 "CONFIG_BASE_FULL" NULL;
  opt2 "CONFIG_FUTEX" NULL;
  opt2 "CONFIG_EPOLL" NULL;
  opt2 "CONFIG_TINY_SHMEM" NULL;
  opt3 "CONFIG_BASE_SMALL" NULL OPT_NUMBER;
  opt2 "CONFIG_OBSOLETE_MODPARM" NULL;
  opt2 "CONFIG_KMOD" NULL;
  opt2 "CONFIG_X86_XADD" NULL;
  opt2 "CONFIG_GENERIC_CALIBRATE_DELAY" NULL ].

(** config_opt.c, lines 558 to 707. *)
Definition config_options_base_2 : list option_t := [
  opt2 "CONFIG_HIGHMEM" NULL;
  opt2 "CONFIG_BINFMT_MISC" NULL;
  opt2 "CONFIG_STANDALONE" NULL;
  opt2 "CONFIG_PREVENT_FIRMWARE_BUILD" NULL;
  opt3 "CONFIG_BLK_DEV_RAM_COUNT" NULL OPT_NUMBER;
  opt2 "CONFIG_IOSCHED_NOOP" NULL;
  opt2 "CONFIG_IOSCHED_AS" NULL;
  opt2 "CONFIG_IOSCHED_DEADLINE" NULL;
  opt2 "CONFIG_IOSCHED_CFQ" NULL;
  opt3 "CONFIG_DEFAULT_IOSCHED" NULL OPT_STR;
  opt3 "CONFIG_NET_IPGRE" NULL OPT_MODULE_EXPAND;
  opt2 "CONFIG_NET_IPGRE_BROADCAST" NULL;
  opt2 "CONFIG_INET_TUNNEL" NULL;
  opt2 "CONFIG_XFRM" NULL;
  opt2 "CONFIG_NET_SCH_CLK_JIFFIES" NULL;
  opt2 "CONFIG_LEGACY_PTYS" NULL;
  opt3 "CONFIG_LEGACY_PTY_COUNT" NULL OPT_NUMBER;
  opt3 "CONFIG_LOG_BUF_SHIFT" NULL OPT_NUMBER;
  opt2 "CONFIG_CRC32" NULL;
  opt2 "CONFIG_GENERIC_HARDIRQS" NULL;
  opt2 "CONFIG_UML_X86" NULL;
  opt2 "CONFIG_ARCH_HAS_SC_SIGNALS" NULL;
  opt3 "CONFIG_TOP_ADDR" NULL OPT_NUMBER;
  opt2 "CONFIG_ARCH_REUSE_HOST_VSYSCALL_AREA" NULL;
  opt2 "CONFIG_LD_SCRIPT_STATIC" NULL;
  opt2 "CONFIG_UML_REAL_TIME_CLOCK" NULL;
  opt2 "CONFIG_NOCONFIG_CHAN" NULL;
  opt2 "CONFIG_BLK_DEV_COW_COMMON" NULL;
  opt2 "CONFIG_QUOTACTL" NULL;
  opt2 "CONFIG_MODULE_UNLOAD" NULL;
  opt2 "CONFIG_HAVE_DEC_LOCK" NULL;
  opt2 "CONFIG_IRQ_CPU" NULL;
  opt2 "CONFIG_CPU_R3000" NULL;
  opt2 "CONFIG_LOCKD_V4" NULL;
  opt3 "CONFIG_CC_ALIGN_FUNCTIONS" NULL OPT_NUMBER;
  opt3 "CONFIG_CC_ALIGN_JUMPS" NULL OPT_NUMBER;
  opt3 "CONFIG_CC_ALIGN_LABELS" NULL OPT_NUMBER;
  opt3 "CONFIG_CC_ALIGN_LOOPS" NULL OPT_NUMBER;
  opt2 "CONFIG_DEBUG_KERNEL" NULL;
  opt2 "CONFIG_DEBUG_PREEMPT" NULL;
  opt2 "CONFIG_PREEMPT" NULL;
  opt3 "CONFIG_INITRAMFS_SOURCE" NULL OPT_STR;
  opt3 "CONFIG_INITRAMFS_ROOT_UID" NULL OPT_STR;
  opt3 "CONFIG_INITRAMFS_ROOT_GID" NULL OPT_STR;
  opt1 "CONFIG_IP_FIB_HASH";
  opt2 "CONFIG_CC_OPTIMIZE_FOR_SIZE" NULL;
  opt2 "CONFIG_OBSOLETE_INTERMODULE" NULL;
  opt1 "CONFIG_TRAD_SIGNALS";
  opt1 "CONFIG_BUILD_ELF64";
  opt1 "CONFIG_BUILD_ELF32";
  opt2 "CONFIG_NFS_FS" NULL;
  opt2 "CONFIG_NFS_V3" NULL;
  opt3 "CONFIG_LOCKD" NULL OPT_MODULE_EXPAND;
  opt3 "CONFIG_RG_JPKG_DIST" (Some "JPKG_SRC") (OPT_MK .| OPT_STR);
  opt3 "ARCH" NULL (OPT_C_STR .| OPT_EXPORT);
  opt3 "LIBC_ARCH" NULL (OPT_STR .| OPT_EXPORT);
  opt2 "CONFIG_BUILD_ARCHCONFIG" NULL;
  opt2 "CONFIG_RG_DEV" NULL;
  opt4 "CONFIG_RG_IPROUTE2_UTILS" NULL OPT_HC (Some "IPRoute2 user-mode configuration tools");
  opt2 "CONFIG_RG_FOOTPRINT_REDUCTION" NULL;
  opt3 "ENDIANESS_SUFFIX" NULL OPT_STR;
  opt2 "INTERSIL_EVENTS" NULL;
  opt2 "OPENRG_DEBUG" NULL;
  opt2 "OPENRG_DEBUG_OPENRG" NULL;
  opt3 "OPENRG_DEBUG_EXEC_SH" NULL OPT_NOSTRIP;
  opt2 "OPENRG_DEBUG_FILE_OPEN" NULL;
  opt2 "CONFIG_DEBUG_KMALLOC" NULL;
  opt2 "CONFIG_DEBUG_SLAB" NULL;
  opt2 "CONFIG_DEBUG_SPINLOCK_SLEEP" NULL;
  opt2 "CONFIG_DEBUG_INFO" NULL;
  opt2 "CONFIG_KALLSYMS" NULL;
  opt2 "CONFIG_DEBUGSYM" NULL;
  opt1 "CONFIG_DISABLE_NETDEV_MODIFYING";
  opt3 "CONFIG_BRIDGE" NULL OPT_MODULE_EXPAND;
  opt3 "CONFIG_BRIDGE_UTILS" NULL OPT_HC;
  opt3 "CONFIG_IPTABLES" NULL OPT_HC;
  opt4 "CONFIG_NETFILTER" NULL OPT_MAJOR_FEATURE (Some "NetFilter Linux Firewall");
  opt1 "CONFIG_NETFILTER_XTABLES";
  opt1 "CONFIG_NETFILTER_XT_TARGET_CLASSIFY";
  opt1 "CONFIG_NETFILTER_XT_TARGET_CONNMARK";
  opt1 "CONFIG_NETFILTER_XT_TARGET_MARK";
  opt1 "CONFIG_NETFILTER_XT_TARGET_NFQUEUE";
  opt1 "CONFIG_NETFILTER_XT_TARGET_NOTRACK";
  opt1 "CONFIG_NETFILTER_XT_MATCH_COMMENT";
  opt1 "CONFIG_NETFILTER_XT_MATCH_CONNBYTES";
  opt1 "CONFIG_NETFILTER_XT_MATCH_CONNMARK";
  opt1 "CONFIG_NETFILTER_XT_MATCH_CONNTRACK";
  opt1 "CONFIG_NETFILTER_XT_MATCH_DCCP";
  opt1 "CONFIG_NETFILTER_XT_MATCH_HELPER";
  opt1 "CONFIG_NETFILTER_XT_MATCH_LENGTH";
  opt1 "CONFIG_NETFILTER_XT_MATCH_LIMIT";
  opt1 "CONFIG_NETFILTER_XT_MATCH_MAC";
  opt1 "CONFIG_NETFILTER_XT_MATCH_MARK";
  opt1 "CONFIG_NETFILTER_XT_MATCH_PKTTYPE";
  opt1 "CONFIG_NETFILTER_XT_MATCH_REALM";
  opt1 "CONFIG_NETFILTER_XT_MATCH_SCTP";
  opt1 "CONFIG_NETFILTER_XT_MATCH_STATE";
  opt1 "CONFIG_NETFILTER_XT_MATCH_STRING";
  opt1 "CONFIG_NETFILTER_XT_MATCH_TCPMSS";
  opt1 "CONFIG_NETFILTER_XT_MATCH_PHYSDEV";
  opt1 "CONFIG_NET_CLS_ROUTE";
  opt1 "CONFIG_BRIDGE_NETFILTER";
  opt1 "CONFIG_IP_NF_CT_ACCT";
  opt1 "CONFIG_IP_NF_CONNTRACK_MARK";
  opt1 "CONFIG_TEXTSEARCH";
  opt3 "CONFIG_IP_NF_FILTER" NULL OPT_MODULE_EXPAND;
  opt3 "CONFIG_IP_NF_IPTABLES" NULL OPT_MODULE_EXPAND;
  opt3 "CONFIG_IP_NF_CONNTRACK" NULL OPT_MODULE_EXPAND;
  opt2 "CONFIG_IP_NF_NAT_NEEDED" NULL;
  opt3 "CONFIG_IP_NF_NAT" NULL OPT_MODULE_EXPAND;
  opt2 "CONFIG_IP_NF_NAT_LOCAL" NULL;
  opt3 "CONFIG_IP_NF_TARGET_MASQUERADE" NULL OPT_MODULE_EXPAND;
  opt2 "CONFIG_EXPORT_BINARIES" NULL;
  opt2 "CONFIG_RG_NO_OPT" NULL;
  opt3 "CONFIG_LSP_DIST" NULL OPT_HC;
  opt3 "CONFIG_RG_RGLOADER" NULL (OPT_HC .| OPT_EXPORT);
  opt3 "CONFIG_RG_NETWORK_BOOT" NULL OPT_HC;
  opt2 "CONFIG_RG_RGLOADER_CLI_CMD" NULL;
  opt3 "CONFIG_RG_UIEVENTS" NULL OPT_HC;
  opt3 "CONFIG_RG_KLEDS" NULL OPT_MODULE_EXPAND;
  opt3 "CONFIG_RG_KRGLDR" NULL OPT_MODULE_EXPAND;
  opt3 "CONFIG_RG_KMONTE" NULL OPT_HC;
  opt2 "CONFIG_SAVE_REAL_MODE_CONF" NULL;
  opt2 "CONFIG_IXP425_POST" NULL;
  opt3 "CONFIG_PCMCIA" NULL (OPT_MODULE_EXPAND .| OPT_HC);
  opt3 "CONFIG_80211G_AP_ADVANCED" NULL OPT_HC;
  opt3 "CONFIG_80211NG_AP_ADVANCED" NULL OPT_HC ].

(** config_opt.c, lines 708 to 857. *)
Definition config_options_base_3 : list option_t := [
  opt3 "CONFIG_80211_WDS" NULL OPT_HC;
  opt2 "CONFIG_PCMCIA_80211B" NULL;
  opt3 "CONFIG_8139TOO" NULL OPT_MODULE_EXPAND;
  opt2 "CONFIG_ALIGNMENT_TRAP" NULL;
  opt3 "CONFIG_ALIGNMENT_TRAP_MODE" NULL OPT_NUMBER;
  opt2 "CONFIG_APM" NULL;
  opt2 "CONFIG_APM_POWER_OFF" NULL;
  opt2 "CONFIG_APP_IPR" NULL;
  opt2 "CONFIG_ARCH_CNXT" NULL;
  opt2 "CONFIG_ARCH_CX821XX" NULL;
  opt3 "CONFIG_ARCH_IXP22X" NULL OPT_HC;
  opt2 "CONFIG_ARCH_IXP425_IXDP425" NULL;
  opt2 "CONFIG_ARCH_IXP425_MATECUMBE" NULL;
  opt2 "CONFIG_ARCH_IXP425_COYOTE" NULL;
  opt2 "CONFIG_ARCH_IXP425_KINGSCANYON" NULL;
  opt2 "CONFIG_ARCH_IXP425_ROCKAWAYBEACH" NULL;
  opt3 "CONFIG_ARCH_IXP425_HG21" NULL OPT_HC;
  opt3 "CONFIG_ARCH_IXP425_NAPA" NULL OPT_HC;
  opt3 "CONFIG_ARCH_IXP425_BAMBOO" NULL OPT_HC;
  opt3 "CONFIG_ARCH_IXP425_JEEVES" NULL OPT_HC;
  opt3 "CONFIG_ARCH_IXP425_JIWIS800" NULL OPT_HC;
  opt3 "CONFIG_ARCH_IXP425_JIWIS832" NULL OPT_HC;
  opt3 "CONFIG_JEEVES_RTC7301" NULL OPT_MODULE_EXPAND;
  opt2 "CONFIG_ARCH_IXP425_GTWX5715" NULL;
  opt3 "CONFIG_ARCH_IXP425_WAV54G" NULL OPT_HC;
  opt2 "CONFIG_ARCH_IXP425_MONTEJADE" NULL;
  opt3 "CONFIG_ARCH_IXP425_BRUCE" NULL OPT_HC;
  opt3 "CONFIG_ARCH_IXP425_BRUCE_CPLD" NULL OPT_MODULE_EXPAND;
  opt3 "CONFIG_ARCH_MACHINE" NULL OPT_STR;
  opt3 "CONFIG_ARM" NULL OPT_HC;
  opt2 "CONFIG_ARM_THUMB" NULL;
  opt3 "CONFIG_ARMNOMMU" NULL OPT_HC;
  opt2 "CONFIG_ARM_24_FAST_MODULES" NULL;
  opt3 "CONFIG_ATALK" NULL OPT_MODULE_EXPAND;
  opt3 "CONFIG_ATM" NULL (OPT_NOSTRIP .| OPT_HC);
  opt3 "CONFIG_ATM_NULL" NULL OPT_HC;
  opt4 "CONFIG_ATM_BR2684" NULL (OPT_MODULE_EXPAND .| OPT_MAJOR_FEATURE) (Some "Ethernet over ATM (RFC2684)");
  opt4 "CONFIG_ATM_CLIP" NULL (OPT_MODULE_EXPAND .| OPT_MAJOR_FEATURE) (Some "Classical IP");
  opt3 "CONFIG_ATM_CONEXANT_DSL" NULL OPT_MODULE_EXPAND;
  opt2 "CONFIG_ATM_NICSTAR" NULL;
  opt2 "CONFIG_ATM_NICSTAR_USE_IDT77105" NULL;
  opt2 "CONFIG_ATM_SKB" NULL;
  opt4 "CONFIG_ATM_PVC_SCAN" NULL (OPT_HC .| OPT_MAJOR_FEATURE) (Some "PVC Scan");
  opt3 "CONFIG_RG_ATM_QOS" NULL OPT_HC;
  opt2 "CONFIG_AUTOFS_FS" NULL;
  opt3 "CONFIG_AUTO_LEARN_DNS" NULL OPT_HC;
  opt2 "CONFIG_BD_GOLDENGATE" NULL;
  opt2 "CONFIG_BD_MACKINAC" NULL;
  opt2 "CONFIG_BD_RUSHMORE" NULL;
  opt2 "CONFIG_CHIP_CX82100" NULL;
  opt2 "CONFIG_CHIP_CX82110" NULL;
  opt3 "CONFIG_BINFMT_ELF" NULL OPT_MODULE_EXPAND;
  opt3 "CONFIG_BINFMT_FLAT" NULL OPT_EXPORT;
  opt2 "CONFIG_BINUTILS_NEW" NULL;
  opt3 "CONFIG_BLK_DEV_IDE" NULL OPT_MODULE_EXPAND;
  opt3 "CONFIG_BLK_DEV_IDEDISK" NULL OPT_NOSTRIP;
  opt3 "CONFIG_BLK_DEV_IDECD" NULL OPT_NOSTRIP;
  opt3 "CONFIG_BLK_DEV_IDEDMA" NULL OPT_NOSTRIP;
  opt3 "CONFIG_BLK_DEV_IDEDMA_PCI" NULL OPT_NOSTRIP;
  opt3 "CONFIG_BLK_DEV_IDEPCI" NULL OPT_NOSTRIP;
  opt3 "CONFIG_BLK_DEV_OFFBOARD" NULL OPT_NOSTRIP;
  opt3 "CONFIG_BLK_DEV_SIIMAGE" NULL OPT_NOSTRIP;
  opt2 "CONFIG_BLK_DEV_CS5530" NULL;
  opt2 "CONFIG_BLK_DEV_INITRD" NULL;
  opt2 "CONFIG_BLK_DEV_LOOP" NULL;
  opt2 "CONFIG_BLK_DEV_RAM" NULL;
  opt3 "CONFIG_BLK_DEV_RAM_SIZE" NULL OPT_STR;
  opt2 "CONFIG_BLK_DEV_VIA82CXXX" NULL;
  opt2 "CONFIG_EMBEDDED_RAMDISK" NULL;
  opt2 "CONFIG_BOOT_FREE_MEM_END" NULL;
  opt2 "CONFIG_BOOT_FREE_MEM_START" NULL;
  opt2 "CONFIG_BOOT_RAM_POS" NULL;
  opt2 "CONFIG_BOOT_SP_POS" NULL;
  opt2 "CONFIG_BSD_PROCESS_ACCT" NULL;
  opt2 "CONFIG_BURNER_POS" NULL;
  opt2 "CONFIG_CARDBUS" NULL;
  opt2 "CONFIG_CD_NOPKG" NULL;
  opt3 "CONFIG_CMDLINE" NULL OPT_C_STR;
  opt2 "CONFIG_CMDLINE_BOOL" NULL;
  opt3 "CONFIG_CNXT_EMAC" NULL OPT_MODULE_EXPAND;
  opt3 "CONFIG_CNXT_ADSL" NULL OPT_MODULE_EXPAND;
  opt3 "CONFIG_CNXT_ATM" NULL OPT_MODULE_EXPAND;
  opt3 "CONFIG_CNXT_SOFTSAR" NULL OPT_MODULE_EXPAND;
  opt2 "CONFIG_ETHOA_STANDALONE" NULL;
  opt2 "CONFIG_CNXT_TERMINAL" NULL;
  opt3 "CONFIG_CONEXANT_DSL_TIGRIS" NULL OPT_MODULE_EXPAND;
  opt3 "CONFIG_CONEXANT_DSL_YUKON" NULL OPT_MODULE_EXPAND;
  opt2 "CONFIG_COPY_CRAMFS_TO_RAM" NULL;
  opt3 "CONFIG_CRAMFS_DYN_BLOCKSIZE" NULL OPT_EXPORT;
  opt3 "CONFIG_CRAMFS_BLKSZ" NULL (OPT_NUMBER .| OPT_EXPORT);
  opt2 "CONFIG_CPLUSPLUS" NULL;
  opt2 "CONFIG_CPU_32" NULL;
  opt2 "CONFIG_CPU_32v4" NULL;
  opt2 "CONFIG_CPU_32v5" NULL;
  opt2 "CONFIG_CPU_ADVANCED" NULL;
  opt2 "CONFIG_CPU_ARM7" NULL;
  opt2 "CONFIG_CPU_ARM940_CPU_IDLE" NULL;
  opt2 "CONFIG_CPU_ARM940_D_CACHE_ON" NULL;
  opt2 "CONFIG_CPU_ARM940_I_CACHE_ON" NULL;
  opt2 "CONFIG_CPU_ARM940T" NULL;
  opt2 "CONFIG_CPU_ARM940_WRITETHROUGH" NULL;
  opt2 "CONFIG_CPU_BIG_ENDIAN" NULL;
  opt2 "CONFIG_CPU_LITTLE_ENDIAN" NULL;
  opt2 "CONFIG_CPU_MIPS32" NULL;
  opt2 "CONFIG_CPU_MIPS32_R1" NULL;
  opt2 "CONFIG_CPU_XSCALE" NULL;
  opt2 "CONFIG_CPU_ARM926T" NULL;
  opt2 "CONFIG_CPU_ARM920T" NULL;
  opt2 "CONFIG_CPU_ABRT_EV4T" NULL;
  opt2 "CONFIG_CPU_CACHE_V4WT" NULL;
  opt2 "CONFIG_CPU_CACHE_VIVT" NULL;
  opt2 "CONFIG_CPU_COPY_V4WB" NULL;
  opt2 "CONFIG_CPU_TLB_V4WBI" NULL;
  opt3 "CONFIG_ROMFS_FS" NULL (OPT_HC .| OPT_EXPORT);
  opt3 "CONFIG_RG_BZIP2" NULL OPT_HC;
  opt2 "CONFIG_CPU_ARM922T" NULL;
  opt2 "CONFIG_CPU_ARM922_CPU_IDLE" NULL;
  opt2 "CONFIG_CPU_ARM922_I_CACHE_ON" NULL;
  opt2 "CONFIG_CPU_ARM922_D_CACHE_ON" NULL;
  opt3 "CONFIG_RG_NONCOMPRESSED_USERMODE_IMAGE" NULL OPT_EXPORT;
  opt2 "CONFIG_CRAMFS" NULL;
  opt3 "CONFIG_CRAMFS_FS" NULL OPT_EXPORT;
  opt3 "CONFIG_CRAMFS_FS_COMMON" NULL OPT_HC;
  opt2 "CONFIG_CRAMFS_IN_RAM" NULL;
  opt2 "CONFIG_CRAMFS_IN_RAM_OFFSET" NULL;
  opt2 "CONFIG_CRAMFS_LINEAR" NULL;
  opt2 "RG_BLOCK_SIZE_BITS" NULL;
  opt2 "CONFIG_CRAMFS_RAM_ADDR" NULL;
  opt2 "CONFIG_CROSSCOMPILE" NULL;
  opt2 "CONFIG_CONEXANT_COMMON" NULL;
  opt3 "CONFIG_CX821XX_COMMON" NULL OPT_HC;
  opt2 "CONFIG_CX821XX_MXIC_FLASH" NULL;
  opt2 "CONFIG_MINDSPEED_COMMON" NULL;
  opt2 "CONFIG_GEMTEK_COMMON" NULL;
  opt3 "CONFIG_GEMTEK_WX5715" NULL OPT_HC;
  opt2 "CONFIG_INTERSIL_COMMON" NULL;
  opt3 "CONFIG_ISL38XX" NULL (OPT_MODULE_EXPAND .| OPT_NOSTRIP);
  opt3 "CONFIG_ISL_SOFTMAC" NULL (OPT_MODULE_EXPAND .| OPT_NOSTRIP);
  opt2 "CONFIG_RG_WIRELESS_TOOLS" NULL ].

(** config_opt.c, lines 858 to 1005. *)
Definition config_options_base_4 : list option_t := [
  opt2 "CONFIG_RG_ATHEROS_WIRELESS_TOOLS" NULL;
  opt2 "CONFIG_ATHEROS_ART_TOOLS" NULL;
  opt3 "CONFIG_RALINK_RT2560" NULL (OPT_MODULE_EXPAND .| OPT_NOSTRIP);
  opt3 "CONFIG_RALINK_RT2560_TIMECSR" NULL OPT_NUMBER;
  opt3 "CONFIG_RALINK_RT2561" NULL (OPT_MODULE_EXPAND .| OPT_NOSTRIP);
  opt3 "CONFIG_AGN100" NULL (OPT_MODULE_EXPAND .| OPT_NOSTRIP);
  opt2 "CONFIG_DE4X5" NULL;
  opt3 "CONFIG_DEBUG_LL" NULL OPT_NOSTRIP;
  opt2 "CONFIG_DEBUG_USER" NULL;
  opt2 "CONFIG_DELIVER_GDBSERVER" NULL;
  opt2 "CONFIG_DEVPTS_FS" NULL;
  opt2 "CONFIG_DEF_KEYS" NULL;
  opt2 "CONFIG_DHCP_TIMEOUT" NULL;
  opt2 "CONFIG_DIST_" NULL;
  opt2 "CONFIG_DSL" NULL;
  opt3 "CONFIG_DSL_SYNCD" NULL OPT_MODULE_EXPAND;
  opt3 "CONFIG_DUETTE" NULL OPT_MODULE_EXPAND;
  opt2 "CONFIG_DUMMY_CONSOLE" NULL;
  opt2 "CONFIG_DYN_LINK" NULL;
  opt2 "CONFIG_ULIBC_SHARED" NULL;
  opt3 "CONFIG_EEPRO100" NULL OPT_MODULE_EXPAND;
  opt2 "CONFIG_E1000" NULL;
  opt3 "CONFIG_EEXPRESS_PRO100" NULL OPT_MODULE_EXPAND;
  opt2 "CONFIG_ESP_NULL_MD5_96" NULL;
  opt2 "CONFIG_ESP_NULL_SHA1_96" NULL;
  opt2 "CONFIG_EST8xx" NULL;
  opt3 "LIC" NULL OPT_STR;
  opt3 "LICSTR" NULL OPT_STR;
  opt2 "LIC_AUTOCONF" NULL;
  opt2 "LIC_FORCE" NULL;
  opt4 "CONFIG_LICENSE_AGREEMENT" NULL (OPT_MAJOR_FEATURE .| OPT_NOSTRIP .| OPT_HC) (Some "WBM Evaluation License Agreement");
  opt2 "CONFIG_EVEREX" NULL;
  opt2 "CONFIG_EXP_BUS_SHL" NULL;
  opt2 "CONFIG_EXPERIMENTAL" NULL;
  opt3 "CONFIG_EXT2_FS" NULL OPT_EXPORT;
  opt2 "CONFIG_EXT3_FS" NULL;
  opt2 "CONFIG_JBD" NULL;
  opt2 "CONFIG_EXTRA_ALLOC" NULL;
  opt2 "CONFIG_FAST_RAM" NULL;
  opt2 "CONFIG_FPE_NWFPE" NULL;
  opt2 "CONFIG_FPE_FASTFPE" NULL;
  opt2 "CONFIG_FPE_NWFPE_XP" NULL;
  opt2 "CONFIG_FILTER" NULL;
  opt3 "CONFIG_FLASH_FSTYPE" NULL OPT_STR;
  opt2 "CONFIG_FLASH_IMAGE_OFFSET" NULL;
  opt2 "CONFIG_FLASH_POS" NULL;
  opt3 "CONFIG_FORCE_MAX_ZONEORDER" NULL OPT_NUMBER;
  opt3 "CONFIG_FRAME_POINTER" NULL OPT_NOSTRIP;
  opt3 "CONFIG_MAGIC_SYSRQ" NULL OPT_NOSTRIP;
  opt3 "CONFIG_FREEPAGES_HIGH" NULL OPT_NUMBER;
  opt3 "CONFIG_FREEPAGES_LOW" NULL OPT_NUMBER;
  opt3 "CONFIG_FREEPAGES_MIN" NULL OPT_NUMBER;
  opt2 "CONFIG_FREEPAGES_THRESHOLD" NULL;
  opt3 "CONFIG_FREESWAN" NULL OPT_HC;
  opt3 "CONFIG_RG_NETBIOS_RT" NULL OPT_MODULE_EXPAND;
  opt3 "CONFIG_GDB" NULL OPT_NOSTRIP;
  opt3 "CONFIG_GDB_CONSOLE" NULL OPT_NOSTRIP;
  opt2 "CONFIG_GEN_RG_DEFAULT" NULL;
  opt3 "CONFIG_GLIBC" NULL (OPT_HC .| OPT_EXPORT);
  opt3 "CONFIG_GMP" NULL OPT_HC;
  opt2 "CONFIG_HAS_MMU" NULL;
  opt2 "CONFIG_HAVE_STD_PC_SERIAL_PORT" NULL;
  opt2 "CONFIG_HPNA" NULL;
  opt3 "CONFIG_IDEDMA_AUTO" NULL OPT_NOSTRIP;
  opt3 "CONFIG_IDE" NULL OPT_NOSTRIP;
  opt3 "CONFIG_IDEDISK_MULTI_MODE" NULL OPT_NOSTRIP;
  opt2 "CONFIG_RG_IDE_NON_BLOCKING" NULL;
  opt3 "CONFIG_DEF_BRIDGE_LANS" NULL OPT_HC;
  opt3 "CONFIG_DEF_BRIDGE_WAN" NULL OPT_HC;
  opt3 "CONFIG_DEF_WAN_BRIDGE_FALLBACK_IP" NULL OPT_HC;
  opt3 "CONFIG_DEF_BRIDGE_ALTERNATE_IP" NULL OPT_HC;
  opt3 "CONFIG_DEF_WAN_ALIAS_IP" NULL OPT_HC;
  opt3 "CONFIG_IEEE1394" NULL OPT_MODULE_EXPAND;
  opt3 "CONFIG_IEEE1394_OHCI1394" NULL OPT_MODULE_EXPAND;
  opt3 "CONFIG_IEEE1394_ETH1394" NULL OPT_MODULE_EXPAND;
  opt3 "CONFIG_IEEE1394_SBP2" NULL OPT_MODULE_EXPAND;
  opt3 "CONFIG_IMG_PRODUCT" NULL OPT_STR;
  opt2 "CONFIG_IMG_SREC_SLICES" NULL;
  opt3 "CONFIG_INET" NULL OPT_MODULE_EXPAND;
  opt3 "CONFIG_INIT_BASIC_RUNLEVELS" NULL OPT_HC;
  opt3 "CONFIG_INITRD_ADDR" NULL OPT_STR;
  opt2 "CONFIG_INITRD_IN_IMAGE" NULL;
  opt2 "CONFIG_IP_ADVANCED_ROUTER" NULL;
  opt3 "CONFIG_IP_MULTICAST" NULL OPT_HC;
  opt4 "CONFIG_IPSEC" NULL (OPT_MAJOR_FEATURE .| OPT_HC) (Some "Internet Protocol Security");
  opt2 "CONFIG_IPSEC_AH" NULL;
  opt2 "CONFIG_IPSEC_AUTH_HMAC_MD5" NULL;
  opt3 "CONFIG_IPSEC_ALG_MD5" NULL OPT_MODULE_EXPAND;
  opt2 "CONFIG_IPSEC_AUTH_HMAC_SHA1" NULL;
  opt3 "CONFIG_IPSEC_ALG_SHA1" NULL OPT_MODULE_EXPAND;
  opt2 "CONFIG_IPSEC_CON_PASSTHRU_TRANSFER" NULL;
  opt2 "CONFIG_IPSEC_DEBUG" NULL;
  opt2 "CONFIG_IPSEC_ENC_3DES" NULL;
  opt3 "CONFIG_IPSEC_ALG_3DES" NULL OPT_MODULE_EXPAND;
  opt2 "CONFIG_IPSEC_ENC_1DES" NULL;
  opt3 "CONFIG_IPSEC_ALG_1DES" NULL OPT_MODULE_EXPAND;
  opt2 "CONFIG_IPSEC_ENC_NULL" NULL;
  opt3 "CONFIG_IPSEC_ALG_NULL" NULL OPT_MODULE_EXPAND;
  opt3 "CONFIG_IPSEC_ENC_AES" NULL OPT_HC;
  opt3 "CONFIG_IPSEC_ALG_AES" NULL OPT_MODULE_EXPAND;
  opt2 "CONFIG_IPSEC_ESP" NULL;
  opt2 "CONFIG_IPSEC_IPCOMP" NULL;
  opt2 "CONFIG_IPSEC_IPIP" NULL;
  opt2 "CONFIG_RG_IPSEC_NO_SECRET_FILE" NULL;
  opt3 "CONFIG_IPSEC_USE_IXP4XX_CRYPTO" NULL OPT_NOSTRIP;
  opt2 "CONFIG_IPSEC_USE_MPC_CRYPTO" NULL;
  opt3 "CONFIG_IPSEC_DRIVER" NULL OPT_MODULE_EXPAND;
  opt2 "CONFIG_RG_IPSEC_ESP_ALG" NULL;
  opt2 "CONFIG_RG_IPSEC_IKE_ALG" NULL;
  opt2 "CONFIG_IPSEC_ALG" NULL;
  opt2 "CONFIG_CADENCE_IPSEC2" NULL;
  opt3 "CONFIG_IPSEC_NAT_TRAVERSAL" NULL OPT_HC;
  opt3 "CONFIG_IXP_CS8900" NULL OPT_MODULE_EXPAND;
  opt3 "CONFIG_ARCH_IXP425" NULL OPT_HC;
  opt2 "CONFIG_IXP425" NULL;
  opt3 "CONFIG_IXP425_CODELET_DSP_ENG" NULL OPT_MODULE_EXPAND;
  opt3 "CONFIG_IXP425_CODELET_ATM" NULL OPT_MODULE_EXPAND;
  opt3 "CONFIG_IXP425_CODELET_ETH" NULL OPT_MODULE_EXPAND;
  opt3 "CONFIG_IXP425_CODELET_HSS" NULL OPT_MODULE_EXPAND;
  opt3 "CONFIG_IXP425_CODELET_USB" NULL OPT_MODULE_EXPAND;
  opt3 "CONFIG_IXP425_CODELET_DMA" NULL OPT_MODULE_EXPAND;
  opt3 "CONFIG_IXP425_CODELET_CRYPTO" NULL OPT_MODULE_EXPAND;
  opt3 "CONFIG_IXP425_CODELET_PERF_PROF" NULL OPT_MODULE_EXPAND;
  opt3 "CONFIG_IXP425_CODELET_TIMERS" NULL OPT_MODULE_EXPAND;
  opt3 "CONFIG_IXP425_CODELETS" NULL OPT_MODULE_EXPAND;
  opt3 "CONFIG_IXP425_COMMON" NULL OPT_HC;
  opt2 "CONFIG_IXP425_COMMON_RG" NULL;
  opt2 "CONFIG_IXP425_COMMON_RGLOADER" NULL;
  opt1 "CONFIG_IXP425_COMMON_LSP";
  opt3 "CONFIG_IXP425_CSR" NULL OPT_MODULE_EXPAND ].

(** config_opt.c, lines 1007 to 1156. *)
Definition config_options_base_5 : list option_t := [
  opt4 "CONFIG_IXP425_DSR" NULL (OPT_MODULE_EXPAND .| OPT_MAJOR_FEATURE .| OPT_HC) (Some "Intel DSR support");
  opt2 "CONFIG_IXP425_DSR_DEMO" NULL;
  opt1 "CONFIG_IXP425_CSR_FULL";
  opt3 "CONFIG_IXP425_CSR_ATM" NULL OPT_NOSTRIP;
  opt3 "CONFIG_IXP425_CSR_ETH_ACC" NULL OPT_NOSTRIP;
  opt3 "CONFIG_IXP425_CSR_ETH_DB" NULL OPT_NOSTRIP;
  opt3 "CONFIG_IXP425_CSR_ETH_MII" NULL OPT_NOSTRIP;
  opt3 "CONFIG_IXP425_CSR_DMA_ACC" NULL OPT_NOSTRIP;
  opt3 "CONFIG_IXP425_CSR_CRYPTO_ACC" NULL OPT_NOSTRIP;
  opt3 "CONFIG_IXP425_CSR_PERF_PROF_ACC" NULL OPT_NOSTRIP;
  opt3 "CONFIG_IXP425_CSR_HSS" NULL OPT_NOSTRIP;
  opt3 "CONFIG_IXP425_CSR_USB" NULL OPT_NOSTRIP;
  opt3 "CONFIG_IXP425_CSR_UART" NULL OPT_NOSTRIP;
  opt3 "CONFIG_IXP425_CSR_ETHDB" NULL OPT_NOSTRIP;
  opt3 "CONFIG_IXP425_ETH" NULL OPT_MODULE_EXPAND;
  opt3 "CONFIG_IXP425_ATM" NULL OPT_MODULE_EXPAND;
  opt3 "CONFIG_IXP425_FLASH_E28F128J3" NULL OPT_MODULE_EXPAND;
  opt3 "CONFIG_IXP425_FLASH_E28F640J3" NULL OPT_MODULE_EXPAND;
  opt3 "CONFIG_IXP425_FLASH_E28F320J3" NULL OPT_MODULE_EXPAND;
  opt3 "CONFIG_IXP425_FLASH_USER_PART" NULL (OPT_NOSTRIP .| OPT_NUMBER);
  opt2 "CONFIG_IXP425_OS_TIMER1" NULL;
  opt2 "CONFIG_IXP425_PCI_NP_WORKAROUND" NULL;
  opt2 "CONFIG_IXP425_JFFS2_WORKAROUND" NULL;
  opt3 "CONFIG_IXP425_SDRAM_SIZE" NULL OPT_NUMBER;
  opt3 "CONFIG_IXP425_NUMBER_OF_MEM_CHIPS" NULL OPT_NUMBER;
  opt3 "CONFIG_IXP425_NUMBER_OF_FLASH_CHIPS" NULL OPT_NUMBER;
  opt2 "CONFIG_ADSL_LOOPBACK_TEST" NULL;
  opt2 "CONFIG_IXP425_ADSL_USE_SPHY" NULL;
  opt3 "CONFIG_IXP425_ADSL_USE_MPHY" NULL OPT_HC;
  opt3 "CONFIG_JFFS2_FS" NULL (OPT_MODULE_EXPAND .| OPT_EXPORT);
  opt3 "CONFIG_JFFS2_SIZE" NULL (OPT_NUMBER .| OPT_EXPORT);
  opt2 "CONFIG_KCORE_ELF" NULL;
  opt3 "CONFIG_KERNEL_ASSERTS" NULL OPT_NOSTRIP;
  opt2 "CONFIG_KERNEL_ELF" NULL;
  opt2 "CONFIG_KERNEL_FLASH_POS" NULL;
  opt2 "CONFIG_FLASH_START_ADDR" NULL;
  opt2 "CONFIG_KERNEL_MATH_EMULATION" NULL;
  opt2 "CONFIG_KERNEL_RAM_POS" NULL;
  opt2 "CONFIG_KERNEL_RAM_SIZE" NULL;
  opt2 "CONFIG_KEYBOARD" NULL;
  opt3 "CONFIG_KGDB" NULL OPT_NOSTRIP;
  opt3 "CONFIG_KGDB_SERIAL" NULL OPT_NOSTRIP;
  opt3 "CONFIG_KGDB_CONSOLE" NULL OPT_NOSTRIP;
  opt3 "CONFIG_IXDP425_KGDB_UART" NULL (OPT_NOSTRIP .| OPT_NUMBER);
  opt3 "CONFIG_KGDB_THREAD" NULL OPT_NOSTRIP;
  opt2 "CONFIG_LAN_SAA9730" NULL;
  opt2 "CONFIG_LIBDES" NULL;
  opt2 "CONFIG_LINUX_BSP" NULL;
  opt3 "CONFIG_LINUX_OAM" NULL OPT_MODULE_EXPAND;
  opt3 "CONFIG_I2C" NULL OPT_MODULE_EXPAND;
  opt3 "CONFIG_I2C_ALGOBIT" NULL OPT_MODULE_EXPAND;
  opt3 "CONFIG_I2C_IXP425" NULL OPT_MODULE_EXPAND;
  opt3 "CONFIG_I2C_DS1374" NULL OPT_MODULE_EXPAND;
  opt3 "CONFIG_I2C_LM81" NULL OPT_MODULE_EXPAND;
  opt3 "CONFIG_LOG_FILES_MAX_SIZE" NULL OPT_NUMBER;
  opt3 "CONFIG_LOG_FILES_MIN_SIZE" NULL OPT_NUMBER;
  opt2 "CONFIG_M386" NULL;
  opt2 "CONFIG_MACH_SPECIFIC" NULL;
  opt2 "CONFIG_MALLOC_CONSERVE_RAM" NULL;
  opt2 "CONFIG_MATH_EMULATION" NULL;
  opt2 "CONFIG_MINIX_FS" NULL;
  opt3 "CONFIG_MIPS" NULL OPT_HC;
  opt2 "CONFIG_MIPS32" NULL;
  opt2 "CONFIG_MIPS_PATENTFREE" NULL;
  opt2 "CONFIG_MIPS64" NULL;
  opt2 "CONFIG_MIPS_ATLAS" NULL;
  opt2 "CONFIG_MIPS_FPU_EMULATOR" NULL;
  opt2 "CONFIG_MIPS_IDT" NULL;
  opt2 "CONFIG_MIPS_MALTA" NULL;
  opt3 "CONFIG_RG_INSMOD_SILENT" NULL OPT_HC;
  opt2 "CONFIG_DIVDI3" NULL;
  opt3 "CONFIG_INCAIP" NULL (OPT_HC .| OPT_EXPORT);
  opt2 "CONFIG_INCA_IP" NULL;
  opt2 "CONFIG_INCAIP_COMMON" NULL;
  opt2 "CONFIG_INCAIP_ALLTEK" NULL;
  opt3 "CONFIG_INCAIP_KEYPAD" NULL (OPT_MODULE_EXPAND .| OPT_EXPORT);
  opt3 "CONFIG_INCAIP_LEDMATRIX" NULL (OPT_MODULE_EXPAND .| OPT_EXPORT);
  opt3 "CONFIG_INCAIP_DSP" NULL (OPT_MODULE_EXPAND .| OPT_EXPORT);
  opt2 "CONFIG_INCAIP_FLEXTRONICS" NULL;
  opt3 "CONFIG_VINETIC" NULL (OPT_MODULE_EXPAND .| OPT_EXPORT);
  opt2 "CONFIG_VINETIC_TAPIDEMO" NULL;
  opt3 "CONFIG_VINETIC_LINES_PER_CHIP" NULL OPT_NUMBER;
  opt3 "CONFIG_INCAIP_IOM2" NULL OPT_MODULE_EXPAND;
  opt3 "CONFIG_INCAIP_ETHERNET" NULL OPT_MODULE_EXPAND;
  opt3 "CONFIG_INCAIP_PSEUDO_LAN" NULL OPT_MODULE_EXPAND;
  opt3 "CONFIG_INCAIPSSC" NULL (OPT_MODULE_EXPAND .| OPT_EXPORT);
  opt3 "CONFIG_INCAIPPWM" NULL (OPT_MODULE_EXPAND .| OPT_EXPORT);
  opt3 "CONFIG_SERIAL_INCAIPASC" NULL OPT_MODULE_EXPAND;
  opt2 "CONFIG_SERIAL_INCAIPASC_CONSOLE" NULL;
  opt2 "CONFIG_INCAIPASC_DEFAULT_BAUDRATE" NULL;
  opt2 "CONFIG_INCAIP_EVALBOARD" NULL;
  opt3 "CONFIG_MTD_INCAIP" NULL OPT_MODULE_EXPAND;
  opt2 "CONFIG_INCAIP_WATCHDOG" NULL;
  opt2 "CONFIG_INCAIP_WATCHDOG_HEARTBEAT" NULL;
  opt2 "CONFIG_INCAIP_WATCHDOG_TIMEOUT" NULL;
  opt2 "CONFIG_INCAIP_MUX" NULL;
  opt2 "CONFIG_INCAIP_MUX_KEY0" NULL;
  opt2 "CONFIG_INCAIP_MUX_KEY1" NULL;
  opt2 "CONFIG_INCAIP_MUX_KEY2" NULL;
  opt2 "CONFIG_INCAIP_MUX_KEY3" NULL;
  opt2 "CONFIG_INCAIP_MUX_KEY4" NULL;
  opt2 "CONFIG_INCAIP_MUX_KEY5" NULL;
  opt2 "CONFIG_INCAIP_MUX_KEY6" NULL;
  opt2 "CONFIG_INCAIP_MUX_KEY7" NULL;
  opt2 "CONFIG_INCAIP_MUX_LED0" NULL;
  opt2 "CONFIG_INCAIP_MUX_LED1" NULL;
  opt2 "CONFIG_INCAIP_MUX_LED2" NULL;
  opt2 "CONFIG_INCAIP_MUX_LED3" NULL;
  opt2 "CONFIG_INCAIP_MUX_LED4" NULL;
  opt2 "CONFIG_INCAIP_MUX_LED5" NULL;
  opt2 "CONFIG_INCAIP_MUX_LED6" NULL;
  opt2 "CONFIG_INCAIP_MUX_LED7" NULL;
  opt2 "CONFIG_INCAIP_MUX_LED8" NULL;
  opt2 "CONFIG_INCAIP_MUX_RXD" NULL;
  opt2 "CONFIG_INCAIP_MUX_TXD" NULL;
  opt2 "CONFIG_INCAIP_MUX_SSC1" NULL;
  opt2 "CONFIG_INCAIP_MUX_SSC2" NULL;
  opt2 "CONFIG_INCAIP_MUX_FSC" NULL;
  opt2 "CONFIG_INCAIP_MUX_DCL" NULL;
  opt2 "CONFIG_INCAIP_MUX_DU" NULL;
  opt2 "CONFIG_INCAIP_MUX_DD" NULL;
  opt2 "CONFIG_INCAIP_MUX_PWM1" NULL;
  opt2 "CONFIG_INCAIP_MUX_PWM2" NULL;
  opt2 "CONFIG_INCAIP_MUX_P2_9" NULL;
  opt2 "CONFIG_INCAIP_MUX_P1_16" NULL;
  opt2 "CONFIG_INCAIP_MUX_P1_17" NULL;
  opt2 "CONFIG_INCAIP_MUX_P2_10" NULL;
  opt2 "CONFIG_INCAIP_MUX_P2_11" NULL;
  opt2 "CONFIG_INCAIP_MUX_P2_12" NULL;
  opt2 "CONFIG_INCAIP_MUX_P2_13" NULL;
  opt2 "CONFIG_INCAIP_MUX_P2_14" NULL;
  opt2 "CONFIG_INCAIP_MUX_P2_15" NULL;
  opt3 "CONFIG_ZSP400" NULL (OPT_MODULE_EXPAND .| OPT_EXPORT .| OPT_HC);
  opt3 "CONFIG_INCAIP_SWITCH" NULL OPT_MODULE_EXPAND;
  opt3 "CONFIG_INCAIP_SWITCH_API" NULL OPT_MODULE_EXPAND;
  opt2 "CONFIG_INCA_HW_ENCRYPT" NULL;
  opt3 "CONFIG_MPC8272ADS" NULL OPT_HC;
  opt3 "CONFIG_EP8248" NULL OPT_HC ].

(** config_opt.c, lines 1157 to 1306. *)
Definition config_options_base_6 : list option_t := [
  opt2 "CONFIG_PPC32" NULL;
  opt2 "CONFIG_6xx" NULL;
  opt2 "CONFIG_8260" NULL;
  opt2 "CONFIG_CPM2" NULL;
  opt2 "CONFIG_USE_MDIO" NULL;
  opt2 "CONFIG_FCC_DM9161" NULL;
  opt2 "CONFIG_FCC_LXT971" NULL;
  opt2 "CONFIG_PQ2ADS" NULL;
  opt2 "CONFIG_ADS8272" NULL;
  opt2 "CONFIG_8272" NULL;
  opt2 "CONFIG_PPC_STD_MMU" NULL;
  opt3 "CONFIG_HIGHMEM_START" NULL OPT_NUMBER;
  opt3 "CONFIG_LOWMEM_SIZE" NULL OPT_NUMBER;
  opt3 "CONFIG_TASK_SIZE" NULL OPT_NUMBER;
  opt2 "CONFIG_MBX" NULL;
  opt2 "CONFIG_SCC_CONSOLE" NULL;
  opt2 "CONFIG_FEC_ENET" NULL;
  opt2 "CONFIG_FCC1_ENET" NULL;
  opt2 "CONFIG_FCC2_ENET" NULL;
  opt2 "CONFIG_MTD_EP8248" NULL;
  opt2 "CONFIG_CC_HAVE_VA_COPY" NULL;
  opt2 "CONFIG_SERIAL_CPM" NULL;
  opt2 "CONFIG_SERIAL_CPM_CONSOLE" NULL;
  opt2 "CONFIG_SERIAL_CPM_SCC1" NULL;
  opt2 "CONFIG_SERIAL_CPM_SCC4" NULL;
  opt2 "CONFIG_SERIAL_CPM_SMC1" NULL;
  opt2 "CONFIG_SERIAL_CPM_SMC2" NULL;
  opt2 "CONFIG_PPC_FPU" NULL;
  opt2 "CONFIG_PCI_8260" NULL;
  opt2 "CONFIG_PPC_INDIRECT_PCI" NULL;
  opt2 "CONFIG_USB_M82XX_HCD" NULL;
  opt3 "CONFIG_MPC8349_ITX" NULL OPT_HC;
  opt1 "CONFIG_GENERIC_NVRAM";
  opt1 "CONFIG_SCHED_NO_NO_OMIT_FRAME_POINTER";
  opt1 "CONFIG_PPC_GEN550";
  opt1 "CONFIG_83xx";
  opt1 "CONFIG_PPC_83xx";
  opt1 "CONFIG_MPC834x";
  opt1 "CONFIG_HZ_250";
  opt3 "CONFIG_HZ" NULL OPT_NUMBER;
  opt1 "CONFIG_ISA_DMA_API";
  opt1 "CONFIG_SECCOMP";
  opt1 "CONFIG_MPC83xx_PCI2";
  opt1 "CONFIG_GIANFAR";
  opt1 "CONFIG_CICADA_PHY";
  opt1 "CONFIG_FSL_USB20";
  opt1 "CONFIG_USB_MPC";
  opt1 "CONFIG_USB_GADGET_MPC";
  opt1 "CONFIG_MPH_USB_SUPPORT";
  opt1 "CONFIG_MPH0_USB_ENABLE";
  opt1 "CONFIG_MPH0_ULPI";
  opt1 "CONFIG_MPH1_USB_ENABLE";
  opt1 "CONFIG_MPH1_ULPI";
  opt3 "CONFIG_MPC8349E_SEC2x" NULL OPT_MODULE_EXPAND;
  opt3 "CONFIG_MPC8349E_SEC2xTEST" NULL OPT_MODULE_EXPAND;
  opt1 "CONFIG_PHYLIB";
  opt1 "CONFIG_USB_ETH_RNDIS";
  opt3 "CONFIG_ADM5120_COMMON" NULL OPT_HC;
  opt2 "CONFIG_MIPS_AM5120" NULL;
  opt2 "CONFIG_ADM5120_SERIAL" NULL;
  opt3 "CONFIG_ADM5120_MTD" NULL OPT_MODULE_EXPAND;
  opt3 "CONFIG_ADM5120_SWITCH" NULL OPT_MODULE_EXPAND;
  opt2 "CONFIG_ADM5120_IPTOS" NULL;
  opt2 "CONFIG_ARCH_BCM947_CYBERTAN" NULL;
  opt2 "CONFIG_RG_BCM947_NVRAM_CONVERT" NULL;
  opt3 "CONFIG_ET" NULL OPT_MODULE_EXPAND;
  opt2 "CONFIG_ET_47XX" NULL;
  opt3 "CONFIG_SIMPLE_CRAMDISK" NULL OPT_EXPORT;
  opt2 "CONFIG_NONCOHERENT_IO" NULL;
  opt3 "CONFIG_MIPS_BRCM" NULL OPT_HC;
  opt3 "CONFIG_BCM947XX" NULL OPT_HC;
  opt3 "CONFIG_BCM947_COMMON" NULL OPT_HC;
  opt2 "CONFIG_BCM4710" NULL;
  opt2 "CONFIG_BCM4310" NULL;
  opt2 "CONFIG_BCM4704" NULL;
  opt2 "CONFIG_BCM4702" NULL;
  opt3 "CONFIG_BCM96345" NULL OPT_HC;
  opt3 "CONFIG_BCM96348" NULL OPT_HC;
  opt3 "CONFIG_BCM96358" NULL OPT_HC;
  opt3 "CONFIG_BCM963XX" NULL OPT_HC;
  opt2 "CONFIG_BCM963XX_COMMON" NULL;
  opt3 "CONFIG_BCM963XX_BOARD_ID" NULL OPT_C_STR;
  opt3 "CONFIG_BCM963XX_CHIP" NULL OPT_C_STR;
  opt3 "CONFIG_BCM963XX_SDRAM_SIZE" NULL OPT_NUMBER;
  opt3 "CONFIG_BCM963XX_MTD" NULL OPT_MODULE_EXPAND;
  opt3 "CONFIG_BCM96358_MTD" NULL OPT_MODULE_EXPAND;
  opt3 "CONFIG_BCM963XX_SERIAL" NULL OPT_MODULE_EXPAND;
  opt3 "CONFIG_BCM963XX_BOARD" NULL OPT_MODULE_EXPAND;
  opt3 "CONFIG_BCM96358_BOARD" NULL OPT_MODULE_EXPAND;
  opt3 "CONFIG_BCM963XX_ETH" NULL OPT_MODULE_EXPAND;
  opt2 "CONFIG_BCM963XX_ETH_VPORTS" NULL;
  opt3 "CONFIG_BCM963XX_ATM" NULL OPT_MODULE_EXPAND;
  opt3 "CONFIG_BCM963XX_ADSL" NULL OPT_MODULE_EXPAND;
  opt3 "CONFIG_BCM963XX_USB" NULL OPT_MODULE_EXPAND;
  opt3 "CONFIG_BCM963XX_WLAN" NULL OPT_MODULE_EXPAND;
  opt2 "CONFIG_BCM963XX_WLAN_4318" NULL;
  opt3 "CONFIG_BCM963XX_ENDPOINT" NULL OPT_MODULE_EXPAND;
  opt3 "CONFIG_BCM963XX_PROCFS" NULL OPT_MODULE_EXPAND;
  opt2 "CONFIG_BCM963XX_SIMPLE_FLASH_LAYOUT" NULL;
  opt2 "CONFIG_BCM963XX_RGL_FLASH_LAYOUT" NULL;
  opt3 "CONFIG_BCM4318" NULL OPT_MODULE_EXPAND;
  opt3 "CONFIG_BCM43XX_MODE" NULL (OPT_HC .| OPT_C_STR);
  opt2 "CONFIG_BCM43XX_WLCTL_TOOL" NULL;
  opt3 "CONFIG_CPU_LX4189" NULL OPT_HC;
  opt3 "CONFIG_ADI_6843" NULL OPT_HC;
  opt3 "CONFIG_ETH_NETPRO_SIERRA" NULL OPT_MODULE_EXPAND;
  opt2 "CONFIG_ADI_6843_RG1" NULL;
  opt3 "CONFIG_ADI_6843_USB" NULL OPT_MODULE_EXPAND;
  opt3 "CONFIG_ADI_6843_MTD" NULL OPT_MODULE_EXPAND;
  opt3 "CONFIG_ADI_6843_UART2" NULL OPT_MODULE_EXPAND;
  opt3 "CONFIG_DSPDRIVER_218X" NULL OPT_MODULE_EXPAND;
  opt2 "CONFIG_MACH_ADI_FUSIV" NULL;
  opt2 "CONFIG_ADI_FUSIV_ETHERNET" NULL;
  opt3 "CONFIG_RG_IKANOS_VDSL" NULL (OPT_H .| OPT_HC .| OPT_MK);
  opt3 "CONFIG_RG_INFINEON_VDSL" NULL (OPT_H .| OPT_HC .| OPT_MK);
  opt3 "CONFIG_RG_MOCA_WAN" NULL (OPT_H .| OPT_HC .| OPT_MK);
  opt3 "CONFIG_RG_WAN_ETHERNET" NULL (OPT_H .| OPT_HC .| OPT_MK);
  opt3 "CONFIG_RG_WSTL_WAN_CABLE" NULL (OPT_H .| OPT_HC .| OPT_MK);
  opt3 "CONFIG_INFINEON_PPE_D4" NULL (OPT_H .| OPT_HC .| OPT_MK);
  opt3 "CONFIG_INFINEON_PPE_D4_11N" NULL (OPT_H .| OPT_HC .| OPT_MK);
  opt2 "CONFIG_KS8695_COMMON" NULL;
  opt3 "CONFIG_KS8695" NULL OPT_HC;
  opt2 "CONFIG_ARCH_KS8695" NULL;
  opt2 "CONFIG_ARCH_KS8695P" NULL;
  opt2 "CONFIG_PCI_KS8695P" NULL;
  opt2 "CONFIG_SERIAL_KS8695" NULL;
  opt2 "CONFIG_SERIAL_KS8695_CONSOLE" NULL;
  opt3 "CONFIG_KS8695_FLASH_AM29LV033C" NULL OPT_MODULE_EXPAND ].

(** config_opt.c, lines 1308 to 1457. *)
Definition config_options_base_7 : list option_t := [
  opt3 "CONFIG_KSFLASH" NULL (OPT_MODULE_EXPAND .| OPT_EXPORT);
  opt2 "CONFIG_CX8620X" NULL;
  opt3 "CONFIG_CX8620X_COMMON" NULL OPT_HC;
  opt2 "CONFIG_CX8620X_COMMON_RGLOADER" NULL;
  opt3 "CONFIG_CX8620X_SDRAM_SIZE" NULL OPT_NUMBER;
  opt2 "CONFIG_ARCH_CX8620X" NULL;
  opt3 "CONFIG_CX8620X_FLASH_TE28F160C3" NULL OPT_MODULE_EXPAND;
  opt3 "CONFIG_CX8620X_FLASH_TE28F320C3" NULL OPT_MODULE_EXPAND;
  opt3 "CONFIG_CX8620X_FLASH_TE28F640C3" NULL OPT_MODULE_EXPAND;
  opt3 "CONFIG_CX8620X_SWITCH" NULL OPT_MODULE_EXPAND;
  opt2 "CONFIG_CX8620X_EHCI" NULL;
  opt3 "CONFIG_COMCERTO" NULL OPT_HC;
  opt3 "CONFIG_COMCERTO_COMMON" NULL OPT_HC;
  opt2 "CONFIG_COMCERTO_SINGLE_IMAGE" NULL;
  opt2 "CONFIG_COMCERTO_MALINDI" NULL;
  opt2 "CONFIG_COMCERTO_NAIROBI" NULL;
  opt2 "CONFIG_ARCH_COMCERTO" NULL;
  opt2 "CONFIG_ARCH_M828XX" NULL;
  opt2 "CONFIG_EVM_MALINDI" NULL;
  opt2 "CONFIG_EVM_SUPERMOMBASA" NULL;
  opt2 "CONFIG_CSP_16M" NULL;
  opt2 "CONFIG_M828XX_PROC_FS" NULL;
  opt3 "CONFIG_LOCALVERSION" NULL OPT_STR;
  opt3 "MSP_CODE_LOCATION" NULL OPT_C_STR;
  opt3 "MSP_NODE_LOCATION" NULL OPT_C_STR;
  opt3 "CONFIG_COMCERTO_VED" NULL OPT_EXPORT;
  opt3 "CONFIG_MII" NULL OPT_EXPORT;
  opt2 "CONFIG_COMCERTO_OHCI" NULL;
  opt3 "CONFIG_SPI" NULL OPT_MODULE_EXPAND;
  opt3 "CONFIG_COMCERTO_SPI" NULL OPT_MODULE_EXPAND;
  opt3 "CONFIG_SPI_SI3220" NULL OPT_MODULE_EXPAND;
  opt2 "CONFIG_COMCERTO_MATISSE" NULL;
  opt3 "CONFIG_COMCERTO_CAL" NULL OPT_HC;
  opt2 "CONFIG_MTD_COMCERTO" NULL;
  opt2 "CONFIG_MTD_NAND" NULL;
  opt2 "CONFIG_MTD_NAND_COMCERTO" NULL;
  opt2 "CONFIG_BCM963XX_BOOTSTRAP" NULL;
  opt2 "CONFIG_VTAG_ICACHE" NULL;
  opt2 "CONFIG_NEW_TIME_C" NULL;
  opt2 "CONFIG_NEW_IRQ" NULL;
  opt2 "CONFIG_CPU_HAS_WB" NULL;
  opt3 "CONFIG_HOTPLUG" NULL OPT_HC;
  opt2 "CONFIG_PCMCIA_BCM4710" NULL;
  opt3 "CONFIG_MTD_BCM947XX" NULL OPT_MODULE_EXPAND;
  opt3 "CONFIG_MTD_XG1000" NULL OPT_MODULE_EXPAND;
  opt3 "CONFIG_IL" NULL OPT_MODULE_EXPAND;
  opt3 "CONFIG_IL_47XX" NULL OPT_MODULE_EXPAND;
  opt3 "CONFIG_WL" NULL OPT_MODULE_EXPAND;
  opt2 "CONFIG_WL_AP" NULL;
  opt3 "CONFIG_HERMES" NULL OPT_MODULE_EXPAND;
  opt3 "CONFIG_PCMCIA_HERMES" NULL OPT_MODULE_EXPAND;
  opt2 "CONFIG_RAMFS" NULL;
  opt2 "CONFIG_PARTITION_ADVANCED" NULL;
  opt2 "CONFIG_BCM947" NULL;
  opt2 "CONFIG_MTD_IXP425" NULL;
  opt2 "CONFIG_MNG_SHOW" NULL;
  opt2 "CONFIG_MODULES" NULL;
  opt2 "CONFIG_MPC850" NULL;
  opt3 "CONFIG_SYSFS" NULL OPT_HC;
  opt3 "CONFIG_MTD" NULL OPT_EXPORT;
  opt1 "CONFIG_MTD_BLKMTD";
  opt2 "CONFIG_MTD_BLOCK" NULL;
  opt2 "CONFIG_MTD_CFI" NULL;
  opt2 "CONFIG_MTD_CFI_INTELEXT" NULL;
  opt2 "CONFIG_MTD_CHAR" NULL;
  opt2 "CONFIG_MTD_CONCAT" NULL;
  opt2 "CONFIG_MTD_GEN_PROBE" NULL;
  opt2 "CONFIG_MTD_PARTITIONS" NULL;
  opt3 "CONFIG_MTD_REDBOOT_PARTS" NULL OPT_NOSTRIP;
  opt2 "CONFIG_MTD_PHYSMAP" NULL;
  opt2 "CONFIG_MTD_MAP_BANK_WIDTH_1" NULL;
  opt2 "CONFIG_MTD_MAP_BANK_WIDTH_2" NULL;
  opt2 "CONFIG_MTD_MAP_BANK_WIDTH_4" NULL;
  opt2 "CONFIG_MTD_CFI_ADV_OPTIONS" NULL;
  opt2 "CONFIG_MTD_CFI_NOSWAP" NULL;
  opt2 "CONFIG_MTD_CFI_GEOMETRY" NULL;
  opt2 "CONFIG_MTD_CFI_B2" NULL;
  opt2 "CONFIG_MTD_CFI_I1" NULL;
  opt2 "CONFIG_MTD_CFI_I2" NULL;
  opt2 "CONFIG_MTD_CFI_I4" NULL;
  opt2 "CONFIG_MTD_CFI_AMDSTD" NULL;
  opt2 "CONFIG_MTD_JEDECPROBE" NULL;
  opt2 "CONFIG_MTD_CFI_LE_BYTE_SWAP" NULL;
  opt2 "CONFIG_MTD_COMPLEX_MAPPINGS" NULL;
  opt2 "CONFIG_MTD_CFI_UTIL" NULL;
  opt3 "CONFIG_RG_MTD" NULL OPT_MODULE_EXPAND;
  opt3 "CONFIG_RG_MTD_DEFAULT_PARTITION" NULL OPT_HC;
  opt3 "CONFIG_MTD_CFI_AMDSTD_RETRY" NULL OPT_STR;
  opt2 "CONFIG_MTD_JEDEC" NULL;
  opt2 "CONFIG_MTD_CMDLINE_PARTS" NULL;
  opt3 "CONFIG_MTD_PHYSMAP_START" NULL (OPT_NUMBER .| OPT_HC);
  opt3 "CONFIG_MTD_PHYSMAP_LEN" NULL (OPT_NUMBER .| OPT_HC);
  opt3 "CONFIG_MTD_PHYSMAP_BUSWIDTH" NULL (OPT_NUMBER .| OPT_HC);
  opt3 "CONFIG_MTD_PHYSMAP_BANKWIDTH" NULL (OPT_NUMBER .| OPT_HC);
  opt2 "CONFIG_MTD_ROM" NULL;
  opt3 "CONFIG_NATSEMI" NULL OPT_MODULE_EXPAND;
  opt3 "CONFIG_NE2000" NULL OPT_MODULE_EXPAND;
  opt2 "CONFIG_NE2000_DEV" NULL;
  opt3 "CONFIG_NE2K_PCI" NULL OPT_MODULE_EXPAND;
  opt2 "CONFIG_NET" NULL;
  opt2 "CONFIG_NETDEVICES" NULL;
  opt2 "CONFIG_NET_EISA" NULL;
  opt2 "CONFIG_NET_ETHERNET" NULL;
  opt2 "CONFIG_NETIF_EXT" NULL;
  opt2 "CONFIG_NETIF_INT" NULL;
  opt2 "CONFIG_NET_ISA" NULL;
  opt2 "CONFIG_NET_PCI" NULL;
  opt3 "CONFIG_NETLINK_DEV" NULL OPT_MODULE_EXPAND;
  opt2 "CONFIG_NET_RADIO" NULL;
  opt3 "CONFIG_NET_WIRELESS" NULL OPT_HC;
  opt2 "CONFIG_NET_IPIP" NULL;
  opt2 "CONFIG_NOMMU_PAGECACHE_THRESHOLD" NULL;
  opt2 "CONFIG_NO_NAT" NULL;
  opt2 "CONFIG_NO_PGT_CACHE" NULL;
  opt2 "CONFIG_NO_REMOVABLE_IDE" NULL;
  opt2 "CONFIG_NO_UNALIGNED_ACCESS" NULL;
  opt2 "CONFIG_NO_UART2" NULL;
  opt3 "CONFIG_OPENRG" NULL OPT_HC;
  opt3 "CONFIG_RG_CONFIG_STRINGS" NULL OPT_HC;
  opt2 "CONFIG_PACKET" NULL;
  opt2 "CONFIG_PARIDE_PARPORT" NULL;
  opt3 "CONFIG_PCF8594C2" NULL OPT_MODULE_EXPAND;
  opt2 "CONFIG_PCI" NULL;
  opt2 "CONFIG_PCI_DOMAINS" NULL;
  opt2 "CONFIG_PCI_BIOS" NULL;
  opt2 "CONFIG_PCI_DIRECT" NULL;
  opt2 "CONFIG_PCI_GOANY" NULL;
  opt2 "CONFIG_PCI_NAMES" NULL;
  opt2 "CONFIG_PCI_OLD_PROC" NULL;
  opt2 "CONFIG_PCI_QUIRKS" NULL;
  opt2 "CONFIG_NEW_PCI" NULL;
  opt2 "CONFIG_PCI_AUTO" NULL;
  opt3 "MAX_DMA_ADDRESS" NULL OPT_NUMBER;
  opt3 "IO_SPACE_LIMIT" NULL OPT_NUMBER;
  opt3 "CONFIG_PCMCIA_DEVELOPMENT" NULL OPT_HC;
  opt3 "CONFIG_PCNET32" NULL OPT_MODULE_EXPAND;
  opt3 "CONFIG_PHY_KS8721" NULL OPT_NOSTRIP;
  opt3 "CONFIG_PHY_CX11656" NULL OPT_NOSTRIP;
  opt3 "CONFIG_PHY_KS8737" NULL OPT_NOSTRIP;
  opt3 "CONFIG_PHY_KS8995E" NULL OPT_NOSTRIP ].

(** config_opt.c, lines 1458 to 1606. *)
Definition config_options_base_8 : list option_t := [
  opt3 "CONFIG_PHY_KS8995M" NULL OPT_NOSTRIP;
  opt3 "CONFIG_PHY_MARVEL" NULL OPT_NOSTRIP;
  opt3 "CONFIG_PHY_RTL8201" NULL OPT_NOSTRIP;
  opt2 "CONFIG_PLUTO_DEBUG" NULL;
  opt2 "CONFIG_PM" NULL;
  opt4 "CONFIG_RG_PPTPS" NULL (OPT_MAJOR_FEATURE .| OPT_HC) (Some "PPTP Server");
  opt4 "CONFIG_RG_L2TPS" NULL (OPT_MAJOR_FEATURE .| OPT_HC) (Some "L2TP Server");
  opt3 "CONFIG_PPC" NULL OPT_HC;
  opt4 "CONFIG_RG_PPP" NULL (OPT_MODULE_EXPAND .| OPT_STATIC_ON_DEVELOP .| OPT_HC) (Some "Basic PPP Support");
  opt3 "CONFIG_RG_PPP_BSDCOMP" NULL OPT_HC;
  opt3 "CONFIG_RG_PPP_DEFLATE" NULL OPT_HC;
  opt3 "CONFIG_RG_PPP_ON_DEMAND_AS_DEFAULT" NULL OPT_HC;
  opt3 "CONFIG_RG_PPP_ON_DEMAND_DEFAULT_MAX_IDLE_TIME" NULL (OPT_HC .| OPT_NUMBER);
  opt3 "CONFIG_RG_PPP_DEFAULT_BSD_COMPRESSION" NULL (OPT_HC .| OPT_NUMBER);
  opt3 "CONFIG_RG_PPP_DEFAULT_DEFLATE_COMPRESSION" NULL (OPT_HC .| OPT_NUMBER);
  opt3 "CONFIG_RG_PPP_MPPE" NULL OPT_HC;
  opt4 "CONFIG_RG_PPPOA" NULL (OPT_MODULE_EXPAND .| OPT_STATIC_ON_DEVELOP .| OPT_MAJOR_FEATURE) (Some "PPP Over ATM");
  opt4 "CONFIG_RG_PPPOE" NULL (OPT_MAJOR_FEATURE .| OPT_HC) (Some "PPP Over Ethernet");
  opt4 "CONFIG_RG_PPPOES" NULL (OPT_MAJOR_FEATURE .| OPT_HC) (Some "PPP Over Ethernet Server");
  opt4 "CONFIG_RG_PPPOS" NULL OPT_MAJOR_FEATURE (Some "PPP Over Serial");
  opt4 "CONFIG_RG_PPPOS_CLI" NULL OPT_HC (Some "PPP and CLI Over Serial");
  opt4 "CONFIG_RG_SERIAL" NULL OPT_NONE (Some "Serial support for PPPOS");
  opt4 "CONFIG_RG_HSS" NULL (OPT_MAJOR_FEATURE .| OPT_HC) (Some "PPP Over HSS (T1/E1)");
  opt4 "CONFIG_RG_IPV6" NULL (OPT_MAJOR_FEATURE .| OPT_HC) (Some "IPv6");
  opt3 "CONFIG_RG_PPTP" NULL OPT_HC;
  opt4 "CONFIG_RG_PPTPC" NULL (OPT_MAJOR_FEATURE .| OPT_HC) (Some "PPTP Client");
  opt4 "CONFIG_RG_L2TPC" NULL (OPT_MAJOR_FEATURE .| OPT_HC) (Some "L2TP Client");
  opt3 "CONFIG_RG_PPTP_ECHO_INTERVAL" NULL OPT_NUMBER;
  opt3 "CONFIG_RG_PPTP_ECHO_FAILURE" NULL OPT_NUMBER;
  opt2 "CONFIG_PPPOE_RETRANSMIT" NULL;
  opt3 "CONFIG_PPPOE_MAX_RETRANSMIT_TIMEOUT" NULL OPT_NUMBER;
  opt3 "CONFIG_PRISM2_PCI" NULL OPT_MODULE_EXPAND;
  opt2 "CONFIG_PRISM2_LOAD_FIRMWARE" NULL;
  opt2 "CONFIG_PROC_FS" NULL;
  opt3 "CONFIG_RAMDISK_SIZE" NULL (OPT_NUMBER .| OPT_EXPORT);
  opt3 "CONFIG_RAM_LIMIT" NULL OPT_NUMBER;
  opt2 "CONFIG_RELEASE" NULL;
  opt2 "CONFIG_RELEASE_COMMON" NULL;
  opt2 "CONFIG_RG_ALG" NULL;
  opt4 "CONFIG_RG_ALG_ICMP" NULL OPT_MAJOR_FEATURE (Some "ICMP ALG");
  opt4 "CONFIG_RG_ALG_PORT_TRIGGER" NULL (OPT_MAJOR_FEATURE .| OPT_HC) (Some "Port trigger (TFTP) ALG");
  opt4 "CONFIG_RG_ALG_FTP" NULL (OPT_MAJOR_FEATURE .| OPT_HC) (Some "FTP/FTPS ALG");
  opt4 "CONFIG_RG_ALG_RTSP" NULL (OPT_MAJOR_FEATURE .| OPT_HC) (Some "QuickTime/RealAudio/RealPlayer (RTSP) ALG");
  opt4 "CONFIG_RG_ALG_H323" NULL (OPT_MAJOR_FEATURE .| OPT_HC) (Some "H323 ALG (Netmeeting, CuSeeMe ...)");
  opt4 "CONFIG_RG_ALG_SIP" NULL (OPT_MAJOR_FEATURE .| OPT_HC) (Some "SIP ALG");
  opt4 "CONFIG_RG_ALG_MGCP" NULL (OPT_MAJOR_FEATURE .| OPT_HC) (Some "MGCP ALG");
  opt4 "CONFIG_RG_ALG_PPTP" NULL (OPT_MAJOR_FEATURE .| OPT_HC) (Some "PPTP Client (multiuser) ALG");
  opt4 "CONFIG_RG_ALG_MSNMS" NULL (OPT_MAJOR_FEATURE .| OPT_HC) (Some "Microsoft Network Messenger/Windows Messenger ALG");
  opt4 "CONFIG_RG_ALG_IPSEC" NULL (OPT_MAJOR_FEATURE .| OPT_HC) (Some "IPSec (multiuser) ALG");
  opt4 "CONFIG_RG_ALG_L2TP" NULL (OPT_MAJOR_FEATURE .| OPT_HC) (Some "L2TP ALG");
  opt4 "CONFIG_RG_ALG_AIM" NULL (OPT_MAJOR_FEATURE .| OPT_HC) (Some "AOL Instant Messenger ALG");
  opt4 "CONFIG_RG_ALG_DNS" NULL (OPT_MAJOR_FEATURE .| OPT_HC) (Some "DNS ALG");
  opt4 "CONFIG_RG_ALG_DHCP" NULL (OPT_MAJOR_FEATURE .| OPT_HC) (Some "DHCP ALG");
  opt3 "CONFIG_RG_ALG_USERSPACE" NULL OPT_HC;
  opt2 "CONFIG_RG_BOOTSTRAP" NULL;
  opt2 "CONFIG_RG_BOOTLDR_REDBOOT" NULL;
  opt4 "CONFIG_RG_BRIDGE" NULL (OPT_MODULE_EXPAND .| OPT_STATIC_ON_DEVELOP .| OPT_MAJOR_FEATURE .| OPT_HC) (Some "Bridge");
  opt4 "CONFIG_RG_VLAN_BRIDGE" NULL (OPT_MAJOR_FEATURE .| OPT_HC) (Some "VLAN 802.1Q bridge");
  opt4 "CONFIG_RG_8021Q_IF" NULL (OPT_MAJOR_FEATURE .| OPT_HC) (Some "VLAN 802.1Q interfaces management");
  opt4 "CONFIG_RG_FASTPATH" NULL (OPT_MODULE_EXPAND .| OPT_HC) (Some "Hardware FastPath Accelaration");
  opt3 "CONFIG_RG_FASTPATH_PLAT_PATH" NULL OPT_STR;
  opt2 "CONFIG_RG_FASTPATH_PLAT_TEST" NULL;
  opt3 "CONFIG_RG_FASTPATH_PLAT_AD6834" NULL OPT_HC;
  opt3 "CONFIG_RG_FASTPATH_PLAT_TWINPASS" NULL OPT_HC;
  opt3 "CONFIG_RG_CABLEHOME" NULL OPT_HC;
  opt4 "CONFIG_RG_CABLEHOME_10" NULL (OPT_MAJOR_FEATURE .| OPT_HC) (Some "CableHome 1.0");
  opt4 "CONFIG_RG_CABLEHOME_11" NULL (OPT_MAJOR_FEATURE .| OPT_HC) (Some "CableHome 1.1");
  opt3 "CONFIG_RG_CABLEHOME_EMBEDDED" NULL OPT_HC;
  opt3 "CONFIG_RG_CABLEHOME_FULL_WBM" NULL OPT_HC;
  opt3 "CONFIG_RG_DSL_CH" NULL OPT_HC;
  opt3 "CONFIG_RG_CH_FW" NULL OPT_HC;
  opt3 "CONFIG_RG_CH_EVT_RPT" NULL OPT_HC;
  opt2 "CABLEHOME_TEP_BUG" NULL;
  opt2 "CONFIG_RG_CHRDEV" NULL;
  opt3 "CONFIG_RG_CHWAN" NULL (OPT_MODULE_EXPAND .| OPT_STATIC_ON_DEVELOP);
  opt3 "CONFIG_RG_USFS" NULL (OPT_MODULE_EXPAND .| OPT_STATIC_ON_DEVELOP);
  opt4 "CONFIG_RG_PPPOE_RELAY" NULL (OPT_MODULE_EXPAND .| OPT_HC .| OPT_STATIC_ON_DEVELOP .| OPT_MAJOR_FEATURE) (Some "PPPoE Relay");
  opt3 "CONFIG_RG_BROUTE" NULL (OPT_MODULE_EXPAND .| OPT_STATIC_ON_DEVELOP);
  opt2 "CONFIG_RG_DISPLAY_MSG" NULL;
  opt3 "CONFIG_RG_ELVIS" NULL OPT_HC;
  opt3 "CONFIG_RG_DSLHOME" NULL OPT_HC;
  opt3 "CONFIG_RG_TR_098" NULL OPT_HC;
  opt3 "CONFIG_RG_TR_064" NULL OPT_HC;
  opt3 "CONFIG_RG_DSLHOME_VOUCHERS" NULL OPT_HC;
  opt3 "CONFIG_RG_OPTION_MANAGER" NULL OPT_HC;
  opt3 "CONFIG_RG_XMLSEC" NULL OPT_HC;
  opt3 "CONFIG_RG_XML2" NULL OPT_HC;
  opt3 "CONFIG_RG_FIREWALL" NULL OPT_HC;
  opt3 "CONFIG_RG_FW_ICSA" NULL OPT_HC;
  opt4 "CONFIG_RG_FTP_CLIENT" NULL OPT_MAJOR_FEATURE (Some "FTP Client");
  opt4 "CONFIG_RG_GDBSERVER" NULL (OPT_MAJOR_FEATURE .| OPT_HC) (Some "GDB Server");
  opt2 "CONFIG_RG_HAVE_VENDOR_SRC" NULL;
  opt3 "CONFIG_RG_ADV_SERVICES_LEVEL" NULL (OPT_HC .| OPT_NUMBER);
  opt3 "CONFIG_RG_IGD" NULL OPT_HC;
  opt3 "CONFIG_RG_IGD_XBOX" NULL OPT_HC;
  opt2 "CONFIG_RG_MGT_IGD" NULL;
  opt4 "CONFIG_RG_IGMP_PROXY" NULL (OPT_MODULE_EXPAND .| OPT_HC .| OPT_STATIC_ON_DEVELOP .| OPT_MAJOR_FEATURE) (Some "IGMP Proxy");
  opt4 "CONFIG_RG_MCAST_RELAY" NULL (OPT_MODULE_EXPAND .| OPT_HC .| OPT_STATIC_ON_DEVELOP .| OPT_MAJOR_FEATURE) (Some "Multicast Relay");
  opt4 "CONFIG_RG_JFW" NULL (OPT_MODULE_EXPAND .| OPT_STATIC_ON_DEVELOP .| OPT_MAJOR_FEATURE) (Some "Jungo Firewall") ].

(** config_opt.c, lines 1607 to 1756. *)
Definition config_options_base_9 : list option_t := [
  opt3 "CONFIG_RG_MSS" NULL (OPT_MODULE_EXPAND .| OPT_STATIC_ON_DEVELOP .| OPT_HC);
  opt2 "CONFIG_RG_IPOA" NULL;
  opt3 "CONFIG_RG_KGDB" NULL OPT_NOSTRIP;
  opt4 "CONFIG_RG_LAN_UPGRADE" NULL (OPT_MAJOR_FEATURE .| OPT_HC) (Some "Remote Upgrade from LAN");
  opt2 "CONFIG_RG_OS_LINUX" NULL;
  opt2 "CONFIG_RG_OS_ECOS" NULL;
  opt3 "CONFIG_RG_OS_VXWORKS" NULL OPT_HC;
  opt4 "CONFIG_RG_NAT" NULL (OPT_MAJOR_FEATURE .| OPT_HC) (Some "NAT");
  opt4 "CONFIG_RG_NETKIT" NULL (OPT_MAJOR_FEATURE .| OPT_HC) (Some "Netkit Telnet server");
  opt3 "CONFIG_RG_NETTOOLS_ARP" NULL OPT_HC;
  opt4 "CONFIG_RG_OPENSSL" NULL OPT_NONE (Some "OpenSSL's ssl library");
  opt4 "CONFIG_RG_CRYPTO" NULL OPT_HC (Some "OpenSSL's crypto library");
  opt4 "CONFIG_RG_SSL" NULL (OPT_MAJOR_FEATURE .| OPT_HC) (Some "Secure HTTP (SSL)");
  opt4 "CONFIG_RG_PERM_STORAGE" NULL (OPT_MAJOR_FEATURE .| OPT_HC) (Some "Permanent Storage");
  opt4 "CONFIG_RG_PERM_STORAGE_VENDOR_HEADER" NULL OPT_HC NULL;
  opt3 "CONFIG_RG_ONE_MODULE" NULL (OPT_MODULE_EXPAND .| OPT_HC);
  opt3 "CONFIG_RG_KOS" NULL (OPT_MODULE_EXPAND .| OPT_STATIC_ON_DEVELOP .| OPT_HC);
  opt3 "CONFIG_RG_KOS_KNET" NULL OPT_HC;
  opt3 "CONFIG_RG_IPV4" NULL (OPT_MODULE_EXPAND .| OPT_STATIC_ON_DEVELOP);
  opt4 "CONFIG_RG_RIP" NULL (OPT_MAJOR_FEATURE .| OPT_HC) (Some "RIP V1/V2");
  opt3 "CONFIG_RG_RMT_UPDATE" NULL OPT_HC;
  opt3 "CONFIG_RG_RMT_UPGRADE_IMG_IN_MEM" NULL (OPT_NOSTRIP .| OPT_HC);
  opt4 "CONFIG_RG_RNAT" NULL (OPT_MAJOR_FEATURE .| OPT_HC) (Some "Reverse NAT");
  opt3 "CONFIG_BIDIR_NAT" NULL OPT_HC;
  opt3 "CONFIG_RG_RNDIS" NULL OPT_MODULE_EXPAND;
  opt2 "CONFIG_RG_RMT_FW_CONF" NULL;
  opt3 "CONFIG_RG_STANDALONE_PS" NULL OPT_HC;
  opt2 "CONFIG_RG_SYSINIT" NULL;
  opt3 "CONFIG_RG_SYSLOG_REMOTE" NULL OPT_HC;
  opt4 "CONFIG_RG_TFTP_SERVER" NULL (OPT_MAJOR_FEATURE .| OPT_HC) (Some "Remote Upgrade using TFTP Server");
  opt4 "CONFIG_RG_TFTP_SERVER_PASSWORD" NULL OPT_HC (Some "Verify TFTP password (non-standard)");
  opt3 "CONFIG_RG_TFTP_UPGRADE" NULL OPT_HC;
  opt4 "CONFIG_RG_UCD_SNMP" NULL (OPT_MAJOR_FEATURE .| OPT_HC) (Some "SNMP v1/v2");
  opt4 "CONFIG_RG_UCD_SNMP_V3" NULL OPT_MAJOR_FEATURE (Some "SNMP v3");
  opt4 "CONFIG_RG_UPNP" NULL (OPT_MAJOR_FEATURE .| OPT_HC) (Some "Universal Plug & Play");
  opt3 "CONFIG_RG_USB_SLAVE" NULL (OPT_MODULE_EXPAND .| OPT_HC);
  opt4 "CONFIG_RG_WAN_UPGRADE" NULL (OPT_MAJOR_FEATURE .| OPT_HC) (Some "Remote Upgrade from WAN");
  opt3 "CONFIG_RG_WLAN_AUTO_CHANNEL_SELECT" NULL OPT_HC;
  opt3 "CONFIG_RG_RMT_UPD_LOW_MEM" NULL OPT_HC;
  opt4 "CONFIG_RG_DNS" NULL (OPT_MAJOR_FEATURE .| OPT_HC) (Some "DNS");
  opt4 "CONFIG_RG_DNS_CONCURRENT" NULL (OPT_MAJOR_FEATURE .| OPT_HC) (Some "Concurrent DNS query");
  opt4 "CONFIG_RG_DNS_ROUTE" NULL (OPT_MAJOR_FEATURE .| OPT_HC) (Some "DNS Router. Add route rules according to which dns server answer queries");
  opt4 "CONFIG_RG_DNS_DOMAIN_ROUTING" NULL (OPT_MAJOR_FEATURE .| OPT_HC) (Some "Domain routing. Route according to domains listed on a device");
  opt4 "CONFIG_RG_DDNS" NULL (OPT_MAJOR_FEATURE .| OPT_HC) (Some "Dynamic DNS");
  opt4 "CONFIG_RG_ENTFY" NULL (OPT_MAJOR_FEATURE .| OPT_HC) (Some "Email Notification");
  opt4 "CONFIG_RG_HTTP_PROXY" NULL (OPT_MAJOR_FEATURE .| OPT_HC) (Some "HTTP Proxy");
  opt4 "CONFIG_RG_GENERIC_PROXY" NULL OPT_MAJOR_FEATURE (Some "Generic Proxy");
  opt4 "CONFIG_RG_MAIL_FILTER" NULL (OPT_MAJOR_FEATURE .| OPT_HC) (Some "Mail filter");
  opt4 "CONFIG_RG_URL_KEYWORD_FILTER" NULL (OPT_MAJOR_FEATURE .| OPT_HC) (Some "URL Keyword Filtering");
  opt4 "CONFIG_RG_SURFCONTROL" NULL (OPT_MAJOR_FEATURE .| OPT_HC) (Some "SurfControl");
  opt3 "CONFIG_RG_SURFCONTROL_PARTNER_ID" NULL OPT_NUMBER;
  opt4 "CONFIG_RG_8021X" NULL (OPT_MAJOR_FEATURE .| OPT_HC) (Some "802.1X");
  opt4 "CONFIG_RG_8021X_MD5" NULL (OPT_MAJOR_FEATURE .| OPT_HC) (Some "802.1X MD5 - Internal Authentication");
  opt4 "CONFIG_RG_8021X_TTLS" NULL (OPT_MAJOR_FEATURE .| OPT_HC) (Some "802.1X TTLS - Internal Authentication");
  opt3 "CONFIG_RG_8021X_PKTFIL" NULL (OPT_MODULE_EXPAND .| OPT_STATIC_ON_DEVELOP);
  opt4 "CONFIG_RG_8021X_TLS" NULL (OPT_MAJOR_FEATURE .| OPT_HC) (Some "802.1X TLS - Internal Authentication");
  opt3 "CONFIG_RG_8021X_RADIUS" NULL OPT_HC;
  opt3 "CONFIG_RG_8021X_WBM" NULL OPT_HC;
  opt4 "CONFIG_RG_RADIUS" NULL (OPT_MAJOR_FEATURE .| OPT_HC) (Some "RADIUS - External Authentication");
  opt2 "CONFIG_RG_VENDOR_WLAN_SEC" NULL;
  opt3 "CONFIG_RG_AUTH" NULL (OPT_HC .| OPT_MK);
  opt3 "CONFIG_RG_SSID_NAME" NULL OPT_C_STR;
  opt2 "CONFIG_RG_BLUETOOTH_NAME" NULL;
  opt3 "CONFIG_RG_RADIUS_WBM_IN_CONN" NULL OPT_HC;
  opt4 "CONFIG_RG_RADIUS_LOGIN_AUTH" NULL OPT_HC (Some "RADIUS Authentication for TELNET and WBM");
  opt4 "CONFIG_RG_WEP" NULL OPT_MAJOR_FEATURE (Some "WEP");
  opt4 "CONFIG_RG_WPA" NULL (OPT_MAJOR_FEATURE .| OPT_HC) (Some "WPA");
  opt3 "CONFIG_RG_WPA_BCM" NULL OPT_HC;
  opt3 "CONFIG_RG_WPA_WBM" NULL OPT_HC;
  opt4 "CONFIG_RG_DHCPS" NULL (OPT_MAJOR_FEATURE .| OPT_HC) (Some "DHCP Server");
  opt4 "CONFIG_RG_DHCPC" NULL (OPT_MAJOR_FEATURE .| OPT_HC) (Some "DHCP Client");
  opt3 "CONFIG_RG_HOSTAPD" NULL (OPT_HC .| OPT_MK);
  opt3 "CONFIG_RSN_PREAUTH" NULL (OPT_HC .| OPT_MK);
  opt3 "CONFIG_DRIVER_MADWIFI" NULL (OPT_HC .| OPT_MK);
  opt4 "CONFIG_RG_DHCPR" NULL (OPT_MAJOR_FEATURE .| OPT_HC) (Some "DHCP Relay Agent");
  opt3 "CONFIG_RG_DHCP_PKTFIL" NULL (OPT_MODULE_EXPAND .| OPT_STATIC_ON_DEVELOP);
  opt3 "CONFIG_RG_PKTCBL" NULL (OPT_MODULE_EXPAND .| OPT_STATIC_ON_DEVELOP);
  opt4 "CONFIG_RG_SSI" NULL (OPT_MAJOR_FEATURE .| OPT_HC) (Some "Static HTML Management");
  opt4 "CONFIG_RG_SSI_PAGES" NULL OPT_HC (Some "Sample Static HTML Management Pages");
  opt4 "CONFIG_RG_WBM" NULL (OPT_MAJOR_FEATURE .| OPT_HC) (Some "Web Based Management");
  opt3 "CONFIG_LOCAL_WBM_LIB" NULL (OPT_MK .| OPT_HC);
  opt3 "CONFIG_RG_TCPDUMP" NULL (OPT_MK .| OPT_HC);
  opt3 "CONFIG_FREESWAN_COMMON" NULL (OPT_MK .| OPT_HC);
  opt3 "CONFIG_RG_ACL" NULL (OPT_MK .| OPT_HC);
  opt3 "CONFIG_RG_ATTR" NULL (OPT_MK .| OPT_HC);
  opt3 "CONFIG_RG_BACKUP" NULL (OPT_MK .| OPT_HC);
  opt3 "CONFIG_RG_BOOTLDR" NULL (OPT_MK .| OPT_HC);
  opt3 "CONFIG_RG_CABLEHOME_COMMON" NULL OPT_HC;
  opt3 "CONFIG_RG_DHCP_COMMON" NULL (OPT_MK .| OPT_HC);
  opt3 "CONFIG_RG_SAMPLES_COMMON" NULL (OPT_MK .| OPT_HC);
  opt3 "CONFIG_RG_DOSFSTOOLS " NULL (OPT_MK .| OPT_HC);
  opt3 "CONFIG_RG_E2FSPROGS" NULL (OPT_MK .| OPT_HC);
  opt3 "CONFIG_RG_FLEX" NULL (OPT_MK .| OPT_HC) ].

(** config_opt.c, lines 1757 to 1905. *)
Definition config_options_base_10 : list option_t := [
  opt3 "CONFIG_RG_LIBPCAP" NULL (OPT_MK .| OPT_HC);
  opt3 "CONFIG_RG_LZMA" NULL OPT_HC;
  opt3 "CONFIG_RG_MGT" NULL OPT_HC;
  opt3 "CONFIG_RG_OPENSSL_COMMON" NULL OPT_HC;
  opt3 "CONFIG_RG_OPENSSL_MD5" NULL OPT_HC;
  opt3 "CONFIG_RG_OPENSSL_SHA" NULL OPT_HC;
  opt3 "CONFIG_RG_OPENSSL_DES" NULL OPT_HC;
  opt3 "CONFIG_RG_OPENSSL_MD4" NULL OPT_HC;
  opt1 "CONFIG_RG_OPENSSL_BLOWFISH";
  opt1 "CONFIG_RG_OPENSSL_CAST";
  opt3 "CONFIG_RG_READLINE" NULL (OPT_MK .| OPT_HC);
  opt3 "CONFIG_RG_RGLOADER_COMMON" NULL (OPT_MK .| OPT_HC);
  opt3 "CONFIG_RG_STAR" NULL (OPT_MK .| OPT_HC);
  opt3 "CONFIG_RG_SYSLOG_COMMON" NULL OPT_HC;
  opt3 "CONFIG_RG_TERMCAP" NULL (OPT_MK .| OPT_HC);
  opt3 "CONFIG_RG_TEST_TOOLS" NULL (OPT_MK .| OPT_HC);
  opt3 "CONFIG_RG_TZ" NULL OPT_HC;
  opt3 "CONFIG_RG_USAGI" NULL (OPT_MK .| OPT_HC);
  opt3 "CONFIG_RG_UTIL_LINUX" NULL (OPT_MK .| OPT_HC);
  opt3 "CONFIG_GUI_RG" NULL (OPT_THEME .| OPT_HC);
  opt3 "CONFIG_GUI_SMB" NULL OPT_THEME;
  opt3 "CONFIG_GUI_RG2" NULL (OPT_THEME .| OPT_HC);
  opt3 "CONFIG_GUI_SMB2" NULL (OPT_THEME .| OPT_HC);
  opt3 "CONFIG_GUI_CUST_RG2" NULL (OPT_THEME .| OPT_HC);
  opt3 "CONFIG_GUI_CUST_SMB2" NULL (OPT_THEME .| OPT_HC);
  opt3 "CONFIG_GUI_LINKSYS" NULL OPT_THEME;
  opt3 "CONFIG_GUI_NETGEAR" NULL OPT_THEME;
  opt3 "CONFIG_GUI_WELLTECH" NULL OPT_THEME;
  opt3 "CONFIG_GUI_BELKIN" NULL (OPT_THEME .| OPT_HC);
  opt3 "CONFIG_RG_LIBIMAGE" NULL OPT_HC;
  opt3 "CONFIG_RG_LIBIMAGE_DIM" NULL OPT_HC;
  opt3 "CONFIG_RG_LIBJPEG" NULL OPT_HC;
  opt3 "CONFIG_RG_NETOBJ" NULL OPT_HC;
  opt3 "CONFIG_RG_LAN_BRIDGE_CONST" NULL OPT_HC;
  opt3 "CONFIG_RG_AUTO_DST" NULL OPT_HC;
  opt4 "CONFIG_RG_TZ_COMMON" NULL OPT_MAJOR_FEATURE (Some "TimeZone support");
  opt4 "CONFIG_RG_TZ_FULL" NULL (OPT_MAJOR_FEATURE .| OPT_HC) (Some "Full TimeZone support");
  opt3 "CONFIG_RG_TZ_YEARS" NULL OPT_NUMBER;
  opt4 "CONFIG_RG_HTTPS" NULL (OPT_MAJOR_FEATURE .| OPT_HC) (Some "HTTP Server");
  opt3 "CONFIG_HTTP_CGI_PROCESS" NULL OPT_HC;
  opt2 "CONFIG_RG_SAMPLES" NULL;
  opt4 "CONFIG_RG_TELNETS" NULL (OPT_MAJOR_FEATURE .| OPT_HC) (Some "Telnet Server");
  opt4 "CONFIG_RG_SYSLOG" NULL (OPT_MAJOR_FEATURE .| OPT_HC) (Some "SysLog");
  opt3 "CONFIG_RG_SYSLOG_GLIBC" NULL (OPT_MK .| OPT_HC);
  opt3 "CONFIG_RG_LOG_DEV" NULL (OPT_MODULE_EXPAND .| OPT_STATIC_ON_DEVELOP);
  opt2 "CONFIG_RG_KERN_LOG" NULL;
  opt2 "CONFIG_BASIC_LOG" NULL;
  opt3 "CONFIG_RG_LOG_DEV_BUF_SIZE" NULL OPT_NUMBER;
  opt3 "CONFIG_RG_SYSLOG_FW_DEF_SIZE" NULL OPT_NUMBER;
  opt4 "CONFIG_RG_CLI" NULL (OPT_MAJOR_FEATURE .| OPT_HC) (Some "Command Line Interface");
  opt2 "CONFIG_RG_CLI_SERVER" NULL;
  opt2 "CONFIG_RG_CLI_SERIAL" NULL;
  opt2 "CONFIG_RG_TTYP" NULL;
  opt2 "CONFIG_RG_LOGIN" NULL;
  opt3 "CONFIG_RG_STATIC_ROUTE" NULL OPT_HC;
  opt3 "CONFIG_RG_BUSYBOX" NULL OPT_HC;
  opt2 "CONFIG_RG_ERESOLV" NULL;
  opt3 "CONFIG_RG_WGET" NULL OPT_HC;
  opt3 "CONFIG_RG_NON_ROUTABLE_LAN_DEVICE_IP" NULL OPT_HC;
  opt3 "CONFIG_RG_FREESWAN" NULL OPT_HC;
  opt3 "CONFIG_RG_X509" NULL OPT_HC;
  opt3 "CONFIG_RG_CERT" NULL OPT_HC;
  opt3 "CONFIG_RG_CERT_SHORT_LIST" NULL OPT_HC;
  opt4 "CONFIG_RG_KERBEROS" NULL (OPT_MAJOR_FEATURE .| OPT_HC) (Some "Kerberos");
  opt2 "CONFIG_RGLOADER_CLI" NULL;
  opt2 "CONFIG_ROOT_ON_FLASH" NULL;
  opt2 "CONFIG_RTC" NULL;
  opt3 "CONFIG_RTL8139" NULL OPT_MODULE_EXPAND;
  opt2 "CONFIG_RWSEM_GENERIC_SPINLOCK" NULL;
  opt2 "CONFIG_SCC2_ENET" NULL;
  opt2 "CONFIG_SCC_ENET" NULL;
  opt2 "CONFIG_SDRAM_BASE" NULL;
  opt2 "CONFIG_SDRAM_END" NULL;
  opt3 "CONFIG_SDRAM_SIZE" NULL (OPT_NUMBER .| OPT_HC);
  opt2 "CONFIG_PHYS_SDRAM_SIZE" NULL;
  opt2 "CONFIG_SERIAL" NULL;
  opt2 "CONFIG_SERIAL_CORE" NULL;
  opt2 "CONFIG_SERIAL_CORE_CONSOLE" NULL;
  opt2 "CONFIG_SERIAL_8250" NULL;
  opt2 "CONFIG_SERIAL_8250_CONSOLE" NULL;
  opt2 "CONFIG_SERIAL_8250_COMCERTO" NULL;
  opt3 "CONFIG_SERIAL_8250_NR_UARTS" NULL OPT_NUMBER;
  opt3 "CONFIG_SERIAL_8250_RUNTIME_UARTS" NULL OPT_NUMBER;
  opt2 "CONFIG_SERIAL_CNXT" NULL;
  opt2 "CONFIG_SERIAL_CONSOLE" NULL;
  opt2 "CONFIG_SERIAL_ECHO" NULL;
  opt2 "CONFIG_SERIAL_IXP" NULL;
  opt3 "CONFIG_SIMPLE_RAMDISK" NULL OPT_EXPORT;
  opt2 "CONFIG_SKB_LARGE" NULL;
  opt2 "CONFIG_SMALL_FLASH" NULL;
  opt2 "CONFIG_SMALL_SDRAM" NULL;
  opt2 "CONFIG_SMALL_STACK" NULL;
  opt2 "CONFIG_SOFT_FLOAT" NULL;
  opt2 "CONFIG_SOFTSAR_SMALL_BUFFERS" NULL;
  opt2 "CONFIG_SP_RAM_POS" NULL;
  opt2 "CONFIG_SP_RAM_SIZE" NULL;
  opt2 "CONFIG_START_KERNEL_POS" NULL;
  opt2 "CONFIG_STRONGARM" NULL;
  opt2 "CONFIG_SUNRPC" NULL;
  opt2 "CONFIG_SYN_COOKIES" NULL;
  opt2 "CONFIG_SYSCTL" NULL;
  opt2 "CONFIG_SYSLOG_UNIXSOCK_SUPPORT" NULL;
  opt2 "CONFIG_SYSVIPC" NULL;
  opt2 "CONFIG_RG_PING" NULL;
  opt2 "CONFIG_RG_CONN_SPEED" NULL;
  opt4 "CONFIG_RG_TRACEROUTE" NULL OPT_HC NULL;
  opt2 "CONFIG_TEXT_SECTIONS" NULL;
  opt4 "CONFIG_RG_TODC" NULL (OPT_MAJOR_FEATURE .| OPT_HC) (Some "TOD Client");
  opt2 "CONFIG_UCD_SNMP_AGENT_LIB" NULL;
  opt2 "CONFIG_UCD_SNMP_NO_DEF_MIBS" NULL;
  opt2 "CONFIG_UID16" NULL;
  opt3 "CONFIG_ULIBC" NULL (OPT_HC .| OPT_EXPORT);
  opt2 "CONFIG_ULIBC_DO_C99_MATH" NULL;
  opt3 "CONFIG_RG_CXX" NULL OPT_EXPORT;
  opt3 "CONFIG_UCLIBCXX" NULL OPT_HC;
  opt2 "CONFIG_UNIX" NULL;
  opt3 "CONFIG_UNIX98_PTY_COUNT" NULL OPT_NUMBER;
  opt2 "CONFIG_UNIX98_PTYS" NULL;
  opt3 "CONFIG_USB" NULL OPT_MODULE_EXPAND;
  opt3 "CONFIG_USB_GADGET" NULL OPT_MODULE_EXPAND;
  opt2 "CONFIG_USB_GADGET_DUALSPEED" NULL;
  opt3 "CONFIG_USB_ETH" NULL OPT_MODULE_EXPAND;
  opt3 "CONFIG_RG_USB" NULL OPT_MODULE_EXPAND;
  opt2 "CONFIG_USB_OV511" NULL;
  opt2 "CONFIG_VIDEO_DEV" NULL;
  opt2 "CONFIG_VIDEO_PROC_FS" NULL;
  opt2 "CONFIG_USB_PWC" NULL;
  opt2 "CONFIG_USB_SPCA5XX" NULL;
  opt2 "CONFIG_FILESERVER_KERNEL_CONFIG" NULL;
  opt3 "CONFIG_USB_STORAGE" NULL OPT_MODULE_EXPAND;
  opt2 "CONFIG_USB_DEVICEFS" NULL;
  opt3 "CONFIG_USB_OHCI" NULL OPT_MODULE_EXPAND;
  opt3 "CONFIG_USB_UHCI" NULL OPT_MODULE_EXPAND;
  opt3 "CONFIG_USB_OHCI_HCD" NULL OPT_MODULE_EXPAND;
  opt3 "CONFIG_USB_UHCI_HCD" NULL OPT_MODULE_EXPAND;
  opt3 "CONFIG_USB_EHCI_HCD" NULL OPT_MODULE_EXPAND;
  opt2 "CONFIG_USB_EHCI_ROOT_HUB_TT" NULL;
  opt2 "CONFIG_USB_CONN_MONITOR" NULL ].

(** config_opt.c, lines 1906 to 2055. *)
Definition config_options_base_11 : list option_t := [
  opt4 "CONFIG_USB_RNDIS" NULL (OPT_MODULE_EXPAND .| OPT_MAJOR_FEATURE) (Some "USB RNDIS");
  opt2 "OPENRG_DEBUG_MODULES" NULL;
  opt2 "CONFIG_USB_SIMPLE_DMA" NULL;
  opt2 "CONFIG_GENERIC_ISA_DMA" NULL;
  opt3 "CONFIG_INSURE" NULL OPT_EXPORT;
  opt3 "CONFIG_VALGRIND" NULL OPT_HC;
  opt2 "CONFIG_VIA_RHINE" NULL;
  opt2 "CONFIG_VPN" NULL;
  opt2 "CONFIG_VT" NULL;
  opt2 "CONFIG_VT_CONSOLE" NULL;
  opt2 "CONFIG_X86" NULL;
  opt3 "CONFIG_X86_L1_CACHE_SHIFT" NULL OPT_NUMBER;
  opt2 "CONFIG_X86_PPRO_FENCE" NULL;
  opt3 "CONFIG_X86_REMOTE_DEBUG" NULL OPT_NOSTRIP;
  opt3 "CONFIG_ZBOOT_ROM_TEXT" NULL OPT_NUMBER;
  opt3 "CONFIG_ZBOOT_ROM_BSS" NULL OPT_NUMBER;
  opt2 "CONFIG_ZCOM_XG1000" NULL;
  opt2 "CONFIG_ZKERNEL_RAM_POS" NULL;
  opt3 "CONFIG_ZOOM_CM" NULL OPT_MODULE_EXPAND;
  opt2 "CONFIG_ZRAMDISK_POS" NULL;
  opt3 "CONFIG_PCBOX" NULL OPT_HC;
  opt3 "TARGET_ENDIANESS" NULL (OPT_STR .| OPT_EXPORT);
  opt3 "BOARD" NULL OPT_STR;
  opt2 "CONFIG_IDT_COMMON" NULL;
  opt2 "CONFIG_RG_FLASHDISK" NULL;
  opt3 "FIRM" NULL OPT_STR;
  opt2 "MAGIC_ROM_PTR" NULL;
  opt2 "CONFIG_RG_FLASH_LINEAR" NULL;
  opt4 "CONFIG_RG_TELEPHONY" NULL (OPT_MAJOR_FEATURE .| OPT_HC) (Some "Telephony");
  opt3 "CONFIG_RG_VOATM" NULL OPT_HC;
  opt3 "CONFIG_RG_VOATM_ELCP" NULL OPT_MODULE_EXPAND;
  opt3 "CONFIG_RG_VOATM_CAS" NULL OPT_MODULE_EXPAND;
  opt2 "CONFIG_PHY_LSI_LOGIC" NULL;
  opt3 "CONFIG_RG_FACTORY_SETTINGS" NULL OPT_HC;
  opt2 "CONFIG_RG_MAC_COMPANY_ID" NULL;
  opt3 "CONFIG_RG_HW_BUTTONS" NULL (OPT_MODULE_EXPAND .| OPT_STATIC_ON_DEVELOP);
  opt2 "DIST_TYPE" NULL;
  opt3 "CONFIG_REMOTE_DEBUG" NULL OPT_NOSTRIP;
  opt3 "CONFIG_PCI_RESET" NULL OPT_NOSTRIP;
  opt3 "CONFIG_RG_CONSOLE_DEVICE" NULL (OPT_STR .| OPT_EXPORT);
  opt3 "CONFIG_RG_SAMBA" NULL OPT_HC;
  opt3 "OPENRG_CHRDEV_MAJOR" NULL OPT_NUMBER;
  opt3 "OPENRG_CHRDEV_NAME" NULL OPT_C_STR;
  opt2 "CONFIG_RG_NOT_UNIX" NULL;
  opt2 "CONFIG_RG_EFSS" NULL;
  opt2 "CONFIG_VX_SYMTBL" NULL;
  opt3 "CONFIG_ATHEROS_AR531X_MIPS" NULL OPT_HC;
  opt2 "CONFIG_ARCH_AR531X" NULL;
  opt3 "CONFIG_ARCH_WRT108G" NULL OPT_HC;
  opt2 "CONFIG_AR531X_DEBUG" NULL;
  opt3 "CONFIG_TI_404_MIPS" NULL OPT_HC;
  opt3 "CONFIG_TI_404_COMMON" NULL OPT_HC;
  opt2 "CONFIG_TI_404_HAS_QOS_API" NULL;
  opt2 "CONFIG_WINDOWS_HOST" NULL;
  opt2 "CONFIG_GCC_CAN_INLINE" NULL;
  opt2 "CONFIG_GCC_CANNOT_OPTIMIZE" NULL;
  opt2 "RAM_HIGH_ADRS" NULL;
  opt2 "RAM_LOW_ADRS" NULL;
  opt2 "CONFIG_I386_BOCHS" NULL;
  opt3 "CONFIG_I386" NULL OPT_HC;
  opt3 "CONFIG_UM" NULL OPT_HC;
  opt2 "CONFIG_VX_KNET_SYMLINK" NULL;
  opt2 "CONFIG_RG_VX_DEFERRED_TX" NULL;
  opt3 "CONFIG_RG_DISK_MNG" NULL OPT_HC;
  opt4 "CONFIG_RG_FILESERVER" NULL (OPT_MAJOR_FEATURE .| OPT_HC .| OPT_EXPORT) (Some "File Server");
  opt2 "CONFIG_RG_STORAGE" NULL;
  opt2 "CONFIG_RG_STORAGE_UTILS" NULL;
  opt3 "CONFIG_RG_MAX_EXT2_CHECK_SIZE" NULL OPT_NUMBER;
  opt3 "CONFIG_RG_MAX_FAT_CHECK_SIZE" NULL OPT_NUMBER;
  opt2 "CONFIG_RG_LARGE_FILE_SUPPORT" NULL;
  opt3 "CONFIG_RG_CODEPAGE" NULL OPT_STR;
  opt2 "CONFIG_EXACT_EVENT_LOOP" NULL;
  opt3 "CONFIG_MSDOS_PARTITION" NULL OPT_NOSTRIP;
  opt1 "CONFIG_FAT_FS";
  opt3 "CONFIG_FAT_DEFAULT_CODEPAGE" NULL OPT_NUMBER;
  opt1 "CONFIG_MSDOS_FS";
  opt1 "CONFIG_VFAT_FS";
  opt1 "CONFIG_NLS";
  opt3 "CONFIG_NLS_DEFAULT" NULL OPT_STR;
  opt1 "CONFIG_NLS_CODEPAGE_437";
  opt1 "CONFIG_NLS_CODEPAGE_850";
  opt1 "CONFIG_NLS_UTF8";
  opt3 "CONFIG_SMB_FS" NULL OPT_MODULE_EXPAND;
  opt3 "CONFIG_RG_FILESERVER_ACLS" NULL OPT_HC;
  opt3 "CONFIG_RG_FILESERVER_ACLS_DEBUG" NULL OPT_HC;
  opt2 "CONFIG_FS_POSIX_ACL" NULL;
  opt2 "CONFIG_EXT3_FS_POSIX_ACL" NULL;
  opt2 "CONFIG_EXT2_FS_POSIX_ACL" NULL;
  opt2 "CONFIG_EXT3_FS_XATTR" NULL;
  opt2 "CONFIG_EXT3_FS_XATTR_SHARING" NULL;
  opt2 "CONFIG_EXT3_FS_XATTR_USER" NULL;
  opt2 "CONFIG_EXT2_FS_XATTR" NULL;
  opt2 "CONFIG_EXT2_FS_XATTR_SHARING" NULL;
  opt2 "CONFIG_EXT2_FS_XATTR_USER" NULL;
  opt2 "CONFIG_FS_MBCACHE" NULL;
  opt4 "CONFIG_RG_SSH" NULL (OPT_MAJOR_FEATURE .| OPT_HC) (Some "SSH");
  opt4 "CONFIG_RG_RAID" NULL (OPT_MAJOR_FEATURE .| OPT_HC) (Some "RAID");
  opt3 "CONFIG_RG_RAID_IDE_ONLY" NULL OPT_HC;
  opt2 "CONFIG_MD" NULL;
  opt3 "CONFIG_BLK_DEV_MD" NULL OPT_EXPORT;
  opt2 "CONFIG_MD_RAID0" NULL;
  opt2 "CONFIG_MD_RAID1" NULL;
  opt2 "CONFIG_MD_RAID5" NULL;
  opt1 "CONFIG_SCSI";
  opt3 "CONFIG_BLK_DEV_SD" NULL OPT_EXPORT;
  opt2 "CONFIG_SCSI_SATA" NULL;
  opt2 "CONFIG_SCSI_SATA_SIL" NULL;
  opt3 "CONFIG_SD_EXTRA_DEVS" NULL OPT_NUMBER;
  opt3 "CONFIG_FLASH" NULL (OPT_MODULE_EXPAND .| OPT_STATIC_ON_DEVELOP .| OPT_HC);
  opt1 "CONFIG_FLASH_IN_FILE";
  opt1 "CONFIG_RG_IR_TEST";
  opt1 "CONFIG_VLAN_8021Q";
  opt3 "CONFIG_RG_VLAN_8021Q" NULL OPT_HC;
  opt1 "CONFIG_VLAN_8021Q_FAST" ].

(** config_opt.c, lines 2057 to 2206. *)
Definition config_options_base_12 : list option_t := [
  opt3 "CONFIG_AT93CXX" NULL OPT_MODULE_EXPAND;
  opt3 "CONFIG_ADM6996" NULL OPT_MODULE_EXPAND;
  opt3 "CONFIG_MARVELL_88E60XX" NULL (OPT_MODULE_EXPAND .| OPT_HC);
  opt3 "CONFIG_TANTOS_PSB6973" NULL (OPT_MODULE_EXPAND .| OPT_HC);
  opt1 "CONFIG_NO_FRAME_POINTER";
  opt3 "CONFIG_RG_OS_LINUX_26" NULL OPT_HC;
  opt3 "CONFIG_RG_OS_LINUX_24" NULL OPT_HC;
  opt3 "CONFIG_RG_OS_LINUX_22" NULL OPT_HC;
  opt3 "CONFIG_RG_EMI" NULL OPT_HC;
  opt3 "CONFIG_RG_EMI_IRDA" NULL OPT_HC;
  opt3 "CONFIG_RG_EMI_USB" NULL OPT_MODULE_EXPAND;
  opt3 "CONFIG_RG_LANGUAGES" NULL OPT_STR;
  opt3 "CONFIG_RG_DIST_LANG" NULL OPT_STR;
  opt2 "CONFIG_DMA_COHERENT" NULL;
  opt2 "CONFIG_SWAP_IO_SPACE" NULL;
  opt2 "CONFIG_SWAP_IO_SPACE_W" NULL;
  opt2 "CONFIG_SWAP_IO_SPACE_L" NULL;
  opt2 "CONFIG_BOOT_ELF32" NULL;
  opt3 "CONFIG_MIPS_L1_CACHE_SHIFT" NULL OPT_NUMBER;
  opt1 "CONFIG_CPU_HAS_PREFETCH";
  opt1 "CONFIG_CPU_HAS_LLSC";
  opt1 "CONFIG_CPU_HAS_SYNC";
  opt2 "CONFIG_CPU_HAS_LLDSCD" NULL;
  opt2 "CONFIG_NO_ISA" NULL;
  opt2 "CONFIG_DMA_NONCOHERENT" NULL;
  opt1 "CONFIG_32BIT";
  opt1 "CONFIG_64BIT";
  opt1 "CONFIG_PAGE_SIZE_4KB";
  opt1 "CONFIG_GENERIC_IRQ_PROBE";
  opt1 "CONFIG_FLATMEM";
  opt1 "CONFIG_FLAT_NODE_MEM_MAP";
  opt1 "CONFIG_LINUX_SKB_REUSE";
  opt1 "CONFIG_NET_HW_FLOWCONTROL";
  opt2 "CONFIG_SMP" NULL;
  opt3 "CONFIG_NR_CPUS" NULL OPT_NUMBER;
  opt1 "CONFIG_PREEMPT_BKL";
  opt1 "CONFIG_LOCK_KERNEL";
  opt2 "CONFIG_CPU_SB1" NULL;
  opt1 "CONFIG_SB1_PASS_1_WORKAROUNDS";
  opt2 "CONFIG_SIBYTE_SWARM" NULL;
  opt2 "CONFIG_SIBYTE_SENTOSA" NULL;
  opt2 "CONFIG_SIBYTE_COLORADO" NULL;
  opt3 "CONFIG_SIBYTE_SB1250" NULL OPT_HC;
  opt2 "CONFIG_SIBYTE_SB1xxx_SOC" NULL;
  opt2 "CONFIG_CPU_SB1_PASS_1" NULL;
  opt2 "CONFIG_SIBYTE_HAS_LDT" NULL;
  opt2 "CONFIG_SIBYTE_CFE" NULL;
  opt2 "CONFIG_SIBYTE_BOARD" NULL;
  opt2 "CONFIG_SERIAL_NONSTANDARD" NULL;
  opt2 "CONFIG_SIBYTE_SB1250_DUART" NULL;
  opt2 "CONFIG_SIBYTE_SB1250_DUART_CONSOLE" NULL;
  opt1 "CONFIG_NET_SB1250_MAC";
  opt1 "CONFIG_NET_SB1250_MAC_TASKLET";
  opt3 "CONFIG_BCM91125E_MTD" NULL OPT_MODULE_EXPAND;
  opt3 "CONFIG_INFINEON_TWINPASS" NULL OPT_HC;
  opt2 "CONFIG_DANUBE" NULL;
  opt2 "CONFIG_DANUBE_PCI" NULL;
  opt2 "CONFIG_DANUBE_PCI_HW_SWAP" NULL;
  opt2 "CONFIG_DANUBE_MPS" NULL;
  opt2 "CONFIG_DANUBE_MPS_PROC_DEBUG" NULL;
  opt2 "CONFIG_TWINPASS_64_MEG" NULL;
  opt2 "CONFIG_BOARD_TWINPASS_E" NULL;
  opt2 "CONFIG_DANUBE_ETHERNET" NULL;
  opt2 "CONFIG_DANUBE_ETHERNET_D2" NULL;
  opt3 "CONFIG_DANUBE_ETHERNET_D4" NULL OPT_MODULE_EXPAND;
  opt2 "CONFIG_DANUBE_PPA_D4" NULL;
  opt3 "CONFIG_DANUBE_PPA" NULL OPT_MODULE_EXPAND;
  opt2 "CONFIG_ADM6996_SUPPORT" NULL;
  opt2 "CONFIG_SWITCH_ADM6996I" NULL;
  opt2 "CONFIG_SWITCH_ADM6996_MDIO" NULL;
  opt2 "CONFIG_SERIAL_IFX_ASC" NULL;
  opt2 "CONFIG_SERIAL_IFX_ASC_CONSOLE" NULL;
  opt2 "CONFIG_IFX_ASC_CONSOLE_ASC0" NULL;
  opt2 "CONFIG_IFX_ASC_CONSOLE_ASC1" NULL;
  opt3 "CONFIG_IFX_ASC_DEFAULT_BAUDRATE" NULL OPT_NUMBER;
  opt3 "CONFIG_CRYPTO_DANUBE" NULL OPT_MODULE_EXPAND;
  opt3 "CONFIG_CRYPTO_DEV_DANUBE" NULL OPT_HC;
  opt3 "CONFIG_CRYPTO_DEV_DANUBE_DES" NULL OPT_HC;
  opt3 "CONFIG_CRYPTO_DEV_DANUBE_AES" NULL OPT_HC;
  opt3 "CONFIG_CRYPTO_DEV_DANUBE_SHA1" NULL OPT_HC;
  opt3 "CONFIG_CRYPTO_DEV_DANUBE_MD5" NULL OPT_HC;
  opt3 "CONFIG_CRYPTO_DEV_DEU" NULL OPT_HC;
  opt3 "CONFIG_CRYPTO_DEV_DANUBE_DMA" NULL OPT_HC;
  opt3 "CONFIG_RG_DANUBE_DUALCORE" NULL (OPT_MODULE_EXPAND .| OPT_HC);
  opt3 "CONFIG_TWINPASS_DUALCORE_WLAN" NULL (OPT_MODULE_EXPAND .| OPT_HC);
  opt1 "CONFIG_WESTELL_ULTRALINE3";
  opt1 "CONFIG_WESTELL_ULTRALINE3_TURBO";
  opt1 "CONFIG_WESTELL_MGMUT_FTM";
  opt1 "MOCA_ENTROPIC_V_04";
  opt1 "MOCA_ENTROPIC_TURBO";
  opt1 "MOCA_TURBO_LAN";
  opt3 "MOCA_VERSION_1_1" NULL (OPT_H .| OPT_HC .| OPT_MK);
  opt3 "CONFIG_ENTROPIC_CLINK" NULL (OPT_HC .| OPT_MK);
  opt3 "CONFIG_RG_UML" NULL (OPT_HC .| OPT_EXPORT);
  opt1 "CONFIG_PROC_MM";
  opt3 "CONFIG_KERNEL_HALF_GIGS" NULL OPT_NUMBER;
  opt3 "CONFIG_CON_ZERO_CHAN" NULL OPT_C_STR;
  opt3 "CONFIG_NEST_LEVEL" NULL OPT_NUMBER;
  opt3 "CONFIG_KERNEL_STACK_ORDER" NULL OPT_NUMBER;
  opt1 "CONFIG_MCONSOLE";
  opt1 "CONFIG_HPPFS";
  opt1 "CONFIG_HOSTFS";
  opt1 "CONFIG_MODE_TT";
  opt1 "CONFIG_MODE_SKAS";
  opt3 "CONFIG_CON_CHAN" NULL OPT_C_STR;
  opt3 "CONFIG_SSL_CHAN" NULL OPT_C_STR;
  opt1 "CONFIG_PT_PROXY";
  opt1 "CONFIG_USERMODE";
  opt1 "CONFIG_RWSEM_XCHGADD_ALGORITHM";
  opt1 "CONFIG_STDIO_CONSOLE";
  opt1 "CONFIG_SSL";
  opt1 "CONFIG_FD_CHAN";
  opt1 "CONFIG_NULL_CHAN";
  opt1 "CONFIG_PORT_CHAN";
  opt1 "CONFIG_PTY_CHAN";
  opt1 "CONFIG_TTY_CHAN";
  opt1 "CONFIG_XTERM_CHAN";
  opt1 "CONFIG_BLK_DEV_UBD";
  opt1 "CONFIG_BLK_DEV_NBD";
  opt1 "CONFIG_UML_NET";
  opt1 "CONFIG_UML_NET_ETHERTAP";
  opt1 "CONFIG_UML_NET_TUNTAP";
  opt1 "CONFIG_UML_NET_SLIP";
  opt1 "CONFIG_UML_NET_SLIRP";
  opt1 "CONFIG_UML_NET_DAEMON";
  opt1 "CONFIG_UML_NET_MCAST";
  opt3 "CONFIG_UML_RAM_SIZE" NULL OPT_C_STR;
  opt1 "CONFIG_UML_BIG_FLASH" ].

(** config_opt.c, lines 2207 to 2356. *)
Definition config_options_base_13 : list option_t := [
  opt1 "CONFIG_DUMMY";
  opt1 "CONFIG_TUN";
  opt1 "CONFIG_PACKET_MMAP";
  opt1 "CONFIG_QUOTA";
  opt1 "CONFIG_AUTOFS4_FS";
  opt1 "CONFIG_DEVFS_FS";
  opt1 "CONFIG_DEVFS_MOUNT";
  opt1 "CONFIG_REISERFS_FS";
  opt1 "CONFIG_ZLIB_INFLATE";
  opt1 "CONFIG_ZLIB_DEFLATE";
  opt2 "CONFIG_USB_SERIAL" NULL;
  opt2 "CONFIG_USB_SERIAL_PL2303" NULL;
  opt2 "CONFIG_USB_SERIAL_SPCP8X5" NULL;
  opt1 "CONFIG_ADSL_CHIP_ALCATEL_20150";
  opt1 "CONFIG_ADSL_CHIP_ALCATEL_20170";
  opt4 "CONFIG_RG_PROXY_ARP" NULL (OPT_MAJOR_FEATURE .| OPT_HC) (Some "Proxy ARP");
  opt1 "CONFIG_BCM947_HW_BUG_HACK";
  opt4 "CONFIG_RG_OAM_PING" NULL (OPT_MAJOR_FEATURE .| OPT_HC) (Some "OAM F4/F5 Loopback");
  opt3 "CONFIG_STOP_ON_INIT_FAIL" NULL OPT_HC;
  opt1 "CONFIG_KNSN_SDRAM_16BIT";
  opt2 "CONFIG_IPV6" NULL;
  opt2 "CONFIG_IPV6_RESTRICTED_DOUBLE_BIND" NULL;
  opt2 "CONFIG_IPV6_6TO4_NEXTHOP" NULL;
  opt3 "CONFIG_RG_KCALL" NULL OPT_MODULE_EXPAND;
  opt3 "CONFIG_RG_FRAG_CACHE" NULL (OPT_MODULE_EXPAND .| OPT_STATIC_ON_DEVELOP);
  opt1 "CONFIG_RG_NET_NO_THROTTLE";
  opt3 "CONFIG_RG_XML" NULL OPT_HC;
  opt3 "CONFIG_RG_FLASH_LAYOUT_SIZE" NULL OPT_NUMBER;
  opt2 "CONFIG_LSP_FLASH_LAYOUT" NULL;
  opt3 "CONFIG_RG_AUTOTEST" NULL OPT_HC;
  opt2 "CONFIG_RG_DATE" NULL;
  opt2 "CONFIG_RG_PROD_IMG" NULL;
  opt3 "CONFIG_RG_TUTORIAL" NULL (OPT_NOSTRIP .| OPT_HC);
  opt3 "CONFIG_RG_TUTORIAL_ADVANCED" NULL (OPT_NOSTRIP .| OPT_HC);
  opt3 "CONFIG_RG_WEBCAM" NULL OPT_HC;
  opt4 "CONFIG_ZERO_CONFIGURATION" NULL OPT_MAJOR_FEATURE (Some "Zero Configuration Technology");
  opt4 "CONFIG_ZC_IP_AUTO_DETECTION" NULL OPT_HC (Some "IP Auto Detection");
  opt4 "CONFIG_ZC_AUTO_CONFIG_NON_PNP" NULL OPT_HC (Some "Auto Configuration Of Non-PNP Networks");
  opt3 "CONFIG_USB_PRINTER" NULL OPT_EXPORT;
  opt3 "CONFIG_RG_PRINT_SERVER_SPOOL" NULL OPT_NUMBER;
  opt1 "CONFIG_RG_PRINT_SERVER_PRINTER_NULL";
  opt4 "CONFIG_RG_PRINT_SERVER" NULL (OPT_MAJOR_FEATURE .| OPT_HC) (Some "Print Server");
  opt4 "CONFIG_RG_SAMBA_PRINTING" NULL (OPT_MAJOR_FEATURE .| OPT_HC) (Some "Microsoft Shared Printing");
  opt4 "CONFIG_RG_IPP" NULL (OPT_MAJOR_FEATURE .| OPT_HC) (Some "Internet Printing");
  opt3 "CONFIG_RG_LPD" NULL OPT_HC;
  opt3 "CONFIG_RG_LANG" NULL OPT_HC;
  opt3 "CONFIG_RG_DYN_FLASH_LAYOUT" NULL OPT_HC;
  opt3 "CONFIG_RG_DNS_USE_ISP_DOMAIN" NULL OPT_HC;
  opt1 "CONFIG_VX_TFFS";
  opt3 "CONFIG_RG_ZLIB" NULL OPT_HC;
  opt3 "CONFIG_RG_KERNEL" NULL OPT_HC;
  opt3 "CONFIG_RG_MAIN" NULL OPT_HC;
  opt3 "CONFIG_RG_VENDOR" NULL OPT_HC;
  opt3 "CONFIG_RG_GNUDIP" NULL OPT_HC;
  opt4 "CONFIG_RG_VOIP" NULL (OPT_MAJOR_FEATURE .| OPT_HC) (Some "Voice Over IP");
  opt3 "CONFIG_RG_IPPHONE" NULL OPT_HC;
  opt3 "CONFIG_RG_ATA" NULL OPT_HC;
  opt3 "CONFIG_RG_PBX" NULL OPT_HC;
  opt3 "CONFIG_RG_AUDIO_MGT" NULL OPT_HC;
  opt4 "CONFIG_RG_VOIP_SIP" NULL (OPT_MAJOR_FEATURE .| OPT_HC) (Some "SIP Signalling");
  opt4 "CONFIG_RG_VOIP_H323" NULL (OPT_MAJOR_FEATURE .| OPT_HC) (Some "H.323 Signalling");
  opt4 "CONFIG_RG_VOIP_MGCP" NULL (OPT_MAJOR_FEATURE .| OPT_HC) (Some "MGCP Signalling");
  opt4 "CONFIG_RG_VOIP_MGCP_CALL_AGENT" NULL (OPT_MAJOR_FEATURE .| OPT_HC) (Some "MGCP Call Agent");
  opt3 "CONFIG_HW_NUMBER_OF_FXS_PORTS" NULL (OPT_HC .| OPT_NUMBER);
  opt3 "CONFIG_RG_VOIP_HW_EMULATION" NULL OPT_HC;
  opt3 "CONFIG_RG_VOIP_USE_SIP_ALG" NULL OPT_HC;
  opt3 "CONFIG_RG_VOIP_RV" NULL OPT_HC;
  opt3 "CONFIG_RG_VOIP_RV_SIP" NULL OPT_HC;
  opt3 "CONFIG_RG_VOIP_RV_H323" NULL OPT_HC;
  opt3 "CONFIG_RG_VOIP_RV_MGCP" NULL OPT_HC;
  opt3 "CONFIG_RG_VOIP_OSIP" NULL OPT_HC;
  opt3 "CONFIG_RG_VOIP_ASTERISK" NULL (OPT_HC .| OPT_EXPORT);
  opt3 "CONFIG_RG_VOIP_ASTERISK_SIP" NULL OPT_HC;
  opt3 "CONFIG_RG_VOIP_ASTERISK_H323" NULL OPT_HC;
  opt3 "CONFIG_RG_VOIP_ASTERISK_MGCP_GW" NULL OPT_HC;
  opt3 "CONFIG_RG_VOIP_ASTERISK_MGCP_CALL_AGENT" NULL OPT_HC;
  opt4 "CONFIG_RG_JRTP" NULL (OPT_MODULE_EXPAND .| OPT_HC .| OPT_STATIC_ON_DEVELOP) (Some "RTP kernel module");
  opt1 "CONFIG_WX5715_VLAN_SWITCH_DISABLE";
  opt3 "CONFIG_RG_KERNEL_NEEDED_SYMBOLS" NULL OPT_EXPORT;
  opt1 "CONFIG_RG_OLD_XSCALE_TOOLCHAIN";
  opt3 "CONFIG_RG_THREADS" NULL OPT_EXPORT;
  opt4 "CONFIG_RG_OSS_RMT" NULL (OPT_MAJOR_FEATURE .| OPT_HC) (Some "Remote Update Management");
  opt3 "CONFIG_HITRON_BSP" NULL OPT_HC;
  opt1 "CONFIG_RG_VX_TIMERS_TASK";
  opt4 "CONFIG_RG_RMT_MNG" NULL (OPT_MAJOR_FEATURE .| OPT_HC) (Some "Remote Management Server");
  opt2 "CONFIG_SL2312_COMMON_RG" NULL;
  opt2 "CONFIG_SL2312_COMMON_RGLOADER" NULL;
  opt3 "CONFIG_SL2312_COMMON" NULL OPT_HC;
  opt2 "CONFIG_ARCH_SL2312" NULL;
  opt2 "CONFIG_SL2312_ASIC" NULL;
  opt2 "CONFIG_BLK_DEV_IDE_MODES" NULL;
  opt2 "CONFIG_BLK_DEV_SL2312_IDE" NULL;
  opt2 "CONFIG_BLK_DEV_SL2312_IDE_CHANNEL_0" NULL ].

(** config_opt.c, lines 2357 to 2506. *)
Definition config_options_base_14 : list option_t := [
  opt2 "CONFIG_BLK_DEV_SL2312_IDE_CHANNEL_1" NULL;
  opt2 "CONFIG_CPU_FA52X" NULL;
  opt2 "CONFIG_CPU_FA52X_I_CACHE_ON" NULL;
  opt2 "CONFIG_CPU_FA52X_D_CACHE_ON" NULL;
  opt2 "CONFIG_CPU_FA52X_WRITETHROUGH" NULL;
  opt3 "CONFIG_SL2312_FLASH" NULL OPT_MODULE_EXPAND;
  opt2 "CONFIG_SERIAL_IT8712" NULL;
  opt2 "CONFIG_SERIAL_IT8712_CONSOLE" NULL;
  opt3 "CONFIG_KERNEL_START" NULL OPT_STR;
  opt3 "CONFIG_USB_OHCI_SL2312" NULL OPT_MODULE_EXPAND;
  opt2 "CONFIG_SL2312" NULL;
  opt2 "CONFIG_SL2312_LPC" NULL;
  opt2 "CONFIG_SL2312_LPC_IT8712" NULL;
  opt2 "CONFIG_IT8712_GPIO" NULL;
  opt2 "CONFIG_SL2312_SHARE_PIN" NULL;
  opt3 "CONFIG_SL2312_ETH" NULL OPT_MODULE_EXPAND;
  opt2 "CONFIG_BINFMT_AOUT" NULL;
  opt4 "CONFIG_RG_EVENT_LOGGING" NULL OPT_MAJOR_FEATURE (Some "Event Logging");
  opt4 "CONFIG_RG_WINS_SERVER" NULL (OPT_MAJOR_FEATURE .| OPT_HC) (Some "WINS Server");
  opt4 "CONFIG_RG_FTP_SERVER" NULL (OPT_MAJOR_FEATURE .| OPT_HC) (Some "FTP Server");
  opt4 "CONFIG_RG_MAIL_SERVER" NULL (OPT_MAJOR_FEATURE .| OPT_HC) (Some "Mail Server");
  opt4 "CONFIG_RG_WEB_SERVER" NULL (OPT_MAJOR_FEATURE .| OPT_HC) (Some "Web Server");
  opt4 "CONFIG_RG_FS_BACKUP" NULL (OPT_MAJOR_FEATURE .| OPT_HC) (Some "File System Backup and Restore");
  opt2 "CONFIG_NEW_NONE_PRICED_FEATURES" NULL;
  opt2 "CONFIG_RG_CFG_SERVER" NULL;
  opt4 "CONFIG_TOS_DSCP_RFC2474" NULL OPT_MODULE_EXPAND (Some "Treat ToS octet according to RFC2474");
  opt4 "CONFIG_RG_IPROUTE2" NULL OPT_HC (Some "IPRoute2 kernel support");
  opt4 "CONFIG_RG_QOS" NULL (OPT_MAJOR_FEATURE .| OPT_HC) (Some "OpenRG QOS support");
  opt4 "CONFIG_RG_QOS_INGRESS" NULL (OPT_MODULE_EXPAND .| OPT_STATIC_ON_DEVELOP) (Some "OpenRG QoS ingress support");
  opt4 "CONFIG_RG_HW_SWITCH_QOS" NULL (OPT_MODULE_EXPAND .| OPT_HC) (Some "Hardware Switch QoS support");
  opt4 "CONFIG_RG_VLAN_DSCP" NULL (OPT_MAJOR_FEATURE .| OPT_HC) (Some "802.1p to DSCP translate");
  opt4 "CONFIG_NET_SCHED" NULL OPT_MODULE_EXPAND (Some "QoS and/or fair queueing");
  opt4 "CONFIG_NET_SCH_INGRESS" NULL OPT_MODULE_EXPAND (Some "Ingress qdisc");
  opt4 "CONFIG_NET_SCH_HTB" NULL OPT_MODULE_EXPAND (Some "HTB packet scheduler");
  opt4 "CONFIG_NET_SCH_ATM" NULL OPT_MODULE_EXPAND (Some "ATM packet pseudoscheduler");
  opt4 "CONFIG_NET_SCH_PRIO" NULL OPT_MODULE_EXPAND (Some "The simplest PRIO pseudoscheduler");
  opt4 "CONFIG_NET_SCH_RED" NULL OPT_MODULE_EXPAND (Some "The simplest RED pseudoscheduler");
  opt4 "CONFIG_NET_SCH_SFQ" NULL OPT_MODULE_EXPAND (Some "The simplest SFQ pseudoscheduler");
  opt4 "CONFIG_NET_SCH_DSMARK" NULL OPT_MODULE_EXPAND (Some "Diffserv field marker");
  opt4 "CONFIG_NET_QOS" NULL OPT_MODULE_EXPAND (Some "QoS support");
  opt4 "CONFIG_NET_ESTIMATOR" NULL OPT_MODULE_EXPAND (Some "Rate estimator");
  opt4 "CONFIG_NET_CLS" NULL OPT_MODULE_EXPAND (Some "Packet classifier API");
  opt4 "CONFIG_NET_CLS_POLICE" NULL OPT_MODULE_EXPAND (Some "Traffic policing");
  opt4 "CONFIG_NET_CLS_TCINDEX" NULL OPT_MODULE_EXPAND (Some "TC index classifier");
  opt4 "CONFIG_NET_CLS_FW" NULL OPT_MODULE_EXPAND (Some "Firewall based classifier");
  opt4 "CONFIG_NET_CLS_U32" NULL OPT_MODULE_EXPAND (Some "U32 classifier");
  opt4 "CONFIG_NET_CLS_RSVP" NULL OPT_MODULE_EXPAND (Some "Special RSVP classifier");
  opt4 "CONFIG_NET_CLS_RSVP6" NULL OPT_MODULE_EXPAND (Some "Special RSVP classifier for IPv6");
  opt4 "CONFIG_IP_ROUTE_MULTIPATH" NULL OPT_MODULE_EXPAND (Some "Equal cost multipath");
  opt4 "CONFIG_IP_ROUTE_VERBOSE" NULL OPT_MODULE_EXPAND (Some "Verbose route monitoring");
  opt4 "CONFIG_IP_ROUTE_FWMARK" NULL OPT_MODULE_EXPAND (Some "Use netfilter MARK value as routing key");
  opt4 "CONFIG_RG_ROUTE_MULTIWAN" NULL (OPT_MAJOR_FEATURE .| OPT_HC) (Some "Routing over multiple WAN devices support");
  opt4 "CONFIG_IP_MULTIPLE_TABLES" NULL OPT_MODULE_EXPAND (Some "Policy routing");
  opt4 "CONFIG_IP_ROUTE_TOS" NULL OPT_MODULE_EXPAND (Some "Use TOS value as routing key");
  opt4 "CONFIG_RG_DSCP_POLICY_ROUTING" NULL (OPT_MAJOR_FEATURE .| OPT_HC) (Some "Routing by DSCP value");
  opt4 "CONFIG_RG_LOAD_BALANCING" NULL (OPT_MAJOR_FEATURE .| OPT_HC) (Some "Load Balancing");
  opt4 "CONFIG_RG_FAILOVER" NULL (OPT_MAJOR_FEATURE .| OPT_HC) (Some "Fail-over of multiple WAN interfaces");
  opt4 "CONFIG_RG_TUNNELS" NULL (OPT_MAJOR_FEATURE .| OPT_HC) (Some "IPIP and IPGRE Tunnels");
  opt4 "CONFIG_RG_SSL_VPN" NULL (OPT_MAJOR_FEATURE .| OPT_HC) (Some "VPN over SSL");
  opt2 "CONFIG_RG_SSL_VPN_SMALL_FLASH" NULL;
  opt3 "CONFIG_RG_JAVA" NULL OPT_HC;
  opt3 "CONFIG_RG_JTA" NULL OPT_HC;
  opt3 "CONFIG_RG_PROPER_JAVA_RDP" NULL OPT_HC;
  opt3 "CONFIG_RG_JVFTP" NULL OPT_HC;
  opt3 "CONFIG_RG_JCIFS" NULL OPT_HC;
  opt3 "CONFIG_RG_SMB_EXPLORER" NULL OPT_HC;
  opt3 "CONFIG_RG_TIGHT_VNC" NULL OPT_HC;
  opt3 "CONFIG_RG_WEB_CIFS" NULL OPT_HC;
  opt2 "CONFIG_RG_FOUNDATION_CORE" NULL;
  opt2 "CONFIG_RG_TARGET_LINUX" NULL;
  opt2 "CONFIG_RG_TARGET_VXWORKS" NULL;
  opt2 "CONFIG_RG_HOST_CYGWIN" NULL;
  opt2 "CONFIG_RG_WINDOWS_HOST" NULL;
  opt2 "CONFIG_RG_HOST_LINUX" NULL;
  opt2 "CONFIG_RG_GPL" NULL;
  opt2 "CONFIG_RG_DO_DEVICES" NULL;
  opt2 "PACKAGE_OPENRG_BASIC_GATEWAY" NULL;
  opt2 "PACKAGE_OPENRG_SECURITY_GATEWAY" NULL;
  opt2 "PACKAGE_OPENRG_VPN_GATEWAY" NULL;
  opt2 "PACKAGE_OPENRG_SOHO_GATEWAY" NULL;
  opt4 "MODULE_RG_FOUNDATION" NULL OPT_MODULE (Some "OpenRG Foundation Module (Mandatory)");
  opt4 "MODULE_RG_ADVANCED_MANAGEMENT" NULL OPT_MODULE (Some "Advanced Management");
  opt4 "MODULE_RG_SNMP" NULL OPT_MODULE (Some "SNMP Module");
  opt4 "MODULE_RG_DSL" NULL OPT_MODULE (Some "DSL Module (ATM)");
  opt4 "MODULE_RG_PPP" NULL OPT_MODULE (Some "PPP Module");
  opt4 "MODULE_RG_IPV6" NULL OPT_MODULE (Some "IPv6 Module");
  opt4 "MODULE_RG_VLAN" NULL OPT_MODULE (Some "VLAN Module");
  opt4 "MODULE_RG_UPNP" NULL OPT_MODULE (Some "Universal Plug and Play");
  opt4 "MODULE_RG_ADVANCED_ROUTING" NULL OPT_MODULE (Some "Advanced Routing");
  opt4 "MODULE_RG_FIREWALL_AND_SECURITY" NULL OPT_MODULE (Some "Firewall and Security Module");
  opt4 "MODULE_RG_L2TP" NULL OPT_MODULE (Some "VPN L2TP");
  opt4 "MODULE_RG_IPSEC" NULL OPT_MODULE (Some "VPN IPSec");
  opt4 "MODULE_RG_PPTP" NULL OPT_MODULE (Some "VPN PPTP");
  opt4 "MODULE_RG_FILESERVER" NULL OPT_MODULE (Some "File Server");
  opt4 "MODULE_RG_PRINTSERVER" NULL OPT_MODULE (Some "Print Server");
  opt4 "MODULE_RG_WLAN_AND_ADVANCED_WLAN" NULL OPT_MODULE (Some "WLAN and Advanced WLAN Security Module");
  opt4 "MODULE_RG_CABLEHOME" NULL OPT_MODULE (Some "Cablehome");
  opt4 "MODULE_RG_VODSL" NULL OPT_MODULE (Some "Voice over DSL (VoDSL)");
  opt4 "MODULE_RG_VOIP_RV_SIP" NULL OPT_MODULE (Some "VoIP SIP Stack (RADVISION)");
  opt4 "MODULE_RG_VOIP_RV_MGCP" NULL OPT_MODULE (Some "VoIP MGCP Stack (RADVISION)");
  opt4 "MODULE_RG_VOIP_RV_H323" NULL OPT_MODULE (Some "VoIP H.323 Stack (RADVISION)");
  opt4 "MODULE_RG_VOIP_OSIP" NULL OPT_MODULE (Some "VoIP SIP Stack (oSIP)");
  opt4 "MODULE_RG_VOIP_ASTERISK_SIP" NULL OPT_MODULE (Some "VoIP SIP Stack (Asterisk)") ].

(** config_opt.c, lines 2507 to 2656. *)
Definition config_options_base_15 : list option_t := [
  opt4 "MODULE_RG_VOIP_ASTERISK_H323" NULL OPT_MODULE (Some "VoIP H.323 Stack (Asterisk)");
  opt4 "MODULE_RG_VOIP_ASTERISK_MGCP_GW" NULL OPT_MODULE (Some "VoIP MGCP Gateway Stack (Asterisk)");
  opt4 "MODULE_RG_VOIP_ASTERISK_MGCP_CALL_AGENT" NULL OPT_MODULE (Some "VoIP MGCP Call Agent (Asterisk)");
  opt4 "MODULE_RG_URL_FILTERING" NULL OPT_MODULE (Some "URL Filtering (Parental Control)");
  opt4 "MODULE_RG_QOS" NULL OPT_MODULE (Some "Quality of Service");
  opt4 "MODULE_RG_DSLHOME" NULL OPT_MODULE (Some "DSL Home");
  opt4 "MODULE_RG_TR_098" NULL OPT_MODULE (Some "TR-098");
  opt4 "MODULE_RG_MAIL_FILTER" NULL OPT_MODULE (Some "Mail filtering (Anti-Virus)");
  opt4 "MODULE_RG_ADVANCED_OFFICE_SERVERS" NULL OPT_MODULE (Some "Advanced Office Servers");
  opt4 "MODULE_RG_ZERO_CONFIGURATION_NETWORKING" NULL OPT_MODULE (Some "Zero Configuration Networking");
  opt4 "MODULE_RG_BLUETOOTH" NULL OPT_MODULE (Some "Bluetooth");
  opt4 "MODULE_RG_TR_064" NULL OPT_MODULE (Some "TR-064");
  opt4 "MODULE_RG_ROUTE_MULTIWAN" NULL OPT_MODULE (Some "Multiple WAN Routing");
  opt4 "MODULE_RG_JVM" NULL OPT_MODULE (Some "JVM (Java Virtual Machine)");
  opt4 "MODULE_RG_SSL_VPN" NULL OPT_MODULE (Some "SSL VPN");
  opt4 "MODULE_RG_ATA" NULL OPT_MODULE (Some "ATA");
  opt4 "MODULE_RG_PBX" NULL OPT_MODULE (Some "PBX");
  opt4 "CONFIG_HW_ETH_WAN" NULL (OPT_HARDWARE .| OPT_HC) (Some "WAN Interface: ETH");
  opt4 "CONFIG_HW_ETH_WAN2" NULL (OPT_HARDWARE .| OPT_HC) (Some "WAN Interface: ETH2");
  opt4 "CONFIG_HW_CABLE_WAN" NULL (OPT_HARDWARE .| OPT_HC) (Some "WAN Interface: CABLE");
  opt4 "CONFIG_HW_VDSL_WAN" NULL (OPT_HARDWARE .| OPT_HC) (Some "WAN Interface: VDSL");
  opt4 "CONFIG_HW_MOCA_WAN" NULL (OPT_HARDWARE .| OPT_HC) (Some "WAN Interface: MOCA");
  opt4 "CONFIG_HW_WAN_ETHERNET" NULL (OPT_HARDWARE .| OPT_HC) (Some "WAN Interface: Ethernet");
  opt4 "CONFIG_HW_DUAL_MOCA" NULL (OPT_HARDWARE .| OPT_HC) (Some "UL3 Dual Moca");
  opt4 "CONFIG_HW_TURBO_DUAL_MOCA" NULL (OPT_HARDWARE .| OPT_HC) (Some "UL3 Turbo Dual Moca");
  opt4 "CONFIG_HW_TURBO_M100" NULL (OPT_HARDWARE .| OPT_HC) (Some "UL3 Turbo M100");
  opt4 "CONFIG_HW_DEF_TO_WAN_ETH" NULL (OPT_HARDWARE .| OPT_HC) (Some "WAN Interface: Ethernet");
  opt4 "CONFIG_HW_DSL_WAN" NULL (OPT_HARDWARE .| OPT_HC) (Some "WAN Interface: DSL");
  opt4 "CONFIG_HW_HSS_WAN" NULL (OPT_HARDWARE .| OPT_HC) (Some "WAN Interface: HSS (E1/T1)");
  opt4 "CONFIG_HW_ETH_LAN" NULL OPT_HARDWARE (Some "LAN Interface: ETH");
  opt4 "CONFIG_HW_ETH_FEC" NULL OPT_HARDWARE (Some "LAN Interface: Fast Ethernet Controller");
  opt4 "CONFIG_HW_ETH_EEPRO1000" NULL OPT_HARDWARE (Some "LAN Interface: ETH EEPRO1000");
  opt4 "CONFIG_HW_ETH_EEPRO100_LAN" NULL OPT_HARDWARE (Some "LAN Interface: ETH EEPRO100");
  opt4 "CONFIG_HW_ETH_LAN2" NULL OPT_HARDWARE (Some "LAN Interface: ETH2");
  opt4 "CONFIG_HW_SWITCH_LAN" NULL OPT_HARDWARE (Some "LAN Interface: HW Switch");
  opt4 "CONFIG_HW_SWITCH_WAN" NULL OPT_HARDWARE (Some "WAN Interface: HW Switch");
  opt4 "CONFIG_HW_MOCA" NULL OPT_HARDWARE (Some "Multimedia over Coax Interface");
  opt4 "CONFIG_HW_ETH_MSPCTRL" NULL OPT_HARDWARE (Some "MSP Control Interface: ETH1");
  opt4 "CONFIG_HW_80211B_PRISM2" NULL OPT_HARDWARE (Some "LAN Interface: Wireless 80211B PRISM2");
  opt4 "CONFIG_HW_80211G_ISL38XX" NULL OPT_HARDWARE (Some "LAN Interface: Wireless 80211G ISL38XX");
  opt4 "CONFIG_HW_80211G_ISL_SOFTMAC" NULL OPT_HARDWARE (Some "LAN Interface: Wireless 80211G ISL SOFTMAC");
  opt4 "CONFIG_HW_80211G_AR531X" NULL OPT_HARDWARE (Some "LAN Interface: Wireless 80211G AR531X");
  opt4 "CONFIG_HW_80211A_AR531X" NULL OPT_HARDWARE (Some "LAN Interface: Wireless 80211A AR531X");
  opt4 "CONFIG_HW_80211G_ATHEROS_AR521X" NULL (OPT_HARDWARE .| OPT_HC) (Some "LAN Interface: Wireless 80211G Atheros AR521X");
  opt4 "CONFIG_HW_80211N_ATHEROS_AR50WL" NULL (OPT_HARDWARE .| OPT_HC) (Some "LAN Interface: Wireless 80211N Atheros AR50WL");
  opt4 "CONFIG_HW_80211G_BCM43XX" NULL OPT_HARDWARE (Some "LAN Interface: Wireless 80211G BCM43XX");
  opt4 "CONFIG_WESTELL_WIRELESS_ONBOARD" NULL (OPT_HARDWARE .| OPT_HC) (Some "Enable on board radio");
  opt4 "CONFIG_HW_80211G_RALINK_RT2560" NULL OPT_HARDWARE (Some "LAN Interface: Wireless 80211G Ralink RT2560");
  opt4 "CONFIG_HW_80211G_RALINK_RT2561" NULL OPT_HARDWARE (Some "LAN Interface: Wireless 80211G Ralink RT2561");
  opt4 "CONFIG_HW_80211N_AIRGO_AGN100" NULL OPT_HARDWARE (Some "LAN Interface: Wireless 80211N Airgo AGN100");
  opt4 "CONFIG_HW_USB_RNDIS" NULL OPT_HARDWARE (Some "LAN Interface: USB");
  opt4 "CONFIG_HW_USB_ETH" NULL OPT_HARDWARE (Some "LAN Interface: USB Ethernet");
  opt4 "CONFIG_HW_USB_HOST_UHCI" NULL (OPT_MODULE_EXPAND .| OPT_HARDWARE) (Some "USB Host 1.1");
  opt4 "CONFIG_HW_USB_HOST_OHCI" NULL OPT_HARDWARE (Some "USB Host 1.1");
  opt4 "CONFIG_HW_USB_HOST_EHCI" NULL (OPT_MODULE_EXPAND .| OPT_HARDWARE) (Some "USB Host 2.0");
  opt4 "CONFIG_HW_FIREWIRE" NULL OPT_HARDWARE (Some "Firewire IEEE1394");
  opt4 "CONFIG_HW_FIREWIRE_STORAGE" NULL OPT_HARDWARE (Some "Firewire File Storage");
  opt4 "CONFIG_HW_USB_STORAGE" NULL OPT_HARDWARE (Some "USB file Storage");
  opt4 "CONFIG_HW_DSP" NULL OPT_HARDWARE (Some "VoIP DSP Driver");
  opt2 "CONFIG_HW_KEYPAD" NULL;
  opt3 "CONFIG_HW_PCMCIA_CARDBUS" NULL OPT_MODULE_EXPAND;
  opt2 "CONFIG_HW_CAMERA_USB_OV511" NULL;
  opt2 "CONFIG_HW_CAMERA_USB_PWC" NULL;
  opt2 "CONFIG_HW_CAMERA_USB_SPCA5XX" NULL;
  opt2 "CONFIG_HW_EEPROM" NULL;
  opt4 "CONFIG_HW_LEDS" NULL (OPT_MODULE_EXPAND .| OPT_HARDWARE) (Some "LED Support");
  opt4 "CONFIG_HW_BLUETOOTH" NULL OPT_HARDWARE (Some "Bluetooth");
  opt3 "CONFIG_HW_BUTTONS" NULL (OPT_MODULE_EXPAND .| OPT_STATIC_ON_DEVELOP);
  opt4 "CONFIG_HW_ENCRYPTION" NULL OPT_HARDWARE (Some "IPSec HW Encryption");
  opt4 "CONFIG_HW_CLOCK" NULL (OPT_NOSTRIP .| OPT_HC) (Some "Hardware clock support");
  opt2 "CONFIG_HW_IDE" NULL;
  opt3 "CONFIG_IXJ" NULL OPT_MODULE_EXPAND;
  opt3 "CONFIG_ZAPTEL" NULL (OPT_MODULE_EXPAND .| OPT_HC);
  opt3 "CONFIG_HW_I2C" NULL OPT_HC;
  opt3 "CONFIG_HW_ENV_MONITOR" NULL OPT_HC;
  opt4 "CONFIG_HW_ST_20190" NULL (OPT_HARDWARE .| OPT_HC .| OPT_EXPORT) (Some "ADSL2+");
  opt4 "CONFIG_HW_ETH_GIANFAR" NULL OPT_HARDWARE (Some "Freescale gigabit ethernet MAC");
  opt4 "CONFIG_HW_SWITCH_BCM53XX" NULL (OPT_HARDWARE .| OPT_HC .| OPT_MODULE_EXPAND) (Some "Broadcom hardware switch");
  opt2 "CONFIG_RG_BCM53XX_STORM_SUPPRESSION" NULL;
  opt3 "CONFIG_RG_FLASH_ONLY_ON_BOOT" NULL OPT_HC;
  opt3 "CONFIG_RG_MAC_CLONING" NULL OPT_HC;
  opt3 "CONFIG_RG_WLAN_REPEATING" NULL OPT_HC;
  opt3 "CONFIG_RG_WDS_CONN_NOTIFIER" NULL OPT_MODULE_EXPAND;
  opt3 "CONFIG_RG_UNCONFIGURED_WAN_INTERCEPTION" NULL OPT_HC;
  opt3 "CONFIG_RG_STATISTICS_CTRL_WBM" NULL OPT_HC;
  opt3 "CONFIG_RG_WLAN_STA_STATISTICS_WBM" NULL OPT_HC;
  opt3 "CONFIG_RG_CHECK_BAD_REBOOTS" NULL OPT_HC;
  opt4 "CONFIG_RG_BLUETOOTH" NULL (OPT_MAJOR_FEATURE .| OPT_HC) (Some "Bluetooth support");
  opt3 "CONFIG_BLUEZ" NULL OPT_MODULE_EXPAND;
  opt3 "CONFIG_BLUEZ_L2CAP" NULL OPT_MODULE_EXPAND;
  opt3 "CONFIG_BLUEZ_SCO" NULL OPT_MODULE_EXPAND;
  opt3 "CONFIG_BLUEZ_RFCOMM" NULL OPT_MODULE_EXPAND;
  opt2 "CONFIG_BLUEZ_RFCOMM_TTY" NULL;
  opt3 "CONFIG_BLUEZ_BNEP" NULL OPT_MODULE_EXPAND;
  opt2 "CONFIG_BLUEZ_BNEP_MC_FILTER" NULL;
  opt2 "CONFIG_BLUEZ_BNEP_PROTO_FILTER" NULL;
  opt3 "CONFIG_BLUEZ_HCIUSB" NULL OPT_MODULE_EXPAND;
  opt3 "CONFIG_BLUEZ_HCIUART" NULL OPT_MODULE_EXPAND;
  opt2 "CONFIG_BLUEZ_HCIUART_H4" NULL;
  opt2 "CONFIG_BLUEZ_HCIUART_BCSP" NULL;
  opt3 "CONFIG_BLUEZ_HCIVHCI" NULL OPT_MODULE_EXPAND;
  opt3 "CONFIG_BLUEZ_HCIBTUART" NULL OPT_MODULE_EXPAND;
  opt3 "CONFIG_BT" NULL OPT_MODULE_EXPAND;
  opt3 "CONFIG_BT_L2CAP" NULL OPT_MODULE_EXPAND;
  opt3 "CONFIG_BT_SCO" NULL OPT_MODULE_EXPAND;
  opt3 "CONFIG_BT_RFCOMM" NULL OPT_MODULE_EXPAND;
  opt2 "CONFIG_BT_RFCOMM_TTY" NULL;
  opt3 "CONFIG_BT_BNEP" NULL OPT_MODULE_EXPAND;
  opt2 "CONFIG_BT_BNEP_MC_FILTER" NULL ].

(** config_opt.c, lines 2657 to 2806. *)
Definition config_options_base_16 : list option_t := [
  opt2 "CONFIG_BT_BNEP_PROTO_FILTER" NULL;
  opt3 "CONFIG_BT_HCIUSB" NULL OPT_MODULE_EXPAND;
  opt3 "CONFIG_BT_HCIUART" NULL OPT_MODULE_EXPAND;
  opt2 "CONFIG_BT_HCIUART_H4" NULL;
  opt2 "CONFIG_BT_HCIUART_BCSP" NULL;
  opt3 "CONFIG_BT_HCIVHCI" NULL OPT_MODULE_EXPAND;
  opt3 "CONFIG_BT_HCIBTUART" NULL OPT_MODULE_EXPAND;
  opt3 "CONFIG_RG_BLUETOOTH_REQUIRES_MAC" NULL OPT_HC;
  opt3 "CONFIG_RG_BLUETOOTH_PAN" NULL OPT_HC;
  opt3 "CONFIG_RG_OBEX" NULL OPT_HC;
  opt3 "CONFIG_RG_CTP" NULL OPT_HC;
  opt3 "CONFIG_RG_CTP_VOIP_EMULATOR" NULL OPT_HC;
  opt4 "CONFIG_RG_KAFFE" NULL (OPT_HC .| OPT_MAJOR_FEATURE) (Some "Kaffe support");
  opt2 "CONFIG_RG_KAFFE_JAVALIB_RT" NULL;
  opt2 "CONFIG_RG_KAFFE_JAVALIB_TOOLS" NULL;
  opt2 "CONFIG_RGTV" NULL;
  opt4 "CONFIG_SOUND_ICH" NULL OPT_MODULE_EXPAND (Some "Intel's on board sound");
  opt4 "CONFIG_BLK_DEV_SIS5513" NULL OPT_MODULE_EXPAND (Some "HD DMA support");
  opt4 "CONFIG_B44" NULL OPT_MODULE_EXPAND (Some "BCM 4400 ethernet driver");
  opt4 "CONFIG_RG_LIBMAD" NULL OPT_HC (Some "MAD: MPEG Audio Decoder library");
  opt2 "CONFIG_RG_ROOTFS_TMPFS" NULL;
  opt3 "CONFIG_RG_INITFS_CRAMFS" NULL OPT_EXPORT;
  opt2 "CONFIG_RG_ROOTFS_RAMDISK" NULL;
  opt3 "CONFIG_RG_INITFS_RAMDISK" NULL OPT_EXPORT;
  opt3 "CONFIG_TMPFS" NULL OPT_NOSTRIP;
  opt3 "CONFIG_RG_INITFS_RAMFS" NULL OPT_EXPORT;
  opt2 "CONFIG_RG_MAINFS" NULL;
  opt3 "CONFIG_RG_MAINFS_CRAMFS" NULL OPT_EXPORT;
  opt3 "CONFIG_RG_MODFS" NULL OPT_EXPORT;
  opt3 "CONFIG_RG_MODFS_CRAMFS" NULL OPT_EXPORT;
  opt3 "CONFIG_RG_MODFS_ROMFS" NULL OPT_EXPORT;
  opt3 "CONFIG_RG_CRAMFS_COMP_METHOD" NULL (OPT_STR .| OPT_EXPORT);
  opt3 "CONFIG_RG_KERNEL_COMP_METHOD" NULL OPT_STR;
  opt3 "CONFIG_RG_BZIP2_COMPRESSED_KERNEL" NULL OPT_NOSTRIP;
  opt3 "CONFIG_RG_GZIP_COMPRESSED_KERNEL" NULL OPT_NOSTRIP;
  opt3 "CONFIG_RG_LZMA_COMPRESSED_KERNEL" NULL OPT_NOSTRIP;
  opt3 "CONFIG_RG_CCACHE" NULL OPT_MK;
  opt2 "CONFIG_RG_LICENSE" NULL;
  opt3 "CONFIG_RG_VALGRIND_LOCAL_TARGET" NULL OPT_MK;
  opt3 "CONFIG_RG_LANG_TEST" NULL OPT_MK;
  opt3 "LANG_COMPILER_OPT" NULL (OPT_MK .| OPT_STR);
  opt3 "LANG_COMPILER" NULL (OPT_MK .| OPT_STR);
  opt3 "ENDIAN_LDFLAGS" NULL (OPT_INT .| OPT_MK .| OPT_STR);
  opt3 "ENDIAN_CFLAGS" NULL (OPT_INT .| OPT_MK .| OPT_STR);
  opt3 "OS_PATH" NULL (OPT_INT .| OPT_MK .| OPT_STR);
  opt3 "TOOLCHAIN_ROOT" NULL (OPT_MK .| OPT_STR);
  opt3 "I386_TARGET_MACHINE" NULL (OPT_MK .| OPT_STR);
  opt3 "I386_TOOLS_PREFIX" NULL (OPT_MK .| OPT_STR .| OPT_EXPORT);
  opt3 "TARGET_MACHINE" NULL (OPT_MK .| OPT_STR .| OPT_EXPORT);
  opt3 "TARGET_PREFIX" NULL (OPT_INT .| OPT_MK .| OPT_STR);
  opt3 "TOOLS_PREFIX" NULL (OPT_MK .| OPT_STR .| OPT_EXPORT);
  opt3 "CROSS_COMPILE" NULL (OPT_INT .| OPT_MK .| OPT_STR .| OPT_EXPORT);
  opt3 "LIBC_IN_TOOLCHAIN" NULL (OPT_MK .| OPT_EXPORT .| OPT_HC);
  opt3 "ULIBC_IN_TOOLCHAIN" NULL (OPT_MK .| OPT_EXPORT .| OPT_HC);
  opt3 "GLIBC_IN_TOOLCHAIN" NULL (OPT_MK .| OPT_EXPORT .| OPT_HC);
  opt3 "CC" NULL (OPT_INT .| OPT_MK .| OPT_STR .| OPT_EXPORT);
  opt3 "CXX" NULL (OPT_INT .| OPT_MK .| OPT_STR .| OPT_EXPORT);
  opt3 "TARGET_CXX" NULL (OPT_INT .| OPT_MK .| OPT_STR .| OPT_EXPORT);
  opt3 "TARGET_CC" NULL (OPT_INT .| OPT_MK .| OPT_STR .| OPT_EXPORT);
  opt3 "TARGET_CPP" NULL (OPT_INT .| OPT_MK .| OPT_STR .| OPT_EXPORT);
  opt3 "REAL_GCC" NULL (OPT_INT .| OPT_MK .| OPT_STR);
  opt3 "CC_FOR_BUILD" NULL (OPT_INT .| OPT_MK .| OPT_STR .| OPT_EXPORT);
  opt3 "CXX_FOR_BUILD" NULL (OPT_INT .| OPT_MK .| OPT_STR .| OPT_EXPORT);
  opt3 "GCC_HAS_SIZE_OPTIMIZE" NULL (OPT_INT .| OPT_MK);
  opt3 "GCC_VERSION" NULL (OPT_INT .| OPT_MK .| OPT_STR);
  opt3 "AR" NULL (OPT_INT .| OPT_MK .| OPT_STR .| OPT_EXPORT);
  opt3 "LD" NULL (OPT_INT .| OPT_MK .| OPT_STR .| OPT_EXPORT);
  opt3 "AS" NULL (OPT_INT .| OPT_MK .| OPT_STR .| OPT_EXPORT);
  opt3 "NM" NULL (OPT_INT .| OPT_MK .| OPT_STR .| OPT_EXPORT);
  opt3 "RANLIB" NULL (OPT_INT .| OPT_MK .| OPT_STR .| OPT_EXPORT);
  opt3 "STRIP" NULL (OPT_INT .| OPT_MK .| OPT_STR .| OPT_EXPORT);
  opt3 "SIZE" NULL (OPT_INT .| OPT_MK .| OPT_STR .| OPT_EXPORT);
  opt3 "OBJCOPY" NULL (OPT_INT .| OPT_MK .| OPT_STR .| OPT_EXPORT);
  opt3 "OBJDUMP" NULL (OPT_INT .| OPT_MK .| OPT_STR .| OPT_EXPORT);
  opt3 "HOST_AR" NULL (OPT_INT .| OPT_MK .| OPT_STR);
  opt3 "HOST_LD" NULL (OPT_INT .| OPT_MK .| OPT_STR);
  opt3 "HOST_AS" NULL (OPT_INT .| OPT_MK .| OPT_STR);
  opt3 "HOST_NM" NULL (OPT_INT .| OPT_MK .| OPT_STR);
  opt3 "HOST_RANLIB" NULL (OPT_INT .| OPT_MK .| OPT_STR);
  opt3 "HOST_STRIP" NULL (OPT_INT .| OPT_MK .| OPT_STR);
  opt3 "HOST_SIZE" NULL (OPT_INT .| OPT_MK .| OPT_STR);
  opt3 "HOST_OBJCOPY" NULL (OPT_INT .| OPT_MK .| OPT_STR);
  opt3 "HOST_OBJDUMP" NULL (OPT_INT .| OPT_MK .| OPT_STR);
  opt3 "YACC" NULL (OPT_INT .| OPT_MK .| OPT_STR);
  opt3 "LEX" NULL (OPT_INT .| OPT_MK .| OPT_STR);
  opt3 "ENV" NULL (OPT_INT .| OPT_MK .| OPT_STR .| OPT_EXPORT);
  opt3 "BASH_ENV" NULL (OPT_INT .| OPT_MK .| OPT_STR .| OPT_EXPORT);
  opt3 "YFLAGS" NULL (OPT_INT .| OPT_MK .| OPT_STR);
  opt3 "SPCC" NULL (OPT_INT .| OPT_MK .| OPT_STR);
  opt3 "FLTHDR" NULL (OPT_INT .| OPT_MK .| OPT_STR .| OPT_EXPORT);
  opt3 "TEXMFCNF" NULL (OPT_INT .| OPT_MK .| OPT_STR);
  opt3 "TEXMF" NULL (OPT_INT .| OPT_MK .| OPT_STR);
  opt3 "CONFIG_RG_DOC_ENABLED" NULL (OPT_INT .| OPT_MK .| OPT_HC);
  opt3 "RG_INCLUDE_DIR" NULL (OPT_INT .| OPT_MK .| OPT_STR);
  opt3 "RG_BIN" NULL (OPT_INT .| OPT_MK .| OPT_STR .| OPT_EXPORT);
  opt3 "RG_LIB" NULL (OPT_INT .| OPT_MK .| OPT_STR .| OPT_EXPORT);
  opt3 "RG_BUILD" NULL (OPT_INT .| OPT_MK .| OPT_STR .| OPT_EXPORT);
  opt3 "NET_TOOLS_MAKE_FILE" NULL (OPT_INT .| OPT_MK .| OPT_STR .| OPT_EXPORT);
  opt3 "LOCAL_ADD_RG_KERNEL_FOR_TARGET" NULL (OPT_INT .| OPT_MK .| OPT_STR);
  opt3 "PATH" NULL (OPT_INT .| OPT_MK .| OPT_STR .| OPT_EXPORT);
  opt3 "DYNAMIC_LINKER" NULL (OPT_INT .| OPT_MK .| OPT_STR);
  opt3 "LDFLAT" NULL (OPT_INT .| OPT_MK .| OPT_STR .| OPT_EXPORT);
  opt3 "PERM_STORAGE_FILES_DIR" NULL (OPT_INT .| OPT_MK .| OPT_STR);
  opt3 "LZMAMK" NULL (OPT_INT .| OPT_MK .| OPT_STR);
  opt3 "BINFRMT_FILE" NULL (OPT_INT .| OPT_MK .| OPT_STR);
  opt3 "COMPRESSED_RAMDISK" NULL (OPT_INT .| OPT_MK .| OPT_STR .| OPT_EXPORT);
  opt3 "COMPRESSED_INIT_DISK" NULL (OPT_INT .| OPT_MK .| OPT_STR .| OPT_EXPORT);
  opt3 "MODFS_DISK" NULL (OPT_INT .| OPT_MK .| OPT_STR .| OPT_EXPORT);
  opt3 "AUTOCONF_H" NULL (OPT_INT .| OPT_MK .| OPT_STR);
  opt3 "PROD_LINUX_TARGET" NULL (OPT_INT .| OPT_MK .| OPT_STR);
  opt3 "OS_TARGET" NULL (OPT_INT .| OPT_MK .| OPT_STR .| OPT_EXPORT);
  opt3 "HOSTCC" NULL (OPT_INT .| OPT_MK .| OPT_STR);
  opt3 "HOSTCPP" NULL (OPT_INT .| OPT_MK .| OPT_STR);
  opt3 "CPP" NULL (OPT_INT .| OPT_MK .| OPT_STR);
  opt3 "CPP_FOR_BUILD" NULL (OPT_INT .| OPT_MK .| OPT_STR);
  opt3 "RG_CFLAGS" NULL (OPT_INT .| OPT_MK .| OPT_STR);
  opt3 "STATIC_MOD_DIR" NULL (OPT_INT .| OPT_MK .| OPT_STR);
  opt3 "RG_LIBPTHREAD_VERSION" NULL (OPT_INT .| OPT_MK .| OPT_STR .| OPT_EXPORT);
  opt3 "NEEDED_SYMBOLS" NULL (OPT_INT .| OPT_MK .| OPT_STR .| OPT_EXPORT);
  opt3 "COMPRESSED_DISK" NULL (OPT_INT .| OPT_MK .| OPT_STR .| OPT_EXPORT);
  opt3 "BOOTLDR_COMPRESSED_DISK" NULL (OPT_INT .| OPT_MK .| OPT_STR .| OPT_EXPORT);
  opt3 "GENROMFS" NULL (OPT_INT .| OPT_MK .| OPT_STR .| OPT_EXPORT);
  opt3 "PROD_KERNEL_IMAGE" NULL (OPT_INT .| OPT_MK .| OPT_STR .| OPT_EXPORT);
  opt3 "OPENRG_IMG" NULL (OPT_INT .| OPT_MK .| OPT_STR);
  opt3 "OPENRG_RMT_UPDATE_IMG" NULL (OPT_INT .| OPT_MK .| OPT_STR);
  opt3 "OPENRG_PROD" NULL (OPT_INT .| OPT_MK .| OPT_STR) ].

(** config_opt.c, lines 2807 to 2956. *)
Definition config_options_base_17 : list option_t := [
  opt3 "BOOTSTRAP" NULL (OPT_INT .| OPT_MK .| OPT_STR);
  opt3 "FLASH_IMG" NULL (OPT_INT .| OPT_MK .| OPT_STR);
  opt3 "BOOTLDR_IMG" NULL (OPT_INT .| OPT_MK .| OPT_STR);
  opt3 "HAVE_GC_SECTIONS" NULL (OPT_INT .| OPT_MK);
  opt3 "HAVE_ATTRIBUTE_NONNULL" NULL (OPT_HC .| OPT_MK);
  opt3 "LINUX_ARCH_PATH" NULL (OPT_INT .| OPT_MK .| OPT_STR);
  opt3 "VX_INCLUDE_DIR" NULL (OPT_INT .| OPT_MK .| OPT_STR);
  opt3 "ARCH_CFLAGS" NULL (OPT_INT .| OPT_MK .| OPT_STR);
  opt3 "RG_CPU" NULL (OPT_INT .| OPT_MK .| OPT_STR .| OPT_EXPORT);
  opt3 "FLASH_IMG_OFFSET" NULL (OPT_INT .| OPT_MK .| OPT_STR);
  opt3 "FLASH_IMG_REAL_OFFSET" NULL (OPT_INT .| OPT_MK .| OPT_STR);
  opt3 "RG_LINUX_CFLAGS" NULL (OPT_INT .| OPT_MK .| OPT_STR);
  opt3 "MOD_24_CFLAGS" NULL (OPT_MK .| OPT_STR);
  opt3 "MOD_26_CFLAGS" NULL (OPT_MK .| OPT_STR);
  opt3 "RG_LINUX_24_CFLAGS" NULL (OPT_INT .| OPT_MK .| OPT_STR);
  opt3 "RG_LINUX_26_CFLAGS" NULL (OPT_INT .| OPT_MK .| OPT_STR);
  opt3 "LINUX_CFLAGS" NULL (OPT_INT .| OPT_MK .| OPT_STR);
  opt3 "ARCH_LINUX_FLAGS" NULL (OPT_INT .| OPT_MK .| OPT_STR);
  opt3 "LDFLAGS_ENVIR" NULL (OPT_INT .| OPT_MK .| OPT_STR);
  opt3 "LOCAL_LDFLAGS" NULL (OPT_INT .| OPT_MK .| OPT_STR);
  opt3 "LOCAL_CFLAGS" NULL (OPT_INT .| OPT_MK .| OPT_STR);
  opt3 "LIB_GCC_DIR_PREFIX" NULL (OPT_INT .| OPT_MK .| OPT_STR);
  opt3 "CFLAGS_ENVIR" NULL (OPT_INT .| OPT_MK .| OPT_STR);
  opt3 "OPENRG_LIB" NULL (OPT_INT .| OPT_MK .| OPT_STR);
  opt3 "OPENRG_GPL_LIB" NULL (OPT_INT .| OPT_MK .| OPT_STR);
  opt3 "OPENRG_GPL_LDLIBS" NULL (OPT_INT .| OPT_MK .| OPT_STR);
  opt3 "OPENRG_LDLIBS" NULL (OPT_INT .| OPT_MK .| OPT_STR);
  opt3 "OPENRG_LOCAL_LDLIBS" NULL (OPT_INT .| OPT_MK .| OPT_STR);
  opt3 "MGT_LDLIBS" NULL (OPT_INT .| OPT_MK .| OPT_STR);
  opt3 "MGT_LOCAL_LDLIBS" NULL (OPT_INT .| OPT_MK .| OPT_STR);
  opt3 "TRX" NULL (OPT_INT .| OPT_MK .| OPT_STR);
  opt3 "UNITTEST_SPAWNER" NULL (OPT_INT .| OPT_MK .| OPT_STR);
  opt3 "VALGRIND_CMD" NULL (OPT_INT .| OPT_MK .| OPT_STR);
  opt3 "CONFIG_ICONV_CONST_CAST" NULL OPT_STR;
  opt3 "CONFIG_RG_IPERF" NULL OPT_MK;
  opt2 "CONFIG_RG_USE_LOCAL_TOOLCHAIN" NULL;
  opt3 "CONFIG_RG_BUILD_LOCAL_TARGETS_ONLY" NULL OPT_MK;
  opt3 "HAVE_MYSQL" NULL (OPT_HC .| OPT_MK .| OPT_EXPORT);
  opt3 "CONFIG_RG_MYSQL_PREFIX" NULL OPT_STR;
  opt3 "CONFIG_RG_MYSQL_LIB_PREFIX" NULL OPT_STR;
  opt3 "CONFIG_RG_JNET_SERVER" NULL OPT_HC;
  opt3 "CONFIG_RG_JNET_CLIENT" NULL OPT_HC;
  opt2 "CONFIG_RG_OPENSSL_LOCAL" NULL;
  opt3 "CONFIG_RG_OPENSSL_LOCAL_PREFIX" NULL OPT_STR;
  opt3 "CONFIG_RG_TOOLS" NULL (OPT_MK .| OPT_HC);
  opt3 "CONFIG_RG_SESSION_MEMORY" NULL (OPT_MK .| OPT_H);
  opt3 "CONFIG_RG_SESSION_LIBDB" NULL (OPT_MK .| OPT_H);
  opt3 "CONFIG_SPLIT_PTLOCK_CPUS" NULL OPT_NUMBER;
  opt1 "CONFIG_IRQ_RELEASE_METHOD";
  opt3 "UML_CONFIG_STUB_DATA" NULL (OPT_H .| OPT_NUMBER);
  opt3 "CONFIG_STUB_DATA" NULL (OPT_H .| OPT_NUMBER);
  opt3 "CONFIG_STUB_START" NULL (OPT_H .| OPT_NUMBER);
  opt3 "CONFIG_STUB_CODE" NULL (OPT_H .| OPT_NUMBER);
  opt1 "CONFIG_SWAP";
  opt1 "CONFIG_X86_F00F_BUG";
  opt1 "CONFIG_SEMAPHORE_SLEEPERS";
  opt1 "CONFIG_SELECT_MEMORY_MODEL";
  opt1 "CONFIG_FLATMEM_MANUAL";
  opt1 "CONFIG_FORCED_INLINING";
  opt1 "CONFIG_DEBUG_MUTEXES";
  opt1 "CONFIG_DEFAULT_AS";
  opt1 "CONFIG_DETECT_SOFTLOCKUP";
  opt1 "CONFIG_INET_DIAG";
  opt1 "CONFIG_INET_TCP_DIAG";
  opt1 "CONFIG_SLAB";
  opt1 "CONFIG_TCP_CONG_BIC";
  opt1 "CONFIG_FW_LOADER";
  opt3 "CONFIG_RG_EXTERNAL_TOOLS_PATH" NULL OPT_STR;
  opt3 "CONFIG_CX9451X_COMMON" NULL OPT_HC;
  opt4 "CONFIG_CX9451X_DSP" NULL (OPT_MODULE .| OPT_EXPORT) (Some "DSP driver for Conexant CX9451x");
  opt2 "CONFIG_ARCH_SOLOS" NULL;
  opt1 "CONFIG_ARCH_SOLOS_GALLUS";
  opt1 "CONFIG_ARCH_SOLOS_376PIN";
  opt1 "CONFIG_MACH_SOLOS_GALLUSBU";
  opt1 "CONFIG_ARM_SOLOS_ETHER";
  opt1 "CONFIG_CPU_ARM1026";
  opt1 "CONFIG_SERIAL_SOLOS";
  opt1 "CONFIG_SERIAL_SOLOS_CONSOLE";
  opt3 "CONFIG_SERIAL_SOLOS_CONSOLE_BAUD" NULL OPT_NUMBER;
  opt3 "CONFIG_KGDB_SOLOS_SERIAL" NULL OPT_NOSTRIP;
  opt1 "CONFIG_CPU_ABRT_EV5T";
  opt4 "CONFIG_USB_SOLOS_HCD" NULL OPT_MODULE_EXPAND (Some "SOLOS EHCI HCD");
  opt1 "CONFIG_SOLOS_USB_HOST0";
  opt1 "CONFIG_SOLOS_USB_HOST1";
  opt3 "CONFIG_IPSEC_USE_SOLOS_CRYPTO" NULL OPT_MK;
  opt1 "CONFIG_OPENSOURCE_HTTPTINY";
  opt3 "CONFIG_MAX_DMA_SIZE" NULL (OPT_NUMBER .| OPT_EXPORT);
  opt1 "CONFIG_WESTELL_GUI";
  opt1 "CONFIG_REDUCED_DNS_TRAFFIC";
  opt3 "CONFIG_USB_DWC3884_HCD" NULL OPT_MODULE_EXPAND;
  opt3 "CONFIG_USB_DWC_OTG_HCD" NULL OPT_MODULE_EXPAND;
  opt3 "CONFIG_TWINPASS_ULTRALINE_FLASH" NULL OPT_HC;
  opt3 "CONFIG_GUI_WSTL" NULL (OPT_THEME .| OPT_HC);
  opt3 "CONFIG_GUI_WSTL_VZ" NULL (OPT_THEME .| OPT_HC);
  opt3 "CONFIG_GUI_WSTL_RETAIL" NULL (OPT_THEME .| OPT_HC);
  opt1 "CONFIG_WSTL_ARPMON";
  opt1 "CONFIG_WSTL_SAVE_RXDEV";
  opt1 "CONFIG_WSTL_FIREBALL";
  opt1 "CONFIG_WSTL_CONFIG_DEFAULTS";
  opt1 "CONFIG_WSTL_GUI_HIDE";
  opt1 "CONFIG_WSTL_GUI_NO_HELP";
  opt1 "CONFIG_WSTL_WBA";
  opt1 "CONFIG_WSTL_LOOP_DETECT";
  opt1 "CONFIG_WSTL_MEDIASERVER";
  opt3 "CONFIG_WSTL_4HOMEMEDIA_HOMECONTROL" NULL OPT_EXPORT;
  opt3 "CONFIG_WSTL_4HOMEMEDIA_MEDIACONTROL" NULL OPT_EXPORT;
  opt1 "CONFIG_WSTL_4HOMEMEDIA_GUI";
  opt1 "CONFIG_WSTL_INTERNAL_STORAGE_SUPPORT";
  opt1 "CONFIG_WSTL_LOG_DIAGNOSTICS";
  opt1 "CONFIG_WSTL_DEV_STATS";
  opt1 "CONFIG_WSTL_WAN_PROTOCOL_DETECT";
  opt1 "WSTL_QND_PARENTAL";
  opt1 "CONFIG_WSTL_MOCA_CHANGE";
  opt1 "CONFIG_WSTL_CR_FIX";
  opt1 "CONFIG_WSTL_TR_HIDDEN_PAGE";
  opt1 "CONFIG_HNAP";
  opt1 "HNAP_WBM";
  opt1 "CONFIG_DEBUG_PAGES";
  opt1 "CONFIG_WSTL_BOOTLOADER_IMG";
  opt2 "CONFIG_BOOT_UBOOT_VDSL" NULL;
  opt2 "CONFIG_BOOT_UBOOT_VDSL_64" NULL;
  opt2 "CONFIG_BOOT_WSTL_VDSL" NULL;
  opt2 "CONFIG_BOOT_WSTL_VDSL_64" NULL;
  opt2 "CONFIG_BOOT_WSTL_VDSL_64_16" NULL;
  opt2 "CONFIG_BOOT_WSTL_DUAL_MOCA" NULL;
  opt2 "CONFIG_BOOT_WSTL_DUAL_MOCA_64" NULL;
  opt2 "CONFIG_BOOT_WSTL_TURBO_64" NULL;
  opt2 "CONFIG_BOOT_WSTL_M100_64" NULL;
  opt2 "CONFIG_WSTL_COMCAST" NULL;
  opt2 "CONFIG_WSTL_RETAIL" NULL;
  opt2 "CONFIG_WSTL_GENERIC" NULL;
  opt2 "CONFIG_GUI_VZ_NO_ICONS" NULL;
  opt3 "CONFIG_WSTL_VERIZON_DHCP_OPT_60" NULL OPT_HC;
  opt3 "CONFIG_WSTL_VERIZON_DNS_RESOLUTION" NULL OPT_HC;
  opt1 "CONFIG_VERIZON_ONLY";
  opt3 "CONFIG_WSTL_IGMP_CHANGE" NULL OPT_HC;
  opt3 "CONFIG_WSTL_FLASH_LAYOUT_8FLASH_7APP" NULL OPT_HC ].

(** config_opt.c, lines 2957 to 2966. *)
Definition config_options_base_18 : list option_t := [
  opt3 "CONFIG_WSTL_FLASH_LAYOUT_16FLASH" NULL OPT_HC;
  opt3 "CONFIG_WSTL_FLASH_LAYOUT_16FLASH_ART" NULL OPT_HC;
  opt1 "CONFIG_GENERIC_IKANOS";
  opt1 "CONFIG_WSTL_WATCHDOG_CPLD";
  opt1 "CONFIG_WSTL_USBHUBOVERCURRENT_CPLD";
  opt1 "CONFIG_WSTL_USBHOSTOVERCURRENT_GPIO";
  opt1 "CONFIG_WSTL_DUAL_SPI_MDIO";
  opt1 "CONFIG_WSTL_CPLD_CONFIG";
  opt3 "CONFIG_WSTL_CPLD_REVISION" NULL (OPT_HC .| OPT_NUMBER);
  opt1 "CONFIG_PPPSTUB" ].

Definition config_options_base : list option_t :=
  (config_options_base_1 ++
   config_options_base_2 ++
   config_options_base_3 ++
   config_options_base_4 ++
   config_options_base_5 ++
   config_options_base_6 ++
   config_options_base_7 ++
   config_options_base_8 ++
   config_options_base_9 ++
   config_options_base_10 ++
   config_options_base_11 ++
   config_options_base_12 ++
   config_options_base_13 ++
   config_options_base_14 ++
   config_options_base_15 ++
   config_options_base_16 ++
   config_options_base_17 ++
   config_options_base_18)%list.
