(* ===== verification/Licence.v ===== *)
(** * Licence: enabling licensed modules

    [token_set_by_cmdline] and [_enable_module] of pkg/build/create_config.c.
    [is_feature_enabled] of a CONFIG_RG_GPL build enables everything; the other
    build asks [str2code] and the table of the licence engine, whose code is not
    in this tree, so the operations take the test as the parameter
    [is_feature_enabled]. *)
From S2P Require Import Prelude ConfigOpt.

(** [is_feature_enabled] of a CONFIG_RG_GPL build. *)
Definition is_feature_enabled_gpl (feature_name : string) : bool := true.

Definition token_set_by_cmdline (tok : string) : M bool :=
  p <- option_token_get tok;; ret (set_prio p.2 =? SET_PRIO_CMD_LINE).

Definition warn (d : diag) : M unit := fun s => Ok tt (log_diag d s).

Section Enable.
Context (is_feature_enabled : string -> bool).

Definition _enable_module (f : string) (l : Z) (name : string) : M unit :=
  by_cmdline <- token_set_by_cmdline name;;
  if (by_cmdline : bool) then
    v <- token_get name;;
    if nz v then
      (if negb (is_feature_enabled name) then
         force <- token_get "LIC_FORCE";;
         if nz force then warn (EnablingUnlicensed name)
         else conf_err (NoLicense name)
       else ret tt);;;
      _token_set_y f l name
    else ret tt
  else if is_feature_enabled name then _token_set_y f l name
  else
    force <- token_get "LIC_FORCE";;
    if nz force then
      warn (EnablingUnlicensed name);;;
      _token_set_y f l name
    else
      autoconf <- token_is_y "LIC_AUTOCONF";;
      if nz autoconf then warn (DisablingUnlicensed name)
      else conf_err (NoLicense name).
End Enable.
