(* ===== verification/InitOptions.v ===== *)
(** * InitOptions: initialising and duplicating option arrays

    [_init_configs], [options_dup] and [jpkg_dist_add] of
    pkg/build/create_config.c.  Strings are values here, so [strdup] leaves them
    unchanged; that the duplicate shares nothing with its source is what makes
    an array of [jpkg_dists] independent of [openrg_config_options]. *)
From S2P Require Import Prelude ConfigOpt OptionTable.

Definition init_option (p : option_t) : option_t :=
  match value p with
  | Some v => mk_option (token p) (Some v) (otype p) (description p) (file p) (line p) SET_PRIO_INIT
  | None => p
  end.

(** [for (p = array; p->token; p++) if (p->value) { ... }] *)
Fixpoint _init_configs (array : list option_t) : list option_t :=
  match array with
  | [] => []
  | p :: array' => init_option p :: _init_configs array'
  end.

(** The copy of every member, entry by entry. *)
Fixpoint options_dup (o : list option_t) : list option_t :=
  match o with
  | [] => []
  | e :: o' =>
      mk_option (token e) (value e) (otype e) (description e) (file e) (line e) (set_prio e)
        :: options_dup o'
  end.

(** A new element at the end of the list, with a copy of [config_options_base]
    as [init_configs] left it. *)
Definition jpkg_dist_add (d : string) : M unit := fun s =>
  Ok tt (mk_cfg (openrg_config_options s) (hw s) (os s) (dist s) (is_evaluation s)
           (jpkg_dists s ++ [(d, options_dup (_init_configs config_options_base))])%list
           (stderr_log s)).

Lemma options_dup_id o : options_dup o = o.
Proof. induction o as [|[] o IH]; simpl; [done|]. by rewrite IH. Qed.

Lemma init_configs_shape a : shape (_init_configs a) = shape a.
Proof.
  induction a as [|o a IH]; [done|]. unfold shape in *. simpl. f_equal; [|exact IH].
  unfold init_option. by destruct (value o).
Qed.
