(* ===== verification/Rules.v ===== *)
(** * Rules: the vocabulary of the configuration rules

    feature_config.c is thousands of lines of one shape: [if] over options,
    then [token_set_y], [token_set_m], [token_set], [enable_module].  This file
    gives those statements as operations of the monad of ConfigOpt, and the
    logic that proves a property of a whole rule program from its elementary
    accesses: [covers l m] says that every invariant which the accesses in [l]
    keep, the program [m] keeps too.  [covers] is proved by walking through [m]
    and yields the list [l], on which a property is then decided by
    evaluation. *)
From S2P Require Import Prelude ConfigOpt OptionTable Licence InitOptions.

(** ** Statements and conditions *)
Abbreviation stmt := (M unit).
Abbreviation cond := (M bool).

Fixpoint block (l : list stmt) : stmt :=
  match l with
  | [] => ret tt
  | m :: l' => m;;; block l'
  end.

Definition IfElse (c : cond) (t e : list stmt) : stmt :=
  b <- c;; if (b : bool) then block t else block e.
Definition If (c : cond) (t : list stmt) : stmt := IfElse c t [].

(** A string with double quotes around it, as a C string constant. *)
Definition quoted (s : string) : string := String "034" (s +:+ String "034" EmptyString).

(** C's [!], [&&] and [||]. *)
Definition notc (c : cond) : cond := b <- c;; ret (negb b).
Definition andc (c d : cond) : cond := b <- c;; if (b : bool) then d else ret false.
Definition orc (c d : cond) : cond := b <- c;; if (b : bool) then ret true else d.
Infix "&&&" := andc (at level 40, left associativity) : cfg_scope.
Infix "|||" := orc (at level 50, left associativity) : cfg_scope.

(** [token_get(tok)], [token_is_y(tok)], [token_get(tok) > n], [token_get(tok) == n] and
    [token_get_str(tok)] as conditions. *)
Definition isset (tok : string) : cond := v <- token_get tok;; ret (nz v).
Definition isy (tok : string) : cond := v <- token_is_y tok;; ret (nz v).
Definition get_gt (tok : string) (n : Z) : cond := v <- token_get tok;; ret (n <? v).
Definition get_eq (tok : string) (n : Z) : cond := v <- token_get tok;; ret (v =? n).
Definition has_str (tok : string) : cond := v <- token_get_str tok;; ret (bool_decide (is_Some v)).

(** [!strcmp(token_get_str(tok), x)]: a NULL argument has no defined result. *)
Definition str_is (tok x : string) : cond :=
  v <- token_get_str tok;;
  match v with
  | Some val => ret (val =? x)%string
  | None => conf_err (Undefined "strcmp")
  end.
(** [!strcmp(token_get_str(tok) ? : "", x)]. *)
Definition strz_is (tok x : string) : cond :=
  v <- token_get_str tok;; ret (default "" v =? x)%string.

(** [!strcmp(os, x)], [hw] and [IS_DIST(x)] as conditions. *)
Definition os_is (x : string) : cond := fun s => Ok (os s =? x)%string s.
Definition hw_set : cond := fun s => Ok (bool_decide (is_Some (hw s))) s.
Definition IS_DIST (x : string) : cond := fun s =>
  match dist s with
  | Some d => Ok (d =? x)%string s
  | None => Exit (Undefined "strcmp") s
  end.
Definition evaluation : cond := fun s => Ok (is_evaluation s) s.
(** [IS_HW(x)]: [hw && !strcmp(hw, x)]. *)
Definition IS_HW (x : string) : cond := fun s => Ok (bool_decide (hw s = Some x)) s.
(** [!strcmp(a, x)] on an argument of the enclosing function. *)
Definition str_eq (a x : string) : cond := ret (a =? x)%string.

(** A test on values the program has at hand, and a choice between two programs. *)
Definition test (b : bool) : cond := ret b.
Definition IfM {A} (c : cond) (m1 m2 : M A) : M A := b <- c;; if (b : bool) then m1 else m2.

(** A chain [if (c1) t1 else if (c2) t2 ... else e]. *)
Fixpoint Elif (arms : list (cond * list stmt)) (e : list stmt) : stmt :=
  match arms with
  | [] => block e
  | (c, t) :: arms' => IfElse c t [Elif arms' e]
  end.

(** [hw = x], [os = x]. *)
Definition set_hw (x : string) : stmt := fun s =>
  Ok tt (mk_cfg (openrg_config_options s) (Some x) (os s) (dist s) (is_evaluation s)
           (jpkg_dists s) (stderr_log s)).
Definition set_hw_NULL : stmt := fun s =>
  Ok tt (mk_cfg (openrg_config_options s) None (os s) (dist s) (is_evaluation s)
           (jpkg_dists s) (stderr_log s)).
(** [hw = dist]. *)
Definition set_hw_dist : stmt := fun s =>
  Ok tt (mk_cfg (openrg_config_options s) (dist s) (os s) (dist s) (is_evaluation s)
           (jpkg_dists s) (stderr_log s)).
Definition set_os (x : string) : stmt := fun s =>
  Ok tt (mk_cfg (openrg_config_options s) (hw s) x (dist s) (is_evaluation s)
           (jpkg_dists s) (stderr_log s)).

(** [token_set(tok, x)] where [x] is a string the program was given: the text
    is the format. *)
Definition set_text (f : string) (l : Z) (tok x : string) : stmt :=
  _token_set f l SET_PRIO_TOKEN_SET tok x [].

(** [(size = token_get_str(tok)) && atoi(size) <= n]. *)
Definition atoi (s : string) : Z := sscanf_d s.
Definition str_le (tok : string) (n : Z) : cond :=
  v <- token_get_str tok;;
  ret (match v with Some size => atoi size <=? n | None => false end).

(** ** String arguments of a format *)
Inductive arg :=
| GetStr (tok : string)             (** [token_get_str(tok)] *)
| Sel (tok a b : string).           (** [token_get(tok) ? a : b] *)

Definition eval_arg (a : arg) : M (option string) :=
  match a with
  | GetStr tok => token_get_str tok
  | Sel tok x y => b <- isset tok;; ret (Some (if (b : bool) then x else y))
  end.

Fixpoint eval_args (l : list arg) : M (list (option string)) :=
  match l with
  | [] => ret []
  | a :: l' => v <- eval_arg a;; vs <- eval_args l';; ret (v :: vs)
  end.

(** [token_set(tok, fmt, args...)]. *)
Definition set_args (f : string) (l : Z) (tok fmt : string) (args : list arg) : stmt :=
  vs <- eval_args args;; _token_set f l SET_PRIO_TOKEN_SET tok fmt vs.

(** [token_set(tok, token_get_str(src))]: the text of [src] is the format. *)
Definition set_copy (f : string) (l : Z) (tok src : string) : stmt :=
  v <- token_get_str src;;
  match v with
  | Some fmt => _token_set f l SET_PRIO_TOKEN_SET tok fmt []
  | None => conf_err (Undefined "vsnprintf")
  end.

(** [static char cmd_line[255]; sprintf(cmd_line, fmt, args...);
     token_set(tok, cmd_line);] *)
Definition set_cmd_line (f : string) (l : Z) (tok fmt : string) (args : list arg) : stmt :=
  vs <- eval_args args;;
  match format fmt vs with
  | Some cmd_line =>
      if (Z.of_nat (String.length cmd_line) <? 255)
      then _token_set f l SET_PRIO_TOKEN_SET tok cmd_line []
      else conf_err (Undefined "sprintf")
  | None => conf_err (Undefined "format")
  end.

(** ** The other functions of feature_config.c the rules call *)

(** [assert_dep(dependent, token, ..., NULL)]. *)
Fixpoint assert_deps (dependent : string) (toks : list string) : stmt :=
  match toks with
  | [] => ret tt
  | tok :: toks' =>
      v <- token_get tok;;
      if nz v then assert_deps dependent toks' else conf_err (FailedDependency dependent tok)
  end.
Definition assert_dep (dependent : string) (toks : list string) : stmt :=
  v <- token_get dependent;;
  if nz v then assert_deps dependent toks else ret tt.

(** [is_gui_selected()]: some theme option has a value. *)
Definition is_gui_selected : cond := fun s =>
  Ok (existsb (fun o => bool_decide (is_Some (value o)) && has_flag (otype o) OPT_THEME)
        (openrg_config_options s)) s.

(** [select_all_themes()]: the loop walks the array while [token_set_y] writes
    into it; names and types, all it reads, do not change, so the entries are
    taken from the array at the start. *)
Fixpoint select_themes (l : list option_t) : stmt :=
  match l with
  | [] => ret tt
  | o :: l' =>
      (if (token o =? "CONFIG_GUI_BELKIN")%string then ret tt
       else if has_flag (otype o) OPT_THEME
            then _token_set_y FEATURE_CONFIG_C 85 (token o) else ret tt);;;
      select_themes l'
  end.
Definition select_all_themes : stmt := fun s => select_themes (openrg_config_options s) s.

Definition is_dsp_configurable : cond :=
  isset "CONFIG_VINETIC" ||| isset "CONFIG_IXP425_DSR" ||| isset "CONFIG_COMCERTO_COMMON".

(** ** Elementary accesses *)
Inductive access :=
| AGet (tok : string)                          (** token_get *)
| AStr (tok : string)                          (** token_get_str *)
| AStrcmp (tok : string)                       (** strcmp on token_get_str *)
| ASet (tok v : string)                        (** token_set_y, token_set *)
| ASetM (tok : string)                         (** token_set_m *)
| AArgs (tok fmt : string) (args : list arg)   (** token_set with arguments *)
| ACopy (tok src : string)                     (** token_set(tok, token_get_str(src)) *)
| ACmd (tok fmt : string) (args : list arg)    (** sprintf(cmd_line), token_set *)
| AEnable (tok : string)                       (** enable_module *)
| AThemes                                      (** select_all_themes *)
| AEnv                                         (** hw, os *)
| AJpkg (d : string)                           (** jpkg_dist_add *)
| AUser                                        (** a check of the user's choices *)
| AText (tok : string)                         (** token_set, a text made at run time *)
| ADist                                        (** IS_DIST *)
| AErr (e : exit_reason).                      (** conf_err, exit *)

(** The ways the program refuses what the user chose: distribution, hardware,
    operating system. *)
Definition user_exit (e : exit_reason) : Prop :=
  match e with
  | NotLegal _ | NoHw | NoDist | InvalidDist _ | NoHwDescription _ => True
  | NoSuchHw h => option_token_get_nofail openrg_hw_options h = None
  | _ => False
  end.

Section Covers.
Context (is_feature_enabled : string -> bool).

(** The logic [triple I R E] accepts the access [a]. *)
Definition accepts (I : cfg -> Prop) (R : cfg -> cfg -> Prop) (E : exit_reason -> Prop)
    (a : access) : Prop :=
  match a with
  | AGet t => triple I R E (token_get t)
  | AStr t => triple I R E (token_get_str t)
  | AStrcmp t => forall x, triple I R E (str_is t x)
  | ASet t v => forall f l, triple I R E (_token_set f l SET_PRIO_TOKEN_SET t v [])
  | ASetM t => forall f l, triple I R E (_token_set_m f l t)
  | AArgs t fmt args => forall f l, triple I R E (set_args f l t fmt args)
  | ACopy t src => forall f l, triple I R E (set_copy f l t src)
  | ACmd t fmt args => forall f l, triple I R E (set_cmd_line f l t fmt args)
  | AEnable t => forall f l, triple I R E (_enable_module is_feature_enabled f l t)
  | AThemes => triple I R E select_all_themes
  | AEnv => forall m, (forall s, exists s', m s = Ok tt s' /\
      openrg_config_options s' = openrg_config_options s /\ dist s' = dist s /\
      jpkg_dists s' = jpkg_dists s) -> triple I R E (m : stmt)
  | AJpkg d => triple I R E (jpkg_dist_add d)
  | AUser => forall m, (forall s, final (m s) = s /\ from_option user_exit True (outcome (m s))) ->
      triple I R E (m : stmt)
  | AText t => forall f l x args, triple I R E (_token_set f l SET_PRIO_TOKEN_SET t x args)
  | ADist => forall x, triple I R E (IS_DIST x)
  | AErr e => E e
  end.

Definition covers (l : list access) {A} (m : M A) : Prop :=
  forall I R E, PreOrder R -> Forall (accepts I R E) l -> triple I R E m.

Lemma covers_leaf {A} a (m : M A) :
  (forall I R E, PreOrder R -> accepts I R E a -> triple I R E m) -> covers [a] m.
Proof. intros H I R E HR [Ha _]%Forall_cons. by apply H. Qed.

Lemma covers_ret {A} (x : A) : covers [] (ret x).
Proof. intros I R E HR _. by apply triple_ret. Qed.

Lemma covers_bind {A B} l1 l2 (m : M A) (k : A -> M B) :
  covers l1 m -> (forall x, covers l2 (k x)) -> covers (l1 ++ l2)%list (bind m k).
Proof.
  intros Hm Hk I R E HR [H1 H2]%Forall_app. apply triple_bind; [done|by apply Hm|].
  intros x. by apply Hk.
Qed.

Lemma covers_bind_pure {A B} l (m : M A) (k : A -> M B) :
  covers l m -> (forall x, covers [] (k x)) -> covers l (bind m k).
Proof. intros Hm Hk. rewrite <- (app_nil_r l). by apply covers_bind. Qed.

Lemma covers_final {A} (m : M A) :
  (forall s, final (m s) = s /\ outcome (m s) = None) -> covers [] m.
Proof.
  intros H I R E HR _. apply triple_pure; [done|]. intros s _.
  destruct (H s) as [-> ->]. done.
Qed.

Lemma covers_incl {A} l l' (m : M A) : covers l m -> l ⊆ l' -> covers l' m.
Proof.
  intros Hm Hl I R E HR Ha. apply Hm; [done|]. rewrite Forall_forall in *. auto.
Qed.

Lemma covers_if {A} l1 l2 (b : bool) (m1 m2 : M A) :
  covers l1 m1 -> covers l2 m2 -> covers (l1 ++ l2)%list (if b then m1 else m2).
Proof. intros H1 H2 I R E HR [? ?]%Forall_app. destruct b; [by apply H1 | by apply H2]. Qed.

Lemma covers_IfM {A} l1 l2 l3 c (m1 m2 : M A) :
  covers l1 c -> covers l2 m1 -> covers l3 m2 -> covers (l1 ++ l2 ++ l3)%list (IfM c m1 m2).
Proof. intros Hc H1 H2. apply covers_bind; [done|]. intros b. by apply covers_if. Qed.
Lemma covers_option {A B} l1 l2 (o : option A) (k : A -> M B) (m : M B) :
  (forall x, covers l1 (k x)) -> covers l2 m ->
  covers (l1 ++ l2)%list (match o with Some x => k x | None => m end).
Proof. intros H1 H2 I R E HR [? ?]%Forall_app. destruct o; [by apply H1 | by apply H2]. Qed.
Lemma covers_test b : covers [] (test b).
Proof. apply covers_ret. Qed.

Lemma covers_block_nil : covers [] (block []).
Proof. apply covers_ret. Qed.
Lemma covers_block_cons l1 l2 m ms :
  covers l1 m -> covers l2 (block ms) -> covers (l1 ++ l2)%list (block (m :: ms)).
Proof. intros. by apply covers_bind. Qed.
Lemma covers_block_one l m : covers l m -> covers l (block [m]).
Proof. intros. apply covers_bind_pure; [done|]. intros _. apply covers_ret. Qed.

Lemma covers_IfElse l1 l2 l3 c t e :
  covers l1 c -> covers l2 (block t) -> covers l3 (block e) ->
  covers (l1 ++ l2 ++ l3)%list (IfElse c t e).
Proof. intros Hc Ht He. apply covers_bind; [done|]. intros b. by apply covers_if. Qed.
Lemma covers_If l1 l2 c t :
  covers l1 c -> covers l2 (block t) -> covers (l1 ++ l2)%list (If c t).
Proof.
  intros Hc Ht. unfold If. rewrite <- (app_nil_r l2).
  apply covers_IfElse; [done..|apply covers_block_nil].
Qed.

Lemma covers_notc l c : covers l c -> covers l (notc c).
Proof. intros. apply covers_bind_pure; [done|]. intros b. apply covers_ret. Qed.
Lemma covers_andc l1 l2 c d : covers l1 c -> covers l2 d -> covers (l1 ++ l2)%list (c &&& d).
Proof.
  intros Hc Hd. apply covers_bind; [done|]. intros b. rewrite <- (app_nil_r l2).
  apply covers_if; [done | apply covers_ret].
Qed.
Lemma covers_orc l1 l2 c d : covers l1 c -> covers l2 d -> covers (l1 ++ l2)%list (c ||| d).
Proof.
  intros Hc Hd. apply covers_bind; [done|]. intros b. change l2 with ([] ++ l2)%list.
  apply covers_if; [apply covers_ret | done].
Qed.

Lemma covers_token_get t : covers [AGet t] (token_get t).
Proof. by apply covers_leaf. Qed.
Lemma covers_token_get_str t : covers [AStr t] (token_get_str t).
Proof. by apply covers_leaf. Qed.
Lemma covers_token_getz t : covers [AStr t] (token_getz t).
Proof. apply covers_bind_pure; [apply covers_token_get_str|]. intros. apply covers_ret. Qed.
Lemma covers_isset t : covers [AGet t] (isset t).
Proof. apply covers_bind_pure; [apply covers_token_get|]. intros. apply covers_ret. Qed.
Lemma covers_get_gt t n : covers [AGet t] (get_gt t n).
Proof. apply covers_bind_pure; [apply covers_token_get|]. intros. apply covers_ret. Qed.
Lemma covers_get_eq t n : covers [AGet t] (get_eq t n).
Proof. apply covers_bind_pure; [apply covers_token_get|]. intros. apply covers_ret. Qed.
Lemma covers_isy t : covers [AStr t] (isy t).
Proof.
  apply covers_bind_pure; [|intros; apply covers_ret].
  apply covers_bind_pure; [apply covers_token_get_str | intros; apply covers_ret].
Qed.
Lemma covers_has_str t : covers [AStr t] (has_str t).
Proof. apply covers_bind_pure; [apply covers_token_get_str|]. intros. apply covers_ret. Qed.
Lemma covers_strz_is t x : covers [AStr t] (strz_is t x).
Proof. apply covers_bind_pure; [apply covers_token_get_str|]. intros. apply covers_ret. Qed.
Lemma covers_str_le t n : covers [AStr t] (str_le t n).
Proof. apply covers_bind_pure; [apply covers_token_get_str|]. intros. apply covers_ret. Qed.
Lemma covers_str_is t x : covers [AStrcmp t] (str_is t x).
Proof. apply covers_leaf. intros I R E HR Ha. apply Ha. Qed.
Lemma covers_os_is x : covers [] (os_is x).
Proof. by apply covers_final. Qed.
Lemma covers_hw_set : covers [] hw_set.
Proof. by apply covers_final. Qed.
Lemma covers_evaluation : covers [] evaluation.
Proof. by apply covers_final. Qed.
Lemma covers_is_gui_selected : covers [] is_gui_selected.
Proof. by apply covers_final. Qed.
Lemma covers_is_dsp_configurable :
  covers [AGet "CONFIG_VINETIC"; AGet "CONFIG_IXP425_DSR"; AGet "CONFIG_COMCERTO_COMMON"]
    is_dsp_configurable.
Proof.
  change ([?a; ?b; ?c]) with (([a] ++ [b]) ++ [c])%list.
  repeat apply covers_orc; apply covers_isset.
Qed.
Lemma covers_IS_DIST x : covers [ADist] (IS_DIST x).
Proof. apply covers_leaf. intros I R E HR Ha. apply Ha. Qed.
Lemma covers_conf_err {A} e : covers [AErr e] (@conf_err A e).
Proof. apply covers_leaf. intros I R E HR Ha. by apply triple_conf_err. Qed.

Lemma covers_token_set f l t v : covers [ASet t v] (_token_set f l SET_PRIO_TOKEN_SET t v []).
Proof. apply covers_leaf. intros I R E HR Ha. apply Ha. Qed.
Lemma covers_token_set_y f l t : covers [ASet t "y"] (_token_set_y f l t).
Proof. apply covers_token_set. Qed.
Lemma covers_token_set_m f l t : covers [ASetM t] (_token_set_m f l t).
Proof. apply covers_leaf. intros I R E HR Ha. apply Ha. Qed.
Lemma covers_set_args f l t fmt args : covers [AArgs t fmt args] (set_args f l t fmt args).
Proof. apply covers_leaf. intros I R E HR Ha. apply Ha. Qed.
Lemma covers_set_copy f l t src : covers [ACopy t src] (set_copy f l t src).
Proof. apply covers_leaf. intros I R E HR Ha. apply Ha. Qed.
Lemma covers_set_cmd_line f l t fmt args : covers [ACmd t fmt args] (set_cmd_line f l t fmt args).
Proof. apply covers_leaf. intros I R E HR Ha. apply Ha. Qed.
Lemma covers_enable_module f l t : covers [AEnable t] (_enable_module is_feature_enabled f l t).
Proof. apply covers_leaf. intros I R E HR Ha. apply Ha. Qed.
Lemma covers_select_all_themes : covers [AThemes] select_all_themes.
Proof. by apply covers_leaf. Qed.

Lemma covers_set_text f l t x : covers [AText t] (set_text f l t x).
Proof. apply covers_leaf. intros I R E HR Ha. apply Ha. Qed.
Lemma covers_set_format f l t x args : covers [AText t] (_token_set f l SET_PRIO_TOKEN_SET t x args).
Proof. apply covers_leaf. intros I R E HR Ha. apply Ha. Qed.
Lemma covers_env (m : stmt) :
  (forall s, exists s', m s = Ok tt s' /\
     openrg_config_options s' = openrg_config_options s /\ dist s' = dist s /\
     jpkg_dists s' = jpkg_dists s) -> covers [AEnv] m.
Proof. intros Hm. apply covers_leaf. intros I R E HR Ha. by apply Ha. Qed.
Lemma covers_jpkg_dist_add d : covers [AJpkg d] (jpkg_dist_add d).
Proof. by apply covers_leaf. Qed.
Lemma covers_user (m : stmt) :
  (forall s, final (m s) = s /\ from_option user_exit True (outcome (m s))) -> covers [AUser] m.
Proof. intros Hm. apply covers_leaf. intros I R E HR Ha. by apply Ha. Qed.
(** A program chosen by the state. *)
Lemma covers_state {A B} l (g : cfg -> B) (k : B -> M A) :
  (forall b, covers l (k b)) -> covers l (fun s => k (g s) s).
Proof. intros Hk I R E HR Ha s Hs. by apply (Hk (g s) I R E HR Ha s). Qed.
Lemma covers_set_hw x : covers [AEnv] (set_hw x).
Proof. apply covers_env. intros s. by eexists. Qed.
Lemma covers_set_hw_NULL : covers [AEnv] set_hw_NULL.
Proof. apply covers_env. intros s. by eexists. Qed.
Lemma covers_set_hw_dist : covers [AEnv] set_hw_dist.
Proof. apply covers_env. intros s. by eexists. Qed.
Lemma covers_set_os x : covers [AEnv] (set_os x).
Proof. apply covers_env. intros s. by eexists. Qed.
Lemma covers_IS_HW x : covers [] (IS_HW x).
Proof. by apply covers_final. Qed.
Lemma covers_str_eq a x : covers [] (str_eq a x).
Proof. by apply covers_final. Qed.

Lemma covers_set_big_endian f l is_big :
  covers [ASet "CONFIG_CPU_BIG_ENDIAN" "y"; ASet "CONFIG_CPU_LITTLE_ENDIAN" "y";
          ASet "TARGET_ENDIANESS" "BIG"; ASet "TARGET_ENDIANESS" "LITTLE"]
    (_set_big_endian f l is_big).
Proof.
  change ([?a; ?b; ?c; ?d]) with (([a] ++ [b]) ++ ([c] ++ [d]))%list.
  apply covers_bind; [apply covers_if; apply covers_token_set|]. intros _.
  destruct is_big;
    (eapply covers_incl; [apply covers_token_set | set_solver]).
Qed.

Lemma covers_assert_deps d ts :
  covers (flat_map (fun t => [AGet t; AErr (FailedDependency d t)]) ts) (assert_deps d ts).
Proof.
  induction ts as [|t ts IH]; simpl; [apply covers_ret|].
  change (AGet t :: ?l) with ([AGet t] ++ l)%list.
  apply covers_bind; [apply covers_token_get|]. intros v.
  eapply covers_incl; [apply covers_if; [exact IH | apply covers_conf_err]|].
  set_solver.
Qed.
Lemma covers_assert_dep d ts :
  covers (AGet d :: flat_map (fun t => [AGet t; AErr (FailedDependency d t)]) ts)
    (assert_dep d ts).
Proof.
  change (AGet d :: ?l) with ([AGet d] ++ l)%list. apply covers_bind; [apply covers_token_get|].
  intros v. eapply covers_incl;
    [apply covers_if; [apply covers_assert_deps | apply covers_ret] | set_solver].
Qed.

Lemma triple_block_app I R E (ms1 ms2 : list stmt) : PreOrder R ->
  triple I R E (block ms1) -> triple I R E (block ms2) ->
  triple I R E (block (ms1 ++ ms2)%list).
Proof.
  intros HR H1 H2 s Hs. specialize (H1 s Hs).
  assert (Happ : block (ms1 ++ ms2)%list s = (block ms1;;; block ms2) s).
  { clear H1 Hs. revert s. induction ms1 as [|m ms1 IH]; intros s; [done|]. simpl.
    unfold bind in *. destruct (m s) as [[] s'|]; [apply IH | done]. }
  rewrite Happ. unfold bind. destruct (block ms1 s) as [[] s'|]; [|done].
  destruct H1 as [HI HR1]. specialize (H2 s' HI).
  destruct (block ms2 s'); destruct H2; split; try done; by etrans.
Qed.
Lemma covers_block_app l1 l2 ms1 ms2 :
  covers l1 (block ms1) -> covers l2 (block ms2) ->
  covers (l1 ++ l2)%list (block (ms1 ++ ms2)%list).
Proof.
  intros H1 H2 I R E HR [Ha1 Ha2]%Forall_app.
  apply triple_block_app; [done | by apply H1 | by apply H2].
Qed.

(** The arms of a chain, all their conditions and bodies. *)
Definition covers_arms (l : list access) (arms : list (cond * list stmt)) : Prop :=
  forall e le, covers le (block e) -> covers (l ++ le)%list (Elif arms e).

Lemma covers_arms_nil : covers_arms [] [].
Proof. intros e le He. exact He. Qed.
Lemma covers_arms_cons l1 l2 l3 c t arms :
  covers l1 c -> covers l2 (block t) -> covers_arms l3 arms ->
  covers_arms (l1 ++ l2 ++ l3)%list ((c, t) :: arms).
Proof.
  intros Hc Ht Ha e le He. simpl. rewrite <- !(assoc_L app).
  apply covers_IfElse; [done..|]. apply covers_block_one. by apply Ha.
Qed.
Lemma Elif_app arms1 arms2 e s : Elif (arms1 ++ arms2)%list e s = Elif arms1 [Elif arms2 e] s.
Proof.
  revert s. induction arms1 as [|[c t] arms1 IH]; intros s; simpl.
  { unfold bind. by destruct (Elif arms2 e s) as [[]|]. }
  unfold IfElse, bind. destruct (c s) as [[] s'|]; [done| |done]. simpl. unfold bind.
  by rewrite IH.
Qed.
Lemma covers_ext {A} l (m m' : M A) : (forall s, m s = m' s) -> covers l m -> covers l m'.
Proof. intros He Hm I R E HR Ha s Hs. rewrite <- He. by apply (Hm I R E HR Ha s Hs). Qed.
Lemma covers_arms_app l1 l2 arms1 arms2 :
  covers_arms l1 arms1 -> covers_arms l2 arms2 -> covers_arms (l1 ++ l2)%list (arms1 ++ arms2)%list.
Proof.
  intros H1 H2 e le He. rewrite <- (assoc_L app).
  eapply covers_ext; [intros s; symmetry; apply Elif_app|].
  apply H1, covers_block_one. by apply H2.
Qed.
Lemma covers_Elif l le arms e :
  covers_arms l arms -> covers le (block e) -> covers (l ++ le)%list (Elif arms e).
Proof. auto. Qed.

(** A condition that asks for the distribution only. *)
Definition dist_test (f : string -> bool) (c : cond) : Prop :=
  forall s d, dist s = Some d -> c s = Ok (f d) s.

Lemma dist_test_IS_DIST x : dist_test (fun d => (d =? x)%string) (IS_DIST x).
Proof. intros s d Hd. unfold IS_DIST. by rewrite Hd. Qed.
Lemma dist_test_orc f g c d :
  dist_test f c -> dist_test g d -> dist_test (fun x => f x || g x) (c ||| d).
Proof.
  intros Hc Hd s x Hx. unfold orc, bind. rewrite (Hc s x Hx). destruct (f x); [done|].
  by rewrite (Hd s x Hx).
Qed.

(** The arms of a chain over the distribution: the test of each arm and the
    accesses of its body. *)
Definition covers_rows (rows : list ((string -> bool) * list access))
    (arms : list (cond * list stmt)) : Prop :=
  Forall2 (fun r a => dist_test r.1 a.1 /\ covers [ADist] a.1 /\ covers r.2 (block a.2)) rows arms.

Lemma covers_rows_nil : covers_rows [] [].
Proof. constructor. Qed.
Lemma covers_rows_cons f l c t rows arms :
  dist_test f c -> covers [ADist] c -> covers l (block t) -> covers_rows rows arms ->
  covers_rows ((f, l) :: rows) ((c, t) :: arms).
Proof. intros. by constructor. Qed.
Lemma covers_rows_app rows1 rows2 arms1 arms2 :
  covers_rows rows1 arms1 -> covers_rows rows2 arms2 ->
  covers_rows (rows1 ++ rows2)%list (arms1 ++ arms2)%list.
Proof. apply Forall2_app. Qed.
Lemma covers_dist_orc c d : covers [ADist] c -> covers [ADist] d -> covers [ADist] (c ||| d).
Proof. intros Hc Hd. eapply covers_incl; [by apply covers_orc | set_solver]. Qed.

Definition rows_accesses (rows : list ((string -> bool) * list access)) : list access :=
  flat_map (fun r => ADist :: r.2) rows.

Lemma covers_rows_arms rows arms : covers_rows rows arms -> covers_arms (rows_accesses rows) arms.
Proof.
  induction 1 as [|[f l] [c t] rows arms (Hf & Hc & Ht) _ IH]; [apply covers_arms_nil|].
  unfold rows_accesses. cbn [flat_map fst snd].
  change (ADist :: l) with ([ADist] ++ l)%list. rewrite <- (assoc_L app). by apply covers_arms_cons.
Qed.

(** The arm a chain takes. *)
Fixpoint pick_row (d : string) (rows : list ((string -> bool) * list access))
    : option (list access) :=
  match rows with
  | [] => None
  | (f, l) :: rows' => if f d then Some l else pick_row d rows'
  end.

Lemma Elif_pick rows arms e d : covers_rows rows arms ->
  exists m, (forall s, dist s = Some d -> Elif arms e s = m s) /\
    match pick_row d rows with
    | Some l => covers l m
    | None => m = block e
    end.
Proof.
  induction 1 as [|[f l] [c t] rows arms (Hf & Hc & Ht) _ (m & Hm & IH)].
  { by exists (block e). }
  cbn [pick_row fst snd] in *. destruct (f d) eqn:Ed.
  - exists (block t). split; [|done]. intros s Hs. cbn [Elif]. unfold IfElse, bind.
    by rewrite (Hf s d Hs), Ed.
  - exists m. split; [|done]. intros s Hs. cbn [Elif]. unfold IfElse, bind.
    rewrite (Hf s d Hs), Ed. cbn [block]. unfold bind. rewrite (Hm s Hs).
    by destruct (m s) as [[]|].
Qed.

Class CoveredArms (arms : list (cond * list stmt)) := {
  arms_rows : list ((string -> bool) * list access);
  arms_rows_cover : covers_rows arms_rows arms }.

(** A rule program with the list of its accesses. *)
Class Covered (m : stmt) := {
  accesses : list access;
  accesses_cover : covers accesses m }.

(** The same for a program with an argument its accesses do not depend on. *)
Class CoveredFun {X A} (f : X -> M A) := {
  fun_accesses : list access;
  fun_cover : forall x, covers fun_accesses (f x) }.
End Covers.
Arguments fun_accesses is_feature_enabled {X A} f {_}.
Arguments fun_cover is_feature_enabled {X A} f {_} x.
Arguments accesses is_feature_enabled m {_}.
Arguments accesses_cover is_feature_enabled m {_}.

Arguments arms_rows is_feature_enabled arms {_}.
Arguments arms_rows_cover is_feature_enabled arms {_}.

Create HintDb rules discriminated.
#[export] Hint Constants Opaque : rules.
#[export] Hint Resolve covers_block_nil covers_block_one covers_notc covers_andc covers_orc
  covers_isset covers_isy covers_get_gt covers_get_eq covers_has_str covers_strz_is covers_str_le
  covers_str_is covers_os_is covers_hw_set covers_evaluation covers_is_gui_selected
  covers_is_dsp_configurable
  covers_IS_DIST covers_conf_err covers_token_set_y covers_token_set covers_token_set_m
  covers_set_args covers_set_copy covers_set_cmd_line covers_enable_module
  covers_select_all_themes covers_set_text covers_set_hw covers_set_hw_NULL covers_set_hw_dist covers_set_os
  covers_IS_HW covers_jpkg_dist_add
  covers_str_eq covers_set_big_endian covers_assert_dep covers_ret covers_test
  covers_token_get covers_token_get_str covers_token_getz : rules.
#[export] Hint Resolve covers_set_format | 10 : rules.

(** A program with an instance of its own. *)
Ltac walk_named :=
  match goal with
  | |- covers ?e _ ?m => let _ := constr:(_ : Covered e m) in eapply accesses_cover
  | |- covers ?e _ (?f ?x) => let _ := constr:(_ : CoveredFun e f) in eapply (fun_cover e f)
  end.
(** Cases other files add to [walk]. *)
Ltac walk_more := fail.
Ltac head_of t := lazymatch t with ?f _ => head_of f | _ => t end.
(** Walks through a rule program and builds the list of its accesses. *)
Ltac walk :=
  lazymatch goal with
  | |- covers _ _ (block (_ :: _ :: _)) => eapply covers_block_cons; [walk | walk]
  | |- covers _ _ (block [_]) => eapply covers_block_one; walk
  | |- covers _ _ (block []) => apply covers_block_nil
  | |- covers _ _ (block (_ ++ _)%list) => eapply covers_block_app; [walk | walk]
  | |- covers _ _ (block ?ms) =>
      let h := head_of ms in is_const h; eapply accesses_cover
  | |- covers _ _ (Elif _ _) => eapply covers_Elif; [walk | walk]
  | |- covers_arms _ _ (_ ++ _)%list => eapply covers_arms_app; [walk | walk]
  | |- covers_arms _ _ ((_, _) :: _) => eapply covers_arms_cons; [walk | walk | walk]
  | |- covers_arms _ _ [] => apply covers_arms_nil
  | |- covers_arms _ _ _ => eapply covers_rows_arms, arms_rows_cover
  | |- covers_rows _ _ (_ ++ _)%list => eapply covers_rows_app; [walk | walk]
  | |- covers_rows _ _ ((_, _) :: _) => eapply covers_rows_cons; [walk | walk | walk | walk]
  | |- covers_rows _ _ [] => apply covers_rows_nil
  | |- covers_rows _ _ _ => eapply arms_rows_cover
  | |- dist_test _ (IS_DIST _) => apply dist_test_IS_DIST
  | |- dist_test _ (orc _ _) => eapply dist_test_orc; [walk | walk]
  | |- covers _ [ADist] (orc _ _) => apply covers_dist_orc; [walk | walk]
  | |- covers _ _ (If _ _) => eapply covers_If; [walk | walk]
  | |- covers _ _ (IfElse _ _ _) => eapply covers_IfElse; [walk | walk | walk]
  | |- covers _ _ (notc _) => eapply covers_notc; walk
  | |- covers _ _ (andc _ _) => eapply covers_andc; [walk | walk]
  | |- covers _ _ (orc _ _) => eapply covers_orc; [walk | walk]
  | |- covers _ _ (IfM _ _ _) => eapply covers_IfM; [walk | walk | walk]
  | |- covers _ _ (bind _ _) => eapply covers_bind; [walk | intros ?; cbv beta; walk]
  | |- covers _ _ (match _ with Some _ => _ | None => _ end) =>
      eapply covers_option; [intros ?; cbv beta; walk | walk]
  | |- covers _ _ (match ?p with (_, _) => _ end) => destruct p; walk
  | |- covers _ _ (let _ := _ in _) => cbv zeta beta; walk
  | |- covers _ _ (if _ then _ else _) => eapply covers_if; [walk | walk]
  | |- covers _ _ _ =>
      first [solve [eauto 2 with rules nocore] | walk_more | walk_named]
  end.

(** Finds the accesses of a named piece. *)
Ltac cover_piece :=
  lazymatch goal with
  | |- CoveredArms _ ?arms =>
      let h := head_of arms in eapply Build_CoveredArms; unfold h; walk
  | |- Covered _ (block ?ms) => let h := head_of ms in eapply Build_Covered; unfold h; walk
  | |- Covered _ ?m => let h := head_of m in eapply Build_Covered; unfold h; walk
  | |- CoveredFun _ ?f => let h := head_of f in eapply Build_CoveredFun; intros ?; unfold h; walk
  end.
