(* ===== verification/HostOps.v ===== *)
(** * HostOps: what the host configuration is written in

    The build host as config_host.c sees it, its [static] strings, and its idioms:
    [token_set] with texts made at run time, commands run through [sys_get]
    (create_config.c), and the flags gathered in a [char *] with [str_catprintf].
    A command answers by its text alone: config_host runs no command twice, and
    the one file it writes is named in the command that reads it. *)
From S2P Require Import Prelude Text ConfigOpt StrUtil Licence Rules.

Definition CONFIG_HOST_C : string := "config_host.c".

(** ** The host *)
Record host := mk_host {
  getenv : string -> option string;
  shell : string -> string * Z;       (** what a command prints, what [pclose] returns *)
  stat : string -> bool;              (** the call returns 0 *)
  lstat : string -> bool }.

(** [static char *BUILDDIR, *RGSRC, *CCACHE, *TOOLS_PREFIX, *TOOLCHAIN_ROOT, *PATH;] *)
Record statics := mk_statics {
  BUILDDIR : option string;
  RGSRC : option string;
  CCACHE : option string;
  TOOLS_PREFIX : option string;
  TOOLCHAIN_ROOT : option string;
  PATH : option string }.

Definition set_CCACHE (x : option string) (g : statics) : statics :=
  mk_statics (BUILDDIR g) (RGSRC g) x (TOOLS_PREFIX g) (TOOLCHAIN_ROOT g) (PATH g).
Definition set_TOOLS_PREFIX (x : option string) (g : statics) : statics :=
  mk_statics (BUILDDIR g) (RGSRC g) (CCACHE g) x (TOOLCHAIN_ROOT g) (PATH g).
Definition set_TOOLCHAIN_ROOT (x : option string) (g : statics) : statics :=
  mk_statics (BUILDDIR g) (RGSRC g) (CCACHE g) (TOOLS_PREFIX g) x (PATH g).
Definition set_PATH (x : option string) (g : statics) : statics :=
  mk_statics (BUILDDIR g) (RGSRC g) (CCACHE g) (TOOLS_PREFIX g) (TOOLCHAIN_ROOT g) x.

(** ** Arguments of a format: a string, a [char *] that may be NULL,
    [token_get_str(tok)], [token_getz(tok)]. *)
Inductive harg :=
| Str (s : string)
| Ptr (p : option string)
| Get (tok : string)
| Getz (tok : string).

Definition eval_harg (a : harg) : M (option string) :=
  match a with
  | Str s => ret (Some s)
  | Ptr p => ret p
  | Get tok => token_get_str tok
  | Getz tok => v <- token_get_str tok;; ret (Some (default "" v))
  end.
Fixpoint eval_hargs (l : list harg) : M (list (option string)) :=
  match l with
  | [] => ret []
  | a :: l' => v <- eval_harg a;; vs <- eval_hargs l';; ret (v :: vs)
  end.

(** A pointer that must not be NULL. *)
Definition nonnull (why : string) (p : option string) : M string :=
  match p with Some s => ret s | None => conf_err (Undefined why) end.

(** ** token_set *)

(** [token_set(tok, fmt, args...)] *)
Definition set_printf (l : Z) (tok fmt : string) (args : list harg) : stmt :=
  vs <- eval_hargs args;; _token_set CONFIG_HOST_C l SET_PRIO_TOKEN_SET tok fmt vs.
(** [token_set(tok, p)]: what [p] points to is the format. *)
Definition set_ptr (l : Z) (tok : string) (p : option string) : stmt :=
  fmt <- nonnull "vsnprintf" p;; _token_set CONFIG_HOST_C l SET_PRIO_TOKEN_SET tok fmt [].

(** ** Formatting into a string *)

(** [str_catprintf(&f, fmt, args...)] and [str_printf(&f, fmt, args...)], as steps
    on the pointer [f]. *)
Definition catprintf (fmt : string) (args : list harg) (f : option string) : M (option string) :=
  vs <- eval_hargs args;;
  match str_catprintf f fmt vs with
  | Some t => ret (Some t)
  | None => conf_err (Undefined "format")
  end.
Definition printf_to (fmt : string) (args : list harg) (f : option string) : M (option string) :=
  vs <- eval_hargs args;;
  match str_printf f fmt vs with
  | Some t => ret (Some t)
  | None => conf_err (Undefined "format")
  end.

(** Statements that work on [f]. *)
Abbreviation gather := (option string -> M (option string)).
Fixpoint gathers (l : list gather) : gather := fun f =>
  match l with
  | [] => ret f
  | m :: l' => f <- m f;; gathers l' f
  end.
Definition CatIfElse (c : cond) (t e : list gather) : gather := fun f =>
  IfM c (gathers t f) (gathers e f).
Definition CatIf (c : cond) (t : list gather) : gather := CatIfElse c t [].
(** A statement that leaves [f] alone. *)
Definition also (m : stmt) : gather := fun f => m;;; ret f.

(** [sprintf] into [char buf[256]]. *)
Definition sprintf_256 (fmt : string) (args : list harg) : M string :=
  vs <- eval_hargs args;;
  match format fmt vs with
  | Some t => if (Z.of_nat (String.length t) <? 256) then ret t else conf_err (Undefined "sprintf")
  | None => conf_err (Undefined "format")
  end.

(** ** Text helpers: the functions of str.c on a string of their own *)
Definition in_place (f : option buffer -> option buffer) (s : string) : M string :=
  nonnull "str" (f (Some (strdup s)) ≫= text).

(** [if ((bn = strchr(s, c))) *bn = 0]. *)
Definition cut_at (c : Ascii.ascii) (s : string) : string := (span (fun x => negb (Ascii.eqb x c)) s).1.
(** [strrchr(s, c)]: the text before the last [c], and from it on. *)
Fixpoint strrchr (c : Ascii.ascii) (s : string) : option (string * string) :=
  match s with
  | EmptyString => None
  | String x s' =>
      match strrchr c s' with
      | Some (a, b) => Some (String x a, b)
      | None => if Ascii.eqb x c then Some (EmptyString, s) else None
      end
  end.

Section Host.
Context (h : host).

(** ** Commands *)

(** create_config.c's [sys_get]: the output and the value of [pclose]; [popen] is
    taken to succeed. *)
Definition sys_get (fmt : string) (args : list harg) : M (string * Z) :=
  vs <- eval_hargs args;;
  match str_printf None fmt vs with
  | Some cmd => ret (shell h cmd)
  | None => conf_err (Undefined "format")
  end.
(** [sys_exec(cmd)] hands its command to [sys_get] as the format. *)
Definition sys_exec (cmd : string) : M Z := r <- sys_get cmd [];; ret r.2.
(** [sys_get(&ret, *str_printf(&t, fmt, args...))]: the text is the format again. *)
Definition sys_getf (fmt : string) (args : list harg) : M (string * Z) :=
  t <- printf_to fmt args None;;
  cmd <- nonnull "str_printf" t;;
  sys_get cmd [].
(** [sys_exec( *str_printf(&t, fmt, args...))] *)
Definition sys_execf (fmt : string) (args : list harg) : M Z :=
  r <- sys_getf fmt args;; ret r.2.
End Host.

(** ** The accesses *)
Definition harg_accesses (a : harg) : list access :=
  match a with Str _ | Ptr _ => [] | Get t | Getz t => [AStr t] end.

Section Covers.
Context (enabled : string -> bool).
#[local] Abbreviation covers := (covers enabled).

Lemma covers_eval_hargs args : covers (flat_map harg_accesses args) (eval_hargs args).
Proof.
  induction args as [|a args IH]; [apply covers_ret|]. cbn [flat_map eval_hargs].
  apply covers_bind; [|intros v; apply covers_bind_pure; [exact IH | intros; apply covers_ret]].
  destruct a; cbn; [apply covers_ret | apply covers_ret | apply covers_token_get_str |].
  apply covers_bind_pure; [apply covers_token_get_str | intros; apply covers_ret].
Qed.
(** Arguments, then a text that may not format. *)
Lemma covers_formatted {A} l args (k : list (option string) -> M A) :
  (forall vs, covers l (k vs)) ->
  covers (flat_map harg_accesses args ++ l)%list (vs <- eval_hargs args;; k vs).
Proof. intros Hk. apply covers_bind; [apply covers_eval_hargs | done]. Qed.
Lemma covers_or_format {A B} l (o : option A) (k : A -> M B) e :
  (forall x, covers l (k x)) ->
  covers (l ++ [AErr e])%list (match o with Some x => k x | None => conf_err e end).
Proof. intros Hk. apply covers_option; [done | apply covers_conf_err]. Qed.

Lemma covers_set_printf l t fmt args :
  covers (flat_map harg_accesses args ++ [AText t])%list (set_printf l t fmt args).
Proof. apply covers_formatted. intros vs. apply covers_set_format. Qed.
Lemma covers_nonnull why p : covers [AErr (Undefined why)] (nonnull why p).
Proof. apply (covers_or_format []). intros. apply covers_ret. Qed.
Lemma covers_set_ptr l t p : covers [AErr (Undefined "vsnprintf"); AText t] (set_ptr l t p).
Proof.
  change ([?a; ?b]) with ([a] ++ [b])%list.
  apply covers_bind; [apply covers_nonnull | intros; apply covers_set_format].
Qed.
Definition text_accesses (args : list harg) : list access :=
  (flat_map harg_accesses args ++ [AErr (Undefined "format")])%list.
Lemma covers_catprintf fmt args f : covers (text_accesses args) (catprintf fmt args f).
Proof. apply covers_formatted. intros. apply (covers_or_format []). intros. apply covers_ret. Qed.
Lemma covers_printf_to fmt args f : covers (text_accesses args) (printf_to fmt args f).
Proof. apply covers_formatted. intros. apply (covers_or_format []). intros. apply covers_ret. Qed.
Lemma covers_sprintf_256 fmt args :
  covers (flat_map harg_accesses args ++ [AErr (Undefined "sprintf"); AErr (Undefined "format")])%list
    (sprintf_256 fmt args).
Proof.
  apply covers_formatted. intros vs. apply (covers_or_format [_]). intros t.
  apply (covers_if _ []); [apply covers_ret | apply covers_conf_err].
Qed.
Lemma covers_in_place f s : covers [AErr (Undefined "str")] (in_place f s).
Proof. apply covers_nonnull. Qed.
Lemma covers_sys_get h fmt args : covers (text_accesses args) (sys_get h fmt args).
Proof. apply covers_formatted. intros. apply (covers_or_format []). intros. apply covers_ret. Qed.
Lemma covers_sys_exec h cmd : covers [AErr (Undefined "format")] (sys_exec h cmd).
Proof. apply covers_bind_pure; [apply (covers_sys_get h cmd []) | intros; apply covers_ret]. Qed.
Definition command_accesses (args : list harg) : list access :=
  (text_accesses args ++ [AErr (Undefined "str_printf")] ++ [AErr (Undefined "format")])%list.
Lemma covers_sys_getf h fmt args : covers (command_accesses args) (sys_getf h fmt args).
Proof.
  apply covers_bind; [apply covers_printf_to|]. intros t.
  apply covers_bind; [apply covers_nonnull | intros cmd; apply (covers_sys_get h cmd [])].
Qed.
Lemma covers_sys_execf h fmt args : covers (command_accesses args) (sys_execf h fmt args).
Proof. apply covers_bind_pure; [apply covers_sys_getf | intros; apply covers_ret]. Qed.

Lemma covers_gathers_nil f : covers [] (gathers [] f).
Proof. apply covers_ret. Qed.
Lemma covers_gathers_cons l1 l2 m ms f :
  covers l1 (m f) -> (forall f', covers l2 (gathers ms f')) -> covers (l1 ++ l2)%list (gathers (m :: ms) f).
Proof. intros. by apply covers_bind. Qed.
Lemma covers_CatIfElse l1 l2 l3 c t e f :
  covers l1 c -> covers l2 (gathers t f) -> covers l3 (gathers e f) ->
  covers (l1 ++ l2 ++ l3)%list (CatIfElse c t e f).
Proof. apply covers_IfM. Qed.
Lemma covers_CatIf l1 l2 c t f :
  covers l1 c -> covers l2 (gathers t f) -> covers (l1 ++ l2)%list (CatIf c t f).
Proof.
  intros Hc Ht. rewrite <- (app_nil_r l2). apply covers_CatIfElse; [done..|apply covers_gathers_nil].
Qed.
Lemma covers_same {A} l l' (m : M A) : covers l m -> l = l' -> covers l' m.
Proof. by intros ? <-. Qed.
Lemma covers_also l m f : covers l m -> covers l (also m f).
Proof. intros. apply covers_bind_pure; [done | intros; apply covers_ret]. Qed.
End Covers.

#[export] Hint Resolve covers_set_ptr covers_nonnull covers_in_place covers_sys_exec covers_gathers_nil
  : rules.

(** The lists of the statements with arguments are evaluated, so that they do not
    mention the pointers among the arguments. *)
Create HintDb host_args discriminated.
#[export] Hint Constants Opaque : host_args.
#[export] Hint Resolve covers_set_printf covers_catprintf covers_printf_to covers_sprintf_256
  covers_sys_get covers_sys_getf covers_sys_execf : host_args.

Ltac walk_more ::=
  lazymatch goal with
  | |- covers _ _ (gathers (_ :: _) _) => eapply covers_gathers_cons; [cbv beta; walk | intros ?; walk]
  | |- covers _ _ (CatIfElse _ _ _ _) => eapply covers_CatIfElse; [walk | walk | walk]
  | |- covers _ _ (CatIf _ _ _) => eapply covers_CatIf; [walk | walk]
  | |- covers _ _ (also _ _) => eapply covers_also; walk
  | |- covers _ _ _ =>
      eapply covers_same; [solve [eauto 2 with host_args nocore] |
        cbn [flat_map harg_accesses text_accesses command_accesses app]; reflexivity]
  end.
