(* ===== verification/ConfigHost.v ===== *)
(** * ConfigHost: the host configuration

    pkg/build/config_host.c, function by function: what the build host has, the
    tool chain of the target, the libraries, the flags of the compilers.  The
    static strings are passed along as [statics]; a function that changes one
    returns them.  Messages on stdout and stderr that do not stop the program are
    left out.  The number after [set_printf] and [token_set] is the source line
    the macro passes on. *)
From S2P Require Import Prelude Text ConfigOpt StrUtil Licence Rules HostOps.

Abbreviation token_set L tok v := (_token_set CONFIG_HOST_C L SET_PRIO_TOKEN_SET tok v []).
Abbreviation token_set_y := (_token_set_y CONFIG_HOST_C).
Abbreviation fails m := (conf_err (HostErr m)).

Section ConfigHost.
Context (h : host).

(** config_host.c:75-96 *)
Definition conf_ostype : stmt :=
  ostype <- sys_get h "echo $OSTYPE" [];;
  block [
    If (test (nz ostype.2)) [fails "$OSTYPE not defined"];
    Elif [
      (test (ostype.1 =? "cygwin")%string, [
        token_set_y 88 "CONFIG_RG_HOST_CYGWIN";
        token_set_y 89 "CONFIG_RG_WINDOWS_HOST" ]);
      (test (strncmp ostype.1 "linux" 5 =? 0), [
        token_set_y 92 "CONFIG_RG_HOST_LINUX" ]) ]
    [ fails "OS not supported ($OSTYPE)" ] ].

(** config_host.c:98-105 *)
Definition conf_os_path : stmt := block [
  IfElse (isset "CONFIG_WINDOWS_HOST") [
    token_set 102 "OS_PATH" (quoted "$(shell cygpath -w $(1))") ] [
    token_set 104 "OS_PATH" "$(1)" ] ].

(** config_host.c:107-152 *)
Definition conf_endian_flags : stmt :=
  t <- token_get_str "TARGET_ENDIANESS";;
  match t with
  | Some t => block [
      Elif [
        (test (t =? "BIG")%string, [
          token_set 116 "ENDIAN_LDFLAGS" "-EB";
          Elif [
            (isset "CONFIG_CPU_XSCALE" ||| isset "CONFIG_CPU_ARM926T", [
              token_set 118 "ENDIAN_CFLAGS" "-mbig-endian" ]);
            (isset "CONFIG_CPU_MIPS32" ||| isset "CONFIG_CPU_LX4189", [
              IfElse (isset "CONFIG_RG_OS_VXWORKS") [
                token_set 122 "ENDIAN_CFLAGS" "-EB" ] [
                token_set 124 "ENDIAN_CFLAGS" "-meb" ] ]);
            (isset "CONFIG_SIBYTE_SB1250", [
              token_set 127 "ENDIAN_CFLAGS" "-meb" ]) ]
          [ token_set 129 "ENDIAN_CFLAGS" "-mbig-endian" ] ]);
        (test (t =? "LITTLE")%string, [
          If (notc (isset "CONFIG_M386") &&& isset "CONFIG_RG_OS_LINUX_24") [
            token_set 134 "ENDIAN_LDFLAGS" "-EL" ];
          Elif [
            (isset "CONFIG_CPU_XSCALE" ||| isset "CONFIG_CPU_ARM926T", [
              token_set 136 "ENDIAN_CFLAGS" "-mlittle-endian" ]);
            (isset "CONFIG_CPU_MIPS32", [
              IfElse (isset "CONFIG_RG_OS_VXWORKS") [
                token_set 140 "ENDIAN_CFLAGS" "-EL" ] [
                token_set 142 "ENDIAN_CFLAGS" "-mel" ] ]);
            (notc (isset "CONFIG_M386") &&& isset "CONFIG_RG_OS_LINUX_24", [
              token_set 147 "ENDIAN_CFLAGS" "-mlittle-endian" ]) ]
          [] ]) ]
      [ fails "Illegal TARGET_ENDIANESS" ] ]
  | None => fails "Can't find TARGET_ENDIANESS"
  end.

(** config_host.c:154-162 *)
Definition conf_toolchain (g : statics) : M statics :=
  root <- catprintf "/usr/local/openrg" [] (TOOLCHAIN_ROOT g);;
  set_printf 158 "TOOLCHAIN_ROOT" "%s" [Ptr root];;;
  token_set 159 "I386_TARGET_MACHINE" "i386-jungo-linux-gnu";;;
  set_printf 160 "I386_TOOLS_PREFIX" "%s/%s" [Ptr root; Get "I386_TARGET_MACHINE"];;;
  ret (set_TOOLCHAIN_ROOT root g).

(** config_host.c:164-258 *)
Definition conf_target_machine : stmt := block [
  If (notc (has_str "ARCH")) [fails "conf_target_machine: Error: ARCH not defined."];
  If (str_is "ARCH" "i386" ||| str_is "ARCH" "um") [
    set_copy CONFIG_HOST_C 175 "TARGET_MACHINE" "I386_TARGET_MACHINE" ];
  If (isset "CONFIG_BCM963XX" ||| isset "CONFIG_INCAIP") [
    IfElse (isset "CONFIG_RG_OS_LINUX_26") [
      token_set 180 "TARGET_MACHINE" "mipseb-broadcom-linux-uclibc" ] [
      token_set 182 "TARGET_MACHINE" "mipseb-jungo-linux-gnu" ] ];
  If (isset "CONFIG_BCM947XX" ||| isset "CONFIG_ADM5120_COMMON") [
    token_set 185 "TARGET_MACHINE" "mipsel-jungo-linux-gnu" ];
  If (isset "CONFIG_ARMNOMMU") [
    If (isset "CONFIG_RG_OS_LINUX") [
      token_set 189 "TARGET_MACHINE" "arm-jungo-linux-gnu" ];
    If (isset "CONFIG_RG_OS_VXWORKS") [
      token_set 191 "TARGET_MACHINE" "arm-little-coff" ] ];
  If (isset "CONFIG_SL2312_COMMON") [
    token_set 196 "TARGET_MACHINE" "arm_920t_le" ];
  If (isset "CONFIG_STRONGARM") [
    Elif [
      (notc (isset "CONFIG_RG_OLD_XSCALE_TOOLCHAIN"), [
        token_set 201 "TARGET_MACHINE" "armv5b-jungo-linux-gnu" ]);
      (strz_is "TARGET_ENDIANESS" "LITTLE", [
        fails "No little endian strong arm support yet" ]) ]
    [ token_set 207 "TARGET_MACHINE" "armv4b-hardhat-linux" ] ];
  If (isset "CONFIG_CX8620X" ||| isset "CONFIG_KS8695" ||| isset "CONFIG_ARCH_SOLOS") [
    token_set 213 "TARGET_MACHINE" "armv5l-jungo-linux-gnu" ];
  If (isset "CONFIG_COMCERTO") [
    token_set 218 "TARGET_MACHINE" "armv4l-jungo-linux-gnu";
    token_set 219 "TARGET_PREFIX" "armv5l-jungo-linux-gnu" ];
  If (isset "CONFIG_RG_OS_VXWORKS") [
    If (isset "CONFIG_I386_BOCHS") [
      token_set 225 "TARGET_MACHINE" "i386-aout" ];
    If (isset "CONFIG_ATHEROS_AR531X_MIPS") [
      token_set 227 "TARGET_MACHINE" "mips-elf" ];
    If (isset "CONFIG_TI_404_MIPS") [
      token_set 229 "TARGET_MACHINE" "mips-elf" ] ];
  If (isset "CONFIG_PPC") [
    token_set 232 "TARGET_MACHINE" "powerpc-jungo-linux-gnu" ];
  If (isset "CONFIG_INFINEON_TWINPASS") [
    token_set 235 "TARGET_MACHINE" "mips-linux-uclibc" ];
  If (isset "CONFIG_CPU_LX4189") [
    IfElse (isset "CONFIG_RG_OS_LINUX_26") [
      token_set 240 "TARGET_MACHINE" "mips-linux-uclibc" ] [
      token_set 243 "TARGET_MACHINE" "lx4189-kenati-linux";
      token_set 244 "TARGET_PREFIX" "lx4189-uclibc" ] ];
  If (isset "CONFIG_SIBYTE_SB1250") [
    Elif [
      (isset "CONFIG_RG_OS_LINUX_26", [
        token_set 251 "TARGET_MACHINE" "mips-jungo_sb1_soft-linux-gnu" ]);
      (isset "CONFIG_RG_OS_LINUX_24", [
        token_set 253 "TARGET_MACHINE" "mipseb-jungo-linux-gnu" ]) ]
    [] ];
  If (notc (has_str "TARGET_PREFIX")) [
    set_copy CONFIG_HOST_C 257 "TARGET_PREFIX" "TARGET_MACHINE" ] ].

(** config_host.c:260-339 *)
Definition NEEDED_PPC_TOOLCHAIN_VER : Z := 20060801.

Definition conf_tools_prefix (g : statics) : M statics :=
  p <- token_get_str "TOOLS_PREFIX";;
  p <- match p with
       | Some _ => ret p
       | None =>
           p <- gathers [
             CatIf (isset "CONFIG_ARMNOMMU" &&& isset "CONFIG_RG_OS_VXWORKS") [
               catprintf "%s/vx_%s" [Ptr (TOOLCHAIN_ROOT g); Get "ARCH"] ];
             CatIf (isset "CONFIG_STRONGARM" &&& isset "CONFIG_RG_OLD_XSCALE_TOOLCHAIN") [
               catprintf "%s/%s%s/" [Ptr (TOOLCHAIN_ROOT g); Get "ARCH"; Get "ENDIANESS_SUFFIX"] ];
             CatIf (isset "CONFIG_TI_404_MIPS" &&& isset "CONFIG_RG_OS_VXWORKS") [
               catprintf "%s/vx_%s_323" [Ptr (TOOLCHAIN_ROOT g); Get "ARCH"] ];
             CatIf (isset "CONFIG_ATHEROS_AR531X_MIPS" &&& isset "CONFIG_RG_OS_VXWORKS") [
               catprintf "%s/vx_%s_323" [Ptr (TOOLCHAIN_ROOT g); Get "ARCH"] ];
             CatIf (isset "CONFIG_I386_BOCHS" &&& isset "CONFIG_RG_OS_VXWORKS") [
               catprintf "%s/vx_%s" [Ptr (TOOLCHAIN_ROOT g); Get "ARCH"] ];
             CatIf (isset "CONFIG_CX8620X" ||| isset "CONFIG_COMCERTO" ||| isset "CONFIG_KS8695" |||
                    isset "CONFIG_ARCH_SOLOS") [
               catprintf "%s/%s-2" [Ptr (TOOLCHAIN_ROOT g); Get "TARGET_PREFIX"] ];
             CatIf (isset "CONFIG_INFINEON_TWINPASS") [
               catprintf "%s/%s-eb" [Ptr (TOOLCHAIN_ROOT g); Get "TARGET_PREFIX"] ];
             (fun p => CatIf (test (bool_decide (p = None))) [
               catprintf "%s/%s" [Ptr (TOOLCHAIN_ROOT g); Get "TARGET_PREFIX"] ] p) ] None;;
           set_printf 316 "TOOLS_PREFIX" "%s" [Ptr p];;;
           ret p
       end;;
  path <- token_get_str "TOOLS_PREFIX";;
  block [
    If (test (negb (from_option (stat h) false path))) [fails "Cannot find toolchain"];
    If (isset "CONFIG_PPC") [
      tc_ver <- sys_getf h "cat %s/version" [Get "TOOLS_PREFIX"];;
      If (test (atoi tc_ver.1 <? NEEDED_PPC_TOOLCHAIN_VER)) [
        fails "Installed powerpc toolchain version" ] ];
    set_printf 337 "CROSS_COMPILE" "%s/bin/%s-" [Get "TOOLS_PREFIX"; Get "TARGET_PREFIX"] ];;;
  ret (set_TOOLS_PREFIX p g).

(** The two libraries, named by their options. *)
Inductive libc := GLIBC | ULIBC.
Definition libc_name (c : libc) : string :=
  match c with GLIBC => "CONFIG_GLIBC" | ULIBC => "CONFIG_ULIBC" end.
#[export] Instance libc_eq_dec : EqDecision libc.
Proof. solve_decision. Defined.

(** config_host.c:341-379 *)
Record libc_scan := mk_libc_scan {
  libc_prefix : string;
  major_from : Z; major_to : Z;
  minor_from : Z; minor_to : Z;
  build_from : Z; build_to : Z;
  libc_token : libc }.
Definition libcs : list libc_scan := [
  mk_libc_scan "libc-" 2 2 1 3 0 9 GLIBC;
  mk_libc_scan "libuClibc-" 0 0 9 9 20 40 ULIBC ].

(** [for (x = l[0]; ...) if ((r = f(x))) return r;] *)
Fixpoint scan {A B} (l : list A) (f : A -> option B) : option B :=
  match l with
  | [] => None
  | x :: l' => match f x with Some r => Some r | None => scan l' f end
  end.
(** The values of [for (x = from; x <= to; x++)]. *)
Definition upto (from to : Z) : list Z := seqZ from (to - from + 1).

(** "%s/%s/lib/%s%d.%d.%d.so" *)
Definition libc_file (prefix machine : option string) (libc : libc_scan) (major minor build : Z)
    : string :=
  default "(null)" prefix +:+ "/" +:+ default "(null)" machine +:+ "/lib/" +:+ libc_prefix libc +:+
  print_int major +:+ "." +:+ print_int minor +:+ "." +:+ print_int build +:+ ".so".

(** The token of the first libc found, and its path. *)
Definition libc_scans (prefix machine : option string) : option (libc * string) :=
  scan libcs (fun libc =>
    scan (upto (major_from libc) (major_to libc)) (fun major =>
      scan (upto (minor_from libc) (minor_to libc)) (fun minor =>
        scan (upto (build_from libc) (build_to libc)) (fun build =>
          let libc_path := libc_file prefix machine libc major minor build in
          if lstat h libc_path then Some (libc_token libc, libc_path) else None)))).
Definition libc_detect (g : statics) : M (option (libc * string)) :=
  machine <- token_get_str "TARGET_MACHINE";;
  ret (libc_scans (TOOLS_PREFIX g) machine).

(** config_host.c:381-502 *)
Definition libc_default : libc := ULIBC.
Definition set_libc (l : Z) (c : libc) : stmt := _token_set_y CONFIG_HOST_C l (libc_name c).

(** [if (!strcmp(l, "CONFIG_GLIBC")) token_set_y("GLIBC_IN_TOOLCHAIN") else ...] *)
Definition libc_in_toolchain (c : libc) (lg lu : Z) : stmt :=
  IfElse (test (bool_decide (c = GLIBC))) [
    token_set_y lg "GLIBC_IN_TOOLCHAIN" ] [
    token_set_y lu "ULIBC_IN_TOOLCHAIN" ].

(** With a libc chosen, and the one found. *)
Definition conf_libc_given (libc_config : libc) (libc_detected : option libc) : stmt :=
  match libc_detected with
  | None => ret tt
  | Some detected =>
      IfElse (test (negb (bool_decide (libc_config = detected)))) [
        If (strz_is "LIBC_IN_TOOLCHAIN" "y") [
          fails "Autodetected precompiled LIBC version is not the specified one" ] ] [
        token_set_y 457 "LIBC_IN_TOOLCHAIN";
        libc_in_toolchain libc_config 462 464 ]
  end.
(** With none chosen. *)
Definition conf_libc_free (libc_detected : option libc) : stmt :=
  match libc_detected with
  | None =>
      IfElse (strz_is "LIBC_IN_TOOLCHAIN" "y") [
        fails "Failed to detect precompiled LIBC version in toolchain" ] [
        set_libc 481 libc_default ]
  | Some detected => block [
      set_libc 489 detected;
      token_set_y 490 "LIBC_IN_TOOLCHAIN";
      libc_in_toolchain detected 495 497 ]
  end.

Definition conf_libc (g : statics) : stmt :=
  IfElse (isset "CONFIG_RG_NOT_UNIX") [] [
    IfElse (isset "CONFIG_ULIBC" &&& isset "CONFIG_GLIBC") [
      If (notc (isset "CONFIG_RG_JPKG_BIN")) [
        fails "Both 'CONFIG_ULIBC' and 'CONFIG_GLIBC'" ] ] [
      libc_config <- IfM (isset "CONFIG_ULIBC" ||| isset "CONFIG_GLIBC")
        (IfM (isset "CONFIG_ULIBC") (ret (Some ULIBC)) (ret (Some GLIBC))) (ret None);;
      IfElse (strz_is "LIBC_IN_TOOLCHAIN" "n") [
        match libc_config with
        | None => set_libc 414 libc_default
        | Some _ => ret tt
        end ] [
        found <- libc_detect g;;
        match libc_config with
        | Some config => conf_libc_given config (fst <$> found)
        | None => conf_libc_free (fst <$> found)
        end ] ] ].

(** config_host.c:504-539 *)
Definition conf_ccache (g : statics) : M statics :=
  ccache <- token_getz "CONFIG_RG_CCACHE";;
  let none := set_CCACHE (Some "") g in
  let use ccache :=
    s <- sys_get h ccache [];;
    block [ If (test (bool_decide (strstr s.1 "ccache" = None))) [fails "failed executing ccache"] ];;;
    p <- printf_to "%s " [Str ccache] (Some "");;
    ret (set_CCACHE p g) in
  if (ccache =? "n")%string then ret none
  else if (ccache =? "")%string || (ccache =? "y")%string then
    r <- sys_get h "which ccache" [];;
    ccache <- in_place str_trim r.1;;
    if nz r.2 || str_isempty (Some ccache) then ret none else use ccache
  else use ccache.

(** config_host.c:541-569 *)
Definition conf_cc (g : statics) : stmt := block [
  set_printf 544 "CC" "%s/pkg/build/rg_gcc" [Ptr (BUILDDIR g)];
  If (isset "CONFIG_RG_OS_VXWORKS") [
    IfElse (isset "CONFIG_WINDOWS_HOST") [
      set_printf 550 "CC" "%s%s/bin/cc%s" [Ptr (CCACHE g); Ptr (TOOLS_PREFIX g); Get "ARCH"] ] [
      set_printf 555 "CC" "%s%s/bin/%s-gcc"
        [Ptr (CCACHE g); Ptr (TOOLS_PREFIX g); Get "TARGET_PREFIX"] ] ];
  set_printf 561 "CPP" "%s -E" [Get "CC"];
  IfElse (isset "CONFIG_UCLIBCXX") [
    set_printf 563 "CXX" "%s/pkg/uclibc++/bin/g++-uc" [Ptr (BUILDDIR g)] ] [
    set_printf 566 "CXX" "%s%s/bin/%s-g++"
      [Ptr (CCACHE g); Ptr (TOOLS_PREFIX g); Get "TARGET_PREFIX"] ] ].

(** config_host.c:571-610 *)
Definition conf_cc_for_build (g : statics) : stmt :=
  local <- IfM (isset "CONFIG_RG_USE_LOCAL_TOOLCHAIN")
    (cc <- sys_get h "which cc" [];;
     gcc <- (if str_isempty (Some cc.1) then
               r <- sys_get h "which gcc" [];;
               block [ If (test (str_isempty (Some r.1))) [
                 fails "internal error - failed locating cc or gcc" ] ];;;
               ret r.1
             else ret cc.1);;
     local_gcc <- in_place str_trim gcc;;
     gxx <- sys_get h "which g++" [];;
     block [ If (test (str_isempty (Some gxx.1))) [fails "internal error - failed locating g++"] ];;;
     local_cxx <- in_place str_trim gxx.1;;
     ret (Some local_gcc, Some local_cxx))
    (local_gcc <- printf_to "%s/bin/i386-jungo-linux-gnu-gcc" [Get "I386_TOOLS_PREFIX"] None;;
     local_cxx <- printf_to "%s/bin/i386-jungo-linux-gnu-g++" [Get "I386_TOOLS_PREFIX"] None;;
     ret (local_gcc, local_cxx));;
  block [
    set_printf 600 "CC_FOR_BUILD" "%s%s -DCC_FOR_BUILD -I%s/pkg/include -DCONFIG_HAS_MMU"
      [Ptr (CCACHE g); Ptr local.1; Ptr (BUILDDIR g)];
    set_printf 604 "CXX_FOR_BUILD" "%s%s -DCC_FOR_BUILD -I%s/pkg/include -DCONFIG_HAS_MMU"
      [Ptr (CCACHE g); Ptr local.2; Ptr (BUILDDIR g)] ].

(** config_host.c:612-633 *)
Definition conf_target_cc (g : statics) : stmt := block [
  set_printf 616 "TARGET_CC" "%s%s/bin/%s-gcc" [Ptr (CCACHE g); Ptr (TOOLS_PREFIX g); Get "TARGET_PREFIX"];
  set_printf 619 "TARGET_CPP" "%s%s/bin/%s-gcc -E" [Ptr (CCACHE g); Ptr (TOOLS_PREFIX g); Get "TARGET_PREFIX"];
  set_printf 622 "TARGET_CXX" "%s%s/bin/%s-g++" [Ptr (CCACHE g); Ptr (TOOLS_PREFIX g); Get "TARGET_PREFIX"];
  set_printf 625 "REAL_GCC" "%s" [Get "TARGET_CC"];
  r <- sys_execf h "%s --version" [Get "TARGET_CC"];;
  If (test (nz r)) [fails "Cannot find cross-compiler for target"] ].

(** config_host.c:635-667 *)
Definition conf_gcc_version : stmt :=
  gcc <- token_get_str "TARGET_CC";;
  ver <- sys_get h "%s -dumpversion" [Ptr gcc];;
  libgcc <- sys_get h "%s -print-libgcc-file-name" [Ptr gcc];;
  let ver := cut_at "010" ver.1 in
  block [ set_ptr 648 "GCC_VERSION" (Some ver) ];;;
  match strrchr "/" (cut_at "010" libgcc.1) with
  | Some (dir, file) =>
      IfElse (test (file =? "/libgcc.a")%string) [
        set_ptr 660 "LIB_GCC_DIR_PREFIX" (Some dir) ] [
        fails "Cannot configure LIB_GCC_DIR_PREFIX" ]
  | None => fails "Cannot configure LIB_GCC_DIR_PREFIX"
  end.

(** config_host.c:669-693 *)
Definition conf_host_tools (g : statics) : stmt :=
  windows <- isset "CONFIG_WINDOWS_HOST";;
  postfix <- (if (windows : bool) then sprintf_256 "i386" [] else ret "");;
  prefix <- (if (windows : bool) then sprintf_256 "%s/bin/" [Ptr (TOOLS_PREFIX g)]
             else IfM (notc (isset "CONFIG_RG_USE_LOCAL_TOOLCHAIN"))
                    (sprintf_256 "%s/bin/i386-jungo-linux-gnu-" [Get "I386_TOOLS_PREFIX"]) (ret ""));;
  block [
    set_printf 684 "HOST_AR" "%sar%s" [Str prefix; Str postfix];
    set_printf 685 "HOST_LD" "%sld%s" [Str prefix; Str postfix];
    set_printf 686 "HOST_AS" "%sas%s" [Str prefix; Str postfix];
    set_printf 687 "HOST_NM" "%snm%s" [Str prefix; Str postfix];
    set_printf 688 "HOST_RANLIB" "%sranlib%s" [Str prefix; Str postfix];
    set_printf 689 "HOST_STRIP" "%sstrip%s" [Str prefix; Str postfix];
    set_printf 690 "HOST_SIZE" "%ssize%s" [Str prefix; Str postfix];
    set_printf 691 "HOST_OBJCOPY" "%sobjcopy%s" [Str prefix; Str postfix];
    set_printf 692 "HOST_OBJDUMP" "%sobjdump%s" [Str prefix; Str postfix] ].

(** config_host.c:695-719 *)
Definition conf_tools (g : statics) : stmt :=
  windows <- isset "CONFIG_WINDOWS_HOST";;
  postfix <- (if (windows : bool) then sprintf_256 "%s" [Get "ARCH"] else ret "");;
  prefix <- (if (windows : bool) then sprintf_256 "%s/bin/" [Ptr (TOOLS_PREFIX g)]
             else sprintf_256 "%s/bin/%s-" [Ptr (TOOLS_PREFIX g); Get "TARGET_PREFIX"]);;
  block [
    set_printf 710 "AR" "%sar%s" [Str prefix; Str postfix];
    set_printf 711 "LD" "%sld%s" [Str prefix; Str postfix];
    set_printf 712 "AS" "%sas%s" [Str prefix; Str postfix];
    set_printf 713 "NM" "%snm%s" [Str prefix; Str postfix];
    set_printf 714 "RANLIB" "%sranlib%s" [Str prefix; Str postfix];
    set_printf 715 "STRIP" "%sstrip%s" [Str prefix; Str postfix];
    set_printf 716 "SIZE" "%ssize%s" [Str prefix; Str postfix];
    set_printf 717 "OBJCOPY" "%sobjcopy%s" [Str prefix; Str postfix];
    set_printf 718 "OBJDUMP" "%sobjdump%s" [Str prefix; Str postfix] ].

(** config_host.c:721-737 *)
Definition conf_os_target : stmt := block [
  token_set 723 "PROD_LINUX_TARGET" "bzImage.initrd";
  If (isset "CONFIG_RG_OS_LINUX") [
    set_printf 726 "OS_TARGET" "%s" [Get "PROD_LINUX_TARGET"] ];
  IfElse (notc (isset "CONFIG_RG_OS_VXWORKS")) [] [
    Elif [
      (isset "CONFIG_TI_404_MIPS", [ token_set 732 "OS_TARGET" "rgcm.img" ]);
      (isset "CONFIG_ATHEROS_AR531X_MIPS", [ token_set 734 "OS_TARGET" "vxWorksCompressed" ]) ]
    [ token_set 736 "OS_TARGET" "vxWorks.st" ] ] ].

(** config_host.c:739-757 *)
Definition conf_gawk : stmt :=
  r <- sys_exec h "gawk --version 2>/dev/null";;
  block [ If (test (nz r) &&& isset "CONFIG_RG_OS_LINUX_26") [fails "Please install gawk."] ].

(** config_host.c:759-829 *)
Definition needs_bison : cond :=
  isset "CONFIG_ATM" ||| isset "CONFIG_RG_BLUETOOTH" ||| isset "CONFIG_RG_E2FSPROGS" |||
  isset "CONFIG_RG_FLEX" ||| isset "CONFIG_RG_FTP_SERVER" ||| isset "CONFIG_RG_GDBSERVER" |||
  isset "CONFIG_RG_KERBEROS" ||| isset "CONFIG_RG_IPROUTE2" ||| isset "CONFIG_RG_MAIL_SERVER" |||
  isset "CONFIG_RG_NETKIT" ||| isset "CONFIG_PCMCIA" ||| isset "CONFIG_RG_FILESERVER" |||
  isset "CONFIG_RG_STAR" ||| isset "CONFIG_RG_USAGI".

(** [strchr(s, c) == strrchr(s, c)]: at most one [c]. *)
Definition at_most_one (c : Ascii.ascii) (s : string) : bool :=
  str_count_chrs s (String c "") <=? 1.

(** [str_replace] on flex's version, whose search texts are not empty. *)
Definition without (search s : string) : M string :=
  nonnull "str_replace" (str_replace (Some s) search "").

Definition conf_lex_and_yacc : stmt :=
  bison_ver <- sys_get h "bison --version 2>/dev/null | head -n 1" [];;
  lex_ver <- sys_get h "flex --version 2>/dev/null | head -n 1" [];;
  block [
    If (test (bison_ver.1 =? "")%string) [
      If needs_bison [fails "Please install bison."] ];
    token_set 796 "YACC" "bison";
    token_set 797 "YFLAGS" "-y" ];;;
  ver <- without "flex" lex_ver.1;;
  ver <- without "version" ver;;
  ver <- in_place str_trim ver;;
  if at_most_one "." ver then block [ If (isset "CONFIG_RG_USAGI") [fails "Please install flex"] ]
  else
    flex_exe <- sys_get h "which flex" [];;
    block [ If (test (str_isempty (Some flex_exe.1))) [fails "internal error - failed 'which flex'"] ];;;
    flex_exe <- in_place str_trim flex_exe.1;;
    set_ptr 823 "LEX" (Some flex_exe).

(** config_host.c:832-891 *)
Definition valgrind_path : list string :=
  [ "/usr/local/openrg/i386-jungo-linux-gnu/bin/valgrind"; "/usr/local/openrg/bin/valgrind" ].
Definition conf_valgrind : stmt :=
  match scan valgrind_path (fun p => if stat h p then Some p else None) with
  | Some path =>
      valgrind_cmd <- printf_to
        "%s --num-callers=10 --leak-check=yes --show-reachable=yes --demangle=no" [Str path] None;;
      set_ptr 884 "VALGRIND_CMD" valgrind_cmd
  | None => set_ptr 884 "VALGRIND_CMD" (Some "")
  end.

Definition conf_host_general (g : statics) : stmt := block [
  set_printf 834 "RG_BIN" "%s/pkg/build/bin/" [Ptr (BUILDDIR g)];
  set_printf 835 "RG_BUILD" "%s/pkg/build/" [Ptr (BUILDDIR g)];
  set_printf 836 "RG_LIB" "%s/pkg/build/lib/" [Ptr (BUILDDIR g)];
  set_printf 837 "RG_INCLUDE_DIR" "%s/pkg/include" [Ptr (BUILDDIR g)];
  token_set 839 "SPCC" "echo";
  token_set 840 "HOSTCC" "gcc -DCONFIG_HAS_MMU";
  set_printf 841 "HOSTCPP" "%s -E" [Get "HOSTCC"];
  set_printf 842 "CPP_FOR_BUILD" "%s -E" [Get "CC_FOR_BUILD"];
  set_printf 844 "GENROMFS" "%s/pkg/genromfs/genromfs" [Ptr (BUILDDIR g)];
  If (isset "CONFIG_RG_OS_LINUX") [
    token_set 847 "AUTOCONF_H" "include/linux/autoconf.h" ];
  set_printf 850 "NET_TOOLS_MAKE_FILE" "%s/pkg/include/net-tools-config.make" [Ptr (RGSRC g)];
  token_set 853 "DYNAMIC_LINKER" "/lib/ld-linux.so.1";
  set_printf 854 "LZMAMK" "%s/pkg/lzma/SRC/lzma.mak" [Ptr (RGSRC g)];
  set_printf 857 "UNITTEST_SPAWNER" "%s/pkg/util/jspawn -s 20" [Ptr (BUILDDIR g)];
  If (isset "CONFIG_RG_VALGRIND_LOCAL_TARGET") [ conf_valgrind ];
  set_printf 890 "CONFIG_ICONV_CONST_CAST" "%s" [Str ""] ].

(** config_host.c:893-952 *)
Definition conf_target_general (g : statics) : M statics :=
  block [
    set_printf 896 "STATIC_MOD_DIR" "%s/os/kernel/modules_static/" [Ptr (BUILDDIR g)];
    token_set 898 "RG_LIBPTHREAD_VERSION" "0.8";
    set_printf 899 "NEEDED_SYMBOLS" "%s/os/linux/needed_symbols.lst" [Ptr (BUILDDIR g)];
    If (isset "CONFIG_RG_OS_VXWORKS") [
      set_printf 903 "VX_INCLUDE_DIR" "%s/os/vx/target/h" [Ptr (BUILDDIR g)] ];
    If (isset "CONFIG_ARMNOMMU" &&& isset "CONFIG_RG_OS_LINUX") [
      set_printf 907 "FLTHDR" "%s/bin/%s/-flthdr" [Ptr (TOOLS_PREFIX g); Get "TARGET_MACHINE"] ];
    If (has_str "LINUX_ARCH_PATH" &&& isset "CONFIG_CRAMFS_FS") [
      set_printf 913 "COMPRESSED_RAMDISK" "%s/ramdisk/ramdisk.gz" [Get "LINUX_ARCH_PATH"];
      If (has_str "CONFIG_RG_INITFS_CRAMFS") [
        set_printf 918 "COMPRESSED_INIT_DISK" "%s/cramdisk/cramfs_init.img" [Get "LINUX_ARCH_PATH"] ] ];
    Elif [
      (isset "CONFIG_RG_OS_LINUX_26", [
        set_printf 924 "MODFS_DISK" "%s/os/linux/usr/modfs.img" [Ptr (BUILDDIR g)] ]);
      (has_str "LINUX_ARCH_PATH", [
        set_printf 927 "MODFS_DISK" "%s/ramdisk/mod.img" [Get "LINUX_ARCH_PATH"] ]) ]
    [];
    set_printf 936 "LOCAL_ADD_RG_KERNEL_FOR_TARGET" "-idirafter %s/os/linux/include" [Ptr (BUILDDIR g)];
    IfElse (isset "CONFIG_BINFMT_FLAT") [
      set_printf 941 "LDFLAT" "%s/bin/ldelf2flt" [Ptr (TOOLS_PREFIX g)];
      token_set 942 "BINFRMT_FILE" "target_binfmt_flat.mak" ] [
      token_set 945 "BINFRMT_FILE" "target_binfmt_elf.mak" ];
    set_printf 947 "PERM_STORAGE_FILES_DIR" "%s/pkg/flash/" [Ptr (RGSRC g)] ];;;
  path <- catprintf ":%s:%s/bin" [Getz "CONFIG_RG_EXTERNAL_TOOLS_PATH"; Ptr (TOOLS_PREFIX g)] (PATH g);;
  ret (set_PATH path g).

(** config_host.c:954-981 *)
Definition dist_dup : M string := fun s => nonnull "strdup" (dist s) s.

Definition conf_openrg_img (g : statics) : stmt :=
  ldist <- dist_dup;;
  img <- IfM (isset "CONFIG_RG_RGLOADER") (ret "rgloader.img")
    (IfM (isset "CONFIG_LSP_DIST") (ret "lsp.img") (ret "openrg.img"));;
  block [
    set_printf 966 "OPENRG_IMG" "%s/os/%s" [Ptr (BUILDDIR g); Str img];
    IfElse (notc (isset "CONFIG_LSP_DIST")) [
      set_printf 970 "OPENRG_RMT_UPDATE_IMG" "%s/openrg.rmt" [Ptr (BUILDDIR g)] ] [
      ldist <- in_place str_tolower ldist;;
      set_printf 973 "OPENRG_RMT_UPDATE_IMG" "%s/%s.rmt" [Str ldist; Ptr (BUILDDIR g)] ];
    set_printf 977 "OPENRG_PROD" "%s/os/flash.bin" [Ptr (BUILDDIR g)];
    set_printf 978 "BOOTLDR_IMG" "%s/pkg/bootldr/arch/boot.img" [Ptr (BUILDDIR g)];
    set_printf 979 "FLASH_IMG" "%s/flash.img" [Ptr (BUILDDIR g)];
    set_printf 980 "BOOTSTRAP" "%s/os/boot.bin" [Ptr (BUILDDIR g)] ].

(** config_host.c:983-994 *)
Definition conf_prod_kernel_image (g : statics) : stmt :=
  IfElse (notc (isset "CONFIG_RG_OS_LINUX")) [] [
    filename <- IfM (isset "CONFIG_RG_UML") (ret "openrg.uml") (ret "vmlinux");;
    set_printf 993 "PROD_KERNEL_IMAGE" "%s/os/linux/%s" [Ptr (BUILDDIR g); Str filename] ].

(** config_host.c:996-1003 *)
Definition conf_trx (g : statics) : stmt :=
  IfElse (isset "CONFIG_RG_OS_LINUX_26") [] [
    IfElse (notc (isset "CONFIG_BCM947XX") &&& notc (isset "CONFIG_BCM963XX")) [] [
      set_printf 1002 "TRX" "%s/tools/trx" [Ptr (TOOLS_PREFIX g)] ] ].

(** config_host.c:1005-1031 *)
Definition conf_rg_cpu : stmt := block [
  If (isset "CONFIG_SL2312_COMMON") [ token_set 1008 "RG_CPU" "arm" ];
  If (isset "CONFIG_STRONGARM" &&& isset "CONFIG_RG_OLD_XSCALE_TOOLCHAIN") [
    token_set 1013 "RG_CPU" "armv4b" ];
  If (isset "CONFIG_TI_404_MIPS") [ token_set 1017 "RG_CPU" "mips" ];
  If (isset "CONFIG_ATHEROS_AR531X_MIPS") [ token_set 1020 "RG_CPU" "mips" ];
  If (isset "CONFIG_I386_BOCHS" &&& isset "CONFIG_RG_OS_VXWORKS") [ token_set 1023 "RG_CPU" "i386" ];
  If (isset "CONFIG_PPC") [ token_set 1026 "RG_CPU" "powerpc" ];
  If (isset "CONFIG_KS8695_COMMON") [ token_set 1030 "RG_CPU" "arm" ] ].

(** config_host.c:1033-1068 *)
Definition conf_flash_img_offset : stmt :=
  o <- IfM (isset "CONFIG_SL2312_COMMON" ||| isset "CONFIG_KS8695_COMMON")
    (ret (Some "0xc0000", Some "0x0")) (ret (None, None));;
  o <- IfM (isset "CONFIG_STRONGARM")
    (IfM (isset "CONFIG_RG_BOOTLDR_REDBOOT") (ret (Some "0x40000", Some "0x0"))
       (ret (Some "0x100000", Some "0x0"))) (ret o);;
  o <- IfM (isset "CONFIG_CX8620X") (ret (Some "0x4000000", Some "0x0")) (ret o);;
  o <- IfM (isset "CONFIG_COMCERTO") (ret (Some "0x10000", Some "0x0")) (ret o);;
  let offset := default "0x0" o.1 in
  let real_offset := default offset o.2 in
  block [
    set_printf 1066 "FLASH_IMG_OFFSET" "%s" [Str offset];
    set_printf 1067 "FLASH_IMG_REAL_OFFSET" "%s" [Str real_offset] ].

(** config_host.c:1070-1084 *)
Definition conf_have_gc_sections : stmt :=
  IfElse (notc (isset "CONFIG_PPC") &&& notc (isset "CONFIG_BCM963XX") &&&
          notc (isset "CONFIG_INCAIP") &&& notc (isset "CONFIG_ADM5120_COMMON") &&&
          notc (isset "CONFIG_CX8620X") &&& notc (isset "CONFIG_COMCERTO") &&&
          (notc (isset "CONFIG_STRONGARM") ||| isset "CONFIG_RG_OLD_XSCALE_TOOLCHAIN")) [] [
    token_set_y 1083 "HAVE_GC_SECTIONS" ].

(** config_host.c:1086-1125 *)

(** [if (token_get(tok)) arch = x;] *)
Definition pick (tok x : string) : gather := CatIf (isset tok) [fun _ => ret (Some x)].

Definition conf_linux_arch_path (g : statics) : stmt :=
  arch <- gathers [
    pick "CONFIG_BCM947XX" "mips";
    pick "CONFIG_BCM963XX" "mips";
    pick "CONFIG_INCAIP" "mips";
    pick "CONFIG_ADM5120_COMMON" "mips";
    pick "CONFIG_CPU_LX4189" "mips";
    pick "CONFIG_SIBYTE_SB1250" "mips";
    pick "CONFIG_SL2312_COMMON" "arm";
    pick "CONFIG_STRONGARM" "arm";
    pick "CONFIG_CX8620X" "arm";
    pick "CONFIG_COMCERTO" "arm";
    pick "CONFIG_KS8695" "arm";
    pick "CONFIG_PPC" "ppc";
    pick "CONFIG_RG_UML" "um";
    pick "CONFIG_ARCH_SOLOS" "arm";
    pick "CONFIG_INFINEON_TWINPASS" "mips" ] None;;
  block [
    If (test (bool_decide (arch = None))) [fails "ARCH must be set"];
    set_printf 1124 "LINUX_ARCH_PATH" "%s/os/linux/arch/%s" [Ptr (BUILDDIR g); Ptr arch] ].

(** config_host.c:1127-1152 *)
Definition conf_compressed_disk (g : statics) : stmt := block [
  set_printf 1131 "BOOTLDR_COMPRESSED_DISK" "%s/os/linux/arch/%s/boot/bootldr_ramdisk.gz"
    [Ptr (BUILDDIR g); Get "ARCH"];
  Elif [
    (isset "CONFIG_RG_OS_LINUX_24" &&& isset "CONFIG_RG_UML", [
      set_printf 1137 "COMPRESSED_DISK" "%s/pkg/build/ramdisk.gz" [Ptr (BUILDDIR g)] ]);
    (isset "CONFIG_RG_OS_LINUX_26", [
      set_printf 1143 "COMPRESSED_DISK" "%s/os/linux/usr/mainfs.img" [Ptr (BUILDDIR g)] ]) ]
  [ img <- IfM (isset "CONFIG_CRAMFS_FS") (ret "cramdisk/cramfs.img") (ret "ramdisk/ramdisk.gz");;
    set_printf 1150 "COMPRESSED_DISK" "%s/%s" [Get "LINUX_ARCH_PATH"; Str img] ] ].

(** config_host.c:1154-1164 *)
Definition conf_gcc_has_size_optimize : stmt := block [
  If (isset "CONFIG_RG_OS_LINUX" &&& notc (isset "CONFIG_IDT_COMMON")) [
    token_set_y 1157 "GCC_HAS_SIZE_OPTIMIZE" ];
  If (isset "CONFIG_RG_OS_VXWORKS" &&& isset "CONFIG_TI_404_MIPS") [
    token_set_y 1160 "GCC_HAS_SIZE_OPTIMIZE" ];
  If (isset "CONFIG_RG_OS_VXWORKS" &&& isset "GCC_HAS_SIZE_OPTIMIZE") [
    token_set_y 1163 "GCC_HAS_SIZE_OPTIMIZE" ] ].

(** config_host.c:1167-1193: the program written and compiled, [config] set when
    the compiler takes it. *)
Definition detect_cc_feature (cc : option string) (config : stmt) (code_h code_c : string) : stmt :=
  t <- printf_to ("cat > detect_cc_features_tmp.c << DDDD" +:+ nl +:+ "%s" +:+ nl +:+ nl +:+
    "int main(int argc, char *argv[])" +:+ nl +:+ "{" +:+ nl +:+ "    %s" +:+ nl +:+
    "    return 0;" +:+ nl +:+ "}" +:+ nl +:+ "DDDD") [Str code_h; Str code_c] None;;
  cmd <- nonnull "str_printf" t;;
  sys_exec h cmd;;;
  r <- sys_execf h "%s -Wall -Werror detect_cc_features_tmp.c -o detect_cc_features_tmp.o >/dev/null 2>&1"
    [Ptr cc];;
  block [ If (test (negb (nz r))) [config] ];;;
  sys_exec h "rm -f detect_cc_features_tmp.[co]";;;
  ret tt.

(** config_host.c:1195-1199 *)
Definition conf_gcc_attribute_support : stmt :=
  cc <- token_get_str "TARGET_CC";;
  detect_cc_feature cc (token_set_y 1189 "HAVE_ATTRIBUTE_NONNULL")
    "void f(char *) __attribute__((__nonnull__(1)));" "".

(** config_host.c:1201-1231 *)
Definition conf_rg_cflags : stmt :=
  f <- gathers [
    catprintf "-D_LIBC_REENTRANT -Wall " [];
    CatIf (notc (isset "CONFIG_RG_JPKG")) [ catprintf "-g " [] ];
    CatIfElse (isset "CONFIG_RG_NO_OPT") [ catprintf "-O0 " [] ] [
      CatIfElse (isset "GCC_HAS_SIZE_OPTIMIZE") [ catprintf "-Os " [] ] [
        CatIf (notc (isset "CONFIG_TI_404_MIPS")) [ catprintf "-O2 " [] ] ] ];
    CatIf (isset "CONFIG_RG_OS_VXWORKS" &&& notc (isset "CONFIG_I386_BOCHS")) [
      catprintf "-G 0 " [] ] ] None;;
  set_printf 1230 "RG_CFLAGS" "%s" [Ptr f].

(** config_host.c:1233-1362 *)
Definition conf_arch_cflags : stmt :=
  f <- gathers [
    printf_to "%s " [Getz "ENDIAN_CFLAGS"];
    CatIf (isset "CONFIG_BCM947XX") [ catprintf "-mgp32 -mlong32 -march=4kc -mtune=4kc " [] ];
    CatIf (isset "CONFIG_BCM963XX") [
      CatIfElse (isset "CONFIG_RG_OS_LINUX_26") [
        catprintf "-march=mips32 -mabi=32 -Wa,-32 -Wa,-march=mips32 " [] ] [
        catprintf "-mgp32 -mlong32 -march=4kp -mtune=4kp " [] ] ];
    CatIf (isset "CONFIG_SIBYTE_SB1250") [
      CatIfElse (isset "CONFIG_RG_OS_LINUX_26") [
        catprintf "-march=sb1 -msoft-float " [] ] [
        CatIf (isset "CONFIG_RG_OS_LINUX_24") [ catprintf "-mtune=r4600 -mips2 " [] ] ] ];
    CatIf (isset "CONFIG_INCAIP") [ catprintf "-mgp32 -mlong32 -march=4kc -mtune=4kc " [] ];
    CatIf (isset "CONFIG_ADM5120_COMMON") [ catprintf "-mgp32 -mlong32 -march=4kc -mtune=4kc " [] ];
    CatIf (isset "CONFIG_ARMNOMMU") [
      CatIfElse (isset "CONFIG_RG_OS_LINUX") [
        catprintf "-fomit-frame-pointer -fno-builtin " [];
        CatIf (isset "CONFIG_CPU_ARM7") [ catprintf "-mcpu=arm7tdmi " [] ];
        CatIf (isset "CONFIG_CPU_ARM940T") [ catprintf "-mcpu=arm9tdmi " [] ] ] [
        CatIf (isset "CONFIG_RG_OS_VXWORKS") [
          catprintf "-mno-thumb-interwork -mno-sched-prolog -fno-builtin " [];
          CatIf (isset "CONFIG_ARCH_IXP22X") [ catprintf "-DCPU=ARM7TDMI " [] ] ] ] ];
    CatIf (isset "CONFIG_SL2312_COMMON") [ catprintf "-mapcs-32 -march=armv4 -mshort-load-bytes " [] ];
    CatIf (isset "CONFIG_STRONGARM") [
      CatIfElse (isset "CONFIG_RG_OLD_XSCALE_TOOLCHAIN") [
        catprintf "-mapcs-32 -march=armv4 -mtune=strongarm -mshort-load-bytes " [] ] [
        catprintf "-mcpu=xscale -mtune=xscale -Wa,-mcpu=xscale " [] ] ];
    CatIf (isset "CONFIG_SOFT_FLOAT") [ catprintf "-msoft-float " [] ];
    CatIf (isset "CONFIG_TI_404_MIPS" &&& isset "CONFIG_RG_OS_VXWORKS") [
      catprintf ("-mgp32 -mips2 -non_shared -DRW_MULTI_THREAD " +:+
        "-D_REENTRANT -DMIPSEB -msoft-float -DCPU=RC32364 -fno-common ") [] ];
    CatIf (isset "CONFIG_ATHEROS_AR531X_MIPS" &&& isset "CONFIG_RG_OS_VXWORKS") [
      catprintf ("-mgp32 -mips32 -mips2 -G 0 -Wall " +:+
        "-Wno-char-subscripts -funsigned-char -DRW_MULTI_THREAD " +:+
        "-D_REENTRANT -fno-builtin -DMIPSEB -msoft-float -DPRJ_BUILD " +:+
        "-DAR5312 -DAR531X -DBUILD_AR5212 -DCPU=MIPS32 -DSOFT_FLOAT " +:+
        "-DBIG_ENDIAN=_BIG_ENDIAN -DVXWORKS -DBUILD_AP -DATHEROS " +:+
        "-ffunction-sections -fdata-sections ") [] ];
    CatIf (isset "CONFIG_CX8620X") [ catprintf "-mapcs-32 -march=armv5te -Wa,-march=armv5te " [] ];
    CatIf (isset "CONFIG_COMCERTO") [ catprintf "-mapcs-32 -march=armv4 -Wa,-march=armv4 " [] ];
    CatIf (isset "CONFIG_PPC") [ also (token_set_y 1330 "CONFIG_CC_HAVE_VA_COPY") ];
    CatIf (isset "CONFIG_I386_BOCHS" &&& isset "CONFIG_RG_OS_VXWORKS") [
      catprintf ("-mpentium -DCPU=PENTIUM -DCPU_VARIANT=PENTIUM " +:+
        "-fno-builtin -fno-defer-pop ") [] ];
    CatIf (isset "CONFIG_KS8695") [
      catprintf ("-Wall -Wstrict-prototypes -Wno-trigraphs -O2 " +:+
        "-fno-strict-aliasing -fno-common -fno-common -pipe -mapcs-32 " +:+
        "-march=armv4 -mtune=arm9tdmi -mshort-load-bytes") [] ];
    CatIf (isset "CONFIG_RG_OS_VXWORKS") [ catprintf "%s " [Get "VX_INCLUDE_DIR"] ];
    CatIf (isset "CONFIG_CPU_LX4189") [
      catprintf "-msoft-float -march=lx4189 -fno-builtin " [];
      CatIfElse (isset "CONFIG_RG_OS_LINUX_26") [
        catprintf "-mabi=32 -Wa,-32 -Wa,-march=lx4189 -Wa,-mips1 " [] ] [
        catprintf "-mgp32 -mips1 " [] ] ];
    CatIf (isset "CONFIG_INFINEON_TWINPASS") [
      catprintf "-mabi=32 -march=mips32 -Wa,-32 -Wa,-march=mips32 " [] ] ] None;;
  set_printf 1361 "ARCH_CFLAGS" "%s" [Ptr f].

(** config_host.c:1364-1414 *)
Definition conf_arch_linux_cflags (g : statics) : stmt := block [
  If (isset "CONFIG_BCM947XX") [
    set_printf 1368 "ARCH_LINUX_FLAGS" "%s  -Wa,--trap" [Getz "ARCH_CFLAGS"] ];
  If (isset "CONFIG_BCM963XX") [
    set_printf 1374 "ARCH_LINUX_FLAGS" "%s  -Wa,--trap" [Getz "ARCH_CFLAGS"] ];
  If (isset "CONFIG_INCAIP") [
    set_printf 1380 "ARCH_LINUX_FLAGS" "%s  -Wa,--trap" [Getz "ARCH_CFLAGS"] ];
  If (isset "CONFIG_ADM5120_COMMON") [
    set_printf 1386 "ARCH_LINUX_FLAGS" "%s  -Wa,--trap" [Getz "ARCH_CFLAGS"] ];
  If (isset "CONFIG_CPU_LX4189") [
    flags <- token_getz "ARCH_CFLAGS";;
    set_ptr 1391 "ARCH_LINUX_FLAGS" (Some flags) ];
  If (isset "CONFIG_SIBYTE_SB1250") [
    Elif [
      (isset "CONFIG_RG_OS_LINUX_26", [
        set_printf 1397 "ARCH_LINUX_FLAGS" ("%s -Wa,--trap " +:+
          "-I%s/os/linux-2.6/include/asm/mach-sibyte " +:+
          "-I%s/os/linux-2.6/include2/asm/mach-generic ")
          [Getz "ARCH_CFLAGS"; Ptr (BUILDDIR g); Ptr (BUILDDIR g)] ]);
      (isset "CONFIG_RG_OS_LINUX_24", [
        set_printf 1404 "ARCH_LINUX_FLAGS" "%s  -Wa,--trap" [Getz "ARCH_CFLAGS"] ]) ]
    [] ];
  If (isset "CONFIG_INFINEON_TWINPASS") [
    set_printf 1411 "ARCH_LINUX_FLAGS" "%s -Wa,--trap " [Getz "ARCH_CFLAGS"] ] ].

(** config_host.c:1416-1615: the flags of the kernel, in three parts: those of the
    hardware, the directories of Linux 2.4, those of Linux 2.6. *)
Definition rg_linux_cflags_hw (g : statics) : list gather := [
  catprintf ("-Wall -Wstrict-prototypes -Wno-trigraphs " +:+
    "-fno-strict-aliasing -fno-common -pipe ") [];
  CatIf (isset "CONFIG_RG_DEV" &&& notc (isset "CONFIG_RG_JPKG")) [ catprintf "-g " [] ];
  CatIf (notc (isset "CONFIG_FRAME_POINTER")) [ catprintf "-fomit-frame-pointer " [] ];
  CatIf (isset "CONFIG_SL2312_COMMON") [
    catprintf ("-Os -Uarm -mapcs-32 -D__LINUX_ARM_ARCH__=4 " +:+
      "-march=armv4 -Wa, -mshort-load-bytes -msoft-float %s ") [Get "ARCH_CFLAGS"] ];
  CatIf (isset "CONFIG_MPC8272ADS" ||| isset "CONFIG_MPC8349_ITX" ||| isset "CONFIG_EP8248") [
    catprintf "-Os -msoft-float %s -I%s " [Get "ARCH_CFLAGS"; Get "LINUX_ARCH_PATH"] ];
  CatIf (isset "CONFIG_IXP425_COMMON") [
    catprintf ("-mbig-endian -Os -Uarm -mapcs-32 " +:+
      "-D__LINUX_ARM_ARCH__=4 -mshort-load-bytes %s ") [Get "ARCH_CFLAGS"];
    CatIf (isset "CONFIG_RG_OLD_XSCALE_TOOLCHAIN") [
      catprintf ("-march=armv4 -Wa,-mxscale -mtune=strongarm " +:+ "-msoft-float ") [] ] ];
  CatIf (isset "CONFIG_CX8620X_COMMON") [
    catprintf ("-Os -Uarm -mapcs-32 -D__LINUX_ARM_ARCH__=5 " +:+ "-march=armv5te %s ")
      [Getz "ARCH_CFLAGS"] ];
  CatIf (isset "CONFIG_COMCERTO_COMMON") [
    catprintf ("-Os -Uarm -mapcs-32 -D__LINUX_ARM_ARCH__=4 " +:+
      "-march=armv4 -Wa, -malignment-traps -msoft-float %s ") [Get "ARCH_CFLAGS"] ];
  CatIf (isset "CONFIG_PCBOX" ||| isset "CONFIG_RG_UML") [
    catprintf ("-O2 -mpreferred-stack-boundary=2 -march=i386 " +:+
      "-DUTS_MACHINE=" +:+ quoted "i386" +:+ " %s ") [Getz "ARCH_CFLAGS"] ];
  CatIf (isset "CONFIG_BCM947") [
    catprintf ("-O2 -mno-split-addresses -G 0 -mno-abicalls " +:+
      "-fno-pic -mlong-calls -DBCM47XX_CHOPS -DDMA %s ") [Getz "ARCH_CFLAGS"] ];
  CatIf (isset "CONFIG_BCM963XX") [
    catprintf ("-O2 -mno-split-addresses -G 0 -mno-abicalls " +:+ "-fno-pic -mlong-calls %s ")
      [Getz "ARCH_LINUX_FLAGS"] ];
  CatIf (isset "CONFIG_INCAIP") [
    catprintf "-O2 -G 0 -mno-abicalls -fno-pic -mlong-calls %s " [Getz "ARCH_LINUX_FLAGS"] ];
  CatIf (isset "CONFIG_ADM5120_COMMON") [
    catprintf "-O2 -G 0 -mno-abicalls -fno-pic -mlong-calls %s " [Getz "ARCH_LINUX_FLAGS"] ];
  CatIf (isset "CONFIG_KS8695_COMMON") [
    catprintf ("-Wall -Wstrict-prototypes -Wno-trigraphs -Os " +:+
      "-fno-strict-aliasing -fno-common -Uarm -fno-common -pipe " +:+
      "-D__LINUX_ARM_ARCH__=5 -Wa, %s ") [Getz "ARCH_LINUX_FLAGS"] ];
  CatIf (isset "CONFIG_CPU_LX4189") [
    catprintf "-Os -G 0 -mno-abicalls -fno-pic -mlong-calls %s " [Getz "ARCH_LINUX_FLAGS"];
    CatIf (isset "CONFIG_RG_OS_LINUX_26") [
      catprintf "-I%s/os/linux-2.6/include/asm/mach-adi_fusiv " [Ptr (BUILDDIR g)];
      catprintf "-I%s/os/linux-2.6/include2/asm/mach-generic " [Ptr (BUILDDIR g)] ] ];
  CatIf (isset "CONFIG_INFINEON_TWINPASS") [
    catprintf "-Os -G 0 -mno-abicalls -fno-pic -mlong-calls %s " [Getz "ARCH_LINUX_FLAGS"] ];
  CatIf (isset "CONFIG_SIBYTE_SB1250") [
    catprintf ("-O2 -mno-split-addresses -G 0 -mno-abicalls " +:+ "-fno-pic -mlong-calls %s ")
      [Getz "ARCH_LINUX_FLAGS"] ];
  CatIf (isset "CONFIG_ARCH_SOLOS") [
    catprintf ("-mlittle-endian -fno-strict-aliasing -fno-common " +:+
      "-ffreestanding -O2 -mapcs-32 -D__LINUX_ARM_ARCH__=5 " +:+
      "-march=armv5te -malignment-traps -msoft-float -Uarm ") [] ];
  catprintf "-D__KERNEL__ -D__TARGET__ " [] ].

Definition rg_linux_cflags_24 (g : statics) : gather :=
  CatIf (isset "CONFIG_RG_OS_LINUX_24") [ fun f =>
    flags_24 <- gathers [
      catprintf "-I%s/os/linux-2.4/include " [Ptr (BUILDDIR g)];
      CatIf (isset "CONFIG_RG_UML") [
        catprintf ("-I%s/os/linux-2.4/arch/um/include " +:+
          "-I%s/os/linux-2.4/arch/um/kernel/tt/include " +:+
          "-I%s/os/linux-2.4/arch/um/kernel/skas/include ")
          [Ptr (BUILDDIR g); Ptr (BUILDDIR g); Ptr (BUILDDIR g)] ] ] None;;
    f <- catprintf " %s" [Ptr flags_24] f;;
    set_printf 1560 "RG_LINUX_24_CFLAGS" "%s" [Ptr flags_24];;;
    ret f ].

Definition rg_linux_cflags_26 (g : statics) : gather :=
  CatIf (isset "CONFIG_RG_OS_LINUX_26") [ fun f =>
    arch <- token_get_str "ARCH";;
    block [ If (test (bool_decide (arch = None))) [fails "config_host: ARCH is not set."] ];;;
    flags_26 <- gathers [
      catprintf "-I%s/os/linux-2.6/include " [Ptr (BUILDDIR g)];
      catprintf "-I%s/os/linux-2.6/include2 " [Ptr (BUILDDIR g)];
      catprintf "-I%s/os/linux-2.6/include2 " [Ptr (RGSRC g)];
      catprintf "-I%s/os/linux-2.6/include " [Ptr (RGSRC g)];
      catprintf "-I%s/os/linux-2.6/arch/%s " [Ptr (BUILDDIR g); Ptr arch];
      catprintf "-I%s/os/linux-2.6/arch/%s/include " [Ptr (BUILDDIR g); Ptr arch];
      catprintf "-I%s/os/linux-2.6/arch/%s " [Ptr (RGSRC g); Ptr arch];
      CatIf (isset "CONFIG_RG_UML") [
        catprintf ("-I%s/os/linux-2.6/arch/um/include " +:+
          "-I%s/os/linux-2.6/arch/um/include2 " +:+
          "-I%s/os/linux-2.6/arch/um/include " +:+
          "-I%s/os/linux-2.6/arch/um/include/tt " +:+
          "-I%s/os/linux-2.6/arch/um/include/skas ")
          [Ptr (BUILDDIR g); Ptr (BUILDDIR g); Ptr (RGSRC g); Ptr (RGSRC g); Ptr (RGSRC g)] ];
      CatIf (isset "CONFIG_BCM963XX") [
        catprintf "-I%s/os/linux-2.6/include/asm/mach-bcm963xx " [Ptr (BUILDDIR g)];
        catprintf "-I%s/os/linux-2.6/include2/asm/mach-generic " [Ptr (BUILDDIR g)] ] ] None;;
    f <- catprintf " %s" [Ptr flags_26] f;;
    set_printf 1602 "RG_LINUX_26_CFLAGS" "%s" [Ptr flags_26];;;
    ret f ].

Definition conf_rg_linux_cflags (g : statics) : stmt :=
  f <- CatIf (isset "CONFIG_RG_OS_VXWORKS" &&& isset "CONFIG_CNXT_ADSL") [
    catprintf "-mstructure-size-boundary=8 " [] ] None;;
  IfElse (isset "CONFIG_RG_OS_VXWORKS") [] [
    f <- gathers (rg_linux_cflags_hw g) f;;
    f <- rg_linux_cflags_24 g f;;
    f <- rg_linux_cflags_26 g f;;
    set_printf 1605 "RG_LINUX_CFLAGS" "%s" [Ptr f];
    If (isset "CONFIG_BCM963XX_WLAN") [
      token_set 1613 "MOD_24_CFLAGS" "-DCONFIG_DISABLE_NETDEV_MODIFYING" ] ].

(** config_host.c:1617-1620 *)
Definition conf_linux_cflags : stmt := block [
  set_printf 1619 "LINUX_CFLAGS" "%s" [Getz "ENDIAN_CFLAGS"] ].

(** config_host.c:1622-1651 *)
Definition conf_host_ldflags (g : statics) : stmt :=
  f <- gathers [
    printf_to "-L%s/pkg/lib " [Ptr (RGSRC g)];
    CatIf (notc (isset "CONFIG_RG_USE_LOCAL_TOOLCHAIN")) [
      catprintf ("-Wl,--dynamic-linker," +:+
        "%s/i386-jungo-linux-gnu/lib/ld-2.3.2.so -Wl,-rpath," +:+
        "%s/i386-jungo-linux-gnu/lib ") [Get "I386_TOOLS_PREFIX"; Get "I386_TOOLS_PREFIX"] ];
    CatIf (notc (isset "CONFIG_RG_VALGRIND_LOCAL_TARGET")) [ catprintf "--static " [] ];
    CatIf (isset "HAVE_MYSQL") [ catprintf "-L%s " [Get "CONFIG_RG_MYSQL_LIB_PREFIX"] ];
    CatIf (isset "CONFIG_RG_OPENSSL_LOCAL") [
      catprintf "-L%s/lib " [Get "CONFIG_RG_OPENSSL_LOCAL_PREFIX"] ] ] None;;
  set_printf 1649 "LOCAL_LDFLAGS" "%s" [Ptr f].

(** config_host.c:1654-1691 *)
Definition conf_ldflags (g : statics) : stmt :=
  f <- gathers [
    catprintf "%s " [Getz "ENDIAN_CFLAGS"];
    CatIf (isset "CONFIG_ARMNOMMU") [
      CatIfElse (isset "CONFIG_RG_OS_LINUX") [ catprintf "-static Wl,-elf2flt " [] ] [
        CatIf (isset "CONFIG_RG_OS_VXWORKS") [ catprintf "-X -N -Tldscript " [] ] ] ];
    CatIf (isset "CONFIG_RG_OS_VXWORKS") [
      CatIf (isset "CONFIG_TI_404_MIPS" ||| isset "CONFIG_I386_BOCHS" |||
             isset "CONFIG_ATHEROS_AR531X_MIPS") [ catprintf "-X -N " [] ] ];
    CatIf (isset "HAVE_GC_SECTIONS" &&& isset "CONFIG_RG_FOOTPRINT_REDUCTION") [
      catprintf "-Wl,--gc-sections " [] ];
    CatIf (isset "CONFIG_ULIBC" &&& notc (isset "CONFIG_DYN_LINK")) [ catprintf "-static " [] ];
    catprintf "-L%s/pkg/lib " [Ptr (BUILDDIR g)] ] None;;
  set_printf 1688 "LDFLAGS_ENVIR" "%s" [Ptr f].

(** config_host.c:1693-1710 *)
Definition conf_host_cflags (g : statics) : stmt :=
  f <- gathers [
    CatIf (isset "CONFIG_RG_JPKG_SRC") [ catprintf "-I%s/pkg " [Ptr (RGSRC g)] ];
    catprintf ("-I%s -D__HOST__ -O0 -Wall " +:+ "-Wstrict-prototypes --no-strict-aliasing ")
      [Get "RG_INCLUDE_DIR"];
    CatIf (notc (isset "CONFIG_RG_JPKG")) [ catprintf "-g" [] ] ] None;;
  set_printf 1707 "LOCAL_CFLAGS" "%s" [Ptr f].

(** config_host.c:1712-1735 *)
Definition conf_cflags : stmt :=
  f <- gathers [
    CatIf (isset "CONFIG_ARMNOMMU" &&& isset "CONFIG_RG_OS_LINUX") [
      catprintf "-fpic -msingle-pic-base -D__PIC__ " [] ];
    CatIf (isset "HAVE_GC_SECTIONS" &&& isset "CONFIG_RG_FOOTPRINT_REDUCTION") [
      catprintf "-ffunction-sections -fdata-sections " [] ];
    CatIf (notc (isset "CONFIG_RG_OS_VXWORKS")) [ catprintf "-Wstrict-prototypes " [] ];
    CatIf (notc (isset "CONFIG_I386_BOCHS")) [ catprintf "--no-strict-aliasing " [] ];
    catprintf "%s %s -D__TARGET__ " [Getz "RG_CFLAGS"; Getz "ARCH_CFLAGS"] ] None;;
  set_printf 1734 "CFLAGS_ENVIR" "%s" [Ptr f].

(** config_host.c:1737-1770 *)
Definition conf_openrg_lflags (g : statics) : stmt :=
  suffix <- IfM (isset "CONFIG_DYN_LINK") (ret "so") (ret "a");;
  block [
    set_printf 1743 "OPENRG_LIB" "%s/pkg/util/libopenrg.%s" [Ptr (BUILDDIR g); Str suffix];
    set_printf 1745 "OPENRG_GPL_LIB" "%s/pkg/util/libopenrg_gpl.%s " [Ptr (BUILDDIR g); Str suffix];
    rg_gpl_ldlibs <- gathers [
      catprintf "-lopenrg_gpl " [];
      CatIf (isset "CONFIG_GLIBC") [ catprintf "-lulibc_syslog " [] ] ] None;;
    set_printf 1752 "OPENRG_GPL_LDLIBS" "%s " [Ptr rg_gpl_ldlibs];
    librg <- gathers [
      catprintf "-lopenrg -ljutil " [];
      CatIf (isset "CONFIG_RG_OPENSSL") [ catprintf "-lssl " [] ];
      catprintf "-lcrypto " [];
      CatIf (isset "CONFIG_DYN_LINK") [ catprintf "-ldl " [] ];
      catprintf "-lopenrg -ljutil -lrg_config" [] ] None;;
    set_printf 1767 "OPENRG_LDLIBS" "%s" [Ptr librg];
    token_set 1769 "MGT_LDLIBS" "-lmgt " ].

(** config_host.c:1772-1807 *)
Definition conf_openrg_local_lflags : stmt :=
  liblocal_rg <- gathers [
    CatIfElse (isset "CONFIG_OPENRG" ||| isset "CONFIG_RG_RGLOADER") [
      catprintf ("-llocal_openrg -llocal_jutil " +:+ "-llocal_rg_config ") [] ] [
      catprintf "-llocal_jutil " [] ];
    CatIfElse (isset "CONFIG_RG_OPENSSL_COMMON") [
      CatIf (isset "CONFIG_RG_OPENSSL") [ catprintf "-llocal_ssl " [] ];
      CatIfElse (isset "CONFIG_RG_CRYPTO") [ catprintf "-llocal_crypto " [] ] [
        catprintf ("-llocal_crypto -llocal_openrg " +:+ "-llocal_jutil -llocal_rg_config ") [] ] ] [
      CatIf (isset "CONFIG_RG_OPENSSL_LOCAL") [ catprintf "-lssl -lcrypto " [] ] ];
    CatIf (isset "HAVE_MYSQL") [ catprintf "-lmysqlclient " [] ];
    CatIf (isset "CONFIG_RG_SESSION_LIBDB") [ catprintf "-ldb " [] ] ] None;;
  block [
    set_printf 1805 "OPENRG_LOCAL_LDLIBS" "%s" [Ptr liblocal_rg];
    token_set 1806 "MGT_LOCAL_LDLIBS" "-llocal_mgt " ].

(** config_host.c:1809-1844 *)
Definition conf_doctools (g : statics) : stmt :=
  latex_exe <- sys_get h ("latex --version 2>/dev/null | head -n 1 | cut -f 1 -d" +:+ quoted " ") [];;
  if (latex_exe.1 =? "")%string then ret tt
  else
    latex_exe <- in_place str_chomp latex_exe.1;;
    block [
      Elif [
        (test (latex_exe =? "e-TeX")%string, [
          set_printf 1827 "TEXMFCNF" "%s/pkg/doc/texmf" [Ptr (RGSRC g)] ]);
        (test (latex_exe =? "TeX")%string, [
          token_set 1833 "TEXMF" "{/usr/local/openrg/share/texmf,!!/usr/share/texmf}" ]) ]
      [] ];;;
    doc_makefile <- printf_to "%s/pkg/doc/Makefile" [Ptr (RGSRC g)] None;;
    let rg_doc_enable := (latex_exe =? "e-TeX")%string || (latex_exe =? "TeX")%string in
    block [ If (test (rg_doc_enable && from_option (stat h) false doc_makefile)) [
      token_set_y 1841 "CONFIG_RG_DOC_ENABLED" ] ].

(** config_host.c:1846-1863 *)
Definition conf_arch : stmt :=
  arch <- token_getz "ARCH";;
  jpkg_src <- token_get_str "CONFIG_RG_JPKG_SRC";;
  let jpkg_src := bool_decide (is_Some jpkg_src) in
  block [
    If (test ((arch =? "arm")%string || jpkg_src)) [ token_set_y 1852 "CONFIG_ARM" ];
    If (test ((arch =? "armnommu")%string || jpkg_src)) [ token_set_y 1854 "CONFIG_ARMNOMMU" ];
    If (test ((arch =? "i386")%string || jpkg_src)) [ token_set_y 1856 "CONFIG_I386" ];
    If (test ((arch =? "mips")%string || jpkg_src)) [ token_set_y 1858 "CONFIG_MIPS" ];
    If (test ((arch =? "ppc")%string || jpkg_src)) [ token_set_y 1860 "CONFIG_PPC" ];
    If (test ((arch =? "um")%string || jpkg_src)) [ token_set_y 1862 "CONFIG_UM" ] ].

(** config_host.c:1865-1884 *)
Definition conf_lang_compiler (g : statics) : stmt := block [
  set_printf 1869 "LANG_COMPILER" "%s/pkg/util/lang_compiler" [Ptr (BUILDDIR g)];
  str <- gathers [
    CatIf (isset "CONFIG_RG_LANG_TEST") [ printf_to "--static " [] ];
    CatIf (has_str "CONFIG_RG_LANGUAGES") [
      catprintf ("--select " +:+ quoted "%s") [Get "CONFIG_RG_LANGUAGES"] ] ] None;;
  If (test (bool_decide (is_Some str))) [
    set_printf 1881 "LANG_COMPILER_OPT" "%s" [Ptr str] ] ].

(** config_host.c:1886-1914: the loop stops at the second place that has the file. *)
Fixpoint locate_loop (search_locations : list string) (filename : string) (first_loc : option string)
    : M (option string) :=
  match search_locations with
  | [] => ret first_loc
  | loc :: search_locations' =>
      r <- sys_execf h "test -f %s/%s" [Str loc; Str filename];;
      if negb (nz r) then
        match first_loc with
        | Some _ => ret first_loc
        | None => locate_loop search_locations' filename (Some loc)
        end
      else locate_loop search_locations' filename first_loc
  end.
Definition locate_file (search_locations : list string) (filename : string) : M (option string) :=
  locate_loop search_locations filename None.
Definition search_locations : list string := [ "/usr/local"; "/usr" ].

(** config_host.c:1916-1965 *)
Definition conf_mysql : stmt :=
  mysql_location <- locate_file search_locations "include/mysql/mysql.h";;
  match mysql_location with
  | None => block [ If (isset "HAVE_MYSQL") [fails "Please install mysql."] ]
  | Some location =>
      set_ptr 1943 "CONFIG_RG_MYSQL_PREFIX" (Some location);;;
      in_lib_mysql <- sys_execf h "test -f %s/lib/mysql/libmysqlclient.a" [Str location];;
      if negb (nz in_lib_mysql)
      then set_printf 1948 "CONFIG_RG_MYSQL_LIB_PREFIX" "%s/lib/mysql" [Str location]
      else
        in_lib <- sys_execf h "test -f %s/lib/libmysqlclient.a" [Str location];;
        if negb (nz in_lib)
        then set_printf 1953 "CONFIG_RG_MYSQL_LIB_PREFIX" "%s/lib/mysql" [Str location]
        else fails "found mysql.h, but failed to find libmysqlclient.a"
  end.

(** config_host.c:1967-2005 *)
Definition conf_openssl : stmt :=
  IfElse (notc (isset "CONFIG_RG_OPENSSL") ||| notc (isset "CONFIG_RG_USE_LOCAL_TOOLCHAIN")) [] [
    openssl_location <- locate_file search_locations "include/openssl/ssl.h";;
    match openssl_location with
    | Some location =>
        token_set_y 1987 "CONFIG_RG_OPENSSL_LOCAL";;;
        set_ptr 1994 "CONFIG_RG_OPENSSL_LOCAL_PREFIX" (Some location);;;
        r <- sys_execf h "test -f %s/lib/libssl.so" [Str location];;
        block [ If (test (nz r)) [fails "found ssl.h, but failed to find libssl.so"] ]
    | None => token_set_y 1990 "CONFIG_RG_OPENSSL_COMMON"
    end ].

(** config_host.c:2007-2062: the part that concerns the target, cut where the tools are
    known, and the whole. *)
Definition target_tools (g : statics) : M statics :=
  conf_gawk;;;
  conf_endian_flags;;;
  conf_target_machine;;;
  g <- conf_tools_prefix g;;
  conf_libc g;;;
  conf_cc g;;;
  conf_target_cc g;;;
  conf_gcc_version;;;
  conf_tools g;;;
  ret g.

Definition target_files (g : statics) : M statics :=
  conf_openrg_img g;;;
  conf_prod_kernel_image g;;;
  conf_linux_arch_path g;;;
  conf_compressed_disk g;;;
  conf_os_target;;;
  g <- conf_target_general g;;
  conf_trx g;;;
  conf_rg_cpu;;;
  conf_flash_img_offset;;;
  conf_have_gc_sections;;;
  conf_gcc_has_size_optimize;;;
  conf_gcc_attribute_support;;;
  conf_rg_cflags;;;
  conf_arch_cflags;;;
  conf_arch_linux_cflags g;;;
  conf_rg_linux_cflags g;;;
  conf_linux_cflags;;;
  conf_ldflags g;;;
  conf_cflags;;;
  conf_openrg_lflags g;;;
  ret g.

Definition config_target (g : statics) : M statics :=
  g <- target_tools g;; target_files g.

Definition config_host_start : M statics :=
  path <- nonnull "strdup" (getenv h "PATH");;
  let g := mk_statics (getenv h "BUILDDIR") (getenv h "RGSRC") None None None (Some path) in
  conf_ostype;;;
  conf_os_path;;;
  g <- conf_ccache g;;
  g <- conf_toolchain g;;
  conf_cc_for_build g;;;
  conf_host_tools g;;;
  conf_lex_and_yacc;;;
  conf_host_general g;;;
  conf_host_cflags g;;;
  conf_arch;;;
  conf_doctools g;;;
  conf_mysql;;;
  conf_openssl;;;
  conf_openrg_local_lflags;;;
  conf_host_ldflags g;;;
  ret g.

Definition config_host : stmt :=
  g <- config_host_start;;
  g <- IfM (notc (isset "CONFIG_RG_JPKG_SRC") &&& hw_set) (config_target g) (ret g);;
  conf_lang_compiler g;;;
  set_printf 2061 "PATH" ".:%s" [Ptr (PATH g)].
End ConfigHost.
