(* ===== verification/TargetOs.v ===== *)
(** * TargetOs: the target operating system

    [target_primary_os] and [target_os_features] of
    pkg/build/config_target_os.c. *)
From S2P Require Import Prelude ConfigOpt Licence Rules.

Definition CONFIG_TARGET_OS_C : string := "config_target_os.c".
Abbreviation token_set L tok v := (_token_set CONFIG_TARGET_OS_C L SET_PRIO_TOKEN_SET tok v []).
Abbreviation token_set_y := (_token_set_y CONFIG_TARGET_OS_C).
Abbreviation token_set_m := (_token_set_m CONFIG_TARGET_OS_C).
Abbreviation set_big_endian := (_set_big_endian CONFIG_TARGET_OS_C).
Abbreviation set_args := (set_args CONFIG_TARGET_OS_C).

(** config_target_os.c:37-47 *)
Definition target_primary_os : stmt := block [
  Elif [
    (isset "CONFIG_RG_OS_LINUX_24", [
      token_set 40 "CONFIG_RG_OS" "LINUX_24" ]);
    (isset "CONFIG_RG_OS_LINUX_26", [
      token_set 42 "CONFIG_RG_OS" "LINUX_26" ]);
    (isset "CONFIG_RG_OS_ECOS", [
      token_set 44 "CONFIG_RG_OS" "ECOS" ]);
    (isset "CONFIG_RG_OS_VXWORKS", [
      token_set 46 "CONFIG_RG_OS" "VXWORKS" ]) ]
  [] ].

(** config_target_os.c:49-180 *)
Definition target_os_features (os : string) : stmt := block [
  Elif [
    (str_eq os "LINUX_24", [
      token_set_y 53 "CONFIG_RG_OS_LINUX_24" ]);
    (str_eq os "LINUX_26", [
      token_set_y 55 "CONFIG_RG_OS_LINUX_26" ]);
    (str_eq os "ECOS", [
      token_set_y 57 "CONFIG_RG_OS_ECOS" ]);
    (str_eq os "VXWORKS", [
      token_set_y 59 "CONFIG_RG_OS_VXWORKS" ]) ]
  [];
  If (isset "CONFIG_RG_OS_VXWORKS") [
    token_set_y 64 "CONFIG_RG_NOT_UNIX";
    token_set_y 65 "CONFIG_RG_EFSS";
    If (isset "CONFIG_RG_DEV") [
      token_set_y 67 "CONFIG_VX_SYMTBL" ];
    token_set_y 68 "CONFIG_RG_VX_TIMERS_TASK" ];
  If (isset "CONFIG_RG_OS_LINUX_26") [
    token_set_y 74 "CONFIG_RG_OS_LINUX";
    token_set 78 "CONFIG_INIT_ENV_ARG_LIMIT" "32";
    token_set_y 79 "CONFIG_PRINTK";
    token_set 80 "CONFIG_LOG_BUF_SHIFT" "14";
    token_set_y 81 "CONFIG_BUG";
    token_set_y 82 "CONFIG_TINY_SHMEM";
    token_set 83 "CONFIG_BASE_SMALL" "0";
    token_set_y 84 "CONFIG_GENERIC_CALIBRATE_DELAY";
    If (notc (isset "CONFIG_COMCERTO_COMMON") &&& notc (isset "CONFIG_ARCH_SOLOS")) [
      token_set_y 88 "CONFIG_GENERIC_HARDIRQS" ];
    token_set_y 90 "CONFIG_SYSCTL";
    token_set_y 91 "CONFIG_BINFMT_ELF";
    token_set_y 92 "CONFIG_CRC32";
    token_set_y 93 "CONFIG_MMU";
    token_set_y 94 "CONFIG_IOSCHED_NOOP";
    token_set_y 95 "CONFIG_IOSCHED_AS";
    token_set_y 96 "CONFIG_IOSCHED_DEADLINE";
    token_set_y 97 "CONFIG_IOSCHED_CFQ";
    token_set_y 98 "CONFIG_SYSVIPC";
    token_set 99 "CONFIG_DEFAULT_IOSCHED" (quoted "anticipatory");
    token_set_y 100 "CONFIG_SLAB";
    token_set_y 104 "CONFIG_RAMFS";
    If (notc (isset "CONFIG_RG_RGLOADER")) [
      token_set_y 108 "CONFIG_PROC_FS";
      token_set_y 109 "CONFIG_SYSFS";
      token_set_m 110 "CONFIG_RG_IPV4" ];
    token_set_y 115 "CONFIG_MODULES";
    If (notc (isset "CONFIG_ARCH_SOLOS")) [
      token_set_y 117 "CONFIG_MODULE_UNLOAD" ];
    token_set_y 118 "CONFIG_OBSOLETE_MODPARM";
    token_set_y 119 "CONFIG_KMOD";
    token_set_y 123 "CONFIG_NET";
    token_set_y 124 "CONFIG_NETDEVICES";
    token_set_y 125 "CONFIG_PACKET";
    token_set_y 126 "CONFIG_UNIX";
    token_set_y 127 "CONFIG_INET";
    token_set_y 128 "CONFIG_IP_MULTICAST";
    token_set_y 129 "CONFIG_IP_FIB_HASH";
    token_set_y 130 "CONFIG_IP_ADVANCED_ROUTER";
    token_set_y 131 "CONFIG_NET_ETHERNET";
    token_set_y 132 "CONFIG_IP_MULTIPLE_TABLES";
    token_set_y 133 "CONFIG_XFRM";
    token_set_y 134 "CONFIG_NET_SCH_CLK_JIFFIES";
    token_set_y 137 "CONFIG_LEGACY_PTYS";
    token_set 138 "CONFIG_LEGACY_PTY_COUNT" "256";
    token_set 141 "CONFIG_RG_KERNEL_COMP_METHOD" "lzma" ];
  If (isset "CONFIG_RG_OS_LINUX_24") [
    token_set_y 146 "CONFIG_UID16";
    token_set_y 147 "CONFIG_RWSEM_GENERIC_SPINLOCK";
    token_set_y 148 "CONFIG_IP_MULTICAST";
    token_set_y 149 "CONFIG_IP_ADVANCED_ROUTER";
    token_set_y 150 "CONFIG_UNIX";
    token_set_y 151 "CONFIG_RG_OS_LINUX";
    token_set_y 152 "CONFIG_INET";
    token_set_y 153 "CONFIG_MODULES";
    token_set_y 154 "CONFIG_NET";
    token_set_y 155 "CONFIG_NETDEVICES";
    token_set_y 156 "CONFIG_NETLINK_DEV";
    token_set_y 157 "CONFIG_FILTER";
    token_set_y 158 "CONFIG_NET_ETHERNET";
    token_set_y 159 "CONFIG_PACKET";
    token_set_y 160 "CONFIG_SYSVIPC";
    If (notc (isset "CONFIG_RG_RGLOADER")) [
      token_set_y 164 "CONFIG_PROC_FS";
      token_set_m 165 "CONFIG_RG_IPV4" ];
    token_set 169 "CONFIG_RG_KERNEL_COMP_METHOD" "lzma" ];
  If (isset "CONFIG_RG_OS_LINUX") [
    token_set_y 173 "CONFIG_RG_TTYP" ];
  If (isset "CONFIG_RG_OS_LINUX") [
    token_set_y 177 "CONFIG_RG_TARGET_LINUX" ];
  If (isset "CONFIG_RG_OS_VXWORKS") [
    token_set_y 179 "CONFIG_RG_TARGET_VXWORKS" ] ].
