(* ===== verification/HwConfig.v ===== *)
(** * HwConfig: the hardware rules

    pkg/build/hw_config.c: the options each hardware platform turns on, in a
    CONFIG_RG_GPL build, where [dev_add], [token_set_dev_type] and their
    relatives expand to nothing.  The wireless helpers keep their name; the
    device names they are given serve [dev_add] alone and are dropped. *)
From S2P Require Import Prelude ConfigOpt OptionTable Licence InitOptions Rules.

Definition HW_CONFIG_C : string := "hw_config.c".
Abbreviation token_set L tok v := (_token_set HW_CONFIG_C L SET_PRIO_TOKEN_SET tok v []).
Abbreviation token_set_y := (_token_set_y HW_CONFIG_C).
Abbreviation token_set_m := (_token_set_m HW_CONFIG_C).
Abbreviation set_big_endian := (_set_big_endian HW_CONFIG_C).
Abbreviation set_args := (set_args HW_CONFIG_C).

(** hw_config.c:41-62 *)
Definition _ralink_rt256x_add (config : string) : stmt := block [
  If (isset "MODULE_RG_WLAN_AND_ADVANCED_WLAN") [
    token_set_y 46 "CONFIG_80211G_AP_ADVANCED";
    token_set_y 47 "CONFIG_RG_VENDOR_WLAN_SEC";
    token_set_y 48 "CONFIG_RG_RADIUS_WBM_IN_CONN";
    token_set_y 49 "CONFIG_RG_WPA_WBM";
    token_set_y 50 "CONFIG_RG_8021X_WBM";
    If (str_eq config "CONFIG_RALINK_RT2561") [
      token_set_y 52 "CONFIG_RG_WLAN_AUTO_CHANNEL_SELECT" ] ];
  token_set_m 54 config;
  IfElse (isset "CONFIG_RG_JPKG") [
 ]
  [
 ] ].

(** hw_config.c:64-72 *)
Definition ralink_rt2560_add : stmt := _ralink_rt256x_add "CONFIG_RALINK_RT2560".
Definition ralink_rt2561_add : stmt := _ralink_rt256x_add "CONFIG_RALINK_RT2561".

(** hw_config.c:74-95 *)
Definition bcm43xx_add : stmt := block [
  If (isset "MODULE_RG_WLAN_AND_ADVANCED_WLAN") [
    token_set_y 86 "CONFIG_RG_VENDOR_WLAN_SEC";
    token_set_y 87 "CONFIG_RG_8021X_MD5";
    token_set_y 88 "CONFIG_RG_8021X_TLS";
    token_set_y 89 "CONFIG_RG_8021X_TTLS";
    token_set_y 90 "CONFIG_RG_8021X_RADIUS";
    token_set_y 91 "CONFIG_RG_RADIUS_WBM_IN_CONN";
    token_set_y 92 "CONFIG_RG_WPA_WBM";
    token_set_y 93 "CONFIG_RG_WPA_BCM" ] ].

(** hw_config.c:170-184 *)
Definition isl_softmac_add : stmt := block [
  token_set_m 172 "CONFIG_ISL_SOFTMAC";
  If (isset "MODULE_RG_WLAN_AND_ADVANCED_WLAN") [
    token_set_y 178 "CONFIG_RG_VENDOR_WLAN_SEC";
    token_set_y 179 "CONFIG_RG_8021X_MD5";
    token_set_y 180 "CONFIG_RG_8021X_TLS";
    token_set_y 181 "CONFIG_RG_8021X_TTLS";
    token_set_y 182 "CONFIG_RG_8021X_RADIUS" ] ].

(** hw_config.c:97-131 *)
Definition atheros_ar521x_add : stmt := block [
  token_set_y 101 "CONFIG_NET_RADIO";
  token_set_y 102 "CONFIG_NET_WIRELESS";
  If (isset "MODULE_RG_WLAN_AND_ADVANCED_WLAN") [
    token_set_y 106 "CONFIG_80211G_AP_ADVANCED";
    token_set_y 107 "CONFIG_RG_VENDOR_WLAN_SEC";
    token_set_y 108 "CONFIG_RG_RADIUS_WBM_IN_CONN";
    token_set_y 109 "CONFIG_RG_WPA_WBM";
    token_set_y 110 "CONFIG_RG_8021X_WBM";
    token_set_y 111 "CONFIG_RG_WLAN_AUTO_CHANNEL_SELECT";
    token_set_y 112 "CONFIG_RG_HOSTAPD";
    token_set_y 113 "CONFIG_DRIVER_MADWIFI";
    token_set_y 114 "CONFIG_RSN_PREAUTH" ];
  If (isset "CONFIG_RG_JPKG") [] ].

(** hw_config.c:133-168 *)
Definition atheros_ar50wl_add : stmt := block [
  token_set_y 137 "CONFIG_NET_RADIO";
  token_set_y 138 "CONFIG_NET_WIRELESS";
  If (isset "MODULE_RG_WLAN_AND_ADVANCED_WLAN") [
    token_set_y 142 "CONFIG_80211G_AP_ADVANCED";
    token_set_y 143 "CONFIG_80211NG_AP_ADVANCED";
    token_set_y 144 "CONFIG_RG_VENDOR_WLAN_SEC";
    token_set_y 145 "CONFIG_RG_RADIUS_WBM_IN_CONN";
    token_set_y 146 "CONFIG_RG_WPA_WBM";
    token_set_y 147 "CONFIG_RG_8021X_WBM";
    token_set_y 148 "CONFIG_RG_WLAN_AUTO_CHANNEL_SELECT";
    token_set_y 149 "CONFIG_RG_HOSTAPD";
    token_set_y 150 "CONFIG_DRIVER_MADWIFI";
    token_set_y 151 "CONFIG_RSN_PREAUTH" ];
  If (isset "CONFIG_RG_JPKG") [] ].

(** hw_config.c:206-352 *)
Definition hardware_features_1 : list stmt :=
  [
  If (IS_HW "ALLWELL_RTL_RTL") [
    If (isset "CONFIG_HW_ETH_WAN" ||| isset "CONFIG_HW_ETH_LAN") [
      token_set_m 209 "CONFIG_8139TOO" ];
    If (isset "CONFIG_HW_ETH_WAN") [
 ];
    If (isset "CONFIG_HW_ETH_LAN") [
 ];
    If (isset "CONFIG_HW_ETH_LAN2") [
 ];
    token_set_y 220 "CONFIG_PCBOX" ];
  If (IS_HW "WADB100G") [
    token_set_y 225 "CONFIG_BCM963XX_COMMON";
    token_set_y 226 "CONFIG_BCM96348";
    token_set_y 227 "CONFIG_BCM963XX_SERIAL";
    token_set_m 228 "CONFIG_BCM963XX_BOARD";
    token_set_m 230 "CONFIG_BCM963XX_MTD";
    token_set_y 231 "CONFIG_MTD_CFI_AMDSTD";
    token_set 233 "CONFIG_BCM963XX_BOARD_ID" "96348GW-10";
    token_set 234 "CONFIG_BCM963XX_CHIP" "6348";
    token_set 235 "CONFIG_BCM963XX_SDRAM_SIZE" "16";
    token_set_y 237 "CONFIG_PCI";
    If (isset "CONFIG_HW_DSL_WAN") [
      token_set_y 241 "CONFIG_ATM";
      token_set_m 242 "CONFIG_BCM963XX_ADSL";
      token_set_m 243 "CONFIG_BCM963XX_ATM";
      token_set_y 244 "CONFIG_RG_ATM_QOS" ];
    If (isset "CONFIG_HW_ETH_LAN") [
      If (notc (isset "CONFIG_HW_SWITCH_LAN")) [
        token_set_m 254 "CONFIG_BCM963XX_ETH" ] ];
    If (isset "CONFIG_HW_SWITCH_LAN") [
      token_set_m 261 "CONFIG_HW_SWITCH_BCM53XX";
      token_set_m 262 "CONFIG_BCM963XX_ETH" ];
    If (isset "CONFIG_HW_80211G_BCM43XX") [
      token_set_y 268 "CONFIG_BCM963XX_WLAN";
      token_set_y 269 "CONFIG_NET_RADIO";
      token_set_y 270 "CONFIG_NET_WIRELESS";
      bcm43xx_add;
      If (isset "MODULE_RG_WLAN_AND_ADVANCED_WLAN") [
        token_set_y 274 "CONFIG_RG_WPA_BCM" ] ];
    If (isset "CONFIG_HW_USB_RNDIS") [
      token_set_y 279 "CONFIG_USB_RNDIS";
      token_set_m 280 "CONFIG_BCM963XX_USB" ];
    If (isset "CONFIG_HW_LEDS") [
      token_set_y 285 "CONFIG_RG_UIEVENTS" ];
    token_set 287 "BOARD" "WADB100G";
    token_set 288 "FIRM" "Broadcom" ];
  If (IS_HW "PUNDIT") [
    token_set_y 293 "CONFIG_PCBOX";
    token_set 295 "CONFIG_RG_CONSOLE_DEVICE" "console" ];
  If (IS_HW "ASUS6020VI") [
    token_set_y 301 "CONFIG_BCM963XX_COMMON";
    token_set_y 302 "CONFIG_BCM96348";
    token_set_y 303 "CONFIG_BCM963XX_SERIAL";
    token_set_m 304 "CONFIG_BCM963XX_BOARD";
    token_set_m 306 "CONFIG_BCM963XX_MTD";
    token_set_y 307 "CONFIG_MTD_CFI_AMDSTD";
    token_set 309 "CONFIG_BCM963XX_BOARD_ID" "AAM6020VI";
    token_set 310 "CONFIG_BCM963XX_CHIP" "6348";
    token_set 311 "CONFIG_BCM963XX_SDRAM_SIZE" "16";
    token_set_y 313 "CONFIG_PCI";
    If (isset "CONFIG_HW_DSL_WAN") [
      token_set_y 317 "CONFIG_ATM";
      token_set_m 318 "CONFIG_BCM963XX_ADSL";
      token_set_m 319 "CONFIG_BCM963XX_ATM";
      token_set_y 320 "CONFIG_RG_ATM_QOS" ];
    If (isset "CONFIG_HW_SWITCH_LAN") [
      token_set_m 326 "CONFIG_HW_SWITCH_BCM53XX";
      token_set_m 327 "CONFIG_BCM963XX_ETH" ];
    If (isset "CONFIG_HW_ETH_LAN") [
      token_set_m 333 "CONFIG_BCM963XX_ETH" ];
    If (isset "CONFIG_HW_80211G_BCM43XX") [
      token_set_y 339 "CONFIG_NET_RADIO";
      token_set_y 340 "CONFIG_NET_WIRELESS";
      token_set_y 341 "CONFIG_BCM963XX_WLAN";
      token_set_y 342 "CONFIG_BCM963XX_WLAN_4318";
      bcm43xx_add ];
    If (isset "CONFIG_HW_LEDS") [
      token_set_y 348 "CONFIG_RG_UIEVENTS" ];
    token_set 350 "BOARD" "ASUS6020VI";
    token_set 351 "FIRM" "Asus" ] ].

(** hw_config.c:354-478 *)
Definition hardware_features_2 : list stmt :=
  [
  If (IS_HW "WADB102GB") [
    token_set_y 356 "CONFIG_BCM963XX_COMMON";
    token_set_y 357 "CONFIG_BCM96348";
    token_set_y 358 "CONFIG_BCM963XX_SERIAL";
    token_set_m 359 "CONFIG_BCM963XX_BOARD";
    token_set 360 "CONFIG_BCM963XX_BOARD_ID" "WADB102GB";
    token_set 361 "CONFIG_BCM963XX_CHIP" "6348";
    token_set 362 "CONFIG_BCM963XX_SDRAM_SIZE" "16";
    token_set_y 363 "CONFIG_BCM963XX_SIMPLE_FLASH_LAYOUT";
    token_set_y 365 "CONFIG_RG_MTD_DEFAULT_PARTITION";
    token_set 366 "CONFIG_MTD_PHYSMAP_LEN" "0x00400000";
    token_set 367 "CONFIG_MTD_PHYSMAP_START" "0x1FC00000";
    token_set_y 369 "CONFIG_PCI";
    If (isset "CONFIG_HW_DSL_WAN") [
      token_set_y 373 "CONFIG_ATM";
      token_set_m 374 "CONFIG_BCM963XX_ADSL";
      token_set_m 375 "CONFIG_BCM963XX_ATM";
      token_set_y 376 "CONFIG_RG_ATM_QOS" ];
    If (isset "CONFIG_HW_ETH_LAN") [
      token_set_m 382 "CONFIG_BCM963XX_ETH" ];
    If (isset "CONFIG_HW_SWITCH_LAN") [
      token_set_m 388 "CONFIG_HW_SWITCH_BCM53XX";
      token_set_m 389 "CONFIG_BCM963XX_ETH" ];
    If (isset "CONFIG_HW_80211G_BCM43XX") [
      token_set_y 395 "CONFIG_NET_RADIO";
      token_set_y 396 "CONFIG_NET_WIRELESS";
      token_set_y 397 "CONFIG_BCM963XX_WLAN";
      token_set_y 398 "CONFIG_BCM963XX_WLAN_4318";
      bcm43xx_add ];
    If (isset "CONFIG_HW_LEDS") [
      token_set_y 404 "CONFIG_RG_UIEVENTS" ];
    token_set 406 "BOARD" "WADB102GB";
    token_set 407 "FIRM" "Belkin" ];
  If (IS_HW "MPC8272ADS") [
    token_set_y 412 "CONFIG_MPC8272ADS";
    token_set 413 "CONFIG_RG_CONSOLE_DEVICE" "ttyS0";
    token_set 415 "FIRM" "freescale";
    token_set 416 "BOARD" "MPC8272ADS";
    Elif [
      (isset "CONFIG_HW_ETH_FEC", [
        token_set_y 424 "CONFIG_FEC_ENET";
        token_set_y 425 "CONFIG_USE_MDIO";
        token_set_y 426 "CONFIG_FCC_DM9161";
        token_set_y 427 "CONFIG_FCC1_ENET";
        token_set_y 428 "CONFIG_FCC2_ENET" ]);
      (isset "CONFIG_HW_ETH_EEPRO1000", [
        token_set_y 435 "CONFIG_E1000" ]) ]
    [];
    If (isset "CONFIG_HW_USB_STORAGE" ||| isset "MODULE_RG_BLUETOOTH") [
      token_set_y 444 "CONFIG_USB";
      token_set_y 445 "CONFIG_USB_M82XX_HCD" ];
    If (isset "CONFIG_HW_USB_STORAGE") [
      token_set_y 449 "CONFIG_USB_DEVICEFS" ];
    If (isset "MODULE_RG_BLUETOOTH") [
      token_set_y 452 "CONFIG_BT_HCIUSB" ];
    If (isset "CONFIG_HW_80211G_ISL38XX") [
      token_set_m 456 "CONFIG_ISL38XX" ];
    If (isset "CONFIG_HW_80211G_RALINK_RT2560") [
      ralink_rt2560_add;
      token_set 464 "CONFIG_RALINK_RT2560_TIMECSR" "0x40" ];
    If (isset "CONFIG_HW_80211G_RALINK_RT2561") [
      ralink_rt2561_add ];
    If (isset "CONFIG_HW_LEDS") [
      token_set_y 472 "CONFIG_RG_UIEVENTS";
      token_set_m 473 "CONFIG_RG_KLEDS" ];
    If (isset "CONFIG_HW_ENCRYPTION") [
      token_set_y 477 "CONFIG_IPSEC_USE_MPC_CRYPTO" ] ] ].

(** hw_config.c:480-628 *)
Definition hardware_features_3 : list stmt :=
  [
  If (IS_HW "EP8248") [
    token_set_y 482 "CONFIG_EP8248";
    token_set 483 "CONFIG_RG_CONSOLE_DEVICE" "ttyS0";
    token_set 485 "FIRM" "Embedded Planet";
    token_set 486 "BOARD" "EP8248";
    If (isset "CONFIG_HW_ETH_FEC") [
      token_set_y 494 "CONFIG_FEC_ENET";
      token_set_y 495 "CONFIG_USE_MDIO";
      token_set_y 496 "CONFIG_FCC_LXT971";
      token_set_y 497 "CONFIG_FCC1_ENET";
      token_set_y 498 "CONFIG_FCC2_ENET" ];
    If (isset "CONFIG_HW_USB_STORAGE") [
      token_set_y 506 "CONFIG_USB";
      token_set_y 507 "CONFIG_USB_DEVICEFS";
      token_set_y 508 "CONFIG_USB_M82XX_HCD" ];
    If (isset "CONFIG_HW_LEDS") [
      token_set_y 513 "CONFIG_RG_UIEVENTS";
      token_set_m 514 "CONFIG_RG_KLEDS" ] ];
  If (IS_HW "MPC8349ITX") [
    token_set_y 520 "CONFIG_MPC8349_ITX";
    token_set 521 "CONFIG_RG_CONSOLE_DEVICE" "ttyS0";
    token_set 523 "FIRM" "Freescale";
    token_set 524 "BOARD" "mpc8349-itx";
    If (isset "CONFIG_HW_ETH_WAN") [
      token_set_y 529 "CONFIG_GIANFAR";
      token_set_y 530 "CONFIG_CICADA_PHY";
      token_set_y 531 "CONFIG_PHYLIB" ];
    If (isset "CONFIG_HW_ETH_LAN") [
      token_set_y 537 "CONFIG_GIANFAR";
      token_set_y 538 "CONFIG_CICADA_PHY";
      token_set_y 539 "CONFIG_PHYLIB" ];
    If (isset "CONFIG_HW_USB_ETH") [
      token_set_y 546 "CONFIG_USB_GADGET";
      token_set_y 547 "CONFIG_USB_ETH";
      token_set_y 548 "CONFIG_USB_MPC";
      token_set_y 549 "CONFIG_USB_GADGET_MPC";
      token_set_y 550 "CONFIG_USB_GADGET_DUALSPEED";
      token_set_y 551 "CONFIG_USB_ETH_RNDIS" ];
    If (isset "CONFIG_HW_USB_STORAGE") [
      token_set_y 557 "CONFIG_USB";
      token_set_y 558 "CONFIG_USB_EHCI_HCD";
      token_set_y 559 "CONFIG_USB_EHCI_ROOT_HUB_TT";
      token_set_y 560 "CONFIG_USB_DEVICEFS";
      token_set_y 561 "CONFIG_FSL_USB20";
      token_set_y 562 "CONFIG_MPH_USB_SUPPORT";
      token_set_y 563 "CONFIG_MPH0_USB_ENABLE";
      token_set_y 564 "CONFIG_MPH0_ULPI";
      If (notc (isset "CONFIG_USB_MPC")) [
        token_set_y 567 "CONFIG_MPH1_USB_ENABLE";
        token_set_y 568 "CONFIG_MPH1_ULPI" ] ];
    If (isset "CONFIG_HW_80211G_RALINK_RT2560") [
      ralink_rt2560_add;
      token_set 575 "CONFIG_RALINK_RT2560_TIMECSR" "0x40" ];
    If (isset "CONFIG_HW_80211G_RALINK_RT2561") [
      ralink_rt2561_add ];
    If (isset "CONFIG_HW_80211G_RALINK_RT2561") [
      ralink_rt2561_add ];
    If (isset "CONFIG_HW_IDE") [
      token_set_y 586 "CONFIG_SCSI";
      token_set_y 587 "CONFIG_SCSI_SATA";
      token_set_y 588 "CONFIG_SCSI_SATA_SIL" ];
    If (isset "CONFIG_HW_ENCRYPTION") [
      token_set_m 592 "CONFIG_MPC8349E_SEC2x" ] ];
  If (IS_HW "ALLWELL_RTL_RTL_ISL38XX") [
    token_set_m 614 "CONFIG_8139TOO";
    IfElse (isset "CONFIG_RG_RGLOADER") [
 ]
    [
      token_set_m 624 "CONFIG_ISL38XX" ];
    token_set_y 627 "CONFIG_PCBOX" ] ].

(** hw_config.c:630-768 *)
Definition hardware_features_4 : list stmt :=
  [
  If (IS_HW "ALLWELL_RTL_EEP") [
    If (isset "CONFIG_HW_ETH_WAN") [
      token_set_m 634 "CONFIG_8139TOO" ];
    If (isset "CONFIG_HW_ETH_LAN") [
      token_set_m 640 "CONFIG_EEPRO100" ];
    If (isset "CONFIG_HW_ETH_LAN2") [
      token_set_m 646 "CONFIG_8139TOO" ];
    token_set_y 650 "CONFIG_PCBOX" ];
  If (IS_HW "ALLWELL_ATMNULL_RTL") [
    token_set_m 655 "CONFIG_8139TOO";
    token_set_y 656 "CONFIG_ATM";
    token_set_y 657 "CONFIG_ATM_NULL";
    token_set_y 660 "CONFIG_PCBOX" ];
  If (IS_HW "PCBOX_EEP_EEP") [
    If (isset "CONFIG_HW_ETH_WAN" ||| isset "CONFIG_HW_ETH_LAN") [
      token_set_m 666 "CONFIG_EEPRO100" ];
    If (isset "CONFIG_HW_ETH_WAN") [
 ];
    If (isset "CONFIG_HW_ETH_LAN") [
 ];
    If (isset "CONFIG_HW_ETH_LAN2") [
 ];
    token_set_y 677 "CONFIG_PCBOX" ];
  If (IS_HW "CX82100") [
    If (isset "CONFIG_HW_ETH_WAN" ||| isset "CONFIG_HW_ETH_LAN") [
      token_set_m 683 "CONFIG_CNXT_EMAC" ];
    If (isset "CONFIG_HW_ETH_WAN") [
 ];
    If (isset "CONFIG_HW_ETH_LAN") [
 ];
    If (isset "CONFIG_HW_ETH_LAN2") [
 ];
    If (isset "CONFIG_HW_USB_RNDIS") [
      token_set_y 695 "CONFIG_USB_RNDIS" ];
    token_set_y 697 "CONFIG_ARMNOMMU";
    token_set_y 698 "CONFIG_CX821XX_COMMON";
    token_set_y 699 "CONFIG_BD_GOLDENGATE";
    token_set_y 700 "CONFIG_CHIP_CX82100";
    token_set_y 701 "CONFIG_PHY_KS8737";
    token_set 703 "FIRM" "Conexant";
    token_set 704 "BOARD" "CX82100" ];
  If (IS_HW "ADM5120P") [
    token_set_y 709 "CONFIG_ADM5120_COMMON";
    If (isset "CONFIG_HW_ETH_LAN") [
 ];
    If (isset "CONFIG_HW_ETH_WAN") [
 ];
    If (isset "CONFIG_HW_DSP") [
      token_set_m 719 "CONFIG_VINETIC";
      token_set 720 "CONFIG_VINETIC_LINES_PER_CHIP" "2";
      token_set 721 "CONFIG_HW_NUMBER_OF_FXS_PORTS" "2" ] ];
  If (IS_HW "BCM91125E" ||| IS_HW "COLORADO") [
    token_set_y 727 "CONFIG_SIBYTE_SB1250";
    Elif [
      (IS_HW "BCM91125E", [
        token_set_y 731 "CONFIG_SIBYTE_SENTOSA" ]);
      (IS_HW "COLORADO", [
        token_set_y 733 "CONFIG_SIBYTE_COLORADO" ]) ]
    [];
    If (isset "CONFIG_HW_ETH_LAN") [
 ];
    Elif [
      (isset "CONFIG_HW_ETH_WAN", [
 ]);
      (isset "CONFIG_HW_ETH_LAN2", [
 ]) ]
    [];
    token_set_y 743 "CONFIG_MTD";
    token_set_y 744 "CONFIG_MTD_CFI_INTELEXT";
    token_set_y 745 "CONFIG_MTD_CFI_AMDSTD";
    token_set_m 746 "CONFIG_BCM91125E_MTD";
    If (isset "CONFIG_RG_OS_LINUX_26") [
      token_set_y 750 "CONFIG_MTD_MAP_BANK_WIDTH_1";
      token_set_y 751 "CONFIG_MTD_CFI_I1";
      token_set_y 752 "CONFIG_MTD_CFI_UTIL" ] ];
  If (IS_HW "INCAIP_LSP") [
    token_set_y 758 "CONFIG_INCAIP_COMMON";
    token_set_y 760 "CONFIG_RG_VLAN_8021Q";
    token_set_m 761 "CONFIG_INCAIP_SWITCH";
    token_set_m 762 "CONFIG_INCAIP_SWITCH_API";
    token_set_m 763 "CONFIG_INCAIP_ETHERNET";
    token_set_m 764 "CONFIG_INCAIP_KEYPAD";
    token_set_m 765 "CONFIG_INCAIP_DSP";
    token_set_m 766 "CONFIG_VINETIC";
    token_set_m 767 "CONFIG_INCAIP_IOM2" ] ].

(** hw_config.c:770-873 *)
Definition hardware_features_5 : list stmt :=
  [
  If (IS_HW "INCAIP") [
    token_set_y 772 "CONFIG_INCAIP_COMMON";
    If (isset "CONFIG_HW_LEDS") [
      token_set_m 775 "CONFIG_INCAIP_LEDMATRIX" ];
    If (isset "CONFIG_HW_KEYPAD") [
      token_set_m 778 "CONFIG_INCAIP_KEYPAD" ];
    If (isset "CONFIG_HW_DSP") [
      token_set_m 782 "CONFIG_INCAIP_DSP";
      token_set_y 783 "CONFIG_RG_IPPHONE";
      token_set 784 "CONFIG_HW_NUMBER_OF_FXS_PORTS" "1" ];
    If (isset "CONFIG_HW_ETH_WAN") [
 ];
    If (isset "CONFIG_HW_ETH_LAN") [
 ];
    If (isset "CONFIG_HW_ENCRYPTION") [
      token_set_y 794 "CONFIG_INCA_HW_ENCRYPT" ] ];
  If (IS_HW "FLEXTRONICS") [
    token_set 799 "CONFIG_RG_FLASH_LAYOUT_SIZE" "8";
    token_set_y 800 "CONFIG_INCAIP_COMMON";
    token_set_y 801 "CONFIG_INCAIP_FLEXTRONICS";
    token_set_y 802 "CONFIG_RG_DYN_FLASH_LAYOUT";
    If (isset "CONFIG_HW_LEDS") [
      token_set_m 805 "CONFIG_INCAIP_LEDMATRIX" ];
    If (isset "CONFIG_HW_KEYPAD") [
      token_set_m 808 "CONFIG_INCAIP_KEYPAD" ];
    If (isset "CONFIG_HW_DSP") [
      token_set_m 812 "CONFIG_INCAIP_DSP";
      token_set_y 813 "CONFIG_RG_IPPHONE";
      token_set 814 "CONFIG_HW_NUMBER_OF_FXS_PORTS" "1" ];
    If (isset "CONFIG_HW_ETH_WAN") [
 ];
    If (isset "CONFIG_HW_ETH_LAN") [
 ];
    If (isset "CONFIG_HW_ENCRYPTION") [
      token_set_y 824 "CONFIG_INCA_HW_ENCRYPT" ] ];
  If (IS_HW "ALLTEK_VLAN") [
    token_set_y 829 "CONFIG_INCAIP_COMMON";
    token_set_y 830 "CONFIG_INCAIP_ALLTEK";
    If (isset "CONFIG_HW_DSP") [
      token_set_m 834 "CONFIG_VINETIC";
      token_set 835 "CONFIG_VINETIC_LINES_PER_CHIP" "2";
      token_set_m 836 "CONFIG_INCAIP_IOM2";
      token_set 837 "CONFIG_HW_NUMBER_OF_FXS_PORTS" "2" ];
    If (isset "CONFIG_HW_ETH_WAN" ||| isset "CONFIG_HW_ETH_LAN") [
      token_set_y 842 "CONFIG_RG_VLAN_8021Q" ];
    If (isset "CONFIG_HW_ETH_WAN") [
 ];
    If (isset "CONFIG_HW_ETH_LAN") [
 ];
    If (isset "CONFIG_HW_ENCRYPTION") [
      token_set_y 853 "CONFIG_INCA_HW_ENCRYPT" ] ];
  If (IS_HW "ALLTEK") [
    token_set_y 858 "CONFIG_INCAIP_COMMON";
    token_set_y 859 "CONFIG_INCAIP_ALLTEK";
    If (isset "CONFIG_HW_DSP") [
      token_set_m 862 "CONFIG_VINETIC";
      token_set 863 "CONFIG_VINETIC_LINES_PER_CHIP" "2";
      token_set_m 864 "CONFIG_INCAIP_IOM2";
      token_set 865 "CONFIG_HW_NUMBER_OF_FXS_PORTS" "2" ];
    If (isset "CONFIG_HW_ETH_WAN") [
 ];
    If (isset "CONFIG_HW_ENCRYPTION") [
      token_set_y 872 "CONFIG_INCA_HW_ENCRYPT" ] ] ].

(** hw_config.c:875-1005 *)
Definition hardware_features_6 : list stmt :=
  [
  If (IS_HW "RTA770W" ||| IS_HW "GTWX5803") [
    token_set_y 877 "CONFIG_BCM963XX_COMMON";
    token_set_y 878 "CONFIG_BCM96345";
    token_set_y 879 "CONFIG_BCM963XX_SERIAL";
    token_set_m 880 "CONFIG_BCM963XX_BOARD";
    token_set_y 881 "CONFIG_BCM963XX_RGL_FLASH_LAYOUT";
    token_set 882 "CONFIG_BCM963XX_CHIP" "6345";
    token_set 883 "CONFIG_BCM963XX_SDRAM_SIZE" "16";
    IfElse (isset "CONFIG_RG_MTD") [
      token_set_y 887 "CONFIG_RG_MTD_DEFAULT_PARTITION";
      token_set 888 "CONFIG_MTD_PHYSMAP_LEN" "0x00400000";
      token_set 889 "CONFIG_MTD_PHYSMAP_START" "0x1FC00000" ]
    [
      token_set_m 893 "CONFIG_BCM963XX_MTD";
      token_set_y 894 "CONFIG_MTD_CFI_AMDSTD" ];
    If (isset "CONFIG_HW_DSL_WAN") [
      token_set_y 899 "CONFIG_ATM";
      token_set_m 900 "CONFIG_BCM963XX_ADSL";
      token_set_m 901 "CONFIG_BCM963XX_ATM";
      token_set_y 902 "CONFIG_RG_ATM_QOS" ];
    If (isset "CONFIG_HW_ETH_LAN") [
      token_set_m 908 "CONFIG_BCM963XX_ETH" ];
    If (isset "CONFIG_HW_SWITCH_LAN") [
      token_set_m 914 "CONFIG_HW_SWITCH_BCM53XX";
      token_set_m 915 "CONFIG_BCM963XX_ETH" ];
    If (isset "CONFIG_HW_80211G_BCM43XX") [
      token_set_y 921 "CONFIG_BCM963XX_WLAN";
      token_set_y 922 "CONFIG_NET_RADIO";
      token_set_y 923 "CONFIG_NET_WIRELESS";
      bcm43xx_add ];
    If (isset "CONFIG_HW_USB_RNDIS") [
      token_set_y 929 "CONFIG_USB_RNDIS";
      token_set_m 930 "CONFIG_BCM963XX_USB" ];
    If (isset "CONFIG_HW_LEDS") [
      token_set_y 935 "CONFIG_RG_UIEVENTS" ];
    IfElse (IS_HW "RTA770W") [
      token_set 939 "CONFIG_BCM963XX_BOARD_ID" "RTA770W";
      token_set 940 "BOARD" "RTA770W";
      token_set 941 "FIRM" "Belkin" ]
    [
      token_set 945 "CONFIG_BCM963XX_BOARD_ID" "GTWX5803";
      token_set 946 "BOARD" "GTWX5803";
      token_set 947 "FIRM" "Gemtek" ] ];
  If (IS_HW "BCM94702") [
    token_set_y 953 "CONFIG_BCM947_COMMON";
    token_set_y 954 "CONFIG_BCM4702";
    If (isset "CONFIG_HW_ETH_WAN" ||| isset "CONFIG_HW_ETH_LAN") [
      token_set_m 966 "CONFIG_ET";
      token_set_y 967 "CONFIG_ET_47XX" ];
    If (isset "CONFIG_HW_ETH_WAN") [
 ];
    If (isset "CONFIG_HW_ETH_LAN") [
 ];
    token_set 976 "BOARD" "BCM94702";
    token_set 977 "FIRM" "Broadcom" ];
  If (IS_HW "BCM94704") [
    token_set_y 982 "CONFIG_BCM947_COMMON";
    token_set_y 983 "CONFIG_BCM4704";
    If (isset "CONFIG_HW_ETH_WAN" ||| isset "CONFIG_HW_ETH_LAN") [
      token_set_m 987 "CONFIG_ET";
      token_set_y 988 "CONFIG_ET_47XX" ];
    If (isset "CONFIG_HW_ETH_WAN") [
 ];
    If (isset "CONFIG_HW_ETH_LAN") [
 ];
    If (isset "CONFIG_HW_80211G_BCM43XX") [
      token_set_y 999 "CONFIG_NET_RADIO";
      bcm43xx_add ];
    token_set 1003 "BOARD" "BCM94704";
    token_set 1004 "FIRM" "Broadcom" ] ].

(** hw_config.c:1007-1124 *)
Definition hardware_features_7 : list stmt :=
  [
  If (IS_HW "BCM94712") [
    token_set_y 1013 "CONFIG_BCM947_COMMON";
    token_set_y 1014 "CONFIG_BCM4710";
    If (isset "CONFIG_HW_ETH_WAN" ||| isset "CONFIG_HW_ETH_LAN") [
      token_set_m 1018 "CONFIG_ET";
      token_set_y 1019 "CONFIG_ET_47XX";
      token_set_y 1020 "CONFIG_RG_VLAN_8021Q" ];
    If (isset "CONFIG_HW_ETH_WAN") [
 ];
    If (isset "CONFIG_HW_ETH_LAN") [
 ];
    If (isset "CONFIG_HW_80211G_BCM43XX") [
      token_set_y 1031 "CONFIG_NET_RADIO";
      bcm43xx_add ];
    token_set 1035 "BOARD" "BCM94712";
    token_set 1036 "FIRM" "Broadcom" ];
  If (IS_HW "WRT54G") [
    token_set_y 1041 "CONFIG_BCM947_COMMON";
    token_set_y 1042 "CONFIG_BCM947_HW_BUG_HACK";
    If (isset "CONFIG_HW_ETH_WAN" ||| isset "CONFIG_HW_ETH_LAN") [
      token_set_m 1046 "CONFIG_ET";
      token_set_y 1047 "CONFIG_ET_47XX";
      token_set_y 1048 "CONFIG_RG_VLAN_8021Q";
      token_set_y 1049 "CONFIG_VLAN_8021Q_FAST" ];
    If (isset "CONFIG_HW_ETH_WAN") [
 ];
    If (isset "CONFIG_HW_ETH_LAN") [
 ];
    If (isset "CONFIG_HW_80211G_BCM43XX") [
      bcm43xx_add;
      token_set_y 1062 "CONFIG_NET_RADIO" ];
    token_set 1065 "BOARD" "Cybertan";
    token_set 1066 "FIRM" "Cybertan" ];
  If (IS_HW "CENTROID") [
    set_big_endian 1071 false;
    If (isset "CONFIG_HW_ETH_LAN") [
 ];
    If (isset "CONFIG_HW_ETH_WAN") [
 ];
    If (isset "CONFIG_HW_ETH_LAN2") [
 ];
    If (isset "CONFIG_HW_ETH_LAN" ||| isset "CONFIG_HW_ETH_WAN") [
      token_set_m 1087 "CONFIG_SL2312_ETH" ];
    If (isset "CONFIG_HW_ETH_LAN2" &&& isset "CONFIG_HW_ETH_WAN") [
      conf_err IncorrectMTD ];
    If (isset "CONFIG_HW_80211G_ISL38XX") [
      token_set_m 1094 "CONFIG_ISL38XX" ];
    If (isset "CONFIG_HW_80211G_RALINK_RT2560") [
      ralink_rt2560_add ];
    If (isset "CONFIG_HW_80211G_RALINK_RT2561") [
      ralink_rt2561_add ];
    If (isset "CONFIG_HW_USB_STORAGE") [
      token_set_y 1107 "CONFIG_RG_USB";
      token_set_y 1108 "CONFIG_USB_DEVICEFS";
      token_set_m 1109 "CONFIG_USB_OHCI_SL2312" ];
    token_set_y 1112 "CONFIG_ARCH_SL2312";
    token_set_y 1113 "CONFIG_SL2312_ASIC";
    token_set 1114 "CONFIG_RG_CONSOLE_DEVICE" "ttySI0";
    token_set 1115 "CONFIG_SDRAM_SIZE" "64";
    token_set_m 1117 "CONFIG_SL2312_FLASH";
    If (notc (isset "CONFIG_RG_MTD")) [
      token_set_y 1120 "CONFIG_MTD_CFI_AMDSTD" ];
    token_set 1122 "FIRM" "Storlink";
    token_set 1123 "BOARD" "SL2312" ] ].

(** hw_config.c:1126-1260 *)
Definition hardware_features_8 : list stmt :=
  [
  If (IS_HW "IXDP425") [
    token_set_y 1131 "CONFIG_ARCH_IXP425_IXDP425";
    token_set 1132 "CONFIG_IXP425_SDRAM_SIZE" "64";
    token_set 1133 "CONFIG_IXP425_NUMBER_OF_MEM_CHIPS" "4";
    token_set 1134 "CONFIG_RG_CONSOLE_DEVICE" "ttyS0";
    token_set 1136 "FIRM" "Intel";
    token_set 1137 "BOARD" "IXDP425";
    token_set_m 1138 "CONFIG_IXP425_ETH";
    If (isset "CONFIG_HW_ETH_LAN") [
 ];
    If (isset "CONFIG_HW_ETH_LAN2" &&& isset "CONFIG_HW_ETH_WAN") [
      conf_err IncorrectMTD ];
    If (isset "CONFIG_HW_ETH_LAN2") [
 ];
    If (isset "CONFIG_HW_ETH_WAN") [
 ];
    If (isset "CONFIG_HW_DSL_WAN") [
      token_set_y 1155 "CONFIG_ADSL_CHIP_ALCATEL_20150";
      token_set_y 1156 "CONFIG_IXP425_ADSL_USE_MPHY";
      token_set_m 1158 "CONFIG_IXP425_ATM" ];
    If (isset "CONFIG_HW_ENCRYPTION") [
      token_set_y 1164 "CONFIG_IPSEC_USE_IXP4XX_CRYPTO";
      token_set_y 1165 "CONFIG_IPSEC_ENC_AES" ];
    If (isset "CONFIG_HW_USB_RNDIS") [
      token_set_m 1170 "CONFIG_RG_USB_SLAVE";
      token_set_y 1171 "CONFIG_IXP425_CSR_USB" ];
    If (isset "CONFIG_HW_80211G_ISL38XX") [
      token_set_m 1177 "CONFIG_ISL38XX" ] ];
  If (IS_HW "MATECUMBE") [
    token_set_y 1184 "CONFIG_IXP425_COMMON_RG";
    token_set 1188 "CONFIG_IXP425_SDRAM_SIZE" "64";
    token_set 1189 "CONFIG_IXP425_NUMBER_OF_MEM_CHIPS" "4";
    token_set 1190 "CONFIG_RG_CONSOLE_DEVICE" "ttyS0";
    token_set 1191 "CONFIG_IXDP425_KGDB_UART" "1";
    token_set 1192 "CONFIG_RG_FLASH_LAYOUT_SIZE" "16";
    token_set_y 1193 "CONFIG_ARCH_IXP425_MATECUMBE";
    token_set_y 1194 "CONFIG_IXP425_CSR_USB";
    If (isset "CONFIG_HW_ETH_WAN" ||| isset "CONFIG_HW_ETH_LAN") [
      token_set_m 1197 "CONFIG_IXP425_ETH" ];
    If (isset "CONFIG_HW_ETH_WAN") [
 ];
    If (isset "CONFIG_HW_ETH_LAN") [
 ];
    If (isset "CONFIG_HW_ETH_LAN2") [
 ];
    If (isset "CONFIG_HW_USB_RNDIS") [
      token_set_m 1210 "CONFIG_RG_USB_SLAVE" ];
    token_set 1214 "FIRM" "Intel";
    token_set 1215 "BOARD" "IXDP425";
    token_set 1218 "CONFIG_IXP425_FLASH_E28F128J3" "m" ];
  If (IS_HW "KINGSCANYON") [
    token_set_y 1223 "CONFIG_IXP425_COMMON_RG";
    token_set 1224 "CONFIG_IXP425_SDRAM_SIZE" "64";
    token_set 1225 "CONFIG_IXP425_NUMBER_OF_MEM_CHIPS" "4";
    token_set 1226 "CONFIG_RG_CONSOLE_DEVICE" "ttyS0";
    token_set_y 1227 "CONFIG_IXP425_CSR_USB";
    token_set_y 1228 "CONFIG_ARCH_IXP425_KINGSCANYON";
    token_set 1229 "CONFIG_RG_FLASH_LAYOUT_SIZE" "16";
    If (isset "CONFIG_HW_ETH_WAN" ||| isset "CONFIG_HW_ETH_LAN") [
      token_set_m 1232 "CONFIG_IXP425_ETH" ];
    If (isset "CONFIG_HW_ETH_WAN") [
 ];
    If (isset "CONFIG_HW_ETH_LAN") [
 ];
    If (isset "CONFIG_HW_ETH_LAN2") [
 ];
    If (isset "CONFIG_HW_USB_RNDIS") [
      token_set_m 1245 "CONFIG_RG_USB_SLAVE" ];
    If (isset "CONFIG_HW_80211G_ISL38XX") [
      token_set_m 1251 "CONFIG_ISL38XX" ];
    token_set 1255 "FIRM" "Interface_Masters";
    token_set 1256 "BOARD" "KINGSCANYON";
    token_set 1259 "CONFIG_IXP425_FLASH_E28F128J3" "m" ] ].

(** hw_config.c:1262-1385 *)
Definition hardware_features_9 : list stmt :=
  [
  If (IS_HW "ROCKAWAYBEACH") [
    token_set_y 1264 "CONFIG_IXP425_COMMON_RG";
    token_set 1265 "CONFIG_IXP425_SDRAM_SIZE" "32";
    token_set 1266 "CONFIG_IXP425_NUMBER_OF_MEM_CHIPS" "2";
    token_set 1267 "CONFIG_RG_CONSOLE_DEVICE" "ttyS1";
    token_set 1268 "CONFIG_IXDP425_KGDB_UART" "1";
    token_set_y 1269 "CONFIG_ARCH_IXP425_ROCKAWAYBEACH";
    token_set 1270 "CONFIG_RG_FLASH_LAYOUT_SIZE" "16";
    token_set 1271 "CONFIG_FILESERVER_KERNEL_CONFIG" "USB";
    If (isset "CONFIG_HW_ETH_WAN" ||| isset "CONFIG_HW_ETH_LAN") [
      token_set_m 1274 "CONFIG_IXP425_ETH" ];
    If (isset "CONFIG_HW_ETH_WAN") [
 ];
    If (isset "CONFIG_HW_ETH_LAN") [
 ];
    If (isset "CONFIG_HW_ETH_LAN2") [
 ];
    If (isset "CONFIG_HW_USB_RNDIS") [
      token_set_y 1287 "CONFIG_IXP425_CSR_USB";
      token_set_m 1288 "CONFIG_RG_USB_SLAVE" ];
    If (isset "CONFIG_HW_80211G_ISL38XX") [
      token_set_m 1294 "CONFIG_ISL38XX" ];
    token_set 1298 "FIRM" "Intel";
    token_set 1299 "BOARD" "ROCKAWAYBEACH";
    token_set 1302 "CONFIG_IXP425_FLASH_E28F128J3" "m" ];
  If (IS_HW "WAV54G") [
    token_set_y 1307 "CONFIG_IXP425_COMMON_RG";
    token_set_y 1308 "CONFIG_ARCH_IXP425_WAV54G";
    token_set 1309 "CONFIG_IXP425_SDRAM_SIZE" "32";
    token_set 1310 "CONFIG_IXP425_NUMBER_OF_MEM_CHIPS" "2";
    token_set 1311 "CONFIG_RG_CONSOLE_DEVICE" "ttyS0";
    token_set 1312 "CONFIG_IXDP425_KGDB_UART" "1";
    token_set_y 1313 "CONFIG_ADSL_CHIP_ALCATEL_20170";
    token_set_y 1314 "CONFIG_IXP425_ADSL_USE_SPHY";
    token_set_y 1317 "CONFIG_RG_VLAN_8021Q";
    If (isset "CONFIG_HW_ETH_LAN") [
      token_set_m 1320 "CONFIG_IXP425_ETH" ];
    If (isset "CONFIG_HW_DSL_WAN") [
      token_set_m 1324 "CONFIG_IXP425_ATM" ];
    If (isset "CONFIG_HW_ETH_LAN") [
 ];
    If (isset "CONFIG_HW_80211G_ISL38XX") [
      token_set_m 1333 "CONFIG_ISL38XX" ];
    token_set 1338 "FIRM" "Cybertan";
    token_set 1339 "BOARD" "WAV54G";
    token_set 1342 "CONFIG_IXP425_FLASH_E28F640J3" "m";
    token_set_y 1346 "CONFIG_RG_RMT_UPGRADE_IMG_IN_MEM" ];
  If (IS_HW "NAPA") [
    token_set_y 1351 "CONFIG_IXP425_COMMON_RG";
    token_set_y 1352 "CONFIG_ARCH_IXP425_NAPA";
    token_set 1353 "CONFIG_IXP425_SDRAM_SIZE" "64";
    token_set 1354 "CONFIG_IXP425_NUMBER_OF_MEM_CHIPS" "4";
    token_set 1355 "CONFIG_RG_CONSOLE_DEVICE" "ttyS0";
    token_set 1356 "CONFIG_IXDP425_KGDB_UART" "0";
    If (isset "CONFIG_HW_ETH_WAN" ||| isset "CONFIG_HW_ETH_LAN") [
      token_set_m 1359 "CONFIG_IXP425_ETH" ];
    If (isset "CONFIG_HW_ETH_WAN") [
 ];
    If (isset "CONFIG_HW_ETH_LAN") [
 ];
    If (isset "CONFIG_HW_ETH_LAN2") [
 ];
    If (isset "CONFIG_HW_USB_RNDIS") [
      token_set_y 1372 "CONFIG_IXP425_CSR_USB";
      token_set_m 1373 "CONFIG_RG_USB_SLAVE" ];
    token_set 1377 "FIRM" "Sohoware";
    token_set 1378 "BOARD" "NAPA";
    token_set 1381 "CONFIG_IXP425_FLASH_E28F128J3" "m";
    token_set_y 1383 "CONFIG_RG_UIEVENTS";
    token_set_m 1384 "CONFIG_RG_KLEDS" ] ].

(** hw_config.c:1387-1511 *)
Definition hardware_features_10 : list stmt :=
  [
  If (IS_HW "COYOTE") [
    token_set_y 1389 "CONFIG_IXP425_COMMON_RG";
    token_set_y 1390 "CONFIG_ARCH_IXP425_COYOTE";
    If (notc (isset "CONFIG_RG_FLASH_LAYOUT_SIZE")) [
      token_set 1392 "CONFIG_RG_FLASH_LAYOUT_SIZE" "16" ];
    If (notc (isset "CONFIG_IXP425_SDRAM_SIZE")) [
      token_set 1394 "CONFIG_IXP425_SDRAM_SIZE" "32" ];
    token_set 1395 "CONFIG_IXP425_NUMBER_OF_MEM_CHIPS" "2";
    token_set 1396 "CONFIG_RG_CONSOLE_DEVICE" "ttyS1";
    token_set 1397 "CONFIG_IXDP425_KGDB_UART" "1";
    If (isset "CONFIG_HW_ETH_WAN") [
      token_set_m 1401 "CONFIG_IXP425_ETH" ];
    If (isset "CONFIG_HW_LEDS") [
      token_set_y 1407 "CONFIG_RG_UIEVENTS";
      token_set_m 1408 "CONFIG_RG_KLEDS" ];
    If (isset "CONFIG_HW_HSS_WAN") [
      token_set_y 1412 "CONFIG_RG_HSS" ];
    If (isset "CONFIG_HW_DSL_WAN") [
      token_set_y 1417 "CONFIG_ADSL_CHIP_ALCATEL_20170";
      token_set_y 1418 "CONFIG_IXP425_ADSL_USE_SPHY";
      token_set_m 1420 "CONFIG_IXP425_ATM" ];
    If (isset "CONFIG_HW_ETH_LAN") [
      token_set_m 1426 "CONFIG_IXP425_ETH" ];
    If (isset "CONFIG_HW_ETH_LAN2" &&& isset "CONFIG_HW_ETH_WAN") [
      conf_err IncorrectMTD ];
    If (isset "CONFIG_HW_ETH_LAN2") [
      token_set_m 1435 "CONFIG_IXP425_ETH" ];
    If (isset "CONFIG_HW_ETH_EEPRO100_LAN") [
      token_set_m 1441 "CONFIG_EEPRO100" ];
    If (isset "CONFIG_HW_USB_RNDIS") [
      token_set_m 1447 "CONFIG_RG_USB_SLAVE";
      token_set_y 1448 "CONFIG_IXP425_CSR_USB" ];
    If (isset "CONFIG_HW_80211G_ISL38XX") [
      token_set_m 1454 "CONFIG_ISL38XX" ];
    If (isset "CONFIG_HW_80211G_ISL_SOFTMAC") [
      isl_softmac_add ];
    If (isset "CONFIG_HW_80211B_PRISM2") [
      token_set_m 1464 "CONFIG_PRISM2_PCI" ];
    If (isset "CONFIG_HW_80211G_RALINK_RT2560") [
      ralink_rt2560_add ];
    If (isset "CONFIG_HW_80211G_RALINK_RT2561") [
      ralink_rt2561_add ];
    If (isset "CONFIG_HW_DSP") [
      token_set_y 1476 "CONFIG_IXP425_DSR";
      token_set 1477 "CONFIG_HW_NUMBER_OF_FXS_PORTS" "2" ];
    If (isset "CONFIG_HW_EEPROM") [
      token_set 1481 "CONFIG_PCF8594C2" "m" ];
    If (isset "CONFIG_HW_ENCRYPTION") [
      token_set_y 1485 "CONFIG_IPSEC_USE_IXP4XX_CRYPTO";
      token_set_y 1486 "CONFIG_IPSEC_ENC_AES" ];
    If (isset "CONFIG_IXP425_CSR_FULL") [
      token_set_y 1492 "CONFIG_ADSL_CHIP_ALCATEL_20170";
      token_set_y 1493 "CONFIG_IXP425_ADSL_USE_SPHY" ];
    token_set 1496 "FIRM" "Intel";
    token_set 1497 "BOARD" "COYOTE";
    token_set 1500 "CONFIG_IXP425_FLASH_E28F128J3" "m";
    If (isset "CONFIG_HW_IDE") [
      token_set_y 1505 "CONFIG_IDE";
      token_set_y 1506 "CONFIG_BLK_DEV_IDE";
      token_set_y 1507 "CONFIG_BLK_DEV_IDEDISK";
      token_set_y 1508 "CONFIG_IDEDISK_MULTI_MODE";
      token_set_y 1509 "CONFIG_RG_IDE_NON_BLOCKING" ] ] ].

(** hw_config.c:1513-1608 *)
Definition hardware_features_11 : list stmt :=
  [
  If (IS_HW "MONTEJADE") [
    token_set_y 1515 "CONFIG_IXP425_COMMON_RG";
    token_set_y 1516 "CONFIG_ARCH_IXP425_MONTEJADE";
    token_set 1517 "CONFIG_RG_FLASH_LAYOUT_SIZE" "16";
    token_set 1518 "CONFIG_IXP425_SDRAM_SIZE" "32";
    token_set 1519 "CONFIG_IXP425_NUMBER_OF_MEM_CHIPS" "2";
    token_set 1520 "CONFIG_RG_CONSOLE_DEVICE" "ttyS0";
    token_set 1521 "CONFIG_IXDP425_KGDB_UART" "0";
    If (isset "CONFIG_HW_ETH_WAN") [
      token_set_m 1525 "CONFIG_IXP425_ETH" ];
    If (isset "CONFIG_HW_DSL_WAN") [
      token_set_y 1531 "CONFIG_HW_ST_20190";
      token_set_y 1532 "CONFIG_IXP425_ADSL_USE_SPHY";
      token_set_m 1534 "CONFIG_IXP425_ATM" ];
    If (isset "CONFIG_HW_ETH_LAN") [
      token_set_m 1540 "CONFIG_IXP425_ETH" ];
    If (isset "CONFIG_HW_SWITCH_LAN") [
      token_set_m 1546 "CONFIG_IXP425_ETH" ];
    If (isset "CONFIG_HW_ETH_LAN2" &&& isset "CONFIG_HW_ETH_WAN") [
      conf_err IncorrectMTD ];
    If (isset "CONFIG_HW_ETH_LAN2") [
      token_set_m 1555 "CONFIG_IXP425_ETH" ];
    If (isset "CONFIG_HW_USB_RNDIS") [
      token_set_m 1561 "CONFIG_RG_USB_SLAVE";
      token_set_y 1562 "CONFIG_IXP425_CSR_USB" ];
    If (isset "CONFIG_HW_80211G_ISL38XX") [
      token_set_m 1568 "CONFIG_ISL38XX" ];
    If (isset "CONFIG_HW_80211G_RALINK_RT2560") [
      ralink_rt2560_add ];
    If (isset "CONFIG_HW_80211G_RALINK_RT2561") [
      ralink_rt2561_add ];
    If (isset "CONFIG_HW_80211N_AIRGO_AGN100") [
      token_set_y 1581 "CONFIG_80211G_AP_ADVANCED";
      token_set_y 1582 "CONFIG_RG_VENDOR_WLAN_SEC";
      token_set_y 1583 "CONFIG_RG_WPA_WBM";
      token_set_y 1584 "CONFIG_RG_8021X_WBM";
      token_set_m 1585 "CONFIG_AGN100";
      token_set_y 1586 "CONFIG_NETFILTER" ];
    If (isset "CONFIG_HW_ENCRYPTION") [
      token_set_y 1593 "CONFIG_IPSEC_USE_IXP4XX_CRYPTO";
      token_set_y 1594 "CONFIG_IPSEC_ENC_AES" ];
    If (isset "CONFIG_HW_DSP") [
      token_set_y 1599 "CONFIG_IXP425_DSR";
      token_set 1600 "CONFIG_HW_NUMBER_OF_FXS_PORTS" "4" ];
    token_set 1603 "FIRM" "Intel";
    token_set 1604 "BOARD" "MONTEJADE";
    token_set 1607 "CONFIG_IXP425_FLASH_E28F640J3" "m" ] ].

(** hw_config.c:1610-1729 *)
Definition hardware_features_12 : list stmt :=
  [
  If (IS_HW "JIWIS800" ||| IS_HW "JIWIS832" ||| IS_HW "JIWIS832FL") [
    Elif [
      (IS_HW "JIWIS800", [
        token_set_y 1615 "CONFIG_ARCH_IXP425_JIWIS800";
        token_set 1616 "BOARD" "JI-WIS 800" ]);
      (IS_HW "JIWIS832", [
        token_set_y 1620 "CONFIG_ARCH_IXP425_JIWIS832";
        token_set 1621 "BOARD" "JI-WIS 832" ]);
      (IS_HW "JIWIS832FL", [
        token_set_y 1625 "CONFIG_ARCH_IXP425_JIWIS832";
        token_set 1626 "BOARD" "JI-WIS 832FL" ]) ]
    [];
    token_set 1629 "CONFIG_IXP425_SDRAM_SIZE" "128";
    token_set 1630 "CONFIG_IXP425_NUMBER_OF_MEM_CHIPS" "4";
    token_set 1631 "CONFIG_RG_CONSOLE_DEVICE" "ttyS0";
    token_set 1632 "CONFIG_IXDP425_KGDB_UART" "1";
    If (isset "CONFIG_HW_ETH_WAN") [
      token_set_m 1636 "CONFIG_IXP425_ETH" ];
    If (isset "CONFIG_HW_DSL_WAN") [
      token_set_y 1642 "CONFIG_HW_ST_20190";
      token_set_y 1643 "CONFIG_IXP425_ADSL_USE_SPHY";
      token_set_m 1645 "CONFIG_IXP425_ATM" ];
    If (isset "CONFIG_HW_ETH_LAN") [
      token_set_m 1651 "CONFIG_IXP425_ETH" ];
    If (isset "CONFIG_HW_SWITCH_LAN") [
      token_set_m 1657 "CONFIG_IXP425_ETH" ];
    If (isset "CONFIG_HW_ETH_LAN2" &&& isset "CONFIG_HW_ETH_WAN") [
      conf_err IncorrectMTD ];
    If (isset "CONFIG_HW_ETH_LAN2") [
      token_set_m 1666 "CONFIG_IXP425_ETH" ];
    If (isset "CONFIG_HW_80211G_ISL38XX") [
      token_set_m 1672 "CONFIG_ISL38XX" ];
    If (isset "CONFIG_HW_80211G_RALINK_RT2560") [
      ralink_rt2560_add ];
    If (isset "CONFIG_HW_80211N_AIRGO_AGN100") [
      token_set_y 1682 "CONFIG_80211G_AP_ADVANCED";
      token_set_y 1683 "CONFIG_RG_VENDOR_WLAN_SEC";
      token_set_y 1684 "CONFIG_RG_WPA_WBM";
      token_set_y 1685 "CONFIG_RG_8021X_WBM";
      token_set_m 1686 "CONFIG_AGN100";
      token_set_y 1687 "CONFIG_NETFILTER" ];
    If (isset "CONFIG_HW_ENCRYPTION") [
      token_set_y 1694 "CONFIG_IPSEC_USE_IXP4XX_CRYPTO";
      token_set_y 1695 "CONFIG_IPSEC_ENC_AES" ];
    If (isset "CONFIG_HW_DSP") [
      Elif [
        (IS_HW "JIWIS800", [
          token_set_y 1702 "CONFIG_IXP425_DSR";
          token_set 1703 "CONFIG_HW_NUMBER_OF_FXS_PORTS" "4" ]);
        (IS_HW "JIWIS832", [
 ]);
        (IS_HW "JIWIS832FL", [
 ]) ]
      [] ];
    If (isset "CONFIG_HW_LEDS") [
      token_set_y 1721 "CONFIG_RG_UIEVENTS";
      token_set_m 1722 "CONFIG_RG_KLEDS" ];
    token_set 1725 "FIRM" "JStream";
    token_set 1728 "CONFIG_IXP425_FLASH_E28F128J3" "m" ] ].

(** hw_config.c:1731-1830 *)
Definition hardware_features_13 : list stmt :=
  [
  If (IS_HW "BRUCE") [
    token_set_y 1733 "CONFIG_IXP425_COMMON_RG";
    token_set_y 1734 "CONFIG_ARCH_IXP425_BRUCE";
    If (notc (isset "CONFIG_RG_FLASH_LAYOUT_SIZE")) [
      token_set 1736 "CONFIG_RG_FLASH_LAYOUT_SIZE" "16" ];
    token_set 1737 "CONFIG_IXP425_SDRAM_SIZE" "128";
    token_set 1738 "CONFIG_SDRAM_SIZE" "128";
    token_set 1739 "CONFIG_IXP425_NUMBER_OF_MEM_CHIPS" "2";
    token_set 1741 "CONFIG_RG_CONSOLE_DEVICE" "ttyS0";
    token_set 1742 "CONFIG_IXDP425_KGDB_UART" "0";
    If (isset "CONFIG_HW_ETH_WAN") [
      token_set_m 1746 "CONFIG_IXP425_ETH" ];
    If (isset "CONFIG_HW_ETH_LAN") [
      token_set_m 1752 "CONFIG_IXP425_ETH" ];
    If (isset "CONFIG_HW_ETH_LAN2" &&& isset "CONFIG_HW_ETH_WAN") [
      conf_err Eth2AndWan ];
    If (isset "CONFIG_HW_ETH_LAN2") [
      token_set_m 1765 "CONFIG_IXP425_ETH" ];
    If (isset "CONFIG_HW_80211G_ISL38XX") [
      token_set_m 1771 "CONFIG_ISL38XX" ];
    If (isset "CONFIG_HW_EEPROM") [
      token_set 1777 "CONFIG_PCF8594C2" "m" ];
    If (isset "CONFIG_HW_ENCRYPTION") [
      token_set_y 1781 "CONFIG_IPSEC_USE_IXP4XX_CRYPTO";
      token_set_y 1782 "CONFIG_IPSEC_ENC_AES" ];
    token_set 1785 "FIRM" "Jabil";
    token_set 1786 "BOARD" "Bruce";
    token_set 1789 "CONFIG_IXP425_FLASH_E28F128J3" "m";
    If (isset "CONFIG_HW_IDE") [
      token_set_y 1794 "CONFIG_IDE";
      token_set_y 1795 "CONFIG_BLK_DEV_IDE";
      token_set_y 1796 "CONFIG_BLK_DEV_IDEDISK";
      token_set_y 1797 "CONFIG_BLK_DEV_IDECD";
      token_set_y 1798 "CONFIG_BLK_DEV_IDEPCI";
      token_set_y 1799 "CONFIG_BLK_DEV_IDEDMA";
      token_set_y 1800 "CONFIG_BLK_DEV_IDEDMA_PCI";
      token_set_y 1801 "CONFIG_BLK_DEV_OFFBOARD";
      token_set_y 1802 "CONFIG_BLK_DEV_SIIMAGE" ];
    If (isset "CONFIG_HW_LEDS") [
      token_set_y 1807 "CONFIG_RG_UIEVENTS";
      token_set_m 1808 "CONFIG_RG_KLEDS" ];
    If (isset "CONFIG_HW_I2C") [
      token_set_y 1814 "CONFIG_I2C";
      token_set_y 1815 "CONFIG_I2C_ALGOBIT";
      token_set_y 1816 "CONFIG_I2C_IXP425" ];
    If (isset "CONFIG_HW_CLOCK") [
      token_set_m 1821 "CONFIG_I2C_DS1374" ];
    If (isset "CONFIG_HW_ENV_MONITOR") [
      token_set_m 1825 "CONFIG_I2C_LM81" ];
    token_set_m 1828 "CONFIG_ARCH_IXP425_BRUCE_CPLD" ] ].

(** hw_config.c:1832-2086 *)
Definition hardware_features_14 : list stmt :=
  [
  If (IS_HW "TWINPASS" ||| IS_HW "ULTRALINE3_TWINPASS") [
    token_set_y 1834 "CONFIG_INFINEON_TWINPASS";
    Elif [
      (IS_HW "TWINPASS", [
        IfElse (notc (isy "CONFIG_INFINEON_PPE_D4")) [
          token_set_y 1840 "CONFIG_DANUBE_ETHERNET_D2" ]
        [
          token_set_m 1844 "CONFIG_DANUBE_ETHERNET_D4" ];
        token_set_y 1846 "CONFIG_ADM6996_SUPPORT";
        token_set_y 1847 "CONFIG_SWITCH_ADM6996I";
        token_set_y 1848 "CONFIG_SWITCH_ADM6996_MDIO";
        token_set_y 1850 "CONFIG_WESTELL_MGMUT_FTM";
        If (isset "CONFIG_HW_ETH_LAN") [
 ];
        If (isset "CONFIG_HW_ETH_WAN") [
 ] ]);
      (IS_HW "ULTRALINE3_TWINPASS", [
        token_set_y 1860 "CONFIG_WESTELL_ULTRALINE3";
        token_set_y 1861 "CONFIG_WESTELL_MGMUT_FTM";
        IfElse (notc (isy "CONFIG_INFINEON_PPE_D4")) [
          token_set_y 1864 "CONFIG_DANUBE_ETHERNET_D2" ]
        [
          token_set_m 1868 "CONFIG_DANUBE_ETHERNET_D4" ];
        IfElse (isset "CONFIG_HW_TURBO_DUAL_MOCA" ||| isset "CONFIG_HW_TURBO_M100") [
          token_set_y 1873 "CONFIG_TANTOS_PSB6973";
          token_set_y 1874 "CONFIG_RG_DEV_IF_PSB6973_HW_SWITCH";
          token_set_y 1875 "CONFIG_RG_DEV_IF_PSB6973_HW_WAN_SWITCH";
          token_set_y 1876 "CONFIG_WSTL_WATCHDOG_CPLD" ]
        [
          token_set_y 1879 "CONFIG_MARVELL_88E60XX" ];
        If (isset "CONFIG_HW_ETH_LAN") [
          IfElse (isset "CONFIG_TANTOS_PSB6973") [
 ]
          [
 ] ];
        If (isset "CONFIG_HW_ETH_WAN" |||
            isset "CONFIG_HW_VDSL_WAN" |||
            isset "CONFIG_HW_MOCA_WAN" |||
            isset "CONFIG_HW_WAN_ETHERNET") [
          IfElse (isset "CONFIG_TANTOS_PSB6973") [
 ]
          [
 ] ];
        If (isset "CONFIG_HW_VDSL_WAN") [
 ];
        If (isset "CONFIG_HW_MOCA_WAN") [
          IfElse (isset "CONFIG_HW_WAN_ETHERNET" ||| isset "CONFIG_HW_DEF_TO_WAN_ETH") [
 ]
          [
 ] ];
        If (isset "CONFIG_HW_WAN_ETHERNET") [
 ];
        IfElse (isset "CONFIG_HW_MOCA_WAN") [
 ]
        [
 ];
        token_set_y 1938 "CONFIG_PCI";
        If (isset "CONFIG_HW_80211G_RALINK_RT2560") [
          ralink_rt2560_add ];
        If (isset "CONFIG_HW_MOCA") [
          Elif [
            (isset "CONFIG_HW_TURBO_DUAL_MOCA", [
              token_set_y 1946 "MOCA_TURBO_LAN";
              IfElse (isset "MOCA_VERSION_1_1") [
                token_set_y 1949 "MOCA_ENTROPIC_TURBO" ]
              [
                token_set_y 1953 "MOCA_ENTROPIC_V_04" ] ]);
            (isset "CONFIG_HW_DUAL_MOCA", [
              token_set_y 1958 "MOCA_ENTROPIC_V_04" ]) ]
          [];
          token_set_y 1963 "CONFIG_WSTL_MOCA_CHANGE";
          token_set_y 1964 "CONFIG_ENTROPIC_CLINK";
          IfElse (isset "CONFIG_HW_MOCA_WAN") [
 ]
          [
 ] ];
        If (isset "CONFIG_HW_USB_STORAGE") [
          token_set_y 1982 "CONFIG_GENERIC_ISA_DMA";
          token_set_y 1983 "CONFIG_USB";
          token_set_y 1984 "CONFIG_USB_STORAGE";
          token_set_y 1985 "CONFIG_USB_DEVICEFS";
          token_set_y 1986 "CONFIG_USB_EHCI_HCD";
          token_set_m 1988 "CONFIG_USB_DWC_OTG_HCD";
          token_set_y 1989 "CONFIG_USB_SERIAL";
          token_set_y 1990 "CONFIG_USB_SERIAL_PL2303";
          token_set_y 1991 "CONFIG_USB_SERIAL_SPCP8X5";
          If (isset "CONFIG_HW_TURBO_M100") [
            token_set_y 1995 "CONFIG_WSTL_USBHUBOVERCURRENT_CPLD" ];
          If (isset "CONFIG_HW_DUAL_MOCA") [
            token_set_y 1999 "CONFIG_WSTL_USBHOSTOVERCURRENT_GPIO" ] ] ]) ]
    [];
    If (isset "CONFIG_RG_FASTPATH") [
      token_set_y 2006 "CONFIG_RG_FASTPATH_PLAT_TWINPASS";
      token_set 2007 "CONFIG_RG_FASTPATH_PLAT_PATH" "vendor/infineon/twinpass/rg_modules";
      token_set_m 2009 "CONFIG_DANUBE_PPA";
      If (isy "CONFIG_INFINEON_PPE_D4") [
        token_set_y 2013 "CONFIG_DANUBE_PPA_D4" ] ];
    IfElse (isset "CONFIG_HW_80211G_ATHEROS_AR521X") [
      atheros_ar521x_add;
      If (isset "CONFIG_HW_80211N_ATHEROS_AR50WL") [
        atheros_ar50wl_add ] ]
    [
      If (isset "CONFIG_HW_80211N_ATHEROS_AR50WL") [
        atheros_ar50wl_add ] ];
    If (isset "CONFIG_HW_VDSL_WAN") [
      If (notc (isy "CONFIG_RG_INFINEON_VDSL")) [
        token_set_y 2046 "CONFIG_RG_IKANOS_VDSL" ];
      token_set_y 2049 "CONFIG_RG_THREADS" ];
    If (isset "CONFIG_HW_MOCA_WAN") [
      token_set_y 2053 "CONFIG_RG_MOCA_WAN" ];
    If (isset "CONFIG_HW_WAN_ETHERNET") [
      token_set_y 2057 "CONFIG_RG_WAN_ETHERNET" ];
    If (isset "CONFIG_HW_LEDS") [
      token_set_y 2062 "CONFIG_RG_UIEVENTS";
      token_set_m 2063 "CONFIG_RG_KLEDS" ];
    token_set_y 2067 "CONFIG_MTD";
    token_set_y 2068 "CONFIG_MTD_CFI_ADV_OPTIONS";
    token_set_y 2069 "CONFIG_MTD_CFI_NOSWAP";
    token_set_y 2070 "CONFIG_MTD_CFI_GEOMETRY";
    token_set_y 2071 "CONFIG_MTD_CFI_B2";
    token_set_y 2072 "CONFIG_MTD_CFI_I1";
    token_set_y 2073 "CONFIG_MTD_CFI_AMDSTD";
    token_set 2074 "CONFIG_MTD_CFI_AMDSTD_RETRY" "0";
    token_set_y 2075 "CONFIG_MTD_CFI_UTIL";
    If (isset "CONFIG_HW_ENCRYPTION") [
      token_set_m 2079 "CONFIG_CRYPTO_DANUBE";
      token_set_y 2080 "CONFIG_CRYPTO_DEV_DANUBE";
      token_set_y 2081 "CONFIG_CRYPTO_DEV_DANUBE_DES";
      token_set_y 2082 "CONFIG_CRYPTO_DEV_DANUBE_AES";
      token_set_y 2083 "CONFIG_CRYPTO_DEV_DANUBE_SHA1";
      token_set_y 2084 "CONFIG_CRYPTO_DEV_DANUBE_MD5" ] ] ].

(** hw_config.c:2088-2218 *)
Definition hardware_features_15 : list stmt :=
  [
  If (IS_HW "AD6834") [
    token_set_y 2092 "CONFIG_MACH_ADI_FUSIV";
    token_set_y 2094 "CONFIG_CPU_LX4189";
    token_set_y 2095 "CONFIG_ADI_6843";
    token_set_y 2096 "CONFIG_PCI";
    token_set_y 2097 "CONFIG_NEW_PCI";
    token_set_y 2098 "CONFIG_PCI_AUTO";
    token_set 2100 "CONFIG_SDRAM_SIZE" "32";
    token_set 2101 "CONFIG_RG_FLASH_LAYOUT_SIZE" "8";
    token_set_y 2103 "CONFIG_ADI_6843_RG1";
    If (isset "CONFIG_HW_ETH_LAN") [
      IfElse (notc (os_is "LINUX_26")) [
        token_set_y 2107 "CONFIG_ETH_NETPRO_SIERRA" ]
      [
        token_set_y 2109 "CONFIG_ADI_FUSIV_ETHERNET" ] ];
    If (isset "CONFIG_HW_ETH_WAN") [
      token_set_y 2116 "CONFIG_ETH_NETPRO_SIERRA" ];
    If (isset "CONFIG_HW_DSL_WAN") [
      token_set_y 2122 "CONFIG_ATM";
      If (notc (os_is "LINUX_26")) [
        token_set_y 2124 "CONFIG_ZLIB_INFLATE" ];
      token_set_y 2125 "CONFIG_RG_ATM_QOS" ];
    token_set 2129 "BOARD" "AD6834";
    token_set 2130 "FIRM" "Analog Devices";
    If (isset "CONFIG_HW_USB_RNDIS") [
      token_set_y 2134 "CONFIG_USB_RNDIS";
      token_set_m 2135 "CONFIG_ADI_6843_USB" ];
    If (isset "CONFIG_HW_80211G_RALINK_RT2560") [
      ralink_rt2560_add;
      token_set 2142 "CONFIG_RALINK_RT2560_TIMECSR" "0x40" ];
    If (isset "CONFIG_HW_80211G_RALINK_RT2561") [
      ralink_rt2561_add ];
    If (isset "CONFIG_HW_DSP") [
      token_set_y 2150 "CONFIG_DSPDRIVER_218X";
      token_set 2151 "CONFIG_HW_NUMBER_OF_FXS_PORTS" "2" ];
    If (notc (os_is "LINUX_26")) [
      token_set_m 2155 "CONFIG_ADI_6843_MTD" ] ];
  If (IS_HW "BCM96358") [
    token_set_y 2160 "CONFIG_BCM963XX_COMMON";
    token_set_y 2161 "CONFIG_BCM96358";
    token_set_y 2162 "CONFIG_BCM963XX_SERIAL";
    token_set_y 2163 "CONFIG_BCM96358_BOARD";
    token_set_y 2164 "CONFIG_BCM96358_MTD";
    token_set 2165 "CONFIG_BCM963XX_BOARD_ID" "96358GW";
    token_set 2166 "CONFIG_BCM963XX_SDRAM_SIZE" "32";
    token_set 2167 "CONFIG_RG_FLASH_LAYOUT_SIZE" "4";
    token_set 2168 "CONFIG_BCM963XX_CHIP" "6358";
    If (isset "CONFIG_HW_DSL_WAN") [
      token_set_y 2172 "CONFIG_ATM";
      token_set_m 2173 "CONFIG_BCM963XX_ADSL";
      token_set_m 2174 "CONFIG_BCM963XX_ATM";
      token_set_y 2175 "CONFIG_RG_ATM_QOS" ];
    If (isset "CONFIG_HW_ETH_WAN" &&& isset "CONFIG_HW_ETH_LAN") [
      conf_err IncorrectMTD ];
    If (isset "CONFIG_HW_ETH_WAN") [
      token_set_m 2184 "CONFIG_BCM963XX_ETH" ];
    If (isset "CONFIG_HW_ETH_LAN") [
      If (notc (isset "CONFIG_HW_SWITCH_LAN")) [
        token_set_m 2194 "CONFIG_BCM963XX_ETH" ] ];
    If (isset "CONFIG_HW_SWITCH_LAN") [
      token_set_m 2201 "CONFIG_HW_SWITCH_BCM53XX";
      token_set_m 2202 "CONFIG_BCM963XX_ETH" ];
    If (isset "CONFIG_HW_80211G_BCM43XX") [
      token_set_y 2208 "CONFIG_BCM4318";
      bcm43xx_add ];
    token_set_y 2212 "CONFIG_PCI";
    token_set_y 2213 "CONFIG_NEW_PCI";
    token_set_y 2214 "CONFIG_PCI_AUTO";
    token_set 2216 "BOARD" "BCM96358";
    token_set 2217 "FIRM" "Broadcom" ] ].

(** hw_config.c:2220-2350 *)
Definition hardware_features_16 : list stmt :=
  [
  If (IS_HW "HG21") [
    token_set_y 2222 "CONFIG_IXP425_COMMON_RG";
    token_set_y 2223 "CONFIG_ARCH_IXP425_HG21";
    token_set 2224 "CONFIG_IXP425_SDRAM_SIZE" "32";
    token_set 2225 "CONFIG_IXP425_NUMBER_OF_MEM_CHIPS" "2";
    token_set 2226 "CONFIG_RG_CONSOLE_DEVICE" "ttyS0";
    token_set 2227 "CONFIG_IXDP425_KGDB_UART" "0";
    If (isset "CONFIG_HW_ETH_WAN" ||| isset "CONFIG_HW_ETH_LAN") [
      token_set_m 2230 "CONFIG_IXP425_ETH" ];
    If (isset "CONFIG_HW_ETH_WAN") [
 ];
    If (isset "CONFIG_HW_ETH_LAN") [
 ];
    If (isset "CONFIG_HW_ETH_LAN2") [
 ];
    If (isset "CONFIG_HW_80211G_ISL38XX") [
      token_set_m 2243 "CONFIG_ISL38XX" ];
    If (isset "CONFIG_HW_ENCRYPTION") [
      token_set_y 2249 "CONFIG_IPSEC_USE_IXP4XX_CRYPTO";
      token_set_y 2250 "CONFIG_IPSEC_ENC_AES" ];
    token_set 2253 "FIRM" "Welltech";
    token_set 2254 "BOARD" "HG21";
    token_set 2257 "CONFIG_IXP425_FLASH_E28F640J3" "m";
    token_set 2258 "CONFIG_IXP425_FLASH_USER_PART" "0x00100000";
    token_set_y 2262 "CONFIG_RG_RMT_UPGRADE_IMG_IN_MEM" ];
  If (IS_HW "BAMBOO") [
    If (isset "CONFIG_HW_ETH_WAN" ||| isset "CONFIG_HW_ETH_LAN") [
      token_set_m 2268 "CONFIG_IXP425_ETH" ];
    If (isset "CONFIG_HW_ETH_WAN") [
 ];
    If (isset "CONFIG_HW_ETH_LAN") [
 ];
    If (isset "CONFIG_HW_ETH_LAN2") [
 ];
    If (isset "CONFIG_HW_LEDS") [
      token_set_y 2281 "CONFIG_RG_UIEVENTS";
      token_set_m 2282 "CONFIG_RG_KLEDS" ];
    If (isset "CONFIG_HW_ENCRYPTION") [
      token_set_y 2287 "CONFIG_IPSEC_USE_IXP4XX_CRYPTO";
      token_set_y 2288 "CONFIG_IPSEC_ENC_AES" ];
    token_set_y 2291 "CONFIG_IXP425_COMMON_RG";
    token_set_y 2292 "CONFIG_ARCH_IXP425_BAMBOO";
    token_set 2293 "CONFIG_IXP425_SDRAM_SIZE" "64";
    token_set 2294 "CONFIG_IXP425_NUMBER_OF_MEM_CHIPS" "4";
    token_set 2295 "CONFIG_RG_CONSOLE_DEVICE" "ttyS1";
    token_set 2296 "CONFIG_IXDP425_KGDB_UART" "1";
    token_set_m 2297 "CONFIG_AT93CXX";
    token_set_m 2298 "CONFIG_ADM6996";
    token_set_y 2299 "CONFIG_RG_VLAN_8021Q";
    token_set_y 2302 "CONFIG_IXP425_CSR_HSS";
    token_set 2303 "CONFIG_IXP425_CODELETS" "m";
    token_set 2304 "CONFIG_IXP425_CODELET_HSS" "m";
    token_set 2307 "CONFIG_IXP425_FLASH_E28F128J3" "m";
    token_set 2309 "FIRM" "Planex";
    token_set 2310 "BOARD" "BAMBOO" ];
  If (IS_HW "USR8200") [
    If (isset "CONFIG_HW_ETH_WAN" ||| isset "CONFIG_HW_ETH_LAN") [
      token_set_m 2316 "CONFIG_IXP425_ETH" ];
    If (isset "CONFIG_HW_ETH_WAN") [
 ];
    If (isset "CONFIG_HW_ETH_LAN") [
 ];
    If (isset "CONFIG_HW_ETH_LAN2") [
 ];
    If (isset "CONFIG_HW_CLOCK") [
      token_set 2328 "CONFIG_JEEVES_RTC7301" "m" ];
    If (isset "CONFIG_HW_ENCRYPTION") [
      token_set_y 2332 "CONFIG_IPSEC_USE_IXP4XX_CRYPTO";
      token_set_y 2333 "CONFIG_IPSEC_ENC_AES" ];
    If (isset "CONFIG_HW_LEDS") [
      token_set_y 2338 "CONFIG_RG_UIEVENTS";
      token_set_m 2339 "CONFIG_RG_KLEDS" ];
    token_set 2343 "CONFIG_IXP425_FLASH_E28F128J3" "m";
    token_set 2344 "CONFIG_RG_CONSOLE_DEVICE" "ttyS1";
    token_set 2345 "FIRM" "USR";
    token_set 2346 "BOARD" "USR8200";
    token_set_y 2347 "CONFIG_ARCH_IXP425_JEEVES";
    token_set 2348 "CONFIG_IXP425_SDRAM_SIZE" "64";
    token_set 2349 "CONFIG_IXP425_NUMBER_OF_MEM_CHIPS" "2" ] ].

(** hw_config.c:2352-2473 *)
Definition hardware_features_17 : list stmt :=
  [
  If (IS_HW "GTWX5715") [
    If (isset "CONFIG_HW_ETH_WAN" ||| isset "CONFIG_HW_ETH_LAN") [
      token_set_m 2355 "CONFIG_IXP425_ETH" ];
    If (isset "CONFIG_HW_ETH_WAN") [
 ];
    If (isset "CONFIG_HW_ETH_LAN") [
 ];
    If (isset "CONFIG_HW_ETH_LAN2") [
 ];
    If (isset "CONFIG_HW_80211G_ISL38XX") [
      token_set_m 2368 "CONFIG_ISL38XX" ];
    If (isset "CONFIG_HW_80211G_RALINK_RT2560") [
      ralink_rt2560_add ];
    If (isset "CONFIG_HW_80211G_RALINK_RT2561") [
      ralink_rt2561_add ];
    If (isset "CONFIG_HW_ENCRYPTION") [
      token_set_y 2380 "CONFIG_IPSEC_USE_IXP4XX_CRYPTO";
      token_set_y 2381 "CONFIG_IPSEC_ENC_AES" ];
    token_set_y 2384 "CONFIG_GEMTEK_COMMON";
    token_set_y 2385 "CONFIG_GEMTEK_WX5715";
    token_set_y 2386 "CONFIG_IXP425_COMMON_RG";
    token_set_y 2387 "CONFIG_ARCH_IXP425_GTWX5715";
    token_set 2388 "CONFIG_IXP425_SDRAM_SIZE" "32";
    token_set 2389 "CONFIG_IXP425_NUMBER_OF_MEM_CHIPS" "2";
    token_set 2390 "CONFIG_RG_CONSOLE_DEVICE" "ttyS1";
    token_set 2391 "CONFIG_IXDP425_KGDB_UART" "1";
    token_set 2394 "CONFIG_IXP425_FLASH_E28F640J3" "m";
    token_set 2396 "FIRM" "Gemtek";
    token_set 2397 "BOARD" "GTWX5715" ];
  If (IS_HW "TI_404") [
    If (isset "CONFIG_HW_CABLE_WAN") [
 ];
    If (isset "CONFIG_HW_ETH_LAN") [
 ];
    set_big_endian 2412 true;
    token_set_y 2413 "CONFIG_TI_404_MIPS";
    token_set_y 2414 "CONFIG_TI_404_COMMON";
    token_set 2415 "CONFIG_ARCH_MACHINE" "ti404";
    token_set 2416 "RAM_HIGH_ADRS" "0x94F00000";
    token_set 2417 "RAM_LOW_ADRS" "0x94001000" ];
  If (IS_HW "AR531X_G" |||
      IS_HW "WRT108G" |||
      IS_HW "AR531X_WRT55AG" |||
      IS_HW "AR531X_AG") [
    If (isset "CONFIG_HW_ETH_WAN") [
 ];
    If (isset "CONFIG_HW_ETH_LAN") [
 ];
    IfElse (IS_HW "AR531X_WRT55AG") [
      token_set_y 2439 "CONFIG_PHY_KS8995M" ]
    [
      token_set_y 2441 "CONFIG_PHY_MARVEL" ];
    If (isset "CONFIG_HW_80211G_AR531X") [
      token_set_y 2445 "CONFIG_RG_VENDOR_WLAN_SEC";
      token_set_y 2446 "CONFIG_RG_WPA_WBM";
      token_set_y 2447 "CONFIG_RG_8021X_WBM";
      token_set_y 2448 "CONFIG_80211G_AP_ADVANCED";
      token_set_y 2449 "CONFIG_RG_WLAN_AUTO_CHANNEL_SELECT" ];
    If (isset "CONFIG_HW_80211A_AR531X") [
 ];
    token_set 2455 "ARCH" "mips";
    set_big_endian 2456 true;
    token_set_y 2457 "CONFIG_ATHEROS_AR531X_MIPS";
    token_set 2458 "RAM_HIGH_ADRS" "0x80680000";
    token_set 2459 "RAM_LOW_ADRS" "0x80010000";
    token_set_y 2460 "CONFIG_VX_TFFS";
    token_set_y 2461 "CONFIG_RG_VX_DEFERRED_TX";
    IfElse (IS_HW "WRT108G") [
      token_set_y 2465 "CONFIG_ARCH_WRT108G";
      token_set_y 2466 "CONFIG_RG_WLAN_AUTO_CHANNEL_SELECT" ]
    [
      token_set_y 2469 "CONFIG_ARCH_AR531X" ];
    If (str_le "CONFIG_SDRAM_SIZE" 8) [
      token_set_y 2472 "CONFIG_SMALL_SDRAM" ] ] ].

(** hw_config.c:2475-2529 *)
Definition hardware_features_18 : list stmt :=
  [
  If (IS_HW "CX8620XR" ||| IS_HW "CX8620XD") [
    IfElse (IS_HW "CX8620XR") [
      token_set 2479 "CONFIG_CX8620X_SDRAM_SIZE" "8";
      token_set_y 2480 "CONFIG_RG_BOOTSTRAP";
      token_set_m 2483 "CONFIG_CX8620X_FLASH_TE28F160C3";
      token_set 2484 "BOARD" "CX8620XR" ]
    [
      token_set 2488 "CONFIG_CX8620X_SDRAM_SIZE" "64";
      If (isset "CONFIG_LSP_DIST") [
        token_set_y 2491 "CONFIG_RG_BOOTSTRAP" ];
      If (notc (isset "CONFIG_CX8620X_FLASH_TE28F320C3")) [
        token_set_m 2495 "CONFIG_CX8620X_FLASH_TE28F640C3" ];
      token_set 2496 "BOARD" "CX8620XD" ];
    token_set_m 2499 "CONFIG_CX8620X_SWITCH";
    If (isset "CONFIG_HW_ETH_WAN") [
 ];
    If (isset "CONFIG_HW_ETH_LAN") [
 ];
    If (isset "CONFIG_HW_ETH_LAN2") [
 ];
    If (isset "CONFIG_HW_USB_HOST_EHCI") [
      token_set_y 2511 "CONFIG_CX8620X_EHCI" ];
    If (isset "CONFIG_HW_LEDS") [
      token_set_y 2515 "CONFIG_RG_UIEVENTS";
      token_set_m 2516 "CONFIG_RG_KLEDS" ];
    If (isset "CONFIG_HW_80211G_ISL_SOFTMAC") [
      isl_softmac_add ];
    If (isset "CONFIG_HW_80211G_RALINK_RT2560") [
      ralink_rt2560_add ];
    If (isset "CONFIG_HW_80211G_RALINK_RT2561") [
      ralink_rt2561_add ];
    token_set 2528 "FIRM" "Conexant" ] ].

(** hw_config.c:2530-2663 *)
Definition hardware_features_19 : list stmt :=
  [
  If (IS_HW "CX9451X") [
    set_big_endian 2532 false;
    token_set 2533 "ARCH" "arm";
    token_set 2534 "CONFIG_ARCH_MACHINE" "solos";
    token_set_y 2535 "CONFIG_HAS_MMU";
    token_set_y 2536 "CONFIG_RG_MAINFS_CRAMFS";
    token_set 2537 "CONFIG_CMDLINE" "console=ttyS0,38400";
    token_set_y 2545 "CONFIG_RG_INITFS_RAMFS";
    token_set_y 2546 "CONFIG_RG_MODFS_CRAMFS";
    token_set 2547 "CONFIG_ZBOOT_ROM_TEXT" "0";
    token_set_y 2548 "CONFIG_CONEXANT_COMMON";
    token_set_y 2549 "CONFIG_CX9451X_COMMON";
    token_set_y 2550 "CONFIG_CPU_32";
    token_set_y 2552 "CONFIG_LOCK_KERNEL";
    token_set_y 2553 "CONFIG_FPE_NWFPE";
    token_set_y 2554 "CONFIG_ALIGNMENT_TRAP";
    token_set_y 2555 "CONFIG_PREVENT_FIRMWARE_BUILD";
    token_set_y 2556 "CONFIG_ARCH_SOLOS_GALLUS";
    token_set_y 2557 "CONFIG_ARCH_SOLOS_376PIN";
    token_set_y 2558 "CONFIG_MACH_SOLOS_GALLUSBU";
    token_set_y 2559 "CONFIG_CPU_ARM1026";
    token_set_y 2560 "CONFIG_CPU_32v5";
    token_set_y 2561 "CONFIG_CPU_ABRT_EV5T";
    token_set_y 2562 "CONFIG_CPU_CACHE_VIVT";
    token_set_y 2563 "CONFIG_CPU_COPY_V4WB";
    token_set_y 2564 "CONFIG_CPU_TLB_V4WBI";
    token_set_y 2565 "CONFIG_FW_LOADER";
    token_set_y 2566 "CONFIG_STANDALONE";
    token_set_y 2567 "CONFIG_RWSEM_GENERIC_SPINLOCK";
    token_set_y 2568 "CONFIG_UID16";
    token_set_y 2569 "CONFIG_UNIX98_PTYS";
    token_set_y 2570 "CONFIG_SERIAL_CORE";
    token_set_y 2571 "CONFIG_SERIAL_CORE_CONSOLE";
    token_set_y 2572 "CONFIG_SERIAL_SOLOS";
    token_set_y 2573 "CONFIG_SERIAL_SOLOS_CONSOLE";
    token_set 2574 "CONFIG_SERIAL_SOLOS_CONSOLE_BAUD" "38400";
    token_set_y 2575 "CONFIG_KGDB_SOLOS_SERIAL";
    token_set 2576 "LIBC_ARCH" "arm";
    token_set 2577 "CONFIG_SPLIT_PTLOCK_CPUS" "4";
    token_set_y 2578 "CONFIG_FLATMEM";
    token_set_y 2579 "CONFIG_FLAT_NODE_MEM_MAP";
    token_set_y 2582 "CONFIG_MTD";
    token_set_y 2583 "CONFIG_MTD_CMDLINE_PARTS";
    token_set_y 2584 "CONFIG_MTD_CHAR";
    token_set_y 2585 "CONFIG_MTD_MAP_BANK_WIDTH_1";
    token_set_y 2586 "CONFIG_MTD_MAP_BANK_WIDTH_2";
    token_set_y 2587 "CONFIG_MTD_MAP_BANK_WIDTH_4";
    token_set_y 2588 "CONFIG_MTD_CFI_I1";
    token_set_y 2589 "CONFIG_MTD_CFI_I2";
    token_set_y 2590 "CONFIG_MTD_CFI_INTELEXT";
    token_set_y 2591 "CONFIG_MTD_CFI_UTIL";
    token_set_y 2592 "CONFIG_MTD_PHYSMAP";
    token_set 2593 "CONFIG_MTD_PHYSMAP_START" "0x38000000";
    token_set 2594 "CONFIG_MTD_PHYSMAP_LEN" "0x1000000";
    token_set 2595 "CONFIG_MTD_PHYSMAP_BANKWIDTH" "1";
    token_set_y 2596 "CONFIG_OBSOLETE_INTERMODULE";
    If (notc (isset "CONFIG_LSP_DIST")) [
      If (isset "CONFIG_HW_ETH_WAN") [
 ] ];
    If (isset "CONFIG_HW_USB_STORAGE") [
      token_set_y 2606 "CONFIG_USB";
      token_set_y 2607 "CONFIG_USB_DEVICEFS";
      token_set_y 2608 "CONFIG_USB_EHCI_HCD";
      token_set_y 2609 "CONFIG_USB_EHCI_ROOT_HUB_TT";
      token_set_y 2610 "CONFIG_USB_SOLOS_HCD";
      token_set_y 2611 "CONFIG_SOLOS_USB_HOST0";
      token_set_y 2612 "CONFIG_SOLOS_USB_HOST1" ];
    If (isset "CONFIG_HW_DSP") [
      token_set_m 2617 "CONFIG_CX9451X_DSP";
      token_set 2618 "CONFIG_HW_NUMBER_OF_FXS_PORTS" "2" ];
    If (isset "CONFIG_HW_DSL_WAN") [
      token_set_y 2623 "CONFIG_ATM";
      token_set_y 2624 "CONFIG_RG_ATM_QOS" ] ];
  If (IS_HW "COMCERTO") [
    If (isset "CONFIG_COMCERTO_COMMON") [
      If (isset "CONFIG_HW_ETH_LAN") [
 ];
      If (isset "CONFIG_HW_ETH_WAN") [
 ];
      token_set_y 2640 "CONFIG_COMCERTO_VED";
      token_set_y 2641 "CONFIG_MII" ];
    If (isset "CONFIG_HW_80211G_RALINK_RT2560") [
      ralink_rt2560_add ];
    If (isset "CONFIG_HW_80211G_RALINK_RT2561") [
      ralink_rt2561_add ];
    token_set_y 2651 "CONFIG_NETFILTER";
    token_set 2653 "FIRM" "Mindspeed" ];
  If (IS_HW "TI_TNETWA100") [
    set_big_endian 2658 true;
    token_set_y 2659 "CONFIG_TI_404_MIPS";
    token_set_y 2660 "CONFIG_TI_404_COMMON";
    token_set 2661 "RAM_HIGH_ADRS" "0x94F00000";
    token_set 2662 "RAM_LOW_ADRS" "0x94001000" ] ].

(** hw_config.c:2665-2731 *)
Definition hardware_features_20 : list stmt :=
  [
  If (IS_HW "CENTAUR") [
    token_set 2667 "CONFIG_RG_FLASH_LAYOUT_SIZE" "4";
    token_set 2668 "CONFIG_SDRAM_SIZE" "32";
    token_set 2669 "CONFIG_RG_CONSOLE_DEVICE" "ttyS0";
    token_set_y 2670 "CONFIG_RG_DYN_FLASH_LAYOUT";
    If (isset "CONFIG_HW_ETH_WAN") [
      token_set_y 2674 "CONFIG_KS8695" ];
    If (isset "CONFIG_HW_ETH_LAN") [
      token_set_y 2680 "CONFIG_KS8695" ];
    If (isset "CONFIG_HW_80211G_ISL38XX") [
      token_set_m 2686 "CONFIG_ISL38XX" ];
    If (isset "CONFIG_HW_80211G_RALINK_RT2560") [
      ralink_rt2560_add ];
    If (isset "CONFIG_HW_80211G_RALINK_RT2561") [
      ralink_rt2561_add ];
    If (isset "CONFIG_HW_DSP") [
      token_set_y 2699 "CONFIG_ZSP400";
      token_set 2700 "CONFIG_HW_NUMBER_OF_FXS_PORTS" "4" ];
    token_set 2703 "FIRM" "Micrel";
    token_set 2704 "BOARD" "CENTAUR";
    token_set_y 2707 "CONFIG_KS8695_FLASH_AM29LV033C" ];
  If (IS_HW "I386_BOCHS") [
    set_big_endian 2712 false;
    token_set_y 2713 "CONFIG_I386_BOCHS";
    token_set 2714 "CONFIG_ARCH_MACHINE" "i386";
    IfElse (isset "CONFIG_RG_OS_VXWORKS") [
      token_set_y 2720 "CONFIG_VX_KNET_SYMLINK";
      token_set 2721 "RAM_HIGH_ADRS" "0x00008000";
      token_set 2722 "RAM_LOW_ADRS" "0x00108000" ]
    [
      token_set_m 2726 "CONFIG_NE2000";
      token_set_y 2729 "CONFIG_PCBOX" ] ] ].

(** hw_config.c:2733-2854 *)
Definition hardware_features_21 : list stmt :=
  [
  If (IS_HW "UML") [
    token_set 2735 "ARCH" "um";
    token_set 2737 "CONFIG_RG_FLASH_LAYOUT_SIZE" "64";
    If (isset "CONFIG_HW_ETH_WAN") [
 ];
    If (isset "CONFIG_HW_ETH_WAN2") [
 ];
    If (isset "CONFIG_HW_DSL_WAN") [
      token_set_y 2745 "CONFIG_ATM_NULL" ];
    If (isset "CONFIG_HW_HSS_WAN") [
      token_set_y 2750 "CONFIG_RG_HSS" ];
    If (isset "CONFIG_HW_ETH_LAN") [
 ];
    If (isset "CONFIG_HW_ETH_LAN2") [
 ];
    token_set_y 2758 "CONFIG_RG_UML";
    token_set_y 2760 "CONFIG_DEBUGSYM";
    token_set 2762 "CONFIG_RG_CONSOLE_DEVICE" "console";
    token_set_y 2764 "CONFIG_RAMFS";
    token_set 2765 "CONFIG_KERNEL_STACK_ORDER" "2";
    token_set_y 2766 "CONFIG_MODE_TT";
    token_set_y 2767 "CONFIG_MODE_SKAS";
    token_set 2768 "CONFIG_NEST_LEVEL" "0";
    token_set 2769 "CONFIG_CON_ZERO_CHAN" "fd:0,fd:1";
    token_set 2770 "CONFIG_CON_CHAN" "xterm";
    token_set 2771 "CONFIG_SSL_CHAN" "pty";
    token_set 2772 "CONFIG_KERNEL_HALF_GIGS" "1";
    token_set_y 2773 "CONFIG_PT_PROXY";
    token_set_y 2774 "CONFIG_STDIO_CONSOLE";
    token_set_y 2775 "CONFIG_SSL";
    token_set_y 2776 "CONFIG_FD_CHAN";
    token_set_y 2777 "CONFIG_NULL_CHAN";
    token_set_y 2778 "CONFIG_PORT_CHAN";
    token_set_y 2779 "CONFIG_PTY_CHAN";
    token_set_y 2780 "CONFIG_TTY_CHAN";
    token_set_y 2781 "CONFIG_XTERM_CHAN";
    token_set_y 2782 "CONFIG_BLK_DEV_NBD";
    IfElse (isset "CONFIG_RG_OS_LINUX_26") [
      token_set_y 2785 "CONFIG_RG_INITFS_RAMFS";
      token_set_y 2786 "CONFIG_RG_MAINFS_CRAMFS";
      token_set_y 2787 "CONFIG_RG_MODFS_CRAMFS";
      token_set_y 2788 "CONFIG_UML_X86";
      token_set_y 2790 "CONFIG_FLATMEM" ]
    [
      token_set_y 2794 "CONFIG_BLK_DEV_UBD";
      token_set_y 2795 "CONFIG_SIMPLE_RAMDISK";
      token_set 2796 "CONFIG_BLK_DEV_RAM_SIZE" "8192";
      token_set_y 2797 "CONFIG_RG_INITFS_RAMDISK" ];
    token_set_y 2799 "CONFIG_UML_NET";
    token_set_y 2800 "CONFIG_UML_NET_ETHERTAP";
    token_set_y 2801 "CONFIG_UML_NET_TUNTAP";
    token_set_y 2802 "CONFIG_UML_NET_SLIP";
    token_set_y 2803 "CONFIG_UML_NET_SLIRP";
    token_set_y 2804 "CONFIG_UML_NET_DAEMON";
    token_set_y 2805 "CONFIG_UML_NET_MCAST";
    token_set_y 2806 "CONFIG_DUMMY";
    token_set_y 2807 "CONFIG_TUN";
    token_set_y 2808 "CONFIG_KALLSYMS";
    IfElse (isset "CONFIG_VALGRIND") [ token_set 2810 "CONFIG_UML_RAM_SIZE" "128M" ]
      [ token_set 2810 "CONFIG_UML_RAM_SIZE" "64M" ];
    token_set_y 2813 "CONFIG_USERMODE";
    token_set_y 2814 "CONFIG_UID16";
    token_set_y 2815 "CONFIG_EXPERIMENTAL";
    token_set_y 2816 "CONFIG_BSD_PROCESS_ACCT";
    token_set_y 2817 "CONFIG_HOSTFS";
    token_set_y 2818 "CONFIG_HPPFS";
    token_set_y 2819 "CONFIG_MCONSOLE";
    token_set_y 2820 "CONFIG_MAGIC_SYSRQ";
    If (notc (isset "CONFIG_RG_OS_LINUX_26")) [
      token_set_y 2822 "CONFIG_PROC_MM" ];
    token_set_y 2824 "CONFIG_PACKET_MMAP";
    token_set_y 2825 "CONFIG_QUOTA";
    token_set_y 2826 "CONFIG_AUTOFS_FS";
    token_set_y 2827 "CONFIG_AUTOFS4_FS";
    token_set_y 2828 "CONFIG_REISERFS_FS";
    token_set_y 2830 "CONFIG_MTD_BLKMTD";
    token_set_y 2831 "CONFIG_ZLIB_INFLATE";
    token_set_y 2832 "CONFIG_ZLIB_DEFLATE";
    token_set_y 2834 "CONFIG_PT_PROXY";
    token_set_y 2835 "CONFIG_RG_THREADS";
    token_set 2836 "CONFIG_RG_KERNEL_COMP_METHOD" "gzip";
    token_set 2837 "CONFIG_RG_CRAMFS_COMP_METHOD" "lzma";
    token_set 2838 "CONFIG_HW_NUMBER_OF_FXS_PORTS" "8" ];
  If (IS_HW "JPKG") [
    If (isset "CONFIG_HW_80211G_RALINK_RT2560") [
      ralink_rt2560_add ];
    If (isset "CONFIG_HW_80211G_RALINK_RT2561") [
      ralink_rt2561_add ];
    If (isset "CONFIG_HW_80211G_BCM43XX") [
      bcm43xx_add ] ];
  If (isset "MODULE_RG_IPV6") [
 ] ].

(** hw_config.c:190-204 *)
Definition hardware_features_no_hw : list stmt :=
  [
  token_set 192 "CONFIG_RG_HW" "NO_HW";
  token_set 193 "CONFIG_RG_HW_DESC_STR" "No hardware - local targets only";
  token_set_y 194 "CONFIG_RG_BUILD_LOCAL_TARGETS_ONLY" ].

Definition hardware_features_hw (hw : string) : stmt :=
  match lookup_option (_init_configs openrg_hw_options) hw with
  | None => conf_err (NoSuchHw hw)
  | Some hw_tok =>
      match value hw_tok with
      | None => conf_err (NoHwDescription hw)
      | Some descr =>
          block [
            set_text HW_CONFIG_C 203 "CONFIG_RG_HW" hw;
            set_text HW_CONFIG_C 204 "CONFIG_RG_HW_DESC_STR" descr ]
      end
  end.

Definition hardware_features_platforms : list stmt :=
  (hardware_features_1 ++ hardware_features_2 ++ hardware_features_3 ++
    hardware_features_4 ++ hardware_features_5 ++ hardware_features_6 ++
    hardware_features_7 ++ hardware_features_8 ++ hardware_features_9 ++
    hardware_features_10 ++ hardware_features_11 ++ hardware_features_12 ++
    hardware_features_13 ++ hardware_features_14 ++ hardware_features_15 ++
    hardware_features_16 ++ hardware_features_17 ++ hardware_features_18 ++
    hardware_features_19 ++ hardware_features_20 ++ hardware_features_21)%list.

Definition hardware_features : stmt := fun s =>
  match hw s with
  | None => block hardware_features_no_hw s
  | Some h => (hardware_features_hw h;;; block hardware_features_platforms) s
  end.
