(* ===== verification/DistConfig.v ===== *)
(** * DistConfig: the distribution rules

    pkg/build/dist_config.c: a distribution names its hardware and operating
    system and turns on its features.  [distribution_features] is one chain of
    [else if] over the distribution's name; its arms are cut into consecutive
    pieces of the chain. *)
From S2P Require Import Prelude ConfigOpt OptionTable Licence InitOptions Rules TargetOs.

Definition DIST_CONFIG_C : string := "dist_config.c".
Abbreviation token_set L tok v := (_token_set DIST_CONFIG_C L SET_PRIO_TOKEN_SET tok v []).
Abbreviation token_set_y := (_token_set_y DIST_CONFIG_C).
Abbreviation token_set_m := (_token_set_m DIST_CONFIG_C).
Abbreviation set_big_endian := (_set_big_endian DIST_CONFIG_C).
Abbreviation set_args := (set_args DIST_CONFIG_C).

(** [token_set(tok, dist)]. *)
Definition set_dist_text (l : Z) (tok : string) : stmt := fun s =>
  match dist s with
  | Some d => set_text DIST_CONFIG_C l tok d s
  | None => Exit (Undefined "strcmp") s
  end.

Section DistConfig.
Context (is_feature_enabled : string -> bool).
#[local] Abbreviation enable_module := (_enable_module is_feature_enabled DIST_CONFIG_C).

(** dist_config.c:46-64 *)
Definition set_jnet_server_configs : stmt := block [
  token_set_y 48 "CONFIG_RG_HTTPS";
  token_set_y 49 "CONFIG_RG_SSL";
  token_set_y 50 "CONFIG_RG_OPENSSL_MD5";
  token_set_y 51 "CONFIG_RG_XML";
  token_set_y 52 "CONFIG_RG_DSLHOME";
  token_set_y 53 "CONFIG_RG_WGET";
  token_set_y 54 "CONFIG_LOCAL_WBM_LIB";
  token_set_y 55 "CONFIG_RG_SESSION_LIBDB";
  token_set_y 56 "HAVE_MYSQL";
  token_set_y 57 "CONFIG_RG_JNET_SERVER";
  token_set 58 "CONFIG_RG_JPKG_DIST" "JPKG_LOCAL_I386";
  token_set 59 "TARGET_MACHINE" "local_i386";
  token_set_y 60 "CONFIG_RG_LANG";
  token_set_y 61 "CONFIG_RG_GNUDIP";
  token_set_y 62 "CONFIG_GLIBC";
  token_set_y 63 "CONFIG_RG_LIBIMAGE_DIM" ].

(** dist_config.c:84-112 *)
Definition small_flash_default_dist : stmt := block [
  enable_module 86 "MODULE_RG_FOUNDATION";
  enable_module 87 "MODULE_RG_UPNP";
  enable_module 88 "MODULE_RG_FIREWALL_AND_SECURITY";
  enable_module 89 "MODULE_RG_ADVANCED_MANAGEMENT";
  enable_module 90 "MODULE_RG_ADVANCED_ROUTING";
  enable_module 91 "MODULE_RG_WLAN_AND_ADVANCED_WLAN";
  enable_module 92 "MODULE_RG_VLAN";
  enable_module 93 "MODULE_RG_PPP";
  enable_module 94 "MODULE_RG_PPTP";
  enable_module 95 "MODULE_RG_L2TP";
  enable_module 96 "MODULE_RG_QOS";
  enable_module 97 "MODULE_RG_ROUTE_MULTIWAN";
  enable_module 98 "MODULE_RG_MAIL_FILTER";
  enable_module 99 "MODULE_RG_URL_FILTERING";
  enable_module 100 "MODULE_RG_DSLHOME";
  enable_module 101 "MODULE_RG_TR_098";
  enable_module 102 "MODULE_RG_TR_064";
  enable_module 103 "MODULE_RG_DSL";
  enable_module 104 "MODULE_RG_SSL_VPN";
  token_set_y 106 "CONFIG_RG_WPA";
  token_set_y 107 "CONFIG_RG_WEP";
  token_set_y 109 "CONFIG_ULIBC_SHARED";
  token_set 110 "CONFIG_RG_ADV_SERVICES_LEVEL" "1";
  token_set_y 111 "CONFIG_RG_SSL_VPN_SMALL_FLASH" ].

(** dist_config.c:118-257 *)
Definition set_jpkg_dist_configs_1 (jpkg_dist : string) : list stmt :=
  [
  If (str_eq jpkg_dist "JPKG_SRC" ||| str_eq jpkg_dist "JPKG_UML") [
    jpkg_dist_add "UML";
    jpkg_dist_add "UML_GLIBC";
    jpkg_dist_add "UML_26";
    jpkg_dist_add "RGLOADER_UML";
    enable_module 125 "MODULE_RG_VOIP_ASTERISK_SIP";
    enable_module 126 "MODULE_RG_PBX";
    token_set_y 127 "CONFIG_HW_DSP";
    token_set_y 128 "CONFIG_RG_VOIP_HW_EMULATION" ];
  If (str_eq jpkg_dist "JPKG_SRC" ||| str_eq jpkg_dist "JPKG_ARMV5B") [
    jpkg_dist_add "MONTEJADE";
    jpkg_dist_add "MONTEJADE_ATM";
    jpkg_dist_add "IXDP425";
    jpkg_dist_add "COYOTE";
    jpkg_dist_add "JIWIS8XX";
    jpkg_dist_add "RGLOADER_MONTEJADE";
    jpkg_dist_add "RGLOADER_COYOTE";
    enable_module 140 "CONFIG_AGN100";
    enable_module 141 "MODULE_RG_VOIP_OSIP";
    enable_module 142 "MODULE_RG_VOIP_RV_H323";
    enable_module 143 "MODULE_RG_VOIP_RV_MGCP";
    enable_module 144 "MODULE_RG_VOIP_RV_SIP";
    enable_module 145 "MODULE_RG_VOIP_ASTERISK_H323";
    enable_module 146 "MODULE_RG_ATA";
    enable_module 147 "CONFIG_HW_80211G_RALINK_RT2561";
    token_set_y 149 "CONFIG_UCLIBCXX" ];
  If (str_eq jpkg_dist "JPKG_SRC" ||| str_eq jpkg_dist "JPKG_LX4189") [
    jpkg_dist_add "AD6834";
    enable_module 154 "CONFIG_HW_80211G_RALINK_RT2561";
    enable_module 156 "MODULE_RG_VOIP_OSIP";
    enable_module 157 "MODULE_RG_VOIP_RV_H323";
    enable_module 158 "MODULE_RG_VOIP_RV_SIP";
    enable_module 159 "MODULE_RG_VOIP_RV_MGCP" ];
  If (str_eq jpkg_dist "JPKG_SRC" ||| str_eq jpkg_dist "JPKG_ARM_920T_LE") [
    jpkg_dist_add "CENTROID";
    enable_module 164 "MODULE_RG_ADVANCED_ROUTING";
    enable_module 165 "CONFIG_HW_80211G_RALINK_RT2561";
    enable_module 170 "MODULE_RG_ADVANCED_MANAGEMENT" ];
  If (str_eq jpkg_dist "JPKG_SRC" ||| str_eq jpkg_dist "JPKG_ARMV5L") [
    jpkg_dist_add "CX8620XR";
    jpkg_dist_add "CX8620XD_SOHO";
    jpkg_dist_add "RGLOADER_CX8620XD";
    jpkg_dist_add "SOLOS_LSP";
    jpkg_dist_add "SOLOS";
    enable_module 187 "MODULE_RG_VOIP_ASTERISK_SIP";
    token_set 189 "CONFIG_HW_NUMBER_OF_FXS_PORTS" "2";
    enable_module 191 "CONFIG_HW_80211G_RALINK_RT2561" ];
  If (str_eq jpkg_dist "JPKG_SRC" ||| str_eq jpkg_dist "JPKG_ARMV4L") [
    jpkg_dist_add "MALINDI";
    jpkg_dist_add "MALINDI2";
    enable_module 198 "MODULE_RG_VLAN";
    enable_module 199 "MODULE_RG_URL_FILTERING";
    enable_module 200 "MODULE_RG_PPTP";
    enable_module 201 "MODULE_RG_L2TP";
    enable_module 202 "CONFIG_HW_80211G_RALINK_RT2560" ];
  If (str_eq jpkg_dist "JPKG_SRC" ||| str_eq jpkg_dist "JPKG_PPC") [
    jpkg_dist_add "MPC8272ADS";
    jpkg_dist_add "MPC8349ITX";
    enable_module 213 "CONFIG_HW_80211G_RALINK_RT2561";
    enable_module 214 "CONFIG_HW_80211G_RALINK_RT2560";
    enable_module 215 "MODULE_RG_FILESERVER";
    enable_module 216 "MODULE_RG_ADVANCED_OFFICE_SERVERS";
    enable_module 217 "MODULE_RG_VOIP_ASTERISK_SIP";
    enable_module 218 "MODULE_RG_ATA";
    enable_module 219 "MODULE_RG_PBX" ];
  If (str_eq jpkg_dist "JPKG_SRC" ||| str_eq jpkg_dist "JPKG_SB1250") [
    jpkg_dist_add "BCM91125E";
    jpkg_dist_add "BCM_SB1125" ];
  If (str_eq jpkg_dist "JPKG_SRC" ||| str_eq jpkg_dist "JPKG_TWINPASS") [
    jpkg_dist_add "TWINPASS";
    jpkg_dist_add "ULTRALINE3_TWINPASS" ];
  If (str_eq jpkg_dist "JPKG_SRC" ||| str_eq jpkg_dist "JPKG_MIPSEB") [
    jpkg_dist_add "BCM96358";
    enable_module 234 "MODULE_RG_VLAN";
    enable_module 235 "MODULE_RG_IPSEC" ];
  If (str_eq jpkg_dist "JPKG_SRC" ||| str_eq jpkg_dist "JPKG_BCM9634X") [
    jpkg_dist_add "ASUS6020VI";
    jpkg_dist_add "GTWX5803";
    jpkg_dist_add "WADB100G";
    jpkg_dist_add "WADB102GB";
    jpkg_dist_add "RGLOADER_GTWX5803";
    enable_module 244 "MODULE_RG_VLAN";
    enable_module 245 "MODULE_RG_IPSEC" ];
  If (str_eq jpkg_dist "JPKG_SRC" ||| str_eq jpkg_dist "JPKG_LOCAL_I386") [
    IfElse (str_eq jpkg_dist "JPKG_SRC") [
      set_jnet_server_configs ]
    [
      jpkg_dist_add "JNET_SERVER" ] ] ].

(** dist_config.c:258-288 *)
Definition set_jpkg_dist_configs_2 (jpkg_dist : string) : list stmt :=
  [
  IfElse (str_eq jpkg_dist "JPKG_SRC") [
    token_set_y 260 "CONFIG_RG_TCPDUMP";
    token_set_y 261 "CONFIG_RG_LIBPCAP";
    token_set_y 262 "CONFIG_RG_IPROUTE2_UTILS";
    token_set_y 263 "CONFIG_RG_JAVA";
    token_set_y 264 "CONFIG_RG_JTA";
    token_set_y 265 "CONFIG_RG_PROPER_JAVA_RDP";
    token_set_y 266 "CONFIG_RG_JVFTP";
    token_set_y 267 "CONFIG_RG_JCIFS";
    token_set_y 268 "CONFIG_RG_SMB_EXPLORER";
    token_set_y 269 "CONFIG_RG_TIGHT_VNC";
    token_set_y 270 "GLIBC_IN_TOOLCHAIN";
    token_set_y 271 "CONFIG_RG_GDBSERVER" ]
  [
    token_set_y 275 "CONFIG_RG_JPKG_BIN" ];
  token_set_y 279 "CONFIG_RG_JPKG";
  If (notc (str_eq jpkg_dist "JPKG_LOCAL_I386")) [
    token_set_y 283 "CONFIG_RG_DOC_ENABLED";
    token_set_y 284 "CONFIG_RG_NETTOOLS_ARP";
    token_set_y 285 "CONFIG_RG_TOOLS";
    enable_module 286 "MODULE_RG_ZERO_CONFIGURATION_NETWORKING" ];
  enable_module 288 "MODULE_RG_DSLHOME" ].

Definition set_jpkg_dist_configs (jpkg_dist : string) : stmt :=
  block (set_jpkg_dist_configs_1 jpkg_dist ++ set_jpkg_dist_configs_2 jpkg_dist)%list.

(** dist_config.c:297-432 *)
Definition distribution_arms_1 : list (cond * list stmt) :=
  [
  (IS_DIST "ADM5120_LSP", [
    set_hw "ADM5120P";
    token_set_y 300 "CONFIG_LSP_DIST";
    token_set_y 301 "CONFIG_FRAME_POINTER" ]);
  (IS_DIST "BCM91125E" ||| IS_DIST "BCM_SB1125", [
    Elif [
      (IS_DIST "BCM91125E", [
        set_hw "BCM91125E" ]);
      (IS_DIST "BCM_SB1125", [
        set_hw "COLORADO" ]) ]
    [];
    set_os "LINUX_26";
    token_set 311 "CONFIG_RG_JPKG_DIST" "JPKG_SB1250";
    token_set_y 313 "MODULE_RG_FOUNDATION";
    token_set_y 314 "MODULE_RG_ADVANCED_MANAGEMENT";
    token_set_y 315 "MODULE_RG_ADVANCED_ROUTING";
    token_set_y 316 "MODULE_RG_FIREWALL_AND_SECURITY";
    token_set_y 317 "MODULE_RG_SNMP";
    token_set_y 318 "MODULE_RG_UPNP";
    token_set_y 319 "MODULE_RG_IPSEC";
    token_set_y 320 "MODULE_RG_URL_FILTERING";
    token_set_y 321 "MODULE_RG_QOS";
    token_set_y 322 "MODULE_RG_MAIL_FILTER";
    enable_module 323 "MODULE_RG_SSL_VPN";
    token_set_y 324 "MODULE_RG_ADVANCED_OFFICE_SERVERS";
    token_set_y 325 "MODULE_RG_VLAN";
    token_set_y 326 "MODULE_RG_PPP";
    token_set_y 327 "MODULE_RG_PPTP";
    token_set_y 328 "MODULE_RG_L2TP";
    token_set_y 329 "CONFIG_RG_FOOTPRINT_REDUCTION";
    token_set_y 330 "CONFIG_RG_SMB";
    token_set_y 331 "MODULE_RG_IPV6";
    token_set_y 332 "CONFIG_RG_NETTOOLS_ARP";
    enable_module 334 "MODULE_RG_VOIP_ASTERISK_SIP";
    enable_module 335 "MODULE_RG_PBX";
    token_set_y 337 "CONFIG_DYN_LINK";
    token_set_y 340 "CONFIG_HW_ETH_WAN";
    token_set_y 341 "CONFIG_HW_ETH_LAN";
    If (IS_DIST "BCM_SB1125") [
      enable_module 345 "MODULE_RG_BLUETOOTH";
      token_set_y 346 "MODULE_RG_FILESERVER";
      token_set_y 347 "MODULE_RG_PRINTSERVER" ];
    token_set_y 350 "CONFIG_RG_INITFS_RAMFS";
    token_set_y 351 "CONFIG_RG_MAINFS_CRAMFS";
    token_set_y 352 "CONFIG_RG_MODFS_CRAMFS" ]);
  (IS_DIST "RGLOADER_ADM5120", [
    set_hw "ADM5120P";
    set_os "LINUX_24";
    token_set_y 359 "CONFIG_RG_RGLOADER";
    token_set_y 360 "CONFIG_FRAME_POINTER";
    token_set_y 361 "CONFIG_HW_ETH_LAN" ]);
  (IS_DIST "ADM5120_ATA", [
    set_hw "ADM5120P";
    set_os "LINUX_24";
    token_set_y 369 "CONFIG_RG_FOUNDATION_CORE";
    token_set_y 370 "CONFIG_RG_CHECK_BAD_REBOOTS";
    token_set_y 372 "CONFIG_AUTO_LEARN_DNS";
    enable_module 373 "MODULE_RG_PPP";
    enable_module 374 "MODULE_RG_VOIP_RV_SIP";
    token_set_y 375 "CONFIG_RG_EVENT_LOGGING";
    token_set_y 376 "CONFIG_RG_STATIC_ROUTE";
    token_set_y 377 "CONFIG_RG_UCD_SNMP";
    enable_module 378 "MODULE_RG_ATA";
    enable_module 381 "CONFIG_HW_DSP";
    token_set_y 382 "CONFIG_HW_ETH_WAN";
    token_set_y 384 "CONFIG_DEF_WAN_ALIAS_IP" ]);
  (IS_DIST "ADM5120_VGW" ||| IS_DIST "ADM5120_VGW_OSIP", [
    set_hw "ADM5120P";
    set_os "LINUX_24";
    enable_module 392 "MODULE_RG_FOUNDATION";
    enable_module 397 "MODULE_RG_ADVANCED_ROUTING";
    enable_module 398 "MODULE_RG_PPP";
    enable_module 399 "MODULE_RG_FIREWALL_AND_SECURITY";
    enable_module 400 "MODULE_RG_PPTP";
    enable_module 401 "MODULE_RG_UPNP";
    enable_module 402 "MODULE_RG_VLAN";
    token_set_y 405 "CONFIG_HW_ETH_WAN";
    token_set_y 406 "CONFIG_HW_ETH_LAN";
    enable_module 407 "CONFIG_HW_DSP";
    token_set_y 409 "CONFIG_DYN_LINK";
    enable_module 412 "MODULE_RG_ATA";
    IfElse (IS_DIST "ADM5120_VGW_OSIP") [
      enable_module 414 "MODULE_RG_VOIP_OSIP" ]
    [
      enable_module 416 "MODULE_RG_VOIP_ASTERISK_SIP" ] ]);
  (IS_DIST "INCAIP_LSP", [
    set_hw "INCAIP_LSP";
    token_set_y 421 "CONFIG_LSP_DIST";
    token_set_y 422 "CONFIG_FRAME_POINTER";
    token_set_y 423 "CONFIG_VINETIC_TAPIDEMO" ]);
  (IS_DIST "RGLOADER_INCAIP", [
    set_hw "INCAIP";
    token_set_y 428 "CONFIG_RG_RGLOADER";
    token_set_y 431 "CONFIG_HW_ETH_LAN" ]) ].

(** dist_config.c:433-567 *)
Definition distribution_arms_2 : list (cond * list stmt) :=
  [
  (IS_DIST "INCAIP_IPPHONE", [
    set_hw "INCAIP";
    enable_module 438 "MODULE_RG_FOUNDATION";
    enable_module 439 "MODULE_RG_VOIP_RV_SIP";
    enable_module 440 "MODULE_RG_VOIP_RV_H323";
    enable_module 441 "MODULE_RG_VOIP_RV_MGCP";
    enable_module 442 "MODULE_RG_UPNP";
    enable_module 443 "MODULE_RG_PPP";
    token_set_y 444 "CONFIG_RG_EVENT_LOGGING";
    token_set_y 447 "CONFIG_HW_ETH_WAN";
    enable_module 448 "CONFIG_HW_DSP";
    token_set_y 449 "CONFIG_HW_KEYPAD";
    token_set_y 450 "CONFIG_HW_LEDS";
    token_set_y 452 "CONFIG_DYN_LINK";
    token_set_y 453 "CONFIG_DEF_WAN_ALIAS_IP" ]);
  (IS_DIST "RGLOADER_FLEXTRONICS", [
    set_hw "FLEXTRONICS";
    token_set_y 458 "CONFIG_RG_RGLOADER";
    token_set_y 461 "CONFIG_HW_ETH_LAN" ]);
  (IS_DIST "FLEXTRONICS_IPPHONE", [
    set_hw "FLEXTRONICS";
    enable_module 468 "MODULE_RG_FOUNDATION";
    enable_module 469 "MODULE_RG_VOIP_RV_SIP";
    enable_module 470 "MODULE_RG_VOIP_RV_H323";
    enable_module 471 "MODULE_RG_VOIP_RV_MGCP";
    enable_module 472 "MODULE_RG_UPNP";
    enable_module 473 "MODULE_RG_PPP";
    token_set_y 474 "CONFIG_RG_EVENT_LOGGING";
    token_set_y 477 "CONFIG_HW_ETH_WAN";
    enable_module 478 "CONFIG_HW_DSP";
    token_set_y 479 "CONFIG_HW_KEYPAD";
    token_set_y 480 "CONFIG_HW_LEDS";
    token_set_y 482 "CONFIG_DYN_LINK";
    token_set_y 483 "CONFIG_DEF_WAN_ALIAS_IP" ]);
  (IS_DIST "INCAIP_ATA" ||| IS_DIST "INCAIP_ATA_OSIP", [
    set_hw "ALLTEK";
    enable_module 490 "MODULE_RG_FOUNDATION";
    enable_module 491 "MODULE_RG_UPNP";
    enable_module 492 "MODULE_RG_PPP";
    token_set_y 493 "CONFIG_RG_EVENT_LOGGING";
    enable_module 496 "CONFIG_HW_DSP";
    token_set_y 497 "CONFIG_HW_ETH_WAN";
    token_set_y 499 "CONFIG_DYN_LINK";
    token_set_y 500 "CONFIG_DEF_WAN_ALIAS_IP";
    enable_module 503 "MODULE_RG_ATA";
    IfElse (IS_DIST "INCAIP_ATA_OSIP") [
      enable_module 505 "MODULE_RG_VOIP_OSIP" ]
    [
      enable_module 508 "MODULE_RG_VOIP_RV_SIP";
      enable_module 509 "MODULE_RG_VOIP_RV_MGCP";
      enable_module 510 "MODULE_RG_VOIP_RV_H323" ] ]);
  (IS_DIST "RGLOADER_ALLTEK" ||| IS_DIST "RGLOADER_ALLTEK_FULLSOURCE", [
    set_hw "ALLTEK";
    token_set_y 518 "CONFIG_RG_RGLOADER";
    token_set_y 521 "CONFIG_HW_ETH_LAN" ]);
  (IS_DIST "INCAIP_VGW" ||| IS_DIST "INCAIP_VGW_OSIP", [
    set_hw "ALLTEK_VLAN";
    token_set_y 528 "CONFIG_RG_SMB";
    enable_module 531 "MODULE_RG_FOUNDATION";
    enable_module 532 "MODULE_RG_ADVANCED_MANAGEMENT";
    enable_module 533 "MODULE_RG_SNMP";
    enable_module 534 "MODULE_RG_UPNP";
    enable_module 535 "MODULE_RG_ADVANCED_ROUTING";
    enable_module 536 "MODULE_RG_FIREWALL_AND_SECURITY";
    enable_module 537 "MODULE_RG_PPTP";
    enable_module 538 "MODULE_RG_PPP";
    enable_module 541 "MODULE_RG_IPSEC";
    enable_module 542 "MODULE_RG_L2TP";
    enable_module 546 "MODULE_RG_IPV6";
    enable_module 547 "MODULE_RG_URL_FILTERING";
    token_set_y 550 "CONFIG_HW_ETH_WAN";
    token_set_y 551 "CONFIG_HW_ETH_LAN";
    enable_module 552 "CONFIG_HW_DSP";
    enable_module 553 "CONFIG_HW_ENCRYPTION";
    token_set_y 555 "CONFIG_DYN_LINK";
    enable_module 558 "MODULE_RG_ATA";
    IfElse (IS_DIST "INCAIP_VGW_OSIP") [
      enable_module 560 "MODULE_RG_VOIP_OSIP" ]
    [
      enable_module 563 "MODULE_RG_VOIP_RV_SIP";
      enable_module 564 "MODULE_RG_VOIP_RV_H323";
      enable_module 565 "MODULE_RG_VOIP_RV_MGCP" ] ]) ].

(** dist_config.c:568-683 *)
Definition distribution_arms_3 : list (cond * list stmt) :=
  [
  (IS_DIST "INCAIP_FULLSOURCE", [
    set_hw "ALLTEK_VLAN";
    token_set_y 572 "CONFIG_RG_SMB";
    enable_module 575 "MODULE_RG_FOUNDATION";
    enable_module 576 "MODULE_RG_ADVANCED_MANAGEMENT";
    enable_module 577 "MODULE_RG_SNMP";
    enable_module 578 "MODULE_RG_UPNP";
    enable_module 579 "MODULE_RG_ADVANCED_ROUTING";
    enable_module 580 "MODULE_RG_FIREWALL_AND_SECURITY";
    enable_module 581 "MODULE_RG_PPTP";
    enable_module 582 "MODULE_RG_PPP";
    enable_module 585 "MODULE_RG_IPSEC";
    enable_module 586 "MODULE_RG_L2TP";
    enable_module 590 "MODULE_RG_IPV6";
    enable_module 591 "MODULE_RG_URL_FILTERING";
    token_set_y 594 "CONFIG_HW_ETH_WAN";
    token_set_y 595 "CONFIG_HW_ETH_LAN";
    enable_module 596 "CONFIG_HW_ENCRYPTION";
    token_set_y 598 "CONFIG_DYN_LINK" ]);
  (IS_DIST "BCM94702", [
    set_hw "BCM94702";
    enable_module 604 "MODULE_RG_FOUNDATION";
    enable_module 605 "MODULE_RG_FIREWALL_AND_SECURITY";
    token_set_y 608 "CONFIG_HW_ETH_WAN";
    token_set_y 609 "CONFIG_HW_ETH_LAN" ]);
  (IS_DIST "BCM94704", [
    set_hw "BCM94704";
    enable_module 615 "MODULE_RG_FOUNDATION";
    enable_module 616 "MODULE_RG_FIREWALL_AND_SECURITY";
    enable_module 617 "MODULE_RG_SNMP";
    token_set_y 618 "CONFIG_RG_EVENT_LOGGING";
    token_set_y 619 "CONFIG_RG_ENTFY";
    token_set_y 622 "CONFIG_HW_ETH_WAN";
    token_set_y 623 "CONFIG_HW_ETH_LAN";
    enable_module 624 "CONFIG_HW_80211G_BCM43XX" ]);
  (IS_DIST "USI_BCM94712", [
    set_hw "BCM94712";
    enable_module 632 "MODULE_RG_FOUNDATION";
    enable_module 633 "MODULE_RG_FIREWALL_AND_SECURITY";
    enable_module 634 "MODULE_RG_ADVANCED_MANAGEMENT";
    enable_module 635 "MODULE_RG_ADVANCED_ROUTING";
    enable_module 636 "MODULE_RG_WLAN_AND_ADVANCED_WLAN";
    enable_module 637 "MODULE_RG_SNMP";
    enable_module 638 "MODULE_RG_PPTP";
    enable_module 639 "MODULE_RG_L2TP";
    token_set_y 642 "CONFIG_HW_ETH_WAN";
    token_set_y 643 "CONFIG_HW_ETH_LAN";
    enable_module 644 "CONFIG_HW_80211G_BCM43XX";
    token_set_y 648 "CONFIG_DYN_LINK" ]);
  (IS_DIST "SRI_USI_BCM94712", [
    set_hw "BCM94712";
    token_set_y 654 "CONFIG_RG_SMB";
    enable_module 656 "MODULE_RG_FOUNDATION";
    enable_module 657 "MODULE_RG_ADVANCED_MANAGEMENT";
    enable_module 658 "MODULE_RG_ADVANCED_ROUTING";
    enable_module 659 "MODULE_RG_PPP";
    enable_module 660 "MODULE_RG_FIREWALL_AND_SECURITY";
    enable_module 662 "MODULE_RG_WLAN_AND_ADVANCED_WLAN";
    enable_module 663 "MODULE_RG_URL_FILTERING";
    token_set 664 "CONFIG_RG_SURFCONTROL_PARTNER_ID" "6003";
    enable_module 665 "MODULE_RG_IPSEC";
    enable_module 666 "MODULE_RG_PPTP";
    enable_module 667 "MODULE_RG_L2TP";
    enable_module 668 "MODULE_RG_SNMP";
    token_set_y 671 "CONFIG_HW_ETH_WAN";
    token_set_y 672 "CONFIG_HW_ETH_LAN";
    token_set_y 673 "CONFIG_HW_80211G_BCM43XX";
    token_set_y 678 "CONFIG_DYN_LINK";
    token_set_y 682 "CONFIG_RG_RADIUS_WBM_IN_CONN" ]) ].

(** dist_config.c:684-812 *)
Definition distribution_arms_4 : list (cond * list stmt) :=
  [
  (IS_DIST "RTA770W", [
    set_hw "RTA770W";
    enable_module 688 "MODULE_RG_FOUNDATION";
    enable_module 689 "MODULE_RG_ADVANCED_MANAGEMENT";
    enable_module 690 "MODULE_RG_FIREWALL_AND_SECURITY";
    enable_module 691 "MODULE_RG_ADVANCED_MANAGEMENT";
    enable_module 692 "MODULE_RG_WLAN_AND_ADVANCED_WLAN";
    token_set_y 695 "CONFIG_DYN_LINK";
    enable_module 696 "MODULE_RG_SNMP";
    enable_module 697 "MODULE_RG_PPP";
    enable_module 698 "MODULE_RG_UPNP";
    token_set_y 699 "CONFIG_RG_IGD_XBOX";
    enable_module 700 "MODULE_RG_DSL";
    token_set_y 703 "CONFIG_HW_DSL_WAN";
    token_set_y 704 "CONFIG_HW_ETH_LAN";
    enable_module 705 "CONFIG_HW_80211G_BCM43XX";
    enable_module 706 "CONFIG_HW_USB_RNDIS";
    token_set_m 707 "CONFIG_HW_BUTTONS";
    token_set_y 708 "CONFIG_HW_LEDS";
    token_set_y 712 "CONFIG_GUI_BELKIN";
    token_set 713 "RG_PROD_STR" "Prodigy infinitum";
    token_set_y 714 "CONFIG_RG_DSL_CH";
    token_set_y 715 "CONFIG_RG_PPP_ON_DEMAND_AS_DEFAULT";
    token_set 717 "CONFIG_RG_PPP_ON_DEMAND_DEFAULT_MAX_IDLE_TIME" "10800";
    token_set 719 "CONFIG_RG_PPP_DEFAULT_BSD_COMPRESSION" "1";
    token_set 721 "CONFIG_RG_PPP_DEFAULT_DEFLATE_COMPRESSION" "1";
    token_set_y 724 "CONFIG_RG_RMT_UPGRADE_IMG_IN_MEM";
    If (notc (has_str "CONFIG_RG_DIST_LANG")) [
      token_set 728 "CONFIG_RG_DIST_LANG" "spanish_belkin" ];
    token_set_y 729 "CONFIG_RG_CFG_SERVER";
    token_set_y 730 "CONFIG_RG_OSS_RMT";
    token_set_y 731 "CONFIG_RG_RMT_MNG";
    token_set_y 732 "CONFIG_RG_NON_ROUTABLE_LAN_DEVICE_IP" ]);
  (IS_DIST "RTA770W_EVAL", [
    set_hw "RTA770W";
    enable_module 738 "MODULE_RG_FOUNDATION";
    enable_module 739 "MODULE_RG_ADVANCED_MANAGEMENT";
    enable_module 740 "MODULE_RG_FIREWALL_AND_SECURITY";
    enable_module 741 "MODULE_RG_ADVANCED_MANAGEMENT";
    enable_module 742 "MODULE_RG_WLAN_AND_ADVANCED_WLAN";
    enable_module 743 "MODULE_RG_SNMP";
    enable_module 744 "MODULE_RG_PPP";
    enable_module 745 "MODULE_RG_UPNP";
    enable_module 746 "MODULE_RG_DSL";
    token_set_y 749 "CONFIG_HW_DSL_WAN";
    token_set_y 750 "CONFIG_HW_ETH_LAN";
    enable_module 751 "CONFIG_HW_80211G_BCM43XX";
    enable_module 752 "CONFIG_HW_USB_RNDIS";
    token_set_m 753 "CONFIG_HW_BUTTONS";
    token_set_y 754 "CONFIG_HW_LEDS";
    token_set_y 760 "CONFIG_RG_RMT_UPGRADE_IMG_IN_MEM";
    token_set_y 763 "CONFIG_DYN_LINK" ]);
  (IS_DIST "RGLOADER_RTA770W", [
    set_hw "RTA770W";
    token_set_y 769 "CONFIG_RG_RGLOADER";
    token_set_y 770 "CONFIG_BCM963XX_BOOTSTRAP";
    token_set_m 771 "CONFIG_RG_KRGLDR";
    token_set_y 774 "CONFIG_HW_ETH_LAN2";
    token_set_y 775 "CONFIG_HW_ETH_LAN" ]);
  (IS_DIST "GTWX5803", [
    set_hw "GTWX5803";
    token_set 781 "CONFIG_RG_JPKG_DIST" "JPKG_BCM9634X";
    small_flash_default_dist;
    token_set_m 785 "CONFIG_RG_MTD";
    token_set_y 788 "CONFIG_HW_DSL_WAN";
    token_set_y 789 "CONFIG_HW_SWITCH_LAN";
    enable_module 790 "CONFIG_HW_80211G_BCM43XX";
    enable_module 791 "CONFIG_HW_USB_RNDIS";
    token_set_m 792 "CONFIG_HW_BUTTONS";
    token_set_y 793 "CONFIG_HW_LEDS" ]);
  (IS_DIST "RGLOADER_GTWX5803", [
    set_hw "GTWX5803";
    token_set_y 803 "CONFIG_RG_RGLOADER";
    token_set_y 804 "CONFIG_RG_TELNETS";
    token_set_y 805 "CONFIG_BCM963XX_BOOTSTRAP";
    token_set_m 806 "CONFIG_RG_KRGLDR";
    token_set_y 807 "CONFIG_RG_DYN_FLASH_LAYOUT";
    token_set_m 808 "CONFIG_RG_MTD";
    token_set_y 811 "CONFIG_HW_ETH_LAN" ]) ].

(** dist_config.c:813-952 *)
Definition distribution_arms_5 : list (cond * list stmt) :=
  [
  (IS_DIST "WRT54G", [
    set_hw "WRT54G";
    enable_module 817 "MODULE_RG_FOUNDATION";
    enable_module 818 "MODULE_RG_ADVANCED_MANAGEMENT";
    enable_module 819 "MODULE_RG_FIREWALL_AND_SECURITY";
    enable_module 820 "MODULE_RG_ADVANCED_ROUTING";
    enable_module 821 "MODULE_RG_WLAN_AND_ADVANCED_WLAN";
    enable_module 822 "MODULE_RG_SNMP";
    token_set_y 825 "CONFIG_HW_ETH_WAN";
    token_set_y 826 "CONFIG_HW_ETH_LAN";
    enable_module 827 "CONFIG_HW_80211G_BCM43XX";
    token_set_m 828 "CONFIG_HW_BUTTONS";
    token_set_y 832 "CONFIG_ARCH_BCM947_CYBERTAN";
    token_set_y 833 "CONFIG_RG_BCM947_NVRAM_CONVERT";
    token_set_y 834 "CONFIG_DYN_LINK";
    token_set_y 835 "CONFIG_GUI_LINKSYS" ]);
  (IS_DIST "SOLOS_LSP" ||| IS_DIST "SOLOS", [
    set_hw "CX9451X";
    set_os "LINUX_26";
    token_set_y 841 "CONFIG_ARCH_SOLOS";
    token_set_y 842 "CONFIG_DEBUG_USER";
    token_set_y 843 "CONFIG_KALLSYMS";
    token_set_y 844 "CONFIG_SERIAL_CORE";
    token_set_y 845 "CONFIG_SERIAL_CORE_CONSOLE";
    token_set_y 846 "CONFIG_SERIAL_SOLOS_CONSOLE";
    token_set_y 847 "CONFIG_UNIX98_PTYS";
    IfElse (IS_DIST "SOLOS_LSP") [
      token_set_y 851 "CONFIG_RG_KGDB";
      token_set_y 852 "CONFIG_LSP_DIST" ]
    [
      enable_module 856 "MODULE_RG_FOUNDATION";
      enable_module 857 "MODULE_RG_ADVANCED_ROUTING";
      enable_module 858 "MODULE_RG_VLAN";
      enable_module 859 "MODULE_RG_ADVANCED_MANAGEMENT";
      enable_module 860 "MODULE_RG_DSL";
      enable_module 861 "MODULE_RG_PPP";
      enable_module 862 "MODULE_RG_FIREWALL_AND_SECURITY";
      enable_module 863 "MODULE_RG_URL_FILTERING";
      enable_module 864 "MODULE_RG_IPSEC";
      token_set_y 865 "CONFIG_IPSEC_USE_SOLOS_CRYPTO";
      enable_module 866 "MODULE_RG_PPTP";
      enable_module 867 "MODULE_RG_L2TP";
      enable_module 868 "MODULE_RG_FILESERVER";
      enable_module 869 "MODULE_RG_PRINTSERVER";
      enable_module 870 "MODULE_RG_UPNP";
      enable_module 873 "MODULE_RG_VOIP_ASTERISK_SIP";
      enable_module 874 "MODULE_RG_PBX";
      enable_module 876 "MODULE_RG_SNMP";
      enable_module 877 "MODULE_RG_IPV6";
      enable_module 878 "MODULE_RG_DSLHOME";
      enable_module 879 "MODULE_RG_TR_064";
      enable_module 880 "MODULE_RG_QOS";
      enable_module 883 "CONFIG_HW_DSP";
      token_set_y 884 "CONFIG_HW_USB_STORAGE";
      token_set_y 885 "CONFIG_HW_DSL_WAN";
      token_set_y 886 "CONFIG_HW_ETH_WAN";
      token_set_y 887 "CONFIG_HW_ETH_LAN" ];
    token_set_y 892 "CONFIG_DYN_LINK";
    token_set 893 "CONFIG_RG_JPKG_DIST" "JPKG_ARMV5L";
    token_set 895 "CONFIG_RG_EXTERNAL_TOOLS_PATH" "/usr/local/virata/tools_v10.1c/redhat-9-x86/bin/" ]);
  (IS_DIST "CX82100_SCHMID", [
    set_hw "CX82100";
    set_os "LINUX_22";
    enable_module 902 "MODULE_RG_FOUNDATION";
    enable_module 903 "MODULE_RG_FIREWALL_AND_SECURITY";
    token_set_y 906 "CONFIG_HW_ETH_WAN";
    token_set_y 907 "CONFIG_HW_ETH_LAN";
    enable_module 908 "CONFIG_HW_USB_RNDIS";
    token_set_y 910 "CONFIG_RG_TODC" ]);
  (IS_DIST "X86_FRG_TMT", [
    set_hw "PCBOX_EEP_EEP";
    enable_module 916 "MODULE_RG_FOUNDATION";
    enable_module 917 "MODULE_RG_SNMP";
    enable_module 918 "MODULE_RG_VLAN";
    token_set_y 921 "CONFIG_HW_ETH_WAN";
    token_set_y 922 "CONFIG_HW_ETH_LAN";
    token_set_y 924 "CONFIG_GLIBC" ]);
  (IS_DIST "RGLOADER_X86_TMT", [
    set_hw "PCBOX_EEP_EEP";
    token_set_y 930 "CONFIG_RG_RGLOADER";
    token_set_y 933 "CONFIG_HW_ETH_LAN2";
    token_set_y 934 "CONFIG_HW_ETH_LAN" ]);
  (IS_DIST "ALLWELL_RTL_RTL", [
    set_hw "ALLWELL_RTL_RTL";
    token_set_y 940 "PACKAGE_OPENRG_VPN_GATEWAY";
    token_set_y 941 "MODULE_RG_VOIP_ASTERISK_SIP";
    token_set_y 942 "MODULE_RG_VOIP_ASTERISK_H323";
    token_set_y 945 "CONFIG_HW_ETH_WAN";
    token_set_y 946 "CONFIG_HW_ETH_LAN";
    token_set 948 "CONFIG_RG_JPKG_DIST" "JPKG_I386";
    token_set_y 951 "CONFIG_RG_DEV" ]) ].

(** dist_config.c:953-1069 *)
Definition distribution_arms_6 : list (cond * list stmt) :=
  [
  (IS_DIST "ALLWELL_RTL_RTL_SSI", [
    set_hw "ALLWELL_RTL_RTL";
    token_set_y 956 "PACKAGE_OPENRG_VPN_GATEWAY";
    token_set_y 959 "CONFIG_HW_ETH_WAN";
    token_set_y 960 "CONFIG_HW_ETH_LAN";
    token_set_y 962 "CONFIG_RG_SSI_PAGES" ]);
  (IS_DIST "ALLWELL_RTL_EEP", [
    set_hw "ALLWELL_RTL_EEP";
    token_set_y 968 "CONFIG_RG_SMB";
    enable_module 971 "MODULE_RG_FOUNDATION";
    enable_module 972 "MODULE_RG_ADVANCED_MANAGEMENT";
    enable_module 973 "MODULE_RG_SNMP";
    enable_module 974 "MODULE_RG_PPP";
    enable_module 978 "MODULE_RG_IPV6";
    enable_module 979 "MODULE_RG_VLAN";
    enable_module 980 "MODULE_RG_UPNP";
    enable_module 981 "MODULE_RG_ADVANCED_ROUTING";
    enable_module 982 "MODULE_RG_FIREWALL_AND_SECURITY";
    enable_module 983 "MODULE_RG_L2TP";
    enable_module 984 "MODULE_RG_IPSEC";
    enable_module 985 "MODULE_RG_PPTP";
    enable_module 986 "MODULE_RG_URL_FILTERING";
    token_set_y 989 "CONFIG_HW_ETH_WAN";
    token_set_y 990 "CONFIG_HW_ETH_LAN" ]);
  (IS_DIST "ALLWELL_RTL_RTL_ALADDIN", [
    set_hw "ALLWELL_RTL_RTL";
    token_set_y 997 "PACKAGE_OPENRG_VPN_GATEWAY";
    enable_module 998 "MODULE_RG_MAIL_FILTER";
    token_set_y 1001 "CONFIG_HW_ETH_WAN";
    token_set_y 1002 "CONFIG_HW_ETH_LAN" ]);
  (IS_DIST "ALLWELL_RTL_RTL_WELLTECH", [
    set_hw "ALLWELL_RTL_RTL";
    enable_module 1008 "MODULE_RG_FOUNDATION";
    enable_module 1009 "MODULE_RG_ADVANCED_MANAGEMENT";
    enable_module 1010 "MODULE_RG_SNMP";
    enable_module 1011 "MODULE_RG_PPP";
    enable_module 1012 "MODULE_RG_L2TP";
    enable_module 1013 "MODULE_RG_IPSEC";
    enable_module 1014 "MODULE_RG_PPTP";
    enable_module 1015 "MODULE_RG_SNMP";
    token_set_y 1018 "CONFIG_HW_ETH_WAN";
    token_set_y 1019 "CONFIG_HW_ETH_LAN";
    token_set_y 1021 "CONFIG_GUI_WELLTECH" ]);
  (IS_DIST "COYOTE_WIRELESS_80211B", [
    set_hw "COYOTE";
    token_set_y 1028 "CONFIG_RG_SMB";
    enable_module 1031 "MODULE_RG_FOUNDATION";
    enable_module 1032 "MODULE_RG_ADVANCED_MANAGEMENT";
    enable_module 1033 "MODULE_RG_SNMP";
    enable_module 1034 "MODULE_RG_PPP";
    enable_module 1038 "MODULE_RG_IPV6";
    enable_module 1039 "MODULE_RG_VLAN";
    enable_module 1040 "MODULE_RG_UPNP";
    enable_module 1041 "MODULE_RG_ADVANCED_ROUTING";
    enable_module 1042 "MODULE_RG_FIREWALL_AND_SECURITY";
    enable_module 1043 "MODULE_RG_L2TP";
    enable_module 1046 "MODULE_RG_IPSEC";
    enable_module 1047 "MODULE_RG_PPTP";
    enable_module 1048 "MODULE_RG_URL_FILTERING";
    enable_module 1049 "MODULE_RG_VOIP_RV_SIP";
    enable_module 1050 "MODULE_RG_VOIP_RV_MGCP";
    enable_module 1051 "MODULE_RG_VOIP_RV_H323";
    enable_module 1052 "MODULE_RG_FILESERVER";
    enable_module 1053 "MODULE_RG_PRINTSERVER";
    token_set_y 1056 "CONFIG_HW_ETH_WAN";
    token_set_y 1057 "CONFIG_HW_ETH_LAN";
    enable_module 1058 "CONFIG_HW_USB_RNDIS";
    enable_module 1059 "CONFIG_HW_80211B_PRISM2";
    enable_module 1060 "CONFIG_HW_DSP";
    enable_module 1061 "CONFIG_HW_ENCRYPTION";
    token_set_y 1062 "CONFIG_HW_IDE";
    enable_module 1064 "MODULE_RG_ATA";
    token_set_y 1068 "CONFIG_IXP425_COMMON_RG" ]) ].

(** dist_config.c:1072-1190 *)
Definition distribution_arms_7 : list (cond * list stmt) :=
  [
  (IS_DIST "COYOTE_WIRELESS_ISL" ||| IS_DIST "COYOTE_WIRELESS_SOFTMAC" ||| IS_DIST "COYOTE_WIRELESS_RALINK", [
    set_hw "COYOTE";
    token_set_y 1078 "CONFIG_RG_SMB";
    enable_module 1081 "MODULE_RG_FOUNDATION";
    enable_module 1082 "MODULE_RG_ADVANCED_MANAGEMENT";
    enable_module 1083 "MODULE_RG_SNMP";
    enable_module 1084 "MODULE_RG_PPP";
    enable_module 1088 "MODULE_RG_IPV6";
    enable_module 1089 "MODULE_RG_VLAN";
    enable_module 1090 "MODULE_RG_UPNP";
    enable_module 1091 "MODULE_RG_ADVANCED_ROUTING";
    enable_module 1092 "MODULE_RG_FIREWALL_AND_SECURITY";
    enable_module 1093 "MODULE_RG_L2TP";
    enable_module 1096 "MODULE_RG_IPSEC";
    enable_module 1097 "MODULE_RG_PPTP";
    enable_module 1098 "MODULE_RG_URL_FILTERING";
    enable_module 1099 "MODULE_RG_VOIP_RV_SIP";
    enable_module 1100 "MODULE_RG_VOIP_RV_MGCP";
    enable_module 1101 "MODULE_RG_VOIP_RV_H323";
    enable_module 1102 "MODULE_RG_FILESERVER";
    enable_module 1103 "MODULE_RG_WLAN_AND_ADVANCED_WLAN";
    token_set_y 1104 "CONFIG_RG_PRINT_SERVER";
    enable_module 1105 "CONFIG_RG_LPD";
    token_set_y 1106 "CONFIG_RG_IPP";
    enable_module 1107 "MODULE_RG_ATA";
    token_set_y 1110 "CONFIG_HW_ETH_WAN";
    token_set_y 1111 "CONFIG_HW_ETH_LAN";
    enable_module 1112 "CONFIG_HW_USB_RNDIS";
    If (IS_DIST "COYOTE_WIRELESS_ISL") [
      enable_module 1115 "CONFIG_HW_80211G_ISL38XX" ];
    If (IS_DIST "COYOTE_WIRELESS_SOFTMAC") [
      enable_module 1120 "CONFIG_HW_80211G_ISL_SOFTMAC" ];
    If (IS_DIST "COYOTE_WIRELESS_RALINK") [
      enable_module 1125 "CONFIG_HW_80211G_RALINK_RT2560" ];
    enable_module 1128 "CONFIG_HW_DSP";
    enable_module 1129 "CONFIG_HW_ENCRYPTION";
    token_set_y 1130 "CONFIG_HW_IDE";
    token_set_y 1135 "CONFIG_IXP425_COMMON_RG" ]);
  (IS_DIST "RGLOADER_USR8200", [
    set_hw "USR8200";
    token_set_y 1141 "CONFIG_RG_RGLOADER";
    token_set_y 1142 "CONFIG_IXP425_COMMON_RGLOADER";
    token_set_y 1145 "CONFIG_HW_ETH_LAN" ]);
  (IS_DIST "USR8200_EVAL", [
    set_hw "USR8200";
    token_set_y 1151 "CONFIG_RG_SMB";
    enable_module 1154 "MODULE_RG_FOUNDATION";
    enable_module 1155 "MODULE_RG_ADVANCED_MANAGEMENT";
    enable_module 1156 "MODULE_RG_SNMP";
    enable_module 1157 "MODULE_RG_PPP";
    enable_module 1161 "MODULE_RG_IPV6";
    enable_module 1162 "MODULE_RG_VLAN";
    enable_module 1163 "MODULE_RG_UPNP";
    enable_module 1164 "MODULE_RG_ADVANCED_ROUTING";
    enable_module 1165 "MODULE_RG_FIREWALL_AND_SECURITY";
    enable_module 1166 "MODULE_RG_L2TP";
    enable_module 1169 "MODULE_RG_IPSEC";
    enable_module 1170 "MODULE_RG_PPTP";
    enable_module 1171 "MODULE_RG_URL_FILTERING";
    enable_module 1172 "MODULE_RG_FILESERVER";
    enable_module 1173 "MODULE_RG_PRINTSERVER";
    token_set_y 1176 "CONFIG_HW_ETH_WAN";
    token_set_y 1177 "CONFIG_HW_ETH_LAN";
    token_set_y 1178 "CONFIG_HW_USB_HOST_EHCI";
    token_set_y 1179 "CONFIG_HW_USB_HOST_UHCI";
    token_set_y 1180 "CONFIG_HW_FIREWIRE";
    token_set_y 1181 "CONFIG_HW_FIREWIRE_STORAGE";
    token_set_y 1182 "CONFIG_HW_USB_STORAGE";
    enable_module 1183 "CONFIG_HW_ENCRYPTION";
    token_set 1185 "CONFIG_RG_PRINT_SERVER_SPOOL" "16777216";
    token_set_y 1186 "CONFIG_IXP425_COMMON_RG";
    token_set 1187 "CONFIG_RG_CONSOLE_DEVICE" "ttyS1";
    token_set 1188 "CONFIG_IXDP425_KGDB_UART" "1";
    token_set_y 1189 "CONFIG_RG_DATE" ]) ].

(** dist_config.c:1191-1294 *)
Definition distribution_arms_8 : list (cond * list stmt) :=
  [
  (IS_DIST "USR8200" ||| IS_DIST "USR8200_ALADDIN", [
    set_hw "USR8200";
    token_set_y 1195 "CONFIG_RG_SMB";
    enable_module 1197 "MODULE_RG_FOUNDATION";
    enable_module 1198 "MODULE_RG_FIREWALL_AND_SECURITY";
    enable_module 1199 "MODULE_RG_ADVANCED_ROUTING";
    enable_module 1200 "MODULE_RG_SNMP";
    enable_module 1201 "MODULE_RG_PPP";
    enable_module 1202 "MODULE_RG_UPNP";
    enable_module 1205 "MODULE_RG_IPSEC";
    enable_module 1206 "MODULE_RG_PPTP";
    enable_module 1207 "MODULE_RG_FILESERVER";
    enable_module 1208 "MODULE_RG_ADVANCED_OFFICE_SERVERS";
    enable_module 1209 "MODULE_RG_PRINTSERVER";
    token_set_y 1210 "CONFIG_RG_SURFCONTROL";
    enable_module 1211 "MODULE_RG_L2TP";
    enable_module 1212 "MODULE_RG_ADVANCED_MANAGEMENT";
    token_set_y 1215 "CONFIG_HW_ETH_WAN";
    token_set_y 1216 "CONFIG_HW_ETH_LAN";
    token_set_y 1217 "CONFIG_HW_USB_HOST_EHCI";
    token_set_y 1218 "CONFIG_HW_USB_HOST_UHCI";
    token_set_y 1219 "CONFIG_HW_FIREWIRE";
    token_set_y 1220 "CONFIG_HW_FIREWIRE_STORAGE";
    token_set_y 1221 "CONFIG_HW_USB_STORAGE";
    enable_module 1222 "CONFIG_HW_ENCRYPTION";
    token_set_y 1223 "CONFIG_HW_LEDS";
    token_set_y 1224 "CONFIG_HW_CLOCK";
    token_set_y 1226 "CONFIG_RG_FW_ICSA";
    token_set_y 1227 "CONFIG_IXP425_COMMON_RG";
    token_set 1228 "CONFIG_IXDP425_KGDB_UART" "1";
    token_set_y 1229 "CONFIG_RG_DATE";
    token_set 1230 "CONFIG_RG_PRINT_SERVER_SPOOL" "16777216";
    token_set_y 1231 "CONFIG_STOP_ON_INIT_FAIL";
    token_set 1232 "CONFIG_RG_SURFCONTROL_PARTNER_ID" "6002";
    token_set_y 1233 "CONFIG_RG_DHCPR";
    enable_module 1235 "MODULE_RG_QOS";
    enable_module 1236 "MODULE_RG_ROUTE_MULTIWAN";
    enable_module 1237 "MODULE_RG_SSL_VPN";
    token_set_y 1240 "CONFIG_RG_TZ_FULL";
    token_set 1241 "CONFIG_RG_TZ_YEARS" "5";
    enable_module 1243 "MODULE_RG_URL_FILTERING";
    enable_module 1244 "MODULE_RG_MAIL_FILTER" ]);
  (IS_DIST "USR8200_TUTORIAL", [
    set_hw "USR8200";
    token_set_y 1250 "CONFIG_RG_SMB";
    enable_module 1253 "MODULE_RG_FOUNDATION";
    enable_module 1254 "MODULE_RG_ADVANCED_MANAGEMENT";
    enable_module 1255 "MODULE_RG_SNMP";
    enable_module 1256 "MODULE_RG_PPP";
    enable_module 1260 "MODULE_RG_IPV6";
    enable_module 1261 "MODULE_RG_VLAN";
    enable_module 1262 "MODULE_RG_UPNP";
    enable_module 1263 "MODULE_RG_ADVANCED_ROUTING";
    enable_module 1264 "MODULE_RG_FIREWALL_AND_SECURITY";
    enable_module 1265 "MODULE_RG_L2TP";
    enable_module 1268 "MODULE_RG_IPSEC";
    enable_module 1269 "MODULE_RG_PPTP";
    enable_module 1270 "MODULE_RG_URL_FILTERING";
    enable_module 1271 "MODULE_RG_FILESERVER";
    enable_module 1272 "MODULE_RG_PRINTSERVER";
    token_set_y 1275 "CONFIG_HW_ETH_WAN";
    token_set_y 1276 "CONFIG_HW_ETH_LAN";
    token_set_y 1277 "CONFIG_HW_USB_HOST_EHCI";
    token_set_y 1278 "CONFIG_HW_USB_HOST_UHCI";
    token_set_y 1279 "CONFIG_HW_FIREWIRE";
    token_set_y 1280 "CONFIG_HW_FIREWIRE_STORAGE";
    token_set_y 1281 "CONFIG_HW_USB_STORAGE";
    enable_module 1282 "CONFIG_HW_ENCRYPTION";
    token_set_y 1283 "CONFIG_HW_LEDS";
    token_set_y 1284 "CONFIG_HW_CLOCK";
    token_set_y 1286 "CONFIG_RG_DATE";
    token_set_y 1287 "CONFIG_RG_TUTORIAL";
    token_set_y 1288 "CONFIG_STOP_ON_INIT_FAIL";
    token_set_y 1289 "CONFIG_IXP425_COMMON_RG";
    token_set_y 1292 "CONFIG_RG_TZ_FULL";
    token_set 1293 "CONFIG_RG_TZ_YEARS" "5" ]) ].

(** dist_config.c:1295-1436 *)
Definition distribution_arms_9 : list (cond * list stmt) :=
  [
  (IS_DIST "BAMBOO" ||| IS_DIST "BAMBOO_ALADDIN", [
    set_hw "BAMBOO";
    enable_module 1299 "MODULE_RG_FOUNDATION";
    enable_module 1300 "MODULE_RG_ADVANCED_ROUTING";
    enable_module 1301 "MODULE_RG_FIREWALL_AND_SECURITY";
    enable_module 1304 "MODULE_RG_IPSEC";
    enable_module 1305 "MODULE_RG_PPTP";
    enable_module 1306 "MODULE_RG_PPP";
    enable_module 1307 "MODULE_RG_VLAN";
    enable_module 1308 "MODULE_RG_UPNP";
    enable_module 1309 "MODULE_RG_FILESERVER";
    enable_module 1310 "MODULE_RG_ADVANCED_MANAGEMENT";
    token_set_y 1311 "CONFIG_RG_PROXY_ARP";
    token_set_y 1312 "CONFIG_RG_ENTFY";
    token_set_y 1313 "CONFIG_RG_UCD_SNMP";
    token_set_y 1314 "CONFIG_RG_8021X_TLS";
    token_set_y 1315 "CONFIG_RG_8021X_RADIUS";
    enable_module 1316 "MODULE_RG_ATA";
    token_set_y 1319 "CONFIG_HW_ETH_WAN";
    token_set_y 1320 "CONFIG_HW_ETH_LAN";
    enable_module 1321 "CONFIG_HW_USB_RNDIS";
    enable_module 1322 "CONFIG_HW_80211B_PRISM2";
    enable_module 1323 "CONFIG_HW_DSP";
    token_set_m 1324 "CONFIG_HW_USB_HOST_EHCI";
    token_set_m 1325 "CONFIG_HW_USB_HOST_UHCI";
    token_set_y 1326 "CONFIG_HW_USB_STORAGE";
    enable_module 1327 "CONFIG_HW_ENCRYPTION";
    token_set_y 1328 "CONFIG_HW_CAMERA_USB_OV511";
    token_set_m 1329 "CONFIG_HW_PCMCIA_CARDBUS";
    token_set_m 1330 "CONFIG_HW_BUTTONS";
    token_set_m 1331 "CONFIG_HW_LEDS";
    token_set_y 1333 "CONFIG_GLIBC";
    token_set_y 1334 "CONFIG_IXP425_COMMON_RG";
    token_set 1337 "CONFIG_RG_PPTP_ECHO_INTERVAL" "20";
    token_set 1338 "CONFIG_RG_PPTP_ECHO_FAILURE" "3";
    token_set 1339 "CONFIG_PPPOE_MAX_RETRANSMIT_TIMEOUT" "64";
    token_set_y 1342 "CONFIG_IXP425_DSR";
    token_set_y 1343 "CONFIG_RG_OLD_XSCALE_TOOLCHAIN";
    If (IS_DIST "BAMBOO_ALADDIN") [
      enable_module 1347 "MODULE_RG_MAIL_FILTER";
      enable_module 1348 "MODULE_RG_PRINTSERVER";
      token_set 1349 "CONFIG_RG_PRINT_SERVER_SPOOL" "16777216" ] ]);
  (IS_DIST "RGLOADER_CENTROID", [
    set_hw "CENTROID";
    token_set_y 1356 "CONFIG_RG_RGLOADER";
    token_set_y 1357 "CONFIG_SL2312_COMMON";
    token_set_y 1360 "CONFIG_HW_ETH_LAN";
    token_set_y 1361 "CONFIG_HW_ETH_LAN2" ]);
  (IS_DIST "CENTROID", [
    set_hw "CENTROID";
    token_set_y 1367 "CONFIG_RG_SMB";
    enable_module 1369 "MODULE_RG_FOUNDATION";
    enable_module 1370 "MODULE_RG_UPNP";
    enable_module 1371 "MODULE_RG_FIREWALL_AND_SECURITY";
    enable_module 1372 "MODULE_RG_FILESERVER";
    enable_module 1373 "MODULE_RG_WLAN_AND_ADVANCED_WLAN";
    enable_module 1374 "MODULE_RG_ADVANCED_MANAGEMENT";
    enable_module 1375 "MODULE_RG_VLAN";
    enable_module 1376 "MODULE_RG_QOS";
    enable_module 1377 "MODULE_RG_ROUTE_MULTIWAN";
    enable_module 1378 "MODULE_RG_SSL_VPN";
    enable_module 1380 "MODULE_RG_IPSEC";
    token_set_y 1383 "CONFIG_RG_THREADS";
    token_set_m 1385 "CONFIG_RG_MTD";
    token_set_y 1388 "CONFIG_HW_ETH_WAN";
    token_set_y 1389 "CONFIG_HW_ETH_LAN";
    token_set_y 1390 "CONFIG_HW_80211G_RALINK_RT2560";
    token_set_y 1391 "CONFIG_HW_USB_STORAGE";
    token_set_y 1393 "CONFIG_SL2312_COMMON_RG";
    token_set 1394 "CONFIG_RG_FLASH_LAYOUT_SIZE" "8" ]);
  (IS_DIST "MATECUMBE", [
    set_hw_dist;
    token_set_y 1406 "CONFIG_RG_SMB";
    enable_module 1409 "MODULE_RG_FOUNDATION";
    enable_module 1410 "MODULE_RG_ADVANCED_MANAGEMENT";
    enable_module 1411 "MODULE_RG_SNMP";
    enable_module 1412 "MODULE_RG_PPP";
    enable_module 1416 "MODULE_RG_IPV6";
    enable_module 1417 "MODULE_RG_VLAN";
    enable_module 1418 "MODULE_RG_UPNP";
    enable_module 1419 "MODULE_RG_ADVANCED_ROUTING";
    enable_module 1420 "MODULE_RG_FIREWALL_AND_SECURITY";
    enable_module 1421 "MODULE_RG_L2TP";
    enable_module 1424 "MODULE_RG_IPSEC";
    enable_module 1425 "MODULE_RG_PPTP";
    enable_module 1426 "MODULE_RG_URL_FILTERING";
    token_set_y 1429 "CONFIG_HW_ETH_WAN";
    token_set_y 1430 "CONFIG_HW_ETH_LAN";
    enable_module 1431 "CONFIG_HW_USB_RNDIS";
    enable_module 1432 "CONFIG_HW_ENCRYPTION";
    token_set_y 1433 "CONFIG_RG_INITFS_RAMDISK" ]) ].

(** dist_config.c:1437-1559 *)
Definition distribution_arms_10 : list (cond * list stmt) :=
  [
  (IS_DIST "IXDP425", [
    set_hw "IXDP425";
    token_set 1441 "CONFIG_RG_JPKG_DIST" "JPKG_ARMV5B";
    token_set_y 1442 "CONFIG_RG_SMB";
    token_set_y 1443 "CONFIG_ARM_24_FAST_MODULES";
    enable_module 1446 "MODULE_RG_FOUNDATION";
    enable_module 1447 "MODULE_RG_ADVANCED_MANAGEMENT";
    enable_module 1448 "MODULE_RG_SNMP";
    enable_module 1449 "MODULE_RG_PPP";
    enable_module 1453 "MODULE_RG_QOS";
    enable_module 1454 "MODULE_RG_ROUTE_MULTIWAN";
    enable_module 1455 "MODULE_RG_IPV6";
    enable_module 1456 "MODULE_RG_VLAN";
    enable_module 1457 "MODULE_RG_UPNP";
    enable_module 1458 "MODULE_RG_ADVANCED_ROUTING";
    enable_module 1459 "MODULE_RG_FIREWALL_AND_SECURITY";
    enable_module 1460 "MODULE_RG_L2TP";
    enable_module 1463 "MODULE_RG_IPSEC";
    enable_module 1464 "MODULE_RG_PPTP";
    enable_module 1465 "MODULE_RG_URL_FILTERING";
    enable_module 1466 "MODULE_RG_FILESERVER";
    enable_module 1467 "MODULE_RG_PRINTSERVER";
    enable_module 1468 "MODULE_RG_SSL_VPN";
    token_set_y 1471 "CONFIG_HW_ETH_WAN";
    token_set_y 1472 "CONFIG_HW_ETH_LAN";
    enable_module 1473 "CONFIG_HW_USB_RNDIS";
    enable_module 1474 "CONFIG_HW_ENCRYPTION";
    token_set_y 1476 "CONFIG_IXP425_COMMON_RG";
    token_set 1477 "CONFIG_IXDP425_KGDB_UART" "1";
    token_set 1478 "CONFIG_RG_FLASH_LAYOUT_SIZE" "16";
    token_set_y 1479 "CONFIG_ADSL_CHIP_ALCATEL_20150";
    token_set_y 1480 "CONFIG_IXP425_ADSL_USE_MPHY";
    token_set 1481 "CONFIG_RG_PRINT_SERVER_SPOOL" "16777216";
    token_set 1484 "CONFIG_IXP425_FLASH_E28F128J3" "m" ]);
  (IS_DIST "IXDP425_WIRELESS", [
    set_hw "IXDP425";
    token_set 1493 "CONFIG_RG_JPKG_DIST" "JPKG_ARMV5B";
    token_set_y 1494 "CONFIG_RG_SMB";
    enable_module 1497 "MODULE_RG_FOUNDATION";
    enable_module 1498 "MODULE_RG_ADVANCED_MANAGEMENT";
    enable_module 1499 "MODULE_RG_SNMP";
    enable_module 1500 "MODULE_RG_PPP";
    enable_module 1504 "MODULE_RG_IPV6";
    enable_module 1505 "MODULE_RG_VLAN";
    enable_module 1506 "MODULE_RG_UPNP";
    enable_module 1507 "MODULE_RG_ADVANCED_ROUTING";
    enable_module 1508 "MODULE_RG_FIREWALL_AND_SECURITY";
    enable_module 1509 "MODULE_RG_L2TP";
    enable_module 1512 "MODULE_RG_IPSEC";
    enable_module 1513 "MODULE_RG_PPTP";
    enable_module 1514 "MODULE_RG_URL_FILTERING";
    enable_module 1515 "MODULE_RG_FILESERVER";
    enable_module 1516 "MODULE_RG_PRINTSERVER";
    enable_module 1517 "MODULE_RG_WLAN_AND_ADVANCED_WLAN";
    token_set_y 1520 "CONFIG_HW_ETH_WAN";
    token_set_y 1521 "CONFIG_HW_ETH_LAN";
    enable_module 1522 "CONFIG_HW_USB_RNDIS";
    enable_module 1523 "CONFIG_HW_80211G_ISL38XX";
    enable_module 1524 "CONFIG_HW_ENCRYPTION";
    token_set_y 1528 "CONFIG_IXP425_COMMON_RG";
    token_set 1529 "CONFIG_IXDP425_KGDB_UART" "1";
    token_set 1530 "CONFIG_RG_FLASH_LAYOUT_SIZE" "16";
    token_set_y 1531 "CONFIG_ADSL_CHIP_ALCATEL_20150";
    token_set_y 1532 "CONFIG_IXP425_ADSL_USE_MPHY";
    token_set 1533 "CONFIG_RG_PRINT_SERVER_SPOOL" "16777216";
    token_set 1536 "CONFIG_IXP425_FLASH_E28F128J3" "m" ]);
  (IS_DIST "RGLOADER_KINGSCANYON", [
    set_hw "KINGSCANYON";
    token_set_y 1542 "CONFIG_RG_RGLOADER";
    token_set_y 1543 "CONFIG_IXP425_COMMON_RGLOADER";
    token_set_y 1546 "CONFIG_HW_ETH_LAN2";
    token_set_y 1547 "CONFIG_HW_ETH_LAN" ]);
  (IS_DIST "RGLOADER_KINGSCANYON_LSP", [
    set_hw "KINGSCANYON";
    token_set_y 1553 "CONFIG_RG_RGLOADER";
    token_set_y 1554 "CONFIG_LSP_FLASH_LAYOUT";
    token_set_y 1557 "CONFIG_HW_ETH_LAN2";
    token_set_y 1558 "CONFIG_HW_ETH_LAN" ]) ].

(** dist_config.c:1560-1709 *)
Definition distribution_arms_11 : list (cond * list stmt) :=
  [
  (IS_DIST "KINGSCANYON_WIRELESS" ||| IS_DIST "KINGSCANYON", [
    set_hw "KINGSCANYON";
    token_set_y 1564 "CONFIG_RG_SMB";
    enable_module 1567 "MODULE_RG_FOUNDATION";
    enable_module 1568 "MODULE_RG_ADVANCED_MANAGEMENT";
    enable_module 1569 "MODULE_RG_SNMP";
    enable_module 1570 "MODULE_RG_PPP";
    enable_module 1574 "MODULE_RG_IPV6";
    enable_module 1575 "MODULE_RG_VLAN";
    enable_module 1576 "MODULE_RG_UPNP";
    enable_module 1577 "MODULE_RG_ADVANCED_ROUTING";
    enable_module 1578 "MODULE_RG_FIREWALL_AND_SECURITY";
    enable_module 1579 "MODULE_RG_L2TP";
    enable_module 1582 "MODULE_RG_IPSEC";
    enable_module 1583 "MODULE_RG_PPTP";
    enable_module 1584 "MODULE_RG_URL_FILTERING";
    enable_module 1585 "MODULE_RG_FILESERVER";
    token_set_y 1586 "CONFIG_RG_PRINT_SERVER";
    enable_module 1587 "CONFIG_RG_LPD";
    token_set_y 1588 "CONFIG_RG_IPP";
    If (IS_DIST "KINGSCANYON_WIRELESS") [
      enable_module 1590 "MODULE_RG_WLAN_AND_ADVANCED_WLAN" ];
    token_set_y 1593 "CONFIG_HW_ETH_WAN";
    token_set_y 1594 "CONFIG_HW_ETH_LAN";
    enable_module 1595 "CONFIG_HW_USB_RNDIS";
    enable_module 1596 "CONFIG_HW_ENCRYPTION";
    If (IS_DIST "KINGSCANYON_WIRELESS") [
      enable_module 1598 "CONFIG_HW_80211G_ISL38XX" ];
    IfElse (IS_DIST "KINGSCANYON_WIRELESS") [
 ]
    [
 ] ]);
  (IS_DIST "KINGSCANYON_LSP", [
    set_hw "KINGSCANYON";
    token_set_y 1609 "CONFIG_LSP_DIST";
    token_set_y 1610 "CONFIG_GLIBC";
    token_set_y 1611 "CONFIG_SIMPLE_RAMDISK";
    token_set_y 1612 "CONFIG_LSP_FLASH_LAYOUT" ]);
  (IS_DIST "RGLOADER_ROCKAWAYBEACH", [
    set_hw "ROCKAWAYBEACH";
    token_set_y 1618 "CONFIG_RG_RGLOADER";
    token_set_y 1619 "CONFIG_IXP425_COMMON_RGLOADER";
    token_set_y 1622 "CONFIG_HW_ETH_LAN2";
    token_set_y 1623 "CONFIG_HW_ETH_LAN" ]);
  (IS_DIST "ROCKAWAYBEACH" ||| IS_DIST "ROCKAWAYBEACH_WIRELESS", [
    set_hw "ROCKAWAYBEACH";
    token_set_y 1629 "CONFIG_RG_SMB";
    enable_module 1632 "MODULE_RG_FOUNDATION";
    enable_module 1633 "MODULE_RG_ADVANCED_MANAGEMENT";
    enable_module 1634 "MODULE_RG_SNMP";
    enable_module 1635 "MODULE_RG_PPP";
    enable_module 1639 "MODULE_RG_IPV6";
    enable_module 1640 "MODULE_RG_VLAN";
    enable_module 1641 "MODULE_RG_UPNP";
    enable_module 1642 "MODULE_RG_ADVANCED_ROUTING";
    enable_module 1643 "MODULE_RG_FIREWALL_AND_SECURITY";
    enable_module 1644 "MODULE_RG_L2TP";
    enable_module 1647 "MODULE_RG_IPSEC";
    enable_module 1648 "MODULE_RG_PPTP";
    enable_module 1649 "MODULE_RG_URL_FILTERING";
    enable_module 1650 "MODULE_RG_FILESERVER";
    token_set_y 1651 "CONFIG_RG_PRINT_SERVER";
    enable_module 1652 "CONFIG_RG_LPD";
    token_set_y 1653 "CONFIG_RG_IPP";
    If (IS_DIST "ROCKAWAYBEACH_WIRELESS") [
      enable_module 1655 "MODULE_RG_WLAN_AND_ADVANCED_WLAN" ];
    token_set_y 1658 "CONFIG_HW_ETH_WAN";
    token_set_y 1659 "CONFIG_HW_ETH_LAN";
    enable_module 1660 "CONFIG_HW_USB_RNDIS";
    enable_module 1661 "CONFIG_HW_ENCRYPTION";
    If (IS_DIST "ROCKAWAYBEACH_WIRELESS") [
      enable_module 1663 "CONFIG_HW_80211G_ISL38XX" ];
    IfElse (IS_DIST "ROCKAWAYBEACH_WIRELESS") [
 ]
    [
 ] ]);
  (IS_DIST "IXDP425_NETKLASS", [
    set_hw "IXDP425";
    enable_module 1674 "MODULE_RG_FOUNDATION";
    enable_module 1677 "MODULE_RG_IPSEC";
    enable_module 1678 "MODULE_RG_PPTP";
    enable_module 1679 "MODULE_RG_FIREWALL_AND_SECURITY";
    enable_module 1680 "MODULE_RG_ADVANCED_ROUTING";
    enable_module 1681 "MODULE_RG_SNMP";
    enable_module 1682 "MODULE_RG_PPP";
    enable_module 1683 "MODULE_RG_UPNP";
    token_set_y 1684 "CONFIG_RG_ENTFY";
    token_set_y 1685 "CONFIG_RG_EVENT_LOGGING";
    token_set_y 1686 "CONFIG_RG_8021X";
    token_set_y 1687 "CONFIG_RG_8021X_MD5";
    token_set_y 1688 "CONFIG_RG_PROXY_ARP";
    token_set_y 1691 "CONFIG_HW_ETH_WAN";
    token_set_y 1692 "CONFIG_HW_ETH_LAN";
    enable_module 1693 "CONFIG_HW_ENCRYPTION";
    token_set_y 1695 "CONFIG_IXP425_COMMON_RG";
    token_set_y 1696 "CONFIG_IXP425_CSR_USB";
    token_set_y 1697 "CONFIG_SIMPLE_RAMDISK";
    token_set 1698 "CONFIG_RAMDISK_SIZE" "8192";
    token_set_y 1699 "CONFIG_GLIBC";
    token_set 1700 "CONFIG_RG_FLASH_LAYOUT_SIZE" "16";
    token_set 1703 "CONFIG_IXP425_FLASH_E28F128J3" "m";
    token_set 1704 "CONFIG_RG_FLASH_LAYOUT_SIZE" "16";
    token_set_y 1707 "CONFIG_IPSEC_USE_IXP4XX_CRYPTO" ]) ].

(** dist_config.c:1710-1822 *)
Definition distribution_arms_12 : list (cond * list stmt) :=
  [
  (IS_DIST "WAV54G", [
    set_hw "WAV54G";
    token_set_y 1714 "CONFIG_RG_SMB";
    enable_module 1716 "MODULE_RG_FOUNDATION";
    enable_module 1719 "MODULE_RG_IPSEC";
    enable_module 1720 "MODULE_RG_PPTP";
    enable_module 1721 "MODULE_RG_PPP";
    enable_module 1722 "MODULE_RG_FIREWALL_AND_SECURITY";
    enable_module 1723 "MODULE_RG_ADVANCED_ROUTING";
    enable_module 1724 "MODULE_RG_DSL";
    enable_module 1725 "MODULE_RG_WLAN_AND_ADVANCED_WLAN";
    enable_module 1726 "MODULE_RG_ADVANCED_MANAGEMENT";
    enable_module 1730 "MODULE_RG_IPV6";
    enable_module 1731 "MODULE_RG_SNMP";
    enable_module 1732 "MODULE_RG_UPNP";
    enable_module 1733 "MODULE_RG_VLAN";
    enable_module 1734 "MODULE_RG_L2TP";
    token_set_y 1737 "CONFIG_HW_DSL_WAN";
    token_set_y 1738 "CONFIG_HW_ETH_LAN";
    enable_module 1739 "CONFIG_HW_80211G_ISL38XX";
    enable_module 1740 "CONFIG_HW_ENCRYPTION";
    token_set_m 1741 "CONFIG_HW_BUTTONS";
    token_set_y 1743 "CONFIG_GLIBC" ]);
  (IS_DIST "CX8620XR_LSP" ||| IS_DIST "CX8620XD_LSP", [
    IfElse (IS_DIST "CX8620XR_LSP") [
      set_hw "CX8620XR" ]
    [
      set_hw "CX8620XD" ];
    token_set_y 1754 "CONFIG_LSP_DIST";
    token_set_y 1755 "CONFIG_IPTABLES";
    token_set_m 1756 "CONFIG_BRIDGE";
    token_set_y 1757 "CONFIG_BRIDGE_UTILS";
    token_set_y 1758 "CONFIG_RG_NETTOOLS_ARP";
    token_set_m 1759 "CONFIG_ISL_SOFTMAC";
    token_set_y 1760 "CONFIG_RG_NETKIT";
    token_set_y 1762 "CONFIG_CX8620X_COMMON";
    token_set_y 1764 "CONFIG_HW_USB_HOST_EHCI";
    token_set_y 1765 "CONFIG_HW_USB_STORAGE" ]);
  (IS_DIST "CX8620XR", [
    set_hw "CX8620XR";
    token_set_y 1771 "CONFIG_CX8620X_COMMON";
    token_set_y 1772 "CONFIG_RG_NETTOOLS_ARP";
    enable_module 1774 "MODULE_RG_FOUNDATION";
    enable_module 1775 "MODULE_RG_ADVANCED_MANAGEMENT";
    enable_module 1776 "MODULE_RG_PPP";
    enable_module 1777 "MODULE_RG_FIREWALL_AND_SECURITY";
    enable_module 1778 "MODULE_RG_WLAN_AND_ADVANCED_WLAN";
    enable_module 1779 "MODULE_RG_SSL_VPN";
    token_set_y 1782 "CONFIG_HW_ETH_WAN";
    token_set_y 1783 "CONFIG_HW_ETH_LAN";
    token_set_y 1784 "CONFIG_HW_80211G_RALINK_RT2560";
    token_set 1785 "CONFIG_RG_ADV_SERVICES_LEVEL" "1";
    token_set 1792 "CONFIG_RG_JPKG_DIST" "JPKG_ARMV5L" ]);
  (IS_DIST "CX8620XD_FILESERVER", [
    set_hw "CX8620XD";
    token_set_y 1798 "CONFIG_CX8620X_COMMON";
    token_set_y 1799 "CONFIG_RG_NETTOOLS_ARP";
    enable_module 1801 "MODULE_RG_FOUNDATION";
    enable_module 1802 "MODULE_RG_ADVANCED_MANAGEMENT";
    enable_module 1803 "MODULE_RG_FILESERVER";
    enable_module 1804 "MODULE_RG_PRINTSERVER";
    enable_module 1805 "MODULE_RG_FIREWALL_AND_SECURITY";
    enable_module 1806 "MODULE_RG_WLAN_AND_ADVANCED_WLAN";
    enable_module 1807 "MODULE_RG_QOS";
    enable_module 1808 "MODULE_RG_ROUTE_MULTIWAN";
    token_set_y 1811 "CONFIG_HW_USB_HOST_EHCI";
    token_set_y 1812 "CONFIG_HW_USB_STORAGE";
    token_set_y 1813 "CONFIG_HW_ETH_WAN";
    token_set_y 1814 "CONFIG_HW_ETH_LAN";
    token_set_y 1815 "CONFIG_HW_80211G_RALINK_RT2560" ]) ].

(** dist_config.c:1823-1966 *)
Definition distribution_arms_13 : list (cond * list stmt) :=
  [
  (IS_DIST "CX8620XD_SOHO", [
    set_hw "CX8620XD";
    token_set_y 1827 "CONFIG_CX8620X_COMMON";
    token_set_y 1828 "CONFIG_RG_NETTOOLS_ARP";
    token_set_y 1830 "PACKAGE_OPENRG_SOHO_GATEWAY";
    enable_module 1831 "MODULE_RG_PPP";
    enable_module 1832 "MODULE_RG_VLAN";
    enable_module 1833 "MODULE_RG_URL_FILTERING";
    enable_module 1834 "MODULE_RG_QOS";
    enable_module 1835 "MODULE_RG_ROUTE_MULTIWAN";
    enable_module 1836 "MODULE_RG_IPV6";
    enable_module 1837 "MODULE_RG_DSLHOME";
    enable_module 1838 "MODULE_RG_TR_098";
    enable_module 1839 "MODULE_RG_TR_064";
    enable_module 1840 "MODULE_RG_MAIL_FILTER";
    enable_module 1841 "MODULE_RG_JVM";
    enable_module 1842 "MODULE_RG_SSL_VPN";
    token_set 1844 "CONFIG_RG_SURFCONTROL_PARTNER_ID" "6002";
    token_set_y 1847 "CONFIG_HW_USB_HOST_EHCI";
    token_set_y 1848 "CONFIG_HW_USB_STORAGE";
    token_set_y 1849 "CONFIG_HW_ETH_WAN";
    token_set_y 1850 "CONFIG_HW_ETH_LAN";
    token_set_y 1851 "CONFIG_HW_80211G_RALINK_RT2560";
    token_set 1852 "CONFIG_RG_JPKG_DIST" "JPKG_ARMV5L";
    token_set 1853 "CONFIG_RG_ADV_SERVICES_LEVEL" "1" ]);
  (IS_DIST "MALINDI" ||| IS_DIST "MALINDI2", [
    set_hw "COMCERTO";
    set_os "LINUX_26";
    token_set 1866 "CONFIG_RG_JPKG_DIST" "JPKG_ARMV4L";
    token_set_y 1869 "CONFIG_COMCERTO_COMMON";
    Elif [
      (IS_DIST "MALINDI", [
        token_set_y 1873 "CONFIG_COMCERTO_MALINDI" ]);
      (IS_DIST "MALINDI2", [
        token_set_y 1875 "CONFIG_COMCERTO_NAIROBI" ]) ]
    [];
    token_set_y 1877 "CONFIG_RG_SMB";
    token_set_y 1878 "CONFIG_RG_NETTOOLS_ARP";
    enable_module 1880 "MODULE_RG_FOUNDATION";
    enable_module 1881 "MODULE_RG_UPNP";
    enable_module 1882 "MODULE_RG_PPP";
    enable_module 1883 "MODULE_RG_FIREWALL_AND_SECURITY";
    enable_module 1884 "MODULE_RG_ADVANCED_MANAGEMENT";
    enable_module 1885 "MODULE_RG_ZERO_CONFIGURATION_NETWORKING";
    enable_module 1888 "MODULE_RG_IPSEC";
    token_set_y 1890 "CONFIG_CADENCE_IPSEC2";
    enable_module 1891 "MODULE_RG_SNMP";
    enable_module 1892 "MODULE_RG_ADVANCED_ROUTING";
    enable_module 1893 "MODULE_RG_FILESERVER";
    enable_module 1894 "MODULE_RG_QOS";
    enable_module 1895 "MODULE_RG_WLAN_AND_ADVANCED_WLAN";
    token_set_y 1898 "CONFIG_HW_USB_HOST_OHCI";
    token_set_y 1899 "CONFIG_HW_USB_STORAGE";
    token_set_y 1900 "CONFIG_HW_ETH_LAN";
    token_set_y 1901 "CONFIG_HW_ETH_WAN";
    enable_module 1902 "CONFIG_HW_ENCRYPTION";
    enable_module 1905 "MODULE_RG_VOIP_ASTERISK_SIP";
    enable_module 1906 "MODULE_RG_PBX";
    token_set_y 1907 "CONFIG_COMCERTO_MATISSE";
    token_set_y 1908 "CONFIG_COMCERTO_CAL";
    token_set_y 1911 "CONFIG_HW_80211G_RALINK_RT2561" ]);
  (IS_DIST "RGLOADER_CX8620XD", [
    set_hw "CX8620XD";
    token_set_y 1926 "CONFIG_RG_RGLOADER";
    token_set_y 1927 "CONFIG_CX8620X_COMMON_RGLOADER";
    token_set_y 1930 "CONFIG_HW_ETH_LAN";
    token_set 1931 "CONFIG_RG_JPKG_DIST" "JPKG_ARMV5L" ]);
  (IS_DIST "IXDP425_CYBERTAN", [
    set_hw "IXDP425";
    token_set 1937 "CONFIG_RG_JPKG_DIST" "JPKG_ARMV5B";
    token_set_y 1938 "CONFIG_RG_SMB";
    enable_module 1940 "MODULE_RG_FOUNDATION";
    enable_module 1941 "MODULE_RG_PPP";
    enable_module 1942 "MODULE_RG_UPNP";
    enable_module 1943 "MODULE_RG_FIREWALL_AND_SECURITY";
    enable_module 1944 "MODULE_RG_ADVANCED_ROUTING";
    enable_module 1945 "MODULE_RG_ADVANCED_MANAGEMENT";
    enable_module 1949 "MODULE_RG_IPV6";
    enable_module 1950 "MODULE_RG_SNMP";
    token_set_y 1953 "CONFIG_HW_ETH_WAN";
    token_set_y 1954 "CONFIG_HW_ETH_LAN";
    enable_module 1955 "CONFIG_HW_USB_RNDIS";
    enable_module 1956 "CONFIG_HW_ENCRYPTION";
    token_set_y 1958 "CONFIG_IXP425_COMMON_RG";
    token_set 1959 "CONFIG_IXDP425_KGDB_UART" "1";
    token_set 1960 "CONFIG_RG_FLASH_LAYOUT_SIZE" "16";
    token_set 1963 "CONFIG_IXP425_FLASH_E28F128J3" "m" ]) ].

(** dist_config.c:1967-2111 *)
Definition distribution_arms_14 : list (cond * list stmt) :=
  [
  (IS_DIST "IXDP425_ATM" ||| IS_DIST "IXDP425_ATM_WIRELESS", [
    set_hw "IXDP425";
    token_set_y 1971 "CONFIG_RG_SMB";
    enable_module 1974 "MODULE_RG_FOUNDATION";
    enable_module 1975 "MODULE_RG_UPNP";
    enable_module 1976 "MODULE_RG_PPP";
    enable_module 1977 "MODULE_RG_FIREWALL_AND_SECURITY";
    enable_module 1978 "MODULE_RG_ADVANCED_MANAGEMENT";
    enable_module 1981 "MODULE_RG_IPSEC";
    enable_module 1982 "MODULE_RG_PPTP";
    enable_module 1983 "MODULE_RG_SNMP";
    enable_module 1987 "MODULE_RG_IPV6";
    enable_module 1988 "MODULE_RG_VLAN";
    enable_module 1989 "MODULE_RG_ADVANCED_ROUTING";
    enable_module 1990 "MODULE_RG_L2TP";
    enable_module 1991 "MODULE_RG_URL_FILTERING";
    enable_module 1992 "MODULE_RG_FILESERVER";
    enable_module 1993 "MODULE_RG_PRINTSERVER";
    enable_module 1994 "MODULE_RG_DSL";
    If (IS_DIST "IXDP425_ATM_WIRELESS") [
      enable_module 1996 "MODULE_RG_WLAN_AND_ADVANCED_WLAN" ];
    token_set_y 1999 "CONFIG_HW_DSL_WAN";
    token_set_y 2000 "CONFIG_HW_ETH_LAN";
    enable_module 2001 "CONFIG_HW_ENCRYPTION";
    If (IS_DIST "IXDP425_ATM_WIRELESS") [
      enable_module 2004 "CONFIG_HW_80211G_ISL38XX" ];
    token_set_y 2008 "CONFIG_IXP425_COMMON_RG";
    token_set 2009 "CONFIG_IXDP425_KGDB_UART" "1";
    token_set_y 2010 "CONFIG_ADSL_CHIP_ALCATEL_20150";
    token_set_y 2011 "CONFIG_IXP425_ADSL_USE_MPHY";
    token_set 2012 "CONFIG_RG_FLASH_LAYOUT_SIZE" "16";
    token_set 2013 "CONFIG_RG_PRINT_SERVER_SPOOL" "16777216";
    token_set 2016 "CONFIG_IXP425_FLASH_E28F128J3" "m" ]);
  (IS_DIST "NAPA", [
    set_hw_dist;
    token_set_y 2022 "CONFIG_RG_SMB";
    enable_module 2025 "MODULE_RG_FOUNDATION";
    enable_module 2026 "MODULE_RG_UPNP";
    enable_module 2027 "MODULE_RG_PPP";
    enable_module 2028 "MODULE_RG_FIREWALL_AND_SECURITY";
    enable_module 2029 "MODULE_RG_ADVANCED_MANAGEMENT";
    enable_module 2032 "MODULE_RG_IPSEC";
    enable_module 2033 "MODULE_RG_PPTP";
    enable_module 2034 "MODULE_RG_SNMP";
    enable_module 2038 "MODULE_RG_IPV6";
    enable_module 2039 "MODULE_RG_VLAN";
    enable_module 2040 "MODULE_RG_ADVANCED_ROUTING";
    enable_module 2041 "MODULE_RG_L2TP";
    enable_module 2042 "MODULE_RG_URL_FILTERING";
    enable_module 2043 "MODULE_RG_FILESERVER";
    enable_module 2044 "MODULE_RG_PRINTSERVER";
    token_set_y 2047 "CONFIG_HW_ETH_WAN";
    token_set_y 2048 "CONFIG_HW_ETH_LAN";
    enable_module 2049 "CONFIG_HW_USB_RNDIS";
    token_set_y 2050 "CONFIG_HW_USB_HOST_OHCI";
    token_set_y 2051 "CONFIG_HW_FIREWIRE";
    token_set_y 2052 "CONFIG_HW_FIREWIRE_STORAGE";
    token_set_y 2053 "CONFIG_HW_USB_STORAGE";
    enable_module 2054 "CONFIG_HW_ENCRYPTION" ]);
  (IS_DIST "GTWX5715", [
    set_hw "GTWX5715";
    token_set_y 2063 "CONFIG_RG_SMB";
    enable_module 2065 "MODULE_RG_FOUNDATION";
    enable_module 2066 "MODULE_RG_UPNP";
    enable_module 2067 "MODULE_RG_PPP";
    enable_module 2068 "MODULE_RG_FIREWALL_AND_SECURITY";
    enable_module 2069 "MODULE_RG_ADVANCED_MANAGEMENT";
    enable_module 2070 "MODULE_RG_ADVANCED_ROUTING";
    enable_module 2071 "MODULE_RG_WLAN_AND_ADVANCED_WLAN";
    enable_module 2072 "MODULE_RG_QOS";
    enable_module 2073 "MODULE_RG_SNMP";
    enable_module 2077 "MODULE_RG_IPV6";
    enable_module 2080 "MODULE_RG_IPSEC";
    enable_module 2081 "MODULE_RG_PPTP";
    enable_module 2082 "MODULE_RG_VLAN";
    enable_module 2083 "MODULE_RG_L2TP";
    enable_module 2084 "MODULE_RG_URL_FILTERING";
    enable_module 2085 "MODULE_RG_SSL_VPN";
    token_set_y 2088 "CONFIG_HW_ETH_WAN";
    token_set_y 2089 "CONFIG_HW_ETH_LAN";
    enable_module 2090 "CONFIG_HW_ENCRYPTION";
    token_set_m 2091 "CONFIG_HW_BUTTONS";
    enable_module 2095 "CONFIG_HW_80211G_ISL38XX";
    If (isset "CONFIG_HW_80211G_ISL38XX") [
      token_set_y 2099 "CONFIG_RG_WPA" ];
    token_set_y 2106 "CONFIG_GLIBC";
    token_set_y 2110 "CONFIG_RG_RMT_UPGRADE_IMG_IN_MEM" ]) ].

(** dist_config.c:2112-2246 *)
Definition distribution_arms_15 : list (cond * list stmt) :=
  [
  (IS_DIST "HG21", [
    set_hw "HG21";
    enable_module 2116 "MODULE_RG_FOUNDATION";
    enable_module 2117 "MODULE_RG_UPNP";
    enable_module 2118 "MODULE_RG_PPP";
    enable_module 2121 "MODULE_RG_IPSEC";
    enable_module 2122 "MODULE_RG_PPTP";
    enable_module 2123 "MODULE_RG_ADVANCED_ROUTING";
    enable_module 2124 "MODULE_RG_SNMP";
    enable_module 2125 "MODULE_RG_FIREWALL_AND_SECURITY";
    enable_module 2126 "MODULE_RG_WLAN_AND_ADVANCED_WLAN";
    token_set_y 2129 "CONFIG_HW_ETH_WAN";
    token_set_y 2130 "CONFIG_HW_ETH_LAN";
    enable_module 2131 "CONFIG_HW_80211G_ISL38XX";
    enable_module 2132 "CONFIG_HW_ENCRYPTION";
    token_set_y 2134 "CONFIG_GLIBC";
    token_set_y 2135 "CONFIG_RG_INSMOD_SILENT";
    token_set 2136 "CONFIG_JFFS2_FS" "m";
    token_set_y 2137 "CONFIG_IXP425_JFFS2_WORKAROUND";
    token_set_y 2138 "CONFIG_IXP425_CSR_HSS";
    token_set 2139 "CONFIG_IXP425_CODELETS" "m";
    token_set 2140 "CONFIG_IXP425_CODELET_HSS" "m";
    token_set_y 2141 "CONFIG_GUI_WELLTECH";
    token_set_y 2142 "CONFIG_GUI_RG";
    token_set_y 2143 "CONFIG_RG_SYSLOG_REMOTE" ]);
  (IS_DIST "IXDP425_FRG", [
    set_hw "IXDP425";
    token_set_y 2151 "CONFIG_RG_SMB";
    enable_module 2154 "MODULE_RG_FOUNDATION";
    enable_module 2155 "MODULE_RG_UPNP";
    enable_module 2156 "MODULE_RG_PPP";
    enable_module 2157 "MODULE_RG_ADVANCED_ROUTING";
    enable_module 2158 "MODULE_RG_ADVANCED_MANAGEMENT";
    enable_module 2159 "MODULE_RG_SNMP";
    enable_module 2163 "MODULE_RG_IPV6";
    enable_module 2164 "MODULE_RG_VLAN";
    enable_module 2165 "MODULE_RG_L2TP";
    enable_module 2166 "MODULE_RG_URL_FILTERING";
    token_set_y 2169 "CONFIG_HW_ETH_WAN";
    token_set_y 2170 "CONFIG_HW_ETH_LAN";
    enable_module 2171 "CONFIG_HW_USB_RNDIS";
    enable_module 2172 "CONFIG_HW_ENCRYPTION";
    token_set_y 2174 "CONFIG_IXP425_COMMON_RG";
    token_set 2175 "CONFIG_IXDP425_KGDB_UART" "1";
    token_set 2176 "CONFIG_RG_FLASH_LAYOUT_SIZE" "16";
    token_set_y 2177 "CONFIG_ADSL_CHIP_ALCATEL_20150";
    token_set_y 2178 "CONFIG_IXP425_ADSL_USE_MPHY";
    token_set 2181 "CONFIG_IXP425_FLASH_E28F128J3" "m" ]);
  (IS_DIST "IXDP425_TMT", [
    set_hw "IXDP425_TMT";
    enable_module 2189 "MODULE_RG_FOUNDATION";
    enable_module 2190 "MODULE_RG_UPNP";
    enable_module 2191 "MODULE_RG_PPP";
    enable_module 2192 "MODULE_RG_SNMP";
    enable_module 2193 "MODULE_RG_FIREWALL_AND_SECURITY";
    enable_module 2194 "MODULE_RG_VLAN";
    enable_module 2195 "MODULE_RG_ADVANCED_MANAGEMENT";
    enable_module 2196 "MODULE_RG_ADVANCED_ROUTING";
    token_set_y 2199 "CONFIG_HW_ETH_WAN";
    token_set_y 2200 "CONFIG_HW_ETH_LAN";
    enable_module 2201 "CONFIG_HW_ENCRYPTION";
    token_set_m 2202 "CONFIG_HW_BUTTONS";
    token_set_y 2204 "CONFIG_IXP425_COMMON_RG";
    token_set 2205 "CONFIG_RG_FLASH_LAYOUT_SIZE" "16";
    token_set_y 2206 "CONFIG_GLIBC";
    token_set 2209 "CONFIG_IXP425_FLASH_E28F128J3" "m" ]);
  (IS_DIST "RGLOADER_WADB100G", [
    set_hw "WADB100G";
    token_set 2215 "CONFIG_RG_JPKG_DIST" "JPKG_BCM9634X";
    token_set_y 2216 "CONFIG_RG_RGLOADER";
    token_set_y 2217 "CONFIG_BCM963XX_BOOTSTRAP";
    token_set_m 2218 "CONFIG_RG_KRGLDR";
    token_set_y 2221 "CONFIG_HW_ETH_LAN2";
    token_set_y 2222 "CONFIG_HW_ETH_LAN" ]);
  (IS_DIST "WADB100G", [
    set_hw "WADB100G";
    set_os "LINUX_24";
    token_set 2229 "CONFIG_RG_JPKG_DIST" "JPKG_BCM9634X";
    small_flash_default_dist;
    token_set_y 2235 "CONFIG_HW_DSL_WAN";
    token_set_y 2236 "CONFIG_HW_ETH_LAN";
    token_set_y 2237 "CONFIG_HW_SWITCH_LAN";
    enable_module 2238 "CONFIG_HW_80211G_BCM43XX";
    token_set_y 2239 "CONFIG_HW_USB_RNDIS";
    token_set_m 2240 "CONFIG_HW_BUTTONS";
    token_set_y 2241 "CONFIG_HW_LEDS" ]) ].

(** dist_config.c:2247-2393 *)
Definition distribution_arms_16 : list (cond * list stmt) :=
  [
  (IS_DIST "ASUS6020VI", [
    set_hw "ASUS6020VI";
    set_os "LINUX_24";
    token_set 2252 "CONFIG_RG_JPKG_DIST" "JPKG_BCM9634X";
    small_flash_default_dist;
    token_set_y 2258 "CONFIG_HW_DSL_WAN";
    token_set_y 2259 "CONFIG_HW_SWITCH_LAN";
    enable_module 2260 "CONFIG_HW_80211G_BCM43XX";
    token_set_m 2261 "CONFIG_HW_BUTTONS";
    token_set_y 2262 "CONFIG_HW_LEDS" ]);
  (IS_DIST "RGLOADER_WADB102GB", [
    set_hw "WADB102GB";
    token_set 2271 "CONFIG_RG_JPKG_DIST" "JPKG_BCM9634X";
    token_set_y 2272 "CONFIG_RG_RGLOADER";
    token_set_m 2273 "CONFIG_RG_KRGLDR";
    token_set_y 2274 "CONFIG_RG_TELNETS";
    token_set_y 2276 "CONFIG_RG_MTD";
    token_set 2278 "CONFIG_SDRAM_SIZE" "16";
    token_set_y 2279 "CONFIG_BCM963XX_BOOTSTRAP";
    token_set_y 2283 "CONFIG_HW_ETH_LAN" ]);
  (IS_DIST "WADB102GB", [
    set_hw "WADB102GB";
    set_os "LINUX_24";
    token_set 2290 "CONFIG_RG_JPKG_DIST" "JPKG_BCM9634X";
    small_flash_default_dist;
    token_set_y 2296 "CONFIG_HW_DSL_WAN";
    token_set_y 2297 "CONFIG_HW_SWITCH_LAN";
    enable_module 2298 "CONFIG_HW_80211G_BCM43XX";
    token_set_m 2299 "CONFIG_HW_BUTTONS";
    token_set_y 2300 "CONFIG_HW_LEDS" ]);
  (IS_DIST "MPC8272ADS_LSP" ||| IS_DIST "MPC8272ADS_LSP_26", [
    token_set 2307 "CONFIG_RG_JPKG_DIST" "JPKG_PPC";
    set_hw "MPC8272ADS";
    token_set_y 2312 "CONFIG_HW_ETH_FEC";
    IfElse (IS_DIST "MPC8272ADS_LSP_26") [
      set_os "LINUX_26" ]
    [
      set_os "LINUX_24" ];
    token_set_y 2321 "CONFIG_LSP_DIST" ]);
  (IS_DIST "MPC8272ADS", [
    token_set 2325 "CONFIG_RG_JPKG_DIST" "JPKG_PPC";
    set_hw "MPC8272ADS";
    set_os "LINUX_26";
    enable_module 2330 "MODULE_RG_FOUNDATION";
    enable_module 2331 "MODULE_RG_ADVANCED_MANAGEMENT";
    enable_module 2332 "MODULE_RG_ADVANCED_ROUTING";
    enable_module 2333 "MODULE_RG_FIREWALL_AND_SECURITY";
    enable_module 2334 "MODULE_RG_UPNP";
    enable_module 2335 "MODULE_RG_VLAN";
    enable_module 2336 "MODULE_RG_IPV6";
    enable_module 2337 "MODULE_RG_SNMP";
    enable_module 2338 "MODULE_RG_PPP";
    enable_module 2339 "MODULE_RG_PPTP";
    enable_module 2340 "MODULE_RG_L2TP";
    enable_module 2341 "MODULE_RG_IPSEC";
    enable_module 2342 "MODULE_RG_QOS";
    enable_module 2343 "MODULE_RG_ROUTE_MULTIWAN";
    enable_module 2344 "MODULE_RG_DSLHOME";
    enable_module 2345 "MODULE_RG_TR_098";
    enable_module 2346 "MODULE_RG_TR_064";
    enable_module 2347 "MODULE_RG_MAIL_FILTER";
    enable_module 2348 "MODULE_RG_SSL_VPN";
    token_set_y 2349 "CONFIG_RG_SMB";
    enable_module 2350 "MODULE_RG_URL_FILTERING";
    enable_module 2352 "MODULE_RG_VOIP_ASTERISK_SIP";
    enable_module 2353 "MODULE_RG_PBX";
    enable_module 2355 "MODULE_RG_PRINTSERVER";
    token_set 2356 "CONFIG_RG_PRINT_SERVER_SPOOL" "16777216";
    enable_module 2358 "MODULE_RG_FILESERVER";
    enable_module 2360 "MODULE_RG_BLUETOOTH";
    token_set_y 2362 "CONFIG_RG_NETTOOLS_ARP";
    token_set_y 2366 "CONFIG_RG_DATE";
    token_set_y 2367 "CONFIG_RG_TZ_FULL";
    token_set 2368 "CONFIG_RG_TZ_YEARS" "5";
    token_set_y 2372 "CONFIG_HW_ETH_WAN";
    token_set_y 2373 "CONFIG_HW_ETH_LAN";
    token_set_y 2375 "CONFIG_HW_ETH_FEC";
    token_set_y 2377 "CONFIG_HW_USB_STORAGE";
    token_set_y 2381 "CONFIG_HW_80211G_RALINK_RT2560";
    enable_module 2382 "MODULE_RG_WLAN_AND_ADVANCED_WLAN";
    token_set_y 2384 "CONFIG_HW_ENCRYPTION";
    token_set_y 2392 "CONFIG_RG_FOOTPRINT_REDUCTION" ]) ].

(** dist_config.c:2394-2500 *)
Definition distribution_arms_17 : list (cond * list stmt) :=
  [
  (IS_DIST "EP8248_LSP_26", [
    token_set 2396 "CONFIG_RG_JPKG_DIST" "JPKG_PPC";
    set_hw "EP8248";
    set_os "LINUX_26";
    token_set_y 2403 "CONFIG_HW_ETH_FEC";
    token_set_y 2407 "CONFIG_LSP_DIST" ]);
  (IS_DIST "EP8248_26", [
    token_set 2411 "CONFIG_RG_JPKG_DIST" "JPKG_PPC";
    set_hw "EP8248";
    set_os "LINUX_26";
    enable_module 2416 "MODULE_RG_FOUNDATION";
    enable_module 2417 "MODULE_RG_ADVANCED_MANAGEMENT";
    enable_module 2418 "MODULE_RG_ADVANCED_ROUTING";
    enable_module 2419 "MODULE_RG_FIREWALL_AND_SECURITY";
    enable_module 2420 "MODULE_RG_UPNP";
    enable_module 2421 "MODULE_RG_VLAN";
    enable_module 2422 "MODULE_RG_IPV6";
    enable_module 2423 "MODULE_RG_SNMP";
    enable_module 2424 "MODULE_RG_PPP";
    enable_module 2425 "MODULE_RG_PPTP";
    enable_module 2426 "MODULE_RG_L2TP";
    enable_module 2427 "MODULE_RG_IPSEC";
    enable_module 2428 "MODULE_RG_QOS";
    enable_module 2429 "MODULE_RG_ROUTE_MULTIWAN";
    enable_module 2430 "MODULE_RG_DSLHOME";
    enable_module 2431 "MODULE_RG_TR_098";
    enable_module 2432 "MODULE_RG_TR_064";
    enable_module 2433 "MODULE_RG_MAIL_FILTER";
    enable_module 2434 "MODULE_RG_SSL_VPN";
    enable_module 2435 "MODULE_RG_URL_FILTERING";
    token_set_y 2447 "CONFIG_RG_NETTOOLS_ARP";
    token_set_y 2451 "CONFIG_RG_DATE";
    token_set_y 2452 "CONFIG_RG_TZ_FULL";
    token_set 2453 "CONFIG_RG_TZ_YEARS" "5";
    token_set_y 2457 "CONFIG_HW_ETH_WAN";
    token_set_y 2458 "CONFIG_HW_ETH_LAN";
    token_set_y 2460 "CONFIG_HW_ETH_FEC" ]);
  (IS_DIST "MPC8349ITX_LSP", [
    token_set 2468 "CONFIG_RG_JPKG_DIST" "JPKG_PPC";
    set_os "LINUX_26";
    set_hw "MPC8349ITX";
    token_set_y 2476 "CONFIG_GIANFAR";
    token_set_y 2477 "CONFIG_CICADA_PHY";
    token_set_y 2478 "CONFIG_PHYLIB";
    token_set_y 2479 "CONFIG_LSP_DIST";
    token_set_y 2481 "CONFIG_USB_GADGET";
    token_set_y 2482 "CONFIG_USB_ETH";
    token_set_y 2483 "CONFIG_USB_MPC";
    token_set_y 2484 "CONFIG_USB_GADGET_MPC";
    token_set_y 2485 "CONFIG_USB_GADGET_DUALSPEED";
    token_set_y 2486 "CONFIG_USB_ETH_RNDIS";
    token_set_y 2488 "CONFIG_SCSI";
    token_set_y 2489 "CONFIG_SCSI_SATA";
    token_set_y 2490 "CONFIG_SCSI_SATA_SIL";
    token_set_y 2492 "CONFIG_USB";
    token_set_y 2493 "CONFIG_USB_EHCI_HCD";
    token_set_y 2494 "CONFIG_USB_EHCI_ROOT_HUB_TT";
    token_set_y 2495 "CONFIG_USB_DEVICEFS";
    token_set_y 2496 "CONFIG_FSL_USB20";
    token_set_y 2497 "CONFIG_MPH_USB_SUPPORT";
    token_set_y 2498 "CONFIG_MPH0_USB_ENABLE";
    token_set_y 2499 "CONFIG_MPH0_ULPI" ]) ].

(** dist_config.c:2501-2647 *)
Definition distribution_arms_18 : list (cond * list stmt) :=
  [
  (IS_DIST "MPC8349ITX", [
    token_set 2503 "CONFIG_RG_JPKG_DIST" "JPKG_PPC";
    set_os "LINUX_26";
    set_hw "MPC8349ITX";
    token_set_y 2507 "CONFIG_HW_USB_ETH";
    token_set_y 2508 "CONFIG_HW_IDE";
    token_set_y 2510 "CONFIG_RG_NETTOOLS_ARP";
    enable_module 2511 "MODULE_RG_FOUNDATION";
    enable_module 2512 "MODULE_RG_ADVANCED_MANAGEMENT";
    enable_module 2513 "MODULE_RG_ADVANCED_ROUTING";
    enable_module 2514 "MODULE_RG_FIREWALL_AND_SECURITY";
    enable_module 2515 "MODULE_RG_UPNP";
    enable_module 2516 "MODULE_RG_VLAN";
    enable_module 2517 "MODULE_RG_IPV6";
    enable_module 2518 "MODULE_RG_SNMP";
    enable_module 2519 "MODULE_RG_PPP";
    enable_module 2520 "MODULE_RG_PPTP";
    enable_module 2521 "MODULE_RG_L2TP";
    enable_module 2522 "MODULE_RG_IPSEC";
    enable_module 2523 "MODULE_RG_QOS";
    enable_module 2524 "MODULE_RG_ROUTE_MULTIWAN";
    enable_module 2525 "MODULE_RG_DSLHOME";
    enable_module 2526 "MODULE_RG_TR_098";
    enable_module 2527 "MODULE_RG_TR_064";
    enable_module 2528 "MODULE_RG_MAIL_FILTER";
    enable_module 2529 "MODULE_RG_SSL_VPN";
    token_set_y 2530 "CONFIG_RG_SMB";
    enable_module 2532 "MODULE_RG_URL_FILTERING";
    enable_module 2540 "MODULE_RG_PRINTSERVER";
    token_set 2541 "CONFIG_RG_PRINT_SERVER_SPOOL" "16777216";
    enable_module 2543 "MODULE_RG_FILESERVER";
    enable_module 2545 "MODULE_RG_BLUETOOTH";
    token_set_y 2547 "CONFIG_RG_NETTOOLS_ARP";
    token_set_y 2551 "CONFIG_RG_DATE";
    token_set_y 2552 "CONFIG_RG_TZ_FULL";
    token_set 2553 "CONFIG_RG_TZ_YEARS" "5";
    token_set_y 2557 "CONFIG_HW_ETH_WAN";
    token_set_y 2558 "CONFIG_HW_ETH_LAN";
    token_set_y 2560 "CONFIG_HW_USB_STORAGE";
    token_set_y 2563 "CONFIG_HW_80211G_RALINK_RT2560";
    enable_module 2564 "MODULE_RG_WLAN_AND_ADVANCED_WLAN";
    token_set_y 2566 "CONFIG_HW_ENCRYPTION";
    token_set_y 2574 "CONFIG_RG_FOOTPRINT_REDUCTION" ]);
  (IS_DIST "CENTAUR_LSP", [
    set_hw "CENTAUR";
    set_os "LINUX_24";
    token_set_y 2581 "CONFIG_KS8695_COMMON";
    token_set_y 2584 "CONFIG_LSP_DIST";
    token_set_y 2585 "CONFIG_SIMPLE_RAMDISK";
    token_set_y 2586 "CONFIG_LSP_FLASH_LAYOUT";
    token_set 2587 "CONFIG_RAMDISK_SIZE" "1024";
    token_set_y 2588 "CONFIG_HW_ETH_WAN";
    token_set_y 2589 "CONFIG_HW_ETH_LAN" ]);
  (IS_DIST "CENTAUR" ||| IS_DIST "CENTAUR_VGW", [
    set_hw "CENTAUR";
    set_os "LINUX_24";
    enable_module 2596 "MODULE_RG_FOUNDATION";
    enable_module 2597 "MODULE_RG_ADVANCED_ROUTING";
    enable_module 2598 "MODULE_RG_VLAN";
    enable_module 2599 "MODULE_RG_ADVANCED_MANAGEMENT";
    enable_module 2600 "MODULE_RG_PPP";
    enable_module 2601 "MODULE_RG_FIREWALL_AND_SECURITY";
    enable_module 2602 "MODULE_RG_URL_FILTERING";
    enable_module 2603 "MODULE_RG_IPSEC";
    enable_module 2604 "MODULE_RG_PPTP";
    enable_module 2605 "MODULE_RG_L2TP";
    enable_module 2606 "MODULE_RG_UPNP";
    enable_module 2607 "MODULE_RG_SNMP";
    enable_module 2608 "MODULE_RG_IPV6";
    enable_module 2609 "MODULE_RG_QOS";
    enable_module 2610 "MODULE_RG_ROUTE_MULTIWAN";
    enable_module 2611 "MODULE_RG_MAIL_FILTER";
    enable_module 2612 "MODULE_RG_SSL_VPN";
    token_set_y 2615 "CONFIG_HW_ETH_WAN";
    token_set_y 2616 "CONFIG_HW_ETH_LAN";
    token_set_y 2617 "CONFIG_HW_80211G_RALINK_RT2560";
    enable_module 2618 "MODULE_RG_WLAN_AND_ADVANCED_WLAN";
    token_set 2620 "CONFIG_RG_SSID_NAME" "Centaur";
    If (IS_DIST "CENTAUR_VGW") [
      enable_module 2625 "MODULE_RG_VOIP_OSIP";
      enable_module 2626 "MODULE_RG_ATA";
      token_set_y 2627 "CONFIG_HW_DSP" ];
    token_set_y 2631 "CONFIG_KS8695_COMMON" ]);
  (IS_DIST "RGLOADER_CENTAUR", [
    set_hw "CENTAUR";
    set_os "LINUX_24";
    token_set_y 2638 "CONFIG_RG_RGLOADER";
    token_set_y 2640 "CONFIG_KS8695_COMMON";
    token_set_y 2641 "CONFIG_SIMPLE_RAMDISK";
    token_set 2642 "CONFIG_RAMDISK_SIZE" "4096";
    token_set_y 2643 "CONFIG_PROC_FS";
    token_set_y 2644 "CONFIG_EXT2_FS";
    token_set_y 2645 "CONFIG_HW_ETH_WAN";
    token_set_y 2646 "CONFIG_HW_ETH_LAN" ]) ].

(** dist_config.c:2648-2791 *)
Definition distribution_arms_19 : list (cond * list stmt) :=
  [
  (IS_DIST "IXDP425_LSP", [
    set_hw "IXDP425";
    token_set_y 2653 "CONFIG_IXP425_COMMON_LSP";
    token_set 2654 "CONFIG_IXDP425_KGDB_UART" "1";
    token_set_y 2657 "CONFIG_ADSL_CHIP_ALCATEL_20150";
    token_set_y 2658 "CONFIG_IXP425_ADSL_USE_MPHY";
    token_set 2661 "CONFIG_PCF8594C2" "m";
    token_set 2664 "CONFIG_IXP425_ETH" "m";
    token_set_y 2667 "CONFIG_IXP425_FLASH_E28F128J3";
    token_set_y 2670 "CONFIG_LSP_DIST";
    token_set_y 2671 "CONFIG_GLIBC";
    token_set_y 2672 "CONFIG_SIMPLE_RAMDISK";
    token_set_y 2673 "CONFIG_LSP_FLASH_LAYOUT" ]);
  (IS_DIST "COYOTE_CAVIUM", [
    set_hw "COYOTE";
    token_set_y 2679 "CONFIG_RG_SMB";
    enable_module 2681 "MODULE_RG_FOUNDATION";
    enable_module 2682 "MODULE_RG_UPNP";
    enable_module 2683 "MODULE_RG_PPP";
    enable_module 2684 "MODULE_RG_FIREWALL_AND_SECURITY";
    enable_module 2685 "MODULE_RG_ADVANCED_MANAGEMENT";
    enable_module 2686 "MODULE_RG_IPSEC";
    enable_module 2687 "MODULE_RG_PPTP";
    enable_module 2688 "MODULE_RG_SNMP";
    enable_module 2692 "MODULE_RG_IPV6";
    enable_module 2693 "MODULE_RG_VLAN";
    enable_module 2694 "MODULE_RG_ADVANCED_ROUTING";
    enable_module 2695 "MODULE_RG_L2TP";
    enable_module 2696 "MODULE_RG_URL_FILTERING";
    token_set_y 2699 "CONFIG_HW_ETH_WAN";
    token_set_y 2700 "CONFIG_HW_ETH_LAN";
    enable_module 2701 "CONFIG_HW_USB_RNDIS" ]);
  (IS_DIST "COYOTE_ACTIONTEC_OSIP", [
    set_hw "COYOTE";
    enable_module 2709 "MODULE_RG_FOUNDATION";
    enable_module 2710 "MODULE_RG_WLAN_AND_ADVANCED_WLAN";
    enable_module 2711 "MODULE_RG_ADVANCED_ROUTING";
    enable_module 2712 "MODULE_RG_ADVANCED_MANAGEMENT";
    enable_module 2713 "MODULE_RG_VLAN";
    enable_module 2714 "MODULE_RG_FIREWALL_AND_SECURITY";
    enable_module 2715 "MODULE_RG_URL_FILTERING";
    enable_module 2716 "MODULE_RG_UPNP";
    enable_module 2717 "MODULE_RG_VOIP_OSIP";
    enable_module 2718 "MODULE_RG_PPP";
    token_set_y 2721 "CONFIG_HW_ETH_WAN";
    token_set_y 2722 "CONFIG_HW_ETH_LAN";
    enable_module 2723 "CONFIG_HW_80211G_ISL38XX";
    enable_module 2724 "CONFIG_HW_DSP";
    enable_module 2726 "MODULE_RG_ATA" ]);
  (IS_DIST "COYOTE", [
    set_hw "COYOTE";
    token_set_y 2734 "CONFIG_ARM_24_FAST_MODULES";
    enable_module 2737 "MODULE_RG_FOUNDATION";
    enable_module 2738 "MODULE_RG_UPNP";
    enable_module 2739 "MODULE_RG_PPP";
    enable_module 2740 "MODULE_RG_FIREWALL_AND_SECURITY";
    enable_module 2741 "MODULE_RG_ADVANCED_MANAGEMENT";
    enable_module 2744 "MODULE_RG_IPSEC";
    enable_module 2745 "MODULE_RG_PPTP";
    enable_module 2746 "MODULE_RG_VLAN";
    enable_module 2747 "MODULE_RG_L2TP";
    enable_module 2748 "MODULE_RG_URL_FILTERING";
    enable_module 2749 "MODULE_RG_FILESERVER";
    enable_module 2750 "MODULE_RG_QOS";
    enable_module 2751 "MODULE_RG_DSLHOME";
    enable_module 2752 "MODULE_RG_TR_098";
    enable_module 2753 "MODULE_RG_TR_064";
    enable_module 2754 "MODULE_RG_WLAN_AND_ADVANCED_WLAN";
    enable_module 2755 "MODULE_RG_PRINTSERVER";
    enable_module 2756 "MODULE_RG_SSL_VPN";
    token_set 2758 "CONFIG_RG_JPKG_DIST" "JPKG_ARMV5B";
    enable_module 2760 "MODULE_RG_VOIP_ASTERISK_SIP";
    enable_module 2762 "MODULE_RG_MAIL_FILTER";
    enable_module 2764 "MODULE_RG_DSL";
    token_set_y 2765 "CONFIG_HW_DSL_WAN";
    token_set_y 2766 "CONFIG_HW_ETH_WAN";
    token_set_y 2768 "CONFIG_HW_ETH_LAN";
    token_set_y 2769 "CONFIG_HW_USB_HOST_EHCI";
    token_set_y 2770 "CONFIG_HW_USB_HOST_OHCI";
    token_set_y 2771 "CONFIG_HW_USB_STORAGE";
    enable_module 2772 "CONFIG_HW_USB_RNDIS";
    enable_module 2773 "CONFIG_HW_DSP";
    enable_module 2774 "CONFIG_HW_ENCRYPTION";
    token_set_y 2775 "CONFIG_HW_IDE";
    enable_module 2776 "CONFIG_HW_80211G_RALINK_RT2560";
    enable_module 2778 "MODULE_RG_ATA";
    token_set 2787 "CONFIG_IXP425_SDRAM_SIZE" "64";
    token_set 2788 "CONFIG_RG_PRINT_SERVER_SPOOL" "16777216";
    enable_module 2789 "MODULE_RG_ADVANCED_OFFICE_SERVERS";
    enable_module 2790 "MODULE_RG_BLUETOOTH" ]) ].

(** dist_config.c:2793-2920 *)
Definition distribution_arms_20 : list (cond * list stmt) :=
  [
  (IS_DIST "MONTEJADE" ||| IS_DIST "MONTEJADE_ATM" ||| IS_DIST "JIWIS8XX", [
    IfElse (IS_DIST "JIWIS8XX") [
      set_hw "JIWIS800";
      token_set_m 2798 "CONFIG_HW_LEDS";
      token_set_y 2799 "CONFIG_IXP425_COMMON_RG" ]
    [
      set_hw "MONTEJADE";
      enable_module 2804 "CONFIG_HW_USB_RNDIS" ];
    token_set 2807 "CONFIG_RG_JPKG_DIST" "JPKG_ARMV5B";
    token_set_y 2808 "CONFIG_RG_SMB";
    token_set_y 2812 "CONFIG_ARM_24_FAST_MODULES";
    enable_module 2814 "MODULE_RG_FOUNDATION";
    enable_module 2815 "MODULE_RG_UPNP";
    enable_module 2816 "MODULE_RG_PPP";
    enable_module 2817 "MODULE_RG_FIREWALL_AND_SECURITY";
    enable_module 2818 "MODULE_RG_ADVANCED_MANAGEMENT";
    enable_module 2821 "MODULE_RG_IPSEC";
    enable_module 2822 "MODULE_RG_PPTP";
    enable_module 2823 "MODULE_RG_SNMP";
    enable_module 2824 "MODULE_RG_VLAN";
    enable_module 2825 "MODULE_RG_ADVANCED_ROUTING";
    enable_module 2826 "MODULE_RG_L2TP";
    enable_module 2827 "MODULE_RG_URL_FILTERING";
    enable_module 2828 "MODULE_RG_FILESERVER";
    enable_module 2829 "MODULE_RG_PRINTSERVER";
    enable_module 2830 "MODULE_RG_VOIP_ASTERISK_SIP";
    enable_module 2831 "MODULE_RG_VOIP_ASTERISK_MGCP_CALL_AGENT";
    enable_module 2832 "MODULE_RG_QOS";
    enable_module 2833 "MODULE_RG_ROUTE_MULTIWAN";
    enable_module 2834 "MODULE_RG_WLAN_AND_ADVANCED_WLAN";
    enable_module 2835 "MODULE_RG_DSLHOME";
    enable_module 2836 "MODULE_RG_TR_098";
    enable_module 2837 "MODULE_RG_TR_064";
    enable_module 2838 "MODULE_RG_MAIL_FILTER";
    enable_module 2839 "MODULE_RG_JVM";
    enable_module 2840 "MODULE_RG_SSL_VPN";
    enable_module 2841 "MODULE_RG_PBX";
    enable_module 2843 "MODULE_RG_BLUETOOTH";
    token_set_m 2846 "CONFIG_HW_BUTTONS";
    IfElse (IS_DIST "MONTEJADE_ATM") [
      enable_module 2849 "MODULE_RG_DSL";
      token_set_y 2850 "CONFIG_HW_DSL_WAN" ]
    [
      token_set_y 2854 "CONFIG_HW_ETH_WAN" ];
    token_set_y 2857 "CONFIG_HW_SWITCH_LAN";
    token_set 2859 "CONFIG_HW_USB_HOST_EHCI" "y";
    token_set 2860 "CONFIG_HW_USB_HOST_OHCI" "y";
    token_set 2861 "CONFIG_HW_USB_STORAGE" "y";
    enable_module 2862 "CONFIG_HW_ENCRYPTION";
    enable_module 2865 "CONFIG_HW_DSP";
    token_set_y 2874 "CONFIG_HW_80211G_RALINK_RT2560";
    enable_module 2880 "MODULE_RG_ADVANCED_OFFICE_SERVERS";
    token_set 2881 "CONFIG_RG_PRINT_SERVER_SPOOL" "4194304";
    If (notc (isset "CONFIG_HW_80211N_AIRGO_AGN100")) [
      enable_module 2885 "MODULE_RG_IPV6" ] ]);
  (IS_DIST "PCBOX_EEP_EEP_EICON" ||| IS_DIST "PCBOX_RTL_RTL_EICON", [
    IfElse (IS_DIST "PCBOX_EEP_EEP_EICON") [
      set_hw "PCBOX_EEP_EEP" ]
    [
      set_hw "ALLWELL_RTL_RTL" ];
    enable_module 2894 "MODULE_RG_FOUNDATION";
    enable_module 2895 "MODULE_RG_UPNP";
    enable_module 2896 "MODULE_RG_PPP";
    enable_module 2897 "MODULE_RG_FIREWALL_AND_SECURITY";
    enable_module 2898 "MODULE_RG_ADVANCED_MANAGEMENT";
    enable_module 2899 "MODULE_RG_ADVANCED_ROUTING";
    enable_module 2900 "MODULE_RG_SNMP";
    enable_module 2901 "MODULE_RG_PPTP";
    enable_module 2902 "MODULE_RG_L2TP";
    enable_module 2903 "MODULE_RG_IPSEC";
    token_set_y 2906 "CONFIG_HW_ETH_WAN";
    token_set_y 2907 "CONFIG_HW_ETH_LAN";
    token_set_y 2909 "CONFIG_GLIBC" ]);
  (IS_DIST "COYOTE_LSP", [
    set_hw "COYOTE";
    token_set_y 2915 "CONFIG_LSP_DIST";
    token_set_y 2916 "CONFIG_GLIBC";
    token_set_y 2917 "CONFIG_SIMPLE_RAMDISK";
    token_set_y 2918 "CONFIG_LSP_FLASH_LAYOUT";
    token_set_y 2919 "CONFIG_IXP425_COMMON_LSP" ]) ].

(** dist_config.c:2921-3024 *)
Definition distribution_arms_21 : list (cond * list stmt) :=
  [
  (IS_DIST "COYOTE_EEP", [
    set_hw "COYOTE";
    token_set_y 2925 "CONFIG_RG_SMB";
    enable_module 2928 "MODULE_RG_FOUNDATION";
    enable_module 2929 "MODULE_RG_UPNP";
    enable_module 2930 "MODULE_RG_PPP";
    enable_module 2931 "MODULE_RG_FIREWALL_AND_SECURITY";
    enable_module 2932 "MODULE_RG_ADVANCED_MANAGEMENT";
    enable_module 2935 "MODULE_RG_IPSEC";
    enable_module 2936 "MODULE_RG_PPTP";
    enable_module 2937 "MODULE_RG_SNMP";
    enable_module 2941 "MODULE_RG_IPV6";
    enable_module 2942 "MODULE_RG_VLAN";
    enable_module 2943 "MODULE_RG_ADVANCED_ROUTING";
    enable_module 2944 "MODULE_RG_L2TP";
    enable_module 2945 "MODULE_RG_URL_FILTERING";
    enable_module 2946 "MODULE_RG_FILESERVER";
    enable_module 2947 "MODULE_RG_PRINTSERVER";
    token_set_y 2950 "CONFIG_HW_ETH_WAN";
    token_set_y 2951 "CONFIG_HW_ETH_LAN";
    token_set_y 2952 "CONFIG_HW_ETH_EEPRO100_LAN";
    enable_module 2953 "CONFIG_HW_USB_RNDIS";
    enable_module 2954 "CONFIG_HW_ENCRYPTION";
    token_set_y 2955 "CONFIG_HW_IDE" ]);
  (IS_DIST "RGLOADER_JIWIS8XX", [
    If (notc hw_set) [
      set_hw "JIWIS800" ];
    token_set_y 2970 "CONFIG_RG_RGLOADER";
    token_set_m 2971 "CONFIG_HW_BUTTONS";
    token_set_y 2972 "CONFIG_HW_ETH_LAN";
    token_set_y 2973 "CONFIG_HW_ETH_LAN2";
    token_set_y 2974 "CONFIG_IXP425_COMMON_RGLOADER" ]);
  (IS_DIST "COYOTE_ALL", [
    set_hw "COYOTE";
    token_set_y 2980 "CONFIG_RG_SMB";
    enable_module 2983 "MODULE_RG_FOUNDATION";
    enable_module 2984 "MODULE_RG_UPNP";
    enable_module 2985 "MODULE_RG_PPP";
    enable_module 2986 "MODULE_RG_FIREWALL_AND_SECURITY";
    enable_module 2987 "MODULE_RG_ADVANCED_MANAGEMENT";
    enable_module 2990 "MODULE_RG_IPSEC";
    enable_module 2991 "MODULE_RG_PPTP";
    enable_module 2992 "MODULE_RG_SNMP";
    enable_module 2996 "MODULE_RG_IPV6";
    enable_module 2997 "MODULE_RG_VLAN";
    enable_module 2998 "MODULE_RG_ADVANCED_ROUTING";
    enable_module 2999 "MODULE_RG_L2TP";
    enable_module 3000 "MODULE_RG_URL_FILTERING";
    enable_module 3001 "MODULE_RG_FILESERVER";
    token_set_y 3002 "CONFIG_RG_PRINT_SERVER";
    enable_module 3003 "CONFIG_RG_LPD";
    token_set_y 3004 "CONFIG_RG_IPP";
    enable_module 3005 "MODULE_RG_WLAN_AND_ADVANCED_WLAN";
    enable_module 3006 "MODULE_RG_VOIP_RV_SIP";
    enable_module 3007 "MODULE_RG_VOIP_RV_MGCP";
    enable_module 3008 "MODULE_RG_VOIP_RV_H323";
    enable_module 3009 "MODULE_RG_DSL";
    token_set_y 3012 "CONFIG_HW_DSL_WAN";
    token_set_y 3013 "CONFIG_HW_ETH_WAN";
    token_set_y 3014 "CONFIG_HW_ETH_LAN";
    enable_module 3015 "CONFIG_HW_USB_RNDIS";
    enable_module 3016 "CONFIG_HW_80211G_ISL38XX";
    enable_module 3017 "CONFIG_HW_DSP";
    enable_module 3018 "CONFIG_HW_ENCRYPTION";
    token_set_y 3019 "CONFIG_HW_IDE";
    enable_module 3021 "MODULE_RG_ATA" ]) ].

(** dist_config.c:3025-3118 *)
Definition distribution_arms_22 : list (cond * list stmt) :=
  [
  (IS_DIST "COYOTE_ATM_WIRELESS_ISL", [
    set_hw "COYOTE";
    token_set_y 3029 "CONFIG_RG_SMB";
    enable_module 3032 "MODULE_RG_FOUNDATION";
    enable_module 3033 "MODULE_RG_UPNP";
    enable_module 3034 "MODULE_RG_PPP";
    enable_module 3035 "MODULE_RG_FIREWALL_AND_SECURITY";
    enable_module 3036 "MODULE_RG_ADVANCED_MANAGEMENT";
    enable_module 3039 "MODULE_RG_IPSEC";
    enable_module 3040 "MODULE_RG_PPTP";
    enable_module 3041 "MODULE_RG_SNMP";
    enable_module 3045 "MODULE_RG_IPV6";
    enable_module 3046 "MODULE_RG_VLAN";
    enable_module 3047 "MODULE_RG_ADVANCED_ROUTING";
    enable_module 3048 "MODULE_RG_L2TP";
    enable_module 3049 "MODULE_RG_URL_FILTERING";
    enable_module 3050 "MODULE_RG_FILESERVER";
    token_set_y 3051 "CONFIG_RG_PRINT_SERVER";
    enable_module 3052 "CONFIG_RG_LPD";
    token_set_y 3053 "CONFIG_RG_IPP";
    enable_module 3054 "MODULE_RG_WLAN_AND_ADVANCED_WLAN";
    enable_module 3055 "MODULE_RG_VOIP_RV_SIP";
    enable_module 3056 "MODULE_RG_VOIP_RV_MGCP";
    enable_module 3057 "MODULE_RG_VOIP_RV_H323";
    enable_module 3058 "MODULE_RG_DSL";
    token_set_y 3061 "CONFIG_HW_DSL_WAN";
    token_set_y 3062 "CONFIG_HW_ETH_LAN";
    enable_module 3063 "CONFIG_HW_USB_RNDIS";
    enable_module 3064 "CONFIG_HW_80211G_ISL38XX";
    enable_module 3065 "CONFIG_HW_DSP";
    enable_module 3066 "CONFIG_HW_ENCRYPTION";
    token_set_y 3067 "CONFIG_HW_IDE";
    enable_module 3069 "MODULE_RG_ATA" ]);
  (IS_DIST "RGLOADER_BRUCE", [
    set_hw "BRUCE";
    token_set_y 3077 "CONFIG_RG_RGLOADER";
    token_set_y 3078 "CONFIG_IXP425_COMMON_RGLOADER";
    token_set_y 3081 "CONFIG_HW_ETH_LAN" ]);
  (IS_DIST "BRUCE", [
    set_hw "BRUCE";
    enable_module 3088 "MODULE_RG_FOUNDATION";
    enable_module 3089 "MODULE_RG_ADVANCED_MANAGEMENT";
    enable_module 3090 "MODULE_RG_PPP";
    enable_module 3091 "MODULE_RG_UPNP";
    enable_module 3092 "MODULE_RG_FIREWALL_AND_SECURITY";
    enable_module 3093 "MODULE_RG_IPSEC";
    enable_module 3094 "MODULE_RG_PPTP";
    enable_module 3095 "MODULE_RG_FILESERVER";
    enable_module 3096 "MODULE_RG_PRINTSERVER";
    enable_module 3097 "MODULE_RG_WLAN_AND_ADVANCED_WLAN";
    enable_module 3098 "MODULE_RG_ADVANCED_OFFICE_SERVERS";
    token_set_y 3101 "CONFIG_HW_ETH_WAN";
    token_set_y 3102 "CONFIG_HW_ETH_LAN";
    enable_module 3103 "CONFIG_HW_80211G_ISL38XX";
    enable_module 3104 "CONFIG_HW_ENCRYPTION";
    token_set_y 3105 "CONFIG_HW_USB_HOST_EHCI";
    token_set_y 3106 "CONFIG_HW_USB_HOST_OHCI";
    token_set_y 3107 "CONFIG_HW_USB_STORAGE";
    token_set_y 3108 "CONFIG_HW_IDE";
    token_set_m 3109 "CONFIG_HW_BUTTONS";
    token_set_m 3110 "CONFIG_HW_LEDS";
    token_set_y 3111 "CONFIG_HW_CLOCK";
    token_set_y 3112 "CONFIG_HW_I2C";
    token_set_y 3113 "CONFIG_HW_ENV_MONITOR";
    token_set 3115 "CONFIG_RG_PRINT_SERVER_SPOOL" "16777216" ]) ].

(** dist_config.c:3135-3685 *)
Definition distribution_arms_23 : list (cond * list stmt) :=
  [
  (IS_DIST "TWINPASS" ||| IS_DIST "ULTRALINE3_TWINPASS" ||| IS_DIST "WSTL_ULS3_VDSL_IKANOS_64" ||| IS_DIST "WSTL_ULS3_DUAL_MOCA_64" ||| IS_DIST "WSTL_ULS3_DUAL_MOCA_USB_64" ||| IS_DIST "WSTL_ULS3_DUAL_MOCA_USB_11N_64" ||| IS_DIST "WSTL_ULS3_VDSL_INFINEON_64" ||| IS_DIST "WSTL_ULS3_WAN_ETHERNET_64" ||| IS_DIST "WSTL_ULS3_WAN_ETHERNET_CO_64" ||| IS_DIST "WSTL_ULS3_DMOCA_GENERIC_64" ||| IS_DIST "WSTL_ULS3_VDSL_INFINEON_GENERIC_64" ||| IS_DIST "WSTL_ULS3_TURBO_DUAL_MOCA_64" ||| IS_DIST "WSTL_ULS3_VDSL_INFINEON_GENERIC_USB_64" ||| IS_DIST "WSTL_ULS3_VDSL_IKANOS_GENERIC_64" ||| IS_DIST "WSTL_ULS3_TURBO_M100_64" ||| IS_DIST "WSTL_ULS3_TURBO_DUAL_MOCA_11N_64" ||| IS_DIST "WSTL_ULS3_TURBO_COMMON_ART_64", [
    IfElse (IS_DIST "WSTL_ULS3_VDSL_IKANOS_64" |||
        IS_DIST "WSTL_ULS3_DUAL_MOCA_64" |||
        IS_DIST "WSTL_ULS3_DUAL_MOCA_USB_64" |||
        IS_DIST "WSTL_ULS3_DUAL_MOCA_USB_11N_64" |||
        IS_DIST "WSTL_ULS3_VDSL_INFINEON_64" |||
        IS_DIST "WSTL_ULS3_WAN_ETHERNET_64" |||
        IS_DIST "WSTL_ULS3_WAN_ETHERNET_CO_64" |||
        IS_DIST "WSTL_ULS3_DMOCA_GENERIC_64" |||
        IS_DIST "WSTL_ULS3_VDSL_INFINEON_GENERIC_64" |||
        IS_DIST "WSTL_ULS3_TURBO_DUAL_MOCA_64" |||
        IS_DIST "WSTL_ULS3_VDSL_INFINEON_GENERIC_USB_64" |||
        IS_DIST "WSTL_ULS3_VDSL_IKANOS_GENERIC_64" |||
        IS_DIST "WSTL_ULS3_TURBO_M100_64" |||
        IS_DIST "WSTL_ULS3_TURBO_DUAL_MOCA_11N_64" |||
        IS_DIST "WSTL_ULS3_TURBO_COMMON_ART_64") [
      set_hw "ULTRALINE3_TWINPASS" ]
    [
      set_hw_dist ];
    set_os "LINUX_24";
    token_set 3159 "CONFIG_RG_JPKG_DIST" "JPKG_TWINPASS";
    token_set 3160 "LIC_AUTOCONF" "n";
    enable_module 3163 "MODULE_RG_FOUNDATION";
    enable_module 3164 "MODULE_RG_ADVANCED_MANAGEMENT";
    enable_module 3165 "MODULE_RG_ADVANCED_ROUTING";
    enable_module 3166 "MODULE_RG_PPP";
    enable_module 3167 "MODULE_RG_FIREWALL_AND_SECURITY";
    enable_module 3168 "MODULE_RG_VLAN";
    enable_module 3169 "MODULE_RG_URL_FILTERING";
    enable_module 3170 "MODULE_RG_IPSEC";
    enable_module 3171 "MODULE_RG_WLAN_AND_ADVANCED_WLAN";
    enable_module 3173 "MODULE_RG_UPNP";
    If (notc (IS_DIST "WSTL_ULS3_TURBO_M100_64") &&&
        notc (IS_DIST "WSTL_ULS3_TURBO_COMMON_ART_64")) [
      enable_module 3179 "MODULE_RG_DSLHOME";
      enable_module 3180 "MODULE_RG_TR_098" ];
    enable_module 3184 "MODULE_RG_TR_064";
    enable_module 3185 "MODULE_RG_QOS";
    enable_module 3186 "MODULE_RG_VLAN";
    enable_module 3187 "MODULE_RG_ROUTE_MULTIWAN";
    token_set_y 3188 "CONFIG_RG_FOOTPRINT_REDUCTION";
    token_set 3189 "CONFIG_RG_ADV_SERVICES_LEVEL" "1";
    If (notc (IS_DIST "WSTL_ULS3_TURBO_COMMON_ART_64")) [
      token_set_m 3192 "CONFIG_RG_DANUBE_DUALCORE";
      token_set_m 3193 "CONFIG_TWINPASS_DUALCORE_WLAN";
      IfElse (IS_DIST "WSTL_ULS3_TURBO_DUAL_MOCA_11N_64" |||
          IS_DIST "WSTL_ULS3_DUAL_MOCA_USB_11N_64") [
        token_set_y 3196 "CONFIG_HW_80211N_ATHEROS_AR50WL";
        token_set_y 3197 "CONFIG_INFINEON_PPE_D4_11N" ]
      [
        token_set_y 3201 "CONFIG_HW_80211G_ATHEROS_AR521X" ] ];
    If (IS_DIST "WSTL_ULS3_TURBO_DUAL_MOCA_64") [
      token_set_y 3206 "CONFIG_WESTELL_WIRELESS_ONBOARD";
      token_set_y 3207 "CONFIG_DEBUG_PAGES" ];
    If (IS_DIST "WSTL_ULS3_VDSL_IKANOS_GENERIC_64") [
      token_set_y 3211 "CONFIG_GENERIC_IKANOS" ];
    token_set_m 3214 "CONFIG_RG_FASTPATH";
    token_set 3216 "LIBC_IN_TOOLCHAIN" "n";
    token_set_y 3217 "CONFIG_ULIBC";
    token_set_y 3218 "CONFIG_DYN_LINK";
    token_set_y 3219 "CONFIG_RG_THREADS";
    token_set_y 3222 "CONFIG_HW_ETH_LAN";
    token_set_y 3223 "CONFIG_HW_ETH_WAN";
    token_set_y 3225 "CONFIG_HW_ENCRYPTION";
    token_set_y 3231 "CONFIG_RG_PROD_IMG";
    token_set_y 3232 "CONFIG_WSTL_BOOTLOADER_IMG";
    If (notc (IS_DIST "TWINPASS")) [
      token_set_m 3238 "CONFIG_HW_BUTTONS";
      token_set_y 3239 "CONFIG_HW_LEDS";
      token_set_m 3240 "CONFIG_RG_HW_SWITCH_QOS";
      If (notc (IS_DIST "WSTL_ULS3_TURBO_M100_64") &&&
          notc (IS_DIST "WSTL_ULS3_TURBO_COMMON_ART_64")) [
        token_set_y 3245 "CONFIG_HW_MOCA" ] ];
    If (IS_DIST "ULTRALINE3_TWINPASS" |||
        IS_DIST "WSTL_ULS3_VDSL_IKANOS_64" |||
        IS_DIST "WSTL_ULS3_VDSL_INFINEON_64" |||
        IS_DIST "WSTL_ULS3_VDSL_INFINEON_GENERIC_64" |||
        IS_DIST "WSTL_ULS3_VDSL_INFINEON_GENERIC_USB_64" |||
        IS_DIST "WSTL_ULS3_VDSL_IKANOS_GENERIC_64") [
      If (IS_DIST "WSTL_ULS3_VDSL_INFINEON_64" |||
          IS_DIST "WSTL_ULS3_VDSL_INFINEON_GENERIC_64" |||
          IS_DIST "WSTL_ULS3_VDSL_INFINEON_GENERIC_USB_64") [
        token_set_y 3275 "CONFIG_RG_INFINEON_VDSL" ];
      token_set_y 3278 "CONFIG_HW_VDSL_WAN" ];
    If (IS_DIST "WSTL_ULS3_TURBO_DUAL_MOCA_64" |||
        IS_DIST "WSTL_ULS3_TURBO_DUAL_MOCA_11N_64") [
      token_set_y 3286 "CONFIG_HW_MOCA_WAN";
      token_set_y 3287 "MOCA_VERSION_1_1" ];
    If (IS_DIST "WSTL_ULS3_DUAL_MOCA_64" |||
        IS_DIST "WSTL_ULS3_DUAL_MOCA_USB_11N_64" |||
        IS_DIST "WSTL_ULS3_DUAL_MOCA_USB_64") [
      token_set_y 3294 "CONFIG_HW_MOCA_WAN";
      token_set_y 3296 "CONFIG_BASIC_LOG" ];
    If (IS_DIST "WSTL_ULS3_TURBO_M100_64") [
      token_set_y 3302 "CONFIG_HW_WAN_ETHERNET";
      token_set_y 3303 "CONFIG_WSTL_RETAIL" ];
    If (IS_DIST "WSTL_ULS3_DMOCA_GENERIC_64") [
      token_set_y 3309 "CONFIG_HW_MOCA_WAN";
      token_set_y 3310 "CONFIG_HW_DEF_TO_WAN_ETH";
      token_set_y 3311 "CONFIG_WSTL_GENERIC" ];
    If (IS_DIST "WSTL_ULS3_VDSL_INFINEON_GENERIC_64" |||
        IS_DIST "WSTL_ULS3_VDSL_INFINEON_GENERIC_USB_64" |||
        IS_DIST "WSTL_ULS3_VDSL_IKANOS_GENERIC_64") [
      token_set_y 3319 "CONFIG_WSTL_GENERIC" ];
    If (IS_DIST "WSTL_ULS3_WAN_ETHERNET_64" ||| IS_DIST "WSTL_ULS3_WAN_ETHERNET_CO_64") [
      token_set_y 3325 "CONFIG_HW_WAN_ETHERNET";
      If (IS_DIST "WSTL_ULS3_WAN_ETHERNET_CO_64") [
        token_set_y 3327 "CONFIG_WSTL_DUAL_SPI_MDIO" ];
      token_set_y 3330 "CONFIG_WSTL_COMCAST" ];
    If (IS_DIST "WSTL_ULS3_DUAL_MOCA_USB_64" |||
        IS_DIST "WSTL_ULS3_DUAL_MOCA_USB_11N_64") [
      token_set_y 3341 "CONFIG_WSTL_USBHOSTOVERCURRENT_GPIO" ];
    If (IS_DIST "WSTL_ULS3_DUAL_MOCA_USB_11N_64") [
      token_set_y 3352 "CONFIG_INFINEON_PPE_D4" ];
    If (IS_DIST "WSTL_ULS3_TURBO_DUAL_MOCA_64" |||
        IS_DIST "WSTL_ULS3_TURBO_DUAL_MOCA_11N_64") [
      token_set_y 3360 "CONFIG_HW_TURBO_DUAL_MOCA";
      token_set_y 3362 "CONFIG_RG_TURBO_SWITCH_IGMP";
      token_set_m 3363 "CONFIG_RG_TURBO_SWITCH_IGMP_MODULE";
      token_set_y 3364 "CONFIG_INFINEON_PPE_D4";
      token_set_y 3365 "CONFIG_HW_USB_STORAGE";
      enable_module 3366 "MODULE_RG_FILESERVER" ];
    If (IS_DIST "WSTL_ULS3_DUAL_MOCA_64" |||
        IS_DIST "WSTL_ULS3_DUAL_MOCA_USB_64" |||
        IS_DIST "WSTL_ULS3_DUAL_MOCA_USB_11N_64") [
      token_set_y 3380 "CONFIG_HW_DUAL_MOCA";
      token_set_y 3381 "CONFIG_WSTL_CPLD_CONFIG";
      token_set 3382 "CONFIG_WSTL_CPLD_REVISION" "0" ];
    If (IS_DIST "WSTL_ULS3_TURBO_M100_64") [
      token_set_y 3388 "CONFIG_HW_TURBO_M100";
      token_set_y 3390 "CONFIG_RG_TURBO_SWITCH_IGMP";
      token_set_m 3391 "CONFIG_RG_TURBO_SWITCH_IGMP_MODULE";
      token_set_y 3392 "CONFIG_INFINEON_PPE_D4";
      token_set_y 3393 "CONFIG_HW_USB_STORAGE";
      enable_module 3394 "MODULE_RG_FILESERVER";
      token_set_y 3395 "CONFIG_WSTL_MEDIASERVER" ];
    If (IS_DIST "WSTL_ULS3_TURBO_COMMON_ART_64") [
      token_set_y 3405 "CONFIG_WESTELL_WIRELESS_ONBOARD";
      token_set_y 3406 "CONFIG_ATHEROS_ART_TOOLS";
      token_set_y 3407 "CONFIG_HW_TURBO_M100";
      token_set_y 3408 "CONFIG_INFINEON_PPE_D4";
      token_set_y 3409 "CONFIG_HW_WAN_ETHERNET";
      token_set_y 3410 "CONFIG_WSTL_GENERIC" ];
    If (IS_DIST "WSTL_ULS3_VDSL_INFINEON_GENERIC_USB_64") [
      token_set_y 3416 "CONFIG_HW_USB_STORAGE";
      enable_module 3417 "MODULE_RG_FILESERVER" ];
    If (IS_DIST "WSTL_ULS3_VDSL_IKANOS_64" |||
        IS_DIST "WSTL_ULS3_DUAL_MOCA_64" |||
        IS_DIST "WSTL_ULS3_DUAL_MOCA_USB_64" |||
        IS_DIST "WSTL_ULS3_VDSL_INFINEON_64" |||
        IS_DIST "WSTL_ULS3_WAN_ETHERNET_64" |||
        IS_DIST "WSTL_ULS3_WAN_ETHERNET_CO_64" |||
        IS_DIST "WSTL_ULS3_DMOCA_GENERIC_64" |||
        IS_DIST "WSTL_ULS3_VDSL_INFINEON_GENERIC_64" |||
        IS_DIST "WSTL_ULS3_TURBO_DUAL_MOCA_64" |||
        IS_DIST "WSTL_ULS3_VDSL_INFINEON_GENERIC_USB_64" |||
        IS_DIST "WSTL_ULS3_VDSL_IKANOS_GENERIC_64" |||
        IS_DIST "WSTL_ULS3_TURBO_M100_64" |||
        IS_DIST "WSTL_ULS3_TURBO_DUAL_MOCA_11N_64" |||
        IS_DIST "WSTL_ULS3_TURBO_COMMON_ART_64" |||
        IS_DIST "WSTL_ULS3_DUAL_MOCA_USB_11N_64") [
      token_set_y 3437 "CONFIG_RG_RMT_UPGRADE_IMG_IN_MEM";
      token_set_y 3438 "CONFIG_TWINPASS_64_MEG" ];
    Elif [
      (IS_DIST "WSTL_ULS3_VDSL_IKANOS_64", [
        token_set_y 3444 "CONFIG_BOOT_WSTL_VDSL_64" ]);
      (IS_DIST "WSTL_ULS3_VDSL_IKANOS_GENERIC_64", [
        token_set_y 3448 "CONFIG_BOOT_WSTL_VDSL_64" ]);
      (IS_DIST "WSTL_ULS3_VDSL_INFINEON_64" ||| IS_DIST "WSTL_ULS3_VDSL_INFINEON_GENERIC_64" ||| IS_DIST "WSTL_ULS3_VDSL_INFINEON_GENERIC_USB_64", [
        token_set_y 3454 "CONFIG_BOOT_WSTL_VDSL_64" ]);
      (IS_DIST "WSTL_ULS3_DUAL_MOCA_64" ||| IS_DIST "WSTL_ULS3_DUAL_MOCA_USB_64" ||| IS_DIST "WSTL_ULS3_WAN_ETHERNET_64" ||| IS_DIST "WSTL_ULS3_WAN_ETHERNET_CO_64" ||| IS_DIST "WSTL_ULS3_DMOCA_GENERIC_64" ||| IS_DIST "WSTL_ULS3_DUAL_MOCA_USB_11N_64", [
        token_set_y 3464 "CONFIG_BOOT_WSTL_DUAL_MOCA_64" ]);
      (IS_DIST "WSTL_ULS3_TURBO_DUAL_MOCA_64" ||| IS_DIST "WSTL_ULS3_TURBO_DUAL_MOCA_11N_64", [
        token_set_y 3469 "CONFIG_BOOT_WSTL_TURBO_64" ]);
      (IS_DIST "WSTL_ULS3_TURBO_M100_64" ||| IS_DIST "WSTL_ULS3_TURBO_COMMON_ART_64", [
        token_set_y 3474 "CONFIG_BOOT_WSTL_M100_64" ]) ]
    [
      token_set_y 3481 "CONFIG_BOOT_UBOOT_VDSL" ];
    Elif [
      (IS_DIST "WSTL_ULS3_VDSL_IKANOS_64" ||| IS_DIST "WSTL_ULS3_VDSL_INFINEON_64" ||| IS_DIST "WSTL_ULS3_VDSL_INFINEON_GENERIC_64" ||| IS_DIST "WSTL_ULS3_VDSL_IKANOS_GENERIC_64" ||| IS_DIST "WSTL_ULS3_DUAL_MOCA_64", [
        token_set 3492 "CONFIG_RG_FLASH_LAYOUT_SIZE" "8";
        token_set_y 3493 "CONFIG_WSTL_FLASH_LAYOUT_8FLASH_7APP";
        token_set_y 3494 "CONFIG_RG_DYN_FLASH_LAYOUT" ]);
      (IS_DIST "WSTL_ULS3_TURBO_DUAL_MOCA_64" ||| IS_DIST "WSTL_ULS3_TURBO_M100_64" ||| IS_DIST "WSTL_ULS3_WAN_ETHERNET_CO_64" ||| IS_DIST "WSTL_ULS3_TURBO_DUAL_MOCA_11N_64" ||| IS_DIST "WSTL_ULS3_VDSL_INFINEON_GENERIC_USB_64" ||| IS_DIST "WSTL_ULS3_DUAL_MOCA_USB_64" ||| IS_DIST "WSTL_ULS3_DUAL_MOCA_USB_11N_64", [
        token_set 3506 "CONFIG_RG_FLASH_LAYOUT_SIZE" "16";
        token_set_y 3507 "CONFIG_WSTL_FLASH_LAYOUT_16FLASH";
        token_set_y 3508 "CONFIG_RG_DYN_FLASH_LAYOUT" ]);
      (IS_DIST "WSTL_ULS3_TURBO_COMMON_ART_64", [
        token_set 3513 "CONFIG_RG_FLASH_LAYOUT_SIZE" "16";
        token_set_y 3514 "CONFIG_WSTL_FLASH_LAYOUT_16FLASH_ART" ]) ]
    [
      token_set 3520 "CONFIG_RG_FLASH_LAYOUT_SIZE" "8" ];
    token_set_y 3527 "CONFIG_GUI_RG2";
    token_set_y 3528 "CONFIG_GUI_SMB2";
    token_set_y 3531 "CONFIG_GUI_RG";
    If (IS_DIST "WSTL_ULS3_VDSL_IKANOS_64" |||
        IS_DIST "WSTL_ULS3_DUAL_MOCA_64" |||
        IS_DIST "WSTL_ULS3_DUAL_MOCA_USB_64" |||
        IS_DIST "WSTL_ULS3_VDSL_INFINEON_64" |||
        IS_DIST "WSTL_ULS3_WAN_ETHERNET_64" |||
        IS_DIST "WSTL_ULS3_WAN_ETHERNET_CO_64" |||
        IS_DIST "WSTL_ULS3_DMOCA_GENERIC_64" |||
        IS_DIST "WSTL_ULS3_VDSL_INFINEON_GENERIC_64" |||
        IS_DIST "WSTL_ULS3_TURBO_DUAL_MOCA_64" |||
        IS_DIST "WSTL_ULS3_VDSL_INFINEON_GENERIC_USB_64" |||
        IS_DIST "WSTL_ULS3_VDSL_IKANOS_GENERIC_64" |||
        IS_DIST "WSTL_ULS3_TURBO_M100_64" |||
        IS_DIST "WSTL_ULS3_TURBO_DUAL_MOCA_11N_64" |||
        IS_DIST "WSTL_ULS3_TURBO_COMMON_ART_64" |||
        IS_DIST "WSTL_ULS3_DUAL_MOCA_USB_11N_64") [
      token_set 3555 "CONFIG_RG_SSID_NAME" "UltralineS3";
      token_set_y 3556 "CONFIG_WSTL_CONFIG_DEFAULTS";
      token_set_y 3557 "CONFIG_REDUCED_DNS_TRAFFIC";
      token_set_y 3560 "CONFIG_WESTELL_GUI";
      If (IS_DIST "WSTL_ULS3_VDSL_IKANOS_GENERIC_64") [
        token_set_y 3564 "CONFIG_WSTL_TR_HIDDEN_PAGE" ];
      If (notc (isset "CONFIG_HW_TURBO_M100" ||| isset "CONFIG_HW_TURBO_DUAL_MOCA")) [
        token_set_y 3568 "CONFIG_BASIC_LOG" ];
      IfElse (IS_DIST "WSTL_ULS3_TURBO_M100_64") [
        token_set 3572 "RG_PROD_STR" "UltraLine Media Server";
        token_set_y 3573 "CONFIG_GUI_WSTL_RETAIL";
        token_set_y 3574 "CONFIG_WSTL_4HOMEMEDIA_GUI" ]
      [
        token_set_y 3579 "CONFIG_GUI_WSTL";
        token_set_y 3580 "CONFIG_GUI_WSTL_VZ";
        IfElse (isset "CONFIG_WSTL_COMCAST") [
          token_set 3582 "RG_PROD_STR" "UltraLine Series3" ]
        [
          token_set_y 3585 "CONFIG_GUI_VZ_NO_ICONS";
          token_set 3586 "RG_PROD_STR" "Wireless Broadband Router" ] ];
      token_set_y 3610 "CONFIG_WSTL_SAVE_RXDEV";
      token_set_y 3611 "CONFIG_WSTL_ARPMON";
      token_set_y 3613 "CONFIG_WSTL_FIREBALL";
      token_set_y 3624 "CONFIG_WSTL_GUI_HIDE";
      token_set_y 3625 "CONFIG_WSTL_GUI_NO_HELP";
      token_set_y 3629 "CONFIG_WSTL_LOG_DIAGNOSTICS";
      token_set_y 3631 "CONFIG_WSTL_DEV_STATS";
      If (notc (isset "CONFIG_WSTL_COMCAST") &&&
          notc (isset "CONFIG_WSTL_RETAIL") &&&
          notc (isset "CONFIG_ATHEROS_ART_TOOLS")) [
        If (notc (isset "CONFIG_WSTL_GENERIC")) [
          token_set_y 3641 "CONFIG_WSTL_WBA";
          token_set_y 3642 "CONFIG_VERIZON_ONLY";
          token_set_y 3644 "CONFIG_WSTL_VERIZON_DNS_RESOLUTION" ];
        If (notc (isset "CONFIG_RG_WSTL_WAN_CABLE")) [
          token_set_y 3649 "CONFIG_WSTL_WAN_PROTOCOL_DETECT";
          token_set_y 3652 "CONFIG_WSTL_VERIZON_DHCP_OPT_60" ] ];
      If (isset "CONFIG_VERIZON_ONLY") [
        token_set_y 3659 "CONFIG_PPPSTUB" ];
      If (notc (isset "CONFIG_WSTL_RETAIL") &&&
          notc (isset "CONFIG_ATHEROS_ART_TOOLS")) [
        token_set_y 3666 "CONFIG_WSTL_TR_HIDDEN_PAGE" ];
      If (notc (isset "CONFIG_ATHEROS_ART_TOOLS")) [
        token_set_y 3672 "CONFIG_WSTL_IGMP_CHANGE";
        token_set_y 3673 "CONFIG_WSTL_LOOP_DETECT" ];
      token_set_y 3677 "WSTL_QND_PARENTAL";
      token_set_y 3681 "CONFIG_WSTL_CR_FIX" ] ]) ].

(** dist_config.c:3686-3828 *)
Definition distribution_arms_24 : list (cond * list stmt) :=
  [
  (IS_DIST "AD6834", [
    set_hw "AD6834";
    enable_module 3691 "MODULE_RG_FOUNDATION";
    enable_module 3692 "MODULE_RG_ADVANCED_MANAGEMENT";
    enable_module 3693 "MODULE_RG_UPNP";
    enable_module 3694 "MODULE_RG_FIREWALL_AND_SECURITY";
    enable_module 3695 "MODULE_RG_DSL";
    enable_module 3696 "MODULE_RG_PPP";
    enable_module 3697 "MODULE_RG_WLAN_AND_ADVANCED_WLAN";
    enable_module 3698 "MODULE_RG_IPSEC";
    enable_module 3699 "MODULE_RG_PPTP";
    enable_module 3700 "MODULE_RG_L2TP";
    enable_module 3701 "MODULE_RG_VLAN";
    enable_module 3702 "MODULE_RG_ADVANCED_ROUTING";
    enable_module 3703 "MODULE_RG_SNMP";
    enable_module 3704 "MODULE_RG_IPV6";
    enable_module 3705 "MODULE_RG_URL_FILTERING";
    enable_module 3706 "MODULE_RG_QOS";
    enable_module 3707 "MODULE_RG_ROUTE_MULTIWAN";
    enable_module 3708 "MODULE_RG_SSL_VPN";
    token_set_y 3710 "CONFIG_RG_PERM_STORAGE_VENDOR_HEADER";
    token_set_y 3711 "CONFIG_RG_NETTOOLS_ARP";
    token_set 3713 "LIBC_IN_TOOLCHAIN" "n";
    token_set_y 3714 "CONFIG_DYN_LINK";
    enable_module 3716 "MODULE_RG_VOIP_ASTERISK_SIP";
    enable_module 3717 "CONFIG_HW_DSP";
    enable_module 3718 "MODULE_RG_ATA";
    enable_module 3720 "MODULE_RG_BLUETOOTH";
    enable_module 3723 "CONFIG_HW_80211G_RALINK_RT2560";
    token_set_y 3724 "CONFIG_HW_ETH_LAN";
    token_set_y 3725 "CONFIG_HW_ETH_WAN";
    token_set_y 3726 "CONFIG_HW_DSL_WAN";
    enable_module 3727 "CONFIG_HW_USB_RNDIS";
    enable_module 3728 "CONFIG_HW_ENCRYPTION";
    token_set 3736 "CONFIG_RG_JPKG_DIST" "JPKG_LX4189" ]);
  (IS_DIST "AD6834_26" ||| IS_DIST "AD6834_26_FULL", [
    set_hw "AD6834";
    set_os "LINUX_26";
    enable_module 3744 "MODULE_RG_FOUNDATION";
    enable_module 3745 "MODULE_RG_ADVANCED_MANAGEMENT";
    enable_module 3746 "MODULE_RG_UPNP";
    enable_module 3747 "MODULE_RG_FIREWALL_AND_SECURITY";
    enable_module 3748 "MODULE_RG_DSL";
    enable_module 3749 "MODULE_RG_PPP";
    enable_module 3750 "MODULE_RG_WLAN_AND_ADVANCED_WLAN";
    enable_module 3751 "MODULE_RG_IPSEC";
    enable_module 3752 "MODULE_RG_PPTP";
    enable_module 3753 "MODULE_RG_L2TP";
    enable_module 3754 "MODULE_RG_VLAN";
    enable_module 3755 "MODULE_RG_ADVANCED_ROUTING";
    enable_module 3756 "MODULE_RG_SNMP";
    enable_module 3757 "MODULE_RG_IPV6";
    enable_module 3758 "MODULE_RG_URL_FILTERING";
    enable_module 3759 "MODULE_RG_QOS";
    enable_module 3760 "MODULE_RG_ROUTE_MULTIWAN";
    enable_module 3761 "MODULE_RG_SSL_VPN";
    token_set_y 3763 "CONFIG_RG_PERM_STORAGE_VENDOR_HEADER";
    token_set_y 3764 "CONFIG_RG_NETTOOLS_ARP";
    token_set_y 3766 "CONFIG_DYN_LINK";
    enable_module 3768 "MODULE_RG_BLUETOOTH";
    token_set_y 3771 "CONFIG_HW_ETH_LAN";
    token_set_y 3772 "CONFIG_HW_ETH_WAN";
    token_set_y 3773 "CONFIG_HW_DSL_WAN";
    enable_module 3774 "CONFIG_HW_ENCRYPTION";
    token_set 3777 "CONFIG_RG_JPKG_DIST" "JPKG_LX4189";
    token_set_y 3780 "CONFIG_RG_INITFS_RAMFS";
    token_set_y 3781 "CONFIG_RG_MAINFS_CRAMFS";
    token_set_y 3782 "CONFIG_RG_MODFS_CRAMFS" ]);
  (IS_DIST "AD6834_26_LSP", [
    set_hw "AD6834";
    set_os "LINUX_26";
    token_set_y 3788 "CONFIG_DYN_LINK";
    token_set_y 3790 "CONFIG_LSP_DIST";
    token_set_y 3791 "CONFIG_RG_PERM_STORAGE";
    token_set_y 3794 "CONFIG_HW_ETH_LAN";
    token_set_y 3798 "CONFIG_LSP_FLASH_LAYOUT";
    token_set_y 3799 "CONFIG_RG_INITFS_RAMFS";
    token_set_y 3800 "CONFIG_RG_MAINFS_CRAMFS";
    token_set_y 3802 "CONFIG_SIMPLE_RAMDISK" ]);
  (IS_DIST "JNET_SERVER", [
    set_jnet_server_configs;
    token_set_y 3808 "CONFIG_RG_USE_LOCAL_TOOLCHAIN";
    token_set_y 3809 "CONFIG_RG_BUILD_LOCAL_TARGETS_ONLY" ]);
  (IS_DIST "BCM96358_LSP", [
    set_hw "BCM96358";
    set_os "LINUX_26";
    token_set_y 3816 "CONFIG_LSP_DIST";
    token_set_y 3821 "CONFIG_HW_ETH_LAN";
    token_set 3823 "LIBC_IN_TOOLCHAIN" "n";
    token_set_y 3825 "CONFIG_RG_INITFS_RAMFS";
    token_set_y 3826 "CONFIG_RG_MAINFS_CRAMFS";
    token_set_y 3827 "CONFIG_RG_MODFS_CRAMFS" ]) ].

(** dist_config.c:3832-3976 *)
Definition distribution_arms_25 : list (cond * list stmt) :=
  [
  (IS_DIST "BCM96358", [
    set_hw "BCM96358";
    set_os "LINUX_26";
    token_set 3837 "CONFIG_RG_JPKG_DIST" "JPKG_MIPSEB";
    small_flash_default_dist;
    token_set_y 3841 "CONFIG_HW_ETH_WAN";
    token_set_y 3842 "CONFIG_HW_SWITCH_LAN";
    token_set_y 3843 "CONFIG_HW_DSL_WAN";
    token_set_y 3844 "CONFIG_RG_NETTOOLS_ARP";
    enable_module 3846 "CONFIG_HW_80211G_BCM43XX";
    enable_module 3847 "MODULE_RG_WLAN_AND_ADVANCED_WLAN";
    enable_module 3849 "MODULE_RG_ROUTE_MULTIWAN";
    token_set 3853 "LIBC_IN_TOOLCHAIN" "y";
    token_set_y 3855 "CONFIG_RG_INITFS_RAMFS";
    token_set_y 3856 "CONFIG_RG_MAINFS_CRAMFS";
    token_set_y 3857 "CONFIG_RG_MODFS_CRAMFS" ]);
  (IS_DIST "REDBOOT_RICHFIELD", [
    set_hw "RICHFIELD";
    set_os "ECOS";
    token_set 3865 "DIST_TYPE" "BOOTLDR" ]);
  (IS_DIST "REDBOOT_MATECUMBE", [
    set_hw "MATECUMBE";
    set_os "ECOS";
    token_set 3871 "DIST_TYPE" "BOOTLDR" ]);
  (IS_DIST "REDBOOT_COYOTE", [
    set_hw "COYOTE";
    set_os "ECOS";
    token_set 3877 "DIST_TYPE" "BOOTLDR" ]);
  (IS_DIST "REDBOOT_NAPA", [
    set_hw "NAPA";
    set_os "ECOS";
    token_set 3883 "DIST_TYPE" "BOOTLDR" ]);
  (IS_DIST "RGLOADER_IXDP425" ||| IS_DIST "RGLOADER_IXDP425_FULLSOURCE" ||| IS_DIST "RGLOADER_IXDP425_16MB" ||| IS_DIST "RGLOADER_IXDP425_LSP", [
    set_hw "IXDP425";
    token_set_y 3891 "CONFIG_RG_RGLOADER";
    token_set_y 3892 "CONFIG_IXP425_COMMON_RGLOADER";
    token_set_y 3895 "CONFIG_HW_ETH_WAN";
    token_set_y 3896 "CONFIG_HW_ETH_LAN";
    token_set 3898 "CONFIG_IXDP425_KGDB_UART" "1";
    token_set 3901 "CONFIG_IXP425_FLASH_E28F128J3" "m";
    If (IS_DIST "RGLOADER_IXDP425_16MB") [
      token_set 3904 "CONFIG_RG_FLASH_LAYOUT_SIZE" "16" ];
    If (IS_DIST "RGLOADER_IXDP425_LSP") [
      token_set_y 3907 "CONFIG_LSP_FLASH_LAYOUT" ] ]);
  (IS_DIST "RGLOADER_MATECUMBE", [
    set_hw "MATECUMBE";
    token_set_y 3913 "CONFIG_RG_RGLOADER";
    token_set_y 3914 "CONFIG_IXP425_COMMON_RGLOADER";
    token_set_y 3917 "CONFIG_HW_ETH_WAN";
    token_set_y 3918 "CONFIG_HW_ETH_LAN" ]);
  (IS_DIST "RGLOADER_NAPA", [
    set_hw "NAPA";
    token_set_y 3924 "CONFIG_RG_RGLOADER";
    token_set_y 3925 "CONFIG_IXP425_COMMON_RGLOADER";
    token_set_y 3926 "CONFIG_IXP425_POST";
    token_set_y 3929 "CONFIG_HW_ETH_LAN2";
    token_set_y 3930 "CONFIG_HW_ETH_LAN" ]);
  (IS_DIST "RGLOADER_COYOTE", [
    set_hw "COYOTE";
    token_set_y 3936 "CONFIG_RG_RGLOADER";
    token_set_y 3937 "CONFIG_IXP425_COMMON_RGLOADER";
    token_set_y 3940 "CONFIG_HW_ETH_LAN" ]);
  (IS_DIST "RGLOADER_COYOTE_64MB_RAM", [
    set_hw "COYOTE";
    token_set_y 3945 "CONFIG_RG_RGLOADER";
    token_set_y 3946 "CONFIG_IXP425_COMMON_RGLOADER";
    token_set 3949 "CONFIG_IXP425_SDRAM_SIZE" "64";
    token_set_y 3950 "CONFIG_HW_ETH_LAN";
    token_set 3951 "CONFIG_RG_JPKG_DIST" "JPKG_ARMV5B" ]);
  (IS_DIST "RGLOADER_COYOTE_64MB_RAM_32MB_FLASH", [
    set_hw "COYOTE";
    token_set_y 3956 "CONFIG_RG_RGLOADER";
    token_set_y 3957 "CONFIG_IXP425_COMMON_RGLOADER";
    token_set_y 3958 "CONFIG_MTD_CONCAT";
    token_set 3961 "CONFIG_RG_FLASH_LAYOUT_SIZE" "32";
    token_set 3962 "CONFIG_IXP425_SDRAM_SIZE" "64";
    token_set 3963 "CONFIG_IXP425_NUMBER_OF_FLASH_CHIPS" "2";
    token_set_y 3964 "CONFIG_HW_ETH_LAN" ]);
  (IS_DIST "RGLOADER_COYOTE_LSP", [
    set_hw "COYOTE";
    token_set_y 3970 "CONFIG_RG_RGLOADER";
    token_set_y 3971 "CONFIG_IXP425_COMMON_RGLOADER";
    token_set_y 3972 "CONFIG_LSP_FLASH_LAYOUT";
    token_set_y 3975 "CONFIG_HW_ETH_LAN" ]) ].

(** dist_config.c:3977-4117 *)
Definition distribution_arms_26 : list (cond * list stmt) :=
  [
  (IS_DIST "RGLOADER_MONTEJADE", [
    set_hw "MONTEJADE";
    token_set_y 3981 "CONFIG_RG_RGLOADER";
    token_set_y 3982 "CONFIG_IXP425_COMMON_RGLOADER";
    token_set_y 3983 "CONFIG_RG_DYN_FLASH_LAYOUT";
    token_set_y 3986 "CONFIG_HW_ETH_LAN";
    token_set_y 3987 "CONFIG_HW_ETH_LAN2";
    token_set 3988 "CONFIG_RG_JPKG_DIST" "JPKG_ARMV5B" ]);
  (IS_DIST "RGLOADER_HG21", [
    set_hw "HG21";
    token_set_y 3994 "CONFIG_RG_RGLOADER";
    token_set_y 3995 "CONFIG_IXP425_COMMON_RGLOADER";
    token_set_y 3998 "CONFIG_HW_ETH_LAN";
    token_set_y 3999 "CONFIG_HW_ETH_LAN2" ]);
  (IS_DIST "RGLOADER_BAMBOO", [
    set_hw "BAMBOO";
    token_set_y 4005 "CONFIG_RG_RGLOADER";
    token_set_y 4006 "CONFIG_IXP425_COMMON_RGLOADER";
    token_set_y 4009 "CONFIG_HW_ETH_LAN";
    token_set_y 4010 "CONFIG_HW_ETH_LAN2" ]);
  (IS_DIST "RGLOADER_GTWX5715", [
    set_hw "GTWX5715";
    token_set_y 4016 "CONFIG_RG_RGLOADER";
    token_set_y 4017 "CONFIG_IXP425_COMMON_RGLOADER";
    token_set_y 4020 "CONFIG_HW_ETH_LAN";
    token_set_y 4021 "CONFIG_HW_ETH_LAN2";
    token_set_y 4024 "CONFIG_WX5715_VLAN_SWITCH_DISABLE" ]);
  (IS_DIST "RGLOADER_ALLWELL_RTL_RTL", [
    set_hw "ALLWELL_RTL_RTL";
    token_set_y 4030 "CONFIG_RG_RGLOADER";
    token_set_y 4033 "CONFIG_HW_ETH_LAN";
    token_set_y 4034 "CONFIG_HW_ETH_LAN2" ]);
  (IS_DIST "RGLOADER_ALLWELL_RTL_EEP", [
    set_hw "ALLWELL_RTL_EEP";
    token_set_y 4040 "CONFIG_RG_RGLOADER";
    token_set_y 4043 "CONFIG_HW_ETH_LAN";
    token_set_y 4044 "CONFIG_HW_ETH_LAN2" ]);
  (IS_DIST "RGLOADER_ALLWELL_EEP_EEP", [
    set_hw "PCBOX_EEP_EEP";
    token_set_y 4050 "CONFIG_RG_RGLOADER";
    token_set_y 4053 "CONFIG_HW_ETH_LAN";
    token_set_y 4054 "CONFIG_HW_ETH_LAN2" ]);
  (IS_DIST "RGLOADER_WAV54G", [
    set_hw "WAV54G";
    token_set_y 4060 "CONFIG_RG_RGLOADER";
    token_set_y 4061 "CONFIG_IXP425_COMMON_RGLOADER";
    token_set_y 4064 "CONFIG_HW_ETH_LAN";
    token_set_y 4065 "CONFIG_HW_ETH_LAN2";
    token_set_m 4066 "CONFIG_HW_BUTTONS" ]);
  (IS_DIST "WRT55AG" ||| IS_DIST "ATHEROS_AR531X_AG_VX" ||| IS_DIST "WRT55AG_INT", [
    set_os "VXWORKS";
    Elif [
      (IS_DIST "WRT55AG", [
        set_hw "AR531X_WRT55AG" ]);
      (IS_DIST "ATHEROS_AR531X_AG_VX", [
        set_hw "AR531X_AG" ]) ]
    [
      set_hw "AR531X_G" ];
    enable_module 4080 "MODULE_RG_FOUNDATION";
    enable_module 4081 "MODULE_RG_ADVANCED_MANAGEMENT";
    enable_module 4082 "MODULE_RG_SNMP";
    enable_module 4083 "MODULE_RG_PPP";
    enable_module 4084 "MODULE_RG_VLAN";
    enable_module 4085 "MODULE_RG_UPNP";
    enable_module 4086 "MODULE_RG_ADVANCED_ROUTING";
    enable_module 4087 "MODULE_RG_FIREWALL_AND_SECURITY";
    enable_module 4088 "MODULE_RG_URL_FILTERING";
    token_set_y 4091 "CONFIG_HW_ETH_WAN";
    token_set_y 4092 "CONFIG_HW_ETH_LAN";
    enable_module 4093 "CONFIG_HW_80211G_AR531X";
    If (IS_DIST "WRT55AG" ||| IS_DIST "ATHEROS_AR531X_AG_VX") [
      enable_module 4095 "CONFIG_HW_80211A_AR531X" ];
    token_set_m 4096 "CONFIG_HW_BUTTONS";
    token_set_y 4098 "CONFIG_RG_SSI_PAGES";
    token_set_y 4099 "CONFIG_RG_LAN_BRIDGE_CONST";
    token_set_y 4100 "CONFIG_RG_RMT_MNG";
    token_set_y 4101 "CONFIG_RG_STATIC_ROUTE";
    token_set_y 4102 "CONFIG_RG_ENTFY";
    token_set 4103 "CONFIG_SDRAM_SIZE" "16";
    token_set_y 4105 "CONFIG_RG_WLAN_STA_STATISTICS_WBM";
    token_set_y 4108 "CONFIG_80211G_AP_ADVANCED";
    token_set_y 4109 "CONFIG_RG_WPA_WBM";
    token_set_y 4110 "CONFIG_RG_RADIUS_WBM_IN_CONN";
    token_set_y 4111 "CONFIG_RG_8021X_WBM";
    IfElse (notc (IS_DIST "WRT55AG_INT")) [
 ]
    [
 ] ]) ].

(** dist_config.c:4118-4267 *)
Definition distribution_arms_27 : list (cond * list stmt) :=
  [
  (IS_DIST "AR2313_LIZZY" ||| IS_DIST "BOCHS_LIZZY", [
    set_os "VXWORKS";
    token_set_y 4123 "CONFIG_RG_FOUNDATION_CORE";
    token_set_y 4126 "CONFIG_RG_DHCPS";
    token_set_y 4129 "CONFIG_RG_TELNETS";
    token_set_y 4132 "CONFIG_RG_BRIDGE";
    token_set_y 4135 "CONFIG_RG_NAT";
    token_set_y 4138 "CONFIG_RG_ALG";
    token_set_y 4139 "CONFIG_RG_ALG_SIP";
    token_set_y 4140 "CONFIG_RG_ALG_H323";
    token_set_y 4141 "CONFIG_RG_ALG_AIM";
    token_set_y 4142 "CONFIG_RG_ALG_MSNMS";
    token_set_y 4143 "CONFIG_RG_ALG_PPTP";
    token_set_y 4144 "CONFIG_RG_ALG_IPSEC";
    token_set_y 4145 "CONFIG_RG_ALG_L2TP";
    token_set_y 4146 "CONFIG_RG_ALG_ICMP";
    token_set_y 4147 "CONFIG_RG_ALG_PORT_TRIGGER";
    token_set_y 4148 "CONFIG_RG_ALG_FTP";
    token_set_y 4149 "CONFIG_RG_ALG_RTSP";
    token_set_y 4152 "CONFIG_RG_MSS";
    enable_module 4154 "MODULE_RG_PPP";
    enable_module 4155 "MODULE_RG_UPNP";
    enable_module 4156 "MODULE_RG_ADVANCED_ROUTING";
    enable_module 4157 "MODULE_RG_FIREWALL_AND_SECURITY";
    enable_module 4160 "MODULE_RG_VLAN";
    token_set_y 4163 "CONFIG_RG_DHCPR";
    token_set_y 4164 "CONFIG_RG_URL_KEYWORD_FILTER";
    If (IS_DIST "AR2313_LIZZY") [
      enable_module 4169 "MODULE_RG_WLAN_AND_ADVANCED_WLAN";
      token_set_y 4170 "CONFIG_RG_RADIUS_WBM_IN_CONN";
      token_set_y 4171 "CONFIG_RG_WLAN_REPEATING";
      token_set_y 4172 "CONFIG_RG_WDS_CONN_NOTIFIER";
      token_set 4173 "CONFIG_RG_SSID_NAME" "wireless" ];
    token_set_y 4177 "CONFIG_HW_ETH_WAN";
    token_set_y 4178 "CONFIG_HW_ETH_LAN";
    If (IS_DIST "AR2313_LIZZY") [
      enable_module 4181 "CONFIG_HW_80211G_AR531X";
      token_set_y 4182 "CONFIG_HW_BUTTONS" ];
    token_set_y 4185 "CONFIG_RG_SSI_PAGES";
    token_set_y 4186 "CONFIG_RG_LAN_BRIDGE_CONST";
    token_set_y 4187 "CONFIG_RG_RMT_MNG";
    token_set_y 4188 "CONFIG_RG_STATIC_ROUTE";
    token_set_y 4191 "CONFIG_RG_ENTFY";
    token_set_y 4194 "CONFIG_RG_EVENT_LOGGING";
    token_set 4196 "CONFIG_SDRAM_SIZE" "8";
    token_set_y 4199 "CONFIG_RG_STATISTICS_CTRL_WBM";
    token_set_y 4200 "CONFIG_RG_WLAN_STA_STATISTICS_WBM";
    IfElse (IS_DIST "AR2313_LIZZY") [
      set_hw "AR531X_G" ]
    [
      set_hw "I386_BOCHS" ] ]);
  (IS_DIST "AR2313_ZIPPY" ||| IS_DIST "BOCHS_ZIPPY", [
    set_os "VXWORKS";
    enable_module 4219 "MODULE_RG_FOUNDATION";
    enable_module 4220 "MODULE_RG_ADVANCED_MANAGEMENT";
    enable_module 4221 "MODULE_RG_SNMP";
    enable_module 4222 "MODULE_RG_PPP";
    enable_module 4223 "MODULE_RG_UPNP";
    enable_module 4224 "MODULE_RG_ADVANCED_ROUTING";
    enable_module 4225 "MODULE_RG_FIREWALL_AND_SECURITY";
    token_set_y 4228 "CONFIG_RG_DHCPR";
    token_set_y 4229 "CONFIG_RG_URL_KEYWORD_FILTER";
    token_set_y 4232 "CONFIG_HW_ETH_WAN";
    token_set_y 4233 "CONFIG_HW_ETH_LAN";
    If (IS_DIST "AR2313_ZIPPY") [
      enable_module 4237 "CONFIG_HW_80211G_AR531X";
      token_set_y 4238 "CONFIG_HW_BUTTONS" ];
    token_set_y 4241 "CONFIG_RG_SSI_PAGES";
    token_set_y 4242 "CONFIG_RG_LAN_BRIDGE_CONST";
    If (IS_DIST "AR2313_ZIPPY") [
      enable_module 4246 "MODULE_RG_WLAN_AND_ADVANCED_WLAN";
      token_set_y 4247 "CONFIG_RG_RADIUS_WBM_IN_CONN";
      token_set_y 4248 "CONFIG_AR531X_DEBUG" ];
    token_set 4251 "CONFIG_SDRAM_SIZE" "16";
    token_set_y 4254 "CONFIG_RG_STATISTICS_CTRL_WBM";
    token_set_y 4255 "CONFIG_RG_WLAN_STA_STATISTICS_WBM";
    IfElse (IS_DIST "AR2313_ZIPPY") [
      set_hw "AR531X_G" ]
    [
      set_hw "I386_BOCHS" ] ]) ].

(** dist_config.c:4268-4406 *)
Definition distribution_arms_28 : list (cond * list stmt) :=
  [
  (IS_DIST "ATHEROS_AR531X_VX", [
    set_os "VXWORKS";
    set_hw "AR531X_G";
    token_set_y 4273 "CONFIG_RG_SMB";
    enable_module 4275 "MODULE_RG_FOUNDATION";
    enable_module 4276 "MODULE_RG_UPNP";
    enable_module 4277 "MODULE_RG_PPP";
    enable_module 4278 "MODULE_RG_FIREWALL_AND_SECURITY";
    enable_module 4279 "MODULE_RG_ADVANCED_ROUTING";
    enable_module 4280 "MODULE_RG_WLAN_AND_ADVANCED_WLAN";
    token_set_y 4281 "CONFIG_RG_TFTP_UPGRADE";
    token_set_y 4282 "CONFIG_RG_TFTP_SERVER_PASSWORD";
    token_set_y 4283 "CONFIG_RG_ENTFY";
    token_set_y 4284 "CONFIG_RG_EVENT_LOGGING";
    token_set_y 4285 "CONFIG_RG_URL_KEYWORD_FILTER";
    token_set_y 4288 "CONFIG_HW_ETH_WAN";
    token_set_y 4289 "CONFIG_HW_ETH_LAN";
    enable_module 4290 "CONFIG_HW_80211G_AR531X";
    token_set_y 4291 "CONFIG_HW_BUTTONS";
    token_set_y 4293 "CONFIG_RG_RADIUS_WBM_IN_CONN";
    token_set_y 4294 "CONFIG_RG_SSI_PAGES";
    token_set_y 4295 "CONFIG_AR531X_DEBUG";
    token_set_y 4296 "CONFIG_RG_LAN_BRIDGE_CONST";
    token_set 4297 "CONFIG_SDRAM_SIZE" "16" ]);
  (IS_DIST "WRT108G_VX", [
    set_os "VXWORKS";
    set_hw "WRT108G";
    token_set_y 4306 "CONFIG_RG_SMB";
    enable_module 4308 "MODULE_RG_FOUNDATION";
    enable_module 4309 "MODULE_RG_UPNP";
    enable_module 4310 "MODULE_RG_PPP";
    enable_module 4311 "MODULE_RG_FIREWALL_AND_SECURITY";
    enable_module 4312 "MODULE_RG_ADVANCED_MANAGEMENT";
    enable_module 4313 "MODULE_RG_SNMP";
    enable_module 4314 "MODULE_RG_ADVANCED_ROUTING";
    enable_module 4315 "MODULE_RG_WLAN_AND_ADVANCED_WLAN";
    token_set_y 4317 "CONFIG_RG_TFTP_UPGRADE";
    token_set_y 4318 "CONFIG_RG_TFTP_SERVER_PASSWORD";
    token_set_y 4321 "CONFIG_HW_ETH_WAN";
    token_set_y 4322 "CONFIG_HW_ETH_LAN";
    enable_module 4323 "CONFIG_HW_80211G_AR531X";
    token_set_y 4324 "CONFIG_HW_BUTTONS";
    token_set_y 4326 "CONFIG_RG_RADIUS_WBM_IN_CONN";
    token_set_y 4327 "CONFIG_GUI_LINKSYS";
    token_set_y 4328 "CONFIG_RG_LAN_BRIDGE_CONST";
    token_set_y 4330 "CONFIG_RG_RGLOADER_CLI_CMD";
    token_set 4333 "CONFIG_SDRAM_SIZE" "16" ]);
  (IS_DIST "TI_404_VX_EVAL" ||| IS_DIST "T_TI_404_VX" ||| IS_DIST "ARRIS_TI_404_VX", [
    set_os "VXWORKS";
    set_hw "TI_404";
    enable_module 4349 "MODULE_RG_FOUNDATION";
    enable_module 4350 "MODULE_RG_FIREWALL_AND_SECURITY";
    enable_module 4351 "MODULE_RG_UPNP";
    enable_module 4352 "MODULE_RG_ADVANCED_ROUTING";
    enable_module 4353 "MODULE_RG_SNMP";
    token_set_y 4356 "CONFIG_HW_CABLE_WAN";
    token_set_y 4357 "CONFIG_HW_ETH_LAN" ]);
  (IS_DIST "T_TI_404_VX_CH" ||| IS_DIST "ARRIS_TI_404_VX_CH", [
    set_os "VXWORKS";
    set_hw "TI_404";
    enable_module 4365 "MODULE_RG_FOUNDATION";
    enable_module 4366 "MODULE_RG_CABLEHOME";
    enable_module 4367 "MODULE_RG_SNMP";
    enable_module 4368 "MODULE_RG_FIREWALL_AND_SECURITY";
    token_set_y 4369 "CONFIG_RG_EVENT_LOGGING";
    token_set_y 4372 "CONFIG_HW_CABLE_WAN";
    token_set_y 4373 "CONFIG_HW_ETH_LAN";
    If (IS_DIST "SMC_TI_404_VX_CH") [
      enable_module 4377 "MODULE_RG_UPNP";
      enable_module 4378 "MODULE_RG_ADVANCED_ROUTING" ] ]);
  (IS_DIST "TI_TNETC440_VX_CH" ||| IS_DIST "HITRON_TNETC440_VX_CH" ||| IS_DIST "HITRON_TNETC440_VX", [
    set_os "VXWORKS";
    set_hw "TI_404";
    enable_module 4389 "MODULE_RG_FOUNDATION";
    enable_module 4390 "MODULE_RG_SNMP";
    enable_module 4391 "MODULE_RG_UPNP";
    enable_module 4392 "MODULE_RG_FIREWALL_AND_SECURITY";
    enable_module 4393 "MODULE_RG_ADVANCED_ROUTING";
    token_set_y 4394 "CONFIG_RG_EVENT_LOGGING";
    If (notc (IS_DIST "HITRON_TNETC440_VX")) [
      enable_module 4396 "MODULE_RG_CABLEHOME" ];
    token_set_y 4399 "CONFIG_HW_CABLE_WAN";
    token_set_y 4400 "CONFIG_HW_ETH_LAN";
    If (IS_DIST "HITRON_TNETC440_VX_CH" ||| IS_DIST "HITRON_TNETC440_VX") [
      token_set_y 4405 "CONFIG_HITRON_BSP" ] ]) ].

(** dist_config.c:4407-4556 *)
Definition distribution_arms_29 : list (cond * list stmt) :=
  [
  (IS_DIST "TI_404_VX_CH_EVAL", [
    set_os "VXWORKS";
    set_hw "TI_404";
    token_set_y 4412 "CONFIG_RG_SMB";
    enable_module 4415 "MODULE_RG_CABLEHOME";
    enable_module 4416 "MODULE_RG_FOUNDATION";
    enable_module 4417 "MODULE_RG_UPNP";
    enable_module 4418 "MODULE_RG_ADVANCED_ROUTING";
    enable_module 4419 "MODULE_RG_URL_FILTERING";
    enable_module 4420 "MODULE_RG_PPP";
    enable_module 4421 "MODULE_RG_FIREWALL_AND_SECURITY";
    enable_module 4422 "MODULE_RG_ADVANCED_MANAGEMENT";
    token_set_y 4425 "CONFIG_HW_CABLE_WAN";
    token_set_y 4426 "CONFIG_HW_ETH_LAN" ]);
  (IS_DIST "TI_WPA_VX", [
    set_os "VXWORKS";
    set_hw "TI_TNETWA100";
    token_set_y 4434 "CONFIG_RG_WPA";
    token_set_y 4435 "CONFIG_RG_8021X_RADIUS";
    token_set_y 4436 "CONFIG_RG_OPENSSL" ]);
  (IS_DIST "I386_BOCHS_VX", [
    set_os "VXWORKS";
    set_hw "I386_BOCHS";
    token_set_y 4443 "CONFIG_RG_SMB";
    enable_module 4445 "MODULE_RG_FOUNDATION";
    enable_module 4446 "MODULE_RG_UPNP";
    enable_module 4447 "MODULE_RG_ADVANCED_ROUTING";
    enable_module 4448 "MODULE_RG_URL_FILTERING";
    enable_module 4449 "MODULE_RG_PPP";
    enable_module 4450 "MODULE_RG_FIREWALL_AND_SECURITY";
    enable_module 4451 "MODULE_RG_ADVANCED_MANAGEMENT";
    token_set_y 4454 "CONFIG_HW_ETH_WAN";
    token_set_y 4455 "CONFIG_HW_ETH_LAN" ]);
  (IS_DIST "ALLWELL_RTL_RTL_VALGRIND", [
    set_hw "ALLWELL_RTL_RTL";
    token_set_y 4463 "CONFIG_RG_SMB";
    enable_module 4466 "MODULE_RG_FOUNDATION";
    enable_module 4467 "MODULE_RG_UPNP";
    enable_module 4468 "MODULE_RG_PPP";
    enable_module 4469 "MODULE_RG_FIREWALL_AND_SECURITY";
    enable_module 4470 "MODULE_RG_ADVANCED_MANAGEMENT";
    enable_module 4471 "MODULE_RG_SNMP";
    enable_module 4472 "MODULE_RG_ADVANCED_ROUTING";
    token_set_y 4475 "CONFIG_HW_ETH_WAN";
    token_set_y 4476 "CONFIG_HW_ETH_LAN";
    token_set_y 4478 "CONFIG_VALGRIND" ]);
  (IS_DIST "ALLWELL_RTL_RTL_ISL38XX", [
    set_hw "ALLWELL_RTL_RTL_ISL38XX";
    enable_module 4485 "MODULE_RG_FOUNDATION";
    enable_module 4486 "MODULE_RG_UPNP";
    enable_module 4487 "MODULE_RG_PPP";
    enable_module 4488 "MODULE_RG_FIREWALL_AND_SECURITY";
    enable_module 4489 "MODULE_RG_ADVANCED_MANAGEMENT";
    enable_module 4490 "MODULE_RG_SNMP";
    enable_module 4491 "MODULE_RG_WLAN_AND_ADVANCED_WLAN";
    enable_module 4492 "MODULE_RG_ADVANCED_ROUTING";
    token_set_y 4495 "CONFIG_HW_ETH_WAN";
    token_set_y 4496 "CONFIG_HW_ETH_LAN";
    enable_module 4497 "CONFIG_HW_80211G_ISL38XX" ]);
  (IS_DIST "RGLOADER_UML", [
    set_hw "UML";
    set_os "LINUX_24";
    token_set_y 4506 "CONFIG_RG_RGLOADER";
    token_set_y 4509 "CONFIG_HW_ETH_LAN";
    token_set_y 4510 "CONFIG_HW_ETH_LAN2";
    token_set_y 4511 "CONFIG_RG_TELNETS";
    token_set_y 4512 "CONFIG_RG_DYN_FLASH_LAYOUT" ]);
  (IS_DIST "JPKG_SRC", [
    set_hw "JPKG";
    token_set 4517 "JPKG_ARCH" (quoted "src");
    token_set_y 4518 "CONFIG_RG_JPKG_SRC";
    set_jpkg_dist_configs "JPKG_SRC" ]);
  (IS_DIST "JPKG_UML", [
    set_hw "JPKG";
    token_set 4525 "JPKG_ARCH" (quoted "uml");
    token_set_y 4526 "CONFIG_RG_JPKG_UML";
    set_jpkg_dist_configs "JPKG_UML" ]);
  (IS_DIST "JPKG_ARMV5B", [
    set_hw "JPKG";
    token_set 4533 "JPKG_ARCH" (quoted "armv5b");
    token_set_y 4534 "CONFIG_RG_JPKG_ARMV5B";
    token_set_y 4536 "CONFIG_GLIBC";
    token_set_y 4537 "GLIBC_IN_TOOLCHAIN";
    set_jpkg_dist_configs "JPKG_ARMV5B" ]);
  (IS_DIST "JPKG_ARMV5L", [
    set_hw "JPKG";
    token_set 4544 "JPKG_ARCH" (quoted "armv5l");
    token_set_y 4545 "CONFIG_RG_JPKG_ARMV5L";
    set_jpkg_dist_configs "JPKG_ARMV5L" ]);
  (IS_DIST "JPKG_ARMV4L", [
    set_hw "JPKG";
    token_set 4552 "JPKG_ARCH" (quoted "armv4l");
    token_set_y 4553 "CONFIG_RG_JPKG_ARMV4L";
    set_jpkg_dist_configs "JPKG_ARMV4L" ]) ].

(** dist_config.c:4557-4697 *)
Definition distribution_arms_30 : list (cond * list stmt) :=
  [
  (IS_DIST "JPKG_PPC", [
    set_hw "JPKG";
    token_set 4560 "JPKG_ARCH" (quoted "ppc");
    token_set_y 4561 "CONFIG_RG_JPKG_PPC";
    set_jpkg_dist_configs "JPKG_PPC" ]);
  (IS_DIST "JPKG_MIPSEB", [
    set_hw "JPKG";
    token_set 4568 "JPKG_ARCH" (quoted "mipseb");
    token_set_y 4569 "CONFIG_RG_JPKG_MIPSEB";
    set_jpkg_dist_configs "JPKG_MIPSEB" ]);
  (IS_DIST "JPKG_BCM9634X", [
    set_hw "JPKG";
    token_set 4576 "JPKG_ARCH" (quoted "bcm9634x");
    token_set_y 4577 "CONFIG_RG_JPKG_BCM9634X";
    set_jpkg_dist_configs "JPKG_BCM9634X" ]);
  (IS_DIST "JPKG_SB1250", [
    set_hw "JPKG";
    token_set 4584 "JPKG_ARCH" (quoted "sb1250");
    token_set_y 4586 "CONFIG_RG_JPKG_SB1250";
    set_jpkg_dist_configs "JPKG_SB1250" ]);
  (IS_DIST "JPKG_TWINPASS", [
    set_hw "JPKG";
    token_set 4593 "JPKG_ARCH" (quoted "twinpass");
    token_set_y 4595 "CONFIG_RG_JPKG_TWINPASS";
    set_jpkg_dist_configs "JPKG_TWINPASS" ]);
  (IS_DIST "JPKG_ARM_920T_LE", [
    set_hw "JPKG";
    token_set 4602 "JPKG_ARCH" (quoted "arm-920t-le");
    token_set_y 4603 "CONFIG_RG_JPKG_ARM_920T_LE";
    set_jpkg_dist_configs "JPKG_ARM_920T_LE" ]);
  (IS_DIST "JPKG_LX4189", [
    set_hw "JPKG";
    token_set 4610 "JPKG_ARCH" (quoted "lx4189");
    token_set_y 4611 "CONFIG_RG_JPKG_LX4189";
    set_jpkg_dist_configs "JPKG_LX4189" ]);
  (IS_DIST "JPKG_LOCAL_I386", [
    set_hw_NULL;
    token_set 4618 "JPKG_ARCH" (quoted "local-i386");
    token_set_y 4619 "CONFIG_RG_JPKG_LOCAL_I386";
    set_jpkg_dist_configs "JPKG_LOCAL_I386" ]);
  (IS_DIST "UML_LSP", [
    set_hw "UML";
    set_os "LINUX_24";
    token_set_y 4628 "CONFIG_RG_UML";
    token_set_y 4630 "CONFIG_LSP_DIST" ]);
  (IS_DIST "UML_LSP_26", [
    set_hw "UML";
    set_os "LINUX_26";
    token_set_y 4637 "CONFIG_RG_UML";
    token_set_y 4639 "CONFIG_GLIBC";
    token_set_y 4641 "CONFIG_LSP_DIST" ]);
  (IS_DIST "UML" ||| IS_DIST "UML_GLIBC" ||| IS_DIST "UML_DUAL_WAN" ||| IS_DIST "UML_ATM" ||| IS_DIST "UML_26", [
    set_hw "UML";
    If (IS_DIST "UML_26") [
      set_os "LINUX_26" ];
    If (IS_DIST "UML_GLIBC") [
      token_set_y 4653 "CONFIG_GLIBC";
      token_set_y 4654 "GLIBC_IN_TOOLCHAIN" ];
    token_set_y 4657 "CONFIG_RG_SMB";
    enable_module 4660 "MODULE_RG_FOUNDATION";
    enable_module 4661 "MODULE_RG_UPNP";
    enable_module 4662 "MODULE_RG_PPP";
    enable_module 4663 "MODULE_RG_FIREWALL_AND_SECURITY";
    enable_module 4664 "MODULE_RG_ADVANCED_MANAGEMENT";
    enable_module 4665 "MODULE_RG_IPSEC";
    enable_module 4666 "MODULE_RG_PPTP";
    enable_module 4667 "MODULE_RG_SNMP";
    enable_module 4668 "MODULE_RG_IPV6";
    enable_module 4669 "MODULE_RG_VLAN";
    enable_module 4670 "MODULE_RG_ADVANCED_ROUTING";
    enable_module 4671 "MODULE_RG_L2TP";
    enable_module 4672 "MODULE_RG_URL_FILTERING";
    enable_module 4673 "MODULE_RG_QOS";
    enable_module 4674 "MODULE_RG_ROUTE_MULTIWAN";
    enable_module 4675 "MODULE_RG_DSLHOME";
    enable_module 4676 "MODULE_RG_TR_098";
    enable_module 4677 "MODULE_RG_TR_064";
    enable_module 4678 "MODULE_RG_JVM";
    enable_module 4679 "MODULE_RG_SSL_VPN";
    enable_module 4681 "MODULE_RG_MAIL_FILTER";
    token_set_y 4683 "CONFIG_HW_ETH_WAN";
    If (IS_DIST "UML_DUAL_WAN") [
      token_set_y 4685 "CONFIG_HW_ETH_WAN2" ];
    If (IS_DIST "UML_ATM") [
      enable_module 4688 "MODULE_RG_DSL";
      token_set_y 4689 "CONFIG_HW_DSL_WAN" ];
    token_set_y 4691 "CONFIG_HW_ETH_LAN";
    token_set_y 4692 "CONFIG_HW_ETH_LAN2";
    token_set 4693 "CONFIG_RG_JPKG_DIST" "JPKG_UML";
    token_set_y 4694 "CONFIG_RG_DYN_FLASH_LAYOUT" ]) ].

(** dist_config.c:4698-4813 *)
Definition distribution_arms_31 : list (cond * list stmt) :=
  [
  (IS_DIST "UML_VALGRIND" ||| IS_DIST "UML_ATM_VALGRIND", [
    set_hw "UML";
    token_set_y 4702 "CONFIG_RG_SMB";
    enable_module 4705 "MODULE_RG_FOUNDATION";
    enable_module 4706 "MODULE_RG_UPNP";
    enable_module 4707 "MODULE_RG_PPP";
    enable_module 4708 "MODULE_RG_FIREWALL_AND_SECURITY";
    enable_module 4709 "MODULE_RG_ADVANCED_MANAGEMENT";
    enable_module 4710 "MODULE_RG_IPSEC";
    enable_module 4711 "MODULE_RG_PPTP";
    enable_module 4712 "MODULE_RG_L2TP";
    enable_module 4713 "MODULE_RG_SNMP";
    enable_module 4717 "MODULE_RG_IPV6";
    enable_module 4718 "MODULE_RG_VLAN";
    enable_module 4719 "MODULE_RG_ADVANCED_ROUTING";
    enable_module 4720 "MODULE_RG_URL_FILTERING";
    enable_module 4721 "MODULE_RG_QOS";
    enable_module 4722 "MODULE_RG_ROUTE_MULTIWAN";
    enable_module 4723 "MODULE_RG_SSL_VPN";
    enable_module 4724 "MODULE_RG_DSLHOME";
    enable_module 4725 "MODULE_RG_TR_098";
    enable_module 4726 "MODULE_RG_MAIL_FILTER";
    token_set_y 4729 "CONFIG_HW_ETH_WAN";
    If (IS_DIST "UML_ATM_VALGRIND") [
      enable_module 4732 "MODULE_RG_DSL";
      token_set_y 4733 "CONFIG_HW_DSL_WAN" ];
    token_set_y 4736 "CONFIG_HW_ETH_LAN";
    token_set_y 4738 "CONFIG_VALGRIND";
    token_set 4739 "CONFIG_RG_JPKG_DIST" "JPKG_UML" ]);
  (IS_DIST "UML_IPPHONE", [
    set_hw "UML";
    enable_module 4746 "MODULE_RG_FOUNDATION";
    enable_module 4747 "MODULE_RG_UPNP";
    enable_module 4748 "MODULE_RG_PPP";
    enable_module 4749 "MODULE_RG_FIREWALL_AND_SECURITY";
    enable_module 4750 "MODULE_RG_ADVANCED_MANAGEMENT";
    enable_module 4751 "MODULE_RG_IPSEC";
    enable_module 4752 "MODULE_RG_PPTP";
    enable_module 4753 "MODULE_RG_SNMP";
    enable_module 4757 "MODULE_RG_IPV6";
    enable_module 4758 "MODULE_RG_VLAN";
    enable_module 4759 "MODULE_RG_ADVANCED_ROUTING";
    enable_module 4760 "MODULE_RG_L2TP";
    enable_module 4761 "MODULE_RG_URL_FILTERING";
    enable_module 4762 "MODULE_RG_VOIP_RV_SIP";
    enable_module 4763 "MODULE_RG_VOIP_RV_MGCP";
    enable_module 4764 "MODULE_RG_VOIP_RV_H323";
    token_set_y 4767 "CONFIG_HW_ETH_WAN";
    token_set_y 4768 "CONFIG_HW_ETH_LAN";
    enable_module 4769 "CONFIG_HW_DSP";
    token_set_y 4772 "CONFIG_RG_IPPHONE";
    token_set_y 4773 "CONFIG_RG_VOIP_HW_EMULATION" ]);
  (IS_DIST "UML_IPPHONE_VALGRIND", [
    set_hw "UML";
    token_set_y 4779 "CONFIG_RG_SMB";
    enable_module 4782 "MODULE_RG_FOUNDATION";
    enable_module 4783 "MODULE_RG_UPNP";
    enable_module 4784 "MODULE_RG_PPP";
    enable_module 4785 "MODULE_RG_FIREWALL_AND_SECURITY";
    enable_module 4786 "MODULE_RG_ADVANCED_MANAGEMENT";
    enable_module 4787 "MODULE_RG_IPSEC";
    enable_module 4788 "MODULE_RG_PPTP";
    enable_module 4789 "MODULE_RG_SNMP";
    enable_module 4793 "MODULE_RG_IPV6";
    enable_module 4794 "MODULE_RG_VLAN";
    enable_module 4795 "MODULE_RG_ADVANCED_ROUTING";
    enable_module 4796 "MODULE_RG_L2TP";
    enable_module 4797 "MODULE_RG_URL_FILTERING";
    enable_module 4798 "MODULE_RG_VOIP_RV_SIP";
    enable_module 4799 "MODULE_RG_VOIP_RV_MGCP";
    enable_module 4800 "MODULE_RG_VOIP_RV_H323";
    token_set_y 4803 "CONFIG_HW_ETH_WAN";
    token_set_y 4804 "CONFIG_HW_ETH_LAN";
    enable_module 4805 "CONFIG_HW_DSP";
    token_set_y 4807 "CONFIG_VALGRIND";
    token_set_y 4810 "CONFIG_RG_IPPHONE";
    token_set_y 4811 "CONFIG_RG_VOIP_HW_EMULATION";
    token_set_y 4812 "CONFIG_RG_DYN_FLASH_LAYOUT" ]) ].

(** dist_config.c:4815-4909 *)
Definition distribution_arms_32 : list (cond * list stmt) :=
  [
  (IS_DIST "UML_ATA" ||| IS_DIST "UML_ATA_OSIP" ||| IS_DIST "UML_ATA_VALGRIND" ||| IS_DIST "UML_ATA_OSIP_VALGRIND", [
    set_hw "UML";
    token_set_y 4819 "CONFIG_RG_SMB";
    enable_module 4822 "MODULE_RG_FOUNDATION";
    enable_module 4823 "MODULE_RG_UPNP";
    enable_module 4824 "MODULE_RG_PPP";
    enable_module 4825 "MODULE_RG_FIREWALL_AND_SECURITY";
    enable_module 4826 "MODULE_RG_ADVANCED_MANAGEMENT";
    enable_module 4827 "MODULE_RG_IPSEC";
    enable_module 4828 "MODULE_RG_PPTP";
    enable_module 4829 "MODULE_RG_SNMP";
    enable_module 4833 "MODULE_RG_IPV6";
    enable_module 4834 "MODULE_RG_VLAN";
    enable_module 4835 "MODULE_RG_ADVANCED_ROUTING";
    enable_module 4836 "MODULE_RG_L2TP";
    enable_module 4837 "MODULE_RG_URL_FILTERING";
    IfElse (IS_DIST "UML_ATA_OSIP" ||| IS_DIST "UML_ATA_OSIP_VALGRIND") [
      enable_module 4841 "MODULE_RG_VOIP_OSIP" ]
    [
      enable_module 4845 "MODULE_RG_VOIP_ASTERISK_SIP";
      enable_module 4846 "MODULE_RG_VOIP_ASTERISK_H323";
      token_set_y 4847 "CONFIG_UCLIBCXX";
      token_set_y 4848 "CONFIG_UML_BIG_FLASH" ];
    token_set_y 4852 "CONFIG_HW_ETH_WAN";
    token_set_y 4853 "CONFIG_HW_ETH_LAN";
    enable_module 4854 "CONFIG_HW_DSP";
    If (IS_DIST "UML_ATA_VALGRIND" ||| IS_DIST "UML_ATA_OSIP_VALGRIND") [
      token_set_y 4857 "CONFIG_VALGRIND" ];
    enable_module 4860 "MODULE_RG_ATA";
    token_set_y 4861 "CONFIG_RG_VOIP_HW_EMULATION";
    token_set_y 4862 "CONFIG_RG_DYN_FLASH_LAYOUT" ]);
  (IS_DIST "RGTV", [
    set_hw "PUNDIT";
    token_set_y 4869 "CONFIG_LSP_DIST";
    token_set_y 4871 "CONFIG_GLIBC";
    token_set_y 4872 "CONFIG_RGTV";
    token_set_m 4874 "CONFIG_SOUND_ICH";
    token_set_y 4875 "CONFIG_VIDEO_DEV";
    token_set_m 4876 "CONFIG_SMB_FS";
    token_set_y 4877 "CONFIG_NLS";
    token_set_y 4878 "CONFIG_NLS_DEFAULT";
    token_set_y 4879 "CONFIG_BLK_DEV_SIS5513";
    token_set_m 4880 "CONFIG_B44" ]);
  (IS_DIST "FULL", [
    token_set_y 4884 "CONFIG_RG_SMB";
    enable_module 4887 "MODULE_RG_FOUNDATION";
    enable_module 4888 "MODULE_RG_UPNP";
    enable_module 4889 "MODULE_RG_PPP";
    enable_module 4890 "MODULE_RG_FIREWALL_AND_SECURITY";
    enable_module 4891 "MODULE_RG_ADVANCED_MANAGEMENT";
    enable_module 4892 "MODULE_RG_IPSEC";
    enable_module 4893 "MODULE_RG_PPTP";
    enable_module 4894 "MODULE_RG_SNMP";
    enable_module 4895 "MODULE_RG_IPV6";
    enable_module 4896 "MODULE_RG_VLAN";
    enable_module 4897 "MODULE_RG_ADVANCED_ROUTING";
    enable_module 4898 "MODULE_RG_L2TP";
    enable_module 4899 "MODULE_RG_URL_FILTERING";
    enable_module 4900 "MODULE_RG_VOIP_RV_SIP";
    enable_module 4901 "MODULE_RG_VOIP_RV_MGCP";
    enable_module 4902 "MODULE_RG_VOIP_RV_H323";
    enable_module 4903 "MODULE_RG_DSL";
    enable_module 4904 "MODULE_RG_FILESERVER";
    enable_module 4905 "MODULE_RG_PRINTSERVER";
    enable_module 4906 "MODULE_RG_WLAN_AND_ADVANCED_WLAN";
    enable_module 4907 "MODULE_RG_CABLEHOME";
    enable_module 4908 "MODULE_RG_VODSL" ]) ].

Definition distribution_arms : list (cond * list stmt) :=
  (distribution_arms_1 ++ distribution_arms_2 ++ distribution_arms_3 ++
    distribution_arms_4 ++ distribution_arms_5 ++ distribution_arms_6 ++
    distribution_arms_7 ++ distribution_arms_8 ++ distribution_arms_9 ++
    distribution_arms_10 ++ distribution_arms_11 ++ distribution_arms_12 ++
    distribution_arms_13 ++ distribution_arms_14 ++ distribution_arms_15 ++
    distribution_arms_16 ++ distribution_arms_17 ++ distribution_arms_18 ++
    distribution_arms_19 ++ distribution_arms_20 ++ distribution_arms_21 ++
    distribution_arms_22 ++ distribution_arms_23 ++ distribution_arms_24 ++
    distribution_arms_25 ++ distribution_arms_26 ++ distribution_arms_27 ++
    distribution_arms_28 ++ distribution_arms_29 ++ distribution_arms_30 ++
    distribution_arms_31 ++ distribution_arms_32)%list.

(** [conf_err("invalid DIST=%s", dist)]. *)
Definition invalid_dist : stmt := fun s => Exit (InvalidDist (default "" (dist s))) s.

(** [hw && strcmp(hw, "JPKG") && !( *os)]. *)
Definition needs_os : cond := fun s =>
  Ok (match hw s with Some h => negb (h =? "JPKG")%string && (os s =? "")%string | None => false end) s.

Definition dist_set : cond := fun s => Ok (bool_decide (is_Some (dist s))) s.

Definition distribution_features : stmt := block [
  If (notc dist_set) [ conf_err NoDist ];
  Elif distribution_arms [ invalid_dist ];
  If needs_os [ set_os "LINUX_24" ];
  set_dist_text 4916 "CONFIG_RG_DIST" ].

End DistConfig.
