(* ===== verification/FeatureConfig.v ===== *)
(** * FeatureConfig: the configuration rules of feature_config.c

    [package_features], [general_features] and [openrg_features] of
    pkg/build/feature_config.c, statement by statement, in a CONFIG_RG_GPL build
    (where [dev_add] and its relatives expand to nothing).  A function longer
    than a page is cut into consecutive pieces, each a list of statements with
    the lines it translates; the function is the block of its pieces, so the
    order of the statements is the order of the source.  The number after
    [token_set] and its relatives is the source line the macros pass on. *)
From S2P Require Import Prelude ConfigOpt Licence Rules.

(** The macros of create_config.h, with the file name fixed. *)
Abbreviation token_set L tok v := (_token_set FEATURE_CONFIG_C L SET_PRIO_TOKEN_SET tok v []).
Abbreviation token_set_y := (_token_set_y FEATURE_CONFIG_C).
Abbreviation token_set_m := (_token_set_m FEATURE_CONFIG_C).
Abbreviation set_big_endian := (_set_big_endian FEATURE_CONFIG_C).
Abbreviation set_args := (set_args FEATURE_CONFIG_C).
Abbreviation set_copy := (set_copy FEATURE_CONFIG_C).
Abbreviation set_cmd_line := (set_cmd_line FEATURE_CONFIG_C).

Section FeatureConfig.
Context (is_feature_enabled : string -> bool).
#[local] Abbreviation enable_module := (_enable_module is_feature_enabled FEATURE_CONFIG_C).

(** feature_config.c:109-161 *)
Definition package_features_1 : list stmt :=
  [
  If (isset "PACKAGE_OPENRG_SOHO_GATEWAY") [
    token_set_y 111 "MODULE_RG_FOUNDATION";
    token_set_y 112 "MODULE_RG_ADVANCED_MANAGEMENT";
    token_set_y 113 "MODULE_RG_SNMP";
    token_set_y 114 "MODULE_RG_UPNP";
    token_set_y 115 "MODULE_RG_ADVANCED_ROUTING";
    token_set_y 116 "MODULE_RG_FIREWALL_AND_SECURITY";
    token_set_y 117 "MODULE_RG_WLAN_AND_ADVANCED_WLAN";
    token_set_y 118 "MODULE_RG_PPTP";
    token_set_y 119 "MODULE_RG_IPSEC";
    token_set_y 120 "MODULE_RG_L2TP";
    token_set_y 121 "MODULE_RG_FILESERVER";
    token_set_y 122 "MODULE_RG_PRINTSERVER";
    token_set_y 123 "CONFIG_RG_SMB" ];
  If (isset "PACKAGE_OPENRG_VPN_GATEWAY") [
    token_set_y 128 "MODULE_RG_FOUNDATION";
    token_set_y 129 "MODULE_RG_ADVANCED_MANAGEMENT";
    token_set_y 130 "MODULE_RG_SNMP";
    token_set_y 131 "MODULE_RG_UPNP";
    token_set_y 132 "MODULE_RG_ADVANCED_ROUTING";
    token_set_y 133 "MODULE_RG_FIREWALL_AND_SECURITY";
    token_set_y 134 "MODULE_RG_WLAN_AND_ADVANCED_WLAN";
    token_set_y 135 "MODULE_RG_PPTP";
    token_set_y 136 "MODULE_RG_IPSEC";
    token_set_y 137 "MODULE_RG_L2TP" ];
  If (isset "PACKAGE_OPENRG_SECURITY_GATEWAY") [
    token_set_y 142 "MODULE_RG_FOUNDATION";
    token_set_y 143 "MODULE_RG_ADVANCED_MANAGEMENT";
    token_set_y 144 "MODULE_RG_SNMP";
    token_set_y 145 "MODULE_RG_UPNP";
    token_set_y 146 "MODULE_RG_ADVANCED_ROUTING";
    token_set_y 147 "MODULE_RG_FIREWALL_AND_SECURITY";
    token_set_y 148 "MODULE_RG_WLAN_AND_ADVANCED_WLAN" ];
  If (isset "PACKAGE_OPENRG_BASIC_GATEWAY") [
    token_set_y 159 "MODULE_RG_FOUNDATION";
    token_set_y 160 "MODULE_RG_ADVANCED_MANAGEMENT" ] ].

Definition package_features : stmt := block package_features_1.

(** feature_config.c:166-242 *)
Definition general_features_1 : list stmt :=
  [
  If (isset "CONFIG_RG_MTD_DEFAULT_PARTITION" &&& notc (isset "CONFIG_RG_MTD")) [
    token_set_m 169 "CONFIG_RG_MTD" ];
  If (isset "MODULE_RG_SNMP") [
    token_set_y 174 "CONFIG_RG_UCD_SNMP";
    token_set_y 175 "CONFIG_RG_UCD_SNMP_V3" ];
  If (isset "MODULE_RG_UPNP") [
    token_set_y 179 "CONFIG_RG_IGD" ];
  If (isset "MODULE_RG_ADVANCED_ROUTING") [
    token_set_y 183 "CONFIG_RG_RIP";
    token_set_y 184 "CONFIG_RG_DNS_CONCURRENT";
    If (notc (isset "CONFIG_RG_OS_VXWORKS")) [
      token_set_y 187 "CONFIG_RG_DNS_DOMAIN_ROUTING";
      token_set_y 188 "CONFIG_RG_TUNNELS" ] ];
  If (isset "CONFIG_RG_TUNNELS") [
    token_set_y 194 "CONFIG_INET_TUNNEL";
    token_set_y 195 "CONFIG_NET_IPIP";
    token_set_y 196 "CONFIG_NET_IPGRE" ];
  If (isset "CONFIG_RG_DNS_DOMAIN_ROUTING") [
    token_set_y 200 "CONFIG_RG_DNS_ROUTE" ];
  If (isset "MODULE_RG_FIREWALL_AND_SECURITY") [
    token_set_y 204 "CONFIG_RG_RNAT";
    token_set_y 205 "CONFIG_RG_FIREWALL";
    token_set_y 208 "CONFIG_RG_TODC" ];
  If (isset "MODULE_RG_WLAN_AND_ADVANCED_WLAN") [
    If (notc (isset "CONFIG_RG_VENDOR_WLAN_SEC")) [
      token_set_y 215 "CONFIG_RG_8021X_MD5";
      token_set_y 216 "CONFIG_RG_8021X_TLS";
      token_set_y 217 "CONFIG_RG_8021X_TTLS";
      token_set_y 218 "CONFIG_RG_8021X_RADIUS";
      token_set_y 219 "CONFIG_RG_WPA";
      token_set_y 220 "CONFIG_RG_WEP" ];
    If (notc (has_str "CONFIG_RG_SSID_NAME")) [
      token_set 223 "CONFIG_RG_SSID_NAME" "openrg" ] ];
  If (isset "MODULE_RG_CABLEHOME") [
    token_set_y 228 "CONFIG_RG_CABLEHOME_11";
    token_set_y 229 "CONFIG_RG_CABLEHOME";
    token_set_y 230 "CONFIG_RG_CABLEHOME_EMBEDDED" ];
  If (isset "MODULE_RG_BLUETOOTH") [
    token_set_y 234 "CONFIG_RG_BLUETOOTH" ];
  token_set_y 236 "CONFIG_RG_LICENSE";
  If (isset "MODULE_RG_FOUNDATION" ||| isset "CONFIG_RG_RGLOADER") [
    If (notc (isset "CONFIG_RG_OS_VXWORKS")) [
      token_set_y 241 "CONFIG_RG_IPROUTE2" ] ] ].

(** feature_config.c:244-344 *)
Definition general_features_2 : list stmt :=
  [
  If (isset "MODULE_RG_FOUNDATION") [
    token_set_y 246 "CONFIG_RG_FOUNDATION_CORE";
    token_set_y 248 "CONFIG_RG_CHECK_BAD_REBOOTS";
    token_set_y 251 "CONFIG_RG_DHCPS";
    token_set_y 252 "CONFIG_AUTO_LEARN_DNS";
    token_set_y 255 "CONFIG_RG_DHCPR";
    token_set_y 258 "CONFIG_RG_TELNETS";
    token_set_m 261 "CONFIG_RG_BRIDGE";
    token_set_y 264 "CONFIG_RG_NAT";
    token_set_y 267 "CONFIG_RG_ALG";
    token_set_y 268 "CONFIG_RG_ALG_SIP";
    token_set_y 269 "CONFIG_RG_ALG_MGCP";
    token_set_y 270 "CONFIG_RG_ALG_H323";
    token_set_y 271 "CONFIG_RG_ALG_AIM";
    token_set_y 272 "CONFIG_RG_ALG_MSNMS";
    token_set_y 273 "CONFIG_RG_ALG_PPTP";
    token_set_y 274 "CONFIG_RG_ALG_IPSEC";
    token_set_y 275 "CONFIG_RG_ALG_L2TP";
    token_set_y 276 "CONFIG_RG_ALG_ICMP";
    token_set_y 277 "CONFIG_RG_ALG_PORT_TRIGGER";
    token_set_y 278 "CONFIG_RG_ALG_FTP";
    token_set_y 279 "CONFIG_RG_ALG_RTSP";
    token_set_m 281 "CONFIG_RG_PPPOE_RELAY";
    token_set_m 284 "CONFIG_RG_MSS";
    token_set_y 288 "CONFIG_RG_RMT_MNG";
    token_set_y 289 "CONFIG_RG_OSS_RMT";
    If (notc (isset "CONFIG_RG_OS_VXWORKS")) [
      token_set_y 295 "CONFIG_RG_STATIC_ROUTE";
      If (notc (isset "CONFIG_RG_CABLEHOME_11") &&&
          notc (isset "CONFIG_ATHEROS_ART_TOOLS")) [
        token_set_m 297 "CONFIG_RG_IGMP_PROXY" ] ];
    If (notc (isset "CONFIG_KS8695_COMMON") &&& notc (isset "CONFIG_BCM963XX_COMMON")) [
      token_set_y 305 "CONFIG_RG_KGDB" ];
    token_set_y 307 "CONFIG_RG_PING";
    token_set_y 308 "CONFIG_RG_TRACEROUTE";
    If (notc (isset "CONFIG_RG_ADV_SERVICES_LEVEL")) [
      token_set 312 "CONFIG_RG_ADV_SERVICES_LEVEL" "2" ];
    If (notc (isset "CONFIG_RG_CABLEHOME_11") &&& isset "CONFIG_RG_OS_VXWORKS") [
      token_set_y 318 "CONFIG_RG_MCAST_RELAY" ];
    If (notc (isset "CONFIG_RG_CABLEHOME_11")) [
      token_set_y 324 "CONFIG_RG_ALG_DNS";
      token_set_y 325 "CONFIG_RG_ALG_DHCP" ];
    token_set_y 329 "CONFIG_RG_WBM";
    token_set_y 330 "CONFIG_RG_TZ_COMMON";
    token_set_y 333 "CONFIG_ZC_IP_AUTO_DETECTION" ] ].

(** feature_config.c:346-490 *)
Definition general_features_3 : list stmt :=
  [
  If (isset "CONFIG_RG_FOUNDATION_CORE") [
    token_set_y 348 "CONFIG_OPENRG";
    token_set_y 351 "CONFIG_RG_LANG";
    token_set_m 358 "CONFIG_RG_KOS";
    token_set_y 359 "CONFIG_RG_KOS_KNET";
    token_set_y 362 "CONFIG_RG_CLI";
    token_set_y 363 "CONFIG_RG_RGLOADER_CLI_CMD";
    token_set_y 364 "CONFIG_RG_LOGIN";
    If (notc (isset "CONFIG_RG_OS_VXWORKS")) [
      token_set_y 366 "CONFIG_RGLOADER_CLI" ];
    token_set_y 367 "CONFIG_RG_CONFIG_STRINGS";
    token_set_y 370 "CONFIG_RG_DNS";
    token_set_y 371 "CONFIG_RG_ERESOLV";
    token_set_y 374 "CONFIG_RG_TODC";
    token_set_y 378 "CONFIG_RG_DDNS";
    token_set_y 382 "CONFIG_RG_DHCPC";
    If (notc (isset "CONFIG_HW_CABLE_WAN")) [
      token_set_y 387 "CONFIG_RG_LAN_UPGRADE";
      token_set_y 388 "CONFIG_RG_WAN_UPGRADE";
      token_set_y 389 "CONFIG_RG_RMT_UPDATE" ];
    If (notc (isset "CONFIG_RG_OS_VXWORKS")) [
      token_set_y 393 "CONFIG_RG_SYSINIT" ];
    If (notc (isset "CONFIG_I386_BOCHS")) [
      token_set_y 396 "CONFIG_RG_PERM_STORAGE" ];
    token_set_y 398 "CONFIG_RG_CHRDEV";
    If (notc (isset "CONFIG_RG_OS_VXWORKS")) [
      token_set_y 402 "CONFIG_RG_BUSYBOX" ];
    token_set_y 405 "CONFIG_RG_MAC_CLONING";
    token_set_m 408 "CONFIG_RG_IPV4" ];
  If (isset "MODULE_RG_ADVANCED_MANAGEMENT") [
    token_set_y 428 "CONFIG_RG_SSL";
    token_set_y 436 "CONFIG_RG_EVENT_LOGGING" ];
  If (isset "MODULE_RG_PPTP") [
    token_set_y 446 "CONFIG_RG_PPTPC";
    token_set_y 447 "CONFIG_RG_PPTPS";
    token_set_y 448 "CONFIG_RG_PPP_MPPE";
    token_set_m 449 "CONFIG_RG_PPP" ];
  If (isset "MODULE_RG_PPP") [
    token_set_m 454 "CONFIG_RG_PPP";
    token_set_y 455 "CONFIG_RG_PPPOE";
    token_set_y 456 "CONFIG_RG_PPPOS";
    If (notc (isset "CONFIG_RG_OS_VXWORKS")) [
      token_set_y 460 "CONFIG_RG_PPP_DEFLATE";
      token_set_y 461 "CONFIG_RG_PPP_BSDCOMP" ];
    If (isset "CONFIG_ATM" &&& notc (isset "CONFIG_RG_OS_LINUX_26")) [
      token_set_m 465 "CONFIG_RG_PPPOA" ];
    If (notc (has_str "CONFIG_RG_PPP_ON_DEMAND_DEFAULT_MAX_IDLE_TIME")) [
      token_set 469 "CONFIG_RG_PPP_ON_DEMAND_DEFAULT_MAX_IDLE_TIME" "1200" ];
    If (notc (has_str "CONFIG_RG_PPP_DEFAULT_BSD_COMPRESSION")) [
      token_set 479 "CONFIG_RG_PPP_DEFAULT_BSD_COMPRESSION" "1" ];
    If (notc (has_str "CONFIG_RG_PPP_DEFAULT_DEFLATE_COMPRESSION")) [
      token_set 488 "CONFIG_RG_PPP_DEFAULT_DEFLATE_COMPRESSION" "1" ] ] ].

(** feature_config.c:492-638 *)
Definition general_features_4 : list stmt :=
  [
  If (isset "MODULE_RG_DSL") [
    token_set_y 494 "CONFIG_ATM";
    token_set_y 495 "CONFIG_ATM_PVC_SCAN";
    If (notc (isset "CONFIG_ARCH_SOLOS")) [
      token_set_y 498 "CONFIG_RG_OAM_PING" ];
    token_set_y 500 "CONFIG_ATM_SKB";
    token_set_y 501 "CONFIG_ATM_BR2684";
    If (isset "CONFIG_RG_PPP") [
      token_set_m 503 "CONFIG_RG_PPPOA" ];
    If (notc (isset "CONFIG_RG_OS_LINUX_26")) [
      token_set_y 505 "CONFIG_ATM_CLIP" ] ];
  If (isset "MODULE_RG_IPV6") [
    token_set_y 510 "CONFIG_RG_IPV6" ];
  If (isset "MODULE_RG_VLAN") [
    If (notc (isset "CONFIG_HW_SWITCH_LAN") &&& notc (isset "CONFIG_HW_SWITCH_WAN")) [
      token_set_y 517 "CONFIG_RG_VLAN_BRIDGE" ];
    If (notc (isset "CONFIG_RG_OS_VXWORKS")) [
      token_set_y 521 "CONFIG_RG_8021Q_IF" ] ];
  If (isset "MODULE_RG_PRINTSERVER") [
    token_set_y 526 "CONFIG_RG_PRINT_SERVER";
    token_set_y 527 "CONFIG_RG_IPP";
    token_set_y 528 "CONFIG_RG_LPD" ];
  If (isset "MODULE_RG_ADVANCED_OFFICE_SERVERS") [
    enable_module 533 "CONFIG_RG_MAIL_SERVER";
    enable_module 534 "CONFIG_RG_WEB_SERVER";
    enable_module 535 "CONFIG_RG_FTP_SERVER";
    token_set_y 536 "CONFIG_RG_DISK_MNG" ];
  If (isset "MODULE_RG_FILESERVER") [
    enable_module 541 "CONFIG_RG_FS_BACKUP";
    token_set_y 543 "CONFIG_RG_DISK_MNG";
    token_set_y 544 "CONFIG_RG_FILESERVER";
    token_set_y 545 "CONFIG_RG_SAMBA";
    If (isset "MODULE_RG_PRINTSERVER") [
      token_set_y 548 "CONFIG_RG_SAMBA_PRINTING" ];
    If (isset "MODULE_RG_ADVANCED_OFFICE_SERVERS") [
      token_set_y 552 "CONFIG_RG_WINS_SERVER";
      token_set_y 553 "CONFIG_RG_FILESERVER_ACLS" ];
    If (isset "CONFIG_RG_FILESERVER_ACLS") [
      token_set_y 559 "CONFIG_FS_POSIX_ACL";
      token_set_y 562 "CONFIG_EXT2_FS_POSIX_ACL";
      token_set_y 563 "CONFIG_EXT2_FS_XATTR";
      token_set_y 564 "CONFIG_EXT2_FS_XATTR_SHARING";
      token_set_y 567 "CONFIG_EXT3_FS_POSIX_ACL";
      token_set_y 568 "CONFIG_EXT3_FS_XATTR";
      token_set_y 569 "CONFIG_EXT3_FS_XATTR_SHARING";
      token_set_y 572 "CONFIG_FS_MBCACHE" ] ];
  If (isset "CONFIG_RG_DISK_MNG") [
    token_set_y 578 "CONFIG_RG_STORAGE";
    token_set_y 579 "CONFIG_EXT3_FS";
    token_set_y 580 "CONFIG_JBD";
    If (isset "CONFIG_RG_JPKG" |||
        notc (isset "CONFIG_HW_FIREWIRE_STORAGE") &&&
        notc (isset "CONFIG_HW_USB_STORAGE") &&&
        notc (isset "CONFIG_RG_UML")) [
      token_set_y 586 "CONFIG_FILESERVER_KERNEL_CONFIG" ];
    If (isset "CONFIG_RG_RAID") [
      token_set_y 591 "CONFIG_MD";
      token_set_y 592 "CONFIG_BLK_DEV_MD";
      token_set_y 593 "CONFIG_MD_RAID0";
      token_set_y 594 "CONFIG_MD_RAID1";
      token_set_y 595 "CONFIG_MD_RAID5" ] ];
  If (isset "MODULE_RG_IPSEC") [
    token_set_y 600 "CONFIG_FREESWAN" ];
  If (isset "MODULE_RG_L2TP") [
    token_set_y 604 "CONFIG_RG_L2TPC";
    token_set_y 605 "CONFIG_RG_L2TPS";
    token_set_y 606 "CONFIG_RG_PPP_MPPE";
    token_set_m 607 "CONFIG_RG_PPP" ];
  If (isset "MODULE_RG_ATA") [
    token_set_y 611 "CONFIG_RG_ATA" ];
  If (isset "MODULE_RG_PBX") [
    token_set_y 614 "CONFIG_RG_PBX" ];
  If (isset "MODULE_RG_VOIP_RV_SIP") [
    token_set_y 617 "CONFIG_RG_VOIP_RV_SIP" ];
  If (isset "MODULE_RG_VOIP_RV_H323") [
    token_set_y 620 "CONFIG_RG_VOIP_RV_H323" ];
  If (isset "MODULE_RG_VOIP_RV_MGCP") [
    token_set_y 623 "CONFIG_RG_VOIP_RV_MGCP" ];
  If (isset "MODULE_RG_VOIP_ASTERISK_SIP") [
    token_set_y 626 "CONFIG_RG_VOIP_ASTERISK_SIP" ];
  If (isset "MODULE_RG_VOIP_ASTERISK_H323") [
    token_set_y 629 "CONFIG_RG_VOIP_ASTERISK_H323" ];
  If (isset "MODULE_RG_VOIP_ASTERISK_MGCP_GW") [
    token_set_y 632 "CONFIG_RG_VOIP_ASTERISK_MGCP_GW" ];
  If (isset "MODULE_RG_VOIP_ASTERISK_MGCP_CALL_AGENT") [
    token_set_y 635 "CONFIG_RG_VOIP_ASTERISK_MGCP_CALL_AGENT" ];
  If (isset "MODULE_RG_VOIP_OSIP") [
    token_set_y 638 "CONFIG_RG_VOIP_OSIP" ] ].

(** feature_config.c:640-745 *)
Definition general_features_5 : list stmt :=
  [
  If (isset "MODULE_RG_URL_FILTERING") [
    token_set_y 642 "CONFIG_RG_SURFCONTROL";
    token_set_y 643 "CONFIG_RG_URL_KEYWORD_FILTER" ];
  If (isset "MODULE_RG_QOS") [
    token_set_y 647 "CONFIG_RG_QOS" ];
  If (isset "MODULE_RG_ROUTE_MULTIWAN") [
    token_set_y 650 "CONFIG_RG_ROUTE_MULTIWAN" ];
  If (isset "MODULE_RG_DSLHOME") [
    token_set_y 654 "CONFIG_RG_DSLHOME";
    token_set_y 655 "CONFIG_RG_DSLHOME_VOUCHERS";
    If (isset "CONFIG_RG_JPKG" ||| get_gt "CONFIG_RG_ADV_SERVICES_LEVEL" 1) [
      token_set_y 661 "CONFIG_RG_DSLHOME_VOUCHERS" ] ];
  If (isset "MODULE_RG_TR_098") [
    assert_dep "MODULE_RG_TR_098" ["CONFIG_RG_DSLHOME"; "CONFIG_RG_QOS"];
    token_set_y 669 "CONFIG_RG_TR_098" ];
  If (isset "CONFIG_RG_DSLHOME_VOUCHERS") [
    assert_dep "CONFIG_RG_DSLHOME_VOUCHERS" ["CONFIG_RG_DSLHOME"];
    token_set_y 675 "CONFIG_RG_OPTION_MANAGER" ];
  If (isset "CONFIG_RG_OPTION_MANAGER") [
    token_set_y 680 "CONFIG_RG_XMLSEC";
    token_set_y 681 "CONFIG_RG_XML2" ];
  If (isset "MODULE_RG_MAIL_FILTER") [
    token_set_y 685 "CONFIG_RG_MAIL_FILTER" ];
  If (isset "MODULE_RG_ZERO_CONFIGURATION_NETWORKING") [
    token_set_y 688 "CONFIG_ZERO_CONFIGURATION" ];
  If (isset "MODULE_RG_TR_064") [
    token_set_y 691 "CONFIG_RG_TR_064" ];
  If (isset "MODULE_RG_JVM") [
    token_set_y 694 "CONFIG_RG_KAFFE" ];
  If (isset "MODULE_RG_SSL_VPN") [
    token_set_y 698 "CONFIG_RG_SSL_VPN";
    token_set_y 699 "CONFIG_RG_XML";
    If (notc (isset "CONFIG_RG_SSL_VPN_SMALL_FLASH")) [
      token_set_y 704 "CONFIG_RG_WEB_CIFS" ] ];
  If (isset "CONFIG_NEW_NONE_PRICED_FEATURES") [
    token_set_y 713 "CONFIG_RG_PROXY_ARP";
    token_set_y 714 "CONFIG_RG_TFTP_UPGRADE";
    token_set_y 715 "CONFIG_RG_SSI_PAGES" ];
  If (isset "CONFIG_RG_GDBSERVER") [
    token_set_y 719 "CONFIG_RG_THREADS" ];
  If (isset "CONFIG_RG_IPROUTE2") [
    token_set_y 724 "CONFIG_IP_ADVANCED_ROUTER";
    token_set_y 726 "CONFIG_IP_ROUTE_MULTIPATH";
    token_set_y 728 "CONFIG_IP_ROUTE_VERBOSE";
    token_set_y 730 "CONFIG_IP_MULTIPLE_TABLES";
    token_set_y 732 "CONFIG_IP_ROUTE_TOS";
    If (isset "CONFIG_RG_ROUTE_MULTIWAN") [
      token_set_y 737 "CONFIG_RG_DSCP_POLICY_ROUTING";
      token_set_y 739 "CONFIG_RG_LOAD_BALANCING";
      token_set_y 741 "CONFIG_RG_FAILOVER" ];
    token_set_y 744 "CONFIG_ULIBC_DO_C99_MATH" ] ].

(** feature_config.c:747-890 *)
Definition general_features_6 : list stmt :=
  [
  If (isset "CONFIG_RG_IPROUTE2" &&& isset "CONFIG_RG_QOS") [
    token_set_y 749 "CONFIG_TOS_DSCP_RFC2474";
    token_set_y 751 "CONFIG_NETFILTER";
    token_set_y 753 "CONFIG_NET_SCHED";
    token_set_y 756 "CONFIG_NET_SCH_HTB";
    token_set_y 758 "CONFIG_NET_SCH_INGRESS";
    token_set_y 760 "CONFIG_NET_SCH_PRIO";
    token_set_y 762 "CONFIG_NET_SCH_RED";
    token_set_y 764 "CONFIG_NET_SCH_SFQ";
    token_set_y 766 "CONFIG_NET_SCH_DSMARK";
    token_set_y 768 "CONFIG_NET_QOS";
    token_set_y 770 "CONFIG_NET_ESTIMATOR";
    token_set_y 772 "CONFIG_NET_CLS";
    token_set_y 774 "CONFIG_NET_CLS_POLICE";
    token_set_y 776 "CONFIG_NET_CLS_TCINDEX";
    token_set_y 778 "CONFIG_NET_CLS_FW";
    token_set_y 780 "CONFIG_NET_CLS_U32";
    token_set_y 782 "CONFIG_NET_CLS_RSVP";
    token_set_y 784 "CONFIG_NET_CLS_RSVP6";
    If (isset "CONFIG_ATM") [
      token_set_y 788 "CONFIG_NET_SCH_ATM" ];
    token_set_y 791 "CONFIG_IP_ROUTE_FWMARK";
    token_set_m 794 "CONFIG_RG_QOS_INGRESS";
    If (isset "CONFIG_RG_VLAN_BRIDGE" ||| isset "CONFIG_RG_VLAN_8021Q") [
      token_set_y 799 "CONFIG_RG_VLAN_DSCP" ] ];
  If (isset "CONFIG_RG_WEB_CIFS") [
    token_set_y 806 "CONFIG_RG_SAMBA" ];
  If (isset "CONFIG_RG_MAIL_SERVER") [
    token_set_y 809 "CONFIG_RG_THREADS" ];
  If (isset "CONFIG_LSP_DIST") [
    token_set_y 812 "CONFIG_RG_BUSYBOX" ];
  If (isset "CONFIG_IPTABLES") [
    token_set_y 816 "CONFIG_NETFILTER";
    token_set_y 817 "CONFIG_IP_NF_FILTER";
    token_set_y 818 "CONFIG_IP_NF_IPTABLES";
    token_set_y 819 "CONFIG_IP_NF_CONNTRACK";
    token_set_y 820 "CONFIG_IP_NF_NAT_NEEDED";
    token_set_y 821 "CONFIG_IP_NF_NAT";
    token_set_y 822 "CONFIG_IP_NF_NAT_LOCAL";
    token_set_y 823 "CONFIG_IP_NF_TARGET_MASQUERADE";
    token_set_y 824 "CONFIG_IP_NF_CT_ACCT";
    token_set_y 825 "CONFIG_IP_NF_CONNTRACK_MARK";
    token_set_y 826 "CONFIG_NETFILTER_XTABLES";
    token_set_y 827 "CONFIG_NETFILTER_XT_TARGET_CLASSIFY";
    token_set_y 828 "CONFIG_NETFILTER_XT_TARGET_CONNMARK";
    token_set_y 829 "CONFIG_NETFILTER_XT_TARGET_MARK";
    token_set_y 830 "CONFIG_NETFILTER_XT_TARGET_NFQUEUE";
    token_set_y 831 "CONFIG_NETFILTER_XT_TARGET_NOTRACK";
    token_set_y 832 "CONFIG_NETFILTER_XT_MATCH_COMMENT";
    token_set_y 833 "CONFIG_NETFILTER_XT_MATCH_CONNBYTES";
    token_set_y 834 "CONFIG_NETFILTER_XT_MATCH_CONNMARK";
    token_set_y 835 "CONFIG_NETFILTER_XT_MATCH_CONNTRACK";
    token_set_y 836 "CONFIG_NETFILTER_XT_MATCH_DCCP";
    token_set_y 837 "CONFIG_NETFILTER_XT_MATCH_HELPER";
    token_set_y 838 "CONFIG_NETFILTER_XT_MATCH_LENGTH";
    token_set_y 839 "CONFIG_NETFILTER_XT_MATCH_LIMIT";
    token_set_y 840 "CONFIG_NETFILTER_XT_MATCH_MAC";
    token_set_y 841 "CONFIG_NETFILTER_XT_MATCH_MARK";
    token_set_y 842 "CONFIG_NETFILTER_XT_MATCH_PKTTYPE";
    token_set_y 843 "CONFIG_NETFILTER_XT_MATCH_REALM";
    token_set_y 844 "CONFIG_NETFILTER_XT_MATCH_SCTP";
    token_set_y 845 "CONFIG_NETFILTER_XT_MATCH_STATE";
    token_set_y 846 "CONFIG_NETFILTER_XT_MATCH_STRING";
    token_set_y 847 "CONFIG_NETFILTER_XT_MATCH_TCPMSS";
    token_set_y 848 "CONFIG_NETFILTER_XT_MATCH_PHYSDEV";
    token_set_y 849 "CONFIG_NET_CLS_ROUTE";
    token_set_y 850 "CONFIG_BRIDGE_NETFILTER";
    token_set_y 851 "CONFIG_TEXTSEARCH" ];
  If (notc (has_str "CONFIG_RG_CONSOLE_DEVICE")) [
    token_set 855 "CONFIG_RG_CONSOLE_DEVICE" "ttyS0" ];
  If (isset "CONFIG_RG_RADIUS_LOGIN_AUTH" ||| isset "CONFIG_RG_8021X_RADIUS") [
    token_set_y 860 "CONFIG_RG_RADIUS" ];
  If (isset "CONFIG_RG_PRINT_SERVER") [
    IfElse (isset "CONFIG_RG_UML") [
      token_set_y 866 "CONFIG_RG_PRINT_SERVER_PRINTER_NULL" ]
    [
      token_set_y 868 "CONFIG_USB_PRINTER" ];
    If (notc (isset "CONFIG_RG_PRINT_SERVER_SPOOL")) [
      token_set 871 "CONFIG_RG_PRINT_SERVER_SPOOL" "0" ] ];
  If (notc (isset "CONFIG_RG_DEV") &&& isset "CONFIG_RG_KOS_KNET") [
    token_set_m 875 "CONFIG_RG_ONE_MODULE" ];
  If (isset "CONFIG_RG_DEV") [
    If (notc (isset "CONFIG_ARMNOMMU")) [
      token_set_y 880 "CONFIG_FRAME_POINTER" ];
    token_set_y 881 "CONFIG_KALLSYMS";
    token_set_y 882 "CONFIG_DEBUG_SLAB";
    If (isset "CONFIG_RG_OS_LINUX_26") [
      token_set_y 885 "CONFIG_DEBUG_SPINLOCK_SLEEP";
      token_set_y 886 "CONFIG_DEBUG_INFO" ];
    token_set_y 888 "CONFIG_RG_IPROUTE2_UTILS";
    token_set_y 889 "CONFIG_RG_WIRELESS_TOOLS" ] ].

(** feature_config.c:892-981 *)
Definition general_features_7 : list stmt :=
  [
  If (IS_DIST "JPKG_I386") [
    token_set 894 "ARCH" "i386";
    token_set 895 "CONFIG_X86_L1_CACHE_SHIFT" "4";
    token_set 896 "LIBC_ARCH" "i386";
    token_set_y 897 "CONFIG_M386";
    token_set_y 898 "CONFIG_FLASH_IN_FILE";
    token_set_y 899 "CONFIG_HAS_MMU";
    token_set_y 900 "CONFIG_DYN_LINK";
    set_big_endian 901 false;
    token_set_y 902 "CONFIG_HW_CLOCK";
    token_set_y 903 "CONFIG_PROC_FS";
    token_set_y 904 "CONFIG_EXT2_FS";
    token_set_y 905 "CONFIG_BINFMT_ELF" ];
  If (IS_DIST "JPKG_UML") [
    token_set 910 "ARCH" "um";
    token_set 911 "CONFIG_X86_L1_CACHE_SHIFT" "4";
    token_set_y 912 "CONFIG_RG_GDBSERVER";
    token_set_m 913 "CONFIG_RG_KRGLDR";
    token_set 914 "LIBC_ARCH" "i386";
    token_set_y 915 "CONFIG_M386";
    token_set_y 916 "CONFIG_FLASH_IN_FILE";
    token_set_y 917 "CONFIG_HAS_MMU";
    token_set_y 918 "CONFIG_DYN_LINK";
    set_big_endian 919 false;
    token_set_y 920 "CONFIG_HW_CLOCK";
    token_set_y 921 "CONFIG_PROC_FS";
    token_set_y 922 "CONFIG_EXT2_FS";
    token_set_y 923 "CONFIG_BINFMT_ELF";
    token_set 927 "CONFIG_KERNEL_STACK_ORDER" "2";
    token_set_y 928 "CONFIG_RAMFS";
    token_set_y 929 "CONFIG_SIMPLE_RAMDISK";
    token_set 930 "CONFIG_RAMDISK_SIZE" "65536";
    token_set 931 "CONFIG_KERNEL_STACK_ORDER" "2";
    token_set_y 932 "CONFIG_MODE_TT";
    token_set_y 933 "CONFIG_MODE_SKAS";
    token_set 934 "CONFIG_NEST_LEVEL" "0";
    token_set 935 "CONFIG_CON_ZERO_CHAN" "fd:0,fd:1";
    token_set 936 "CONFIG_CON_CHAN" "xterm";
    token_set 937 "CONFIG_SSL_CHAN" "pty";
    token_set 938 "CONFIG_KERNEL_HALF_GIGS" "1";
    token_set_y 939 "CONFIG_PT_PROXY";
    token_set_y 940 "CONFIG_STDIO_CONSOLE";
    token_set_y 941 "CONFIG_SSL";
    token_set_y 942 "CONFIG_FD_CHAN";
    token_set_y 943 "CONFIG_NULL_CHAN";
    token_set_y 944 "CONFIG_PORT_CHAN";
    token_set_y 945 "CONFIG_PTY_CHAN";
    token_set_y 946 "CONFIG_TTY_CHAN";
    token_set_y 947 "CONFIG_XTERM_CHAN";
    token_set_y 948 "CONFIG_BLK_DEV_UBD";
    token_set_y 949 "CONFIG_BLK_DEV_NBD";
    token_set 950 "CONFIG_BLK_DEV_RAM_SIZE" "8192";
    token_set_y 951 "CONFIG_RG_INITFS_RAMDISK";
    token_set_y 952 "CONFIG_UML_NET";
    token_set_y 953 "CONFIG_UML_NET_ETHERTAP";
    token_set_y 954 "CONFIG_UML_NET_TUNTAP";
    token_set_y 955 "CONFIG_UML_NET_SLIP";
    token_set_y 956 "CONFIG_UML_NET_SLIRP";
    token_set_y 957 "CONFIG_UML_NET_DAEMON";
    token_set_y 958 "CONFIG_UML_NET_MCAST";
    token_set_y 959 "CONFIG_DUMMY";
    token_set_y 960 "CONFIG_TUN";
    token_set_y 961 "CONFIG_USERMODE";
    token_set_y 962 "CONFIG_UID16";
    token_set_y 963 "CONFIG_EXPERIMENTAL";
    token_set_y 964 "CONFIG_BSD_PROCESS_ACCT";
    token_set_y 965 "CONFIG_HOSTFS";
    token_set_y 966 "CONFIG_HPPFS";
    token_set_y 967 "CONFIG_MCONSOLE";
    token_set_y 968 "CONFIG_MAGIC_SYSRQ";
    token_set_y 969 "CONFIG_PROC_MM";
    token_set_y 970 "CONFIG_PACKET_MMAP";
    token_set_y 971 "CONFIG_QUOTA";
    token_set_y 972 "CONFIG_AUTOFS_FS";
    token_set_y 973 "CONFIG_AUTOFS4_FS";
    token_set_y 974 "CONFIG_REISERFS_FS";
    token_set_y 975 "CONFIG_MTD_BLKMTD";
    token_set_y 976 "CONFIG_ZLIB_INFLATE";
    token_set_y 977 "CONFIG_ZLIB_DEFLATE";
    token_set_y 978 "CONFIG_PT_PROXY";
    token_set_y 979 "CONFIG_RG_THREADS";
    token_set 980 "CONFIG_RG_KERNEL_COMP_METHOD" "gzip" ] ].

(** feature_config.c:984-1072 *)
Definition general_features_8 : list stmt :=
  [
  If (isset "CONFIG_RG_UML") [
    token_set 986 "BOARD" "UML";
    token_set_m 987 "CONFIG_RG_KRGLDR";
    token_set_y 988 "CONFIG_RG_GDBSERVER";
    token_set_y 989 "CONFIG_RG_DYN_FLASH_LAYOUT";
    If (isset "CONFIG_VALGRIND") [
      token_set_y 992 "CONFIG_UML_BIG_FLASH" ];
    If (os_is "LINUX_26") [
      token_set_y 996 "CONFIG_UID16";
      token_set_y 997 "CONFIG_SYSVIPC";
      token_set_y 998 "CONFIG_CLEAN_COMPILE";
      token_set_y 999 "CONFIG_BROKEN_ON_SMP";
      token_set_y 1000 "CONFIG_BASE_FULL";
      token_set_y 1001 "CONFIG_FUTEX";
      token_set_y 1002 "CONFIG_EPOLL";
      token_set_y 1003 "CONFIG_X86_XADD";
      token_set_y 1004 "CONFIG_BINFMT_MISC";
      token_set_y 1005 "CONFIG_STANDALONE";
      token_set_y 1006 "CONFIG_PREVENT_FIRMWARE_BUILD";
      token_set 1007 "CONFIG_BLK_DEV_RAM_COUNT" "16";
      token_set 1008 "CONFIG_NET_IPGRE" "m";
      token_set_y 1009 "CONFIG_NET_IPGRE_BROADCAST";
      token_set_y 1010 "CONFIG_ARCH_HAS_SC_SIGNALS";
      token_set 1011 "CONFIG_TOP_ADDR" "0xc0000000";
      token_set_y 1012 "CONFIG_ARCH_REUSE_HOST_VSYSCALL_AREA";
      token_set_y 1013 "CONFIG_LD_SCRIPT_STATIC";
      token_set_y 1014 "CONFIG_UML_REAL_TIME_CLOCK";
      token_set_y 1015 "CONFIG_NOCONFIG_CHAN";
      token_set_y 1016 "CONFIG_BLK_DEV_COW_COMMON";
      token_set_y 1017 "CONFIG_RWSEM_GENERIC_SPINLOCK";
      token_set_y 1018 "CONFIG_QUOTA";
      token_set_y 1019 "CONFIG_QUOTACTL";
      token_set_y 1020 "CONFIG_RG_TTYP";
      token_set 1021 "CONFIG_X86_L1_CACHE_SHIFT" "4";
      token_set_y 1024 "CONFIG_SWAP";
      token_set_y 1025 "CONFIG_IRQ_RELEASE_METHOD";
      token_set 1026 "UML_CONFIG_STUB_DATA" "0xbffff000";
      token_set 1027 "CONFIG_STUB_DATA" "0xbffff000";
      token_set 1028 "CONFIG_STUB_START" "0xbfffe000";
      token_set 1029 "CONFIG_STUB_CODE" "0xbfffe000";
      token_set_y 1031 "CONFIG_M386";
      token_set_y 1032 "CONFIG_RWSEM_GENERIC_SPINLOCK";
      token_set_y 1033 "CONFIG_X86_PPRO_FENCE";
      token_set_y 1034 "CONFIG_X86_F00F_BUG";
      token_set_y 1035 "CONFIG_SEMAPHORE_SLEEPERS";
      token_set_y 1036 "CONFIG_SELECT_MEMORY_MODEL";
      token_set_y 1037 "CONFIG_FLATMEM_MANUAL";
      token_set_y 1038 "CONFIG_FLATMEM";
      token_set_y 1039 "CONFIG_FLAT_NODE_MEM_MAP";
      token_set_y 1040 "CONFIG_FORCED_INLINING";
      token_set_y 1041 "CONFIG_UID16";
      token_set_y 1042 "CONFIG_CC_OPTIMIZE_FOR_SIZE";
      token_set_y 1043 "CONFIG_DEBUG_MUTEXES";
      token_set_y 1044 "CONFIG_DEFAULT_AS";
      token_set_y 1045 "CONFIG_DETECT_SOFTLOCKUP";
      token_set_y 1046 "CONFIG_INET_DIAG";
      token_set_y 1047 "CONFIG_INET_TCP_DIAG";
      token_set_y 1048 "CONFIG_IP_FIB_HASH";
      token_set_y 1049 "CONFIG_SLAB";
      token_set_y 1050 "CONFIG_TCP_CONG_BIC";
      token_set 1052 "CONFIG_DEFAULT_IOSCHED" (quoted "anticipatory");
      token_set 1053 "CONFIG_X86_L1_CACHE_SHIFT" "4";
      token_set 1054 "CONFIG_SPLIT_PTLOCK_CPUS" "4" ] ];
  If (isset "CONFIG_PCBOX" ||| isset "CONFIG_RG_UML") [
    token_set 1060 "LIBC_ARCH" "i386";
    token_set_y 1061 "CONFIG_M386";
    token_set_y 1062 "CONFIG_FLASH_IN_FILE";
    token_set_y 1063 "CONFIG_SYSCTL";
    token_set_y 1064 "CONFIG_HAS_MMU";
    If (notc (isset "CONFIG_RG_RGLOADER")) [
      token_set_y 1066 "CONFIG_DYN_LINK" ];
    set_big_endian 1067 false;
    token_set_y 1068 "CONFIG_BINFMT_ELF";
    token_set_y 1069 "CONFIG_HW_CLOCK";
    token_set_y 1070 "CONFIG_PROC_FS";
    token_set_y 1071 "CONFIG_EXT2_FS" ] ].

(** feature_config.c:1074-1221 *)
Definition general_features_9 : list stmt :=
  [
  If (isset "CONFIG_PCBOX") [
    token_set 1076 "BOARD" "PCBOX";
    token_set_y 1077 "CONFIG_RG_FLASHDISK";
    token_set 1078 "ARCH" "i386";
    token_set_y 1079 "CONFIG_SERIAL";
    token_set_y 1080 "CONFIG_SERIAL_CONSOLE";
    token_set 1081 "CONFIG_IMG_PRODUCT" (quoted "elf");
    If (notc (isset "CONFIG_GLIBC") &&& notc (isset "CONFIG_VALGRIND")) [
      token_set 1083 "CONFIG_RAM_LIMIT" "16" ];
    token_set_y 1084 "CONFIG_APM";
    token_set_y 1085 "CONFIG_APM_POWER_OFF";
    token_set_y 1086 "CONFIG_KEYBOARD";
    token_set_y 1087 "CONFIG_M386";
    token_set_y 1088 "CONFIG_BLK_DEV_IDE";
    token_set_y 1089 "CONFIG_BLK_DEV_IDEDISK";
    token_set_y 1090 "CONFIG_BLK_DEV_IDEPCI";
    token_set_y 1091 "CONFIG_BLK_DEV_IDEDMA";
    token_set_y 1092 "CONFIG_BLK_DEV_VIA82CXXX";
    token_set_y 1093 "CONFIG_IDEDMA_AUTO";
    token_set_y 1094 "CONFIG_NET_ISA";
    token_set_y 1095 "CONFIG_PCI";
    token_set_y 1096 "CONFIG_PCI_BIOS";
    token_set_y 1097 "CONFIG_PCI_DIRECT";
    token_set_y 1098 "CONFIG_PCI_GOANY";
    token_set_y 1099 "CONFIG_PCI_OLD_PROC";
    token_set_y 1100 "CONFIG_PCI_QUIRKS";
    token_set_y 1101 "CONFIG_RTC";
    token_set 1102 "CONFIG_FLASH_FSTYPE" (quoted "ext2");
    token_set 1103 "CONFIG_RAMDISK_SIZE" "256";
    token_set 1104 "CONFIG_UNIX98_PTY_COUNT" "256";
    token_set_y 1105 "CONFIG_UNIX98_PTYS";
    token_set_y 1106 "CONFIG_BLK_DEV_LOOP";
    token_set_y 1107 "CONFIG_RG_KMONTE";
    token_set_y 1108 "CONFIG_SAVE_REAL_MODE_CONF";
    token_set_y 1109 "CONFIG_RG_INITFS_RAMDISK";
    token_set 1110 "CONFIG_RG_KERNEL_COMP_METHOD" "gzip";
    token_set_m 1111 "CONFIG_ZAPTEL";
    token_set 1112 "CONFIG_HW_NUMBER_OF_FXS_PORTS" "2";
    If (os_is "LINUX_24") [
      token_set_y 1117 "CONFIG_BLK_DEV_IDEDMA_PCI";
      token_set_y 1120 "CONFIG_X86";
      token_set_y 1121 "CONFIG_X86_PPRO_FENCE";
      token_set 1122 "CONFIG_X86_L1_CACHE_SHIFT" "4";
      token_set_y 1123 "CONFIG_IDE";
      token_set 1124 "CONFIG_INITRD_ADDR" "0x400000";
      token_set_y 1125 "CONFIG_PM";
      token_set_y 1126 "CONFIG_MSDOS_PARTITION";
      IfElse (isset "CONFIG_RGTV") [
        token_set 1129 "CONFIG_BLK_DEV_RAM_SIZE" "52768";
        token_set 1130 "CONFIG_RAMDISK_SIZE" "52768" ]
      [
        IfElse (isset "CONFIG_VALGRIND") [
          token_set 1134 "CONFIG_BLK_DEV_RAM_SIZE" "32768";
          token_set 1135 "CONFIG_RAMDISK_SIZE" "32768" ]
        [
          token_set 1139 "CONFIG_BLK_DEV_RAM_SIZE" "9216";
          token_set 1140 "CONFIG_RAMDISK_SIZE" "9216" ] ];
      token_set_y 1142 "CONFIG_RAMFS";
      token_set_y 1143 "CONFIG_SIMPLE_RAMDISK";
      IfElse (isset "CONFIG_RG_KGDB") [
        token_set 1146 "CONFIG_CMDLINE" "root=/dev/ram0 rw console=ttyS0,38400n8 gdbttyS=1 gdbbaud=115200" ]
      [
        token_set 1152 "CONFIG_CMDLINE" "root=/dev/ram0 rw console=ttyS0,38400n8" ];
      token_set_y 1156 "CONFIG_BLK_DEV_CS5530" ] ];
  If (notc (isset "CONFIG_RELEASE")) [
    token_set_y 1162 "CONFIG_DEF_KEYS" ];
  If (isset "CONFIG_MPC8272ADS") [
    token_set_y 1169 "CONFIG_PPC";
    token_set_y 1173 "CONFIG_CPM2";
    token_set_y 1174 "CONFIG_8272";
    token_set_y 1175 "CONFIG_8260";
    token_set_y 1176 "CONFIG_PQ2ADS";
    token_set_y 1177 "CONFIG_ADS8272";
    token_set_y 1178 "CONFIG_HIGHMEM";
    token_set_m 1182 "CONFIG_RG_MTD";
    token_set_y 1183 "CONFIG_RG_MTD_DEFAULT_PARTITION";
    token_set_y 1184 "CONFIG_MTD";
    token_set_y 1185 "CONFIG_MTD_CFI_I4";
    token_set_y 1186 "CONFIG_MTD_MAP_BANK_WIDTH_4";
    token_set 1187 "CONFIG_MTD_PHYSMAP_BANKWIDTH" "4";
    token_set 1188 "CONFIG_MTD_PHYSMAP_LEN" "0x800000";
    token_set 1189 "CONFIG_MTD_PHYSMAP_START" "0xFF800000";
    token_set_y 1193 "CONFIG_SERIAL_CORE";
    token_set_y 1194 "CONFIG_SERIAL_CORE_CONSOLE";
    token_set_y 1195 "CONFIG_SERIAL_CPM";
    token_set_y 1196 "CONFIG_SERIAL_CPM_SCC1";
    token_set_y 1197 "CONFIG_SERIAL_CPM_SCC4";
    token_set_y 1198 "CONFIG_SERIAL_CPM_CONSOLE";
    token_set_y 1202 "CONFIG_PCI_8260";
    token_set_y 1206 "CONFIG_RG_INITFS_RAMFS";
    token_set_y 1207 "CONFIG_RG_MAINFS_CRAMFS";
    If (notc (isset "CONFIG_LSP_DIST")) [
      token_set_y 1210 "CONFIG_RG_MODFS_CRAMFS" ];
    token_set 1212 "CONFIG_SPLIT_PTLOCK_CPUS" "4";
    token_set_y 1214 "CONFIG_HZ_250";
    token_set 1215 "CONFIG_HZ" "250";
    token_set_y 1216 "CONFIG_FLATMEM";
    token_set_y 1217 "CONFIG_FLAT_NODE_MEM_MAP";
    If (isset "CONFIG_LSP_DIST") [
      token_set_y 1220 "CONFIG_LSP_FLASH_LAYOUT" ] ] ].

(** feature_config.c:1223-1308 *)
Definition general_features_10 : list stmt :=
  [
  If (isset "CONFIG_EP8248") [
    set_big_endian 1229 true;
    token_set 1230 "ARCH" "ppc";
    token_set 1231 "LIBC_ARCH" "powerpc";
    token_set_y 1232 "CONFIG_CPU_BIG_ENDIAN";
    token_set_y 1233 "CONFIG_HAS_MMU";
    token_set_y 1234 "CONFIG_ULIBC_SHARED";
    token_set_y 1235 "CONFIG_DYN_LINK";
    token_set_y 1236 "CONFIG_BOOTLDR_UBOOT";
    set_cmd_line 1242 "CONFIG_CMDLINE"
      "console=%s,115200 root=/dev/ram0 rw"
      [GetStr "CONFIG_RG_CONSOLE_DEVICE"];
    token_set 1246 "CONFIG_TASK_SIZE" "0x80000000";
    token_set 1247 "CONFIG_KERNEL_START" "0xc0000000";
    token_set 1248 "CONFIG_LOWMEM_SIZE" "0x30000000";
    token_set 1249 "CONFIG_HIGHMEM_START" "0xfe000000";
    token_set_y 1253 "CONFIG_CPM2";
    token_set_y 1254 "CONFIG_8272";
    token_set_y 1255 "CONFIG_EP8248";
    token_set_y 1256 "CONFIG_8260";
    token_set_y 1260 "CONFIG_PPC_STD_MMU";
    token_set_y 1261 "CONFIG_6xx";
    token_set_y 1265 "CONFIG_PPC32";
    token_set_y 1266 "CONFIG_PPC";
    token_set_y 1267 "CONFIG_HAVE_DEC_LOCK";
    token_set_y 1268 "CONFIG_RWSEM_XCHGADD_ALGORITHM";
    token_set_y 1269 "CONFIG_PPC_FPU";
    token_set_m 1273 "CONFIG_RG_MTD";
    token_set_y 1274 "CONFIG_RG_MTD_DEFAULT_PARTITION";
    token_set_y 1275 "CONFIG_MTD";
    token_set 1276 "CONFIG_MTD_PHYSMAP_LEN" "0x800000";
    token_set 1277 "CONFIG_MTD_PHYSMAP_START" "0xFF800000";
    token_set_y 1278 "CONFIG_MTD_CFI_I2";
    token_set_y 1279 "CONFIG_MTD_MAP_BANK_WIDTH_4";
    token_set_y 1283 "CONFIG_SERIAL_CORE";
    token_set_y 1284 "CONFIG_SERIAL_CORE_CONSOLE";
    token_set_y 1285 "CONFIG_SERIAL_CPM";
    token_set_y 1286 "CONFIG_SERIAL_CPM_SMC1";
    token_set_y 1287 "CONFIG_SERIAL_CPM_CONSOLE";
    token_set 1291 "CONFIG_CC_ALIGN_JUMPS" "0";
    token_set 1292 "CONFIG_CC_ALIGN_LOOPS" "0";
    token_set 1293 "CONFIG_CC_ALIGN_LABELS" "0";
    token_set 1294 "CONFIG_CC_ALIGN_FUNCTIONS" "0";
    token_set_y 1298 "CONFIG_RG_INITFS_RAMFS";
    token_set_y 1299 "CONFIG_RG_MAINFS_CRAMFS";
    If (notc (isset "CONFIG_LSP_DIST")) [
      token_set_y 1302 "CONFIG_RG_MODFS_CRAMFS" ];
    If (isset "CONFIG_LSP_DIST") [
      token_set_y 1307 "CONFIG_LSP_FLASH_LAYOUT" ] ] ].

(** feature_config.c:1310-1445 *)
Definition general_features_11 : list stmt :=
  [
  If (isset "CONFIG_MPC8349_ITX") [
    token_set_y 1313 "CONFIG_PPC";
    token_set 1314 "CONFIG_BOOTLDR_UBOOT_COMP" "none";
    token_set_y 1317 "CONFIG_GENERIC_NVRAM";
    token_set_y 1318 "CONFIG_SCHED_NO_NO_OMIT_FRAME_POINTER";
    token_set_y 1321 "CONFIG_PPC_GEN550";
    token_set_y 1324 "CONFIG_MPC8349_ITX";
    token_set_y 1325 "CONFIG_83xx";
    token_set_y 1326 "CONFIG_PPC_83xx";
    token_set_y 1327 "CONFIG_MPC834x";
    token_set_y 1329 "CONFIG_HZ_250";
    token_set 1330 "CONFIG_HZ" "250";
    token_set_y 1331 "CONFIG_FLATMEM";
    token_set_y 1332 "CONFIG_FLAT_NODE_MEM_MAP";
    token_set_y 1336 "CONFIG_SECCOMP";
    token_set_y 1338 "CONFIG_ISA_DMA_API";
    token_set_y 1341 "CONFIG_MPC83xx_PCI2";
    token_set_y 1345 "CONFIG_SERIAL_CORE";
    token_set_y 1346 "CONFIG_SERIAL_CORE_CONSOLE";
    token_set_y 1348 "CONFIG_SERIAL_8250";
    token_set_y 1349 "CONFIG_SERIAL_8250_CONSOLE";
    token_set 1350 "CONFIG_SERIAL_8250_NR_UARTS" "4";
    token_set 1351 "CONFIG_SERIAL_8250_RUNTIME_UARTS" "4";
    token_set 1353 "CONFIG_SPLIT_PTLOCK_CPUS" "4";
    token_set_y 1357 "CONFIG_RG_MTD";
    token_set_y 1358 "CONFIG_RG_MTD_DEFAULT_PARTITION";
    token_set_y 1359 "CONFIG_MTD";
    token_set 1360 "CONFIG_MTD_PHYSMAP_BANKWIDTH" "2";
    token_set 1361 "CONFIG_MTD_PHYSMAP_LEN" "0x800000";
    token_set 1362 "CONFIG_MTD_PHYSMAP_START" "0xFE800000";
    token_set_y 1363 "CONFIG_MTD_CFI_I1";
    token_set_y 1364 "CONFIG_MTD_MAP_BANK_WIDTH_2";
    token_set_y 1369 "CONFIG_RG_INITFS_RAMFS";
    token_set_y 1370 "CONFIG_RG_MAINFS_CRAMFS";
    IfElse (isset "CONFIG_LSP_DIST") [
      token_set_y 1373 "CONFIG_LSP_FLASH_LAYOUT" ]
    [
      token_set_y 1375 "CONFIG_RG_MODFS_CRAMFS" ] ];
  If (isset "CONFIG_PPC") [
    set_big_endian 1390 true;
    token_set 1391 "ARCH" "ppc";
    token_set 1392 "LIBC_ARCH" "powerpc";
    token_set_y 1393 "CONFIG_HAS_MMU";
    token_set_y 1394 "CONFIG_ULIBC_SHARED";
    token_set_y 1395 "CONFIG_DYN_LINK";
    token_set_y 1396 "CONFIG_BOOTLDR_UBOOT";
    token_set 1400 "CONFIG_TASK_SIZE" "0x80000000";
    token_set 1401 "CONFIG_KERNEL_START" "0xc0000000";
    token_set 1402 "CONFIG_LOWMEM_SIZE" "0x30000000";
    token_set 1403 "CONFIG_HIGHMEM_START" "0xfe000000";
    token_set_y 1407 "CONFIG_RWSEM_XCHGADD_ALGORITHM";
    token_set_y 1408 "CONFIG_PPC32";
    token_set_y 1412 "CONFIG_PPC_STD_MMU";
    token_set_y 1413 "CONFIG_6xx";
    token_set_y 1414 "CONFIG_PPC_FPU";
    token_set_y 1418 "CONFIG_PCI";
    If (isset "CONFIG_RG_OS_LINUX_26") [
      token_set_y 1424 "CONFIG_OBSOLETE_INTERMODULE";
      token_set_y 1428 "CONFIG_PCI_DOMAINS";
      token_set_y 1429 "CONFIG_PPC_INDIRECT_PCI";
      token_set 1433 "CONFIG_CC_ALIGN_JUMPS" "0";
      token_set 1434 "CONFIG_CC_ALIGN_LOOPS" "0";
      token_set 1435 "CONFIG_CC_ALIGN_LABELS" "0";
      token_set 1436 "CONFIG_CC_ALIGN_FUNCTIONS" "0" ];
    set_cmd_line 1444 "CONFIG_CMDLINE"
      "console=%s,115200 root=/dev/ram0 rw"
      [GetStr "CONFIG_RG_CONSOLE_DEVICE"] ] ].

(** feature_config.c:1447-1510 *)
Definition general_features_12 : list stmt :=
  [
  If (isset "CONFIG_BCM947_COMMON") [
    set_big_endian 1449 false;
    token_set 1450 "CONFIG_BLK_DEV_RAM_SIZE" "8000";
    token_set_y 1451 "CONFIG_BLK_DEV_LOOP";
    token_set 1452 "CONFIG_CMDLINE" "console=ttyS0,115200 root=/dev/ram0 rw";
    token_set_y 1454 "CONFIG_MIPS";
    token_set_y 1455 "CONFIG_NONCOHERENT_IO";
    token_set_y 1456 "CONFIG_EXPERIMENTAL";
    token_set_y 1457 "CONFIG_MIPS_BRCM";
    token_set_y 1458 "CONFIG_BCM947XX";
    token_set_y 1459 "CONFIG_BCM947";
    token_set_y 1460 "CONFIG_HAS_MMU";
    token_set_y 1461 "CONFIG_BINFMT_ELF";
    token_set_y 1462 "CONFIG_SERIAL";
    token_set_y 1463 "CONFIG_SERIAL_CONSOLE";
    token_set_y 1464 "CONFIG_SYSCTL";
    token_set 1465 "CONFIG_UNIX98_PTY_COUNT" "256";
    token_set_y 1466 "CONFIG_UNIX98_PTYS";
    token_set 1467 "ENDIANESS_SUFFIX" "el30";
    token_set 1468 "ARCH" "mips";
    token_set 1469 "LIBC_ARCH" "mips";
    token_set_y 1470 "CONFIG_RWSEM_GENERIC_SPINLOCK";
    token_set_y 1471 "CONFIG_BCM4310";
    token_set_y 1472 "CONFIG_PCI";
    token_set_y 1473 "CONFIG_NEW_TIME_C";
    token_set_y 1474 "CONFIG_NEW_IRQ";
    token_set_y 1475 "CONFIG_CPU_MIPS32";
    token_set_y 1476 "CONFIG_CPU_HAS_PREFETCH";
    token_set_y 1477 "CONFIG_CPU_HAS_LLSC";
    token_set_y 1478 "CONFIG_CPU_HAS_SYNC";
    token_set_y 1479 "CONFIG_KCORE_ELF";
    token_set_y 1480 "CONFIG_MTD";
    token_set_y 1481 "CONFIG_MTD_CFI_ADV_OPTIONS";
    token_set_y 1482 "CONFIG_MTD_CFI_NOSWAP";
    token_set_y 1483 "CONFIG_MTD_CFI_GEOMETRY";
    token_set_y 1484 "CONFIG_MTD_CFI_B2";
    token_set_y 1485 "CONFIG_MTD_CFI_I1";
    token_set_y 1486 "CONFIG_MTD_CFI_INTELEXT";
    token_set_y 1487 "CONFIG_MTD_CFI_AMDSTD";
    token_set_y 1488 "CONFIG_MTD_BCM947XX";
    token_set_m 1489 "CONFIG_IL";
    token_set_y 1490 "CONFIG_IL_47XX";
    token_set_m 1491 "CONFIG_WL";
    token_set_y 1492 "CONFIG_WL_AP";
    token_set_y 1493 "CONFIG_NET_PCI";
    token_set_y 1494 "CONFIG_NET_RADIO";
    token_set_m 1495 "CONFIG_HERMES";
    token_set_y 1496 "CONFIG_RAMFS";
    token_set_y 1497 "CONFIG_PARTITION_ADVANCED";
    token_set_y 1502 "CONFIG_CROSSCOMPILE";
    token_set_y 1503 "CONFIG_MAGIC_SYSRQ";
    token_set_y 1504 "CONFIG_COPY_CRAMFS_TO_RAM";
    token_set_y 1505 "CONFIG_CRAMFS_FS";
    token_set_y 1506 "CONFIG_RG_MODFS";
    token_set 1509 "CONFIG_RG_KERNEL_COMP_METHOD" "gzip" ] ].

(** feature_config.c:1512-1623 *)
Definition general_features_13 : list stmt :=
  [
  If (isset "CONFIG_BCM963XX_COMMON") [
    set_big_endian 1517 true;
    token_set 1518 "ARCH" "mips";
    token_set 1519 "LIBC_ARCH" "mips";
    token_set_y 1520 "CONFIG_HAS_MMU";
    token_set_y 1521 "CONFIG_MIPS32";
    If (isset "CONFIG_RG_OS_LINUX_26") [
      token_set_y 1525 "CONFIG_DMA_NONCOHERENT";
      token_set_y 1526 "CONFIG_TRAD_SIGNALS";
      token_set 1527 "CONFIG_MIPS_L1_CACHE_SHIFT" "5";
      token_set_y 1528 "CONFIG_PAGE_SIZE_4KB";
      token_set 1529 "CONFIG_LOG_BUF_SHIFT" "14";
      token_set_y 1530 "CONFIG_RG_TTYP";
      token_set_y 1531 "CONFIG_CC_OPTIMIZE_FOR_SIZE";
      token_set 1532 "CONFIG_SPLIT_PTLOCK_CPUS" "4";
      token_set_y 1533 "CONFIG_32BIT";
      token_set_y 1534 "CONFIG_BUILD_ELF32";
      token_set_y 1535 "CONFIG_CPU_MIPS32_R1";
      token_set_y 1536 "CONFIG_FLATMEM";
      token_set_y 1537 "CONFIG_FLAT_NODE_MEM_MAP";
      token_set_y 1538 "CONFIG_BOOT_ELF32";
      token_set_y 1539 "CONFIG_LINUX_SKB_REUSE" ];
    If (isset "CONFIG_RG_OS_LINUX_24") [
      token_set_y 1544 "CONFIG_BINFMT_ELF";
      token_set_y 1545 "CONFIG_SYSCTL";
      token_set 1546 "CONFIG_UNIX98_PTY_COUNT" "256";
      token_set_y 1547 "CONFIG_UNIX98_PTYS";
      token_set_y 1548 "CONFIG_NONCOHERENT_IO";
      token_set_y 1549 "CONFIG_NEW_TIME_C";
      token_set_y 1550 "CONFIG_NEW_IRQ";
      token_set_y 1551 "CONFIG_SERIAL";
      token_set_y 1552 "CONFIG_SERIAL_CONSOLE";
      token_set_y 1554 "CONFIG_RG_FOOTPRINT_REDUCTION";
      token_set_y 1555 "CONFIG_RG_MODFS";
      token_set_y 1556 "CONFIG_COPY_CRAMFS_TO_RAM";
      token_set_y 1557 "CONFIG_CRAMFS_FS";
      token_set 1558 "CONFIG_BLK_DEV_RAM_SIZE" "8000";
      If (notc (IS_DIST "GTWX5803")) [
        token_set 1560 "CONFIG_RAMDISK_SIZE" "512" ];
      token_set_y 1561 "CONFIG_RAMFS";
      token_set_y 1564 "CONFIG_RG_FOOTPRINT_REDUCTION";
      token_set_y 1565 "CONFIG_RG_MODFS";
      token_set_y 1566 "CONFIG_COPY_CRAMFS_TO_RAM";
      token_set_y 1567 "CONFIG_CRAMFS_FS" ];
    token_set_y 1570 "CONFIG_EXPERIMENTAL";
    token_set_y 1571 "CONFIG_RWSEM_GENERIC_SPINLOCK";
    token_set_y 1572 "CONFIG_CPU_MIPS32";
    token_set_y 1573 "CONFIG_CPU_HAS_PREFETCH";
    token_set_y 1574 "CONFIG_CPU_HAS_LLSC";
    token_set_y 1575 "CONFIG_CPU_HAS_SYNC";
    token_set_y 1576 "CONFIG_KCORE_ELF";
    token_set_y 1577 "CONFIG_CROSSCOMPILE";
    token_set_y 1578 "CONFIG_MAGIC_SYSRQ";
    token_set_y 1580 "CONFIG_MIPS";
    token_set_y 1581 "CONFIG_MIPS_BRCM";
    token_set_y 1582 "CONFIG_BCM963XX";
    If (notc (isset "CONFIG_RG_RGLOADER")) [
      token_set_y 1586 "CONFIG_DYN_LINK";
      token_set_y 1588 "CONFIG_BLK_DEV_LOOP" ];
    If (notc (has_str "CONFIG_SDRAM_SIZE")) [
      set_copy 1593 "CONFIG_SDRAM_SIZE" "CONFIG_BCM963XX_SDRAM_SIZE" ];
    If (isset "CONFIG_RG_OS_LINUX_24") [
      set_cmd_line 1603 "CONFIG_CMDLINE"
        "console=ttyS0,115200 root=/dev/ram0 rw %s"
        [Sel "CONFIG_RG_RGLOADER" "quiet" ""] ];
    If (isset "CONFIG_RG_OS_LINUX_26") [
      token_set 1606 "CONFIG_CMDLINE" "console=ttyS0,115200" ];
    token_set_y 1610 "CONFIG_MTD";
    token_set_y 1611 "CONFIG_MTD_CFI_AMDSTD";
    If (isset "CONFIG_RG_OS_LINUX_26") [
      token_set_y 1615 "CONFIG_MTD_MAP_BANK_WIDTH_1";
      token_set_y 1616 "CONFIG_MTD_MAP_BANK_WIDTH_2";
      token_set_y 1617 "CONFIG_MTD_MAP_BANK_WIDTH_4";
      token_set_y 1618 "CONFIG_MTD_CFI_I1";
      token_set_y 1619 "CONFIG_MTD_CFI_I2";
      token_set_y 1620 "CONFIG_MTD_CFI_UTIL";
      token_set_y 1621 "CONFIG_OBSOLETE_INTERMODULE" ] ] ].

(** feature_config.c:1625-1761 *)
Definition general_features_14 : list stmt :=
  [
  If (isset "CONFIG_MACH_ADI_FUSIV") [
    token_set_y 1630 "CONFIG_CPU_LX4189";
    token_set_y 1634 "CONFIG_MAGIC_SYSRQ";
    If (isset "CONFIG_RG_OS_LINUX_26") [
      token_set 1638 "CONFIG_CMDLINE" "console=ttyS0,9600";
      token_set_y 1640 "CONFIG_SERIAL_8250";
      token_set_y 1641 "CONFIG_SERIAL_8250_CONSOLE";
      token_set 1642 "CONFIG_SERIAL_8250_NR_UARTS" "1";
      token_set_y 1643 "CONFIG_SERIAL_CORE";
      token_set_y 1644 "CONFIG_SERIAL_CORE_CONSOLE" ];
    If (isset "CONFIG_RG_OS_LINUX_24") [
      set_cmd_line 1651 "CONFIG_CMDLINE"
        "console=ttyS0,9600 root=/dev/ram0 rw %s"
        [Sel "CONFIG_RG_RGLOADER" "quiet" ""];
      token_set_y 1653 "CONFIG_SERIAL";
      token_set_y 1654 "CONFIG_SERIAL_CONSOLE" ];
    token_set_y 1658 "CONFIG_MTD";
    token_set_y 1659 "CONFIG_MTD_CFI_AMDSTD";
    If (isset "CONFIG_RG_OS_LINUX_26") [
      token_set_y 1664 "CONFIG_MTD_MAP_BANK_WIDTH_1";
      token_set_y 1665 "CONFIG_MTD_MAP_BANK_WIDTH_2";
      token_set_y 1666 "CONFIG_MTD_MAP_BANK_WIDTH_4";
      token_set_y 1667 "CONFIG_MTD_CFI_I1";
      token_set_y 1668 "CONFIG_MTD_CFI_I2";
      token_set_y 1669 "CONFIG_MTD_CFI_UTIL" ];
    token_set_y 1673 "CONFIG_PCI";
    token_set_y 1674 "CONFIG_PCI_AUTO";
    If (isset "CONFIG_RG_OS_LINUX_24") [
      token_set_y 1677 "CONFIG_NEW_PCI" ] ];
  If (isset "CONFIG_CPU_LX4189") [
    token_set_y 1682 "CONFIG_HAS_MMU";
    token_set 1685 "ARCH" "mips";
    token_set 1686 "LIBC_ARCH" "mips";
    If (isset "CONFIG_RG_OS_LINUX_24") [
      token_set_y 1690 "CONFIG_BINFMT_ELF";
      token_set_y 1691 "CONFIG_SYSCTL";
      token_set_y 1692 "CONFIG_CPU_HAS_PREFETCH";
      token_set_y 1693 "CONFIG_EXPERIMENTAL";
      token_set_y 1694 "CONFIG_CPU_HAS_WB";
      token_set_y 1695 "CONFIG_KCORE_ELF";
      token_set_y 1696 "CONFIG_CROSSCOMPILE";
      token_set_y 1699 "CONFIG_RG_FOOTPRINT_REDUCTION";
      token_set_y 1700 "CONFIG_CRAMFS_FS";
      token_set_y 1701 "CONFIG_COPY_CRAMFS_TO_RAM";
      If (notc (isset "CONFIG_RG_RGLOADER")) [
        token_set_y 1706 "CONFIG_BLK_DEV_LOOP" ];
      token_set 1708 "CONFIG_BLK_DEV_RAM_SIZE" "8000";
      token_set 1709 "CONFIG_RAMDISK_SIZE" "1024";
      token_set_y 1710 "CONFIG_RAMFS";
      token_set_y 1712 "CONFIG_NONCOHERENT_IO";
      token_set_y 1713 "CONFIG_NEW_TIME_C";
      token_set_y 1714 "CONFIG_NEW_IRQ" ];
    If (isset "CONFIG_RG_OS_LINUX_26") [
      token_set_y 1727 "CONFIG_DMA_NONCOHERENT";
      token_set_y 1728 "CONFIG_HAVE_DEC_LOCK";
      token_set_y 1729 "CONFIG_TRAD_SIGNALS";
      token_set 1730 "CONFIG_MIPS_L1_CACHE_SHIFT" "5";
      token_set_y 1731 "CONFIG_PAGE_SIZE_4KB";
      token_set 1732 "CONFIG_LOG_BUF_SHIFT" "14";
      token_set_y 1733 "CONFIG_RG_TTYP" ];
    token_set_y 1736 "CONFIG_CPU_BIG_ENDIAN";
    token_set 1737 "TARGET_ENDIANESS" "BIG";
    token_set_y 1740 "CONFIG_MIPS_PATENTFREE";
    token_set_y 1741 "CONFIG_MIPS32";
    token_set_y 1742 "CONFIG_MIPS";
    token_set_y 1743 "CONFIG_BOOT_ELF32";
    token_set_y 1744 "CONFIG_RWSEM_GENERIC_SPINLOCK";
    token_set_y 1746 "CONFIG_CROSSCOMPILE" ];
  If (isset "CONFIG_KS8695_COMMON") [
    token_set_y 1760 "CONFIG_SOFT_FLOAT" ] ].

(** feature_config.c:1763-1911 *)
Definition general_features_15 : list stmt :=
  [
  If (isset "CONFIG_ARMNOMMU") [
    token_set_y 1765 "CONFIG_DEBUG_USER";
    token_set 1766 "ARCH" "armnommu";
    token_set 1767 "LIBC_ARCH" "arm";
    token_set_y 1768 "CONFIG_ARM";
    token_set 1769 "CONFIG_RAM_LIMIT" "16";
    token_set_y 1770 "CONFIG_CPU_32";
    token_set_y 1771 "CONFIG_NO_UNALIGNED_ACCESS";
    token_set_y 1772 "CONFIG_BINUTILS_NEW";
    token_set_y 1773 "CONFIG_SOFT_FLOAT";
    If (isset "CONFIG_RG_OS_LINUX") [
      token_set_y 1776 "CONFIG_KERNEL_ELF";
      token_set_y 1777 "CONFIG_BINFMT_FLAT";
      token_set_y 1778 "CONFIG_MALLOC_CONSERVE_RAM";
      token_set_y 1779 "CONFIG_SMALL_STACK";
      token_set_y 1780 "CONFIG_TEXT_SECTIONS";
      token_set_y 1781 "CONFIG_NO_FRAME_POINTER";
      If (notc (isset "CONFIG_LSP_DIST")) [
        token_set_y 1783 "CONFIG_EXTRA_ALLOC" ] ];
    token_set 1785 "CONFIG_RG_KERNEL_COMP_METHOD" "gzip" ];
  If (isset "CONFIG_CX821XX_COMMON") [
    set_big_endian 1790 false;
    token_set_y 1791 "CONFIG_CONEXANT_COMMON";
    token_set 1792 "CONFIG_ARCH_MACHINE" "cx821xx";
    token_set 1793 "CONFIG_NOMMU_PAGECACHE_THRESHOLD" "200";
    token_set 1794 "CONFIG_FLASH_POS" "0x00400000";
    token_set_y 1795 "CONFIG_SMALL_FLASH";
    token_set_y 1796 "CONFIG_RG_FLASH_LINEAR";
    token_set_y 1797 "CONFIG_RG_RMT_UPD_LOW_MEM";
    token_set_y 1798 "CONFIG_BLK_DEV_LOOP";
    token_set 1799 "CONFIG_EXP_BUS_SHL" "0";
    token_set 1800 "CONFIG_BOOT_RAM_POS" "0xf00000";
    token_set 1801 "CONFIG_BOOT_SP_POS" "0xf00000";
    token_set 1802 "CONFIG_SDRAM_BASE" "0x800000";
    token_set 1803 "CONFIG_SDRAM_SIZE" "0x800000";
    token_set 1804 "CONFIG_PHYS_SDRAM_SIZE" "0x800000";
    token_set 1805 "CONFIG_BOOT_FREE_MEM_START" "0xc00000";
    token_set 1806 "CONFIG_BOOT_FREE_MEM_END" "0xd00000";
    token_set 1807 "CONFIG_RAM_LIMIT" "8";
    token_set_y 1809 "MAGIC_ROM_PTR";
    token_set_y 1810 "CONFIG_ARCH_CNXT";
    token_set_y 1811 "CONFIG_ARCH_CX821XX";
    token_set_y 1812 "CONFIG_CPU_ARM940T";
    token_set_y 1813 "CONFIG_SERIAL_CNXT";
    token_set_y 1814 "CONFIG_CPU_ARM940_CPU_IDLE";
    token_set_y 1815 "CONFIG_CPU_ARM940_I_CACHE_ON";
    token_set_y 1816 "CONFIG_CPU_ARM940_D_CACHE_ON";
    token_set_y 1817 "CONFIG_CPU_ARM940_WRITETHROUGH";
    token_set_y 1818 "CONFIG_NO_PGT_CACHE";
    token_set 1819 "CONFIG_RAMDISK_SIZE" "256";
    token_set 1820 "CONFIG_CRAMFS_RAM_ADDR" "0xf00000";
    token_set_y 1821 "CONFIG_CRAMFS_FS";
    token_set_y 1822 "CONFIG_CRAMFS_LINEAR";
    If (isset "CONFIG_KNCX821XX_PCB") [
      token_set_y 1824 "CONFIG_CX821XX_MXIC_FLASH" ] ];
  If (isset "CONFIG_KS8695_COMMON") [
    token_set 1831 "ARCH" "arm";
    token_set 1832 "LIBC_ARCH" "arm";
    token_set_y 1833 "CONFIG_HAS_MMU";
    token_set_y 1834 "CONFIG_ARM";
    token_set_y 1835 "CONFIG_CPU_32";
    token_set_y 1836 "CONFIG_RWSEM_GENERIC_SPINLOCK";
    token_set_y 1837 "CONFIG_CPU_LITTLE_ENDIAN";
    token_set 1838 "TARGET_ENDIANESS" "LITTLE";
    token_set_y 1839 "CONFIG_EXPERIMENTAL";
    token_set_y 1840 "CONFIG_CPU_32v4";
    token_set_y 1841 "CONFIG_RAMFS";
    token_set 1842 "CONFIG_BLK_DEV_RAM_SIZE" "16384";
    token_set_y 1843 "CONFIG_ARCH_KS8695";
    token_set_y 1844 "CONFIG_CPU_ARM922T";
    token_set_y 1845 "CONFIG_CPU_ARM922_CPU_IDLE";
    token_set_y 1846 "CONFIG_CPU_ARM922_I_CACHE_ON";
    token_set_y 1847 "CONFIG_CPU_ARM922_D_CACHE_ON";
    token_set_y 1849 "CONFIG_NO_FRAME_POINTER";
    token_set_y 1850 "CONFIG_FPE_FASTFPE";
    token_set_y 1851 "CONFIG_KCORE_ELF";
    token_set_y 1852 "CONFIG_BINFMT_ELF";
    token_set_y 1853 "CONFIG_SYSCTL";
    If (notc (isset "CONFIG_RG_RGLOADER")) [
      token_set_y 1856 "CONFIG_DYN_LINK" ];
    token_set_y 1858 "CONFIG_RG_FOOTPRINT_REDUCTION";
    token_set_y 1859 "CONFIG_COPY_CRAMFS_TO_RAM";
    token_set_y 1860 "CONFIG_CRAMFS_FS";
    token_set_y 1861 "CONFIG_RG_MODFS";
    token_set_y 1863 "CONFIG_PCI";
    token_set_y 1865 "CONFIG_PCI_KS8695P";
    token_set_y 1866 "CONFIG_ARCH_KS8695P";
    token_set 1867 "CONFIG_RG_CONSOLE_DEVICE" "ttyAM0";
    set_cmd_line 1873 "CONFIG_CMDLINE"
      "console=%s,38400 root=/dev/ram0 rw%s"
      [GetStr "CONFIG_RG_CONSOLE_DEVICE"; Sel "CONFIG_RG_KGDB" " nohalt" ""];
    token_set_y 1875 "CONFIG_SERIAL_CORE";
    token_set_y 1876 "CONFIG_SERIAL_CORE_CONSOLE";
    token_set_y 1879 "CONFIG_SERIAL_KS8695";
    token_set_y 1880 "CONFIG_SERIAL_KS8695_CONSOLE";
    If (notc (isset "CONFIG_LSP_DIST")) [
      token_set_m 1883 "CONFIG_RG_KRGLDR" ];
    token_set_y 1887 "CONFIG_MTD";
    token_set_y 1888 "CONFIG_MTD_CFI_AMDSTD";
    token_set_y 1890 "CONFIG_MTD_PHYSMAP";
    token_set 1891 "CONFIG_MTD_PHYSMAP_START" "0x2800000";
    token_set 1892 "CONFIG_MTD_PHYSMAP_LEN" "0x400000";
    token_set 1893 "CONFIG_MTD_PHYSMAP_BUSWIDTH" "1";
    token_set_y 1896 "CONFIG_ALIGNMENT_TRAP";
    token_set 1897 "CONFIG_ALIGNMENT_TRAP_MODE" "2";
    token_set_y 1898 "CONFIG_DEBUG_USER" ];
  If (isset "CONFIG_TI_404_COMMON") [
    token_set 1903 "ARCH" "mips";
    token_set 1904 "LIBC_ARCH" "mips" ];
  If (isset "CONFIG_RG_RMT_MNG" |||
      isset "CONFIG_RG_DSLHOME" &&&
      notc (isset "CONFIG_RG_JNET_SERVER")) [
    token_set_y 1910 "CONFIG_RG_SSI" ] ].

(** feature_config.c:1913-2062 *)
Definition general_features_16 : list stmt :=
  [
  If (isset "CONFIG_RG_OSS_RMT") [
    token_set_y 1915 "CONFIG_RG_WAN_UPGRADE";
    token_set_y 1916 "CONFIG_RG_SSI" ];
  If (isset "CONFIG_RG_PPPOS_CLI") [
    token_set_y 1920 "CONFIG_RG_PPPOS" ];
  If (isset "CONFIG_RG_PPPOS") [
    token_set_y 1923 "CONFIG_RG_SERIAL" ];
  If (isset "CONFIG_RG_SSI_PAGES") [
    token_set_y 1926 "CONFIG_RG_SSI" ];
  If (isset "CONFIG_RG_SURFCONTROL" ||| isset "CONFIG_RG_URL_KEYWORD_FILTER") [
    token_set_y 1931 "CONFIG_RG_HTTP_PROXY" ];
  If (isset "CONFIG_RG_TFTP_UPGRADE") [
    token_set_y 1936 "CONFIG_RG_TFTP_SERVER";
    token_set_y 1937 "CONFIG_RG_RMT_UPDATE" ];
  If (isset "OPENRG_DEBUG") [
    token_set_y 1942 "CONFIG_NFS_FS";
    If (notc (isset "CONFIG_VALGRIND")) [
      token_set_y 1944 "OPENRG_DEBUG_EXEC_SH" ];
    token_set_y 1945 "OPENRG_DEBUG_MODULES";
    token_set_y 1946 "CONFIG_RG_NO_OPT" ];
  If (isset "CONFIG_NFS_FS") [
    token_set_y 1954 "CONFIG_LOCKD";
    token_set_y 1955 "CONFIG_SUNRPC" ];
  If (isset "CONFIG_RG_PERM_STORAGE") [
    token_set_y 1959 "CONFIG_GEN_RG_DEFAULT" ];
  If (isset "CONFIG_FREEPAGES_THRESHOLD") [
    token_set 1968 "CONFIG_FREEPAGES_MIN" "32";
    token_set 1969 "CONFIG_FREEPAGES_LOW" "256";
    token_set 1970 "CONFIG_FREEPAGES_HIGH" "384" ];
  If (isset "CONFIG_RG_VOATM_ELCP" ||| isset "CONFIG_RG_VOATM_CAS") [
    token_set_y 1974 "CONFIG_RG_VOATM" ];
  If (isset "CONFIG_RG_VOATM") [
    token_set_y 1977 "CONFIG_RG_TELEPHONY" ];
  If (isset "CONFIG_FREESWAN") [
    token_set_y 1981 "CONFIG_GMP";
    token_set_y 1982 "CONFIG_IPSEC";
    token_set_y 1983 "CONFIG_IPSEC_DRIVER";
    token_set_y 1984 "CONFIG_IPSEC_IPIP";
    token_set_y 1985 "CONFIG_IPSEC_AH";
    token_set_y 1986 "CONFIG_IPSEC_AUTH_HMAC_MD5";
    token_set_y 1987 "CONFIG_IPSEC_AUTH_HMAC_SHA1";
    token_set_y 1988 "CONFIG_IPSEC_ESP";
    token_set_y 1989 "CONFIG_IPSEC_ENC_1DES";
    token_set_y 1990 "CONFIG_IPSEC_ENC_3DES";
    token_set_y 1991 "CONFIG_IPSEC_ENC_NULL";
    token_set_y 1992 "CONFIG_IPSEC_IPCOMP";
    token_set_y 1993 "CONFIG_IPSEC_NAT_TRAVERSAL";
    token_set_y 1994 "CONFIG_VPN";
    token_set_y 1995 "CONFIG_IPSEC_DEBUG";
    token_set_y 1996 "CONFIG_PLUTO_DEBUG";
    token_set_y 1997 "CONFIG_RG_FREESWAN";
    token_set_m 2001 "CONFIG_RG_NETBIOS_RT";
    token_set_y 2002 "CONFIG_RG_IPSEC_NO_SECRET_FILE";
    If (os_is "LINUX_24" ||| os_is "LINUX_26") [
      token_set_y 2004 "CONFIG_RG_IPSEC_IKE_ALG" ];
    If ((os_is "LINUX_24" |||
        os_is "LINUX_26") &&&
        notc (isset "CONFIG_IPSEC_USE_IXP4XX_CRYPTO")) [
      token_set_y 2008 "CONFIG_RG_IPSEC_ESP_ALG";
      token_set_y 2009 "CONFIG_IPSEC_ALG";
      If (isset "CONFIG_IPSEC_ENC_1DES") [
        token_set_m 2011 "CONFIG_IPSEC_ALG_1DES" ];
      If (isset "CONFIG_IPSEC_ENC_3DES") [
        token_set_m 2013 "CONFIG_IPSEC_ALG_3DES" ];
      If (isset "CONFIG_IPSEC_ENC_NULL") [
        token_set_m 2015 "CONFIG_IPSEC_ALG_NULL" ];
      token_set_y 2016 "CONFIG_IPSEC_ENC_AES";
      token_set_m 2017 "CONFIG_IPSEC_ALG_AES";
      If (isset "CONFIG_IPSEC_AUTH_HMAC_MD5") [
        token_set_m 2019 "CONFIG_IPSEC_ALG_MD5" ];
      If (isset "CONFIG_IPSEC_AUTH_HMAC_SHA1") [
        token_set_m 2021 "CONFIG_IPSEC_ALG_SHA1" ] ] ];
  If (isset "CONFIG_RG_PPTPS") [
    token_set_y 2027 "CONFIG_RG_PPTP";
    token_set_y 2028 "CONFIG_LIBDES";
    token_set_y 2029 "CONFIG_VPN" ];
  If (isset "CONFIG_RG_PPTPC") [
    token_set_y 2034 "CONFIG_RG_PPTP";
    token_set_y 2035 "CONFIG_LIBDES";
    token_set_y 2036 "CONFIG_VPN" ];
  If (isset "CONFIG_SL2312_COMMON_RG") [
    token_set_y 2041 "CONFIG_SL2312_COMMON";
    token_set 2042 "CONFIG_RAMDISK_SIZE" "512";
    token_set_y 2044 "CONFIG_BLK_DEV_IDE";
    token_set_y 2045 "CONFIG_BLK_DEV_SL2312_IDE";
    token_set_y 2046 "CONFIG_BLK_DEV_IDEPCI";
    token_set_y 2047 "CONFIG_BLK_DEV_IDEDMA";
    token_set_y 2048 "CONFIG_BLK_DEV_IDEDMA_PCI";
    token_set_y 2049 "CONFIG_BLK_DEV_SL2312_IDE_CHANNEL_1";
    token_set_y 2050 "CONFIG_BLK_DEV_IDEDISK";
    token_set_y 2051 "CONFIG_BLK_DEV_IDECD";
    token_set_y 2052 "CONFIG_BLK_DEV_IDE_MODES";
    token_set_y 2053 "CONFIG_IDE";
    token_set_y 2055 "CONFIG_PCI";
    token_set_y 2056 "CONFIG_PCI_NAMES";
    token_set_y 2057 "CONFIG_NET_PCI";
    token_set_y 2058 "CONFIG_PCI_RESET" ];
  If (isset "CONFIG_RG_HSS") [
    token_set_y 2062 "CONFIG_IXP425_CSR_HSS" ] ].

(** feature_config.c:2064-2197 *)
Definition general_features_17 : list stmt :=
  [
  If (isset "CONFIG_IXP425_COMMON_RGLOADER") [
    token_set 2067 "CONFIG_SDRAM_SIZE" "16";
    token_set_y 2069 "CONFIG_RG_NETWORK_BOOT";
    token_set_y 2070 "CONFIG_IXP425_COMMON";
    token_set 2071 "CONFIG_FORCE_MAX_ZONEORDER" "12";
    token_set_y 2072 "CONFIG_CRAMFS_FS";
    token_set_y 2073 "CONFIG_COPY_CRAMFS_TO_RAM";
    token_set_y 2074 "CONFIG_PCI_RESET" ];
  If (isset "CONFIG_SIBYTE_SB1250") [
    token_set 2081 "ARCH" "mips";
    token_set_y 2082 "CONFIG_MIPS";
    token_set_y 2083 "CONFIG_EXPERIMENTAL";
    token_set_y 2084 "CONFIG_MODULES";
    token_set_y 2085 "CONFIG_RWSEM_GENERIC_SPINLOCK";
    token_set_y 2086 "CONFIG_NEW_TIME_C";
    token_set_y 2087 "CONFIG_BOOT_ELF32";
    token_set_y 2089 "CONFIG_SMP";
    token_set 2090 "CONFIG_NR_CPUS" "2";
    token_set_y 2091 "CONFIG_CPU_SB1";
    token_set_y 2092 "CONFIG_CPU_SB1_PASS_1";
    token_set_y 2093 "CONFIG_CPU_HAS_PREFETCH";
    token_set_y 2094 "CONFIG_CPU_HAS_LLSC";
    token_set_y 2095 "CONFIG_CPU_HAS_SYNC";
    token_set_y 2100 "CONFIG_SIBYTE_SB1xxx_SOC";
    token_set_y 2101 "CONFIG_SIBYTE_CFE";
    token_set_y 2102 "CONFIG_NET_SB1250_MAC";
    token_set_y 2103 "CONFIG_SERIAL_NONSTANDARD";
    token_set_y 2104 "CONFIG_SIBYTE_SB1250_DUART";
    token_set_y 2105 "CONFIG_SIBYTE_SB1250_DUART_CONSOLE";
    token_set_y 2106 "CONFIG_TRAD_SIGNALS";
    token_set_y 2107 "CONFIG_PCI";
    token_set_y 2108 "CONFIG_NO_ISA";
    token_set_y 2109 "CONFIG_SWAP_IO_SPACE";
    token_set 2110 "CONFIG_MIPS_L1_CACHE_SHIFT" "5";
    token_set_y 2111 "CONFIG_PAGE_SIZE_4KB";
    token_set 2112 "CONFIG_SPLIT_PTLOCK_CPUS" "4";
    token_set_y 2113 "CONFIG_DMA_COHERENT";
    token_set_y 2114 "CONFIG_FLATMEM";
    token_set_y 2115 "CONFIG_FLAT_NODE_MEM_MAP";
    token_set_y 2116 "CONFIG_OBSOLETE_INTERMODULE";
    token_set_y 2122 "CONFIG_32BIT";
    token_set_y 2123 "CONFIG_BUILD_ELF32";
    token_set_y 2126 "CONFIG_CROSSCOMPILE";
    token_set_y 2127 "CONFIG_SYSVIPC";
    token_set_y 2128 "CONFIG_SYSCTL";
    token_set_y 2129 "CONFIG_KCORE_ELF";
    token_set_y 2130 "CONFIG_BINFMT_ELF";
    token_set_y 2131 "CONFIG_UNIX98_PTYS";
    token_set 2132 "CONFIG_UNIX98_PTY_COUNT" "256";
    token_set_y 2133 "CONFIG_NET";
    token_set_y 2134 "CONFIG_PACKET";
    token_set_y 2135 "CONFIG_PACKET_MMAP";
    token_set_y 2137 "CONFIG_UNIX";
    token_set_y 2138 "CONFIG_INET";
    token_set_y 2139 "CONFIG_NETDEVICES";
    token_set_y 2140 "CONFIG_NET_ETHERNET";
    token_set 2143 "CONFIG_CMDLINE" "console=ttyS0,115200";
    set_big_endian 2146 true;
    token_set 2147 "LIBC_ARCH" "mips";
    token_set_y 2148 "CONFIG_HAS_MMU" ];
  If (isset "CONFIG_IXP425_COMMON_RG") [
    token_set_y 2153 "CONFIG_IXP425_COMMON";
    token_set 2154 "CONFIG_FORCE_MAX_ZONEORDER" "12";
    If (notc (isset "CONFIG_SIMPLE_RAMDISK")) [
      token_set_y 2159 "CONFIG_CRAMFS_FS";
      token_set_y 2160 "CONFIG_COPY_CRAMFS_TO_RAM";
      token_set 2161 "CONFIG_RAMDISK_SIZE" "512" ] ];
  If (isset "CONFIG_IXP425_COMMON_LSP") [
    token_set_y 2167 "CONFIG_IXP425_COMMON";
    token_set_y 2168 "CONFIG_IXP425_CSR_FULL";
    token_set 2169 "CONFIG_FORCE_MAX_ZONEORDER" "13";
    IfElse (isset "CONFIG_SIMPLE_RAMDISK") [
      token_set 2172 "CONFIG_RAMDISK_SIZE" "8192" ]
    [
      token_set_y 2176 "CONFIG_RG_BOOTLDR_REDBOOT";
      token_set_y 2177 "CONFIG_MTD_REDBOOT_PARTS";
      token_set_y 2178 "CONFIG_CRAMFS_FS" ];
    token_set_m 2180 "CONFIG_JFFS2_FS" ];
  If (isset "CONFIG_IXP425_DSR") [
    token_set_y 2189 "CONFIG_IXP425_CSR_HSS";
    token_set_y 2190 "CONFIG_DIVDI3";
    If (isset "CONFIG_IXP425_DSR_DEMO") [
      token_set_y 2194 "CONFIG_IXP425_CODELETS";
      token_set_y 2195 "CONFIG_IXP425_CODELET_DSP_ENG" ] ] ].

(** feature_config.c:2199-2292 *)
Definition general_features_18 : list stmt :=
  [
  If (isset "CONFIG_SL2312_COMMON") [
    token_set_m 2203 "CONFIG_RG_KRGLDR";
    set_big_endian 2205 false;
    token_set 2206 "ARCH" "arm";
    token_set 2207 "LIBC_ARCH" "arm";
    token_set_y 2208 "CONFIG_HAS_MMU";
    token_set_y 2209 "CONFIG_ARM";
    token_set 2210 "CONFIG_ALIGNMENT_TRAP_MODE" "2";
    token_set_y 2211 "CONFIG_UID16";
    token_set_y 2212 "CONFIG_CPU_32";
    token_set_y 2213 "CONFIG_RWSEM_GENERIC_SPINLOCK";
    token_set_y 2214 "CONFIG_EXPERIMENTAL";
    token_set_y 2215 "CONFIG_CPU_32v4";
    token_set_y 2216 "CONFIG_BLK_DEV_LOOP";
    token_set_y 2217 "CONFIG_RAMFS";
    token_set_y 2219 "CONFIG_FPE_NWFPE";
    token_set_y 2221 "CONFIG_KCORE_ELF";
    token_set_y 2223 "CONFIG_BINFMT_AOUT";
    token_set_y 2225 "CONFIG_ALIGNMENT_TRAP";
    token_set_y 2227 "CONFIG_DEBUG_USER";
    If (notc (isset "CONFIG_RG_RGLOADER")) [
      token_set_y 2230 "CONFIG_RG_NETTOOLS_ARP" ];
    set_cmd_line 2237 "CONFIG_CMDLINE"
      "%sconsole=%s,115200 root=/dev/ram0 rw %s"
      [Sel "CONFIG_SL2312_COMMON_RGLOADER" "quiet " ""; GetStr "CONFIG_RG_CONSOLE_DEVICE"; Sel "CONFIG_RG_KGDB" "nohalt" ""];
    token_set 2238 "CONFIG_ARCH_MACHINE" "sl2312";
    token_set_y 2239 "CONFIG_SERIAL_CONSOLE";
    token_set_y 2240 "CONFIG_SERIAL_CORE";
    token_set_y 2241 "CONFIG_SERIAL_CORE_CONSOLE";
    token_set_y 2243 "CONFIG_MTD";
    token_set_y 2245 "CONFIG_SL2312_SHARE_PIN";
    token_set_y 2247 "CONFIG_BINFMT_ELF";
    token_set_y 2248 "CONFIG_DEVPTS_FS";
    token_set_y 2249 "CONFIG_SYSCTL";
    token_set_y 2250 "CONFIG_UNIX98_PTYS";
    token_set 2251 "CONFIG_UNIX98_PTY_COUNT" "256";
    token_set 2252 "CONFIG_BLK_DEV_RAM_SIZE" "16384";
    If (isset "CONFIG_RG_DEV") [
      token_set_y 2257 "CONFIG_FRAME_POINTER" ];
    token_set_y 2259 "CONFIG_SL2312_LPC";
    token_set_y 2260 "CONFIG_SL2312_LPC_IT8712";
    token_set_y 2261 "CONFIG_CPU_FA52X";
    token_set_y 2262 "CONFIG_CPU_FA52X_I_CACHE_ON";
    token_set_y 2263 "CONFIG_CPU_FA52X_D_CACHE_ON";
    token_set_y 2264 "CONFIG_IT8712_GPIO";
    token_set_y 2265 "CONFIG_SERIAL_IT8712";
    token_set_y 2266 "CONFIG_SERIAL_IT8712_CONSOLE";
    token_set 2267 "CONFIG_KERNEL_START" "0xc0000000";
    token_set_y 2268 "CONFIG_IDEDMA_AUTO";
    token_set_y 2269 "CONFIG_CRAMFS_FS";
    token_set_y 2270 "CONFIG_COPY_CRAMFS_TO_RAM";
    token_set_y 2271 "CONFIG_RG_FOOTPRINT_REDUCTION";
    token_set_y 2272 "CONFIG_RG_FACTORY_SETTINGS" ];
  If (isset "CONFIG_IXP425_CSR_FULL") [
    token_set_y 2277 "CONFIG_IXP425_CSR_USB";
    token_set_y 2278 "CONFIG_IXP425_CSR_UART";
    token_set_y 2279 "CONFIG_IXP425_CSR_ATM";
    token_set_y 2280 "CONFIG_IXP425_CSR_HSS";
    token_set_y 2281 "CONFIG_IXP425_CSR_CRYPTO_ACC";
    token_set_y 2282 "CONFIG_IXP425_CSR_PERF_PROF_ACC";
    token_set_m 2283 "CONFIG_IXP425_CODELETS";
    token_set_m 2284 "CONFIG_IXP425_CODELET_ETH";
    token_set_m 2285 "CONFIG_IXP425_CODELET_USB";
    token_set_m 2286 "CONFIG_IXP425_CODELET_ATM";
    token_set_m 2287 "CONFIG_IXP425_CODELET_HSS";
    token_set_m 2288 "CONFIG_IXP425_CODELET_DMA";
    token_set_m 2289 "CONFIG_IXP425_CODELET_CRYPTO";
    token_set_m 2290 "CONFIG_IXP425_CODELET_TIMERS";
    token_set_m 2291 "CONFIG_IXP425_CODELET_PERF_PROF" ] ].

(** feature_config.c:2294-2379 *)
Definition general_features_19 : list stmt :=
  [
  If (isset "CONFIG_IXP425_COMMON") [
    set_big_endian 2298 true;
    token_set 2299 "ARCH" "arm";
    token_set 2300 "LIBC_ARCH" "arm";
    token_set_y 2301 "CONFIG_HAS_MMU";
    token_set_y 2302 "CONFIG_ARM";
    token_set_y 2303 "CONFIG_STRONGARM";
    token_set_y 2304 "CONFIG_NO_UNALIGNED_ACCESS";
    token_set 2305 "CONFIG_ALIGNMENT_TRAP_MODE" "2";
    token_set_y 2306 "CONFIG_CPU_32";
    token_set_y 2307 "CONFIG_RWSEM_GENERIC_SPINLOCK";
    token_set_y 2308 "CONFIG_EXPERIMENTAL";
    token_set_y 2309 "CONFIG_CPU_32v4";
    token_set_y 2310 "CONFIG_CPU_XSCALE";
    token_set_y 2311 "CONFIG_RAMFS";
    token_set_y 2312 "CONFIG_RG_MODFS";
    token_set_y 2314 "CONFIG_ARM_THUMB";
    token_set 2315 "CONFIG_ZBOOT_ROM_TEXT" "0";
    token_set 2316 "CONFIG_ZBOOT_ROM_BSS" "0";
    token_set_y 2318 "CONFIG_KCORE_ELF";
    token_set_y 2320 "CONFIG_ALIGNMENT_TRAP";
    token_set_y 2322 "CONFIG_DEBUG_USER";
    token_set_y 2323 "CONFIG_IXP425_OS_TIMER1";
    If (notc (isset "CONFIG_RG_RGLOADER")) [
      token_set_y 2325 "CONFIG_DYN_LINK" ];
    If (notc (IS_DIST "BRUCE") |||
        notc (isset "CONFIG_RG_RGLOADER") |||
        isset "CONFIG_RG_JPKG") [
      token_set_y 2331 "CONFIG_PCI" ];
    If (notc (isset "CONFIG_RG_RGLOADER") ||| isset "CONFIG_RG_JPKG") [
      token_set_y 2336 "CONFIG_RG_NETTOOLS_ARP";
      token_set_y 2337 "CONFIG_PCI_NAMES";
      token_set_y 2338 "CONFIG_NET_PCI" ];
    token_set_y 2340 "CONFIG_RG_FOOTPRINT_REDUCTION";
    set_cmd_line 2348 "CONFIG_CMDLINE"
      "%sconsole=%s,115200 root=/dev/ram0 rw%s %s"
      [Sel "CONFIG_IXP425_COMMON_RGLOADER" "quiet " ""; GetStr "CONFIG_RG_CONSOLE_DEVICE"; Sel "CONFIG_RG_KGDB" " nohalt" ""; Sel "CONFIG_MD" "raid=noautodetect" ""];
    token_set_y 2349 "CONFIG_ARCH_IXP425";
    token_set 2350 "CONFIG_ARCH_MACHINE" "ixp425";
    token_set_m 2351 "CONFIG_IXP425_CSR";
    token_set_y 2352 "CONFIG_IXP425_CSR_ETH_ACC";
    token_set_y 2353 "CONFIG_IXP425_CSR_ETH_DB";
    token_set_y 2354 "CONFIG_IXP425_CSR_ETH_MII";
    token_set_y 2355 "CONFIG_SERIAL_CONSOLE";
    token_set_y 2356 "CONFIG_MTD";
    token_set_y 2357 "CONFIG_MTD_CFI_INTELEXT";
    token_set_y 2358 "CONFIG_BINFMT_ELF";
    token_set_y 2359 "CONFIG_SERIAL";
    token_set_y 2360 "CONFIG_SYSCTL";
    token_set_y 2361 "CONFIG_UNIX98_PTYS";
    token_set 2362 "CONFIG_UNIX98_PTY_COUNT" "256";
    token_set 2363 "CONFIG_BLK_DEV_RAM_SIZE" "16384";
    token_set 2364 "ENDIANESS_SUFFIX" "saeb";
    If (isset "CONFIG_GLIBC") [
      token_set_y 2366 "CONFIG_DYN_LINK" ];
    token_set_y 2367 "CONFIG_IXP425";
    If (notc (has_str "CONFIG_SDRAM_SIZE")) [
      set_copy 2371 "CONFIG_SDRAM_SIZE" "CONFIG_IXP425_SDRAM_SIZE" ];
    token_set_m 2374 "CONFIG_RG_KRGLDR" ];
  If (isset "CONFIG_IPSEC_USE_IXP4XX_CRYPTO") [
    token_set_y 2379 "CONFIG_IXP425_CSR_CRYPTO_ACC" ] ].

(** feature_config.c:2381-2524 *)
Definition general_features_20 : list stmt :=
  [
  If (isset "CONFIG_INCAIP_COMMON") [
    token_set 2385 "BOARD" "Infineon";
    token_set 2386 "FIRM" "Infineon";
    token_set 2388 "ARCH" "mips";
    token_set 2389 "LIBC_ARCH" "mips";
    token_set 2390 "ENDIANESS_SUFFIX" "eb";
    set_big_endian 2391 true;
    token_set_y 2392 "CONFIG_HAS_MMU";
    token_set_y 2393 "CONFIG_INCAIP_EVALBOARD";
    token_set_y 2394 "CONFIG_INCAIP";
    token_set_y 2395 "CONFIG_INCA_IP";
    token_set_y 2396 "CONFIG_MIPS";
    token_set_y 2397 "CONFIG_MIPS32";
    token_set_y 2398 "CONFIG_EXPERIMENTAL";
    token_set_y 2399 "CONFIG_RWSEM_GENERIC_SPINLOCK";
    token_set_y 2400 "CONFIG_NEW_IRQ";
    token_set_y 2401 "CONFIG_NONCOHERENT_IO";
    token_set_y 2402 "CONFIG_NEW_TIME_C";
    token_set_y 2403 "CONFIG_RAMFS";
    token_set_y 2409 "CONFIG_CPU_MIPS32";
    token_set_y 2410 "CONFIG_CPU_HAS_LLSC";
    token_set_y 2411 "CONFIG_CPU_HAS_SYNC";
    token_set_y 2414 "CONFIG_RG_FOOTPRINT_REDUCTION";
    token_set_y 2415 "CONFIG_COPY_CRAMFS_TO_RAM";
    token_set_y 2416 "CONFIG_CRAMFS_FS";
    token_set_y 2419 "CONFIG_SYSCTL";
    token_set_y 2420 "CONFIG_KCORE_ELF";
    token_set_y 2421 "CONFIG_BINFMT_ELF";
    token_set_y 2424 "CONFIG_MTD";
    token_set_y 2425 "CONFIG_MTD_CFI_AMDSTD";
    token_set_m 2426 "CONFIG_MTD_INCAIP";
    token_set_y 2427 "CONFIG_MTD_CONCAT";
    token_set_m 2430 "CONFIG_INCAIPSSC";
    token_set_y 2432 "CONFIG_UNIX98_PTYS";
    token_set 2433 "CONFIG_UNIX98_PTY_COUNT" "256";
    token_set_y 2436 "CONFIG_SERIAL_INCAIPASC";
    token_set_y 2437 "CONFIG_SERIAL_INCAIPASC_CONSOLE";
    token_set 2438 "CONFIG_INCAIPASC_DEFAULT_BAUDRATE" "115200";
    token_set_y 2439 "CONFIG_SERIAL_CORE";
    token_set_y 2440 "CONFIG_SERIAL_CORE_CONSOLE";
    token_set 2441 "CONFIG_RG_CONSOLE_DEVICE" "ttyS0";
    token_set_m 2442 "CONFIG_RG_KRGLDR";
    token_set_y 2451 "CONFIG_CROSSCOMPILE";
    token_set_y 2452 "CONFIG_MAGIC_SYSRQ";
    token_set 2455 "CONFIG_BLK_DEV_RAM_SIZE" "8192";
    set_cmd_line 2459 "CONFIG_CMDLINE"
      "%sconsole=ttyS0,115200 root=/dev/ram0 rw"
      [Sel "CONFIG_RG_RGLOADER" "quiet " ""];
    token_set_y 2461 "CONFIG_INCAIP_MUX";
    token_set_y 2462 "CONFIG_DEBUG_USER";
    token_set_m 2465 "CONFIG_INCAIP_SWITCH";
    If (notc (isset "CONFIG_RG_RGLOADER")) [
      token_set_m 2467 "CONFIG_INCAIP_SWITCH_API" ];
    token_set_m 2468 "CONFIG_INCAIP_ETHERNET";
    If (notc (isset "CONFIG_INCAIP_ALLTEK")) [
      token_set_m 2473 "CONFIG_INCAIPPWM" ] ];
  If (isset "CONFIG_INCAIP_MUX") [
    token_set_y 2480 "CONFIG_INCAIP_MUX_KEY0";
    token_set_y 2481 "CONFIG_INCAIP_MUX_KEY1";
    token_set_y 2482 "CONFIG_INCAIP_MUX_KEY2";
    token_set_y 2483 "CONFIG_INCAIP_MUX_KEY3";
    token_set_y 2484 "CONFIG_INCAIP_MUX_KEY4";
    token_set_y 2485 "CONFIG_INCAIP_MUX_KEY5";
    token_set_y 2486 "CONFIG_INCAIP_MUX_LED0";
    token_set_y 2487 "CONFIG_INCAIP_MUX_LED1";
    token_set_y 2488 "CONFIG_INCAIP_MUX_LED2";
    token_set_y 2489 "CONFIG_INCAIP_MUX_LED3";
    token_set_y 2490 "CONFIG_INCAIP_MUX_LED4";
    token_set_y 2491 "CONFIG_INCAIP_MUX_LED5";
    token_set_y 2492 "CONFIG_INCAIP_MUX_LED6";
    token_set_y 2493 "CONFIG_INCAIP_MUX_LED7";
    token_set_y 2494 "CONFIG_INCAIP_MUX_LED8";
    token_set_y 2495 "CONFIG_INCAIP_MUX_RXD";
    token_set_y 2496 "CONFIG_INCAIP_MUX_TXD";
    token_set_y 2497 "CONFIG_INCAIP_MUX_SSC1";
    token_set_y 2498 "CONFIG_INCAIP_MUX_FSC";
    token_set_y 2499 "CONFIG_INCAIP_MUX_DCL";
    token_set_y 2500 "CONFIG_INCAIP_MUX_DU";
    token_set_y 2501 "CONFIG_INCAIP_MUX_DD";
    IfElse (isset "CONFIG_INCAIP_ALLTEK") [
      token_set_y 2505 "CONFIG_INCAIP_MUX_P1_16";
      token_set_y 2506 "CONFIG_INCAIP_MUX_P1_17";
      token_set_y 2507 "CONFIG_INCAIP_MUX_P2_9";
      token_set_y 2508 "CONFIG_INCAIP_MUX_P2_10";
      token_set_y 2509 "CONFIG_INCAIP_MUX_P2_11";
      token_set_y 2510 "CONFIG_INCAIP_MUX_P2_12";
      token_set_y 2511 "CONFIG_INCAIP_MUX_P2_13";
      token_set_y 2512 "CONFIG_INCAIP_MUX_P2_14" ]
    [
      token_set_y 2516 "CONFIG_INCAIP_MUX_KEY6";
      token_set_y 2517 "CONFIG_INCAIP_MUX_KEY7";
      token_set_y 2518 "CONFIG_INCAIP_MUX_SSC2";
      token_set_y 2519 "CONFIG_INCAIP_MUX_PWM1";
      token_set_y 2520 "CONFIG_INCAIP_MUX_PWM2" ];
    token_set_y 2523 "CONFIG_INCAIP_MUX_P2_15" ] ].

(** feature_config.c:2526-2619 *)
Definition general_features_21 : list stmt :=
  [
  If (isset "CONFIG_CX8620X_COMMON_RGLOADER") [
    token_set 2529 "CONFIG_CX8620X_SDRAM_SIZE" "16";
    token_set_y 2531 "CONFIG_RG_NETWORK_BOOT";
    token_set_y 2532 "CONFIG_CX8620X_COMMON";
    token_set 2533 "CONFIG_FORCE_MAX_ZONEORDER" "12" ];
  If (isset "CONFIG_CX8620X_COMMON") [
    set_big_endian 2540 false;
    token_set_y 2541 "CONFIG_CONEXANT_COMMON";
    token_set_y 2542 "CONFIG_CX8620X";
    token_set_y 2543 "CONFIG_ARCH_CX8620X";
    token_set 2544 "CONFIG_ARCH_MACHINE" "cx8620x";
    token_set 2546 "ARCH" "arm";
    token_set 2547 "LIBC_ARCH" "arm";
    token_set_y 2548 "CONFIG_HAS_MMU";
    token_set_y 2549 "CONFIG_ARM";
    token_set_y 2550 "CONFIG_CPU_32";
    token_set_y 2551 "CONFIG_CPU_32v5";
    token_set_y 2552 "CONFIG_CPU_ARM926T";
    token_set_y 2554 "CONFIG_NO_UNALIGNED_ACCESS";
    token_set 2555 "CONFIG_ALIGNMENT_TRAP_MODE" "2";
    token_set_y 2556 "CONFIG_RWSEM_GENERIC_SPINLOCK";
    token_set 2560 "CONFIG_BLK_DEV_RAM_SIZE" "8192";
    token_set_y 2561 "CONFIG_RAMFS";
    token_set_y 2563 "CONFIG_CRAMFS_FS";
    token_set_y 2564 "CONFIG_COPY_CRAMFS_TO_RAM";
    If (notc (isset "CONFIG_LSP_DIST")) [
      token_set_y 2567 "CONFIG_RG_MODFS";
      token_set_y 2568 "CONFIG_RG_FOOTPRINT_REDUCTION" ];
    set_copy 2571 "CONFIG_SDRAM_SIZE" "CONFIG_CX8620X_SDRAM_SIZE";
    token_set 2574 "CONFIG_ZBOOT_ROM_TEXT" "0";
    token_set 2575 "CONFIG_ZBOOT_ROM_BSS" "0";
    token_set_y 2577 "CONFIG_KCORE_ELF";
    token_set_y 2579 "CONFIG_ALIGNMENT_TRAP";
    token_set_y 2581 "CONFIG_DEBUG_USER";
    If (notc (isset "CONFIG_RG_RGLOADER")) [
      token_set_y 2586 "CONFIG_DYN_LINK";
      token_set_y 2587 "CONFIG_PCI";
      token_set_y 2588 "CONFIG_PCI_RESET" ];
    set_cmd_line 2605 "CONFIG_CMDLINE"
      "console=%s,115200 root=/dev/ram0 rw%s"
      [GetStr "CONFIG_RG_CONSOLE_DEVICE"; Sel "CONFIG_RG_KGDB" " nohalt" ""];
    token_set_y 2606 "CONFIG_SERIAL_CONSOLE";
    token_set_y 2607 "CONFIG_MTD";
    token_set_y 2608 "CONFIG_MTD_CONCAT";
    token_set_y 2609 "CONFIG_MTD_CFI_INTELEXT";
    token_set_y 2610 "CONFIG_BINFMT_ELF";
    token_set_y 2611 "CONFIG_SERIAL";
    token_set_y 2612 "CONFIG_SYSCTL";
    token_set_y 2613 "CONFIG_UNIX98_PTYS";
    token_set 2614 "CONFIG_UNIX98_PTY_COUNT" "256";
    If (notc (isset "CONFIG_LSP_DIST")) [
      token_set_m 2616 "CONFIG_RG_KRGLDR" ];
    token_set_y 2617 "CONFIG_MAGIC_SYSRQ";
    token_set 2618 "CONFIG_RG_CONSOLE_DEVICE" "ttyS0" ] ].

(** feature_config.c:2621-2770 *)
Definition general_features_22 : list stmt :=
  [
  If (isset "CONFIG_COMCERTO_COMMON") [
    token_set_y 2626 "CONFIG_MINDSPEED_COMMON";
    token_set_y 2629 "CONFIG_COMCERTO";
    token_set_y 2630 "CONFIG_COMCERTO_SINGLE_IMAGE";
    token_set 2631 "CONFIG_ARCH_MACHINE" "comcerto";
    set_big_endian 2634 false;
    token_set 2635 "ARCH" "arm";
    token_set_y 2636 "CONFIG_ARM";
    token_set_y 2637 "CONFIG_UID16";
    token_set 2638 "LIBC_ARCH" "arm";
    token_set_y 2639 "CONFIG_CPU_ARM920T";
    token_set_y 2640 "CONFIG_HAS_MMU";
    token_set_y 2641 "CONFIG_CPU_32";
    token_set_y 2642 "CONFIG_CPU_32v4";
    token_set_y 2643 "CONFIG_CPU_ABRT_EV4T";
    token_set_y 2644 "CONFIG_CPU_CACHE_V4WT";
    token_set_y 2645 "CONFIG_CPU_CACHE_VIVT";
    token_set_y 2646 "CONFIG_CPU_COPY_V4WB";
    token_set_y 2647 "CONFIG_CPU_TLB_V4WBI";
    token_set 2648 "CONFIG_SPLIT_PTLOCK_CPUS" "4096";
    token_set_y 2649 "CONFIG_FLATMEM";
    token_set_y 2650 "CONFIG_FLAT_NODE_MEM_MAP";
    token_set_y 2652 "CONFIG_ARCH_COMCERTO";
    token_set_y 2653 "CONFIG_ARCH_M828XX";
    token_set_y 2654 "CONFIG_CSP_16M";
    token_set_y 2655 "CONFIG_M828XX_PROC_FS";
    token_set 2658 "MSP_CODE_LOCATION" "/lib/modules/msp.axf";
    token_set 2659 "MSP_NODE_LOCATION" "/dev/msp";
    token_set_y 2662 "CONFIG_MTD";
    token_set_y 2663 "CONFIG_MTD_COMCERTO";
    token_set_y 2664 "CONFIG_MTD_MAP_BANK_WIDTH_1";
    token_set_y 2665 "CONFIG_MTD_MAP_BANK_WIDTH_2";
    token_set_y 2666 "CONFIG_MTD_MAP_BANK_WIDTH_4";
    token_set_y 2667 "CONFIG_MTD_CONCAT";
    token_set_y 2668 "CONFIG_MTD_CFI_INTELEXT";
    token_set_y 2669 "CONFIG_MTD_CFI_AMDSTD";
    token_set_y 2670 "CONFIG_MTD_CFI_I1";
    token_set_y 2671 "CONFIG_MTD_CFI_I2";
    token_set_y 2672 "CONFIG_MTD_CFI_UTIL";
    token_set 2673 "CONFIG_MTD_CFI_AMDSTD_RETRY" "2";
    token_set_y 2674 "CONFIG_OBSOLETE_INTERMODULE";
    token_set 2677 "CONFIG_SDRAM_SIZE" "112";
    token_set_y 2680 "CONFIG_PCI";
    token_set_y 2681 "CONFIG_RWSEM_GENERIC_SPINLOCK";
    token_set_y 2684 "CONFIG_SERIAL_8250";
    token_set_y 2685 "CONFIG_SERIAL_8250_COMCERTO";
    token_set 2686 "CONFIG_SERIAL_8250_NR_UARTS" "2";
    token_set 2687 "CONFIG_SERIAL_8250_RUNTIME_UARTS" "2";
    token_set_y 2690 "CONFIG_SPI";
    token_set_y 2691 "CONFIG_COMCERTO_SPI";
    token_set_y 2692 "CONFIG_SPI_SI3220";
    token_set_y 2695 "CONFIG_SERIAL_CORE";
    token_set_y 2696 "CONFIG_SERIAL_CORE_CONSOLE";
    token_set_y 2697 "CONFIG_SERIAL_8250_CONSOLE";
    token_set 2698 "CONFIG_RG_CONSOLE_DEVICE" "ttyS0";
    token_set_y 2707 "CONFIG_RG_INITFS_RAMFS";
    token_set_y 2708 "CONFIG_RG_MAINFS_CRAMFS";
    token_set_y 2709 "CONFIG_RG_MODFS_CRAMFS";
    set_cmd_line 2715 "CONFIG_CMDLINE"
      "console=%s,115200 root=/dev/ram0 rw%s"
      [GetStr "CONFIG_RG_CONSOLE_DEVICE"; Sel "CONFIG_RG_KGDB" " nohalt" ""];
    token_set 2718 "CONFIG_ZBOOT_ROM_TEXT" "0";
    token_set 2719 "CONFIG_ZBOOT_ROM_BSS" "0";
    token_set_y 2721 "CONFIG_KCORE_ELF";
    token_set_y 2722 "CONFIG_SYSCTL";
    token_set_y 2723 "CONFIG_UNIX98_PTYS";
    token_set_y 2725 "CONFIG_ALIGNMENT_TRAP";
    token_set_y 2727 "CONFIG_DEBUG_USER";
    token_set_y 2728 "CONFIG_BINFMT_ELF";
    token_set 2729 "CONFIG_UNIX98_PTY_COUNT" "256";
    token_set_y 2730 "CONFIG_MAGIC_SYSRQ";
    If (notc (isset "CONFIG_RG_RGLOADER")) [
      token_set_y 2733 "CONFIG_DYN_LINK" ];
    IfElse (isset "CONFIG_COMCERTO_MALINDI") [
      token_set_y 2737 "CONFIG_EVM_MALINDI";
      token_set 2738 "CONFIG_LOCALVERSION" "malindi";
      token_set 2739 "BOARD" "Malindi";
      token_set 2740 "CONFIG_HW_NUMBER_OF_FXS_PORTS" "4" ]
    [
      If (isset "CONFIG_COMCERTO_NAIROBI") [
        token_set_y 2745 "CONFIG_EVM_SUPERMOMBASA";
        token_set 2746 "CONFIG_LOCALVERSION" "nairobi";
        token_set 2747 "BOARD" "Nairobi";
        token_set 2748 "CONFIG_HW_NUMBER_OF_FXS_PORTS" "2" ] ] ];
  If (isset "CONFIG_RG_IPPHONE" ||| isset "CONFIG_RG_ATA" ||| isset "CONFIG_RG_PBX") [
    token_set_y 2755 "CONFIG_RG_VOIP";
    If (notc (isset "CONFIG_RG_JPKG") &&&
        notc (has_str "CONFIG_HW_NUMBER_OF_FXS_PORTS")) [
      token_set 2760 "CONFIG_HW_NUMBER_OF_FXS_PORTS" "0" ] ];
  If (isset "CONFIG_RG_PBX") [
    token_set_y 2766 "CONFIG_RG_SAMPLES";
    token_set_y 2767 "CONFIG_RG_LIBMAD";
    If (notc (isset "CONFIG_RG_UML")) [
      token_set_y 2769 "CONFIG_RG_DISK_MNG" ] ] ].

(** feature_config.c:2772-2845 *)
Definition general_features_23 : list stmt :=
  [
  If (isset "CONFIG_RG_VOIP_RV_SIP") [
    token_set_y 2774 "CONFIG_RG_VOIP_RV";
    token_set_y 2775 "CONFIG_RG_VOIP_SIP" ];
  If (isset "CONFIG_RG_VOIP_RV_H323") [
    token_set_y 2780 "CONFIG_RG_VOIP_RV";
    token_set_y 2781 "CONFIG_RG_VOIP_H323" ];
  If (isset "CONFIG_RG_VOIP_RV_MGCP") [
    token_set_y 2786 "CONFIG_RG_VOIP_RV";
    token_set_y 2787 "CONFIG_RG_VOIP_MGCP" ];
  If (isset "CONFIG_RG_VOIP_OSIP") [
    token_set_y 2791 "CONFIG_RG_VOIP_SIP" ];
  If (isset "CONFIG_RG_VOIP_ASTERISK_SIP") [
    token_set_y 2795 "CONFIG_RG_VOIP_ASTERISK";
    token_set_y 2796 "CONFIG_RG_VOIP_SIP" ];
  If (isset "CONFIG_RG_VOIP_ASTERISK_H323") [
    token_set_y 2801 "CONFIG_RG_VOIP_ASTERISK";
    token_set_y 2802 "CONFIG_RG_VOIP_H323";
    token_set_y 2803 "CONFIG_RG_CXX" ];
  If (isset "CONFIG_RG_VOIP_ASTERISK_MGCP_GW") [
    token_set_y 2808 "CONFIG_RG_VOIP_ASTERISK";
    token_set_y 2809 "CONFIG_RG_VOIP_MGCP" ];
  If (isset "CONFIG_RG_VOIP_ASTERISK_MGCP_CALL_AGENT") [
    token_set_y 2814 "CONFIG_RG_VOIP_ASTERISK";
    token_set_y 2815 "CONFIG_RG_VOIP_MGCP_CALL_AGENT" ];
  If (isset "CONFIG_RG_VOIP_SIP") [
    token_set_y 2819 "CONFIG_RG_VOIP_USE_SIP_ALG" ];
  If (isset "CONFIG_RG_VOIP_RV" |||
      isset "CONFIG_RG_VOIP_OSIP" |||
      isset "CONFIG_RG_VOIP_ASTERISK") [
    token_set_y 2824 "CONFIG_RG_VOIP" ];
  If (isset "CONFIG_RG_VOIP") [
    token_set_y 2829 "CONFIG_RG_THREADS";
    token_set_m 2830 "CONFIG_RG_JRTP" ];
  If (isset "CONFIG_RG_VOIP_ASTERISK") [
    token_set_y 2835 "CONFIG_RG_THREADS";
    token_set_y 2836 "CONFIG_RG_TERMCAP";
    token_set_y 2837 "CONFIG_ULIBC_DO_C99_MATH";
    token_set_y 2838 "CONFIG_ULIBC_SHARED" ];
  If (isset "CONFIG_INCAIP_WATCHDOG") [
    token_set_y 2843 "CONFIG_INCAIP_WATCHDOG_HEARTBEAT";
    token_set 2844 "CONFIG_INCAIP_WATCHDOG_TIMEOUT" "4" ] ].

(** feature_config.c:2847-2934 *)
Definition general_features_24 : list stmt :=
  [
  If (isset "CONFIG_INFINEON_TWINPASS") [
    token_set 2851 "BOARD" "TWINPASS";
    token_set 2852 "FIRM" "INFINEON";
    token_set_y 2853 "CONFIG_BOOTLDR_UBOOT";
    token_set_y 2857 "CONFIG_MODULES";
    token_set_y 2858 "CONFIG_NEW_IRQ";
    token_set_y 2859 "CONFIG_NONCOHERENT_IO";
    token_set_y 2860 "CONFIG_NEW_TIME_C";
    token_set_y 2861 "CONFIG_PAGE_SIZE_4KB";
    token_set_y 2862 "CONFIG_RAMFS";
    If (isset "CONFIG_PCI") [
      token_set_y 2866 "CONFIG_PCI_AUTO";
      token_set_y 2867 "CONFIG_DANUBE_PCI";
      token_set_y 2868 "CONFIG_DANUBE_PCI_HW_SWAP" ];
    token_set_y 2871 "CONFIG_SYSCTL";
    token_set_y 2872 "CONFIG_KCORE_ELF";
    token_set_y 2873 "CONFIG_BINFMT_ELF";
    token_set_y 2876 "CONFIG_BLK_DEV_LOOP";
    token_set_y 2878 "CONFIG_UNIX98_PTYS";
    token_set 2879 "CONFIG_UNIX98_PTY_COUNT" "32";
    token_set_y 2880 "CONFIG_NET_HW_FLOWCONTROL";
    token_set_y 2881 "CONFIG_CROSSCOMPILE";
    token_set_y 2882 "CONFIG_MAGIC_SYSRQ";
    token_set 2885 "ARCH" "mips";
    token_set_y 2886 "CONFIG_MIPS";
    token_set_y 2887 "CONFIG_MIPS32";
    token_set_y 2888 "CONFIG_CPU_MIPS32";
    token_set_y 2889 "CONFIG_EXPERIMENTAL";
    token_set_y 2890 "CONFIG_CPU_HAS_PREFETCH";
    token_set_y 2891 "CONFIG_CPU_HAS_LLSC";
    token_set_y 2892 "CONFIG_CPU_HAS_SYNC";
    token_set_y 2893 "CONFIG_DANUBE";
    token_set_y 2894 "CONFIG_BOARD_TWINPASS_E";
    token_set_y 2895 "CONFIG_RWSEM_GENERIC_SPINLOCK";
    token_set_y 2901 "CONFIG_SERIAL_IFX_ASC";
    token_set_y 2902 "CONFIG_SERIAL_IFX_ASC_CONSOLE";
    token_set 2903 "CONFIG_IFX_ASC_DEFAULT_BAUDRATE" "115200";
    token_set_y 2904 "CONFIG_SERIAL_CORE_CONSOLE";
    IfElse (isset "CONFIG_RG_DANUBE_DUALCORE") [
      token_set_y 2912 "CONFIG_IFX_ASC_CONSOLE_ASC0";
      token_set 2913 "CONFIG_RG_CONSOLE_DEVICE" "ttyS0" ]
    [
      token_set_y 2917 "CONFIG_IFX_ASC_CONSOLE_ASC1";
      token_set 2918 "CONFIG_RG_CONSOLE_DEVICE" "ttyS1" ];
    token_set_y 2921 "CONFIG_RG_FOOTPRINT_REDUCTION";
    token_set_y 2922 "CONFIG_COPY_CRAMFS_TO_RAM";
    token_set_y 2923 "CONFIG_CRAMFS_FS";
    token_set_y 2924 "CONFIG_RG_MODFS";
    set_cmd_line 2928 "CONFIG_CMDLINE"
      "console=%s,115200"
      [GetStr "CONFIG_RG_CONSOLE_DEVICE"];
    set_big_endian 2931 true;
    token_set 2932 "LIBC_ARCH" "mips";
    token_set_y 2933 "CONFIG_HAS_MMU" ] ].

(** feature_config.c:2936-3068 *)
Definition general_features_25 : list stmt :=
  [
  If (isset "CONFIG_ADM5120_COMMON") [
    token_set 2940 "BOARD" "ADM5120";
    token_set 2941 "FIRM" "ADMTEK";
    set_big_endian 2943 false;
    token_set 2944 "ARCH" "mips";
    token_set 2945 "LIBC_ARCH" "mips";
    token_set_y 2946 "CONFIG_HAS_MMU";
    token_set_y 2947 "CONFIG_MIPS_AM5120";
    token_set_y 2948 "CONFIG_MIPS";
    token_set_y 2949 "CONFIG_MIPS32";
    token_set_y 2950 "CONFIG_EXPERIMENTAL";
    token_set_y 2951 "CONFIG_RWSEM_GENERIC_SPINLOCK";
    token_set_y 2952 "CONFIG_NEW_IRQ";
    token_set_y 2953 "CONFIG_NONCOHERENT_IO";
    token_set_y 2954 "CONFIG_NEW_TIME_C";
    token_set 2955 "MAX_DMA_ADDRESS" "0x1000000";
    token_set 2956 "IO_SPACE_LIMIT" "0xffffffff";
    token_set 2957 "CONFIG_SDRAM_SIZE" "0xffff00";
    token_set_y 2958 "CONFIG_RAMFS";
    token_set_y 2961 "CONFIG_CPU_MIPS32";
    token_set_y 2962 "CONFIG_CPU_HAS_LLSC";
    token_set_y 2963 "CONFIG_CPU_HAS_SYNC";
    token_set_y 2964 "CONFIG_CPU_HAS_PREFETCH";
    token_set_y 2965 "CONFIG_VTAG_ICACHE";
    token_set_y 2967 "CONFIG_RG_FOOTPRINT_REDUCTION";
    token_set_y 2968 "CONFIG_COPY_CRAMFS_TO_RAM";
    token_set_y 2969 "CONFIG_CRAMFS_FS";
    If (notc (isset "CONFIG_RG_RGLOADER")) [
      If (IS_DIST "ADM5120_ATA") [
        token_set_y 2973 "CONFIG_RG_NONCOMPRESSED_USERMODE_IMAGE" ];
      token_set_y 2974 "CONFIG_RG_MODFS" ];
    token_set_y 2978 "CONFIG_SYSCTL";
    token_set_y 2979 "CONFIG_KCORE_ELF";
    token_set_y 2980 "CONFIG_BINFMT_ELF";
    token_set_y 2983 "CONFIG_MTD";
    token_set_y 2984 "CONFIG_MTD_CFI_AMDSTD";
    token_set_m 2985 "CONFIG_ADM5120_MTD";
    token_set_y 2987 "CONFIG_UNIX98_PTYS";
    token_set 2988 "CONFIG_UNIX98_PTY_COUNT" "256";
    token_set_m 2991 "CONFIG_ADM5120_SWITCH";
    token_set_y 2994 "CONFIG_ADM5120_SERIAL";
    token_set_y 2995 "CONFIG_SERIAL_CONSOLE";
    token_set 2996 "CONFIG_RG_CONSOLE_DEVICE" "ttyS0";
    If (notc (isset "CONFIG_LSP_DIST")) [
      token_set_m 2998 "CONFIG_RG_KRGLDR" ];
    token_set_y 3001 "CONFIG_CROSSCOMPILE";
    token_set_y 3002 "CONFIG_MAGIC_SYSRQ";
    token_set 3005 "CONFIG_BLK_DEV_RAM_SIZE" "16384";
    set_cmd_line 3009 "CONFIG_CMDLINE"
      "%sconsole=ttyS0,115200 root=/dev/ram0 rw"
      [Sel "CONFIG_RG_RGLOADER" "quiet " ""];
    token_set_y 3011 "CONFIG_DEBUG_USER" ];
  If (isset "CONFIG_RG_CABLEHOME" ||| isset "CONFIG_RG_DSL_CH") [
    token_set_y 3016 "CONFIG_RG_TODC";
    token_set_y 3017 "CONFIG_RG_PING";
    token_set_y 3018 "CONFIG_RG_SYSLOG_REMOTE";
    token_set_y 3019 "CONFIG_RG_SSL";
    token_set_y 3020 "CONFIG_RG_ALG_H323";
    token_set_y 3021 "CONFIG_RG_ALG_MSNMS";
    token_set_y 3022 "CONFIG_RG_ALG_AIM";
    token_set_y 3023 "CONFIG_RG_ALG_PPTP";
    token_set_y 3024 "CONFIG_RG_ALG_IPSEC";
    token_set_y 3025 "CONFIG_RG_ALG_L2TP";
    token_set_y 3026 "CONFIG_RG_CH_EVT_RPT" ];
  If (isset "CONFIG_RG_CABLEHOME") [
    If (isset "CONFIG_RG_CABLEHOME_10") [
      token_set_y 3033 "CONFIG_RG_RMT_FW_CONF" ];
    If (notc (isset "CONFIG_RG_CABLEHOME_EMBEDDED")) [
      token_set_y 3036 "CONFIG_RG_STANDALONE_PS";
      token_set_y 3037 "CONFIG_RG_RMT_UPDATE" ];
    token_set_y 3040 "CONFIG_BIDIR_NAT";
    token_set_y 3041 "CONFIG_RG_CH_FW";
    token_set_y 3042 "CONFIG_RG_CONN_SPEED";
    token_set_y 3043 "CONFIG_RG_KERBEROS";
    token_set_y 3044 "CONFIG_RG_CERT";
    token_set_y 3045 "CONFIG_RG_XML";
    token_set_m 3046 "CONFIG_RG_PKTCBL";
    token_set_y 3047 "CABLEHOME_TEP_BUG";
    token_set_m 3048 "CONFIG_RG_BRIDGE";
    token_set_m 3049 "CONFIG_RG_USFS";
    token_set_m 3050 "CONFIG_RG_BROUTE";
    token_set_m 3051 "CONFIG_RG_CHWAN" ];
  If (isset "CONFIG_RG_WAN_UPGRADE" |||
      isset "CONFIG_RG_RMT_FW_CONF" |||
      isset "CONFIG_RGLOADER_CLI" |||
      isset "CONFIG_RG_DDNS") [
    token_set_y 3059 "CONFIG_RG_WGET" ];
  If (isset "CONFIG_MTD") [
    token_set_y 3064 "CONFIG_MTD_PARTITIONS";
    token_set_y 3065 "CONFIG_MTD_BLOCK";
    token_set_y 3066 "CONFIG_MTD_CFI";
    token_set_y 3067 "CONFIG_MTD_GEN_PROBE" ] ].

(** feature_config.c:3070-3212 *)
Definition general_features_26 : list stmt :=
  [
  If (isset "CONFIG_RG_KGDB") [
    IfElse (isset "CONFIG_ARM") [
      token_set_y 3074 "CONFIG_KGDB";
      token_set_y 3075 "CONFIG_KGDB_SERIAL";
      If (isset "CONFIG_IXP425_COMMON") [
        token_set_y 3077 "CONFIG_DEBUG_LL" ];
      token_set_y 3078 "CONFIG_MAGIC_SYSRQ" ]
    [
      IfElse (isset "CONFIG_PCBOX" &&& notc (isset "CONFIG_RG_UML")) [
        IfElse (notc (os_is "LINUX_24")) [
          token_set_y 3083 "CONFIG_GDB" ]
        [
          token_set_y 3086 "CONFIG_X86_REMOTE_DEBUG";
          token_set_y 3087 "CONFIG_KGDB_THREAD";
          token_set_y 3088 "CONFIG_KERNEL_ASSERTS";
          token_set_y 3089 "CONFIG_MAGIC_SYSRQ" ] ]
      [
        If (isset "CONFIG_MIPS") [
          token_set_y 3095 "CONFIG_KGDB";
          token_set_y 3100 "CONFIG_REMOTE_DEBUG" ] ] ] ];
  If (isset "CONFIG_RG_IPV6") [
    token_set_y 3107 "CONFIG_IPV6";
    If (isset "CONFIG_RG_OS_LINUX_24") [
      token_set_y 3110 "CONFIG_IPV6_RESTRICTED_DOUBLE_BIND";
      token_set_y 3111 "CONFIG_IPV6_6TO4_NEXTHOP" ];
    token_set_y 3113 "CONFIG_RG_FLEX";
    token_set_y 3114 "CONFIG_RG_USAGI" ];
  If (isset "CONFIG_RG_PERM_STORAGE" &&&
      notc (isset "CONFIG_RG_FLASHDISK") &&&
      notc (isset "CONFIG_MTD") &&&
      notc (isset "CONFIG_RG_UML") &&&
      notc (IS_DIST "JPKG_UML") &&&
      notc (isset "CONFIG_VX_TFFS")) [
    token_set_m 3122 "CONFIG_FLASH" ];
  If (notc (isset "CONFIG_GCC_CANNOT_OPTIMIZE")) [
    token_set_y 3127 "CONFIG_GCC_CAN_INLINE" ];
  If (isset "CONFIG_RG_DHCPC" ||| isset "CONFIG_RG_DHCPS" ||| isset "CONFIG_RG_DHCPR") [
    token_set_m 3132 "CONFIG_RG_DHCP_PKTFIL" ];
  If (isset "CONFIG_RG_DHCPS") [
    token_set_y 3136 "CONFIG_RG_PING" ];
  If (isset "CONFIG_RG_8021X_TLS" |||
      isset "CONFIG_RG_8021X_TTLS" |||
      isset "CONFIG_RG_8021X_MD5" |||
      isset "CONFIG_RG_8021X_RADIUS") [
    token_set_y 3141 "CONFIG_RG_8021X" ];
  If (isset "CONFIG_RG_8021X") [
    token_set_m 3145 "CONFIG_RG_8021X_PKTFIL" ];
  If (isset "CONFIG_FREESWAN" |||
      isset "CONFIG_RG_8021X_TLS" |||
      isset "CONFIG_RG_8021X_TTLS") [
    token_set_y 3150 "CONFIG_RG_X509" ];
  If (isset "CONFIG_RG_SSL" ||| isset "CONFIG_RG_X509") [
    token_set_y 3154 "CONFIG_RG_CERT" ];
  If (isset "CONFIG_RG_RMT_FW_CONF" ||| isset "CONFIG_RG_UCD_SNMP_V3") [
    token_set_y 3158 "CONFIG_RG_CRYPTO" ];
  If (isset "CONFIG_RG_CERT" ||| isset "CONFIG_RG_CRYPTO") [
    token_set_y 3162 "CONFIG_RG_OPENSSL" ];
  If (isset "CONFIG_RG_OPENSSL") [
    token_set_y 3165 "CONFIG_RG_CRYPTO" ];
  If (isset "CONFIG_RG_IGD" ||| isset "CONFIG_RG_TR_064") [
    token_set_y 3168 "CONFIG_RG_UPNP" ];
  If (isset "CONFIG_RG_UPNP" ||| isset "CONFIG_RG_DSLHOME") [
    token_set_y 3172 "CONFIG_RG_XML";
    token_set_y 3173 "CONFIG_RG_MGT_IGD" ];
  If (isset "CONFIG_OPENRG" &&& isset "CONFIG_RG_WBM") [
    token_set_y 3177 "CONFIG_RG_SESSION_MEMORY" ];
  If (isset "CONFIG_OPENRG" &&& (isset "CONFIG_RG_WBM" ||| isset "CONFIG_RG_SSI")) [
    token_set_y 3182 "CONFIG_RG_HTTPS";
    token_set_y 3183 "CONFIG_RG_LIBIMAGE_DIM";
    If (notc is_gui_selected) [
      select_all_themes ] ];
  If (isset "CONFIG_RG_LIBIMAGE_DIM") [
    token_set_y 3190 "CONFIG_RG_LIBIMAGE" ];
  If (isset "CONFIG_RG_SSI") [
    token_set_y 3193 "CONFIG_RG_HTTPS" ];
  If (isset "CONFIG_RG_HTTPS") [
    token_set_y 3196 "CONFIG_HTTP_CGI_PROCESS" ];
  If (isset "CONFIG_RG_ALG_MSNMS") [
    token_set_y 3199 "CONFIG_RG_ALG_SIP" ];
  If (isset "CONFIG_RG_PPP_DEFLATE") [
    token_set_y 3203 "CONFIG_ZLIB_INFLATE";
    token_set_y 3204 "CONFIG_ZLIB_DEFLATE" ];
  If (isset "CONFIG_RG_TZ_COMMON" ||| isset "CONFIG_RG_TZ_FULL") [
    token_set_y 3209 "CONFIG_RG_AUTO_DST";
    If (notc (isset "CONFIG_RG_TZ_YEARS")) [
      token_set 3211 "CONFIG_RG_TZ_YEARS" "5" ] ] ].

(** feature_config.c:3217-3349 *)
Definition general_features_27 : list stmt :=
  [
  If (isset "CONFIG_RG_FIREWALL" ||| isset "CONFIG_RG_NAT" ||| isset "CONFIG_RG_RNAT") [
    token_set_y 3220 "CONFIG_RG_GENERIC_PROXY";
    If (isset "MODULE_RG_WLAN_AND_ADVANCED_WLAN") [
      token_set_y 3222 "CONFIG_RG_HTTP_AUTH" ];
    token_set_y 3223 "CONFIG_RG_ALG_USERSPACE";
    token_set_m 3224 "CONFIG_RG_JFW";
    token_set_y 3225 "CONFIG_RG_NETOBJ" ];
  If (isset "CONFIG_ZERO_CONFIGURATION") [
    token_set_y 3229 "CONFIG_ZC_AUTO_CONFIG_NON_PNP" ];
  If (isset "CONFIG_RG_WPA") [
    token_set_y 3232 "CONFIG_RG_WPA_WBM" ];
  If (isset "CONFIG_RG_8021X") [
    token_set_y 3235 "CONFIG_RG_8021X_WBM" ];
  If (isset "CONFIG_RG_8021Q_IF") [
    token_set_y 3238 "CONFIG_RG_VLAN_8021Q" ];
  If (isset "CONFIG_RG_VLAN_8021Q") [
    token_set_y 3241 "CONFIG_VLAN_8021Q" ];
  If (isset "CONFIG_FILESERVER_KERNEL_CONFIG") [
    IfElse (isset "CONFIG_RG_OS_LINUX_24") [
      token_set_y 3248 "CONFIG_RG_USB";
      token_set_m 3249 "CONFIG_USB_OHCI";
      token_set_m 3250 "CONFIG_USB_UHCI";
      token_set_m 3251 "CONFIG_USB_EHCI_HCD" ]
    [
      token_set_y 3255 "CONFIG_USB";
      token_set_y 3256 "CONFIG_USB_OHCI_HCD";
      token_set_y 3257 "CONFIG_USB_UHCI_HCD";
      token_set_y 3258 "CONFIG_USB_EHCI_HCD" ];
    token_set_y 3261 "CONFIG_USB_DEVICEFS";
    If (notc (str_is "CONFIG_FILESERVER_KERNEL_CONFIG" "USB")) [
      token_set_y 3266 "CONFIG_IEEE1394";
      token_set_y 3267 "CONFIG_IEEE1394_OHCI1394";
      IfElse (isset "CONFIG_RG_OS_LINUX_24") [
        token_set_m 3272 "CONFIG_IEEE1394_SBP2" ]
      [
        token_set_y 3275 "CONFIG_IEEE1394_SBP2" ] ];
    token_set_y 3280 "CONFIG_USB_STORAGE";
    token_set_y 3285 "CONFIG_HOTPLUG" ];
  If (isset "CONFIG_RG_USB_SLAVE") [
    token_set_m 3290 "CONFIG_RG_RNDIS";
    token_set_y 3291 "CONFIG_USB_RNDIS";
    token_set_y 3292 "CONFIG_RG_USB" ];
  If (isset "CONFIG_IXP425_ATM") [
    token_set_y 3297 "CONFIG_ATM";
    token_set_y 3298 "CONFIG_IXP425_CSR_ATM" ];
  If (isset "CONFIG_PRISM2_PCI") [
    token_set_y 3303 "CONFIG_INTERSIL_COMMON";
    token_set_y 3304 "CONFIG_NET_RADIO";
    token_set_y 3305 "CONFIG_NET_WIRELESS";
    token_set_y 3306 "CONFIG_PRISM2_LOAD_FIRMWARE" ];
  If (isset "CONFIG_ISL38XX") [
    token_set_y 3311 "CONFIG_INTERSIL_COMMON";
    token_set_y 3312 "CONFIG_NET_RADIO";
    token_set_y 3313 "CONFIG_NET_WIRELESS";
    token_set_y 3314 "INTERSIL_EVENTS" ];
  If (isset "CONFIG_ISL_SOFTMAC") [
    token_set_y 3319 "CONFIG_INTERSIL_COMMON";
    token_set_y 3320 "CONFIG_NET_RADIO";
    token_set_y 3321 "CONFIG_NET_WIRELESS" ];
  If (isset "CONFIG_RALINK_RT2560" |||
      isset "CONFIG_AGN100" |||
      isset "CONFIG_RALINK_RT2561") [
    token_set_y 3327 "CONFIG_NET_RADIO";
    token_set_y 3328 "CONFIG_NET_WIRELESS" ];
  If (isset "CONFIG_HW_80211G_BCM43XX") [
    token_set_y 3333 "CONFIG_NET_RADIO";
    token_set_y 3334 "CONFIG_NET_WIRELESS";
    token_set 3335 "CONFIG_BCM43XX_MODE" "AP" ];
  If (isset "CONFIG_RG_RGLOADER") [
    token_set_y 3339 "CONFIG_RG_BOOTSTRAP" ];
  If (isset "CONFIG_RG_FOOTPRINT_REDUCTION") [
    token_set_y 3343 "CONFIG_RG_KERNEL_NEEDED_SYMBOLS";
    If (isset "CONFIG_RG_RGLOADER") [
      token_set_y 3346 "CONFIG_SMALL_FLASH";
      token_set_y 3347 "CONFIG_RG_NONCOMPRESSED_USERMODE_IMAGE" ] ] ].

(** feature_config.c:3351-3490 *)
Definition general_features_28 : list stmt :=
  [
  If (isset "CONFIG_RG_OS_LINUX_26") [
    token_set_y 3353 "CONFIG_RG_LARGE_FILE_SUPPORT";
    token_set_y 3354 "CONFIG_RG_MAINFS";
    If (isset "CONFIG_RG_INITFS_RAMFS") [
      token_set 3358 "CONFIG_INITRAMFS_SOURCE" "$(RAMDISK_MOUNT_POINT)";
      token_set 3359 "CONFIG_INITRAMFS_ROOT_UID" "$(shell id -u)";
      token_set 3360 "CONFIG_INITRAMFS_ROOT_GID" "$(shell id -g)" ];
    If (isset "CONFIG_RG_MAINFS_CRAMFS") [
      token_set_y 3364 "CONFIG_CRAMFS_FS" ];
    If (isset "CONFIG_RG_MODFS_CRAMFS") [
      token_set_y 3368 "CONFIG_CRAMFS_FS";
      token_set_y 3369 "CONFIG_RG_MODFS" ];
    If (isset "CONFIG_CRAMFS_FS") [
      If (notc (isset "CONFIG_RG_JPKG_SRC")) [
        token_set_y 3375 "CONFIG_CRAMFS_FS_COMMON" ];
      token_set_y 3377 "CONFIG_CRAMFS";
      token_set_y 3378 "CONFIG_ZLIB_INFLATE";
      token_set_y 3381 "CONFIG_CRAMFS_DYN_BLOCKSIZE";
      If (notc (has_str "CONFIG_RG_CRAMFS_COMP_METHOD")) [
        IfElse (isset "CONFIG_RG_NONCOMPRESSED_USERMODE_IMAGE") [
          token_set 3386 "CONFIG_RG_CRAMFS_COMP_METHOD" "none" ]
        [
          token_set 3388 "CONFIG_RG_CRAMFS_COMP_METHOD" "lzma" ] ];
      If (isset "CONFIG_CRAMFS_DYN_BLOCKSIZE") [
        IfElse (str_is "CONFIG_RG_CRAMFS_COMP_METHOD" "lzma") [
          token_set 3396 "CONFIG_CRAMFS_BLKSZ" "65536" ]
        [
          token_set 3399 "CONFIG_CRAMFS_BLKSZ" "32768" ] ] ] ];
  If (isset "CONFIG_RG_OS_LINUX_24") [
    If (isset "CONFIG_SIMPLE_RAMDISK") [
      token_set_y 3407 "CONFIG_RG_INITFS_RAMDISK" ];
    If (notc (isset "CONFIG_RG_INITFS_RAMDISK")) [
      token_set_y 3410 "CONFIG_RG_ROOTFS_TMPFS" ];
    If (isset "CONFIG_RG_MODFS") [
      token_set_y 3414 "CONFIG_ROMFS_FS";
      token_set_y 3415 "CONFIG_RG_MODFS_ROMFS" ];
    If (isset "CONFIG_RG_ROOTFS_TMPFS") [
      token_set_y 3420 "CONFIG_TMPFS";
      token_set_y 3421 "CONFIG_RG_INITFS_CRAMFS" ];
    token_set_y 3424 "CONFIG_RG_LARGE_FILE_SUPPORT";
    If (isset "CONFIG_RG_INITFS_RAMDISK") [
      token_set_y 3428 "CONFIG_BLK_DEV_INITRD";
      token_set_y 3429 "CONFIG_BLK_DEV_RAM";
      token_set_y 3430 "CONFIG_RG_ROOTFS_RAMDISK";
      If (notc (isset "CONFIG_RG_UML")) [
        token_set_y 3432 "CONFIG_EMBEDDED_RAMDISK" ];
      If (notc (isset "CONFIG_RG_RGLOADER") ||| isset "CONFIG_RG_JPKG") [
        token_set_y 3436 "CONFIG_EXT2_FS" ] ];
    If (isset "CONFIG_CRAMFS_FS") [
      token_set_y 3442 "CONFIG_CRAMFS_FS_COMMON";
      token_set_y 3444 "CONFIG_CRAMFS";
      token_set_y 3445 "CONFIG_ZLIB_INFLATE";
      If (isset "CONFIG_COPY_CRAMFS_TO_RAM") [
        token_set_y 3450 "CONFIG_CRAMFS_DYN_BLOCKSIZE" ];
      If (notc (has_str "CONFIG_RG_CRAMFS_COMP_METHOD")) [
        IfElse (isset "CONFIG_RG_NONCOMPRESSED_USERMODE_IMAGE") [
          token_set 3456 "CONFIG_RG_CRAMFS_COMP_METHOD" "none" ]
        [
          token_set 3458 "CONFIG_RG_CRAMFS_COMP_METHOD" "lzma" ] ];
      If (isset "CONFIG_CRAMFS_DYN_BLOCKSIZE") [
        IfElse (str_is "CONFIG_RG_CRAMFS_COMP_METHOD" "lzma") [
          token_set 3466 "CONFIG_CRAMFS_BLKSZ" "65536" ]
        [
          token_set 3469 "CONFIG_CRAMFS_BLKSZ" "32768" ] ] ] ];
  block [
    If (strz_is "CONFIG_RG_KERNEL_COMP_METHOD" "lzma") [
      token_set_y 3482 "CONFIG_RG_LZMA_COMPRESSED_KERNEL" ];
    If (strz_is "CONFIG_RG_KERNEL_COMP_METHOD" "gzip") [
      token_set_y 3484 "CONFIG_RG_GZIP_COMPRESSED_KERNEL" ];
    If (strz_is "CONFIG_RG_KERNEL_COMP_METHOD" "bzip2") [
      token_set_y 3486 "CONFIG_RG_BZIP2_COMPRESSED_KERNEL" ];
    If (isset "CONFIG_RG_BZIP2_COMPRESSED_KERNEL") [
      token_set_y 3489 "CONFIG_RG_BZIP2" ] ] ].

(** feature_config.c:3492-3637 *)
Definition general_features_29 : list stmt :=
  [
  If (isset "CONFIG_HW_USB_HOST_UHCI") [
    IfElse (notc (isset "CONFIG_RG_OS_LINUX_26")) [
      token_set_y 3496 "CONFIG_RG_USB";
      set_copy 3497 "CONFIG_USB_UHCI" "CONFIG_HW_USB_HOST_UHCI" ]
    [
      token_set_y 3502 "CONFIG_USB";
      set_copy 3503 "CONFIG_USB_UHCI_HCD" "CONFIG_HW_USB_HOST_UHCI" ];
    token_set_y 3506 "CONFIG_USB_DEVICEFS" ];
  If (isset "CONFIG_HW_USB_HOST_OHCI") [
    IfElse (notc (isset "CONFIG_RG_OS_LINUX_26")) [
      token_set_y 3513 "CONFIG_RG_USB";
      set_copy 3514 "CONFIG_USB_OHCI" "CONFIG_HW_USB_HOST_OHCI" ]
    [
      token_set_y 3519 "CONFIG_USB";
      set_copy 3520 "CONFIG_USB_OHCI_HCD" "CONFIG_HW_USB_HOST_OHCI" ];
    token_set_y 3523 "CONFIG_USB_DEVICEFS" ];
  If (isset "CONFIG_HW_USB_HOST_EHCI") [
    IfElse (notc (isset "CONFIG_RG_OS_LINUX_26")) [
      token_set_y 3529 "CONFIG_RG_USB" ]
    [
      token_set_y 3531 "CONFIG_USB" ];
    token_set_y 3532 "CONFIG_USB_DEVICEFS";
    set_copy 3533 "CONFIG_USB_EHCI_HCD" "CONFIG_HW_USB_HOST_EHCI" ];
  If (isset "CONFIG_RG_WEBCAM") [
    token_set_y 3539 "CONFIG_RG_LIBJPEG";
    token_set_y 3540 "CONFIG_HW_CAMERA_USB_PWC";
    token_set_y 3541 "CONFIG_HW_CAMERA_USB_OV511";
    token_set_y 3542 "CONFIG_HW_CAMERA_USB_SPCA5XX" ];
  If (isset "CONFIG_HW_FIREWIRE") [
    set_copy 3547 "CONFIG_IEEE1394" "CONFIG_HW_FIREWIRE";
    set_copy 3548 "CONFIG_IEEE1394_OHCI1394" "CONFIG_HW_FIREWIRE" ];
  If (isset "CONFIG_HW_USB_STORAGE") [
    set_copy 3554 "CONFIG_USB_STORAGE" "CONFIG_HW_USB_STORAGE";
    If (notc (isset "CONFIG_LSP_DIST")) [
      token_set_y 3556 "CONFIG_HOTPLUG" ] ];
  If (isset "CONFIG_HW_FIREWIRE_STORAGE") [
    token_set_m 3562 "CONFIG_IEEE1394_SBP2";
    If (notc (isset "CONFIG_LSP_DIST")) [
      token_set_y 3564 "CONFIG_HOTPLUG" ] ];
  If (isset "CONFIG_RG_EVENT_LOGGING") [
    token_set_y 3569 "CONFIG_RG_SYSLOG";
    token_set_m 3570 "CONFIG_RG_LOG_DEV";
    token_set 3571 "CONFIG_LOG_FILES_MIN_SIZE" "12288";
    token_set 3572 "CONFIG_LOG_FILES_MAX_SIZE" "16384";
    If (notc (isset "CONFIG_RG_OS_VXWORKS")) [
      token_set_y 3575 "CONFIG_RG_KERN_LOG";
      token_set_y 3576 "CONFIG_SYSLOG_UNIXSOCK_SUPPORT" ];
    token_set_y 3578 "CONFIG_RG_SYSLOG_REMOTE" ];
  IfElse (isset "CONFIG_RG_FW_ICSA") [
    token_set 3583 "CONFIG_RG_LOG_DEV_BUF_SIZE" "131072";
    token_set 3584 "CONFIG_RG_SYSLOG_FW_DEF_SIZE" "131072";
    token_set_y 3586 "CONFIG_RG_SSL";
    token_set_y 3588 "CONFIG_RG_PPPOS_CLI" ]
  [
    If (isset "CONFIG_RG_SYSLOG" &&& notc (isset "CONFIG_RG_LOG_DEV_BUF_SIZE")) [
      token_set 3594 "CONFIG_RG_LOG_DEV_BUF_SIZE" "102400";
      token_set 3595 "CONFIG_RG_SYSLOG_FW_DEF_SIZE" "102400" ] ];
  If (notc (isset "CONFIG_RG_BUILD_LOCAL_TARGETS_ONLY") &&&
      (isset "CONFIG_RG_JPKG" |||
      isset "CONFIG_GLIBC" |||
      isset "CONFIG_ULIBC" &&&
      isset "ULIBC_IN_TOOLCHAIN")) [
    token_set_y 3607 "CONFIG_RG_SYSLOG_GLIBC" ];
  If (isset "CONFIG_RG_SYSLOG" ||| isset "CONFIG_RG_SYSLOG_GLIBC") [
    token_set_y 3610 "CONFIG_RG_SYSLOG_COMMON" ];
  If (isset "CONFIG_HW_CAMERA_USB_OV511") [
    set_copy 3615 "CONFIG_USB_OV511" "CONFIG_HW_CAMERA_USB_OV511" ];
  If (isset "CONFIG_HW_CAMERA_USB_PWC") [
    set_copy 3621 "CONFIG_USB_PWC" "CONFIG_HW_CAMERA_USB_PWC" ];
  If (isset "CONFIG_HW_CAMERA_USB_SPCA5XX") [
    set_copy 3626 "CONFIG_USB_SPCA5XX" "CONFIG_HW_CAMERA_USB_SPCA5XX" ];
  If (isset "CONFIG_HW_CAMERA_USB_OV511" |||
      isset "CONFIG_HW_CAMERA_USB_PWC" |||
      isset "CONFIG_HW_CAMERA_USB_SPCA5XX") [
    token_set_y 3635 "CONFIG_VIDEO_DEV";
    token_set_y 3636 "CONFIG_VIDEO_PROC_FS" ] ].

(** feature_config.c:3640-3787 *)
Definition general_features_30 : list stmt :=
  [
  If (isset "CONFIG_HW_PCMCIA_CARDBUS") [
    token_set_y 3642 "CONFIG_HOTPLUG";
    token_set_y 3643 "CONFIG_CARDBUS";
    set_copy 3644 "CONFIG_PCMCIA" "CONFIG_HW_PCMCIA_CARDBUS" ];
  If (isset "CONFIG_IEEE1394_SBP2" ||| isset "CONFIG_USB_STORAGE") [
    token_set_y 3650 "CONFIG_SCSI";
    token_set_y 3651 "CONFIG_BLK_DEV_SD";
    token_set 3652 "CONFIG_SD_EXTRA_DEVS" "32";
    token_set_y 3653 "CONFIG_RG_STORAGE" ];
  If (isset "CONFIG_RG_BLUETOOTH") [
    If (isset "CONFIG_RG_OS_LINUX_24") [
      token_set_y 3660 "CONFIG_BLUEZ";
      token_set_y 3661 "CONFIG_BLUEZ_L2CAP";
      token_set_y 3662 "CONFIG_BLUEZ_RFCOMM";
      token_set_y 3663 "CONFIG_BLUEZ_SCO";
      token_set_y 3664 "CONFIG_BLUEZ_BNEP";
      token_set_y 3665 "CONFIG_BLUEZ_BNEP_MC_FILTER";
      token_set_y 3666 "CONFIG_BLUEZ_BNEP_PROTO_FILTER";
      If (isset "CONFIG_HW_USB_HOST_OHCI" ||| isset "CONFIG_HW_USB_HOST_UHCI") [
        token_set_m 3671 "CONFIG_BLUEZ_HCIUSB" ] ];
    If (isset "CONFIG_RG_OS_LINUX_26") [
      token_set_y 3677 "CONFIG_BT";
      token_set_y 3678 "CONFIG_BT_L2CAP";
      token_set_y 3679 "CONFIG_BT_RFCOMM";
      token_set_y 3680 "CONFIG_BT_SCO";
      token_set_y 3681 "CONFIG_BT_BNEP";
      token_set_y 3682 "CONFIG_BT_BNEP_MC_FILTER";
      token_set_y 3683 "CONFIG_BT_BNEP_PROTO_FILTER" ];
    token_set_y 3686 "CONFIG_RG_BLUETOOTH_PAN";
    token_set_y 3687 "CONFIG_HOTPLUG" ];
  If (isset "CONFIG_RG_STORAGE") [
    token_set_y 3692 "CONFIG_EXT2_FS";
    token_set_y 3693 "CONFIG_FAT_FS";
    token_set_y 3694 "CONFIG_MSDOS_FS";
    token_set_y 3695 "CONFIG_VFAT_FS";
    token_set 3696 "CONFIG_FAT_DEFAULT_CODEPAGE" "437";
    If (notc (has_str "CONFIG_RG_CODEPAGE")) [
      token_set 3698 "CONFIG_RG_CODEPAGE" (quoted "437") ];
    token_set_y 3699 "CONFIG_MSDOS_PARTITION";
    If (notc (isset "CONFIG_LSP_DIST")) [
      token_set_y 3701 "CONFIG_RG_STORAGE_UTILS" ] ];
  IfElse (has_str "CONFIG_RG_CODEPAGE") [
    token_set_y 3706 "CONFIG_NLS";
    token_set_y 3707 "CONFIG_NLS_CODEPAGE_437";
    token_set_y 3708 "CONFIG_NLS_CODEPAGE_850";
    token_set_y 3709 "CONFIG_NLS_UTF8";
    set_copy 3710 "CONFIG_NLS_DEFAULT" "CONFIG_RG_CODEPAGE" ]
  [
    token_set 3713 "CONFIG_RG_CODEPAGE" (quoted "") ];
  If (isset "CONFIG_HW_BUTTONS") [
    token_set_m 3717 "CONFIG_RG_HW_BUTTONS" ];
  If (isset "CONFIG_RG_FILESERVER") [
    token_set 3725 "CONFIG_RG_MAX_FAT_CHECK_SIZE" "1";
    If (str_le "CONFIG_SDRAM_SIZE" 32) [
      token_set 3727 "CONFIG_RG_MAX_EXT2_CHECK_SIZE" "80" ] ];
  If (isset "CONFIG_RG_RGLOADER") [
    token_set_m 3732 "CONFIG_RG_KOS";
    token_set_y 3735 "CONFIG_RG_BUSYBOX";
    token_set_y 3738 "CONFIG_RG_LANG";
    token_set 3739 "CONFIG_RG_LANGUAGES" "DEF";
    token_set 3740 "CONFIG_RG_DIST_LANG" "eng" ];
  If (isset "CONFIG_RG_RGLOADER" ||| isset "CONFIG_RG_RGLOADER_CLI_CMD") [
    token_set_y 3746 "CONFIG_RGLOADER_CLI";
    token_set_y 3747 "CONFIG_RG_CLI";
    If (notc (isset "CONFIG_I386_BOCHS")) [
      token_set_y 3749 "CONFIG_RG_PERM_STORAGE" ];
    token_set_y 3750 "CONFIG_RG_PING";
    IfElse (isset "CONFIG_RG_OS_VXWORKS") [
      token_set_y 3752 "CONFIG_RG_CLI_SERVER" ]
    [
      token_set_y 3754 "CONFIG_RG_CLI_SERIAL" ];
    token_set_y 3756 "CONFIG_RG_WGET" ];
  If is_dsp_configurable [
    token_set_y 3761 "CONFIG_RG_AUDIO_MGT" ];
  If (notc (has_str "CONFIG_RG_DIST_LANG")) [
    token_set 3766 "CONFIG_RG_DIST_LANG" "eng" ];
  If (notc (has_str "RG_PROD_STR")) [
    token_set 3769 "RG_PROD_STR" "OpenRG" ];
  If (isset "CONFIG_RG_FLASH_ONLY_ON_BOOT") [
    token_set_y 3772 "CONFIG_RG_RMT_UPGRADE_IMG_IN_MEM" ];
  If (isset "CONFIG_ULIBC" &&& isset "CONFIG_DYN_LINK") [
    token_set_y 3775 "CONFIG_ULIBC_SHARED" ];
  If (isset "CONFIG_RG_JFW" ||| isset "CONFIG_RG_PPTPC") [
    token_set_m 3778 "CONFIG_RG_FRAG_CACHE" ];
  If (isset "CONFIG_ATHEROS_AR531X_MIPS") [
    token_set 3781 "LIBC_ARCH" "mips" ];
  If (isset "CONFIG_I386_BOCHS" &&& isset "CONFIG_RG_OS_VXWORKS") [
    token_set 3785 "LIBC_ARCH" "i386";
    token_set 3786 "ARCH" "i386" ] ].

(** feature_config.c:3789-3918 *)
Definition general_features_31 : list stmt :=
  [
  If (isset "CONFIG_RG_PPP" ||| isset "CONFIG_RG_8021X" ||| isset "CONFIG_RG_RADIUS") [
    token_set_y 3792 "CONFIG_RG_AUTH" ];
  If (isset "CONFIG_PCBOX") [
    token_set_y 3795 "CONFIG_RG_BOOTLDR" ];
  If (notc (isset "CONFIG_LSP_DIST") &&& hw_set) [
    token_set_y 3798 "CONFIG_RG_TZ";
    token_set_y 3799 "CONFIG_RG_MGT";
    token_set_y 3803 "CONFIG_RG_OPENSSL_COMMON" ];
  If (isset "CONFIG_RG_OPENSSL_COMMON") [
    token_set_y 3807 "CONFIG_RG_OPENSSL_MD5";
    If (notc (isset "CONFIG_RG_RGLOADER")) [
      token_set_y 3810 "CONFIG_RG_OPENSSL_SHA";
      token_set_y 3811 "CONFIG_RG_OPENSSL_DES";
      token_set_y 3812 "CONFIG_RG_OPENSSL_MD4" ] ];
  If (isset "CONFIG_RG_TARGET_LINUX") [
    token_set_y 3816 "CONFIG_RG_LZMA" ];
  If (isset "CONFIG_RG_CABLEHOME" ||| isset "CONFIG_RG_DSL_CH") [
    token_set_y 3818 "CONFIG_RG_CABLEHOME_COMMON" ];
  If (isset "CONFIG_RG_TCPDUMP") [
    token_set_y 3821 "CONFIG_RG_LIBPCAP";
    token_set_y 3822 "CONFIG_RG_TERMCAP" ];
  If (isset "CONFIG_RG_DHCPC" ||| isset "CONFIG_RG_DHCPS" ||| isset "CONFIG_RG_DHCPR") [
    token_set_y 3827 "CONFIG_RG_DHCP_COMMON" ];
  If (isset "CONFIG_RG_RGLOADER" ||| isset "CONFIG_RG_RGLOADER_CLI_CMD") [
    token_set_y 3832 "CONFIG_RG_RGLOADER_COMMON" ];
  If (isset "CONFIG_FREESWAN" ||| isset "CONFIG_LIBDES") [
    token_set_y 3835 "CONFIG_FREESWAN_COMMON" ];
  If (isset "CONFIG_RG_STORAGE_UTILS") [
    token_set_y 3838 "CONFIG_RG_E2FSPROGS";
    token_set_y 3839 "CONFIG_RG_DOSFSTOOLS ";
    token_set_y 3840 "CONFIG_RG_UTIL_LINUX" ];
  If (isset "CONFIG_RG_PING" |||
      isset "CONFIG_RG_CONN_SPEED" |||
      isset "CONFIG_RG_TRACEROUTE") [
    token_set_y 3845 "CONFIG_RG_TEST_TOOLS" ];
  If (isset "CONFIG_RG_FILESERVER_ACLS") [
    token_set_y 3849 "CONFIG_RG_ATTR";
    token_set_y 3850 "CONFIG_RG_ACL" ];
  If (isset "CONFIG_RG_FS_BACKUP") [
    token_set_y 3854 "CONFIG_RG_STAR";
    token_set_y 3855 "CONFIG_RG_BACKUP" ];
  If (isset "CONFIG_RG_SAMPLES" |||
      isset "CONFIG_RG_TUTORIAL" |||
      isset "CONFIG_RG_TUTORIAL_ADVANCED") [
    token_set_y 3860 "CONFIG_RG_SAMPLES_COMMON" ];
  If (isset "CONFIG_RG_IPERF") [
    token_set_y 3864 "CONFIG_RG_CXX" ];
  If (isset "CONFIG_RG_CXX" &&& isset "CONFIG_ULIBC") [
    token_set_y 3867 "CONFIG_UCLIBCXX" ];
  If (isset "CONFIG_RG_RGLOADER") [
    token_set_y 3870 "CONFIG_RG_TELNETS" ];
  If (isset "CONFIG_RG_SSH") [
    token_set_y 3874 "CONFIG_RG_CLI_SERVER";
    token_set_y 3875 "CONFIG_RG_OPENSSL_BLOWFISH";
    token_set_y 3876 "CONFIG_RG_OPENSSL_CAST" ];
  If (isset "CONFIG_RG_JPKG_BIN" &&& isset "CONFIG_HW_80211N_AIRGO_AGN100") [
    token_set_y 3882 "CONFIG_RG_JPKG_BUILD_LIBC" ];
  token_set 3885 "RMT_UPG_SITE" "update.jungo.com";
  set_args 3887 "RMT_UPG_URL" "http%s://%s/" [Sel "CONFIG_RG_SSL" "s" ""; GetStr "RMT_UPG_SITE"];
  If (isset "CONFIG_RG_JNET_CLIENT") [
    set_args 3893 "RMT_UPG_URL" "http://%s/" [GetStr "RMT_UPG_SITE"] ];
  If (notc (isset "CONFIG_RG_BUILD_LOCAL_TARGETS_ONLY")) [
    token_set_y 3898 "CONFIG_RG_ZLIB";
    token_set_y 3899 "CONFIG_RG_KERNEL";
    token_set_y 3900 "CONFIG_RG_MAIN";
    token_set_y 3901 "CONFIG_RG_VENDOR" ];
  If (isset "CONFIG_RG_MTD_DEFAULT_PARTITION") [
    If (notc (isset "CONFIG_RG_MTD") |||
        notc (isset "CONFIG_MTD_PHYSMAP_START") |||
        notc (isset "CONFIG_MTD_PHYSMAP_LEN")) [
      conf_err IncorrectMTD ] ];
  If (isset "CONFIG_RG_CERT" &&& get_eq "CONFIG_RG_ADV_SERVICES_LEVEL" 1) [
    token_set_y 3917 "CONFIG_RG_CERT_SHORT_LIST" ] ].

Definition general_features : stmt := 
  block (general_features_1 ++ general_features_2 ++ general_features_3 ++ general_features_4 ++
    general_features_5 ++ general_features_6 ++ general_features_7 ++ general_features_8 ++
    general_features_9 ++ general_features_10 ++ general_features_11 ++ general_features_12
    ++ general_features_13 ++ general_features_14 ++ general_features_15 ++
    general_features_16 ++ general_features_17 ++ general_features_18 ++ general_features_19
    ++ general_features_20 ++ general_features_21 ++ general_features_22 ++
    general_features_23 ++ general_features_24 ++ general_features_25 ++ general_features_26
    ++ general_features_27 ++ general_features_28 ++ general_features_29 ++
    general_features_30 ++ general_features_31)%list.

(** feature_config.c:3924-3956 *)
Definition openrg_features_1 : list stmt :=
  [
  token_set_y 3924 "CONFIG_EXPORT_BINARIES";
  If (isset "CONFIG_INSURE") [
    token_set_y 3928 "CONFIG_GLIBC" ];
  If (isset "CONFIG_VALGRIND") [
    token_set_y 3932 "CONFIG_GLIBC";
    token_set_y 3933 "OPENRG_DEBUG" ];
  If (notc (isset "CONFIG_GLIBC") &&& notc (isset "CONFIG_RG_NOT_UNIX")) [
    token_set_y 3937 "CONFIG_ULIBC" ];
  If (notc (isset "CONFIG_RG_NOT_UNIX")) [
    token_set_y 3940 "CONFIG_UNIX" ];
  token_set_y 3945 "CONFIG_FREEPAGES_THRESHOLD";
  token_set_y 3947 "CONFIG_RG_FACTORY_SETTINGS";
  token_set_y 3949 "CONFIG_SYN_COOKIES";
  token_set 3952 "OPENRG_CHRDEV_NAME" "rg_chrdev";
  token_set 3953 "OPENRG_CHRDEV_MAJOR" "240";
  If (evaluation &&& notc (isset "CONFIG_RG_BUILD_LOCAL_TARGETS_ONLY")) [
    token_set_y 3956 "CONFIG_LICENSE_AGREEMENT" ] ].

Definition openrg_features : stmt := block openrg_features_1.

End FeatureConfig.
