(* ===== verification/CreateConfig.v ===== *)
(** * CreateConfig: the command line and the order of the rules

    pkg/build/create_config.c: [add_feature_parse] and [handle_opt], the check
    that no option is declared twice, [configure_features], the checks of
    [main] and the sequence of rules it runs up to the host configuration. *)
From S2P Require Import Prelude ConfigOpt OptionTable Licence InitOptions Rules TargetOs HwConfig.
From S2P Require Import DistConfig FeatureConfig.

(** ** strtok(s, "=") *)
Definition is_eq_char (c : Ascii.ascii) : bool := Ascii.eqb c "=".

(** The next token and what follows its delimiter; [None] is NULL. *)
Definition strtok (s : string) : option (string * string) :=
  let s' := (span is_eq_char s).2 in
  if (s' =? "")%string then None
  else
    let (tok, rest) := span (fun c => negb (is_eq_char c)) s' in
    Some (tok, match rest with String _ r => r | EmptyString => EmptyString end).

(** [o->set_prio = p] through the pointer. *)
Definition set_prio_store (i : nat) (p : Z) : M unit := fun s =>
  Ok tt (set_options s (alter (fun o =>
    mk_option (token o) (value o) (otype o) (description o) (file o) (line o) p) i
    (openrg_config_options s))).

Definition CREATE_CONFIG_C : string := "create_config.c".

Definition add_feature_parse (arg : string) : M unit :=
  match strtok arg with
  | None => conf_err (Undefined "strcmp")
  | Some (tok, rest) =>
      p <- option_token_get tok;;
      let '(i, o) := p in
      if has_flag (otype o) OPT_INT then conf_err (InternalOption tok)
      else
        (match strtok rest with
         | Some (v, _) => set_text CREATE_CONFIG_C 100 tok v
         | None => ret tt
         end);;;
        set_prio_store i SET_PRIO_CMD_LINE
  end.

(** ** The options getopt returns: [-d], [-f], [-h], [-o], and the file-name
    options, which concern the output alone. *)
Inductive cmd_opt :=
| OptDist (optarg : string)
| OptFeature (optarg : string)
| OptHw (optarg : string)
| OptOs (optarg : string)
| OptFile (c : Ascii.ascii) (optarg : string).

Definition set_dist (d : string) : stmt := fun s =>
  Ok tt (mk_cfg (openrg_config_options s) (hw s) (os s) (Some d) (is_evaluation s)
           (jpkg_dists s) (stderr_log s)).

Definition handle_one (c : cmd_opt) : stmt :=
  match c with
  | OptDist d => set_dist d
  | OptFeature f => add_feature_parse f
  | OptHw h => set_hw h
  | OptOs o => set_os o
  | OptFile _ _ => ret tt
  end.
Fixpoint handle_opt (l : list cmd_opt) : stmt :=
  match l with
  | [] => ret tt
  | c :: l' => handle_one c;;; handle_opt l'
  end.

(** ** No option twice *)

(** The two nested loops: the first name found again further on. *)
Fixpoint _validate_unique_configs (array : list option_t) : option exit_reason :=
  match array with
  | [] => None
  | o :: array' =>
      if existsb (fun o' => (token o =? token o')%string) array'
      then Some (Duplicated (token o)) else _validate_unique_configs array'
  end.

Definition validate_unique_configs : stmt := fun s =>
  match _validate_unique_configs openrg_hw_options, _validate_unique_configs openrg_os_options,
        _validate_unique_configs openrg_distribution_options,
        _validate_unique_configs (openrg_config_options s) with
  | Some e, _, _, _ | None, Some e, _, _ | None, None, Some e, _ | None, None, None, Some e =>
      Exit e s
  | None, None, None, None => Ok tt s
  end.

(** ** The rules in order *)
Section Configure.
Context (is_feature_enabled : string -> bool).

Definition configure_features : stmt := block [
  package_features;
  hardware_features;
  openrg_features;
  general_features is_feature_enabled ].

(** The checks of [main] between the distribution and the other rules. *)
Definition legal (table : list option_t) (name : string) : bool :=
  bool_decide (is_Some (option_token_get_nofail table name)).

Definition check_os : stmt := fun s =>
  if negb (os s =? "")%string && negb (legal openrg_os_options (os s))
  then Exit (NotLegal (os s)) s else Ok tt s.
Definition check_hw_set : stmt := fun s =>
  match hw s with
  | None => if negb (os s =? "")%string then Exit NoHw s else Ok tt s
  | Some _ => Ok tt s
  end.
Definition check_name (table : list option_t) (name : cfg -> option string) : stmt := fun s =>
  match name s with
  | Some d => if legal table d then Ok tt s else Exit (NotLegal d) s
  | None => Ok tt s
  end.
Definition target_os_if_set : stmt := fun s =>
  if (os s =? "")%string then Ok tt s else target_os_features (os s) s.

(** [main] from [distribution_features] to [configure_features]. *)
Definition configure_rules : stmt := block [
  distribution_features is_feature_enabled;
  check_os;
  check_hw_set;
  check_name openrg_distribution_options dist;
  check_name openrg_hw_options hw;
  target_os_if_set;
  configure_features ].
End Configure.

(** The state in which [main] handles the command line. *)
Definition init_state : cfg :=
  mk_cfg (options_dup (_init_configs config_options_base)) None "" None false [] [].
