(* ===== verification/JpkgConfig.v ===== *)
(** * JpkgConfig: packages that serve several distributions, and the rest of main

    [jpkg_configuration] of pkg/build/create_config.c: the distributions a JPKG
    rule queued on [jpkg_dists] are configured one after the other, each on its own
    option array, and the options they set fill the empty ones of the main array.
    [main_rules] is [main] from the distribution rules to [config_host].
    The loop walks a list its own body may lengthen, so it takes fuel; the
    theorems of JpkgProps show that the fuel given here is enough. *)
From S2P Require Import Prelude ConfigOpt OptionTable Licence InitOptions Rules TargetOs.
From S2P Require Import HostOps ConfigHost HwConfig DistConfig FeatureConfig CreateConfig.

(** [openrg_config_options = p->options; dist = p->dist;] *)
Definition jpkg_enter (d : string) (options : list option_t) (s : cfg) : cfg :=
  mk_cfg options (hw s) (os s) (Some d) (is_evaluation s) (jpkg_dists s) (stderr_log s).

(** The array the pass wrote through [openrg_config_options] is [p->options]. *)
Definition jpkg_leave (k : nat) (d : string) (s : cfg) : cfg :=
  mk_cfg (openrg_config_options s) (hw s) (os s) (dist s) (is_evaluation s)
    (<[k := (d, openrg_config_options s)]> (jpkg_dists s)) (stderr_log s).

(** [dist = orig_dist; openrg_config_options = orig_options;] *)
Definition jpkg_restore (s0 s : cfg) : cfg :=
  mk_cfg (openrg_config_options s0) (hw s) (os s) (dist s0) (is_evaluation s)
    (jpkg_dists s) (stderr_log s).

(** The inner loop over [jpkg_dists] for option [i]: each distribution with a
    value replaces the entry. *)
Fixpoint jpkg_fill (i : nat) (dists : list (string * list option_t)) (o : option_t) : option_t :=
  match dists with
  | [] => o
  | p :: dists' =>
      jpkg_fill i dists'
        (match p.2 !! i with
         | Some o' => match value o' with Some _ => o' | None => o end
         | None => o
         end)
  end.

(** [for (i = 0; openrg_config_options[i].token; i++)] *)
Definition jpkg_merge (dists : list (string * list option_t)) (options : list option_t)
    : list option_t :=
  imap (fun i o => match value o with
                   | Some _ => o
                   | None => jpkg_fill i dists o
                   end) options.

Section Jpkg.
Context (is_feature_enabled : string -> bool).

(** [target_os_features(os)] *)
Definition target_os : stmt := fun s => target_os_features (os s) s.

(** The body of the loop. *)
Definition jpkg_rules : stmt := block [
  distribution_features is_feature_enabled;
  target_os;
  configure_features is_feature_enabled ].

(** [for (p = jpkg_dists; p; p = p->next)]: [k] is the place of [p]; [None] when
    the fuel runs out. *)
Fixpoint jpkg_loop (fuel : nat) (k : nat) (s : cfg) : option (res unit) :=
  match fuel with
  | O => None
  | S fuel' =>
      match jpkg_dists s !! k with
      | None => Some (Ok tt s)
      | Some (d, options) =>
          match jpkg_rules (jpkg_enter d options s) with
          | Exit e s' => Some (Exit e s')
          | Ok _ s' => jpkg_loop fuel' (S k) (jpkg_leave k d s')
          end
      end
  end.

(** One pass for each distribution queued before the loop, and the test that
    ends it. *)
Definition jpkg_fuel (s : cfg) : nat := S (length (jpkg_dists s)).

Definition jpkg_configuration : M unit := fun s =>
  match jpkg_loop (jpkg_fuel s) 0 s with
  | None => Exit (Undefined "jpkg_dists") s
  | Some (Exit e s') => Exit e s'
  | Some (Ok _ s') =>
      let s'' := jpkg_restore s s' in
      Ok tt (set_options s'' (jpkg_merge (jpkg_dists s'') (openrg_config_options s'')))
  end.

(** What [main] does after the rules: the primary operating system, the host. *)
Definition main_end (h : host) : stmt := block [ target_primary_os; config_host h ].

(** [main] from [distribution_features] to [config_host]. *)
Definition main_rules (h : host) : M unit :=
  configure_rules is_feature_enabled;;;
  jpkg_configuration;;;
  main_end h.
End Jpkg.
