(* ===== verification/Output.v ===== *)
(** * Output: rg_config.mk, rg_config.h and rg_config.c

    The printing half of pkg/build/create_config.c: [check_option_validity],
    [print_mk_option], [print_h_option], [print_option] and the loop of
    [configure_print].  An [fprintf] on a file is the text it appends. *)
From S2P Require Import Prelude Text ConfigOpt.

Definition MODULE_EXPANSION : string := "_MODULE".
Definition FEATURE_EXPANSION : string := "_FEATURE".

(** ** check_option_validity *)
Definition is_y_option (ty : Z) : bool :=
  negb (has_flag ty (Z.lor (Z.lor (Z.lor (Z.lor OPT_NUMBER OPT_STR) OPT_C_STR) OPT_MODULE)
                       OPT_MODULE_EXPAND)).
Definition is_y_m_option (ty : Z) : bool := has_flag ty (Z.lor OPT_MODULE OPT_MODULE_EXPAND).

Definition check_option_validity (o : option_t) : option exit_reason :=
  match value o with
  | None => None
  | Some v =>
      if has_flag (otype o) OPT_NUMBER && negb (str_is_number_value v)
      then Some (NotNumeric (token o))
      else if is_y_option (otype o) &&
              negb ((v =? "") || (v =? "n") || (v =? "y"))%string
      then Some (NotYN (token o))
      else if is_y_m_option (otype o) &&
              negb ((v =? "") || (v =? "n") || (v =? "y") || (v =? "m"))%string
      then Some (NotYMN (token o))
      else None
  end.

(** ** print_mk_option *)
Definition print_mk_option (o : option_t) : string :=
  let t := token o in
  let y_m := match value o with Some v => is_y_m v | None => false end in
  if negb y_m && negb (has_flag (otype o) (Z.lor (Z.lor OPT_STR OPT_C_STR) OPT_NUMBER)) then
    if set_prio o =? SET_PRIO_CMD_LINE then
      "# Disabled by command line" +:+ nl +:+
      "override " +:+ t +:+ "=" +:+ nl +:+
      (if has_flag (otype o) OPT_EXPORT then "export " +:+ t +:+ nl else "")
    else ""
  else
    match value o with
    | None => ""
    | Some v =>
        (if set_prio o =? SET_PRIO_CMD_LINE then "# Set by command line:" +:+ nl
         else match file o with
              | Some f => "# " +:+ f +:+ ":" +:+ print_int (line o) +:+ nl
              | None => "# config_opt.c (default):" +:+ nl
              end) +:+
        (if has_flag (otype o) OPT_EXPORT then "export " else "") +:+ t +:+ "=" +:+ v +:+ nl
    end.

(** ** print_h_option *)
Definition print_ref (avoid_print : bool) (o : option_t) : string :=
  if avoid_print then ""
  else if set_prio o =? SET_PRIO_CMD_LINE then "/* Set by command line */" +:+ nl
  else if nz (line o) then
    "/* " +:+ default "(null)" (file o) +:+ ":" +:+ print_int (line o) +:+ " */" +:+ nl
  else nl.

(** [is_y_m] of print_h_option. *)
Definition h_is_y_m (ty : Z) : bool :=
  is_y_m_option ty || negb (has_flag ty (Z.lor (Z.lor OPT_NUMBER OPT_STR) OPT_C_STR)).

Definition quote_of (ty : Z) : string := if has_flag ty OPT_C_STR then dquote else "".

(** The cCONFIG_XXX and vcCONFIG_XXX part: text of h_file, text of c_file. *)
Definition print_hc (o : option_t) : string * string :=
  let ty := otype o in
  let is_int := negb (has_flag ty (Z.lor OPT_STR OPT_C_STR)) in
  let v_str :=
    if negb is_int then
      match value o with
      | Some v => quote_of ty +:+ v +:+ quote_of ty
      | None => "NULL"
      end
    else if has_flag ty OPT_NUMBER then default "0" (value o)
    else if h_is_y_m ty then
      match value o with Some v => if is_y_m v then "1" else "0" | None => "0" end
    else match value o with Some _ => "1" | None => "0" end in
  let vc_type := if is_int then "int " else "char *" in
  (print_ref false o +:+ "#define c" +:+ token o +:+ " " +:+ v_str +:+ nl +:+
   "extern " +:+ vc_type +:+ "vc" +:+ token o +:+ ";" +:+ nl,
   vc_type +:+ "vc" +:+ token o +:+ " = " +:+ v_str +:+ ";" +:+ nl).

Definition print_h_option (o : option_t) : string * string :=
  let ty := otype o in
  let t := token o in
  let hc := has_flag ty OPT_HC in
  let '(h1, c1) := if hc then print_hc o else ("", "") in
  if negb (has_flag ty OPT_MODULE_EXPAND) then
    match value o with
    | None => (h1, c1)
    | Some v =>
        let v_str := if h_is_y_m ty then (if is_y_m v then Some "1" else None) else Some v in
        match v_str with
        | Some w =>
            (h1 +:+ print_ref hc o +:+ "#define " +:+ t +:+ " " +:+
             quote_of ty +:+ w +:+ quote_of ty +:+ nl, c1)
        | None => (h1, c1)
        end
    end
  else
    let on := match value o with Some v => negb (v =? "n")%string | None => false end in
    let bit := if on then "1" else "0" in
    let h2 := h1 +:+ print_ref hc o +:+ "#define c" +:+ t +:+ FEATURE_EXPANSION +:+ " " +:+ bit +:+ nl
              +:+ "extern int vc" +:+ t +:+ FEATURE_EXPANSION +:+ ";" +:+ nl in
    let c2 := c1 +:+ "int vc" +:+ t +:+ FEATURE_EXPANSION +:+ " = " +:+ bit +:+ ";" +:+ nl in
    if negb on then (h2, c2)
    else
      let m := match value o with
               | Some (String c _) => Ascii.eqb c "m"
               | _ => false
               end in
      (h2 +:+ "#define " +:+ t +:+ FEATURE_EXPANSION +:+ " 1" +:+ nl +:+
       "#define " +:+ t +:+ (if m then MODULE_EXPANSION else "") +:+ " 1" +:+ nl, c2).

(** ** print_option and configure_print *)
Record files := mk_files { mk_file : string; h_file : string; c_file : string }.

(** The texts an option adds, or the reason the program stops; in a
    CONFIG_RG_GPL build [add_config_string] does nothing. *)
Definition print_option (o : option_t) (fs : files) : files + exit_reason :=
  let ty := otype o in
  let print_all := negb (has_flag ty (Z.lor OPT_H OPT_MK)) in
  let print_h := has_flag ty OPT_H || has_flag ty OPT_HC || print_all in
  let print_mk := has_flag ty OPT_MK || print_all in
  match check_option_validity o with
  | Some e => inr e
  | None =>
      let mk := if print_mk then print_mk_option o else "" in
      let '(h, c) := if print_h then print_h_option o else ("", "") in
      inl (mk_files (mk_file fs +:+ mk) (h_file fs +:+ h) (c_file fs +:+ c))
  end.

Fixpoint print_options (l : list option_t) (fs : files) : files + exit_reason :=
  match l with
  | [] => inl fs
  | o :: l' => match print_option o fs with
               | inl fs' => print_options l' fs'
               | inr e => inr e
               end
  end.

(** [configure_print] once the files are open; [config_log] is
    [getenv("CONFIG_LOG")], and [config_strings] stays NULL in a CONFIG_RG_GPL
    build. *)
Definition configure_print (config_log : string) : M files := 
  let mk0 := "#OpenRG: This file was automatically generated by pkg/build/create_config" +:+ nl
             +:+ "#See " +:+ config_log +:+ " for configuration log." +:+ nl +:+ nl in
  let c0 := "/* OpenRG: This file was automatically generated by pkg/build/create_config " +:+ nl
            +:+ " * See " +:+ config_log +:+ " for configuration log." +:+ nl +:+ " */" +:+ nl +:+ nl
            +:+ "#include <stdlib.h>" +:+ nl in
  strings <- token_get "CONFIG_RG_CONFIG_STRINGS";;
  let c1 := c0 +:+ (if nz strings then "#include <build/config_strings.h>" +:+ nl else "") +:+ nl in
  let h0 := "/* OpenRG: This file was automatically generated by pkg/build/create_config " +:+ nl
            +:+ " * See " +:+ config_log +:+ " for configuration log." +:+ nl +:+ " */" +:+ nl
            +:+ "#ifndef _RG_CONFIG_H_" +:+ nl +:+ "#define _RG_CONFIG_H_" +:+ nl +:+ nl
            +:+ "#define AUTOCONF_INCLUDED" +:+ nl in
  fs <- (fun s => match print_options (openrg_config_options s) (mk_files mk0 h0 c1) with
                  | inl fs => Ok fs s
                  | inr e => Exit e s
                  end);;
  strings' <- token_get "CONFIG_RG_CONFIG_STRINGS";;
  let c2 := if nz strings'
            then nl +:+ "config_value_t config_strings[] = {" +:+ nl +:+ "    {NULL, NULL}" +:+ nl
                 +:+ "};" +:+ nl +:+ nl
            else "" in
  ret (mk_files (mk_file fs) (h_file fs +:+ "#endif" +:+ nl) (c_file fs +:+ c2)).
