(* ===== verification/Accesses.v ===== *)
(** * Accesses: what an elementary access can write and why it can stop

    The bridge between the walk through the rules ([Rules.Covered]) and the
    properties of the option database.  For an array whose names and types are
    those of a fixed table [tbl], [writes tbl a t v] says that the access [a] can
    store the text [v] in option [t], and [exits tbl a e] that it can stop with
    reason [e].  An invariant kept by those writes, and a set of reasons holding
    those exits, are accepted by [a] ([accepts_access]); a property of a rule
    program is then a property of its list of accesses. *)
From S2P Require Import Prelude ConfigOpt OptionTable Licence InitOptions Rules.

(** The type of the first entry named [tok]. *)
Fixpoint type_of (tbl : list (string * Z * option string)) (tok : string) : option Z :=
  match tbl with
  | [] => None
  | (t, ty, _) :: tbl' => if (t =? tok)%string then Some ty else type_of tbl' tok
  end.

Definition get_exits tbl (tok : string) (e : exit_reason) : Prop :=
  match type_of tbl tok with
  | None => e = NoSuchOption tok
  | Some ty => has_flag ty (Z.lor OPT_STR OPT_C_STR) = true /\ e = StringAsInteger tok
  end.
Definition str_exits tbl (tok : string) (e : exit_reason) : Prop :=
  type_of tbl tok = None /\ e = NoSuchOption tok.

(** [F] holds of the results the format of a [_token_set] can have. *)
Definition set_exits tbl (tok : string) (F : option string -> Prop) (e : exit_reason) : Prop :=
  (F None /\ e = Undefined "format") \/
  (exists v, F (Some v) /\ (4094 < String.length v)%nat /\ e = ValueTooLong tok) \/
  str_exits tbl tok e \/
  (F (Some "m") /\ type_of tbl tok = Some 0 /\ e = NotModuleExpand tok) \/
  (F (Some "m") /\ get_exits tbl "CONFIG_RG_DEV" e).
Definition set_writes (tok : string) (F : option string -> Prop) (t v : string) : Prop :=
  t = tok /\ exists w, F (Some w) /\ (v = w \/ (w = "m" /\ v = "y")).

Definition arg_exits tbl (a : arg) (e : exit_reason) : Prop :=
  match a with GetStr t => str_exits tbl t e | Sel t _ _ => get_exits tbl t e end.

Definition text_is (v : string) : option string -> Prop := fun r => r = format v [].
Definition text_of (fmt : string) (n : nat) : option string -> Prop :=
  fun r => exists l, length l = n /\ r = format fmt l.
Definition text_any : option string -> Prop := fun _ => True.

Definition writes (tbl : list (string * Z * option string)) (a : access) (t v : string) : Prop :=
  match a with
  | ASet tok x => set_writes tok (text_is x) t v
  | ASetM tok => t = tok /\ (v = "m" \/ v = "y")
  | AArgs tok fmt args => set_writes tok (text_of fmt (length args)) t v
  | ACopy tok _ | ACmd tok _ _ | AText tok => set_writes tok text_any t v
  | AEnable tok => t = tok /\ v = "y"
  | AThemes => v = "y" /\ t <> "CONFIG_GUI_BELKIN" /\
      exists ty d, (t, ty, d) ∈ tbl /\ has_flag ty OPT_THEME = true
  | _ => False
  end.

Definition exits (enabled : string -> bool) (tbl : list (string * Z * option string))
    (a : access) (e : exit_reason) : Prop :=
  match a with
  | AGet t => get_exits tbl t e
  | AStr t => str_exits tbl t e
  | AStrcmp t => str_exits tbl t e \/ e = Undefined "strcmp"
  | ASet tok x => set_exits tbl tok (text_is x) e
  | ASetM tok => get_exits tbl "CONFIG_RG_OS_VXWORKS" e \/
      set_exits tbl tok (fun r => r = Some "y" \/ r = Some "m") e
  | AArgs tok fmt args => (exists a, a ∈ args /\ arg_exits tbl a e) \/
      set_exits tbl tok (text_of fmt (length args)) e
  | ACopy tok src => str_exits tbl src e \/ e = Undefined "vsnprintf" \/
      set_exits tbl tok text_any e
  | ACmd tok fmt args => (exists a, a ∈ args /\ arg_exits tbl a e) \/
      e = Undefined "sprintf" \/ set_exits tbl tok text_any e
  | AEnable tok => str_exits tbl tok e \/ get_exits tbl tok e \/
      get_exits tbl "LIC_FORCE" e \/ str_exits tbl "LIC_AUTOCONF" e \/
      (enabled tok = false /\ e = NoLicense tok) \/ set_exits tbl tok (text_is "y") e
  | AThemes => False
  | AEnv | AJpkg _ => False
  | AUser => user_exit e
  | AText tok => set_exits tbl tok text_any e
  | ADist => e = Undefined "strcmp"
  | AErr e' => e = e'
  end.

(** ** The table and the array *)
Lemma type_of_lookup a tok :
  type_of (shape a) tok = otype <$> lookup_option a tok.
Proof.
  unfold lookup_option. induction a as [|o a IH]; simpl; [done|].
  destruct (token o =? tok)%string; [done|]. rewrite IH.
  by destruct (option_token_get_nofail a tok).
Qed.

Lemma elem_of_shape a t ty d :
  (t, ty, d) ∈ shape a -> exists o, lookup_option a t = Some o.
Proof.
  intros Hin. destruct (lookup_option a t) as [o|] eqn:E; [by exists o|]. exfalso.
  apply lookup_option_None, nofail_None in E. apply E.
  apply list_elem_of_fmap in Hin as (o & [= -> -> ->] & Hin). by apply list_elem_of_fmap_2.
Qed.

(** The distributions an access can add to [jpkg_dists]. *)
Definition adds (a : access) (d : string) : Prop :=
  match a with AJpkg d' => d = d' | _ => False end.

Section Accept.
Context (enabled : string -> bool) (tbl : list (string * Z * option string)).
Context (I : cfg -> Prop) (R : cfg -> cfg -> Prop) (E : exit_reason -> Prop).
Context `{HR : !PreOrder R}.
(** The pairs (name, text) the invariant allows to be stored. *)
Context (may : string -> string -> Prop).
Context (Hshape : forall s, I s -> shape (openrg_config_options s) = tbl).
Context (Hwrite : forall s s' i o f l v,
  I s -> lookup_option (openrg_config_options s) (token o) = Some o ->
  option_token_get_nofail (openrg_config_options s) (token o) = Some i ->
  openrg_config_options s !! i = Some o -> set_prio o <= SET_PRIO_TOKEN_SET ->
  may (token o) v -> written s i (option_assign o f l v SET_PRIO_TOKEN_SET) s' ->
  I s' /\ R s s').
Context (Henv : forall s s', I s -> openrg_config_options s' = openrg_config_options s ->
  dist s' = dist s -> jpkg_dists s' = jpkg_dists s -> I s' /\ R s s').

Lemma triple_token_get t :
  (forall e, get_exits tbl t e -> E e) -> triple I R E (token_get t).
Proof.
  intros HE. apply triple_pure; [done|]. intros s Hs. rewrite token_get_eq.
  specialize (type_of_lookup (openrg_config_options s) t). rewrite (Hshape s Hs). intros Hty.
  unfold get_exits in HE. rewrite Hty in HE.
  destruct (lookup_option _ _) as [o|]; simpl in *; [|auto].
  destruct (has_flag _ _); simpl; auto.
Qed.

Lemma triple_token_get_str t :
  (forall e, str_exits tbl t e -> E e) -> triple I R E (token_get_str t).
Proof.
  intros HE. apply triple_pure; [done|]. intros s Hs. rewrite token_get_str_eq.
  specialize (type_of_lookup (openrg_config_options s) t). rewrite (Hshape s Hs). intros Hty.
  unfold str_exits in HE. rewrite Hty in HE.
  destruct (lookup_option _ _) as [o|]; simpl in *; auto.
Qed.

Lemma triple_option_token_get t :
  (forall e, str_exits tbl t e -> E e) -> triple I R E (option_token_get t).
Proof.
  intros HE s Hs. specialize (triple_token_get_str t HE s Hs).
  unfold token_get_str, bind. by destruct (option_token_get t s).
Qed.

Lemma triple_token_set f l t fmt args (F : option string -> Prop) :
  F (format fmt args) ->
  (forall e, set_exits tbl t F e -> E e) ->
  (forall t' v, set_writes t F t' v -> may t' v) ->
  triple I R E (_token_set f l SET_PRIO_TOKEN_SET t fmt args).
Proof.
  intros HF HE HW s Hs. pose proof (type_of_lookup (openrg_config_options s)) as Hty.
  rewrite (Hshape s Hs) in Hty.
  destruct (token_set_cases f l SET_PRIO_TOKEN_SET t fmt args s)
    as [(e & -> & He)|[(o & ? & ? & ->)|
        (i & o & v & v' & s' & Hi & Ho & <- & Hl & Hp & Hf & Hlen & Hst & -> & Hw)]].
  - split; [|done]. apply HE. unfold set_exits, str_exits, get_exits. rewrite !Hty.
    destruct He as [Hn|v Hv Hlen|Hn|o Ho Hz Hm|e s' Hm Hd]; rewrite ?Hn, ?Hv, ?Hm in HF.
    + by left.
    + right; left; eauto.
    + rewrite Hn. by right; right; left.
    + rewrite Ho. simpl. rewrite Hz. by do 3 right; left.
    + do 4 right. split; [done|]. rewrite token_get_eq in Hd.
      destruct (lookup_option _ "CONFIG_RG_DEV"); simpl; [|congruence].
      destruct (has_flag _ _); naive_solver.
  - done.
  - eapply Hwrite; eauto. apply HW. split; [done|]. exists v. rewrite Hf in HF.
    split; [done|]. destruct Hst as [->|(-> & -> & _)]; auto.
Qed.

Lemma triple_token_set_y f l t :
  (forall e, set_exits tbl t (text_is "y") e -> E e) -> may t "y" ->
  triple I R E (_token_set_y f l t).
Proof.
  intros HE HW. apply triple_token_set with (F := text_is "y"); [done..|].
  intros t' v (-> & w & [= ->] & [->|[? _]]); [done|congruence].
Qed.

Lemma triple_eval_args args :
  (forall e, (exists a, a ∈ args /\ arg_exits tbl a e) -> E e) ->
  triple I R E (eval_args args).
Proof.
  induction args as [|a args IH]; intros HE; simpl; [by apply triple_ret|].
  apply triple_bind; [done| |intros v].
  - assert (Ha : forall e, arg_exits tbl a e -> E e) by (intros; apply HE; set_solver).
    destruct a; simpl in *; [by apply triple_token_get_str|].
    repeat (apply triple_bind; [done| |intros; by apply triple_ret]). by apply triple_token_get.
  - apply triple_bind; [done| |intros; by apply triple_ret].
    apply IH. intros e (a' & ? & ?). apply HE. set_solver.
Qed.

Lemma eval_args_length args s l s' : eval_args args s = Ok l s' -> length l = length args.
Proof.
  revert l s s'. induction args as [|a args IH]; intros l s s'; simpl.
  { by intros [= <- _]. }
  unfold bind. destruct (eval_arg a s); [|done].
  destruct (eval_args args s0) eqn:Ea; [|done]. intros [= <- _]. simpl. f_equal. eauto.
Qed.

Lemma triple_enable_module f l t :
  (forall e, exits enabled tbl (AEnable t) e -> E e) -> may t "y" ->
  triple I R E (_enable_module enabled f l t).
Proof.
  simpl. intros HE HW.
  assert (Hy : triple I R E (_token_set_y f l t)) by (apply triple_token_set_y; naive_solver).
  assert (Hwarn : forall d, triple I R E (warn d)) by (intros d s Hs; by apply Henv).
  assert (Hno : enabled t = false -> triple I R E (@conf_err unit (NoLicense t))).
  { intros ?. apply triple_conf_err; [done|]. naive_solver. }
  unfold _enable_module, token_set_by_cmdline, token_is_y.
  apply triple_bind; [done| |intros by_cmdline].
  { apply triple_bind; [done| |intros; by apply triple_ret].
    apply triple_option_token_get. naive_solver. }
  assert (Hforce : forall A (k : Z -> M A), (forall z, triple I R E (k z)) ->
            triple I R E (bind (token_get "LIC_FORCE") k)).
  { intros A k Hk. apply triple_bind; [done| |done]. apply triple_token_get. naive_solver. }
  destruct by_cmdline.
  - apply triple_bind; [done| |intros z].
    { apply triple_token_get. naive_solver. }
    destruct (nz z); [|by apply triple_ret].
    apply triple_bind; [done| |done]. destruct (enabled t) eqn:Een; simpl; [by apply triple_ret|].
    apply Hforce. intros z'. destruct (nz z'); auto.
  - destruct (enabled t) eqn:Een; [done|]. apply Hforce. intros z.
    destruct (nz z); [apply triple_bind; auto|].
    apply triple_bind; [done| |intros y; destruct (nz y); auto].
    apply triple_bind; [done| |intros; by apply triple_ret].
    apply triple_token_get_str. naive_solver.
Qed.

Lemma triple_select_themes l :
  (forall o, o ∈ l -> (token o, otype o, description o) ∈ tbl) ->
  (forall t v, writes tbl AThemes t v -> may t v) ->
  triple I R E (select_themes l).
Proof.
  intros Hl HW. induction l as [|o l IH]; simpl; [by apply triple_ret|].
  apply triple_bind; [done| |intros _; apply IH; set_solver].
  destruct (token o =? _)%string eqn:Eb; [by apply triple_ret|].
  destruct (has_flag _ _) eqn:Et; [|by apply triple_ret]. bool_to_prop.
  assert (Hin : (token o, otype o, description o) ∈ tbl) by (apply Hl; set_solver).
  intros s Hs. apply triple_token_set_y; [|apply HW; split_and!; eauto|done].
  pose proof (type_of_lookup (openrg_config_options s) (token o)) as Hty.
  rewrite (Hshape s Hs) in Hty.
  rewrite <- (Hshape s Hs) in Hin. destruct (elem_of_shape _ _ _ _ Hin) as [o' Ho'].
  rewrite Ho' in Hty. unfold set_exits, str_exits. rewrite Hty.
  intros e [[? _]|[(v & [= ->] & Hv & _)|[[? _]|[[? _]|[? _]]]]]; try done. simpl in Hv. lia.
Qed.

(** The distributions that may be added to [jpkg_dists]. *)
Context (may_add : string -> Prop).
Context (Hadd : forall d, may_add d -> triple I R E (jpkg_dist_add d)).

Lemma accepts_access a :
  (forall e, exits enabled tbl a e -> E e) -> (forall t v, writes tbl a t v -> may t v) ->
  (forall d, adds a d -> may_add d) -> accepts enabled I R E a.
Proof.
  intros HE HW HA.
  destruct a as [t|t|t|t v|t|t fmt args|t src|t fmt args|t| | |d| |t| |e]; simpl in *.
  - by apply triple_token_get.
  - by apply triple_token_get_str.
  - intros x. apply triple_bind; [done|apply triple_token_get_str; auto|].
    intros [v|]; [by apply triple_ret|apply triple_conf_err; auto].
  - intros f l. by apply triple_token_set with (F := text_is v).
  - intros f l. apply triple_bind; [done|apply triple_token_get; auto|]. intros v.
    destruct (nz v);
      (apply triple_token_set with (F := fun r => r = Some "y" \/ r = Some "m"); [by auto|by auto|]);
      intros t' w (-> & u & [[= ->]|[= ->]] & [->|[? ->]]); apply HW; auto.
  - intros f l s Hs. unfold set_args.
    pose proof (triple_eval_args args) as Ha. specialize (Ha ltac:(auto) s Hs).
    unfold bind. destruct (eval_args args s) as [l' s'|] eqn:Ee; [|done].
    destruct Ha as [HI HRs]. apply eval_args_length in Ee.
    pose proof (triple_token_set f l t fmt l' (text_of fmt (length args))) as Ht.
    specialize (Ht ltac:(by exists l') ltac:(auto) HW s' HI).
    destruct (_token_set _ _ _ _ _ _ s'); destruct Ht; split; try done; by etrans.
  - intros f l. apply triple_bind; [done|apply triple_token_get_str; auto|].
    intros [v|]; [|apply triple_conf_err; auto]. apply triple_token_set with (F := text_any); [exact Logic.I|auto..].
  - intros f l. apply triple_bind; [done|apply triple_eval_args; auto|].
    intros vs. destruct (format fmt vs);
      [|apply triple_conf_err; [done|]; apply HE; right; right; by left].
    destruct (_ <? _); [|apply triple_conf_err; auto].
    apply triple_token_set with (F := text_any); [exact Logic.I|auto..].
  - intros f l. apply triple_enable_module; auto.
  - intros s Hs. apply triple_select_themes; [|done..].
    intros o Ho. rewrite <- (Hshape s Hs).
    apply list_elem_of_fmap. by exists o.
  - intros m Hm s Hs. destruct (Hm s) as (s' & -> & Ho & Hd & Hj). by apply Henv.
  - apply Hadd. by apply HA.
  - intros m Hm. apply triple_pure; [done|]. intros s _. destruct (Hm s) as [-> Hu].
    split; [done|]. destruct (outcome _); simpl in *; auto.
  - intros f l x args. apply triple_token_set with (F := text_any); [exact Logic.I|auto..].
  - intros x. apply triple_pure; [done|]. intros s _. unfold IS_DIST.
    destruct (dist s); simpl; auto.
  - auto.
Qed.

(** A program whose accesses all pass keeps the invariant. *)
Lemma covers_triple {A} l (m : M A) : covers enabled l m ->
  Forall (fun a => (forall e, exits enabled tbl a e -> E e) /\
                   (forall t v, writes tbl a t v -> may t v) /\
                   (forall d, adds a d -> may_add d)) l ->
  triple I R E m.
Proof.
  intros Hc H. apply Hc; [done|].
  eapply Forall_impl; [exact H|]. intros a (? & ? & ?). by apply accepts_access.
Qed.
End Accept.

(** The same when the invariant does not depend on [jpkg_dists]. *)
Theorem covered_triple enabled tbl (I : cfg -> Prop) (R : cfg -> cfg -> Prop)
    (E : exit_reason -> Prop) `{HR : !PreOrder R} (may : string -> string -> Prop)
    (m : stmt) `{!Covered enabled m} :
  (forall s, I s -> shape (openrg_config_options s) = tbl) ->
  (forall s s' i o f l v,
    I s -> lookup_option (openrg_config_options s) (token o) = Some o ->
    option_token_get_nofail (openrg_config_options s) (token o) = Some i ->
    openrg_config_options s !! i = Some o -> set_prio o <= SET_PRIO_TOKEN_SET ->
    may (token o) v -> written s i (option_assign o f l v SET_PRIO_TOKEN_SET) s' ->
    I s' /\ R s s') ->
  (forall s s', I s ->
    openrg_config_options s' = openrg_config_options s -> dist s' = dist s -> I s' /\ R s s') ->
  Forall (fun a => (forall e, exits enabled tbl a e -> E e) /\
                   (forall t v, writes tbl a t v -> may t v)) (accesses enabled m) ->
  triple I R E m.
Proof.
  intros Hs Hw He Ha.
  eapply (covers_triple enabled tbl I R E may Hs Hw _ (fun _ => True)).
  - intros d _ s HI. by apply (He s (final (jpkg_dist_add d s))).
  - apply (accesses_cover enabled m).
  - eapply Forall_impl; [exact Ha|]. intros a [? ?]. auto.
  Unshelve. intros s s' HI Ho Hd _. by apply He.
Qed.
