(* ===== verification/Discipline.v ===== *)
(** * Discipline: what the rules may do to the option database

    Relations between the database before and after a rule program, and boolean
    checks of access lists that imply them. *)
From S2P Require Import Prelude ConfigOpt OptionTable Licence Rules Accesses Output.

(** ** No rule touches what the command line set *)
Record evolves (s s' : cfg) : Prop := {
  evolves_shape : shape (openrg_config_options s') = shape (openrg_config_options s);
  evolves_entry i o : openrg_config_options s !! i = Some o ->
    exists o', openrg_config_options s' !! i = Some o' /\ set_prio o <= set_prio o' /\
      (SET_PRIO_TOKEN_SET < set_prio o -> o' = o) }.

#[export] Instance evolves_preorder : PreOrder evolves.
Proof.
  split.
  - intros s. split; [done|]. intros i o Ho. exists o. by repeat split.
  - intros s1 s2 s3 [Hs1 He1] [Hs2 He2]. split; [congruence|].
    intros i o Ho. destruct (He1 i o Ho) as (o1 & Ho1 & Hp1 & Hf1).
    destruct (He2 i o1 Ho1) as (o2 & Ho2 & Hp2 & Hf2). exists o2. split; [done|]. split; [lia|].
    intros Hlt. assert (o1 = o) as -> by auto. auto.
Qed.

Lemma written_shape s i o f l v p s' :
  openrg_config_options s !! i = Some o -> written s i (option_assign o f l v p) s' ->
  shape (openrg_config_options s') = shape (openrg_config_options s).
Proof. intros Ho (-> & _). by apply shape_insert with (o := o). Qed.

Lemma written_lookup s i o f l v p s' j oj :
  openrg_config_options s !! i = Some o -> written s i (option_assign o f l v p) s' ->
  openrg_config_options s !! j = Some oj ->
  openrg_config_options s' !! j = Some (if decide (i = j) then option_assign o f l v p else oj).
Proof.
  intros Ho (-> & _) Hj. case_decide as Hij.
  - subst j. apply list_lookup_insert_eq. by apply lookup_lt_Some in Ho.
  - by rewrite list_lookup_insert_ne.
Qed.

Lemma written_evolves s i o f l v s' :
  openrg_config_options s !! i = Some o -> set_prio o <= SET_PRIO_TOKEN_SET ->
  written s i (option_assign o f l v SET_PRIO_TOKEN_SET) s' -> evolves s s'.
Proof.
  intros Ho Hp Hw. split; [by eapply written_shape|]. intros j oj Hj.
  eexists. split; [exact (written_lookup _ _ _ _ _ _ _ _ _ _ Ho Hw Hj)|].
  case_decide as Hij; [|done].
  subst j. assert (oj = o) as -> by congruence. simpl. split; [done|]. lia.
Qed.

Lemma same_options_evolves s s' :
  openrg_config_options s' = openrg_config_options s -> evolves s s'.
Proof. intros He. split; [by rewrite He|]. intros i o Ho. exists o. by rewrite He. Qed.

(** Every covered program, whatever its accesses. *)
Lemma covered_evolves enabled (m : stmt) `{!Covered enabled m} s : evolves s (final (m s)).
Proof.
  assert (H : triple
    (fun s' => shape (openrg_config_options s') = shape (openrg_config_options s))
    evolves (fun _ => True) m).
  { eapply (covered_triple enabled (shape (openrg_config_options s)) _ _ _ (fun _ _ => True));
      try done.
    - intros s1 s2 i o f l v Hs _ _ Ho Hp _ Hw. split; [|by eapply written_evolves].
      rewrite <- Hs. by eapply written_shape.
    - intros s1 s2 Hs He _. split; [by rewrite He | by apply same_options_evolves].
    - apply Forall_forall. auto. }
  specialize (H s eq_refl). destruct (m s); by destruct H.
Qed.

(** ** Checks of an access against the table *)

(** The trie of a table's types; looking a name up finds its first entry. *)
Definition type_trie (tbl : list (string * Z * option string)) : Trie.t Z :=
  Trie.of_list ((fun r => (r.1.1, r.1.2)) <$> tbl).

Lemma find_type_trie tbl t : Trie.find t (type_trie tbl) = type_of tbl t.
Proof.
  unfold type_trie. induction tbl as [|[[k ty] d] tbl IH]; simpl.
  { unfold Trie.find. by destruct (Trie.path t). }
  unfold Trie.find, Trie.insert in *. destruct (k =? t)%string eqn:E; bool_to_prop.
  - subst k. apply Trie.find_path_insert_eq.
  - rewrite Trie.find_path_insert_ne; [done|]. by intros ?%Trie.path_inj.
Qed.

Section Checks.
Context (find : string -> option Z).

Definition known (t : string) : bool := match find t with Some _ => true | None => false end.
Definition readable (t : string) : bool :=
  match find t with
  | Some ty => negb (has_flag ty (Z.lor OPT_STR OPT_C_STR))
  | None => false
  end.
(** [t] can be given the text "m". *)
Definition takes_m (t : string) : bool :=
  match find t with Some ty => negb (ty =? 0) | None => false end && readable "CONFIG_RG_DEV".

Definition arg_ok (a : arg) : bool :=
  match a with GetStr t => known t | Sel t _ _ => readable t end.

(** The access names options of the table only, and reads and writes each as
    its type allows. *)
Definition access_ok (a : access) : bool :=
  match a with
  | AGet t => readable t
  | AStr t | AStrcmp t => known t
  | ASet t x =>
      match format x [] with
      | Some w => known t && (negb (w =? "m")%string || takes_m t)
      | None => false
      end
  | ASetM t => readable "CONFIG_RG_OS_VXWORKS" && takes_m t
  | AArgs t _ args | ACmd t _ args => forallb arg_ok args && takes_m t
  | ACopy t src => known src && takes_m t
  | AEnable t => readable t && readable "LIC_FORCE" && known "LIC_AUTOCONF"
  | AText t => takes_m t
  | AErr e => match e with
              | NoSuchOption _ | NoSuchHw _ | StringAsInteger _ | NotModuleExpand _
              | InternalOption _ | NotNumeric _ | NotYN _ | NotYMN _ | Duplicated _ => false
              | _ => true
              end
  | AThemes | AEnv | AJpkg _ | AUser | ADist => true
  end.

(** The texts a checked rule may give an option of type [ty]. *)
Definition valid_text (ty : Z) (v : string) : bool :=
  negb (bool_decide (is_Some (check_option_validity (mk_option "" (Some v) ty None None 0 0)))).
Definition free_text (ty : Z) : bool :=
  negb (has_flag ty OPT_NUMBER) && negb (is_y_option ty) && negb (is_y_m_option ty).

(** A y/n or y/m/n option: no number, no text. *)
Definition is_bool (ty : Z) : bool :=
  negb (has_flag ty (Z.lor (Z.lor OPT_NUMBER OPT_STR) OPT_C_STR)).

Section Texts.
Context (text_ok : Z -> string -> bool) (any_ok : Z -> bool) (except : string -> bool).
(** Every text the access can store in option [t] passes [text_ok] for the
    type of [t]; [any_ok] says that the type takes any text. *)
Definition type_ok (p : Z -> bool) (t : string) : bool :=
  except t || match find t with Some ty => p ty | None => true end.
Definition access_texts_ok (a : access) : bool :=
  match a with
  | ASet t x =>
      match format x [] with
      | Some w => type_ok (fun ty => text_ok ty w && (negb (w =? "m")%string || text_ok ty "y")) t
      | None => true
      end
  | ASetM t => type_ok (fun ty => text_ok ty "m" && text_ok ty "y") t
  | AArgs t _ _ | ACmd t _ _ | ACopy t _ | AText t => type_ok any_ok t
  | AEnable t => type_ok (fun ty => text_ok ty "y") t
  | _ => true
  end.
End Texts.
End Checks.

(** [p] holds of every access, the types looked up in one trie. *)
Definition all_accesses (p : (string -> option Z) -> access -> bool)
    (tbl : list (string * Z * option string)) (l : list access) : bool :=
  (fun m => forallb (p (fun t => Trie.find t m)) l) (type_trie tbl).

Lemma all_accesses_elem p tbl l a :
  all_accesses p tbl l = true -> a ∈ l -> p (fun t => Trie.find t (type_trie tbl)) a = true.
Proof. intros H Ha. unfold all_accesses in H. rewrite forallb_forall in H. by apply H, list_elem_of_In. Qed.

Lemma all_accesses_sub p tbl l l' :
  l' ⊆ l -> all_accesses p tbl l = true -> all_accesses p tbl l' = true.
Proof.
  intros Hl H. unfold all_accesses. apply forallb_forall. intros a Ha.
  apply (all_accesses_elem p tbl l); [exact H | by apply Hl, list_elem_of_In].
Qed.

(** The reasons a checked program can stop. *)
Definition known_exit (e : exit_reason) : Prop :=
  match e with
  | NoSuchHw h => option_token_get_nofail openrg_hw_options h = None
  | NoSuchOption _ | StringAsInteger _ | NotModuleExpand _
  | InternalOption _ | NotNumeric _ | NotYN _ | NotYMN _ | Duplicated _ => False
  | _ => True
  end.

Lemma user_known_exit e : user_exit e -> known_exit e.
Proof. by destruct e. Qed.

(** ** From the checks to the accesses *)
Section Sound.
Context (tbl : list (string * Z * option string)) (find : string -> option Z).
Context (Hfind : forall t, find t = type_of tbl t).

Lemma readable_get_exits t e : readable find t = true -> ~ get_exits tbl t e.
Proof.
  unfold readable, get_exits. rewrite Hfind. destruct (type_of tbl t) as [ty|]; [|done].
  intros H [Hs _]. by rewrite Hs in H.
Qed.
Lemma known_str_exits t e : known find t = true -> ~ str_exits tbl t e.
Proof. unfold known, str_exits. rewrite Hfind. by destruct (type_of tbl t) as [ty|]; [intros _ [? _]|]. Qed.
Lemma takes_m_set_exits t F e :
  takes_m find t = true -> set_exits tbl t F e ->
  e = Undefined "format" \/ exists v, F (Some v) /\ e = ValueTooLong t.
Proof.
  unfold takes_m. rewrite Hfind. intros H. apply andb_true_iff in H as [Ht Hd].
  unfold set_exits, str_exits.
  intros [[_ ->]|[(v & ? & _ & ->)|[[Hn _]|[(_ & Hz & _)|[_ Hg]]]]].
  - by left.
  - right. by exists v.
  - by rewrite Hn in Ht.
  - by rewrite Hz in Ht.
  - by apply readable_get_exits in Hg.
Qed.
Lemma takes_m_known t : takes_m find t = true -> known find t = true.
Proof. unfold takes_m, known. by destruct (find t). Qed.

Lemma fixed_set_exits t x w e :
  format x [] = Some w -> known find t = true -> (w <> "m" \/ takes_m find t = true) ->
  set_exits tbl t (text_is x) e -> known_exit e.
Proof.
  intros Hx Hk [Hm|Hm] He.
  - unfold text_is in He. rewrite Hx in He. unfold set_exits in He.
    destruct He as [[? ?]|[(v & _ & _ & ->)|[He|[([=] & _)|([=] & _)]]]]; [done|done| |done|done].
    by apply known_str_exits in He.
  - apply takes_m_set_exits in He as [->|(v & _ & ->)]; done.
Qed.

Lemma args_ok_exits args e :
  forallb (arg_ok find) args = true -> ~ exists a, a ∈ args /\ arg_exits tbl a e.
Proof.
  intros H (a & Ha & He). rewrite forallb_forall in H. specialize (H a).
  rewrite <- list_elem_of_In in H. specialize (H Ha).
  destruct a; simpl in *; [by apply known_str_exits in He | by apply readable_get_exits in He].
Qed.

Lemma access_ok_exits enabled a e :
  access_ok find a = true -> exits enabled tbl a e -> known_exit e.
Proof.
  assert (Hany : forall t F, takes_m find t = true -> set_exits tbl t F e -> known_exit e).
  { intros t F Ht He. by apply takes_m_set_exits in He as [->|(v & _ & ->)]. }
  destruct a as [t|t|t|t v|t|t fmt args|t src|t fmt args|t| | | | |t| |e']; simpl; intros H He;
    bool_to_prop; try done.
  - by apply readable_get_exits in He.
  - by apply known_str_exits in He.
  - destruct He as [He| ->]; [by apply known_str_exits in He | done].
  - destruct (format v []) as [w|] eqn:Ef; [|done]. bool_to_prop.
    eapply fixed_set_exits; eauto. apply orb_true_iff in H0 as [H0|H0]; bool_to_prop; auto.
  - destruct He as [He|He]; [by apply readable_get_exits in He | by eapply Hany].
  - destruct He as [He|He]; [by apply args_ok_exits in He | by eapply Hany].
  - destruct He as [He|[->|He]]; [by apply known_str_exits in He | done | by eapply Hany].
  - destruct He as [He|[->|He]]; [by apply args_ok_exits in He | done | by eapply Hany].
  - assert (Hk : known find t = true) by (unfold known, readable in *; by destruct (find t)).
    destruct He as [He|[He|[He|[He|[[_ ->]|He]]]]]; try done;
      try (by apply known_str_exits in He); try (by apply readable_get_exits in He).
    apply (fixed_set_exits t "y" "y"); auto.
  - by apply user_known_exit.
  - by eapply Hany.
  - by subst e.
  - subst e'. by destruct e.
Qed.

Lemma access_texts_writes text_ok any_ok except a t v ty :
  (forall ty v, any_ok ty = true -> text_ok ty v = true) ->
  (forall t ty d ty', (t, ty, d) ∈ tbl -> has_flag ty OPT_THEME = true ->
     type_of tbl t = Some ty' -> text_ok ty' "y" = true) ->
  access_texts_ok find text_ok any_ok except a = true ->
  writes tbl a t v -> except t = false -> type_of tbl t = Some ty -> text_ok ty v = true.
Proof.
  intros Hany Htheme H Hw He Hty.
  assert (Hok : forall p, type_ok find except p t = true -> p ty = true).
  { intros p. unfold type_ok. by rewrite He, Hfind, Hty. }
  destruct a; simpl in *; try done.
  - destruct Hw as (-> & w & Hx & Hv). unfold text_is in Hx. rewrite <- Hx in H.
    apply Hok in H. bool_to_prop. destruct Hv as [->|[-> ->]]; [done|]. done.
  - destruct Hw as [-> Hv]. apply Hok in H. bool_to_prop. by destruct Hv as [->| ->].
  - destruct Hw as (-> & _). auto.
  - destruct Hw as (-> & _). auto.
  - destruct Hw as (-> & _). auto.
  - destruct Hw as [-> ->]. by apply Hok in H.
  - destruct Hw as (-> & _ & ty' & d & Hin & Hf). eauto.
  - destruct Hw as (-> & _). auto.
Qed.
End Sound.
