(* ===== verification/FeatureCover.v ===== *)
(** * FeatureCover: the accesses of the feature rules

    For each piece, the list of the elementary accesses it can make, computed by
    walking through its text, with the proof that an invariant kept by those
    accesses is kept by the piece ([Rules.Covered]). *)
From S2P Require Import Prelude ConfigOpt Licence Rules FeatureConfig.

(** Instances are looked up by the name of a piece, never by its text. *)
#[global] Typeclasses Opaque
  package_features_1 general_features_1 general_features_2 general_features_3
  general_features_4 general_features_5 general_features_6 general_features_7
  general_features_8 general_features_9 general_features_10 general_features_11
  general_features_12 general_features_13 general_features_14 general_features_15
  general_features_16 general_features_17 general_features_18 general_features_19
  general_features_20 general_features_21 general_features_22 general_features_23
  general_features_24 general_features_25 general_features_26 general_features_27
  general_features_28 general_features_29 general_features_30 general_features_31
  openrg_features_1 package_features general_features openrg_features.

Section FeatureCover.
Context (is_feature_enabled : string -> bool).
#[local] Abbreviation Covered := (Covered is_feature_enabled).
#[local] Abbreviation CoveredArms := (CoveredArms is_feature_enabled).

#[export] Instance package_features_1_covered : Covered (block package_features_1).
Proof. cover_piece. Defined.
#[export] Instance general_features_1_covered : Covered (block general_features_1).
Proof. cover_piece. Defined.
#[export] Instance general_features_2_covered : Covered (block general_features_2).
Proof. cover_piece. Defined.
#[export] Instance general_features_3_covered : Covered (block general_features_3).
Proof. cover_piece. Defined.
#[export] Instance general_features_4_covered : Covered (block (general_features_4 is_feature_enabled)).
Proof. cover_piece. Defined.
#[export] Instance general_features_5_covered : Covered (block general_features_5).
Proof. cover_piece. Defined.
#[export] Instance general_features_6_covered : Covered (block general_features_6).
Proof. cover_piece. Defined.
#[export] Instance general_features_7_covered : Covered (block general_features_7).
Proof. cover_piece. Defined.
#[export] Instance general_features_8_covered : Covered (block general_features_8).
Proof. cover_piece. Defined.
#[export] Instance general_features_9_covered : Covered (block general_features_9).
Proof. cover_piece. Defined.
#[export] Instance general_features_10_covered : Covered (block general_features_10).
Proof. cover_piece. Defined.
#[export] Instance general_features_11_covered : Covered (block general_features_11).
Proof. cover_piece. Defined.
#[export] Instance general_features_12_covered : Covered (block general_features_12).
Proof. cover_piece. Defined.
#[export] Instance general_features_13_covered : Covered (block general_features_13).
Proof. cover_piece. Defined.
#[export] Instance general_features_14_covered : Covered (block general_features_14).
Proof. cover_piece. Defined.
#[export] Instance general_features_15_covered : Covered (block general_features_15).
Proof. cover_piece. Defined.
#[export] Instance general_features_16_covered : Covered (block general_features_16).
Proof. cover_piece. Defined.
#[export] Instance general_features_17_covered : Covered (block general_features_17).
Proof. cover_piece. Defined.
#[export] Instance general_features_18_covered : Covered (block general_features_18).
Proof. cover_piece. Defined.
#[export] Instance general_features_19_covered : Covered (block general_features_19).
Proof. cover_piece. Defined.
#[export] Instance general_features_20_covered : Covered (block general_features_20).
Proof. cover_piece. Defined.
#[export] Instance general_features_21_covered : Covered (block general_features_21).
Proof. cover_piece. Defined.
#[export] Instance general_features_22_covered : Covered (block general_features_22).
Proof. cover_piece. Defined.
#[export] Instance general_features_23_covered : Covered (block general_features_23).
Proof. cover_piece. Defined.
#[export] Instance general_features_24_covered : Covered (block general_features_24).
Proof. cover_piece. Defined.
#[export] Instance general_features_25_covered : Covered (block general_features_25).
Proof. cover_piece. Defined.
#[export] Instance general_features_26_covered : Covered (block general_features_26).
Proof. cover_piece. Defined.
#[export] Instance general_features_27_covered : Covered (block general_features_27).
Proof. cover_piece. Defined.
#[export] Instance general_features_28_covered : Covered (block general_features_28).
Proof. cover_piece. Defined.
#[export] Instance general_features_29_covered : Covered (block general_features_29).
Proof. cover_piece. Defined.
#[export] Instance general_features_30_covered : Covered (block general_features_30).
Proof. cover_piece. Defined.
#[export] Instance general_features_31_covered : Covered (block general_features_31).
Proof. cover_piece. Defined.
#[export] Instance openrg_features_1_covered : Covered (block openrg_features_1).
Proof. cover_piece. Defined.
#[export] Instance package_features_covered : Covered package_features.
Proof. cover_piece. Defined.
#[export] Instance general_features_covered : Covered (general_features is_feature_enabled).
Proof. cover_piece. Defined.
#[export] Instance openrg_features_covered : Covered openrg_features.
Proof. cover_piece. Defined.
End FeatureCover.
