(* ===== verification/HwCover.v ===== *)
(** * HwCover: the accesses of the hardware and operating-system rules

    For each piece, the list of the elementary accesses it can make, computed by
    walking through its text, with the proof that an invariant kept by those
    accesses is kept by the piece ([Rules.Covered]). *)
From S2P Require Import Prelude ConfigOpt Licence Rules TargetOs HwConfig.

(** Instances are looked up by the name of a piece, never by its text. *)
#[global] Typeclasses Opaque
  target_primary_os target_os_features _ralink_rt256x_add ralink_rt2560_add ralink_rt2561_add
  bcm43xx_add atheros_ar521x_add atheros_ar50wl_add isl_softmac_add hardware_features_1
  hardware_features_2 hardware_features_3 hardware_features_4 hardware_features_5
  hardware_features_6 hardware_features_7 hardware_features_8 hardware_features_9
  hardware_features_10 hardware_features_11 hardware_features_12 hardware_features_13
  hardware_features_14 hardware_features_15 hardware_features_16 hardware_features_17
  hardware_features_18 hardware_features_19 hardware_features_20 hardware_features_21
  hardware_features_no_hw hardware_features_platforms.

Section HwCover.
Context (is_feature_enabled : string -> bool).
#[local] Abbreviation Covered := (Covered is_feature_enabled).
#[local] Abbreviation CoveredArms := (CoveredArms is_feature_enabled).

#[export] Instance target_primary_os_covered : Covered target_primary_os.
Proof. cover_piece. Defined.
#[export] Instance target_os_features_covered (os : string) : Covered (target_os_features os).
Proof. cover_piece. Defined.
#[export] Instance _ralink_rt256x_add_covered (config : string) : Covered (_ralink_rt256x_add config).
Proof. cover_piece. Defined.
#[export] Instance ralink_rt2560_add_covered : Covered ralink_rt2560_add.
Proof. cover_piece. Defined.
#[export] Instance ralink_rt2561_add_covered : Covered ralink_rt2561_add.
Proof. cover_piece. Defined.
#[export] Instance bcm43xx_add_covered : Covered bcm43xx_add.
Proof. cover_piece. Defined.
#[export] Instance atheros_ar521x_add_covered : Covered atheros_ar521x_add.
Proof. cover_piece. Defined.
#[export] Instance atheros_ar50wl_add_covered : Covered atheros_ar50wl_add.
Proof. cover_piece. Defined.
#[export] Instance isl_softmac_add_covered : Covered isl_softmac_add.
Proof. cover_piece. Defined.
#[export] Instance hardware_features_1_covered : Covered (block hardware_features_1).
Proof. cover_piece. Defined.
#[export] Instance hardware_features_2_covered : Covered (block hardware_features_2).
Proof. cover_piece. Defined.
#[export] Instance hardware_features_3_covered : Covered (block hardware_features_3).
Proof. cover_piece. Defined.
#[export] Instance hardware_features_4_covered : Covered (block hardware_features_4).
Proof. cover_piece. Defined.
#[export] Instance hardware_features_5_covered : Covered (block hardware_features_5).
Proof. cover_piece. Defined.
#[export] Instance hardware_features_6_covered : Covered (block hardware_features_6).
Proof. cover_piece. Defined.
#[export] Instance hardware_features_7_covered : Covered (block hardware_features_7).
Proof. cover_piece. Defined.
#[export] Instance hardware_features_8_covered : Covered (block hardware_features_8).
Proof. cover_piece. Defined.
#[export] Instance hardware_features_9_covered : Covered (block hardware_features_9).
Proof. cover_piece. Defined.
#[export] Instance hardware_features_10_covered : Covered (block hardware_features_10).
Proof. cover_piece. Defined.
#[export] Instance hardware_features_11_covered : Covered (block hardware_features_11).
Proof. cover_piece. Defined.
#[export] Instance hardware_features_12_covered : Covered (block hardware_features_12).
Proof. cover_piece. Defined.
#[export] Instance hardware_features_13_covered : Covered (block hardware_features_13).
Proof. cover_piece. Defined.
#[export] Instance hardware_features_14_covered : Covered (block hardware_features_14).
Proof. cover_piece. Defined.
#[export] Instance hardware_features_15_covered : Covered (block hardware_features_15).
Proof. cover_piece. Defined.
#[export] Instance hardware_features_16_covered : Covered (block hardware_features_16).
Proof. cover_piece. Defined.
#[export] Instance hardware_features_17_covered : Covered (block hardware_features_17).
Proof. cover_piece. Defined.
#[export] Instance hardware_features_18_covered : Covered (block hardware_features_18).
Proof. cover_piece. Defined.
#[export] Instance hardware_features_19_covered : Covered (block hardware_features_19).
Proof. cover_piece. Defined.
#[export] Instance hardware_features_20_covered : Covered (block hardware_features_20).
Proof. cover_piece. Defined.
#[export] Instance hardware_features_21_covered : Covered (block hardware_features_21).
Proof. cover_piece. Defined.
#[export] Instance hardware_features_no_hw_covered : Covered (block hardware_features_no_hw).
Proof. cover_piece. Defined.
#[export] Instance hardware_features_platforms_covered : Covered (block hardware_features_platforms).
Proof. cover_piece. Defined.
End HwCover.
