(* ===== verification/DistCover.v ===== *)
(** * DistCover: the accesses of the distribution rules

    For each piece, the list of the elementary accesses it can make, computed by
    walking through its text, with the proof that an invariant kept by those
    accesses is kept by the piece ([Rules.Covered]). *)
From S2P Require Import Prelude ConfigOpt OptionTable Licence InitOptions Rules DistConfig.

(** Instances are looked up by the name of a piece, never by its text. *)
#[global] Typeclasses Opaque
  set_jnet_server_configs small_flash_default_dist set_jpkg_dist_configs_1
  set_jpkg_dist_configs_2 set_jpkg_dist_configs distribution_arms_1 distribution_arms_2
  distribution_arms_3 distribution_arms_4 distribution_arms_5 distribution_arms_6
  distribution_arms_7 distribution_arms_8 distribution_arms_9 distribution_arms_10
  distribution_arms_11 distribution_arms_12 distribution_arms_13 distribution_arms_14
  distribution_arms_15 distribution_arms_16 distribution_arms_17 distribution_arms_18
  distribution_arms_19 distribution_arms_20 distribution_arms_21 distribution_arms_22
  distribution_arms_23 distribution_arms_24 distribution_arms_25 distribution_arms_26
  distribution_arms_27 distribution_arms_28 distribution_arms_29 distribution_arms_30
  distribution_arms_31 distribution_arms_32 distribution_arms.

Section DistCover.
Context (is_feature_enabled : string -> bool).
#[local] Abbreviation Covered := (Covered is_feature_enabled).
#[local] Abbreviation CoveredArms := (CoveredArms is_feature_enabled).

#[export] Instance set_jnet_server_configs_covered : Covered set_jnet_server_configs.
Proof. cover_piece. Defined.
#[export] Instance small_flash_default_dist_covered : Covered (small_flash_default_dist is_feature_enabled).
Proof. cover_piece. Defined.
#[export] Instance set_jpkg_dist_configs_1_covered (jpkg_dist : string) : Covered (block (set_jpkg_dist_configs_1 is_feature_enabled jpkg_dist)).
Proof. cover_piece. Defined.
#[export] Instance set_jpkg_dist_configs_2_covered (jpkg_dist : string) : Covered (block (set_jpkg_dist_configs_2 is_feature_enabled jpkg_dist)).
Proof. cover_piece. Defined.
#[export] Instance set_jpkg_dist_configs_covered (jpkg_dist : string) : Covered (set_jpkg_dist_configs is_feature_enabled jpkg_dist).
Proof. cover_piece. Defined.
#[export] Instance distribution_arms_1_covered : CoveredArms (distribution_arms_1 is_feature_enabled).
Proof. cover_piece. Defined.
#[export] Instance distribution_arms_2_covered : CoveredArms (distribution_arms_2 is_feature_enabled).
Proof. cover_piece. Defined.
#[export] Instance distribution_arms_3_covered : CoveredArms (distribution_arms_3 is_feature_enabled).
Proof. cover_piece. Defined.
#[export] Instance distribution_arms_4_covered : CoveredArms (distribution_arms_4 is_feature_enabled).
Proof. cover_piece. Defined.
#[export] Instance distribution_arms_5_covered : CoveredArms (distribution_arms_5 is_feature_enabled).
Proof. cover_piece. Defined.
#[export] Instance distribution_arms_6_covered : CoveredArms (distribution_arms_6 is_feature_enabled).
Proof. cover_piece. Defined.
#[export] Instance distribution_arms_7_covered : CoveredArms (distribution_arms_7 is_feature_enabled).
Proof. cover_piece. Defined.
#[export] Instance distribution_arms_8_covered : CoveredArms (distribution_arms_8 is_feature_enabled).
Proof. cover_piece. Defined.
#[export] Instance distribution_arms_9_covered : CoveredArms (distribution_arms_9 is_feature_enabled).
Proof. cover_piece. Defined.
#[export] Instance distribution_arms_10_covered : CoveredArms (distribution_arms_10 is_feature_enabled).
Proof. cover_piece. Defined.
#[export] Instance distribution_arms_11_covered : CoveredArms (distribution_arms_11 is_feature_enabled).
Proof. cover_piece. Defined.
#[export] Instance distribution_arms_12_covered : CoveredArms (distribution_arms_12 is_feature_enabled).
Proof. cover_piece. Defined.
#[export] Instance distribution_arms_13_covered : CoveredArms (distribution_arms_13 is_feature_enabled).
Proof. cover_piece. Defined.
#[export] Instance distribution_arms_14_covered : CoveredArms (distribution_arms_14 is_feature_enabled).
Proof. cover_piece. Defined.
#[export] Instance distribution_arms_15_covered : CoveredArms (distribution_arms_15 is_feature_enabled).
Proof. cover_piece. Defined.
#[export] Instance distribution_arms_16_covered : CoveredArms (distribution_arms_16 is_feature_enabled).
Proof. cover_piece. Defined.
#[export] Instance distribution_arms_17_covered : CoveredArms (distribution_arms_17 is_feature_enabled).
Proof. cover_piece. Defined.
#[export] Instance distribution_arms_18_covered : CoveredArms (distribution_arms_18 is_feature_enabled).
Proof. cover_piece. Defined.
#[export] Instance distribution_arms_19_covered : CoveredArms (distribution_arms_19 is_feature_enabled).
Proof. cover_piece. Defined.
#[export] Instance distribution_arms_20_covered : CoveredArms (distribution_arms_20 is_feature_enabled).
Proof. cover_piece. Defined.
#[export] Instance distribution_arms_21_covered : CoveredArms (distribution_arms_21 is_feature_enabled).
Proof. cover_piece. Defined.
#[export] Instance distribution_arms_22_covered : CoveredArms (distribution_arms_22 is_feature_enabled).
Proof. cover_piece. Defined.
#[export] Instance distribution_arms_23_covered : CoveredArms (distribution_arms_23 is_feature_enabled).
Proof. cover_piece. Defined.
#[export] Instance distribution_arms_24_covered : CoveredArms (distribution_arms_24 is_feature_enabled).
Proof. cover_piece. Defined.
#[export] Instance distribution_arms_25_covered : CoveredArms (distribution_arms_25 is_feature_enabled).
Proof. cover_piece. Defined.
#[export] Instance distribution_arms_26_covered : CoveredArms (distribution_arms_26 is_feature_enabled).
Proof. cover_piece. Defined.
#[export] Instance distribution_arms_27_covered : CoveredArms (distribution_arms_27 is_feature_enabled).
Proof. cover_piece. Defined.
#[export] Instance distribution_arms_28_covered : CoveredArms (distribution_arms_28 is_feature_enabled).
Proof. cover_piece. Defined.
#[export] Instance distribution_arms_29_covered : CoveredArms (distribution_arms_29 is_feature_enabled).
Proof. cover_piece. Defined.
#[export] Instance distribution_arms_30_covered : CoveredArms (distribution_arms_30 is_feature_enabled).
Proof. cover_piece. Defined.
#[export] Instance distribution_arms_31_covered : CoveredArms (distribution_arms_31 is_feature_enabled).
Proof. cover_piece. Defined.
#[export] Instance distribution_arms_32_covered : CoveredArms (distribution_arms_32 is_feature_enabled).
Proof. cover_piece. Defined.
#[export] Instance distribution_arms_covered : CoveredArms (distribution_arms is_feature_enabled).
Proof. cover_piece. Defined.
End DistCover.
