(* ===== verification/HostCover.v ===== *)
(** * HostCover: the accesses of the host configuration

    The lists of the option accesses of config_host.c's functions; they do not
    depend on the host or on the static strings. *)
From S2P Require Import Prelude ConfigOpt StrUtil Licence Rules HostOps ConfigHost.

Section HostCover.
Context (is_feature_enabled : string -> bool).
#[local] Abbreviation Covered := (Covered is_feature_enabled).
#[local] Abbreviation CoveredFun := (CoveredFun is_feature_enabled).

Lemma covers_set_libc l c :
  covers is_feature_enabled [ASet "CONFIG_GLIBC" "y"; ASet "CONFIG_ULIBC" "y"] (set_libc l c).
Proof. destruct c; (eapply covers_incl; [apply covers_token_set_y | set_solver]). Qed.
Lemma covers_pick tok x f : covers is_feature_enabled [AGet tok] (pick tok x f).
Proof.
  rewrite <- (app_nil_r [AGet tok]). apply covers_CatIf; [apply covers_isset|].
  apply covers_bind_pure; [apply covers_ret | intros; apply covers_ret].
Qed.
Lemma covers_dist_dup : covers is_feature_enabled [AErr (Undefined "strdup")] dist_dup.
Proof. apply (covers_state _ _ dist (nonnull "strdup")). intros. apply covers_nonnull. Qed.
Lemma covers_locate_file h locs filename :
  covers is_feature_enabled (command_accesses [Str ""; Str ""]) (locate_file h locs filename).
Proof.
  unfold locate_file. generalize (@None string). induction locs as [|loc locs IH]; intros first.
  - eapply covers_incl; [apply covers_ret | set_solver].
  - cbn [locate_loop]. eapply covers_incl.
    + apply covers_bind; [apply covers_sys_execf|]. intros r.
      apply covers_if; [|apply IH].
      apply covers_option; [intros; apply covers_ret | apply IH].
    + set_solver.
Qed.
#[local] Hint Resolve covers_set_libc covers_pick covers_dist_dup covers_locate_file : rules.

#[export] Instance conf_ostype_covered : CoveredFun conf_ostype.
Proof. cover_piece. Defined.
#[export] Instance conf_os_path_covered : Covered conf_os_path.
Proof. cover_piece. Defined.
#[export] Instance conf_endian_flags_covered : Covered conf_endian_flags.
Proof. cover_piece. Defined.
#[export] Instance conf_toolchain_covered : CoveredFun conf_toolchain.
Proof. cover_piece. Defined.
#[export] Instance conf_target_machine_covered : Covered conf_target_machine.
Proof. cover_piece. Defined.
#[export] Instance conf_tools_prefix_covered h : CoveredFun (conf_tools_prefix h).
Proof. cover_piece. Defined.
#[export] Instance conf_libc_covered h : CoveredFun (conf_libc h).
Proof. 
  eapply Build_CoveredFun. intros g. unfold conf_libc, libc_detect, conf_libc_given, conf_libc_free,
    libc_in_toolchain. walk.
 Defined.
#[export] Instance conf_ccache_covered h : CoveredFun (conf_ccache h).
Proof. cover_piece. Defined.
#[export] Instance conf_cc_covered : CoveredFun conf_cc.
Proof. cover_piece. Defined.
#[export] Instance conf_cc_for_build_covered h : CoveredFun (conf_cc_for_build h).
Proof. cover_piece. Defined.
#[export] Instance conf_target_cc_covered h : CoveredFun (conf_target_cc h).
Proof. cover_piece. Defined.
#[export] Instance conf_gcc_version_covered : CoveredFun conf_gcc_version.
Proof. cover_piece. Defined.
#[export] Instance conf_host_tools_covered : CoveredFun conf_host_tools.
Proof. cover_piece. Defined.
#[export] Instance conf_tools_covered : CoveredFun conf_tools.
Proof. cover_piece. Defined.
#[export] Instance conf_os_target_covered : Covered conf_os_target.
Proof. cover_piece. Defined.
#[export] Instance conf_gawk_covered : CoveredFun conf_gawk.
Proof. cover_piece. Defined.
#[export] Instance conf_lex_and_yacc_covered : CoveredFun conf_lex_and_yacc.
Proof. eapply Build_CoveredFun. intros h. unfold conf_lex_and_yacc, without, needs_bison. walk. Defined.
#[export] Instance conf_host_general_covered h : CoveredFun (conf_host_general h).
Proof. eapply Build_CoveredFun. intros g. unfold conf_host_general, conf_valgrind. walk. Defined.
#[export] Instance conf_target_general_covered : CoveredFun conf_target_general.
Proof. cover_piece. Defined.
#[export] Instance conf_openrg_img_covered : CoveredFun conf_openrg_img.
Proof. cover_piece. Defined.
#[export] Instance conf_prod_kernel_image_covered : CoveredFun conf_prod_kernel_image.
Proof. cover_piece. Defined.
#[export] Instance conf_trx_covered : CoveredFun conf_trx.
Proof. cover_piece. Defined.
#[export] Instance conf_rg_cpu_covered : Covered conf_rg_cpu.
Proof. cover_piece. Defined.
#[export] Instance conf_flash_img_offset_covered : Covered conf_flash_img_offset.
Proof. cover_piece. Defined.
#[export] Instance conf_have_gc_sections_covered : Covered conf_have_gc_sections.
Proof. cover_piece. Defined.
#[export] Instance conf_linux_arch_path_covered : CoveredFun conf_linux_arch_path.
Proof. cover_piece. Defined.
#[export] Instance conf_compressed_disk_covered : CoveredFun conf_compressed_disk.
Proof. cover_piece. Defined.
#[export] Instance conf_gcc_has_size_optimize_covered : Covered conf_gcc_has_size_optimize.
Proof. cover_piece. Defined.
#[export] Instance conf_gcc_attribute_support_covered : CoveredFun conf_gcc_attribute_support.
Proof. eapply Build_CoveredFun. intros h. unfold conf_gcc_attribute_support, detect_cc_feature. walk. Defined.
#[export] Instance conf_rg_cflags_covered : Covered conf_rg_cflags.
Proof. cover_piece. Defined.
#[export] Instance conf_arch_cflags_covered : Covered conf_arch_cflags.
Proof. cover_piece. Defined.
#[export] Instance conf_arch_linux_cflags_covered : CoveredFun conf_arch_linux_cflags.
Proof. cover_piece. Defined.
#[export] Instance conf_rg_linux_cflags_covered : CoveredFun conf_rg_linux_cflags.
Proof. 
  eapply Build_CoveredFun. intros g.
  unfold conf_rg_linux_cflags, rg_linux_cflags_hw, rg_linux_cflags_24, rg_linux_cflags_26. walk.
 Defined.
#[export] Instance conf_linux_cflags_covered : Covered conf_linux_cflags.
Proof. cover_piece. Defined.
#[export] Instance conf_host_ldflags_covered : CoveredFun conf_host_ldflags.
Proof. cover_piece. Defined.
#[export] Instance conf_ldflags_covered : CoveredFun conf_ldflags.
Proof. cover_piece. Defined.
#[export] Instance conf_host_cflags_covered : CoveredFun conf_host_cflags.
Proof. cover_piece. Defined.
#[export] Instance conf_cflags_covered : Covered conf_cflags.
Proof. cover_piece. Defined.
#[export] Instance conf_openrg_lflags_covered : CoveredFun conf_openrg_lflags.
Proof. cover_piece. Defined.
#[export] Instance conf_openrg_local_lflags_covered : Covered conf_openrg_local_lflags.
Proof. cover_piece. Defined.
#[export] Instance conf_doctools_covered h : CoveredFun (conf_doctools h).
Proof. cover_piece. Defined.
#[export] Instance conf_arch_covered : Covered conf_arch.
Proof. cover_piece. Defined.
#[export] Instance conf_lang_compiler_covered : CoveredFun conf_lang_compiler.
Proof. cover_piece. Defined.
#[export] Instance conf_mysql_covered : CoveredFun conf_mysql.
Proof. cover_piece. Defined.
#[export] Instance conf_openssl_covered : CoveredFun conf_openssl.
Proof. cover_piece. Defined.

#[export] Instance target_tools_covered h : CoveredFun (target_tools h).
Proof. cover_piece. Defined.
#[export] Instance target_files_covered h : CoveredFun (target_files h).
Proof. cover_piece. Defined.
#[export] Instance config_target_covered h : CoveredFun (config_target h).
Proof. cover_piece. Defined.
#[export] Instance config_host_covered h : Covered (config_host h).
Proof. eapply Build_Covered. unfold config_host, config_host_start. walk. Defined.
End HostCover.
