(* ===== verification/CreateCover.v ===== *)
(** * CreateCover: the accesses of the whole configuration

    The accesses of [configure_features] and of [configure_rules], put together
    from those of the rule files. *)
From S2P Require Import Prelude ConfigOpt OptionTable Licence InitOptions Rules TargetOs HwConfig.
From S2P Require Import DistConfig FeatureConfig CreateConfig JpkgConfig.
From S2P Require Import HostOps ConfigHost HostCover FeatureCover HwCover DistCover.

#[global] Typeclasses Opaque hardware_features_hw hardware_features distribution_features
  configure_features configure_rules target_os jpkg_rules config_host main_end.

Section CreateCover.
Context (is_feature_enabled : string -> bool).
#[local] Abbreviation Covered := (Covered is_feature_enabled).

Lemma init_configs_nofail a tok :
  option_token_get_nofail (_init_configs a) tok = option_token_get_nofail a tok.
Proof. apply nofail_tokens, shape_tokens, init_configs_shape. Qed.

#[export] Instance hardware_features_hw_covered h : Covered (hardware_features_hw h).
Proof.
  exists ([AUser] ++ [AText "CONFIG_RG_HW"; AText "CONFIG_RG_HW_DESC_STR"])%list.
  unfold hardware_features_hw.
  assert (Hexit : forall e l, user_exit e ->
    covers is_feature_enabled ([AUser] ++ l)%list (@conf_err unit e)).
  { intros e l He. eapply covers_incl; [apply covers_user; by intros s | set_solver]. }
  destruct (lookup_option _ h) as [o|] eqn:Eo.
  - destruct (value o); [|by apply Hexit].
    eapply covers_incl; [walk | set_solver].
  - apply Hexit. unfold user_exit. rewrite <- init_configs_nofail. by apply lookup_option_None.
Defined.

#[export] Instance hardware_features_covered : Covered hardware_features.
Proof.
  exists (accesses is_feature_enabled (block hardware_features_no_hw) ++
          accesses is_feature_enabled (hardware_features_hw "") ++
          accesses is_feature_enabled (block hardware_features_platforms))%list.
  apply (covers_ext _ _ (fun s => match hw s with
    | None => block hardware_features_no_hw
    | Some h => hardware_features_hw h;;; block hardware_features_platforms end s)).
  { intros s. unfold hardware_features. by destruct (hw s). }
  apply (covers_state _ _ hw (fun h => match h with
    | None => block hardware_features_no_hw
    | Some h => hardware_features_hw h;;; block hardware_features_platforms end)).
  intros [h|].
  - eapply covers_incl; [apply covers_bind; [|intros _]; apply accesses_cover|].
    apply list_subseteq_app_r. reflexivity.
  - eapply covers_incl; [apply accesses_cover|]. apply list_subseteq_app_l. reflexivity.
Defined.

Lemma covers_set_dist_text l t : covers is_feature_enabled [ADist; AText t] (set_dist_text l t).
Proof.
  intros I R E HR [Hd [Ht _]%Forall_cons]%Forall_cons s Hs. specialize (Hd "" s Hs).
  unfold set_dist_text, IS_DIST in *. destruct (dist s) as [d|] eqn:Ed; [by apply Ht | done].
Qed.
Lemma covers_dist_set : covers is_feature_enabled [] dist_set.
Proof. by apply covers_final. Qed.
Lemma covers_needs_os : covers is_feature_enabled [] needs_os.
Proof. by apply covers_final. Qed.
Lemma covers_invalid_dist : covers is_feature_enabled [AUser] invalid_dist.
Proof. by apply covers_user. Qed.

Lemma covers_check_os : covers is_feature_enabled [AUser] check_os.
Proof. apply covers_user. intros s. unfold check_os. by destruct (_ && _). Qed.
Lemma covers_check_hw_set : covers is_feature_enabled [AUser] check_hw_set.
Proof.
  apply covers_user. intros s. unfold check_hw_set. destruct (hw s); [done|]. by destruct (negb _).
Qed.
Lemma covers_check_name table name : covers is_feature_enabled [AUser] (check_name table name).
Proof.
  apply covers_user. intros s. unfold check_name. destruct (name s); [|done]. by destruct (legal _ _).
Qed.

#[local] Hint Resolve covers_set_dist_text covers_dist_set covers_needs_os covers_invalid_dist
  covers_check_os covers_check_hw_set covers_check_name : rules.

#[export] Instance target_os_if_set_covered : Covered target_os_if_set.
Proof.
  exists (accesses is_feature_enabled (target_os_features "")).
  apply (covers_ext _ _
    (fun s => (if (os s =? "")%string then ret tt else target_os_features (os s)) s)).
  { intros s. unfold target_os_if_set. by destruct (_ =? _)%string. }
  apply (covers_state _ _ os (fun o => if (o =? "")%string then ret tt else target_os_features o)).
  intros o. destruct (o =? "")%string; 
    [|exact (accesses_cover is_feature_enabled (target_os_features o))].
  intros I R E HR _. by apply triple_ret.
Defined.

#[export] Instance target_os_covered : Covered target_os.
Proof.
  exists (accesses is_feature_enabled (target_os_features "")).
  apply (covers_state _ _ os target_os_features). intros o.
  exact (accesses_cover is_feature_enabled (target_os_features o)).
Defined.

#[export] Instance distribution_features_covered :
  Covered (distribution_features is_feature_enabled).
Proof. cover_piece. Defined.
#[export] Instance configure_features_covered : Covered (configure_features is_feature_enabled).
Proof. cover_piece. Defined.
#[export] Instance configure_rules_covered : Covered (configure_rules is_feature_enabled).
Proof. cover_piece. Defined.
#[export] Instance jpkg_rules_covered : Covered (jpkg_rules is_feature_enabled).
Proof. cover_piece. Defined.

#[export] Instance main_end_covered h : Covered (main_end h).
Proof. cover_piece. Defined.

(** A pass over a distribution of [jpkg_dists] makes no access of its own. *)
Lemma jpkg_rules_accesses :
  accesses is_feature_enabled (jpkg_rules is_feature_enabled) ⊆
  accesses is_feature_enabled (configure_rules is_feature_enabled).
Proof.
  change (accesses is_feature_enabled (jpkg_rules is_feature_enabled)) with
    (accesses is_feature_enabled (distribution_features is_feature_enabled) ++
     accesses is_feature_enabled target_os ++
     accesses is_feature_enabled (configure_features is_feature_enabled))%list.
  change (accesses is_feature_enabled (configure_rules is_feature_enabled)) with
    (accesses is_feature_enabled (distribution_features is_feature_enabled) ++
     [AUser] ++ [AUser] ++ [AUser] ++ [AUser] ++
     accesses is_feature_enabled target_os ++
     accesses is_feature_enabled (configure_features is_feature_enabled))%list.
  intros a. rewrite !elem_of_app. tauto.
Qed.
End CreateCover.
