(* ===== verification/ConfigProps.v ===== *)
(** * ConfigProps: the properties of the configuration rules

    What [configure_rules] (the distribution, the checks of [main], the operating
    system, the packages, the hardware and the features) does to the option
    database, for every user choice and every licence: command-line settings
    are final, the rules name declared options only and use them at their type,
    the values they store pass the check of the printing phase, and enabled
    options stay enabled, up to the listed options. *)
From S2P Require Import Prelude ConfigOpt OptionTable Licence InitOptions Rules Accesses TargetOs.
From S2P Require Import HwConfig DistConfig FeatureConfig CreateConfig CreateCover Output Discipline.

Definition base_shape : list (string * Z * option string) := shape config_options_base.

Definition mem (t : string) (l : list string) : bool := existsb (String.eqb t) l.

Lemma mem_elem t l : mem t l = true <-> t ∈ l.
Proof.
  unfold mem. rewrite existsb_exists, list_elem_of_In.
  split; [intros (x & ? & <-%String.eqb_eq); done | intros ?; exists t; by rewrite String.eqb_refl].
Qed.

Lemma init_state_shape : shape (openrg_config_options init_state) = base_shape.
Proof.
  change (shape (options_dup (_init_configs config_options_base)) = base_shape).
  by rewrite options_dup_id, init_configs_shape.
Qed.

(** ** The command line *)

(** Entries set by the command line, and all names and types, are the same. *)
Definition keeps_pinned (s s' : cfg) : Prop :=
  shape (openrg_config_options s') = shape (openrg_config_options s) /\
  forall i o, openrg_config_options s !! i = Some o -> set_prio o = SET_PRIO_CMD_LINE ->
    openrg_config_options s' !! i = Some o.

#[export] Instance keeps_pinned_preorder : PreOrder keeps_pinned.
Proof.
  split; [by intros s|]. intros s1 s2 s3 [Hs1 H1] [Hs2 H2]. split; [congruence|]. auto.
Qed.

Lemma evolves_pinned s s' : evolves s s' -> keeps_pinned s s'.
Proof.
  intros [Hs He]. split; [done|]. intros i o Ho Hp. destruct (He i o Ho) as (o' & Ho' & _ & Hf).
  rewrite Hf in Ho'; [done|]. rewrite Hp. done.
Qed.

Lemma set_text_evolves f l t x s : evolves s (final (set_text f l t x s)).
Proof.
  assert (Hc : Covered (fun _ => true) (set_text f l t x)).
  { exists [AText t]. apply covers_set_text. }
  by apply (covered_evolves (fun _ => true)).
Qed.

Lemma set_prio_store_pinned i s : keeps_pinned s (final (set_prio_store i SET_PRIO_CMD_LINE s)).
Proof.
  unfold set_prio_store. simpl. split.
  - simpl. unfold shape. apply list_eq. intros j. rewrite !list_lookup_fmap.
    destruct (decide (i = j)) as [->|].
    + rewrite list_lookup_alter_eq. by destruct (openrg_config_options s !! j).
    + by rewrite list_lookup_alter_ne.
  - intros j o Ho Hp. simpl. destruct (decide (i = j)) as [->|].
    + rewrite list_lookup_alter_eq, Ho. simpl. rewrite <- Hp. by destruct o.
    + by rewrite list_lookup_alter_ne.
Qed.

Lemma add_feature_parse_pinned arg s : keeps_pinned s (final (add_feature_parse arg s)).
Proof.
  unfold add_feature_parse. destruct (strtok arg) as [[t r]|]; [|done].
  unfold bind. pose proof (option_token_get_pure t s) as Hg.
  destruct (option_token_get t s) as [[i o] s0|]; simpl in Hg; subst; [|done].
  destruct (has_flag _ _); [done|].
  destruct (strtok r) as [[v ?]|]; simpl; [|by apply set_prio_store_pinned].
  pose proof (set_text_evolves CREATE_CONFIG_C 100 t v s) as He%evolves_pinned.
  destruct (set_text _ _ _ _ s); simpl in *; [|done].
  etrans; [exact He|]. apply set_prio_store_pinned.
Qed.

Lemma handle_opt_pinned l s : keeps_pinned s (final (handle_opt l s)).
Proof.
  revert s. induction l as [|c l IH]; intros s; [done|]. simpl. unfold bind.
  assert (Hc : keeps_pinned s (final (handle_one c s))).
  { destruct c; try done. by apply add_feature_parse_pinned. }
  destruct (handle_one c s); [|done]. etrans; [exact Hc | apply IH].
Qed.

Lemma keeps_pinned_lookup s s' t o :
  keeps_pinned s s' -> lookup_option (openrg_config_options s) t = Some o ->
  set_prio o = SET_PRIO_CMD_LINE -> lookup_option (openrg_config_options s') t = Some o.
Proof.
  intros [Hs Hp] Hl Ho. unfold lookup_option in *.
  rewrite (nofail_tokens _ (openrg_config_options s)) by (by apply shape_tokens).
  destruct (option_token_get_nofail _ t) as [i|]; simpl in *; [|done]. by apply Hp.
Qed.

(** What [-f tok=v] does to an option the command line has not set before. *)
Lemma add_feature_parse_sets arg t r v r' o s s1 :
  strtok arg = Some (t, r) -> strtok r = Some (v, r') ->
  lookup_option (openrg_config_options s) t = Some o -> set_prio o < SET_PRIO_CMD_LINE ->
  all_chars (fun c => negb (Ascii.eqb c "%")) v = true ->
  add_feature_parse arg s = Ok tt s1 ->
  exists o1, lookup_option (openrg_config_options s1) t = Some o1 /\
    set_prio o1 = SET_PRIO_CMD_LINE /\ exists v', value o1 = Some v' /\ stored_value o v v'.
Proof.
  intros Ha Hr Hl Hp Hv. unfold add_feature_parse. rewrite Ha. unfold bind at 1.
  rewrite option_token_get_eq, Hl.
  destruct (option_token_get_nofail _ t) as [i|] eqn:Ei; [|done].
  destruct (has_flag _ _); [done|]. rewrite Hr.
  assert (Hf : format v [] = Some v).
  { clear - Hv. induction v as [|c v IH]; [done|]. simpl in *. bool_to_prop.
    rewrite H. by rewrite IH. }
  unfold set_text, bind.
  destruct (token_set_cases CREATE_CONFIG_C 100 SET_PRIO_TOKEN_SET t v [] s)
    as [(e & -> & _)|[(o2 & Hl2 & Hlt & _)|
        (j & o2 & w & v' & s' & Hj & Ho & <- & Hl2 & _ & Hw & _ & Hst & -> & (Hs' & _))]]; [done| |].
  { rewrite Hl in Hl2. injection Hl2 as <-. unfold SET_PRIO_TOKEN_SET, SET_PRIO_CMD_LINE in *. lia. }
  rewrite Hl in Hl2. injection Hl2 as <-. rewrite Ei in Hj. injection Hj as <-.
  rewrite Hf in Hw. injection Hw as <-.
  unfold set_prio_store. intros [= <-]. simpl. rewrite Hs'.
  eexists. split.
  - unfold lookup_option. rewrite (nofail_tokens _ (openrg_config_options s)), Ei; simpl.
    + rewrite list_lookup_alter_eq, list_lookup_insert_eq; [done|]. by apply lookup_lt_Some in Ho.
    + apply list_eq. intros k. rewrite !list_lookup_fmap.
      destruct (decide (i = k)) as [->|].
      * rewrite list_lookup_alter_eq, list_lookup_insert_eq by (by apply lookup_lt_Some in Ho).
        by rewrite Ho.
      * by rewrite list_lookup_alter_ne, list_lookup_insert_ne.
  - simpl. split; [done|]. by exists v'.
Qed.

(** The row of an option the witnesses set on the command line. *)
Definition upnp_row : option_t :=
  mk_option "MODULE_RG_UPNP" None OPT_MODULE (Some "Universal Plug and Play") None 0 0.
Definition upnp_state (v : string) : cfg :=
  final (add_feature_parse ("MODULE_RG_UPNP=" +:+ v) init_state).

Lemma upnp_state_shape v : shape (openrg_config_options (upnp_state v)) = base_shape.
Proof.
  etransitivity; [apply add_feature_parse_pinned | apply init_state_shape].
Qed.

(** C3. For every state and every licence, a run of the rules (to its end or to the exit it
    takes) keeps the names, types and descriptions of the option array, never lowers the
    priority of an option, and leaves the entries set by the command line as they are. *)
Theorem rules_evolve enabled s : evolves s (final (configure_rules enabled s)).
Proof. by apply (covered_evolves enabled (configure_rules enabled)). Qed.

(** ** Names and types *)

(** The option feature_config.c:1823 reads and no table declares. *)
Definition undeclared_option : string := "CONFIG_KNCX821XX_PCB".
(** y/n options whose text is copied from another option. *)
Definition camera_options : list string :=
  ["CONFIG_USB_OV511"; "CONFIG_USB_PWC"; "CONFIG_USB_SPCA5XX"].

Definition rule_exit (e : exit_reason) : Prop :=
  match e with
  | NoSuchOption t => t = undeclared_option
  | NoSuchHw h => option_token_get_nofail openrg_hw_options h = None
  | StringAsInteger _ | InternalOption _ | NotNumeric _ | NotYN _ | NotYMN _ | Duplicated _ => False
  | NotModuleExpand t => t ∈ camera_options
  | _ => True
  end.

(** No relation between the states. *)
Definition any_change (s s' : cfg) : Prop := True.
#[export] Instance any_change_preorder : PreOrder any_change.
Proof. by split. Qed.

Definition rule_access_ok (find : string -> option Z) (a : access) : bool :=
  access_ok find a ||
  match a with
  | AGet t => (t =? undeclared_option)%string && negb (known find t)
  | ACopy t src => mem t camera_options && known find src && known find t &&
                   readable find "CONFIG_RG_DEV"
  | _ => false
  end.

Lemma rules_accesses_ok enabled :
  all_accesses rule_access_ok base_shape (accesses enabled (configure_rules enabled)) = true.
Proof. exact eq_refl. Qed.

Lemma rule_access_exits enabled tbl find a e :
  (forall t, find t = type_of tbl t) -> rule_access_ok find a = true ->
  exits enabled tbl a e -> rule_exit e.
Proof.
  intros Hfind H He. unfold rule_access_ok in H. apply orb_true_iff in H as [H|H].
  { apply (access_ok_exits tbl find Hfind enabled a e H) in He. destruct e; simpl in *; tauto. }
  destruct a as [t| | | | | |t src| | | | | | | | |]; try done; simpl in He; bool_to_prop.
  - subst t. unfold get_exits, known in *. rewrite Hfind in *.
    destruct (type_of tbl undeclared_option); [done|]. by subst e.
  - match goal with H : mem _ _ = true |- _ => apply mem_elem in H end.
    destruct He as [He|[->|[[_ ->]|[(v & _ & _ & ->)|[He|[(_ & _ & ->)|[_ He]]]]]]]; try done.
    + by eapply known_str_exits in He.
    + by eapply known_str_exits in He.
    + by eapply readable_get_exits in He.
Qed.

(** What the check gives for any program that passes it. *)
Lemma checked_exits enabled (m : stmt) `{!Covered enabled m} s :
  all_accesses rule_access_ok base_shape (accesses enabled m) = true ->
  shape (openrg_config_options s) = base_shape ->
  match m s with
  | Ok _ s' => shape (openrg_config_options s') = base_shape
  | Exit e _ => rule_exit e
  end.
Proof.
  intros Hok Hs.
  assert (H : triple (fun s' => shape (openrg_config_options s') = base_shape)
                any_change rule_exit m).
  { eapply (covered_triple enabled base_shape _ _ _ (fun _ _ => True)); try done.
    - intros s1 s2 i o f l v Hs1 _ _ Ho _ _ Hw. split; [|done]. rewrite <- Hs1.
      by eapply written_shape.
    - intros s1 s2 Hs1 He _. by rewrite He.
    - apply Forall_forall. intros a Ha. split; [|done].
      apply (all_accesses_elem _ _ _ _ Hok) in Ha.
      intros e. eapply rule_access_exits; [|exact Ha]. intros t. apply find_type_trie. }
  specialize (H s Hs). destruct (m s); tauto.
Qed.

(** ** Values *)

(** An invariant of the entries, one option at a time. *)
Section Entries.
Context (tbl : list (string * Z * option string)).
Context (text_ok : Z -> string -> bool) (any_ok : Z -> bool) (except : string -> bool).

Definition entry_ok (o : option_t) : Prop :=
  except (token o) = false -> forall v, value o = Some v -> text_ok (otype o) v = true.

Definition entries_ok (s : cfg) : Prop :=
  shape (openrg_config_options s) = tbl /\
  forall i o, openrg_config_options s !! i = Some o -> entry_ok o.

Definition theme_rows_ok : bool :=
  forallb (fun r => negb (has_flag r.1.2 OPT_THEME) ||
                    match type_of tbl r.1.1 with
                    | Some ty => text_ok ty "y"
                    | None => true
                    end) tbl.

Lemma entries_kept enabled (m : stmt) `{!Covered enabled m} :
  (forall ty v, any_ok ty = true -> text_ok ty v = true) -> theme_rows_ok = true ->
  all_accesses (fun find => access_texts_ok find text_ok any_ok except) tbl
    (accesses enabled m) = true ->
  forall s, entries_ok s -> entries_ok (final (m s)).
Proof.
  intros Hany Htheme Hall.
  assert (Hth : forall t ty d ty', (t, ty, d) ∈ tbl -> has_flag ty OPT_THEME = true ->
            type_of tbl t = Some ty' -> text_ok ty' "y" = true).
  { intros t ty d ty' Hin Hf Hty. unfold theme_rows_ok in Htheme.
    rewrite forallb_forall in Htheme. apply list_elem_of_In in Hin.
    specialize (Htheme _ Hin). simpl in Htheme. by rewrite Hf, Hty in Htheme. }
  set (R := fun s s' => entries_ok s -> entries_ok s').
  assert (HR : PreOrder R) by (split; unfold R; [by intros ? | intros ?; eauto]).
  assert (H : triple entries_ok R (fun _ => True) m).
  { eapply (covered_triple enabled tbl _ _ _
      (fun t v => except t = false -> forall ty, type_of tbl t = Some ty ->
                  text_ok ty v = true)).
    - by intros s [? _].
    - intros s s' i o f l v [Hs He] Hl Hi Ho _ Hmay Hw.
      assert (Hn : entries_ok s').
      { split; [rewrite <- Hs; by eapply written_shape|]. intros j o' Hj.
        destruct (openrg_config_options s !! j) as [oj|] eqn:Ej.
        2:{ destruct Hw as (Hw & _). rewrite Hw in Hj. apply lookup_lt_Some in Hj.
            rewrite length_insert in Hj. apply lookup_ge_None in Ej. lia. }
        rewrite (written_lookup _ _ _ _ _ _ _ _ _ _ Ho Hw Ej) in Hj. injection Hj as <-.
        case_decide as Hij; [|by eapply He].
        intros Hx w [= <-]. simpl in *. apply Hmay; [done|].
        rewrite <- Hs, type_of_lookup, Hl. done. }
      split; [done|]. by intros _.
    - intros s s' [Hs He] Heq _. unfold R, entries_ok. by rewrite Heq.
    - apply Forall_forall. intros a Ha. split; [done|]. intros t v Hw Hx ty Hty.
      apply (all_accesses_elem _ _ _ _ Hall) in Ha.
      by eapply (access_texts_writes tbl _ (find_type_trie tbl) text_ok any_ok except a t v ty). }
  intros s Hs. specialize (H s Hs). destruct (m s); unfold R in H; naive_solver.
Qed.
End Entries.

(** The y/n options some rule gives a text of another kind: numbers, addresses
    and names for options the table declares without a type, and the options
    whose text is copied from another option. *)
Definition mistyped_options : list string :=
  [ "DIST_TYPE"; "CONFIG_FILESERVER_KERNEL_CONFIG"; "RAM_HIGH_ADRS"; "RAM_LOW_ADRS";
    "CONFIG_NOMMU_PAGECACHE_THRESHOLD"; "CONFIG_FLASH_POS"; "CONFIG_EXP_BUS_SHL";
    "CONFIG_BOOT_RAM_POS"; "CONFIG_BOOT_SP_POS"; "CONFIG_SDRAM_BASE";
    "CONFIG_PHYS_SDRAM_SIZE"; "CONFIG_BOOT_FREE_MEM_START"; "CONFIG_BOOT_FREE_MEM_END";
    "CONFIG_CRAMFS_RAM_ADDR"; "CONFIG_INCAIPASC_DEFAULT_BAUDRATE";
    "CONFIG_INCAIP_WATCHDOG_TIMEOUT" ].
Definition copied_options : list string :=
  [ "CONFIG_SDRAM_SIZE"; "CONFIG_USB_UHCI"; "CONFIG_USB_UHCI_HCD"; "CONFIG_USB_OHCI";
    "CONFIG_USB_OHCI_HCD"; "CONFIG_USB_EHCI_HCD"; "CONFIG_IEEE1394"; "CONFIG_IEEE1394_OHCI1394";
    "CONFIG_USB_STORAGE"; "CONFIG_USB_OV511"; "CONFIG_USB_PWC"; "CONFIG_USB_SPCA5XX";
    "CONFIG_PCMCIA" ].
Definition unchecked (t : string) : bool := mem t mistyped_options || mem t copied_options.

Lemma valid_text_check o :
  check_option_validity o = None <->
  (forall v, value o = Some v -> valid_text (otype o) v = true).
Proof.
  unfold valid_text, check_option_validity. destruct (value o) as [v|] eqn:Ev; simpl.
  2:{ split; [intros _ ? [=] | done]. }
  split.
  - intros H w [= <-]. repeat destruct_match; done.
  - intros H. specialize (H v eq_refl). repeat destruct_match; done.
Qed.

Lemma free_text_valid ty v : free_text ty = true -> valid_text ty v = true.
Proof.
  unfold free_text, valid_text, check_option_validity. simpl. intros H. bool_to_prop.
  repeat match goal with H : ?b = false |- _ => rewrite H; clear H end. done.
Qed.

Lemma rules_texts_valid enabled :
  all_accesses (fun find => access_texts_ok find valid_text free_text unchecked) base_shape
    (accesses enabled (configure_rules enabled)) = true.
Proof. exact eq_refl. Qed.

Lemma theme_rows_valid : theme_rows_ok base_shape valid_text = true.
Proof. vm_compute. reflexivity. Qed.

Lemma init_state_values :
  forallb (fun o => unchecked (token o) ||
      match check_option_validity o with None => true | Some _ => false end)
    (openrg_config_options init_state) = true.
Proof. vm_compute. reflexivity. Qed.

(** ** Enabled options stay enabled *)
Definition switched_options : list string := [ "LIC_AUTOCONF"; "LIBC_IN_TOOLCHAIN" ].
Definition may_switch (t : string) : bool := unchecked t || mem t switched_options.

Definition on_text (ty : Z) (v : string) : bool := negb (is_bool ty) || is_y_m v.

Lemma rules_texts_on enabled :
  all_accesses (fun find => access_texts_ok find on_text (fun ty => negb (is_bool ty)) may_switch)
    base_shape (accesses enabled (configure_rules enabled)) = true.
Proof. exact eq_refl. Qed.

(** An option whose text satisfies [P] keeps doing so, when the accesses only
    give it such texts. *)
Definition has_text (P : string -> Prop) (t : string) (s : cfg) : Prop :=
  exists o v, lookup_option (openrg_config_options s) t = Some o /\ value o = Some v /\ P v.

Lemma option_text_kept enabled (m : stmt) `{!Covered enabled m} tbl t (P : string -> Prop) s :
  (forall a v, a ∈ accesses enabled m -> writes tbl a t v -> P v) ->
  shape (openrg_config_options s) = tbl -> has_text P t s -> has_text P t (final (m s)).
Proof.
  intros Ha Hs HP.
  set (R := fun s s' => has_text P t s -> has_text P t s').
  assert (HR : PreOrder R) by (split; unfold R; [by intros ? | intros ?; eauto]).
  assert (H : triple (fun s => shape (openrg_config_options s) = tbl) R (fun _ => True) m).
  { eapply (covered_triple enabled tbl _ _ _ (fun t' v => t' = t -> P v)); [done| | |].
    - intros s1 s2 i o f l v Hs1 Hl Hi Ho _ Hmay Hw.
      split; [rewrite <- Hs1; by eapply written_shape|]. unfold R.
      intros (o' & v' & Hl' & Hv' & HP'). destruct Hw as (Hw & _). unfold has_text. rewrite Hw.
      rewrite (lookup_option_insert _ i o (option_assign o f l v SET_PRIO_TOKEN_SET) t Hi Ho eq_refl).
      case_decide as Ht; [|by exists o', v'].
      exists (option_assign o f l v SET_PRIO_TOKEN_SET), v. auto.
    - intros s1 s2 Hs1 Heq _. unfold R, has_text. by rewrite Heq.
    - apply Forall_forall. intros a Hin. split; [done|]. intros t' v Hw ->. by eapply Ha. }
  specialize (H s Hs). destruct (m s); unfold R in H; naive_solver.
Qed.

(** A y/n/m option that is on stays on, but for the listed options that rules switch off or
    fill from elsewhere. *)
Definition is_on : string -> cfg -> Prop := has_text (fun v => is_y_m v = true).

Lemma accesses_keep_on enabled (m : stmt) `{!Covered enabled m} t ty s :
  all_accesses (fun find => access_texts_ok find on_text (fun ty => negb (is_bool ty)) may_switch)
    base_shape (accesses enabled m) = true ->
  shape (openrg_config_options s) = base_shape -> type_of base_shape t = Some ty ->
  is_bool ty = true -> may_switch t = false -> is_on t s -> is_on t (final (m s)).
Proof.
  intros Hall Hs Hty Hb Hx Hon. unfold is_on.
  apply (option_text_kept enabled m base_shape); [|done|done].
  intros a w Ha Hw. apply (all_accesses_elem _ _ _ _ Hall) in Ha.
  assert (Hok : on_text ty w = true).
  { apply (access_texts_writes base_shape _ (find_type_trie base_shape) on_text
      (fun ty => negb (is_bool ty)) may_switch a t w ty); try done.
    - intros ty' u Hu. unfold on_text. by rewrite Hu.
    - intros ? ? ? ty' _ _ _. unfold on_text. by rewrite orb_true_r. }
  unfold on_text in Hok. by rewrite Hb in Hok.
Qed.

(** ** No option twice *)
Lemma existsb_token o a :
  existsb (fun o' => (token o =? token o')%string) a = true <-> token o ∈ (token <$> a).
Proof.
  rewrite existsb_exists, list_elem_of_fmap. setoid_rewrite <- list_elem_of_In.
  split; intros (x & H1 & H2); exists x; [apply String.eqb_eq in H2 | apply String.eqb_eq in H1];
    auto.
Qed.

Lemma validate_unique_NoDup a : _validate_unique_configs a = None <-> NoDup (token <$> a).
Proof.
  induction a as [|o a IH]; simpl; [split; [constructor | done]|].
  rewrite NoDup_cons. destruct (existsb _ a) eqn:E.
  - apply existsb_token in E. split; [done | tauto].
  - rewrite IH. rewrite <- existsb_token, E. naive_solver.
Qed.

Lemma NoDup_tokens a : Trie.distinct Trie.Leaf ((fun o => (token o, tt)) <$> a) = true ->
  NoDup (token <$> a).
Proof. intros H%Trie.distinct_NoDup. by rewrite <- list_fmap_compose in H. Qed.

Lemma tables_distinct :
  Trie.distinct Trie.Leaf ((fun o => (token o, tt)) <$> openrg_hw_options) = true /\
  Trie.distinct Trie.Leaf ((fun o => (token o, tt)) <$> openrg_os_options) = true /\
  Trie.distinct Trie.Leaf ((fun o => (token o, tt)) <$> openrg_distribution_options) = true /\
  Trie.distinct Trie.Leaf ((fun o => (token o, tt)) <$> config_options_base) = true.
Proof. repeat split; vm_compute; reflexivity. Qed.

(** No table of config_opt.c declares a name twice: the start-up check of the 2093
    options, the hardware, the operating systems and the distributions returns without
    stopping. *)
Theorem validate_unique_configs_passes s :
  shape (openrg_config_options s) = base_shape -> validate_unique_configs s = Ok tt s.
Proof.
  intros Hs%shape_tokens. destruct tables_distinct as (H1 & H2 & H3 & H4).
  apply NoDup_tokens in H1, H2, H3, H4. rewrite <- Hs in H4.
  apply validate_unique_NoDup in H1, H2, H3, H4.
  unfold validate_unique_configs. by rewrite H1, H2, H3, H4.
Qed.

Lemma validate_unique_configs_passes_witness : validate_unique_configs init_state = Ok tt init_state.
Proof. apply validate_unique_configs_passes. exact init_state_shape. Defined.

(** An option no access writes is untouched. *)
Lemma option_untouched enabled (m : stmt) `{!Covered enabled m} t s :
  (forall a v, a ∈ accesses enabled m -> ~ writes (shape (openrg_config_options s)) a t v) ->
  lookup_option (openrg_config_options (final (m s))) t = lookup_option (openrg_config_options s) t.
Proof.
  intros Ha.
  set (R := fun s1 s2 => lookup_option (openrg_config_options s2) t =
                         lookup_option (openrg_config_options s1) t).
  assert (HR : PreOrder R) by (split; unfold R; [by intros ? | intros ?; congruence]).
  assert (H : triple (fun s1 => shape (openrg_config_options s1) = shape (openrg_config_options s))
                R (fun _ => True) m).
  { eapply (covered_triple enabled _ _ _ _ (fun t' _ => t' <> t)); [done| | |].
    - intros s1 s2 i o f l v Hs1 Hl Hi Ho _ Hmay Hw.
      split; [rewrite <- Hs1; by eapply written_shape|]. unfold R.
      destruct Hw as (Hw & _). rewrite Hw.
      rewrite (lookup_option_insert _ i o (option_assign o f l v SET_PRIO_TOKEN_SET) t Hi Ho eq_refl).
      by case_decide.
    - intros s1 s2 Hs1 Heq _. unfold R. by rewrite Heq.
    - apply Forall_forall. intros a Hin. split; [done|]. intros t' v Hw ->. by eapply Ha. }
  specialize (H s eq_refl). destruct (m s); unfold R in H; naive_solver.
Qed.
