(* ===== verification/JpkgProps.v ===== *)
(** * JpkgProps: the passes over the distributions of a package

    The loop of [jpkg_configuration] ends: the distributions the rules queue take
    arms that queue nothing, so one pass each is enough; what the passes do to
    the arrays, and what the final merge leaves in the main array. *)
From S2P Require Import Prelude ConfigOpt OptionTable Licence InitOptions Rules Accesses.
From S2P Require Import TargetOs DistConfig FeatureConfig CreateConfig JpkgConfig Output.
From S2P Require Import HwCover DistCover CreateCover Discipline ConfigProps.

(** ** The distributions the rules can queue *)
Definition jpkg_names : list string := [
  "UML"; "UML_GLIBC"; "UML_26"; "RGLOADER_UML"; "MONTEJADE"; "MONTEJADE_ATM"; "IXDP425";
  "COYOTE"; "JIWIS8XX"; "RGLOADER_MONTEJADE"; "RGLOADER_COYOTE"; "AD6834"; "CENTROID";
  "CX8620XR"; "CX8620XD_SOHO"; "RGLOADER_CX8620XD"; "SOLOS_LSP"; "SOLOS"; "MALINDI"; "MALINDI2";
  "MPC8272ADS"; "MPC8349ITX"; "BCM91125E"; "BCM_SB1125"; "TWINPASS"; "ULTRALINE3_TWINPASS";
  "BCM96358"; "ASUS6020VI"; "GTWX5803"; "WADB100G"; "WADB102GB"; "RGLOADER_GTWX5803";
  "JNET_SERVER" ].

Definition adds_nothing (a : access) : bool := match a with AJpkg _ => false | _ => true end.
Definition adds_known (a : access) : bool := match a with AJpkg d => mem d jpkg_names | _ => true end.

Section Queue.
Context (enabled : string -> bool).

(** What a program may do to the queue, from its accesses. *)
Lemma covers_queue {A} l (m : M A) (may_add : string -> Prop) s :
  covers enabled l m -> (forall a d, a ∈ l -> adds a d -> may_add d) ->
  exists ds, jpkg_dists (final (m s)) = (jpkg_dists s ++ ds)%list /\
    Forall (fun p => may_add p.1 /\ p.2 = options_dup (_init_configs config_options_base)) ds.
Proof.
  intros Hc Ha.
  set (R := fun s1 s2 => exists ds, jpkg_dists s2 = (jpkg_dists s1 ++ ds)%list /\
    Forall (fun p => may_add p.1 /\ p.2 = options_dup (_init_configs config_options_base)) ds).
  assert (HR : PreOrder R).
  { split.
    - intros s1. exists []. by rewrite app_nil_r.
    - intros s1 s2 s3 (d1 & H1 & F1) (d2 & H2 & F2). exists (d1 ++ d2)%list.
      rewrite H2, H1, (assoc_L app). by split; [|apply Forall_app]. }
  assert (Hsame : forall s1 s2, jpkg_dists s2 = jpkg_dists s1 -> R s1 s2).
  { intros s1 s2 He. exists []. rewrite app_nil_r. by split. }
  assert (H : triple (fun s1 => shape (openrg_config_options s1) = shape (openrg_config_options s))
                R (fun _ => True) m).
  { eapply (covers_triple enabled _ _ _ _ (fun _ _ => True)).
    - by intros s1 H1.
    - intros s1 s2 i o f l0 v Hs1 _ _ Ho _ _ Hw. split; [rewrite <- Hs1; by eapply written_shape|].
      by apply Hsame, Hw.
    - intros s1 s2 Hs1 Ho _ Hj. split; [by rewrite Ho | by apply Hsame].
    - intros d Hd s1 Hs1. split; [exact Hs1|]. eexists. split; [reflexivity|].
      constructor; [|constructor]. split; [exact Hd | reflexivity].
    - exact Hc.
    - apply Forall_forall. intros a Hin. split; [done|]. split; [done|]. intros d. by apply Ha. }
  specialize (H s eq_refl). destruct (m s); by destruct H.
Qed.

Lemma covers_keep_queue {A} l (m : M A) s :
  covers enabled l m -> forallb adds_nothing l = true -> jpkg_dists (final (m s)) = jpkg_dists s.
Proof.
  intros Hc Hl. destruct (covers_queue l m (fun _ => False) s Hc) as (ds & -> & Hds).
  - intros a d Ha Hd. rewrite forallb_forall in Hl. apply list_elem_of_In, Hl in Ha.
    by destruct a.
  - destruct ds as [|p ds]; [by rewrite app_nil_r|]. by apply Forall_cons in Hds as [[[] _] _].
Qed.

(** The rules queue distributions of the list only, and each takes an arm of
    [distribution_features] that queues nothing. *)
Lemma rules_queue_known :
  forallb adds_known (accesses enabled (configure_rules enabled)) = true.
Proof. exact eq_refl. Qed.

Lemma jpkg_arms_add_nothing :
  forallb (fun d => match pick_row d (arms_rows enabled (distribution_arms enabled)) with
                    | Some l => forallb adds_nothing l
                    | None => true
                    end) jpkg_names = true.
Proof. exact eq_refl. Qed.

Lemma features_add_nothing :
  forallb adds_nothing (accesses enabled (configure_features enabled)) = true.
Proof. exact eq_refl. Qed.
Lemma distribution_keeps_queue d s :
  d ∈ jpkg_names -> dist s = Some d ->
  jpkg_dists (final (distribution_features enabled s)) = jpkg_dists s.
Proof.
  intros Hd Hs. unfold distribution_features. cbn [block].
  assert (Hset : If (notc dist_set) [conf_err NoDist] s = Ok tt s).
  { unfold If, IfElse, notc, dist_set, bind, ret. by rewrite Hs. }
  unfold bind at 1. rewrite Hset.
  destruct (Elif_pick enabled _ _ [invalid_dist] d (arms_rows_cover enabled (distribution_arms enabled)))
    as (m & Hm & Hpick).
  assert (Harm : jpkg_dists (final (m s)) = jpkg_dists s).
  { pose proof jpkg_arms_add_nothing as Hall. rewrite forallb_forall in Hall.
    specialize (Hall d ltac:(by apply list_elem_of_In)).
    destruct (pick_row d _) as [l|].
    - by apply (covers_keep_queue l).
    - subst m. apply (covers_keep_queue [AUser]); [|done].
      apply covers_block_one, covers_invalid_dist. }
  unfold bind at 1. rewrite (Hm s Hs). destruct (m s) as [[] s1|e s1]; [|exact Harm].
  rewrite <- Harm.
  change (jpkg_dists (final (block [If needs_os [set_os "LINUX_24"];
    set_dist_text 4916 "CONFIG_RG_DIST"] s1)) = jpkg_dists s1).
  apply (covers_keep_queue [AEnv; ADist; AText "CONFIG_RG_DIST"]); [|done].
  change ([AEnv; ADist; AText "CONFIG_RG_DIST"]) with
    ((([] ++ [AEnv]) ++ [ADist; AText "CONFIG_RG_DIST"])%list).
  apply covers_block_cons; [apply covers_If|apply covers_block_one, covers_set_dist_text].
  - apply covers_needs_os.
  - apply covers_block_one, covers_set_os.
Qed.

Lemma jpkg_pass_keeps_queue d s :
  d ∈ jpkg_names -> dist s = Some d ->
  jpkg_dists (final (jpkg_rules enabled s)) = jpkg_dists s.
Proof.
  intros Hd Hs. unfold jpkg_rules. cbn [block]. unfold bind at 1.
  pose proof (distribution_keeps_queue d s Hd Hs) as H1.
  destruct (distribution_features enabled s) as [[] s1|]; [|exact H1]. rewrite <- H1. clear H1.
  change (jpkg_dists (final (block [target_os; configure_features enabled] s1)) = jpkg_dists s1).
  apply (covers_keep_queue (accesses enabled target_os ++ accesses enabled (configure_features enabled))%list).
  - apply covers_block_cons; [apply accesses_cover | apply covers_block_one, accesses_cover].
  - rewrite forallb_app, features_add_nothing. reflexivity.
Qed.

(** ** The loop *)
Section Loop.
Context (P : list option_t -> Prop) (E : exit_reason -> Prop).
Context (Hpass : forall s, P (openrg_config_options s) ->
  match jpkg_rules enabled s with
  | Ok _ s' => P (openrg_config_options s')
  | Exit e _ => E e
  end).

(** The queue holds known distributions with good arrays. *)
Definition queue_ok (s : cfg) : Prop :=
  Forall (fun p => p.1 ∈ jpkg_names /\ P p.2) (jpkg_dists s).

(** With a pass for each distribution left, and one test, the loop ends; the
    queue keeps its names. *)
Lemma jpkg_loop_runs fuel k s :
  queue_ok s -> (k <= length (jpkg_dists s) < k + fuel)%nat ->
  exists r, jpkg_loop enabled fuel k s = Some r /\
    match r with
    | Ok _ s' => queue_ok s' /\ (jpkg_dists s').*1 = (jpkg_dists s).*1
    | Exit e _ => E e
    end.
Proof.
  revert k s. induction fuel as [|fuel IH]; intros k s Hq Hf; [lia|]. cbn [jpkg_loop].
  destruct (jpkg_dists s !! k) as [[d options]|] eqn:Ek; [|by eexists].
  unfold queue_ok in Hq. rewrite Forall_lookup in Hq.
  destruct (Hq k _ Ek) as [Hd HP]. cbn [fst snd] in *.
  pose proof (jpkg_pass_keeps_queue d (jpkg_enter d options s) Hd eq_refl) as Hkeep.
  specialize (Hpass (jpkg_enter d options s) HP).
  destruct (jpkg_rules enabled (jpkg_enter d options s)) as [[] s1|e s1]; [|by eexists].
  cbn [final jpkg_enter jpkg_dists] in Hkeep. pose proof (lookup_lt_Some _ _ _ Ek) as Hk.
  destruct (IH (S k) (jpkg_leave k d s1)) as (r & -> & Hr).
  - unfold queue_ok, jpkg_leave. cbn [jpkg_dists]. rewrite Hkeep.
    apply Forall_insert; [by apply Forall_lookup | done].
  - cbn [jpkg_leave jpkg_dists]. rewrite Hkeep, length_insert. lia.
  - exists r. split; [done|]. destruct r; [|done]. destruct Hr as [Hr ->]. split; [done|].
    cbn [jpkg_leave jpkg_dists]. rewrite Hkeep, list_fmap_insert. cbn [fst].
    apply list_insert_id. by rewrite list_lookup_fmap, Ek.
Qed.

(** [jpkg_configuration] stops for a reason of a pass, or merges good arrays
    into the main one. *)
Lemma jpkg_configuration_runs s :
  queue_ok s ->
  match jpkg_configuration enabled s with
  | Ok _ s' => dist s' = dist s /\ exists ds, ds.*1 = (jpkg_dists s).*1 /\ Forall P ds.*2 /\
      openrg_config_options s' = jpkg_merge ds (openrg_config_options s)
  | Exit e _ => E e
  end.
Proof.
  intros Hq. unfold jpkg_configuration, jpkg_fuel.
  destruct (jpkg_loop_runs (S (length (jpkg_dists s))) 0 s Hq) as (r & -> & Hr); [lia|].
  destruct r as [[] s1|e s1]; [|done]. destruct Hr as [Hq1 Hn].
  split; [done|]. exists (jpkg_dists s1). split; [done|]. split; [|done].
  apply Forall_fmap. eapply Forall_impl; [exact Hq1|]. by intros p [_ ?].
Qed.
End Loop.
End Queue.

(** ** The merge *)

(** The entries the distributions have for option [i], those with a value. *)
Definition set_by (i : nat) (ds : list (string * list option_t)) : list option_t :=
  omap (fun p => o ← p.2 !! i; const o <$> value o) ds.

Lemma jpkg_fill_last i ds o : jpkg_fill i ds o = default o (last (set_by i ds)).
Proof.
  revert o. induction ds as [|p ds IH]; intros o; [done|]. cbn [jpkg_fill set_by omap list_omap].
  rewrite IH. fold (set_by i ds).
  destruct (p.2 !! i) as [o'|]; [|done]. cbn [mbind option_bind].
  destruct (value o'); [|done]. cbn [fmap option_fmap option_map]. rewrite last_cons.
  by destruct (last (set_by i ds)).
Qed.

Lemma set_by_elem i ds o : o ∈ set_by i ds -> exists a, a ∈ ds.*2 /\ a !! i = Some o.
Proof.
  intros Ho. apply list_elem_of_omap in Ho as (p & Hp & Ho). exists p.2.
  split; [by apply list_elem_of_fmap_2|]. destruct (p.2 !! i) as [o'|]; [|done].
  cbn in Ho. by destruct (value o').
Qed.

Lemma jpkg_merge_lookup ds a i :
  jpkg_merge ds a !! i =
  (fun o => match value o with Some _ => o | None => default o (last (set_by i ds)) end) <$> a !! i.
Proof.
  unfold jpkg_merge. rewrite list_lookup_imap. destruct (a !! i) as [o|]; [|done]. cbn.
  by destruct (value o); rewrite ?jpkg_fill_last.
Qed.

Lemma jpkg_merge_cases ds a i o :
  jpkg_merge ds a !! i = Some o -> a !! i = Some o \/ exists a', a' ∈ ds.*2 /\ a' !! i = Some o.
Proof.
  rewrite jpkg_merge_lookup. destruct (a !! i) as [o0|]; [|done]. cbn. intros [= <-].
  destruct (value o0); [by left|]. destruct (last (set_by i ds)) as [o1|] eqn:El; [|by left].
  right. apply set_by_elem. by apply last_Some_elem_of.
Qed.

Lemma jpkg_merge_shape ds a :
  Forall (fun a' => shape a' = shape a) ds.*2 -> shape (jpkg_merge ds a) = shape a.
Proof.
  intros Hs. apply list_eq. intros i. unfold shape. rewrite !list_lookup_fmap.
  destruct (jpkg_merge ds a !! i) as [o|] eqn:E.
  - destruct (jpkg_merge_cases _ _ _ _ E) as [->|(a' & Ha & Hi)]; [done|].
    rewrite Forall_forall in Hs. specialize (Hs a' Ha). apply (f_equal (lookup i)) in Hs.
    unfold shape in Hs. by rewrite !list_lookup_fmap, Hi in Hs.
  - rewrite jpkg_merge_lookup in E. by destruct (a !! i).
Qed.

(** Entries found at the same place in arrays of one shape. *)
Lemma lookup_option_same a b t o :
  shape b = shape a -> lookup_option a t = Some o ->
  (forall i, a !! i = Some o -> b !! i = Some o) -> lookup_option b t = Some o.
Proof.
  intros Hs Hl Hi. unfold lookup_option in *.
  rewrite (nofail_tokens b a) by (by apply shape_tokens).
  destruct (option_token_get_nofail a t) as [i|]; [by apply Hi|done].
Qed.

(** ** The queue main reaches *)
Lemma handle_opt_queue l s : jpkg_dists (final (handle_opt l s)) = jpkg_dists s.
Proof.
  revert s. induction l as [|c l IH]; intros s; [done|]. cbn [handle_opt]. unfold bind.
  assert (Hc : jpkg_dists (final (handle_one c s)) = jpkg_dists s).
  { destruct c as [| f | | |]; try done. cbn [handle_one]. unfold add_feature_parse.
    destruct (strtok f) as [[t r]|]; [|done]. unfold bind at 1.
    pose proof (option_token_get_pure t s) as Hg.
    destruct (option_token_get t s) as [[i o] s0|]; simpl in Hg; subst; [|done].
    destruct (has_flag _ _); [done|]. unfold bind.
    destruct (strtok r) as [[v ?]|]; [|done].
    pose proof (covers_keep_queue (fun _ => true) _ _ s
      (covers_set_text (fun _ => true) CREATE_CONFIG_C 100 t v) eq_refl) as Ht.
    by destruct (set_text _ _ _ _ s) as [[]|]. }
  destruct (handle_one c s); [|exact Hc]. etransitivity; [apply IH | exact Hc].
Qed.

Lemma fresh_shape : shape (options_dup (_init_configs config_options_base)) = base_shape.
Proof. by rewrite options_dup_id, init_configs_shape. Qed.

Lemma configure_rules_queue enabled (P : list option_t -> Prop) s :
  P (options_dup (_init_configs config_options_base)) ->
  jpkg_dists s = [] -> queue_ok P (final (configure_rules enabled s)).
Proof.
  intros HP Hs.
  destruct (covers_queue enabled _ (configure_rules enabled) (.∈ jpkg_names) s
    (accesses_cover enabled _)) as (ds & Hd & Hds).
  - intros a d Ha Hadd. pose proof (rules_queue_known enabled) as Hk.
    rewrite forallb_forall in Hk. apply list_elem_of_In, Hk in Ha.
    destruct a; try done. cbn in Hadd. subst d0. by apply mem_elem.
  - unfold queue_ok. rewrite Hd, Hs. eapply Forall_impl; [exact Hds|].
    intros p [Hp ->]. by split.
Qed.
