(* ===== verification/MainProps.v ===== *)
(** * MainProps: what a run of create_config guarantees

    The theorems on [main_rules]: the distribution, the checks of [main], the
    operating system, packages, hardware and features, the passes over the queued
    distributions with the final merge, [target_primary_os] and the host
    configuration, from the state in which [main] starts and on every host. *)
From S2P Require Import Prelude Text ConfigOpt OptionTable Licence InitOptions Rules Accesses.
From S2P Require Import HostOps ConfigHost TargetOs CreateConfig JpkgConfig Output HwCover CreateCover Discipline.
From S2P Require Import ConfigProps JpkgProps.

Section Main.
Context (enabled : string -> bool) (h : host).

Lemma main_rules_ok s s' :
  main_rules enabled h s = Ok tt s' ->
  exists s1 s2, configure_rules enabled s = Ok tt s1 /\
    jpkg_configuration enabled s1 = Ok tt s2 /\ main_end h s2 = Ok tt s'.
Proof.
  unfold main_rules, bind. destruct (configure_rules enabled s) as [[] s1|]; [|done].
  destruct (jpkg_configuration enabled s1) as [[] s2|] eqn:Ej; [|done]. intros H. by exists s1, s2.
Qed.

(** ** Properties of the arrays *)
Section Arrays.
Context (P : list option_t -> Prop) (E : exit_reason -> Prop).
Definition keeps_arrays (m : stmt) : Prop := forall s, P (openrg_config_options s) ->
  match m s with Ok _ s' => P (openrg_config_options s') | Exit e _ => E e end.
Context (Hfresh : P (options_dup (_init_configs config_options_base))).
Context (Hmerge : forall ds a, P a -> Forall P ds.*2 -> P (jpkg_merge ds a)).
Context (Hrules : keeps_arrays (configure_rules enabled)) (Hpass : keeps_arrays (jpkg_rules enabled)).
Context (Hos : keeps_arrays (main_end h)).

(** What the rules, a pass and the merge keep, [main_rules] keeps. *)
Lemma main_keeps s : jpkg_dists s = [] -> P (openrg_config_options s) ->
  match main_rules enabled h s with
  | Ok _ s' => P (openrg_config_options s')
  | Exit e _ => E e
  end.
Proof.
  intros Hq Hs. unfold main_rules, bind.
  pose proof (configure_rules_queue enabled P s Hfresh Hq) as Hq1.
  specialize (Hrules s Hs). destruct (configure_rules enabled s) as [[] s1|]; [|done].
  pose proof (jpkg_configuration_runs enabled P E Hpass s1 Hq1) as Hj.
  destruct (jpkg_configuration enabled s1) as [[] s2|]; [|done].
  destruct Hj as (_ & ds & _ & HP & Ho).
  apply Hos. rewrite Ho. by apply Hmerge.
Qed.
End Arrays.

Lemma main_end_accesses_ok :
  all_accesses rule_access_ok base_shape (accesses enabled (main_end h)) = true /\
  all_accesses (fun find => access_texts_ok find valid_text free_text unchecked) base_shape
    (accesses enabled (main_end h)) = true /\
  all_accesses (fun find => access_texts_ok find on_text (fun ty => negb (is_bool ty)) may_switch)
    base_shape (accesses enabled (main_end h)) = true.
Proof. repeat split; exact eq_refl. Qed.

Definition base_array (a : list option_t) : Prop := shape a = base_shape.

Lemma base_array_merge ds a : base_array a -> Forall base_array ds.*2 -> base_array (jpkg_merge ds a).
Proof.
  intros Ha Hds. unfold base_array in *. rewrite jpkg_merge_shape; [done|].
  eapply Forall_impl; [exact Hds|]. intros a' ->. done.
Qed.

Lemma pass_keeps_base : keeps_arrays base_array rule_exit (jpkg_rules enabled).
Proof.
  intros s Hs. apply (checked_exits enabled (jpkg_rules enabled)); [|exact Hs].
  eapply all_accesses_sub; [apply jpkg_rules_accesses | apply rules_accesses_ok].
Qed.

Lemma main_shape s : jpkg_dists s = [] -> base_array (openrg_config_options s) ->
  match main_rules enabled h s with
  | Ok _ s' => base_array (openrg_config_options s')
  | Exit e _ => rule_exit e
  end.
Proof.
  apply main_keeps; [apply fresh_shape | apply base_array_merge | | apply pass_keeps_base |].
  - intros s1 H1. apply (checked_exits enabled (configure_rules enabled)); [apply rules_accesses_ok | exact H1].
  - intros s1 H1. apply (checked_exits enabled (main_end h)); [apply main_end_accesses_ok | exact H1].
Qed.

(** Entries with a value come through the passes and the merge. *)
Lemma jpkg_keeps_valued s s' t o v :
  queue_ok base_array s -> base_array (openrg_config_options s) ->
  jpkg_configuration enabled s = Ok tt s' ->
  lookup_option (openrg_config_options s) t = Some o -> value o = Some v ->
  lookup_option (openrg_config_options s') t = Some o.
Proof.
  intros Hq Hs Hrun Hl Hv.
  pose proof (jpkg_configuration_runs enabled base_array rule_exit pass_keeps_base s Hq) as Hj.
  rewrite Hrun in Hj. destruct Hj as (_ & ds & _ & HP & ->).
  apply (lookup_option_same (openrg_config_options s)); [|done|].
  - by rewrite base_array_merge.
  - intros i Hi. rewrite jpkg_merge_lookup, Hi. cbn. by rewrite Hv.
Qed.

(** From the rules to the end, for an entry the rules leave with a value. *)
Lemma main_keeps_valued s s1 s' t o v :
  jpkg_dists s = [] -> base_array (openrg_config_options s) ->
  configure_rules enabled s = Ok tt s1 -> main_rules enabled h s = Ok tt s' ->
  lookup_option (openrg_config_options s1) t = Some o -> value o = Some v ->
  exists s2, main_end h s2 = Ok tt s' /\ base_array (openrg_config_options s2) /\
    lookup_option (openrg_config_options s2) t = Some o.
Proof.
  intros Hq Hs H1 Hm Hl Hv. destruct (main_rules_ok s s' Hm) as (s1' & s2 & H1' & Hj & H2).
  assert (s1' = s1) as -> by congruence. exists s2. split; [done|].
  pose proof (configure_rules_queue enabled base_array s fresh_shape Hq) as Hq1. rewrite H1 in Hq1.
  assert (Hs1 : base_array (openrg_config_options s1)).
  { pose proof (checked_exits enabled (configure_rules enabled) s (rules_accesses_ok enabled) Hs) as H.
    by rewrite H1 in H. }
  split; [|by eapply jpkg_keeps_valued].
  pose proof (jpkg_configuration_runs enabled base_array rule_exit pass_keeps_base s1 Hq1) as Hr.
  rewrite Hj in Hr. destruct Hr as (_ & ds & _ & HP & ->). by apply base_array_merge.
Qed.
End Main.

(** ** The command line *)
Lemma handle_one_queue c s : jpkg_dists (final (handle_one c s)) = jpkg_dists s.
Proof.
  pose proof (handle_opt_queue [c] s) as H. cbn [handle_opt] in H. unfold bind in H.
  by destruct (handle_one c s) as [[] ?|].
Qed.

(** C2. A feature given as -f NAME=VALUE to an option the command line has not set before is
    stored with the command-line priority, and neither the rest of the command line nor the
    distribution, hardware, operating-system, package and feature rules, the passes over the
    distributions of a package, their merge, the choice of the primary operating system, or
    the host configuration, on whatever host, changes that entry: a run that returns ends
    with it. *)
Theorem main_command_line_is_final enabled h arg t r v r' o s s1 l :
  base_array (openrg_config_options s) -> jpkg_dists s = [] ->
  strtok arg = Some (t, r) -> strtok r = Some (v, r') ->
  lookup_option (openrg_config_options s) t = Some o -> set_prio o < SET_PRIO_CMD_LINE ->
  all_chars (fun c => negb (Ascii.eqb c "%")) v = true ->
  add_feature_parse arg s = Ok tt s1 ->
  exists o1 v', value o1 = Some v' /\ stored_value o v v' /\ set_prio o1 = SET_PRIO_CMD_LINE /\
    forall s2, (handle_opt l;;; main_rules enabled h) s1 = Ok tt s2 ->
      lookup_option (openrg_config_options s2) t = Some o1.
Proof.
  intros Hs Hq Ha Hr Hl Hp Hv Hrun.
  destruct (add_feature_parse_sets _ _ _ _ _ _ _ _ Ha Hr Hl Hp Hv Hrun) as (o1 & Ho1 & Hc & v' & Hv' & ?).
  exists o1, v'. do 3 (split; [done|]). intros s2. unfold bind at 1.
  pose proof (add_feature_parse_pinned arg s) as Hpin. rewrite Hrun in Hpin.
  pose proof (handle_one_queue (OptFeature arg) s) as Hq1. cbn [handle_one] in Hq1.
  rewrite Hrun in Hq1. cbn [final] in *.
  pose proof (handle_opt_pinned l s1) as Hh. pose proof (handle_opt_queue l s1) as Hq2.
  destruct (handle_opt l s1) as [[] s3|]; [|done]. intros Hm. cbn [final] in *.
  assert (Hs3 : base_array (openrg_config_options s3)).
  { unfold base_array. destruct Hh as [-> _]. by destruct Hpin as [-> _]. }
  assert (Hq3 : jpkg_dists s3 = []) by congruence.
  pose proof (keeps_pinned_lookup _ _ _ _ Hh Ho1 Hc) as Ho3.
  destruct (main_rules_ok _ _ _ _ Hm) as (s4 & _ & Hc4 & _).
  pose proof (evolves_pinned _ _ (covered_evolves enabled (configure_rules enabled) s3)) as Hp4.
  rewrite Hc4 in Hp4. pose proof (keeps_pinned_lookup _ _ _ _ Hp4 Ho3 Hc) as Ho4. cbn [final] in Ho4.
  destruct (main_keeps_valued _ _ _ _ _ _ _ _ Hq3 Hs3 Hc4 Hm Ho4 Hv') as (s5 & Hos & _ & Ho5).
  pose proof (evolves_pinned _ _ (covered_evolves enabled (main_end h) s5)) as Hp5.
  rewrite Hos in Hp5. by apply (keeps_pinned_lookup _ _ _ _ Hp5).
Qed.

(** A Linux host with the tool chain of the Twinpass installed, without ccache, LaTeX,
    MySQL and OpenSSL. *)
Definition sample_shell (cmd : string) : string * Z :=
  let answer s := (s +:+ nl, 0) in
  let gcc := "/usr/local/openrg/mips-linux-uclibc-eb/bin/mips-linux-uclibc-gcc" in
  if (cmd =? "echo $OSTYPE")%string then answer "linux-gnu"
  else if (cmd =? "bison --version 2>/dev/null | head -n 1")%string then answer "bison (GNU Bison) 2.3"
  else if (cmd =? "flex --version 2>/dev/null | head -n 1")%string then answer "flex version 2.5.4"
  else if (cmd =? "which flex")%string then answer "/usr/bin/flex"
  else if (cmd =? "gawk --version 2>/dev/null")%string then answer "GNU Awk 3.1.5"
  else if (cmd =? gcc +:+ " -dumpversion")%string then answer "3.3.4"
  else if (cmd =? gcc +:+ " -print-libgcc-file-name")%string
  then answer "/usr/local/openrg/mips-linux-uclibc-eb/lib/gcc-lib/3.3.4/libgcc.a"
  else if String.prefix gcc cmd then ("", 0)
  else ("", 256).
Definition sample_getenv (name : string) : option string :=
  if (name =? "BUILDDIR")%string then Some "/rg/build.TWINPASS"
  else if (name =? "RGSRC")%string then Some "/rg"
  else if (name =? "PATH")%string then Some "/usr/bin:/bin" else None.
Definition sample_host : host :=
  mk_host sample_getenv sample_shell
    (fun path => (path =? "/usr/local/openrg/mips-linux-uclibc-eb")%string)
    (fun path => (path =?
       "/usr/local/openrg/mips-linux-uclibc-eb/mips-linux-uclibc/lib/libuClibc-0.9.28.so")%string).

(** A run to the end: the gateway the sources are for, with a feature on the command line. *)
Definition gateway_state : cfg := final (handle_opt [OptDist "ULTRALINE3_TWINPASS"] (upnp_state "y")).
Definition gateway_run : cfg := final (main_rules (fun _ => true) sample_host gateway_state).

Lemma gateway_runs : main_rules (fun _ => true) sample_host gateway_state = Ok tt gateway_run.
Proof.
  assert (H : match main_rules (fun _ => true) sample_host gateway_state with Ok _ _ => true | Exit _ _ => false end = true)
    by (vm_compute; reflexivity).
  unfold gateway_run. by destruct (main_rules (fun _ => true) sample_host gateway_state) as [[] ?|].
Qed.

Lemma main_command_line_is_final_witness :
  exists o1 v', value o1 = Some v' /\ stored_value upnp_row "y" v' /\
    set_prio o1 = SET_PRIO_CMD_LINE /\
    lookup_option (openrg_config_options gateway_run) "MODULE_RG_UPNP" = Some o1.
Proof.
  destruct (main_command_line_is_final (fun _ => true) sample_host "MODULE_RG_UPNP=y" "MODULE_RG_UPNP" "y" "y" ""
    upnp_row init_state (upnp_state "y") [OptDist "ULTRALINE3_TWINPASS"])
    as (o1 & v' & Hv & Hst & Hp & Hrun);
    [exact init_state_shape | reflexivity.. | vm_compute; reflexivity |].
  exists o1, v'. split; [exact Hv|]. split; [exact Hst|]. split; [exact Hp|].
  apply Hrun. exact gateway_runs.
Defined.

(** C4. From the declared array, with no distribution queued, the run of main from the
    distribution rules to the host configuration, on every host, can stop only for the
    reasons rule_exit lists: it never reads a string option as an integer; the only option
    it names that the array does not declare is the one of feature_config.c:1823, and
    hardware is looked for in its own table; it gives "m" to no option that cannot take it,
    three camera options that copy another text apart; the passes over the distributions of
    a package add no other reason. *)
Theorem main_exits enabled h s :
  base_array (openrg_config_options s) -> jpkg_dists s = [] ->
  from_option rule_exit True (outcome (main_rules enabled h s)).
Proof.
  intros Hs Hq. pose proof (main_shape enabled h s Hq Hs) as H.
  by destruct (main_rules enabled h s).
Qed.

Lemma main_exits_witness :
  from_option rule_exit True (outcome (main_rules (fun _ => true) sample_host gateway_state)).
Proof. apply main_exits; [exact (upnp_state_shape "y") | reflexivity]. Defined.

(** ** Values *)
Definition values_ok (a : list option_t) : Prop :=
  base_array a /\ forall i o, a !! i = Some o -> unchecked (token o) = false ->
    check_option_validity o = None.

Lemma values_ok_forallb a :
  base_array a ->
  forallb (fun o => unchecked (token o) ||
      match check_option_validity o with None => true | Some _ => false end) a = true ->
  values_ok a.
Proof.
  intros Hb H. split; [done|]. intros i o Ho Hx. rewrite forallb_forall in H.
  specialize (H o ltac:(apply list_elem_of_In; by eapply list_elem_of_lookup_2)).
  rewrite Hx in H. cbn [orb] in H. by destruct (check_option_validity o).
Qed.

Lemma checked_values enabled (m : stmt) `{!Covered enabled m} :
  all_accesses (fun find => access_texts_ok find valid_text free_text unchecked) base_shape
    (accesses enabled m) = true ->
  keeps_arrays values_ok (fun _ => True) m.
Proof.
  intros Hall s [Hs Hv].
  pose proof (entries_kept base_shape valid_text free_text unchecked enabled m
    free_text_valid theme_rows_valid Hall s) as H.
  destruct H as [Hs' Hv'].
  { split; [done|]. intros j oj Hj Hxj. apply valid_text_check. by eapply Hv. }
  destruct (m s) as [[] s'|]; [|done]. split; [done|].
  intros i o Ho Hx. apply valid_text_check. by apply (Hv' i o Ho Hx).
Qed.

Lemma merge_values ds a : values_ok a -> Forall values_ok ds.*2 -> values_ok (jpkg_merge ds a).
Proof.
  intros [Hb Hv] Hds. split.
  - apply base_array_merge; [done|]. eapply Forall_impl; [exact Hds|]. by intros ? [? _].
  - intros i o Ho Hx. rewrite Forall_forall in Hds.
    destruct (jpkg_merge_cases _ _ _ _ Ho) as [Hi|(a' & Ha & Hi)]; [by eapply Hv|].
    destruct (Hds a' Ha) as [_ Hv']. by eapply Hv'.
Qed.

Lemma fresh_values : values_ok (options_dup (_init_configs config_options_base)).
Proof. apply values_ok_forallb; [exact fresh_shape | exact init_state_values]. Qed.

(** C5. If every checked option holds a value its type allows, it still does at the end of
    the run, the merge of the distributions of a package included: the printing phase will
    accept it. The options left out are the sixteen that some rule gives a number, an
    address or a name although the table declares them y/n, and the thirteen whose text is
    copied from another option. *)
Theorem main_values_valid enabled h s s' :
  values_ok (openrg_config_options s) -> jpkg_dists s = [] ->
  main_rules enabled h s = Ok tt s' -> values_ok (openrg_config_options s').
Proof.
  intros Hs Hq Hm.
  pose proof (main_keeps enabled h values_ok (fun _ => True) fresh_values merge_values
    (checked_values enabled (configure_rules enabled) (rules_texts_valid enabled))) as H.
  specialize (H ltac:(apply (checked_values enabled (jpkg_rules enabled)),
    (all_accesses_sub _ _ _ _ (jpkg_rules_accesses enabled)), rules_texts_valid)
    ltac:(apply (checked_values enabled (main_end h)), main_end_accesses_ok) s Hq Hs).
  by rewrite Hm in H.
Qed.

Lemma gateway_values : values_ok (openrg_config_options gateway_state).
Proof. apply values_ok_forallb; [exact (upnp_state_shape "y") | vm_compute; reflexivity]. Qed.

Lemma main_values_valid_witness : values_ok (openrg_config_options gateway_run).
Proof.
  apply (main_values_valid (fun _ => true) sample_host gateway_state);
    [exact gateway_values | reflexivity | exact gateway_runs].
Defined.

(** ** Enabled options stay enabled *)

(** C6. A y/n/m option that is on when the rules start is on when main has run them, but for
    the listed options that rules switch off or fill from elsewhere: the order of the rules
    cannot lose a feature. *)
Theorem main_keep_enabled enabled h s s' t o v :
  base_array (openrg_config_options s) -> jpkg_dists s = [] ->
  lookup_option (openrg_config_options s) t = Some o ->
  is_bool (otype o) = true -> may_switch t = false ->
  value o = Some v -> is_y_m v = true ->
  main_rules enabled h s = Ok tt s' -> is_on t s'.
Proof.
  intros Hs Hq Hl Hb Hx Hv Hy Hm. destruct (main_rules_ok _ _ _ _ Hm) as (s1 & _ & H1 & _).
  assert (Hty : type_of base_shape t = Some (otype o)) by (by rewrite <- Hs, type_of_lookup, Hl).
  pose proof (accesses_keep_on enabled (configure_rules enabled) t (otype o) s
    (rules_texts_on enabled) Hs Hty Hb Hx) as Hon. rewrite H1 in Hon.
  destruct Hon as (o1 & v1 & Hl1 & Hv1 & Hy1); [by exists o, v|].
  destruct (main_keeps_valued _ _ _ _ _ _ _ _ Hq Hs H1 Hm Hl1 Hv1) as (s2 & Hos & Hs2 & Hl2).
  pose proof (accesses_keep_on enabled (main_end h) t (otype o) s2
    (proj2 (proj2 (main_end_accesses_ok enabled h))) Hs2 Hty Hb Hx) as Hon.
  rewrite Hos in Hon. apply Hon. by exists o1, v1.
Qed.

Lemma main_keep_enabled_witness : is_on "MODULE_RG_UPNP" gateway_run.
Proof.
  apply (main_keep_enabled (fun _ => true) sample_host gateway_state gateway_run "MODULE_RG_UPNP"
    (mk_option "MODULE_RG_UPNP" (Some "y") OPT_MODULE (Some "Universal Plug and Play")
       (Some CREATE_CONFIG_C) 100 SET_PRIO_CMD_LINE) "y");
    [exact (upnp_state_shape "y") | reflexivity | vm_compute; reflexivity | reflexivity.. |
     exact gateway_runs].
Defined.

(** ** The passes over the queued distributions *)
Lemma jpkg_loop_more enabled fuel extra k s r :
  jpkg_loop enabled fuel k s = Some r -> jpkg_loop enabled (fuel + extra) k s = Some r.
Proof.
  revert k s. induction fuel as [|fuel IH]; intros k s; [done|]. cbn [jpkg_loop Nat.add].
  destruct (jpkg_dists s !! k) as [[d a]|]; [|done].
  destruct (jpkg_rules enabled (jpkg_enter d a s)) as [[] s1|]; [apply IH|done].
Qed.

(** No condition on the arrays. *)
Definition any_array (a : list option_t) : Prop := True.
Lemma any_pass enabled s :
  any_array (openrg_config_options s) ->
  match jpkg_rules enabled s with
  | Ok _ s' => any_array (openrg_config_options s')
  | Exit _ _ => True
  end.
Proof. by destruct (jpkg_rules enabled s). Qed.

(** C7. The loop of jpkg_configuration walks a list its own body can lengthen; it ends, from
    every state the rules reach, after one pass for each distribution they queued: any
    larger fuel gives the same result, and the queue has the same distributions at the end.
    *)
Theorem jpkg_loop_ends enabled s s1 :
  jpkg_dists s = [] -> configure_rules enabled s = Ok tt s1 ->
  exists r, (forall extra, jpkg_loop enabled (jpkg_fuel s1 + extra) 0 s1 = Some r) /\
    match r with
    | Ok _ s2 => (jpkg_dists s2).*1 = (jpkg_dists s1).*1
    | Exit _ _ => True
    end.
Proof.
  intros Hq H1. pose proof (configure_rules_queue enabled any_array s I Hq) as Hq1. rewrite H1 in Hq1.
  destruct (jpkg_loop_runs enabled any_array (fun _ => True) (any_pass enabled) (jpkg_fuel s1) 0 s1)
    as (r & Hr & Hpost); [exact Hq1 | unfold jpkg_fuel; lia |].
  exists r. split; [intros extra; by apply jpkg_loop_more|]. destruct r; [by destruct Hpost|done].
Qed.

Definition jpkg_state : cfg := final (handle_opt [OptDist "JPKG_TWINPASS"] init_state).
Definition jpkg_queued : cfg := final (configure_rules (fun _ => true) jpkg_state).

Lemma jpkg_state_runs :
  configure_rules (fun _ => true) jpkg_state = Ok tt jpkg_queued /\
  (jpkg_dists jpkg_queued).*1 = ["TWINPASS"; "ULTRALINE3_TWINPASS"].
Proof.
  assert (H : match configure_rules (fun _ => true) jpkg_state with
              | Ok _ s => bool_decide ((jpkg_dists s).*1 = ["TWINPASS"; "ULTRALINE3_TWINPASS"])
              | Exit _ _ => false
              end = true) by (vm_compute; reflexivity).
  unfold jpkg_queued. destruct (configure_rules (fun _ => true) jpkg_state) as [[] s|]; [|done].
  split; [done|]. by apply bool_decide_eq_true in H.
Qed.

Lemma jpkg_loop_ends_witness :
  exists r, (forall extra, jpkg_loop (fun _ => true) (jpkg_fuel jpkg_queued + extra) 0 jpkg_queued =
      Some r) /\
    match r with
    | Ok _ s2 => (jpkg_dists s2).*1 = (jpkg_dists jpkg_queued).*1
    | Exit _ _ => True
    end.
Proof. apply (jpkg_loop_ends (fun _ => true) jpkg_state); [reflexivity | apply jpkg_state_runs]. Defined.

(** C8. When the passes return, the main array keeps every entry that has a value; an entry
    without one becomes that of the last queued distribution that gave it a value, and stays
    as it is when none did. The distribution in force is the one from before. *)
Theorem jpkg_configuration_fills enabled s :
  Forall (.∈ jpkg_names) (jpkg_dists s).*1 ->
  match jpkg_configuration enabled s with
  | Exit _ _ => True
  | Ok _ s' =>
      dist s' = dist s /\ (jpkg_dists s').*1 = (jpkg_dists s).*1 /\
      length (openrg_config_options s') = length (openrg_config_options s) /\
      forall i o, openrg_config_options s !! i = Some o ->
        openrg_config_options s' !! i =
          Some (match value o with
                | Some _ => o
                | None => default o (last (set_by i (jpkg_dists s')))
                end)
  end.
Proof.
  intros Hn.
  assert (Hq : queue_ok any_array s).
  { unfold queue_ok. rewrite Forall_fmap in Hn. eapply Forall_impl; [exact Hn|]. by split. }
  unfold jpkg_configuration, jpkg_fuel.
  destruct (jpkg_loop_runs enabled any_array (fun _ => True) (any_pass enabled)
    (S (length (jpkg_dists s))) 0 s Hq) as (r & -> & Hr); [lia|].
  destruct r as [[] s1|]; [|done]. destruct Hr as [_ Hr].
  split; [done|]. split; [exact Hr|]. split; [apply length_imap|].
  intros i o Ho. etransitivity; [apply (jpkg_merge_lookup _ (openrg_config_options s))|]. by rewrite Ho.
Qed.

Lemma jpkg_configuration_fills_witness :
  match jpkg_configuration (fun _ => true) jpkg_queued with
  | Exit _ _ => True
  | Ok _ s' =>
      dist s' = dist jpkg_queued /\ (jpkg_dists s').*1 = (jpkg_dists jpkg_queued).*1 /\
      length (openrg_config_options s') = length (openrg_config_options jpkg_queued) /\
      forall i o, openrg_config_options jpkg_queued !! i = Some o ->
        openrg_config_options s' !! i =
          Some (match value o with
                | Some _ => o
                | None => default o (last (set_by i (jpkg_dists s')))
                end)
  end.
Proof.
  apply jpkg_configuration_fills. rewrite (proj2 jpkg_state_runs).
  repeat constructor; apply mem_elem; reflexivity.
Defined.
