(* ===== verification/HostProps.v ===== *)
(** * HostProps: what the host configuration decides

    The C library, the tools of the target, the hosts it refuses.  The programs
    are run backwards, from the state in which they returned. *)
From S2P Require Import Prelude Text ConfigOpt StrUtil OptionTable Licence Rules Accesses.
From S2P Require Import HostOps ConfigHost HostCover CreateCover Discipline ConfigProps.
From S2P Require Import MainProps.

(** ** Reading the state *)
Definition entry (s : cfg) (t : string) : option option_t :=
  lookup_option (openrg_config_options s) t.
Definition value_of (s : cfg) (t : string) : option string := entry s t ≫= value.
(** [token_get(t)] as a condition. *)
Definition is_set (s : cfg) (t : string) : bool :=
  match entry s t with Some o => nz (int_value o) | None => false end.
(** The command line has not set [t]. *)
Definition free (s : cfg) (t : string) : Prop :=
  exists o, entry s t = Some o /\ set_prio o <= SET_PRIO_TOKEN_SET.

(** ** Running backwards *)
Lemma bind_ok {A B} (m : M A) (k : A -> M B) s y s' :
  bind m k s = Ok y s' -> exists x s1, m s = Ok x s1 /\ k x s1 = Ok y s'.
Proof. unfold bind. destruct (m s) as [x s1|]; [|done]. intros H. by exists x, s1. Qed.
Lemma token_get_str_run t s x s' : token_get_str t s = Ok x s' -> s' = s /\ x = value_of s t.
Proof.
  rewrite token_get_str_eq. unfold value_of, entry.
  destruct (lookup_option _ t); [|done]. by intros [= <- <-].
Qed.
Lemma isset_run t s b s' : isset t s = Ok b s' -> s' = s /\ b = is_set s t.
Proof.
  unfold isset. intros (v & s1 & Hv & H)%bind_ok. rewrite token_get_eq in Hv. unfold is_set, entry.
  destruct (lookup_option _ t) as [o|]; [|done]. destruct (has_flag _ _); [done|].
  injection Hv as <- <-. by injection H as <- <-.
Qed.
Lemma strz_is_run t x s b s' :
  strz_is t x s = Ok b s' -> s' = s /\ b = (default "" (value_of s t) =? x)%string.
Proof.
  unfold strz_is. intros (v & s1 & [-> ->]%token_get_str_run & H)%bind_ok. by injection H as <- <-.
Qed.
Lemma eval_hargs_run args s l s' : eval_hargs args s = Ok l s' -> s' = s /\
  l = (fun a => match a with
                | Str x => Some x
                | Ptr p => p
                | Get t => value_of s t
                | Getz t => Some (default "" (value_of s t))
                end) <$> args.
Proof.
  revert l s'. induction args as [|a args IH]; intros l s'; cbn [eval_hargs].
  { by intros [= <- <-]. }
  intros (v & s1 & Hv & (vs & s2 & Hvs & [= <- <-])%bind_ok)%bind_ok.
  assert (Ha : s1 = s /\ v = match a with
                             | Str x => Some x
                             | Ptr p => p
                             | Get t => value_of s t
                             | Getz t => Some (default "" (value_of s t))
                             end).
  { destruct a; cbn [eval_harg] in Hv; [by injection Hv as <- <- .. | by apply token_get_str_run in Hv |].
    apply bind_ok in Hv as (u & s3 & [-> ->]%token_get_str_run & H). by injection H as <- <-. }
  destruct Ha as [-> ->]. apply IH in Hvs as [-> ->]. done.
Qed.

Lemma both_run t u s b s' :
  (isset t &&& isset u) s = Ok b s' -> s' = s /\ b = is_set s t && is_set s u.
Proof.
  unfold andc. intros (b1 & s1 & [-> ->]%isset_run & H)%bind_ok. destruct (is_set s t).
  - by apply isset_run in H.
  - by injection H as <- <-.
Qed.
Lemma either_run t u s b s' :
  (isset t ||| isset u) s = Ok b s' -> s' = s /\ b = is_set s t || is_set s u.
Proof.
  unfold orc. intros (b1 & s1 & [-> ->]%isset_run & H)%bind_ok. destruct (is_set s t).
  - by injection H as <- <-.
  - by apply isset_run in H.
Qed.

(** One step of a run that returned. *)
Ltac run1 :=
  match goal with
  | x : unit |- _ => destruct x
  | H : Ok _ _ = Ok _ _ |- _ => injection H; clear H; intros; subst
  | H : Exit _ _ = Ok _ _ |- _ => discriminate H
  | H : ret _ _ = Ok _ _ |- _ => unfold ret in H
  | H : conf_err _ _ = Ok _ _ |- _ => unfold conf_err in H
  | H : test _ _ = Ok _ _ |- _ => unfold test in H
  | H : isset _ _ = Ok _ _ |- _ => apply isset_run in H as [? ?]; subst
  | H : (isset _ &&& isset _) _ = Ok _ _ |- _ => apply both_run in H as [? ?]; subst
  | H : (isset _ ||| isset _) _ = Ok _ _ |- _ => apply either_run in H as [? ?]; subst
  | H : strz_is _ _ _ = Ok _ _ |- _ => apply strz_is_run in H as [? ?]; subst
  | H : token_get_str _ _ = Ok _ _ |- _ => apply token_get_str_run in H as [? ?]; subst
  | H : eval_hargs _ _ = Ok _ _ |- _ => apply eval_hargs_run in H as [? ?]; subst
  | H : bind _ _ _ = Ok _ _ |- _ =>
      let x := fresh "x" in let s := fresh "s" in let H1 := fresh "H" in
      apply bind_ok in H as (x & s & H1 & H); cbv beta in H
  | H : (block []) _ = Ok _ _ |- _ => unfold block in H
  | H : (block (_ :: _)) _ = Ok _ _ |- _ => cbn [block] in H
  | H : If _ _ _ = Ok _ _ |- _ => unfold If in H
  | H : IfElse _ _ _ _ = Ok _ _ |- _ => unfold IfElse in H
  | H : IfM _ _ _ _ = Ok _ _ |- _ => unfold IfM in H
  | H : notc _ _ = Ok _ _ |- _ => unfold notc in H
  | H : (andc _ _) _ = Ok _ _ |- _ => unfold andc in H
  | H : (orc _ _) _ = Ok _ _ |- _ => unfold orc in H
  end.
Ltac run := cbn [negb] in *; repeat (run1; cbn [negb] in *).

(** ** The effect of setting an option *)
Lemma entry_written s s' i o f l v t :
  option_token_get_nofail (openrg_config_options s) (token o) = Some i ->
  openrg_config_options s !! i = Some o ->
  written s i (option_assign o f l v SET_PRIO_TOKEN_SET) s' ->
  entry s' t = if decide (token o = t) then Some (option_assign o f l v SET_PRIO_TOKEN_SET) else entry s t.
Proof.
  intros Hi Ho (Hw & _). unfold entry. rewrite Hw. by apply lookup_option_insert.
Qed.

Record set_effect (t : string) (s s' : cfg) : Prop := {
  effect_shape : shape (openrg_config_options s') = shape (openrg_config_options s);
  effect_other t' : t' <> t -> entry s' t' = entry s t';
  effect_free t' : free s t' -> free s' t' }.

Lemma token_set_effect f l t fmt args s s' :
  _token_set f l SET_PRIO_TOKEN_SET t fmt args s = Ok tt s' ->
  set_effect t s s' /\
  (free s t -> exists o v v', entry s t = Some o /\ format fmt args = Some v /\ stored_value o v v' /\
     entry s' t = Some (option_assign o f l v' SET_PRIO_TOKEN_SET)).
Proof.
  destruct (token_set_cases f l SET_PRIO_TOKEN_SET t fmt args s)
    as [(e & -> & _)|[(o & Hl & Hp & ->)|
        (i & o & v & v' & s1 & Hi & Ho & <- & Hl & Hp & Hf & _ & Hst & -> & Hw)]]; [done| |].
  - intros [= <-]. split; [by split|]. intros (o' & Ho' & Hp'). unfold entry in Ho'.
    rewrite Hl in Ho'. injection Ho' as <-. lia.
  - intros [= <-].
    assert (He : forall t, entry s1 t =
      if decide (token o = t) then Some (option_assign o f l v' SET_PRIO_TOKEN_SET) else entry s t).
    { intros t. by apply (entry_written s s1 i). }
    split; [split|].
    + by eapply written_shape.
    + intros t' Ht. rewrite He. by rewrite decide_False.
    + intros t' (o' & Ho' & Hp'). unfold free. rewrite He. case_decide; [|by exists o'].
      eexists. split; [done|]. done.
    + intros _. exists o, v, v'. do 3 (split; [done|]). rewrite He. by rewrite decide_True.
Qed.

(** "y" given to an option that is not a number. *)
Lemma token_set_y_effect f l t ty s s' :
  base_array (openrg_config_options s) -> type_of base_shape t = Some ty ->
  has_flag ty OPT_NUMBER = false ->
  _token_set_y f l t s = Ok tt s' ->
  set_effect t s s' /\ (free s t -> is_set s' t = true).
Proof.
  intros Hs Hty Hn Hrun. destruct (token_set_effect _ _ _ _ _ _ _ Hrun) as [He Hf]. split; [done|].
  intros H. destruct (Hf H) as (o & v & v' & Ho & [= <-] & Hst & Ho').
  unfold is_set. rewrite Ho'. unfold int_value. cbn [option_assign value otype].
  assert (Hto : otype o = ty).
  { unfold base_array in Hs. rewrite <- Hs, type_of_lookup in Hty. unfold entry in Ho.
    rewrite Ho in Hty. by injection Hty. }
  rewrite Hto, Hn. destruct Hst as [->|(? & _)]; done.
Qed.

(** ** The C library *)

(** The files [libc_detect] looks for, in order: GLIBC 2.1.0 to 2.3.9, uClibc
    0.9.20 to 0.9.40. *)
Definition libc_candidates (prefix machine : option string) : list (libc * string) :=
  libcs ≫= fun l =>
    upto (major_from l) (major_to l) ≫= fun major =>
      upto (minor_from l) (minor_to l) ≫= fun minor =>
        upto (build_from l) (build_to l) ≫= fun build =>
          [(libc_token l, libc_file prefix machine l major minor build)].
Definition first_libc (h : host) (prefix machine : option string) : option (libc * string) :=
  List.find (fun c => lstat h c.2) (libc_candidates prefix machine).

Lemma scan_app {A B} (l1 l2 : list A) (f : A -> option B) :
  scan (l1 ++ l2)%list f = match scan l1 f with Some r => Some r | None => scan l2 f end.
Proof. induction l1 as [|x l1 IH]; [done|]. cbn. by destruct (f x). Qed.
Lemma scan_bind {A B C} (l : list A) (k : A -> list B) (f : B -> option C) :
  scan (l ≫= k) f = scan l (fun x => scan (k x) f).
Proof. induction l as [|x l IH]; [done|]. cbn. by rewrite scan_app, <- IH. Qed.
Lemma scan_ext {A B} (l : list A) (f g : A -> option B) :
  (forall x, f x = g x) -> scan l f = scan l g.
Proof. intros H. induction l as [|x l IH]; [done|]. cbn. by rewrite H, IH. Qed.
Lemma scan_find {A} (p : A -> bool) (l : list A) :
  scan l (fun x => if p x then Some x else None) = List.find p l.
Proof. induction l as [|x l IH]; [done|]. cbn. by destruct (p x). Qed.

Lemma libc_scans_first h prefix machine : libc_scans h prefix machine = first_libc h prefix machine.
Proof.
  unfold first_libc, libc_candidates, libc_scans. rewrite <- scan_find, scan_bind.
  apply scan_ext. intros l. rewrite scan_bind. apply scan_ext. intros major. rewrite scan_bind.
  apply scan_ext. intros minor. rewrite scan_bind. apply scan_ext. intros build. cbn.
  by destruct (lstat h _).
Qed.

Lemma libc_detect_run h g s found s' :
  libc_detect h g s = Ok found s' ->
  s' = s /\ found = first_libc h (TOOLS_PREFIX g) (value_of s "TARGET_MACHINE").
Proof. intros Hrun. unfold libc_detect in Hrun. run. by rewrite libc_scans_first. Qed.

(** The library a configuration gets: the one the options ask for, else the one of
    the tool chain unless it is not to be looked at, else uClibc. *)
Definition libc_selected (ulibc glibc : bool) (in_toolchain : string) (found : option libc) : libc :=
  if ulibc then ULIBC else if glibc then GLIBC
  else if (in_toolchain =? "n")%string then ULIBC else default ULIBC found.
Definition libc_in_toolchain_option (c : libc) : string :=
  match c with GLIBC => "GLIBC_IN_TOOLCHAIN" | ULIBC => "ULIBC_IN_TOOLCHAIN" end.

(** The options [conf_libc] sets are y/n/m options. *)
Definition libc_options : list string :=
  [ "CONFIG_ULIBC"; "CONFIG_GLIBC"; "LIBC_IN_TOOLCHAIN"; "GLIBC_IN_TOOLCHAIN"; "ULIBC_IN_TOOLCHAIN" ].
Lemma libc_options_bool :
  forallb (fun t => match type_of base_shape t with
                    | Some ty => negb (has_flag ty OPT_NUMBER)
                    | None => false
                    end) libc_options = true.
Proof. vm_compute. reflexivity. Qed.

(** One of them set: it is on, the others are as before. *)
Definition turned_on (t : string) (s s' : cfg) : Prop :=
  base_array (openrg_config_options s') /\ is_set s' t = true /\
  (forall t', t' <> t -> is_set s' t' = is_set s t') /\ (forall t', free s t' -> free s' t').

Lemma libc_option_set f l t s s' :
  t ∈ libc_options -> base_array (openrg_config_options s) -> free s t ->
  _token_set_y f l t s = Ok tt s' -> turned_on t s s'.
Proof.
  intros Ht Hs Hf Hrun. pose proof libc_options_bool as Hb. rewrite forallb_forall in Hb.
  specialize (Hb t ltac:(by apply list_elem_of_In)).
  destruct (type_of base_shape t) as [ty|] eqn:Hty; [|done]. bool_to_prop.
  destruct (token_set_y_effect f l t ty s s' Hs Hty Hb Hrun) as [[Hsh Ho Hfr] Hon].
  split; [by unfold base_array; rewrite Hsh|]. split; [auto|]. split; [|done].
  intros t' Hne. unfold is_set. by rewrite Ho.
Qed.

(** What one run decides: [given] when the options ask for a library. *)
Record libc_outcome (given : bool) (c : libc) (in_toolchain : string) (found : option libc)
    (s' : cfg) : Prop := {
  outcome_ulibc : is_set s' "CONFIG_ULIBC" = bool_decide (c = ULIBC);
  outcome_glibc : is_set s' "CONFIG_GLIBC" = bool_decide (c = GLIBC);
  outcome_y : in_toolchain = "y" -> match found with Some d => d = c | None => given = true end;
  outcome_found : in_toolchain <> "n" -> found = Some c ->
    is_set s' "LIBC_IN_TOOLCHAIN" = true /\ is_set s' (libc_in_toolchain_option c) = true }.

Ltac in_libc_options := unfold libc_options; set_solver.
Lemma libc_in_toolchain_run c lg lu s s' :
  base_array (openrg_config_options s) -> Forall (free s) libc_options ->
  libc_in_toolchain c lg lu s = Ok tt s' -> turned_on (libc_in_toolchain_option c) s s'.
Proof.
  intros Hs Hf Hrun. rewrite Forall_forall in Hf. unfold libc_in_toolchain in Hrun. destruct c; run.
  all: match goal with H : _token_set_y _ _ ?t ?s = Ok _ _ |- turned_on ?t ?s _ =>
    eapply (libc_option_set _ _ t); [| done | | exact H]; [in_libc_options | apply Hf; in_libc_options] end.
Qed.
Lemma libc_options_free s s' :
  (forall t, free s t -> free s' t) -> Forall (free s) libc_options -> Forall (free s') libc_options.
Proof. intros H Hf. by eapply Forall_impl; [exact Hf | apply H]. Qed.

(** The library found in the tool chain is taken. *)
Lemma libc_taken c s s1 s' l1 lg lu :
  base_array (openrg_config_options s) -> Forall (free s) libc_options ->
  _token_set_y CONFIG_HOST_C l1 "LIBC_IN_TOOLCHAIN" s = Ok tt s1 ->
  libc_in_toolchain c lg lu s1 = Ok tt s' ->
  is_set s' "CONFIG_ULIBC" = is_set s "CONFIG_ULIBC" /\
  is_set s' "CONFIG_GLIBC" = is_set s "CONFIG_GLIBC" /\
  is_set s' "LIBC_IN_TOOLCHAIN" = true /\ is_set s' (libc_in_toolchain_option c) = true.
Proof.
  intros Hs Hf H1 H2. assert (K1 : turned_on "LIBC_IN_TOOLCHAIN" s s1).
  { rewrite Forall_forall in Hf.
    eapply (libc_option_set _ l1); [in_libc_options | done | apply Hf; in_libc_options | exact H1]. }
  destruct K1 as (Hs1 & Hon1 & Hot1 & Hfr1).
  destruct (libc_in_toolchain_run c lg lu s1 s' Hs1 (libc_options_free _ _ Hfr1 Hf) H2)
    as (_ & Hon2 & Hot2 & _).
  destruct c; (split_and!; [by rewrite Hot2, Hot1 by done.. | by rewrite Hot2 by done | done]).
Qed.

Lemma conf_libc_given_outcome c found s s' :
  base_array (openrg_config_options s) -> Forall (free s) libc_options ->
  is_set s "CONFIG_ULIBC" = bool_decide (c = ULIBC) ->
  is_set s "CONFIG_GLIBC" = bool_decide (c = GLIBC) ->
  conf_libc_given c found s = Ok tt s' ->
  libc_outcome true c (default "" (value_of s "LIBC_IN_TOOLCHAIN")) found s'.
Proof.
  intros Hs Hf Hu Hg. unfold conf_libc_given. destruct found as [d|].
  - intros Hrun. run. destruct (decide (c = d)) as [<-|Hcd].
    + rewrite (bool_decide_true (c = c)) in Hrun by done. run.
      match goal with H1 : _token_set_y _ _ _ _ = Ok _ ?s1, H2 : libc_in_toolchain _ _ _ _ = Ok _ _ |- _ =>
        destruct (libc_taken _ _ _ _ _ _ _ Hs Hf H1 H2) as (Hu' & Hg' & Hl & Hc) end.
      split; [by rewrite Hu' | by rewrite Hg' | done | done].
    + rewrite (bool_decide_false (c = d)) in Hrun by done. run.
      destruct (_ =? "y")%string eqn:Ey; run. bool_to_prop.
      split; [done | done | done | by intros _ [= ->]].
  - intros Hrun. run. by split.
Qed.

Lemma set_libc_run l c s s' :
  base_array (openrg_config_options s) -> Forall (free s) libc_options ->
  is_set s "CONFIG_ULIBC" = false -> is_set s "CONFIG_GLIBC" = false ->
  set_libc l c s = Ok tt s' ->
  base_array (openrg_config_options s') /\ Forall (free s') libc_options /\
  is_set s' "CONFIG_ULIBC" = bool_decide (c = ULIBC) /\
  is_set s' "CONFIG_GLIBC" = bool_decide (c = GLIBC).
Proof.
  intros Hs Hf Hu Hg Hrun. assert (K : turned_on (libc_name c) s s').
  { rewrite Forall_forall in Hf. unfold set_libc in Hrun. destruct c;
      (eapply (libc_option_set _ l); [| done | | exact Hrun]; [in_libc_options | apply Hf; in_libc_options]). }
  destruct K as (Hs' & Hon & Hot & Hfr). split; [done|].
  split; [by eapply libc_options_free|].
  destruct c; (split; [first [exact Hon | by rewrite Hot] | first [exact Hon | by rewrite Hot]]).
Qed.

Lemma conf_libc_free_outcome found s s' :
  base_array (openrg_config_options s) -> Forall (free s) libc_options ->
  is_set s "CONFIG_ULIBC" = false -> is_set s "CONFIG_GLIBC" = false ->
  conf_libc_free found s = Ok tt s' ->
  libc_outcome false (default ULIBC found) (default "" (value_of s "LIBC_IN_TOOLCHAIN")) found s'.
Proof.
  intros Hs Hf Hu Hg. unfold conf_libc_free. destruct found as [d|]; intros Hrun; run.
  - match goal with H : set_libc _ _ _ = Ok _ ?s1 |- _ =>
      destruct (set_libc_run _ _ _ _ Hs Hf Hu Hg H) as (Hs1 & Hf1 & Hu1 & Hg1) end.
    match goal with H1 : _token_set_y _ _ _ _ = Ok _ ?s1, H2 : libc_in_toolchain _ _ _ _ = Ok _ _ |- _ =>
      destruct (libc_taken _ _ _ _ _ _ _ Hs1 Hf1 H1 H2) as (Hu' & Hg' & Hl & Hc) end.
    split; [by rewrite Hu' | by rewrite Hg' | done | done].
  - destruct (_ =? "y")%string eqn:Ey; run. bool_to_prop.
    match goal with H : set_libc _ _ _ = Ok _ ?s1 |- _ =>
      destruct (set_libc_run _ _ _ _ Hs Hf Hu Hg H) as (Hs1 & Hf1 & Hu1 & Hg1) end.
    by split.
Qed.

Lemma not_looked_at given c found s :
  is_set s "CONFIG_ULIBC" = bool_decide (c = ULIBC) ->
  is_set s "CONFIG_GLIBC" = bool_decide (c = GLIBC) ->
  libc_outcome given c "n" found s.
Proof. by split. Qed.

(** On a Unix host, with at most one library asked for. *)
Lemma conf_libc_chosen h g s s' :
  base_array (openrg_config_options s) -> Forall (free s) libc_options ->
  is_set s "CONFIG_RG_NOT_UNIX" = false ->
  is_set s "CONFIG_ULIBC" && is_set s "CONFIG_GLIBC" = false ->
  conf_libc h g s = Ok tt s' ->
  let in_toolchain := default "" (value_of s "LIBC_IN_TOOLCHAIN") in
  let found := fst <$> first_libc h (TOOLS_PREFIX g) (value_of s "TARGET_MACHINE") in
  libc_outcome (is_set s "CONFIG_ULIBC" || is_set s "CONFIG_GLIBC")
    (libc_selected (is_set s "CONFIG_ULIBC") (is_set s "CONFIG_GLIBC") in_toolchain found)
    in_toolchain found s'.
Proof.
  intros Hs Hf Hn Hboth Hrun in_toolchain found. subst in_toolchain.
  unfold conf_libc in Hrun. run. rewrite Hn in *. run. rewrite Hboth in *. run. unfold libc_selected.
  destruct (is_set s "CONFIG_ULIBC") eqn:Eu, (is_set s "CONFIG_GLIBC") eqn:Eg;
    cbn [orb] in *; rewrite ?Eu in *; run; rewrite ?Eu in *; run; try done.
  all: destruct (_ =? "n")%string eqn:En; run; bool_to_prop; rewrite ?En;
    try (match goal with H : libc_detect _ _ _ = Ok _ _ |- _ => apply libc_detect_run in H as [-> ->] end).
  all: try by apply conf_libc_given_outcome.
  all: try by apply not_looked_at.
  - match goal with H : set_libc _ _ _ = Ok _ _ |- _ =>
      destruct (set_libc_run _ _ _ _ Hs Hf Eu Eg H) as (_ & _ & Hu & Hg) end.
    by apply not_looked_at.
  - by apply conf_libc_free_outcome.
Qed.

(** C10. What conf_libc leaves behind when it returns, from the declared array with none of
    the five options it can set fixed by the command line, on every host. With
    CONFIG_RG_NOT_UNIX it changes nothing; with both CONFIG_ULIBC and CONFIG_GLIBC it
    returns only for CONFIG_RG_JPKG_BIN and changes nothing. Otherwise the C library is the
    one the options ask for; with none asked for it is the first one found in the tool
    chain, GLIBC before uClibc and older before newer, unless LIBC_IN_TOOLCHAIN is "n", and
    uClibc where there is none. Exactly one of CONFIG_ULIBC and CONFIG_GLIBC is then on; a
    library taken from the tool chain turns on LIBC_IN_TOOLCHAIN and its own flag; and
    LIBC_IN_TOOLCHAIN=y is accepted only with the library found, or with none found and one
    asked for. *)
Theorem conf_libc_selects h g s s' :
  base_array (openrg_config_options s) -> Forall (free s) libc_options ->
  conf_libc h g s = Ok tt s' ->
  let ulibc := is_set s "CONFIG_ULIBC" in
  let glibc := is_set s "CONFIG_GLIBC" in
  let in_toolchain := default "" (value_of s "LIBC_IN_TOOLCHAIN") in
  let found := fst <$> first_libc h (TOOLS_PREFIX g) (value_of s "TARGET_MACHINE") in
  if is_set s "CONFIG_RG_NOT_UNIX" then s' = s
  else if ulibc && glibc then s' = s /\ is_set s "CONFIG_RG_JPKG_BIN" = true
  else libc_outcome (ulibc || glibc) (libc_selected ulibc glibc in_toolchain found) in_toolchain found s'.
Proof.
  intros Hs Hf Hrun. cbv zeta. destruct (is_set s "CONFIG_RG_NOT_UNIX") eqn:Hn;
    [|destruct (is_set s "CONFIG_ULIBC" && is_set s "CONFIG_GLIBC") eqn:Hboth].
  - unfold conf_libc in Hrun. run. rewrite Hn in *. by run.
  - unfold conf_libc in Hrun. run. rewrite Hn in *. run. rewrite Hboth in *. run.
    by destruct (is_set s "CONFIG_RG_JPKG_BIN"); run.
  - by apply conf_libc_chosen.
Qed.

Definition is_free (s : cfg) (t : string) : bool :=
  from_option (fun o => Z.leb (set_prio o) SET_PRIO_TOKEN_SET) false (entry s t).
Lemma is_free_spec s t : is_free s t = true -> free s t.
Proof.
  unfold is_free, free. destruct (entry s t) as [o|]; [|done]. cbn. intros H. bool_to_prop. eauto.
Qed.

(** The gateway where [conf_libc] finds it. *)
Definition tools_known : statics :=
  mk_statics None None (Some "") (Some "/usr/local/openrg/mips-linux-uclibc-eb")
    (Some "/usr/local/openrg") (Some "/bin").
Definition gateway_machine : cfg :=
  final (block [token_set 235 "TARGET_MACHINE" "mips-linux-uclibc"] gateway_state).
Lemma gateway_machine_base : base_array (openrg_config_options gateway_machine).
Proof. vm_compute. reflexivity. Qed.
Lemma gateway_machine_free : Forall (free gateway_machine) libc_options.
Proof.
  assert (H : forallb (is_free gateway_machine) libc_options = true) by (vm_compute; reflexivity).
  rewrite forallb_forall in H. apply Forall_forall. intros t Ht. apply is_free_spec, H.
  by apply list_elem_of_In.
Qed.

Lemma conf_libc_selects_witness :
  let s' := final (conf_libc sample_host tools_known gateway_machine) in
  is_set s' "CONFIG_ULIBC" = true /\ is_set s' "CONFIG_GLIBC" = false /\
  is_set s' "ULIBC_IN_TOOLCHAIN" = true.
Proof.
  intros s'.
  pose proof (conf_libc_selects sample_host tools_known gateway_machine s'
    gateway_machine_base gateway_machine_free ltac:(vm_compute; reflexivity)) as H. cbv zeta in H.
  assert (Hn : is_set gateway_machine "CONFIG_RG_NOT_UNIX" = false) by (vm_compute; reflexivity).
  assert (Hb : is_set gateway_machine "CONFIG_ULIBC" && is_set gateway_machine "CONFIG_GLIBC" = false)
    by (vm_compute; reflexivity).
  rewrite Hn, Hb in H. destruct H as [Hu Hg _ Hf]. split; [|split].
  - rewrite Hu. vm_compute. reflexivity.
  - rewrite Hg. vm_compute. reflexivity.
  - apply Hf; vm_compute; [discriminate | reflexivity].
Defined.
