(* ===== verification/ToolProps.v ===== *)
(** * ToolProps: the tools of the target agree

    What [target_tools] (config_host.c) leaves in the options that name the
    compilers and the binary tools, and which hosts are taken at all. *)
From S2P Require Import Prelude Text ConfigOpt StrUtil OptionTable Licence Rules Accesses.
From S2P Require Import HostOps ConfigHost HostCover TargetOs CreateConfig JpkgConfig CreateCover Discipline ConfigProps.
From S2P Require Import MainProps HostProps.

(** ** What a covered program leaves alone *)
Definition may_set (a : access) (t : string) : bool :=
  match a with
  | ASet t' _ | ASetM t' | AArgs t' _ _ | ACopy t' _ | ACmd t' _ _ | AEnable t' | AText t' =>
      (t' =? t)%string
  | AThemes => true
  | _ => false
  end.
Definition sets (l : list access) (t : string) : bool := existsb (fun a => may_set a t) l.

Lemma writes_may_set tbl a t v : writes tbl a t v -> may_set a t = true.
Proof.
  destruct a; cbn; try done; unfold set_writes;
    try (intros [-> _]; apply String.eqb_refl).
Qed.

(** From [s] to [s']: the names in [l] may have changed. *)
Record kept (l : list access) (s s' : cfg) : Prop := {
  kept_free t : free s t -> free s' t;
  kept_entry t : sets l t = false -> entry s' t = entry s t }.
#[export] Instance kept_preorder l : PreOrder (kept l).
Proof.
  split; [by split|]. intros s1 s2 s3 [F1 E1] [F2 E2]. split; [auto|].
  intros t Ht. by rewrite E2, E1.
Qed.
Lemma kept_same l s s' : openrg_config_options s' = openrg_config_options s -> kept l s s'.
Proof. intros H. split; unfold free, entry; by rewrite H. Qed.

Lemma covers_kept {A} l (m : M A) s x s' :
  covers (fun _ => true) l m -> m s = Ok x s' ->
  shape (openrg_config_options s') = shape (openrg_config_options s) /\ kept l s s'.
Proof.
  intros Hc Hrun.
  assert (H : triple (fun s' => shape (openrg_config_options s') = shape (openrg_config_options s))
                (kept l) (fun _ => True) m).
  { refine (covers_triple (fun _ => true) (shape (openrg_config_options s)) _ _ _
      (fun t _ => sets l t = true) _ _ _ (fun _ => True) _ l m Hc _); [done|..].
    - intros s1 s2 i o f lin v Hs _ Hi Ho Hp Hset Hw. split; [rewrite <- Hs; by eapply written_shape|].
      assert (He : forall t, entry s2 t = if decide (token o = t)
        then Some (option_assign o f lin v SET_PRIO_TOKEN_SET) else entry s1 t).
      { intros t. by apply (entry_written s1 s2 i). }
      split.
      + intros t (o' & Ho' & Hp'). unfold free. rewrite He. case_decide; [|by exists o'].
        by eexists.
      + intros t Ht. rewrite He. rewrite decide_False; [done|]. intros <-. congruence.
    - intros s1 s2 Hs He _ _. split; [by rewrite He | by apply kept_same].
    - intros d _ s1 Hs. split; [done|]. by apply kept_same.
    - apply Forall_forall. intros a Ha. split; [done|]. split; [|done]. intros t v Hw.
      apply existsb_exists. exists a. split; [by apply list_elem_of_In|].
      by eapply writes_may_set. }
  specialize (H s eq_refl). rewrite Hrun in H. exact H.
Qed.

(** ** Options that hold the text they are given *)
Definition plain_text (t : string) : bool :=
  match type_of base_shape t with
  | Some ty => negb (has_flag ty OPT_STATIC_ON_DEVELOP)
  | None => false
  end.

Definition harg_value (s : cfg) (a : harg) : option string :=
  match a with
  | Str x => Some x
  | Ptr p => p
  | Get t => value_of s t
  | Getz t => Some (default "" (value_of s t))
  end.

(** The text reaches the option; nothing else changes. *)
Record text_set (t v : string) (s s' : cfg) : Prop := {
  text_base : base_array (openrg_config_options s');
  text_value : value_of s' t = Some v;
  text_other t' : t' <> t -> entry s' t' = entry s t';
  text_free t' : free s t' -> free s' t' }.

Lemma set_printf_run l t fmt args s s' :
  base_array (openrg_config_options s) -> plain_text t = true -> free s t ->
  set_printf l t fmt args s = Ok tt s' ->
  exists v, format fmt (harg_value s <$> args) = Some v /\ text_set t v s s'.
Proof.
  intros Hs Hp Hf (vs & s1 & [-> ->]%eval_hargs_run & Hrun)%bind_ok.
  destruct (token_set_effect _ _ _ _ _ _ _ Hrun) as [[Hsh Ho Hfr] H].
  destruct (H Hf) as (o & v & v' & He & Hfmt & Hst & He').
  exists v. split; [exact Hfmt|]. split; [by unfold base_array; rewrite Hsh | | done | done].
  unfold value_of. rewrite He'. cbn. f_equal.
  assert (Hty : type_of base_shape t = Some (otype o)).
  { rewrite <- Hs, type_of_lookup. unfold entry in He. by rewrite He. }
  unfold plain_text in Hp. rewrite Hty in Hp. destruct Hst as [->|(_ & _ & Hd)]; [done|].
  by rewrite Hd in Hp.
Qed.

(** A block of them, with the same arguments. *)
Definition set_all (rows : list (Z * string * string)) (args : list harg) : stmt :=
  block ((fun r => set_printf r.1.1 r.1.2 r.2 args) <$> rows).
Lemma set_all_run rows args l s s' :
  (forall s, harg_value s <$> args = l) -> NoDup rows.*1.*2 ->
  base_array (openrg_config_options s) ->
  Forall (fun t => plain_text t = true /\ free s t) rows.*1.*2 ->
  set_all rows args s = Ok tt s' ->
  (forall t, t ∉ rows.*1.*2 -> entry s' t = entry s t) /\
  Forall (fun r => exists v, format r.2 l = Some v /\ value_of s' r.1.2 = Some v) rows.
Proof.
  intros Hl. revert s. induction rows as [|[[n t] fmt] rows IH]; intros s Hnd Hs Hf Hrun.
  { injection Hrun as <-. done. }
  cbn in Hnd, Hf. apply NoDup_cons in Hnd as [Hnot Hnd]. apply Forall_cons in Hf as [[Hp Hfree] Hf].
  apply bind_ok in Hrun as ([] & s1 & Hset & Hrun).
  destruct (set_printf_run _ _ _ _ _ _ Hs Hp Hfree Hset) as (v & Hv & [Hs1 Ht Hoth Hfr]).
  destruct (IH s1 Hnd Hs1) as [He Hr]; [|exact Hrun|].
  { eapply Forall_impl; [exact Hf|]. intros t' [? ?]. auto. }
  split.
  - intros t' Hn. cbn in Hn. rewrite He by set_solver. apply Hoth. set_solver.
  - apply Forall_cons. split; [|exact Hr]. exists v. rewrite <- (Hl s). split; [exact Hv|].
    unfold value_of. cbn [fst snd]. rewrite He by done. exact Ht.
Qed.

(** ** The tools *)
Definition binutils : list (string * string) :=
  [ ("AR", "ar"); ("LD", "ld"); ("AS", "as"); ("NM", "nm"); ("RANLIB", "ranlib");
    ("STRIP", "strip"); ("SIZE", "size"); ("OBJCOPY", "objcopy"); ("OBJDUMP", "objdump") ].
Definition tool_options : list string :=
  ([ "TOOLS_PREFIX"; "CROSS_COMPILE"; "TARGET_CC"; "TARGET_CPP"; "TARGET_CXX"; "REAL_GCC" ]
    ++ binutils.*1)%list.
Lemma tool_options_plain : forallb plain_text tool_options = true.
Proof. vm_compute. reflexivity. Qed.
Lemma tool_plain t : t ∈ tool_options -> plain_text t = true.
Proof.
  pose proof tool_options_plain as H. rewrite forallb_forall in H. intros Ht. apply H.
  by apply list_elem_of_In.
Qed.

(** <tools prefix>/bin/<target prefix>-<tool> *)
Definition tool_path (prefix : string) (target : option string) (tool : string) : string :=
  prefix +:+ "/bin/" +:+ default "(null)" target +:+ "-" +:+ tool.

Record tool_chain (h : host) (ccache : option string) (prefix : string) (s' : cfg) : Prop := {
  chain_prefix : value_of s' "TOOLS_PREFIX" = Some prefix;
  chain_there : stat h prefix = true;
  chain_cross : value_of s' "CROSS_COMPILE" = Some (tool_path prefix (value_of s' "TARGET_PREFIX") "");
  chain_cc : value_of s' "TARGET_CC" =
    Some (default "(null)" ccache +:+ tool_path prefix (value_of s' "TARGET_PREFIX") "gcc");
  chain_cxx : value_of s' "TARGET_CXX" =
    Some (default "(null)" ccache +:+ tool_path prefix (value_of s' "TARGET_PREFIX") "g++");
  chain_gcc : value_of s' "REAL_GCC" = value_of s' "TARGET_CC";
  chain_runs : exists cmd, format (default "" (value_of s' "TARGET_CC") +:+ " --version") [] = Some cmd /\
    (shell h cmd).2 = 0;
  chain_binutils : Forall (fun t =>
    value_of s' t.1 = Some (tool_path prefix (value_of s' "TARGET_PREFIX") t.2)) binutils }.

(** The lines of [conf_tools], and the names in [tool_options]. *)
Definition binutils_rows : list (Z * string * string) :=
  [ (710, "AR", "%sar%s"); (711, "LD", "%sld%s"); (712, "AS", "%sas%s"); (713, "NM", "%snm%s");
    (714, "RANLIB", "%sranlib%s"); (715, "STRIP", "%sstrip%s"); (716, "SIZE", "%ssize%s");
    (717, "OBJCOPY", "%sobjcopy%s"); (718, "OBJDUMP", "%sobjdump%s") ].
Lemma format_tool x (tool : string) : tool ∈ binutils.*2 ->
  format ("%s" +:+ tool +:+ "%s") [Some x; Some ""] = Some (x +:+ tool).
Proof.
  unfold binutils. cbn [fmap list_fmap snd]. rewrite !elem_of_cons.
  intros H. destruct_or?; subst; try reflexivity. by apply elem_of_nil in H.
Qed.
Lemma binutils_rows_tools :
  (fun r => (r.1.2, r.2)) <$> binutils_rows = (fun t => (t.1, "%s" +:+ t.2 +:+ "%s")) <$> binutils.
Proof. reflexivity. Qed.

Lemma conf_tools_run g p s s' :
  base_array (openrg_config_options s) -> Forall (free s) tool_options ->
  TOOLS_PREFIX g = Some p -> is_set s "CONFIG_WINDOWS_HOST" = false ->
  conf_tools g s = Ok tt s' ->
  (forall t, t ∉ binutils.*1 -> entry s' t = entry s t) /\
  Forall (fun t => value_of s' t.1 = Some (tool_path p (value_of s "TARGET_PREFIX") t.2)) binutils.
Proof.
  intros Hs Hf Hg Hw Hrun. unfold conf_tools, sprintf_256 in Hrun. run1. run1. rewrite Hw in *.
  do 5 run1. apply eval_hargs_run in H0 as [-> ->]. cbn in H. rewrite Hg in H. cbn in H.
  destruct (_ <? 256); [|discriminate H]. injection H as <- <-.
  set (prefix := p +:+ "/bin/" +:+ default "(null)" (value_of s0 "TARGET_PREFIX") +:+ "-") in *.
  change (block _) with (set_all binutils_rows [Str prefix; Str ""]) in Hrun.
  apply (set_all_run _ _ [Some prefix; Some ""]) in Hrun as [Hkept Hr];
    [split; [done|] | done | by vm_compute; repeat constructor; set_solver | done |].
  - apply (Forall_fmap (fun r => (r.1.2, r.2)) (fun x => exists v, format x.2 [Some prefix; Some ""] = Some v /\
      value_of s' x.1 = Some v)) in Hr.
    rewrite binutils_rows_tools, Forall_fmap in Hr. rewrite Forall_forall in Hr |- *.
    intros t Ht. destruct (Hr t Ht) as (v & Hv & Hval). cbn [compose fst snd] in Hv, Hval. rewrite Hval.
    rewrite format_tool in Hv by (by apply list_elem_of_fmap_2). injection Hv as <-.
    unfold prefix, tool_path. by rewrite !append_assoc.
  - rewrite Forall_forall in Hf |- *. intros t Ht.
    assert (t ∈ tool_options) by (unfold tool_options; apply elem_of_app; by right).
    auto using tool_plain.
Qed.

Lemma printf_to_run fmt args f s p s' :
  printf_to fmt args f s = Ok p s' ->
  s' = s /\ exists t, format fmt (harg_value s <$> args) = Some t /\ p = Some t.
Proof.
  intros (vs & s1 & [-> ->]%eval_hargs_run & H)%bind_ok. unfold str_printf, str_vprintf_full in H.
  destruct (format _ _) as [t|] eqn:E; [|discriminate H]. injection H as <- <-. eauto.
Qed.
(** A formatted command is a format once more. *)
Lemma sys_getf_run h fmt args s r s' :
  sys_getf h fmt args s = Ok r s' ->
  s' = s /\ exists t cmd, format fmt (harg_value s <$> args) = Some t /\ format t [] = Some cmd /\
    r = shell h cmd.
Proof.
  intros (p & s2 & [-> (t & Ht & ->)]%printf_to_run & (q & s3 & [= <- <-] & H)%bind_ok)%bind_ok.
  unfold sys_get, bind in H. cbn in H. unfold str_printf, str_vprintf_full in H.
  destruct (format t []) as [cmd|] eqn:E; [|discriminate H]. injection H as <- <-. eauto 6.
Qed.
Lemma sys_execf_run h fmt args s r s' :
  sys_execf h fmt args s = Ok r s' ->
  s' = s /\ exists t cmd, format fmt (harg_value s <$> args) = Some t /\ format t [] = Some cmd /\
    r = (shell h cmd).2.
Proof.
  intros (u & s1 & [-> (t & cmd & Ht & Hcmd & ->)]%sys_getf_run & [= <- <-])%bind_ok. eauto 6.
Qed.

Record target_compilers (h : host) (ccache : option string) (prefix : string)
    (target : option string) (s' : cfg) : Prop := {
  compiler_cc : value_of s' "TARGET_CC" = Some (default "(null)" ccache +:+ tool_path prefix target "gcc");
  compiler_cxx : value_of s' "TARGET_CXX" = Some (default "(null)" ccache +:+ tool_path prefix target "g++");
  compiler_gcc : value_of s' "REAL_GCC" = value_of s' "TARGET_CC";
  compiler_runs : exists cmd, format (default "" (value_of s' "TARGET_CC") +:+ " --version") [] = Some cmd /\
    (shell h cmd).2 = 0 }.

(** One of the tool options set. *)
Record tool_set (t v : string) (s s' : cfg) : Prop := {
  tool_base : base_array (openrg_config_options s');
  tool_free : Forall (free s') tool_options;
  tool_value : value_of s' t = Some v;
  tool_other t' : t' <> t -> value_of s' t' = value_of s t' }.
Lemma tool_set_run l t fmt args s s' :
  base_array (openrg_config_options s) -> Forall (free s) tool_options -> t ∈ tool_options ->
  set_printf l t fmt args s = Ok tt s' ->
  exists v, format fmt (harg_value s <$> args) = Some v /\ tool_set t v s s'.
Proof.
  intros Hs Hf Ht Hr. pose proof Hf as Hf'. rewrite Forall_forall in Hf'.
  destruct (set_printf_run _ _ _ _ _ _ Hs (tool_plain t Ht) (Hf' t Ht) Hr) as (v & Hv & [? ? Ho Hfr]).
  exists v. split; [done|]. split; [done | | done |].
  - by eapply Forall_impl; [exact Hf | apply Hfr].
  - intros t' Hne. unfold value_of. by rewrite Ho.
Qed.
(** Takes the next setting of a run: [K : tool_set t v s s']. *)
Ltac take_tool K :=
  match goal with
  | Hs : base_array (openrg_config_options ?s), Hf : Forall (free ?s) tool_options,
    H : set_printf _ ?t _ _ ?s = Ok _ _ |- _ =>
      let v := fresh "v" in let Hv := fresh "Hv" in
      destruct (tool_set_run _ t _ _ _ _ Hs Hf ltac:(by apply (bool_decide_unpack _); vm_compute) H)
        as (v & Hv & K); clear H; pose proof (tool_base _ _ _ _ K); pose proof (tool_free _ _ _ _ K)
  end.

(** What the settings of a run leave in an option. *)
Ltac follow :=
  repeat match goal with
  | K : tool_set ?t _ _ ?s |- context [value_of ?s ?t] => rewrite (tool_value _ _ _ _ K)
  | K : tool_set _ _ _ ?s |- context [value_of ?s ?u] => rewrite (tool_other _ _ _ _ K u) by done
  end.

Lemma conf_target_cc_run h g p s s' :
  base_array (openrg_config_options s) -> Forall (free s) tool_options ->
  TOOLS_PREFIX g = Some p -> conf_target_cc h g s = Ok tt s' ->
  target_compilers h (CCACHE g) p (value_of s "TARGET_PREFIX") s'.
Proof.
  intros Hs Hf Hg Hrun. unfold conf_target_cc in Hrun. run.
  take_tool K1. take_tool K2. take_tool K3. take_tool K4.
  match goal with H : sys_execf _ _ _ _ = Ok _ _ |- _ =>
    apply sys_execf_run in H as [-> (cc & cmd & Hcc & Hcmd & ->)] end.
  assert (Ht1 : value_of s1 "TARGET_PREFIX" = value_of s "TARGET_PREFIX") by (by follow).
  assert (Ht2 : value_of s2 "TARGET_CC" = Some v) by (by follow).
  assert (Ht3 : value_of s3 "TARGET_CC" = Some v) by (by follow).
  cbn [fmap list_fmap harg_value] in *. rewrite Hg, ?Ht1, ?Ht2, ?Ht3 in *.
  cbn in Hv, Hv1, Hv2, Hcc. simplify_eq.
  destruct (nz _) eqn:En; run.
  split; follow; [reflexivity | reflexivity | by rewrite append_nil_r |]. exists cmd. split; [exact Hcmd|].
  unfold nz in En. bool_to_prop. exact En.
Qed.

Lemma gathers_snoc_run l m f s p s' :
  gathers (l ++ [m]) f s = Ok p s' ->
  exists q s1, gathers l f s = Ok q s1 /\ m q s1 = Ok p s'.
Proof.
  revert f s. induction l as [|m' l IH]; intros f s.
  - intros (q & s1 & Hm & [= <- <-])%bind_ok. by exists f, s.
  - intros (q & s1 & Hm & H)%bind_ok. destruct (IH _ _ H) as (r & s2 & Hr & ?).
    exists r, s2. split; [|done]. cbn. unfold bind. by rewrite Hm.
Qed.
Lemma catprintf_run fmt args f s p s' :
  catprintf fmt args f s = Ok p s' -> s' = s /\ is_Some p.
Proof.
  intros (vs & s1 & [-> ->]%eval_hargs_run & H)%bind_ok.
  destruct (str_catprintf _ _ _); [|discriminate H]. injection H as <- <-. eauto.
Qed.

Lemma kept_base l s s' :
  base_array (openrg_config_options s) -> Forall (free s) tool_options ->
  shape (openrg_config_options s') = shape (openrg_config_options s) -> kept l s s' ->
  base_array (openrg_config_options s') /\ Forall (free s') tool_options.
Proof.
  intros Hs Hf Hsh [Hfr _]. split; [by unfold base_array; rewrite Hsh|].
  by eapply Forall_impl; [exact Hf|].
Qed.

(** A prefix put together with a last resort is a text, and the option has it. *)
Lemma tools_prefix_made L steps fmt args l s p s' :
  (forall f, covers (fun _ => true) L (gathers steps f)) ->
  base_array (openrg_config_options s) -> Forall (free s) tool_options ->
  (p <- gathers (steps ++ [fun p => CatIf (test (bool_decide (p = None))) [catprintf fmt args] p]) None;;
   set_printf l "TOOLS_PREFIX" "%s" [Ptr p];;; ret p) s = Ok p s' ->
  exists t, p = Some t /\ value_of s' "TOOLS_PREFIX" = Some t /\
    base_array (openrg_config_options s') /\ Forall (free s') tool_options.
Proof.
  intros Hc Hs Hf Hrun. run1. apply gathers_snoc_run in H as (q & s1 & Hq & H).
  destruct (covers_kept _ _ _ _ _ (Hc None) Hq) as [Hsh Hk].
  destruct (kept_base _ _ _ Hs Hf Hsh Hk) as [Hs1 Hf1].
  assert (Hx : s0 = s1 /\ is_Some x).
  { unfold CatIf, CatIfElse in H. run1. run1. run1. destruct q as [q|]; cbn in H.
    - injection H as <- <-. by split.
    - apply bind_ok in H as (r & s3 & [-> ?]%catprintf_run & [= <- <-]). by split. }
  destruct Hx as [-> [t ->]]. run. take_tool K. cbn in Hv. simplify_eq. exists t.
  rewrite append_nil_r in *. split_and!; [done | by follow | done | done].
Qed.

Lemma conf_tools_prefix_run h g s g' s' :
  base_array (openrg_config_options s) -> Forall (free s) tool_options ->
  conf_tools_prefix h g s = Ok g' s' ->
  exists p, TOOLS_PREFIX g' = Some p /\ CCACHE g' = CCACHE g /\
    value_of s' "TOOLS_PREFIX" = Some p /\ stat h p = true /\
    value_of s' "CROSS_COMPILE" = Some (tool_path p (value_of s' "TARGET_PREFIX") "").
Proof.
  intros Hs Hf (x & s1 & [-> ->]%token_get_str_run & Hrun)%bind_ok.
  apply bind_ok in Hrun as (x & s1 & H & Hrun).
  assert (Hp : exists p, x = Some p /\ value_of s1 "TOOLS_PREFIX" = Some p /\
    base_array (openrg_config_options s1) /\ Forall (free s1) tool_options).
  { destruct (value_of s "TOOLS_PREFIX") as [p|] eqn:E.
    - injection H as <- <-. by exists p.
    - eapply (tools_prefix_made _ [_;_;_;_;_;_;_]); [|exact Hs | exact Hf | exact H]. intros f. walk. }
  clear H. destruct Hp as (p & -> & Hp & Hs1 & Hf1). run.
  rewrite Hp in *. cbn [from_option] in *. destruct (stat h p) eqn:Ep; cbn [negb] in *; run.
  assert (s2 = s0) as -> by (destruct (is_set s0 "CONFIG_PPC"); run; [|done];
    match goal with H : sys_getf _ _ _ _ = Ok _ _ |- _ => apply sys_getf_run in H as [-> _] end;
    by destruct (_ <? _); run).
  take_tool K. cbn in Hv. rewrite Hp in Hv. exists p. split_and!; [done | done | by follow | done |].
  follow. by simplify_eq.
Qed.

(** ** All of them together *)
Lemma covers_steady {A} l (m : M A) s x s' :
  covers (fun _ => true) l m -> base_array (openrg_config_options s) -> Forall (free s) tool_options ->
  m s = Ok x s' ->
  base_array (openrg_config_options s') /\ Forall (free s') tool_options /\
  forall t, sets l t = false -> value_of s' t = value_of s t /\ is_set s' t = is_set s t.
Proof.
  intros Hc Hs Hf Hrun. destruct (covers_kept _ _ _ _ _ Hc Hrun) as [Hsh Hk].
  destruct (kept_base _ _ _ Hs Hf Hsh Hk). split_and!; [done..|].
  intros t Ht. unfold value_of, is_set. by rewrite (kept_entry _ _ _ Hk t Ht).
Qed.
(** Past one function of the host configuration: [K] says what it leaves alone. *)
Ltac past C K :=
  match goal with
  | Hs : base_array (openrg_config_options ?s), Hf : Forall (free ?s) tool_options, H : _ ?s = Ok _ _ |- _ =>
      let Hs' := fresh "Hs" in let Hf' := fresh "Hf" in
      destruct (covers_steady _ _ _ _ _ C Hs Hf H) as (Hs' & Hf' & K)
  end.
(** What the functions passed leave alone. *)
Ltac unmoved :=
  repeat match goal with
  | K : forall t, sets _ t = false -> value_of ?s t = _ /\ _ |- context [value_of ?s ?u] =>
      rewrite (proj1 (K u ltac:(vm_compute; reflexivity)))
  | K : forall t, sets _ t = false -> _ /\ is_set ?s t = _ |- context [is_set ?s ?u] =>
      rewrite (proj2 (K u ltac:(vm_compute; reflexivity)))
  end.
Abbreviation cover m := (accesses_cover (fun _ => true) m) (only parsing).
Abbreviation cover_fun f x := (fun_cover (fun _ => true) f x) (only parsing).

(** C9. From the declared array, with none of TOOLS_PREFIX, CROSS_COMPILE, TARGET_CC,
    TARGET_CPP, TARGET_CXX, REAL_GCC and the nine binary tools set on the command line, and
    CONFIG_WINDOWS_HOST off: when the tools part of config_host returns, on every host, the
    tools prefix is a directory the host has, and CROSS_COMPILE, TARGET_CC, TARGET_CXX,
    REAL_GCC and the nine binary tools all name <prefix>/bin/<TARGET_PREFIX>-..., the
    compilers behind ccache; the compiler answered its --version; and no function after the
    one that set an option has changed it. *)
Theorem target_tools_agree h g s g' s' :
  base_array (openrg_config_options s) -> Forall (free s) tool_options ->
  is_set s "CONFIG_WINDOWS_HOST" = false ->
  target_tools h g s = Ok g' s' ->
  exists p, TOOLS_PREFIX g' = Some p /\ tool_chain h (CCACHE g) p s'.
Proof.
  intros Hs Hf Hw Hrun. unfold target_tools in Hrun. run.
  past (cover_fun conf_gawk h) K1. past (cover conf_endian_flags) K2. past (cover conf_target_machine) K3.
  past (cover_fun (conf_tools_prefix h) g) K4.
  match goal with H : conf_tools_prefix _ _ _ = Ok _ _ |- _ =>
    apply conf_tools_prefix_run in H as (p & Hp & Hcc & Htp & Hstat & Hcross); [|done..] end.
  past (cover_fun (conf_libc h) g') K5. past (cover_fun conf_cc g') K6.
  past (cover_fun (conf_target_cc h) g') K7.
  match goal with H : conf_target_cc _ _ _ = Ok _ _ |- _ =>
    eapply conf_target_cc_run in H as [Hgcc Hgxx Hreal Hver]; [|done..] end.
  past (cover_fun conf_gcc_version h) K8. past (cover_fun conf_tools g') K9.
  match goal with H : conf_tools _ _ = Ok _ _ |- _ =>
    destruct (conf_tools_run _ p _ _ Hs7 Hf7 Hp ltac:(by unmoved) H) as [_ Hbin] end.
  exists p. split; [done|]. rewrite <- Hcc. clear K1 K2 K3 K4.
  assert (Ht5 : value_of s5 "TARGET_PREFIX" = value_of s3 "TARGET_PREFIX") by by unmoved.
  assert (Ht7 : value_of s7 "TARGET_PREFIX" = value_of s3 "TARGET_PREFIX") by by unmoved.
  assert (Ht8 : value_of s' "TARGET_PREFIX" = value_of s3 "TARGET_PREFIX") by by unmoved.
  rewrite Ht5 in *. rewrite Ht7 in *.
  split; rewrite ?Ht8; [by unmoved | done | by unmoved.. | | exact Hbin].
  by unmoved.
Qed.

(** The gateway when the host configuration begins. *)
Definition gateway_rules : cfg :=
  final ((configure_rules (fun _ => true);;; jpkg_configuration (fun _ => true);;; target_primary_os)
    gateway_state).
Definition gateway_statics : statics :=
  mk_statics (Some "/rg/build.TWINPASS") (Some "/rg") (Some "") None (Some "/usr/local/openrg")
    (Some "/usr/bin:/bin").
Lemma gateway_rules_base : base_array (openrg_config_options gateway_rules).
Proof. vm_compute. reflexivity. Qed.
Lemma gateway_rules_free : Forall (free gateway_rules) tool_options.
Proof.
  assert (H : forallb (is_free gateway_rules) tool_options = true) by (vm_compute; reflexivity).
  rewrite forallb_forall in H. apply Forall_forall. intros t Ht. apply is_free_spec, H.
  by apply list_elem_of_In.
Qed.
Lemma target_tools_agree_witness :
  exists g' s' p, target_tools sample_host gateway_statics gateway_rules = Ok g' s' /\
    tool_chain sample_host (Some "") p s'.
Proof.
  destruct (target_tools sample_host gateway_statics gateway_rules) as [g' s'|e s'] eqn:E.
  - destruct (target_tools_agree sample_host gateway_statics gateway_rules g' s') as (p & _ & H);
      [exact gateway_rules_base | exact gateway_rules_free | vm_compute; reflexivity | exact E |].
    exists g', s', p. split; [reflexivity | exact H].
  - exfalso. assert (H : match target_tools sample_host gateway_statics gateway_rules with
                         | Ok _ _ => true | Exit _ _ => false end = true) by (vm_compute; reflexivity).
    rewrite E in H. discriminate H.
Defined.

(** ** The hosts *)
Definition in_text (c : Ascii.ascii) (t : string) : Prop := c ∈ String.list_ascii_of_string t.

Lemma code_inj c d : code c = code d -> c = d.
Proof.
  unfold code. intros H. apply Nat2Z.inj in H. rewrite <- (Ascii.ascii_nat_embedding c), H.
  apply Ascii.ascii_nat_embedding.
Qed.
Lemma code_zero c : code c = 0 -> c = "000"%char.
Proof. intros H. by apply code_inj. Qed.

(** [strncmp(s, t, strlen(t))] is a test for a prefix. *)
Lemma strncmp_prefix t s :
  ~ in_text "000" t -> (strncmp s t (String.length t) =? 0) = String.prefix t s.
Proof.
  unfold strncmp, in_text. rewrite (substring_0_all _ t) by lia. revert s.
  induction t as [|d t IH]; intros s Hn; [by destruct s|]. cbn [String.list_ascii_of_string] in Hn.
  assert (Hd : code d <> 0) by (intros H; apply Hn, elem_of_cons; left; symmetry; by apply code_zero).
  destruct s as [|c s]; cbn.
  - apply Z.eqb_neq. lia.
  - destruct (Ascii.ascii_dec d c) as [->|Hne].
    + rewrite Ascii.eqb_refl. apply IH. set_solver.
    + rewrite (proj2 (Ascii.eqb_neq c d)) by congruence. apply Z.eqb_neq.
      intros H. apply Hne, code_inj. lia.
Qed.
Lemma prefix_line t line : ~ in_text "010" t -> String.prefix t (line +:+ nl) = String.prefix t line.
Proof.
  unfold in_text. revert line. induction t as [|d t IH]; intros line Hn; [by destruct line|].
  cbn [String.list_ascii_of_string] in Hn.
  destruct line as [|c line]; cbn.
  - destruct (Ascii.ascii_dec d "010") as [->|_]; [set_solver | done].
  - destruct (Ascii.ascii_dec d c); [|done]. apply IH. set_solver.
Qed.
Lemma line_neq t line : ~ in_text "010" t -> (line +:+ nl =? t)%string = false.
Proof.
  intros Hn. apply String.eqb_neq. intros <-. apply Hn. unfold in_text. clear Hn.
  induction line as [|c line IH]; cbn; set_solver.
Qed.

(** What [conf_ostype] does with a line of output. *)
Lemma conf_ostype_line h s line : shell h "echo $OSTYPE" = (line +:+ nl, 0) ->
  conf_ostype h s =
  if String.prefix "linux" line then block [ConfigHost.token_set_y 92 "CONFIG_RG_HOST_LINUX"] s
  else Exit (HostErr "OS not supported ($OSTYPE)") s.
Proof.
  intros Hsh. assert (Hget : sys_get h "echo $OSTYPE" [] s = Ok (line +:+ nl, 0) s) by (rewrite <- Hsh; reflexivity).
  unfold conf_ostype. unfold bind at 1. rewrite Hget. unfold Elif, IfElse, If, IfM, test, bind, ret, block. cbn -[strncmp String.eqb].
  rewrite line_neq by (unfold in_text; set_solver).
  rewrite (strncmp_prefix "linux"), prefix_line by (unfold in_text; set_solver).
  destruct (String.prefix "linux" line); [|done]. unfold bind, ret.
  by destruct (ConfigHost.token_set_y 92 "CONFIG_RG_HOST_LINUX" s) as [[] ?|].
Qed.


Definition host_options : list string :=
  [ "CONFIG_RG_HOST_LINUX"; "CONFIG_WINDOWS_HOST"; "CONFIG_RG_WINDOWS_HOST" ].

(** A host whose shell prints its OSTYPE as a line, as a shell does: config_host
    returns only when the line begins with "linux"; it then says so in CONFIG_RG_HOST_LINUX
    and leaves both Windows options as they were. So "cygwin" is refused, although
    conf_ostype has a branch for it: the comparison sees the end of the line. *)
Theorem only_linux_hosts h s s' line :
  base_array (openrg_config_options s) -> free s "CONFIG_RG_HOST_LINUX" ->
  shell h "echo $OSTYPE" = (line +:+ nl, 0) ->
  config_host h s = Ok tt s' ->
  String.prefix "linux" line = true /\ is_set s' "CONFIG_RG_HOST_LINUX" = true /\
  entry s' "CONFIG_WINDOWS_HOST" = entry s "CONFIG_WINDOWS_HOST" /\
  entry s' "CONFIG_RG_WINDOWS_HOST" = entry s "CONFIG_RG_WINDOWS_HOST".
Proof.
  intros Hs Hf Hsh Hrun. unfold config_host in Hrun. apply bind_ok in Hrun as (g & s2 & Hst & Hrun).
  unfold config_host_start in Hst. apply bind_ok in Hst as (path & s1 & Hp & Hst).
  apply bind_ok in Hst as ([] & s3 & Ho & Hst).
  eapply covers_kept in Hp as [Hb1 K1]; [|walk]. eapply covers_kept in Hst as [Hb2 K2]; [|walk].
  eapply covers_kept in Hrun as [Hb3 K3]; [|walk].
  rewrite (conf_ostype_line _ _ _ Hsh) in Ho. destruct (String.prefix "linux" line); [|discriminate Ho].
  assert (Hrest : Forall (fun t => entry s' t = entry s3 t /\ entry s1 t = entry s t) host_options).
  { apply Forall_forall. intros t Ht. split; [|by apply (kept_entry _ _ _ K1)].
    rewrite (kept_entry _ _ _ K3), (kept_entry _ _ _ K2); [done | |];
      revert t Ht; apply Forall_forall; vm_compute; repeat constructor. }
  apply bind_ok in Ho as ([] & s4 & Hy & [= ->]).
  apply (token_set_y_effect _ _ _ OPT_NONE) in Hy as [[_ Hoth _] Hon];
    [| unfold base_array; by rewrite Hb1 | vm_compute; reflexivity | reflexivity].
  apply Forall_cons in Hrest as [[Hl _] Hrest]. apply Forall_cons in Hrest as [[Hw1 Hw2] Hrest].
  apply Forall_cons in Hrest as [[Hr1 Hr2] _].
  split; [done|]. split; [|split].
  - unfold is_set. rewrite Hl. apply Hon, (kept_free _ _ _ K1), Hf.
  - by rewrite Hw1, Hoth, Hw2.
  - by rewrite Hr1, Hoth, Hr2.
Qed.

Lemma only_linux_hosts_witness :
  exists s', config_host sample_host gateway_rules = Ok tt s' /\ is_set s' "CONFIG_RG_HOST_LINUX" = true.
Proof.
  destruct (config_host sample_host gateway_rules) as [[] s'|e s'] eqn:E.
  - exists s'. split; [reflexivity|].
    destruct (only_linux_hosts sample_host gateway_rules s' "linux-gnu") as (_ & H & _);
      [exact gateway_rules_base | apply is_free_spec; vm_compute; reflexivity |
       vm_compute; reflexivity | exact E | exact H].
  - exfalso. assert (H : match config_host sample_host gateway_rules with
                         | Ok _ _ => true | Exit _ _ => false end = true) by (vm_compute; reflexivity).
    rewrite E in H. discriminate H.
Defined.
