(* ===== verification/MtdCheck.v ===== *)
(** * MtdCheck: the flash partition check

    [general_features] ends by checking that a default MTD partition comes with
    the MTD driver and the address and length of the flash; the theorem carries
    the check through to the final database. *)
From S2P Require Import Prelude ConfigOpt Licence Rules Accesses FeatureConfig FeatureCover.
From S2P Require Import CreateConfig Discipline ConfigProps.

Lemma block_app_ok ms1 ms2 s s' :
  block (ms1 ++ ms2)%list s = Ok tt s' ->
  exists s1, block ms1 s = Ok tt s1 /\ block ms2 s1 = Ok tt s'.
Proof.
  revert s. induction ms1 as [|m ms1 IH]; intros s; [by exists s|].
  simpl. unfold bind. destruct (m s) as [[] s0|]; [|done]. apply IH.
Qed.

(** [general_features] ends with the check and one more rule. *)
Definition mtd_check : stmt :=
  If (isset "CONFIG_RG_MTD_DEFAULT_PARTITION") [
    If (notc (isset "CONFIG_RG_MTD") ||| notc (isset "CONFIG_MTD_PHYSMAP_START") |||
        notc (isset "CONFIG_MTD_PHYSMAP_LEN")) [ conf_err IncorrectMTD ] ].
Definition cert_rule : stmt :=
  If (isset "CONFIG_RG_CERT" &&& get_eq "CONFIG_RG_ADV_SERVICES_LEVEL" 1) [
    _token_set_y FEATURE_CONFIG_C 3917 "CONFIG_RG_CERT_SHORT_LIST" ].

Lemma general_features_end enabled :
  exists front, general_features enabled = block (front ++ [mtd_check; cert_rule])%list.
Proof.
  assert (H31 : general_features_31 =
    (take (length general_features_31 - 2) general_features_31 ++ [mtd_check; cert_rule])%list)
    by reflexivity.
  unfold general_features. rewrite H31. rewrite !(assoc_L app). eexists. reflexivity.
Qed.

Lemma isset_ok t s b s' : isset t s = Ok b s' -> s' = s /\ exists v, token_get t s = Ok v s /\ b = nz v.
Proof.
  unfold isset, bind. rewrite token_get_eq.
  destruct (lookup_option _ t) as [o|]; [|done]. destruct (has_flag _ _); [done|].
  intros [= <- <-]. split; [done|]. by eexists.
Qed.

Lemma mtd_check_ok s s' : mtd_check s = Ok tt s' -> s' = s /\
  exists d, token_get "CONFIG_RG_MTD_DEFAULT_PARTITION" s = Ok d s /\
  (nz d = true -> forall t, t ∈ ["CONFIG_RG_MTD"; "CONFIG_MTD_PHYSMAP_START"; "CONFIG_MTD_PHYSMAP_LEN"] ->
   exists v, token_get t s = Ok v s /\ nz v = true).
Proof.
  unfold mtd_check, If, IfElse, orc, notc, bind.
  destruct (isset "CONFIG_RG_MTD_DEFAULT_PARTITION" s) as [b s0|] eqn:E0; [|done].
  apply isset_ok in E0 as (-> & d & Hd & ->). destruct (nz d) eqn:Ed; simpl.
  2:{ intros [= <-]. split; [done|]. exists d. split; [done|]. congruence. }
  unfold bind.
  destruct (isset "CONFIG_RG_MTD" s) as [b s1|] eqn:E1; [|done].
  apply isset_ok in E1 as (-> & v1 & H1 & ->). simpl. destruct (nz v1) eqn:N1; simpl; [|done].
  destruct (isset "CONFIG_MTD_PHYSMAP_START" s) as [b s2|] eqn:E2; [|done].
  apply isset_ok in E2 as (-> & v2 & H2 & ->). simpl. destruct (nz v2) eqn:N2; simpl; [|done].
  destruct (isset "CONFIG_MTD_PHYSMAP_LEN" s) as [b s3|] eqn:E3; [|done].
  apply isset_ok in E3 as (-> & v3 & H3 & ->). simpl. destruct (nz v3) eqn:N3; simpl; [|done].
  intros [= <-]. split; [done|]. exists d. split; [done|]. intros _ t Ht.
  repeat (apply elem_of_cons in Ht as [->|Ht]; [by eexists|]). by apply elem_of_nil in Ht.
Qed.

#[export] Instance cert_rule_covered (enabled : string -> bool) : Covered enabled cert_rule.
Proof. eapply Build_Covered. unfold cert_rule. walk. Defined.

Lemma cert_rule_get (enabled : string -> bool) t s s' :
  cert_rule s = Ok tt s' -> t <> "CONFIG_RG_CERT_SHORT_LIST" ->
  match token_get t s, token_get t s' with
  | Ok v _, Ok v' _ => v = v'
  | Exit _ _, Exit _ _ => True
  | _, _ => False
  end.
Proof.
  intros Hr Ht. pose proof (option_untouched enabled cert_rule t s) as H.
  rewrite Hr in H. simpl in H. rewrite !token_get_eq, H.
  - repeat destruct_match; done.
  - intros a v Ha. repeat (apply elem_of_cons in Ha as [->|Ha]; [simpl; try tauto|]).
    + intros [-> _]. done.
    + by apply elem_of_nil in Ha.
Qed.

(** When the feature rules return and the default MTD partition is on, the MTD driver
    and the address and length of the flash are set in the final database. *)
Theorem mtd_partition_complete enabled s s' d :
  general_features enabled s = Ok tt s' ->
  token_get "CONFIG_RG_MTD_DEFAULT_PARTITION" s' = Ok d s' -> nz d = true ->
  forall t, t ∈ ["CONFIG_RG_MTD"; "CONFIG_MTD_PHYSMAP_START"; "CONFIG_MTD_PHYSMAP_LEN"] ->
  exists v, token_get t s' = Ok v s' /\ nz v = true.
Proof.
  intros Hg Hd Hnz t Ht. destruct (general_features_end enabled) as (front & Hf).
  rewrite Hf in Hg. apply block_app_ok in Hg as (s1 & _ & Hg). simpl in Hg. unfold bind in Hg.
  destruct (mtd_check s1) as [[] s2|] eqn:Em; [|done].
  destruct (cert_rule s2) as [[] s3|] eqn:Ec; [|done]. injection Hg as <-.
  apply mtd_check_ok in Em as (-> & d0 & Hd0 & Hall).
  pose proof (cert_rule_get enabled "CONFIG_RG_MTD_DEFAULT_PARTITION" _ _ Ec) as Hg.
  rewrite Hd0, Hd in Hg. specialize (Hg ltac:(done)). subst d0.
  destruct (Hall Hnz t Ht) as (v & Hv & Hn).
  pose proof (cert_rule_get enabled t _ _ Ec) as Hg. rewrite Hv in Hg.
  assert (Hne : t <> "CONFIG_RG_CERT_SHORT_LIST") by (intros ->; set_solver).
  specialize (Hg Hne). clear Hv Hd. rewrite token_get_eq in *.
  destruct (lookup_option _ t); [|done]. destruct (has_flag _ _); [done|].
  eexists. split; [reflexivity|]. by subst v.
Qed.

(** The board of the repository with the partition asked for, and the flash
    described, on the command line. *)
Definition mtd_command_line : list cmd_opt := [
  OptDist "TWINPASS"; OptHw "TWINPASS"; OptOs "LINUX_24";
  OptFeature "CONFIG_RG_MTD_DEFAULT_PARTITION=y"; OptFeature "CONFIG_RG_MTD=y";
  OptFeature "CONFIG_MTD_PHYSMAP_START=0xb0000000"; OptFeature "CONFIG_MTD_PHYSMAP_LEN=0x800000" ].
Definition mtd_state : cfg := final (handle_opt mtd_command_line init_state).

Lemma mtd_state_runs :
  match general_features (fun _ => true) mtd_state with
  | Ok _ s' => match token_get "CONFIG_RG_MTD_DEFAULT_PARTITION" s' with
               | Ok d _ => nz d
               | Exit _ _ => false
               end
  | Exit _ _ => false
  end = true.
Proof. vm_compute. reflexivity. Qed.

Lemma mtd_partition_complete_witness :
  exists s', general_features (fun _ => true) mtd_state = Ok tt s' /\
    forall t, t ∈ ["CONFIG_RG_MTD"; "CONFIG_MTD_PHYSMAP_START"; "CONFIG_MTD_PHYSMAP_LEN"] ->
    exists v, token_get t s' = Ok v s' /\ nz v = true.
Proof.
  pose proof mtd_state_runs as Hr.
  destruct (general_features (fun _ => true) mtd_state) as [[] s'|] eqn:Eg; [|discriminate Hr].
  rewrite token_get_eq in Hr. exists s'. split; [reflexivity|].
  apply (mtd_partition_complete (fun _ => true) mtd_state s'
    (default 0 (int_value <$> lookup_option (openrg_config_options s') "CONFIG_RG_MTD_DEFAULT_PARTITION")));
    [exact Eg | rewrite token_get_eq |];
    (destruct (lookup_option _ "CONFIG_RG_MTD_DEFAULT_PARTITION") as [o|]; [|discriminate Hr]);
    (destruct (has_flag _ _); [discriminate Hr|]); [reflexivity | exact Hr].
Defined.
