(* ===== verification/PackageProps.v ===== *)
(** * PackageProps: what a package turns on

    The contract of [package_features]: the product packages and the modules
    each of them promises, as a table; whenever a package is selected, every
    module of its row is on after the rules, unless the command line decided
    otherwise. *)
From S2P Require Import Prelude ConfigOpt Licence Rules Accesses FeatureConfig FeatureCover.
From S2P Require Import CreateConfig Discipline ConfigProps MtdCheck.

Definition package_modules : list (string * list string) := [
  ("PACKAGE_OPENRG_SOHO_GATEWAY",
    ["MODULE_RG_FOUNDATION"; "MODULE_RG_ADVANCED_MANAGEMENT"; "MODULE_RG_SNMP"; "MODULE_RG_UPNP";
     "MODULE_RG_ADVANCED_ROUTING"; "MODULE_RG_FIREWALL_AND_SECURITY";
     "MODULE_RG_WLAN_AND_ADVANCED_WLAN"; "MODULE_RG_PPTP"; "MODULE_RG_IPSEC"; "MODULE_RG_L2TP";
     "MODULE_RG_FILESERVER"; "MODULE_RG_PRINTSERVER"; "CONFIG_RG_SMB"]);
  ("PACKAGE_OPENRG_VPN_GATEWAY",
    ["MODULE_RG_FOUNDATION"; "MODULE_RG_ADVANCED_MANAGEMENT"; "MODULE_RG_SNMP"; "MODULE_RG_UPNP";
     "MODULE_RG_ADVANCED_ROUTING"; "MODULE_RG_FIREWALL_AND_SECURITY";
     "MODULE_RG_WLAN_AND_ADVANCED_WLAN"; "MODULE_RG_PPTP"; "MODULE_RG_IPSEC"; "MODULE_RG_L2TP"]);
  ("PACKAGE_OPENRG_SECURITY_GATEWAY",
    ["MODULE_RG_FOUNDATION"; "MODULE_RG_ADVANCED_MANAGEMENT"; "MODULE_RG_SNMP"; "MODULE_RG_UPNP";
     "MODULE_RG_ADVANCED_ROUTING"; "MODULE_RG_FIREWALL_AND_SECURITY";
     "MODULE_RG_WLAN_AND_ADVANCED_WLAN"]);
  ("PACKAGE_OPENRG_BASIC_GATEWAY",
    ["MODULE_RG_FOUNDATION"; "MODULE_RG_ADVANCED_MANAGEMENT"]) ].

(** On, or set by the command line. *)
Definition on_or_pinned (t : string) (s : cfg) : Prop :=
  exists o, lookup_option (openrg_config_options s) t = Some o /\
    (value o = Some "y" \/ SET_PRIO_TOKEN_SET < set_prio o).

(** Programs that turn options on and do nothing else to the database, to names
    outside [l]. *)
Definition only_turns_on (m : stmt) : Prop :=
  forall s t, on_or_pinned t s -> on_or_pinned t (final (m s)).
Definition leaves (l : list string) (m : stmt) : Prop :=
  forall s t, t ∈ l -> lookup_option (openrg_config_options (final (m s))) t =
                       lookup_option (openrg_config_options s) t.

Lemma token_set_y_turns_on f l t s s' : _token_set_y f l t s = Ok tt s' -> on_or_pinned t s'.
Proof.
  unfold _token_set_y. intros H.
  destruct (token_set_cases f l SET_PRIO_TOKEN_SET t "y" [] s)
    as [(e & He & _)|[(o & Hl & Hp & Hr)|
        (i & o & v & v' & s1 & Hi & Ho & <- & Hl & Hp & Hv & _ & Hst & Hr & Hw & _)]];
    rewrite ?He, ?Hr in H; [done| |].
  - injection H as <-. exists o. auto.
  - injection H as <-. injection Hv as <-. exists (option_assign o f l v' SET_PRIO_TOKEN_SET).
    rewrite Hw, (lookup_option_insert _ i o (option_assign o f l v' SET_PRIO_TOKEN_SET) _ Hi Ho eq_refl).
    rewrite decide_True by done. split; [done|]. left. simpl.
    destruct Hst as [->|([=] & _)]. done.
Qed.

Lemma written_on_or_pinned s s' f l v t o i :
  option_token_get_nofail (openrg_config_options s) (token o) = Some i ->
  openrg_config_options s !! i = Some o -> v = "y" ->
  written s i (option_assign o f l v SET_PRIO_TOKEN_SET) s' ->
  on_or_pinned t s -> on_or_pinned t s'.
Proof.
  intros Hi Ho -> (Hw & _) (o' & Hl & Hv). unfold on_or_pinned. rewrite Hw.
  rewrite (lookup_option_insert _ i o (option_assign o f l "y" SET_PRIO_TOKEN_SET) t Hi Ho eq_refl).
  case_decide; [|by exists o']. eexists. split; [reflexivity|]. by left.
Qed.

Lemma covered_turns_on enabled (m : stmt) `{!Covered enabled m} :
  (forall tbl a t v, a ∈ accesses enabled m -> writes tbl a t v -> v = "y") -> only_turns_on m.
Proof.
  intros Ha s t Hs.
  set (R := fun s1 s2 => on_or_pinned t s1 -> on_or_pinned t s2).
  assert (HR : PreOrder R) by (split; unfold R; [by intros ? | intros ?; eauto]).
  set (tbl := shape (openrg_config_options s)).
  assert (H : triple (fun s1 => shape (openrg_config_options s1) = tbl) R (fun _ => True) m).
  { eapply (covered_triple enabled tbl _ _ _ (fun _ v => v = "y")); [done| | |].
    - intros s1 s2 i o f l v Hs1 Hl Hi Ho _ Hmay Hw.
      split; [rewrite <- Hs1; by eapply written_shape|]. intros H1.
      by eapply written_on_or_pinned.
    - intros s1 s2 Hs1 Heq _. unfold R, on_or_pinned. by rewrite Heq.
    - apply Forall_forall. intros a Hin. split; [done|]. intros t' v Hw. by eapply Ha. }
  specialize (H s eq_refl). destruct (m s); unfold R in H; naive_solver.
Qed.

Lemma covered_leaves enabled (m : stmt) `{!Covered enabled m} l :
  (forall tbl a t v, a ∈ accesses enabled m -> t ∈ l -> ~ writes tbl a t v) -> leaves l m.
Proof. intros Ha s t Ht. apply (option_untouched enabled m). intros a v Hin. by apply Ha. Qed.

(** An [if] on a package in the middle of a block. *)
Lemma package_turns_on front pkg body back t s s' v :
  block (front ++ If (isset pkg) body :: back)%list s = Ok tt s' ->
  token_get pkg s = Ok v s -> nz v = true ->
  leaves [pkg] (block front) -> only_turns_on (block back) ->
  (forall s1 s2, block body s1 = Ok tt s2 -> on_or_pinned t s2) ->
  on_or_pinned t s'.
Proof.
  intros Hrun Hget Hnz Hfront Hback Hbody.
  apply block_app_ok in Hrun as (s1 & H1 & Hrun). cbn [block] in Hrun. unfold bind at 1 in Hrun.
  assert (Hget1 : token_get pkg s1 = Ok v s1).
  { specialize (Hfront s pkg ltac:(set_solver)). rewrite H1 in Hfront. cbn [final] in Hfront.
    rewrite token_get_eq in *. rewrite Hfront. destruct (lookup_option _ pkg); [|done].
    destruct (has_flag _ _); [done|]. by injection Hget as ->. }
  unfold If, IfElse in Hrun. unfold bind at 1 in Hrun. unfold isset, bind at 1 in Hrun.
  rewrite Hget1 in Hrun. unfold ret at 1 in Hrun. rewrite Hnz in Hrun.
  destruct (block body s1) as [[] s2|] eqn:Eb; [|done]. apply Hbody in Eb.
  specialize (Hback s2 t Eb). by rewrite Hrun in Hback.
Qed.

Lemma body_turns_on b1 f l t b2 s s' :
  only_turns_on (block b2) -> block (b1 ++ _token_set_y f l t :: b2)%list s = Ok tt s' ->
  on_or_pinned t s'.
Proof.
  intros Hb2 Hrun. apply block_app_ok in Hrun as (s1 & _ & Hrun). cbn [block] in Hrun.
  unfold bind in Hrun. destruct (_token_set_y f l t s1) as [[] s2|] eqn:Ey; [|done].
  apply token_set_y_turns_on in Ey. specialize (Hb2 s2 t Ey). by rewrite Hrun in Hb2.
Qed.

(** ** The checks on access lists *)
Definition turns_on_access (a : access) : bool :=
  match a with AGet _ => true | ASet _ v => (v =? "y")%string | _ => false end.
Definition leaves_access (l : list string) (a : access) : bool :=
  match a with AGet _ => true | ASet t _ => negb (mem t l) | _ => false end.

Lemma turns_on_check enabled l (m : stmt) :
  covers enabled l m -> forallb turns_on_access l = true -> only_turns_on m.
Proof.
  intros Hc Hl. pose (C := {| accesses := l; accesses_cover := Hc |}).
  apply (covered_turns_on enabled m). intros tbl a t v Ha Hw. cbn in Ha.
  rewrite forallb_forall in Hl. apply list_elem_of_In, Hl in Ha.
  destruct a; try done. simpl in Ha. bool_to_prop. subst v0.
  destruct Hw as (_ & w & [= ->] & [->|[_ ->]]); done.
Qed.
Lemma leaves_check enabled acc l (m : stmt) :
  covers enabled acc m -> forallb (leaves_access l) acc = true -> leaves l m.
Proof.
  intros Hc Hl. pose (C := {| accesses := acc; accesses_cover := Hc |}).
  apply (covered_leaves enabled m). intros tbl a t v Ha Ht Hw. cbn in Ha.
  rewrite forallb_forall in Hl. apply list_elem_of_In, Hl in Ha.
  destruct a; try done. simpl in Ha, Hw. destruct Hw as (-> & _).
  apply negb_true_iff in Ha. apply mem_elem in Ht. congruence.
Qed.

(** One row: [k] is the place of the package's [if]. *)
Ltac row_front k :=
  eapply (leaves_check (fun _ => true)); [walk | reflexivity].
Ltac row_back :=
  eapply (turns_on_check (fun _ => true)); [walk | reflexivity].
Ltac module_in n :=
  match goal with
  | |- forall s1 s2, block ?body s1 = Ok tt s2 -> on_or_pinned ?t s2 =>
      intros s1 s2 Hb;
      let b1 := eval cbv [take] in (take n body) in
      let b2 := eval cbv [drop] in (drop (S n) body) in
      match eval cbv [nth_error] in (nth_error body n) with
      | Some (_token_set_y ?f ?l t) =>
          apply (body_turns_on b1 f l t b2 s1 s2); [row_back | exact Hb]
      end
  end.
Ltac module_body :=
  first [module_in 0%nat | module_in 1%nat | module_in 2%nat | module_in 3%nat | module_in 4%nat
        | module_in 5%nat | module_in 6%nat | module_in 7%nat | module_in 8%nat | module_in 9%nat
        | module_in 10%nat | module_in 11%nat | module_in 12%nat ].
Ltac package_row k :=
  let l := eval cbv [package_features_1] in package_features_1 in
  let front := eval cbv [take] in (take k l) in
  let back := eval cbv [drop] in (drop (S k) l) in
  match eval cbv [nth_error] in (nth_error l k) with
  | Some (If (isset ?pkg) ?body) =>
      intros Hrun Hget Hnz;
      apply (package_turns_on front pkg body back _ _ _ _ Hrun Hget Hnz); [row_front k | row_back | module_body]
  end.

(** For each of the four product packages: when it is selected and the package rules
    return, every module of its row of package_modules is on, or was decided by the command
    line. *)
Theorem package_features_enable s s' pkg mods m v :
  (pkg, mods) ∈ package_modules -> m ∈ mods ->
  token_get pkg s = Ok v s -> nz v = true -> package_features s = Ok tt s' ->
  on_or_pinned m s'.
Proof.
  intros Hpkg Hm Hget Hnz Hrun. revert Hrun Hget Hnz. unfold package_features.
  unfold package_modules in Hpkg.
  apply elem_of_cons in Hpkg as [[= -> ->]|Hpkg].
  { repeat (apply elem_of_cons in Hm as [->|Hm]; [package_row 0%nat|]). by apply elem_of_nil in Hm. }
  apply elem_of_cons in Hpkg as [[= -> ->]|Hpkg].
  { repeat (apply elem_of_cons in Hm as [->|Hm]; [package_row 1%nat|]). by apply elem_of_nil in Hm. }
  apply elem_of_cons in Hpkg as [[= -> ->]|Hpkg].
  { repeat (apply elem_of_cons in Hm as [->|Hm]; [package_row 2%nat|]). by apply elem_of_nil in Hm. }
  apply elem_of_cons in Hpkg as [[= -> ->]|Hpkg].
  { repeat (apply elem_of_cons in Hm as [->|Hm]; [package_row 3%nat|]). by apply elem_of_nil in Hm. }
  by apply elem_of_nil in Hpkg.
Qed.

Definition vpn_state : cfg :=
  final (add_feature_parse "PACKAGE_OPENRG_VPN_GATEWAY=y" init_state).

Lemma vpn_state_runs : outcome (package_features vpn_state) = None.
Proof. vm_compute. reflexivity. Qed.
Definition vpn_row : option_t :=
  mk_option "PACKAGE_OPENRG_VPN_GATEWAY" (Some "y") OPT_NONE None (Some CREATE_CONFIG_C) 100
    SET_PRIO_CMD_LINE.
Lemma vpn_state_row :
  lookup_option (openrg_config_options vpn_state) "PACKAGE_OPENRG_VPN_GATEWAY" = Some vpn_row.
Proof. vm_compute. reflexivity. Qed.
Lemma vpn_state_get : token_get "PACKAGE_OPENRG_VPN_GATEWAY" vpn_state = Ok 1 vpn_state.
Proof. rewrite token_get_eq, vpn_state_row. reflexivity. Qed.

Lemma package_features_enable_witness :
  exists s', package_features vpn_state = Ok tt s' /\ on_or_pinned "MODULE_RG_IPSEC" s'.
Proof.
  pose proof vpn_state_runs as Hr.
  destruct (package_features vpn_state) as [[] s'|] eqn:Ep; [|discriminate Hr].
  exists s'. split; [reflexivity|].
  apply (package_features_enable vpn_state s' "PACKAGE_OPENRG_VPN_GATEWAY"
    (nth 1 package_modules ("", [])).2 "MODULE_RG_IPSEC" 1);
    [ by apply (list_elem_of_lookup_2 _ 1) | by apply (list_elem_of_lookup_2 _ 8)
    | exact vpn_state_get | reflexivity | exact Ep ].
Defined.
