(* ===== verification/OutputProps.v ===== *)
(** * OutputProps: what the printed files say

    Readers of rg_config.mk and rg_config.h get back what the options of the declared
    array hold, the two files agree on which y/n options are on, for an option that goes to
    both, and the printing phase stops exactly on an option whose value its type does not
    allow. *)
From S2P Require Import Prelude Text ConfigOpt OptionTable Output ConfigProps MainProps.

(** ** Reading the files back *)
Definition is_blank (c : Ascii.ascii) : bool := Ascii.eqb c " " || Ascii.eqb c "009".
Definition nonblank (c : Ascii.ascii) : bool := negb (is_blank c).
(** Without the blanks in front, without those behind. *)
Definition ltrim (s : string) : string := (span is_blank s).2.
Fixpoint rtrim (s : string) : string :=
  match s with
  | EmptyString => EmptyString
  | String c s' => let t := rtrim s' in if is_blank c && (t =? "")%string then EmptyString else String c t
  end.
Definition trim (s : string) : string := rtrim (ltrim s).

(** What make takes from a line: what follows # is a comment; a line without [=] defines
    nothing; [export] and [override] come before the name; the blanks around the name and
    those in front of the value do not count. *)
Definition uncomment (l : string) : string := (span (fun c => negb (Ascii.eqb c "#")) l).1.
Definition read_mk_line (l : string) : option (string * string) :=
  '(lhs, v) ← split_at "=" (uncomment l);
  Some (trim (default (default lhs (strip_prefix "override " lhs)) (strip_prefix "export " lhs)), ltrim v).
Definition read_mk (s : string) : list (string * string) := omap read_mk_line (lines s).

(** [#define NAME VALUE]: the name ends at a blank, the blanks around the value do not count. *)
Definition read_h_line (l : string) : option (string * string) :=
  r ← strip_prefix "#define " l;
  let (n, v) := span nonblank r in
  if (v =? "")%string then None else Some (n, trim v).
Definition read_h (s : string) : list (string * string) := omap read_h_line (lines s).

(** ** What the options say *)
(** The name, without blanks behind it: config_opt.c:1754 declares one that ends in a blank. *)
Definition option_name (o : option_t) : string := rtrim (token o).
Definition typed_text (ty : Z) : bool := has_flag ty (Z.lor (Z.lor OPT_STR OPT_C_STR) OPT_NUMBER).
Definition value_on (o : option_t) : bool :=
  match value o with Some v => is_y_m v | None => false end.

Definition mk_defines (o : option_t) : list (string * string) :=
  if value_on o || typed_text (otype o)
  then match value o with Some v => [(option_name o, ltrim v)] | None => [] end
  else if set_prio o =? SET_PRIO_CMD_LINE then [(option_name o, "")] else [].

Definition hc_value (o : option_t) : string :=
  if has_flag (otype o) (Z.lor OPT_STR OPT_C_STR) then
    match value o with Some v => quote_of (otype o) +:+ v +:+ quote_of (otype o) | None => "NULL" end
  else if has_flag (otype o) OPT_NUMBER then default "0" (value o)
  else if value_on o then "1" else "0".

Definition feature_on (o : option_t) : bool :=
  match value o with Some v => negb (v =? "n")%string | None => false end.
Definition starts_m (o : option_t) : bool :=
  match value o with Some (String c _) => Ascii.eqb c "m" | _ => false end.

Definition h_defines (o : option_t) : list (string * string) :=
  (if has_flag (otype o) OPT_HC then [("c" +:+ option_name o, trim (hc_value o))] else []) ++
  (if has_flag (otype o) OPT_MODULE_EXPAND then
     ("c" +:+ option_name o +:+ FEATURE_EXPANSION, if feature_on o then "1" else "0") ::
     (if feature_on o
      then [(option_name o +:+ FEATURE_EXPANSION, "1");
            (option_name o +:+ (if starts_m o then MODULE_EXPANSION else ""), "1")]
      else [])
   else match value o with
        | None => []
        | Some v =>
            if h_is_y_m (otype o)
            then if is_y_m v then [(option_name o, trim (quote_of (otype o) +:+ "1" +:+ quote_of (otype o)))] else []
            else [(option_name o, trim (quote_of (otype o) +:+ v +:+ quote_of (otype o)))]
        end)%list.

(** Names that make and the compiler read as names: no blank inside, and none behind the name
    of an option whose name is lengthened. *)
Definition name_char (c : Ascii.ascii) : bool :=
  negb (Ascii.eqb c "=" || is_blank c || Ascii.eqb c "#" || is_nl c).
Definition no_prefix (p s : string) : bool := match strip_prefix p s with Some _ => false | None => true end.
Definition good_name (t : string) (ty : Z) : bool :=
  negb (rtrim t =? "")%string && all_chars name_char (rtrim t) &&
  no_prefix "export " t && no_prefix "override " t &&
  ((rtrim t =? t)%string || negb (has_flag ty OPT_MODULE_EXPAND)).
(** Values and file names of one line, the values without comments. *)
Definition value_char (c : Ascii.ascii) : bool := negb (is_nl c || Ascii.eqb c "#" || Ascii.eqb c "\").
Definition one_line (o : option_t) : bool :=
  all_chars value_char (default "" (value o)) && no_nl (default "" (file o)).

(** ** Blanks *)
Lemma rtrim_split s : exists b, s = rtrim s +:+ b /\ all_chars is_blank b = true.
Proof.
  induction s as [|c s (b & Hs & Hb)]; [by exists ""|]. cbn [rtrim].
  destruct (is_blank c) eqn:Ec; cbn [andb]; [destruct (rtrim s =? "")%string eqn:Er|].
  - apply String.eqb_eq in Er. rewrite Er in Hs. exists (String c b). split; [by rewrite Hs at 1|]. cbn. by rewrite Ec.
  - exists b. split; [by rewrite Hs at 1|done].
  - exists b. split; [by rewrite Hs at 1|done].
Qed.
Lemma rtrim_blank b : all_chars is_blank b = true -> rtrim b = "".
Proof. induction b as [|c b IH]; [done|]. cbn. intros H. bool_to_prop. by rewrite IH, H. Qed.
Lemma rtrim_name t b : all_chars nonblank t = true -> all_chars is_blank b = true -> rtrim (t +:+ b) = t.
Proof.
  intros Ht Hb. induction t as [|c t IH]; [by apply rtrim_blank|]. cbn in Ht |- *. bool_to_prop.
  unfold nonblank in H. bool_to_prop. by rewrite IH, H.
Qed.
Lemma ltrim_name t b : t <> "" -> all_chars nonblank t = true -> ltrim (t +:+ b) = t +:+ b.
Proof.
  destruct t as [|c t]; [done|]. intros _ Ht. cbn in Ht. unfold nonblank in Ht. bool_to_prop.
  unfold ltrim. cbn. by rewrite H.
Qed.
Lemma trim_name t b : t <> "" -> all_chars nonblank t = true -> all_chars is_blank b = true -> trim (t +:+ b) = t.
Proof. intros Hne Ht Hb. unfold trim. rewrite ltrim_name by done. by apply rtrim_name. Qed.
Lemma ltrim_blanks b s : all_chars is_blank b = true -> ltrim (b +:+ s) = ltrim s.
Proof.
  intros Hb. induction b as [|c b IH]; [done|]. cbn in Hb. bool_to_prop. rewrite <- IH by done.
  unfold ltrim. cbn. rewrite H. by destruct (span is_blank (b +:+ s)).
Qed.
Lemma span_word t b s :
  all_chars nonblank t = true -> all_chars is_blank b = true -> b <> "" ->
  span nonblank (t +:+ b +:+ s) = (t, b +:+ s).
Proof.
  intros Ht Hb Hne. induction t as [|c t IH].
  - destruct b as [|c b]; [done|]. cbn in Hb |- *. bool_to_prop. unfold nonblank. by rewrite H.
  - cbn in Ht |- *. bool_to_prop. by rewrite H, IH.
Qed.

Section Lines.
Lemma read_mk_cons l r : no_nl l = true ->
  read_mk (l +:+ nl +:+ r) = (option_list (read_mk_line l) ++ read_mk r)%list.
Proof. intros Hl. unfold read_mk. rewrite lines_line by done. simpl. by destruct (read_mk_line l). Qed.
Lemma read_h_cons l r : no_nl l = true ->
  read_h (l +:+ nl +:+ r) = (option_list (read_h_line l) ++ read_h r)%list.
Proof. intros Hl. unfold read_h. rewrite lines_line by done. simpl. by destruct (read_h_line l). Qed.
End Lines.

(** ** A name as printed *)
(** [token o] is the name and the blanks [b]. *)
Record printed (o : option_t) (b : string) : Prop := {
  printed_token : token o = option_name o +:+ b;
  printed_blank : all_chars is_blank b = true;
  printed_ne : option_name o <> "";
  printed_name : all_chars name_char (option_name o) = true;
  printed_export : strip_prefix "export " (token o) = None;
  printed_override : strip_prefix "override " (token o) = None;
  printed_expand : has_flag (otype o) OPT_MODULE_EXPAND = true -> b = "";
  printed_value : all_chars value_char (default "" (value o)) = true;
  printed_file : no_nl (default "" (file o)) = true }.

Definition printable (o : option_t) : bool := good_name (token o) (otype o) && one_line o.
Lemma printable_parts o : printable o = true -> exists b, printed o b.
Proof.
  unfold printable, good_name, one_line, no_prefix. intros H. bool_to_prop.
  destruct (rtrim_split (token o)) as (b & Ht & Hb). exists b. split; try done.
  - by destruct (strip_prefix "export " _).
  - by destruct (strip_prefix "override " _).
  - intros Hx. rewrite Hx, orb_false_r in *. bool_to_prop.
    apply (f_equal String.length) in Ht. rewrite length_append in Ht.
    match goal with H : rtrim (token o) = token o |- _ => rewrite H in Ht end. destruct b; [done|cbn in Ht; lia].
Qed.

Lemma name_char_parts c : name_char c = true ->
  Ascii.eqb c "=" = false /\ is_blank c = false /\ Ascii.eqb c "#" = false /\ is_nl c = false.
Proof.
  unfold name_char. destruct (Ascii.eqb c "="), (is_blank c), (Ascii.eqb c "#"), (is_nl c); by split_and?.
Qed.
Lemma value_char_parts c : value_char c = true -> is_nl c = false /\ Ascii.eqb c "#" = false.
Proof. unfold value_char. by destruct (is_nl c), (Ascii.eqb c "#"). Qed.
Lemma blank_char (p : Ascii.ascii -> bool) c : p " "%char = true -> p "009"%char = true -> is_blank c = true -> p c = true.
Proof. intros H1 H2. unfold is_blank. by intros [->%Ascii.eqb_eq| ->%Ascii.eqb_eq]%orb_true_iff. Qed.

Section Printed.
Context (o : option_t) (b : string) (Ho : printed o b).

Lemma name_avoid (p : Ascii.ascii -> bool) :
  (forall c, name_char c = true -> p c = true) -> all_chars p (option_name o) = true.
Proof. intros Hp. eapply all_chars_impl; [exact Hp|apply Ho]. Qed.
Lemma token_avoid (p : Ascii.ascii -> bool) :
  (forall c, name_char c = true -> p c = true) -> (forall c, is_blank c = true -> p c = true) ->
  all_chars p (token o) = true.
Proof.
  intros Hp Hb. rewrite (printed_token _ _ Ho), all_chars_app, name_avoid by done.
  eapply all_chars_impl; [exact Hb|apply Ho].
Qed.
Lemma name_nonblank : all_chars nonblank (option_name o) = true.
Proof. apply name_avoid. intros c (_ & Hc & _)%name_char_parts. unfold nonblank. by rewrite Hc. Qed.
Lemma token_no_nl : no_nl (token o) = true.
Proof. apply token_avoid; intros c Hc; [by apply name_char_parts in Hc as (_ & _ & _ & ->)|by apply (blank_char (fun x => negb (is_nl x))) in Hc]. Qed.
Lemma token_no_eq : all_chars (fun x => negb (Ascii.eqb x "=")) (token o) = true.
Proof. apply token_avoid; intros c Hc; [by apply name_char_parts in Hc as (-> & _)|by apply (blank_char (fun x => negb (Ascii.eqb x "="))) in Hc]. Qed.
Lemma token_no_hash : all_chars (fun x => negb (Ascii.eqb x "#")) (token o) = true.
Proof. apply token_avoid; intros c Hc; [by apply name_char_parts in Hc as (_ & _ & -> & _)|by apply (blank_char (fun x => negb (Ascii.eqb x "#"))) in Hc]. Qed.
Lemma token_trim : trim (token o) = option_name o.
Proof. rewrite (printed_token _ _ Ho). apply trim_name; [apply Ho|apply name_nonblank|apply Ho]. Qed.
Lemma value_no_nl v : value o = Some v -> no_nl v = true.
Proof.
  intros Hv. pose proof (printed_value _ _ Ho) as H. rewrite Hv in H. eapply all_chars_impl; [|exact H].
  intros c Hc. cbv beta. by destruct (value_char_parts c Hc) as [H1 H2]; rewrite ?H1, ?H2.
Qed.
Lemma value_no_hash v : value o = Some v -> all_chars (fun x => negb (Ascii.eqb x "#")) v = true.
Proof.
  intros Hv. pose proof (printed_value _ _ Ho) as H. rewrite Hv in H. eapply all_chars_impl; [|exact H].
  intros c Hc. cbv beta. by destruct (value_char_parts c Hc) as [H1 H2]; rewrite ?H1, ?H2.
Qed.

(** ** The makefile *)
Lemma read_mk_definition p v :
  p ∈ [""; "export "; "override "] -> all_chars (fun x => negb (Ascii.eqb x "#")) v = true ->
  read_mk_line (p +:+ token o +:+ "=" +:+ v) = Some (option_name o, ltrim v).
Proof.
  intros Hp Hv.
  assert (Hc : all_chars (fun x => negb (Ascii.eqb x "#")) p = true /\ all_chars (fun x => negb (Ascii.eqb x "=")) p = true).
  { repeat (apply elem_of_cons in Hp as [->|Hp]; [done|]). by apply elem_of_nil in Hp. }
  destruct Hc as [Hc1 Hc2]. unfold read_mk_line, uncomment.
  rewrite span_all by (by rewrite !all_chars_app, Hc1, token_no_hash, Hv). cbn [fst].
  rewrite <- append_assoc. change ("=" +:+ v) with (String "=" v).
  rewrite split_at_app by (by rewrite all_chars_app, Hc2, token_no_eq). cbn [mbind option_bind].
  do 2 f_equal. rewrite <- token_trim. f_equal.
  apply elem_of_cons in Hp as [->|Hp]; [by cbn [String.append]; rewrite (printed_export _ _ Ho), (printed_override _ _ Ho)|].
  apply elem_of_cons in Hp as [->|Hp]; [by rewrite strip_prefix_app|].
  apply list_elem_of_singleton in Hp as ->. change (strip_prefix "export " _) with (@None string).
  by rewrite (strip_prefix_app "override ").
Qed.

Lemma read_mk_export : read_mk_line ("export " +:+ token o) = None.
Proof.
  unfold read_mk_line, uncomment. rewrite span_all by (by rewrite all_chars_app, token_no_hash).
  cbn [fst]. unfold split_at. rewrite span_all by (by rewrite all_chars_app, token_no_eq). done.
Qed.
Lemma read_mk_comment s : read_mk_line ("# " +:+ s) = None.
Proof. done. Qed.

(** The line of a value, and the comment in front of it. *)
Lemma read_mk_value v r : value o = Some v ->
  read_mk ((if has_flag (otype o) OPT_EXPORT then "export " else "") +:+ token o +:+ "=" +:+ v +:+ nl +:+ r) =
  ((option_name o, ltrim v) :: read_mk r)%list.
Proof.
  intros Hv. set (p := if has_flag (otype o) OPT_EXPORT then "export " else "").
  replace (p +:+ token o +:+ "=" +:+ v +:+ nl +:+ r)
    with ((p +:+ token o +:+ "=" +:+ v) +:+ nl +:+ r) by (by rewrite !append_assoc).
  rewrite read_mk_cons by (rewrite !no_nl_app, token_no_nl, (value_no_nl v Hv); by destruct (has_flag _ _)).
  rewrite read_mk_definition; [done| |by apply value_no_hash].
  unfold p. destruct (has_flag _ _); set_solver.
Qed.
Lemma read_mk_disabled r :
  read_mk ("override " +:+ token o +:+ "=" +:+ nl +:+
    (if has_flag (otype o) OPT_EXPORT then "export " +:+ token o +:+ nl else "") +:+ r) =
  ((option_name o, "") :: read_mk r)%list.
Proof.
  set (x := (if has_flag _ _ then _ else "") +:+ r).
  replace ("override " +:+ token o +:+ "=" +:+ nl +:+ x)
    with (("override " +:+ token o +:+ "=" +:+ "") +:+ nl +:+ x) by (by rewrite !append_assoc).
  rewrite read_mk_cons by (by rewrite !no_nl_app, token_no_nl).
  rewrite read_mk_definition by (done || set_solver). cbn [option_list app]. f_equal.
  unfold x. destruct (has_flag _ OPT_EXPORT); [|done].
  replace (("export " +:+ token o +:+ nl) +:+ r) with (("export " +:+ token o) +:+ nl +:+ r)
    by (by rewrite !append_assoc).
  rewrite read_mk_cons by (by rewrite no_nl_app, token_no_nl). by rewrite read_mk_export.
Qed.

Lemma read_mk_option r : read_mk (print_mk_option o +:+ r) = (mk_defines o ++ read_mk r)%list.
Proof.
  unfold print_mk_option, mk_defines, typed_text, value_on.
  set (y := match value o with Some v => is_y_m v | None => false end).
  destruct (negb y && negb (has_flag (otype o) _)) eqn:E.
  - bool_to_prop. rewrite H, H0. cbn [orb]. destruct (set_prio o =? SET_PRIO_CMD_LINE); [|done].
    rewrite !append_assoc, read_mk_cons by done. by rewrite read_mk_disabled.
  - assert (Hor : y || has_flag (otype o) (Z.lor (Z.lor OPT_STR OPT_C_STR) OPT_NUMBER) = true).
    { by destruct y, (has_flag _ _). }
    rewrite Hor. destruct (value o) as [v|] eqn:Ev; [|done].
    rewrite !append_assoc. destruct (set_prio o =? SET_PRIO_CMD_LINE).
    { rewrite append_assoc, read_mk_cons by done. by rewrite (read_mk_value v). }
    pose proof (printed_file _ _ Ho) as Hf. destruct (file o) as [f|].
    + cbn [default from_option id] in Hf. rewrite !append_assoc.
      match goal with |- context [?a +:+ f +:+ ":" +:+ print_int ?l +:+ nl +:+ ?rest] =>
        replace (a +:+ f +:+ ":" +:+ print_int l +:+ nl +:+ rest)
          with (("# " +:+ (f +:+ ":" +:+ print_int l)) +:+ nl +:+ rest) by (by rewrite !append_assoc)
      end.
      rewrite read_mk_cons by (by rewrite !no_nl_app, Hf, print_int_no_nl).
      rewrite read_mk_comment. by rewrite (read_mk_value v).
    + rewrite append_assoc, read_mk_cons by done. by rewrite (read_mk_value v).
Qed.
End Printed.

(** ** The header *)
Lemma read_h_define t b v r :
  all_chars nonblank t = true -> no_nl t = true -> all_chars is_blank b = true -> no_nl b = true -> no_nl v = true ->
  read_h ("#define " +:+ t +:+ b +:+ " " +:+ v +:+ nl +:+ r) = ((t, trim v) :: read_h r)%list.
Proof.
  intros Ht Htn Hb Hbn Hv.
  replace ("#define " +:+ t +:+ b +:+ " " +:+ v +:+ nl +:+ r)
    with (("#define " +:+ (t +:+ (b +:+ " ") +:+ v)) +:+ nl +:+ r) by (by rewrite !append_assoc).
  rewrite read_h_cons by (by rewrite !no_nl_app, Htn, Hbn, Hv).
  unfold read_h_line. rewrite strip_prefix_app. cbn [mbind option_bind].
  rewrite span_word; [|done|by rewrite all_chars_app, Hb|by destruct b].
  assert (Hne : ((b +:+ " ") +:+ v =? "")%string = false) by (by destruct b). rewrite Hne.
  unfold trim. by rewrite ltrim_blanks by (by rewrite all_chars_app, Hb).
Qed.

Lemma read_h_extern t r : no_nl t = true -> read_h ("extern " +:+ t +:+ nl +:+ r) = read_h r.
Proof.
  intros Ht. replace ("extern " +:+ t +:+ nl +:+ r) with (("extern " +:+ t) +:+ nl +:+ r)
    by (by rewrite !append_assoc).
  rewrite read_h_cons by (by rewrite no_nl_app, Ht). done.
Qed.

Lemma read_h_ref b o r : no_nl (default "" (file o)) = true ->
  read_h (print_ref b o +:+ r) = read_h r.
Proof.
  intros Hf. unfold print_ref. destruct b; [done|].
  destruct (set_prio o =? SET_PRIO_CMD_LINE).
  { rewrite append_assoc, read_h_cons by done. done. }
  destruct (nz (line o)); [|by change (nl +:+ r) with ("" +:+ nl +:+ r); rewrite read_h_cons].
  assert (Hd : no_nl (default "(null)" (file o)) = true) by (by destruct (file o)).
  set (f := default "(null)" (file o)) in *.
  replace (("/* " +:+ f +:+ ":" +:+ print_int (line o) +:+ " */" +:+ nl) +:+ r)
    with (("/* " +:+ f +:+ ":" +:+ print_int (line o) +:+ " */") +:+ nl +:+ r)
    by (by rewrite !append_assoc).
  rewrite read_h_cons by (by rewrite !no_nl_app, Hd, print_int_no_nl). done.
Qed.

Lemma quote_no_nl ty : no_nl (quote_of ty) = true.
Proof. unfold quote_of. by destruct (has_flag _ _). Qed.

Lemma h_is_y_m_else ty :
  has_flag ty (Z.lor OPT_STR OPT_C_STR) = false -> has_flag ty OPT_NUMBER = false ->
  h_is_y_m ty = true.
Proof.
  intros H1 H2. unfold h_is_y_m. apply orb_true_iff. right. apply negb_true_iff.
  unfold has_flag, nz in *. apply negb_false_iff, Z.eqb_eq in H1, H2. apply negb_false_iff, Z.eqb_eq.
  rewrite !Z.land_lor_distr_r in *. apply Z.lor_eq_0_iff in H1 as [H1 H3].
  by rewrite H1, H2, H3.
Qed.

Section PrintedH.
Context (o : option_t) (b : string) (Ho : printed o b).

(** A definition of the name, with a letter in front or not. *)
Lemma read_h_token c v r : all_chars nonblank c = true -> no_nl c = true -> no_nl v = true ->
  read_h ("#define " +:+ c +:+ token o +:+ " " +:+ v +:+ nl +:+ r) = ((c +:+ option_name o, trim v) :: read_h r)%list.
Proof.
  intros Hc Hcn Hv. pose proof (token_no_nl o b Ho) as Hn. rewrite (printed_token _ _ Ho) in Hn |- *.
  rewrite no_nl_app in Hn. bool_to_prop. rewrite append_assoc, <- (append_assoc c).
  apply read_h_define; [|by rewrite no_nl_app, Hcn|apply Ho|done|done].
  by rewrite all_chars_app, Hc, (name_nonblank o b Ho).
Qed.
(** One of a longer name. *)
Lemma read_h_longer c e v r :
  has_flag (otype o) OPT_MODULE_EXPAND = true -> all_chars nonblank c = true -> no_nl c = true ->
  all_chars nonblank e = true -> no_nl e = true -> no_nl v = true ->
  read_h ("#define " +:+ c +:+ token o +:+ e +:+ " " +:+ v +:+ nl +:+ r) =
  ((c +:+ option_name o +:+ e, trim v) :: read_h r)%list.
Proof.
  intros Hx Hc Hcn He Hen Hv. pose proof (token_no_nl o b Ho) as Hn.
  rewrite (printed_token _ _ Ho), (printed_expand _ _ Ho Hx), append_nil_r in Hn |- *.
  rewrite <- (append_assoc (option_name o)), <- (append_assoc c). change (" " +:+ ?y) with ("" +:+ " " +:+ y).
  apply read_h_define; try done.
  - by rewrite !all_chars_app, Hc, (name_nonblank o b Ho), He.
  - by rewrite !no_nl_app, Hcn, Hn, Hen.
Qed.

Lemma read_h_own e r :
  has_flag (otype o) OPT_MODULE_EXPAND = true -> all_chars nonblank e = true -> no_nl e = true ->
  read_h ("#define " +:+ token o +:+ e +:+ " 1" +:+ nl +:+ r) = ((option_name o +:+ e, "1") :: read_h r)%list.
Proof. intros Hx He Hn. by apply (read_h_longer "" e "1"). Qed.

Lemma hc_value_no_nl : no_nl (hc_value o) = true.
Proof.
  pose proof (value_no_nl o b Ho) as Hv. unfold hc_value, value_on.
  destruct (value o) as [v|]; cbn [default from_option id] in *;
    repeat destruct_match; rewrite ?no_nl_app, ?quote_no_nl; try done; by rewrite Hv.
Qed.
Lemma read_h_hc r :
  read_h ((print_hc o).1 +:+ r) = (("c" +:+ option_name o, trim (hc_value o)) :: read_h r)%list.
Proof.
  unfold print_hc. cbn [fst].
  set (ty := otype o). set (is_int := negb (has_flag ty (Z.lor OPT_STR OPT_C_STR))).
  match goal with |- context ["#define c" +:+ token o +:+ " " +:+ ?w +:+ nl +:+ _] =>
    assert (Hw : w = hc_value o) end.
  { unfold is_int, hc_value, ty. rewrite negb_involutive.
    destruct (has_flag (otype o) (Z.lor OPT_STR OPT_C_STR)) eqn:E1; [done|].
    destruct (has_flag (otype o) OPT_NUMBER) eqn:E2; [done|].
    rewrite (h_is_y_m_else _ E1 E2). unfold value_on. by destruct (value o). }
  rewrite Hw, !append_assoc, read_h_ref by apply Ho.
  change ("#define c" +:+ ?x) with ("#define " +:+ ("c" +:+ x)).
  rewrite read_h_token by (done || apply hc_value_no_nl). f_equal.
  replace ((if is_int then "int " else "char *") +:+ "vc" +:+ token o +:+ ";" +:+ nl +:+ r)
    with (((if is_int then "int " else "char *") +:+ "vc" +:+ token o +:+ ";") +:+ nl +:+ r)
    by (by rewrite !append_assoc).
  apply read_h_extern. rewrite !no_nl_app, (token_no_nl o b Ho). by destruct is_int.
Qed.
Lemma read_h_hc_part r :
  read_h ((if has_flag (otype o) OPT_HC then print_hc o else ("", "")).1 +:+ r) =
  ((if has_flag (otype o) OPT_HC then [("c" +:+ option_name o, trim (hc_value o))] else []) ++ read_h r)%list.
Proof. destruct (has_flag (otype o) OPT_HC); [by rewrite read_h_hc | done]. Qed.

(** The _FEATURE part of an option that can be a module. *)
Lemma read_h_feature bit r : has_flag (otype o) OPT_MODULE_EXPAND = true -> bit ∈ ["0"; "1"] ->
  read_h ("#define c" +:+ token o +:+ FEATURE_EXPANSION +:+ " " +:+ bit +:+ nl +:+
    "extern int vc" +:+ token o +:+ FEATURE_EXPANSION +:+ ";" +:+ nl +:+ r) =
  (("c" +:+ option_name o +:+ FEATURE_EXPANSION, bit) :: read_h r)%list.
Proof.
  intros Hx Hb. assert (Hbit : no_nl bit = true /\ trim bit = bit).
  { repeat (apply elem_of_cons in Hb as [->|Hb]; [done|]). by apply elem_of_nil in Hb. }
  destruct Hbit as [Hbn Ht]. change ("#define c" +:+ ?y) with ("#define " +:+ ("c" +:+ y)).
  rewrite read_h_longer, Ht by done. f_equal.
  change ("extern int vc" +:+ ?y) with ("extern " +:+ ("int vc" +:+ y)).
  rewrite <- !(append_assoc "int vc"), <- (append_assoc _ FEATURE_EXPANSION), <- (append_assoc _ ";").
  apply read_h_extern. by rewrite !no_nl_app, (token_no_nl o b Ho).
Qed.

Lemma read_h_expanded h1 c1 r :
  has_flag (otype o) OPT_MODULE_EXPAND = true ->
  (if has_flag (otype o) OPT_HC then print_hc o else ("", "")) = (h1, c1) ->
  read_h ((print_h_option o).1 +:+ r) = (h_defines o ++ read_h r)%list.
Proof.
  intros Hx Hhc. pose proof (read_h_hc_part) as Hp. rewrite Hhc in Hp. cbn [fst] in Hp.
  unfold print_h_option, h_defines. rewrite Hhc, Hx. cbn [negb]. fold (feature_on o) (starts_m o).
  destruct (feature_on o); cbn [negb fst]; rewrite !append_assoc, Hp, read_h_ref, read_h_feature by
    (done || apply Ho || set_solver); rewrite <- (assoc_L app); f_equal; cbn [app]; f_equal.
  rewrite read_h_own by done. f_equal. by rewrite read_h_own by (done || by destruct (starts_m o)).
Qed.

(** The text after the cCONFIG part. *)
Lemma read_h_option r : read_h ((print_h_option o).1 +:+ r) = (h_defines o ++ read_h r)%list.
Proof.
  pose proof (read_h_hc_part) as Hp.
  destruct (if has_flag (otype o) OPT_HC then print_hc o else ("", "")) as [h1 c1] eqn:Ehc. cbn [fst] in Hp.
  destruct (has_flag (otype o) OPT_MODULE_EXPAND) eqn:Ex; [by eapply read_h_expanded|].
  unfold print_h_option, h_defines. rewrite Ehc, Ex. cbn [negb].
  pose proof (value_no_nl o b Ho) as Hv.
  destruct (value o) as [v|]; [|cbn [fst]; by rewrite Hp, app_nil_r].
  assert (Hdef : forall w, no_nl w = true ->
    read_h ((h1 +:+ print_ref (has_flag (otype o) OPT_HC) o +:+ "#define " +:+ token o +:+ " " +:+
      quote_of (otype o) +:+ w +:+ quote_of (otype o) +:+ nl) +:+ r) =
    ((if has_flag (otype o) OPT_HC then [("c" +:+ option_name o, trim (hc_value o))] else []) ++
     (option_name o, trim (quote_of (otype o) +:+ w +:+ quote_of (otype o))) :: read_h r)%list).
  { intros w Hw. rewrite !append_assoc, Hp, read_h_ref by apply Ho. f_equal.
    replace (quote_of (otype o) +:+ w +:+ quote_of (otype o) +:+ nl +:+ r)
      with ((quote_of (otype o) +:+ w +:+ quote_of (otype o)) +:+ nl +:+ r) by (by rewrite !append_assoc).
    apply (read_h_token ""); [done|done|]. by rewrite !no_nl_app, quote_no_nl, Hw. }
  destruct (h_is_y_m (otype o)).
  - destruct (is_y_m v); cbn [fst]; [|by rewrite Hp, app_nil_r].
    rewrite Hdef by done. by rewrite <- (assoc_L app).
  - cbn [fst]. rewrite Hdef by (by apply Hv). by rewrite <- (assoc_L app).
Qed.
End PrintedH.

(** ** The whole files *)
Definition prints_h (o : option_t) : bool :=
  has_flag (otype o) OPT_H || has_flag (otype o) OPT_HC ||
  negb (has_flag (otype o) (Z.lor OPT_H OPT_MK)).
Definition prints_mk (o : option_t) : bool :=
  has_flag (otype o) OPT_MK || negb (has_flag (otype o) (Z.lor OPT_H OPT_MK)).

Definition mk_text (o : option_t) : string := if prints_mk o then print_mk_option o else "".
Definition h_text (o : option_t) : string := if prints_h o then (print_h_option o).1 else "".
Definition concat_text (f : option_t -> string) (l : list option_t) : string :=
  foldr (fun o acc => f o +:+ acc) "" l.

Lemma print_options_texts l fs fs' :
  print_options l fs = inl fs' ->
  mk_file fs' = mk_file fs +:+ concat_text mk_text l /\
  h_file fs' = h_file fs +:+ concat_text h_text l.
Proof.
  revert fs. induction l as [|o l IH]; intros fs; simpl.
  { intros [= <-]. by rewrite !append_nil_r. }
  unfold print_option. destruct (check_option_validity o); [done|].
  fold (prints_h o) (prints_mk o). unfold mk_text, h_text.
  destruct (prints_h o); [destruct (print_h_option o) as [h c]|];
    intros [Hm Hh]%IH; cbn [mk_file h_file fst] in *; by rewrite Hm, Hh, !append_assoc.
Qed.

Lemma print_options_ok l fs :
  (exists fs', print_options l fs = inl fs') <-> Forall (fun o => check_option_validity o = None) l.
Proof.
  revert fs. induction l as [|o l IH]; intros fs; cbn [print_options].
  { split; [constructor | eauto]. }
  unfold print_option. rewrite Forall_cons. destruct (check_option_validity o) eqn:E.
  - split; [by intros [? ?] | by intros [? _]].
  - destruct (if _ || _ then print_h_option o else ("", "")). rewrite IH. naive_solver.
Qed.

Lemma read_mk_texts l r : Forall (fun o => printable o = true) l ->
  read_mk (concat_text mk_text l +:+ r) =
  (flat_map (fun o => if prints_mk o then mk_defines o else []) l ++ read_mk r)%list.
Proof.
  intros Hl. induction Hl as [|o l Ho Hl IH]; [done|]. cbn [concat_text foldr flat_map].
  rewrite append_assoc. unfold mk_text at 1. destruct (prints_mk o).
  - destruct (printable_parts o Ho) as [b Hb]. rewrite (read_mk_option o b Hb). unfold concat_text in IH. by rewrite IH, (assoc_L app).
  - exact IH.
Qed.
Lemma read_h_texts l r : Forall (fun o => printable o = true) l ->
  read_h (concat_text h_text l +:+ r) =
  (flat_map (fun o => if prints_h o then h_defines o else []) l ++ read_h r)%list.
Proof.
  intros Hl. induction Hl as [|o l Ho Hl IH]; [done|]. cbn [concat_text foldr flat_map].
  rewrite append_assoc. unfold h_text at 1. destruct (prints_h o).
  - destruct (printable_parts o Ho) as [b Hb]. rewrite (read_h_option o b Hb). unfold concat_text in IH. by rewrite IH, (assoc_L app).
  - exact IH.
Qed.

Lemma files_read_back log s fs s' :
  configure_print log s = Ok fs s' -> no_nl log = true ->
  Forall (fun o => printable o = true) (openrg_config_options s) ->
  read_mk (mk_file fs) =
    flat_map (fun o => if prints_mk o then mk_defines o else []) (openrg_config_options s) /\
  read_h (h_file fs) =
    flat_map (fun o => if prints_h o then h_defines o else []) (openrg_config_options s).
Proof.
  intros Hrun Hlog Hpr. unfold configure_print in Hrun.
  unfold bind at 1 in Hrun. rewrite token_get_eq in Hrun.
  destruct (lookup_option _ _); [|done]. destruct (has_flag _ _); [done|].
  unfold bind at 1 in Hrun.
  match type of Hrun with context [print_options ?l ?f] =>
    destruct (print_options l f) as [fs1|] eqn:Ep end; [|done].
  unfold bind in Hrun. destruct (token_get _ s) as [z s2|]; [|done].
  injection Hrun as <- _. apply print_options_texts in Ep as [Hm Hh].
  cbn [mk_file h_file] in *. rewrite Hm, Hh. split.
  - rewrite <- (append_nil_r (concat_text _ _)). rewrite !append_assoc, read_mk_cons by done.
    match goal with |- context ["#See " +:+ log +:+ ?e +:+ nl +:+ ?r] =>
      replace ("#See " +:+ log +:+ e +:+ nl +:+ r) with (("#See " +:+ log +:+ e) +:+ nl +:+ r)
        by (by rewrite !append_assoc) end.
    rewrite read_mk_cons by (by rewrite !no_nl_app, Hlog).
    change (nl +:+ ?r) with ("" +:+ nl +:+ r). rewrite read_mk_cons by done.
    cbn [option_list app]. rewrite read_mk_texts by done. by rewrite app_nil_r.
  - rewrite !append_assoc, read_h_cons by done.
    match goal with |- context [" * See " +:+ log +:+ ?e +:+ nl +:+ ?r] =>
      replace (" * See " +:+ log +:+ e +:+ nl +:+ r) with ((" * See " +:+ log +:+ e) +:+ nl +:+ r)
        by (by rewrite !append_assoc) end.
    rewrite read_h_cons by (by rewrite !no_nl_app, Hlog).
    rewrite !read_h_cons by done.
    change (nl +:+ "#define AUTOCONF_INCLUDED" +:+ ?r)
      with ("" +:+ nl +:+ "#define AUTOCONF_INCLUDED" +:+ r).
    rewrite !read_h_cons, read_h_texts by done. by rewrite app_nil_r.
Qed.

(** ** The declared names *)
(** The names the header can give to an option of the type [ty]. *)
Definition header_names (t : string) (ty : Z) : list string :=
  ((if has_flag ty OPT_HC then ["c" +:+ rtrim t] else []) ++
   (if has_flag ty OPT_MODULE_EXPAND
    then ["c" +:+ rtrim t +:+ FEATURE_EXPANSION; rtrim t +:+ FEATURE_EXPANSION; rtrim t; rtrim t +:+ MODULE_EXPANSION]
    else [rtrim t]))%list.

(** Every name of the table can be printed, and no two options share a name. *)
Lemma base_names_good : forallb (fun r => good_name r.1.1 r.1.2) base_shape = true.
Proof. vm_compute. reflexivity. Qed.
Lemma base_names_distinct : NoDup (base_shape ≫= (fun r => header_names r.1.1 r.1.2)).
Proof.
  assert (H : Trie.distinct Trie.Leaf ((fun t => (t, tt)) <$> (base_shape ≫= (fun r => header_names r.1.1 r.1.2))) = true)
    by (vm_compute; reflexivity).
  apply Trie.distinct_NoDup in H. by rewrite <- list_fmap_compose, list_fmap_id in H.
Qed.

Lemma base_printable a :
  base_array a -> Forall (fun o => one_line o = true) a -> Forall (fun o => printable o = true) a.
Proof.
  intros Hs Hl. pose proof base_names_good as Hg. rewrite forallb_forall in Hg.
  rewrite Forall_forall in Hl |- *. intros o Ho. unfold printable. rewrite (Hl o Ho), andb_true_r.
  apply (Hg (token o, otype o, description o)). rewrite <- Hs. apply list_elem_of_In.
  unfold shape. by apply (list_elem_of_fmap_2 (fun o => (token o, otype o, description o))).
Qed.

(** C11. For the declared array, the name with a blank behind it included, when the values,
    the file names and the name of the log are single lines and the values hold no # and no
    backslash: what make reads from rg_config.mk, before it expands anything, and the
    #define lines of rg_config.h that give a value are exactly the definitions mk_defines
    and h_defines give for the options, in order: names, values and the on/off decisions
    survive printing. *)
Theorem printed_files_read_back log s fs s' :
  configure_print log s = Ok fs s' -> no_nl log = true -> base_array (openrg_config_options s) ->
  Forall (fun o => one_line o = true) (openrg_config_options s) ->
  read_mk (mk_file fs) =
    flat_map (fun o => if prints_mk o then mk_defines o else []) (openrg_config_options s) /\
  read_h (h_file fs) =
    flat_map (fun o => if prints_h o then h_defines o else []) (openrg_config_options s).
Proof. intros Hrun Hlog Hs Hl. by apply (files_read_back log s fs s'); [..|apply base_printable]. Qed.

(** A database with an option of each kind. *)
Definition print_sample : cfg := mk_cfg [
  mk_option "CONFIG_RG_CONFIG_STRINGS" None 0 None None 0 0;
  mk_option "CONFIG_RG_PPTP" (Some "y") OPT_HC None (Some "feature_config.c") 2027 SET_PRIO_TOKEN_SET;
  mk_option "CONFIG_RG_FLASH_SIZE" (Some "0x800000") OPT_NUMBER None None 0 SET_PRIO_CMD_LINE;
  mk_option "CONFIG_RG_MTD" (Some "m") OPT_MODULE_EXPAND None (Some "hw_config.c") 12 SET_PRIO_TOKEN_SET;
  mk_option "RG_PROD_STR" (Some "OpenRG") OPT_C_STR None None 0 SET_PRIO_INIT;
  mk_option "CONFIG_RG_UPNP" None OPT_EXPORT None None 0 SET_PRIO_CMD_LINE ]
  None "" None false [] [].

(** Printing changes no option. *)
Lemma configure_print_same log s fs s' : configure_print log s = Ok fs s' -> s' = s.
Proof.
  unfold configure_print, bind. rewrite token_get_eq.
  destruct (lookup_option _ _) as [o|] eqn:E1; [|done]. destruct (has_flag _ _) eqn:E2; [done|].
  destruct (print_options _ _); [|done]. rewrite token_get_eq, E1, E2. by intros [= _ <-].
Qed.

(** An option with a value its type does not allow stops the printing. *)
Lemma configure_print_valid log s fs s' : configure_print log s = Ok fs s' ->
  Forall (fun o => check_option_validity o = None) (openrg_config_options s).
Proof.
  unfold configure_print, bind. rewrite token_get_eq.
  destruct (lookup_option _ _); [|done]. destruct (has_flag _ _); [done|].
  match goal with |- context [print_options ?l ?f] =>
    rewrite <- (print_options_ok l f); destruct (print_options l f) as [fs1|e] end; [by eexists|done].
Qed.

Definition files_of (log : string) (s : cfg) : files :=
  match configure_print log s with Ok fs _ => fs | Exit _ _ => mk_files "" "" "" end.
Definition prints (log : string) (s : cfg) : bool :=
  match configure_print log s with Ok _ _ => true | Exit _ _ => false end.
Lemma prints_files log s : prints log s = true -> configure_print log s = Ok (files_of log s) s.
Proof.
  unfold prints, files_of. destruct (configure_print log s) as [fs s'|] eqn:E; [|done].
  by rewrite (configure_print_same _ _ _ _ E).
Qed.

Lemma all_one_line a : forallb one_line a = true -> Forall (fun o => one_line o = true) a.
Proof. rewrite forallb_forall, Forall_forall. intros H o Ho. by apply H, list_elem_of_In. Qed.

(** The gateway at the end of its run prints its files. *)
Lemma gateway_prints : configure_print "/tmp/log" gateway_run = Ok (files_of "/tmp/log" gateway_run) gateway_run.
Proof. apply prints_files. vm_compute. reflexivity. Qed.
Lemma gateway_run_base : base_array (openrg_config_options gateway_run).
Proof. vm_compute. reflexivity. Qed.
Lemma gateway_one_line : Forall (fun o => one_line o = true) (openrg_config_options gateway_run).
Proof. apply all_one_line. vm_compute. reflexivity. Qed.

Lemma printed_files_read_back_witness :
  exists fs, configure_print "/tmp/log" gateway_run = Ok fs gateway_run /\
    read_mk (mk_file fs) = flat_map (fun o => if prints_mk o then mk_defines o else [])
      (openrg_config_options gateway_run) /\
    read_h (h_file fs) = flat_map (fun o => if prints_h o then h_defines o else [])
      (openrg_config_options gateway_run).
Proof.
  exists (files_of "/tmp/log" gateway_run). split; [exact gateway_prints|].
  apply (printed_files_read_back "/tmp/log" gateway_run (files_of "/tmp/log" gateway_run) gateway_run);
    [exact gateway_prints | reflexivity | exact gateway_run_base | exact gateway_one_line].
Defined.

(** The printing phase writes the three files exactly when every option passes
    check_option_validity. *)
Theorem configure_print_iff_valid log s :
  (exists z, token_get "CONFIG_RG_CONFIG_STRINGS" s = Ok z s) ->
  (exists fs, configure_print log s = Ok fs s) <->
  Forall (fun o => check_option_validity o = None) (openrg_config_options s).
Proof.
  intros [z Hz]. unfold configure_print. unfold bind at 1. rewrite Hz. unfold bind at 1.
  match goal with |- context [print_options ?l ?f] =>
    rewrite <- (print_options_ok l f); destruct (print_options l f) as [fs1|e] end.
  - unfold bind. rewrite Hz. split; eauto.
  - split; [by intros [? ?] | by intros [? ?]].
Qed.

Lemma configure_print_iff_valid_witness :
  (exists fs, configure_print "/tmp/log" print_sample = Ok fs print_sample) <->
  Forall (fun o => check_option_validity o = None) (openrg_config_options print_sample).
Proof. apply configure_print_iff_valid. exists 0. reflexivity. Defined.

(** ** The makefile and the header agree *)
(** Two texts of different lengths differ. *)
Ltac by_length :=
  match goal with
  | H : _ = _ :> string |- _ =>
      apply (f_equal String.length) in H; rewrite ?length_append in H; cbn in H;
      rewrite ?length_append in H; cbn in H; lia
  end.

Lemma is_bool_parts ty : has_flag ty (Z.lor (Z.lor OPT_NUMBER OPT_STR) OPT_C_STR) = false ->
  typed_text ty = false /\ h_is_y_m ty = true /\ quote_of ty = "".
Proof.
  intros H. unfold typed_text, h_is_y_m, quote_of. rewrite H, orb_true_r.
  unfold has_flag, nz in *. apply negb_false_iff, Z.eqb_eq in H.
  rewrite !Z.land_lor_distr_r in *. apply Z.lor_eq_0_iff in H as [H H3].
  apply Z.lor_eq_0_iff in H as [H1 H2]. by rewrite H1, H2, H3.
Qed.

Lemma valid_bool_value o v :
  has_flag (otype o) (Z.lor (Z.lor OPT_NUMBER OPT_STR) OPT_C_STR) = false ->
  check_option_validity o = None -> value o = Some v ->
  v = "" \/ v = "n" \/ v = "y" \/ v = "m".
Proof.
  intros Hb Hc Hv. unfold check_option_validity in Hc. rewrite Hv in Hc.
  assert (Hy : is_y_option (otype o) = negb (is_y_m_option (otype o))).
  { unfold is_y_option, is_y_m_option. f_equal. unfold has_flag, nz in *. f_equal.
    apply negb_false_iff, Z.eqb_eq in Hb. rewrite !Z.land_lor_distr_r in *.
    rewrite Hb. by rewrite Z.lor_0_l. }
  rewrite Hy in Hc. destruct (is_y_m_option (otype o)); cbn [negb andb] in Hc.
  all: destruct (has_flag _ OPT_NUMBER && _); [done|].
  all: destruct (v =? "")%string eqn:E1, (v =? "n")%string eqn:E2, (v =? "y")%string eqn:E3;
    try (bool_to_prop; tauto).
  - destruct (v =? "m")%string eqn:E4; [|done]. bool_to_prop. tauto.
  - done.
Qed.

(** The header turns the option on, under its own name or, for an option that can be a module,
    with _MODULE behind it. *)
Definition header_on (o : option_t) (l : list (string * string)) : Prop :=
  (option_name o, "1") ∈ l \/
  has_flag (otype o) OPT_MODULE_EXPAND = true /\ (option_name o +:+ MODULE_EXPANSION, "1") ∈ l.
Definition makefile_on (o : option_t) (l : list (string * string)) : Prop :=
  exists w, (option_name o, w) ∈ l /\ w <> "".

(** The names the header gives to one option are different. *)
Lemma h_names_differ t :
  t <> "c" +:+ t /\ t <> "c" +:+ t +:+ FEATURE_EXPANSION /\ t <> t +:+ FEATURE_EXPANSION /\
  t +:+ MODULE_EXPANSION <> "c" +:+ t /\
  t +:+ MODULE_EXPANSION <> "c" +:+ t +:+ FEATURE_EXPANSION /\
  t +:+ MODULE_EXPANSION <> t +:+ FEATURE_EXPANSION.
Proof. repeat split; intros H; by_length. Qed.

(** What one option defines. *)
Lemma own_definitions o :
  has_flag (otype o) (Z.lor (Z.lor OPT_NUMBER OPT_STR) OPT_C_STR) = false ->
  check_option_validity o = None -> value o <> Some "" ->
  (makefile_on o (mk_defines o) <-> value_on o = true) /\ (header_on o (h_defines o) <-> value_on o = true).
Proof.
  intros Hb Hc Hne. destruct (is_bool_parts _ Hb) as (Htt & Hym & Hq).
  destruct (h_names_differ (option_name o)) as (D1 & D2 & D3 & D4 & D5 & D6).
  unfold makefile_on, header_on, mk_defines, h_defines, value_on, feature_on, starts_m. rewrite Htt, Hym, Hq.
  destruct (value o) as [v|] eqn:Ev;
    [destruct (valid_bool_value o v Hb Hc Ev) as [-> | [-> | [-> | ->]]]; [done|..]|];
    simpl; rewrite ?append_nil_r;
    destruct (has_flag (otype o) OPT_HC), (has_flag (otype o) OPT_MODULE_EXPAND),
      (set_prio o =? SET_PRIO_CMD_LINE); simpl; split; set_solver.
Qed.
Lemma mk_defines_name o x w : (x, w) ∈ mk_defines o -> x = option_name o.
Proof. unfold mk_defines. repeat destruct_match; set_solver. Qed.
Lemma h_defines_name o x w : (x, w) ∈ h_defines o -> x ∈ header_names (token o) (otype o).
Proof.
  unfold h_defines, header_names. fold (option_name o).
  destruct (has_flag (otype o) OPT_HC), (has_flag (otype o) OPT_MODULE_EXPAND), (feature_on o), (starts_m o),
    (value o) as [v|]; try destruct (h_is_y_m (otype o)); try destruct (is_y_m v);
    rewrite ?append_nil_r; set_solver.
Qed.
Lemma option_name_header o : option_name o ∈ header_names (token o) (otype o).
Proof. unfold header_names. fold (option_name o). destruct (has_flag _ OPT_HC), (has_flag _ OPT_MODULE_EXPAND); set_solver. Qed.
Lemma module_name_header o : has_flag (otype o) OPT_MODULE_EXPAND = true ->
  option_name o +:+ MODULE_EXPANSION ∈ header_names (token o) (otype o).
Proof. intros Hx. unfold header_names. rewrite Hx. fold (option_name o). destruct (has_flag _ OPT_HC); set_solver. Qed.

(** ** One definition of a name *)
Lemma NoDup_bind_index {A B} (f : A -> list B) l i j a b x :
  NoDup (l ≫= f) -> l !! i = Some a -> l !! j = Some b -> x ∈ f a -> x ∈ f b -> i = j.
Proof.
  revert i j. induction l as [|c l IH]; intros i j Hnd Hi Hj Ha Hb; [done|].
  cbn [mbind list_bind] in Hnd. apply NoDup_app in Hnd as (_ & Hout & Hnd).
  destruct i as [|i], j as [|j]; cbn in Hi, Hj; [done| | |].
  - injection Hi as ->. destruct (Hout x Ha). apply list_elem_of_bind. exists b.
    split; [done|by eapply list_elem_of_lookup_2].
  - injection Hj as ->. destruct (Hout x Hb). apply list_elem_of_bind. exists a.
    split; [done|by eapply list_elem_of_lookup_2].
  - f_equal. by apply IH.
Qed.
Lemma same_option a o o' x :
  base_array a -> o ∈ a -> o' ∈ a -> x ∈ header_names (token o) (otype o) ->
  x ∈ header_names (token o') (otype o') -> o' = o.
Proof.
  intros Hs [i Hi]%list_elem_of_lookup_1 [j Hj]%list_elem_of_lookup_1 Hx Hx'.
  pose proof base_names_distinct as Hnd. rewrite <- Hs in Hnd.
  assert (i = j) as ->; [|congruence].
  eapply (NoDup_bind_index _ _ i j (token o, otype o, description o) (token o', otype o', description o') x Hnd);
    [| |done|done]; unfold shape; by rewrite list_lookup_fmap, ?Hi, ?Hj.
Qed.

(** What a file that holds the definitions of the options says of one of them. *)
Lemma defined_once (g : option_t -> list (string * string)) (p : option_t -> bool) a o x w :
  (forall o' y v, (y, v) ∈ g o' -> y ∈ header_names (token o') (otype o')) ->
  base_array a -> o ∈ a -> x ∈ header_names (token o) (otype o) ->
  (x, w) ∈ flat_map (fun o => if p o then g o else []) a <-> p o = true /\ (x, w) ∈ g o.
Proof.
  intros Hg Hs Ho Hx. rewrite list_elem_of_In, in_flat_map. split.
  - intros (o' & Ho'%list_elem_of_In & Hin%list_elem_of_In). destruct (p o') eqn:Hp; [|by apply elem_of_nil in Hin].
    by rewrite <- (same_option a o o' x Hs Ho Ho' Hx (Hg _ _ _ Hin)).
  - intros [Hp Hin]. exists o. rewrite Hp, <- !list_elem_of_In. done.
Qed.

(** C12. In the files printed from the declared array, when the values, the file names and
    the name of the log are single lines and the values hold no # and no backslash, for a
    y/n/m option whose value is not the empty text: rg_config.mk turns it on exactly when
    the option goes to the makefile and is y or m, rg_config.h defines it (or its _MODULE
    name, if it can be a module) exactly when it goes to the header and is y or m; so an
    option that goes to both is on in both or in neither. Nothing printed for another option
    of the table turns it on. *)
Theorem mk_and_h_agree log s fs s' o :
  configure_print log s = Ok fs s' -> no_nl log = true -> base_array (openrg_config_options s) ->
  Forall (fun o => one_line o = true) (openrg_config_options s) ->
  o ∈ openrg_config_options s ->
  has_flag (otype o) (Z.lor (Z.lor OPT_NUMBER OPT_STR) OPT_C_STR) = false -> value o <> Some "" ->
  (makefile_on o (read_mk (mk_file fs)) <-> prints_mk o = true /\ value_on o = true) /\
  (header_on o (read_h (h_file fs)) <-> prints_h o = true /\ value_on o = true) /\
  (prints_mk o = true -> prints_h o = true ->
   makefile_on o (read_mk (mk_file fs)) <-> header_on o (read_h (h_file fs))).
Proof.
  intros Hrun Hlog Hs Hl Ho Hb Hne.
  pose proof (configure_print_valid log s fs s' Hrun) as Hval. rewrite Forall_forall in Hval.
  destruct (own_definitions o Hb (Hval o Ho) Hne) as [Hmk Hh].
  destruct (files_read_back log s fs s' Hrun Hlog (base_printable _ Hs Hl)) as [-> ->].
  assert (Hm : forall w, (option_name o, w) ∈ flat_map (fun o => if prints_mk o then mk_defines o else [])
      (openrg_config_options s) <-> prints_mk o = true /\ (option_name o, w) ∈ mk_defines o).
  { intros w. apply defined_once; [|done|done|apply option_name_header].
    intros o' y v ->%mk_defines_name. apply option_name_header. }
  assert (Hd : forall x, x ∈ header_names (token o) (otype o) ->
      (x, "1") ∈ flat_map (fun o => if prints_h o then h_defines o else []) (openrg_config_options s) <->
      prints_h o = true /\ (x, "1") ∈ h_defines o)
    by (intros x Hx; apply defined_once; [apply h_defines_name|done|done|done]).
  assert (H1 : makefile_on o (flat_map (fun o => if prints_mk o then mk_defines o else []) (openrg_config_options s)) <->
    prints_mk o = true /\ value_on o = true) by (rewrite <- Hmk; unfold makefile_on; setoid_rewrite Hm; naive_solver).
  assert (H2 : header_on o (flat_map (fun o => if prints_h o then h_defines o else []) (openrg_config_options s)) <->
    prints_h o = true /\ value_on o = true).
  { rewrite <- Hh. unfold header_on. rewrite (Hd (option_name o)) by apply option_name_header.
    destruct (has_flag (otype o) OPT_MODULE_EXPAND) eqn:Hx.
    - rewrite (Hd (option_name o +:+ MODULE_EXPANSION)) by by apply module_name_header. naive_solver.
    - naive_solver. }
  split; [exact H1|]. split; [exact H2|]. intros Hpm Hph. rewrite H1, H2, Hpm, Hph. done.
Qed.

Lemma lookup_option_elem a t o : lookup_option a t = Some o -> o ∈ a.
Proof.
  unfold lookup_option. destruct (option_token_get_nofail a t) as [i|]; [|done]. apply list_elem_of_lookup_2.
Qed.

(** An option of the gateway that goes to both files. *)
Definition mtd_option : option_t :=
  default (mk_option "" None 0 None None 0 0) (lookup_option (openrg_config_options gateway_run) "CONFIG_RG_MTD").
Lemma mtd_option_elem : mtd_option ∈ openrg_config_options gateway_run.
Proof.
  assert (H : bool_decide (is_Some (lookup_option (openrg_config_options gateway_run) "CONFIG_RG_MTD")) = true)
    by (vm_compute; reflexivity).
  apply bool_decide_eq_true in H as [o Ho]. unfold mtd_option. rewrite Ho. cbn [default from_option id].
  by eapply lookup_option_elem.
Qed.
Lemma mk_and_h_agree_witness :
  makefile_on mtd_option (read_mk (mk_file (files_of "/tmp/log" gateway_run))) <->
  header_on mtd_option (read_h (h_file (files_of "/tmp/log" gateway_run))).
Proof.
  apply (mk_and_h_agree "/tmp/log" gateway_run (files_of "/tmp/log" gateway_run) gateway_run mtd_option);
    [exact gateway_prints | reflexivity | exact gateway_run_base | exact gateway_one_line
    | exact mtd_option_elem | vm_compute; reflexivity | vm_compute; discriminate | vm_compute; reflexivity
    | vm_compute; reflexivity].
Defined.

(** An option holding the empty text is off in rg_config.mk and on in
    rg_config.h: [check_option_validity] lets the text pass, the makefile tests for
    "y" or "m", the header for anything but "n". *)
Definition empty_option : option_t :=
  mk_option "CONFIG_RG_BRIDGE" (Some "") OPT_MODULE_EXPAND None (Some "create_config.c") 100 3.

(** The empty value, which check_option_validity accepts, makes the two files disagree:
    an option that can be a module is off in rg_config.mk and defined in rg_config.h. *)
Lemma empty_option_disagrees :
  check_option_validity empty_option = None /\
  read_mk (print_mk_option empty_option) = [] /\
  ("CONFIG_RG_BRIDGE", "1") ∈ read_h (print_h_option empty_option).1.
Proof. split; [|split]; [reflexivity..|]. vm_compute. set_solver. Qed.
