(* ===== verification/Crc32.v ===== *)
(** * Crc32: the checksum of U-Boot images

    pkg/boot/u-boot/crc32.c: the table, the table-driven routine with its
    eight-byte unrolling, and [make_crc_table], which the build leaves out and
    which defines what the table holds.  Bytes are integers from 0 to 255; the
    register is an [unsigned long] that stays below 2^32.  The theorems: the
    table is the one [make_crc_table] computes, the routine is the bit-by-bit
    shift register over the data, a checksum can be continued over a second
    buffer, and a change within four neighbouring bytes is always detected. *)
From S2P Require Import Prelude.

Definition crc_table : list Z := [
  0x00000000; 0x77073096; 0xee0e612c; 0x990951ba; 0x076dc419; 0x706af48f;
  0xe963a535; 0x9e6495a3; 0x0edb8832; 0x79dcb8a4; 0xe0d5e91e; 0x97d2d988;
  0x09b64c2b; 0x7eb17cbd; 0xe7b82d07; 0x90bf1d91; 0x1db71064; 0x6ab020f2;
  0xf3b97148; 0x84be41de; 0x1adad47d; 0x6ddde4eb; 0xf4d4b551; 0x83d385c7;
  0x136c9856; 0x646ba8c0; 0xfd62f97a; 0x8a65c9ec; 0x14015c4f; 0x63066cd9;
  0xfa0f3d63; 0x8d080df5; 0x3b6e20c8; 0x4c69105e; 0xd56041e4; 0xa2677172;
  0x3c03e4d1; 0x4b04d447; 0xd20d85fd; 0xa50ab56b; 0x35b5a8fa; 0x42b2986c;
  0xdbbbc9d6; 0xacbcf940; 0x32d86ce3; 0x45df5c75; 0xdcd60dcf; 0xabd13d59;
  0x26d930ac; 0x51de003a; 0xc8d75180; 0xbfd06116; 0x21b4f4b5; 0x56b3c423;
  0xcfba9599; 0xb8bda50f; 0x2802b89e; 0x5f058808; 0xc60cd9b2; 0xb10be924;
  0x2f6f7c87; 0x58684c11; 0xc1611dab; 0xb6662d3d; 0x76dc4190; 0x01db7106;
  0x98d220bc; 0xefd5102a; 0x71b18589; 0x06b6b51f; 0x9fbfe4a5; 0xe8b8d433;
  0x7807c9a2; 0x0f00f934; 0x9609a88e; 0xe10e9818; 0x7f6a0dbb; 0x086d3d2d;
  0x91646c97; 0xe6635c01; 0x6b6b51f4; 0x1c6c6162; 0x856530d8; 0xf262004e;
  0x6c0695ed; 0x1b01a57b; 0x8208f4c1; 0xf50fc457; 0x65b0d9c6; 0x12b7e950;
  0x8bbeb8ea; 0xfcb9887c; 0x62dd1ddf; 0x15da2d49; 0x8cd37cf3; 0xfbd44c65;
  0x4db26158; 0x3ab551ce; 0xa3bc0074; 0xd4bb30e2; 0x4adfa541; 0x3dd895d7;
  0xa4d1c46d; 0xd3d6f4fb; 0x4369e96a; 0x346ed9fc; 0xad678846; 0xda60b8d0;
  0x44042d73; 0x33031de5; 0xaa0a4c5f; 0xdd0d7cc9; 0x5005713c; 0x270241aa;
  0xbe0b1010; 0xc90c2086; 0x5768b525; 0x206f85b3; 0xb966d409; 0xce61e49f;
  0x5edef90e; 0x29d9c998; 0xb0d09822; 0xc7d7a8b4; 0x59b33d17; 0x2eb40d81;
  0xb7bd5c3b; 0xc0ba6cad; 0xedb88320; 0x9abfb3b6; 0x03b6e20c; 0x74b1d29a;
  0xead54739; 0x9dd277af; 0x04db2615; 0x73dc1683; 0xe3630b12; 0x94643b84;
  0x0d6d6a3e; 0x7a6a5aa8; 0xe40ecf0b; 0x9309ff9d; 0x0a00ae27; 0x7d079eb1;
  0xf00f9344; 0x8708a3d2; 0x1e01f268; 0x6906c2fe; 0xf762575d; 0x806567cb;
  0x196c3671; 0x6e6b06e7; 0xfed41b76; 0x89d32be0; 0x10da7a5a; 0x67dd4acc;
  0xf9b9df6f; 0x8ebeeff9; 0x17b7be43; 0x60b08ed5; 0xd6d6a3e8; 0xa1d1937e;
  0x38d8c2c4; 0x4fdff252; 0xd1bb67f1; 0xa6bc5767; 0x3fb506dd; 0x48b2364b;
  0xd80d2bda; 0xaf0a1b4c; 0x36034af6; 0x41047a60; 0xdf60efc3; 0xa867df55;
  0x316e8eef; 0x4669be79; 0xcb61b38c; 0xbc66831a; 0x256fd2a0; 0x5268e236;
  0xcc0c7795; 0xbb0b4703; 0x220216b9; 0x5505262f; 0xc5ba3bbe; 0xb2bd0b28;
  0x2bb45a92; 0x5cb36a04; 0xc2d7ffa7; 0xb5d0cf31; 0x2cd99e8b; 0x5bdeae1d;
  0x9b64c2b0; 0xec63f226; 0x756aa39c; 0x026d930a; 0x9c0906a9; 0xeb0e363f;
  0x72076785; 0x05005713; 0x95bf4a82; 0xe2b87a14; 0x7bb12bae; 0x0cb61b38;
  0x92d28e9b; 0xe5d5be0d; 0x7cdcefb7; 0x0bdbdf21; 0x86d3d2d4; 0xf1d4e242;
  0x68ddb3f8; 0x1fda836e; 0x81be16cd; 0xf6b9265b; 0x6fb077e1; 0x18b74777;
  0x88085ae6; 0xff0f6a70; 0x66063bca; 0x11010b5c; 0x8f659eff; 0xf862ae69;
  0x616bffd3; 0x166ccf45; 0xa00ae278; 0xd70dd2ee; 0x4e048354; 0x3903b3c2;
  0xa7672661; 0xd06016f7; 0x4969474d; 0x3e6e77db; 0xaed16a4a; 0xd9d65adc;
  0x40df0b66; 0x37d83bf0; 0xa9bcae53; 0xdebb9ec5; 0x47b2cf7f; 0x30b5ffe9;
  0xbdbdf21c; 0xcabac28a; 0x53b39330; 0x24b4a3a6; 0xbad03605; 0xcdd70693;
  0x54de5729; 0x23d967bf; 0xb3667a2e; 0xc4614ab8; 0x5d681b02; 0x2a6f2b94;
  0xb40bbe37; 0xc30c8ea1; 0x5a05df1b; 0x2d02ef8d ].

(** ** make_crc_table *)
Definition p : list Z := [0; 1; 2; 4; 5; 7; 8; 10; 11; 12; 16; 22; 23; 26].
Definition poly : Z := foldl (fun acc pn => Z.lor acc (Z.shiftl 1 (31 - pn))) 0 p.

(** [c = c & 1 ? poly ^ (c >> 1) : c >> 1] *)
Definition crc_bit (c : Z) : Z :=
  if nz (Z.land c 1) then Z.lxor poly (Z.shiftr c 1) else Z.shiftr c 1.

Definition make_crc_table : list Z :=
  (fun n => Nat.iter 8 crc_bit (Z.of_nat n)) <$> seq 0 256.

(** ** The table-driven routine *)

(** [crc = crc_table[((int)crc ^ ( *buf++)) & 0xff] ^ (crc >> 8)] *)
Definition DO1 (crc b : Z) : Z :=
  Z.lxor (nth (Z.to_nat (Z.land (Z.lxor (int32 crc) b) 0xff)) crc_table 0) (Z.shiftr crc 8).

Fixpoint do_rest (crc : Z) (buf : list Z) : Z :=
  match buf with
  | [] => crc
  | b :: buf' => do_rest (DO1 crc b) buf'
  end.

(** [while (len >= 8) { DO8(buf); len -= 8; } if (len) do { DO1(buf); } while (--len);] *)
Fixpoint crc_loop (crc : Z) (buf : list Z) {struct buf} : Z :=
  match buf with
  | b0 :: b1 :: b2 :: b3 :: b4 :: b5 :: b6 :: b7 :: buf' =>
      crc_loop (DO1 (DO1 (DO1 (DO1 (DO1 (DO1 (DO1 (DO1 crc b0) b1) b2) b3) b4) b5) b6) b7) buf'
  | _ => do_rest crc buf
  end.

Definition crc32 (crc : Z) (buf : list Z) : Z :=
  Z.lxor (crc_loop (Z.lxor crc 0xffffffff) buf) 0xffffffff.

(** ** The shift register, bit by bit: the reference *)
Definition crc_byte (crc b : Z) : Z := Nat.iter 8 crc_bit (Z.lxor crc b).
Definition crc32_spec (crc : Z) (buf : list Z) : Z :=
  Z.lxor (foldl crc_byte (Z.lxor crc 0xffffffff) buf) 0xffffffff.

Definition byte (b : Z) : Prop := 0 <= b < 256.
Definition word32 (w : Z) : Prop := 0 <= w < 2 ^ 32.

(** ** Bits *)

(** Equations of exclusive ors, bit by bit. *)
Ltac xor_bits :=
  apply Z.bits_inj'; intros ? _; rewrite ?Z.lxor_spec;
  repeat match goal with |- context [Z.testbit ?x ?i] => destruct (Z.testbit x i) end;
  reflexivity.

Lemma word32_bits w : word32 w <-> 0 <= w /\ forall i, 32 <= i -> Z.testbit w i = false.
Proof.
  unfold word32. split.
  - intros Hw. split; [lia|]. intros i Hi.
    rewrite <- (Z.mod_small w (2 ^ 32)) by lia. apply Z.mod_pow2_bits_high. lia.
  - intros [Hw Hb]. split; [done|]. apply Z.nle_gt. intros Hge.
    assert (0 < w) by lia. pose proof (Z.bit_log2 w ltac:(lia)) as Hl.
    rewrite Hb in Hl; [done|]. apply Z.log2_le_pow2; lia.
Qed.

Lemma word32_lxor a b : word32 a -> word32 b -> word32 (Z.lxor a b).
Proof.
  rewrite !word32_bits. intros [Ha Hai] [Hb Hbi]. split.
  - by apply Z.lxor_nonneg.
  - intros i Hi. rewrite Z.lxor_spec, Hai, Hbi by done. done.
Qed.

Lemma word32_shiftr a n : 0 <= n -> word32 a -> word32 (Z.shiftr a n).
Proof.
  rewrite !word32_bits. intros Hn [Ha Hai]. split; [by apply Z.shiftr_nonneg|].
  intros i Hi. rewrite Z.shiftr_spec by lia. apply Hai. lia.
Qed.

Lemma byte_word32 b : byte b -> word32 b.
Proof. unfold byte, word32. lia. Qed.

Lemma poly_word32 : word32 poly.
Proof. by vm_compute. Qed.

Lemma crc_bit_word32 c : word32 c -> word32 (crc_bit c).
Proof.
  intros Hc. unfold crc_bit. assert (word32 (Z.shiftr c 1)) by (by apply word32_shiftr).
  destruct (nz _); [|done]. apply word32_lxor; [apply poly_word32 | done].
Qed.

Lemma nz_land_1 c : nz (Z.land c 1) = Z.odd c.
Proof.
  unfold nz. change 1 with (Z.ones 1). rewrite Z.land_ones by done. change (2 ^ 1) with 2.
  rewrite Zmod_odd. by destruct (Z.odd c).
Qed.

(** The step is linear over exclusive or. *)
Lemma crc_bit_lxor a b : crc_bit (Z.lxor a b) = Z.lxor (crc_bit a) (crc_bit b).
Proof.
  unfold crc_bit. rewrite !nz_land_1, Z.shiftr_lxor, <- !Z.bit0_odd, Z.lxor_spec.
  destruct (Z.testbit a 0), (Z.testbit b 0); simpl; xor_bits.
Qed.

Lemma iter_crc_bit_lxor n a b :
  Nat.iter n crc_bit (Z.lxor a b) = Z.lxor (Nat.iter n crc_bit a) (Nat.iter n crc_bit b).
Proof. induction n as [|n IH]; simpl; [done|]. by rewrite IH, crc_bit_lxor. Qed.

(** Shifting zeros out. *)
Lemma iter_crc_bit_shiftl n y : Nat.iter n crc_bit (Z.shiftl y (Z.of_nat n)) = y.
Proof.
  revert y. induction n as [|n IH]; intros y; [apply Z.shiftl_0_r|].
  rewrite Nat.iter_succ_r.
  replace (crc_bit (Z.shiftl y (Z.of_nat (S n)))) with (Z.shiftl y (Z.of_nat n)); [apply IH|].
  unfold crc_bit. rewrite nz_land_1, <- Z.bit0_odd, Z.shiftl_spec_low by lia.
  rewrite Z.shiftr_shiftl_l by lia. f_equal. lia.
Qed.

(** The low byte and the rest. *)
Lemma split_low_byte x : x = Z.lxor (Z.land x 0xff) (Z.shiftl (Z.shiftr x 8) 8).
Proof.
  apply Z.bits_inj'. intros i Hi. change 0xff with (Z.ones 8).
  rewrite Z.lxor_spec, Z.land_spec.
  destruct (decide (i < 8)).
  - rewrite Z.ones_spec_low, andb_true_r, Z.shiftl_spec_low by lia. by rewrite xorb_false_r.
  - rewrite Z.ones_spec_high, andb_false_r, Z.shiftl_spec, Z.shiftr_spec by lia.
    rewrite xorb_false_l. f_equal. lia.
Qed.

Lemma iter8_split x :
  Nat.iter 8 crc_bit x = Z.lxor (Nat.iter 8 crc_bit (Z.land x 0xff)) (Z.shiftr x 8).
Proof.
  rewrite (split_low_byte x) at 1. rewrite iter_crc_bit_lxor.
  by rewrite (iter_crc_bit_shiftl 8).
Qed.

Lemma crc_table_computed : crc_table = make_crc_table.
Proof. vm_compute. reflexivity. Qed.

(** The 256 constants of crc_table are the ones make_crc_table computes from the
    polynomial x^32+x^26+...+1, whose reflected form is 0xedb88320. *)
Theorem crc_table_correct :
  crc_table = make_crc_table /\ length crc_table = 256%nat /\ poly = 0xedb88320.
Proof. split; [exact crc_table_computed|]. split; vm_compute; reflexivity. Qed.

(** ** The routine is the shift register *)
Lemma low_byte_range x : 0 <= Z.land x 0xff < 256.
Proof. change 0xff with (Z.ones 8). rewrite Z.land_ones by done. by apply Z.mod_pos_bound. Qed.

Lemma nth_make_crc_table i : 0 <= i < 256 ->
  nth (Z.to_nat i) make_crc_table 0 = Nat.iter 8 crc_bit i.
Proof.
  intros Hi. unfold make_crc_table. rewrite nth_lookup, list_lookup_fmap.
  rewrite lookup_seq_lt by lia. cbn [fmap option_fmap option_map default from_option id].
  f_equal. lia.
Qed.

Lemma int32_low_byte x y : Z.land (Z.lxor (int32 x) y) 0xff = Z.land (Z.lxor x y) 0xff.
Proof.
  apply Z.bits_inj'. intros i Hi. rewrite !Z.land_spec, !Z.lxor_spec.
  change 0xff with (Z.ones 8). destruct (decide (i < 8)).
  2:{ by rewrite Z.ones_spec_high, !andb_false_r by lia. }
  do 2 f_equal.
  rewrite <- (Z.mod_pow2_bits_low (int32 x) 8), <- (Z.mod_pow2_bits_low x 8) by lia. f_equal.
  assert (Hi32 : int32 x = x + - ((x + 2 ^ 31) / 2 ^ 32) * 2 ^ 24 * 2 ^ 8).
  { unfold int32. pose proof (Z.div_mod (x + 2 ^ 31) (2 ^ 32)). lia. }
  rewrite Hi32. by apply Z.mod_add.
Qed.

Lemma DO1_crc_byte crc b : byte b -> DO1 crc b = crc_byte crc b.
Proof.
  intros Hb. unfold DO1, crc_byte. rewrite crc_table_computed.
  rewrite int32_low_byte, nth_make_crc_table by apply low_byte_range.
  rewrite (iter8_split (Z.lxor crc b)). f_equal.
  rewrite Z.shiftr_lxor. unfold byte in Hb.
  rewrite (Z.shiftr_div_pow2 b) by done. rewrite (Z.div_small b) by (simpl; lia).
  by rewrite Z.lxor_0_r.
Qed.

Lemma do_rest_fold crc buf : Forall byte buf -> do_rest crc buf = foldl crc_byte crc buf.
Proof.
  intros Hb. revert crc. induction Hb as [|b buf Hb _ IH]; intros crc; simpl; [done|].
  by rewrite DO1_crc_byte, IH.
Qed.

Lemma crc_loop_fold crc buf : Forall byte buf -> crc_loop crc buf = foldl crc_byte crc buf.
Proof.
  remember (length buf) as n eqn:Hn. assert (Hle : (length buf <= n)%nat) by lia. clear Hn.
  revert crc buf Hle. induction n as [|n IH]; intros crc buf Hle Hb.
  { by destruct buf; [|simpl in Hle; lia]. }
  do 8 (destruct buf as [|? buf]; [by apply do_rest_fold|]).
  cbn [crc_loop]. rewrite IH by (simpl in *; first [lia | by repeat (apply Forall_cons in Hb as [_ Hb])]).
  cbn [foldl]. repeat (apply Forall_cons in Hb as [? Hb]). by rewrite !DO1_crc_byte.
Qed.

(** C37. Over every list of bytes, the table-driven routine unrolled eight bytes at a time
    computes what the bit-by-bit shift register of the polynomial computes. *)
Theorem crc32_is_shift_register crc buf :
  Forall byte buf -> crc32 crc buf = crc32_spec crc buf.
Proof. intros Hb. unfold crc32, crc32_spec. by rewrite crc_loop_fold. Qed.

(** "123456789" in ASCII, the data of the usual check value. *)
Definition check_data : list Z := [0x31; 0x32; 0x33; 0x34; 0x35; 0x36; 0x37; 0x38; 0x39].
Lemma check_data_bytes : Forall byte check_data.
Proof. repeat constructor; cbv; congruence. Qed.

Lemma crc32_is_shift_register_witness :
  crc32 0 check_data = crc32_spec 0 check_data /\ crc32_spec 0 check_data = 0xcbf43926.
Proof. split; [apply crc32_is_shift_register, check_data_bytes | vm_compute; reflexivity]. Defined.

(** A checksum can be computed buffer by buffer: the checksum of two buffers in a row
    is the checksum of the second started from the checksum of the first. *)
Theorem crc32_continues crc a b :
  Forall byte a -> Forall byte b -> crc32 crc (a ++ b)%list = crc32 (crc32 crc a) b.
Proof.
  intros Ha Hb. unfold crc32. rewrite !crc_loop_fold by (done || by apply Forall_app).
  rewrite foldl_app. by rewrite Z.lxor_assoc, Z.lxor_nilpotent, Z.lxor_0_r.
Qed.

Lemma crc32_continues_witness :
  crc32 0 (check_data ++ check_data)%list = crc32 (crc32 0 check_data) check_data.
Proof. apply crc32_continues; apply check_data_bytes. Defined.

(** ** Error detection *)
Lemma iter_crc_bit_word32 n c : word32 c -> word32 (Nat.iter n crc_bit c).
Proof. intros Hc. induction n as [|n IH]; simpl; [done|]. by apply crc_bit_word32. Qed.

Lemma crc_bit_zero z : word32 z -> crc_bit z = 0 -> z = 0.
Proof.
  intros [Hz0 Hz]. unfold crc_bit. rewrite nz_land_1. rewrite Z.shiftr_div_pow2 by done.
  change (2 ^ 1) with 2. pose proof (Zdiv2_odd_eqn z) as Hd. rewrite <- Zdiv2_div.
  destruct (Z.odd z); [|lia]. intros Hx%Z.lxor_eq. change poly with 0xedb88320 in Hx. lia.
Qed.

(** The register determines its past. *)
Lemma iter_crc_bit_inj n x y :
  word32 x -> word32 y -> Nat.iter n crc_bit x = Nat.iter n crc_bit y -> x = y.
Proof.
  intros Hx Hy H. apply Z.lxor_eq.
  assert (Hxy : word32 (Z.lxor x y)) by (by apply word32_lxor).
  assert (H0 : Nat.iter n crc_bit (Z.lxor x y) = 0).
  { by rewrite iter_crc_bit_lxor, H, Z.lxor_nilpotent. }
  clear H. induction n as [|n IH]; [done|]. apply IH.
  apply crc_bit_zero; [by apply iter_crc_bit_word32 | exact H0].
Qed.

(** A list of bytes as a number, the first byte lowest. *)
Fixpoint le_word (l : list Z) : Z :=
  match l with
  | [] => 0
  | b :: l' => Z.lxor b (Z.shiftl (le_word l') 8)
  end.

Lemma foldl_crc_byte l c :
  foldl crc_byte c l = Nat.iter (8 * length l) crc_bit (Z.lxor c (le_word l)).
Proof.
  revert c. induction l as [|b l IH]; intros c; cbn [foldl le_word length].
  { by rewrite Z.lxor_0_r. }
  rewrite IH. replace (8 * S (length l))%nat with (8 * length l + 8)%nat by lia.
  rewrite Nat.iter_add. f_equal. rewrite <- Z.lxor_assoc, iter_crc_bit_lxor.
  by rewrite (iter_crc_bit_shiftl 8).
Qed.

Lemma lxor_shiftl_add b w : byte b -> 0 <= w -> Z.lxor b (Z.shiftl w 8) = b + 256 * w.
Proof.
  intros Hb Hw. rewrite <- Z.add_nocarry_lxor, Z.shiftl_mul_pow2 by
    (done || (apply Z.bits_inj'; intros i Hi; rewrite Z.land_spec, Z.bits_0;
      destruct (decide (i < 8));
      [rewrite Z.shiftl_spec_low by lia; by rewrite andb_false_r
      |unfold byte in Hb; rewrite <- (Z.mod_small b (2 ^ 8)) by lia;
       by rewrite Z.mod_pow2_bits_high by lia])).
  change (2 ^ 8) with 256. lia.
Qed.

Lemma le_word_range l : Forall byte l -> 0 <= le_word l < 2 ^ (8 * Z.of_nat (length l)).
Proof.
  induction 1 as [|b l Hb _ IH]; cbn [le_word length]; [by simpl|].
  rewrite lxor_shiftl_add by (done || lia).
  rewrite Nat2Z.inj_succ, Z.mul_succ_r, Z.pow_add_r by lia. unfold byte in Hb.
  change (2 ^ 8) with 256. lia.
Qed.

Lemma le_word_inj l l' : Forall byte l -> Forall byte l' -> length l = length l' ->
  le_word l = le_word l' -> l = l'.
Proof.
  intros Hl. revert l'. induction Hl as [|b l Hb Hl IH]; intros l' Hl' Hlen Heq.
  { by destruct l'. }
  destruct l' as [|b' l']; [done|]. apply Forall_cons in Hl' as [Hb' Hl'].
  cbn [le_word] in Heq.
  rewrite !lxor_shiftl_add in Heq by (done || (by apply le_word_range)).
  unfold byte in *. assert (b = b' /\ le_word l = le_word l') as [-> Hw] by lia.
  f_equal. apply IH; [done| |done]. simpl in Hlen. lia.
Qed.

Lemma crc_byte_word32 r b : word32 r -> byte b -> word32 (crc_byte r b).
Proof. intros Hr Hb. apply iter_crc_bit_word32, word32_lxor; [done | by apply byte_word32]. Qed.

Lemma foldl_word32 l r : word32 r -> Forall byte l -> word32 (foldl crc_byte r l).
Proof.
  intros Hr Hl. revert r Hr. induction Hl as [|b l Hb _ IH]; intros r Hr; [done|].
  cbn [foldl]. by apply IH, crc_byte_word32.
Qed.

Lemma lxor_cancel_r a x y : Z.lxor x a = Z.lxor y a -> x = y.
Proof.
  intros H. rewrite <- (Z.lxor_0_r x), <- (Z.lxor_0_r y), <- (Z.lxor_nilpotent a).
  by rewrite <- !Z.lxor_assoc, H.
Qed.
Lemma lxor_cancel_l a x y : Z.lxor a x = Z.lxor a y -> x = y.
Proof. rewrite !(Z.lxor_comm a). apply lxor_cancel_r. Qed.

(** Over the same data, different registers stay different. *)
Lemma foldl_inj l r r' : Forall byte l -> word32 r -> word32 r' ->
  foldl crc_byte r l = foldl crc_byte r' l -> r = r'.
Proof.
  intros Hl. revert r r'. induction Hl as [|b l Hb _ IH]; intros r r' Hr Hr'; [done|].
  cbn [foldl]. intros H. apply IH in H; [|by apply crc_byte_word32..].
  assert (word32 b) by (by apply byte_word32).
  apply (iter_crc_bit_inj 8) in H; [|by apply word32_lxor..]. by apply lxor_cancel_r in H.
Qed.

Lemma crc32_burst crc pre l l' post :
  word32 crc -> Forall byte pre -> Forall byte l -> Forall byte l' -> Forall byte post ->
  length l = length l' -> (length l <= 4)%nat -> l <> l' ->
  crc32 crc (pre ++ l ++ post)%list <> crc32 crc (pre ++ l' ++ post)%list.
Proof.
  intros Hc Hpre Hl Hl' Hpost Hlen H4 Hne. unfold crc32.
  rewrite !crc_loop_fold by (repeat (apply Forall_app; split); done). rewrite !foldl_app.
  intros Heq%lxor_cancel_r. apply Hne. apply le_word_inj; try done.
  assert (Hw : forall k, Forall byte k -> (length k <= 4)%nat -> word32 (le_word k)).
  { intros k Hk Hk4. pose proof (le_word_range k Hk) as [? Hlt]. split; [done|].
    eapply Z.lt_le_trans; [exact Hlt|]. apply Z.pow_le_mono_r; lia. }
  assert (Hreg : word32 (foldl crc_byte (Z.lxor crc 0xffffffff) pre))
    by (by apply foldl_word32; [apply word32_lxor|]).
  apply foldl_inj in Heq; [|done|by apply foldl_word32..].
  rewrite (foldl_crc_byte l), (foldl_crc_byte l'), <- Hlen in Heq.
  apply iter_crc_bit_inj in Heq; [|apply word32_lxor; [done|apply Hw; [done|lia]]..].
  by apply lxor_cancel_l in Heq.
Qed.

(** Two buffers that differ only inside a window of at most four bytes have different
    checksums, wherever the window lies. *)
Theorem crc32_detects_burst crc pre l l' post :
  word32 crc -> Forall byte pre -> Forall byte l -> Forall byte l' -> Forall byte post ->
  length l = length l' -> (length l <= 4)%nat -> l <> l' ->
  crc32 crc (pre ++ l ++ post)%list <> crc32 crc (pre ++ l' ++ post)%list.
Proof. intros. by apply crc32_burst. Qed.

Lemma crc32_detects_burst_witness :
  crc32 0 (check_data ++ [1; 2; 3; 4] ++ check_data)%list <>
  crc32 0 (check_data ++ [1; 2; 4; 3] ++ check_data)%list.
Proof.
  apply crc32_detects_burst;
    [ split; [done|lia] | apply check_data_bytes
    | repeat constructor; cbv; congruence | repeat constructor; cbv; congruence
    | apply check_data_bytes | reflexivity | cbn; lia | discriminate ].
Defined.
