(* ===== verification/MkImage.v ===== *)
(** * MkImage: building and listing U-Boot images

    pkg/boot/u-boot/mkimage.c and image.h: the name tables, the image header and
    its bytes, [copy_file] with its padding and its execute-in-place checks, the
    two branches of [main] (build an image, [-l] list one) and the table of
    contents [print_header] prints.  A file is the list of its bytes.  The host
    is little endian; [sizeof_long] is its [sizeof(unsigned long)]. *)
From S2P Require Import Prelude Crc32.

(** ** image.h *)
Definition IH_CPU_INVALID : Z := 0.
Definition IH_CPU_PPC : Z := 7.
Definition IH_OS_LINUX : Z := 5.
Definition IH_TYPE_KERNEL : Z := 2.
Definition IH_TYPE_MULTI : Z := 4.
Definition IH_TYPE_SCRIPT : Z := 6.
Definition IH_COMP_GZIP : Z := 1.
Definition IH_MAGIC : Z := 0x27051956.
Definition IH_NMLEN : nat := 32.

Record image_header_t := mk_header {
  ih_magic : Z;
  ih_hcrc : Z;
  ih_time : Z;
  ih_size : Z;
  ih_load : Z;
  ih_ep : Z;
  ih_dcrc : Z;
  ih_os : Z;
  ih_arch : Z;
  ih_type : Z;
  ih_comp : Z;
  ih_name : list Z }.

Definition sizeof_header : Z := 64.

(** ** Name tables: value, short name (NULL for none), long name.  The row with
    value -1 that ends a table is the end of the list. *)
Definition table_entry_t : Type := Z * option string * string.

Definition arch_name : list table_entry_t := [
  (0, None, "Invalid CPU");
  (1, Some "alpha", "Alpha");
  (2, Some "arm", "ARM");
  (3, Some "x86", "Intel x86");
  (4, Some "ia64", "IA64");
  (5, Some "mips", "MIPS");
  (6, Some "mips64", "MIPS 64 Bit");
  (7, Some "ppc", "PowerPC");
  (8, Some "s390", "IBM S390");
  (9, Some "sh", "SuperH");
  (10, Some "sparc", "SPARC");
  (11, Some "sparc64", "SPARC 64 Bit");
  (12, Some "m68k", "MC68000") ].

Definition os_name : list table_entry_t := [
  (0, None, "Invalid OS");
  (1, Some "openbsd", "OpenBSD");
  (2, Some "netbsd", "NetBSD");
  (3, Some "freebsd", "FreeBSD");
  (4, Some "4_4bsd", "4_4BSD");
  (5, Some "linux", "Linux");
  (6, Some "svr4", "SVR4");
  (7, Some "esix", "Esix");
  (8, Some "solaris", "Solaris");
  (9, Some "irix", "Irix");
  (10, Some "sco", "SCO");
  (11, Some "dell", "Dell");
  (12, Some "ncr", "NCR");
  (13, Some "lynxos", "LynxOS");
  (14, Some "vxworks", "VxWorks");
  (15, Some "psos", "pSOS");
  (16, Some "qnx", "QNX");
  (17, Some "u-boot", "U-Boot");
  (18, Some "rtems", "RTEMS");
  (19, Some "artos", "ARTOS") ].

Definition type_name : list table_entry_t := [
  (0, None, "Invalid Image");
  (1, Some "standalone", "Standalone Program");
  (2, Some "kernel", "Kernel Image");
  (3, Some "ramdisk", "RAMDisk Image");
  (4, Some "multi", "Multi-File Image");
  (5, Some "firmware", "Firmware");
  (6, Some "script", "Script");
  (7, Some "filesystem", "Filesystem Image") ].

Definition comp_name : list table_entry_t := [
  (0, Some "none", "uncompressed");
  (1, Some "gzip", "gzip compressed");
  (2, Some "bzip2", "bzip2 compressed") ].

Definition tolower (c : Ascii.ascii) : Ascii.ascii :=
  if in_range 65 90 (code c) then Ascii.ascii_of_nat (Z.to_nat (code c + 32)) else c.
(** [strcasecmp(a, b) == 0] *)
Fixpoint strcaseeq (a b : string) : bool :=
  match a, b with
  | EmptyString, EmptyString => true
  | String c a', String d b' => Ascii.eqb (tolower c) (tolower d) && strcaseeq a' b'
  | _, _ => false
  end.

Fixpoint put_table_entry (table : list table_entry_t) (msg : string) (type : Z) : string :=
  match table with
  | [] => msg
  | (val, _, lname) :: table' => if val =? type then lname else put_table_entry table' msg type
  end.

Fixpoint get_table_entry (table : list table_entry_t) (name : string) : Z :=
  match table with
  | [] => -1
  | (val, Some sname, _) :: table' =>
      if strcaseeq sname name then val else get_table_entry table' name
  | (_, None, _) :: table' => get_table_entry table' name
  end.

Definition put_arch := put_table_entry arch_name "Unknown Architecture".
Definition put_os := put_table_entry os_name "Unknown OS".
Definition put_type := put_table_entry type_name "Unknown Image".
Definition put_comp := put_table_entry comp_name "Unknown Compression".
Definition get_arch := get_table_entry arch_name.
Definition get_os := get_table_entry os_name.
Definition get_type := get_table_entry type_name.
Definition get_comp := get_table_entry comp_name.

(** ** Bytes of a header: network byte order *)
Definition htonl (z : Z) : list Z :=
  [ Z.land (Z.shiftr z 24) 0xff; Z.land (Z.shiftr z 16) 0xff;
    Z.land (Z.shiftr z 8) 0xff; Z.land z 0xff ].
Definition ntohl (a b c d : Z) : Z :=
  Z.lor (Z.lor (Z.lor (Z.shiftl a 24) (Z.shiftl b 16)) (Z.shiftl c 8)) d.

Definition header_bytes (h : image_header_t) : list Z :=
  (htonl (ih_magic h) ++ htonl (ih_hcrc h) ++ htonl (ih_time h) ++ htonl (ih_size h) ++
   htonl (ih_load h) ++ htonl (ih_ep h) ++ htonl (ih_dcrc h) ++
   [ih_os h; ih_arch h; ih_type h; ih_comp h] ++ ih_name h)%list.

(** [memcpy(hdr, ptr, sizeof(image_header_t))] *)
Definition read_header (bytes : list Z) : option image_header_t :=
  match bytes with
  | m0 :: m1 :: m2 :: m3 :: k0 :: k1 :: k2 :: k3 :: t0 :: t1 :: t2 :: t3 ::
    s0 :: s1 :: s2 :: s3 :: l0 :: l1 :: l2 :: l3 :: e0 :: e1 :: e2 :: e3 ::
    d0 :: d1 :: d2 :: d3 :: os :: arch :: type :: comp :: rest =>
      if (IH_NMLEN <=? length rest)%nat then
        Some (mk_header (ntohl m0 m1 m2 m3) (ntohl k0 k1 k2 k3) (ntohl t0 t1 t2 t3)
                (ntohl s0 s1 s2 s3) (ntohl l0 l1 l2 l3) (ntohl e0 e1 e2 e3)
                (ntohl d0 d1 d2 d3) os arch type comp (take IH_NMLEN rest))
      else None
  | _ => None
  end.

Definition set_hcrc (h : image_header_t) (c : Z) : image_header_t :=
  mk_header (ih_magic h) c (ih_time h) (ih_size h) (ih_load h) (ih_ep h) (ih_dcrc h)
    (ih_os h) (ih_arch h) (ih_type h) (ih_comp h) (ih_name h).

(** ** Building *)
Inductive image_error :=
| XipEntryPoint        (** For XIP, the entry point must be the load addr + 64 *)
| XipTooSmall          (** too small for XIP *)
| XipBadBuffer         (** has invalid buffer for XIP *)
| CantRead             (** mmap refuses an empty file *)
| WriteError
| BadSize
| BadMagic.

Section MkImage.
Context (sizeof_long : Z).

Definition size_t (z : Z) : Z := z mod 2 ^ (8 * sizeof_long).

(** The entry point [main] settles on. *)
Definition entry_point (xflag eflag : bool) (addr ep : Z) : Z + image_error :=
  let ep' := if eflag then ep
             else if xflag then (addr + sizeof_header) mod 2 ^ 32 else addr in
  if xflag && negb (ep' =? size_t (addr + sizeof_header)) then inr XipEntryPoint else inl ep'.

(** [copy_file]: the bytes appended to the image.  [mmap] of no bytes fails. *)
Definition copy_file (xflag pad : bool) (data : list Z) : list Z + image_error :=
  let st_size := Z.of_nat (length data) in
  if st_size =? 0 then inr CantRead
  else if xflag && (st_size mod 2 ^ 32 <? sizeof_header) then inr XipTooSmall
  else if xflag && negb (forallb (fun p => p =? 0xff) (take 64 data)) then inr XipBadBuffer
  else
    let offset := if xflag then sizeof_header else 0 in
    let size := int32 (st_size - offset) in
    if size <? 0 then inr WriteError
    else
      let tail := size mod 4 in
      inl (take (Z.to_nat size) (drop (Z.to_nat offset) data) ++
           (if pad && negb (tail =? 0) then repeat 0 (Z.to_nat (4 - tail)) else []))%list.

(** [size = htonl(sbuf.st_size); write(ifd, (char * )&size, sizeof(size))]: the
    bytes of the 32-bit number, then those of the upper part of the long. *)
Definition size_entry (n : Z) : list Z :=
  (htonl n ++ repeat 0 (Z.to_nat (sizeof_long - 4)))%list.

(** The first loop: one entry a file, and a zero entry. *)
Definition size_list (files : list (list Z)) : list Z :=
  (flat_map (fun f => size_entry (Z.of_nat (length f))) files ++ size_entry 0)%list.

(** The second loop: every file but the last is padded. *)
Fixpoint copy_files (xflag : bool) (files : list (list Z)) : list Z + image_error :=
  match files with
  | [] => inl []
  | [f] => copy_file xflag false f
  | f :: files' =>
      match copy_file xflag true f with
      | inr e => inr e
      | inl b => match copy_files xflag files' with
                 | inr e => inr e
                 | inl bs => inl (b ++ bs)%list
                 end
      end
  end.

(** Everything after the header. *)
Definition image_data (xflag : bool) (opt_type : Z) (files : list (list Z))
    : list Z + image_error :=
  if (opt_type =? IH_TYPE_MULTI) || (opt_type =? IH_TYPE_SCRIPT) then
    match copy_files xflag files with
    | inr e => inr e
    | inl bs => inl (size_list files ++ bs)%list
    end
  else match files with
       | f :: _ => copy_file xflag false f
       | [] => inl []
       end.

(** [strncpy(ih_name, name, IH_NMLEN)] *)
Definition strncpy_name (name : list Z) : list Z :=
  (take IH_NMLEN name ++ repeat 0 (IH_NMLEN - length name))%list.

(** The options of [main]: a file list comes from [-d a:b:c]. *)
Record options := mk_options {
  opt_os : Z; opt_arch : Z; opt_type : Z; opt_comp : Z;
  xflag : bool; eflag : bool; addr : Z; ep : Z; name : list Z;
  files : list (list Z) }.

(** The length argument of [crc32] is an [unsigned int]. *)
Definition crc32_len (crc : Z) (buf : list Z) (len : Z) : Z :=
  crc32 crc (take (Z.to_nat (len mod 2 ^ 32)) buf).

Definition new_header (o : options) (entry mtime : Z) (data : list Z) : image_header_t :=
  let size := Z.of_nat (length data) in
  mk_header IH_MAGIC 0 (mtime mod 2 ^ 32) (size mod 2 ^ 32) (addr o) entry (crc32_len 0 data size)
    (opt_os o) (opt_arch o) (opt_type o) (opt_comp o) (strncpy_name (name o)).

(** [main] without [-l]; [mtime] is the time stamp of the file. *)
Definition build_image (o : options) (mtime : Z) : list Z + image_error :=
  match entry_point (xflag o) (eflag o) (addr o) (ep o) with
  | inr e => inr e
  | inl entry =>
      match image_data (xflag o) (opt_type o) (files o) with
      | inr e => inr e
      | inl data =>
          let h := new_header o entry mtime data in
          let checksum := crc32 0 (header_bytes h) in
          inl (header_bytes (set_hcrc h checksum) ++ data)%list
      end
  end.

(** ** Listing: [main] with [-l].  The two checksums only warn. *)
Record listing := mk_listing {
  header_checksum_ok : bool;
  data_checksum_ok : bool;
  listed : image_header_t }.

Definition list_image (image : list Z) : listing + image_error :=
  if Z.of_nat (length image) mod 2 ^ 32 <? sizeof_header then inr BadSize
  else match read_header image with
       | None => inr BadSize
       | Some h =>
           if negb (ih_magic h =? IH_MAGIC) then inr BadMagic
           else
             inl (mk_listing
               (crc32 0 (header_bytes (set_hcrc h 0)) =? ih_hcrc h)
               (crc32_len 0 (drop 64 image) (Z.of_nat (length image) - sizeof_header) =? ih_dcrc h) h)
       end.

(** The line "Image Name" of [print_header]: ["%.*s"] of at most IH_NMLEN bytes, up to the first
    NUL. *)
Fixpoint shown (n : nat) (s : list Z) : list Z :=
  match n, s with
  | S n', c :: s' => if c =? 0 then [] else c :: shown n' s'
  | _, _ => []
  end.
Definition shown_name (h : image_header_t) : list Z := shown IH_NMLEN (ih_name h).

(** ** The table of contents of [print_header] *)

(** [len_ptr[i]] for [i] from 0 up to the first zero, through [ntohl]: an
    entry is [sizeof_long] bytes of the mapped file, of which [ntohl] keeps the
    first four; [fuel] bounds the number of entries. *)
Fixpoint len_list (fuel : nat) (bytes : list Z) : list Z :=
  match fuel with
  | O => []
  | S fuel' =>
      let entry := take (Z.to_nat sizeof_long) bytes in
      if forallb (fun b => b =? 0) entry then []
      else
        (match entry with a :: b :: c :: d :: _ => ntohl a b c d | _ => 0 end)
          :: len_list fuel' (drop (Z.to_nat sizeof_long) bytes)
  end.

(** The second loop: size and offset of each image; [size += 3; size &= ~3;
    pos += size;] in [uint32_t]. *)
Fixpoint contents (pos : Z) (entries : list Z) : list (Z * Z) :=
  match entries with
  | [] => []
  | size :: entries' =>
      (size, pos) :: contents ((pos + Z.land ((size + 3) mod 2 ^ 32) (Z.lnot 3)) mod 2 ^ 32) entries'
  end.

(** The lines under "Contents:", a size each, with an offset for the images
    after the first of a script; [None] for the other types. *)
Definition print_contents (type : Z) (image : list Z) : option (list (Z * option Z)) :=
  if (type =? IH_TYPE_MULTI) || (type =? IH_TYPE_SCRIPT) then
    let entries := len_list (length image) (drop 64 image) in
    let ptrs := Z.of_nat (length entries) in
    Some (imap (fun i e => (e.1, if (type =? IH_TYPE_SCRIPT) && (0 <? i)%nat then Some e.2 else None))
            (contents ((sizeof_header + ptrs * sizeof_long) mod 2 ^ 32) entries))
  else None.
End MkImage.
