(* ===== verification/MkImageProps.v ===== *)
(** * MkImageProps: what a built image holds

    An image lists back with the header it was given and with both checksums
    right; corrupted data is noticed; the short names of the tables are found
    and printed; a multi-file image is read back file by file, with 4-byte
    longs; and where the program and its documentation part. *)
From S2P Require Import Prelude Crc32 MkImage.

(** ** Network byte order *)
Lemma byte_land x : byte (Z.land x 0xff).
Proof. apply low_byte_range. Qed.

Lemma htonl_bytes z : Forall byte (htonl z).
Proof. repeat constructor; apply byte_land. Qed.

Lemma ntohl_htonl z : word32 z ->
  ntohl (Z.land (Z.shiftr z 24) 0xff) (Z.land (Z.shiftr z 16) 0xff)
        (Z.land (Z.shiftr z 8) 0xff) (Z.land z 0xff) = z.
Proof.
  intros Hz. unfold ntohl. apply Z.bits_inj'. intros i Hi.
  change 0xff with (Z.ones 8).
  rewrite !Z.lor_spec, !Z.shiftl_spec, !Z.land_spec by done.
  apply word32_bits in Hz as [Hz0 Hz].
  assert (Hone : forall j, Z.testbit (Z.ones 8) j = bool_decide (0 <= j < 8)).
  { intros j. rewrite Z.testbit_ones by done. case_bool_decide; lia. }
  rewrite !Hone.
  destruct (decide (32 <= i)).
  { rewrite (Hz i) by done. rewrite !bool_decide_false by lia. by rewrite !andb_false_r. }
  assert (Hs : forall k, 0 <= k -> k <= i -> Z.testbit (Z.shiftr z k) (i - k) = Z.testbit z i).
  { intros k Hk Hki. rewrite Z.shiftr_spec by lia. f_equal. lia. }
  repeat match goal with |- context [bool_decide ?P] =>
    destruct (bool_decide_reflect P); [|] end; try lia;
    rewrite ?andb_true_r, ?andb_false_r, ?orb_false_r, ?orb_false_l; try (by rewrite Hs by lia); done.
Qed.

(** ** Headers *)
Record header_ok (h : image_header_t) : Prop := {
  ok_magic : word32 (ih_magic h);
  ok_hcrc : word32 (ih_hcrc h);
  ok_time : word32 (ih_time h);
  ok_size : word32 (ih_size h);
  ok_load : word32 (ih_load h);
  ok_ep : word32 (ih_ep h);
  ok_dcrc : word32 (ih_dcrc h);
  ok_os : byte (ih_os h);
  ok_arch : byte (ih_arch h);
  ok_type : byte (ih_type h);
  ok_comp : byte (ih_comp h);
  ok_name : Forall byte (ih_name h);
  ok_length : length (ih_name h) = IH_NMLEN }.

Lemma read_header_bytes h rest : header_ok h -> read_header (header_bytes h ++ rest)%list = Some h.
Proof.
  intros [? ? ? ? ? ? ? _ _ _ _ _ Hlen]. unfold header_bytes, htonl. cbn [app].
  unfold read_header. rewrite length_app, Hlen.
  replace (IH_NMLEN <=? IH_NMLEN + length rest)%nat with true by (symmetry; apply Nat.leb_le; lia).
  rewrite !ntohl_htonl by done. rewrite take_app_length' by done. by destruct h.
Qed.

Lemma header_bytes_length h : length (ih_name h) = IH_NMLEN -> length (header_bytes h) = 64%nat.
Proof. intros H. unfold header_bytes. rewrite !length_app, H. done. Qed.

Lemma header_bytes_bytes h : header_ok h -> Forall byte (header_bytes h).
Proof.
  intros [_ _ _ _ _ _ _ ? ? ? ? ? _]. unfold header_bytes.
  repeat (apply Forall_app; split); try apply htonl_bytes; [|done].
  by repeat (apply Forall_cons; split; [done|]).
Qed.

Lemma crc32_word32 c buf : word32 c -> Forall byte buf -> word32 (crc32 c buf).
Proof.
  intros Hc Hb. unfold crc32. rewrite crc_loop_fold by done.
  apply word32_lxor; [|done]. apply foldl_word32; [by apply word32_lxor | done].
Qed.

(** ** Building and listing *)
Record options_ok (o : options) : Prop := {
  ook_os : byte (opt_os o);
  ook_arch : byte (opt_arch o);
  ook_type : byte (opt_type o);
  ook_comp : byte (opt_comp o);
  ook_addr : word32 (addr o);
  ook_ep : word32 (ep o);
  ook_name : Forall byte (name o);
  ook_files : Forall (Forall byte) (files o) }.

Lemma strncpy_name_length n : length (strncpy_name n) = IH_NMLEN.
Proof. unfold strncpy_name. rewrite length_app, length_take, repeat_length. lia. Qed.

Lemma Forall_byte_repeat n : Forall byte (repeat 0 n).
Proof. induction n; constructor; [|done]. done. Qed.

Lemma strncpy_name_bytes n : Forall byte n -> Forall byte (strncpy_name n).
Proof.
  intros H. apply Forall_app. split; [by apply Forall_take | apply Forall_byte_repeat].
Qed.

Lemma copy_file_bytes xflag pad f b : copy_file xflag pad f = inl b -> Forall byte f -> Forall byte b.
Proof.
  unfold copy_file. intros H Hf. repeat destruct_match; try done; injection H as <-;
    apply Forall_app; (split; [by apply Forall_take, Forall_drop|]); try constructor;
    apply Forall_byte_repeat.
Qed.

Lemma copy_files_bytes xflag fs bs :
  copy_files xflag fs = inl bs -> Forall (Forall byte) fs -> Forall byte bs.
Proof.
  revert bs. induction fs as [|f fs IH]; intros bs H Hfs; [by injection H as <-|].
  apply Forall_cons in Hfs as [Hf Hfs]. cbn [copy_files] in H.
  destruct fs as [|f' fs]; [by eapply copy_file_bytes|].
  destruct (copy_file xflag true f) as [b|] eqn:Eb; [|done].
  destruct (copy_files xflag (f' :: fs)) as [bs'|]; [|done]. injection H as <-.
  apply Forall_app. split; [by eapply copy_file_bytes | by apply IH].
Qed.

Lemma image_data_bytes w xflag t fs d :
  image_data w xflag t fs = inl d -> Forall (Forall byte) fs -> Forall byte d.
Proof.
  unfold image_data. intros H Hfs. destruct (_ || _).
  - destruct (copy_files xflag fs) eqn:E; [|done]. injection H as <-.
    apply Forall_app. split; [|by eapply copy_files_bytes].
    assert (Hse : forall n, Forall byte (size_entry w n)).
    { intros n. apply Forall_app. split; [apply htonl_bytes | apply Forall_byte_repeat]. }
    apply Forall_app. split; [|done]. clear -Hse. induction fs; cbn [flat_map]; [done|].
    by apply Forall_app.
  - destruct fs as [|f fs]; [by injection H as <-|]. apply Forall_cons in Hfs as [Hf _].
    by eapply copy_file_bytes.
Qed.

Lemma entry_point_word32 w x e a p v :
  word32 a -> word32 p -> entry_point w x e a p = inl v -> word32 v.
Proof.
  intros Ha Hp. unfold entry_point. destruct (x && _); [done|]. intros [= <-].
  destruct e; [done|]. destruct x; [|done]. unfold word32. by apply Z.mod_pos_bound.
Qed.

Lemma crc32_len_all buf : Z.of_nat (length buf) < 2 ^ 32 ->
  crc32_len 0 buf (Z.of_nat (length buf)) = crc32 0 buf.
Proof. intros Hl. unfold crc32_len. by rewrite Z.mod_small, Nat2Z.id, firstn_all by lia. Qed.

Lemma new_header_fields o entry mtime data :
  word32 mtime -> Z.of_nat (length data) < 2 ^ 32 ->
  new_header o entry mtime data =
  mk_header IH_MAGIC 0 mtime (Z.of_nat (length data)) (addr o) entry (crc32 0 data)
      (opt_os o) (opt_arch o) (opt_type o) (opt_comp o) (strncpy_name (name o)).
Proof.
  intros [? ?] Hl. unfold new_header. by rewrite crc32_len_all, !Z.mod_small by lia.
Qed.

Lemma new_header_ok o entry mtime data :
  options_ok o -> word32 entry -> word32 mtime -> Forall byte data ->
  Z.of_nat (length data) < 2 ^ 32 ->
  header_ok (set_hcrc (new_header o entry mtime data)
    (crc32 0 (header_bytes (new_header o entry mtime data)))) /\
  header_ok (new_header o entry mtime data).
Proof.
  intros [] He Hm Hd Hl. rewrite !new_header_fields by done.
  set (h0 := mk_header _ _ _ _ _ _ _ _ _ _ _ _).
  assert (H0 : header_ok h0).
  { split; cbn; try done; try (by split; lia).
    - by apply crc32_word32.
    - by apply strncpy_name_bytes.
    - apply strncpy_name_length. }
  split; [|done].
  assert (Hc : word32 (crc32 0 (header_bytes h0)))
    by (apply crc32_word32; [done | by apply header_bytes_bytes]).
  destruct H0. by split.
Qed.

Lemma list_built h data :
  header_ok h -> ih_magic h = IH_MAGIC -> 64 + Z.of_nat (length data) < 2 ^ 32 ->
  list_image (header_bytes h ++ data)%list =
  inl (mk_listing (crc32 0 (header_bytes (set_hcrc h 0)) =? ih_hcrc h)
         (crc32 0 data =? ih_dcrc h) h).
Proof.
  intros Hh Hm Hl. unfold list_image.
  pose proof (header_bytes_length h (ok_length h Hh)) as Hlen.
  rewrite length_app, Hlen, Nat2Z.inj_add, Z.mod_small by lia.
  replace (_ <? sizeof_header) with false by (symmetry; apply Z.ltb_ge; unfold sizeof_header; lia).
  rewrite read_header_bytes, Hm, Z.eqb_refl by done. cbn [negb].
  rewrite drop_app_length' by done. unfold sizeof_header. rewrite Z.add_simpl_l.
  by rewrite crc32_len_all by lia.
Qed.

(** What is shown of a name without NULs. *)
Lemma shown_cut k s m : Forall (fun c => c <> 0) s -> shown k (take k s ++ repeat 0 m)%list = take k s.
Proof.
  revert s. induction k as [|k IH]; intros s Hs; [done|].
  destruct s as [|c s]; [by destruct m|]. apply Forall_cons in Hs as [Hc Hs]. cbn.
  rewrite (proj2 (Z.eqb_neq _ _) Hc). by rewrite IH.
Qed.
Lemma shown_strncpy n : Forall (fun c => c <> 0) n -> shown IH_NMLEN (strncpy_name n) = take IH_NMLEN n.
Proof. apply shown_cut. Qed.

Lemma build_image_parts w o mtime img :
  build_image w o mtime = inl img ->
  exists entry data, entry_point w (xflag o) (eflag o) (addr o) (ep o) = inl entry /\
    image_data w (xflag o) (opt_type o) (files o) = inl data /\
    img = (header_bytes (set_hcrc (new_header o entry mtime data)
             (crc32 0 (header_bytes (new_header o entry mtime data)))) ++ data)%list.
Proof.
  unfold build_image. destruct (entry_point _ _ _ _ _) as [entry|]; [|done].
  destruct (image_data _ _ _ _) as [data|]; [|done]. intros [= <-]. by exists entry, data.
Qed.

(** C38. An image of less than 2^32 bytes that mkimage builds, from codes of one byte and
    words of 32 bits, is listed by mkimage -l with both checksums right and with the load
    address, entry point (the one that was given, or the default of entry_point), time,
    size, operating system, architecture, type and compression of its options, and with the
    first 32 bytes of the name: a longer name is cut. *)
Theorem built_image_lists w o mtime img :
  options_ok o -> word32 mtime -> build_image w o mtime = inl img ->
  Z.of_nat (length img) < 2 ^ 32 ->
  exists entry data h,
    entry_point w (xflag o) (eflag o) (addr o) (ep o) = inl entry /\
    image_data w (xflag o) (opt_type o) (files o) = inl data /\
    drop 64 img = data /\
    list_image img = inl (mk_listing true true h) /\
    ih_load h = addr o /\ ih_ep h = entry /\ ih_time h = mtime /\
    ih_size h = Z.of_nat (length data) /\
    ih_os h = opt_os o /\ ih_arch h = opt_arch o /\ ih_type h = opt_type o /\
    ih_comp h = opt_comp o /\ ih_name h = strncpy_name (name o) /\
    (Forall (fun c => c <> 0) (name o) -> shown_name h = take IH_NMLEN (name o)).
Proof.
  intros Ho Hm Hb Hl. apply build_image_parts in Hb as (entry & data & He & Hd & ->).
  assert (Hbd : Forall byte data) by (eapply image_data_bytes; [done | apply Ho]).
  assert (Hwe : word32 entry) by (by apply (entry_point_word32 _ _ _ _ _ _ (ook_addr o Ho) (ook_ep o Ho) He)).
  set (h0 := new_header o entry mtime data) in *.
  set (h := set_hcrc h0 (crc32 0 (header_bytes h0))) in *.
  assert (Hlh : length (header_bytes h) = 64%nat)
    by (apply header_bytes_length, strncpy_name_length).
  rewrite length_app, Hlh in Hl.
  destruct (new_header_ok o entry mtime data Ho Hwe Hm Hbd) as [Hh _]; [lia|].
  exists entry, data, h. do 2 (split; [done|]). split; [by rewrite drop_app_length'|].
  split; [|unfold h, h0; rewrite new_header_fields by (done || lia); split_and!; try done;
    intros Hn; by apply shown_strncpy].
  rewrite list_built by (done || lia). do 2 f_equal.
  - apply (Z.eqb_refl (crc32 0 (header_bytes h0))).
  - unfold h, h0. rewrite new_header_fields by (done || lia). apply (Z.eqb_refl (crc32 0 data)).
Qed.

(** A small kernel image. *)
Definition kernel_options : options :=
  mk_options IH_OS_LINUX 5 IH_TYPE_KERNEL IH_COMP_GZIP false true 0x80002000 0x80002010
    [0x72; 0x67] [[1; 2; 3; 4; 5; 6]].
Definition kernel_image : list Z :=
  match build_image 4 kernel_options 0x44000000 with inl img => img | inr _ => [] end.

Lemma kernel_options_ok : options_ok kernel_options.
Proof. split; cbn; repeat constructor; cbv; congruence. Qed.
Lemma kernel_image_built : build_image 4 kernel_options 0x44000000 = inl kernel_image.
Proof. vm_compute. reflexivity. Qed.

Lemma built_image_lists_witness :
  exists entry data h, entry = 0x80002010 /\ data = [1; 2; 3; 4; 5; 6] /\
    drop 64 kernel_image = data /\ list_image kernel_image = inl (mk_listing true true h) /\
    ih_ep h = entry.
Proof.
  destruct (built_image_lists 4 kernel_options 0x44000000 kernel_image) as
    (entry & data & h & He & Hd & Hdr & Hl & _ & Hep & _);
    [apply kernel_options_ok | split; [done | reflexivity] | apply kernel_image_built
    | vm_compute; reflexivity |].
  injection He as <-. injection Hd as <-. exists 0x80002010, [1; 2; 3; 4; 5; 6], h. auto.
Defined.

(** Changing up to four neighbouring bytes of the data of a built image makes mkimage
    -l warn that the data is corrupted. *)
Theorem corrupted_data_is_noticed w o mtime img pre l l' post :
  options_ok o -> word32 mtime -> build_image w o mtime = inl img ->
  Z.of_nat (length img) < 2 ^ 32 ->
  drop 64 img = (pre ++ l ++ post)%list -> Forall byte l' ->
  length l = length l' -> (length l <= 4)%nat -> l <> l' ->
  exists ok h, list_image (take 64 img ++ pre ++ l' ++ post)%list = inl (mk_listing ok false h).
Proof.
  intros Ho Hm Hb Hl Hdrop Hl' Hlen H4 Hne.
  apply build_image_parts in Hb as (entry & data & He & Hd & ->).
  assert (Hbd : Forall byte data) by (eapply image_data_bytes; [done | apply Ho]).
  assert (Hwe : word32 entry) by (by apply (entry_point_word32 _ _ _ _ _ _ (ook_addr o Ho) (ook_ep o Ho) He)).
  set (h0 := new_header o entry mtime data) in *.
  set (h := set_hcrc h0 (crc32 0 (header_bytes h0))) in *.
  assert (Hlh : length (header_bytes h) = 64%nat)
    by (apply header_bytes_length, strncpy_name_length).
  rewrite drop_app_length' in Hdrop by done. rewrite take_app_length' by done.
  rewrite length_app, Hlh in Hl.
  destruct (new_header_ok o entry mtime data Ho Hwe Hm Hbd) as [Hh _]; [lia|].
  assert (Hsame : length (pre ++ l' ++ post)%list = length data)
    by (rewrite Hdrop, !length_app; lia).
  rewrite list_built by (done || rewrite Hsame; lia).
  eexists _, h. do 2 f_equal. apply Z.eqb_neq. replace (ih_dcrc h) with (crc32 0 data)
    by (unfold h, h0; by rewrite new_header_fields by (done || lia)).
  rewrite Hdrop in *.
  apply Forall_app in Hbd as [Hpre Hbd]. apply Forall_app in Hbd as [Hbl Hpost].
  intros Heq. symmetry in Heq. revert Heq.
  by apply crc32_burst.
Qed.

Lemma corrupted_data_is_noticed_witness :
  exists ok h, list_image (take 64 kernel_image ++ [1; 2] ++ [4; 3] ++ [5; 6])%list =
    inl (mk_listing ok false h).
Proof.
  apply (corrupted_data_is_noticed 4 kernel_options 0x44000000 kernel_image [1; 2] [3; 4] [4; 3] [5; 6]);
    [ apply kernel_options_ok | split; [done | reflexivity] | apply kernel_image_built
    | vm_compute; reflexivity | vm_compute; reflexivity
    | repeat constructor; cbv; congruence | reflexivity | cbn; lia | discriminate ].
Defined.

(** ** Name tables *)
Definition name_tables : list (list table_entry_t) := [arch_name; os_name; type_name; comp_name].

Lemma get_table_entry_sound table name v :
  get_table_entry table name = v -> v <> -1 ->
  exists sname lname, (v, Some sname, lname) ∈ table /\ strcaseeq sname name = true.
Proof.
  induction table as [|[[val sn] ln] table IH]; cbn [get_table_entry]; [congruence|].
  intros H Hv. destruct sn as [sn|].
  - destruct (strcaseeq sn name) eqn:E; [subst val; exists sn, ln; set_solver|].
    destruct (IH H Hv) as (s & l & ? & ?). exists s, l. set_solver.
  - destruct (IH H Hv) as (s & l & ? & ?). exists s, l. set_solver.
Qed.

Definition row_ok (table : list table_entry_t) (r : table_entry_t) : bool :=
  (put_table_entry table "" r.1.1 =? r.2)%string &&
  match r.1.2 with Some s => get_table_entry table s =? r.1.1 | None => true end.

Lemma rows_ok : forallb (fun table => forallb (row_ok table) table) name_tables = true.
Proof. reflexivity. Qed.

Lemma put_table_entry_msg table msg msg' v :
  v ∈ table.*1.*1 -> put_table_entry table msg v = put_table_entry table msg' v.
Proof.
  induction table as [|[[val sn] ln] table IH]; cbn; [by intros ?%elem_of_nil|].
  intros Hv. destruct (val =? v) eqn:E; [done|]. bool_to_prop. apply IH. set_solver.
Qed.

(** A name mkimage accepts for an architecture, system, type or compression gives a
    value whose row of the table has that short name, found again by the short name itself,
    and whose long name is the one printed. *)
Theorem names_round_trip table msg name v :
  table ∈ name_tables -> get_table_entry table name = v -> v <> -1 ->
  exists sname lname, strcaseeq sname name = true /\ get_table_entry table sname = v /\
    (v, Some sname, lname) ∈ table /\ put_table_entry table msg v = lname.
Proof.
  intros Ht Hg Hv. destruct (get_table_entry_sound _ _ _ Hg Hv) as (s & l & Hin & Hs).
  exists s, l. split; [done|].
  pose proof rows_ok as Hok. rewrite forallb_forall in Hok.
  specialize (Hok table ltac:(by apply list_elem_of_In)). rewrite forallb_forall in Hok.
  specialize (Hok _ ltac:(by apply list_elem_of_In)). unfold row_ok in Hok. cbn in Hok.
  bool_to_prop. split; [done|]. split; [done|].
  rewrite (put_table_entry_msg table msg "" v); [done|].
  apply (list_elem_of_fmap_2 fst _ (v, Some s)). by apply (list_elem_of_fmap_2 fst _ (v, Some s, l)).
Qed.

Lemma names_round_trip_witness :
  exists sname lname, strcaseeq sname "MIPS" = true /\ get_table_entry arch_name sname = 5 /\
    (5, Some sname, lname) ∈ arch_name /\ put_table_entry arch_name "Unknown Architecture" 5 = lname.
Proof. apply (names_round_trip arch_name "Unknown Architecture" "MIPS" 5); [set_solver | done..]. Defined.

(** ** Multi-file images *)

(** The list of 32-bit sizes image.h documents, and the images behind it, each
    at a multiple of four. *)
Fixpoint multi_entries (data : list Z) : list Z * list Z :=
  match data with
  | a :: b :: c :: d :: rest =>
      let n := ntohl a b c d in
      if n =? 0 then ([], rest)
      else let (l, r) := multi_entries rest in (n :: l, r)
  | _ => ([], data)
  end.
Definition round4 (n : Z) : Z := (n + 3) / 4 * 4.
Fixpoint multi_split (sizes : list Z) (rest : list Z) : list (list Z) :=
  match sizes with
  | [] => []
  | n :: ns => take (Z.to_nat n) rest :: multi_split ns (drop (Z.to_nat (round4 n)) rest)
  end.

(** A file [stat] and [copy_file] measure without wrapping. *)
Definition file_ok (f : list Z) : Prop := 0 < Z.of_nat (length f) < 2 ^ 31.

Lemma copy_file_plain pad f : file_ok f ->
  copy_file false pad f =
  inl (f ++ repeat 0 (Z.to_nat (if pad then round4 (Z.of_nat (length f)) - Z.of_nat (length f) else 0)))%list.
Proof.
  intros Hf. unfold copy_file, file_ok in *. cbn [andb].
  replace (_ =? 0) with false by (symmetry; apply Z.eqb_neq; lia).
  rewrite Z.sub_0_r, int32_small by lia.
  replace (_ <? 0) with false by (symmetry; apply Z.ltb_ge; lia).
  change (Z.to_nat 0) with 0%nat at 1. rewrite drop_0, Nat2Z.id, firstn_all. do 2 f_equal.
  destruct pad; [|done]. cbn [andb]. unfold round4.
  pose proof (Z.div_mod (Z.of_nat (length f)) 4 ltac:(lia)).
  pose proof (Z.mod_pos_bound (Z.of_nat (length f)) 4 ltac:(lia)).
  destruct (_ mod 4 =? 0) eqn:E; bool_to_prop; cbn [negb].
  - replace ((Z.of_nat (length f) + 3) / 4) with (Z.of_nat (length f) / 4)
      by (apply Z.div_unique with (r := 3); lia).
    by replace (_ / 4 * 4 - _) with 0 by lia.
  - replace ((Z.of_nat (length f) + 3) / 4) with (Z.of_nat (length f) / 4 + 1)
      by (apply Z.div_unique with (r := Z.of_nat (length f) mod 4 - 1); lia).
    do 2 f_equal. lia.
Qed.

Lemma copy_files_split fs : fs <> [] -> Forall file_ok fs ->
  exists bs, copy_files false fs = inl bs /\
    multi_split ((fun f => Z.of_nat (length f)) <$> fs) bs = fs.
Proof.
  induction fs as [|f fs IH]; intros Hne Hok; [done|]. apply Forall_cons in Hok as [Hf Hok].
  cbn [copy_files fmap list_fmap]. destruct fs as [|f' fs].
  - rewrite copy_file_plain by done. eexists. split; [done|]. cbn.
    by rewrite Nat2Z.id, take_app_length.
  - rewrite copy_file_plain by done. destruct (IH ltac:(done) Hok) as (bs & -> & Hbs).
    eexists. split; [done|]. cbn [multi_split]. rewrite <- (assoc_L app).
    rewrite Nat2Z.id, take_app_length. f_equal.
    match goal with |- multi_split _ (drop ?n ?l) = _ => replace (drop n l) with bs end; [done|].
    rewrite (assoc_L app), drop_app_length'; [done|].
    rewrite length_app, repeat_length. unfold round4.
    pose proof (Z.div_mod (Z.of_nat (length f) + 3) 4 ltac:(lia)).
    pose proof (Z.mod_pos_bound (Z.of_nat (length f) + 3) 4 ltac:(lia)). lia.
Qed.

Lemma multi_entries_size n rest : 0 < n < 2 ^ 32 ->
  multi_entries (htonl n ++ rest)%list =
  (n :: (multi_entries rest).1, (multi_entries rest).2)%list.
Proof.
  intros Hn. unfold htonl. cbn [app multi_entries]. rewrite ntohl_htonl by (unfold word32; lia).
  replace (n =? 0) with false by (symmetry; apply Z.eqb_neq; lia).
  by destruct (multi_entries rest).
Qed.

Lemma multi_entries_list fs bs : Forall file_ok fs ->
  multi_entries (size_list 4 fs ++ bs)%list = ((fun f => Z.of_nat (length f)) <$> fs, bs)%list.
Proof.
  intros Hok. unfold size_list. induction Hok as [|f fs Hf _ IH]; [done|].
  cbn [flat_map]. unfold size_entry at 1. rewrite app_nil_r. rewrite <- !(assoc_L app).
  rewrite multi_entries_size by (unfold file_ok in Hf; lia).
  rewrite <- (assoc_L app) in IH. by rewrite IH.
Qed.

(** On a host with four-byte longs, the data of a multi-file image is what image.h
    documents: a zero-terminated list of 32-bit sizes and the files on word boundaries;
    reading it back gives the files. *)
Theorem multi_image_read_back t fs :
  t = IH_TYPE_MULTI \/ t = IH_TYPE_SCRIPT -> fs <> [] -> Forall file_ok fs ->
  exists data, image_data 4 false t fs = inl data /\
    multi_split (multi_entries data).1 (multi_entries data).2 = fs.
Proof.
  intros Ht Hne Hok. destruct (copy_files_split fs Hne Hok) as (bs & Hbs & Hs).
  unfold image_data. replace (_ || _) with true by (by destruct Ht as [-> | ->]).
  rewrite Hbs. eexists. split; [done|]. by rewrite multi_entries_list.
Qed.

Lemma multi_image_read_back_witness :
  exists data, image_data 4 false IH_TYPE_MULTI [[1; 2; 3]; [4; 5; 6; 7; 8]] = inl data /\
    multi_split (multi_entries data).1 (multi_entries data).2 = [[1; 2; 3]; [4; 5; 6; 7; 8]].
Proof.
  apply multi_image_read_back; [by left | discriminate | repeat constructor; cbv; congruence].
Defined.

(** On a host with eight-byte longs the list image.h documents ends after the first
    file: a reader of 32-bit sizes sees one file, whatever the image holds. *)
Theorem multi_image_long8 t f fs :
  t = IH_TYPE_MULTI \/ t = IH_TYPE_SCRIPT -> Forall file_ok (f :: fs) ->
  exists data, image_data 8 false t (f :: fs) = inl data /\
    (multi_entries data).1 = [Z.of_nat (length f)].
Proof.
  intros Ht Hok. destruct (copy_files_split (f :: fs) ltac:(done) Hok) as (bs & Hbs & _).
  unfold image_data. replace (_ || _) with true by (by destruct Ht as [-> | ->]).
  rewrite Hbs. eexists. split; [done|]. apply Forall_cons in Hok as [Hf _].
  unfold size_list. cbn [flat_map]. unfold size_entry at 1. rewrite <- !(assoc_L app).
  rewrite multi_entries_size by (unfold file_ok in Hf; lia). done.
Qed.

Lemma multi_image_long8_witness :
  exists data, image_data 8 false IH_TYPE_MULTI [[1; 2; 3]; [4; 5; 6; 7; 8]] = inl data /\
    (multi_entries data).1 = [3].
Proof.
  apply (multi_image_long8 IH_TYPE_MULTI [1; 2; 3] [[4; 5; 6; 7; 8]]);
    [by left | repeat constructor; cbv; congruence].
Defined.

(** For XIP the entries of the list count the 64 bytes [copy_file] leaves out. *)
Lemma xip_entry_too_large f b :
  Z.of_nat (length f) < 2 ^ 31 -> copy_file true false f = inl b ->
  Z.of_nat (length b) = Z.of_nat (length f) - sizeof_header.
Proof.
  intros Hf. unfold copy_file. cbn [andb]. destruct (_ =? 0); [done|]. rewrite Z.mod_small by lia.
  destruct (_ <? sizeof_header) eqn:E; [done|]. bool_to_prop. destruct (negb _); [done|].
  unfold sizeof_header in *. rewrite int32_small by lia.
  destruct (_ <? 0) eqn:E0; [done|]. intros [= <-].
  rewrite app_nil_r, length_take, length_drop. lia.
Qed.

(** ** The offsets of the listing *)
Lemma land_lnot3 x : Z.land x (Z.lnot 3) = x / 4 * 4.
Proof.
  rewrite <- Z.ldiff_land. change 3 with (Z.ones 2). rewrite Z.ldiff_ones_r by done.
  rewrite Z.shiftl_mul_pow2, Z.shiftr_div_pow2 by done. done.
Qed.

Lemma round4_range n : 0 <= n -> n <= round4 n < n + 4.
Proof.
  unfold round4. pose proof (Z.div_mod (n + 3) 4 ltac:(lia)).
  pose proof (Z.mod_pos_bound (n + 3) 4 ltac:(lia)). lia.
Qed.

Lemma contents_offsets fs bs pos i n p f :
  Forall file_ok fs -> copy_files false fs = inl bs ->
  0 <= pos -> pos + Z.of_nat (length bs) + 4 < 2 ^ 32 ->
  contents pos ((fun f => Z.of_nat (length f)) <$> fs) !! i = Some (n, p) -> fs !! i = Some f ->
  pos <= p /\ take (Z.to_nat n) (drop (Z.to_nat (p - pos)) bs) = f.
Proof.
  intros Hok. revert bs pos i. induction Hok as [|g fs Hg Hok IH]; intros bs pos i Hcp Hpos Hlen.
  { done. }
  cbn [fmap list_fmap contents]. destruct i as [|i]; cbn [lookup list_lookup].
  - intros [= <- <-] [= <-]. split; [lia|]. rewrite Z.sub_diag, drop_0, Nat2Z.id.
    cbn [copy_files] in Hcp. rewrite !copy_file_plain in Hcp by done.
    destruct fs as [|g' fs]; [injection Hcp as <-; by rewrite take_app_length|].
    destruct (copy_files false (g' :: fs)); [|done]. injection Hcp as <-.
    rewrite <- (assoc_L app). by rewrite take_app_length.
  - intros Hi Hf. cbn [copy_files] in Hcp. destruct fs as [|g' fs]; [done|].
    rewrite copy_file_plain in Hcp by done.
    destruct (copy_files false (g' :: fs)) as [bs'|] eqn:Ebs; [|done]. injection Hcp as <-.
    unfold file_ok in Hg. rewrite !length_app, repeat_length in Hlen.
    pose proof (round4_range (Z.of_nat (length g)) ltac:(lia)) as Hr.
    assert (Hstep : (pos + Z.land ((Z.of_nat (length g) + 3) mod 2 ^ 32) (Z.lnot 3)) mod 2 ^ 32
                    = pos + round4 (Z.of_nat (length g))).
    { rewrite (Z.mod_small (_ + 3)) by lia. rewrite land_lnot3.
      fold (round4 (Z.of_nat (length g))). apply Z.mod_small. lia. }
    rewrite Hstep in Hi.
    destruct (IH bs' (pos + round4 (Z.of_nat (length g))) i eq_refl ltac:(lia) ltac:(lia) Hi Hf)
      as [Hp Htk]. split; [lia|]. rewrite <- Htk. f_equal.
    rewrite drop_app_ge by (rewrite length_app, repeat_length; lia).
    f_equal. rewrite length_app, repeat_length. lia.
Qed.

Lemma size_entry_length w n : 4 <= w -> length (size_entry w n) = Z.to_nat w.
Proof. intros Hw. unfold size_entry. rewrite length_app, repeat_length. cbn [length htonl]. lia. Qed.

Lemma size_list_length w fs : 4 <= w ->
  Z.of_nat (length (size_list w fs)) = (Z.of_nat (length fs) + 1) * w.
Proof.
  intros Hw. unfold size_list. rewrite length_app, size_entry_length by done.
  induction fs as [|f fs IH]; [cbn; lia|]. cbn [flat_map length].
  rewrite length_app, size_entry_length by done. lia.
Qed.

Lemma size_entry_zero w n : 0 <= n < 2 ^ 32 ->
  forallb (fun b => b =? 0) (size_entry w n) = true -> n = 0.
Proof.
  intros Hn. unfold size_entry. rewrite forallb_app. intros [H _]%andb_true_iff.
  pose proof (ntohl_htonl n ltac:(by unfold word32)) as He. unfold htonl in H. cbn [forallb] in H.
  bool_to_prop. by rewrite H, H0, H1, H2 in He.
Qed.

(** Reading the list of longs back, whatever their width. *)
Lemma len_list_read w fs rest fuel : 4 <= w -> Forall file_ok fs -> (length fs < fuel)%nat ->
  len_list w fuel (size_list w fs ++ rest)%list = (fun f => Z.of_nat (length f)) <$> fs.
Proof.
  intros Hw Hok. revert fuel. induction Hok as [|f fs Hf _ IH]; intros [|fuel] Hfuel;
    cbn [length] in Hfuel; [lia| |lia|]; cbn [len_list].
  - unfold size_list. cbn [flat_map app].
    rewrite take_app_length' by (by rewrite size_entry_length).
    replace (forallb _ _) with true; [done|]. unfold size_entry. cbn. clear.
    by induction (Z.to_nat (w - 4)).
  - unfold size_list. cbn [flat_map]. rewrite <- !(assoc_L app).
    rewrite take_app_length', drop_app_length' by (by rewrite size_entry_length).
    unfold file_ok in Hf.
    destruct (forallb _ _) eqn:E; [apply size_entry_zero in E; lia|].
    cbn [fmap list_fmap]. f_equal.
    + unfold size_entry, htonl. cbn [app]. rewrite ntohl_htonl by (unfold word32; lia). done.
    + rewrite <- (IH fuel) by lia. unfold size_list. by rewrite <- (assoc_L app).
Qed.

Lemma contents_sizes pos l : (contents pos l).*1 = l.
Proof. revert pos. induction l as [|n l IH]; intros pos; [done|]. cbn. by rewrite IH. Qed.

(** For a multi-file image, whatever the width of long, the table of contents mkimage
    prints lists the size of every file in order, and each printed offset is exactly one
    long short of where the file begins: the terminating zero is not counted. *)
Theorem contents_listed w o mtime img :
  4 <= w -> opt_type o = IH_TYPE_MULTI \/ opt_type o = IH_TYPE_SCRIPT -> xflag o = false ->
  files o <> [] -> Forall file_ok (files o) -> build_image w o mtime = inl img ->
  Z.of_nat (length img) + w < 2 ^ 32 ->
  exists rows, print_contents w (opt_type o) img = Some rows /\
    rows.*1 = (fun f => Z.of_nat (length f)) <$> files o /\
    forall i n pos f, rows !! i = Some (n, Some pos) -> files o !! i = Some f ->
      take (Z.to_nat n) (drop (Z.to_nat (pos + w)) img) = f.
Proof.
  intros Hw Ht Hx Hne Hok Hb Hlen.
  apply build_image_parts in Hb as (entry & data & _ & Hd & ->).
  destruct (copy_files_split (files o) Hne Hok) as (bs & Hbs & _).
  assert (Hmulti : (opt_type o =? IH_TYPE_MULTI) || (opt_type o =? IH_TYPE_SCRIPT) = true)
    by (by destruct Ht as [-> | ->]).
  unfold image_data in Hd. rewrite Hx, Hmulti, Hbs in Hd. injection Hd as <-.
  match goal with |- context [(header_bytes ?x ++ _)%list] => set (hd := header_bytes x) in * end.
  assert (Hh : length hd = 64%nat) by (apply header_bytes_length, strncpy_name_length).
  pose proof (size_list_length w (files o) Hw) as Hsl. clearbody hd.
  rewrite !length_app, Hh, !Nat2Z.inj_add, Hsl in Hlen.
  assert (Hk : Z.of_nat (length (files o)) <= Z.of_nat (length (files o)) * w) by nia.
  unfold print_contents. rewrite Hmulti, drop_app_length' by done.
  rewrite len_list_read by (done || (rewrite !length_app; lia)). rewrite length_fmap.
  rewrite Z.mod_small by (unfold sizeof_header; lia).
  eexists. split; [reflexivity|]. split.
  - rewrite fmap_imap. etransitivity; [|apply contents_sizes]. symmetry.
    rewrite <- (imap_const fst). by apply imap_ext.
  - intros i n pos f Hi Hf. rewrite list_lookup_imap in Hi.
    destruct (contents _ _ !! i) as [[n' p']|] eqn:Ec; [|done]. cbn in Hi.
    destruct (_ && _); [|done]. injection Hi as <- <-. unfold sizeof_header in Ec.
    destruct (contents_offsets (files o) bs (64 + Z.of_nat (length (files o)) * w) i n' p' f Hok Hbs)
      as [Hp Htk]; [lia|lia|exact Ec|done|].
    rewrite <- Htk. f_equal. rewrite (assoc_L app), drop_app_ge by (rewrite length_app; lia).
    f_equal. rewrite length_app. lia.
Qed.

(** Two scripts in one image. *)
Definition script_options : options :=
  mk_options IH_OS_LINUX 5 IH_TYPE_SCRIPT IH_COMP_GZIP false true 0x80002000 0x80002010
    [0x72; 0x67] [[1; 2; 3]; [4; 5; 6; 7; 8]].
Definition script_image : list Z :=
  match build_image 8 script_options 0x44000000 with inl img => img | inr _ => [] end.

Lemma contents_listed_witness :
  exists rows, print_contents 8 IH_TYPE_SCRIPT script_image = Some rows /\ rows.*1 = [3; 5] /\
    forall i n pos f, rows !! i = Some (n, Some pos) -> files script_options !! i = Some f ->
      take (Z.to_nat n) (drop (Z.to_nat (pos + 8)) script_image) = f.
Proof.
  apply (contents_listed 8 script_options 0x44000000 script_image);
    [ lia | by right | reflexivity | discriminate | repeat constructor; cbv; congruence
    | vm_compute; reflexivity | vm_compute; reflexivity ].
Defined.
