(* ===== verification/MpsBuffer.v ===== *)
(** * MpsBuffer: buffer queues shared by the two processors

    arch/mips/infineon/danube/mps/mps_tpe_buffer.c and asm-mips/danube/mps_tpe_buffer.h of
    the twinpass board support: circular queues of packet buffers, which one
    processor fills and the other empties, and the pools that hold them.

    A pointer to a buffer is its address, 0 is NULL.  [None] as the result of a
    function says that the C code has none: it follows a null pointer, reads or
    writes outside a ring, or never returns.  The kernel's allocators are a list of
    the addresses they will return, in the order of the calls. *)
From S2P Require Import Prelude.

Module Mps.

(** ** The queue *)
Definition u32 (z : Z) : Z := z mod 2 ^ 32.

Definition EINVAL : Z := 22.
Definition ENOMEM : Z := 12.
Definition EEXIST : Z := 17.
Definition INVALID_ENTRY : Z := 0xEEEEEEEE.

Record MPS_BUFF_HEAD := mk_head {
  circular_buf : option (list Z); maxcount : Z; rpos : Z; wpos : Z }.

Definition set_rpos (p : Z) (q : MPS_BUFF_HEAD) : MPS_BUFF_HEAD :=
  mk_head (circular_buf q) (maxcount q) p (wpos q).
Definition set_wpos (p : Z) (q : MPS_BUFF_HEAD) : MPS_BUFF_HEAD :=
  mk_head (circular_buf q) (maxcount q) (rpos q) p.
Definition set_buf (b : option (list Z)) (q : MPS_BUFF_HEAD) : MPS_BUFF_HEAD :=
  mk_head b (maxcount q) (rpos q) (wpos q).
(** [memset(q, 0x0, sizeof( *q))] *)
Definition zero_head : MPS_BUFF_HEAD := mk_head None 0 0 0.

Definition MPS_NEXT_Q_POS (pos max : Z) : Z := if pos <? max then u32 (pos + 1) else 0.

Definition MPS_IS_Q_FULL (q : option MPS_BUFF_HEAD) : bool :=
  match q with
  | None => false
  | Some h => MPS_NEXT_Q_POS (wpos h) (maxcount h) =? rpos h
  end.
Definition MPS_IS_Q_EMPTY (q : option MPS_BUFF_HEAD) : bool :=
  match q with
  | None => true
  | Some h => rpos h =? wpos h
  end.
Definition MPS_GET_Q_COUNT (h : MPS_BUFF_HEAD) : Z :=
  int32 (if rpos h <=? wpos h then wpos h - rpos h else wpos h + 1 + maxcount h - rpos h).

(** [queue->circular_buf[pos]], read and written. *)
Definition ring_get (h : MPS_BUFF_HEAD) (pos : Z) : option Z :=
  b ← circular_buf h; b !! Z.to_nat pos.
Definition ring_set (h : MPS_BUFF_HEAD) (pos v : Z) : option MPS_BUFF_HEAD :=
  b ← circular_buf h; _ ← b !! Z.to_nat pos; Some (set_buf (Some (<[Z.to_nat pos := v]> b)) h).

Definition MPS_SET_Q_ITEM (h : MPS_BUFF_HEAD) (node : Z) : option MPS_BUFF_HEAD :=
  ring_set h (wpos h) node.
Definition MPS_GET_Q_ITEM (h : MPS_BUFF_HEAD) : option Z := ring_get h (rpos h).

(** What runs between [local_irq_save] and [local_irq_restore]. *)
Definition tail_section (buf : Z) (h : MPS_BUFF_HEAD) : option MPS_BUFF_HEAD :=
  h1 ← MPS_SET_Q_ITEM h buf; Some (set_wpos (MPS_NEXT_Q_POS (wpos h1) (maxcount h1)) h1).
Definition head_section (h : MPS_BUFF_HEAD) : option (Z * MPS_BUFF_HEAD) :=
  m_buf ← MPS_GET_Q_ITEM h;
  h1 ← ring_set h (rpos h) INVALID_ENTRY;
  Some (m_buf, set_rpos (MPS_NEXT_Q_POS (rpos h1) (maxcount h1)) h1).

Definition mps_queue_tail (buf : Z) (q : option MPS_BUFF_HEAD) : option (Z * option MPS_BUFF_HEAD) :=
  match q with
  | None => Some (- EINVAL, None)
  | Some h =>
      if MPS_IS_Q_FULL q then Some (- ENOMEM, q)
      else h ← tail_section buf h; Some (0, Some h)
  end.

Definition mps_dequeue_head (q : option MPS_BUFF_HEAD) : option (Z * option MPS_BUFF_HEAD) :=
  match q with
  | None => Some (0, None)
  | Some h =>
      if MPS_IS_Q_EMPTY q then Some (0, q)
      else prod_map id Some <$> head_section h
  end.

(** The loop of [mps_queue_free]: the buffers given to [free_fn], and the final [rpos]. *)
Fixpoint free_loop (fuel : nat) (h : MPS_BUFF_HEAD) (rpos wpos : Z) : option (list Z * Z) :=
  match fuel with
  | O => None
  | S fuel' =>
      if rpos =? wpos then Some ([], rpos)
      else
        b ← ring_get h rpos;
        prod_map (cons b) id <$> free_loop fuel' h (MPS_NEXT_Q_POS rpos (maxcount h)) wpos
  end.

(** One turn for each slot of the ring, and the test that ends the loop. *)
Definition free_fuel (h : MPS_BUFF_HEAD) : nat := S (S (Z.to_nat (maxcount h))).

(** The count, the buffers freed, and the queue. The ring itself is not read
    again after [kfree((void * )q->circular_buf)]. *)
Definition mps_queue_free (q : option MPS_BUFF_HEAD) : option (Z * list Z * option MPS_BUFF_HEAD) :=
  match q with
  | None => Some (0, [], None)
  | Some h =>
      match circular_buf h with
      | None => Some (0, [], Some h)
      | Some _ =>
          match free_loop (free_fuel h) h (rpos h) (wpos h) with
          | Some (l, r) => Some (int32 (Z.of_nat (length l)), l, Some (set_rpos r h))
          | None => None
          end
      end
  end.

(** ** The pools *)
Record MPS_BUFF_SIZE_ENTRY := mk_entry {
  alloc_q : option MPS_BUFF_HEAD; free_q : option MPS_BUFF_HEAD; size : Z }.
Record MPS_BUFF_POOL_HEAD := mk_pool {
  sizes_count : Z; free_hit_count : Z; alloc_hit_count : Z;
  buff_array : list MPS_BUFF_SIZE_ENTRY;
  default_free_list : option MPS_BUFF_HEAD;
  malloc_buf_alloc_list : option MPS_BUFF_HEAD;
  malloc_buf_free_list : option MPS_BUFF_HEAD;
  malloc_buf_size : Z; tot_free_count : Z }.

Definition zero_entry : MPS_BUFF_SIZE_ENTRY := mk_entry None None 0.
Definition set_alloc_q (q : option MPS_BUFF_HEAD) (e : MPS_BUFF_SIZE_ENTRY) : MPS_BUFF_SIZE_ENTRY :=
  mk_entry q (free_q e) (size e).
Definition set_free_q (q : option MPS_BUFF_HEAD) (e : MPS_BUFF_SIZE_ENTRY) : MPS_BUFF_SIZE_ENTRY :=
  mk_entry (alloc_q e) q (size e).
Definition set_entry (i : nat) (f : MPS_BUFF_SIZE_ENTRY -> MPS_BUFF_SIZE_ENTRY)
    (p : MPS_BUFF_POOL_HEAD) : MPS_BUFF_POOL_HEAD :=
  mk_pool (sizes_count p) (free_hit_count p) (alloc_hit_count p) (alter f i (buff_array p))
    (default_free_list p) (malloc_buf_alloc_list p) (malloc_buf_free_list p) (malloc_buf_size p)
    (tot_free_count p).
Definition set_lists (d a f : option MPS_BUFF_HEAD) (p : MPS_BUFF_POOL_HEAD) : MPS_BUFF_POOL_HEAD :=
  mk_pool (sizes_count p) (free_hit_count p) (alloc_hit_count p) (buff_array p) d a f
    (malloc_buf_size p) (tot_free_count p).
Definition set_hits (f a : Z) (p : MPS_BUFF_POOL_HEAD) : MPS_BUFF_POOL_HEAD :=
  mk_pool (sizes_count p) f a (buff_array p) (default_free_list p) (malloc_buf_alloc_list p)
    (malloc_buf_free_list p) (malloc_buf_size p) (tot_free_count p).
Definition add_freed (n : Z) (p : MPS_BUFF_POOL_HEAD) : MPS_BUFF_POOL_HEAD :=
  mk_pool (sizes_count p) (free_hit_count p) (alloc_hit_count p) (buff_array p)
    (default_free_list p) (malloc_buf_alloc_list p) (malloc_buf_free_list p) (malloc_buf_size p)
    (u32 (tot_free_count p + n)).

(** The pool array, the statistics, the lock on the book-keeping, the state of the
    timer, what the allocators will return, and the buffers freed so far. *)
Record mps := mk_mps {
  mps_buff_pool_array : gmap Z MPS_BUFF_POOL_HEAD;
  fast_allocs : Z; fast_frees : Z; fast_mallocs : Z; fast_malloc_frees : Z;
  mps_list_book_keep_x : Z; timer_started : bool;
  allocs : list Z; freed : list Z }.

Definition M (A : Type) := mps -> option (A * mps).
Definition ret {A} (a : A) : M A := fun s => Some (a, s).
Definition bind {A B} (m : M A) (k : A -> M B) : M B := fun s =>
  match m s with Some (a, s') => k a s' | None => None end.
Definition fault {A} : M A := fun _ => None.
Definition lift {A} (o : option A) : M A := match o with Some a => ret a | None => fault end.

Declare Scope mps_scope.
Delimit Scope mps_scope with mps.
Bind Scope mps_scope with M.
Notation "x <- m ;; k" := (bind m (fun x => k))
  (at level 100, m at next level, right associativity) : mps_scope.
Notation "m1 ;;; m2" := (bind m1 (fun _ => m2)) (at level 100, right associativity) : mps_scope.
Notation "'let*' x := m 'in' k" := (bind m (fun x => k))
  (at level 100, x pattern, m at level 100, k at level 100) : mps_scope.
Open Scope mps_scope.

(** [kmalloc], [dev_alloc_skb]: the next address; NULL when none is left. *)
Definition alloc : M Z := fun s =>
  Some (hd 0 (allocs s),
    mk_mps (mps_buff_pool_array s) (fast_allocs s) (fast_frees s) (fast_mallocs s)
      (fast_malloc_frees s) (mps_list_book_keep_x s) (timer_started s) (tl (allocs s)) (freed s)).
(** [dev_kfree_skb_any], [kfree], on each buffer of the list. *)
Definition free (l : list Z) : M unit := fun s =>
  Some (tt, mk_mps (mps_buff_pool_array s) (fast_allocs s) (fast_frees s) (fast_mallocs s)
      (fast_malloc_frees s) (mps_list_book_keep_x s) (timer_started s) (allocs s) (freed s ++ l)%list).
Definition MPS_GET_BUF_POOL (seq : Z) : M (option MPS_BUFF_POOL_HEAD) := fun s =>
  Some (mps_buff_pool_array s !! seq, s).
Definition put_pool (seq : Z) (p : MPS_BUFF_POOL_HEAD) : M unit := fun s =>
  Some (tt, mk_mps (<[seq := p]> (mps_buff_pool_array s)) (fast_allocs s) (fast_frees s)
      (fast_mallocs s) (fast_malloc_frees s) (mps_list_book_keep_x s) (timer_started s) (allocs s)
      (freed s)).
Definition count_stats (a f m mf : Z) : M unit := fun s =>
  Some (tt, mk_mps (mps_buff_pool_array s) (u32 (fast_allocs s + a)) (u32 (fast_frees s + f))
      (u32 (fast_mallocs s + m)) (u32 (fast_malloc_frees s + mf)) (mps_list_book_keep_x s)
      (timer_started s) (allocs s) (freed s)).
(** [atomic_dec_and_test(&mps_list_book_keep_x)]: counts down, says if 0 is reached. *)
Definition book_keep_dec : M bool := fun s =>
  Some (mps_list_book_keep_x s - 1 =? 0,
    mk_mps (mps_buff_pool_array s) (fast_allocs s) (fast_frees s) (fast_mallocs s)
      (fast_malloc_frees s) (mps_list_book_keep_x s - 1) (timer_started s) (allocs s) (freed s)).
Definition book_keep_inc : M unit := fun s =>
  Some (tt, mk_mps (mps_buff_pool_array s) (fast_allocs s) (fast_frees s) (fast_mallocs s)
      (fast_malloc_frees s) (mps_list_book_keep_x s + 1) (timer_started s) (allocs s) (freed s)).
Definition start_timer : M unit := fun s =>
  Some (tt, mk_mps (mps_buff_pool_array s) (fast_allocs s) (fast_frees s) (fast_mallocs s)
      (fast_malloc_frees s) (mps_list_book_keep_x s) true (allocs s) (freed s)).

Section Driver.
(** What a fresh ring holds, and the processor the file is compiled for. *)
Context (uninit : Z) (cpu_id : Z).
Definition MPS_CPU_0_ID : Z := 0.
Definition on_cpu0 : bool := cpu_id =? MPS_CPU_0_ID.

(** [mps_inv_alloc((num_entries + 1) * sizeof(MPS_BUF * ))]: the product is taken on
    32 bits, and the ring has as many slots as fit. *)
Definition ring_slots (num_entries : Z) : nat := Z.to_nat (u32 (u32 (num_entries + 1) * 4) / 4).

(** The filling loop of [mps_queue_init]: [inl ring], or [inr i] when the [i]th
    allocation fails. *)
Fixpoint fill_ring (n i : nat) (ring : list Z) : M (list Z + nat) :=
  match n with
  | O => ret (inl ring)
  | S n' =>
      b <- alloc;;
      _ <- lift (ring !! i);;
      if b =? 0 then ret (inr i) else fill_ring n' (S i) (<[i := b]> ring)
  end.

Definition mps_queue_init (q : option MPS_BUFF_HEAD) (size num_entries : Z)
    : M (Z * option MPS_BUFF_HEAD) :=
  match q with
  | None => fault
  | Some h =>
      match circular_buf h with
      | Some _ => ret (- EEXIST, q)
      | None =>
          p <- alloc;;
          let ring := replicate (ring_slots num_entries) uninit in
          if p =? 0 then ret (- ENOMEM, q)
          else if nz size then
            let h := set_rpos 0 h in
            r <- fill_ring (Z.to_nat num_entries) 0 ring;;
            match r with
            | inl ring => ret (0, Some (mk_head (Some ring) num_entries 0 num_entries))
            | inr i =>
                let h := mk_head (circular_buf h) (Z.of_nat i) (rpos h) (Z.of_nat i) in
                let* (_, l, h) := lift (mps_queue_free (Some h)) in
                free l;;;
                ret (- ENOMEM, h)
            end
          else
            ret (0, Some (mk_head (Some (replicate (ring_slots num_entries) 0)) num_entries 0 0))
      end
  end.

(** The loop of [mps_topup_q_list], [wpos] being the local copy. *)
Fixpoint topup_loop (fuel : nat) (h : MPS_BUFF_HEAD) (count wpos : Z) : M (Z * MPS_BUFF_HEAD) :=
  if u32 count <? maxcount h then
    match fuel with
    | O => fault
    | S fuel' =>
        mps_buf <- alloc;;
        if mps_buf =? 0 then ret (count, set_wpos wpos h)
        else
          h <- lift (MPS_SET_Q_ITEM h mps_buf);;
          let wpos := MPS_NEXT_Q_POS wpos (maxcount h) in
          topup_loop fuel' (set_wpos wpos h) (int32 (count + 1)) wpos
    end
  else ret (count, h).

Definition topup_fuel (h : MPS_BUFF_HEAD) : nat := S (Z.to_nat (maxcount h)).

Definition mps_topup_q_list (h : MPS_BUFF_HEAD) : M (Z * MPS_BUFF_HEAD) :=
  let org_count := MPS_GET_Q_COUNT h in
  let* (count, h) := topup_loop (topup_fuel h) h org_count (wpos h) in
  ret (int32 (count - org_count), h).

Definition ifx_cpu0_topup_q_list (q_head : MPS_BUFF_SIZE_ENTRY) : M (Z * MPS_BUFF_SIZE_ENTRY) :=
  h <- lift (alloc_q q_head);;
  if maxcount h =? 0 then ret (0, q_head)
  else
    let* (count, h) := mps_topup_q_list h in
    ret (count, set_alloc_q (Some h) q_head).

Definition ifx_cpu0_release_q_list (q : option MPS_BUFF_HEAD) : M (Z * option MPS_BUFF_HEAD) :=
  let* (count, l, q) := lift (mps_queue_free q) in
  free l;;;
  ret (count, q).

(** [for (i=0; i < mps_buf_pool->sizes_count; i++)] with [count > 0] added up. *)
Fixpoint each_entry (n i : nat) (f : MPS_BUFF_SIZE_ENTRY -> M (Z * MPS_BUFF_SIZE_ENTRY))
    (l : list MPS_BUFF_SIZE_ENTRY) (tot : Z) : M (Z * list MPS_BUFF_SIZE_ENTRY) :=
  match n with
  | O => ret (tot, l)
  | S n' =>
      e <- lift (l !! i);;
      let* (count, e) := f e in
      each_entry n' (S i) f (<[i := e]> l) (if 0 <? count then tot + count else tot)
  end.

Definition MPS_BOOK_KEEPING_THRESH : Z := 0.

Definition set_array (l : list MPS_BUFF_SIZE_ENTRY) (p : MPS_BUFF_POOL_HEAD) : MPS_BUFF_POOL_HEAD :=
  mk_pool (sizes_count p) (free_hit_count p) (alloc_hit_count p) l (default_free_list p)
    (malloc_buf_alloc_list p) (malloc_buf_free_list p) (malloc_buf_size p) (tot_free_count p).

(** The loop of [ifx_cpu0_topup_q_lists]. *)
Definition topup_pool (service_seq_num : Z) (p : MPS_BUFF_POOL_HEAD) : M Z :=
  let* (tot, l) :=
    each_entry (Z.to_nat (sizes_count p)) 0 ifx_cpu0_topup_q_list (buff_array p) 0 in
  put_pool service_seq_num (set_array l p);;;
  ret tot.

Definition ifx_cpu0_topup_q_lists (service_seq_num : Z) : M Z :=
  if negb on_cpu0 then ret (-1)
  else
    pool <- MPS_GET_BUF_POOL service_seq_num;;
    match pool with
    | None => ret (- ENOMEM)
    | Some p =>
        let hits := u32 (alloc_hit_count p + 1) in
        if MPS_BOOK_KEEPING_THRESH <? hits then
          let p := set_hits (free_hit_count p) 0 p in
          put_pool service_seq_num p;;;
          free_lock <- book_keep_dec;;
          tot_count <-
            (if free_lock then topup_pool service_seq_num p else ret 0);;
          book_keep_inc;;;
          ret (int32 tot_count)
        else
          put_pool service_seq_num (set_hits (free_hit_count p) hits p);;;
          ret 0
    end.

(** The entry of the pool with its free queue emptied. *)
Definition release_entry (e : MPS_BUFF_SIZE_ENTRY) : M (Z * MPS_BUFF_SIZE_ENTRY) :=
  let* (count, q) := ifx_cpu0_release_q_list (free_q e) in
  ret (count, set_free_q q e).

(** What [ifx_cpu0_release_q_lists] does under the lock. *)
Definition release_pool (service_seq_num : Z) (p : MPS_BUFF_POOL_HEAD) : M Z :=
  let* (tot, l) := each_entry (Z.to_nat (sizes_count p)) 0 release_entry (buff_array p) 0 in
  let* (count, d) := ifx_cpu0_release_q_list (default_free_list p) in
  let tot := if 0 <? count then tot + count else tot in
  let* (_, f) := ifx_cpu0_release_q_list (malloc_buf_free_list p) in
  put_pool service_seq_num
    (add_freed tot (set_lists d (malloc_buf_alloc_list p) f (set_array l p)));;;
  ret tot.

Definition ifx_cpu0_release_q_lists (service_seq_num : Z) : M Z :=
  if negb on_cpu0 then ret (-1)
  else
    pool <- MPS_GET_BUF_POOL service_seq_num;;
    match pool with
    | None => ret (- ENOMEM)
    | Some p =>
        let hits := u32 (free_hit_count p + 1) in
        if MPS_BOOK_KEEPING_THRESH <? hits then
          let p := set_hits 0 (alloc_hit_count p) p in
          put_pool service_seq_num p;;;
          free_lock <- book_keep_dec;;
          tot_count <-
            (if free_lock then release_pool service_seq_num p else ret 0);;
          book_keep_inc;;;
          ret (int32 tot_count)
        else
          put_pool service_seq_num (set_hits hits (alloc_hit_count p) p);;;
          ret 0
    end.

Definition MPS_MAX_SELECTORS : nat := 256.

(** The handler without MPS_TIMER_OPTIMIZATION: every pool there is. *)
Fixpoint timer_pools (n : nat) (i : Z) : M unit :=
  match n with
  | O => ret tt
  | S n' =>
      pool <- MPS_GET_BUF_POOL i;;
      match pool with
      | Some _ =>
          ifx_cpu0_topup_q_lists i;;;
          ifx_cpu0_release_q_lists i;;;
          timer_pools n' (i + 1)
      | None => timer_pools n' (i + 1)
      end
  end.
Definition mps_timer_handler : M unit := timer_pools MPS_MAX_SELECTORS 0.

(** ** Setting the pools up, on CPU 0 *)

(** The size of the first entry is set the first time a size is asked for. *)
Definition mps_get_buf_size_entry (p : MPS_BUFF_POOL_HEAD) (sz : Z) : option MPS_BUFF_POOL_HEAD :=
  e ← buff_array p !! 0%nat;
  Some (if nz sz && (size e =? 0) then set_entry 0 (fun e => mk_entry (alloc_q e) (free_q e) sz) p
        else p).

Definition ifx_mps_malloc_buff_pool_init (service_seq_num alloc_size num_alloc_nodes
    num_free_nodes : Z) : M Z :=
  if negb on_cpu0 then ret (- EINVAL)
  else
    pool <- MPS_GET_BUF_POOL service_seq_num;;
    match pool with
    | None => ret (- ENOMEM)
    | Some p =>
        let* (_, f) := mps_queue_init (malloc_buf_free_list p) 0 num_free_nodes in
        put_pool service_seq_num (set_lists (default_free_list p) (malloc_buf_alloc_list p) f p);;;
        let* (_, a) := mps_queue_init (malloc_buf_alloc_list p) alloc_size num_alloc_nodes in
        put_pool service_seq_num (set_lists (default_free_list p) a f p);;;
        ret 0
    end.

(** A [memset] of what [mps_inv_alloc] returned. *)
Definition alloc_zeroed : M unit :=
  p <- alloc;;
  if p =? 0 then fault else ret tt.

Definition ifx_mps_buff_pool_init (service_seq_num sizes def_freeq_len : Z) : M Z :=
  if negb on_cpu0 then ret (- EINVAL)
  else
    pool <- MPS_GET_BUF_POOL service_seq_num;;
    match pool with
    | Some _ => ret (- EEXIST)
    | None =>
        alloc_zeroed;;;
        alloc_zeroed;;;
        let* (_, d) := mps_queue_init (Some zero_head) 0 def_freeq_len in
        alloc_zeroed;;;
        put_pool service_seq_num
          (mk_pool sizes 0 0 (replicate (Z.to_nat sizes) zero_entry) d None None 0 0);;;
        start_timer;;;
        ret 0
    end.

Definition queue_of (isfreeq : Z) (e : MPS_BUFF_SIZE_ENTRY) : option MPS_BUFF_HEAD :=
  if nz isfreeq then free_q e else alloc_q e.
Definition set_queue_of (isfreeq : Z) (q : option MPS_BUFF_HEAD) :
    MPS_BUFF_SIZE_ENTRY -> MPS_BUFF_SIZE_ENTRY :=
  if nz isfreeq then set_free_q q else set_alloc_q q.

Definition ifx_mps_queue_init (service_seq_num size num_entries isfreeq : Z) : M Z :=
  if negb on_cpu0 then ret (- EINVAL)
  else
    pool <- MPS_GET_BUF_POOL service_seq_num;;
    match pool with
    | None => ret (- ENOMEM)
    | Some p =>
        p <- lift (mps_get_buf_size_entry p size);;
        put_pool service_seq_num p;;;
        e <- lift (buff_array p !! 0%nat);;
        q <- (match queue_of isfreeq e with
              | Some h => ret (Some h)
              | None => a <- alloc;; ret (if a =? 0 then None else Some zero_head)
              end);;
        match q with
        | None => ret (-1)
        | Some h =>
            let* (r, h) := mps_queue_init (Some h) size (u32 num_entries) in
            put_pool service_seq_num (set_entry 0 (set_queue_of isfreeq h) p);;;
            ret r
        end
    end.

(** ** Taking and returning buffers, on CPU 1 *)
Section Cpu1.
(** The physical addresses of the memory of CPU 1, and the field [truesize] of a
    packet buffer. *)
Context (CPU1_RAM_PHYADDR_BEGIN CPU1_RAM_PHYADDR_END : Z) (MPS_BUFF_SIZE : Z -> Z).

Definition PHYSADDR (a : Z) : Z := Z.land a 0x1fffffff.

Definition ifx_mps_is_mps_buffer (buf : Z) : Z :=
  let phyaddr := PHYSADDR buf in
  if (phyaddr <? CPU1_RAM_PHYADDR_BEGIN) || (CPU1_RAM_PHYADDR_END <? phyaddr) then 1 else 0.

Definition ifx_mps_fast_alloc_mps_buf (size service_seq_num : Z) : M Z :=
  if on_cpu0 then ret 0
  else
    pool <- MPS_GET_BUF_POOL service_seq_num;;
    match pool with
    | None => ret 0
    | Some p =>
        p <- lift (mps_get_buf_size_entry p size);;
        e <- lift (buff_array p !! 0%nat);;
        let* (mps_buf, q) := lift (mps_dequeue_head (alloc_q e)) in
        put_pool service_seq_num (set_entry 0 (set_alloc_q q) p);;;
        if mps_buf =? 0 then ret 0
        else count_stats 1 0 0 0;;; ret mps_buf
    end.

Definition ifx_mps_fast_free_mps_buf (buf service_seq_num : Z) : M Z :=
  if buf =? 0 then ret (- EINVAL)
  else if on_cpu0 then ret (-1)
  else if ifx_mps_is_mps_buffer buf =? 0 then free [buf];;; ret 0
  else
    pool <- MPS_GET_BUF_POOL service_seq_num;;
    match pool with
    | None => ret (- ENOMEM)
    | Some p =>
        p <- lift (mps_get_buf_size_entry p (MPS_BUFF_SIZE buf));;
        put_pool service_seq_num p;;;
        e <- lift (buff_array p !! 0%nat);;
        let* (r, p) := lift
          (match free_q e with
           | Some h =>
               prod_map id (fun q => set_entry 0 (set_free_q q) p) <$> mps_queue_tail buf (Some h)
           | None =>
               prod_map id
                 (fun q => set_lists q (malloc_buf_alloc_list p) (malloc_buf_free_list p) p) <$>
               mps_queue_tail buf (default_free_list p)
           end) in
        put_pool service_seq_num p;;;
        if r <? 0 then ret (-1)
        else count_stats 0 1 0 0;;; ret 0
    end.

Definition ifx_mps_fast_alloc_malloc_buf (service_seq_num : Z) : M Z :=
  if on_cpu0 then ret 0
  else
    pool <- MPS_GET_BUF_POOL service_seq_num;;
    match pool with
    | None => ret 0
    | Some p =>
        let* (mps_buf, q) := lift (mps_dequeue_head (malloc_buf_alloc_list p)) in
        put_pool service_seq_num (set_lists (default_free_list p) q (malloc_buf_free_list p) p);;;
        count_stats 0 0 1 0;;;
        ret mps_buf
    end.

Definition ifx_mps_fast_free_malloc_buf (buf service_seq_num : Z) : M Z :=
  if buf =? 0 then ret (- EINVAL)
  else if on_cpu0 then ret (-1)
  else
    pool <- MPS_GET_BUF_POOL service_seq_num;;
    match pool with
    | None => ret (- ENOMEM)
    | Some p =>
        let* (r, q) := lift (mps_queue_tail buf (malloc_buf_free_list p)) in
        put_pool service_seq_num (set_lists (default_free_list p) (malloc_buf_alloc_list p) q p);;;
        if r <? 0 then ret (-1)
        else count_stats 0 0 0 1;;; ret 0
    end.
End Cpu1.
End Driver.
End Mps.
