(* ===== verification/MpsProps.v ===== *)
(** * MpsProps: the buffer queues are bounded first-in first-out queues

    A ring represents a list of buffers; every operation of the queue on the ring
    is the operation on the list, never leaves the ring and always returns, the
    loops of [mps_queue_free] and [mps_topup_q_list] included.  What
    [mps_queue_init] builds, what is left when it fails, and what the pools do
    with the queues. *)
From S2P Require Import Prelude MpsBuffer.
Import Mps.

(** ** Positions *)

(** The place of item [i] of a ring of [n] slots read from [r]. *)
Definition slot (n r i : nat) : nat := if decide (r + i < n)%nat then (r + i)%nat else (r + i - n)%nat.

Ltac slot_lia := unfold slot in *; repeat case_decide; lia.

Lemma slot_lt n r i : (r < n)%nat -> (i < n)%nat -> (slot n r i < n)%nat.
Proof. slot_lia. Qed.
Lemma slot_inj n r i j :
  (r < n)%nat -> (i < n)%nat -> (j < n)%nat -> slot n r i = slot n r j -> i = j.
Proof. slot_lia. Qed.
Lemma slot_0 n r : (r < n)%nat -> slot n r 0 = r.
Proof. slot_lia. Qed.
Lemma slot_succ n r i : (r < n)%nat -> (S i < n)%nat -> slot n (slot n r 1) i = slot n r (S i).
Proof. slot_lia. Qed.
Lemma slot_next n r i : (r < n)%nat -> (S i < n)%nat -> slot n (slot n r i) 1 = slot n r (S i).
Proof. slot_lia. Qed.
Lemma slot_wrap n r i : (r < n)%nat -> (i < n)%nat -> slot n r i = r -> i = 0%nat.
Proof. slot_lia. Qed.

(** The ring [b] read from [r] begins with [l]. *)
Definition holds (b : list Z) (r : nat) (l : list Z) : Prop :=
  forall i x, l !! i = Some x -> b !! slot (length b) r i = Some x.

Lemma holds_push b r l x :
  (r < length b)%nat -> (length l < length b)%nat -> holds b r l ->
  holds (<[slot (length b) r (length l) := x]> b) r (l ++ [x]).
Proof.
  intros Hr Hl Hb i y Hi. rewrite length_insert.
  apply lookup_app_Some in Hi as [Hi|[Hge Hi]].
  - pose proof (lookup_lt_Some _ _ _ Hi). rewrite list_lookup_insert_ne; [by apply Hb|].
    intros Hs. apply slot_inj in Hs; lia.
  - apply list_lookup_singleton_Some in Hi as [Hi ->].
    replace i with (length l) by lia. apply list_lookup_insert_eq. by apply slot_lt.
Qed.

(** Writing any slot outside the items. *)
Lemma holds_insert b r l j x :
  (r < length b)%nat -> (length l <= j < length b)%nat -> holds b r l ->
  holds (<[slot (length b) r j := x]> b) r l.
Proof.
  intros Hr Hj Hb i y Hi. rewrite length_insert. pose proof (lookup_lt_Some _ _ _ Hi).
  rewrite list_lookup_insert_ne; [by apply Hb|]. intros Hs. apply slot_inj in Hs; lia.
Qed.

Lemma holds_tail b r x l :
  (r < length b)%nat -> (length (x :: l) < length b)%nat ->
  holds b r (x :: l) -> holds b (slot (length b) r 1) l.
Proof.
  intros Hr Hl Hb i y Hi. cbn [length] in *. pose proof (lookup_lt_Some _ _ _ Hi).
  rewrite slot_succ by lia. by apply (Hb (S i)).
Qed.

(** Writing the slot of the item taken. *)
Lemma holds_taken b r l v :
  (r < length b)%nat -> (length l < length b - 1)%nat -> holds b (slot (length b) r 1) l ->
  holds (<[r := v]> b) (slot (length b) r 1) l.
Proof.
  intros Hr Hl Hb i y Hi. rewrite length_insert. pose proof (lookup_lt_Some _ _ _ Hi).
  rewrite list_lookup_insert_ne; [by apply Hb|]. rewrite slot_succ by lia.
  intros Hs. symmetry in Hs. apply slot_wrap in Hs; lia.
Qed.

(** ** A queue and the list it stands for *)
Definition capacity (h : MPS_BUFF_HEAD) : nat := Z.to_nat (maxcount h).

(** The positions are those of a ring with [n] items. *)
Record queue_pos (h : MPS_BUFF_HEAD) (n : nat) : Prop := {
  pos_max : 0 <= maxcount h < 2 ^ 30;
  pos_rpos : 0 <= rpos h <= maxcount h;
  pos_len : (n <= capacity h)%nat;
  pos_wpos : wpos h = Z.of_nat (slot (S (capacity h)) (Z.to_nat (rpos h)) n) }.

Record queue_rep (h : MPS_BUFF_HEAD) (l : list Z) : Prop := {
  rep_max : 0 <= maxcount h < 2 ^ 30;
  rep_rpos : 0 <= rpos h <= maxcount h;
  rep_len : (length l <= capacity h)%nat;
  rep_wpos : wpos h = Z.of_nat (slot (S (capacity h)) (Z.to_nat (rpos h)) (length l));
  rep_ring : exists b, circular_buf h = Some b /\ length b = S (capacity h) /\
    holds b (Z.to_nat (rpos h)) l }.

Lemma rep_pos h l : queue_rep h l -> queue_pos h (length l).
Proof. by intros []. Qed.

Lemma next_slot h p :
  0 <= maxcount h < 2 ^ 30 -> (p <= capacity h)%nat ->
  MPS_NEXT_Q_POS (Z.of_nat p) (maxcount h) = Z.of_nat (slot (S (capacity h)) p 1).
Proof.
  intros Hm Hp. unfold MPS_NEXT_Q_POS, capacity, u32 in *.
  destruct (Z.ltb_spec (Z.of_nat p) (maxcount h)).
  - rewrite Z.mod_small by lia. slot_lia.
  - slot_lia.
Qed.

(** What the tests and the count read is the number of items. *)
Section Positions.
Context (h : MPS_BUFF_HEAD) (n : nat) (Hpos : queue_pos h n).
Local Abbreviation N := (S (capacity h)).
Local Abbreviation r := (Z.to_nat (rpos h)).

Lemma pos_r_lt : (r < N)%nat.
Proof. destruct Hpos. unfold capacity in *. lia. Qed.
Lemma pos_w_lt : (slot N r n < N)%nat.
Proof. apply slot_lt; [apply pos_r_lt|]. destruct Hpos. lia. Qed.

Lemma pos_empty : MPS_IS_Q_EMPTY (Some h) = bool_decide (n = 0%nat).
Proof.
  unfold MPS_IS_Q_EMPTY. rewrite (pos_wpos _ _ Hpos). pose proof (pos_rpos _ _ Hpos).
  pose proof pos_r_lt as Hr. pose proof (pos_len _ _ Hpos) as Hl.
  case_bool_decide as Hn; [subst n; rewrite slot_0 by done; apply Z.eqb_eq; lia|].
  apply Z.eqb_neq. intros He. assert (Hs : slot N r n = r) by lia. apply slot_wrap in Hs; lia.
Qed.

Lemma pos_full : MPS_IS_Q_FULL (Some h) = bool_decide (n = capacity h).
Proof.
  unfold MPS_IS_Q_FULL. rewrite (pos_wpos _ _ Hpos). pose proof (pos_rpos _ _ Hpos).
  pose proof pos_r_lt as Hr. pose proof pos_w_lt. pose proof (pos_len _ _ Hpos) as Hl.
  rewrite next_slot; [|apply Hpos|lia].
  case_bool_decide as Hc; [apply Z.eqb_eq | apply Z.eqb_neq].
  - rewrite Hc. unfold slot. repeat case_decide; lia.
  - rewrite slot_next by lia. intros He.
    assert (Hs : slot N r (S n) = r) by lia. apply slot_wrap in Hs; lia.
Qed.

Lemma pos_count : MPS_GET_Q_COUNT h = Z.of_nat n.
Proof.
  unfold MPS_GET_Q_COUNT. destruct Hpos as [Hm Hr Hl Hw]. unfold capacity in *.
  rewrite <- (int32_small (Z.of_nat n)) by lia. f_equal. rewrite Hw.
  destruct (Z.leb_spec (rpos h) (Z.of_nat (slot (S (Z.to_nat (maxcount h))) (Z.to_nat (rpos h)) n)));
    slot_lia.
Qed.

(** Moving [wpos] or [rpos] by one slot adds or removes an item. *)
Lemma pos_push : (n < capacity h)%nat ->
  queue_pos (set_wpos (MPS_NEXT_Q_POS (wpos h) (maxcount h)) h) (S n).
Proof.
  pose proof pos_r_lt. destruct Hpos as [Hm Hrp Hle Hwp]. intros Hn.
  split; unfold capacity; cbn [set_wpos circular_buf maxcount rpos wpos]; try done.
  rewrite Hwp, next_slot; [|done|unfold capacity in *; slot_lia].
  by rewrite slot_next by (unfold capacity in *; lia).
Qed.

Lemma pos_next_rpos :
  MPS_NEXT_Q_POS (rpos h) (maxcount h) = Z.of_nat (slot N r 1).
Proof.
  destruct Hpos. rewrite <- (Z2Nat.id (rpos h)) at 1 by lia.
  apply next_slot; [done|unfold capacity; lia].
Qed.

Lemma pos_pop : (0 < n)%nat ->
  queue_pos (set_rpos (MPS_NEXT_Q_POS (rpos h) (maxcount h)) h) (n - 1).
Proof.
  pose proof pos_r_lt. rewrite pos_next_rpos. destruct Hpos as [Hm Hrp Hle Hwp]. intros Hn.
  assert (slot N r 1 < N)%nat by slot_lia.
  split; unfold capacity in *; cbn [set_rpos circular_buf maxcount rpos wpos]; try done; [lia..|].
  rewrite Hwp, Nat2Z.id, slot_succ by lia. do 2 f_equal. lia.
Qed.
End Positions.

Section Rep.
Context (h : MPS_BUFF_HEAD) (l : list Z) (Hrep : queue_rep h l).
Lemma rep_r_lt : (Z.to_nat (rpos h) < S (capacity h))%nat.
Proof. apply (pos_r_lt h (length l)), rep_pos, Hrep. Qed.
Lemma rep_w_lt : (slot (S (capacity h)) (Z.to_nat (rpos h)) (length l) < S (capacity h))%nat.
Proof. apply pos_w_lt, rep_pos, Hrep. Qed.
Lemma rep_empty : (rpos h =? wpos h) = bool_decide (l = []).
Proof.
  change (MPS_IS_Q_EMPTY (Some h) = bool_decide (l = [])).
  rewrite (pos_empty h (length l)) by apply rep_pos, Hrep.
  apply bool_decide_ext. split; [apply nil_length_inv | by intros ->].
Qed.
Lemma rep_full : MPS_IS_Q_FULL (Some h) = bool_decide (length l = capacity h).
Proof. apply pos_full, rep_pos, Hrep. Qed.
Lemma rep_count : MPS_GET_Q_COUNT h = Z.of_nat (length l).
Proof. apply pos_count, rep_pos, Hrep. Qed.
End Rep.

(** ** One operation at a time *)
Lemma ring_set_Some h b p v :
  circular_buf h = Some b -> (Z.to_nat p < length b)%nat ->
  ring_set h p v = Some (set_buf (Some (<[Z.to_nat p := v]> b)) h).
Proof.
  intros Hb Hp. unfold ring_set. rewrite Hb. cbn [mbind option_bind].
  destruct (lookup_lt_is_Some_2 b (Z.to_nat p) Hp) as [x ->]. done.
Qed.

(** Writing the next free slot and moving [wpos] adds an item. *)
Lemma rep_push h l x :
  queue_rep h l -> (length l < capacity h)%nat ->
  exists h1, MPS_SET_Q_ITEM h x = Some h1 /\ maxcount h1 = maxcount h /\ wpos h1 = wpos h /\
    queue_rep (set_wpos (MPS_NEXT_Q_POS (wpos h1) (maxcount h1)) h1) (l ++ [x]).
Proof.
  intros Hrep Hl. pose proof (rep_w_lt h l Hrep) as Hw. pose proof (rep_r_lt h l Hrep) as Hr.
  destruct (rep_ring _ _ Hrep) as (b & Hb & Hlen & Hh).
  assert (Hwn : Z.to_nat (wpos h) = slot (length b) (Z.to_nat (rpos h)) (length l))
    by (rewrite (rep_wpos _ _ Hrep), Hlen; lia).
  eexists. unfold MPS_SET_Q_ITEM.
  split; [apply (ring_set_Some h b); [done|]; rewrite Hwn, Hlen; exact Hw|].
  do 2 (split; [done|]). destruct Hrep as [Hm Hrp Hle Hwp _].
  unfold capacity in *. split; unfold capacity; cbn [set_wpos set_buf circular_buf maxcount rpos wpos]; try done.
  - rewrite length_app. unfold capacity in *. cbn. lia.
  - rewrite Hwp, next_slot; [|done|]; unfold capacity.
    + rewrite slot_next, length_app by lia. cbn [length]. by rewrite Nat.add_1_r.
    + unfold capacity in *; lia.
  - eexists. split; [done|]. rewrite length_insert. split; [done|].
    rewrite Hwn. apply holds_push; [lia..|done].
Qed.

(** Reading the first slot, whatever is then written there, and moving [rpos] takes an
    item. *)
Lemma rep_pop h x l v :
  queue_rep h (x :: l) ->
  MPS_GET_Q_ITEM h = Some x /\
  exists h1, ring_set h (rpos h) v = Some h1 /\ maxcount h1 = maxcount h /\ rpos h1 = rpos h /\
    queue_rep (set_rpos (MPS_NEXT_Q_POS (rpos h1) (maxcount h1)) h1) l.
Proof.
  intros Hrep. pose proof (rep_r_lt h _ Hrep) as Hr.
  destruct (rep_ring _ _ Hrep) as (b & Hb & Hlen & Hh). destruct Hrep as [Hm Hrp Hle Hwp _].
  cbn [length] in *.
  split.
  { unfold MPS_GET_Q_ITEM, ring_get. rewrite Hb. cbn [mbind option_bind].
    rewrite <- (slot_0 (length b) (Z.to_nat (rpos h))) by lia. by apply Hh. }
  eexists. split; [apply (ring_set_Some h b); [done|lia]|]. do 2 (split; [done|]).
  assert (Hnx : MPS_NEXT_Q_POS (rpos h) (maxcount h) =
    Z.of_nat (slot (S (capacity h)) (Z.to_nat (rpos h)) 1)).
  { rewrite <- (Z2Nat.id (rpos h)) at 1 by lia. apply next_slot; [done|lia]. }
  split; unfold capacity; cbn [set_rpos set_buf circular_buf maxcount rpos wpos]; try done.
  - rewrite Hnx. assert (slot (S (capacity h)) (Z.to_nat (rpos h)) 1 < S (capacity h))%nat by slot_lia.
    unfold capacity in *. lia.
  - unfold capacity in *. lia.
  - rewrite Hnx, Nat2Z.id, Hwp. unfold capacity in *. by rewrite slot_succ by lia.
  - eexists. split; [done|]. rewrite length_insert. split; [done|].
    rewrite Hnx, Nat2Z.id. unfold capacity in *. rewrite <- Hlen.
    apply holds_taken; [lia..|]. eapply holds_tail; [lia| |exact Hh]. cbn [length]. lia.
Qed.

(** On a ring that stands for a list of buffers, mps_queue_tail adds at the end of the
    list and refuses with -ENOMEM exactly when the list has maxcount buffers, and
    mps_dequeue_head takes the first buffer, or returns NULL exactly when there is none;
    neither leaves the ring, wherever the positions have wrapped to. *)
Theorem queue_refines_list h l x :
  queue_rep h l ->
  (if decide (length l = capacity h)
   then mps_queue_tail x (Some h) = Some (- ENOMEM, Some h)
   else exists h', mps_queue_tail x (Some h) = Some (0, Some h') /\
     maxcount h' = maxcount h /\ queue_rep h' (l ++ [x])) /\
  match l with
  | [] => mps_dequeue_head (Some h) = Some (0, Some h)
  | y :: l' => exists h', mps_dequeue_head (Some h) = Some (y, Some h') /\
      maxcount h' = maxcount h /\ queue_rep h' l'
  end.
Proof.
  intros Hrep. split.
  - unfold mps_queue_tail, tail_section. rewrite (rep_full h l Hrep).
    case_decide as Hc; [by rewrite bool_decide_eq_true_2|]. rewrite bool_decide_eq_false_2 by done.
    destruct (rep_push h l x Hrep) as (h1 & -> & Hm & _ & Hr).
    { pose proof (rep_len _ _ Hrep). lia. }
    eexists. by split; [|split; [|exact Hr]].
  - unfold mps_dequeue_head, head_section, MPS_IS_Q_EMPTY. rewrite (rep_empty h l Hrep).
    destruct l as [|y l']; [done|]. rewrite bool_decide_eq_false_2 by done.
    destruct (rep_pop h y l' INVALID_ENTRY Hrep) as (-> & h1 & Hs & Hm & _ & Hr).
    cbn [mbind option_bind]. rewrite Hs. eexists. by split; [|split; [|exact Hr]].
Qed.

(** A ring of three slots holding one buffer, the write position wrapped round. *)
Definition sample_head : MPS_BUFF_HEAD := mk_head (Some [0; 0; 4096]) 2 2 0.
Lemma sample_rep : queue_rep sample_head [4096].
Proof.
  split; [cbn; lia | cbn; lia | vm_compute; lia | reflexivity |]. eexists. split; [reflexivity|]. split; [reflexivity|].
  intros [|[|]] x; cbn; intros [= <-]. reflexivity.
Qed.

Lemma queue_refines_list_witness :
  (exists h', mps_queue_tail 8192 (Some sample_head) = Some (0, Some h') /\
     maxcount h' = 2 /\ queue_rep h' [4096; 8192]) /\
  (exists h', mps_dequeue_head (Some sample_head) = Some (4096, Some h') /\
     maxcount h' = 2 /\ queue_rep h' []).
Proof. exact (queue_refines_list sample_head [4096] 8192 sample_rep). Defined.

(** ** The loops *)
Lemma free_loop_items h b l p fuel :
  0 <= maxcount h < 2 ^ 30 -> circular_buf h = Some b -> length b = S (capacity h) ->
  (p < length b)%nat -> (length l < length b)%nat -> holds b p l -> (length l < fuel)%nat ->
  free_loop fuel h (Z.of_nat p) (Z.of_nat (slot (length b) p (length l))) =
    Some (l, Z.of_nat (slot (length b) p (length l))).
Proof.
  intros Hm Hb Hlen. revert p fuel. induction l as [|x l IH]; intros p fuel Hp Hl Hh Hf;
    (destruct fuel as [|fuel]; [lia|]); cbn [free_loop length] in *.
  - rewrite slot_0 by done. by rewrite Z.eqb_refl.
  - destruct (Z.eqb_spec (Z.of_nat p) (Z.of_nat (slot (length b) p (S (length l))))) as [He|_].
    { assert (Hs : slot (length b) p (S (length l)) = p) by lia. apply slot_wrap in Hs; lia. }
    unfold ring_get. rewrite Hb. cbn [mbind option_bind]. rewrite Nat2Z.id.
    rewrite <- (slot_0 (length b) p) at 1 by done. rewrite (Hh 0%nat x eq_refl).
    rewrite next_slot by lia. rewrite <- Hlen, <- (slot_succ (length b) p (length l)) by lia.
    rewrite IH; [done | by apply slot_lt; lia | lia | | lia].
    eapply holds_tail; [done | cbn [length]; lia | exact Hh].
Qed.

Lemma queue_drained h l :
  queue_rep h l ->
  exists h', mps_queue_free (Some h) = Some (Z.of_nat (length l), l, Some h') /\
    maxcount h' = maxcount h /\ circular_buf h' = circular_buf h /\ queue_rep h' [].
Proof.
  intros Hrep. pose proof (rep_r_lt h l Hrep) as Hlt. pose proof (rep_w_lt h l Hrep) as Hwlt.
  destruct Hrep as [Hm Hr Hl Hw (b & Hb & Hlen & Hh)]. unfold mps_queue_free. rewrite Hb.
  replace (rpos h) with (Z.of_nat (Z.to_nat (rpos h))) by lia. rewrite Hw, <- Hlen.
  rewrite free_loop_items by (try done; unfold free_fuel, capacity in *; lia).
  unfold capacity in *. rewrite int32_small by lia.
  eexists. do 3 (split; [done|]).
  split; unfold capacity; cbn [set_rpos circular_buf maxcount rpos wpos length]; try lia.
  - rewrite Hlen. lia.
  - rewrite Nat2Z.id, slot_0 by (rewrite Hlen; done). by rewrite Hw, Hlen.
  - exists b. do 2 (split; [done|]). by intros i x [=].
Qed.

(** The loop of mps_queue_free ends on every well-formed ring: it frees the buffers of
    the list, each once and in order, returns their number, and leaves the queue empty. *)
Theorem queue_free_drains h l :
  queue_rep h l ->
  exists h', mps_queue_free (Some h) = Some (Z.of_nat (length l), l, Some h') /\
    maxcount h' = maxcount h /\ circular_buf h' = circular_buf h /\ queue_rep h' [].
Proof. apply queue_drained. Qed.

Lemma queue_free_drains_witness :
  exists h', mps_queue_free (Some sample_head) = Some (1, [4096], Some h') /\
    maxcount h' = 2 /\ circular_buf h' = Some [0; 0; 4096] /\ queue_rep h' [].
Proof. exact (queue_free_drains sample_head [4096] sample_rep). Defined.

(** ** What the allocator grants *)

(** The addresses of at most [n] calls, up to the first that fails. *)
Fixpoint granted (n : nat) (l : list Z) : list Z :=
  match n, l with
  | S n', b :: l' => if b =? 0 then [] else b :: granted n' l'
  | _, _ => []
  end.
(** The calls made: one more when the last one failed. *)
Definition calls (n : nat) (l : list Z) : nat :=
  if decide (length (granted n l) = n) then n else S (length (granted n l)).

Definition set_allocs (l : list Z) (s : mps) : mps :=
  mk_mps (mps_buff_pool_array s) (fast_allocs s) (fast_frees s) (fast_mallocs s)
    (fast_malloc_frees s) (mps_list_book_keep_x s) (timer_started s) l (freed s).

Lemma granted_length n l : (length (granted n l) <= n)%nat.
Proof.
  revert l. induction n as [|n IH]; intros [|b l]; cbn; try lia.
  destruct (b =? 0); cbn; [lia|]. specialize (IH l). lia.
Qed.

Lemma alloc_eq s : alloc s = Some (hd 0 (allocs s), set_allocs (drop 1 (allocs s)) s).
Proof. by destruct s as [? ? ? ? ? ? ? [|] ?]. Qed.

(** One call of the allocator, from the point of view of [granted]. *)
Lemma granted_step n l :
  (hd 0 l = 0 /\ granted (S n) l = [] /\ calls (S n) l = 1%nat) \/
  (hd 0 l <> 0 /\ granted (S n) l = hd 0 l :: granted n (drop 1 l) /\
   calls (S n) l = S (calls n (drop 1 l))).
Proof.
  unfold calls. destruct l as [|b l]; cbn [granted hd drop].
  - left. split; [done|]. split; [done|]. by case_decide.
  - rewrite drop_0. destruct (Z.eqb_spec b 0) as [->|Hb].
    + left. split; [done|]. split; [done|]. by case_decide.
    + right. split; [done|]. split; [done|]. cbn [length]. repeat case_decide; lia.
Qed.

Lemma set_allocs_twice l l' s : set_allocs l (set_allocs l' s) = set_allocs l s.
Proof. done. Qed.

Lemma topup_loop_fills h l s fuel :
  queue_rep h l -> (capacity h - length l < fuel)%nat ->
  let n := (capacity h - length l)%nat in
  let g := granted n (allocs s) in
  exists h', topup_loop fuel h (Z.of_nat (length l)) (wpos h) s =
      Some ((Z.of_nat (length (l ++ g)), h'), set_allocs (drop (calls n (allocs s)) (allocs s)) s) /\
    maxcount h' = maxcount h /\ queue_rep h' (l ++ g).
Proof.
  revert h l s. induction fuel as [|fuel IH]; intros h l s Hrep Hf; [lia|].
  pose proof (rep_len _ _ Hrep) as Hl. pose proof (rep_max _ _ Hrep) as Hm. cbn zeta.
  cbn [topup_loop]. unfold u32. rewrite Z.mod_small by (unfold capacity in *; lia).
  destruct (Z.ltb_spec (Z.of_nat (length l)) (maxcount h)) as [Hlt|Hge].
  - destruct (capacity h - length l)%nat as [|n] eqn:En; [unfold capacity in *; lia|].
    unfold bind at 1. rewrite alloc_eq.
    destruct (granted_step n (allocs s)) as [(-> & -> & ->)|(Hb & -> & ->)].
    + cbn [Z.eqb]. exists (set_wpos (wpos h) h). rewrite app_nil_r.
      split; [done|]. split; [done|]. by destruct h.
    + destruct (Z.eqb_spec (hd 0 (allocs s)) 0) as [|_]; [done|].
      destruct (rep_push h l (hd 0 (allocs s)) Hrep) as (h1 & Hs & Hm1 & Hw1 & Hrep1);
        [unfold capacity in *; lia|].
      unfold bind at 1, lift. rewrite Hs. cbn [ret].
      assert (Hc : capacity (set_wpos (MPS_NEXT_Q_POS (wpos h1) (maxcount h1)) h1) = capacity h)
        by (unfold capacity; cbn; by rewrite Hm1).
      destruct (IH _ _ (set_allocs (drop 1 (allocs s)) s) Hrep1) as (h' & Hrun & Hm' & Hrep'); rewrite Hc, ?length_app in *;
        cbn [length] in *; [lia|].
      replace (capacity h - (length l + 1))%nat with n in * by lia. cbn [allocs set_allocs] in Hrun.
      exists h'. rewrite Hm1, <- Hw1, int32_small by (unfold capacity in *; lia).
      replace (Z.of_nat (length l) + 1) with (Z.of_nat (length l + 1)) by lia.
      change (wpos (set_wpos ?p h1)) with p in Hrun. rewrite Hm1 in Hrun.
      rewrite Hrun, drop_drop, set_allocs_twice, <- Nat.add_assoc.
      split; [done|]. split; [by rewrite Hm', Hm1|]. by rewrite <- (assoc_L app) in Hrep'.
  - assert (capacity h - length l = 0)%nat as -> by (unfold capacity in *; lia).
    exists h. cbn [granted]. rewrite app_nil_r. by destruct s.
Qed.

Lemma topup_grants h l s :
  queue_rep h l ->
  let n := (capacity h - length l)%nat in
  let g := granted n (allocs s) in
  exists h', mps_topup_q_list h s =
      Some ((Z.of_nat (length g), h'), set_allocs (drop (calls n (allocs s)) (allocs s)) s) /\
    maxcount h' = maxcount h /\ queue_rep h' (l ++ g).
Proof.
  intros Hrep n g. pose proof (rep_len _ _ Hrep). pose proof (rep_max _ _ Hrep).
  pose proof (granted_length n (allocs s)).
  destruct (topup_loop_fills h l s (topup_fuel h) Hrep) as (h' & Hrun & Hm & Hr);
    [unfold topup_fuel, capacity; lia|].
  exists h'. unfold mps_topup_q_list, bind. rewrite (rep_count h l Hrep), Hrun.
  split; [|by split]. unfold ret. rewrite length_app.
  subst g n. unfold capacity in *. rewrite int32_small by lia. do 3 f_equal. lia.
Qed.

(** mps_topup_q_list fills the queue up to maxcount or up to the first allocation that
    fails, adds the buffers in the order they are allocated behind the ones already there,
    and returns how many it added. *)
Theorem topup_fills h l s :
  queue_rep h l ->
  let n := (capacity h - length l)%nat in
  let g := granted n (allocs s) in
  exists h', mps_topup_q_list h s =
      Some ((Z.of_nat (length g), h'), set_allocs (drop (calls n (allocs s)) (allocs s)) s) /\
    maxcount h' = maxcount h /\ queue_rep h' (l ++ g).
Proof. apply topup_grants. Qed.

Definition sample_mps : mps := mk_mps ∅ 0 0 0 0 1 false [12288; 0; 16384] [].

Lemma topup_fills_witness :
  exists h', mps_topup_q_list sample_head sample_mps =
      Some ((1, h'), set_allocs [0; 16384] sample_mps) /\
    maxcount h' = 2 /\ queue_rep h' [4096; 12288].
Proof. exact (topup_fills sample_head [4096] sample_mps sample_rep). Defined.

(** ** A fresh queue *)
Lemma fill_ring_run n i ring s :
  (i + n <= length ring)%nat ->
  let g := granted n (allocs s) in
  fill_ring n i ring s =
    Some (if decide (length g = n) then inl (take i ring ++ g ++ drop (i + n) ring)%list
          else inr (i + length g)%nat,
          set_allocs (drop (calls n (allocs s)) (allocs s)) s).
Proof.
  revert i ring s. induction n as [|n IH]; intros i ring s Hlen; cbn zeta; cbn [fill_ring].
  - cbn [granted length]. rewrite decide_True by done. cbn [app].
    rewrite Nat.add_0_r, take_drop. by destruct s.
  - unfold bind at 1. rewrite alloc_eq.
    destruct (lookup_lt_is_Some_2 ring i) as [x Hx]; [lia|].
    unfold bind at 1, lift. rewrite Hx. cbn [ret].
    destruct (granted_step n (allocs s)) as [(-> & -> & ->)|(Hb & -> & ->)].
    + cbn [Z.eqb length]. rewrite decide_False by done. by rewrite Nat.add_0_r.
    + destruct (Z.eqb_spec (hd 0 (allocs s)) 0) as [|_]; [done|].
      rewrite IH by (rewrite length_insert; lia). cbn [allocs set_allocs length].
      rewrite set_allocs_twice, drop_drop. cbn [Nat.add].
      rewrite (take_S_r _ _ (hd 0 (allocs s))) by (apply list_lookup_insert_eq; lia).
      rewrite take_insert_ge, drop_insert_lt by lia. rewrite <- (assoc_L app). cbn [app].
      rewrite Nat.add_succ_r. cbn [Nat.add].
      rewrite Nat.add_succ_r. destruct (decide (length (granted n (drop 1 (allocs s))) = n)).
      * by rewrite decide_True by lia.
      * by rewrite decide_False by lia.
Qed.

Lemma ring_slots_eq n : 0 <= n < 2 ^ 30 - 1 -> ring_slots n = S (Z.to_nat n).
Proof.
  intros Hn. unfold ring_slots, u32. rewrite (Z.mod_small (n + 1)) by lia.
  rewrite Z.mod_small, Z.div_mul by lia. lia.
Qed.

(** A ring written from its first slot. *)
Lemma fresh_rep n l b :
  0 <= n < 2 ^ 30 - 1 -> length b = S (Z.to_nat n) -> (length l <= Z.to_nat n)%nat ->
  (forall i, (i < length l)%nat -> b !! i = l !! i) ->
  queue_rep (mk_head (Some b) n 0 (Z.of_nat (length l))) l.
Proof.
  intros Hn Hb Hl Hi. split; unfold capacity; cbn [circular_buf maxcount rpos wpos]; try lia.
  - f_equal. change (Z.to_nat 0) with 0%nat. slot_lia.
  - exists b. do 2 (split; [done|]). intros i x Hx. pose proof (lookup_lt_Some _ _ _ Hx).
    change (Z.to_nat 0) with 0%nat. replace (slot (length b) 0 i) with i by slot_lia.
    by rewrite Hi.
Qed.

(** When the allocations succeed, mps_queue_init gives a full queue of num_entries
    buffers on a ring with one slot more, for every num_entries for which the size of the
    ring does not overflow 32 bits. *)
Theorem queue_init_ring uninit h size n s p rest :
  circular_buf h = None -> 0 <= n < 2 ^ 30 - 1 -> allocs s = p :: rest -> p <> 0 ->
  size <> 0 -> length (granted (Z.to_nat n) rest) = Z.to_nat n ->
  exists h', mps_queue_init uninit (Some h) size n s =
      Some ((0, Some h'), set_allocs (drop (Z.to_nat n) rest) s) /\
    maxcount h' = n /\ queue_rep h' (granted (Z.to_nat n) rest).
Proof.
  intros Hh Hn Ha Hp Hsz Hg. unfold mps_queue_init. rewrite Hh. unfold bind at 1.
  rewrite alloc_eq, Ha. cbn [hd drop]. destruct (Z.eqb_spec p 0) as [|_]; [done|].
  unfold nz. destruct (Z.eqb_spec size 0) as [|_]; [done|]. cbn [negb]. unfold bind at 1.
  assert (Hlen : length (replicate (ring_slots n) uninit) = S (Z.to_nat n))
    by (rewrite length_replicate; by apply ring_slots_eq).
  rewrite fill_ring_run by (rewrite Hlen; lia). cbn [allocs set_allocs].
  rewrite decide_True by done. rewrite drop_0. unfold calls. rewrite decide_True by done.
  cbn [take app Nat.add ret]. eexists. split; [done|]. split; [done|].
  assert (Hw : Z.of_nat (length (granted (Z.to_nat n) rest)) = n) by lia.
  eapply (eq_ind _ (fun w => queue_rep (mk_head _ n 0 w) _)); [apply fresh_rep|exact Hw].
  - done.
  - rewrite !length_app, length_take, length_drop, Hg, Hlen. lia.
  - lia.
  - intros i Hi. rewrite take_0, app_nil_l. by rewrite lookup_app_l.
Qed.

Lemma queue_init_ring_witness :
  exists h', mps_queue_init 7 (Some zero_head) 1600 2
      (mk_mps ∅ 0 0 0 0 1 false [4096; 8192; 12288; 16384] []) =
      Some ((0, Some h'), mk_mps ∅ 0 0 0 0 1 false [16384] []) /\
    maxcount h' = 2 /\ queue_rep h' [8192; 12288].
Proof.
  apply (queue_init_ring 7 zero_head 1600 2 (mk_mps ∅ 0 0 0 0 1 false [4096; 8192; 12288; 16384] [])
    4096 [8192; 12288; 16384]); [reflexivity | lia | reflexivity | lia | lia | reflexivity].
Defined.

(** When the allocator runs out after at least one buffer, mps_queue_init returns
    -ENOMEM but frees none of the buffers it had, and leaves a queue that reads as non-empty
    without a ring: the next mps_dequeue_head follows a null pointer. *)
Theorem queue_init_failure uninit h size n s p rest b :
  circular_buf h = None -> 0 <= n < 2 ^ 30 - 1 -> allocs s = p :: rest -> p <> 0 ->
  size <> 0 -> granted (Z.to_nat n) rest = b -> (0 < length b < Z.to_nat n)%nat ->
  exists h' s', mps_queue_init uninit (Some h) size n s = Some ((- ENOMEM, Some h'), s') /\
    allocs s' = drop (S (length b)) rest /\ freed s' = freed s /\
    circular_buf h' = None /\ MPS_IS_Q_EMPTY (Some h') = false /\
    mps_dequeue_head (Some h') = None.
Proof.
  intros Hh Hn Ha Hp Hsz Hg Hb. unfold mps_queue_init. rewrite Hh. unfold bind at 1.
  rewrite alloc_eq, Ha. cbn [hd drop]. destruct (Z.eqb_spec p 0) as [|_]; [done|].
  unfold nz. destruct (Z.eqb_spec size 0) as [|_]; [done|]. cbn [negb]. unfold bind at 1.
  rewrite fill_ring_run by (rewrite length_replicate, ring_slots_eq by done; lia).
  cbn [allocs set_allocs]. unfold calls. rewrite drop_0, Hg, !decide_False by lia.
  cbn [mps_queue_free set_rpos circular_buf]. rewrite Hh. unfold bind, lift, ret, free. cbn.
  do 2 eexists. split; [reflexivity|]. cbn. split; [done|]. split; [by rewrite app_nil_r|].
  split; [done|]. by destruct (Z.of_nat (length b)) eqn:?; [lia|..].
Qed.

Lemma queue_init_failure_witness :
  exists h' s', mps_queue_init 7 (Some zero_head) 1600 2
      (mk_mps ∅ 0 0 0 0 1 false [4096; 8192; 0; 16384] []) = Some ((- ENOMEM, Some h'), s') /\
    allocs s' = [16384] /\ freed s' = [] /\ circular_buf h' = None /\
    MPS_IS_Q_EMPTY (Some h') = false /\ mps_dequeue_head (Some h') = None.
Proof.
  apply (queue_init_failure 7 zero_head 1600 2 (mk_mps ∅ 0 0 0 0 1 false [4096; 8192; 0; 16384] [])
    4096 [8192; 0; 16384] [8192]); [reflexivity | lia | reflexivity | lia | lia | reflexivity | cbn; lia].
Defined.

(** ** The pools *)
Lemma bind_eq {A B} (m : M A) (k : A -> M B) s a s1 : m s = Some (a, s1) -> bind m k s = k a s1.
Proof. unfold bind. by intros ->. Qed.

(** A queue that is missing, not set up yet, or stands for [l]. *)
Definition opt_rep (q : option MPS_BUFF_HEAD) (l : list Z) : Prop :=
  match q with
  | None => l = []
  | Some h => (circular_buf h = None /\ l = []) \/ queue_rep h l
  end.

Definition set_freed (l : list Z) (s : mps) : mps :=
  mk_mps (mps_buff_pool_array s) (fast_allocs s) (fast_frees s) (fast_mallocs s)
    (fast_malloc_frees s) (mps_list_book_keep_x s) (timer_started s) (allocs s) l.

Lemma set_freed_twice l l' s :
  set_freed (freed (set_freed (freed s ++ l) s) ++ l') (set_freed (freed s ++ l) s) =
  set_freed (freed s ++ l ++ l') s.
Proof. unfold set_freed. cbn [freed]. by rewrite (assoc_L app). Qed.

Lemma release_q_list q l s :
  opt_rep q l ->
  exists q', ifx_cpu0_release_q_list q s =
      Some ((Z.of_nat (length l), q'), set_freed (freed s ++ l) s) /\ opt_rep q' [].
Proof.
  unfold ifx_cpu0_release_q_list, bind, lift, free, ret. intros Hq. destruct q as [h|]; cbn in Hq.
  - destruct Hq as [[Hb ->]|Hrep].
    + exists (Some h). unfold mps_queue_free. rewrite Hb. split; [done|]. by left.
    + destruct (queue_drained h l Hrep) as (h' & -> & _ & _ & Hr). exists (Some h'). split; [done|].
      by right.
  - subst l. by exists None.
Qed.

(** The counts of the loop over the sizes of a pool. *)
Lemma release_entries es ls tot pre s :
  Forall2 (fun e l => opt_rep (free_q e) l) es ls ->
  exists es', each_entry (length es) (length pre) release_entry (pre ++ es) tot s =
      Some ((tot + Z.of_nat (length (concat ls)), (pre ++ es')%list), set_freed (freed s ++ concat ls) s) /\
    Forall2 (fun e e' => alloc_q e' = alloc_q e /\ size e' = size e /\ opt_rep (free_q e') []) es es'.
Proof.
  intros HF. revert tot pre s. induction HF as [|e l es ls He HF IH]; intros tot pre s.
  - exists []. cbn. rewrite Z.add_0_r, !app_nil_r. by destruct s.
  - cbn [length each_entry concat]. rewrite lookup_app_r, Nat.sub_diag by lia.
    cbn [lookup list_lookup]. unfold bind at 1, lift, ret.
    destruct (release_q_list (free_q e) l s He) as (q' & Hq & Hq').
    assert (Hre : release_entry e s = Some ((Z.of_nat (length l), set_free_q q' e),
        set_freed (freed s ++ l) s)) by (unfold release_entry, bind; by rewrite Hq).
    unfold bind at 1. rewrite Hre.
    rewrite insert_app_r_alt, Nat.sub_diag by lia. cbn [insert list_insert].
    specialize (IH (if 0 <? Z.of_nat (length l) then tot + Z.of_nat (length l) else tot)
      (pre ++ [set_free_q q' e])%list (set_freed (freed s ++ l) s)).
    destruct IH as (es' & Hrun & HF'). exists (set_free_q q' e :: es').
    rewrite length_app, Nat.add_1_r, <- (assoc_L app) in Hrun. cbn [app] in Hrun.
    rewrite Hrun. split.
    + rewrite set_freed_twice, <- (assoc_L app), length_app. cbn [app]. do 3 f_equal.
      destruct (Z.ltb_spec 0 (Z.of_nat (length l))); lia.
    + by constructor.
Qed.

(** The lists of a pool: those of the free queues of its sizes, of the default free queue and
    of the queue of freed plain buffers. *)
Record pool_rep (p : MPS_BUFF_POOL_HEAD) (ls : list (list Z)) (ld lm : list Z) : Prop := {
  pool_sizes : sizes_count p = Z.of_nat (length (buff_array p));
  pool_hits : free_hit_count p = 0 /\ alloc_hit_count p = 0;
  pool_entries : Forall2 (fun e l => opt_rep (free_q e) l) (buff_array p) ls;
  pool_default : opt_rep (default_free_list p) ld;
  pool_malloc : opt_rep (malloc_buf_free_list p) lm }.

Definition set_pool (seq : Z) (p : MPS_BUFF_POOL_HEAD) (s : mps) : mps :=
  mk_mps (<[seq := p]> (mps_buff_pool_array s)) (fast_allocs s) (fast_frees s) (fast_mallocs s)
    (fast_malloc_frees s) (mps_list_book_keep_x s) (timer_started s) (allocs s) (freed s).

Lemma release_pool_runs seq p s ls ld lm :
  pool_rep p ls ld lm ->
  exists p', release_pool seq p s =
      Some (Z.of_nat (length (concat ls ++ ld)),
            set_pool seq p' (set_freed (freed s ++ concat ls ++ ld ++ lm) s)) /\
    pool_rep p' ((fun _ => []) <$> ls) [] [] /\
    (alloc_q <$> buff_array p') = (alloc_q <$> buff_array p) /\
    tot_free_count p' = u32 (tot_free_count p + Z.of_nat (length (concat ls ++ ld))).
Proof.
  intros [Hsz Hh Hes Hd Hm]. unfold release_pool. rewrite Hsz, Nat2Z.id.
  destruct (release_entries (buff_array p) ls 0 [] s Hes) as (es' & He & Hes').
  destruct (release_q_list _ _ (set_freed (freed s ++ concat ls) s) Hd) as (d & Hd1 & Hd2).
  destruct (release_q_list _ _ (set_freed (freed s ++ concat ls ++ ld) s) Hm) as (f & Hf1 & Hf2).
  rewrite set_freed_twice in Hd1.
  erewrite bind_eq by exact He. cbv beta iota. erewrite bind_eq by exact Hd1. cbv beta iota zeta.
  erewrite bind_eq by exact Hf1. cbv beta iota. erewrite bind_eq by reflexivity.
  assert (Hn : (if 0 <? Z.of_nat (length ld) then Z.of_nat (length (concat ls)) + Z.of_nat (length ld)
                else Z.of_nat (length (concat ls))) = Z.of_nat (length (concat ls ++ ld))).
  { rewrite length_app. destruct (Z.ltb_spec 0 (Z.of_nat (length ld))); lia. }
  rewrite Z.add_0_l, Hn. eexists. split; [|split; [|split]].
  - unfold ret, set_pool, set_freed. cbn. by rewrite <- !(assoc_L app).
  - split; cbn; try done.
    + rewrite Hsz. by rewrite (Forall2_length _ _ _ Hes').
    + apply Forall2_fmap_r.
      apply Forall2_length in Hes. clear -Hes Hes'. revert ls Hes.
      induction Hes' as [|e e' es es' (_ & _ & He) HF IH]; intros [|l ls]; try done; intros [=];
        constructor; auto.
  - cbn. clear -Hes'. induction Hes' as [|e e' es es' (He & _) HF IH]; [done|]. cbn. by rewrite He, IH.
  - done.
Qed.

Lemma release_returned seq p s ls ld lm :
  mps_buff_pool_array s !! seq = Some p -> pool_rep p ls ld lm -> mps_list_book_keep_x s = 1 ->
  exists p',
    ifx_cpu0_release_q_lists MPS_CPU_0_ID seq s =
      Some (int32 (Z.of_nat (length (concat ls ++ ld))),
            set_pool seq p' (set_freed (freed s ++ concat ls ++ ld ++ lm) s)) /\
    pool_rep p' ((fun _ => []) <$> ls) [] [] /\
    (alloc_q <$> buff_array p') = (alloc_q <$> buff_array p) /\
    tot_free_count p' = u32 (tot_free_count p + Z.of_nat (length (concat ls ++ ld))).
Proof.
  intros Hp Hrep Hx. pose proof (pool_hits _ _ _ _ Hrep) as [Hf Ha].
  unfold ifx_cpu0_release_q_lists. cbn [on_cpu0 negb Z.eqb MPS_CPU_0_ID].
  erewrite bind_eq by reflexivity. rewrite Hp, Hf.
  change (MPS_BOOK_KEEPING_THRESH <? u32 (0 + 1)) with true. cbv beta iota zeta.
  erewrite bind_eq by reflexivity. erewrite bind_eq by reflexivity.
  cbn [mps_list_book_keep_x]. rewrite Hx. change (1 - 1 =? 0) with true. cbv beta iota.
  assert (set_hits 0 (alloc_hit_count p) p = p) as -> by (destruct p; cbn in *; by subst).
  match goal with |- context [bind (release_pool _ _) _ ?st] =>
    destruct (release_pool_runs seq p st ls ld lm Hrep) as (p' & Hrun & Hp') end.
  exists p'. split; [|exact Hp']. erewrite bind_eq by exact Hrun.
  unfold bind, book_keep_inc, ret, set_pool, set_freed. cbn. rewrite insert_insert, decide_True, Hx by done.
  done.
Qed.

(** A pool of one size: one buffer to allocate, one given back, one more on the default list. *)
Definition other_head : MPS_BUFF_HEAD := mk_head (Some [8192; 0; 0]) 2 0 1.
Lemma other_rep : queue_rep other_head [8192].
Proof.
  split; [cbn; lia | cbn; lia | vm_compute; lia | reflexivity |].
  eexists. split; [reflexivity|]. split; [reflexivity|].
  intros [|[|]] x; cbn; intros [= <-]. reflexivity.
Qed.
Definition sample_pool : MPS_BUFF_POOL_HEAD :=
  mk_pool 1 0 0 [mk_entry (Some sample_head) (Some other_head) 1600] (Some sample_head) None None 0 5.
Definition pool_mps : mps := mk_mps {[ 10 := sample_pool ]} 0 0 0 0 1 true [12288; 0] [].
Lemma sample_pool_rep : pool_rep sample_pool [[8192]] [4096] [].
Proof.
  split; [reflexivity | done | | right; exact sample_rep | done].
  constructor; [right; exact other_rep | constructor].
Qed.

(** ifx_cpu0_release_q_lists frees exactly the buffers on the free queues of the pool,
    in order, then those of the default list and of the plain buffers, empties these queues,
    keeps the queues to allocate from, counts what it freed, and leaves the book-keeping
    lock as it was. *)
Theorem release_frees_returned seq p s ls ld lm :
  mps_buff_pool_array s !! seq = Some p -> pool_rep p ls ld lm -> mps_list_book_keep_x s = 1 ->
  exists p',
    ifx_cpu0_release_q_lists MPS_CPU_0_ID seq s =
      Some (int32 (Z.of_nat (length (concat ls ++ ld))),
            set_pool seq p' (set_freed (freed s ++ concat ls ++ ld ++ lm) s)) /\
    pool_rep p' ((fun _ => []) <$> ls) [] [] /\
    (alloc_q <$> buff_array p') = (alloc_q <$> buff_array p) /\
    tot_free_count p' = u32 (tot_free_count p + Z.of_nat (length (concat ls ++ ld))).
Proof. apply release_returned. Qed.

Lemma release_frees_returned_witness :
  exists p', ifx_cpu0_release_q_lists MPS_CPU_0_ID 10 pool_mps =
      Some (2, set_pool 10 p' (set_freed [8192; 4096] pool_mps)) /\
    pool_rep p' [[]] [] [] /\ (alloc_q <$> buff_array p') = [Some sample_head] /\
    tot_free_count p' = 7.
Proof.
  exact (release_frees_returned 10 sample_pool pool_mps [[8192]] [4096] [] eq_refl sample_pool_rep eq_refl).
Defined.

(** A pool whose sizes each have their queue to allocate from. *)
Definition alloc_ok (e : MPS_BUFF_SIZE_ENTRY) : Prop :=
  exists h, alloc_q e = Some h /\ (maxcount h = 0 \/ exists l, queue_rep h l).
Definition pool_ok (p : MPS_BUFF_POOL_HEAD) : Prop :=
  Forall alloc_ok (buff_array p) /\ exists ls ld lm, pool_rep p ls ld lm.
Definition pools_ok (s : mps) : Prop :=
  (forall seq p, mps_buff_pool_array s !! seq = Some p -> pool_ok p) /\ mps_list_book_keep_x s = 1.

Lemma topup_entry e s :
  alloc_ok e ->
  exists n e' l, ifx_cpu0_topup_q_list e s = Some ((n, e'), set_allocs l s) /\
    alloc_ok e' /\ free_q e' = free_q e.
Proof.
  intros (h & Hh & Hor). unfold ifx_cpu0_topup_q_list. rewrite Hh.
  erewrite bind_eq by reflexivity. destruct (Z.eqb_spec (maxcount h) 0) as [Hz|Hz].
  - exists 0, e, (allocs s). split; [by destruct s|]. split; [|done]. exists h. auto.
  - destruct Hor as [?|(l & Hrep)]; [done|].
    destruct (topup_grants h l s Hrep) as (h' & Hrun & _ & Hrep').
    do 3 eexists. erewrite bind_eq by exact Hrun. split; [reflexivity|]. split; [|done].
    exists h'. split; [done|]. right. by eexists.
Qed.

Lemma topup_entries es tot pre s :
  Forall alloc_ok es ->
  exists n es' l, each_entry (length es) (length pre) ifx_cpu0_topup_q_list (pre ++ es) tot s =
      Some ((n, (pre ++ es')%list), set_allocs l s) /\
    Forall alloc_ok es' /\ (free_q <$> es') = (free_q <$> es).
Proof.
  intros HF. revert tot pre s. induction HF as [|e es He HF IH]; intros tot pre s.
  - exists tot, [], (allocs s). split; [by destruct s|]. by split.
  - cbn [length each_entry]. rewrite lookup_app_r, Nat.sub_diag by lia.
    cbn [lookup list_lookup]. erewrite bind_eq by reflexivity.
    destruct (topup_entry e s He) as (n & e' & l & Hrun & He' & Hf).
    erewrite bind_eq by exact Hrun. cbv beta iota. rewrite insert_app_r_alt, Nat.sub_diag by lia.
    cbn [insert list_insert].
    destruct (IH (if 0 <? n then tot + n else tot) (pre ++ [e'])%list (set_allocs l s))
      as (n' & es' & l' & Hes & HF' & Hfs).
    rewrite length_app, Nat.add_1_r, <- !(assoc_L app) in Hes. cbn [app] in Hes.
    exists n', (e' :: es'), l'. split; [exact Hes|]. split; [by constructor|].
    cbn. by rewrite Hf, Hfs.
Qed.

Lemma topup_lists_ok seq p s :
  mps_buff_pool_array s !! seq = Some p -> pool_ok p -> mps_list_book_keep_x s = 1 ->
  exists n p' l, ifx_cpu0_topup_q_lists MPS_CPU_0_ID seq s = Some (n, set_pool seq p' (set_allocs l s)) /\
    pool_ok p'.
Proof.
  intros Hp [Hall (ls & ld & lm & [Hsz [Hf Ha] Hes Hd Hm])] Hx.
  unfold ifx_cpu0_topup_q_lists. cbn [on_cpu0 negb Z.eqb MPS_CPU_0_ID].
  erewrite bind_eq by reflexivity. rewrite Hp, Ha.
  change (MPS_BOOK_KEEPING_THRESH <? u32 (0 + 1)) with true. cbv beta iota zeta.
  erewrite bind_eq by reflexivity. erewrite bind_eq by reflexivity.
  cbn [mps_list_book_keep_x]. rewrite Hx. change (1 - 1 =? 0) with true. cbv beta iota.
  assert (set_hits (free_hit_count p) 0 p = p) as -> by (destruct p; cbn in *; by subst).
  match goal with |- context [bind (topup_pool _ _) _ ?st] => set (s1 := st) end.
  destruct (topup_entries (buff_array p) 0 [] s1 Hall) as (n & es' & l & He & Hall' & Hfs).
  assert (Hrun : topup_pool seq p s1 = Some (n, set_pool seq (set_array es' p) (set_allocs l s1))).
  { unfold topup_pool. rewrite Hsz, Nat2Z.id. by erewrite bind_eq by exact He. }
  erewrite bind_eq by exact Hrun. exists (int32 n), (set_array es' p), l. split.
  - unfold bind, book_keep_inc, ret, s1, set_pool, set_allocs. cbn.
    by rewrite insert_insert, decide_True, Hx by done.
  - split; [exact Hall'|]. exists ls, ld, lm.
    assert (Hlen : length es' = length (buff_array p))
      by (apply (f_equal length) in Hfs; by rewrite !length_fmap in Hfs).
    split; cbn; [by rewrite Hlen | done | | done..].
    clear -Hes Hfs. revert es' Hfs. induction Hes as [|e l' es ls' He HF IH]; intros [|e' es'];
      try done; intros [= Heq Hfs]. constructor; [by rewrite Heq|by apply IH].
Qed.

Lemma release_lists_ok seq p s :
  mps_buff_pool_array s !! seq = Some p -> pool_ok p -> mps_list_book_keep_x s = 1 ->
  exists n p' l, ifx_cpu0_release_q_lists MPS_CPU_0_ID seq s =
      Some (n, set_pool seq p' (set_freed (freed s ++ l) s)) /\ pool_ok p'.
Proof.
  intros Hp [Hall (ls & ld & lm & Hrep)] Hx.
  destruct (release_returned seq p s ls ld lm Hp Hrep Hx) as (p' & Hrun & Hrep' & Ha & _).
  do 3 eexists. split; [exact Hrun|]. split; [|by do 3 eexists].
  clear -Hall Ha. revert Ha. generalize (buff_array p') as es'.
  induction Hall as [|e es (h & He & Hh) HF IH]; intros [|e' es']; try done;
    intros [= Heq Hes]. constructor; [|by apply IH]. exists h. by rewrite Heq.
Qed.

Lemma pools_ok_set seq p s l l' :
  pools_ok s -> pool_ok p -> pools_ok (set_pool seq p (set_allocs l (set_freed l' s))).
Proof.
  intros [Hs Hx] Hp. split; [|done]. cbn. intros seq' p' [[_ <-]|[_ Hp']]%lookup_insert_Some; [done|].
  by apply (Hs seq').
Qed.

Lemma timer_pools_ok n i s :
  pools_ok s -> exists s', timer_pools MPS_CPU_0_ID n i s = Some (tt, s') /\ pools_ok s' /\
    exists l, freed s' = (freed s ++ l)%list.
Proof.
  revert i s. induction n as [|n IH]; intros i s Hs.
  { exists s. split; [done|]. split; [done|]. exists []. by rewrite app_nil_r. }
  cbn [timer_pools]. erewrite bind_eq by reflexivity.
  destruct (mps_buff_pool_array s !! i) as [p|] eqn:Hp; [|by apply IH].
  destruct Hs as [Hs Hx]. pose proof (Hs i p Hp) as Hpok.
  destruct (topup_lists_ok i p s Hp Hpok Hx) as (m & p1 & l & Hrun & Hp1).
  erewrite bind_eq by exact Hrun.
  assert (Hs1 : pools_ok (set_pool i p1 (set_allocs l s))).
  { replace (set_allocs l s) with (set_allocs l (set_freed (freed s) s)) by (by destruct s).
    by apply pools_ok_set. }
  destruct Hs1 as [Hs1 Hx1].
  destruct (release_lists_ok i p1 (set_pool i p1 (set_allocs l s))) as (m' & p2 & l' & Hrun2 & Hp2);
    [cbn; by rewrite lookup_insert_eq | done | done |].
  erewrite bind_eq by exact Hrun2.
  match type of Hrun2 with _ = Some (_, ?st) => destruct (IH (i + 1) st) as (s' & Hr & Hok & l2 & Hf) end.
  - split; [|done]. cbn. intros seq' p' [[_ <-]|[_ Hp']]%lookup_insert_Some; [done|]. by apply (Hs1 seq').
  - exists s'. split; [exact Hr|]. split; [exact Hok|]. exists (l' ++ l2)%list. rewrite Hf. cbn.
    by rewrite (assoc_L app).
Qed.

(** Once every size of every pool has its queue to allocate from, the timer handler
    always returns, follows no null pointer, leaves the pools in that state, whatever the
    allocator answers, and only adds to the buffers freed. *)
Theorem timer_handler_safe s :
  pools_ok s -> exists s', mps_timer_handler MPS_CPU_0_ID s = Some (tt, s') /\ pools_ok s' /\
    exists l, freed s' = (freed s ++ l)%list.
Proof. apply timer_pools_ok. Qed.

Lemma pool_mps_ok : pools_ok pool_mps.
Proof.
  split; [|reflexivity]. cbn. intros seq p [_ <-]%lookup_singleton_Some. split.
  - constructor; [|constructor]. exists sample_head. split; [done|]. right. exists [4096].
    exact sample_rep.
  - exists [[8192]], [4096], []. exact sample_pool_rep.
Qed.

Lemma timer_handler_safe_witness :
  exists s', mps_timer_handler MPS_CPU_0_ID pool_mps = Some (tt, s') /\ pools_ok s' /\
    exists l, freed s' = l.
Proof. exact (timer_handler_safe pool_mps pool_mps_ok). Defined.

Lemma bind_inv {A B} (m : M A) (k : A -> M B) s r :
  bind m k s = Some r -> exists a s1, m s = Some (a, s1) /\ k a s1 = Some r.
Proof. unfold bind. destruct (m s) as [[a s1]|]; [|done]. intros H. by exists a, s1. Qed.

Lemma alloc_zeroed_inv s s' : alloc_zeroed s = Some (tt, s') -> exists l, s' = set_allocs l s.
Proof.
  unfold alloc_zeroed. intros (p & s1 & Ha & Hk)%bind_inv. rewrite alloc_eq in Ha.
  injection Ha as <- <-. destruct (_ =? 0); [done|]. injection Hk as <-. by eexists.
Qed.

Lemma queue_init_empty_inv uninit h n s r s' :
  mps_queue_init uninit (Some h) 0 n s = Some (r, s') -> exists l, s' = set_allocs l s.
Proof.
  unfold mps_queue_init. destruct (circular_buf h).
  - intros [= <- <-]. exists (allocs s). by destruct s.
  - intros (p & s1 & Ha & Hk)%bind_inv. rewrite alloc_eq in Ha. injection Ha as <- <-.
    cbn [nz negb Z.eqb] in Hk. destruct (_ =? 0); injection Hk as <- <-; by eexists.
Qed.

(** Between ifx_mps_buff_pool_init, which publishes the pool and starts the timer, and
    ifx_mps_queue_init, the top-up of the timer handler follows the null alloc_q of the
    first size. *)
Theorem timer_before_queue_init uninit seq sizes len s s1 :
  1 <= sizes -> mps_list_book_keep_x s = 1 ->
  ifx_mps_buff_pool_init uninit MPS_CPU_0_ID seq sizes len s = Some (0, s1) ->
  ifx_cpu0_topup_q_lists MPS_CPU_0_ID seq s1 = None.
Proof.
  intros Hsz Hx. unfold ifx_mps_buff_pool_init. cbn [on_cpu0 negb Z.eqb MPS_CPU_0_ID].
  intros (q & sq & [= <- <-] & Hk)%bind_inv. destruct (_ !! seq); [done|].
  apply bind_inv in Hk as ([] & t1 & (l1 & ->)%alloc_zeroed_inv & Hk).
  apply bind_inv in Hk as ([] & t2 & (l2 & ->)%alloc_zeroed_inv & Hk).
  apply bind_inv in Hk as ([r d] & t3 & (l3 & ->)%queue_init_empty_inv & Hk).
  apply bind_inv in Hk as ([] & t4 & (l4 & ->)%alloc_zeroed_inv & Hk).
  unfold bind, put_pool, start_timer, ret in Hk. injection Hk as <-.
  unfold ifx_cpu0_topup_q_lists. cbn [on_cpu0 negb Z.eqb MPS_CPU_0_ID].
  erewrite bind_eq by reflexivity. cbn [mps_buff_pool_array set_allocs].
  rewrite lookup_insert_eq. cbn [alloc_hit_count].
  change (MPS_BOOK_KEEPING_THRESH <? u32 (0 + 1)) with true. cbv beta iota zeta.
  erewrite bind_eq by reflexivity. erewrite bind_eq by reflexivity.
  cbn [mps_list_book_keep_x set_allocs]. rewrite Hx. change (1 - 1 =? 0) with true. cbv beta iota.
  unfold bind at 1, topup_pool at 1. unfold bind at 1. cbn [sizes_count buff_array set_hits].
  destruct (Z.to_nat sizes) as [|n] eqn:E; [lia|]. reflexivity.
Qed.
