(* ===== verification/MpsConc.v ===== *)
(** * MpsConc: two processors on one queue

    One processor runs [mps_queue_tail], the other [mps_dequeue_head], on the same
    queue and without a lock; each access to the shared fields is a step, and the
    steps of the two interleave.  Whatever the interleaving, the queue is the
    bounded first-in first-out queue of the sequential case, and no call waits for
    the other processor.  With two producers on one processor, a call and the
    interrupt that cuts it, it is not. *)
From S2P Require Import Prelude MpsBuffer MpsProps.
Import Mps.

(** ** The steps *)

(** Where a call of [mps_queue_tail] is: before the test of MPS_IS_Q_FULL, before the
    slot is written, before [wpos] is. *)
Inductive tail_pc := TIdle | TTest (buf : Z) | TStore (buf : Z) | TPublish (buf : Z).
(** Where a call of [mps_dequeue_head] is: before the test of MPS_IS_Q_EMPTY, before
    the slot is read, before it is overwritten, before [rpos] is. *)
Inductive head_pc := HIdle | HTest | HLoad | HErase (m_buf : Z) | HPublish (m_buf : Z).

Record conc := mk_conc { queue : MPS_BUFF_HEAD; tail_at : tail_pc; head_at : head_pc }.

(** What a call returns: a buffer queued (0) or refused (- ENOMEM), a buffer taken,
    or none (NULL). *)
Inductive event := Queued (buf : Z) | Refused (buf : Z) | Taken (buf : Z) | NoneLeft.

Inductive action := CallTail (buf : Z) | TailStep | CallHead | HeadStep.

Definition tail_step (c : conc) : option (conc * list event) :=
  let h := queue c in
  match tail_at c with
  | TIdle => None
  | TTest buf =>
      Some (if MPS_IS_Q_FULL (Some h) then (mk_conc h TIdle (head_at c), [Refused buf])
            else (mk_conc h (TStore buf) (head_at c), []))
  | TStore buf => h1 ← MPS_SET_Q_ITEM h buf; Some (mk_conc h1 (TPublish buf) (head_at c), [])
  | TPublish buf =>
      Some (mk_conc (set_wpos (MPS_NEXT_Q_POS (wpos h) (maxcount h)) h) TIdle (head_at c), [Queued buf])
  end.

Definition head_step (c : conc) : option (conc * list event) :=
  let h := queue c in
  match head_at c with
  | HIdle => None
  | HTest =>
      Some (if MPS_IS_Q_EMPTY (Some h) then (mk_conc h (tail_at c) HIdle, [NoneLeft])
            else (mk_conc h (tail_at c) HLoad, []))
  | HLoad => m_buf ← MPS_GET_Q_ITEM h; Some (mk_conc h (tail_at c) (HErase m_buf), [])
  | HErase m_buf =>
      h1 ← ring_set h (rpos h) INVALID_ENTRY; Some (mk_conc h1 (tail_at c) (HPublish m_buf), [])
  | HPublish m_buf =>
      Some (mk_conc (set_rpos (MPS_NEXT_Q_POS (rpos h) (maxcount h)) h) (tail_at c) HIdle, [Taken m_buf])
  end.

(** One action of the schedule; [None] when the processor it names cannot take it. *)
Definition act (a : action) (c : conc) : option (conc * list event) :=
  match a with
  | CallTail buf =>
      match tail_at c with TIdle => Some (mk_conc (queue c) (TTest buf) (head_at c), []) | _ => None end
  | TailStep => tail_step c
  | CallHead =>
      match head_at c with HIdle => Some (mk_conc (queue c) (tail_at c) HTest, []) | _ => None end
  | HeadStep => head_step c
  end.

Inductive runs : conc -> list action -> list event -> conc -> Prop :=
| runs_nil c : runs c [] [] c
| runs_cons c a c1 es l es' c2 :
    act a c = Some (c1, es) -> runs c1 l es' c2 -> runs c (a :: l) (es ++ es') c2.

(** ** The specification: a bounded first-in first-out queue *)
Inductive fifo_step (cap : nat) : list Z -> event -> list Z -> Prop :=
| fifo_queued l x : (length l < cap)%nat -> fifo_step cap l (Queued x) (l ++ [x])
| fifo_refused l x : length l = cap -> fifo_step cap l (Refused x) l
| fifo_taken l x : fifo_step cap (x :: l) (Taken x) l
| fifo_none : fifo_step cap [] NoneLeft [].

Inductive fifo_runs (cap : nat) : list Z -> list event -> list Z -> Prop :=
| fifo_runs_nil l : fifo_runs cap l [] l
| fifo_runs_cons l e l1 es l2 :
    fifo_step cap l e l1 -> fifo_runs cap l1 es l2 -> fifo_runs cap l (e :: es) l2.

Definition queued (es : list event) : list Z :=
  omap (fun e => match e with Queued x => Some x | _ => None end) es.
Definition taken (es : list event) : list Z :=
  omap (fun e => match e with Taken x => Some x | _ => None end) es.

(** First in, first out: what was there and what was queued, in order, is what was
    taken and what is left. *)
Lemma fifo_order cap l es l' : fifo_runs cap l es l' -> (l ++ queued es = taken es ++ l')%list.
Proof.
  induction 1 as [l|l e l1 es l2 Hs Hr IH]; [by rewrite app_nil_r|].
  destruct Hs as [l x Hl|l x Hl|l x|].
  - rewrite <- (assoc_L app) in IH. exact IH.
  - exact IH.
  - exact (f_equal (cons x) IH).
  - exact IH.
Qed.

(** ** The invariant *)

(** The items are in the ring, but for the one being taken; a producer past its test
    has room, and past its write its buffer in place. *)
Definition conc_items (c : conc) (l : list Z) (b : list Z) : Prop :=
  let r := Z.to_nat (rpos (queue c)) in
  (forall i x, l !! i = Some x ->
     (i = 0%nat /\ head_at c = HPublish x) \/ b !! slot (length b) r i = Some x) /\
  match tail_at c with
  | TStore _ => (length l < capacity (queue c))%nat
  | TPublish buf => (length l < capacity (queue c))%nat /\ b !! slot (length b) r (length l) = Some buf
  | _ => True
  end /\
  match head_at c with
  | HLoad => l <> []
  | HErase m | HPublish m => l !! 0%nat = Some m
  | _ => True
  end.

Record conc_rep (c : conc) (l : list Z) : Prop := {
  conc_pos : queue_pos (queue c) (length l);
  conc_ring : exists b, circular_buf (queue c) = Some b /\ length b = S (capacity (queue c)) /\
    conc_items c l b }.

(** A queue nobody is working on. *)
Lemma conc_rep_idle h l : queue_rep h l -> conc_rep (mk_conc h TIdle HIdle) l.
Proof.
  intros Hrep. split; [by apply rep_pos|]. destruct (rep_ring _ _ Hrep) as (b & Hb & Hlen & Hh).
  exists b. do 2 (split; [done|]). repeat split. intros i x Hi. right. by apply Hh.
Qed.

(** What an action returns, as a step of the specification. *)
Definition spec_step (cap : nat) (l : list Z) (es : list event) (l' : list Z) : Prop :=
  match es with
  | [] => l' = l
  | [e] => fifo_step cap l e l'
  | _ => False
  end.

Definition simulates (c : conc) (l : list Z) (a : action) : Prop :=
  forall c1 es, act a c = Some (c1, es) ->
    maxcount (queue c1) = maxcount (queue c) /\
    exists l1, spec_step (capacity (queue c)) l es l1 /\ conc_rep c1 l1.

Section Step.
Context (c : conc) (l : list Z) (Hc : conc_rep c l).

Lemma call_tail_simulates buf : simulates c l (CallTail buf).
Proof.
  intros c1 es. destruct Hc as [Hpos (b & Hb & Hlen & Hit & _ & Hh)]. cbn [act].
  destruct (tail_at c); try done. intros [= <- <-]. split; [done|]. exists l. split; [done|].
  split; [done|]. exists b. by repeat split.
Qed.

Lemma call_head_simulates : simulates c l CallHead.
Proof.
  intros c1 es. destruct Hc as [Hpos (b & Hb & Hlen & Hit & Ht & _)]. cbn [act].
  destruct (head_at c) eqn:Eh; try done. intros [= <- <-]. split; [done|]. exists l. split; [done|].
  split; [done|]. exists b. do 2 (split; [done|]). split; [|by split].
  intros i x Hi. destruct (Hit i x Hi) as [[_ [=]]|?]. by right.
Qed.

Lemma tail_step_simulates : simulates c l TailStep.
Proof.
  intros c1 es. destruct Hc as [Hpos (b & Hb & Hlen & Hit & Ht & Hh)]. cbn [act]. unfold tail_step.
  pose proof (pos_w_lt _ _ Hpos) as Hw. pose proof (pos_r_lt _ _ Hpos) as Hr.
  destruct (tail_at c) as [|buf|buf|buf] eqn:Et; [done| | |].
  - rewrite (pos_full _ _ Hpos). case_bool_decide as Hf; intros [= <- <-]; (split; [done|]);
      exists l.
    + split; [by constructor|]. split; [done|]. exists b. by repeat split.
    + split; [done|]. split; [done|]. exists b. do 2 (split; [done|]). split; [done|].
      split; [|done]. cbn. pose proof (pos_len _ _ Hpos). lia.
  - assert (Hwn : Z.to_nat (wpos (queue c)) = slot (length b) (Z.to_nat (rpos (queue c))) (length l))
      by (rewrite (pos_wpos _ _ Hpos), Hlen; lia).
    unfold MPS_SET_Q_ITEM. rewrite (ring_set_Some _ b) by (rewrite ?Hwn, ?Hlen; done).
    cbn [mbind option_bind]. intros [= <- <-]. split; [done|]. exists l. split; [done|].
    split; [by destruct Hpos|]. eexists. split; [reflexivity|]. rewrite Hwn.
    split; [by rewrite length_insert|]. unfold conc_items. cbn [queue tail_at head_at set_buf rpos].
    rewrite length_insert. split; [|split; [|done]].
    + intros i x Hi. pose proof (lookup_lt_Some _ _ _ Hi). destruct (Hit i x Hi) as [?|Hx]; [by left|].
      right. rewrite list_lookup_insert_ne; [done|]. intros Hs. rewrite Hlen in Hs.
      apply slot_inj in Hs; lia.
    + split; [done|]. apply list_lookup_insert_eq. by rewrite Hlen.
  - intros [= <- <-]. destruct Ht as [Hlt Hbuf]. split; [done|]. exists (l ++ [buf])%list.
    split; [by constructor|].
    split; [rewrite length_app, Nat.add_1_r; by apply pos_push|].
    exists b. split; [done|]. split; [done|]. unfold conc_items. cbn [queue tail_at head_at set_wpos rpos].
    split; [|split; [done|]].
    + intros i x [Hi|[Hge Hi]]%lookup_app_Some; [by apply Hit|].
      apply list_lookup_singleton_Some in Hi as [Hi <-]. right. by replace i with (length l) by lia.
    + destruct (head_at c); try done; [by destruct l| |]; by destruct l.
Qed.

Lemma head_step_simulates : simulates c l HeadStep.
Proof.
  intros c1 es. destruct Hc as [Hpos (b & Hb & Hlen & Hit & Ht & Hh)]. cbn [act]. unfold head_step.
  pose proof (pos_w_lt _ _ Hpos) as Hw. pose proof (pos_r_lt _ _ Hpos) as Hr.
  pose proof (pos_len _ _ Hpos) as Hl.
  destruct (head_at c) as [| | |m|m] eqn:Eh; [done| | | |].
  - assert (Hin : forall i x, l !! i = Some x -> b !! slot (length b) (Z.to_nat (rpos (queue c))) i = Some x)
      by (intros i x Hi; by destruct (Hit i x Hi) as [[_ [=]]|?]).
    rewrite (pos_empty _ _ Hpos). case_bool_decide as He; intros [= <- <-]; (split; [done|]);
      exists l.
    + split; [apply nil_length_inv in He as ->; constructor|]. split; [done|]. exists b.
      do 2 (split; [done|]). split; [|by split]. intros i x Hi. right. by apply Hin.
    + split; [done|]. split; [done|]. exists b. do 2 (split; [done|]).
      split; [intros i x Hi; right; by apply Hin|]. split; [done|]. cbn. by destruct l.
  - destruct l as [|m l']; [done|]. destruct (Hit 0%nat m eq_refl) as [[_ [=]]|H0].
    rewrite slot_0 in H0 by lia. unfold MPS_GET_Q_ITEM, ring_get. rewrite Hb. cbn [mbind option_bind].
    rewrite H0. intros [= <- <-]. split; [done|]. exists (m :: l'). split; [done|]. split; [done|].
    exists b. do 2 (split; [done|]). split; [|by split]. intros i x Hi.
    destruct (Hit i x Hi) as [[_ [=]]|?]. by right.
  - rewrite (ring_set_Some _ b) by (rewrite ?Hlen; done). cbn [mbind option_bind].
    intros [= <- <-]. split; [done|]. exists l. split; [done|]. split; [by destruct Hpos|].
    eexists. split; [reflexivity|]. split; [by rewrite length_insert|].
    pose proof (lookup_lt_Some _ _ _ Hh) as Hl0.
    assert (Hne : forall i, (0 < i <= length l)%nat ->
      Z.to_nat (rpos (queue c)) <> slot (length b) (Z.to_nat (rpos (queue c))) i).
    { intros i Hi Hs. symmetry in Hs. rewrite Hlen in Hs. apply slot_wrap in Hs; lia. }
    unfold conc_items. cbn [queue tail_at head_at set_buf rpos]. rewrite length_insert.
    split; [|split; [|done]].
    + intros i x Hi. destruct (decide (i = 0%nat)) as [->|Hi0]; [left; split; [done|]; congruence|].
      pose proof (lookup_lt_Some _ _ _ Hi). destruct (Hit i x Hi) as [[_ [=]]|Hx]. right.
      rewrite list_lookup_insert_ne; [done|]. apply Hne. lia.
    + destruct (tail_at c); try done. destruct Ht as [? Hx]. split; [done|].
      rewrite list_lookup_insert_ne; [done|]. apply Hne. lia.
  - intros [= <- <-]. split; [done|]. destruct l as [|m' l']; [done|]. injection Hh as ->.
    exists l'. split; [constructor|].
    split; [cbn [queue]; replace (length l') with (length (m :: l') - 1)%nat by (cbn; lia);
            apply pos_pop; [done | cbn; lia]|].
    exists b. split; [done|]. split; [done|]. unfold conc_items. cbn [queue tail_at head_at set_rpos rpos].
    rewrite (pos_next_rpos _ _ Hpos), Nat2Z.id. rewrite Hlen in *. cbn [length] in *.
    split; [|split; [|done]].
    + intros i x Hi. pose proof (lookup_lt_Some _ _ _ Hi). right.
      rewrite slot_succ by lia. by destruct (Hit (S i) x Hi) as [[? _]|?].
    + change (capacity (set_rpos ?p ?q)) with (capacity q).
      destruct (tail_at c); [done|done|lia|]. destruct Ht as [? Hx].
      split; [lia|]. rewrite slot_succ by lia. done.
Qed.
End Step.

Lemma act_simulates c l a : conc_rep c l -> simulates c l a.
Proof.
  intros Hc. destruct a; [by apply call_tail_simulates | by apply tail_step_simulates |
    by apply call_head_simulates | by apply head_step_simulates].
Qed.

(** C13. One processor in mps_queue_tail and the other in mps_dequeue_head, without a lock,
    their accesses interleaved in any way: what the calls return is a run of a bounded
    first-in first-out queue, so the buffers taken are the buffers queued, in order, none
    lost and none twice. *)
Theorem queue_linearizable h l acts es c :
  queue_rep h l -> runs (mk_conc h TIdle HIdle) acts es c ->
  exists l', fifo_runs (capacity h) l es l' /\ conc_rep c l' /\
    (l ++ queued es)%list = (taken es ++ l')%list /\ (length l' <= capacity h)%nat.
Proof.
  intros Hrep%conc_rep_idle Hruns.
  assert (H : exists l', fifo_runs (capacity h) l es l' /\ conc_rep c l' /\
                maxcount (queue c) = maxcount h).
  { revert Hrep. change h with (queue (mk_conc h TIdle HIdle)) at 2 3. generalize l.
    induction Hruns as [c0|c0 a c1 es1 acts es2 c2 Ha Hruns IH]; intros l0 Hc.
    - exists l0. by split; [constructor|].
    - destruct (act_simulates c0 l0 a Hc c1 es1 Ha) as (Hm & l1 & Hs & Hc1).
      destruct (IH l1 Hc1) as (l' & Hf & Hc' & Hm'). exists l'.
      unfold capacity in *. rewrite Hm in Hf.
      split; [|split; [done|congruence]].
      destruct es1 as [|e [|]]; cbn in Hs; [by subst l1 | by econstructor | done]. }
  destruct H as (l' & Hf & Hc & Hm). exists l'. split; [done|]. split; [done|].
  split; [by eapply fifo_order|]. pose proof (pos_len _ _ (conc_pos _ _ Hc)).
  unfold capacity in *. by rewrite <- Hm.
Qed.

(** Both processors in a call: the producer passes its test, the consumer takes a buffer, and
    the two writes cross. *)
Definition crossed_run : list action :=
  [CallTail 8192; TailStep; CallHead; HeadStep; TailStep; HeadStep; HeadStep; TailStep; HeadStep].

Fixpoint run_acts (l : list action) (c : conc) : option (conc * list event) :=
  match l with
  | [] => Some (c, [])
  | a :: l' =>
      match act a c with
      | Some (c1, es) => prod_map id (app es) <$> run_acts l' c1
      | None => None
      end
  end.

Lemma run_acts_runs l c c' es : run_acts l c = Some (c', es) -> runs c l es c'.
Proof.
  revert c es. induction l as [|a l IH]; intros c es; cbn [run_acts].
  - intros [= <- <-]. constructor.
  - destruct (act a c) as [[c1 es1]|] eqn:Ea; [|done].
    destruct (run_acts l c1) as [[c2 es2]|] eqn:Er; [|done]. intros [= <- <-].
    econstructor; eauto.
Qed.

Lemma queue_linearizable_witness :
  Forall (fun r => exists l', fifo_runs 2 [4096] r.2 l' /\ conc_rep r.1 l' /\
      [4096; 8192] = (taken r.2 ++ l')%list /\ (length l' <= 2)%nat)
    (option_list (run_acts crossed_run (mk_conc sample_head TIdle HIdle))).
Proof.
  constructor; [|constructor].
  apply (queue_linearizable sample_head [4096] crossed_run [Queued 8192; Taken 4096]);
    [exact sample_rep | apply run_acts_runs; reflexivity].
Defined.

(** ** No processor waits for the other *)

(** The steps a call has left, at most. *)
Definition tail_left (p : tail_pc) : nat :=
  match p with TIdle => 0 | TTest _ => 3 | TStore _ => 2 | TPublish _ => 1 end.
Definition head_left (p : head_pc) : nat :=
  match p with HIdle => 0 | HTest => 4 | HLoad => 3 | HErase _ => 2 | HPublish _ => 1 end.

Lemma tail_step_enabled c l :
  conc_rep c l -> tail_at c <> TIdle ->
  exists c1 es, tail_step c = Some (c1, es) /\ head_at c1 = head_at c /\
    (tail_left (tail_at c1) < tail_left (tail_at c))%nat.
Proof.
  intros [Hpos (b & Hb & Hlen & _)] Hne. unfold tail_step.
  destruct (tail_at c) as [|buf|buf|buf]; [done| | |].
  - destruct (MPS_IS_Q_FULL _); do 2 eexists; (split; [reflexivity|]); cbn; (split; [done|lia]).
  - unfold MPS_SET_Q_ITEM. rewrite (ring_set_Some _ b); [|done|].
    + do 2 eexists. split; [reflexivity|]. cbn. split; [done|lia].
    + rewrite (pos_wpos _ _ Hpos), Nat2Z.id, Hlen. by apply pos_w_lt.
  - do 2 eexists. split; [reflexivity|]. cbn. split; [done|lia].
Qed.

Lemma head_step_enabled c l :
  conc_rep c l -> head_at c <> HIdle ->
  exists c1 es, head_step c = Some (c1, es) /\ tail_at c1 = tail_at c /\
    (head_left (head_at c1) < head_left (head_at c))%nat.
Proof.
  intros [Hpos (b & Hb & Hlen & _)] Hne. unfold head_step. pose proof (pos_r_lt _ _ Hpos) as Hr.
  destruct (head_at c) as [| | |m|m]; [done| | | |].
  - destruct (MPS_IS_Q_EMPTY _); do 2 eexists; (split; [reflexivity|]); cbn; (split; [done|lia]).
  - unfold MPS_GET_Q_ITEM, ring_get. rewrite Hb. cbn [mbind option_bind].
    destruct (lookup_lt_is_Some_2 b (Z.to_nat (rpos (queue c)))) as [x ->]; [by rewrite Hlen|].
    do 2 eexists. split; [reflexivity|]. cbn. split; [done|lia].
  - rewrite (ring_set_Some _ b); [|done|by rewrite Hlen].
    do 2 eexists. split; [reflexivity|]. cbn. split; [done|lia].
  - do 2 eexists. split; [reflexivity|]. cbn. split; [done|lia].
Qed.

Lemma runs_rep c l acts es c' : conc_rep c l -> runs c acts es c' -> exists l', conc_rep c' l'.
Proof.
  intros Hc Hruns. revert l Hc. induction Hruns as [|c a c1 es1 acts es2 c2 Ha Hruns IH]; intros l Hc;
    [by exists l|]. destruct (act_simulates c l a Hc c1 es1 Ha) as (_ & l1 & _ & Hc1). by eapply IH.
Qed.

(** Whatever the two processors have done, the one inside a call can take its next
    step, comes nearer to the return with it and does not disturb the place of the other: a
    producer returns after at most three steps of its own, a consumer after at most four. *)
Theorem queue_wait_free h l acts es c :
  queue_rep h l -> runs (mk_conc h TIdle HIdle) acts es c ->
  (tail_left (tail_at c) <= 3)%nat /\ (head_left (head_at c) <= 4)%nat /\
  (tail_at c <> TIdle -> exists c1 es1, act TailStep c = Some (c1, es1) /\ head_at c1 = head_at c /\
     (tail_left (tail_at c1) < tail_left (tail_at c))%nat) /\
  (head_at c <> HIdle -> exists c1 es1, act HeadStep c = Some (c1, es1) /\ tail_at c1 = tail_at c /\
     (head_left (head_at c1) < head_left (head_at c))%nat).
Proof.
  intros Hrep%conc_rep_idle Hruns. destruct (runs_rep _ _ _ _ _ Hrep Hruns) as [l' Hc].
  split; [destruct (tail_at c); cbn; lia|]. split; [destruct (head_at c); cbn; lia|].
  split; [by apply (tail_step_enabled c l') | by apply (head_step_enabled c l')].
Qed.

Definition crossed_state : conc :=
  default (mk_conc sample_head TIdle HIdle)
    (fst <$> run_acts (take 6 crossed_run) (mk_conc sample_head TIdle HIdle)).

Lemma queue_wait_free_witness :
  (exists c1 es1, act TailStep crossed_state = Some (c1, es1) /\ head_at c1 = HErase 4096 /\
     (tail_left (tail_at c1) < 1)%nat) /\
  (exists c1 es1, act HeadStep crossed_state = Some (c1, es1) /\ tail_at c1 = TPublish 8192 /\
     (head_left (head_at c1) < 2)%nat).
Proof.
  destruct (queue_wait_free sample_head [4096] (take 6 crossed_run) [] crossed_state sample_rep)
    as (_ & _ & Ht & Hh); [apply run_acts_runs; reflexivity|].
  split; [apply Ht | apply Hh]; discriminate.
Defined.

(** ** Two producers on one processor *)

(** [mps_queue_tail(buf, q)] cut, after its test and before [local_irq_save], by an
    interrupt that runs [mps_queue_tail(irq_buf, q)]: what the two calls return, and the
    queue. *)
Definition interrupted_tail (buf irq_buf : Z) (h : MPS_BUFF_HEAD) : option (Z * Z * MPS_BUFF_HEAD) :=
  if MPS_IS_Q_FULL (Some h) then Some (- ENOMEM, - ENOMEM, h)
  else
    match mps_queue_tail irq_buf (Some h) with
    | Some (irq_ret, Some h1) => h2 ← tail_section buf h1; Some (0, irq_ret, h2)
    | _ => None
    end.

Lemma dequeue_empty q :
  MPS_IS_Q_EMPTY (Some q) = true -> mps_dequeue_head (Some q) = Some (0, Some q).
Proof. unfold mps_dequeue_head. by intros ->. Qed.

(** mps_queue_tail tests for room before local_irq_save. When an interrupt that queues
    a buffer cuts the call there and one slot was left, both calls return 0 and the queue
    reads as empty: every buffer in it is lost. *)
Theorem interrupted_tail_loses_queue h l buf irq_buf :
  queue_rep h l -> S (length l) = capacity h ->
  exists h', interrupted_tail buf irq_buf h = Some (0, 0, h') /\
    MPS_IS_Q_EMPTY (Some h') = true /\ mps_dequeue_head (Some h') = Some (0, Some h').
Proof.
  intros Hrep Hl. unfold interrupted_tail. rewrite (rep_full h l Hrep), bool_decide_eq_false_2 by lia.
  unfold mps_queue_tail, tail_section. rewrite (rep_full h l Hrep), bool_decide_eq_false_2 by lia.
  destruct (rep_push h l irq_buf Hrep) as (h1 & -> & Hm1 & Hw1 & Hrep1); [lia|].
  cbn [mbind option_bind]. set (h2 := set_wpos _ h1) in *.
  assert (Hfull : MPS_IS_Q_FULL (Some h2) = true).
  { rewrite (rep_full h2 _ Hrep1). apply bool_decide_eq_true_2.
    rewrite length_app. unfold capacity in *. cbn. rewrite Hm1. lia. }
  destruct (rep_ring _ _ Hrep1) as (b & Hb & Hlen & _).
  unfold MPS_SET_Q_ITEM. rewrite (ring_set_Some h2 b); [|done|].
  2:{ rewrite (rep_wpos _ _ Hrep1), Nat2Z.id, Hlen. by apply rep_w_lt. }
  cbn [mbind option_bind]. eexists. split; [reflexivity|].
  assert (He : MPS_IS_Q_EMPTY (Some (set_wpos (MPS_NEXT_Q_POS (wpos h2) (maxcount h2)) h2)) = true).
  { unfold MPS_IS_Q_FULL in Hfull. unfold MPS_IS_Q_EMPTY. cbn [rpos wpos set_wpos].
    apply Z.eqb_eq in Hfull. apply Z.eqb_eq. by rewrite Hfull. }
  split; [exact He|]. apply dequeue_empty. exact He.
Qed.

Lemma interrupted_tail_loses_queue_witness :
  exists h', interrupted_tail 8192 12288 sample_head = Some (0, 0, h') /\
    MPS_IS_Q_EMPTY (Some h') = true /\ mps_dequeue_head (Some h') = Some (0, Some h').
Proof. apply (interrupted_tail_loses_queue sample_head [4096]); [exact sample_rep | reflexivity]. Defined.
