(* ===== verification/Dma.v ===== *)
(** * Dma: the central DMA driver

    arch/mips/infineon/danube/basic/dma-core.c of the twinpass board support, with
    asm-mips/danube/danube_dma.h: twenty channels, each with a ring of descriptors it
    shares with the DMA controller, the devices that own them, the interrupt handler
    and the tasklet that serves the channels by weight.

    [None] says that the C code follows a null pointer or leaves an array.  The ring
    of a channel is kept with the channel, [desc_base] is its address.  A register
    holds what was last written to it; a loop that waits for the controller to clear
    a bit ends with the bit cleared. *)
From S2P Require Import Prelude.

Module Dma.

(** ** Constants *)
Definition IFX_SUCCESS : Z := 1.
Definition ENOMEM : Z := 12.
Definition EFAULT : Z := 14.
Definition RCV_INT : Z := 1.
Definition TX_BUF_FULL_INT : Z := 2.
Definition TRANSMIT_CPT_INT : Z := 4.
Definition DANUBE_DMA_CH_ON : Z := 1.
Definition DANUBE_DMA_CH_OFF : Z := 0.
Definition DANUBE_DMA_CH_DEFAULT_WEIGHT : Z := 100.
Definition DANUBE_DMA_DESCRIPTOR_OFFSET : Z := 25.
Definition DMA_OWN : Z := 1.
Definition CPU_OWN : Z := 0.
Definition DMA_DESC_SOP_SET : Z := 0x20000000.
Definition DMA_DESC_EOP_SET : Z := 0x10000000.
Definition DANUBE_DMA_RX : Z := -1.
Definition DANUBE_DMA_TX : Z := 1.
Definition MAX_DMA_DEVICE_NUM : nat := 6.
Definition MAX_DMA_CHANNEL_NUM : nat := 20.
Definition DMA_INT_BUDGET : Z := DANUBE_DMA_DESCRIPTOR_OFFSET.
Definition DMA_ETH_NUM_DESCRS : Z := 256.

(** ** The devices and their channels *)
Definition INT_NUM_IRQ0 : Z := 0.
(** [DANUBE_DMA_CH0_INT] to [DANUBE_DMA_CH19_INT] (irq.h). *)
Definition DANUBE_DMA_CH_INT : list Z :=
  (fun n => INT_NUM_IRQ0 + n) <$>
    [ 64; 65; 66; 67; 68; 69; 70; 71; 72; 73; 74; 75; 89; 90; 91; 92; 93; 62; 80; 85 ].
Definition CH_INT (c : nat) : Z := default 0 (DANUBE_DMA_CH_INT !! c).

Record chan_map := mk_chan_map {
  map_dev_name : string; map_dir : Z; map_pri : Z; map_irq : Z; map_rel_chan_no : Z }.
Definition global_device_name : list string := [ "PPE"; "DEU"; "SPI"; "SDIO"; "MCTRL0"; "MCTRL1" ].
Definition default_dma_map : list chan_map := [
  mk_chan_map "PPE" DANUBE_DMA_RX 0 (CH_INT 0) 0;
  mk_chan_map "PPE" DANUBE_DMA_TX 0 (CH_INT 1) 0;
  mk_chan_map "PPE" DANUBE_DMA_RX 1 (CH_INT 2) 1;
  mk_chan_map "PPE" DANUBE_DMA_TX 1 (CH_INT 3) 1;
  mk_chan_map "PPE" DANUBE_DMA_RX 2 (CH_INT 4) 2;
  mk_chan_map "PPE" DANUBE_DMA_TX 2 (CH_INT 5) 2;
  mk_chan_map "PPE" DANUBE_DMA_RX 3 (CH_INT 6) 3;
  mk_chan_map "PPE" DANUBE_DMA_TX 3 (CH_INT 7) 3;
  mk_chan_map "DEU" DANUBE_DMA_RX 0 (CH_INT 8) 0;
  mk_chan_map "DEU" DANUBE_DMA_TX 0 (CH_INT 9) 0;
  mk_chan_map "DEU" DANUBE_DMA_RX 1 (CH_INT 10) 1;
  mk_chan_map "DEU" DANUBE_DMA_TX 1 (CH_INT 11) 1;
  mk_chan_map "SPI" DANUBE_DMA_RX 0 (CH_INT 12) 0;
  mk_chan_map "SPI" DANUBE_DMA_TX 0 (CH_INT 13) 0;
  mk_chan_map "SDIO" DANUBE_DMA_RX 0 (CH_INT 14) 0;
  mk_chan_map "SDIO" DANUBE_DMA_TX 0 (CH_INT 15) 0;
  mk_chan_map "MCTRL0" DANUBE_DMA_RX 0 (CH_INT 16) 0;
  mk_chan_map "MCTRL0" DANUBE_DMA_TX 0 (CH_INT 17) 0;
  mk_chan_map "MCTRL1" DANUBE_DMA_RX 1 (CH_INT 18) 1;
  mk_chan_map "MCTRL1" DANUBE_DMA_TX 1 (CH_INT 19) 1 ].

(** ** Descriptors: the status word, read through the bit fields of the big-endian
    layout, and the pointer. *)
Record desc := mk_desc { word : Z; Data_Pointer : Z }.
Definition zero_desc : desc := mk_desc 0 0.

Definition field (lo width w : Z) : Z := Z.land (Z.shiftr w lo) (Z.ones width).
Definition set_field (lo width v w : Z) : Z :=
  Z.lor (Z.ldiff w (Z.shiftl (Z.ones width) lo)) (Z.shiftl (Z.land v (Z.ones width)) lo).
Definition OWN (d : desc) : Z := field 31 1 (word d).
Definition C (d : desc) : Z := field 30 1 (word d).
Definition data_length (d : desc) : Z := field 0 16 (word d).
Definition tx_byte_offset (d : desc) : Z := field 23 5 (word d).

(** [OWN == CPU_OWN && C] *)
Definition completed (d : desc) : bool := (OWN d =? CPU_OWN) && nz (C d).

(** ** The state *)
Record channel := mk_channel {
  rel_chan_no : Z; pri : Z; byte_offset : Z; dir : Z; irq : Z;
  desc_base : Z; desc_len : Z; curr_desc : Z; prev_desc : Z;
  weight : Z; default_weight : Z; packet_size : Z; control : Z;
  opt : list Z; dma_dev : option nat;
  ring : list desc }.

Record device := mk_device {
  device_name : string; reserved : Z; tx_burst_len : Z; rx_burst_len : Z;
  current_tx_chan : Z; current_rx_chan : Z; num_tx_chan : Z; num_rx_chan : Z;
  max_rx_chan_num : Z; max_tx_chan_num : Z;
  tx_chan : list (option nat); rx_chan : list (option nat);
  intr_handler : bool }.

(** The registers of one channel. *)
Record regs := mk_regs { CCTRL : Z; CIS : Z; CIE : Z; CDBA : Z; CDLEN : Z; CPOLL : Z }.

(** The driver's variables, the registers, the interrupt lines the kernel lets
    through, whether the tasklet is scheduled, what [buffer_alloc] will return (the
    buffer, the byte offset, the optional pointer; [None], and nothing left, is NULL), what
    [buffer_free] was given, and the lines requested from the kernel. *)
Record dma := mk_dma {
  dma_chan : list channel; dma_devs : list device;
  int_status : Z; in_process : Z; tasklet : bool;
  chan_regs : list regs; CS : Z; IRNEN : Z; CTRL : Z; PS : Z; PCTRL : list Z; PWDCR : Z;
  irqs : gset Z; allocs : list (option (Z * Z * Z)); freed : list (Z * Z); requested : list Z }.

Definition set_chans (x : list channel) (s : dma) : dma :=
  mk_dma x (dma_devs s) (int_status s) (in_process s) (tasklet s) (chan_regs s) (CS s) (IRNEN s)
    (CTRL s) (PS s) (PCTRL s) (PWDCR s) (irqs s) (allocs s) (freed s) (requested s).
Definition set_devs (x : list device) (s : dma) : dma :=
  mk_dma (dma_chan s) x (int_status s) (in_process s) (tasklet s) (chan_regs s) (CS s) (IRNEN s)
    (CTRL s) (PS s) (PCTRL s) (PWDCR s) (irqs s) (allocs s) (freed s) (requested s).
Definition set_status (x : Z) (s : dma) : dma :=
  mk_dma (dma_chan s) (dma_devs s) x (in_process s) (tasklet s) (chan_regs s) (CS s) (IRNEN s)
    (CTRL s) (PS s) (PCTRL s) (PWDCR s) (irqs s) (allocs s) (freed s) (requested s).
Definition set_process (x : Z) (t : bool) (s : dma) : dma :=
  mk_dma (dma_chan s) (dma_devs s) (int_status s) x t (chan_regs s) (CS s) (IRNEN s)
    (CTRL s) (PS s) (PCTRL s) (PWDCR s) (irqs s) (allocs s) (freed s) (requested s).
Definition set_regs (x : list regs) (cs en : Z) (s : dma) : dma :=
  mk_dma (dma_chan s) (dma_devs s) (int_status s) (in_process s) (tasklet s) x cs en
    (CTRL s) (PS s) (PCTRL s) (PWDCR s) (irqs s) (allocs s) (freed s) (requested s).
Definition set_port (ctrl ps : Z) (pctrl : list Z) (pwdcr : Z) (s : dma) : dma :=
  mk_dma (dma_chan s) (dma_devs s) (int_status s) (in_process s) (tasklet s) (chan_regs s) (CS s)
    (IRNEN s) ctrl ps pctrl pwdcr (irqs s) (allocs s) (freed s) (requested s).
Definition set_irqs (x : gset Z) (s : dma) : dma :=
  mk_dma (dma_chan s) (dma_devs s) (int_status s) (in_process s) (tasklet s) (chan_regs s) (CS s)
    (IRNEN s) (CTRL s) (PS s) (PCTRL s) (PWDCR s) x (allocs s) (freed s) (requested s).
Definition set_memory (a : list (option (Z * Z * Z))) (f : list (Z * Z)) (s : dma) : dma :=
  mk_dma (dma_chan s) (dma_devs s) (int_status s) (in_process s) (tasklet s) (chan_regs s) (CS s)
    (IRNEN s) (CTRL s) (PS s) (PCTRL s) (PWDCR s) (irqs s) a f (requested s).
Definition set_requested (x : list Z) (s : dma) : dma :=
  mk_dma (dma_chan s) (dma_devs s) (int_status s) (in_process s) (tasklet s) (chan_regs s) (CS s)
    (IRNEN s) (CTRL s) (PS s) (PCTRL s) (PWDCR s) (irqs s) (allocs s) (freed s) x.

Definition set_ring (x : list desc) (c : channel) : channel :=
  mk_channel (rel_chan_no c) (pri c) (byte_offset c) (dir c) (irq c) (desc_base c) (desc_len c)
    (curr_desc c) (prev_desc c) (weight c) (default_weight c) (packet_size c) (control c) (opt c)
    (dma_dev c) x.
Definition set_opt (x : list Z) (c : channel) : channel :=
  mk_channel (rel_chan_no c) (pri c) (byte_offset c) (dir c) (irq c) (desc_base c) (desc_len c)
    (curr_desc c) (prev_desc c) (weight c) (default_weight c) (packet_size c) (control c) x
    (dma_dev c) (ring c).
Definition set_pos (curr prev : Z) (c : channel) : channel :=
  mk_channel (rel_chan_no c) (pri c) (byte_offset c) (dir c) (irq c) (desc_base c) (desc_len c)
    curr prev (weight c) (default_weight c) (packet_size c) (control c) (opt c)
    (dma_dev c) (ring c).
Definition set_weight (x : Z) (c : channel) : channel :=
  mk_channel (rel_chan_no c) (pri c) (byte_offset c) (dir c) (irq c) (desc_base c) (desc_len c)
    (curr_desc c) (prev_desc c) x (default_weight c) (packet_size c) (control c) (opt c)
    (dma_dev c) (ring c).
Definition set_control (x : Z) (c : channel) : channel :=
  mk_channel (rel_chan_no c) (pri c) (byte_offset c) (dir c) (irq c) (desc_base c) (desc_len c)
    (curr_desc c) (prev_desc c) (weight c) (default_weight c) (packet_size c) x (opt c)
    (dma_dev c) (ring c).
Definition set_current (rx tx : Z) (d : device) : device :=
  mk_device (device_name d) (reserved d) (tx_burst_len d) (rx_burst_len d) tx rx (num_tx_chan d)
    (num_rx_chan d) (max_rx_chan_num d) (max_tx_chan_num d) (tx_chan d) (rx_chan d) (intr_handler d).
Definition set_reserved (x : Z) (d : device) : device :=
  mk_device (device_name d) x (tx_burst_len d) (rx_burst_len d) (current_tx_chan d)
    (current_rx_chan d) (num_tx_chan d) (num_rx_chan d) (max_rx_chan_num d) (max_tx_chan_num d)
    (tx_chan d) (rx_chan d) (intr_handler d).

(** ** Programs *)
Definition M (A : Type) := dma -> option (A * dma).
Definition ret {A} (a : A) : M A := fun s => Some (a, s).
Definition bind {A B} (m : M A) (k : A -> M B) : M B := fun s =>
  match m s with Some (a, s') => k a s' | None => None end.
Declare Scope dma_scope.
Delimit Scope dma_scope with dma.
Bind Scope dma_scope with M.
Notation "x <- m ;; k" := (bind m (fun x => k))
  (at level 100, m at next level, right associativity) : dma_scope.
Notation "m1 ;;; m2" := (bind m1 (fun _ => m2)) (at level 100, right associativity) : dma_scope.
Open Scope dma_scope.

Definition wild {A} : M A := fun _ => None.
Definition get {A} (f : dma -> A) : M A := fun s => Some (f s, s).
Definition put (f : dma -> dma) : M unit := fun s => Some (tt, f s).
(** A pointer or an array entry that must be there. *)
Definition deref {A} (o : option A) : M A := match o with Some a => ret a | None => wild end.
Definition If (b : bool) (m : M unit) : M unit := if b then m else ret tt.
(** [for (i = 0; i < n; i++)], [i] counting from [i]. *)
Fixpoint for_upto (n : nat) (i : nat) (body : nat -> M unit) : M unit :=
  match n with O => ret tt | S n' => body i;;; for_upto n' (S i) body end.

Definition chan (c : nat) : M channel := p <- get (fun s => dma_chan s !! c);; deref p.
Definition upd_chan (c : nat) (f : channel -> channel) : M unit :=
  put (fun s => set_chans (alter f c (dma_chan s)) s).
Definition dev (d : nat) : M device := p <- get (fun s => dma_devs s !! d);; deref p.
Definition upd_dev (d : nat) (f : device -> device) : M unit :=
  put (fun s => set_devs (alter f d (dma_devs s)) s).

(** An index of an array: a negative one is outside. *)
Definition at_index {A} (l : list A) (i : Z) : option A :=
  if i <? 0 then None else l !! Z.to_nat i.
(** The descriptor at [desc_base + i]. *)
Definition get_desc (c : nat) (i : Z) : M desc := ch <- chan c;; deref (at_index (ring ch) i).
Definition put_desc (c : nat) (i : Z) (d : desc) : M unit :=
  _ <- get_desc c i;; upd_chan c (fun ch => set_ring (<[Z.to_nat i := d]> (ring ch)) ch).
Definition get_opt (c : nat) (i : Z) : M Z := ch <- chan c;; deref (at_index (opt ch) i).
Definition put_opt (c : nat) (i : Z) (x : Z) : M unit :=
  _ <- get_opt c i;; upd_chan c (fun ch => set_opt (<[Z.to_nat i := x]> (opt ch)) ch).

(** ** The registers of the controller *)

(** [*DANUBE_DMA_CS = n] *)
Definition sel (n : nat) : M unit := put (fun s => set_regs (chan_regs s) (Z.of_nat n) (IRNEN s) s).
(** A register of the channel selected. *)
Definition rd (f : regs -> Z) : M Z :=
  cs <- get CS;; l <- get chan_regs;; r <- deref (at_index l cs);; ret (f r).
Definition wr (g : regs -> regs) : M unit :=
  put (fun s => set_regs (alter g (Z.to_nat (CS s)) (chan_regs s)) (CS s) (IRNEN s) s).
Definition wr_CCTRL (x : Z) : M unit :=
  wr (fun r => mk_regs x (CIS r) (CIE r) (CDBA r) (CDLEN r) (CPOLL r)).
Definition wr_CIS (x : Z) : M unit :=
  wr (fun r => mk_regs (CCTRL r) x (CIE r) (CDBA r) (CDLEN r) (CPOLL r)).
Definition wr_CIE (x : Z) : M unit :=
  wr (fun r => mk_regs (CCTRL r) (CIS r) x (CDBA r) (CDLEN r) (CPOLL r)).
Definition wr_CDBA (x : Z) : M unit :=
  wr (fun r => mk_regs (CCTRL r) (CIS r) (CIE r) x (CDLEN r) (CPOLL r)).
Definition wr_CDLEN (x : Z) : M unit :=
  wr (fun r => mk_regs (CCTRL r) (CIS r) (CIE r) (CDBA r) x (CPOLL r)).
Definition wr_CPOLL (x : Z) : M unit :=
  wr (fun r => mk_regs (CCTRL r) (CIS r) (CIE r) (CDBA r) (CDLEN r) x).
(** [*DANUBE_DMA_CCTRL |= m], [&= ~m]. *)
Definition CCTRL_or (m : Z) : M unit := v <- rd CCTRL;; wr_CCTRL (Z.lor v m).
Definition CCTRL_andn (m : Z) : M unit := v <- rd CCTRL;; wr_CCTRL (Z.ldiff v m).
(** [while ( *DANUBE_DMA_CCTRL & m) {}]: the controller clears the bit. *)
Definition CCTRL_wait (m : Z) : M unit := CCTRL_andn m.
Definition wr_IRNEN (x : Z) : M unit := put (fun s => set_regs (chan_regs s) (CS s) x s).
Definition IRNEN_or (m : Z) : M unit := v <- get IRNEN;; wr_IRNEN (Z.lor v m).
Definition IRNEN_andn (m : Z) : M unit := v <- get IRNEN;; wr_IRNEN (Z.ldiff v m).
(** [1 << chan_num] *)
Definition bit (c : nat) : Z := Z.shiftl 1 (Z.of_nat c).
(** [g_danube_dma_int_status &= ~(1 << chan_num)] *)
Definition status_clear (c : nat) : M unit := put (fun s => set_status (Z.ldiff (int_status s) (bit c)) s).

(** The kernel's interrupt controller. *)
Definition enable_danube_irq (n : Z) : M unit := put (fun s => set_irqs ({[n]} ∪ irqs s) s).
Definition disable_danube_irq (n : Z) : M unit := put (fun s => set_irqs (irqs s ∖ {[n]}) s).
Definition mask_and_ack_danube_irq (n : Z) : M unit := disable_danube_irq n.
Definition tasklet_schedule : M unit := put (fun s => set_process (in_process s) true s).
Definition set_in_process (x : Z) : M unit := put (fun s => set_process x (tasklet s) s).

(** ** Channels *)
Definition select_chan (chan_num : nat) : M Z := sel chan_num;;; ret IFX_SUCCESS.
Definition enable_chan (chan_num : nat) : M Z := sel chan_num;;; CCTRL_or 1;;; ret IFX_SUCCESS.
Definition disable_chan (chan_num : nat) : M Z := sel chan_num;;; CCTRL_andn 1;;; ret IFX_SUCCESS.

Definition enable_ch_irq (c : nat) : M Z :=
  ch <- chan c;;
  sel c;;;
  wr_CIE 0x4a;;;
  IRNEN_or (bit c);;;
  enable_danube_irq (irq ch);;;
  ret IFX_SUCCESS.

Definition disable_ch_irq (c : nat) : M Z :=
  ch <- chan c;;
  status_clear c;;;
  sel c;;;
  wr_CIE 0;;;
  IRNEN_andn (bit c);;;
  mask_and_ack_danube_irq (irq ch);;;
  ret IFX_SUCCESS.

Definition open_chan (c : nat) : M Z :=
  ch <- chan c;;
  sel c;;;
  CCTRL_or 1;;;
  If (dir ch =? DANUBE_DMA_RX) (enable_ch_irq c;;; ret tt);;;
  ret IFX_SUCCESS.

Definition close_chan (c : nat) : M Z :=
  sel c;;;
  CCTRL_andn 1;;;
  disable_ch_irq c;;;
  ret IFX_SUCCESS.

Definition reset_chan (c : nat) : M Z := sel c;;; CCTRL_or 2;;; ret IFX_SUCCESS.

(** ** Buffers *)

(** [buffer_alloc(len, &byte_offset, &opt)]. *)
Definition buffer_alloc : M (option (Z * Z * Z)) := fun s =>
  match allocs s with
  | [] => Some (None, s)
  | a :: l => Some (a, set_memory l (freed s) s)
  end.
Definition buffer_free (dataptr opt : Z) : M unit :=
  put (fun s => set_memory (allocs s) (freed s ++ [(dataptr, opt)])%list s).
(** kmalloc and kfree, the defaults. *)
Definition common_buffer_alloc : M (Z * Z) :=
  a <- buffer_alloc;; match a with Some (b, _, _) => ret (b, 0) | None => ret (0, 0) end.
Definition common_buffer_free (dataptr : Z) : M Z :=
  If (nz dataptr) (buffer_free dataptr 0);;; ret 0.

Section Driver.
(** CONFIG_DANUBE_ETHERNET_D2 or CONFIG_DANUBE_PPA, and CONFIG_DANUBE_PPA_D4. *)
Context (D2 D4 : bool).
(** The kernel's address translation, and whether it grants an interrupt line. *)
Context (CPHYSADDR va : Z -> Z) (request_irq : Z -> bool).
(** The [intr_handler] of a device. *)
Context (client : nat -> Z -> M unit).

(** [pDev->intr_handler(pDev, status)] *)
Definition call_handler (d : nat) (status : Z) : M unit :=
  v <- dev d;; if intr_handler v then client d status else wild.

(** ** Interrupts *)
Definition rx_chan_intr_handler (chan_no : nat) : M unit :=
  ch <- chan chan_no;;
  rx_desc_p <- get_desc chan_no (curr_desc ch);;
  if completed rx_desc_p && (D2 || (data_length rx_desc_p <? 1536)) then
    d <- deref (dma_dev ch);;
    v <- dev d;;
    upd_dev d (fun v => set_current (rel_chan_no ch) (current_tx_chan v) v);;;
    If (intr_handler v) (client d RCV_INT);;;
    upd_chan chan_no (fun ch => set_weight (weight ch - 1) ch)
  else
    tmp <- get CS;;
    sel chan_no;;;
    v <- rd CIS;; wr_CIS (Z.lor v 0x7e);;;
    put (fun s => set_regs (chan_regs s) tmp (IRNEN s) s);;;
    enable_danube_irq (irq ch);;;
    rx_desc_p <- get_desc chan_no (curr_desc ch);;
    If (negb (OWN rx_desc_p =? CPU_OWN)) (status_clear chan_no).

Definition tx_chan_intr_handler (chan_no : nat) : M unit :=
  ch <- chan chan_no;;
  tmp <- get CS;;
  sel chan_no;;;
  v <- rd CIS;; wr_CIS (Z.lor v 0x7e);;;
  put (fun s => set_regs (chan_regs s) tmp (IRNEN s) s);;;
  status_clear chan_no;;;
  d <- deref (dma_dev ch);;
  v <- dev d;;
  upd_dev d (fun v => set_current (current_rx_chan v) (rel_chan_no ch) v);;;
  If (intr_handler v) (client d TRANSMIT_CPT_INT).

(** The channel to serve: pending, of the greatest weight above 0, the first of those. *)
Definition wfq_step (status : Z) (acc : option nat * Z) (ic : nat * channel) : option nat * Z :=
  let (i, ch) := ic in
  if Z.testbit status (Z.of_nat i) && (0 <? weight ch) && (acc.2 <? weight ch)
  then (Some i, weight ch) else acc.
Definition wfq (s : dma) : option nat :=
  (fold_left (wfq_step (int_status s)) (imap pair (dma_chan s)) (None, 0)).1.

(** One turn of the loop, with a channel pending. *)
Definition tasklet_turn : M unit :=
  chan_no <- get wfq;;
  match chan_no with
  | Some c =>
      m <- deref (default_dma_map !! c);;
      if map_dir m =? DANUBE_DMA_RX then rx_chan_intr_handler c else tx_chan_intr_handler c
  | None => put (fun s => set_chans ((fun ch => set_weight (default_weight ch) ch) <$> dma_chan s) s)
  end.

Definition dma_interrupt (chan_num : nat) : M unit :=
  ch <- chan chan_num;;
  tmp <- get IRNEN;;
  wr_IRNEN 0;;;
  put (fun s => set_status (Z.lor (int_status s) (bit chan_num)) s);;;
  wr_IRNEN tmp;;;
  mask_and_ack_danube_irq (irq ch);;;
  p <- get in_process;;
  If (p =? 0) (set_in_process 1;;; tasklet_schedule).

(** The interrupts that arrive at one place. *)
Fixpoint interrupts (l : list nat) : M unit :=
  match l with [] => ret tt | c :: l' => dma_interrupt c;;; interrupts l' end.

(** [while (g_danube_dma_int_status)], with [n] turns of the budget left; the first
    list of [arrivals] are the interrupts before the next test.  The result says
    whether the loop ran out of work, and what is still to arrive. *)
Fixpoint tasklet_loop (n : nat) (arrivals : list (list nat)) : M (bool * list (list nat)) :=
  interrupts (default [] (head arrivals));;;
  status <- get int_status;;
  if status =? 0 then ret (true, tail arrivals)
  else
    match n with
    | O => tasklet_schedule;;; ret (false, tail arrivals)
    | S n' => tasklet_turn;;; tasklet_loop n' (tail arrivals)
    end.

(** [if (budget-- < 0)]: the budget and one turn more. *)
Definition do_dma_tasklet (arrivals : list (list nat)) : M unit :=
  r <- tasklet_loop (S (Z.to_nat DMA_INT_BUDGET)) arrivals;;
  If r.1
    (interrupts (default [] (head r.2));;;
     set_in_process 0;;;
     status <- get int_status;;
     If (nz status) (set_in_process 1;;; tasklet_schedule)).

(** ** Devices *)

(** The address returned: an entry of [dma_devs], or, when no name matches, the one
    behind the last ([MAX_DMA_DEVICE_NUM]); [None] is NULL. *)
Fixpoint reserve_loop (n i : nat) (dev_name : string) : M (option nat) :=
  match n with
  | O => ret (Some i)
  | S n' =>
      v <- dev i;;
      if (dev_name =? device_name v)%string then
        if nz (reserved v) then ret None
        else upd_dev i (set_reserved 1);;; ret (Some i)
      else reserve_loop n' (S i) dev_name
  end.
Definition dma_device_reserve (dev_name : string) : M (option nat) :=
  reserve_loop MAX_DMA_DEVICE_NUM 0 dev_name.
Definition dma_device_release (d : nat) : M Z :=
  _ <- dev d;; upd_dev d (set_reserved 0);;; ret IFX_SUCCESS.

(** [dev->tx_chan[i]]: a pointer to a channel. *)
Definition chan_at (l : list (option nat)) (i : Z) : M nat := p <- deref (at_index l i);; deref p.

(** What both halves of the registration do to the registers of the channel. *)
Definition set_up_channel (c : nat) (ch : channel) : M unit :=
  sel c;;;
  base <- rd CDBA;;
  If (D2 && negb (base =? CPHYSADDR (desc_base ch))) (wr_CDBA (CPHYSADDR (desc_base ch)));;;
  len <- rd CDLEN;;
  If (negb (len =? desc_len ch)) (wr_CDLEN (desc_len ch));;;
  CCTRL_andn 1;;;
  CCTRL_or 2;;;
  CCTRL_wait 2.

Definition register_tx (c : nat) : M unit :=
  ch <- chan c;;
  If (control ch =? DANUBE_DMA_CH_ON)
    (for_upto (Z.to_nat (desc_len ch)) 0 (fun j => put_desc c (Z.of_nat j) zero_desc);;;
     set_up_channel c ch;;;
     IRNEN_or (bit c);;;
     wr_CCTRL 0x30100).

(** A descriptor with a buffer, given to the controller. *)
Definition rx_desc_of (buffer byte_offset packet_size : Z) : desc :=
  let w := set_field 23 2 byte_offset 0 in
  let w := set_field 31 1 DMA_OWN w in
  mk_desc (set_field 0 16 packet_size w) (CPHYSADDR buffer).
(** The loop over the descriptors ends at the first allocation that fails. *)
Fixpoint fill_rx (n j : nat) (c : nat) (packet_size : Z) : M unit :=
  match n with
  | O => ret tt
  | S n' =>
      a <- buffer_alloc;;
      match a with
      | None => ret tt
      | Some (buffer, off, o) =>
          put_opt c (Z.of_nat j) o;;;
          put_desc c (Z.of_nat j) (rx_desc_of buffer off packet_size);;;
          fill_rx n' (S j) c packet_size
      end
  end.
Definition register_rx (c : nat) : M unit :=
  ch <- chan c;;
  If (control ch =? DANUBE_DMA_CH_ON)
    (_ <- deref (dma_dev ch);;
     fill_rx (Z.to_nat (desc_len ch)) 0 c (packet_size ch);;;
     set_up_channel c ch;;;
     wr_CIE 0x0A;;;
     IRNEN_or (bit c);;;
     wr_CCTRL 0x30000;;;
     enable_danube_irq (irq ch)).

Definition dma_device_register (d : nat) : M Z :=
  v <- dev d;;
  for_upto (Z.to_nat (max_tx_chan_num v)) 0 (fun i => c <- chan_at (tx_chan v) (Z.of_nat i);; register_tx c);;;
  for_upto (Z.to_nat (max_rx_chan_num v)) 0 (fun i => c <- chan_at (rx_chan v) (Z.of_nat i);; register_rx c);;;
  ret IFX_SUCCESS.

(** A descriptor that holds a buffer. *)
Definition has_buffer (d : desc) : bool :=
  completed d || ((OWN d =? DMA_OWN) && (0 <? data_length d)).
Definition free_desc (c : nat) (j : nat) : M unit :=
  d <- get_desc c (Z.of_nat j);;
  If (has_buffer d) (o <- get_opt c (Z.of_nat j);; buffer_free (va (Data_Pointer d)) o).

Definition shut_down_channel (c : nat) : M unit :=
  sel c;;;
  upd_chan c (set_pos 0 0);;;
  upd_chan c (set_control DANUBE_DMA_CH_OFF);;;
  wr_CIE 0;;;
  IRNEN_andn (bit c);;;
  CCTRL_andn 1;;;
  CCTRL_wait 1.
Definition unregister_tx (c : nat) : M unit :=
  ch <- chan c;;
  If (control ch =? DANUBE_DMA_CH_ON)
    (shut_down_channel c;;;
     for_upto (Z.to_nat (desc_len ch)) 0 (fun j =>
       free_desc c j;;; put_desc c (Z.of_nat j) zero_desc)).
Definition unregister_rx (c : nat) : M unit :=
  ch <- chan c;;
  disable_danube_irq (irq ch);;;
  status_clear c;;;
  shut_down_channel c;;;
  for_upto (Z.to_nat (desc_len ch)) 0 (fun j => free_desc c j).

Definition dma_device_unregister (d : nat) : M Z :=
  v <- dev d;;
  for_upto (Z.to_nat (max_tx_chan_num v)) 0 (fun i => c <- chan_at (tx_chan v) (Z.of_nat i);; unregister_tx c);;;
  for_upto (Z.to_nat (max_rx_chan_num v)) 0 (fun i => c <- chan_at (rx_chan v) (Z.of_nat i);; unregister_rx c);;;
  ret IFX_SUCCESS.

(** ** Packets *)

(** [curr_desc++; if (curr_desc == desc_len) curr_desc = 0;] *)
Definition next_curr (ch : channel) : Z :=
  if curr_desc ch + 1 =? desc_len ch then 0 else curr_desc ch + 1.
Definition advance_curr (c : nat) : M unit :=
  upd_chan c (fun ch => set_pos (next_curr ch) (prev_desc ch) ch).

Definition u32 (z : Z) : Z := z mod 2 ^ 32.
(** [(DMA_OWN << 31) | (byte_offset << 23) | pCh->packet_size] *)
Definition rx_word (byte_offset packet_size : Z) : Z :=
  u32 (Z.lor (Z.lor (Z.shiftl DMA_OWN 31) (Z.shiftl byte_offset 23)) packet_size).

(** The length returned, and what [*dataptr] and [*opt] are set to. *)
Definition dma_device_read (d : nat) : M (Z * option (Z * Z)) :=
  v <- dev d;;
  c <- chan_at (rx_chan v) (current_rx_chan v);;
  ch <- chan c;;
  rx_desc_p <- get_desc c (curr_desc ch);;
  if negb (completed rx_desc_p) then ret (0, None)
  else
    let buf := va (Data_Pointer rx_desc_p) in
    o <- get_opt c (curr_desc ch);;
    a <- buffer_alloc;;
    r <- match a with
         | Some (new, off, p) =>
             put_opt c (curr_desc ch) p;;;
             put_desc c (curr_desc ch) (mk_desc (rx_word off (packet_size ch)) (CPHYSADDR new));;;
             ret (data_length rx_desc_p, Some (buf, o))
         | None => ret (0, Some (0, 0))
         end;;
    advance_curr c;;;
    ret r.

(** The loop that frees what has been sent; [None] when the fuel runs out. *)
Fixpoint reclaim (fuel : nat) (c : nat) : M unit :=
  match fuel with
  | O => wild
  | S fuel' =>
      ch <- chan c;;
      tx_desc_p <- get_desc c (prev_desc ch);;
      if completed tx_desc_p then
        o <- get_opt c (prev_desc ch);;
        buffer_free (va (Data_Pointer tx_desc_p)) o;;;
        put_desc c (prev_desc ch) zero_desc;;;
        upd_chan c (fun ch => set_pos (curr_desc ch) (Z.rem (prev_desc ch + 1) (desc_len ch)) ch);;;
        reclaim fuel' c
      else ret tt
  end.
(** A turn clears the descriptor it frees. *)
Definition reclaim_fuel (ch : channel) : nat := S (length (ring ch)).

Definition tx_word (byte_offset len : Z) : Z :=
  u32 (Z.lor (Z.lor (Z.lor (Z.lor (Z.shiftl DMA_OWN 31) DMA_DESC_SOP_SET) DMA_DESC_EOP_SET)
    (Z.shiftl byte_offset 23)) len).

Definition dma_device_write (d : nat) (dataptr len o : Z) : M Z :=
  v <- dev d;;
  c <- chan_at (tx_chan v) (current_tx_chan v);;
  ch <- chan c;;
  reclaim (reclaim_fuel ch) c;;;
  ch <- chan c;;
  tx_desc_p <- get_desc c (curr_desc ch);;
  if (OWN tx_desc_p =? DMA_OWN) || nz (C tx_desc_p) then
    call_handler d TX_BUF_FULL_INT;;;
    ret 0
  else
    put_opt c (curr_desc ch) o;;;
    burst <- (if tx_burst_len v * 4 =? 0 then wild else ret (tx_burst_len v * 4));;
    let byte_offset := CPHYSADDR dataptr mod burst in
    put_desc c (curr_desc ch) (mk_desc (tx_word byte_offset len) (CPHYSADDR dataptr - byte_offset));;;
    advance_curr c;;;
    ch <- chan c;;
    tx_desc_p <- get_desc c (curr_desc ch);;
    If (OWN tx_desc_p =? DMA_OWN) (call_handler d TX_BUF_FULL_INT);;;
    sel c;;;
    tmp <- rd CCTRL;;
    If (negb (Z.testbit tmp 0)) (open_chan c;;; ret tt);;;
    ret len.

(** ** Initialisation *)

(** The lines left to the packet processor. *)
Definition not_requested (n : Z) : bool :=
  D2 && ((n =? CH_INT 2) || (n =? CH_INT 4) || (D4 && (n =? CH_INT 6))).
(** The first loop: true when every line was granted. *)
Fixpoint request_irqs (map : list chan_map) (i : nat) : M bool :=
  match map with
  | [] => ret true
  | m :: map' =>
      upd_chan i (fun ch => mk_channel (rel_chan_no ch) (pri ch) (byte_offset ch) (dir ch) (map_irq m)
        (desc_base ch) (desc_len ch) (curr_desc ch) (prev_desc ch) (weight ch) (default_weight ch)
        (packet_size ch) (control ch) (opt ch) (dma_dev ch) (ring ch));;;
      if not_requested (map_irq m) then request_irqs map' (S i)
      else if request_irq (map_irq m) then
        put (fun s => set_requested (requested s ++ [map_irq m])%list s);;;
        request_irqs map' (S i)
      else ret false
  end.

Definition name_device (i : nat) : M unit :=
  n <- deref (global_device_name !! i);;
  upd_dev i (fun v => mk_device n (reserved v) (tx_burst_len v) (rx_burst_len v) (current_tx_chan v)
    (current_rx_chan v) (num_tx_chan v) (num_rx_chan v) (max_rx_chan_num v) (max_tx_chan_num v)
    (tx_chan v) (rx_chan v) (intr_handler v)).
Definition default_device (i : nat) : M unit :=
  upd_dev i (fun v => mk_device (device_name v) (reserved v) 4 4 (current_tx_chan v)
    (current_rx_chan v) 0 0 0 0 (tx_chan v) (rx_chan v) false).
(** [*DANUBE_DMA_PS = i], and the port's PCTRL. *)
Definition port_setting (i : nat) : M unit := fun s =>
  let v := default 0 (PCTRL s !! i) in
  match i with
  | 0%nat => Some (tt, set_port (CTRL s) 0 (<[i := Z.lor v (Z.lor (Z.shiftl 0xf 8) (Z.shiftl 1 6))]> (PCTRL s)) (PWDCR s) s)
  | 1%nat => Some (tt, set_port (CTRL s) 1 (<[i := 0x14]> (PCTRL s)) (PWDCR s) s)
  | _ => Some (tt, s)
  end.
Definition default_channel (map : list chan_map) (j : nat) : M unit :=
  m <- deref (map !! j);;
  upd_chan j (fun ch => mk_channel (map_rel_chan_no m) (pri ch) 0 (dir ch) (irq ch) (desc_base ch)
    (desc_len ch) 0 0 DANUBE_DMA_CH_DEFAULT_WEIGHT DANUBE_DMA_CH_DEFAULT_WEIGHT (packet_size ch)
    DANUBE_DMA_CH_OFF (opt ch) (dma_dev ch) (ring ch)).
Definition link_channel (i j : nat) (m : chan_map) : channel -> channel := fun ch =>
  mk_channel (rel_chan_no ch) (map_pri m) (byte_offset ch) (map_dir m) (irq ch) (desc_base ch)
    (desc_len ch) (curr_desc ch) (prev_desc ch) (weight ch) (default_weight ch) (packet_size ch)
    (control ch) (opt ch) (Some i) (ring ch).
Definition assign_channel (map : list chan_map) (i j : nat) : M unit :=
  m <- deref (map !! j);;
  v <- dev i;;
  If (device_name v =? map_dev_name m)%string
    (if map_dir m =? DANUBE_DMA_RX then
       let n := max_rx_chan_num v + 1 in
       _ <- deref (at_index (rx_chan v) (n - 1));;
       upd_dev i (fun v => mk_device (device_name v) (reserved v) (tx_burst_len v) (rx_burst_len v)
         (current_tx_chan v) (current_rx_chan v) (num_tx_chan v) (num_rx_chan v) n (max_tx_chan_num v)
         (tx_chan v) (<[Z.to_nat (n - 1) := Some j]> (rx_chan v)) (intr_handler v));;;
       upd_chan j (link_channel i j m)
     else If (map_dir m =? DANUBE_DMA_TX)
       (let n := max_tx_chan_num v + 1 in
        _ <- deref (at_index (tx_chan v) (n - 1));;
        upd_dev i (fun v => mk_device (device_name v) (reserved v) (tx_burst_len v) (rx_burst_len v)
          (current_tx_chan v) (current_rx_chan v) (num_tx_chan v) (num_rx_chan v) (max_rx_chan_num v) n
          (<[Z.to_nat (n - 1) := Some j]> (tx_chan v)) (rx_chan v) (intr_handler v));;;
        upd_chan j (link_channel i j m))).

Definition map_dma_chan (map : list chan_map) : M Z :=
  for_upto MAX_DMA_DEVICE_NUM 0 name_device;;;
  granted <- request_irqs map 0;;
  if negb granted then ret (- EFAULT)
  else
    for_upto MAX_DMA_DEVICE_NUM 0 (fun i =>
      default_device i;;;
      port_setting i;;;
      for_upto MAX_DMA_CHANNEL_NUM 0 (default_channel map);;;
      for_upto MAX_DMA_CHANNEL_NUM 0 (assign_channel map i));;;
    ret IFX_SUCCESS.

(** The bit of the power management unit. *)
Context (DANUBE_PMU_DMA_SHIFT : Z).
Definition chip_channel (i : nat) : M unit :=
  sel i;;;
  wr_CCTRL 0x2;;;
  wr_CPOLL 0x80000040;;;
  let class (v : Z) := c <- rd CCTRL;; wr_CCTRL (Z.lor (Z.ldiff c (Z.shiftl 3 9)) (Z.shiftl v 9)) in
  If (bool_decide (i ∈ [8; 9])%nat) (class 0);;;
  If (bool_decide (i ∈ [10; 11])%nat) (class 1);;;
  If (bool_decide (i ∈ [16; 17])%nat) (CCTRL_or (Z.shiftl 3 9));;;
  If (bool_decide (i ∈ [18; 19])%nat) (class 1).
Definition dma_chip_init : M Z :=
  put (fun s => set_port (Z.lor (CTRL s) 1) (PS s) (PCTRL s)
    (Z.ldiff (PWDCR s) (Z.shiftl 1 DANUBE_PMU_DMA_SHIFT)) s);;;
  wr_IRNEN 0;;;
  for_upto MAX_DMA_CHANNEL_NUM 0 chip_channel;;;
  for_upto MAX_DMA_CHANNEL_NUM 0 (fun i => disable_chan i;;; ret tt);;;
  ret IFX_SUCCESS.

(** [dma_chan[i].desc_len] *)
Definition ring_len (i : nat) : Z :=
  if bool_decide (i ∈ [6; 7])%nat then DMA_ETH_NUM_DESCRS else DANUBE_DMA_DESCRIPTOR_OFFSET.
(** The [opt] array of each channel, until [kmalloc] fails at channel [fails]. *)
Fixpoint alloc_opts (n i : nat) (fails : option nat) : M bool :=
  match n with
  | O => ret true
  | S n' =>
      upd_chan i (fun ch => mk_channel (rel_chan_no ch) (pri ch) (byte_offset ch) (dir ch) (irq ch)
        (desc_base ch) (ring_len i) (curr_desc ch) (prev_desc ch) (weight ch) (default_weight ch)
        (packet_size ch) (control ch) (opt ch) (dma_dev ch) (ring ch));;;
      if bool_decide (fails = Some i) then ret false
      else
        upd_chan i (fun ch => set_opt (replicate (Z.to_nat (ring_len i)) 0) ch);;;
        alloc_opts n' (S i) fails
  end.
(** The ring of channel [i] in the list of descriptors at [base], cleared. *)
Definition place_ring (base : Z) (i : nat) : M unit :=
  let before := foldr Z.add 0 (ring_len <$> seq 0 i) in
  let at_ := base + before * 8 in
  upd_chan i (fun ch => mk_channel (rel_chan_no ch) (pri ch) (byte_offset ch) (dir ch) (irq ch) at_
    (desc_len ch) 0 (prev_desc ch) (weight ch) (default_weight ch) (packet_size ch) (control ch)
    (opt ch) (dma_dev ch) (replicate (Z.to_nat (ring_len i)) zero_desc));;;
  select_chan i;;;
  wr_CDBA (CPHYSADDR at_);;;
  wr_CDLEN (ring_len i).
(** With TWEAK_DMA_BUFFER_RING_SIZE, which danube_dma.h defines: [registered] is the
    result of register_chrdev, [fails] the first [kmalloc] of an opt array that
    fails, [desc_list] what the [kmalloc] of the descriptors returns. *)
Definition danube_dma_init (registered : Z) (fails : option nat) (desc_list : Z) : M Z :=
  if nz registered then ret registered
  else
    dma_chip_init;;;
    map_dma_chan default_dma_map;;;
    ok <- alloc_opts MAX_DMA_CHANNEL_NUM 0 fails;;
    if negb ok || (desc_list =? 0) then ret (- ENOMEM)
    else
      for_upto MAX_DMA_CHANNEL_NUM 0 (place_ring (Z.lor desc_list 0xA0000000));;;
      ret 0.
End Driver.

(** The variables of the driver as they are loaded, with [regs] in the registers. *)
Definition zero_channel : channel :=
  mk_channel 0 0 0 0 0 0 0 0 0 0 0 0 0 [] None [].
Definition zero_device : device :=
  mk_device "" 0 0 0 0 0 0 0 0 0 (replicate 20 None) (replicate 20 None) false.
Definition loaded (regs : list regs) : dma :=
  mk_dma (replicate MAX_DMA_CHANNEL_NUM zero_channel) (replicate MAX_DMA_DEVICE_NUM zero_device)
    0 0 false regs 0 0 0 0 [0; 0; 0; 0; 0; 0] 0 ∅ [] [] [].
End Dma.
