(* ===== verification/DmaRing.v ===== *)
(** * DmaRing: a channel's ring as a list

    The descriptors of a channel with their optional pointers, read from one
    position on; what the accesses of the driver do to that list; and the runs of
    the driver's programs on a state of which one channel and the buffers change. *)
From S2P Require Import Prelude Dma.
Import Dma.

(** ** Rotated lists *)
Lemma rotate_head {A} n (l : list A) x t :
  (n < length l)%nat -> rotate n l = x :: t -> l !! n = Some x.
Proof.
  intros Hn H. assert (Hl : rotate n l !! 0%nat = Some x) by (by rewrite H).
  rewrite lookup_rotate_r in Hl by lia. unfold rotate_nat_add in Hl.
  rewrite Z.mod_small in Hl by lia. by replace (Z.to_nat _) with n in Hl by lia.
Qed.
Lemma rotate_small {A} n (l : list A) : (n < length l)%nat -> rotate n l = (drop n l ++ take n l)%list.
Proof. intros H. unfold rotate. by rewrite Nat.mod_small. Qed.
Lemma rotate_full {A} (l : list A) : rotate (length l) l = l.
Proof.
  unfold rotate. destruct l as [|x l]; [done|]. rewrite Nat.Div0.mod_same. cbn. by rewrite app_nil_r.
Qed.
(** The position after [n]. *)
Definition next (n len : nat) : nat := if decide (S n = len) then 0%nat else S n.
Lemma next_lt n len : (n < len)%nat -> (next n len < len)%nat.
Proof. unfold next. case_decide; lia. Qed.
Lemma rotate_next {A} n (l : list A) x t :
  (n < length l)%nat -> rotate n l = x :: t -> rotate (next n (length l)) l = (t ++ [x])%list.
Proof.
  intros Hn H. pose proof (rotate_head _ _ _ _ Hn H) as Hx. rewrite rotate_small in H by done.
  rewrite (drop_S _ _ _ Hx) in H. injection H as <-. unfold next. case_decide as Hc.
  - rewrite drop_ge by lia. cbn. rewrite <- (take_drop n l) at 1. rewrite (drop_S _ _ _ Hx), (drop_ge l (S n)) by lia.
    unfold rotate. rewrite Nat.Div0.mod_0_l. cbn. by rewrite app_nil_r.
  - rewrite rotate_small by lia. rewrite <- (assoc_L app). f_equal. by apply take_S_r.
Qed.
Lemma rotate_insert_head {A} n (l : list A) x t y :
  (n < length l)%nat -> rotate n l = x :: t -> rotate n (<[n := y]> l) = y :: t.
Proof.
  intros Hn H. assert (E : rotate_nat_add n 0 (length l) = n).
  { unfold rotate_nat_add. rewrite Z.mod_small by lia. lia. }
  rewrite <- E at 2. rewrite rotate_insert_l by lia. by rewrite H.
Qed.

(** ** The descriptors and their optional pointers *)
Definition slots (ch : channel) : list (desc * Z) := zip (ring ch) (opt ch).

Record ring_ok (ch : channel) : Prop := {
  ring_len_ok : desc_len ch = Z.of_nat (length (ring ch));
  ring_opt : length (opt ch) = length (ring ch) }.
Lemma slots_length ch : ring_ok ch -> length (slots ch) = length (ring ch).
Proof. intros [_ Ho]. unfold slots. rewrite length_zip_with. lia. Qed.
Lemma slots_lookup ch i d o :
  slots ch !! i = Some (d, o) <-> ring ch !! i = Some d /\ opt ch !! i = Some o.
Proof. apply lookup_zip_Some. Qed.
Lemma slots_insert ch i d o :
  slots (set_opt (<[i := o]> (opt ch)) (set_ring (<[i := d]> (ring ch)) ch)) = <[i := (d, o)]> (slots ch).
Proof. unfold slots. cbn. symmetry. apply (insert_zip_with pair). Qed.
Lemma slots_put_desc ch i d o :
  opt ch !! i = Some o -> slots (set_ring (<[i := d]> (ring ch)) ch) = <[i := (d, o)]> (slots ch).
Proof.
  intros Ho. rewrite <- slots_insert, (list_insert_id (opt ch)) by done. by destruct ch.
Qed.

Lemma alter_insert_eq {A} (g : A -> A) i x (l : list A) : alter g i (<[i := x]> l) = <[i := g x]> l.
Proof. by rewrite !list_insert_alter, list_alter_alter_eq. Qed.

(** ** Runs of the driver on one channel *)

(** The state [s] with channel [c] and the buffers replaced. *)
Definition on (c : nat) (ch : channel) (a : list (option (Z * Z * Z))) (f : list (Z * Z)) (s : dma) : dma :=
  set_memory a f (set_chans (<[c := ch]> (dma_chan s)) s).

Lemma on_id c ch s : dma_chan s !! c = Some ch -> on c ch (allocs s) (freed s) s = s.
Proof. intros H. unfold on. rewrite list_insert_id by done. by destruct s. Qed.

Section On.
Context (s : dma) (c : nat) (Hc : (c < length (dma_chan s))%nat).
#[local] Abbreviation on ch a f := (on c ch a f s).

Lemma run_bind {A B} (m : M A) (k : A -> M B) x s1 s2 : m s1 = Some (x, s2) -> bind m k s1 = k x s2.
Proof. unfold bind. by intros ->. Qed.
Lemma on_chan ch a f : chan c (on ch a f) = Some (ch, on ch a f).
Proof. unfold chan, get, bind. cbn. by rewrite list_lookup_insert_eq. Qed.
Lemma on_upd ch a f g : upd_chan c g (on ch a f) = Some (tt, on (g ch) a f).
Proof.
  unfold upd_chan, put, DmaRing.on. cbn. do 2 f_equal. unfold set_memory, set_chans. cbn. f_equal.
  by rewrite alter_insert_eq.
Qed.
Lemma on_get_desc ch a f i d :
  ring ch !! i = Some d -> get_desc c (Z.of_nat i) (on ch a f) = Some (d, on ch a f).
Proof.
  intros H. unfold get_desc. rewrite (run_bind _ _ _ _ _ (on_chan ch a f)). unfold at_index.
  rewrite (proj2 (Z.ltb_ge _ _)) by lia. by rewrite Nat2Z.id, H.
Qed.
Lemma on_get_opt ch a f i o :
  opt ch !! i = Some o -> get_opt c (Z.of_nat i) (on ch a f) = Some (o, on ch a f).
Proof.
  intros H. unfold get_opt. rewrite (run_bind _ _ _ _ _ (on_chan ch a f)). unfold at_index.
  rewrite (proj2 (Z.ltb_ge _ _)) by lia. by rewrite Nat2Z.id, H.
Qed.
Lemma on_put_desc ch a f i d d' : ring ch !! i = Some d ->
  put_desc c (Z.of_nat i) d' (on ch a f) = Some (tt, on (set_ring (<[i := d']> (ring ch)) ch) a f).
Proof.
  intros H. unfold put_desc. rewrite (run_bind _ _ _ _ _ (on_get_desc ch a f i d H)).
  by rewrite on_upd, Nat2Z.id.
Qed.
Lemma on_put_opt ch a f i o o' : opt ch !! i = Some o ->
  put_opt c (Z.of_nat i) o' (on ch a f) = Some (tt, on (set_opt (<[i := o']> (opt ch)) ch) a f).
Proof.
  intros H. unfold put_opt. rewrite (run_bind _ _ _ _ _ (on_get_opt ch a f i o H)).
  by rewrite on_upd, Nat2Z.id.
Qed.
Lemma on_free ch a f p o : buffer_free p o (on ch a f) = Some (tt, on ch a (f ++ [(p, o)])).
Proof. done. Qed.
Lemma on_alloc ch x a f : buffer_alloc (on ch (x :: a) f) = Some (x, on ch a f).
Proof. done. Qed.
Lemma on_alloc_nil ch f : buffer_alloc (on ch [] f) = Some (None, on ch [] f).
Proof. done. Qed.
End On.

(** One step of a program whose first action has a run. *)
Ltac step H := rewrite (run_bind _ _ _ _ _ H).
