(* ===== verification/DmaTx.v ===== *)
(** * DmaTx: the transmit side of the DMA driver

    dma_device_write against the controller: the ring of a transmit channel is the
    queue of the packets that have been sent and not freed, and of those that have
    not been sent. *)
From S2P Require Import Prelude Dma DmaRing.
Import Dma.

(** ** Bit fields *)
Lemma field_testbit lo width w n : 0 <= lo -> 0 <= width -> 0 <= n ->
  Z.testbit (field lo width w) n = (n <? width) && Z.testbit w (n + lo).
Proof.
  intros Hl Hw Hn. unfold field. rewrite Z.land_spec, Z.shiftr_spec by done. rewrite andb_comm.
  f_equal. rewrite Z.testbit_ones by done. by rewrite (proj2 (Z.leb_le 0 n)).
Qed.
Lemma u32_testbit w n : 0 <= n < 32 -> Z.testbit (u32 w) n = Z.testbit w n.
Proof. intros H. unfold u32. rewrite Z.mod_pow2_bits_low; [done | lia]. Qed.
Lemma small_testbit w k n : 0 <= w < 2 ^ k -> 0 <= k <= n -> Z.testbit w n = false.
Proof.
  intros Hw Hk. destruct (Z.eq_dec w 0) as [->|Hz]; [apply Z.bits_0|].
  apply Z.bits_above_log2; [lia|]. apply Z.log2_lt_pow2; [lia|].
  apply Z.lt_le_trans with (2 ^ k); [lia|]. apply Z.pow_le_mono_r; lia.
Qed.

Lemma tx_word_testbit off len n : 0 <= off < 2 ^ 5 -> 0 <= len < 2 ^ 16 -> 0 <= n < 32 ->
  Z.testbit (tx_word off len) n =
  (n =? 31) || (n =? 29) || (n =? 28) || Z.testbit off (n - 23) || Z.testbit len n.
Proof.
  intros Ho Hl Hn. unfold tx_word. rewrite u32_testbit by done. rewrite !Z.lor_spec.
  change DMA_DESC_SOP_SET with (2 ^ 29). change DMA_DESC_EOP_SET with (2 ^ 28).
  change (Z.shiftl DMA_OWN 31) with (2 ^ 31). rewrite !Z.pow2_bits_eqb by lia.
  rewrite Z.shiftl_spec by lia. rewrite (Z.eqb_sym 31), (Z.eqb_sym 29), (Z.eqb_sym 28). done.
Qed.

Lemma tx_word_fields off len : 0 <= off < 2 ^ 5 -> 0 <= len < 2 ^ 16 ->
  forall p, let d := mk_desc (tx_word off len) p in
  OWN d = DMA_OWN /\ tx_byte_offset d = off /\ data_length d = len.
Proof.
  intros Ho Hl p d. subst d. unfold OWN, tx_byte_offset, data_length. cbn [word].
  split_and!; apply Z.bits_inj'; intros n Hn; rewrite field_testbit by lia.
  - destruct (n <? 1) eqn:E; bool_to_prop.
    + rewrite tx_word_testbit by lia. replace n with 0 by lia. done.
    + cbn. symmetry. apply (small_testbit _ 1); unfold DMA_OWN; lia.
  - destruct (n <? 5) eqn:E; bool_to_prop.
    + rewrite tx_word_testbit by lia. rewrite !(proj2 (Z.eqb_neq _ _)) by lia.
      rewrite (small_testbit len 16) by lia. replace (n + 23 - 23) with n by lia. by rewrite orb_false_r.
    + symmetry. apply (small_testbit _ 5); lia.
  - destruct (n <? 16) eqn:E; bool_to_prop.
    + rewrite tx_word_testbit by lia. rewrite !(proj2 (Z.eqb_neq _ _)) by lia.
      rewrite (Z.testbit_neg_r off) by lia. cbn. f_equal. lia.
    + symmetry. apply (small_testbit _ 16); lia.
Qed.

(** ** The queue *)

(** A packet handed to the driver: the physical address, the length, the caller's
    pointer. *)
Record packet := mk_packet { p_addr : Z; p_len : Z; p_opt : Z }.
(** The first word the controller fetches. *)
Definition p_start (burst : Z) (x : packet) : Z := p_addr x - p_addr x mod burst.

(** The descriptors of a packet that is to be sent, of one that has been, and of none. *)
Definition waits (burst : Z) (y : desc * Z) (x : packet) : Prop :=
  OWN y.1 = DMA_OWN /\ Data_Pointer y.1 = p_start burst x /\
  Data_Pointer y.1 + tx_byte_offset y.1 = p_addr x /\ data_length y.1 = p_len x /\ y.2 = p_opt x.
Definition sent (burst : Z) (y : desc * Z) (x : packet) : Prop :=
  completed y.1 = true /\ Data_Pointer y.1 = p_start burst x /\ y.2 = p_opt x.
Definition idle (y : desc * Z) : Prop := OWN y.1 = CPU_OWN /\ C y.1 = 0.

(** The ring holds the packets [done], sent, then the packets [pend], to be sent. *)
Record tx_rep (burst : Z) (ch : channel) (done pend : list packet) (p : nat) : Prop := {
  tx_ring : ring_ok ch;
  tx_pos : (p < length (ring ch))%nat;
  tx_prev : prev_desc ch = Z.of_nat p;
  tx_curr : curr_desc ch =
    Z.of_nat (rotate_nat_add p (length done + length pend) (length (ring ch)));
  tx_slots : exists D P R, rotate p (slots ch) = (D ++ P ++ R)%list /\
    Forall2 (sent burst) D done /\ Forall2 (waits burst) P pend /\ Forall idle R }.

Lemma not_completed y : idle y -> completed y.1 = false.
Proof. intros [Ho Hc]. unfold completed. by rewrite Ho, Hc. Qed.
Lemma waits_not_completed burst y x : waits burst y x -> completed y.1 = false.
Proof. intros [Ho _]. unfold completed. by rewrite Ho. Qed.
Lemma idle_zero o : idle (zero_desc, o).
Proof. by split. Qed.

(** What the driver gives back for a packet. *)
Definition freed_as (va : Z -> Z) (burst : Z) (x : packet) : Z * Z := (va (p_start burst x), p_opt x).

Lemma set_twice c p r c' p' r' ch :
  set_pos c p (set_ring r (set_pos c' p' (set_ring r' ch))) = set_pos c p (set_ring r ch).
Proof. done. Qed.

Lemma head_slot ch p y t : ring_ok ch -> (p < length (ring ch))%nat ->
  rotate p (slots ch) = y :: t -> ring ch !! p = Some y.1 /\ opt ch !! p = Some y.2.
Proof.
  intros Hr Hp H. apply slots_lookup. rewrite <- surjective_pairing.
  apply (rotate_head _ _ _ t); [by rewrite slots_length | exact H].
Qed.

Lemma rem_next p n : (p < n)%nat -> Z.rem (Z.of_nat p + 1) (Z.of_nat n) = Z.of_nat (next p n).
Proof.
  intros H. rewrite Z.rem_mod_nonneg by lia. unfold next. case_decide.
  - replace (Z.of_nat p + 1) with (Z.of_nat n) by lia. rewrite Z.mod_same; lia.
  - rewrite Z.mod_small; lia.
Qed.
Lemma next_add p k n : (p < n)%nat -> rotate_nat_add (next p n) k n = rotate_nat_add p (S k) n.
Proof.
  intros H. unfold rotate_nat_add. f_equal. unfold next. case_decide as Hc.
  - replace (Z.of_nat p + Z.of_nat (S k)) with (Z.of_nat k + 1 * Z.of_nat n) by lia.
    rewrite Z.mod_add by lia. f_equal; lia.
  - f_equal; lia.
Qed.

Section Write.
Context (va : Z -> Z) (burst : Z) (s : dma) (c : nat) (Hc : (c < length (dma_chan s))%nat).

(** The loop frees the packets sent, in order, and ends. *)
Lemma reclaim_run done : forall fuel ch a f p D rest,
  (length done < fuel)%nat -> ring_ok ch -> (p < length (ring ch))%nat -> prev_desc ch = Z.of_nat p ->
  rotate p (slots ch) = (D ++ rest)%list -> Forall2 (sent burst) D done ->
  (forall y, hd_error rest = Some y -> completed y.1 = false) ->
  exists p' r Z, let ch' := set_pos (curr_desc ch) (Z.of_nat p') (set_ring r ch) in
    reclaim va fuel c (on c ch a f s) = Some (tt, on c ch' a (f ++ (freed_as va burst <$> done)) s) /\
    ring_ok ch' /\ length r = length (ring ch) /\ (p' < length r)%nat /\
    rotate p' (slots ch') = (rest ++ Z)%list /\ Forall idle Z /\
    rotate_nat_add p (length done) (length (ring ch)) = p'.
Proof.
  induction done as [|x done IH]; intros fuel ch a f p D rest Hfuel Hr Hp Hprev Hrot HD Hhd.
  - apply Forall2_nil_inv_r in HD as ->. destruct fuel as [|fuel]; [cbn in Hfuel; lia|].
    exists p, (ring ch), []. cbn zeta.
    assert (Hch : set_pos (curr_desc ch) (Z.of_nat p) (set_ring (ring ch) ch) = ch).
    { destruct ch; cbn in *. by subst. }
    rewrite Hch. cbn in Hrot. rewrite app_nil_r. split_and!; [|done|done|done| by rewrite app_nil_r | done |].
    + destruct rest as [|y rest].
      { apply (f_equal length) in Hrot. rewrite length_rotate, slots_length in Hrot by done. cbn in Hrot. lia. }
      destruct (head_slot _ _ _ _ Hr Hp Hrot) as [Hy _]. cbn [reclaim].
      step (on_chan s c Hc ch a f). rewrite Hprev. step (on_get_desc s c Hc ch a f p y.1 Hy).
      by rewrite Hhd.
    + by apply rotate_nat_add_0.
  - apply Forall2_cons_inv_r in HD as (y & D' & (Hcomp & Hptr & Hopt) & HD & ->).
    destruct fuel as [|fuel]; [cbn in Hfuel; lia|]. cbn [app] in Hrot.
    destruct (head_slot _ _ _ _ Hr Hp Hrot) as [Hy Ho]. cbn [reclaim].
    set (ch1 := set_pos (curr_desc ch) (Z.of_nat (next p (length (ring ch))))
                  (set_ring (<[p := zero_desc]> (ring ch)) ch)).
    assert (Hlen : length (ring ch1) = length (ring ch)) by (cbn; by rewrite length_insert).
    assert (Hr1 : ring_ok ch1).
    { destruct Hr as [Hl Hop]. split; cbn; rewrite length_insert; done. }
    assert (Hrot1 : rotate (next p (length (ring ch))) (slots ch1) = ((D' ++ rest) ++ [(zero_desc, y.2)])%list).
    { assert (Hs1 : slots ch1 = <[p := (zero_desc, y.2)]> (slots ch)) by (by apply slots_put_desc).
      rewrite Hs1. replace (length (ring ch)) with (length (<[p := (zero_desc, y.2)]> (slots ch)))
        by (by rewrite length_insert, slots_length).
      apply rotate_next; [by rewrite length_insert, slots_length|].
      apply (rotate_insert_head _ _ y); [by rewrite slots_length | done]. }
    destruct (IH fuel ch1 a (f ++ [freed_as va burst x])%list (next p (length (ring ch))) D'
      (rest ++ [(zero_desc, y.2)])%list) as (p' & r & Zs & Hrun & Hr' & Hlr & Hp' & Hrot' & HZ & Hpp);
      [cbn in Hfuel; lia | done | by rewrite Hlen; apply next_lt | done | by rewrite Hrot1, (assoc_L app) | done | |].
    { intros z. destruct rest as [|z' rest]; cbn; [by intros [= <-] | by apply Hhd]. }
    exists p', r, ([(zero_desc, y.2)] ++ Zs)%list. cbn zeta in *. rewrite Hlen in *.
    split_and!; [|done|done|done| by etrans; [exact Hrot'|]; rewrite (assoc_L app) | by constructor; [apply idle_zero|] |].
    + step (on_chan s c Hc ch a f). rewrite Hprev. step (on_get_desc s c Hc ch a f p y.1 Hy).
      rewrite Hcomp. step (on_get_opt s c Hc ch a f p y.2 Ho). step (on_free s c ch a f (va (Data_Pointer y.1)) y.2).
      step (on_put_desc s c Hc ch a (f ++ [(va (Data_Pointer y.1), y.2)]) p y.1 zero_desc Hy).
      step (on_upd s c (set_ring (<[p := zero_desc]> (ring ch)) ch) a (f ++ [(va (Data_Pointer y.1), y.2)])
        (fun ch => set_pos (curr_desc ch) (Z.rem (prev_desc ch + 1) (desc_len ch)) ch)).
      cbn [curr_desc prev_desc desc_len set_ring]. rewrite Hprev, (ring_len_ok _ Hr), rem_next by done.
      unfold freed_as in Hrun. rewrite <- Hptr, <- Hopt in Hrun. fold ch1. etrans; [exact Hrun|].
      cbn. unfold freed_as. by rewrite <- (assoc_L app), Hptr, Hopt.
    + cbn [length]. by rewrite <- next_add.
Qed.
End Write.

(** ** Programs that leave the channels, the devices and the buffers as they are *)
Record same (s s' : dma) : Prop := {
  same_chans : dma_chan s' = dma_chan s;
  same_devs : dma_devs s' = dma_devs s;
  same_freed : freed s' = freed s;
  same_allocs : allocs s' = allocs s;
  same_regs : length (chan_regs s') = length (chan_regs s) }.
#[export] Instance same_preorder : PreOrder same.
Proof.
  split; [by intros s; split|]. intros s1 s2 s3 [] []. split; congruence.
Qed.
Definition quiet {A} (m : M A) : Prop := forall s, exists x s', m s = Some (x, s') /\ same s s'.

Lemma open_chan_quiet s c : (c < length (dma_chan s))%nat -> (c < length (chan_regs s))%nat ->
  exists x s', open_chan c s = Some (x, s') /\ same s s'.
Proof.
  intros Hc Hg. destruct (lookup_lt_is_Some_2 _ _ Hc) as [ch Hch].
  destruct (lookup_lt_is_Some_2 _ _ Hg) as [r Hr].
  unfold open_chan, enable_ch_irq, CCTRL_or, IRNEN_or, rd, wr_CCTRL, wr_CIE, wr, wr_IRNEN, sel,
    enable_danube_irq, chan, get, put, bind, deref, at_index, ret, If. cbn. rewrite Hch. cbn.
  rewrite (proj2 (Z.ltb_ge (Z.of_nat c) 0)) by lia. rewrite Nat2Z.id, Hr. cbn.
  destruct (dir ch =? DANUBE_DMA_RX); cbn; [rewrite Hch; cbn|]; do 2 eexists; (split; [reflexivity|]);
    split; cbn; rewrite ?Nat2Z.id, ?length_alter; done.
Qed.

(** The controller is set going: the end of dma_device_write. *)
Lemma kick_quiet (len : Z) s c : (c < length (dma_chan s))%nat -> (c < length (chan_regs s))%nat ->
  exists s', (sel c;;; tmp <- rd CCTRL;; If (negb (Z.testbit tmp 0)) (open_chan c;;; ret tt);;; ret len)%dma s
    = Some (len, s') /\ same s s'.
Proof.
  intros Hc Hg. destruct (lookup_lt_is_Some_2 _ _ Hg) as [r Hr].
  unfold bind at 1, sel, put.
  set (s1 := set_regs (chan_regs s) (Z.of_nat c) (IRNEN s) s).
  assert (Hrd : rd CCTRL s1 = Some (CCTRL r, s1)).
  { unfold rd, get, bind, deref, at_index, ret. cbn. rewrite (proj2 (Z.ltb_ge (Z.of_nat c) 0)) by lia.
    by rewrite Nat2Z.id, Hr. }
  step Hrd. destruct (open_chan_quiet s1 c) as (x & s2 & Hopen & Hsame); [done | done |].
  assert (Hs1 : same s s1) by by split.
  destruct (negb _); cbn; unfold bind; [rewrite Hopen; cbn|]; eexists; (split; [reflexivity|]);
    [by etrans | done].
Qed.

(** ** The slot that is written *)
Lemma next_rotate p k n : (p < n)%nat -> next (rotate_nat_add p k n) n = rotate_nat_add p (S k) n.
Proof.
  intros H. rewrite rotate_nat_add_S by lia. pose proof (rotate_nat_add_lt p k n ltac:(lia)).
  unfold next. case_decide as Hc; [by rewrite Hc, Nat.Div0.mod_same | rewrite Nat.mod_small; lia].
Qed.
Lemma rep_length burst ch dn pend p : tx_rep burst ch dn pend p ->
  (length dn + length pend <= length (ring ch))%nat.
Proof.
  intros [Hr _ _ _ (D & P & R & Hrot & HD & HP & _)]. apply (f_equal length) in Hrot.
  rewrite length_rotate, slots_length, !length_app in Hrot by done.
  apply Forall2_length in HD, HP. lia.
Qed.
Lemma rep_slot burst ch pend p : tx_rep burst ch [] pend p -> (length pend < length (ring ch))%nat ->
  exists y P R, slots ch !! rotate_nat_add p (length pend) (length (ring ch)) = Some y /\
    rotate p (slots ch) = (P ++ y :: R)%list /\ Forall2 (waits burst) P pend /\ idle y /\ Forall idle R.
Proof.
  intros [Hr _ _ _ (D & P & R & Hrot & HD & HP & HR)] Hlt. apply Forall2_nil_inv_r in HD as ->.
  pose proof (Forall2_length _ _ _ HP) as HlP. cbn in Hrot. destruct R as [|y R].
  { apply (f_equal length) in Hrot. rewrite length_rotate, slots_length, length_app in Hrot by done.
    cbn in Hrot. lia. }
  apply Forall_cons in HR as [Hy HR]. exists y, P, R. split_and!; try done.
  rewrite <- (slots_length ch), <- lookup_rotate_r by (done || by rewrite slots_length).
  rewrite Hrot, lookup_app_r by lia. by replace (length pend - length P)%nat with 0%nat by lia.
Qed.
Lemma tx_rep_full burst ch pend p : tx_rep burst ch [] pend p -> length pend = length (ring ch) ->
  exists y, ring ch !! p = Some y /\ curr_desc ch = Z.of_nat p /\ OWN y = DMA_OWN.
Proof.
  intros [Hr Hp _ Hcur (D & P & R & Hrot & HD & HP & HR)] Hl. apply Forall2_nil_inv_r in HD as ->.
  destruct HP as [|y x P pend Hw HP]; [cbn in Hl; lia|]. cbn [app] in Hrot.
  exists y.1. split; [exact (proj1 (head_slot _ _ _ _ Hr Hp Hrot))|]. split; [|apply Hw].
  rewrite Hcur. cbn [length] in *. rewrite Nat.add_0_l, Hl.
  unfold rotate_nat_add. rewrite Z.add_mod, Z.mod_same, Z.add_0_r, Z.mod_mod, Z.mod_small by lia. lia.
Qed.

(** The descriptor of a packet. *)
Definition filled (burst : Z) (x : packet) : desc :=
  mk_desc (tx_word (p_addr x mod burst) (p_len x)) (p_start burst x).
Definition fits (burst : Z) (x : packet) : Prop := 0 <= p_len x < 2 ^ 16 /\ 0 < burst <= 32.
Lemma filled_waits burst x : fits burst x -> waits burst (filled burst x, p_opt x) x.
Proof.
  intros [Hl Hb]. pose proof (Z.mod_pos_bound (p_addr x) burst ltac:(lia)).
  destruct (tx_word_fields (p_addr x mod burst) (p_len x) ltac:(lia) ltac:(lia) (p_start burst x))
    as (Ho & Hoff & Hlen).
  unfold waits, filled. cbn [fst snd Data_Pointer]. split_and!; try done.
  rewrite Hoff. unfold p_start. lia.
Qed.

Definition enqueue (burst : Z) (k : nat) (x : packet) (ch : channel) : channel :=
  set_pos (Z.of_nat (next k (length (ring ch)))) (prev_desc ch)
    (set_opt (<[k := p_opt x]> (opt ch)) (set_ring (<[k := filled burst x]> (ring ch)) ch)).
Lemma enqueue_rep burst ch pend p x : tx_rep burst ch [] pend p ->
  (length pend < length (ring ch))%nat -> fits burst x ->
  tx_rep burst (enqueue burst (rotate_nat_add p (length pend) (length (ring ch))) x ch) [] (pend ++ [x]) p.
Proof.
  intros H Hlt Hf. destruct (rep_slot _ _ _ _ H Hlt) as (y & P & R & Hy & Hrot & HP & _ & HR).
  pose proof (rotate_nat_add_lt p (length pend) (length (ring ch)) ltac:(lia)) as Hk.
  destruct H as [Hr Hp Hprev Hcur _]. split; cbn.
  - destruct Hr as [Hl Ho]. split; cbn; rewrite !length_insert; done.
  - by rewrite length_insert.
  - done.
  - rewrite length_insert, next_rotate, length_app by done. do 3 f_equal. cbn. lia.
  - exists [], (P ++ [(filled burst x, p_opt x)])%list, R. split_and!; [|done| |done].
    + etrans; [apply f_equal, slots_insert|].
      rewrite <- (slots_length ch), rotate_insert_l by (done || by rewrite slots_length).
      rewrite Hrot. cbn. rewrite <- (assoc_L app). rewrite insert_app_r_alt by (apply Forall2_length in HP; lia).
      apply Forall2_length in HP. replace (length pend - length P)%nat with 0%nat by lia. done.
    + apply Forall2_app; [done|]. constructor; [by apply filled_waits | done].
Qed.

(** ** dma_device_write *)

(** Device [d] of the state sends through channel [c]. *)
Record sends_through (d : nat) (v : device) (c : nat) (s : dma) : Prop := {
  st_dev : dma_devs s !! d = Some v;
  st_chan : at_index (tx_chan v) (current_tx_chan v) = Some (Some c);
  st_handler : intr_handler v = true;
  st_lt : (c < length (dma_chan s))%nat;
  st_regs : (c < length (chan_regs s))%nat }.

(** The channels and buffers of [s'] are those of [s] with channel [c] replaced and
    the buffers [f] freed. *)
Record changed (c : nat) (ch : channel) (f : list (Z * Z)) (s s' : dma) : Prop := {
  ch_chans : dma_chan s' = <[c := ch]> (dma_chan s);
  ch_devs : dma_devs s' = dma_devs s;
  ch_freed : freed s' = (freed s ++ f)%list;
  ch_allocs : allocs s' = allocs s;
  ch_regs : length (chan_regs s') = length (chan_regs s) }.
Lemma on_changed c ch f s : changed c ch f s (on c ch (allocs s) (freed s ++ f) s).
Proof. by split. Qed.
Lemma changed_same c ch f s s1 s2 : changed c ch f s s1 -> same s1 s2 -> changed c ch f s s2.
Proof. intros [] []. split; congruence. Qed.

Section Queue.
Context (CPHYSADDR va : Z -> Z) (client : nat -> Z -> M unit).
Context (d : nat) (v : device) (c : nat).
Let burst := tx_burst_len v * 4.
Context (Hquiet : quiet (client d TX_BUF_FULL_INT)).

Lemma handler_quiet s : dma_devs s !! d = Some v -> intr_handler v = true ->
  exists s', call_handler client d TX_BUF_FULL_INT s = Some (tt, s') /\ same s s'.
Proof.
  intros Hv Hh. destruct (Hquiet s) as ([] & s' & Hs & Hsame). exists s'. split; [|done].
  unfold call_handler, dev, get, bind, deref, ret. by rewrite Hv, Hh.
Qed.

(** The end of dma_device_write: the client may be told that the ring is full. *)
Lemma write_end len ch a f s i y : sends_through d v c s ->
  curr_desc ch = Z.of_nat i -> ring ch !! i = Some y ->
  exists s', (ch <- chan c;; tx_desc_p <- get_desc c (curr_desc ch);;
    If (OWN tx_desc_p =? DMA_OWN) (call_handler client d TX_BUF_FULL_INT);;;
    sel c;;; tmp <- rd CCTRL;; If (negb (Z.testbit tmp 0)) (open_chan c;;; ret tt);;; ret len : M Z)%dma
      (on c ch a f s)
    = Some (len, s') /\ same (on c ch a f s) s'.
Proof.
  intros [Hv _ Hh Hc Hg] Hi Hy. step (on_chan s c Hc ch a f). rewrite Hi.
  step (on_get_desc s c Hc ch a f i y Hy).
  assert (H1 : exists s1, If (OWN y =? DMA_OWN) (call_handler client d TX_BUF_FULL_INT) (on c ch a f s)
    = Some (tt, s1) /\ same (on c ch a f s) s1).
  { destruct (OWN y =? DMA_OWN); [by apply handler_quiet | by eexists]. }
  destruct H1 as (s1 & H1 & Hs1). step H1.
  destruct (kick_quiet len s1 c) as (s2 & H2 & Hs2).
  - rewrite (same_chans _ _ Hs1). cbn. by rewrite length_insert.
  - by rewrite (same_regs _ _ Hs1).
  - exists s2. split; [exact H2 | by etrans].
Qed.

Lemma reclaim_rep s ch dn pend p : (c < length (dma_chan s))%nat -> dma_chan s !! c = Some ch ->
  tx_rep burst ch dn pend p ->
  exists ch1 p', length (ring ch1) = length (ring ch) /\ tx_rep burst ch1 [] pend p' /\
    reclaim va (reclaim_fuel ch) c s =
      Some (tt, on c ch1 (allocs s) (freed s ++ (freed_as va burst <$> dn)) s).
Proof.
  intros Hc Hch Hrep. pose proof (rep_length _ _ _ _ _ Hrep) as Hlen.
  pose proof Hrep as [Hr Hp Hprev Hcur (D & P & R & Hrot & HD & HP & HR)].
  destruct (reclaim_run va burst s c Hc dn (reclaim_fuel ch) ch (allocs s) (freed s) p D (P ++ R))
    as (p' & r & Zs & Hrun & Hr' & Hlr & Hp' & Hrot' & HZ & Hpp); try done.
  { unfold reclaim_fuel. lia. }
  { intros y. destruct HP as [|y' x' P' pend' Hw HP]; cbn; [|intros [= <-]; by eapply waits_not_completed].
    destruct HR as [|y' R' Hi HR]; cbn; [done | intros [= <-]; by apply not_completed]. }
  rewrite on_id in Hrun by done. cbn zeta in *.
  set (ch1 := set_pos (curr_desc ch) (Z.of_nat p') (set_ring r ch)) in *.
  exists ch1, p'. split; [done|]. split; [|exact Hrun]. split; [done | done | done | |].
  - cbn. rewrite Hlr, Hcur, <- Hpp. f_equal. unfold rotate_nat_add. f_equal.
    rewrite Z2Nat.id by (apply Z.mod_pos; lia). rewrite Nat2Z.inj_add, Z.add_mod_idemp_l by lia. f_equal. lia.
  - exists [], P, (R ++ Zs)%list.
    split_and!; [by etrans; [exact Hrot'|]; rewrite <- (assoc_L app) | done | done | by apply Forall_app].
Qed.

(** The run of dma_device_write. *)
Lemma write_run s ch dn pend p x dataptr :
  sends_through d v c s -> dma_chan s !! c = Some ch -> tx_rep burst ch dn pend p ->
  fits burst x -> CPHYSADDR dataptr = p_addr x ->
  exists s' ch' p', changed c ch' (freed_as va burst <$> dn) s s' /\
    if decide (length pend = length (ring ch))
    then dma_device_write CPHYSADDR va client d dataptr (p_len x) (p_opt x) s = Some (0, s') /\
         tx_rep burst ch' [] pend p'
    else dma_device_write CPHYSADDR va client d dataptr (p_len x) (p_opt x) s = Some (p_len x, s') /\
         tx_rep burst ch' [] (pend ++ [x]) p'.
Proof.
  intros Hst Hch Hrep Hfit Haddr. pose proof Hst as [Hv Hat Hh Hc Hg].
  pose proof (rep_length _ _ _ _ _ Hrep) as Hlen.
  destruct (reclaim_rep s ch dn pend p Hc Hch Hrep) as (ch1 & p' & Hlen1 & Hrep1 & Hrun).
  set (f1 := (freed s ++ (freed_as va burst <$> dn))%list) in *.
  pose proof (tx_curr _ _ _ _ _ Hrep1) as Hcur1. cbn [length Nat.add] in Hcur1.
  unfold dma_device_write. cbv beta.
  step (ltac:(unfold dev, get, bind, deref, ret; by rewrite Hv) : dev d s = Some (v, s)).
  step (ltac:(unfold chan_at, bind, deref, ret; by rewrite Hat) :
    chan_at (tx_chan v) (current_tx_chan v) s = Some (c, s)).
  step (ltac:(unfold chan, get, bind, deref, ret; by rewrite Hch) : chan c s = Some (ch, s)).
  step Hrun. step (on_chan s c Hc ch1 (allocs s) f1).
  case_decide as Hfull.
  - destruct (tx_rep_full _ _ _ _ Hrep1) as (y & Hy & Hcy & Ho); [by rewrite Hlen1|].
    rewrite Hcy. step (on_get_desc s c Hc ch1 (allocs s) f1 p' y Hy). rewrite Ho, Z.eqb_refl. cbn [orb].
    destruct (handler_quiet (on c ch1 (allocs s) f1 s)) as (s' & Hcall & Hsame); [done | done |].
    exists s', ch1, p'. split; [by eapply changed_same; [apply on_changed|]|]. by step Hcall.
  - destruct (rep_slot _ _ _ _ Hrep1) as (y & _ & _ & Hy & _ & _ & [Ho HC] & _); [lia|].
    destruct y as [y o]. apply slots_lookup in Hy as [Hy Hopt].
    pose proof (enqueue_rep _ _ _ _ x Hrep1 ltac:(lia) Hfit) as Hrep2.
    set (k := rotate_nat_add p' (length pend) (length (ring ch1))) in *. rewrite Hcur1.
    step (on_get_desc s c Hc ch1 (allocs s) f1 k y Hy). cbn [fst] in Ho, HC. rewrite Ho, HC.
    change ((CPU_OWN =? DMA_OWN) || nz 0) with false. cbv iota.
    step (on_put_opt s c Hc ch1 (allocs s) f1 k o (p_opt x) Hopt).
    rewrite (proj2 (Z.eqb_neq _ _)) by (fold burst; destruct Hfit; lia).
    fold burst.
    set (ch2 := set_opt (<[k := p_opt x]> (opt ch1)) ch1).
    unfold bind at 1, ret at 1. cbv iota beta.
    rewrite Haddr. fold (p_start burst x). fold (filled burst x).
    step (on_put_desc s c Hc ch2 (allocs s) f1 k y (filled burst x) Hy).
    set (ch3 := set_ring _ _). step (on_upd s c ch3 (allocs s) f1 (fun ch => set_pos (next_curr ch) (prev_desc ch) ch)).
    assert (Hk : (k < length (ring ch1))%nat) by (by eapply lookup_lt_Some).
    assert (He : set_pos (next_curr ch3) (prev_desc ch3) ch3 = enqueue burst k x ch1).
    { unfold enqueue. f_equal. unfold next_curr. cbn. rewrite Hcur1, (ring_len_ok _ (tx_ring _ _ _ _ _ Hrep1)).
      unfold next. case_decide; destruct (_ =? _) eqn:E; bool_to_prop; lia. }
    rewrite He. destruct (lookup_lt_is_Some_2 (ring (enqueue burst k x ch1)) (next k (length (ring ch1))))
      as [y' Hy']; [cbn; rewrite length_insert; by apply next_lt|].
    destruct (write_end (p_len x) (enqueue burst k x ch1) (allocs s) f1 s (next k (length (ring ch1))) y')
      as (s' & Hend & Hsame); try done.
    exists s', (enqueue burst k x ch1), p'. split; [by eapply changed_same; [apply on_changed|]|]. by split.
Qed.

(** C14. dma_device_write is the operation of a bounded queue on the descriptors of the
    channel: it frees, in order, the packets the controller has sent, and then appends the
    packet and returns its length, or, exactly when every descriptor holds a packet still to
    be sent, returns 0 and changes nothing more. The loop that frees ends, wherever the
    positions have wrapped to. *)
Theorem write_queue s ch dn pend p x dataptr :
  sends_through d v c s -> dma_chan s !! c = Some ch -> tx_rep burst ch dn pend p ->
  fits burst x -> CPHYSADDR dataptr = p_addr x ->
  exists s' ch' p', changed c ch' (freed_as va burst <$> dn) s s' /\
    if decide (length pend = length (ring ch))
    then dma_device_write CPHYSADDR va client d dataptr (p_len x) (p_opt x) s = Some (0, s') /\
         tx_rep burst ch' [] pend p'
    else dma_device_write CPHYSADDR va client d dataptr (p_len x) (p_opt x) s = Some (p_len x, s') /\
         tx_rep burst ch' [] (pend ++ [x]) p'.
Proof. apply write_run. Qed.
End Queue.
