(* ===== verification/DmaTrace.v ===== *)
(** * DmaTrace: the transmit ring with the controller at work

    dma_device_write and the DMA controller take turns on the ring of a channel.
    The controller sends the descriptors it owns in the order of the ring and hands
    each back completed. *)
From S2P Require Import Prelude Dma DmaRing DmaTx.
Import Dma.

(** The controller sends a packet of channel [c]: the first descriptor from
    [prev_desc] on that is not completed, if the controller owns it; the buffer stays
    in the descriptor. *)
Inductive hw_sends (c : nat) (s : dma) : dma -> Prop :=
| hw_sends_intro ch k y y' :
    dma_chan s !! c = Some ch ->
    (k < length (ring ch))%nat ->
    let at_ j := rotate_nat_add (Z.to_nat (prev_desc ch)) j (length (ring ch)) in
    (forall j, (j < k)%nat -> exists z, ring ch !! at_ j = Some z /\ completed z = true) ->
    ring ch !! at_ k = Some y -> OWN y = DMA_OWN ->
    completed y' = true -> Data_Pointer y' = Data_Pointer y ->
    hw_sends c s (set_chans (<[c := set_ring (<[at_ k := y']> (ring ch)) ch]> (dma_chan s)) s).

Lemma completed_own y : completed y = true -> OWN y <> DMA_OWN.
Proof. unfold completed. intros H. bool_to_prop. unfold CPU_OWN, DMA_OWN in *. lia. Qed.

Lemma slot_ring ch p j y : ring_ok ch -> (j < length (ring ch))%nat ->
  rotate p (slots ch) !! j = Some y -> ring ch !! rotate_nat_add p j (length (ring ch)) = Some y.1 /\
    opt ch !! rotate_nat_add p j (length (ring ch)) = Some y.2.
Proof.
  intros Hr Hj H. rewrite lookup_rotate_r in H by (by rewrite slots_length).
  rewrite slots_length in H by done. destruct y. by apply slots_lookup in H.
Qed.

Section Trace.
Context (burst : Z).

(** The place of the descriptor the controller sends. *)
Lemma sends_place ch dn pend p k y : tx_rep burst ch dn pend p -> (k < length (ring ch))%nat ->
  (forall j, (j < k)%nat -> exists z,
     ring ch !! rotate_nat_add p j (length (ring ch)) = Some z /\ completed z = true) ->
  ring ch !! rotate_nat_add p k (length (ring ch)) = Some y -> OWN y = DMA_OWN ->
  k = length dn /\ exists x pend', pend = x :: pend'.
Proof.
  intros [Hr Hp _ _ (D & P & R & Hrot & HD & HP & HR)] Hk Hbefore Hy Hown.
  pose proof (Forall2_length _ _ _ HD) as HlD.
  assert (Hat : forall j w, (D ++ P ++ R)%list !! j = Some w ->
    ring ch !! rotate_nat_add p j (length (ring ch)) = Some w.1).
  { intros j w Hj. rewrite <- Hrot in Hj. eapply slot_ring; [done | | done].
    apply lookup_lt_Some in Hj. by rewrite length_rotate, slots_length in Hj. }
  assert (Hge : (length dn <= k)%nat).
  { apply Nat.le_ngt. intros Hlt. rewrite <- HlD in Hlt. destruct (lookup_lt_is_Some_2 D k Hlt) as [w Hw].
    rewrite (Hat k w) in Hy by (by apply lookup_app_l_Some). injection Hy as <-.
    destruct (Forall2_lookup_l _ _ _ _ _ HD Hw) as (x & _ & Hc & _). by apply (completed_own _ Hc). }
  destruct HP as [|w x P pend Hw HP].
  - exfalso. destruct (lookup_lt_is_Some_2 (D ++ [] ++ R)%list k) as [w Hw].
    { rewrite <- Hrot, length_rotate, slots_length; done. }
    rewrite (Hat k w Hw) in Hy. injection Hy as <-. rewrite lookup_app_r in Hw by lia.
    destruct (Forall_lookup_1 _ _ _ _ HR Hw) as [Ho _]. by rewrite Ho in Hown.
  - split; [|by do 2 eexists]. apply Nat.le_antisymm; [|done]. apply Nat.le_ngt. intros Hlt.
    destruct (Hbefore (length dn) Hlt) as (z & Hz & Hcz). rewrite (Hat (length dn) w) in Hz.
    + injection Hz as <-. by rewrite (waits_not_completed _ _ _ Hw) in Hcz.
    + rewrite lookup_app_r by lia. by replace (length dn - length D)%nat with 0%nat by lia.
Qed.

Lemma sends_rep s s' c ch dn pend p : (c < length (dma_chan s))%nat -> dma_chan s !! c = Some ch ->
  tx_rep burst ch dn pend p -> hw_sends c s s' ->
  exists x pend' ch', pend = x :: pend' /\ changed c ch' [] s s' /\ tx_rep burst ch' (dn ++ [x]) pend' p.
Proof.
  intros Hc Hch Hrep Hs. destruct Hs as [ch0 k y y' Hch0 Hk at_ Hbefore Hy Hown Hcomp Hptr].
  rewrite Hch in Hch0. injection Hch0 as <-. subst at_. cbn beta in *.
  rewrite (tx_prev _ _ _ _ _ Hrep), Nat2Z.id in *.
  destruct (sends_place ch dn pend p k y) as (-> & x & pend' & ->); try done.
  exists x, pend'. eexists. split; [done|]. split; [split; cbn; by rewrite ?app_nil_r|].
  destruct Hrep as [Hr Hp Hprev Hcur (D & P & R & Hrot & HD & HP & HR)].
  pose proof (Forall2_length _ _ _ HD) as HlD.
  apply Forall2_cons_inv_r in HP as (w & P' & (Hw1 & Hw2 & _ & _ & Hw3) & HP & ->).
  assert (Hat : ring ch !! rotate_nat_add p (length dn) (length (ring ch)) = Some w.1 /\
                opt ch !! rotate_nat_add p (length dn) (length (ring ch)) = Some w.2).
  { apply slot_ring; [done | done |]. rewrite Hrot, lookup_app_r by lia.
    by replace (length dn - length D)%nat with 0%nat by lia. }
  destruct Hat as [Hat Hopt]. rewrite Hat in Hy. injection Hy as <-.
  split; cbn; rewrite ?length_insert; [| done | done | |].
  - destruct Hr as [Hl Ho]. split; cbn; by rewrite length_insert.
  - rewrite Hcur, length_app. cbn. do 2 f_equal. lia.
  - exists (D ++ [(y', w.2)])%list, P', R. split_and!; [| |done|done].
    + etrans; [apply f_equal, (slots_put_desc ch _ y' w.2), Hopt|].
      rewrite <- (slots_length ch), rotate_insert_l by (done || by rewrite slots_length).
      rewrite Hrot, <- (assoc_L app), insert_app_r_alt by lia.
      by replace (length dn - length D)%nat with 0%nat by lia.
    + apply Forall2_app; [done|]. constructor; [|done]. split; [done|]. split; [etrans; [exact Hptr | done] | done].
Qed.
End Trace.

(** ** Traces *)
Inductive event := Wrote (x : packet) (r : Z) | Sent.
(** The packets taken by the driver: those whose length was returned. *)
Definition accepted (l : list event) : list packet :=
  omap (fun e => match e with Wrote x r => if r =? 0 then None else Some x | Sent => None end) l.
Definition sends (l : list event) : nat :=
  length (omap (fun e => match e with Sent => Some tt | _ => None end) l).
Definition written (l : list event) : list packet :=
  omap (fun e => match e with Wrote x _ => Some x | Sent => None end) l.

Section Events.
Context (CPHYSADDR va : Z -> Z) (client : nat -> Z -> M unit) (d c : nat).
Inductive tx_step (s : dma) : event -> dma -> Prop :=
| step_write x dataptr r s' : CPHYSADDR dataptr = p_addr x ->
    dma_device_write CPHYSADDR va client d dataptr (p_len x) (p_opt x) s = Some (r, s') ->
    tx_step s (Wrote x r) s'
| step_sent s' : hw_sends c s s' -> tx_step s Sent s'.
Inductive tx_trace : dma -> list event -> dma -> Prop :=
| trace_nil s : tx_trace s [] s
| trace_cons s e s1 l s2 : tx_step s e s1 -> tx_trace s1 l s2 -> tx_trace s (e :: l) s2.

(** A step frees packets of those sent, keeps the others in order, and ends in a state
    of the same kind. *)
Lemma tx_step_rep v s e s1 ch dn pend p :
  quiet (client d TX_BUF_FULL_INT) -> let burst := tx_burst_len v * 4 in
  sends_through d v c s -> dma_chan s !! c = Some ch -> tx_rep burst ch dn pend p ->
  tx_step s e s1 -> Forall (fun x => fits burst x /\ 0 < p_len x) (written [e]) ->
  exists f dn' pend' ch1 p1, changed c ch1 (freed_as va burst <$> f) s s1 /\
    tx_rep burst ch1 dn' pend' p1 /\
    (f ++ dn' ++ pend' = dn ++ pend ++ accepted [e])%list /\
    (length f + length dn' = length dn + sends [e])%nat.
Proof.
  intros Hq burst Hst Hch Hrep Hstep Hfit. destruct Hstep as [x dataptr r s1 Haddr Hrun | s1 Hs].
  - apply Forall_cons in Hfit as [[Hfit Hlen] _].
    destruct (write_run CPHYSADDR va client d v c Hq s ch dn pend p x dataptr)
      as (s' & ch' & p' & Hchg & Hres); try done.
    exists dn, [], (pend ++ accepted [Wrote x r])%list, ch', p'.
    case_decide; destruct Hres as [Hw Hrep']; rewrite Hrun in Hw; injection Hw as -> ->; cbn.
    + rewrite !app_nil_r. split_and!; try done; cbn; lia.
    + rewrite (proj2 (Z.eqb_neq _ _)) by lia. cbn. split_and!; try done; cbn; lia.
  - destruct (sends_rep burst s s1 c ch dn pend p) as (x & pend' & ch' & -> & Hchg & Hrep');
      [apply Hst | done | done | done |].
    exists [], (dn ++ [x])%list, pend', ch', p. cbn. rewrite !app_nil_r, <- (assoc_L app), length_app.
    split_and!; done.
Qed.
End Events.

Lemma sends_through_changed d v c ch f s s' :
  sends_through d v c s -> changed c ch f s s' -> sends_through d v c s'.
Proof.
  intros [] []. split; [congruence | done | done | | congruence].
  by rewrite ch_chans, length_insert.
Qed.
Lemma changed_lookup c ch f s s' :
  (c < length (dma_chan s))%nat -> changed c ch f s s' -> dma_chan s' !! c = Some ch.
Proof. intros Hc []. by rewrite ch_chans, list_lookup_insert_eq. Qed.
Lemma accepted_cons e l : accepted (e :: l) = (accepted [e] ++ accepted l)%list.
Proof. unfold accepted. by rewrite <- omap_app. Qed.
Lemma sends_cons e l : sends (e :: l) = (sends [e] + sends l)%nat.
Proof. unfold sends. rewrite <- length_app, <- omap_app. done. Qed.
Lemma written_cons e l : written (e :: l) = (written [e] ++ written l)%list.
Proof. unfold written. by rewrite <- omap_app. Qed.

Lemma tx_trace_rep CPHYSADDR va client d v c s l s' :
  quiet (client d TX_BUF_FULL_INT) -> let burst := tx_burst_len v * 4 in
  tx_trace CPHYSADDR va client d c s l s' ->
  forall ch dn pend p, sends_through d v c s -> dma_chan s !! c = Some ch -> tx_rep burst ch dn pend p ->
  Forall (fun x => fits burst x /\ 0 < p_len x) (written l) ->
  exists f dn' pend' ch' p', freed s' = (freed s ++ (freed_as va burst <$> f))%list /\
    dma_chan s' !! c = Some ch' /\ tx_rep burst ch' dn' pend' p' /\
    (f ++ dn' ++ pend' = dn ++ pend ++ accepted l)%list /\
    (length f + length dn' = length dn + sends l)%nat.
Proof.
  intros Hq burst. induction 1 as [s | s e s1 l s2 Hstep Htr IH]; intros ch dn pend p Hst Hch Hrep Hfit.
  - exists [], dn, pend, ch, p. cbn. rewrite !app_nil_r. split_and!; done.
  - rewrite written_cons in Hfit. apply Forall_app in Hfit as [Hf1 Hf2].
    destruct (tx_step_rep CPHYSADDR va client d c v s e s1 ch dn pend p)
      as (f & dn1 & pend1 & ch1 & p1 & Hchg & Hrep1 & Heq & Hn); try done.
    destruct (IH ch1 dn1 pend1 p1) as (f2 & dn2 & pend2 & ch2 & p2 & Hfr & Hch2 & Hrep2 & Heq2 & Hn2);
      [by eapply sends_through_changed | eapply changed_lookup; [apply Hst | done] | done | done |].
    exists (f ++ f2)%list, dn2, pend2, ch2, p2. rewrite Hfr, (ch_freed _ _ _ _ _ Hchg).
    split_and!; [by rewrite fmap_app, (assoc_L app) | done | done | |].
    + rewrite accepted_cons, <- (assoc_L app), Heq2, !(assoc_L app), <- (assoc_L app f), Heq, !(assoc_L app). done.
    + rewrite length_app, (sends_cons e l). lia.
Qed.

(** A channel that has sent and holds nothing. *)
Record drained (ch : channel) : Prop := {
  dr_ring : ring_ok ch; dr_zero : ring ch = replicate (length (ring ch)) zero_desc;
  dr_some : (0 < length (ring ch))%nat; dr_pos : curr_desc ch = 0 /\ prev_desc ch = 0 }.
Lemma drained_rep burst ch : drained ch -> tx_rep burst ch [] [] 0.
Proof.
  intros [Hr Hz Hn [Hcur Hprev]]. split; [done | done | done | |].
  - rewrite Hcur, rotate_nat_add_0; done.
  - exists [], [], (rotate 0 (slots ch)). split_and!; [done | done | done |].
    rewrite rotate_small by (by rewrite slots_length). cbn. rewrite app_nil_r. apply Forall_lookup. intros i [y o] Hi. apply slots_lookup in Hi as [Hi _].
    rewrite Hz in Hi. apply lookup_replicate in Hi as [-> _]. apply idle_zero.
Qed.

(** C15. While the client writes packets and the controller sends them, in any order, the
    buffers given back are those of the packets accepted, in the order they were accepted:
    none is freed twice, none before its packet has been sent, and the packets still in the
    ring are the rest. *)
Theorem buffers_returned CPHYSADDR va client d v c s ch l s' :
  quiet (client d TX_BUF_FULL_INT) -> sends_through d v c s -> dma_chan s !! c = Some ch ->
  drained ch -> freed s = [] ->
  Forall (fun x => fits (tx_burst_len v * 4) x /\ 0 < p_len x) (written l) ->
  tx_trace CPHYSADDR va client d c s l s' ->
  exists n ch' dn pend p, freed s' = freed_as va (tx_burst_len v * 4) <$> take n (accepted l) /\
    (n + length dn = sends l)%nat /\ (dn ++ pend)%list = drop n (accepted l) /\
    dma_chan s' !! c = Some ch' /\ tx_rep (tx_burst_len v * 4) ch' dn pend p.
Proof.
  intros Hq Hst Hch Hdr Hfr Hfit Htr.
  destruct (tx_trace_rep _ _ _ _ _ _ _ _ _ Hq Htr ch [] [] 0%nat Hst Hch (drained_rep _ _ Hdr) Hfit)
    as (f & dn & pend & ch' & p & Hfreed & Hch' & Hrep & Heq & Hn).
  exists (length f), ch', dn, pend, p. cbn in Heq, Hn. rewrite Hfreed, Hfr, <- Heq.
  split_and!; [by rewrite take_app_length | done | by rewrite drop_app_length | done | done].
Qed.

(** ** An instance: a device with one channel each way, rings of [n] descriptors *)
Definition ex_chan (direction : Z) (n : nat) : channel :=
  mk_channel 0 0 0 direction 0 0 (Z.of_nat n) 0 0 100 100 256 DANUBE_DMA_CH_ON
    (replicate n 0) (Some 0%nat) (replicate n zero_desc).
Definition ex_device : device :=
  mk_device "PPE" 1 4 4 0 0 1 1 1 1 [Some 1%nat] [Some 0%nat] true.
Definition ex_dma (n : nat) (a : list (option (Z * Z * Z))) : dma :=
  mk_dma [ex_chan DANUBE_DMA_RX n; ex_chan DANUBE_DMA_TX n] [ex_device] 0 0 false
    (replicate 2 (mk_regs 0 0 0 0 0 0)) 0 0 0 0 [] 0 ∅ a [] [].
Definition ex_client (d : nat) (status : Z) : M unit := ret tt.
Lemma ex_quiet d status : quiet (ex_client d status).
Proof. intros s. by exists tt, s. Qed.
Lemma ex_sends n a : sends_through 0 ex_device 1 (ex_dma n a).
Proof. split; cbn; try done; lia. Qed.
Lemma ex_drained n : (0 < n)%nat -> drained (ex_chan DANUBE_DMA_TX n).
Proof. intros H. split; [split | | |]; cbn; rewrite ?length_replicate; done. Qed.

Definition pkt (i : Z) : packet := mk_packet (4096 * i + 3) 60 i.
Definition ex_events : list event :=
  [Wrote (pkt 1) 60; Wrote (pkt 2) 60; Wrote (pkt 3) 0; Sent; Wrote (pkt 3) 60; Sent].

(** A run of the events by computation: the controller sends the first descriptor
    from [prev_desc] on, with the word that hands it back. *)
Definition ex_send (c : nat) (s : dma) : option dma :=
  match dma_chan s !! c with
  | Some ch =>
      let i := rotate_nat_add (Z.to_nat (prev_desc ch)) 0 (length (ring ch)) in
      match ring ch !! i with
      | Some y =>
          if (OWN y =? DMA_OWN) && (0 <? Z.of_nat (length (ring ch))) then
            Some (set_chans (<[c := set_ring (<[i := mk_desc (2 ^ 30) (Data_Pointer y)]> (ring ch)) ch]> (dma_chan s)) s)
          else None
      | None => None
      end
  | None => None
  end.
Lemma ex_send_sends c s s' : ex_send c s = Some s' -> hw_sends c s s'.
Proof.
  unfold ex_send. intros H. repeat case_match; try done. injection H as <-. bool_to_prop.
  eapply (hw_sends_intro c s _ 0); try done; lia.
Qed.
Fixpoint ex_run (l : list event) (s : dma) : option dma :=
  match l with
  | [] => Some s
  | Wrote x r :: l' =>
      match dma_device_write id id ex_client 0 (p_addr x) (p_len x) (p_opt x) s with
      | Some (r', s') => if r' =? r then ex_run l' s' else None
      | None => None
      end
  | Sent :: l' => match ex_send 1 s with Some s' => ex_run l' s' | None => None end
  end.
Lemma ex_run_trace l : forall s s', ex_run l s = Some s' -> tx_trace id id ex_client 0 1 s l s'.
Proof.
  induction l as [|[x r|] l IH]; cbn [ex_run]; intros s s' H.
  - injection H as <-. constructor.
  - destruct (dma_device_write _ _ _ _ _ _ _ _) as [[r' s1]|] eqn:E; [|done].
    destruct (r' =? r) eqn:Er; [|done]. bool_to_prop. subst. eapply trace_cons; [|by apply IH].
    by eapply step_write.
  - destruct (ex_send 1 s) as [s1|] eqn:E; [|done].
    eapply trace_cons; [apply step_sent; by apply ex_send_sends | by apply IH].
Qed.

(** The third packet is refused by a ring of two and accepted when one has been sent. *)
Example buffers_returned_witness :
  exists s', ex_run ex_events (ex_dma 2 []) = Some s' /\ freed s' = [(4096, 1)] /\
  exists n ch' dn pend p, freed s' = (freed_as id 16 <$> take n [pkt 1; pkt 2; pkt 3]) /\
    (n + length dn = 2)%nat /\ (dn ++ pend)%list = drop n [pkt 1; pkt 2; pkt 3] /\
    dma_chan s' !! 1%nat = Some ch' /\ tx_rep 16 ch' dn pend p.
Proof.
  assert (H : is_Some (ex_run ex_events (ex_dma 2 []))) by (vm_compute; by eexists).
  destruct (ex_run ex_events (ex_dma 2 [])) as [s'|] eqn:Hrun; [|by destruct H].
  exists s'. split; [done|]. split.
  { replace s' with (default s' (ex_run ex_events (ex_dma 2 []))) by (by rewrite Hrun).
    vm_compute. reflexivity. }
  apply (buffers_returned id id ex_client 0 ex_device 1 (ex_dma 2 []) (ex_chan DANUBE_DMA_TX 2) ex_events s').
  - apply ex_quiet.
  - apply ex_sends.
  - reflexivity.
  - apply ex_drained. lia.
  - reflexivity.
  - cbn. repeat (apply Forall_cons; split; [repeat split; cbn; lia|]). apply Forall_nil_2.
  - by apply ex_run_trace.
Defined.

Example write_queue_witness :
  exists s' ch' p', changed 1 ch' [] (ex_dma 2 []) s' /\
    dma_device_write id id ex_client 0 4099 60 1 (ex_dma 2 []) = Some (60, s') /\
    tx_rep 16 ch' [] [pkt 1] p'.
Proof.
  apply (write_queue id id ex_client 0 ex_device 1 (ex_quiet 0 TX_BUF_FULL_INT) (ex_dma 2 [])
    (ex_chan DANUBE_DMA_TX 2) [] [] 0 (pkt 1) 4099).
  - apply ex_sends.
  - reflexivity.
  - apply drained_rep, ex_drained. lia.
  - repeat split; cbn; lia.
  - reflexivity.
Defined.
