(* ===== verification/DmaRx.v ===== *)
(** * DmaRx: the receive side of the DMA driver

    dma_device_read against the controller: the ring of a receive channel is the queue
    of the frames received and not read, followed by the empty buffers. *)
From S2P Require Import Prelude Dma DmaRing DmaTx DmaTrace.
Import Dma.

(** A frame in a buffer: the physical address, the length, the optional pointer that
    came with the buffer. *)
Record frame := mk_frame { f_addr : Z; f_len : Z; f_opt : Z }.
(** What dma_device_read says of a frame. *)
Definition read_as (va : Z -> Z) (x : frame) : Z * option (Z * Z) :=
  (f_len x, Some (va (f_addr x), f_opt x)).

Definition holds (y : desc * Z) (x : frame) : Prop :=
  completed y.1 = true /\ Data_Pointer y.1 = f_addr x /\ data_length y.1 = f_len x /\ y.2 = f_opt x.
Definition owned (y : desc * Z) : Prop := OWN y.1 = DMA_OWN.

(** The ring holds the frames [got]; its other descriptors are the controller's. *)
Record rx_rep (ch : channel) (got : list frame) (p : nat) : Prop := {
  rx_ring : ring_ok ch;
  rx_pos : (p < length (ring ch))%nat;
  rx_curr : curr_desc ch = Z.of_nat p;
  rx_slots : exists G W, rotate p (slots ch) = (G ++ W)%list /\ Forall2 holds G got /\ Forall owned W }.

Lemma rx_word_owned off size p : OWN (mk_desc (rx_word off size) p) = DMA_OWN.
Proof.
  unfold OWN. cbn [word]. apply Z.bits_inj'. intros n Hn. rewrite field_testbit by lia.
  destruct (n <? 1) eqn:E; bool_to_prop.
  - replace n with 0 by lia. unfold rx_word. rewrite u32_testbit, !Z.lor_spec by lia. done.
  - cbn. symmetry. apply (small_testbit _ 1); unfold DMA_OWN; lia.
Qed.

(** Device [d] receives through channel [c]. *)
Record receives_through (d : nat) (v : device) (c : nat) (s : dma) : Prop := {
  rt_dev : dma_devs s !! d = Some v;
  rt_chan : at_index (rx_chan v) (current_rx_chan v) = Some (Some c);
  rt_lt : (c < length (dma_chan s))%nat }.
Lemma receives_through_on d v c ch a f s :
  receives_through d v c s -> receives_through d v c (on c ch a f s).
Proof. intros []. split; cbn; rewrite ?length_insert; done. Qed.
Lemma on_lookup c ch a f s : (c < length (dma_chan s))%nat -> dma_chan (on c ch a f s) !! c = Some ch.
Proof. intros H. by apply list_lookup_insert_eq. Qed.

Lemma next_curr_next ch p : ring_ok ch -> curr_desc ch = Z.of_nat p ->
  next_curr ch = Z.of_nat (next p (length (ring ch))).
Proof.
  intros Hr Hp. unfold next_curr, next. rewrite (ring_len_ok _ Hr), Hp.
  case_decide; destruct (_ =? _) eqn:E; bool_to_prop; lia.
Qed.

(** The channel after a read that puts [y'] in the slot that was read. *)
Definition advanced (p : nat) (y' : desc * Z) (ch : channel) : channel :=
  set_pos (Z.of_nat (next p (length (ring ch)))) (prev_desc ch)
    (set_opt (<[p := y'.2]> (opt ch)) (set_ring (<[p := y'.1]> (ring ch)) ch)).
Lemma advanced_view ch p y t y' : ring_ok ch -> (p < length (ring ch))%nat ->
  rotate p (slots ch) = y :: t ->
  ring_ok (advanced p y' ch) /\ length (ring (advanced p y' ch)) = length (ring ch) /\
  rotate (next p (length (ring ch))) (slots (advanced p y' ch)) = (t ++ [y'])%list.
Proof.
  intros Hr Hp Hrot. cbn. rewrite length_insert. split; [|split; [done|]].
  - destruct Hr. split; cbn; by rewrite !length_insert.
  - etrans; [apply f_equal; exact (slots_insert ch p y'.1 y'.2)|]. rewrite <- surjective_pairing.
    replace (length (ring ch)) with (length (<[p := y']> (slots ch))) by (by rewrite length_insert, slots_length).
    apply rotate_next; [by rewrite length_insert, slots_length|].
    apply (rotate_insert_head _ _ y); [by rewrite slots_length | done].
Qed.

Section Read.
Context (CPHYSADDR va : Z -> Z) (d : nat) (v : device) (c : nat).
#[local] Abbreviation read := (dma_device_read CPHYSADDR va d).

(** What a read of a completed descriptor leaves in its slot, and what it returns,
    when [buffer_alloc] returns [a]. *)
Definition refilled (ch : channel) (y : desc * Z) (a : option (Z * Z * Z)) : desc * Z :=
  match a with
  | Some (new, off, o) => (mk_desc (rx_word off (packet_size ch)) (CPHYSADDR new), o)
  | None => y
  end.
Definition read_result (x : frame) (a : option (Z * Z * Z)) : Z * option (Z * Z) :=
  match a with Some _ => read_as va x | None => (0, Some (0, 0)) end.

Lemma read_run s ch p y t x : receives_through d v c s -> dma_chan s !! c = Some ch ->
  ring_ok ch -> (p < length (ring ch))%nat -> curr_desc ch = Z.of_nat p ->
  rotate p (slots ch) = y :: t -> holds y x ->
  read s = Some (read_result x (default None (head (allocs s))),
    on c (advanced p (refilled ch y (default None (head (allocs s)))) ch) (tail (allocs s)) (freed s) s).
Proof.
  intros [Hv Hat Hc] Hch Hr Hp Hcur Hrot (Hcomp & Hptr & Hlen & Hopt).
  destruct (head_slot _ _ _ _ Hr Hp Hrot) as [Hy Ho].
  unfold dma_device_read.
  step (ltac:(unfold dev, get, bind, deref, ret; by rewrite Hv) : dev d s = Some (v, s)).
  step (ltac:(unfold chan_at, bind, deref, ret; by rewrite Hat) :
    chan_at (rx_chan v) (current_rx_chan v) s = Some (c, s)).
  rewrite <- (on_id c ch s Hch) at 1. step (on_chan s c Hc ch (allocs s) (freed s)). rewrite Hcur.
  step (on_get_desc s c Hc ch (allocs s) (freed s) p y.1 Hy). rewrite Hcomp. cbn [negb].
  step (on_get_opt s c Hc ch (allocs s) (freed s) p y.2 Ho).
  assert (Halloc : buffer_alloc (on c ch (allocs s) (freed s) s) =
    Some (default None (head (allocs s)), on c ch (tail (allocs s)) (freed s) s))
    by (by destruct (allocs s)).
  step Halloc. clear Halloc. generalize (default None (head (allocs s))) as a, (tail (allocs s)) as al.
  assert (Hadv : forall ch' al, ring_ok ch' -> length (ring ch') = length (ring ch) -> curr_desc ch' = Z.of_nat p ->
    advance_curr c (on c ch' al (freed s) s) = Some (tt, on c
      (set_pos (Z.of_nat (next p (length (ring ch)))) (prev_desc ch') ch') al (freed s) s)).
  { intros ch' al Hr' Hl' Hcur'. unfold advance_curr. rewrite (on_upd s c). do 3 f_equal. f_equal.
    by rewrite (next_curr_next _ _ Hr' Hcur'), Hl'. }
  unfold read_result, read_as. rewrite <- Hptr, <- Hlen, <- Hopt. intros [[[new off] o]|] al; cbn [refilled].
  - assert (Hin : forall r, (put_opt c (Z.of_nat p) o;;; put_desc c (Z.of_nat p)
      (mk_desc (rx_word off (packet_size ch)) (CPHYSADDR new));;; ret r : M (Z * option (Z * Z)))%dma
      (on c ch al (freed s) s) = Some (r, on c (set_ring (<[p := mk_desc (rx_word off (packet_size ch)) (CPHYSADDR new)]>
        (ring ch)) (set_opt (<[p := o]> (opt ch)) ch)) al (freed s) s)).
    { intros r. step (on_put_opt s c Hc ch al (freed s) p y.2 o Ho).
      by step (on_put_desc s c Hc (set_opt (<[p := o]> (opt ch)) ch) al (freed s) p y.1
        (mk_desc (rx_word off (packet_size ch)) (CPHYSADDR new)) Hy). }
    step (Hin (data_length y.1, Some (va (Data_Pointer y.1), y.2))).
    erewrite run_bind; [reflexivity|]. etrans; [apply Hadv; cbn; rewrite ?length_insert; try done|done].
    destruct Hr. split; cbn; by rewrite !length_insert.
  - unfold bind at 1, ret at 1. rewrite (run_bind _ _ _ _ _ (Hadv ch al Hr eq_refl Hcur)).
    unfold advanced. rewrite !list_insert_id by done. by destruct ch.
Qed.

(** A read takes the first frame and leaves a new buffer behind the others. *)
Lemma read_frame s ch x got p b al : receives_through d v c s -> dma_chan s !! c = Some ch ->
  rx_rep ch (x :: got) p -> allocs s = Some b :: al ->
  exists ch' p', read s = Some (read_as va x, on c ch' al (freed s) s) /\ rx_rep ch' got p' /\
    length (ring ch') = length (ring ch) /\ p' = next p (length (ring ch)).
Proof.
  destruct b as [[new off] o]. intros Hd Hch [Hr Hp Hcur (G & W & Hrot & HG & HW)] Ha.
  apply Forall2_cons_inv_r in HG as (y & G' & Hy & HG & ->). cbn [app] in Hrot.
  pose proof (read_run s ch p y _ x Hd Hch Hr Hp Hcur Hrot Hy) as Hrun. rewrite Ha in Hrun. cbn in Hrun.
  destruct (advanced_view ch p y _ (refilled ch y (Some (new, off, o))) Hr Hp Hrot) as (Hr' & Hl' & Hrot').
  exists (advanced p (refilled ch y (Some (new, off, o))) ch), (next p (length (ring ch))).
  split; [exact Hrun|]. split; [|done].
  split; [exact Hr' | rewrite Hl'; by apply next_lt | done |].
  exists G', (W ++ [refilled ch y (Some (new, off, o))])%list.
  split_and!; [etrans; [exact Hrot'|]; by rewrite (assoc_L app) | done |].
  apply Forall_app. split; [done|]. constructor; [|done]. unfold owned. cbn [refilled fst]. apply rx_word_owned.
Qed.
(** A ring without frames: nothing is read and nothing changes. *)
Lemma read_nothing s ch p : receives_through d v c s -> dma_chan s !! c = Some ch ->
  rx_rep ch [] p -> read s = Some ((0, None), s).
Proof.
  intros [Hv Hat Hc] Hch [Hr Hp Hcur (G & W & Hrot & HG & HW)]. apply Forall2_nil_inv_r in HG as ->.
  cbn [app] in Hrot. destruct W as [|y W].
  { apply (f_equal length) in Hrot. rewrite length_rotate, slots_length in Hrot by done. cbn in Hrot. lia. }
  apply Forall_cons in HW as [Hy _]. destruct (head_slot _ _ _ _ Hr Hp Hrot) as [Hy' _].
  unfold dma_device_read.
  step (ltac:(unfold dev, get, bind, deref, ret; by rewrite Hv) : dev d s = Some (v, s)).
  step (ltac:(unfold chan_at, bind, deref, ret; by rewrite Hat) :
    chan_at (rx_chan v) (current_rx_chan v) s = Some (c, s)).
  rewrite <- (on_id c ch s Hch) at 1. step (on_chan s c Hc ch (allocs s) (freed s)). rewrite Hcur.
  step (on_get_desc s c Hc ch (allocs s) (freed s) p y.1 Hy').
  unfold completed. rewrite Hy. cbn. by rewrite on_id.
Qed.
(** No buffer: the caller is told that there was nothing, and the frame stays where it
    is, behind the others and out of the controller's hands. *)
Lemma read_no_buffer s ch x got p : receives_through d v c s -> dma_chan s !! c = Some ch ->
  rx_rep ch (x :: got) p -> length (x :: got) = length (ring ch) -> default None (head (allocs s)) = None ->
  exists ch' p', read s = Some ((0, Some (0, 0)), on c ch' (tail (allocs s)) (freed s) s) /\
    rx_rep ch' (got ++ [x]) p' /\ length (ring ch') = length (ring ch).
Proof.
  intros Hd Hch [Hr Hp Hcur (G & W & Hrot & HG & HW)] Hfull Ha.
  apply Forall2_cons_inv_r in HG as (y & G' & Hy & HG & ->). cbn [app] in Hrot.
  pose proof (read_run s ch p y _ x Hd Hch Hr Hp Hcur Hrot Hy) as Hrun. rewrite Ha in Hrun. cbn in Hrun.
  destruct (advanced_view ch p y _ y Hr Hp Hrot) as (Hr' & Hl' & Hrot').
  exists (advanced p y ch), (next p (length (ring ch))). split; [exact Hrun|]. split; [|exact Hl'].
  split; [exact Hr' | rewrite Hl'; by apply next_lt | done |].
  exists (G' ++ [y])%list, []. split_and!; [| by apply Forall2_app; [|constructor] | done].
  etrans; [exact Hrot'|]. apply (f_equal length) in Hrot. apply Forall2_length in HG.
  rewrite length_rotate, slots_length in Hrot by done. cbn in Hrot, Hfull. rewrite length_app in Hrot.
  destruct W; [by rewrite !app_nil_r | cbn in Hrot; lia].
Qed.

(** [n] reads. *)
Fixpoint reads (n : nat) : M (list (Z * option (Z * Z))) :=
  match n with O => ret [] | S n' => r <- read;; l <- reads n';; ret (r :: l) end.
Lemma reads_rep got : forall s ch p bufs al, receives_through d v c s -> dma_chan s !! c = Some ch ->
  rx_rep ch got p -> allocs s = ((Some <$> bufs) ++ al)%list -> length bufs = length got ->
  exists ch' p', reads (length got) s = Some (read_as va <$> got, on c ch' al (freed s) s) /\ rx_rep ch' [] p' /\
    length (ring ch') = length (ring ch).
Proof.
  induction got as [|x got IH]; intros s ch p bufs al Hd Hch Hrep Ha Hl.
  - destruct bufs; [|done]. cbn in Ha. exists ch, p. rewrite <- Ha, on_id by done. done.
  - destruct bufs as [|b bufs]; [done|]. cbn in Ha, Hl. injection Hl as Hl.
    destruct (read_frame s ch x got p b _ Hd Hch Hrep Ha) as (ch1 & p1 & Hrun & Hrep1 & Hlen1 & _).
    set (s1 := on c ch1 ((Some <$> bufs) ++ al) (freed s) s) in *.
    destruct (IH s1 ch1 p1 bufs al) as (ch2 & p2 & Hrun2 & Hrep2 & Hlen2);
      [by apply receives_through_on | apply on_lookup, Hd | done | done | done |].
    exists ch2, p2. split; [|split; [done | congruence]]. cbn [length reads]. step Hrun. step Hrun2.
    unfold ret, s1, on. cbn. by rewrite list_insert_insert_eq.
Qed.
End Read.

(** ** When buffer_alloc fails on a full ring *)

(** On a full ring, when buffer_alloc fails once: the read reports nothing, the reads
    that follow deliver the other frames, and the frame that was reported as nothing is
    delivered after them. *)
Theorem failed_alloc_reorders CPHYSADDR va d v c s ch x got p bufs al :
  receives_through d v c s -> dma_chan s !! c = Some ch -> rx_rep ch (x :: got) p ->
  length (x :: got) = length (ring ch) ->
  allocs s = (None :: (Some <$> bufs) ++ al)%list -> length bufs = S (length got) ->
  exists s', reads CPHYSADDR va d (2 + length got) s =
    Some ((0, Some (0, 0)) :: (read_as va <$> got) ++ [read_as va x], s')%list.
Proof.
  intros Hd Hch Hrep Hfull Ha Hl.
  destruct (read_no_buffer CPHYSADDR va d v c s ch x got p Hd Hch Hrep Hfull) as (ch1 & p1 & Hrun & Hrep1 & _);
    [by rewrite Ha|].
  rewrite Ha in Hrun. cbn [tail] in Hrun.
  set (s1 := on c ch1 ((Some <$> bufs) ++ al) (freed s) s) in *.
  destruct (reads_rep CPHYSADDR va d v c (got ++ [x]) s1 ch1 p1 bufs al) as (ch2 & p2 & Hrun2 & _ & _);
    [by apply receives_through_on | apply on_lookup, Hd | done | done | rewrite length_app; cbn; lia |].
  rewrite length_app, Nat.add_comm, fmap_app in Hrun2. eexists.
  change (2 + length got)%nat with (S (1 + length got)). cbn [reads]. step Hrun. step Hrun2. reflexivity.
Qed.

(** ** Traces *)

(** The controller keeps a position of its own, the descriptor of the ring it fills next,
    and does not read [curr_desc]. A frame arrives: if the controller owns the descriptor
    at its position it fills it and goes on to the next one. *)
Inductive hw_receives (c : nat) : dma * nat -> frame -> dma * nat -> Prop :=
| hw_receives_intro s h ch y y' o :
    dma_chan s !! c = Some ch ->
    ring ch !! h = Some y -> OWN y = DMA_OWN -> opt ch !! h = Some o ->
    completed y' = true -> Data_Pointer y' = Data_Pointer y ->
    hw_receives c (s, h) (mk_frame (Data_Pointer y) (data_length y') o)
      (set_chans (<[c := set_ring (<[h := y']> (ring ch)) ch]> (dma_chan s)) s, next h (length (ring ch))).

(** The controller's position [h], with [got] waiting from [p] on: behind them. *)
Definition hw_behind (ch : channel) (got : list frame) (p h : nat) : Prop :=
  h = rotate_nat_add p (length got) (length (ring ch)).

Lemma receives_place ch got p y : rx_rep ch got p ->
  ring ch !! rotate_nat_add p (length got) (length (ring ch)) = Some y -> OWN y = DMA_OWN ->
  (length got < length (ring ch))%nat.
Proof.
  intros [Hr Hp _ (G & W & Hrot & HG & HW)] Hy Hown.
  pose proof (Forall2_length _ _ _ HG) as HlG.
  pose proof (f_equal length Hrot) as Hl. rewrite length_rotate, slots_length, length_app in Hl by done.
  apply Nat.le_neq. split; [lia|]. intros Hfull.
  assert (Hw : exists w, G !! 0%nat = Some w) by (apply lookup_lt_is_Some_2; lia). destruct Hw as [w Hw].
  assert (Hj : rotate p (slots ch) !! 0%nat = Some w) by (rewrite Hrot; by apply lookup_app_l_Some).
  assert (Hj0 : ring ch !! rotate_nat_add p 0 (length (ring ch)) = Some w.1) by (by eapply slot_ring; [|lia|]).
  rewrite Hfull in Hy. replace (rotate_nat_add p (length (ring ch)) (length (ring ch))) with
    (rotate_nat_add p 0 (length (ring ch))) in Hy; cycle 1.
  { unfold rotate_nat_add. f_equal. rewrite Z.add_0_r.
    rewrite <- (Z.mul_1_l (Z.of_nat (length (ring ch)))) at 2. by rewrite Z.mod_add by lia. }
  rewrite Hj0 in Hy. injection Hy as <-.
  destruct (Forall2_lookup_l _ _ _ _ _ HG Hw) as (x & _ & Hc & _). by destruct (completed_own _ Hc).
Qed.

Lemma receives_rep s h s' h' c ch got p x : (c < length (dma_chan s))%nat -> dma_chan s !! c = Some ch ->
  rx_rep ch got p -> hw_behind ch got p h -> hw_receives c (s, h) x (s', h') ->
  exists ch', s' = on c ch' (allocs s) (freed s) s /\ rx_rep ch' (got ++ [x]) p /\
    hw_behind ch' (got ++ [x]) p h'.
Proof.
  intros Hc Hch Hrep Hh Hs. inversion Hs as [s0 h0 ch0 y y' o Hch0 Hy Hown Hopt Hcomp Hptr Heq1 Heq2 Heq3]. subst.
  rewrite Hch in Hch0. injection Hch0 as <-. unfold hw_behind in Hh. subst h.
  pose proof (receives_place ch got p y Hrep Hy Hown) as Hlt.
  eexists. split; [by destruct s|].
  destruct Hrep as [Hr Hp Hcur (G & W & Hrot & HG & HW)]. pose proof (Forall2_length _ _ _ HG) as HlG.
  destruct W as [|w W].
  { apply (f_equal length) in Hrot. rewrite length_rotate, slots_length, length_app in Hrot by done. cbn in Hrot. lia. }
  apply Forall_cons in HW as [_ HW].
  split; [split; cbn; rewrite ?length_insert; [| done | done |]|].
  - destruct Hr as [Hl Ho]. split; cbn; by rewrite length_insert.
  - exists (G ++ [(y', o)])%list, W. split_and!; [| |done].
    + etrans; [apply f_equal, (slots_put_desc ch _ y' o), Hopt|].
      rewrite <- (slots_length ch), rotate_insert_l by (done || by rewrite slots_length).
      rewrite Hrot, <- (assoc_L app), insert_app_r_alt by lia.
      by replace (length got - length G)%nat with 0%nat by lia.
    + apply Forall2_app; [done|]. constructor; [|done]. split_and!; done.
  - unfold hw_behind. cbn. rewrite length_insert, length_app, Nat.add_1_r. by apply next_rotate.
Qed.

Inductive rx_event := Received (x : frame) | Read (r : Z * option (Z * Z)).
Section Events.
Context (CPHYSADDR va : Z -> Z) (d c : nat).
(** A step of the controller or a read of the client: the driver's state and the
    controller's position. *)
Inductive rx_step : dma * nat -> rx_event -> dma * nat -> Prop :=
| step_received s x s' : hw_receives c s x s' -> rx_step s (Received x) s'
| step_read s h r s' : dma_device_read CPHYSADDR va d s = Some (r, s') -> rx_step (s, h) (Read r) (s', h).
Inductive rx_trace : dma * nat -> list rx_event -> dma * nat -> Prop :=
| rx_nil s : rx_trace s [] s
| rx_cons s e s1 l s2 : rx_step s e s1 -> rx_trace s1 l s2 -> rx_trace s (e :: l) s2.
End Events.

Definition received (l : list rx_event) : list frame :=
  omap (fun e => match e with Received x => Some x | Read _ => None end) l.
(** The reads that returned a buffer. *)
Definition delivered (l : list rx_event) : list (Z * option (Z * Z)) :=
  omap (fun e => match e with Read (n, Some o) => Some (n, Some o) | _ => None end) l.
Lemma received_cons e l : received (e :: l) = (received [e] ++ received l)%list.
Proof. unfold received. by rewrite <- omap_app. Qed.
Lemma delivered_cons e l : delivered (e :: l) = (delivered [e] ++ delivered l)%list.
Proof. unfold delivered. by rewrite <- omap_app. Qed.

(** A step with a buffer at hand: what was waiting and what arrives is what is
    delivered and what then waits. *)
Lemma rx_step_rep CPHYSADDR va d v c s h e s1 h1 ch got p b al :
  receives_through d v c s -> dma_chan s !! c = Some ch -> rx_rep ch got p -> hw_behind ch got p h ->
  allocs s = Some b :: al -> rx_step CPHYSADDR va d c (s, h) e (s1, h1) ->
  exists ch1 got1 p1 al1, s1 = on c ch1 al1 (freed s) s /\ (al1 = al \/ al1 = Some b :: al) /\
    rx_rep ch1 got1 p1 /\ hw_behind ch1 got1 p1 h1 /\
    (delivered [e] ++ (read_as va <$> got1))%list = (read_as va <$> got ++ received [e])%list.
Proof.
  intros Hd Hch Hrep Hh Ha Hstep. inversion Hstep as [s0 x s0' Hs | s0 h0 r s0' Hrun]; subst.
  - destruct (receives_rep s h s1 h1 c ch got p x (rt_lt _ _ _ _ Hd) Hch Hrep Hh Hs) as (ch1 & -> & Hrep1 & Hh1).
    exists ch1, (got ++ [x])%list, p, (allocs s). split_and!; [done | by right | done | done | done].
  - cbn [received omap list_omap]. rewrite app_nil_r. destruct got as [|x got].
    + rewrite (read_nothing CPHYSADDR va d v c s ch p Hd Hch Hrep) in Hrun. injection Hrun as <- <-.
      exists ch, [], p, (allocs s). split_and!; [by rewrite on_id | by right | done | done | done].
    + destruct (read_frame CPHYSADDR va d v c s ch x got p b al Hd Hch Hrep Ha) as (ch1 & p1 & Hrun1 & Hrep1 & Hlen1 & Hp1).
      rewrite Hrun1 in Hrun. injection Hrun as <- <-.
      exists ch1, got, p1, al. split_and!; [done | by left | done | | done].
      unfold hw_behind in *. rewrite Hlen1, Hp1, next_add; [done | apply Hrep].
Qed.

(** C16. While frames arrive and the client reads, in any order, and every read finds a new
    buffer, with the controller at its own position, which starts behind the frames that
    wait: dma_device_read delivers the frames received, in order, each once and with its
    length; those not read are still in the ring, with the controller behind them, and a
    read that finds none changes nothing. *)
Theorem frames_delivered CPHYSADDR va d v c l : forall s h s' h' ch got p bufs al,
  receives_through d v c s -> dma_chan s !! c = Some ch -> rx_rep ch got p -> hw_behind ch got p h ->
  allocs s = ((Some <$> bufs) ++ al)%list -> (length l <= length bufs)%nat ->
  rx_trace CPHYSADDR va d c (s, h) l (s', h') ->
  exists ch' got' p', dma_chan s' !! c = Some ch' /\ rx_rep ch' got' p' /\ hw_behind ch' got' p' h' /\
    (delivered l ++ (read_as va <$> got'))%list = (read_as va <$> got ++ received l)%list /\
    (got' = [] -> dma_device_read CPHYSADDR va d s' = Some ((0, None), s')).
Proof.
  induction l as [|e l IH]; intros s h s' h' ch got p bufs al Hd Hch Hrep Hh Ha Hl Htr;
    inversion Htr as [|? ? [s1 h1] ? ? Hstep Htr']; subst.
  - exists ch, got, p. cbn. rewrite app_nil_r. split_and!; [done..|]. intros ->. by eapply read_nothing.
  - destruct bufs as [|b bufs]; [cbn in Hl; lia|]. cbn in Ha, Hl.
    destruct (rx_step_rep _ _ _ _ _ _ _ _ _ _ _ _ _ _ _ Hd Hch Hrep Hh Ha Hstep)
      as (ch1 & got1 & p1 & al1 & -> & Hal1 & Hrep1 & Hh1 & Heq).
    destruct (IH (on c ch1 al1 (freed s) s) h1 s' h' ch1 got1 p1 (if decide (al1 = (Some <$> bufs) ++ al)%list then bufs else b :: bufs) al)
      as (ch' & got' & p' & Hch' & Hrep' & Hh' & Heq' & Hnone).
    + by apply receives_through_on.
    + apply on_lookup, Hd.
    + done.
    + done.
    + cbn. case_decide as Hcase; [done|]. by destruct Hal1 as [?| ->].
    + case_decide; cbn; lia.
    + done.
    + exists ch', got', p'. split_and!; [done | done | done | | done].
      rewrite delivered_cons, received_cons, <- (assoc_L app), Heq', fmap_app, (assoc_L app), Heq.
      by rewrite <- fmap_app, <- (assoc_L app).
Qed.

(** ** Instances *)

(** A ring of two buffers: word [w] in both descriptors. *)
Definition ex_rx (w1 w2 : Z) : channel :=
  set_opt [11; 12] (set_ring [mk_desc w1 4096; mk_desc w2 8192] (ex_chan DANUBE_DMA_RX 2)).
Definition ex_rx_dma (w1 w2 : Z) (a : list (option (Z * Z * Z))) : dma :=
  set_chans [ex_rx w1 w2; ex_chan DANUBE_DMA_TX 2] (ex_dma 2 a).
Lemma ex_receives w1 w2 a : receives_through 0 ex_device 0 (ex_rx_dma w1 w2 a).
Proof. split; cbn; try done; lia. Qed.
(** Both completed, with 60 and 61 bytes. *)
Definition ex_two : list frame := [mk_frame 4096 60 11; mk_frame 8192 61 12].
Lemma ex_full : rx_rep (ex_rx (2 ^ 30 + 60) (2 ^ 30 + 61)) ex_two 0.
Proof.
  split; [by split | cbn; lia | done |]. exists (slots (ex_rx (2 ^ 30 + 60) (2 ^ 30 + 61))), [].
  split_and!; [by rewrite app_nil_r | repeat constructor | done].
Qed.

Example failed_alloc_reorders_witness :
  exists s', reads id id 0 3 (ex_rx_dma (2 ^ 30 + 60) (2 ^ 30 + 61) [None; Some (12288, 0, 13); Some (16384, 0, 14)])
    = Some ([(0, Some (0, 0)); (61, Some (8192, 12)); (60, Some (4096, 11))], s').
Proof.
  apply (failed_alloc_reorders id id 0 ex_device 0 _ (ex_rx (2 ^ 30 + 60) (2 ^ 30 + 61))
    (mk_frame 4096 60 11) [mk_frame 8192 61 12] 0 [(12288, 0, 13); (16384, 0, 14)] []).
  - apply ex_receives.
  - reflexivity.
  - apply ex_full.
  - reflexivity.
  - reflexivity.
  - reflexivity.
Defined.

(** One frame arrives, is read, and a read finds nothing. *)
Example frames_delivered_witness :
  exists l s', rx_trace id id 0 0 (ex_rx_dma (2 ^ 31) (2 ^ 31) (Some <$> [(12288, 0, 13); (16384, 0, 14); (20480, 0, 15)]), 0%nat) l (s', 1%nat) /\
    l = [Received (mk_frame 4096 60 11); Read (60, Some (4096, 11)); Read (0, None)] /\
    exists ch' got' p', dma_chan s' !! 0%nat = Some ch' /\ rx_rep ch' got' p' /\ hw_behind ch' got' p' 1 /\
      (delivered l ++ (read_as id <$> got'))%list = [(60, Some (4096, 11))] /\
      (got' = [] -> dma_device_read id id 0 s' = Some ((0, None), s')).
Proof.
  set (s0 := ex_rx_dma (2 ^ 31) (2 ^ 31) (Some <$> [(12288, 0, 13); (16384, 0, 14); (20480, 0, 15)])).
  set (s1 := set_chans [ex_rx (2 ^ 30 + 60) (2 ^ 31); ex_chan DANUBE_DMA_TX 2] s0).
  assert (H1 : hw_receives 0 (s0, 0%nat) (mk_frame 4096 60 11) (s1, 1%nat)).
  { apply (hw_receives_intro 0 s0 0 (ex_rx (2 ^ 31) (2 ^ 31)) (mk_desc (2 ^ 31) 4096)
      (mk_desc (2 ^ 30 + 60) 4096) 11); reflexivity. }
  destruct (dma_device_read id id 0 s1) as [[r2 s2]|] eqn:H2; [|by vm_compute in H2].
  assert (Hr2 : r2 = (60, Some (4096, 11))) by (by vm_compute in H2; injection H2 as <-).
  assert (Hs2 : dma_device_read id id 0 s2 = Some ((0, None), s2))
    by (vm_compute in H2; injection H2 as _ <-; vm_compute; reflexivity).
  exists [Received (mk_frame 4096 60 11); Read (60, Some (4096, 11)); Read (0, None)], s2.
  assert (Htr : rx_trace id id 0 0 (s0, 0%nat) [Received (mk_frame 4096 60 11); Read (60, Some (4096, 11)); Read (0, None)] (s2, 1%nat)).
  { eapply rx_cons; [by apply step_received|]. subst r2. eapply rx_cons; [by apply step_read|].
    eapply rx_cons; [by apply step_read | constructor]. }
  split; [exact Htr|]. split; [reflexivity|].
  apply (frames_delivered id id 0 ex_device 0
    [Received (mk_frame 4096 60 11); Read (60, Some (4096, 11)); Read (0, None)] s0 0 s2 1 (ex_rx (2 ^ 31) (2 ^ 31)) [] 0
    [(12288, 0, 13); (16384, 0, 14); (20480, 0, 15)] []).
  - apply ex_receives.
  - reflexivity.
  - split; [by split | cbn; lia | done |]. exists [], (slots (ex_rx (2 ^ 31) (2 ^ 31))).
    split_and!; [reflexivity | constructor | repeat constructor].
  - reflexivity.
  - reflexivity.
  - cbn. lia.
  - exact Htr.
Defined.
