(* ===== verification/DmaIrq.v ===== *)
(** * DmaIrq: the interrupts of the DMA driver

    The choice of the channel to serve, and the protocol of the interrupt handler and
    the tasklet: an interrupt is never lost, and what keeps the tasklet spinning. *)
From S2P Require Import Prelude Dma DmaRing DmaTx DmaTrace.
Import Dma.

(** ** The choice of a channel *)
Definition candidate (s : dma) (i : nat) (w : Z) : Prop :=
  exists ch, dma_chan s !! i = Some ch /\ Z.testbit (int_status s) (Z.of_nat i) = true /\
    weight ch = w /\ 0 < w.

(** What the loop knows after the first channels. *)
Definition best (status : Z) (l : list channel) (r : option nat * Z) : Prop :=
  let cand i w := exists ch, l !! i = Some ch /\ Z.testbit status (Z.of_nat i) = true /\ weight ch = w /\ 0 < w in
  match r.1 with
  | Some c => cand c r.2 /\ forall i w, cand i w -> w <= r.2 /\ (w = r.2 -> (c <= i)%nat)
  | None => r.2 = 0 /\ forall i w, ~ cand i w
  end.

Lemma lookup_snoc {A} (l : list A) x i y : (l ++ [x])%list !! i = Some y ->
  (i < length l)%nat /\ l !! i = Some y \/ i = length l /\ y = x.
Proof.
  intros H. apply lookup_snoc_Some in H as [[Hi Hy]|[Hi Hy]]; [by left | right; by subst].
Qed.
Lemma wfq_best status l : best status l (fold_left (wfq_step status) (imap pair l) (None, 0)).
Proof.
  induction l as [|ch l IH] using rev_ind; [by split; [|intros i w (? & ? & _)]|].
  rewrite imap_app. cbn. rewrite fold_left_app. cbn. rewrite Nat.add_0_r.
  destruct (fold_left _ _ _) as [o w0]. unfold wfq_step. cbn [fst snd].
  destruct (Z.testbit status (Z.of_nat (length l)) && (0 <? weight ch) && (w0 <? weight ch)) eqn:E.
  - apply andb_true_iff in E as [E E3]. apply andb_true_iff in E as [E1 E2]. bool_to_prop.
    unfold best in *. cbn [fst snd] in *. split.
    + exists ch. rewrite lookup_app_r, Nat.sub_diag by lia. done.
    + intros i w (ch' & Hi & Ht & <- & Hw). destruct (lookup_snoc _ _ _ _ Hi) as [[Hlt Hi']|[-> ->]]; [|lia].
      destruct o as [c|].
      * destruct IH as [_ IH]. destruct (IH i (weight ch')) as [? _]; [by exists ch'|]. lia.
      * destruct IH as [-> IH]. destruct (IH i (weight ch')). by exists ch'.
  - assert (Hnew : forall w, 0 < w -> weight ch = w -> Z.testbit status (Z.of_nat (length l)) = true -> w <= w0).
    { intros w Hw Hwt Ht. rewrite Ht, Hwt, (proj2 (Z.ltb_lt 0 w)) in E by done. cbn in E. bool_to_prop. lia. }
    unfold best in *. cbn [fst snd] in *. destruct o as [c|].
    + destruct IH as [(chc & Hc & Hrest) IH]. split.
      * exists chc. split; [by apply lookup_app_l_Some | done].
      * intros i w (ch' & Hi & Ht & Hw & Hpos). destruct (lookup_snoc _ _ _ _ Hi) as [[Hlt Hi']|[-> ->]].
        -- apply IH. by exists ch'.
        -- apply lookup_lt_Some in Hc. split; [by apply Hnew | lia].
    + destruct IH as [-> IH]. split; [done|]. intros i w (ch' & Hi & Ht & Hw & Hpos).
      destruct (lookup_snoc _ _ _ _ Hi) as [[Hlt Hi']|[-> ->]]; [apply (IH i w); by exists ch'|].
      specialize (Hnew w Hpos Hw Ht). lia.
Qed.

(** The tasklet serves the pending channel of the greatest positive weight, the first
    of those, and none exactly when no pending channel has weight left. *)
Theorem wfq_chooses s :
  match wfq s with
  | Some c => exists w, candidate s c w /\ forall i w', candidate s i w' -> w' <= w /\ (w' = w -> (c <= i)%nat)
  | None => forall i w, ~ candidate s i w
  end.
Proof.
  pose proof (wfq_best (int_status s) (dma_chan s)) as H. unfold wfq.
  destruct (fold_left _ _ _) as [[c|] w]; cbn [fst].
  - exists w. exact H.
  - apply H.
Qed.

(** ** Programs that run and keep a predicate *)
Definition runs {A} (P : dma -> Prop) (m : M A) (Q : dma -> Prop) : Prop :=
  forall s, P s -> exists x s', m s = Some (x, s') /\ Q s'.
Lemma runs_bind {A B} P (m : M A) Q (k : A -> M B) R :
  runs P m Q -> (forall x, runs Q (k x) R) -> runs P (bind m k) R.
Proof.
  intros Hm Hk s Hs. destruct (Hm s Hs) as (x & s1 & Hx & Hs1). destruct (Hk x s1 Hs1) as (y & s2 & Hy & Hs2).
  exists y, s2. by rewrite (run_bind _ _ _ _ _ Hx).
Qed.
(** A program that is a read of the state: the rest runs on what was read. *)
Lemma runs_read {A B} P (m : M A) (k : A -> M B) R :
  (forall s, P s -> exists x, m s = Some (x, s) /\ exists y s', k x s = Some (y, s') /\ R s') ->
  runs P (bind m k) R.
Proof.
  intros H s Hs. destruct (H s Hs) as (x & Hx & y & s' & Hy & HR). exists y, s'.
  by rewrite (run_bind _ _ _ _ _ Hx).
Qed.
Lemma runs_ret {A} P (x : A) : runs P (ret x) P.
Proof. intros s Hs. by exists x, s. Qed.
Lemma runs_put P f (Q : dma -> Prop) : (forall s, P s -> Q (f s)) -> runs P (put f) Q.
Proof. intros H s Hs. exists tt, (f s). auto. Qed.
Lemma runs_If P b m : runs P m P -> runs P (If b m) P.
Proof. destruct b; [done|]. intros _. apply runs_ret. Qed.

(** ** The state between two interrupts *)

(** The pointers of the driver are good. *)
Record wf (s : dma) : Prop := {
  wf_chans : length (dma_chan s) = MAX_DMA_CHANNEL_NUM;
  wf_regs : length (chan_regs s) = MAX_DMA_CHANNEL_NUM;
  wf_chan : Forall (fun ch => is_Some (at_index (ring ch) (curr_desc ch)) /\
    exists d, dma_dev ch = Some d /\ (d < length (dma_devs s))%nat) (dma_chan s) }.
(** The tasklet is at work. *)
Record busy (s : dma) : Prop := {
  busy_wf : wf s; busy_process : in_process s <> 0; busy_tasklet : tasklet s = false }.

Lemma wf_ext s s' : wf s -> dma_chan s' = dma_chan s -> length (chan_regs s') = length (chan_regs s) ->
  length (dma_devs s') = length (dma_devs s) -> wf s'.
Proof. intros [H1 H2 H3] Hc Hr Hd. split; [by rewrite Hc | by rewrite Hr | by rewrite Hc, Hd]. Qed.
Lemma busy_ext s s' : busy s -> dma_chan s' = dma_chan s -> length (chan_regs s') = length (chan_regs s) ->
  length (dma_devs s') = length (dma_devs s) -> in_process s' = in_process s -> tasklet s' = tasklet s -> busy s'.
Proof. intros [Hw Hp Ht] Hc Hr Hd Hp' Ht'. split; [by eapply wf_ext | congruence | congruence]. Qed.
Lemma busy_weights s l : busy s -> Forall2 (fun ch' ch => exists w, ch' = set_weight w ch) l (dma_chan s) ->
  busy (set_chans l s).
Proof.
  intros [[H1 H2 H3] Hp Ht] Hl. split; [|done|done]. split; cbn; [by rewrite (Forall2_length _ _ _ Hl) | done |].
  clear -Hl H3. induction Hl as [|ch' ch l l' [w ->] Hl IH]; [constructor|].
  apply Forall_cons in H3 as [Hch H3]. constructor; [exact Hch | by apply IH].
Qed.
Lemma alter_weights (f : channel -> channel) c l : (forall ch, exists w, f ch = set_weight w ch) ->
  Forall2 (fun ch' ch => exists w, ch' = set_weight w ch) (alter f c l) l.
Proof.
  intros Hf. assert (Hid : forall ch, exists w, ch = set_weight w ch) by (intros ch; exists (weight ch); by destruct ch).
  revert c. induction l as [|ch l IH]; intros [|c]; cbn; constructor; try done.
  clear -Hid. induction l; constructor; done.
Qed.
Lemma busy_chan s c : busy s -> (c < MAX_DMA_CHANNEL_NUM)%nat -> exists ch y d r v,
  dma_chan s !! c = Some ch /\ at_index (ring ch) (curr_desc ch) = Some y /\
  dma_dev ch = Some d /\ dma_devs s !! d = Some v /\ chan_regs s !! c = Some r.
Proof.
  intros [[H1 H2 H3] _ _] Hc. rewrite <- H1 in Hc. destruct (lookup_lt_is_Some_2 _ _ Hc) as [ch Hch].
  rewrite H1, <- H2 in Hc. destruct (lookup_lt_is_Some_2 _ _ Hc) as [r Hr].
  destruct (Forall_lookup_1 _ _ _ _ H3 Hch) as ([y Hy] & d & Hd & Hlt).
  destruct (lookup_lt_is_Some_2 _ _ Hlt) as [v Hv]. by exists ch, y, d, r, v.
Qed.

Section Handlers.
Context (D2 : bool) (client : nat -> Z -> M unit).
(** The handlers of the devices return, with the driver's pointers good, and leave the
    tasklet's own variables alone. *)
Context (Hclient : forall d status, runs busy (client d status) busy).

Lemma upd_weight_runs c f : (forall ch, exists w, f ch = set_weight w ch) -> runs busy (upd_chan c f) busy.
Proof. intros Hf. apply runs_put. intros s Hs. by apply busy_weights, alter_weights. Qed.
Lemma upd_dev_runs d f : runs busy (upd_dev d f) busy.
Proof. apply runs_put. intros s Hs. apply (busy_ext s); try done. cbn. by rewrite length_alter. Qed.
Lemma status_clear_runs c : runs busy (status_clear c) busy.
Proof. apply runs_put. intros s Hs. by apply (busy_ext s). Qed.
Lemma enable_irq_runs n : runs busy (enable_danube_irq n) busy.
Proof. apply runs_put. intros s Hs. by apply (busy_ext s). Qed.

(** Channel [c], its descriptor, its device and its registers. *)
Lemma chan_runs c (k : channel -> M unit) : (c < MAX_DMA_CHANNEL_NUM)%nat ->
  (forall s ch d v y r, busy s -> dma_chan s !! c = Some ch -> dma_dev ch = Some d -> dma_devs s !! d = Some v ->
     at_index (ring ch) (curr_desc ch) = Some y -> at_index (chan_regs s) (Z.of_nat c) = Some r ->
     exists x s', k ch s = Some (x, s') /\ busy s') ->
  runs busy (ch <- chan c;; k ch) busy.
Proof.
  intros Hc Hk s Hs. destruct (busy_chan s c Hs Hc) as (ch & y & d & r & v & Hch & Hy & Hd & Hv & Hr).
  unfold bind, chan, get, deref, ret. cbn. rewrite Hch. eapply Hk; try done.
  unfold at_index. rewrite (proj2 (Z.ltb_ge _ _)) by lia. by rewrite Nat2Z.id.
Qed.
Lemma dev_run d v s : dma_devs s !! d = Some v -> dev d s = Some (v, s).
Proof. intros H. unfold dev, get, bind, deref, ret. by rewrite H. Qed.
Lemma desc_run c i ch y s : dma_chan s !! c = Some ch -> at_index (ring ch) i = Some y ->
  get_desc c i s = Some (y, s).
Proof. intros Hch Hy. unfold get_desc, chan, get, bind, deref, ret. by rewrite Hch, Hy. Qed.

(** [*DANUBE_DMA_CIS |= 0x7e] in the registers of channel [c]. *)
Definition acked (c : nat) (s : dma) : dma :=
  set_regs (alter (fun r => mk_regs (CCTRL r) (Z.lor (CIS r) 0x7e) (CIE r) (CDBA r) (CDLEN r) (CPOLL r)) c
    (chan_regs s)) (CS s) (IRNEN s) s.
Lemma acked_busy c s : busy s -> busy (acked c s).
Proof. intros Hs. apply (busy_ext s); try done. cbn. by rewrite length_alter. Qed.
Lemma ack_run c r s (k : M unit) : at_index (chan_regs s) (Z.of_nat c) = Some r ->
  (tmp <- get CS;; sel c;;; v <- rd CIS;; wr_CIS (Z.lor v 0x7e);;;
    put (fun s => set_regs (chan_regs s) tmp (IRNEN s) s);;; k) s = k (acked c s).
Proof.
  intros Hr. unfold sel, rd, wr_CIS, wr, put, get, bind, deref, ret. cbn. rewrite Hr. cbn.
  unfold at_index in Hr. rewrite (proj2 (Z.ltb_ge _ _)), Nat2Z.id in Hr by lia.
  unfold acked, set_regs. cbn. rewrite Nat2Z.id. do 2 f_equal.
  apply list_alter_ext; [|done]. intros r' Hr'. rewrite Hr in Hr'. by injection Hr' as <-.
Qed.

Lemma rx_handler_runs c : (c < MAX_DMA_CHANNEL_NUM)%nat -> runs busy (rx_chan_intr_handler D2 client c) busy.
Proof.
  intros Hc. unfold rx_chan_intr_handler. apply chan_runs; [done|].
  intros s ch d v y r Hs Hch Hd Hv Hy Hr. step (desc_run _ _ _ _ _ Hch Hy).
  destruct (_ && _).
  - step (ltac:(by rewrite Hd) : deref (dma_dev ch) s = Some (d, s)). step (dev_run _ _ _ Hv).
    revert s Hs Hch Hv Hr.
    cut (runs busy (upd_dev d (fun v => set_current (rel_chan_no ch) (current_tx_chan v) v);;;
      If (intr_handler v) (client d RCV_INT);;; upd_chan c (fun ch => set_weight (weight ch - 1) ch)) busy).
    { intros H s Hs _ _ _. by apply H. }
    eapply runs_bind; [apply upd_dev_runs|]. intros _. eapply runs_bind; [by apply runs_If|]. intros _.
    apply upd_weight_runs. intros ch'. by eexists.
  - rewrite (ack_run c r s _ Hr). unfold bind at 1, enable_danube_irq, put.
    erewrite run_bind; [|by eapply desc_run].
    apply (runs_If _ _ _ (status_clear_runs c)). apply (busy_ext (acked c s)); try done. by apply acked_busy.
Qed.
Lemma tx_handler_runs c : (c < MAX_DMA_CHANNEL_NUM)%nat -> runs busy (tx_chan_intr_handler client c) busy.
Proof.
  intros Hc. unfold tx_chan_intr_handler. apply chan_runs; [done|].
  intros s ch d v y r Hs Hch Hd Hv Hy Hr. rewrite (ack_run c r s _ Hr).
  unfold bind at 1, status_clear, put. set (s1 := set_status _ _).
  step (ltac:(by rewrite Hd) : deref (dma_dev ch) s1 = Some (d, s1)). step (dev_run d v s1 Hv).
  assert (Hs1 : busy s1) by (apply (busy_ext (acked c s)); try done; by apply acked_busy).
  revert Hs1. generalize s1. clear s1 s Hs Hch Hv Hr.
  eapply runs_bind; [apply upd_dev_runs|]. intros _. by apply runs_If.
Qed.

Lemma wfq_lt s c : busy s -> wfq s = Some c -> (c < MAX_DMA_CHANNEL_NUM)%nat.
Proof.
  intros [[Hl _ _] _ _] Hc. pose proof (wfq_chooses s) as H. rewrite Hc in H.
  destruct H as (w & (ch & Hch & _) & _). rewrite <- Hl. by eapply lookup_lt_Some.
Qed.
Lemma turn_runs : runs busy (tasklet_turn D2 client) busy.
Proof.
  intros s Hs. unfold tasklet_turn. unfold bind at 1, get.
  destruct (wfq s) as [c|] eqn:E.
  - pose proof (wfq_lt s c Hs E) as Hc.
    destruct (lookup_lt_is_Some_2 default_dma_map c Hc) as [m Hm]. rewrite Hm.
    unfold bind, deref, ret. destruct (map_dir m =? DANUBE_DMA_RX); [by apply rx_handler_runs | by apply tx_handler_runs].
  - do 2 eexists. split; [reflexivity|]. apply busy_weights; [done|].
    induction (dma_chan s) as [|ch l IH]; constructor; [by eexists | exact IH].
Qed.
End Handlers.

(** ** The protocol of the handler and the tasklet *)

Definition arrives (l : list nat) : Prop := Forall (fun c => (c < MAX_DMA_CHANNEL_NUM)%nat) l.

(** An interrupt: the status bit of the channel, and the tasklet when it was idle. *)
Lemma interrupt_run c s : wf s -> (c < MAX_DMA_CHANNEL_NUM)%nat ->
  exists s', dma_interrupt c s = Some (tt, s') /\ wf s' /\
    int_status s' = Z.lor (int_status s) (bit c) /\
    in_process s' = (if in_process s =? 0 then 1 else in_process s) /\
    tasklet s' = (if in_process s =? 0 then true else tasklet s).
Proof.
  intros Hs Hc. pose proof Hs as [Hl _ _]. rewrite <- Hl in Hc. destruct (lookup_lt_is_Some_2 _ _ Hc) as [ch Hch].
  unfold dma_interrupt, chan, get, deref, ret, put, bind, wr_IRNEN, mask_and_ack_danube_irq, disable_danube_irq, put.
  cbn. rewrite Hch. cbn. unfold If. destruct (in_process s =? 0).
  - do 2 eexists; [reflexivity|]. split; [by apply (wf_ext s)|]. done.
  - do 2 eexists; [reflexivity|]. split; [by apply (wf_ext s)|]. done.
Qed.
Lemma interrupts_busy l : arrives l -> runs busy (interrupts l) busy.
Proof.
  induction 1 as [|c l Hc Hl IH]; [apply runs_ret|]. cbn. eapply runs_bind; [|by intros _].
  intros s Hs. destruct (interrupt_run c s (busy_wf _ Hs) Hc) as (s' & Hrun & Hwf & _ & Hp & Ht).
  exists tt, s'. split; [done|]. pose proof (busy_process _ Hs) as Hne.
  rewrite (proj2 (Z.eqb_neq _ _) Hne) in Hp, Ht. split; [done | congruence|].
  rewrite Ht. apply Hs.
Qed.

(** Between two runs: the tasklet is scheduled exactly when work is in process, and
    nothing is pending when none is. *)
Record settled (s : dma) : Prop := {
  settled_wf : wf s;
  settled_idle : in_process s = 0 -> int_status s = 0 /\ tasklet s = false;
  settled_busy : in_process s <> 0 -> tasklet s = true }.

Section Protocol.
Context (D2 : bool) (client : nat -> Z -> M unit) (Hclient : forall d status, runs busy (client d status) busy).

Lemma loop_run n : forall arrivals s, Forall arrives arrivals -> busy s ->
  exists b rest s', tasklet_loop D2 client n arrivals s = Some ((b, rest), s') /\ Forall arrives rest /\
    if (b : bool) then busy s' /\ int_status s' = 0 else settled s'.
Proof.
  induction n as [|n IH]; intros arrivals s Harr Hs; cbn [tasklet_loop].
  all: assert (Hhd : arrives (default [] (head arrivals))) by (destruct Harr; [constructor | done]).
  all: assert (Htl : Forall arrives (tail arrivals)) by (by destruct Harr).
  all: destruct (interrupts_busy _ Hhd s Hs) as ([] & s1 & Hint & Hs1); step Hint.
  all: unfold bind at 1, get; destruct (int_status s1 =? 0) eqn:E; [bool_to_prop; by exists true, (tail arrivals), s1|].
  - eexists false, (tail arrivals), _. split; [reflexivity|]. split; [done|].
    destruct Hs1 as [Hw Hp Ht]. split; cbn; [by apply (wf_ext s1) | by intros ? | done].
  - destruct (turn_runs D2 client Hclient s1 Hs1) as ([] & s2 & Hturn & Hs2). step Hturn. by apply IH.
Qed.

(** A run of the tasklet, which the kernel has taken from its list. *)
Lemma tasklet_run arrivals s : Forall arrives arrivals -> busy s ->
  exists s', do_dma_tasklet D2 client arrivals s = Some (tt, s') /\ settled s'.
Proof.
  intros Harr Hs. unfold do_dma_tasklet.
  destruct (loop_run (S (Z.to_nat DMA_INT_BUDGET)) arrivals s Harr Hs) as (b & rest & s1 & Hloop & Hrest & H1).
  step Hloop. destruct b; cbn [If fst snd]; [|by exists s1].
  assert (Hhd : arrives (default [] (head rest))) by (destruct Hrest; [constructor | done]).
  destruct (interrupts_busy _ Hhd s1 (proj1 H1)) as ([] & s2 & Hint & [Hw Hp Ht]). step Hint.
  unfold bind, set_in_process, put, get, tasklet_schedule. cbn.
  destruct (nz (int_status s2)) eqn:E; cbn.
  - eexists. split; [reflexivity|]. split; cbn; [by apply (wf_ext s2) | done | done].
  - eexists. split; [reflexivity|]. unfold nz in E. bool_to_prop. split; cbn; [by apply (wf_ext s2) | done | done].
Qed.

(** What happens: an interrupt of a channel while the tasklet does not run, or a run
    of the tasklet with the interrupts that arrive during it. *)
Inductive happens : dma -> dma -> Prop :=
| happens_interrupt c s s' : (c < MAX_DMA_CHANNEL_NUM)%nat -> dma_interrupt c s = Some (tt, s') -> happens s s'
| happens_tasklet arrivals s s' : tasklet s = true -> Forall arrives arrivals ->
    do_dma_tasklet D2 client arrivals (set_process (in_process s) false s) = Some (tt, s') -> happens s s'.

Lemma happens_settled s s' : settled s -> happens s s' -> settled s'.
Proof.
  intros [Hw Hidle Hbusy] H. destruct H as [c s s' Hc Hrun | arrivals s s' Ht Harr Hrun].
  - destruct (interrupt_run c s Hw Hc) as (s1 & Hrun1 & Hw1 & Hst & Hp & Htk).
    rewrite Hrun1 in Hrun. injection Hrun as <-. destruct (in_process s =? 0) eqn:E; bool_to_prop.
    + split; [done | congruence | done].
    + split; [done | congruence | intros _; rewrite Htk; auto].
  - destruct (tasklet_run arrivals (set_process (in_process s) false s) Harr) as (s1 & Hrun1 & Hs1).
    { split; cbn; [by apply (wf_ext s) | | done]. intros E. destruct (Hidle E). congruence. }
    rewrite Hrun1 in Hrun. by injection Hrun as <-.
Qed.

End Protocol.

(** ** A channel that keeps the tasklet spinning *)

(** The channel to serve is a receive channel whose current descriptor is the
    driver's, but no frame the handler takes: without the completion bit, or too long. *)
Record stuck (D2 : bool) (c : nat) (s : dma) : Prop := {
  stuck_busy : busy s;
  stuck_wfq : wfq s = Some c;
  stuck_rx : map_dir <$> default_dma_map !! c = Some DANUBE_DMA_RX;
  stuck_desc : exists ch y, dma_chan s !! c = Some ch /\ at_index (ring ch) (curr_desc ch) = Some y /\
    OWN y = CPU_OWN /\ completed y && (D2 || (data_length y <? 1536)) = false }.
Lemma stuck_ext D2 c s s' : stuck D2 c s -> busy s' -> dma_chan s' = dma_chan s -> int_status s' = int_status s ->
  stuck D2 c s'.
Proof.
  intros [Hb Hw Hr Hd] Hb' Hc Hs. split; [done | by unfold wfq; rewrite Hc, Hs | done | by rewrite Hc].
Qed.

Section Stuck.
Context (D2 : bool) (client : nat -> Z -> M unit) (c : nat).

Lemma stuck_turn s : stuck D2 c s -> exists s', tasklet_turn D2 client s = Some (tt, s') /\
  stuck D2 c s' /\ dma_chan s' = dma_chan s /\ int_status s' = int_status s.
Proof.
  intros Hst. pose proof Hst as [Hs Hw Hrx (ch0 & y0 & Hch0 & Hy0 & Hown & Hno)].
  pose proof (wfq_lt s c Hs Hw) as Hc. unfold tasklet_turn. unfold bind at 1, get. rewrite Hw.
  destruct (default_dma_map !! c) as [m|]; [|done]. injection Hrx as Hdir.
  unfold bind at 1, deref at 1, ret at 1. rewrite Hdir, Z.eqb_refl.
  destruct (busy_chan s c Hs Hc) as (ch & y & d & r & v & Hch & Hy & Hd & Hv & Hr).
  rewrite Hch in Hch0. injection Hch0 as <-. rewrite Hy in Hy0. injection Hy0 as <-.
  assert (Hr' : at_index (chan_regs s) (Z.of_nat c) = Some r).
  { unfold at_index. rewrite (proj2 (Z.ltb_ge _ _)) by lia. by rewrite Nat2Z.id. }
  unfold rx_chan_intr_handler.
  step (ltac:(unfold chan, get, bind, deref, ret; by rewrite Hch) : chan c s = Some (ch, s)).
  step (desc_run _ _ _ _ _ Hch Hy). rewrite Hno. rewrite (ack_run c r s _ Hr').
  unfold bind at 1, enable_danube_irq, put. set (s1 := set_irqs _ _).
  step (desc_run c (curr_desc ch) ch y s1 Hch Hy). rewrite Hown. cbn [Z.eqb CPU_OWN negb If].
  exists s1. split; [done|]. split; [|done]. apply (stuck_ext D2 c s); try done.
  apply (busy_ext (acked c s)); try done. by apply acked_busy.
Qed.

Lemma stuck_loop n : forall s, stuck D2 c s -> exists s', tasklet_loop D2 client n [] s = Some ((false, []), s') /\
  stuck D2 c (set_process (in_process s') false s') /\ tasklet s' = true /\
  dma_chan s' = dma_chan s /\ int_status s' = int_status s.
Proof.
  assert (Hne : forall s, stuck D2 c s -> (int_status s =? 0) = false).
  { intros s [Hs Hw _ _]. apply Z.eqb_neq. intros E. pose proof (wfq_chooses s) as H. rewrite Hw in H.
    destruct H as (w & (ch & _ & Ht & _) & _). by rewrite E, Z.bits_0 in Ht. }
  induction n as [|n IH]; intros s Hs; cbn [tasklet_loop head default interrupts]; unfold bind at 1, ret at 1;
    unfold bind at 1, get; rewrite Hne by done; cbn [tail].
  - eexists. split; [reflexivity|]. split; [|done]. apply (stuck_ext D2 c s); try done.
    destruct Hs as [[Hw Hp Ht] _ _ _]. split; cbn; [by apply (wf_ext s) | done | done].
  - destruct (stuck_turn s Hs) as (s1 & Hrun & Hs1 & Hc1 & Hi1). step Hrun.
    destruct (IH s1 Hs1) as (s2 & Hrun2 & Hs2 & Ht2 & Hc2 & Hi2). exists s2. split_and!; try done; congruence.
Qed.

(** A receive channel whose current descriptor is the driver's but holds no frame the
    handler takes keeps its pending bit: when it is the channel to serve, the tasklet uses
    up its turns, changes no channel, schedules itself again and finds the same state, so
    that no other channel is served from then on. Registering a device when there is memory
    for only some of its buffers leads there. *)
Theorem stuck_channel s : stuck D2 c s -> exists s', do_dma_tasklet D2 client [] s = Some (tt, s') /\
  dma_chan s' = dma_chan s /\ int_status s' = int_status s /\ tasklet s' = true /\
  stuck D2 c (set_process (in_process s') false s').
Proof.
  intros Hs. destruct (stuck_loop (S (Z.to_nat DMA_INT_BUDGET)) s Hs) as (s' & Hrun & Hst & Ht & Hc' & Hi).
  exists s'. unfold do_dma_tasklet. step Hrun. done.
Qed.
End Stuck.
