(* ===== verification/DmaInit.v ===== *)
(** * DmaInit: set-up and shut-down of the DMA driver

    The links of devices and channels that danube_dma_init makes, what they mean for
    the device MCTRL1, and the buffers freed when a device is unregistered. *)
From S2P Require Import Prelude Dma DmaRing DmaTx DmaTrace DmaRx DmaIrq.
Import Dma.

(** ** Unregistering *)

(** The buffer of a slot, as it is given to [buffer_free]. *)
Definition slot_buffer (va : Z -> Z) (y : desc * Z) : option (Z * Z) :=
  if has_buffer y.1 then Some (va (Data_Pointer y.1), y.2) else None.
Definition buffers (va : Z -> Z) (ch : channel) : list (Z * Z) := omap (slot_buffer va) (slots ch).

Section Free.
Context (va : Z -> Z) (s : dma) (c : nat) (Hc : (c < length (dma_chan s))%nat).

Lemma free_desc_run ch a f j y : slots ch !! j = Some y ->
  free_desc va c j (on c ch a f s) =
    Some (tt, on c ch a (f ++ match slot_buffer va y with Some b => [b] | None => [] end) s).
Proof.
  destruct y as [y o]. intros Hy. apply slots_lookup in Hy as [Hy Ho]. unfold free_desc.
  step (on_get_desc s c Hc ch a f j y Hy). unfold slot_buffer. cbn [fst snd].
  destruct (has_buffer y); cbn [If].
  - by step (on_get_opt s c Hc ch a f j o Ho).
  - by rewrite app_nil_r.
Qed.
Lemma omap_cons_app {A B} (g : A -> option B) x l :
  omap g (x :: l) = (match g x with Some b => [b] | None => [] end ++ omap g l)%list.
Proof. cbn. by destruct (g x). Qed.

(** The loop of the receive channels leaves the ring as it is. *)
Lemma free_loop_rx n : forall ch a f j, (j + n = length (slots ch))%nat ->
  for_upto n j (fun j => free_desc va c j) (on c ch a f s) =
    Some (tt, on c ch a (f ++ omap (slot_buffer va) (drop j (slots ch))) s).
Proof.
  induction n as [|n IH]; intros ch a f j Hj; cbn [for_upto].
  - rewrite drop_ge by lia. cbn. by rewrite app_nil_r.
  - destruct (lookup_lt_is_Some_2 (slots ch) j ltac:(lia)) as [y Hy].
    step (free_desc_run ch a f j y Hy). rewrite IH by lia. rewrite (drop_S _ _ _ Hy), omap_cons_app.
    by rewrite <- (assoc_L app).
Qed.

(** That of the transmit channels clears the descriptors. *)
Lemma free_loop_tx n : forall ch a f j L, ring ch = (replicate j zero_desc ++ L)%list ->
  length L = n -> length (opt ch) = (j + n)%nat ->
  for_upto n j (fun j => free_desc va c j;;; put_desc c (Z.of_nat j) zero_desc) (on c ch a f s) =
    Some (tt, on c (set_ring (replicate (j + n) zero_desc) ch) a
      (f ++ omap (slot_buffer va) (drop j (slots ch))) s).
Proof.
  induction n as [|n IH]; intros ch a f j L Hring HL Hopt; cbn [for_upto].
  - destruct L; [|done]. rewrite app_nil_r in Hring. rewrite drop_ge.
    + cbn. rewrite app_nil_r, Nat.add_0_r, <- Hring. by destruct ch.
    + unfold slots. rewrite length_zip_with, Hring, length_replicate, Hopt. lia.
  - destruct L as [|y L]; [done|]. injection HL as HL.
    assert (Hy : ring ch !! j = Some y).
    { rewrite Hring, lookup_app_r, length_replicate, Nat.sub_diag; [done | by rewrite length_replicate]. }
    destruct (lookup_lt_is_Some_2 (opt ch) j ltac:(lia)) as [o Ho].
    assert (Hs : slots ch !! j = Some (y, o)) by (by apply slots_lookup).
    set (f1 := (f ++ match slot_buffer va (y, o) with Some b => [b] | None => [] end)%list).
    set (ch1 := set_ring (<[j := zero_desc]> (ring ch)) ch).
    rewrite (run_bind _ _ tt (on c ch a f s) (on c ch1 a f1 s)).
    2:{ step (free_desc_run ch a f j _ Hs). exact (on_put_desc s c Hc ch a f1 j y zero_desc Hy). }
    rewrite (IH ch1 a f1 (S j) L); [|  | done | cbn; lia].
    + replace (S j + n)%nat with (j + S n)%nat by lia. do 2 f_equal. unfold f1.
      rewrite (drop_S _ _ _ Hs), omap_cons_app, <- (assoc_L app). unfold ch1.
      rewrite (slots_put_desc ch j zero_desc o Ho), drop_insert_lt by lia. done.
    + unfold ch1. cbn. rewrite Hring. rewrite insert_app_r_alt by (rewrite length_replicate; lia).
      rewrite length_replicate, Nat.sub_diag. cbn.
      by rewrite app_comm_cons, replicate_cons_app, <- (assoc_L app).
Qed.
End Free.

(** The channel when it has been shut down. *)
Definition off (ch : channel) : channel := set_control DANUBE_DMA_CH_OFF (set_pos 0 0 ch).
Lemma shut_down_run s c ch : dma_chan s !! c = Some ch -> (c < length (chan_regs s))%nat ->
  exists s', shut_down_channel c s = Some (tt, s') /\ changed c (off ch) [] s s'.
Proof.
  intros Hch Hg. destruct (lookup_lt_is_Some_2 _ _ Hg) as [r Hr].
  unfold shut_down_channel, CCTRL_wait, CCTRL_andn, IRNEN_andn, rd, wr_CCTRL, wr_CIE, wr, wr_IRNEN, sel,
    upd_chan, get, put, bind, deref, at_index, ret. cbn.
  assert (Hlt : (Z.of_nat c <? 0) = false) by (apply Z.ltb_ge; lia).
  assert (Hal : forall (f : regs -> regs) (l : list regs) r, l !! c = Some r -> alter f c l !! c = Some (f r)).
  { intros f l r' Hl. by rewrite list_lookup_alter_eq, Hl. }
  rewrite Hlt, !Nat2Z.id. erewrite Hal by done. cbn. rewrite Hlt, !Nat2Z.id. erewrite Hal by (by apply Hal). cbn.
  eexists. split; [reflexivity|]. split; cbn; rewrite ?app_nil_r, ?length_alter; try done.
  rewrite <- (list_insert_id (dma_chan s) c ch Hch) at 1. by rewrite !alter_insert_eq.
Qed.
Lemma changed_on c ch s s1 : changed c ch [] s s1 -> (c < length (dma_chan s))%nat ->
  s1 = on c ch (allocs s1) (freed s1) s1.
Proof.
  intros [Hch _ _ _ _] Hc. symmetry. apply on_id. by rewrite Hch, list_lookup_insert_eq.
Qed.
Lemma buffers_off va ch : buffers va (off ch) = buffers va ch.
Proof. done. Qed.

(** What remains of a transmit channel: nothing in the ring. *)
Definition cleared (ch : channel) : channel := set_ring (replicate (length (ring ch)) zero_desc) (off ch).

Lemma unregister_tx_run va s c ch : dma_chan s !! c = Some ch -> (c < length (chan_regs s))%nat -> ring_ok ch ->
  control ch = DANUBE_DMA_CH_ON ->
  exists s', unregister_tx va c s = Some (tt, s') /\ changed c (cleared ch) (buffers va ch) s s'.
Proof.
  intros Hch Hg Hr Hon. destruct (shut_down_run s c ch Hch Hg) as (s1 & Hrun & Hchg).
  unfold unregister_tx. step (ltac:(unfold chan, get, bind, deref, ret; by rewrite Hch) : chan c s = Some (ch, s)).
  rewrite Hon, Z.eqb_refl. cbn [If]. step Hrun.
  pose proof (lookup_lt_Some _ _ _ Hch) as Hc. rewrite (changed_on _ _ _ _ Hchg Hc).
  assert (Hc1 : (c < length (dma_chan s1))%nat) by (by rewrite (ch_chans _ _ _ _ _ Hchg), length_insert).
  rewrite (ring_len_ok _ Hr), Nat2Z.id.
  rewrite (free_loop_tx va s1 c Hc1 (length (ring ch)) (off ch) _ _ 0 (ring ch)); [| done | done | apply Hr].
  eexists. split; [reflexivity|]. destruct Hchg as [H1 H2 H3 H4 H5].
  split; cbn; [by rewrite H1, list_insert_insert_eq | done | by rewrite H3, app_nil_r | done | done].
Qed.
Lemma unregister_rx_run va s c ch : dma_chan s !! c = Some ch -> (c < length (chan_regs s))%nat -> ring_ok ch ->
  exists s', unregister_rx va c s = Some (tt, s') /\ changed c (off ch) (buffers va ch) s s'.
Proof.
  intros Hch Hg Hr. unfold unregister_rx.
  step (ltac:(unfold chan, get, bind, deref, ret; by rewrite Hch) : chan c s = Some (ch, s)).
  unfold bind at 1, disable_danube_irq, put. unfold bind at 1, status_clear, put.
  set (s0 := set_status _ _). destruct (shut_down_run s0 c ch Hch Hg) as (s1 & Hrun & Hchg). step Hrun.
  pose proof (lookup_lt_Some _ _ _ Hch) as Hc. rewrite (changed_on _ _ _ _ Hchg Hc).
  assert (Hc1 : (c < length (dma_chan s1))%nat) by (by rewrite (ch_chans _ _ _ _ _ Hchg), length_insert).
  rewrite (ring_len_ok _ Hr), Nat2Z.id.
  rewrite (free_loop_rx va s1 c Hc1 (length (ring ch)) (off ch)) by (exact (eq_sym (slots_length ch Hr))).
  eexists. split; [reflexivity|]. destruct Hchg as [H1 H2 H3 H4 H5].
  split; cbn; [by rewrite H1, list_insert_insert_eq | done | by rewrite H3, app_nil_r | done | done].
Qed.

(** Unregistering gives back every buffer of a channel once. Done twice, a transmit
    channel gives nothing back the second time; a receive channel, whose descriptors are not
    cleared and whose control is not tested, frees the same buffers again. *)
Theorem unregister_twice va s c ch : dma_chan s !! c = Some ch -> (c < length (chan_regs s))%nat -> ring_ok ch ->
  control ch = DANUBE_DMA_CH_ON ->
  (exists s1, unregister_tx va c s = Some (tt, s1) /\ freed s1 = (freed s ++ buffers va ch)%list /\
     unregister_tx va c s1 = Some (tt, s1)) /\
  (exists s1 s2, unregister_rx va c s = Some (tt, s1) /\ freed s1 = (freed s ++ buffers va ch)%list /\
     unregister_rx va c s1 = Some (tt, s2) /\ freed s2 = (freed s ++ buffers va ch ++ buffers va ch)%list).
Proof.
  intros Hch Hg Hr Hon. pose proof (lookup_lt_Some _ _ _ Hch) as Hc. split.
  - destruct (unregister_tx_run va s c ch Hch Hg Hr Hon) as (s1 & Hrun & Hchg). exists s1.
    split; [done|]. split; [apply Hchg|]. unfold unregister_tx.
    step (ltac:(unfold chan, get, bind, deref, ret; by rewrite (changed_lookup _ _ _ _ _ Hc Hchg)) :
      chan c s1 = Some (cleared ch, s1)). done.
  - destruct (unregister_rx_run va s c ch Hch Hg Hr) as (s1 & Hrun & Hchg).
    destruct (unregister_rx_run va s1 c (off ch)) as (s2 & Hrun2 & Hchg2);
      [by eapply changed_lookup | by rewrite (ch_regs _ _ _ _ _ Hchg) | by destruct Hr |].
    exists s1, s2. split_and!; [done | apply Hchg | done |].
    by rewrite (ch_freed _ _ _ _ _ Hchg2), (ch_freed _ _ _ _ _ Hchg), <- (assoc_L app), buffers_off.
Qed.

(** ** Initialisation *)

(** The channels a device receives and sends through. *)
Definition device_channels (v : device) : string * list (option nat) * list (option nat) :=
  (device_name v, take (Z.to_nat (max_rx_chan_num v)) (rx_chan v), take (Z.to_nat (max_tx_chan_num v)) (tx_chan v)).
(** The device of a channel, the direction, and the number the interrupt handlers give
    the device as its current channel. *)
Definition channel_link (ch : channel) : option nat * Z * Z := (dma_dev ch, dir ch, rel_chan_no ch).

(** map_dma_chan, every line granted, links each channel of the table to the device
    of its name and puts it behind the device's other channels of its direction. *)
Theorem channels_mapped D2 D4 l : exists s',
  map_dma_chan D2 D4 (fun _ => true) default_dma_map (loaded l) = Some (IFX_SUCCESS, s') /\
  device_channels <$> dma_devs s' = [
    ("PPE", [Some 0; Some 2; Some 4; Some 6], [Some 1; Some 3; Some 5; Some 7]);
    ("DEU", [Some 8; Some 10], [Some 9; Some 11]);
    ("SPI", [Some 12], [Some 13]); ("SDIO", [Some 14], [Some 15]);
    ("MCTRL0", [Some 16], [Some 17]); ("MCTRL1", [Some 18], [Some 19]) ]%nat /\
  channel_link <$> dma_chan s' =
    (fun x => (Some (x.1.1 : nat), if x.1.2 : bool then DANUBE_DMA_RX else DANUBE_DMA_TX, x.2)) <$> [
    (0, true, 0%Z); (0, false, 0%Z); (0, true, 1%Z); (0, false, 1%Z); (0, true, 2%Z); (0, false, 2%Z);
    (0, true, 3%Z); (0, false, 3%Z); (1, true, 0%Z); (1, false, 0%Z); (1, true, 1%Z); (1, false, 1%Z);
    (2, true, 0%Z); (2, false, 0%Z); (3, true, 0%Z); (3, false, 0%Z); (4, true, 0%Z); (4, false, 0%Z);
    (5, true, 1%Z); (5, false, 1%Z) ]%nat.
Proof.
  destruct D2, D4; eexists; (split; [vm_compute; reflexivity|]); (split; vm_compute; reflexivity).
Qed.

(** The state after danube_dma_init, with the default options. *)
Definition booted : dma :=
  match danube_dma_init false false id (fun _ => true) 5 0 None 0x10000
          (loaded (replicate MAX_DMA_CHANNEL_NUM (mk_regs 0 0 0 0 0 0))) with
  | Some (_, s) => s
  | None => loaded []
  end.

(** A handler that reads the frame it is told of, as the drivers do. *)
Definition reading (d : nat) (status : Z) : M unit := dma_device_read id id d;;; ret tt.

(** The receive channel of MCTRL1 is entry 0 of its array, but the number given to the
    device is 1: a frame on channel 18 makes the handler's read follow a null pointer. *)
Theorem mctrl1_read_faults D2 s ch y v :
  dma_chan s !! 18%nat = Some ch -> dma_dev ch = Some 5%nat -> rel_chan_no ch = 1 ->
  at_index (ring ch) (curr_desc ch) = Some y -> completed y = true -> data_length y < 1536 ->
  dma_devs s !! 5%nat = Some v -> intr_handler v = true -> rx_chan v !! 1%nat = Some None ->
  rx_chan_intr_handler D2 reading 18 s = None.
Proof.
  intros Hch Hd Hrel Hy Hcomp Hlen Hv Hh Hrx. unfold rx_chan_intr_handler.
  step (ltac:(unfold chan, get, bind, deref, ret; by rewrite Hch) : chan 18 s = Some (ch, s)).
  step (desc_run _ _ _ _ _ Hch Hy). rewrite Hcomp, (proj2 (Z.ltb_lt _ _) Hlen), orb_true_r. cbn [andb].
  step (ltac:(by rewrite Hd) : deref (dma_dev ch) s = Some (5%nat, s)). step (dev_run _ _ _ Hv).
  unfold bind at 1, upd_dev, put. set (s1 := set_devs _ _). rewrite Hh. cbn [If].
  set (v1 := set_current (rel_chan_no ch) (current_tx_chan v) v).
  assert (Hv1 : dma_devs s1 !! 5%nat = Some v1) by (cbn; by rewrite list_lookup_alter_eq, Hv).
  unfold bind at 1, reading, dma_device_read. do 2 (unfold bind at 1). rewrite (dev_run _ _ _ Hv1).
  assert (Hat : at_index (rx_chan v1) (current_rx_chan v1) = Some None) by (cbn; rewrite Hrel; exact Hrx).
  unfold bind at 1, chan_at, bind at 1. by rewrite Hat.
Qed.

(** ** Reservation *)
Lemma reserve_loop_run name s : forall n i, (i + n = length (dma_devs s))%nat ->
  exists j, (i <= j <= length (dma_devs s))%nat /\
    (forall k v, (i <= k < j)%nat -> dma_devs s !! k = Some v -> device_name v <> name) /\
    reserve_loop n i name s =
      match dma_devs s !! j with
      | Some v => if nz (reserved v) then Some (None, s)
                  else Some (Some j, set_devs (alter (set_reserved 1) j (dma_devs s)) s)
      | None => Some (Some (length (dma_devs s)), s)
      end /\ (forall v, dma_devs s !! j = Some v -> device_name v = name).
Proof.
  induction n as [|n IH]; intros i Hi; cbn [reserve_loop].
  - exists (length (dma_devs s)). rewrite lookup_ge_None_2 by lia. split; [lia|].
    split; [intros; lia|]. split; [|done]. unfold ret. do 3 f_equal. lia.
  - destruct (lookup_lt_is_Some_2 (dma_devs s) i ltac:(lia)) as [v Hv]. step (dev_run _ _ _ Hv).
    destruct (name =? device_name v)%string eqn:E.
    + apply String.eqb_eq in E. exists i. rewrite Hv. split; [lia|]. split; [intros; lia|].
      split; [by destruct (nz (reserved v)) | by intros ? [= <-]].
    + apply String.eqb_neq in E. destruct (IH (S i) ltac:(lia)) as (j & Hj & Hbefore & Hrun & Hname).
      exists j. split; [lia|]. split; [|done]. intros k w Hk Hw.
      destruct (decide (k = i)) as [->|Hne]; [rewrite Hv in Hw; injection Hw as <-; congruence|].
      apply (Hbefore k w); [lia | done].
Qed.

(** dma_device_reserve gives a device to one client at a time: the first device of the
    name, or NULL while it is reserved, until it is released.  For a name no device has
    it returns not NULL but the address behind the last device. *)
Theorem reserve_exclusive name s : length (dma_devs s) = MAX_DMA_DEVICE_NUM ->
  (Forall (fun v => device_name v <> name) (dma_devs s) /\
     dma_device_reserve name s = Some (Some MAX_DMA_DEVICE_NUM, s)) \/
  exists i v, dma_devs s !! i = Some v /\ device_name v = name /\
    (reserved v <> 0 -> dma_device_reserve name s = Some (None, s)) /\
    (reserved v = 0 -> exists s1, dma_device_reserve name s = Some (Some i, s1) /\
       dma_device_reserve name s1 = Some (None, s1) /\
       exists s2, dma_device_release i s1 = Some (IFX_SUCCESS, s2) /\
         dma_device_reserve name s2 = Some (Some i, s1)).
Proof.
  intros Hl.
  assert (Hres : forall s', length (dma_devs s') = MAX_DMA_DEVICE_NUM -> forall i v,
    dma_devs s' !! i = Some v -> device_name v = name ->
    (forall k w, (k < i)%nat -> dma_devs s' !! k = Some w -> device_name w <> name) ->
    dma_device_reserve name s' = if nz (reserved v) then Some (None, s')
      else Some (Some i, set_devs (alter (set_reserved 1) i (dma_devs s')) s')).
  { intros s' Hl' i v Hi Hn Hbefore. destruct (reserve_loop_run name s' MAX_DMA_DEVICE_NUM 0) as (j & Hj & Hno & Hrun & Hname); [by rewrite Hl'|].
    unfold dma_device_reserve. rewrite Hrun. destruct (Nat.lt_trichotomy i j) as [H|[<-|H]].
    - by destruct (Hno i v ltac:(lia) Hi).
    - by rewrite Hi.
    - destruct (lookup_lt_is_Some_2 (dma_devs s') j) as [w Hw]; [by apply lookup_lt_Some in Hi; lia|].
      by destruct (Hbefore j w H Hw (Hname w Hw)). }
  destruct (reserve_loop_run name s MAX_DMA_DEVICE_NUM 0) as (j & Hj & Hno & Hrun & Hname); [by rewrite Hl|].
  destruct (dma_devs s !! j) as [v|] eqn:Hv.
  - right. exists j, v. assert (Hbefore : forall k w, (k < j)%nat -> dma_devs s !! k = Some w -> device_name w <> name)
      by (intros k w Hk Hw; apply (Hno k w); [lia | done]).
    split; [done|]. split; [by apply Hname|]. rewrite (Hres s Hl j v Hv (Hname v eq_refl) Hbefore). unfold nz.
    split; [intros H; by rewrite (proj2 (Z.eqb_neq _ _) H)|]. intros ->. change (negb (0 =? 0)) with false. cbv iota.
    set (s1 := set_devs (alter (set_reserved 1) j (dma_devs s)) s). exists s1. split; [done|].
    assert (Hfirst : forall x s', dma_devs s' = alter (set_reserved x) j (dma_devs s) ->
      dma_device_reserve name s' = if nz x then Some (None, s')
        else Some (Some j, set_devs (alter (set_reserved 1) j (dma_devs s')) s')).
    { intros x s' Hs'. rewrite (Hres s' ltac:(by rewrite Hs', length_alter) j (set_reserved x v)); try done.
      - by rewrite Hs', list_lookup_alter_eq, Hv.
      - exact (Hname v eq_refl).
      - intros k w Hk. rewrite Hs', list_lookup_alter_ne by lia. by apply Hbefore. }
    split; [by rewrite (Hfirst 1 s1)|].
    exists (set_devs (alter (set_reserved 0) j (dma_devs s1)) s1). split.
    + unfold dma_device_release. assert (H1 : dma_devs s1 !! j = Some (set_reserved 1 v)) by (cbn; by rewrite list_lookup_alter_eq, Hv).
      by step (dev_run j _ s1 H1).
    + rewrite (Hfirst 0) by (cbn; by rewrite list_alter_alter_eq). cbn. do 2 f_equal.
      unfold s1, set_devs. cbn. by rewrite !list_alter_alter_eq.
  - left. split; [|unfold dma_device_reserve; by rewrite Hrun, Hl]. apply Forall_lookup. intros i v Hi. apply (Hno i v); [|done].
    split; [lia|]. apply lookup_ge_None in Hv. apply lookup_lt_Some in Hi. lia.
Qed.

(** ** Instances *)

(** The pointers of the driver, checked. *)
Definition wfb (s : dma) : bool :=
  (length (dma_chan s) =? MAX_DMA_CHANNEL_NUM)%nat && (length (chan_regs s) =? MAX_DMA_CHANNEL_NUM)%nat &&
  forallb (fun ch => bool_decide (is_Some (at_index (ring ch) (curr_desc ch))) &&
    match dma_dev ch with Some d => (d <? length (dma_devs s))%nat | None => false end) (dma_chan s).
Lemma wfb_wf s : wfb s = true -> wf s.
Proof.
  unfold wfb. intros H. apply andb_true_iff in H as [H H3]. apply andb_true_iff in H as [H1 H2].
  apply Nat.eqb_eq in H1, H2. split; [done | done |]. apply Forall_forall. intros ch Hch.
  rewrite forallb_forall in H3. apply list_elem_of_In in Hch. specialize (H3 ch Hch).
  apply andb_true_iff in H3 as [Hy Hd]. apply bool_decide_eq_true in Hy. split; [done|].
  destruct (dma_dev ch) as [d|]; [|done]. exists d. split; [done|]. by apply Nat.ltb_lt.
Qed.
Lemma booted_settled : settled booted.
Proof.
  split; [apply wfb_wf; vm_compute; reflexivity | |].
  - intros _. split; vm_compute; reflexivity.
  - intros H. exfalso. apply H. vm_compute. reflexivity.
Qed.
Lemma ex_client_runs d status : runs busy (ex_client d status) busy.
Proof. apply runs_ret. Qed.


(** The packet processor's device is registered while there is memory for one buffer;
    a frame arrives in it and the handler reads it. *)
Definition short_of_buffers : M unit :=
  upd_dev 0 (fun v => mk_device (device_name v) (reserved v) (tx_burst_len v) (rx_burst_len v) (current_tx_chan v)
    (current_rx_chan v) (num_tx_chan v) (num_rx_chan v) (max_rx_chan_num v) (max_tx_chan_num v)
    (tx_chan v) (rx_chan v) true);;;
  upd_chan 0 (fun ch => set_control DANUBE_DMA_CH_ON ch);;;
  put (fun s => set_memory [Some (0x2000, 0, 1)] (freed s) s);;;
  dma_device_register false id 0;;;
  upd_chan 0 (fun ch => set_ring (<[0%nat := mk_desc (2 ^ 30 + 60) 0x2000]> (ring ch)) ch);;;
  dma_interrupt 0;;;
  put (fun s => set_process (in_process s) false s);;;
  do_dma_tasklet false reading [];;;
  put (fun s => set_process (in_process s) false s).
Definition short : dma := match short_of_buffers booted with Some (_, s) => s | None => booted end.

Example stuck_channel_witness : curr_desc <$> dma_chan short !! 0%nat = Some 1 /\
  exists s', do_dma_tasklet false reading [] short = Some (tt, s') /\
    dma_chan s' = dma_chan short /\ int_status s' = int_status short /\ tasklet s' = true /\
    stuck false 0 (set_process (in_process s') false s').
Proof.
  split; [vm_compute; reflexivity|].
  apply (stuck_channel false reading 0 short). split.
  - split; [apply wfb_wf; vm_compute; reflexivity | | vm_compute; reflexivity].
    apply Z.eqb_neq. vm_compute. reflexivity.
  - vm_compute. reflexivity.
  - reflexivity.
  - do 2 eexists. split; [vm_compute; reflexivity|]. split_and!; vm_compute; reflexivity.
Defined.

(** MCTRL1 with a handler and a frame on channel 18. *)
Definition mctrl1_frame : M unit :=
  upd_dev 5 (fun v => mk_device (device_name v) (reserved v) (tx_burst_len v) (rx_burst_len v) (current_tx_chan v)
    (current_rx_chan v) (num_tx_chan v) (num_rx_chan v) (max_rx_chan_num v) (max_tx_chan_num v)
    (tx_chan v) (rx_chan v) true);;;
  upd_chan 18 (fun ch => set_ring (<[0%nat := mk_desc (2 ^ 30 + 60) 0x2000]> (ring ch)) ch).
Definition mctrl1 : dma := match mctrl1_frame booted with Some (_, s) => s | None => loaded [] end.
Example mctrl1_read_faults_witness : rx_chan_intr_handler false reading 18 mctrl1 = None.
Proof.
  destruct (dma_chan mctrl1 !! 18%nat) as [ch|] eqn:Hch; [|by vm_compute in Hch].
  destruct (dma_devs mctrl1 !! 5%nat) as [v|] eqn:Hv; [|by vm_compute in Hv].
  apply (mctrl1_read_faults false mctrl1 ch (mk_desc (2 ^ 30 + 60) 0x2000) v Hch);
    vm_compute in Hch, Hv; injection Hch as <-; injection Hv as <-; try reflexivity; vm_compute; reflexivity.
Defined.

Example reserve_exclusive_witness :
  length (dma_devs booted) = MAX_DMA_DEVICE_NUM /\
  ((Forall (fun v => device_name v <> "DEU") (dma_devs booted) /\
     dma_device_reserve "DEU" booted = Some (Some MAX_DMA_DEVICE_NUM, booted)) \/
  exists i v, dma_devs booted !! i = Some v /\ device_name v = "DEU" /\
    (reserved v <> 0 -> dma_device_reserve "DEU" booted = Some (None, booted)) /\
    (reserved v = 0 -> exists s1, dma_device_reserve "DEU" booted = Some (Some i, s1) /\
       dma_device_reserve "DEU" s1 = Some (None, s1) /\
       exists s2, dma_device_release i s1 = Some (IFX_SUCCESS, s2) /\
         dma_device_reserve "DEU" s2 = Some (Some i, s1))).
Proof.
  assert (H : length (dma_devs booted) = MAX_DMA_DEVICE_NUM) by (vm_compute; reflexivity).
  split; [exact H | exact (reserve_exclusive "DEU" booted H)].
Defined.

(** A receive ring of two with both buffers the controller's. *)
Example unregister_twice_witness :
  let s := ex_rx_dma (2 ^ 31 + 256) (2 ^ 31 + 256) [] in
  let ch := ex_rx (2 ^ 31 + 256) (2 ^ 31 + 256) in
  buffers id ch = [(4096, 11); (8192, 12)] /\
  (exists s1, unregister_tx id 0 s = Some (tt, s1) /\ freed s1 = (freed s ++ buffers id ch)%list /\
     unregister_tx id 0 s1 = Some (tt, s1)) /\
  (exists s1 s2, unregister_rx id 0 s = Some (tt, s1) /\ freed s1 = (freed s ++ buffers id ch)%list /\
     unregister_rx id 0 s1 = Some (tt, s2) /\ freed s2 = (freed s ++ buffers id ch ++ buffers id ch)%list).
Proof.
  cbv zeta. split; [vm_compute; reflexivity|].
  apply (unregister_twice id (ex_rx_dma (2 ^ 31 + 256) (2 ^ 31 + 256) []) 0 (ex_rx (2 ^ 31 + 256) (2 ^ 31 + 256))).
  - reflexivity.
  - apply Nat.ltb_lt. reflexivity.
  - split; reflexivity.
  - reflexivity.
Defined.
