(* ===== verification/DmaFair.v ===== *)
(** * DmaFair: no channel waits for ever

    A pending channel with weight left is served after a number of turns of the tasklet
    that the weights bound, unless a channel gets stuck. *)
From S2P Require Import Prelude Dma DmaRing DmaTx DmaTrace DmaIrq DmaInit.
Import Dma.

(** ** What a turn does to weights and pending bits *)
Definition weights (s : dma) : list Z := weight <$> dma_chan s.
(** The weights and the pending bits are the same. *)
Definition kept (s s' : dma) : Prop := weights s' = weights s /\ int_status s' = int_status s.

Lemma weights_lookup s i w : weights s !! i = Some w <-> exists ch, dma_chan s !! i = Some ch /\ weight ch = w.
Proof.
  unfold weights. rewrite list_lookup_fmap. destruct (dma_chan s !! i); cbn; split; try done.
  - intros [= <-]. by eexists.
  - intros (? & [= <-] & <-). done.
  - by intros (? & ? & _).
Qed.
Lemma alter_weight_map (f : channel -> channel) (g : Z -> Z) (c : nat) (l : list channel) : (forall ch, weight (f ch) = g (weight ch)) ->
  weight <$> alter f c l = alter g c (weight <$> l).
Proof. intros H. revert c. induction l as [|ch l IH]; intros [|c]; cbn; f_equal; auto. Qed.

(** How a turn that serves channel [i] changes them. *)
Definition served (i : nat) (s s' : dma) : Prop :=
  (weights s' = alter Z.pred i (weights s) /\ int_status s' = int_status s) \/
  (weights s' = weights s /\ int_status s' = Z.ldiff (int_status s) (bit i)).

Section Fair.
Context (D2 : bool) (client : nat -> Z -> M unit).
Context (Hclient : forall d status, runs busy (client d status) busy).
Context (Hkeep : forall d status s s', client d status s = Some (tt, s') -> kept s s').

Lemma If_client_keeps (b : bool) d status s : busy s -> exists s',
  If b (client d status) s = Some (tt, s') /\ busy s' /\ kept s s'.
Proof.
  intros Hs. destruct b; [|by exists s]. destruct (Hclient d status s Hs) as ([] & s' & Hrun & Hs').
  exists s'. split; [done|]. split; [done | by eapply Hkeep].
Qed.

Lemma rx_served c s : busy s -> (c < MAX_DMA_CHANNEL_NUM)%nat -> exists s',
  rx_chan_intr_handler D2 client c s = Some (tt, s') /\ busy s' /\
  (served c s s' \/ exists ch y, dma_chan s !! c = Some ch /\ at_index (ring ch) (curr_desc ch) = Some y /\
     OWN y = CPU_OWN /\ completed y && (D2 || (data_length y <? 1536)) = false).
Proof.
  intros Hs Hc. destruct (busy_chan s c Hs Hc) as (ch & y & d & r & v & Hch & Hy & Hd & Hv & Hr).
  assert (Hr' : at_index (chan_regs s) (Z.of_nat c) = Some r).
  { unfold at_index. rewrite (proj2 (Z.ltb_ge _ _)) by lia. by rewrite Nat2Z.id. }
  unfold rx_chan_intr_handler.
  step (ltac:(unfold chan, get, bind, deref, ret; by rewrite Hch) : chan c s = Some (ch, s)).
  step (desc_run _ _ _ _ _ Hch Hy). destruct (_ && _) eqn:Ecomp.
  - step (ltac:(by rewrite Hd) : deref (dma_dev ch) s = Some (d, s)). step (dev_run _ _ _ Hv).
    unfold bind at 1, upd_dev, put. set (s1 := set_devs _ _).
    assert (Hs1 : busy s1) by (apply (busy_ext s); try done; cbn; by rewrite length_alter).
    destruct (If_client_keeps (intr_handler v) d RCV_INT s1 Hs1) as (s2 & Hrun & Hs2 & Hk). step Hrun.
    unfold upd_chan, put. eexists. split; [reflexivity|]. split.
    + apply busy_weights; [done|]. apply alter_weights. intros ch'. by eexists.
    + left. left. destruct Hk as [Hk1 Hk2]. split; [|exact Hk2]. unfold weights. cbn.
      rewrite (alter_weight_map _ Z.pred) by done. unfold weights in Hk1. by rewrite Hk1.
  - rewrite (ack_run c r s _ Hr'). unfold bind at 1, enable_danube_irq, put. set (s1 := set_irqs _ _).
    assert (Hs1 : busy s1) by (apply (busy_ext (acked c s)); try done; by apply acked_busy).
    step (desc_run c (curr_desc ch) ch y s1 Hch Hy). destruct (OWN y =? CPU_OWN) eqn:Eown; cbn [negb If].
    + exists s1. split; [done|]. split; [done|]. right. exists ch, y. bool_to_prop. done.
    + eexists. split; [reflexivity|]. split; [by apply (busy_ext s1)|]. left. right. done.
Qed.
Lemma tx_served c s : busy s -> (c < MAX_DMA_CHANNEL_NUM)%nat -> exists s',
  tx_chan_intr_handler client c s = Some (tt, s') /\ busy s' /\ served c s s'.
Proof.
  intros Hs Hc. destruct (busy_chan s c Hs Hc) as (ch & y & d & r & v & Hch & Hy & Hd & Hv & Hr).
  assert (Hr' : at_index (chan_regs s) (Z.of_nat c) = Some r).
  { unfold at_index. rewrite (proj2 (Z.ltb_ge _ _)) by lia. by rewrite Nat2Z.id. }
  unfold tx_chan_intr_handler.
  step (ltac:(unfold chan, get, bind, deref, ret; by rewrite Hch) : chan c s = Some (ch, s)).
  rewrite (ack_run c r s _ Hr'). unfold bind at 1, status_clear, put. set (s1 := set_status _ _).
  step (ltac:(by rewrite Hd) : deref (dma_dev ch) s1 = Some (d, s1)). step (dev_run d v s1 Hv).
  unfold bind at 1, upd_dev, put. set (s2 := set_devs _ _).
  assert (Hs2 : busy s2) by (apply (busy_ext (acked c s)); try done; [by apply acked_busy | cbn; by rewrite length_alter]).
  destruct (If_client_keeps (intr_handler v) d TRANSMIT_CPT_INT s2 Hs2) as (s3 & Hrun & Hs3 & Hk1 & Hk2).
  exists s3. split; [exact Hrun|]. split; [done|]. right. by rewrite Hk1, Hk2.
Qed.

Lemma turn_serves s i : busy s -> wfq s = Some i -> exists s',
  tasklet_turn D2 client s = Some (tt, s') /\ busy s' /\ (served i s s' \/ stuck D2 i s).
Proof.
  intros Hs Hw. pose proof (wfq_lt s i Hs Hw) as Hi. unfold tasklet_turn. unfold bind at 1, get. rewrite Hw.
  destruct (lookup_lt_is_Some_2 default_dma_map i Hi) as [m Hm]. rewrite Hm.
  unfold bind, deref, ret. destruct (map_dir m =? DANUBE_DMA_RX) eqn:Ed; bool_to_prop.
  - destruct (rx_served i s Hs Hi) as (s' & Hrun & Hs' & [Hserv|Hst]); exists s'; (split; [exact Hrun|]); (split; [done|]);
      [by left | right].
    split; [done | done | by rewrite Hm; cbn; rewrite Ed | done].
  - destruct (tx_served i s Hs Hi) as (s' & Hrun & Hs' & Hserv). exists s'. split; [exact Hrun|]. split; [done | by left].
Qed.

(** ** The turns before a channel is served *)

(** [n] turns of the tasklet. *)
Fixpoint turns (n : nat) : M unit :=
  match n with O => ret tt | S n' => tasklet_turn D2 client;;; turns n' end.

(** The turns another channel can take before one of weight [w]: until its weight is
    below, or until it is not pending. *)
Definition ahead (s : dma) (c : nat) (w : Z) (i : nat) : nat :=
  if decide (i = c) then 0
  else if Z.testbit (int_status s) (Z.of_nat i) then Z.to_nat (default 0 (weights s !! i) - w + 1) else 0.
Definition wait (s : dma) (c : nat) (w : Z) : nat := sum_list (ahead s c w <$> seq 0 MAX_DMA_CHANNEL_NUM).

Lemma sum_list_lt {A} (f g : A -> nat) x l : x ∈ l -> (forall y, y ∈ l -> (g y <= f y)%nat) -> (g x < f x)%nat ->
  (sum_list (g <$> l) < sum_list (f <$> l))%nat.
Proof.
  intros Hx Hle Hlt. assert (Hall : forall l, (forall y, y ∈ l -> (g y <= f y)%nat) -> (sum_list (g <$> l) <= sum_list (f <$> l))%nat).
  { clear. induction l as [|y l IH]; intros H; [done|]. cbn.
    pose proof (H y ltac:(left)). pose proof (IH ltac:(intros z Hz; apply H; by right)). lia. }
  induction l as [|y l IH]; [by apply elem_of_nil in Hx|]. cbn.
  apply elem_of_cons in Hx as [<-|Hx].
  - pose proof (Hall l ltac:(intros z Hz; apply Hle; by right)). lia.
  - pose proof (Hle y ltac:(left)). pose proof (IH Hx ltac:(intros z Hz; apply Hle; by right)). lia.
Qed.

Lemma ldiff_bit_testbit st i j : Z.testbit (Z.ldiff st (bit i)) (Z.of_nat j) = Z.testbit st (Z.of_nat j) && negb (bool_decide (j = i)).
Proof.
  rewrite Z.ldiff_spec. f_equal. f_equal. unfold bit. rewrite Z.shiftl_1_l, Z.pow2_bits_eqb by lia.
  case_bool_decide as E; [subst; apply Z.eqb_refl | apply Z.eqb_neq; lia].
Qed.

Lemma candidate_weights s c w : candidate s c w <->
  weights s !! c = Some w /\ Z.testbit (int_status s) (Z.of_nat c) = true /\ 0 < w.
Proof. unfold candidate. rewrite weights_lookup. naive_solver. Qed.

(** A turn for another channel leaves [c] where it was, and less is ahead of it. *)
Lemma served_other s s' i c w : busy s -> wfq s = Some i -> i <> c -> candidate s c w -> served i s s' ->
  candidate s' c w /\ (wait s' c w < wait s c w)%nat.
Proof.
  intros Hs Hi Hne Hc Hserv. pose proof (wfq_lt s i Hs Hi) as Hlt.
  pose proof (wfq_chooses s) as Hch. rewrite Hi in Hch. destruct Hch as (wi & Hci & Hmax).
  destruct (Hmax c w Hc) as [Hge _]. apply candidate_weights in Hc as (Hcw & Hct & Hcp).
  apply candidate_weights in Hci as (Hiw & Hit & Hip). split.
  - apply candidate_weights. destruct Hserv as [[Hw Hst]|[Hw Hst]]; rewrite Hw, Hst.
    + by rewrite list_lookup_alter_ne.
    + rewrite ldiff_bit_testbit, Hct. by rewrite bool_decide_eq_false_2.
  - apply (sum_list_lt _ _ i); [apply elem_of_seq; lia | |].
    + intros j _. unfold ahead. destruct Hserv as [[Hw Hst]|[Hw Hst]]; rewrite Hw, Hst.
      * case_decide; [done|]. destruct (Z.testbit (int_status s) (Z.of_nat j)); [|done].
        destruct (decide (i = j)) as [->|]; [rewrite list_lookup_alter_eq, Hiw; cbn; lia | by rewrite list_lookup_alter_ne].
      * case_decide; [done|]. rewrite ldiff_bit_testbit. destruct (Z.testbit (int_status s) (Z.of_nat j)), (bool_decide (j = i)); cbn; lia.
    + unfold ahead. rewrite !decide_False by done. rewrite Hit, Hiw. cbn.
      destruct Hserv as [[Hw Hst]|[Hw Hst]]; rewrite Hw, Hst.
      * rewrite Hit, list_lookup_alter_eq, Hiw. cbn. lia.
      * rewrite ldiff_bit_testbit, bool_decide_eq_true_2, andb_false_r by done. lia.
Qed.

(** A pending channel with weight left is the one the tasklet serves after at most as
    many turns as the weights of the other pending channels exceed its own, plus one for
    each: no channel starves, whatever the clients do that leaves weights and pending bits
    alone, unless a stuck channel is met first. A turn serves the pending channel of the
    greatest weight, and takes a unit of its weight or its pending bit. *)
Theorem served_in_time s c w : busy s -> candidate s c w ->
  exists n s', (n <= wait s c w)%nat /\ turns n s = Some (tt, s') /\
    (wfq s' = Some c \/ exists i, stuck D2 i s').
Proof.
  remember (wait s c w) as k eqn:Hk. revert s Hk. induction k as [k IH] using lt_wf_ind. intros s -> Hs Hc.
  destruct (wfq s) as [i|] eqn:Hi.
  - destruct (decide (i = c)) as [->|Hne]; [exists 0%nat, s; split; [lia|]; by split; [|left]|].
    destruct (turn_serves s i Hs Hi) as (s1 & Hrun & Hs1 & [Hserv|Hst]); [|exists 0%nat, s; split; [lia|]; split; [done|]; right; by exists i].
    destruct (served_other s s1 i c w Hs Hi Hne Hc Hserv) as [Hc1 Hlt].
    destruct (IH _ Hlt s1 eq_refl Hs1 Hc1) as (n & s' & Hn & Hrun' & Hres).
    exists (S n), s'. split; [lia|]. split; [|done]. cbn. by step Hrun.
  - exfalso. pose proof (wfq_chooses s) as H. rewrite Hi in H. by apply (H c w).
Qed.
End Fair.

(** ** An instance: channels 0 and 6 pending, their descriptors the controller's *)
Definition give (c : nat) : M unit := upd_chan c (fun ch => set_ring (<[0%nat := mk_desc (2 ^ 31) 0]> (ring ch)) ch).
Definition two_pending : dma :=
  match (give 0;;; give 6;;; dma_interrupt 0;;; dma_interrupt 6;;; put (fun s => set_process (in_process s) false s))%dma booted with
  | Some (_, s) => s
  | None => booted
  end.
Lemma ex_client_keeps d status s s' : ex_client d status s = Some (tt, s') -> kept s s'.
Proof. intros [= <-]. by split. Qed.

Example served_in_time_witness : wait two_pending 6 100 = 1%nat /\
  exists n s', (n <= wait two_pending 6 100)%nat /\ turns false ex_client n two_pending = Some (tt, s') /\
    (wfq s' = Some 6%nat \/ exists i, stuck false i s').
Proof.
  split; [vm_compute; reflexivity|].
  apply (served_in_time false ex_client ex_client_runs ex_client_keeps two_pending 6 100).
  - split; [apply wfb_wf; vm_compute; reflexivity | | vm_compute; reflexivity].
    apply Z.eqb_neq. vm_compute. reflexivity.
  - apply candidate_weights. split; [vm_compute; reflexivity|]. split; [vm_compute; reflexivity | lia].
Defined.
