(* ===== verification/Icu.v ===== *)
(** * Icu: the interrupt controller of the SoC

    arch/mips/infineon/danube/basic/interrupt.c: the five modules of 32 lines each, their
    enable and status registers, the search for the lowest pending line, the
    dispatchers and [init_IRQ], as the kernel of CPU0 or of CPU1 is built. *)
From S2P Require Import Prelude.

Module Icu.

(** ** The lines *)
Definition INT_NUM_IM_IRL0 (im : nat) : Z := 32 * Z.of_nat im.
Definition INT_NUM_IM_IRL31 (im : nat) : Z := 32 * Z.of_nat im + 31.
Definition INT_NUM_IM0_IRL22 : Z := 22.
Definition INT_NUM_IM0_IRL26 : Z := 26.
Definition IRQ_INPROGRESS : Z := 1.
Definition IRQ_DISABLED : Z := 2.

(** [DANUBE_ICU_IM0_IER_IR(value)], on 32 bits; the ISR macros are the same. *)
Definition IER_IR (value : Z) : Z := Z.shiftl 1 value.
(** [~x] on 32 bits. *)
Definition not32 (x : Z) : Z := Z.lxor x (Z.ones 32).

(** The registers the driver writes: the enable registers; what has been written to
    the status registers, where a 1 acknowledges; ISTAT of the external bus; and the
    calls of [do_IRQ].  [irq_status] is [irq_desc[i].status]. *)
Record icu := mk_icu {
  IER : list Z; ISR : list (nat * Z); EBU_PCC_ISTAT : Z; do_IRQ : list Z; irq_status : list Z }.

Definition set_IER (im : nat) (f : Z -> Z) (s : icu) : icu :=
  mk_icu (alter f im (IER s)) (ISR s) (EBU_PCC_ISTAT s) (do_IRQ s) (irq_status s).
Definition write_ISR (im : nat) (v : Z) (s : icu) : icu :=
  mk_icu (IER s) (ISR s ++ [(im, v)])%list (EBU_PCC_ISTAT s) (do_IRQ s) (irq_status s).

(** The chain of tests: the module of a line, and the line's number in it. *)
Definition in_module (im : nat) (irq_nr : Z) : bool :=
  (irq_nr <=? INT_NUM_IM_IRL31 im) && (INT_NUM_IM_IRL0 im <=? irq_nr).
Definition on_module (irq_nr : Z) (f : nat -> Z -> icu -> icu) (s : icu) : icu :=
  if in_module 0 irq_nr then f 0%nat irq_nr s
  else if in_module 1 irq_nr then f 1%nat (irq_nr - 32) s
  else if in_module 2 irq_nr then f 2%nat (irq_nr - 64) s
  else if in_module 3 irq_nr then f 3%nat (irq_nr - 96) s
  else if in_module 4 irq_nr then f 4%nat (irq_nr - 128) s
  else s.

Definition disable_danube_irq (irq_nr : Z) : icu -> icu :=
  on_module irq_nr (fun im n => set_IER im (fun r => Z.land r (not32 (IER_IR n)))).
Definition mask_and_ack_danube_irq (irq_nr : Z) : icu -> icu :=
  on_module irq_nr (fun im n s =>
    write_ISR im (IER_IR n) (set_IER im (fun r => Z.land r (not32 (IER_IR n))) s)).
Definition enable_danube_irq (irq_nr : Z) : icu -> icu :=
  on_module irq_nr (fun im n => set_IER im (fun r => Z.lor r (IER_IR n))).
Definition startup_danube_irq (irq : Z) (s : icu) : Z * icu := (0, enable_danube_irq irq s).
Definition end_danube_irq (irq : Z) (s : icu) : option icu :=
  match irq_status s !! Z.to_nat irq with
  | Some st => Some (if has_flag st (Z.lor IRQ_DISABLED IRQ_INPROGRESS) then s else enable_danube_irq irq s)
  | None => None
  end.

(** ** The lowest pending line *)
Definition u32 (z : Z) : Z := z mod 2 ^ 32.
(** [s = n; if (x << n == 0) s = 0; b -= s; x <<= s;] *)
Definition ls1_step (n : Z) (bx : Z * Z) : Z * Z :=
  let (b, x) := bx in
  let s := if u32 (Z.shiftl x n) =? 0 then 0 else n in
  (b - s, u32 (Z.shiftl x s)).
Definition ls1bit32 (x : Z) : Z :=
  (ls1_step 1 (ls1_step 2 (ls1_step 4 (ls1_step 8 (ls1_step 16 (31, x)))))).1.

(** ** The dispatchers *)
Section Dispatch.
(** CONFIG_DANUBE_CORE1, and [DANUBE_ICU_IMn_IOSR] as it is read. *)
Context (CORE1 : bool) (IOSR : Z).
Definition call_do_IRQ (irq : Z) (s : icu) : icu :=
  mk_icu (IER s) (ISR s) (EBU_PCC_ISTAT s) (do_IRQ s ++ [irq])%list (irq_status s).
Definition danube_hw0_irqdispatch (s : icu) : icu :=
  if IOSR =? 0 then s
  else
    let irq := ls1bit32 IOSR in
    let s := if irq =? (if CORE1 then INT_NUM_IM0_IRL26 else INT_NUM_IM0_IRL22)
             then mk_icu (IER s) (ISR s) (Z.lor (EBU_PCC_ISTAT s) 0x10) (do_IRQ s) (irq_status s) else s in
    call_do_IRQ irq s.
Definition hw_irqdispatch (base : Z) (s : icu) : icu :=
  if IOSR =? 0 then s else call_do_IRQ (ls1bit32 IOSR + base) s.
Definition danube_hw1_irqdispatch : icu -> icu := hw_irqdispatch 32.
Definition danube_hw2_irqdispatch : icu -> icu := hw_irqdispatch 64.
Definition danube_hw3_irqdispatch : icu -> icu := hw_irqdispatch 96.
Definition danube_hw4_irqdispatch : icu -> icu := hw_irqdispatch 128.
End Dispatch.

(** Of [init_IRQ], what concerns the lines. *)
Definition init_IRQ (s : icu) : icu :=
  mk_icu (replicate 5 0) (ISR s) (EBU_PCC_ISTAT s) (do_IRQ s)
    (replicate 160 IRQ_DISABLED ++ drop 160 (irq_status s))%list.
End Icu.
