(* ===== verification/IcuProps.v ===== *)
(** * IcuProps: the interrupt controller as a set of lines

    What the drivers rely on ([IrqControl]), the five enable registers as an
    implementation of it, and the line a dispatcher hands to the kernel. *)
From S2P Require Import Prelude Icu Dma.
Import Icu.

(** ** The interface *)

(** A controller of the lines [0..159]: the set of the lines it lets through, and the
    operations of [hw_interrupt_type] on it. *)
Class IrqControl (S : Type) := {
  good : S -> Prop;
  lines : S -> gset Z;
  line_enable : Z -> S -> S;
  line_disable : Z -> S -> S;
  line_mask_and_ack : Z -> S -> S;
  enable_law n s : good s -> 0 <= n < 160 -> good (line_enable n s) /\ lines (line_enable n s) = {[n]} ∪ lines s;
  disable_law n s : good s -> 0 <= n < 160 -> good (line_disable n s) /\ lines (line_disable n s) = lines s ∖ {[n]};
  mask_law n s : good s -> 0 <= n < 160 ->
    good (line_mask_and_ack n s) /\ lines (line_mask_and_ack n s) = lines s ∖ {[n]} }.

(** ** The registers *)
Definition is_on (s : icu) (n : Z) : bool := Z.testbit (default 0 (IER s !! Z.to_nat (n / 32))) (n mod 32).
Definition icu_lines (s : icu) : gset Z := list_to_set (filter (fun n => is_on s n = true) (seqZ 0 160)).
Definition icu_good (s : icu) : Prop := length (IER s) = 5%nat.

Lemma elem_of_icu_lines s n : n ∈ icu_lines s <-> 0 <= n < 160 /\ is_on s n = true.
Proof.
  unfold icu_lines. rewrite elem_of_list_to_set, list_elem_of_filter, elem_of_seqZ. split; intros []; split; auto; lia.
Qed.

Lemma on_module_in f n s : 0 <= n < 160 -> on_module n f s = f (Z.to_nat (n / 32)) (n mod 32) s.
Proof.
  intros H. unfold on_module, in_module, INT_NUM_IM_IRL31, INT_NUM_IM_IRL0.
  assert (E : n = 32 * (n / 32) + n mod 32) by (apply Z.div_mod; lia).
  pose proof (Z.mod_pos_bound n 32 ltac:(lia)) as Hm.
  assert (Hq : 0 <= n / 32 < 5) by lia.
  destruct (n <=? 32 * Z.of_nat 0 + 31) eqn:E0; [|destruct (n <=? 32 * Z.of_nat 1 + 31) eqn:E1;
    [|destruct (n <=? 32 * Z.of_nat 2 + 31) eqn:E2; [|destruct (n <=? 32 * Z.of_nat 3 + 31) eqn:E3]]];
    bool_to_prop; repeat (rewrite (proj2 (Z.leb_le _ _)) by lia); cbn [andb];
    match goal with |- f ?k ?m s = _ =>
      replace (Z.to_nat (n / 32)) with k by lia; replace (n mod 32) with m by lia; reflexivity end.
Qed.
Lemma on_module_out f n s : ~ 0 <= n < 160 -> on_module n f s = s.
Proof.
  intros H. unfold on_module, in_module, INT_NUM_IM_IRL31, INT_NUM_IM_IRL0.
  repeat match goal with |- context [(?a <=? ?b) && (?c <=? ?d)] =>
    destruct (a <=? b) eqn:?; destruct (c <=? d) eqn:?; cbn [andb]; bool_to_prop; try lia end; done.
Qed.

(** Two lines of the same module have different bits. *)
Lemma set_IER_on s n f m : icu_good s -> 0 <= n < 160 -> 0 <= m < 160 ->
  (forall r i, 0 <= i < 32 -> Z.testbit (f r) i = if i =? n mod 32 then Z.testbit (f r) (n mod 32) else Z.testbit r i) ->
  is_on (set_IER (Z.to_nat (n / 32)) f s) m =
    if m =? n then Z.testbit (f (default 0 (IER s !! Z.to_nat (n / 32)))) (n mod 32) else is_on s m.
Proof.
  intros Hg Hn Hm Hf. unfold is_on, set_IER. cbn.
  destruct (decide (Z.to_nat (n / 32) = Z.to_nat (m / 32))) as [E|E].
  - rewrite <- E, list_lookup_alter_eq.
    destruct (lookup_lt_is_Some_2 (IER s) (Z.to_nat (n / 32))) as [r Hr].
    { rewrite Hg. pose proof (Z.div_lt_upper_bound n 32 5). lia. }
    rewrite Hr. cbn. rewrite Hf by (apply Z.mod_pos_bound; lia).
    assert (E' : n / 32 = m / 32) by (apply Z2Nat.inj in E; [done | apply Z.div_pos; lia | apply Z.div_pos; lia]).
    destruct (m =? n) eqn:Emn; bool_to_prop.
    + by subst; rewrite Z.eqb_refl.
    + rewrite (proj2 (Z.eqb_neq (m mod 32) (n mod 32))); [done|]. intros Em. apply Emn.
      rewrite (Z.div_mod m 32), (Z.div_mod n 32) by lia. congruence.
  - rewrite list_lookup_alter_ne by done. destruct (m =? n) eqn:Emn; bool_to_prop; [by subst | done].
Qed.

Lemma testbit_IER_IR k i : 0 <= k -> 0 <= i -> Z.testbit (IER_IR k) i = (i =? k).
Proof.
  intros Hk Hi. unfold IER_IR. rewrite Z.shiftl_1_l, Z.pow2_bits_eqb by done. apply Z.eqb_sym.
Qed.
Lemma testbit_clear r k i : 0 <= k -> 0 <= i < 32 ->
  Z.testbit (Z.land r (not32 (IER_IR k))) i = Z.testbit r i && negb (i =? k).
Proof.
  intros Hk Hi. unfold not32. rewrite Z.land_spec, Z.lxor_spec, testbit_IER_IR by lia.
  rewrite Z.testbit_ones by lia. rewrite (proj2 (Z.leb_le 0 i)), (proj2 (Z.ltb_lt i 32)) by lia.
  by destruct (i =? k), (Z.testbit r i).
Qed.

Lemma enable_lines n s : icu_good s -> 0 <= n < 160 ->
  icu_good (enable_danube_irq n s) /\ icu_lines (enable_danube_irq n s) = {[n]} ∪ icu_lines s.
Proof.
  intros Hg Hn. unfold enable_danube_irq. rewrite on_module_in by done.
  split; [unfold icu_good; cbn; by rewrite length_alter|].
  pose proof (Z.mod_pos_bound n 32 ltac:(lia)) as Hm.
  apply set_eq. intros m. rewrite elem_of_union, elem_of_singleton, !elem_of_icu_lines.
  assert (Hon : 0 <= m < 160 -> is_on (set_IER (Z.to_nat (n / 32)) (fun r => Z.lor r (IER_IR (n mod 32))) s) m =
    if m =? n then true else is_on s m).
  { intros Hm'. rewrite set_IER_on; try done.
    - rewrite Z.lor_spec, testbit_IER_IR, Z.eqb_refl, orb_true_r by lia. done.
    - intros r i Hi. rewrite !Z.lor_spec, !testbit_IER_IR, Z.eqb_refl, orb_true_r by lia.
      destruct (i =? n mod 32); [apply orb_true_r | apply orb_false_r]. }
  split.
  - intros [Hm' H]. rewrite Hon in H by done. destruct (m =? n) eqn:E; bool_to_prop; auto.
  - intros [->|[Hm' H]].
    + split; [done|]. by rewrite Hon, Z.eqb_refl.
    + split; [done|]. rewrite Hon, H by done. by destruct (m =? n).
Qed.

Lemma clear_lines n s : icu_good s -> 0 <= n < 160 ->
  let s' := set_IER (Z.to_nat (n / 32)) (fun r => Z.land r (not32 (IER_IR (n mod 32)))) s in
  icu_good s' /\ icu_lines s' = icu_lines s ∖ {[n]}.
Proof.
  intros Hg Hn s'. split; [unfold icu_good; cbn; by rewrite length_alter|].
  pose proof (Z.mod_pos_bound n 32 ltac:(lia)) as Hm.
  apply set_eq. intros m. rewrite elem_of_difference, elem_of_singleton, !elem_of_icu_lines.
  assert (Hon : 0 <= m < 160 -> is_on s' m = if m =? n then false else is_on s m).
  { intros Hm'. unfold s'. rewrite set_IER_on; try done.
    - rewrite testbit_clear, Z.eqb_refl, andb_false_r by lia. done.
    - intros r i Hi. rewrite !testbit_clear, Z.eqb_refl, andb_false_r by lia.
      destruct (i =? n mod 32); [apply andb_false_r | apply andb_true_r]. }
  split.
  - intros [Hm' H]. rewrite Hon in H by done. destruct (m =? n) eqn:E; bool_to_prop; [done|auto].
  - intros [[Hm' H] Hne]. split; [done|]. rewrite Hon, H by done. by rewrite (proj2 (Z.eqb_neq _ _) Hne).
Qed.
Lemma disable_lines n s : icu_good s -> 0 <= n < 160 ->
  icu_good (disable_danube_irq n s) /\ icu_lines (disable_danube_irq n s) = icu_lines s ∖ {[n]}.
Proof. intros Hg Hn. unfold disable_danube_irq. rewrite on_module_in by done. by apply clear_lines. Qed.
Lemma mask_lines n s : icu_good s -> 0 <= n < 160 ->
  icu_good (mask_and_ack_danube_irq n s) /\ icu_lines (mask_and_ack_danube_irq n s) = icu_lines s ∖ {[n]}.
Proof. intros Hg Hn. unfold mask_and_ack_danube_irq. rewrite on_module_in by done. exact (clear_lines n s Hg Hn). Qed.

#[export] Instance icu_control : IrqControl icu := {|
  good := icu_good; lines := icu_lines; line_enable := enable_danube_irq;
  line_disable := disable_danube_irq; line_mask_and_ack := mask_and_ack_danube_irq;
  enable_law := enable_lines; disable_law := disable_lines; mask_law := mask_lines |}.

(** ** The lowest pending line *)

(** Bit [l] is the lowest of the 32-bit word [x]. *)
Record lowest (x l : Z) : Prop := {
  low_word : 0 <= x < 2 ^ 32; low_range : 0 <= l < 32; low_bit : Z.testbit x l = true;
  low_none : forall i, 0 <= i < l -> Z.testbit x i = false }.

Lemma testbit_u32 x n : 0 <= n -> Z.testbit (u32 x) n = (n <? 32) && Z.testbit x n.
Proof.
  intros Hn. unfold u32. destruct (n <? 32) eqn:E; bool_to_prop.
  - by rewrite Z.mod_pow2_bits_low by lia.
  - by rewrite Z.mod_pow2_bits_high by lia.
Qed.
Lemma lowest_shift x l s : lowest x l -> 0 <= s -> l + s < 32 -> lowest (u32 (Z.shiftl x s)) (l + s).
Proof.
  intros [Hx Hl Hb Hn] Hs Hls. split; [unfold u32; apply Z.mod_pos_bound; lia | lia | |].
  - rewrite testbit_u32, Z.shiftl_spec, Z.add_simpl_r, Hb by lia. by rewrite (proj2 (Z.ltb_lt _ _)).
  - intros i Hi. rewrite testbit_u32, Z.shiftl_spec by lia. rewrite andb_comm.
    destruct (decide (s <= i)); [rewrite Hn by lia; done | rewrite Z.testbit_neg_r by lia; done].
Qed.
Lemma shift_zero x l s : lowest x l -> 0 <= s -> (u32 (Z.shiftl x s) =? 0) = (32 <=? l + s).
Proof.
  intros Hx Hs. destruct (32 <=? l + s) eqn:E; bool_to_prop.
  - apply Z.eqb_eq, Z.bits_inj'. intros i Hi. rewrite testbit_u32, Z.shiftl_spec, Z.bits_0 by lia.
    destruct (i <? 32) eqn:Ei; [|done]. bool_to_prop. cbn.
    destruct (decide (s <= i)); [apply (low_none _ _ Hx); lia | by rewrite Z.testbit_neg_r by lia].
  - apply Z.eqb_neq. intros E0. pose proof (low_bit _ _ (lowest_shift x l s Hx Hs E)) as Hb.
    by rewrite E0, Z.bits_0 in Hb.
Qed.
(** A step halves the distance of the lowest bit to the top. *)
Lemma ls1_step_low n b x l : lowest x l -> 0 < n -> 32 - 2 * n <= l ->
  let r := ls1_step n (b, x) in exists l', lowest r.2 l' /\ 32 - n <= l' /\ r.1 - b = l - l'.
Proof.
  intros Hx Hn Hl. unfold ls1_step. rewrite (shift_zero x l n Hx) by lia.
  pose proof (low_range _ _ Hx) as Hr. destruct (32 <=? l + n) eqn:E; bool_to_prop; cbn [fst snd].
  - exists l. split; [|lia]. replace (u32 (Z.shiftl x 0)) with x; [done|].
    rewrite Z.shiftl_0_r. unfold u32. by rewrite Z.mod_small by apply Hx.
  - exists (l + n). split; [apply lowest_shift; [done | lia | lia] | lia].
Qed.
Lemma ls1bit32_lowest x l : lowest x l -> ls1bit32 x = l.
Proof.
  intros Hx. unfold ls1bit32. pose proof (low_range _ _ Hx) as Hr.
  destruct (ls1_step_low 16 31 x l Hx) as (l1 & H1 & G1 & E1); [lia | lia |].
  destruct (ls1_step 16 (31, x)) as [b1 x1]. cbn [fst snd] in *.
  destruct (ls1_step_low 8 b1 x1 l1 H1) as (l2 & H2 & G2 & E2); [lia | lia |].
  destruct (ls1_step 8 (b1, x1)) as [b2 x2]. cbn [fst snd] in *.
  destruct (ls1_step_low 4 b2 x2 l2 H2) as (l3 & H3 & G3 & E3); [lia | lia |].
  destruct (ls1_step 4 (b2, x2)) as [b3 x3]. cbn [fst snd] in *.
  destruct (ls1_step_low 2 b3 x3 l3 H3) as (l4 & H4 & G4 & E4); [lia | lia |].
  destruct (ls1_step 2 (b3, x3)) as [b4 x4]. cbn [fst snd] in *.
  destruct (ls1_step_low 1 b4 x4 l4 H4) as (l5 & H5 & G5 & E5); [lia | lia |].
  pose proof (low_range _ _ H5). lia.
Qed.
Lemma lowest_exists x : 0 < x < 2 ^ 32 -> exists l, lowest x l.
Proof.
  intros Hx. assert (H : forall n : nat, (n <= 32)%nat ->
    (forall i, 0 <= i < Z.of_nat n -> Z.testbit x i = false) \/ exists l, lowest x l).
  { induction n as [|n IH]; intros Hn; [left; lia|]. destruct (IH ltac:(lia)) as [Hno|]; [|by right].
    destruct (Z.testbit x (Z.of_nat n)) eqn:E.
    - right. exists (Z.of_nat n). split; [lia | lia | done | done].
    - left. intros i Hi. destruct (decide (i = Z.of_nat n)) as [->|]; [done | apply Hno; lia]. }
  destruct (H 32%nat ltac:(lia)) as [Hno|]; [|done]. exfalso.
  assert (E : x = 0); [|lia]. apply Z.bits_inj'. intros i Hi. rewrite Z.bits_0.
  destruct (decide (i < 32)); [apply Hno; lia|].
  destruct (Z.eq_dec x 0) as [->|]; [apply Z.bits_0|]. apply Z.bits_above_log2; [lia|].
  assert (Z.log2 x < 32) by (apply Z.log2_lt_pow2; lia). lia.
Qed.

(** ** The dispatchers *)
Definition dispatch (CORE1 : bool) (im : nat) (IOSR : Z) : icu -> icu :=
  match im with
  | 0 => danube_hw0_irqdispatch CORE1 IOSR | 1 => danube_hw1_irqdispatch IOSR
  | 2 => danube_hw2_irqdispatch IOSR | 3 => danube_hw3_irqdispatch IOSR
  | _ => danube_hw4_irqdispatch IOSR
  end%nat.

Lemma dispatch_calls CORE1 im IOSR l s : (im < 5)%nat -> lowest IOSR l ->
  do_IRQ (dispatch CORE1 im IOSR s) = (do_IRQ s ++ [32 * Z.of_nat im + l])%list /\
  IER (dispatch CORE1 im IOSR s) = IER s.
Proof.
  intros Him Hl. assert (Hnz : (IOSR =? 0) = false).
  { apply Z.eqb_neq. intros ->. pose proof (low_bit _ _ Hl) as Hb. by rewrite Z.bits_0 in Hb. }
  destruct im as [|[|[|[|[|?]]]]]; [| | | | |lia]; cbn [dispatch];
    unfold danube_hw0_irqdispatch, danube_hw1_irqdispatch, danube_hw2_irqdispatch, danube_hw3_irqdispatch,
      danube_hw4_irqdispatch, hw_irqdispatch; rewrite Hnz, (ls1bit32_lowest _ _ Hl).
  - destruct (l =? _); split; done.
  - split; [cbn; do 2 f_equal; lia | done].
  - split; [cbn; do 2 f_equal; lia | done].
  - split; [cbn; do 2 f_equal; lia | done].
  - split; [cbn; do 2 f_equal; lia | done].
Qed.

(** What a module hands out when [pending] is its request register: the requests of
    the lines that are enabled. *)
Definition requests (s : icu) (im : nat) (pending : Z) : Z := Z.land pending (default 0 (IER s !! im)).

(** C34. The dispatcher of a module with an enabled request calls the kernel once, with the
    lowest line of the module that is requested and enabled; once the kernel has masked it,
    every other line is as before. The search by five shifts is right for every word. *)
Theorem dispatch_lowest CORE1 im pending s : icu_good s -> (im < 5)%nat ->
  Forall (fun r => 0 <= r < 2 ^ 32) (IER s) -> requests s im pending <> 0 -> 0 <= pending ->
  exists n, do_IRQ (dispatch CORE1 im (requests s im pending) s) = (do_IRQ s ++ [n])%list /\
    n ∈ icu_lines s /\ n / 32 = Z.of_nat im /\ Z.testbit pending (n mod 32) = true /\
    (forall m, m ∈ icu_lines s -> m / 32 = Z.of_nat im -> Z.testbit pending (m mod 32) = true -> n <= m) /\
    icu_lines (mask_and_ack_danube_irq n (dispatch CORE1 im (requests s im pending) s)) = icu_lines s ∖ {[n]}.
Proof.
  intros Hg Him Hw Hreq Hp. destruct (lookup_lt_is_Some_2 (IER s) im) as [r Hr]; [by rewrite Hg|].
  pose proof (Forall_lookup_1 _ _ _ _ Hw Hr) as Hr32. cbn in Hr32.
  assert (Hbits : forall i, Z.testbit (requests s im pending) i = Z.testbit pending i && Z.testbit r i)
    by (intros i; unfold requests; rewrite Hr; apply Z.land_spec).
  destruct (lowest_exists (requests s im pending)) as [l Hl].
  { assert (0 <= requests s im pending) by (unfold requests; rewrite Hr; cbn; apply Z.land_nonneg; lia).
    split; [lia|]. destruct (Z.eq_dec r 0) as [->|]; [unfold requests in Hreq; rewrite Hr in Hreq; cbn in Hreq; by rewrite Z.land_0_r in Hreq|].
    apply Z.log2_lt_pow2; [lia|]. unfold requests. rewrite Hr. cbn.
    apply Z.le_lt_trans with (Z.log2 r); [|apply Z.log2_lt_pow2; lia].
    etrans; [apply Z.log2_land; lia|]. lia. }
  pose proof (low_range _ _ Hl) as Hlr. pose proof (low_bit _ _ Hl) as Hb. rewrite Hbits in Hb.
  apply andb_true_iff in Hb as [Hbp Hbr].
  assert (Hdiv : (32 * Z.of_nat im + l) / 32 = Z.of_nat im) by (rewrite Z.mul_comm, Z.div_add_l, Z.div_small; lia).
  assert (Hmod : (32 * Z.of_nat im + l) mod 32 = l) by (rewrite Z.mul_comm, Z.add_comm, Z.mod_add, Z.mod_small; lia).
  assert (Hon : forall m, m / 32 = Z.of_nat im -> is_on s m = Z.testbit r (m mod 32))
    by (intros m Hm; unfold is_on; by rewrite Hm, Nat2Z.id, Hr).
  destruct (dispatch_calls CORE1 im _ l s Him Hl) as [Hcall Hier].
  assert (Hin : 0 <= 32 * Z.of_nat im + l < 160) by lia.
  exists (32 * Z.of_nat im + l). split_and!; [done | | done | by rewrite Hmod | |].
  - apply elem_of_icu_lines. split; [done|]. by rewrite Hon, Hmod.
  - intros m Hm Hmd Hmp. apply elem_of_icu_lines in Hm as [_ Hm]. rewrite Hon in Hm by done.
    pose proof (Z.mod_pos_bound m 32 ltac:(lia)). pose proof (Z.div_mod m 32 ltac:(lia)).
    destruct (Z.lt_ge_cases (m mod 32) l) as [Hlt|]; [|lia]. exfalso.
    pose proof (low_none _ _ Hl (m mod 32) ltac:(lia)) as Hno. rewrite Hbits, Hmp, Hm in Hno. done.
  - assert (Hg' : icu_good (dispatch CORE1 im (requests s im pending) s)) by (unfold icu_good; by rewrite Hier).
    rewrite (proj2 (mask_lines _ _ Hg' Hin)). f_equal. apply set_eq. intros m.
    rewrite !elem_of_icu_lines. unfold is_on. by rewrite Hier.
Qed.

(** ** The DMA driver as a client *)

(** What the DMA driver does to a line. *)
Inductive line_op := Enable (n : Z) | Disable (n : Z) | Mask (n : Z).
Definition op_line (o : line_op) : Z := match o with Enable n | Disable n | Mask n => n end.
Definition dma_op (o : line_op) : Dma.M unit :=
  match o with
  | Enable n => Dma.enable_danube_irq n
  | Disable n => Dma.disable_danube_irq n
  | Mask n => Dma.mask_and_ack_danube_irq n
  end.
Fixpoint dma_ops (l : list line_op) : Dma.M unit :=
  match l with [] => Dma.ret tt | o :: l' => Dma.bind (dma_op o) (fun _ => dma_ops l') end.
Definition control_op `{IrqControl St} (o : line_op) : St -> St :=
  match o with Enable n => line_enable n | Disable n => line_disable n | Mask n => line_mask_and_ack n end.
Definition control_ops `{IrqControl St} (l : list line_op) (i : St) : St := fold_left (fun i o => control_op o i) l i.

Lemma dma_line_range n : n ∈ Dma.DANUBE_DMA_CH_INT -> 0 <= n < 160.
Proof.
  intros H. assert (Hall : Forall (fun n => 0 <= n < 160) Dma.DANUBE_DMA_CH_INT)
    by (unfold Dma.DANUBE_DMA_CH_INT, Dma.INT_NUM_IRQ0; cbn; repeat constructor; lia).
  rewrite Forall_forall in Hall. by apply Hall.
Qed.

(** The set of lines the DMA driver keeps in mind is what an interrupt controller with
    the interface IrqControl holds, through any sequence of enabling, disabling and
    acknowledging its lines; the five enable registers of interrupt.c, bit by bit, are such
    a controller. *)
Theorem dma_lines_on_controller `{IrqControl St} ops : forall (s : Dma.dma) (i : St),
  Forall (fun o => op_line o ∈ Dma.DANUBE_DMA_CH_INT) ops -> good i -> Dma.irqs s = lines i ->
  exists s', dma_ops ops s = Some (tt, s') /\ good (control_ops ops i) /\ Dma.irqs s' = lines (control_ops ops i).
Proof.
  induction ops as [|o ops IH]; intros s i Hops Hg Hs; [by exists s|].
  apply Forall_cons in Hops as [Ho Hops]. apply dma_line_range in Ho.
  assert (Hstep : exists s1, dma_op o s = Some (tt, s1) /\ good (control_op o i) /\ Dma.irqs s1 = lines (control_op o i)).
  { destruct o as [n|n|n]; cbn in Ho |- *; eexists; (split; [reflexivity|]); cbn; rewrite Hs.
    - by destruct (enable_law n i Hg Ho) as [? ->].
    - by destruct (disable_law n i Hg Ho) as [? ->].
    - by destruct (mask_law n i Hg Ho) as [? ->]. }
  destruct Hstep as (s1 & Hrun & Hg1 & Hs1). destruct (IH s1 (control_op o i) Hops Hg1 Hs1) as (s' & Hrun' & Hrest).
  exists s'. split; [|exact Hrest]. cbn. unfold Dma.bind. by rewrite Hrun.
Qed.

(** ** Instances *)
Definition ex_icu (ier2 : Z) : icu := mk_icu [0; 0; ier2; 0; 0] [] 0 [] [].
Example dispatch_lowest_witness :
  exists n, do_IRQ (dispatch false 2 (requests (ex_icu 12) 2 14) (ex_icu 12)) = [n] /\
    n ∈ icu_lines (ex_icu 12) /\ n / 32 = 2 /\ Z.testbit 14 (n mod 32) = true /\
    (forall m, m ∈ icu_lines (ex_icu 12) -> m / 32 = 2 -> Z.testbit 14 (m mod 32) = true -> n <= m) /\
    icu_lines (mask_and_ack_danube_irq n (dispatch false 2 (requests (ex_icu 12) 2 14) (ex_icu 12))) =
      icu_lines (ex_icu 12) ∖ {[n]}.
Proof.
  apply (dispatch_lowest false 2 14 (ex_icu 12)).
  - reflexivity.
  - lia.
  - repeat (apply Forall_cons; split; [lia|]). apply Forall_nil_2.
  - discriminate.
  - lia.
Defined.
Lemma no_lines : icu_lines (ex_icu 0) = ∅.
Proof.
  apply set_eq. intros n. rewrite elem_of_icu_lines. split; [|by intros ?%elem_of_empty].
  intros [Hn H]. exfalso. unfold is_on, ex_icu in H. cbn in H.
  destruct (Z.to_nat (n / 32)) as [|[|[|[|[|k]]]]]; cbn in H; by rewrite Z.bits_0 in H.
Qed.
Example dma_lines_on_controller_witness :
  exists s', dma_ops [Enable 64; Enable 70; Mask 64] (Dma.loaded []) = Some (tt, s') /\
    good (control_ops [Enable 64; Enable 70; Mask 64] (ex_icu 0)) /\
    Dma.irqs s' = lines (control_ops [Enable 64; Enable 70; Mask 64] (ex_icu 0)).
Proof.
  apply (dma_lines_on_controller [Enable 64; Enable 70; Mask 64] (Dma.loaded []) (ex_icu 0)).
  - repeat (apply Forall_cons; split; [apply list_elem_of_In; cbn; tauto|]). apply Forall_nil_2.
  - reflexivity.
  - symmetry. apply no_lines.
Defined.
