(* ===== verification/PciOps.v ===== *)
(** * PciOps: access to the PCI configuration space

    arch/mips/pci/ops-danube.c: the single access to a 32-bit configuration word, and
    the operations on bytes, half words and words built from it, with their errors.

    The bus is a parameter: [cfg_read] and [cfg_write] are the accesses to the window at
    [PCI_CFG_BASE], which may change its state. *)
From S2P Require Import Prelude.

Module PciOps.

Definition DANUBE_PCI_CFG_BUSNUM_SHF : Z := 16.
Definition DANUBE_PCI_CFG_FUNNUM_SHF : Z := 8.
(** [KSEG1+0x17000000] *)
Definition PCI_CFG_BASE : Z := 0xB7000000.
Inductive access_type := PCI_ACCESS_READ | PCI_ACCESS_WRITE.
Definition PCIBIOS_SUCCESSFUL : Z := 0.
Definition PCIBIOS_BAD_REGISTER_NUMBER : Z := 0x87.

Definition u8 (z : Z) : Z := z mod 2 ^ 8.
Definition u16 (z : Z) : Z := z mod 2 ^ 16.
Definition u32 (z : Z) : Z := z mod 2 ^ 32.
Definition not32 (x : Z) : Z := Z.lxor x (Z.ones 32).
(** The bytes of a word in the other order. *)
Definition swab32 (x : Z) : Z :=
  Z.lor (Z.lor (Z.shiftl (Z.land x 0xff) 24) (Z.shiftl (Z.land x 0xff00) 8))
    (Z.lor (Z.land (Z.shiftr x 8) 0xff00) (Z.land (Z.shiftr x 24) 0xff)).

(** [dev->bus->number] and [dev->devfn], bytes. *)
Record pci_dev := mk_pci_dev { bus_number : Z; devfn : Z }.

Section Bus.
Context {bus : Type} (cfg_read : Z -> bus -> Z * bus) (cfg_write : Z -> Z -> bus -> bus).
(** CONFIG_DANUBE_PCI_HW_SWAP *)
Context (HW_SWAP : bool).

Definition swap (x : Z) : Z := if HW_SWAP then swab32 x else x.

(** The devices that are not accessed. *)
Definition refused (dev : pci_dev) : bool :=
  negb (bus_number dev =? 0) || (0x78 <? Z.land (devfn dev) 0xf8) ||
  (Z.land (devfn dev) 0xf8 =? 0) || (Z.land (devfn dev) 0xf8 =? 0x68).
(** [where & ~0x3] of a byte. *)
Definition cfg_address (dev : pci_dev) (where_ : Z) : Z :=
  Z.lor (Z.lor (Z.lor PCI_CFG_BASE (Z.shiftl (bus_number dev) DANUBE_PCI_CFG_BUSNUM_SHF))
    (Z.shiftl (devfn dev) DANUBE_PCI_CFG_FUNNUM_SHF)) (Z.land where_ (not32 3)).
(** The access to the bridge that clears a master abort. *)
Definition clear_abort (s : bus) : bus :=
  let (temp, s) := cfg_read (Z.lor PCI_CFG_BASE (Z.shiftl 0x0 DANUBE_PCI_CFG_FUNNUM_SHF + 4)) s in
  cfg_write (Z.lor PCI_CFG_BASE (Z.shiftl 0x68 DANUBE_PCI_CFG_FUNNUM_SHF + 4)) (swap temp) s.

(** The result, [*data] and the bus. *)
Definition danube_pci_config_access (access : access_type) (dev : pci_dev) (where_ data : Z) (s : bus)
  : Z * Z * bus :=
  let where_ := u8 where_ in
  if refused dev then (1, data, s)
  else
    let pci_addr := cfg_address dev where_ in
    let (data, s) :=
      match access with
      | PCI_ACCESS_WRITE => (data, cfg_write pci_addr (swap data) s)
      | PCI_ACCESS_READ => let (w, s) := cfg_read pci_addr s in (swap w, s)
      end in
    let s := clear_abort s in
    (if data =? 0xffffffff then 1 else 0, data, s).

(** [(where & 3) << 3] *)
Definition lane (where_ : Z) : Z := Z.shiftl (Z.land where_ 3) 3.

(** The result, [*val] when it is set, and the bus. *)
Definition danube_pci_read_config_byte (dev : pci_dev) (where_ : Z) (s : bus) : Z * option Z * bus :=
  let '(r, data, s) := danube_pci_config_access PCI_ACCESS_READ dev where_ 0 s in
  if nz r then (-1, None, s)
  else (PCIBIOS_SUCCESSFUL, Some (Z.land (Z.shiftr data (lane where_)) 0xff), s).
Definition danube_pci_read_config_word (dev : pci_dev) (where_ : Z) (s : bus) : Z * option Z * bus :=
  if nz (Z.land where_ 1) then (PCIBIOS_BAD_REGISTER_NUMBER, None, s)
  else
    let '(r, data, s) := danube_pci_config_access PCI_ACCESS_READ dev where_ 0 s in
    if nz r then (-1, Some 0xffff, s)
    else (PCIBIOS_SUCCESSFUL, Some (Z.land (Z.shiftr data (lane where_)) 0xffff), s).
Definition danube_pci_read_config_dword (dev : pci_dev) (where_ : Z) (s : bus) : Z * option Z * bus :=
  if nz (Z.land where_ 3) then (PCIBIOS_BAD_REGISTER_NUMBER, None, s)
  else
    let '(r, data, s) := danube_pci_config_access PCI_ACCESS_READ dev where_ 0 s in
    if nz r then (-1, None, s) else (PCIBIOS_SUCCESSFUL, Some data, s).

(** [(data & ~(mask << lane)) | (val << lane)] *)
Definition merge (mask : Z) (where_ data val : Z) : Z :=
  Z.lor (Z.land data (not32 (Z.shiftl mask (lane where_)))) (Z.shiftl val (lane where_)).
Definition write_part (mask : Z) (dev : pci_dev) (where_ val : Z) (s : bus) : Z * bus :=
  let '(r, data, s) := danube_pci_config_access PCI_ACCESS_READ dev where_ 0 s in
  if nz r then (-1, s)
  else
    let '(r, _, s) := danube_pci_config_access PCI_ACCESS_WRITE dev where_ (merge mask where_ data val) s in
    if nz r then (-1, s) else (PCIBIOS_SUCCESSFUL, s).
Definition danube_pci_write_config_byte (dev : pci_dev) (where_ val : Z) (s : bus) : Z * bus :=
  write_part 0xff dev where_ val s.
Definition danube_pci_write_config_word (dev : pci_dev) (where_ val : Z) (s : bus) : Z * bus :=
  if nz (Z.land where_ 1) then (PCIBIOS_BAD_REGISTER_NUMBER, s)
  else write_part 0xffff dev where_ val s.
Definition danube_pci_write_config_dword (dev : pci_dev) (where_ val : Z) (s : bus) : Z * bus :=
  if nz (Z.land where_ 3) then (PCIBIOS_BAD_REGISTER_NUMBER, s)
  else
    let '(r, _, s) := danube_pci_config_access PCI_ACCESS_WRITE dev where_ val s in
    if nz r then (-1, s) else (PCIBIOS_SUCCESSFUL, s).

(** ** Interrupt lines of the devices *)
Definition PCI_INTERRUPT_LINE : Z := 0x3c.
Definition PCI_INTERRUPT_PIN : Z := 0x3d.
Definition INT_NUM_IM0_IRL22 : Z := 22.
Definition INT_NUM_IM0_IRL26 : Z := 26.

(** The registers of the external bus that are set, and the bus. *)
Record ebu := mk_ebu { EBU_PCC_CON : Z; EBU_PCC_IEN : Z; pci_bus : bus }.
(** [irq] of the devices; [pin] is the variable, which a read that fails leaves as it
    is.  [CORE1] is CONFIG_DANUBE_CORE1. *)
Fixpoint pcibios_fixup_irqs (CORE1 : bool) (devs : list pci_dev) (pin : Z) (e : ebu) : list Z * ebu :=
  match devs with
  | [] => ([], e)
  | dev :: devs' =>
      let '(_, val, s) := danube_pci_read_config_byte dev PCI_INTERRUPT_PIN (pci_bus e) in
      let pin := default pin val in
      let '(irq, e) :=
        if pin =? 1 then
          let irq := if CORE1 then INT_NUM_IM0_IRL26 else INT_NUM_IM0_IRL22 in
          let (_, s) := danube_pci_write_config_byte dev PCI_INTERRUPT_LINE irq s in
          (irq, mk_ebu (Z.lor (EBU_PCC_CON e) 0xc) (Z.lor (EBU_PCC_IEN e) 0x10) s)
        else (0, mk_ebu (EBU_PCC_CON e) (EBU_PCC_IEN e) s) in
      let (irqs, e) := pcibios_fixup_irqs CORE1 devs' pin e in
      (irq :: irqs, e)
  end.
End Bus.
End PciOps.
