(* ===== verification/PciProps.v ===== *)
(** * PciProps: theorems on the access to the configuration space *)
From S2P Require Import Prelude PciOps.
Import PciOps.

(** ** Words and lanes *)
Lemma testbit_mask k i : 0 <= k -> 0 <= i -> Z.testbit (Z.ones k) i = (i <? k).
Proof. intros Hk Hi. rewrite Z.testbit_ones by done. by rewrite (proj2 (Z.leb_le 0 i)). Qed.
Lemma testbit_high x k i : 0 <= x < 2 ^ k -> 0 <= k <= i -> Z.testbit x i = false.
Proof.
  intros Hx Hk. destruct (Z.eq_dec x 0) as [->|]; [apply Z.bits_0|].
  apply Z.bits_above_log2; [lia|]. assert (Z.log2 x < k) by (apply Z.log2_lt_pow2; lia). lia.
Qed.
Lemma word_ext x y : 0 <= x < 2 ^ 32 -> 0 <= y < 2 ^ 32 ->
  (forall i, 0 <= i < 32 -> Z.testbit x i = Z.testbit y i) -> x = y.
Proof.
  intros Hx Hy H. apply Z.bits_inj'. intros i Hi. destruct (decide (i < 32)); [by apply H|].
  by rewrite !(testbit_high _ 32) by lia.
Qed.
Lemma word_range x : (forall i, 32 <= i -> Z.testbit x i = false) -> 0 <= x -> x < 2 ^ 32.
Proof.
  intros H Hx. destruct (Z.eq_dec x 0) as [->|]; [lia|]. apply Z.log2_lt_pow2; [lia|].
  apply Z.nle_gt. intros Hl. pose proof (Z.bit_log2 x ltac:(lia)) as Hb. by rewrite H in Hb.
Qed.

Lemma testbit_ff i : 0 <= i -> Z.testbit 0xff i = (i <? 8).
Proof. intros H. change 0xff with (Z.ones 8). by apply testbit_mask. Qed.
Lemma testbit_ff00 i : 0 <= i -> Z.testbit 0xff00 i = (8 <=? i) && (i <? 16).
Proof.
  intros H. change 0xff00 with (Z.shiftl 0xff 8). rewrite Z.shiftl_spec by done.
  destruct (8 <=? i) eqn:E; bool_to_prop; [|by rewrite Z.testbit_neg_r by lia].
  rewrite testbit_ff by lia. cbn. destruct (i - 8 <? 8) eqn:E1, (i <? 16) eqn:E2; bool_to_prop; done || lia.
Qed.

(** Bit [i] of the bytes swapped is that of the byte opposite. *)
Definition mirror (i : Z) : Z := if i <? 8 then i + 24 else if i <? 16 then i + 8 else if i <? 24 then i - 8 else i - 24.
Ltac decide_bools := repeat match goal with
  | |- context [?a <? ?b] => first [rewrite (proj2 (Z.ltb_lt a b)) by lia | rewrite (proj2 (Z.ltb_ge a b)) by lia]
  | |- context [?a <=? ?b] => first [rewrite (proj2 (Z.leb_le a b)) by lia | rewrite (proj2 (Z.leb_gt a b)) by lia]
  end.
Lemma swab32_testbit x i : 0 <= i < 32 -> Z.testbit (swab32 x) i = Z.testbit x (mirror i).
Proof.
  intros Hi. unfold swab32, mirror. rewrite !Z.lor_spec, !Z.shiftl_spec, !Z.land_spec, !Z.shiftr_spec by lia.
  rewrite (testbit_ff i), (testbit_ff00 i) by lia.
  destruct (i <? 8) eqn:E1; [|destruct (i <? 16) eqn:E2; [|destruct (i <? 24) eqn:E3]]; bool_to_prop.
  - rewrite !Z.testbit_neg_r by lia. decide_bools. cbn. by rewrite andb_false_r, andb_true_r.
  - rewrite !(Z.testbit_neg_r _ (i - 24)) by lia. rewrite (testbit_ff00 (i - 8)) by lia. decide_bools. cbn.
    by rewrite !andb_false_r, andb_true_r, orb_false_r.
  - rewrite !(Z.testbit_neg_r _ (i - 24)) by lia. rewrite (testbit_ff00 (i - 8)) by lia. decide_bools. cbn.
    by rewrite !andb_false_r, andb_true_r, !orb_false_r.
  - rewrite (testbit_ff (i - 24)), (testbit_ff00 (i - 8)) by lia. decide_bools. cbn.
    by rewrite !andb_false_r, andb_true_r, !orb_false_r.
Qed.
Lemma swab32_range x : 0 <= swab32 x < 2 ^ 32.
Proof.
  assert (H0 : 0 <= swab32 x).
  { unfold swab32. rewrite !Z.lor_nonneg, !Z.shiftl_nonneg, !Z.land_nonneg. lia. }
  split; [done|]. apply word_range; [|done]. intros i Hi. unfold swab32.
  rewrite !Z.lor_spec, !Z.shiftl_spec, !Z.land_spec, !Z.shiftr_spec by lia.
  rewrite !testbit_ff, !testbit_ff00 by lia. decide_bools. cbn. by rewrite !andb_false_r.
Qed.
Lemma swab32_invol x : 0 <= x < 2 ^ 32 -> swab32 (swab32 x) = x.
Proof.
  intros Hx. apply word_ext; [apply swab32_range | done|]. intros i Hi.
  assert (Hm : 0 <= mirror i < 32 /\ mirror (mirror i) = i) by (unfold mirror; repeat case_match; bool_to_prop; lia).
  rewrite !swab32_testbit by (done || apply Hm). by rewrite (proj2 Hm).
Qed.
Lemma swap_range b x : 0 <= x < 2 ^ 32 -> 0 <= swap b x < 2 ^ 32.
Proof. destruct b; [intros _; apply swab32_range | done]. Qed.
Lemma swap_invol b x : 0 <= x < 2 ^ 32 -> swap b (swap b x) = x.
Proof. destruct b; [apply swab32_invol | done]. Qed.

Lemma lane_mod w : 0 <= w -> lane w = 8 * (w mod 4).
Proof.
  intros H. unfold lane. change 3 with (Z.ones 2) at 1. rewrite Z.land_ones, Z.shiftl_mul_pow2 by lia.
  change (2 ^ 2) with 4. lia.
Qed.
Lemma lane_range w : 0 <= w -> 0 <= lane w <= 24.
Proof. intros H. rewrite lane_mod by done. pose proof (Z.mod_pos_bound w 4 ltac:(lia)). lia. Qed.

Lemma not32_testbit x i : 0 <= i < 32 -> Z.testbit (not32 x) i = negb (Z.testbit x i).
Proof. intros H. unfold not32. rewrite Z.lxor_spec, testbit_mask by lia. decide_bools. by destruct (Z.testbit x i). Qed.
Lemma merge_testbit w data val i : 0 <= w -> 0 <= val < 2 ^ 8 -> 0 <= i < 32 ->
  Z.testbit (merge 0xff w data val) i =
    if (lane w <=? i) && (i <? lane w + 8) then Z.testbit val (i - lane w) else Z.testbit data i.
Proof.
  intros Hw Hv Hi. pose proof (lane_range w Hw) as Hl. unfold merge.
  rewrite Z.lor_spec, Z.land_spec, not32_testbit, !Z.shiftl_spec by lia.
  destruct (lane w <=? i) eqn:E1; bool_to_prop; cbn [andb].
  - rewrite testbit_ff by lia. destruct (i <? lane w + 8) eqn:E2; bool_to_prop; decide_bools; cbn.
    + by rewrite andb_false_r.
    + rewrite andb_true_r, (testbit_high val 8) by lia. apply orb_false_r.
  - rewrite !(Z.testbit_neg_r _ (i - lane w)) by lia. by rewrite andb_true_r, orb_false_r.
Qed.
Lemma merge_range w data val : 0 <= w -> 0 <= val < 2 ^ 8 -> 0 <= data < 2 ^ 32 ->
  0 <= merge 0xff w data val < 2 ^ 32.
Proof.
  intros Hw Hv Hd. pose proof (lane_range w Hw) as Hl. unfold merge.
  assert (H0 : 0 <= Z.lor (Z.land data (not32 (Z.shiftl 0xff (lane w)))) (Z.shiftl val (lane w))).
  { apply Z.lor_nonneg. split; [apply Z.land_nonneg; lia | apply Z.shiftl_nonneg; lia]. }
  split; [done|]. apply word_range; [|done]. intros i Hi.
  rewrite Z.lor_spec, Z.land_spec, Z.shiftl_spec by lia.
  rewrite (testbit_high data 32), (testbit_high val 8) by lia. done.
Qed.

(** The byte of a word that an offset names. *)
Definition byte_of (data w : Z) : Z := Z.land (Z.shiftr data (lane w)) 0xff.
Lemma byte_of_testbit data w i : 0 <= w -> 0 <= i -> Z.testbit (byte_of data w) i = (i <? 8) && Z.testbit data (i + lane w).
Proof.
  intros Hw Hi. unfold byte_of. rewrite Z.land_spec, Z.shiftr_spec, testbit_ff by done. apply andb_comm.
Qed.
Lemma byte_of_merge w w' data val : 0 <= w -> 0 <= w' -> 0 <= val < 2 ^ 8 ->
  byte_of (merge 0xff w data val) w' = if w mod 4 =? w' mod 4 then val else byte_of data w'.
Proof.
  intros Hw Hw' Hv. apply Z.bits_inj'. intros i Hi. rewrite byte_of_testbit by done.
  pose proof (lane_range w' Hw'). rewrite (lane_mod w') by done.
  destruct (i <? 8) eqn:E; bool_to_prop; cbn [andb].
  - rewrite merge_testbit, (lane_mod w) by (done || rewrite <- lane_mod by done; lia).
    pose proof (Z.mod_pos_bound w 4 ltac:(lia)). pose proof (Z.mod_pos_bound w' 4 ltac:(lia)).
    destruct (w mod 4 =? w' mod 4) eqn:Ew; bool_to_prop.
    + rewrite Ew. decide_bools. cbn. f_equal. lia.
    + rewrite byte_of_testbit, (lane_mod w') by done. decide_bools. cbn.
      destruct (8 * (w mod 4) <=? i + 8 * (w' mod 4)) eqn:E1, (i + 8 * (w' mod 4) <? 8 * (w mod 4) + 8) eqn:E2;
        bool_to_prop; try done; lia.
  - destruct (_ =? _); [by rewrite (testbit_high val 8) by lia | rewrite byte_of_testbit by done; by decide_bools].
Qed.

(** ** Addresses *)
Definition bridge_address : Z := Z.lor PCI_CFG_BASE (Z.shiftl 0x68 DANUBE_PCI_CFG_FUNNUM_SHF + 4).
Definition dev_bytes (dev : pci_dev) : Prop := 0 <= bus_number dev < 2 ^ 8 /\ 0 <= devfn dev < 2 ^ 8.

(** The device of an address. *)
Lemma address_device dev w : dev_bytes dev -> bus_number dev = 0 -> 0 <= w < 2 ^ 8 ->
  Z.land (Z.shiftr (cfg_address dev w) 8) 0xff = devfn dev.
Proof.
  intros [_ Hd] Hb Hw. apply Z.bits_inj'. intros i Hi. unfold cfg_address.
  rewrite Hb, Z.shiftl_0_l, Z.lor_0_r. rewrite Z.land_spec, Z.shiftr_spec, !Z.lor_spec, Z.land_spec by lia.
  rewrite Z.shiftl_spec, testbit_ff by lia. rewrite (testbit_high w 8 (i + 8)) by lia.
  unfold DANUBE_PCI_CFG_FUNNUM_SHF. replace (i + 8 - 8) with i by lia.
  destruct (i <? 8) eqn:E; bool_to_prop.
  - assert (Hbase : Z.testbit PCI_CFG_BASE (i + 8) = false).
    { change PCI_CFG_BASE with (Z.shiftl 0xB7 24). rewrite Z.shiftl_spec by lia. apply Z.testbit_neg_r. lia. }
    rewrite Hbase. cbn. by rewrite orb_false_r, andb_true_r.
  - rewrite andb_false_r. symmetry. apply (testbit_high _ 8); lia.
Qed.
Lemma address_not_bridge dev w : dev_bytes dev -> refused dev = false -> 0 <= w < 2 ^ 8 ->
  cfg_address dev w <> bridge_address.
Proof.
  intros Hd Hr Hw E. unfold refused in Hr. apply orb_false_iff in Hr as [Hr H68]. apply orb_false_iff in Hr as [Hr _].
  apply orb_false_iff in Hr as [Hb _]. bool_to_prop.
  pose proof (address_device dev w Hd Hb Hw) as Hdev. rewrite E in Hdev.
  assert (E68 : devfn dev = 0x68) by (rewrite <- Hdev; reflexivity). rewrite E68 in H68. by apply H68.
Qed.
(** Offsets in the same word have the same address. *)
Lemma address_word dev w w' : 0 <= w < 2 ^ 8 -> 0 <= w' < 2 ^ 8 -> w / 4 = w' / 4 -> cfg_address dev w = cfg_address dev w'.
Proof.
  intros Hw Hw' E. unfold cfg_address. f_equal. apply Z.bits_inj'. intros i Hi.
  rewrite !Z.land_spec. destruct (decide (i < 2)) as [H2|H2].
  - assert (Hn : Z.testbit (not32 3) i = false).
    { rewrite not32_testbit by lia. assert (i = 0 \/ i = 1) as [-> | ->] by lia; done. }
    by rewrite Hn, !andb_false_r.
  - f_equal. replace i with (i - 2 + 2) by lia. rewrite <- !Z.shiftr_spec by lia.
    rewrite !Z.shiftr_div_pow2 by lia. change (2 ^ 2) with 4. by rewrite E.
Qed.

(** ** Plain registers *)
Section Access.
Context {bus : Type} (cfg_read : Z -> bus -> Z * bus) (cfg_write : Z -> Z -> bus -> bus) (HW_SWAP : bool).
(** The words of the configuration space as the bus holds them: a read returns the
    word and changes nothing, a write changes no other word. *)
Context (mem : bus -> Z -> Z)
  (Hread : forall a s, cfg_read a s = (mem s a, s))
  (Hother : forall a b v s, a <> b -> mem (cfg_write a v s) b = mem s b)
  (Hword : forall s a, 0 <= mem s a < 2 ^ 32).
#[local] Abbreviation access := (danube_pci_config_access cfg_read cfg_write HW_SWAP).

(** The register keeps what is written to it. *)
Definition plain (a : Z) : Prop := forall v s, 0 <= v < 2 ^ 32 -> mem (cfg_write a v s) a = v.

Lemma clear_abort_keeps s a : a <> bridge_address -> mem (clear_abort cfg_read cfg_write HW_SWAP s) a = mem s a.
Proof. intros Ha. unfold clear_abort. rewrite Hread. apply Hother. intros E. by apply Ha. Qed.

Lemma access_read dev w d s : refused dev = false -> 0 <= w < 2 ^ 8 ->
  access PCI_ACCESS_READ dev w d s =
    (if swap HW_SWAP (mem s (cfg_address dev w)) =? 0xffffffff then 1 else 0,
     swap HW_SWAP (mem s (cfg_address dev w)), clear_abort cfg_read cfg_write HW_SWAP s).
Proof.
  intros Hr Hw. unfold danube_pci_config_access, u8. rewrite Hr, Z.mod_small by done. by rewrite Hread.
Qed.
Lemma access_write dev w d s : refused dev = false -> 0 <= w < 2 ^ 8 ->
  access PCI_ACCESS_WRITE dev w d s =
    (if d =? 0xffffffff then 1 else 0, d,
     clear_abort cfg_read cfg_write HW_SWAP (cfg_write (cfg_address dev w) (swap HW_SWAP d) s)).
Proof. intros Hr Hw. unfold danube_pci_config_access, u8. by rewrite Hr, Z.mod_small by done. Qed.

Lemma read_byte_run dev w s : refused dev = false -> 0 <= w < 2 ^ 8 ->
  danube_pci_read_config_byte cfg_read cfg_write HW_SWAP dev w s =
    (if swap HW_SWAP (mem s (cfg_address dev w)) =? 0xffffffff then (-1, None)
     else (PCIBIOS_SUCCESSFUL, Some (byte_of (swap HW_SWAP (mem s (cfg_address dev w))) w)),
     clear_abort cfg_read cfg_write HW_SWAP s).
Proof.
  intros Hr Hw. unfold danube_pci_read_config_byte. rewrite access_read by done.
  by destruct (_ =? _).
Qed.

(** C35. A byte written to a plain configuration register is read back, the other three
    bytes of its word read as before, and every other word of the configuration space, the
    bridge's status apart, is unchanged, with the byte order swapped or not: provided the
    word is not all ones before and after. *)
Theorem byte_written dev w val s : dev_bytes dev -> refused dev = false -> 0 <= w < 2 ^ 8 -> 0 <= val < 2 ^ 8 ->
  plain (cfg_address dev w) ->
  let data := swap HW_SWAP (mem s (cfg_address dev w)) in
  data <> 0xffffffff -> merge 0xff w data val <> 0xffffffff ->
  exists s', danube_pci_write_config_byte cfg_read cfg_write HW_SWAP dev w val s = (PCIBIOS_SUCCESSFUL, s') /\
    (forall w', 0 <= w' < 2 ^ 8 -> w' / 4 = w / 4 ->
       (danube_pci_read_config_byte cfg_read cfg_write HW_SWAP dev w' s').1 =
         (PCIBIOS_SUCCESSFUL, Some (if w' =? w then val else byte_of data w'))) /\
    (forall b, b <> cfg_address dev w -> b <> bridge_address -> mem s' b = mem s b).
Proof.
  intros Hd Hr Hw Hv Hplain data Hones Hmerge.
  pose proof (address_not_bridge dev w Hd Hr Hw) as Ha. set (a := cfg_address dev w) in *.
  assert (Hdata : 0 <= data < 2 ^ 32) by (apply swap_range, Hword).
  pose proof (merge_range w data val ltac:(lia) Hv Hdata) as Hm.
  unfold danube_pci_write_config_byte, write_part. rewrite access_read by done.
  fold a. fold data. rewrite (proj2 (Z.eqb_neq _ _) Hones). cbn [nz negb Z.eqb].
  rewrite access_write by done. rewrite (proj2 (Z.eqb_neq _ _) Hmerge). cbn [nz negb Z.eqb].
  eexists. split; [reflexivity|]. split.
  - intros w' Hw' E. rewrite read_byte_run by done. rewrite (address_word dev w' w) by done. fold a.
    rewrite clear_abort_keeps, Hplain by (done || by apply swap_range). rewrite swap_invol by done.
    rewrite (proj2 (Z.eqb_neq _ _) Hmerge). cbn [fst]. rewrite byte_of_merge by (done || lia).
    pose proof (Z.div_mod w 4 ltac:(lia)). pose proof (Z.div_mod w' 4 ltac:(lia)).
    destruct (w mod 4 =? w' mod 4) eqn:E1, (w' =? w) eqn:E2; bool_to_prop; try done; subst; lia.
  - intros b Hb Hbr. rewrite clear_abort_keeps by done. rewrite Hother by done. by apply clear_abort_keeps.
Qed.

(** Writing a word of ones, as the search for the size of a window does, is carried out
    and reported as an error. *)
Theorem ones_reported dev w s : dev_bytes dev -> refused dev = false -> 0 <= w < 2 ^ 8 -> w mod 4 = 0 ->
  plain (cfg_address dev w) ->
  exists s', danube_pci_write_config_dword cfg_read cfg_write HW_SWAP dev w 0xffffffff s = (-1, s') /\
    mem s' (cfg_address dev w) = 0xffffffff.
Proof.
  intros Hd Hr Hw H4 Hplain. unfold danube_pci_write_config_dword.
  assert (E : Z.land w 3 = 0) by (change 3 with (Z.ones 2); rewrite Z.land_ones by lia; exact H4).
  rewrite E. cbn [nz negb Z.eqb]. rewrite access_write by done. eexists. split; [reflexivity|].
  rewrite clear_abort_keeps by (by apply address_not_bridge). rewrite Hplain; destruct HW_SWAP; done.
Qed.

(** What the operations do for a device that is not accessed, or an offset that is not
    aligned: nothing. *)
Theorem refused_untouched dev w val s : refused dev = true ->
  (danube_pci_read_config_byte cfg_read cfg_write HW_SWAP dev w s = (-1, None, s)) /\
  (Z.land w 1 = 0 -> danube_pci_read_config_word cfg_read cfg_write HW_SWAP dev w s = (-1, Some 0xffff, s)) /\
  (Z.land w 3 = 0 -> danube_pci_read_config_dword cfg_read cfg_write HW_SWAP dev w s = (-1, None, s)) /\
  (danube_pci_write_config_byte cfg_read cfg_write HW_SWAP dev w val s = (-1, s)) /\
  (Z.land w 1 = 0 -> danube_pci_write_config_word cfg_read cfg_write HW_SWAP dev w val s = (-1, s)) /\
  (Z.land w 3 = 0 -> danube_pci_write_config_dword cfg_read cfg_write HW_SWAP dev w val s = (-1, s)).
Proof.
  intros Hr. unfold danube_pci_read_config_byte, danube_pci_read_config_word, danube_pci_read_config_dword,
    danube_pci_write_config_byte, danube_pci_write_config_word, danube_pci_write_config_dword, write_part,
    danube_pci_config_access.
  rewrite Hr. split_and!; try done; by intros ->.
Qed.
End Access.

(** ** Instances: a bus of plain words *)
Definition ex_read (a : Z) (s : gmap Z Z) : Z * gmap Z Z := (u32 (default 0 (s !! a)), s).
Definition ex_write (a v : Z) (s : gmap Z Z) : gmap Z Z := <[a := v]> s.
Definition ex_mem (s : gmap Z Z) (a : Z) : Z := u32 (default 0 (s !! a)).
Lemma ex_other a b v s : a <> b -> ex_mem (ex_write a v s) b = ex_mem s b.
Proof. intros H. unfold ex_mem, ex_write. by rewrite lookup_insert_ne. Qed.
Lemma ex_word s a : 0 <= ex_mem s a < 2 ^ 32.
Proof. apply Z.mod_pos_bound. lia. Qed.
Lemma ex_plain a : plain ex_write ex_mem a.
Proof.
  intros v s Hv. unfold ex_mem, ex_write. rewrite lookup_insert_eq. cbn. by apply Z.mod_small.
Qed.
Definition ex_dev : pci_dev := mk_pci_dev 0 0x70.
Definition ex_bus : gmap Z Z := {[ 0xB7003000 := 0x12345678; 0xB7007010 := 0xAABBCCDD ]}.

Example byte_written_witness :
  exists s', danube_pci_write_config_byte ex_read ex_write true ex_dev 0x11 0x5A ex_bus = (0, s') /\
    (forall w', 0 <= w' < 2 ^ 8 -> w' / 4 = 4 ->
       (danube_pci_read_config_byte ex_read ex_write true ex_dev w' s').1 =
         (0, Some (if w' =? 0x11 then 0x5A else byte_of 0xDDCCBBAA w'))) /\
    (forall b, b <> 0xB7007010 -> b <> bridge_address -> ex_mem s' b = ex_mem ex_bus b).
Proof.
  apply (byte_written ex_read ex_write true ex_mem (fun a s => eq_refl) ex_other ex_word ex_dev 0x11 0x5A ex_bus).
  - repeat split; cbn; lia.
  - reflexivity.
  - lia.
  - lia.
  - apply ex_plain.
  - vm_compute. discriminate.
  - vm_compute. discriminate.
Defined.
Example ones_reported_witness :
  exists s', danube_pci_write_config_dword ex_read ex_write false ex_dev 0x10 0xffffffff ex_bus = (-1, s') /\
    ex_mem s' (cfg_address ex_dev 0x10) = 0xffffffff.
Proof.
  apply (ones_reported ex_read ex_write false ex_mem (fun a s => eq_refl) ex_other ex_dev 0x10 ex_bus).
  - repeat split; cbn; lia.
  - reflexivity.
  - lia.
  - reflexivity.
  - apply ex_plain.
Defined.
Example refused_untouched_witness :
  danube_pci_write_config_byte ex_read ex_write false (mk_pci_dev 1 0x70) 0x10 7 ex_bus = (-1, ex_bus).
Proof.
  exact (proj1 (proj2 (proj2 (proj2 (refused_untouched ex_read ex_write false (mk_pci_dev 1 0x70) 0x10 7 ex_bus eq_refl))))).
Defined.
