(* ===== verification/Port.v ===== *)
(** * Port: the GPIO pins and their owners

    arch/mips/infineon/danube/port/port.c of the twinpass board support: the map of
    the modules that have reserved a pin, the operations on a reserved pin, the
    ioctl of the character device, and the watchdog, which owns pin 6 of port 1.

    [None] as a result says that the C code reads or writes outside an array.  A
    register holds what was last written to it, or what [registers] says at first.
    The watchdog is the one without CONFIG_WSTL_WATCHDOG_CPLD. *)
From S2P Require Import Prelude.

Module Port.

Definition MAX_PORTS : Z := 2.
Definition PINS_PER_PORT : Z := 16.
Definition OK : Z := 0.
Definition EBUSY : Z := 16.
Definition EINVAL : Z := 22.
Definition EFAULT : Z := 14.

Definition DANUBE_PORT_OUT_REG : Z := 0x10.
Definition DANUBE_PORT_IN_REG : Z := 0x14.
Definition DANUBE_PORT_DIR_REG : Z := 0x18.
Definition DANUBE_PORT_ALTSEL0_REG : Z := 0x1C.
Definition DANUBE_PORT_ALTSEL1_REG : Z := 0x20.
Definition DANUBE_PORT_OD_REG : Z := 0x24.
Definition DANUBE_PORT_STOFF_REG : Z := 0x28.
Definition DANUBE_PORT_PUDSEL_REG : Z := 0x2C.
Definition DANUBE_PORT_PUDEN_REG : Z := 0x30.
Definition PORT_MODULE_ID : Z := 0xff.
(** An [int] parameter takes the constant as a negative number. *)
Definition WDOG_MODULE_ID : Z := int32 0xF1B0D00D.
Definition WDOG_PORT : Z := 1.
Definition WDOG_PIN : Z := 6.

(** [danube_port_pin_usage] as the consecutive integers it is, the registers by
    address, and the semaphore of the ioctl. *)
Record port := mk_port { pin_usage : list Z; registers : gmap Z Z; port_sem : Z }.

Definition M (A : Type) := port -> option (A * port).
Definition ret {A} (a : A) : M A := fun s => Some (a, s).
Definition bind {A B} (m : M A) (k : A -> M B) : M B := fun s =>
  match m s with Some (a, s') => k a s' | None => None end.
Declare Scope port_scope.
Delimit Scope port_scope with port.
Bind Scope port_scope with M.
Notation "x <- m ;; k" := (bind m (fun x => k))
  (at level 100, m at next level, right associativity) : port_scope.
Notation "m1 ;;; m2" := (bind m1 (fun _ => m2)) (at level 100, right associativity) : port_scope.
Open Scope port_scope.

(** The test every function begins with. *)
Definition bad_pin (port pin : Z) : bool :=
  (port <? 0) || (pin <? 0) || (MAX_PORTS <? port) || (PINS_PER_PORT <? pin).

(** [danube_port_pin_usage[port][pin]], [danube_port_bases[port]]. *)
Definition usage_index (port pin : Z) : nat := Z.to_nat (port * PINS_PER_PORT + pin).
Definition get_usage (port pin : Z) : M Z := fun s =>
  match pin_usage s !! usage_index port pin with Some m => Some (m, s) | None => None end.
Definition set_usage (port pin m : Z) : M unit := fun s =>
  match pin_usage s !! usage_index port pin with
  | Some _ => Some (tt, mk_port (<[usage_index port pin := m]> (pin_usage s)) (registers s) (port_sem s))
  | None => None
  end.
Definition read_reg (a : Z) (s : port) : Z := default 0 (registers s !! a).
Definition PORT_READ_REG (a : Z) : M Z := fun s => Some (read_reg a s, s).
Definition PORT_WRITE_REG (a v : Z) : M unit := fun s =>
  Some (tt, mk_port (pin_usage s) (<[a := v]> (registers s)) (port_sem s)).

Section Driver.
(** The physical address of the first GPIO block. *)
Context (DANUBE_GPIO : Z).
Definition danube_port_bases : list Z := [DANUBE_GPIO; DANUBE_GPIO + 0x30].
Definition port_base (port : Z) : M Z := fun s =>
  match danube_port_bases !! Z.to_nat port with Some b => Some (b, s) | None => None end.

Definition danube_port_reserve_pin (port pin module_id : Z) : M Z :=
  if bad_pin port pin then ret (- EINVAL)
  else
    m <- get_usage port pin;;
    if m =? 0 then set_usage port pin module_id;;; ret OK
    else ret (- EBUSY).

Definition danube_port_free_pin (port pin module_id : Z) : M Z :=
  if bad_pin port pin then ret (- EINVAL)
  else
    m <- get_usage port pin;;
    if negb (m =? module_id) then ret (- EBUSY)
    else set_usage port pin 0;;; ret OK.

(** The read, change and write of a register that the setters share; [timer] is what the
    watchdog's timer does between the read and the write, where nothing keeps it out. *)
Definition port_update_during (timer : M unit) (reg : Z) (f : Z -> Z -> Z) (port pin module_id : Z) : M Z :=
  if bad_pin port pin then ret (- EINVAL)
  else
    m <- get_usage port pin;;
    if negb (m =? module_id) then ret (- EBUSY)
    else
      b <- port_base port;;
      v <- PORT_READ_REG (b + reg);;
      timer;;;
      PORT_WRITE_REG (b + reg) (f v pin);;;
      ret OK.
(** The timer does not run there. *)
Definition port_update : Z -> (Z -> Z -> Z) -> Z -> Z -> Z -> M Z := port_update_during (ret tt).

(** [reg |= (1 << pin)], [reg &= ~(1 << pin)], [reg ^= (1 << pin)] on a [u32]. *)
Definition bit_set (v pin : Z) : Z := Z.lor v (Z.shiftl 1 pin).
Definition bit_clear (v pin : Z) : Z := Z.land v (Z.lxor (Z.ones 32) (Z.shiftl 1 pin)).
Definition bit_toggle (v pin : Z) : Z := Z.lxor v (Z.shiftl 1 pin).

Definition danube_port_set_open_drain := port_update DANUBE_PORT_OD_REG bit_set.
Definition danube_port_clear_open_drain := port_update DANUBE_PORT_OD_REG bit_clear.
Definition danube_port_set_pudsel := port_update DANUBE_PORT_PUDSEL_REG bit_set.
Definition danube_port_clear_pudsel := port_update DANUBE_PORT_PUDSEL_REG bit_clear.
Definition danube_port_set_puden := port_update DANUBE_PORT_PUDEN_REG bit_set.
Definition danube_port_clear_puden := port_update DANUBE_PORT_PUDEN_REG bit_clear.
Definition danube_port_set_stoff := port_update DANUBE_PORT_STOFF_REG bit_set.
Definition danube_port_clear_stoff := port_update DANUBE_PORT_STOFF_REG bit_clear.
Definition danube_port_set_dir_out := port_update DANUBE_PORT_DIR_REG bit_set.
Definition danube_port_set_dir_in := port_update DANUBE_PORT_DIR_REG bit_clear.
Definition danube_port_set_output := port_update DANUBE_PORT_OUT_REG bit_set.
Definition danube_port_clear_output := port_update DANUBE_PORT_OUT_REG bit_clear.
Definition danube_port_toggle_output := port_update DANUBE_PORT_OUT_REG bit_toggle.
Definition danube_port_set_altsel0 := port_update DANUBE_PORT_ALTSEL0_REG bit_set.
Definition danube_port_clear_altsel0 := port_update DANUBE_PORT_ALTSEL0_REG bit_clear.
Definition danube_port_set_altsel1 := port_update DANUBE_PORT_ALTSEL1_REG bit_set.
Definition danube_port_clear_altsel1 := port_update DANUBE_PORT_ALTSEL1_REG bit_clear.

Definition danube_port_get_input (port pin module_id : Z) : M Z :=
  if bad_pin port pin then ret (- EINVAL)
  else
    m <- get_usage port pin;;
    if negb (m =? module_id) then ret (- EBUSY)
    else
      b <- port_base port;;
      v <- PORT_READ_REG (b + DANUBE_PORT_IN_REG);;
      ret (if Z.land v (Z.shiftl 1 pin) =? 0 then 0 else 1).

(** ** The ioctl *)

(** The commands of the switch; [IOCOTHER dir] is any other of the right type, [dir] saying
    whether it reads or writes the caller's structure. *)
Inductive port_cmd :=
| IOCOD | IOCPUDSEL | IOCPUDEN | IOCSTOFF | IOCDIR | IOCOUTPUT | IOCINPUT | IOCALTSEL0 | IOCALTSEL1
| IOCOTHER (dir : bool) | IOCBADTYPE.
Record danube_port_ioctl_parm := mk_parm { parm_port : Z; parm_pin : Z; parm_value : Z }.

Definition PORT_IOC_CALL (port pin : Z) (func : Z -> Z -> Z -> M Z) : M Z :=
  ret1 <- danube_port_reserve_pin port pin PORT_MODULE_ID;;
  ret2 <- (if ret1 =? 0 then func port pin PORT_MODULE_ID else ret ret1);;
  if ret2 =? 0 then danube_port_free_pin port pin PORT_MODULE_ID else ret ret2.

Definition on_value (p : danube_port_ioctl_parm) (off on : Z -> Z -> Z -> M Z) : M Z :=
  PORT_IOC_CALL (parm_port p) (parm_pin p) (if parm_value p =? 0 then off else on).

(** The switch: the result and the parameters given back. *)
Definition ioctl_switch (cmd : port_cmd) (p : danube_port_ioctl_parm) : M (Z * danube_port_ioctl_parm) :=
  let keep m := (r <- m;; ret (r, p)) in
  match cmd with
  | IOCOD => keep (on_value p danube_port_clear_open_drain danube_port_set_open_drain)
  | IOCPUDSEL => keep (on_value p danube_port_clear_pudsel danube_port_set_pudsel)
  | IOCPUDEN => keep (on_value p danube_port_clear_puden danube_port_set_puden)
  | IOCSTOFF => keep (on_value p danube_port_clear_stoff danube_port_set_stoff)
  | IOCDIR => keep (on_value p danube_port_set_dir_in danube_port_set_dir_out)
  | IOCOUTPUT => keep (on_value p danube_port_clear_output danube_port_set_output)
  | IOCALTSEL0 => keep (on_value p danube_port_clear_altsel0 danube_port_set_altsel0)
  | IOCALTSEL1 => keep (on_value p danube_port_clear_altsel1 danube_port_set_altsel1)
  | IOCINPUT =>
      r <- danube_port_reserve_pin (parm_port p) (parm_pin p) PORT_MODULE_ID;;
      v <- (if r =? 0 then danube_port_get_input (parm_port p) (parm_pin p) PORT_MODULE_ID
            else ret (parm_value p));;
      r <- danube_port_free_pin (parm_port p) (parm_pin p) PORT_MODULE_ID;;
      ret (r, mk_parm (parm_port p) (parm_pin p) v)
  | IOCOTHER _ | IOCBADTYPE => ret (- EINVAL, p)
  end.

Definition set_sem (n : Z) : M unit := fun s => Some (tt, mk_port (pin_usage s) (registers s) n).
Definition get_sem : M Z := fun s => Some (port_sem s, s).

Definition uses_arg (cmd : port_cmd) : bool := match cmd with IOCOTHER dir => dir | _ => true end.

(** [access_ok] of the caller's structure is [access]; [p] is what
    [copy_from_user] copied. *)
Definition danube_port_ioctl (access : bool) (cmd : port_cmd) (p : danube_port_ioctl_parm)
    : M (Z * danube_port_ioctl_parm) :=
  match cmd with
  | IOCBADTYPE => ret (- EINVAL, p)
  | _ =>
      if uses_arg cmd && negb access then ret (- EFAULT, p)
      else
        n <- get_sem;;
        if n =? 0 then ret (- EBUSY, p)
        else
          set_sem (n - 1);;;
          r <- ioctl_switch cmd p;;
          n' <- get_sem;;
          set_sem (n' + 1);;;
          ret r
  end.

(** ** The watchdog *)
Definition pet_the_watchdog : M unit :=
  danube_port_toggle_output WDOG_PORT WDOG_PIN WDOG_MODULE_ID;;; ret tt.

(** What [danube_port_init] does to the pins. *)
Definition danube_port_init : M unit :=
  (fun s => Some (tt, mk_port (replicate (Z.to_nat (MAX_PORTS * PINS_PER_PORT)) 0) (registers s) 1));;;
  danube_port_reserve_pin WDOG_PORT WDOG_PIN WDOG_MODULE_ID;;;
  danube_port_set_dir_out WDOG_PORT WDOG_PIN WDOG_MODULE_ID;;;
  danube_port_clear_altsel0 WDOG_PORT WDOG_PIN WDOG_MODULE_ID;;;
  danube_port_clear_altsel1 WDOG_PORT WDOG_PIN WDOG_MODULE_ID;;;
  danube_port_toggle_output WDOG_PORT WDOG_PIN WDOG_MODULE_ID;;;
  ret tt.
End Driver.
End Port.
