(* ===== verification/PortProps.v ===== *)
(** * PortProps: a pin obeys its owner only

    Each operation on a reserved pin changes that pin's bit of one register and
    nothing else, for the module that reserved it and for no other; no sequence of
    ioctls touches a pin reserved under another number than the ioctl's own, 0xff, the
    watchdog's in particular; what becomes of a pin reserved under 0xff, and of the
    watchdog's pet when its timer interrupts an operation on another pin of its port; and
    what the bounds tests let through. *)
From S2P Require Import Prelude Port.
Import Port.

Lemma port_bind_eq {A B} (m : M A) (k : A -> M B) s a s1 : m s = Some (a, s1) -> bind m k s = k a s1.
Proof. unfold bind. by intros ->. Qed.

(** A pin the driver has. *)
Definition in_range (port pin : Z) : Prop := 0 <= port < MAX_PORTS /\ 0 <= pin < PINS_PER_PORT.
(** The state after initialisation: 32 entries, 32-bit registers. *)
Definition usage_ok (s : port) : Prop := length (pin_usage s) = 32%nat.
Definition owner (s : port) (port pin : Z) : Z := nth (usage_index port pin) (pin_usage s) 0.
Definition reg_bit (a : Z) (s : port) (i : Z) : bool := Z.testbit (read_reg a s) i.

(** The operations, the register of each and what it does to the bit. *)
Definition pin_operations (gpio : Z) : list ((Z -> Z -> Z -> M Z) * Z * (bool -> bool)) :=
  let on := fun _ : bool => true in
  let off := fun _ : bool => false in [
  (danube_port_set_open_drain gpio, DANUBE_PORT_OD_REG, on);
  (danube_port_clear_open_drain gpio, DANUBE_PORT_OD_REG, off);
  (danube_port_set_pudsel gpio, DANUBE_PORT_PUDSEL_REG, on);
  (danube_port_clear_pudsel gpio, DANUBE_PORT_PUDSEL_REG, off);
  (danube_port_set_puden gpio, DANUBE_PORT_PUDEN_REG, on);
  (danube_port_clear_puden gpio, DANUBE_PORT_PUDEN_REG, off);
  (danube_port_set_stoff gpio, DANUBE_PORT_STOFF_REG, on);
  (danube_port_clear_stoff gpio, DANUBE_PORT_STOFF_REG, off);
  (danube_port_set_dir_out gpio, DANUBE_PORT_DIR_REG, on);
  (danube_port_set_dir_in gpio, DANUBE_PORT_DIR_REG, off);
  (danube_port_set_output gpio, DANUBE_PORT_OUT_REG, on);
  (danube_port_clear_output gpio, DANUBE_PORT_OUT_REG, off);
  (danube_port_toggle_output gpio, DANUBE_PORT_OUT_REG, negb);
  (danube_port_set_altsel0 gpio, DANUBE_PORT_ALTSEL0_REG, on);
  (danube_port_clear_altsel0 gpio, DANUBE_PORT_ALTSEL0_REG, off);
  (danube_port_set_altsel1 gpio, DANUBE_PORT_ALTSEL1_REG, on);
  (danube_port_clear_altsel1 gpio, DANUBE_PORT_ALTSEL1_REG, off) ].

(** ** Bits *)
Definition bit_effect (f : Z -> Z -> Z) (eff : bool -> bool) : Prop :=
  forall v pin i, 0 <= pin < 32 -> 0 <= i < 32 ->
    Z.testbit (f v pin) i = if decide (i = pin) then eff (Z.testbit v i) else Z.testbit v i.

Lemma shift_bit pin i : 0 <= pin -> 0 <= i -> Z.testbit (Z.shiftl 1 pin) i = bool_decide (i = pin).
Proof.
  intros Hp Hi. rewrite Z.shiftl_1_l. case_bool_decide as He.
  - subst. by apply Z.pow2_bits_true.
  - by apply Z.pow2_bits_false.
Qed.

Lemma bit_set_effect : bit_effect bit_set (fun _ => true).
Proof.
  intros v pin i Hp Hi. unfold bit_set. rewrite Z.lor_spec, shift_bit by lia.
  by case_bool_decide; case_decide; rewrite ?orb_true_r, ?orb_false_r.
Qed.
Lemma bit_clear_effect : bit_effect bit_clear (fun _ => false).
Proof.
  intros v pin i Hp Hi. unfold bit_clear.
  rewrite Z.land_spec, Z.lxor_spec, shift_bit, Z.ones_spec_low by lia.
  by case_bool_decide; case_decide; cbn; rewrite ?andb_false_r, ?andb_true_r.
Qed.
Lemma bit_toggle_effect : bit_effect bit_toggle negb.
Proof.
  intros v pin i Hp Hi. unfold bit_toggle. rewrite Z.lxor_spec, shift_bit by lia.
  by case_bool_decide; case_decide; rewrite ?xorb_true_r, ?xorb_false_r.
Qed.

(** ** The operations *)
Section Ops.
Context (gpio : Z).

Lemma in_range_good port pin : in_range port pin -> bad_pin port pin = false.
Proof.
  unfold in_range, bad_pin, MAX_PORTS, PINS_PER_PORT. intros [Hp Hq].
  repeat (apply orb_false_iff; split); apply Z.ltb_ge; lia.
Qed.
Lemma usage_index_lt port pin : in_range port pin -> (usage_index port pin < 32)%nat.
Proof. unfold in_range, usage_index, MAX_PORTS, PINS_PER_PORT. lia. Qed.
Lemma usage_index_inj p q p' q' :
  in_range p q -> in_range p' q' -> usage_index p q = usage_index p' q' -> p = p' /\ q = q'.
Proof. unfold in_range, usage_index, MAX_PORTS, PINS_PER_PORT. lia. Qed.

Lemma get_usage_eq s port pin :
  usage_ok s -> in_range port pin -> get_usage port pin s = Some (owner s port pin, s).
Proof.
  intros Hs Hr. unfold get_usage, owner. pose proof (usage_index_lt port pin Hr) as Hlt.
  rewrite <- Hs in Hlt. apply lookup_lt_is_Some_2 in Hlt as [m Hm]. rewrite Hm.
  by rewrite (nth_lookup_Some _ _ _ _ Hm).
Qed.
Lemma set_usage_eq s port pin m :
  usage_ok s -> in_range port pin -> set_usage port pin m s =
    Some (tt, mk_port (<[usage_index port pin := m]> (pin_usage s)) (registers s) (port_sem s)).
Proof.
  intros Hs Hr. unfold set_usage. pose proof (usage_index_lt port pin Hr) as Hlt.
  rewrite <- Hs in Hlt. by apply lookup_lt_is_Some_2 in Hlt as [m' ->].
Qed.

Definition base (port : Z) : Z := gpio + 0x30 * port.
Lemma port_base_eq s port pin : in_range port pin -> port_base gpio port s = Some (base port, s).
Proof.
  intros [Hp _]. unfold port_base, base, MAX_PORTS in *.
  assert (port = 0 \/ port = 1) as [->| ->] by lia; cbn; repeat f_equal; lia.
Qed.

Lemma port_update_eq reg f port pin id s :
  usage_ok s -> in_range port pin ->
  port_update gpio reg f port pin id s =
    if decide (owner s port pin = id)
    then Some (OK, mk_port (pin_usage s)
           (<[base port + reg := f (read_reg (base port + reg) s) pin]> (registers s)) (port_sem s))
    else Some (- EBUSY, s).
Proof.
  intros Hs Hr. unfold port_update, port_update_during. rewrite in_range_good by done.
  erewrite port_bind_eq by (by apply get_usage_eq). case_decide as Ho.
  - rewrite (proj2 (Z.eqb_eq _ _) Ho). cbn [negb]. by erewrite port_bind_eq by (by eapply port_base_eq).
  - by rewrite (proj2 (Z.eqb_neq _ _) Ho).
Qed.

Lemma read_write_reg a b v s usage sem :
  read_reg a (mk_port usage (<[b := v]> (registers s)) sem) =
    if decide (a = b) then v else read_reg a s.
Proof.
  unfold read_reg. cbn [registers]. case_decide as Ha.
  - subst. by rewrite lookup_insert_eq.
  - by rewrite lookup_insert_ne.
Qed.

(** What an operation on one pin may do: set, clear or toggle its bit. *)
Lemma operation_cases op reg eff :
  (op, reg, eff) ∈ pin_operations gpio ->
  exists f, op = port_update gpio reg f /\ bit_effect f eff.
Proof.
  intros Hin. unfold pin_operations in Hin. repeat rewrite elem_of_cons in Hin.
  repeat (destruct Hin as [[= -> -> ->]|Hin];
    [eexists; split; [reflexivity|];
     first [exact bit_set_effect | exact bit_clear_effect | exact bit_toggle_effect]|]).
  by apply elem_of_nil in Hin.
Qed.

(** C39. Each of the seventeen operations on a pin, called by the module that has reserved
    it, sets, clears or toggles that pin's bit of its register and changes no other bit, no
    other register and no owner; called by any other module it returns -EBUSY and changes
    nothing. *)
Theorem pin_operation_one_bit s op reg eff port pin id :
  (op, reg, eff) ∈ pin_operations gpio -> usage_ok s -> in_range port pin ->
  if decide (owner s port pin = id)
  then exists s', op port pin id s = Some (OK, s') /\ pin_usage s' = pin_usage s /\
    forall a i, 0 <= i < 32 ->
      reg_bit a s' i = if decide (a = base port + reg /\ i = pin) then eff (reg_bit a s i)
                       else reg_bit a s i
  else op port pin id s = Some (- EBUSY, s).
Proof.
  intros (f & -> & Hf)%operation_cases Hs Hr. rewrite port_update_eq by done.
  case_decide as Ho; [|done]. eexists. split; [reflexivity|]. split; [done|].
  intros a i Hi. unfold reg_bit. rewrite read_write_reg.
  destruct Hr as [_ Hpin]. unfold PINS_PER_PORT in *.
  destruct (decide (a = base port + reg)) as [->|Ha]; [|by rewrite decide_False by tauto].
  rewrite Hf by lia. destruct (decide (i = pin)); [by rewrite decide_True by done|].
  by rewrite decide_False by tauto.
Qed.

(** ** The ioctl *)
Lemma usage_back s port pin m :
  usage_ok s -> in_range port pin -> owner s port pin = 0 ->
  <[usage_index port pin := 0]> (<[usage_index port pin := m]> (pin_usage s)) = pin_usage s.
Proof.
  intros Hs Hr Ho. rewrite list_insert_insert_eq. apply list_insert_id.
  pose proof (usage_index_lt port pin Hr) as Hlt. rewrite <- Hs in Hlt.
  apply lookup_lt_is_Some_2 in Hlt as [x Hx]. unfold owner in Ho.
  rewrite (nth_lookup_Some _ _ _ _ Hx) in Ho. by rewrite Hx, Ho.
Qed.

Lemma reserved_ok s port pin m regs sem :
  usage_ok s -> usage_ok (mk_port (<[usage_index port pin := m]> (pin_usage s)) regs sem).
Proof. unfold usage_ok. cbn. by rewrite length_insert. Qed.
Lemma owner_reserved s port pin m regs sem :
  usage_ok s -> in_range port pin ->
  owner (mk_port (<[usage_index port pin := m]> (pin_usage s)) regs sem) port pin = m.
Proof.
  intros Hs Hr. unfold owner. cbn [pin_usage]. apply nth_lookup_Some. apply list_lookup_insert_eq.
  pose proof (usage_index_lt port pin Hr). unfold usage_ok in Hs. lia.
Qed.

Lemma reserve_eq s port pin id :
  usage_ok s -> in_range port pin ->
  danube_port_reserve_pin port pin id s =
    if decide (owner s port pin = 0)
    then Some (OK, mk_port (<[usage_index port pin := id]> (pin_usage s)) (registers s) (port_sem s))
    else Some (- EBUSY, s).
Proof.
  intros Hs Hr. unfold danube_port_reserve_pin. rewrite in_range_good by done.
  erewrite port_bind_eq by (by apply get_usage_eq). case_decide as Ho.
  - rewrite (proj2 (Z.eqb_eq _ _) Ho). by erewrite port_bind_eq by (by apply set_usage_eq).
  - by rewrite (proj2 (Z.eqb_neq _ _) Ho).
Qed.
Lemma free_eq s port pin id :
  usage_ok s -> in_range port pin ->
  danube_port_free_pin port pin id s =
    if decide (owner s port pin = id)
    then Some (OK, mk_port (<[usage_index port pin := 0]> (pin_usage s)) (registers s) (port_sem s))
    else Some (- EBUSY, s).
Proof.
  intros Hs Hr. unfold danube_port_free_pin. rewrite in_range_good by done.
  erewrite port_bind_eq by (by apply get_usage_eq). case_decide as Ho.
  - rewrite (proj2 (Z.eqb_eq _ _) Ho). cbn [negb]. by erewrite port_bind_eq by (by apply set_usage_eq).
  - by rewrite (proj2 (Z.eqb_neq _ _) Ho).
Qed.

(** One call of the ioctl on a pin nobody has: the operation, with the map of the owners as
    before. *)
Lemma ioc_call_eq s port pin reg f :
  usage_ok s -> in_range port pin ->
  PORT_IOC_CALL port pin (port_update gpio reg f) s =
    if decide (owner s port pin = 0)
    then Some (OK, mk_port (pin_usage s)
           (<[base port + reg := f (read_reg (base port + reg) s) pin]> (registers s)) (port_sem s))
    else Some (- EBUSY, s).
Proof.
  intros Hs Hr. unfold PORT_IOC_CALL. destruct (decide (owner s port pin = 0)) as [Ho|Ho].
  - erewrite port_bind_eq by (rewrite reserve_eq by done; by rewrite decide_True by done).
    cbn [OK Z.eqb]. erewrite port_bind_eq.
    2:{ rewrite port_update_eq by (done || by apply reserved_ok).
        by rewrite owner_reserved, decide_True by done. }
    cbn [OK Z.eqb pin_usage registers port_sem]. rewrite free_eq by (done || by apply reserved_ok).
    rewrite owner_reserved, decide_True by done. cbn [pin_usage registers port_sem].
    by rewrite usage_back by done.
  - erewrite port_bind_eq by (rewrite reserve_eq by done; by rewrite decide_False by done).
    by erewrite port_bind_eq by reflexivity.
Qed.

(** The pins an ioctl may name without leaving the arrays. *)
Definition safe_pin (port pin : Z) : Prop := in_range port pin \/ bad_pin port pin = true.

Lemma ioc_call_bad s port pin reg f :
  bad_pin port pin = true ->
  PORT_IOC_CALL port pin (port_update gpio reg f) s = Some (- EINVAL, s).
Proof. intros Hb. unfold PORT_IOC_CALL, danube_port_reserve_pin. by rewrite Hb. Qed.

(** From one state to another by calls of the ioctl: no reservation changes, and no bit of a
    reserved pin. *)
Definition port_regs : list Z := [
  DANUBE_PORT_OUT_REG; DANUBE_PORT_IN_REG; DANUBE_PORT_DIR_REG; DANUBE_PORT_ALTSEL0_REG;
  DANUBE_PORT_ALTSEL1_REG; DANUBE_PORT_OD_REG; DANUBE_PORT_STOFF_REG; DANUBE_PORT_PUDSEL_REG;
  DANUBE_PORT_PUDEN_REG ].
Definition respects_owners (s s' : Port.port) : Prop :=
  pin_usage s' = pin_usage s /\ port_sem s' = port_sem s /\
  forall port pin reg, in_range port pin -> owner s port pin <> 0 -> reg ∈ port_regs ->
    reg_bit (base port + reg) s' pin = reg_bit (base port + reg) s pin.

#[export] Instance respects_owners_preorder : PreOrder respects_owners.
Proof.
  split; [by intros s|]. intros s1 s2 s3 (U1 & S1 & H1) (U2 & S2 & H2).
  split; [congruence|]. split; [congruence|]. intros port pin reg Hr Ho Hg.
  rewrite H2, H1; try done. unfold owner in *. by rewrite U1.
Qed.

Lemma base_inj p p' reg reg' :
  0 <= p < MAX_PORTS -> 0 <= p' < MAX_PORTS -> reg ∈ port_regs -> reg' ∈ port_regs ->
  base p + reg = base p' + reg' -> p = p' /\ reg = reg'.
Proof.
  intros Hp Hp' Hr Hr' He.
  assert (Hall : forall r, r ∈ port_regs -> 0x10 <= r <= 0x30).
  { apply Forall_forall. repeat (apply Forall_cons; split; [vm_compute; split; discriminate|]). constructor. }
  apply Hall in Hr, Hr'. unfold base, MAX_PORTS in *. lia.
Qed.

Lemma ioc_call_respects s port pin reg f eff :
  usage_ok s -> safe_pin port pin -> reg ∈ port_regs -> bit_effect f eff ->
  exists r s', PORT_IOC_CALL port pin (port_update gpio reg f) s = Some (r, s') /\
    respects_owners s s'.
Proof.
  intros Hs [Hr|Hb] Hg Hf; [|rewrite ioc_call_bad by done; by do 2 eexists].
  rewrite ioc_call_eq by done. destruct (decide (owner s port pin = 0)) as [Ho|_]; [|by do 2 eexists].
  do 2 eexists. split; [reflexivity|]. split; [done|]. split; [done|].
  intros port' pin' reg' Hr' Ho' Hg'. unfold reg_bit. rewrite read_write_reg. case_decide as Ha; [|done].
  destruct Hr as [Hp Hq], Hr' as [Hp' Hq'].
  destruct (base_inj port' port reg' reg) as [-> ->]; try done.
  unfold PINS_PER_PORT in *. rewrite Hf by lia. rewrite decide_False; [done|]. by intros ->.
Qed.

Lemma switch_respects s cmd p :
  usage_ok s -> Forall (fun m => m <> PORT_MODULE_ID) (pin_usage s) ->
  safe_pin (parm_port p) (parm_pin p) ->
  exists r s', ioctl_switch gpio cmd p s = Some (r, s') /\ respects_owners s s'.
Proof.
  intros Hs Hn Hp.
  assert (Hcall : forall reg f g eff eff', reg ∈ port_regs -> bit_effect f eff -> bit_effect g eff' ->
    exists r s', (let m := on_value p (port_update gpio reg f) (port_update gpio reg g) in
      bind m (fun r => ret (r, p))) s = Some (r, s') /\ respects_owners s s').
  { intros reg f g eff eff' Hg Hf Hg'. unfold on_value. destruct (parm_value p =? 0);
      [destruct (ioc_call_respects s (parm_port p) (parm_pin p) reg f eff) as (r & s' & Hr & Ho)
      |destruct (ioc_call_respects s (parm_port p) (parm_pin p) reg g eff') as (r & s' & Hr & Ho)];
      try done; exists (r, p), s'; (split; [by erewrite port_bind_eq by exact Hr | exact Ho]). }
  destruct cmd; try (by eapply Hcall;
    [unfold port_regs; set_solver | exact bit_clear_effect | exact bit_set_effect]);
    try (by do 2 eexists).
  destruct p as [port pin v]. cbn [ioctl_switch parm_port parm_pin parm_value] in *.
  destruct Hp as [Hr|Hb].
  2:{ unfold danube_port_reserve_pin, danube_port_free_pin. rewrite Hb. by do 2 eexists. }
  destruct (decide (owner s port pin = 0)) as [Ho|Ho].
  - erewrite port_bind_eq by (rewrite reserve_eq by done; by rewrite decide_True by done).
    cbn [OK Z.eqb]. unfold danube_port_get_input. rewrite in_range_good by done.
    erewrite port_bind_eq.
    2:{ erewrite port_bind_eq by (apply get_usage_eq; [by apply reserved_ok | done]).
        rewrite owner_reserved, Z.eqb_refl by done. cbn [negb].
        erewrite port_bind_eq by (by eapply port_base_eq). reflexivity. }
    erewrite port_bind_eq.
    2:{ rewrite free_eq by (done || by apply reserved_ok). by rewrite owner_reserved, decide_True by done. }
    cbn [pin_usage registers port_sem]. rewrite usage_back by done.
    do 2 eexists. split; [reflexivity|]. by destruct s.
  - erewrite port_bind_eq by (rewrite reserve_eq by done; by rewrite decide_False by done).
    cbn [EBUSY Z.eqb Z.opp]. erewrite port_bind_eq by reflexivity.
    erewrite port_bind_eq; [by do 2 eexists|]. rewrite free_eq by done. rewrite decide_False; [done|].
    intros Ho'. pose proof (usage_index_lt port pin Hr) as Hlt. rewrite <- Hs in Hlt.
    apply lookup_lt_is_Some_2 in Hlt as [x Hx]. rewrite Forall_lookup in Hn. apply (Hn _ _ Hx).
    unfold owner in Ho'. by rewrite (nth_lookup_Some _ _ _ _ Hx) in Ho'.
Qed.
End Ops.

(** ** Any sequence of ioctls *)
Section Ioctls.
Context (gpio : Z).

Lemma ioctl_respects s access cmd p :
  usage_ok s -> port_sem s = 1 -> Forall (fun m => m <> PORT_MODULE_ID) (pin_usage s) ->
  safe_pin (parm_port p) (parm_pin p) ->
  exists r s', danube_port_ioctl gpio access cmd p s = Some (r, s') /\ respects_owners gpio s s'.
Proof.
  intros Hs Hx Hn Hp. unfold danube_port_ioctl.
  destruct (switch_respects gpio (mk_port (pin_usage s) (registers s) 0) cmd p Hs Hn Hp)
    as (r & s1 & Hrun & HU & HS & HB).
  assert (Hbody : exists r s',
    (if uses_arg cmd && negb access then ret (- EFAULT, p)
     else n <- get_sem;;
       if n =? 0 then ret (- EBUSY, p)
       else set_sem (n - 1);;; r <- ioctl_switch gpio cmd p;; n' <- get_sem;; set_sem (n' + 1);;; ret r) s
      = Some (r, s') /\ respects_owners gpio s s').
  { destruct (uses_arg cmd && negb access); [by do 2 eexists|].
    erewrite port_bind_eq by reflexivity. rewrite Hx. cbn [Z.eqb]. erewrite port_bind_eq by reflexivity.
    change (1 - 1) with 0. erewrite port_bind_eq by exact Hrun.
    do 2 eexists. split; [reflexivity|]. cbn [port_sem] in HS. split; [done|].
    split; [cbn; by rewrite HS, Hx|]. exact HB. }
  destruct cmd; try exact Hbody. by do 2 eexists.
Qed.

(** One user program after another. *)
Fixpoint ioctls (l : list (bool * port_cmd * danube_port_ioctl_parm)) : M (list Z) :=
  match l with
  | [] => ret []
  | (access, cmd, p) :: l' =>
      r <- danube_port_ioctl gpio access cmd p;; rs <- ioctls l';; ret (r.1 :: rs)
  end.

(** C40. When no pin is reserved under the number 0xff of the ioctl itself and the semaphore
    is free: no sequence of ioctls of user programs, whatever the commands and the values,
    changes the owner of a pin or the bit of a reserved pin in any register, the one that
    feeds the watchdog included; every call returns with the semaphore and the map as it
    found them. The ports and pins asked for are those of the map, or ones the bounds tests
    refuse, and the timer of the watchdog does not run inside a call. A pin held under 0xff
    is freed by IOCINPUT (input_frees_ff), and a timer between the read and the write of the
    output register is undone (pet_undone). *)
Theorem ioctls_respect_owners s l :
  usage_ok s -> port_sem s = 1 -> Forall (fun m => m <> PORT_MODULE_ID) (pin_usage s) ->
  Forall (fun c => safe_pin (parm_port c.2) (parm_pin c.2)) l ->
  exists rs s', ioctls l s = Some (rs, s') /\ length rs = length l /\
    pin_usage s' = pin_usage s /\ port_sem s' = 1 /\
    forall port pin reg, in_range port pin -> owner s port pin <> 0 -> reg ∈ port_regs ->
      reg_bit (base gpio port + reg) s' pin = reg_bit (base gpio port + reg) s pin.
Proof.
  intros Hs Hx Hn Hl.
  assert (H : exists rs s', ioctls l s = Some (rs, s') /\ length rs = length l /\
            respects_owners gpio s s').
  { revert s Hs Hx Hn. induction Hl as [|[[access cmd] p] l Hp Hl IH]; intros s Hs Hx Hn.
    { exists [], s. by repeat split. }
    cbn [ioctls]. destruct (ioctl_respects s access cmd p Hs Hx Hn Hp) as (r & s1 & Hr & Ho).
    pose proof Ho as (HU & HS & _).
    destruct (IH s1) as (rs & s' & Hrs & Hlen & Ho'); [by unfold usage_ok; rewrite HU | congruence |
      by rewrite HU |].
    erewrite port_bind_eq by exact Hr. erewrite port_bind_eq by exact Hrs.
    do 2 eexists. split; [reflexivity|]. split; [cbn; by rewrite Hlen|]. by etrans. }
  destruct H as (rs & s' & Hr & Hlen & HU & HS & HB). exists rs, s'. by rewrite HS.
Qed.
End Ioctls.

(** The state [danube_port_init] leaves, on registers that read 0. *)
Definition booted : port :=
  match danube_port_init 0 (mk_port [] ∅ 0) with Some (_, s) => s | None => mk_port [] ∅ 0 end.

(** A program that tries the watchdog's pin, and one that drives a free pin. *)
Definition intruder : list (bool * port_cmd * danube_port_ioctl_parm) := [
  (true, IOCDIR, mk_parm 1 6 0); (true, IOCOUTPUT, mk_parm 1 6 0); (true, IOCINPUT, mk_parm 1 6 0);
  (true, IOCOUTPUT, mk_parm 1 5 1); (true, IOCOD, mk_parm (-1) 3 0) ].

Lemma ioctls_respect_owners_witness :
  exists rs s', ioctls 0 intruder booted = Some (rs, s') /\ length rs = 5%nat /\
    pin_usage s' = pin_usage booted /\ port_sem s' = 1 /\
    reg_bit (base 0 1 + DANUBE_PORT_OUT_REG) s' 6 = true.
Proof.
  destruct (ioctls_respect_owners 0 booted intruder) as (rs & s' & Hr & Hlen & HU & HS & HB).
  - reflexivity.
  - reflexivity.
  - vm_compute. repeat constructor; discriminate.
  - repeat (apply Forall_cons; split; [first [left; vm_compute; repeat split; discriminate
                                             | right; reflexivity]|]). constructor.
  - exists rs, s'. split; [exact Hr|]. split; [exact Hlen|]. split; [exact HU|]. split; [exact HS|].
    rewrite HB; [vm_compute; reflexivity | vm_compute; repeat split; discriminate |
      vm_compute; discriminate | unfold port_regs; set_solver].
Defined.

Lemma pin_operation_one_bit_witness :
  exists s', danube_port_set_open_drain 0 1 6 WDOG_MODULE_ID booted = Some (OK, s') /\
    pin_usage s' = pin_usage booted /\
    forall a i, 0 <= i < 32 ->
      reg_bit a s' i = if decide (a = base 0 1 + DANUBE_PORT_OD_REG /\ i = 6) then true
                       else reg_bit a booted i.
Proof.
  refine (pin_operation_one_bit 0 booted (danube_port_set_open_drain 0) DANUBE_PORT_OD_REG
    (fun _ => true) 1 6 WDOG_MODULE_ID _ _ _);
    [unfold pin_operations; set_solver | reflexivity | vm_compute; repeat split; discriminate].
Defined.

(** ** What the ioctl does not keep *)

(** A module that has reserved a pin under the number of the ioctl, 0xff, loses it: IOCINPUT
    frees the pin although its own reservation was refused, and reports success. *)
Theorem input_frees_ff gpio s port pin v :
  usage_ok s -> port_sem s = 1 -> in_range port pin -> owner s port pin = PORT_MODULE_ID ->
  exists s', danube_port_ioctl gpio true IOCINPUT (mk_parm port pin v) s = Some ((OK, mk_parm port pin v), s') /\
    owner s' port pin = 0.
Proof.
  intros Hs Hx Hr Ho. unfold danube_port_ioctl. cbn [uses_arg andb negb].
  erewrite port_bind_eq by reflexivity. rewrite Hx. cbn [Z.eqb]. erewrite port_bind_eq by reflexivity.
  set (s0 := mk_port (pin_usage s) (registers s) (1 - 1)).
  assert (Ho0 : owner s0 port pin = PORT_MODULE_ID) by exact Ho.
  cbn [ioctl_switch parm_port parm_pin parm_value]. erewrite port_bind_eq.
  2:{ erewrite port_bind_eq by (rewrite (reserve_eq s0) by done; by rewrite Ho0, decide_False by done).
      erewrite port_bind_eq by reflexivity.
      erewrite port_bind_eq by (rewrite (free_eq s0) by done; by rewrite Ho0, decide_True by done). reflexivity. }
  do 2 (erewrite port_bind_eq by reflexivity). eexists. split; [reflexivity|].
  apply (owner_reserved s port pin 0 _ _ Hs Hr).
Qed.

Definition borrowed : port := mk_port (<[21%nat := PORT_MODULE_ID]> (pin_usage booted)) (registers booted) 1.
Lemma input_frees_ff_witness :
  exists s', danube_port_ioctl 0 true IOCINPUT (mk_parm 1 5 0) borrowed = Some ((OK, mk_parm 1 5 0), s') /\
    owner s' 1 5 = 0.
Proof.
  apply input_frees_ff; [reflexivity | reflexivity | unfold in_range, MAX_PORTS, PINS_PER_PORT; lia | reflexivity].
Defined.

(** The timer that runs between the read and the write of the output register of port 1, on
    behalf of a module that drives another pin of it, toggles the watchdog's pin in vain: the
    write puts the old level back. *)
Theorem pet_undone gpio s f eff pin id :
  bit_effect f eff -> usage_ok s -> in_range 1 pin -> pin <> WDOG_PIN ->
  owner s 1 pin = id -> owner s 1 WDOG_PIN = WDOG_MODULE_ID ->
  let fed s := reg_bit (base gpio 1 + DANUBE_PORT_OUT_REG) s WDOG_PIN in
  (exists s1, (pet_the_watchdog gpio s = Some (tt, s1)) /\ (fed s1 = negb (fed s))) /\
  (exists s', port_update_during gpio (pet_the_watchdog gpio) DANUBE_PORT_OUT_REG f 1 pin id s = Some (OK, s') /\
     fed s' = fed s).
Proof.
  intros Hf Hs Hr Hne Ho Hw. cbv zeta.
  assert (Hwr : in_range 1 WDOG_PIN) by (unfold in_range, MAX_PORTS, PINS_PER_PORT, WDOG_PIN; lia).
  set (a := base gpio 1 + DANUBE_PORT_OUT_REG).
  assert (Hpet : pet_the_watchdog gpio s = Some (tt,
    mk_port (pin_usage s) (<[a := bit_toggle (read_reg a s) WDOG_PIN]> (registers s)) (port_sem s))).
  { unfold pet_the_watchdog, danube_port_toggle_output. unfold WDOG_PORT. erewrite port_bind_eq.
    2:{ rewrite port_update_eq by done. by rewrite decide_True by done. }
    done. }
  split.
  - eexists. split; [exact Hpet|]. unfold reg_bit. rewrite read_write_reg, decide_True by done.
    rewrite bit_toggle_effect by (unfold WDOG_PIN; lia). by rewrite decide_True by done.
  - unfold port_update_during. rewrite in_range_good by done. erewrite port_bind_eq by (by apply get_usage_eq).
    rewrite (proj2 (Z.eqb_eq _ _) Ho). cbn [negb]. erewrite port_bind_eq by (by eapply port_base_eq).
    fold a. erewrite port_bind_eq by reflexivity. erewrite port_bind_eq by exact Hpet.
    eexists. split; [reflexivity|]. unfold reg_bit. rewrite read_write_reg, decide_True by done.
    destruct Hr as [_ Hp]. unfold PINS_PER_PORT in Hp.
    rewrite Hf by (unfold WDOG_PIN; lia). by rewrite decide_False by congruence.
Qed.

Lemma pet_undone_witness :
  exists s', port_update_during 0 (pet_the_watchdog 0) DANUBE_PORT_OUT_REG bit_set 1 5 PORT_MODULE_ID borrowed = Some (OK, s') /\
    reg_bit (base 0 1 + DANUBE_PORT_OUT_REG) s' WDOG_PIN = reg_bit (base 0 1 + DANUBE_PORT_OUT_REG) borrowed WDOG_PIN.
Proof.
  apply (pet_undone 0 borrowed bit_set (fun _ => true) 5 PORT_MODULE_ID bit_set_effect);
    [reflexivity | unfold in_range, MAX_PORTS, PINS_PER_PORT; lia | unfold WDOG_PIN; lia | reflexivity | reflexivity].
Defined.

(** ** What the bounds tests let through *)

(** Port 2 passes the bounds tests although the map has the ports 0 and 1: reserving,
    freeing and driving a pin of it leave the map. Pin 16 of port 0 passes too and is pin 0
    of port 1 in the map: the owner of the latter drives bit 16 of the register of port 0.
    *)
Theorem bounds_off_by_one gpio s pin id :
  usage_ok s -> 0 <= pin <= PINS_PER_PORT ->
  danube_port_reserve_pin 2 pin id s = None /\
  danube_port_free_pin 2 pin id s = None /\ danube_port_set_output gpio 2 pin id s = None /\
  danube_port_reserve_pin 0 16 id s = danube_port_reserve_pin 1 0 id s /\
  (owner s 1 0 = id -> exists s', danube_port_set_output gpio 0 16 id s = Some (OK, s') /\
     reg_bit (base gpio 0 + DANUBE_PORT_OUT_REG) s' 16 = true).
Proof.
  intros Hs Hp. unfold PINS_PER_PORT in Hp.
  assert (Hb : bad_pin 2 pin = false).
  { unfold bad_pin, MAX_PORTS, PINS_PER_PORT. repeat (apply orb_false_iff; split); apply Z.ltb_ge; lia. }
  assert (Hn : forall A (k : Z -> M A), bind (get_usage 2 pin) k s = None).
  { intros A k. unfold bind, get_usage.
    assert (pin_usage s !! usage_index 2 pin = None) as ->; [|done].
    apply lookup_ge_None. unfold usage_ok in Hs. unfold usage_index, PINS_PER_PORT. lia. }
  split; [unfold danube_port_reserve_pin; rewrite Hb; apply Hn|].
  split; [unfold danube_port_free_pin; rewrite Hb; apply Hn|].
  split; [unfold danube_port_set_output, port_update, port_update_during; rewrite Hb; apply Hn|].
  split; [reflexivity|]. intros Ho.
  assert (Hg : get_usage 0 16 s = Some (owner s 1 0, s)).
  { change (get_usage 0 16 s) with (get_usage 1 0 s). apply get_usage_eq; [done|].
    unfold in_range, MAX_PORTS, PINS_PER_PORT. lia. }
  unfold danube_port_set_output, port_update, port_update_during. cbn [bad_pin]. change (bad_pin 0 16) with false.
  cbv iota. erewrite port_bind_eq by exact Hg. rewrite Ho, Z.eqb_refl. cbn [negb].
  do 4 erewrite port_bind_eq by reflexivity.
  eexists. split; [reflexivity|]. unfold reg_bit. rewrite read_write_reg.
  rewrite decide_True by (unfold base; lia). unfold bit_set. rewrite Z.lor_spec, shift_bit by lia.
  rewrite bool_decide_eq_true_2 by done. apply orb_true_r.
Qed.

Lemma bounds_off_by_one_witness :
  danube_port_reserve_pin 2 3 7 booted = None /\ danube_port_free_pin 2 3 7 booted = None /\
  danube_port_set_output 0 2 3 7 booted = None /\
  danube_port_reserve_pin 0 16 7 booted = danube_port_reserve_pin 1 0 7 booted /\
  (owner booted 1 0 = 7 -> exists s', danube_port_set_output 0 0 16 7 booted = Some (OK, s') /\
     reg_bit (base 0 0 + DANUBE_PORT_OUT_REG) s' 16 = true).
Proof.
  apply bounds_off_by_one; [reflexivity | unfold PINS_PER_PORT; lia].
Defined.
