(* ===== verification/Mailbox.v ===== *)
(** * Mailbox: the messages between the two processors

    arch/mips/infineon/danube/mps/mps_tpe_device.c, mps_tpe_device.h and
    asm-mips/danube/mps_dualcore.h of the twinpass board support: four FIFOs of messages in
    a shared SRAM (commands and data, up and down stream), the functions that write and
    read them, the interrupt handlers that move messages to a queue in memory, and the
    tasklets that hand them to the registered callbacks.

    The SRAM is a map from the number of a 32-bit word to its value, 0 where nothing was
    written since [ifx_mpsdrv_initial_structures] cleared it.  A pointer to a message in
    the SRAM is the number of its first word; a pointer to a buffer of the heap is its
    address, 0 is NULL.  The processor is big endian: the bits of the second word of a
    header are, from the top, msg_prio (8), msg_pad, msg_rsrv (7), msg_ready,
    msg_next_wrapped, msg_res6 (6) and msg_len (8).  The statistics of CONFIG_PROC_FS, the
    interrupt mitigation of the 11n driver and the kernel threads of MPS_USE_KT are compiled
    out. *)
From S2P Require Import Prelude MpsBuffer.

Module Mbx.
Import Mps.

Definition OK : Z := 0.
Definition ERROR : Z := -1.
Definition EAGAIN : Z := 11.
Definition ENOMSG : Z := 35.
Definition MPS_MIN_MARGIN : Z := 2.
Definition MPS_MSGHDR_LEN : Z := 8.
(** [sizeof(mps_data_message)], in words. *)
Definition data_message_words : nat := 6.

(** ** Messages *)
Definition word (m : gmap Z Z) (a : Z) : Z := default 0 (m !! a).
Definition header_ready (val1 : Z) : bool := Z.testbit val1 15.
Definition header_wrapped (val1 : Z) : bool := Z.testbit val1 14.
Definition header_len (val1 : Z) : Z := Z.land val1 0xff.
Definition header_type (val0 : Z) : Z := Z.land (Z.shiftr val0 24) 0xff.
Definition header_seqno (val0 : Z) : Z := Z.land (Z.shiftr val0 16) 0xff.

Definition msg_ready (m : gmap Z Z) (pMsg : Z) : bool := header_ready (word m (pMsg + 1)).
Definition msg_next_wrapped (m : gmap Z Z) (pMsg : Z) : bool := header_wrapped (word m (pMsg + 1)).
Definition msg_len (m : gmap Z Z) (pMsg : Z) : Z := header_len (word m (pMsg + 1)).

(** [val1 |= 0x8000], [val1 &= ~0x8000] *)
Definition set_ready (val1 : Z) : Z := Z.lor val1 0x8000.
Definition clear_ready (val1 : Z) : Z := Z.land val1 (Z.lxor (Z.ones 32) 0x8000).

(** [(n + 3) >> 2] on a [u32]. *)
Definition to_4bytes (n : Z) : Z := Z.shiftr (u32 (n + 3)) 2.

(** ** The FIFOs *)
Record mps_fifo := mk_fifo {
  pstart : Z; fifo_size : Z; pwrite_off : Z; pread_off : Z; sram : gmap Z Z }.

Definition set_pwrite (w : Z) (f : mps_fifo) : mps_fifo :=
  mk_fifo (pstart f) (fifo_size f) w (pread_off f) (sram f).
Definition set_pread (r : Z) (f : mps_fifo) : mps_fifo :=
  mk_fifo (pstart f) (fifo_size f) (pwrite_off f) r (sram f).
Definition set_sram (m : gmap Z Z) (f : mps_fifo) : mps_fifo :=
  mk_fifo (pstart f) (fifo_size f) (pwrite_off f) (pread_off f) m.
Definition write_msg (f : mps_fifo) : Z := pstart f + pwrite_off f.
Definition read_msg (f : mps_fifo) : Z := pstart f + pread_off f.

Definition ifx_mpsdrv_fifo_clear (f : mps_fifo) : mps_fifo := set_pwrite 0 (set_pread 0 f).

(** Follow the mark that says that the next message is at the beginning. *)
Definition follow_wrap (f : mps_fifo) : mps_fifo :=
  if msg_next_wrapped (sram f) (read_msg f) then set_pread 0 f else f.

Definition ifx_mpsdrv_fifo_not_empty (f : mps_fifo) : bool * mps_fifo :=
  let f := follow_wrap f in (msg_ready (sram f) (read_msg f), f).

Definition ifx_mpsdrv_fifo_mem_available (f : mps_fifo) : Z :=
  if pwrite_off f <? pread_off f then u32 (Z.shiftl (u32 (pread_off f - pwrite_off f)) 2)
  else u32 (fifo_size f - Z.shiftl (u32 (pwrite_off f - pread_off f)) 2).

Definition ifx_mpsdrv_fifo_mem_request (f : mps_fifo) (bytes : Z) : bool :=
  bytes <=? ifx_mpsdrv_fifo_mem_available f.

Definition ifx_mpsdrv_fifo_read_ptr_inc (f : mps_fifo) (increment : Z) : mps_fifo :=
  if fifo_size f <? increment then f
  else
    let pMsg := read_msg f in
    let f := set_sram (<[pMsg + 1 := clear_ready (word (sram f) (pMsg + 1))]> (sram f)) f in
    set_pread (u32 (pread_off f + increment)) f.

Definition ifx_mpsdrv_fifo_read (f : mps_fifo) : option Z * mps_fifo :=
  let f := follow_wrap f in
  (if msg_ready (sram f) (read_msg f) then Some (read_msg f) else None, f).

(** The loop that copies [data], word by word, to [pNew]. *)
Fixpoint copy_words (m : gmap Z Z) (pNew : Z) (data : list Z) : gmap Z Z :=
  match data with
  | [] => m
  | w :: data' => copy_words (<[pNew := w]> m) (pNew + 1) data'
  end.

(** Words read from [pRead] on, [n] of them. *)
Definition read_words (m : gmap Z Z) (pRead : Z) (n : nat) : list Z :=
  map (fun i => word m (pRead + Z.of_nat i)) (seq 0 n).

(** From the copy to the end: the message is written at the write index. *)
Definition put_message (f : mps_fifo) (data : list Z) (msg_4bytes : Z) : mps_fifo :=
  let pWrtMsg := write_msg f in
  let m := copy_words (sram f) pWrtMsg (take (Z.to_nat msg_4bytes) data) in
  let m := <[pWrtMsg + 1 := set_ready (word m (pWrtMsg + 1))]> m in
  let f := set_pwrite (u32 (pwrite_off f + msg_4bytes)) (set_sram m f) in
  set_sram (<[write_msg f := 0]> (<[write_msg f + 1 := 0]> (sram f))) f.

Definition ifx_mpsdrv_fifo_write (f : mps_fifo) (data : list Z) (length : Z) : Z * mps_fifo :=
  if fifo_size f <? length then (ERROR, f)
  else
    let pWrtMsg := write_msg f in
    if msg_ready (sram f) pWrtMsg then (ERROR, f)
    else
      let msg_4bytes := to_4bytes length in
      let room (f : mps_fifo) := u32 (u32 (pwrite_off f + msg_4bytes) + MPS_MIN_MARGIN) in
      if pwrite_off f <? pread_off f then
        if pread_off f <? room f then (ERROR, f)
        else (OK, put_message f data msg_4bytes)
      else if Z.shiftr (fifo_size f) 2 <=? room f then
        let f := set_sram (<[pWrtMsg + 1 := 0x4000]> (sram f)) f in
        let f := set_pwrite 0 f in
        if msg_ready (sram f) (pstart f) then (ERROR, f)
        else if pread_off f <? room f then (ERROR, f)
        else (OK, put_message f data msg_4bytes)
      else (OK, put_message f data msg_4bytes).

(** ** The queue of received messages *)
Definition MAX_MPS_DATAMSG_QLEN : Z := 1024.

Record MPS_DATAMSG_LIST := mk_datamsg_list {
  datamsg_buf : list Z; datamsg_rpos : Z; datamsg_wpos : Z }.

Definition mps_datamsg_queue_init : MPS_DATAMSG_LIST :=
  mk_datamsg_list (replicate (Z.to_nat (MAX_MPS_DATAMSG_QLEN + 1)) 0) 0 0.

Definition MPS_DATAMSG_NEXT_Q_POS (pos : Z) : Z :=
  if pos <? MAX_MPS_DATAMSG_QLEN then u32 (pos + 1) else 0.
Definition MPS_DATAMSG_IS_Q_FULL (q : MPS_DATAMSG_LIST) : bool :=
  MPS_DATAMSG_NEXT_Q_POS (datamsg_wpos q) =? datamsg_rpos q.
Definition MPS_DATAMSG_IS_Q_EMPTY (q : MPS_DATAMSG_LIST) : bool :=
  datamsg_rpos q =? datamsg_wpos q.

(** [None] where the C code would leave the ring. *)
Definition datamsg_push (buf : Z) (q : MPS_DATAMSG_LIST) : option MPS_DATAMSG_LIST :=
  _ ← datamsg_buf q !! Z.to_nat (datamsg_wpos q);
  Some (mk_datamsg_list (<[Z.to_nat (datamsg_wpos q) := buf]> (datamsg_buf q))
          (datamsg_rpos q) (MPS_DATAMSG_NEXT_Q_POS (datamsg_wpos q))).

Definition mps_datamsg_dequeue_head (q : MPS_DATAMSG_LIST) : option (Z * MPS_DATAMSG_LIST) :=
  if MPS_DATAMSG_IS_Q_EMPTY q then Some (0, q)
  else
    m_buf ← datamsg_buf q !! Z.to_nat (datamsg_rpos q);
    Some (m_buf, mk_datamsg_list (datamsg_buf q) (MPS_DATAMSG_NEXT_Q_POS (datamsg_rpos q))
                   (datamsg_wpos q)).

(** ** The device *)
Inductive mbx_fifo := UPSTR_CMD | DNSTR_CMD | UPSTR_DATA | DNSTR_DATA.
#[export] Instance mbx_fifo_eq_dec : EqDecision mbx_fifo.
Proof. solve_decision. Defined.

(** The indexes of the FIFOs in the mailbox registers, and the words of [MBX_DATA]. The
    read index of a FIFO stands before its write index. *)
Record mps_mbx_reg := mk_mbx_reg {
  MBX_UPSTR_CMD : Z * Z; MBX_DNSTR_CMD : Z * Z; MBX_UPSTR_DATA : Z * Z; MBX_DNSTR_DATA : Z * Z;
  MBX_DATA : gmap Z Z }.

Definition MBX_CMD_FIFO_SIZE : Z := 64.
Definition MBX_DATA_FIFO_SIZE : Z := 128.
(** MBX_UPSTRM_CMD_FIFO_BASE and the three bases that follow, as words of [MBX_DATA]. *)
Definition fifo_base (id : mbx_fifo) : Z :=
  match id with UPSTR_CMD => 0 | DNSTR_CMD => 16 | UPSTR_DATA => 32 | DNSTR_DATA => 64 end.
Definition fifo_bytes (id : mbx_fifo) : Z :=
  match id with UPSTR_CMD | DNSTR_CMD => MBX_CMD_FIFO_SIZE | _ => MBX_DATA_FIFO_SIZE end.

Definition offsets (id : mbx_fifo) (r : mps_mbx_reg) : Z * Z :=
  match id with
  | UPSTR_CMD => MBX_UPSTR_CMD r | DNSTR_CMD => MBX_DNSTR_CMD r
  | UPSTR_DATA => MBX_UPSTR_DATA r | DNSTR_DATA => MBX_DNSTR_DATA r
  end.
(** What [pstart], [size], [pwrite_off] and [pread_off] of a mailbox point to. *)
Definition get_fifo (id : mbx_fifo) (r : mps_mbx_reg) : mps_fifo :=
  mk_fifo (fifo_base id) (fifo_bytes id) (offsets id r).2 (offsets id r).1 (MBX_DATA r).
Definition put_fifo (id : mbx_fifo) (f : mps_fifo) (r : mps_mbx_reg) : mps_mbx_reg :=
  let o := (pread_off f, pwrite_off f) in
  let at_ x old := if decide (id = x) then o else old in
  mk_mbx_reg (at_ UPSTR_CMD (MBX_UPSTR_CMD r)) (at_ DNSTR_CMD (MBX_DNSTR_CMD r))
    (at_ UPSTR_DATA (MBX_UPSTR_DATA r)) (at_ DNSTR_DATA (MBX_DNSTR_DATA r)) (sram f).

(** The mailboxes, the callbacks by sequence number (NULL is 0), the two queues, the
    message buffers allocated and the addresses [kmalloc] will return; then what the driver
    did: the packets given to [mps_dev_kfree_skb_any] with their sequence number, the
    callbacks called with their message, the interrupts raised. *)
Record mps_comm_dev := mk_dev {
  base_global : mps_mbx_reg;
  callback_function : list Z;
  mps_rcvDataMsgQ : MPS_DATAMSG_LIST; mps_rcvCmdMsgQ : MPS_DATAMSG_LIST;
  heap : gmap Z (list Z); kmallocs : list Z;
  freed_skbs : list (Z * Z); calls : list (Z * list Z); irqs : list (mbx_fifo * Z) }.

Definition set_regs (r : mps_mbx_reg) (d : mps_comm_dev) : mps_comm_dev :=
  mk_dev r (callback_function d) (mps_rcvDataMsgQ d) (mps_rcvCmdMsgQ d) (heap d) (kmallocs d)
    (freed_skbs d) (calls d) (irqs d).
Definition set_callbacks (c : list Z) (d : mps_comm_dev) : mps_comm_dev :=
  mk_dev (base_global d) c (mps_rcvDataMsgQ d) (mps_rcvCmdMsgQ d) (heap d) (kmallocs d)
    (freed_skbs d) (calls d) (irqs d).
Definition set_heap (h : gmap Z (list Z)) (k : list Z) (d : mps_comm_dev) : mps_comm_dev :=
  mk_dev (base_global d) (callback_function d) (mps_rcvDataMsgQ d) (mps_rcvCmdMsgQ d) h k
    (freed_skbs d) (calls d) (irqs d).
Definition drop_skb (b : Z * Z) (d : mps_comm_dev) : mps_comm_dev :=
  mk_dev (base_global d) (callback_function d) (mps_rcvDataMsgQ d) (mps_rcvCmdMsgQ d) (heap d)
    (kmallocs d) (freed_skbs d ++ [b]) (calls d) (irqs d).
Definition log_call (c : Z * list Z) (d : mps_comm_dev) : mps_comm_dev :=
  mk_dev (base_global d) (callback_function d) (mps_rcvDataMsgQ d) (mps_rcvCmdMsgQ d) (heap d)
    (kmallocs d) (freed_skbs d) (calls d ++ [c]) (irqs d).
Definition raise_irq (i : mbx_fifo * Z) (d : mps_comm_dev) : mps_comm_dev :=
  mk_dev (base_global d) (callback_function d) (mps_rcvDataMsgQ d) (mps_rcvCmdMsgQ d) (heap d)
    (kmallocs d) (freed_skbs d) (calls d) (irqs d ++ [i]).

(** [&mps_rcvDataMsgQ] and [&mps_rcvCmdMsgQ] as the argument of a function. *)
Inductive datamsg_queue := DataQ | CmdQ.
Definition get_queue (q : datamsg_queue) (d : mps_comm_dev) : MPS_DATAMSG_LIST :=
  match q with DataQ => mps_rcvDataMsgQ d | CmdQ => mps_rcvCmdMsgQ d end.
Definition set_queue (q : datamsg_queue) (l : MPS_DATAMSG_LIST) (d : mps_comm_dev) : mps_comm_dev :=
  mk_dev (base_global d) (callback_function d)
    (match q with DataQ => l | CmdQ => mps_rcvDataMsgQ d end)
    (match q with DataQ => mps_rcvCmdMsgQ d | CmdQ => l end)
    (heap d) (kmallocs d) (freed_skbs d) (calls d) (irqs d).

Definition MPSDRV_TOTAL_SEQ_NUMBERS : Z := 256.
Definition no_callbacks : list Z := replicate (Z.to_nat MPSDRV_TOTAL_SEQ_NUMBERS) 0.

(** The mailboxes, the callbacks and the queues as [ifx_mpsdrv_initial_structures] leaves
    them. *)
Definition ifx_mpsdrv_initial_structures (d : mps_comm_dev) : mps_comm_dev :=
  mk_dev (mk_mbx_reg (0, 0) (0, 0) (0, 0) (0, 0) ∅) no_callbacks mps_datamsg_queue_init
    mps_datamsg_queue_init (heap d) (kmallocs d) (freed_skbs d) (calls d) (irqs d).

(** The two wifi mailboxes share their registers: clearing both is clearing one. *)
Definition ifx_mpsdrv_reset_structures (d : mps_comm_dev) : mps_comm_dev :=
  let clear id r := put_fifo id (ifx_mpsdrv_fifo_clear (get_fifo id r)) r in
  set_callbacks no_callbacks
    (set_regs (clear UPSTR_CMD (clear DNSTR_CMD (clear UPSTR_DATA (clear DNSTR_DATA (base_global d))))) d).

Definition ifx_mpsdrv_register_callback (seq_num callback : Z) (d : mps_comm_dev)
    : option (Z * mps_comm_dev) :=
  c ← callback_function d !! Z.to_nat seq_num;
  Some (if negb (c =? 0) then (ERROR, d)
        else (OK, set_callbacks (<[Z.to_nat seq_num := callback]> (callback_function d)) d)).
Definition ifx_mpsdrv_unregister_callback (seq_num : Z) (d : mps_comm_dev)
    : option (Z * mps_comm_dev) :=
  c ← callback_function d !! Z.to_nat seq_num;
  Some (if c =? 0 then (ERROR, d)
        else (OK, set_callbacks (<[Z.to_nat seq_num := 0]> (callback_function d)) d)).

(** ** Sending and receiving *)
Definition MPS_CPU_1_ID : Z := 1.
Definition MPS_TYPE_UPSTREAM_DATA : Z := 1.
Definition MPS_TYPE_DOWNSTREAM_DATA : Z := 2.
Definition MPS_TYPE_UPSTREAM_CMD : Z := 3.
Definition MPS_TYPE_DOWNSTREAM_CMD : Z := 4.
Definition MPS_TYPE_UPSTREAM_RESPONSE : Z := 5.
Definition MPS_TYPE_DOWNSTREAM_RESPONSE : Z := 6.
Definition MPS_TYPE_UPSTREAM_APP_CMD : Z := 7.
Definition MPS_TYPE_DOWNSTREAM_APP_CMD : Z := 8.
Definition MPS_TYPE_UPSTREAM_APP_RESPONSE : Z := 9.
Definition MPS_TYPE_DOWNSTREAM_APP_RESPONSE : Z := 10.

(** The mailbox for a type of message, and the interrupt it raises: the value written to
    MPS_CPU0_2_CPU1_IRR by CPU0, to MPS_SAD0SR by CPU1. *)
Definition mbx_for (cpu_id type : Z) : option (mbx_fifo * Z) :=
  if bool_decide (type ∈ [MPS_TYPE_UPSTREAM_DATA; MPS_TYPE_DOWNSTREAM_DATA;
                          MPS_TYPE_UPSTREAM_APP_CMD; MPS_TYPE_DOWNSTREAM_APP_CMD])
  then Some (if cpu_id =? MPS_CPU_0_ID then (DNSTR_DATA, 0x20) else (UPSTR_DATA, 2))
  else if bool_decide (type ∈ [MPS_TYPE_UPSTREAM_CMD; MPS_TYPE_DOWNSTREAM_CMD;
         MPS_TYPE_UPSTREAM_RESPONSE; MPS_TYPE_DOWNSTREAM_RESPONSE;
         MPS_TYPE_UPSTREAM_APP_RESPONSE; MPS_TYPE_DOWNSTREAM_APP_RESPONSE])
  then Some (if cpu_id =? MPS_CPU_0_ID then (DNSTR_CMD, 0x10) else (UPSTR_CMD, 1))
  else None.

Definition data_word (pMsg : list Z) (i : nat) : Z := default 0 (pMsg !! i).

(** [cpu_id] is what [ifx_mpsdrv_get_cpu_id] returns. The message comes back with the
    ready bit the function sets in it. *)
Definition ifx_mpsdrv_mbx_send (cpu_id : Z) (pMsg : list Z) (d : mps_comm_dev)
    : Z * list Z * mps_comm_dev :=
  let msg_bytes := u32 (MPS_MSGHDR_LEN + header_len (data_word pMsg 1)) in
  match mbx_for cpu_id (header_type (data_word pMsg 0)) with
  | None => (- ENOMSG, pMsg, d)
  | Some (id, irq) =>
      let mbx := get_fifo id (base_global d) in
      if ifx_mpsdrv_fifo_mem_request mbx msg_bytes then
        let pMsg := <[1%nat := set_ready (data_word pMsg 1)]> pMsg in
        let (r, mbx) := ifx_mpsdrv_fifo_write mbx pMsg msg_bytes in
        let d := set_regs (put_fifo id mbx (base_global d)) d in
        if r =? OK then (OK, pMsg, raise_irq (id, irq) d) else (- ENOMEM, pMsg, d)
      else (- EAGAIN, pMsg, d)
  end.

Definition MPS_DATA_MSG_TYPE : Z := 0.
Definition MPS_CMD_MSG_TYPE : Z := 1.

(** The mailbox a processor receives from. *)
Definition mbx_from (cpu_id msg_type : Z) : option mbx_fifo :=
  if msg_type =? MPS_DATA_MSG_TYPE
  then Some (if cpu_id =? MPS_CPU_0_ID then UPSTR_DATA else DNSTR_DATA)
  else if msg_type =? MPS_CMD_MSG_TYPE
  then Some (if cpu_id =? MPS_CPU_0_ID then UPSTR_CMD else DNSTR_CMD)
  else None.

(** The words of a message in the SRAM: its header says how many. *)
Definition msg_4bytes (m : gmap Z Z) (pMsg : Z) : Z := to_4bytes (u32 (MPS_MSGHDR_LEN + msg_len m pMsg)).

(** The result and the words copied to [pMsg]. *)
Definition ifx_mpsdrv_mbx_rcv (cpu_id msg_type : Z) (d : mps_comm_dev)
    : Z * list Z * mps_comm_dev :=
  match mbx_from cpu_id msg_type with
  | None => (ERROR, [], d)
  | Some id =>
      let (pRcvMsg, mbx) := ifx_mpsdrv_fifo_read (get_fifo id (base_global d)) in
      match pRcvMsg with
      | Some p =>
          let n := msg_4bytes (sram mbx) p in
          (OK, read_words (sram mbx) p (Z.to_nat n),
           set_regs (put_fifo id (ifx_mpsdrv_fifo_read_ptr_inc mbx n) (base_global d)) d)
      | None => (ERROR, [], set_regs (put_fifo id mbx (base_global d)) d)
      end
  end.

(** ** From a FIFO to a queue *)
(** When the queue is full the packet of the message is freed, its address being the third
    word, and the message buffer stays allocated. *)
Definition mps_datamsg_enqueue_tail (buf : Z) (q : datamsg_queue) (d : mps_comm_dev)
    : option (Z * mps_comm_dev) :=
  if MPS_DATAMSG_IS_Q_FULL (get_queue q d) then
    m ← heap d !! buf;
    Some (- ENOMEM, drop_skb (data_word m 2, header_seqno (data_word m 0)) d)
  else
    l ← datamsg_push buf (get_queue q d);
    Some (0, set_queue q l d).

(** The loop of the four [_ifx_mpsdrv_mbx_read_*Msg]: the messages taken, and the device. *)
Fixpoint mbx_read_loop (fuel : nat) (id : mbx_fifo) (q : datamsg_queue) (num_msg : Z)
    (d : mps_comm_dev) : option (Z * mps_comm_dev) :=
  match fuel with
  | O => None
  | S fuel' =>
      let (more, mbx) := ifx_mpsdrv_fifo_not_empty (get_fifo id (base_global d)) in
      let d := set_regs (put_fifo id mbx (base_global d)) d in
      if more then
        let (pMsg, mbx) := ifx_mpsdrv_fifo_read mbx in
        let d := set_regs (put_fifo id mbx (base_global d)) d in
        p ← pMsg;
        let n := msg_4bytes (sram mbx) p in
        let pDataMsg := hd 0 (kmallocs d) in
        if pDataMsg =? 0 then Some (num_msg, set_heap (heap d) (tl (kmallocs d)) d)
        else
          let m := read_words (sram mbx) p data_message_words in
          let d := set_heap (<[pDataMsg := m]> (heap d)) (tl (kmallocs d)) d in
          '(_, d) ← mps_datamsg_enqueue_tail pDataMsg q d;
          let mbx := ifx_mpsdrv_fifo_read_ptr_inc mbx n in
          let d := set_regs (put_fifo id mbx (base_global d)) d in
          mbx_read_loop fuel' id q (u32 (num_msg + 1)) d
      else Some (num_msg, d)
  end.

(** One turn for each two words of the largest FIFO, and the test that ends the loop. *)
Definition read_fuel : nat := 17.

Definition _ifx_mpsdrv_mbx_read_usdMsg := mbx_read_loop read_fuel UPSTR_DATA DataQ 0.
Definition _ifx_mpsdrv_mbx_read_uscMsg := mbx_read_loop read_fuel UPSTR_CMD CmdQ 0.
Definition _ifx_mpsdrv_mbx_read_dsdMsg := mbx_read_loop read_fuel DNSTR_DATA DataQ 0.
Definition _ifx_mpsdrv_mbx_read_dscMsg := mbx_read_loop read_fuel DNSTR_CMD CmdQ 0.

(** The loop of the four tasklets. The callbacks are code of the clients: that they are
    called, and with what message, is recorded. *)
Fixpoint dispatch_loop (fuel : nat) (q : datamsg_queue) (d : mps_comm_dev) : option mps_comm_dev :=
  match fuel with
  | O => None
  | S fuel' =>
      '(pMsg, l) ← mps_datamsg_dequeue_head (get_queue q d);
      let d := set_queue q l d in
      if pMsg =? 0 then Some d
      else
        m ← heap d !! pMsg;
        let seq_num := header_seqno (data_word m 0) in
        callback ← callback_function d !! Z.to_nat seq_num;
        let d := if negb (callback =? 0) then log_call (callback, m) d else d in
        dispatch_loop fuel' q (set_heap (delete pMsg (heap d)) (kmallocs d) d)
  end.

(** One turn for each slot of the ring, and the test that ends the loop. *)
Definition dispatch_fuel : nat := Z.to_nat (MAX_MPS_DATAMSG_QLEN + 1).

Definition ifx_mpsdrv_mbx_data_upstream := dispatch_loop dispatch_fuel DataQ.
Definition ifx_mpsdrv_mbx_cmd_upstream := dispatch_loop dispatch_fuel CmdQ.
Definition ifx_mpsdrv_mbx_data_downstream := dispatch_loop dispatch_fuel DataQ.
Definition ifx_mpsdrv_mbx_cmd_downstream := dispatch_loop dispatch_fuel CmdQ.

(** The interrupt of CPU0, [status] being what MPS_RAD0SR holds: whether the tasklets of
    data and of commands are scheduled. *)
Definition ifx_mpsdrv_cmd0_irq (status : Z) (d : mps_comm_dev)
    : option (bool * bool * mps_comm_dev) :=
  '(data, d) ← (if Z.testbit status 1 then _ifx_mpsdrv_mbx_read_usdMsg d else Some (0, d));
  '(cmd, d) ← (if Z.testbit status 0 then _ifx_mpsdrv_mbx_read_uscMsg d else Some (0, d));
  Some (negb (data =? 0), negb (cmd =? 0), d).
End Mbx.
