(* ===== verification/MailboxProps.v ===== *)
(** * MailboxProps: messages arrive complete and in order, one processor at a time

    What a FIFO of the SRAM stands for, as a list of messages; the operations of the
    mailbox on that list; and what the interrupt handler and the tasklets make of it. *)
From S2P Require Import Prelude MpsBuffer MpsProps Mailbox.
Import Mps Mbx.

(** ** Words of the SRAM *)
Lemma word_insert_eq m a v : word (<[a := v]> m) a = v.
Proof. unfold word. by rewrite lookup_insert_eq. Qed.
Lemma word_insert_ne m a b v : a <> b -> word (<[a := v]> m) b = word m b.
Proof. intros H. unfold word. by rewrite lookup_insert_ne. Qed.

(** The words [ws] stand at [a]. *)
Definition block (m : gmap Z Z) (a : Z) (ws : list Z) : Prop :=
  forall i w, ws !! i = Some w -> word m (a + Z.of_nat i) = w.

(** [m'] differs from [m] in the words from [a] to [b] only. *)
Definition changes (m m' : gmap Z Z) (a b : Z) : Prop :=
  forall x, ~ (a <= x < b) -> word m' x = word m x.

Lemma changes_insert m a v : changes m (<[a := v]> m) a (a + 1).
Proof. intros x Hx. apply word_insert_ne. lia. Qed.
Lemma changes_trans m1 m2 m3 a b a1 b1 a2 b2 :
  changes m1 m2 a1 b1 -> changes m2 m3 a2 b2 -> a <= a1 -> b1 <= b -> a <= a2 -> b2 <= b ->
  changes m1 m3 a b.
Proof. intros H1 H2 ???? x Hx. rewrite H2 by lia. apply H1. lia. Qed.
Lemma changes_weaken m1 m2 a b a1 b1 :
  changes m1 m2 a1 b1 -> a <= a1 -> b1 <= b -> changes m1 m2 a b.
Proof. intros H ?? x Hx. apply H. lia. Qed.

Lemma block_changes m m' a ws x y :
  block m a ws -> changes m m' x y -> y <= a \/ a + Z.of_nat (length ws) <= x -> block m' a ws.
Proof.
  intros Hb Hc Hr i w Hi. pose proof (lookup_lt_Some _ _ _ Hi). rewrite Hc by lia. by apply Hb.
Qed.

Lemma copy_words_spec m p ws :
  block (copy_words m p ws) p ws /\ changes m (copy_words m p ws) p (p + Z.of_nat (length ws)).
Proof.
  revert m p. induction ws as [|w ws IH]; intros m p; cbn [copy_words length].
  { split; [intros i w [=] | intros x _; done]. }
  destruct (IH (<[p := w]> m) (p + 1)) as [Hb Hc]. split.
  - intros [|i] x Hi; cbn in Hi.
    + injection Hi as <-. rewrite Hc by lia. rewrite Z.add_0_r. apply word_insert_eq.
    + replace (p + Z.of_nat (S i)) with (p + 1 + Z.of_nat i) by lia. by apply Hb.
  - eapply changes_trans; [apply changes_insert | exact Hc | lia..].
Qed.

Lemma block_read m a ws n :
  block m a ws -> (n <= length ws)%nat -> read_words m a n = take n ws.
Proof.
  intros Hb Hn. apply list_eq. intros i. unfold read_words.
  rewrite list_lookup_fmap. destruct (decide (i < n)%nat) as [Hi|Hi].
  - rewrite lookup_seq_lt by done. rewrite lookup_take_lt by done. cbn.
    destruct (lookup_lt_is_Some_2 ws i) as [w Hw]; [lia|]. rewrite Hw. f_equal. by apply Hb.
  - rewrite lookup_ge_None_2 by (rewrite length_seq; lia). cbn.
    symmetry. apply lookup_ge_None_2. rewrite length_take. lia.
Qed.

Lemma read_words_app m a i j :
  read_words m a (i + j) = (read_words m a i ++ read_words m (a + Z.of_nat i) j)%list.
Proof.
  unfold read_words. rewrite seq_app, map_app. f_equal.
  replace (seq (0 + i) j) with (map (Nat.add i) (seq 0 j))
    by (rewrite Nat.add_comm; exact (fmap_add_seq i 0 j)).
  rewrite map_map. apply map_ext. intros x. f_equal. lia.
Qed.
Lemma read_words_changes m m' a n x y :
  changes m m' x y -> y <= a \/ a + Z.of_nat n <= x -> read_words m' a n = read_words m a n.
Proof.
  intros Hc Hr. apply map_ext_in. intros i [_ Hi]%in_seq. apply Hc. lia.
Qed.

(** ** Headers *)
Lemma header_ready_set v : header_ready (set_ready v) = true.
Proof. unfold header_ready, set_ready. rewrite Z.lor_spec. apply orb_true_r. Qed.
Lemma header_wrapped_set v : header_wrapped (set_ready v) = header_wrapped v.
Proof. unfold header_wrapped, set_ready. rewrite Z.lor_spec. apply orb_false_r. Qed.
Lemma header_ready_clear v : header_ready (clear_ready v) = false.
Proof. unfold header_ready, clear_ready. rewrite Z.land_spec. apply andb_false_r. Qed.
Lemma set_ready_twice v : set_ready (set_ready v) = set_ready v.
Proof. unfold set_ready. by rewrite <- Z.lor_assoc. Qed.
Lemma header_len_set v : header_len (set_ready v) = header_len v.
Proof.
  unfold header_len, set_ready. rewrite Z.land_lor_distr_l.
  change (Z.land 0x8000 0xff) with 0. apply Z.lor_0_r.
Qed.
Lemma header_len_range v : 0 <= header_len v <= 255.
Proof.
  unfold header_len. change 0xff with (Z.ones 8). rewrite Z.land_ones by lia.
  pose proof (Z.mod_pos_bound v (2 ^ 8)). change (Z.ones 8) with 255. lia.
Qed.

(** The words a header announces. *)
Definition header_words (val1 : Z) : Z := to_4bytes (u32 (MPS_MSGHDR_LEN + header_len val1)).
Lemma header_words_eq v : header_words v = (header_len v + 11) / 4.
Proof.
  pose proof (header_len_range v). unfold header_words, to_4bytes, u32, MPS_MSGHDR_LEN.
  rewrite (Z.mod_small (8 + header_len v)) by lia. rewrite Z.mod_small by lia.
  rewrite Z.shiftr_div_pow2 by lia. change (2 ^ 2) with 4. f_equal. lia.
Qed.
Lemma header_words_range v : 2 <= header_words v <= 66.
Proof.
  rewrite header_words_eq. pose proof (header_len_range v).
  pose proof (Z.div_mod (header_len v + 11) 4). pose proof (Z.mod_pos_bound (header_len v + 11) 4). lia.
Qed.

(** A message as the senders build it: all of its words, the wrap bit 0. *)
Record good_msg (m : list Z) : Prop := {
  good_words : Z.of_nat (length m) = header_words (data_word m 1);
  good_wrap : header_wrapped (data_word m 1) = false }.

(** The message with the ready bit set. *)
Definition marked (m : list Z) : list Z := <[1%nat := set_ready (data_word m 1)]> m.

Lemma good_length m : good_msg m -> (2 <= length m <= 66)%nat.
Proof. intros [Hl _]. pose proof (header_words_range (data_word m 1)). lia. Qed.
Lemma marked_length m : length (marked m) = length m.
Proof. apply length_insert. Qed.
Lemma marked_header m : good_msg m -> marked m !! 1%nat = Some (set_ready (data_word m 1)).
Proof. intros Hg. pose proof (good_length m Hg). apply list_lookup_insert_eq. lia. Qed.

Lemma block_header r a m :
  good_msg m -> block r a (marked m) -> word r (a + 1) = set_ready (data_word m 1).
Proof. intros Hg Hb. change 1 with (Z.of_nat 1). apply Hb. by apply marked_header. Qed.
Lemma block_ready r a m : good_msg m -> block r a (marked m) -> msg_ready r a = true.
Proof. intros. unfold msg_ready. erewrite block_header by done. apply header_ready_set. Qed.
Lemma block_unwrapped r a m : good_msg m -> block r a (marked m) -> msg_next_wrapped r a = false.
Proof.
  intros Hg Hb. unfold msg_next_wrapped. erewrite block_header by done.
  rewrite header_wrapped_set. apply good_wrap, Hg.
Qed.
Lemma block_words r a m :
  good_msg m -> block r a (marked m) -> msg_4bytes r a = Z.of_nat (length m).
Proof.
  intros Hg Hb. unfold msg_4bytes, msg_len. erewrite block_header by done.
  rewrite header_len_set. symmetry. apply good_words, Hg.
Qed.

(** ** A FIFO and the messages it stands for *)
(** The messages stand one after the other from [a] to [e]. *)
Fixpoint layout (r : gmap Z Z) (a : Z) (ms : list (list Z)) (e : Z) : Prop :=
  match ms with
  | [] => a = e
  | m :: ms' => block r a (marked m) /\ layout r (a + Z.of_nat (length m)) ms' e
  end.

Lemma layout_le r a ms e : layout r a ms e -> a <= e.
Proof.
  revert a. induction ms as [|m ms IH]; cbn; [lia|]. intros a [_ H]. apply IH in H. lia.
Qed.
Lemma layout_nil r a ms : Forall good_msg ms -> layout r a ms a -> ms = [].
Proof.
  destruct ms as [|m ms]; [done|]. intros Hg [_ Hl]%id. apply Forall_cons in Hg as [Hg _].
  apply layout_le in Hl. pose proof (good_length m Hg). lia.
Qed.
Lemma layout_changes r r' a ms e x y :
  layout r a ms e -> changes r r' x y -> y <= a \/ e <= x -> layout r' a ms e.
Proof.
  revert a. induction ms as [|m ms IH]; cbn [layout]; [done|]. intros a [Hb Hl] Hc Hr.
  pose proof (layout_le _ _ _ _ Hl). split.
  - eapply block_changes; [done..|]. rewrite marked_length. lia.
  - eapply IH; [done..|]. lia.
Qed.
Lemma layout_snoc r a ms e m :
  layout r a ms e -> block r e (marked m) -> layout r a (ms ++ [m]) (e + Z.of_nat (length m)).
Proof.
  revert a. induction ms as [|m' ms IH]; cbn [layout app]; [by intros a -> Hb|].
  intros a [Hb' Hl] Hb. split; [done|]. by apply IH.
Qed.

(** The size in words. *)
Definition fifo_words (f : mps_fifo) : Z := Z.shiftr (fifo_size f) 2.

(** Where the indexes are.  [Straight]: the messages stand between the indexes.
    [Wrapped]: a mark at [w] says that the ones after [ms1] begin again at the start; the
    writer stays two words behind the reader, unless it has wrapped and nothing was read. *)
Inductive indexes (f : mps_fifo) : list (list Z) -> Prop :=
| Straight ms :
    0 <= pread_off f -> pwrite_off f + 2 < fifo_words f ->
    layout (sram f) (read_msg f) ms (write_msg f) ->
    pread_off f = 0 \/ 2 <= pread_off f /\ msg_ready (sram f) (pstart f) = false ->
    msg_ready (sram f) (write_msg f) = false ->
    pwrite_off f = 0 \/ msg_next_wrapped (sram f) (write_msg f) = false ->
    indexes f ms
| Wrapped ms1 ms2 w :
    0 <= pread_off f -> w + 2 < fifo_words f ->
    layout (sram f) (read_msg f) ms1 (pstart f + w) ->
    msg_next_wrapped (sram f) (pstart f + w) = true ->
    layout (sram f) (pstart f) ms2 (write_msg f) ->
    pwrite_off f = 0 \/ msg_next_wrapped (sram f) (write_msg f) = false ->
    pwrite_off f + 2 <= pread_off f /\ msg_ready (sram f) (write_msg f) = false \/
    pwrite_off f = 0 /\ pread_off f = 0 /\ ms1 <> [] ->
    indexes f (ms1 ++ ms2).

Record fifo_rep (f : mps_fifo) (ms : list (list Z)) : Prop := {
  rep_size : fifo_size f = 4 * fifo_words f /\ 2 < fifo_words f < 2 ^ 28;
  rep_good : Forall good_msg ms;
  rep_indexes : indexes f ms }.

(** Same FIFO, and only words of the FIFO written. *)
Record same_fifo (f f' : mps_fifo) : Prop := {
  same_start : pstart f' = pstart f;
  same_size : fifo_size f' = fifo_size f;
  same_sram : changes (sram f) (sram f') (pstart f) (pstart f + fifo_words f) }.

Lemma same_fifo_refl f : same_fifo f f.
Proof. by split. Qed.
Lemma same_fifo_trans f g h : same_fifo f g -> same_fifo g h -> same_fifo f h.
Proof.
  intros [Hs1 Hz1 Hc1] [Hs2 Hz2 Hc2]. split; [congruence..|].
  unfold fifo_words in *. rewrite Hs1, Hz1 in Hc2. eapply changes_trans; [done..|lia|lia|lia|lia].
Qed.

(** ** Writing *)
Lemma u32_small x : 0 <= x < 2 ^ 32 -> u32 x = x.
Proof. apply Z.mod_small. Qed.

Lemma marked_marked m : good_msg m -> set_ready (data_word (marked m) 1) = set_ready (data_word m 1).
Proof.
  intros Hg. unfold data_word at 1. rewrite marked_header by done. apply set_ready_twice.
Qed.

Lemma put_message_eq f m :
  good_msg m -> 0 <= pwrite_off f -> pwrite_off f + Z.of_nat (length m) < 2 ^ 32 ->
  exists r, put_message f (marked m) (Z.of_nat (length m)) =
      mk_fifo (pstart f) (fifo_size f) (pwrite_off f + Z.of_nat (length m)) (pread_off f) r /\
    block r (write_msg f) (marked m) /\
    word r (write_msg f + Z.of_nat (length m) + 1) = 0 /\
    changes (sram f) r (write_msg f) (write_msg f + Z.of_nat (length m) + 2).
Proof.
  intros Hg Hw Hlt. pose proof (good_length m Hg) as Hl. unfold put_message.
  rewrite Nat2Z.id, u32_small by lia. rewrite take_ge by (rewrite marked_length; lia).
  unfold set_pwrite, set_sram, write_msg. cbn [pstart fifo_size pwrite_off pread_off sram].
  destruct (copy_words_spec (sram f) (pstart f + pwrite_off f) (marked m)) as [Hb Hc].
  rewrite marked_length in Hc. set (p := pstart f + pwrite_off f) in *.
  set (r1 := copy_words (sram f) p (marked m)) in *.
  replace (pstart f + (pwrite_off f + Z.of_nat (length m))) with (p + Z.of_nat (length m)) by lia.
  assert (Hh : word r1 (p + 1) = set_ready (data_word m 1)) by by apply block_header.
  eexists. split; [reflexivity|]. rewrite Hh, set_ready_twice. split; [|split].
  - intros i w Hi. pose proof (lookup_lt_Some _ _ _ Hi) as Hil. rewrite marked_length in Hil.
    rewrite !word_insert_ne by lia. destruct (decide (i = 1%nat)) as [->|Hne].
    + change (Z.of_nat 1) with 1. rewrite word_insert_eq. rewrite marked_header in Hi by done.
      by injection Hi.
    + rewrite word_insert_ne by lia. by apply Hb.
  - rewrite word_insert_ne by lia. by rewrite word_insert_eq.
  - intros x Hx. rewrite !word_insert_ne by lia. apply Hc. lia.
Qed.

(** The header of the next message, once it is cleared. *)
Lemma zero_quiet r a : word r (a + 1) = 0 -> msg_ready r a = false /\ msg_next_wrapped r a = false.
Proof. unfold msg_ready, msg_next_wrapped. by intros ->. Qed.

Lemma quiet_changes r r' a x y b :
  msg_ready r a = b -> changes r r' x y -> y <= a + 1 \/ a + 1 < x -> msg_ready r' a = b.
Proof. unfold msg_ready. intros H Hc Hr. rewrite Hc by lia. done. Qed.
Lemma wrap_changes r r' a x y b :
  msg_next_wrapped r a = b -> changes r r' x y -> y <= a + 1 \/ a + 1 < x ->
  msg_next_wrapped r' a = b.
Proof. unfold msg_next_wrapped. intros H Hc Hr. rewrite Hc by lia. done. Qed.

Section Write.
Context (f : mps_fifo) (m : list Z) (Hm : good_msg m).
Context (Hsize : fifo_size f = 4 * fifo_words f /\ 2 < fifo_words f < 2 ^ 28).
Local Abbreviation n := (Z.of_nat (length m)).
Local Abbreviation f' := (put_message f (marked m) n).

Lemma write_straight ms :
  0 <= pread_off f -> pwrite_off f + n + 2 < fifo_words f ->
  layout (sram f) (read_msg f) ms (write_msg f) ->
  pread_off f = 0 \/ 2 <= pread_off f /\ msg_ready (sram f) (pstart f) = false ->
  indexes f' (ms ++ [m]) /\ same_fifo f f'.
Proof.
  intros Hr Hroom Hl Hz. pose proof (layout_le _ _ _ _ Hl) as Hle. unfold read_msg, write_msg in *.
  destruct (put_message_eq f m) as (r & -> & Hb & H0 & Hc); [done|lia|lia|].
  unfold write_msg in *. apply zero_quiet in H0 as [Hq Hw].
  replace (pstart f + pwrite_off f + n) with (pstart f + (pwrite_off f + n)) in * by lia.
  split.
  - apply Straight; unfold read_msg, write_msg, fifo_words in *;
      cbn [pstart fifo_size pwrite_off pread_off sram]; try done.
    + rewrite Z.add_assoc. apply layout_snoc; [|done]. eapply layout_changes; [done..|]. lia.
    + destruct Hz as [Hz|[Hz Hq0]]; [by left|]. right. split; [done|].
      eapply quiet_changes; [done..|]. lia.
    + by right.
  - split; [done..|]. cbn [sram]. eapply changes_weaken; [exact Hc|lia|lia].
Qed.

Lemma write_behind ms1 ms2 w :
  0 <= pwrite_off f -> w + 2 < fifo_words f -> pwrite_off f + n + 2 <= pread_off f ->
  layout (sram f) (read_msg f) ms1 (pstart f + w) ->
  msg_next_wrapped (sram f) (pstart f + w) = true ->
  layout (sram f) (pstart f) ms2 (write_msg f) ->
  indexes f' (ms1 ++ (ms2 ++ [m])) /\ same_fifo f f'.
Proof.
  intros Hp Hw Hroom Hl1 Hmark Hl2. pose proof (layout_le _ _ _ _ Hl1) as Hle.
  unfold read_msg, write_msg in *.
  destruct (put_message_eq f m) as (r & -> & Hb & H0 & Hc); [done|lia|lia|].
  unfold write_msg in *. apply zero_quiet in H0 as [Hq Hu].
  replace (pstart f + pwrite_off f + n) with (pstart f + (pwrite_off f + n)) in * by lia.
  split.
  - apply (Wrapped _ ms1 (ms2 ++ [m]) w); unfold read_msg, write_msg, fifo_words in *;
      cbn [pstart fifo_size pwrite_off pread_off sram]; try done.
    + lia.
    + eapply layout_changes; [done..|]. lia.
    + eapply wrap_changes; [done..|]. lia.
    + rewrite Z.add_assoc. apply layout_snoc; [|done]. eapply layout_changes; [done..|]. lia.
    + by right.
    + left. split; [lia|done].
  - split; [done..|]. cbn [sram]. eapply changes_weaken; [exact Hc|lia|lia].
Qed.

(** The mark and the move of the write index to the beginning. *)
Definition wrap_writer : mps_fifo :=
  set_pwrite 0 (set_sram (<[write_msg f + 1 := 0x4000]> (sram f)) f).

Lemma wrap_writer_same : 0 <= pwrite_off f -> pwrite_off f + 2 < fifo_words f -> same_fifo f wrap_writer.
Proof.
  intros. split; [done..|]. unfold wrap_writer, write_msg. cbn [set_pwrite set_sram sram].
  eapply changes_weaken; [apply changes_insert|lia|lia].
Qed.
End Write.

(** Writing when both indexes are in order and the end is too near. *)
Lemma wrap_writer_rep f ms :
  0 <= pread_off f -> pwrite_off f + 2 < fifo_words f -> Forall good_msg ms ->
  layout (sram f) (read_msg f) ms (write_msg f) ->
  pread_off f = 0 \/ 2 <= pread_off f /\ msg_ready (sram f) (pstart f) = false ->
  let g := wrap_writer f in
  (pread_off f = 0 /\ ms = [] /\ indexes g [] /\ msg_ready (sram g) (pstart g) = false) \/
  (pread_off f = 0 /\ indexes g ms /\ msg_ready (sram g) (pstart g) = true) \/
  (2 <= pread_off f /\ indexes g ms /\ msg_ready (sram g) (pstart g) = false /\
   layout (sram g) (read_msg g) ms (write_msg f) /\
   msg_next_wrapped (sram g) (write_msg f) = true).
Proof.
  intros Hr Hw Hg Hl Hz g. pose proof (layout_le _ _ _ _ Hl) as Hle.
  unfold read_msg, write_msg in *.
  assert (Hc : changes (sram f) (sram g) (pstart f + pwrite_off f + 1) (pstart f + pwrite_off f + 2)).
  { eapply changes_weaken; [apply changes_insert|unfold write_msg; lia|unfold write_msg; lia]. }
  assert (Hmark : msg_next_wrapped (sram g) (pstart f + pwrite_off f) = true /\
                  msg_ready (sram g) (pstart f + pwrite_off f) = false).
  { unfold msg_next_wrapped, msg_ready, g, wrap_writer, write_msg. cbn [set_pwrite set_sram sram].
    by rewrite word_insert_eq. }
  destruct Hmark as [Hmark Hnot].
  assert (Hl' : layout (sram g) (pstart f + pread_off f) ms (pstart f + pwrite_off f)).
  { eapply layout_changes; [exact Hl|exact Hc|lia]. }
  assert (Hwrap : (0 + 2 <= pread_off f /\ msg_ready (sram g) (pstart f + 0) = false \/
                   0 = 0 /\ pread_off f = 0 /\ ms <> []) -> indexes g ms).
  { intros Hcase. rewrite <- (app_nil_r ms). apply (Wrapped g ms [] (pwrite_off f));
      unfold read_msg, write_msg, fifo_words in *; cbn [g wrap_writer set_pwrite set_sram pstart
        fifo_size pwrite_off pread_off layout]; try done; [lia|by left]. }
  destruct Hz as [Hz|[Hz Hq]].
  - rewrite Hz, Z.add_0_r in *. destruct ms as [|m ms].
    + left. cbn [layout] in Hl. assert (Hw0 : pwrite_off f = 0) by lia.
      rewrite Hw0, Z.add_0_r in *. do 2 (split; [done|]). split; [|done].
      apply Straight; unfold read_msg, write_msg, fifo_words in *;
        cbn [g wrap_writer set_pwrite set_sram pstart fifo_size pwrite_off pread_off layout];
        rewrite ?Hz, ?Z.add_0_r; try done; by left.
    + right; left. split; [done|]. split; [apply Hwrap; by right|].
      apply Forall_cons in Hg as [Hg _]. destruct Hl' as [Hb _]. by eapply block_ready.
  - right; right. split; [done|].
    assert (Hq' : msg_ready (sram g) (pstart f) = false) by (eapply quiet_changes; [done..|lia]).
    split; [apply Hwrap; left; rewrite Z.add_0_r; split; [lia|done]|]. by repeat split.
Qed.

(** One call of [ifx_mpsdrv_fifo_write]: the message is added, or the list is unchanged. *)
Definition message_bytes (m : list Z) : Z := u32 (MPS_MSGHDR_LEN + header_len (data_word m 1)).

Lemma message_bytes_words m : good_msg m -> to_4bytes (message_bytes m) = Z.of_nat (length m).
Proof. intros Hg. by rewrite (good_words m Hg). Qed.

Lemma room_eq f m :
  good_msg m -> 0 <= pwrite_off f < 2 ^ 28 ->
  u32 (u32 (pwrite_off f + to_4bytes (message_bytes m)) + MPS_MIN_MARGIN) =
    pwrite_off f + Z.of_nat (length m) + 2.
Proof.
  intros Hg Hw. pose proof (good_length m Hg). rewrite message_bytes_words by done.
  unfold MPS_MIN_MARGIN. rewrite (u32_small (pwrite_off f + _)) by lia. apply u32_small. lia.
Qed.

(** What a call may return: the message added, or the messages as they were. *)
Definition write_result (f : mps_fifo) (ms : list (list Z)) (m : list Z) (out : Z * mps_fifo) : Prop :=
  same_fifo f out.2 /\
  (out.1 = OK /\ fifo_rep out.2 (ms ++ [m]) \/ out.1 = ERROR /\ fifo_rep out.2 ms).

Section WriteCases.
Context (f : mps_fifo) (ms : list (list Z)) (m : list Z).
Context (Hrep : fifo_rep f ms) (Hg : good_msg m).

Lemma same_size_ok g :
  same_fifo f g -> fifo_size g = 4 * fifo_words g /\ 2 < fifo_words g < 2 ^ 28.
Proof. intros [_ Hz _]. pose proof (rep_size _ _ Hrep). unfold fifo_words in *. by rewrite Hz. Qed.
Lemma write_refused g : same_fifo f g -> indexes g ms -> write_result f ms m (ERROR, g).
Proof.
  intros Hs Hi. split; [done|]. right. split; [done|]. split; [by apply same_size_ok| |done].
  apply Hrep.
Qed.
Lemma write_done g : same_fifo f g -> indexes g (ms ++ [m]) -> write_result f ms m (OK, g).
Proof.
  intros Hs Hi. split; [done|]. left. split; [done|]. split; [by apply same_size_ok| |done].
  apply Forall_app. split; [apply Hrep|by constructor].
Qed.

Lemma write_at_end :
  0 <= pread_off f -> pwrite_off f + 2 < fifo_words f ->
  layout (sram f) (read_msg f) ms (write_msg f) ->
  pread_off f = 0 \/ 2 <= pread_off f /\ msg_ready (sram f) (pstart f) = false ->
  msg_ready (sram f) (write_msg f) = false ->
  write_result f ms m (ifx_mpsdrv_fifo_write f (marked m) (message_bytes m)).
Proof.
  intros Hr Hw Hl Hz Hq. pose proof (layout_le _ _ _ _ Hl) as Hle. unfold read_msg, write_msg in Hle.
  pose proof (good_length m Hg). pose proof (rep_size _ _ Hrep) as Hsz.
  assert (Hs : same_fifo f (wrap_writer f)) by (apply wrap_writer_same; lia).
  unfold ifx_mpsdrv_fifo_write.
  destruct (fifo_size f <? message_bytes m); [apply write_refused; [apply same_fifo_refl|apply Hrep]|].
  rewrite Hq. destruct (Z.ltb_spec (pwrite_off f) (pread_off f)); [lia|].
  rewrite (room_eq f m) by (done || lia). rewrite !message_bytes_words by done.
  fold (fifo_words f). destruct (Z.leb_spec (fifo_words f) (pwrite_off f + Z.of_nat (length m) + 2)).
  - change (set_pwrite 0 _) with (wrap_writer f).
    rewrite <- (message_bytes_words m Hg), (room_eq (wrap_writer f) m), message_bytes_words
      by (done || cbn [wrap_writer set_pwrite pwrite_off]; lia).
    change (pwrite_off (wrap_writer f)) with 0. change (pread_off (wrap_writer f)) with (pread_off f).
    destruct (wrap_writer_rep f ms Hr Hw (rep_good _ _ Hrep) Hl Hz)
      as [(Hp & Hms & Hx & Hn)|[(Hp & Hx & Hn)|(Hp & Hx & Hn & Hl' & Hmark)]]; rewrite Hn.
    + destruct (Z.ltb_spec (pread_off f) (0 + Z.of_nat (length m) + 2)); [|lia].
      apply write_refused; [done|by rewrite Hms].
    + by apply write_refused.
    + destruct (Z.ltb_spec (pread_off f) (0 + Z.of_nat (length m) + 2)) as [|Hroom];
        [by apply write_refused|].
      destruct (write_behind (wrap_writer f) m Hg (same_size_ok _ Hs) ms [] (pwrite_off f)) as [Hi Hs'];
        try done.
      { unfold write_msg. cbn. lia. }
      apply write_done; [by eapply same_fifo_trans|done].
  - destruct (write_straight f m Hg Hsz ms) as [Hi Hs']; try done. by apply write_done.
Qed.
End WriteCases.

Lemma fifo_write_rep f ms m :
  fifo_rep f ms -> good_msg m ->
  write_result f ms m (ifx_mpsdrv_fifo_write f (marked m) (message_bytes m)).
Proof.
  intros Hrep Hg. pose proof (rep_size _ _ Hrep) as Hsz. pose proof (good_length m Hg) as Hlen.
  destruct (rep_indexes _ _ Hrep) as [ms Hr Hw Hl Hz Hq Hu | ms1 ms2 w Hr Hw Hl1 Hmark Hl2 Hu Hpos];
    [by apply write_at_end|].
  pose proof (layout_le _ _ _ _ Hl2) as Hle. pose proof (layout_le _ _ _ _ Hl1) as Hle1.
  unfold read_msg, write_msg in Hle, Hle1.
  assert (Herr : write_result f (ms1 ++ ms2) m (ERROR, f)).
  { apply write_refused; [done|apply same_fifo_refl|apply Hrep]. }
  unfold ifx_mpsdrv_fifo_write. destruct (fifo_size f <? message_bytes m); [exact Herr|].
  destruct Hpos as [[Hpos Hq]|(Hp0 & Hr0 & Hne)].
  - rewrite Hq. destruct (Z.ltb_spec (pwrite_off f) (pread_off f)); [|lia].
    rewrite (room_eq f m) by (done || lia). rewrite !message_bytes_words by done.
    destruct (Z.ltb_spec (pread_off f) (pwrite_off f + Z.of_nat (length m) + 2)); [exact Herr|].
    destruct (write_behind f m Hg Hsz ms1 ms2 w) as [Hi Hs]; try done; [lia|].
    apply write_done; [done..|]. by rewrite <- app_assoc.
  - destruct (msg_ready (sram f) (write_msg f)) eqn:Hfull; [exact Herr|]. exfalso.
    unfold write_msg, read_msg in *. rewrite Hp0, Hr0, Z.add_0_r in *.
    destruct ms1 as [|m1 ms1]; [done|]. destruct Hl1 as [Hb _].
    pose proof (rep_good _ _ Hrep) as [Hg1 _]%Forall_cons.
    rewrite (block_ready _ _ _ Hg1 Hb) in Hfull. done.
Qed.

(** ** Reading *)
(** The first message stands at the read index; without one, nothing ready does. *)
Definition head_at (f : mps_fifo) (ms : list (list Z)) : Prop :=
  match ms with
  | [] => msg_ready (sram f) (read_msg f) = false
  | m :: _ => block (sram f) (read_msg f) (marked m)
  end.

Lemma set_pread_same f : pread_off f = 0 -> set_pread 0 f = f.
Proof. destruct f. cbn. by intros ->. Qed.

Lemma follow_wrap_sram f : sram (follow_wrap f) = sram f.
Proof. unfold follow_wrap. by destruct msg_next_wrapped. Qed.
Lemma follow_wrap_same f : same_fifo f (follow_wrap f).
Proof. unfold follow_wrap. destruct msg_next_wrapped; [by split|apply same_fifo_refl]. Qed.

Lemma follow_wrap_rep f ms :
  fifo_rep f ms -> fifo_rep (follow_wrap f) ms /\ head_at (follow_wrap f) ms.
Proof.
  intros Hrep. pose proof (rep_size _ _ Hrep) as Hsz. pose proof (rep_good _ _ Hrep) as Hgs.
  assert (Hhead : forall m, head ms = Some m -> block (sram f) (read_msg f) (marked m) ->
    follow_wrap f = f /\ head_at f ms).
  { intros m Hms Hb. destruct ms as [|m' ms']; [done|]. injection Hms as ->.
    apply Forall_cons in Hgs as [Hg _]. unfold follow_wrap.
    by rewrite (block_unwrapped _ _ _ Hg Hb). }
  destruct (rep_indexes _ _ Hrep) as [ms Hr Hw Hl Hz Hq Hu | ms1 ms2 w Hr Hw Hl1 Hmark Hl2 Hu Hpos].
  - destruct ms as [|m ms'].
    + cbn [layout] in Hl. unfold read_msg, write_msg in Hl.
      assert (Hp : pread_off f = pwrite_off f) by lia.
      assert (Hf : follow_wrap f = f).
      { unfold follow_wrap, read_msg. rewrite Hp. unfold write_msg in Hu.
        destruct Hu as [Hu| ->]; [|done]. case_match; [|done]. apply set_pread_same. lia. }
      rewrite Hf. split; [done|]. unfold head_at, read_msg. by rewrite Hp.
    + destruct (Hhead m) as [-> Hh]; [done|apply Hl|]. by split.
  - destruct ms1 as [|m ms1].
    + cbn [layout] in Hl1. destruct Hpos as [[Hpos Hq]|(_ & _ & Hne)]; [|done].
      assert (Hf : follow_wrap f = set_pread 0 f) by (unfold follow_wrap; by rewrite Hl1, Hmark).
      rewrite Hf. cbn [app] in *. unfold read_msg, write_msg in *.
      assert (Hi : indexes (set_pread 0 f) ms2).
      { apply Straight; unfold read_msg, write_msg, fifo_words in *;
          cbn [set_pread pstart fifo_size pwrite_off pread_off sram]; rewrite ?Z.add_0_r;
          try done; [lia|by left]. }
      split; [by split|]. destruct ms2 as [|m2 ms2]; cbn [head_at layout] in *;
        unfold read_msg; cbn [set_pread pstart pread_off sram]; rewrite Z.add_0_r.
      * by rewrite <- Hl2 in Hq.
      * apply Hl2.
    + destruct (Hhead m) as [-> Hh]; [done|apply Hl1|]. by split.
Qed.

Lemma layout_tail r r' a m ms e :
  layout r a (m :: ms) e -> good_msg m -> changes r r' (a + 1) (a + 2) ->
  layout r' (a + Z.of_nat (length m)) ms e.
Proof.
  intros [_ Hl] Hg Hc. pose proof (good_length m Hg). destruct ms as [|m' ms]; [exact Hl|].
  eapply layout_changes; [exact Hl|exact Hc|lia].
Qed.

Section Take.
Context (f : mps_fifo) (m : list Z) (ms : list (list Z)).
Context (Hrep : fifo_rep f (m :: ms)) (Hb : block (sram f) (read_msg f) (marked m)).
Local Abbreviation n := (Z.of_nat (length m)).
Local Abbreviation r' := (<[read_msg f + 1 := clear_ready (word (sram f) (read_msg f + 1))]> (sram f)).
(** The FIFO once the message is taken. *)
Local Abbreviation g := (mk_fifo (pstart f) (fifo_size f) (pwrite_off f) (pread_off f + n) r').

Lemma take_good : good_msg m.
Proof. apply (Forall_cons_1 _ _ _ (rep_good _ _ Hrep)). Qed.
Lemma take_changes : changes (sram f) r' (read_msg f + 1) (read_msg f + 2).
Proof. eapply changes_weaken; [apply changes_insert|lia|lia]. Qed.
Lemma take_quiet : msg_ready r' (read_msg f) = false.
Proof. unfold msg_ready. rewrite word_insert_eq. apply header_ready_clear. Qed.

Lemma take_result w :
  0 <= pread_off f -> pread_off f + n <= w -> w + 2 < fifo_words f -> indexes g ms ->
  fifo_rep (ifx_mpsdrv_fifo_read_ptr_inc f n) ms /\ same_fifo f (ifx_mpsdrv_fifo_read_ptr_inc f n).
Proof.
  intros Hr Hle Hw Hi. pose proof (rep_size _ _ Hrep). pose proof (good_length m take_good).
  unfold ifx_mpsdrv_fifo_read_ptr_inc. destruct (Z.ltb_spec (fifo_size f) n); [lia|].
  change (pread_off (set_sram _ f)) with (pread_off f). rewrite u32_small by lia.
  change (set_pread _ _) with g. split.
  - split; [done| |done]. apply (Forall_cons_1 _ _ _ (rep_good _ _ Hrep)).
  - split; [done..|]. pose proof take_changes as Hc. unfold read_msg in *.
    eapply changes_weaken; [exact Hc|lia|lia].
Qed.

Lemma take_straight :
  0 <= pread_off f -> pwrite_off f + 2 < fifo_words f ->
  layout (sram f) (read_msg f) (m :: ms) (write_msg f) ->
  pread_off f = 0 \/ 2 <= pread_off f /\ msg_ready (sram f) (pstart f) = false ->
  msg_ready (sram f) (write_msg f) = false ->
  pwrite_off f = 0 \/ msg_next_wrapped (sram f) (write_msg f) = false ->
  indexes g ms.
Proof.
  intros Hr Hw Hl Hz Hq Hu. pose proof (layout_le _ _ _ _ (proj2 Hl)) as Hle.
  pose proof take_good as Hg. pose proof (good_length m Hg) as Hlen.
  pose proof take_changes as Hc. pose proof take_quiet as Hq0.
  apply (layout_tail _ r') in Hl; [|done..].
  apply Straight; unfold read_msg, write_msg, fifo_words in *;
    cbn [pstart fifo_size pwrite_off pread_off sram]; try done.
  - lia.
  - by rewrite Z.add_assoc.
  - right. split; [lia|]. destruct Hz as [Hz|[Hz Hqz]]; [by rewrite Hz, Z.add_0_r in *|].
    eapply quiet_changes; [done..|lia].
  - eapply quiet_changes; [done..|lia].
  - destruct Hu as [Hu|Hu]; [by left|right]. eapply wrap_changes; [done..|lia].
Qed.

Lemma take_wrapped ms1 ms2 w :
  ms = (ms1 ++ ms2)%list -> 0 <= pread_off f -> w + 2 < fifo_words f ->
  layout (sram f) (read_msg f) (m :: ms1) (pstart f + w) ->
  msg_next_wrapped (sram f) (pstart f + w) = true ->
  layout (sram f) (pstart f) ms2 (write_msg f) ->
  pwrite_off f = 0 \/ msg_next_wrapped (sram f) (write_msg f) = false ->
  pwrite_off f + 2 <= pread_off f /\ msg_ready (sram f) (write_msg f) = false \/
    pwrite_off f = 0 /\ pread_off f = 0 ->
  indexes g ms.
Proof.
  intros Hms Hr Hw Hl1 Hmark Hl2 Hu Hpos.
  pose proof (layout_le _ _ _ _ (proj2 Hl1)) as Hle. pose proof (layout_le _ _ _ _ Hl2) as Hle2.
  pose proof take_good as Hg. pose proof (good_length m Hg) as Hlen.
  pose proof take_changes as Hc. pose proof take_quiet as Hq0.
  apply (layout_tail _ r') in Hl1; [|done..].
  rewrite Hms. apply (Wrapped _ ms1 ms2 w); unfold read_msg, write_msg, fifo_words in *;
    cbn [pstart fifo_size pwrite_off pread_off sram]; try done.
  - lia.
  - by rewrite Z.add_assoc.
  - eapply wrap_changes; [done..|lia].
  - eapply layout_changes; [exact Hl2|exact Hc|lia].
  - destruct Hu as [Hu|Hu], Hpos as [[Hpos _]|(Hp0 & _)]; [by left..| |by left].
    right. eapply wrap_changes; [done..|lia].
  - left. destruct Hpos as [[Hpos Hq]|(Hp0 & Hr0)]; (split; [lia|]).
    + eapply quiet_changes; [done..|lia].
    + by rewrite Hp0, Hr0 in *.
Qed.

Lemma read_ptr_inc_rep :
  fifo_rep (ifx_mpsdrv_fifo_read_ptr_inc f n) ms /\ same_fifo f (ifx_mpsdrv_fifo_read_ptr_inc f n).
Proof.
  pose proof take_good as Hg. pose proof (good_length m Hg) as Hlen.
  pose proof (rep_indexes _ _ Hrep) as Hi. inversion Hi as
    [l Hr Hw Hl Hz Hq Hu Heql | ms1 ms2 w Hr Hw Hl1 Hmark Hl2 Hu Hpos Hl_eq].
  - pose proof (layout_le _ _ _ _ (proj2 Hl)) as Hle. unfold write_msg, read_msg in Hle.
    apply (take_result (pwrite_off f)); [done|lia|done|]. by apply take_straight.
  - destruct ms1 as [|m1 ms1].
    { exfalso. cbn [layout] in Hl1. by rewrite <- Hl1, (block_unwrapped _ _ _ Hg Hb) in Hmark. }
    cbn [app] in Hl_eq. injection Hl_eq as -> Heq.
    pose proof (layout_le _ _ _ _ (proj2 Hl1)) as Hle. unfold write_msg, read_msg in Hle.
    apply (take_result w); [done|lia|done|].
    apply (take_wrapped ms1 ms2 w); try done. destruct Hpos as [?|(? & ? & _)]; [by left|by right].
Qed.
End Take.
