(* ===== verification/MailboxDevice.v ===== *)
(** * MailboxDevice: the four FIFOs of the SRAM, from a sender to a callback

    The four FIFOs stand for four independent lists of messages; what is sent is received,
    the interrupt handler moves it to a queue, and the tasklet gives it to the callbacks, in
    the order of the sends. *)
From stdpp Require Import functions.
From S2P Require Import Prelude MpsBuffer MpsProps Mailbox MailboxProps.
Import Mps Mbx.

(** ** Four FIFOs in one SRAM *)
Definition region_words (id : mbx_fifo) : Z :=
  match id with UPSTR_CMD | DNSTR_CMD => 16 | _ => 32 end.

Lemma get_fifo_words id r : fifo_words (get_fifo id r) = region_words id.
Proof. by destruct id. Qed.
Lemma get_fifo_size id r : fifo_size (get_fifo id r) = 4 * region_words id.
Proof. by destruct id. Qed.

Lemma regions_apart id id' :
  id <> id' ->
  fifo_base id + region_words id <= fifo_base id' \/ fifo_base id' + region_words id' <= fifo_base id.
Proof. destruct id, id'; cbn; intros; try done; lia. Qed.

(** A FIFO does not read outside its region. *)
Lemma fifo_rep_frame f ms r' a b :
  fifo_rep f ms -> changes (sram f) r' a b ->
  b <= pstart f \/ pstart f + fifo_words f <= a -> fifo_rep (set_sram r' f) ms.
Proof.
  intros [Hsz Hg Hi] Hc Hap. split; [done..|].
  destruct Hi as [ms Hr Hw Hl Hz Hq Hu | ms1 ms2 w Hr Hw Hl1 Hmark Hl2 Hu Hpos].
  - pose proof (layout_le _ _ _ _ Hl) as Hle. unfold read_msg, write_msg in *.
    apply Straight; unfold read_msg, write_msg, fifo_words in *;
      cbn [set_sram pstart fifo_size pwrite_off pread_off sram]; try done.
    + eapply layout_changes; [done..|lia].
    + destruct Hz as [Hz|[Hz Hq0]]; [by left|right]. split; [done|].
      eapply quiet_changes; [done..|lia].
    + eapply quiet_changes; [done..|lia].
    + destruct Hu as [Hu|Hu]; [by left|right]. eapply wrap_changes; [done..|lia].
  - pose proof (layout_le _ _ _ _ Hl1) as Hle. pose proof (layout_le _ _ _ _ Hl2) as Hle2.
    unfold read_msg, write_msg in *.
    assert (Hp : pwrite_off f <= pread_off f) by lia.
    apply (Wrapped _ ms1 ms2 w); unfold read_msg, write_msg, fifo_words in *;
      cbn [set_sram pstart fifo_size pwrite_off pread_off sram]; try done.
    + eapply layout_changes; [done..|lia].
    + eapply wrap_changes; [done..|lia].
    + eapply layout_changes; [done..|lia].
    + destruct Hu as [Hu|Hu]; [by left|right]. eapply wrap_changes; [done..|lia].
    + destruct Hpos as [[Hpos Hq]|Hpos]; [left|by right]. split; [done|].
      eapply quiet_changes; [done..|lia].
Qed.

(** The messages in each FIFO. *)
Abbreviation mailboxes := (mbx_fifo -> list (list Z)).
Definition regs_rep (r : mps_mbx_reg) (Q : mailboxes) : Prop :=
  forall id, fifo_rep (get_fifo id r) (Q id).

Lemma get_put id f r :
  pstart f = fifo_base id -> fifo_size f = fifo_bytes id -> get_fifo id (put_fifo id f r) = f.
Proof. destruct f as [s z w p m]. cbn. intros -> ->. by destruct id. Qed.
Lemma get_put_same id f r :
  same_fifo (get_fifo id r) f -> get_fifo id (put_fifo id f r) = f.
Proof. intros [Hs Hz _]. by apply get_put. Qed.
Lemma put_put id f g r : put_fifo id f (put_fifo id g r) = put_fifo id f r.
Proof. by destruct id. Qed.
Lemma get_put_ne id id' f r :
  id <> id' -> get_fifo id' (put_fifo id f r) = set_sram (sram f) (get_fifo id' r).
Proof. by destruct id, id'. Qed.

(** A FIFO replaced by one for [ms]; the others stand for what they did. *)
Lemma regs_rep_put r Q id f ms :
  regs_rep r Q -> same_fifo (get_fifo id r) f -> fifo_rep f ms ->
  regs_rep (put_fifo id f r) (<[id := ms]> Q).
Proof.
  intros HQ Hs Hf id'. destruct (decide (id = id')) as [<-|Hne].
  - by rewrite fn_lookup_insert, get_put_same.
  - rewrite fn_lookup_insert_ne, get_put_ne by done.
    eapply fifo_rep_frame; [apply HQ | apply (same_sram _ _ Hs) |].
    rewrite !get_fifo_words. pose proof (regions_apart id id' Hne). destruct id, id'; cbn in *; lia.
Qed.
Lemma regs_rep_ext r Q Q' : (forall id, Q id = Q' id) -> regs_rep r Q -> regs_rep r Q'.
Proof. intros He HQ id. rewrite <- He. apply HQ. Qed.
Lemma regs_rep_same r Q id f :
  regs_rep r Q -> same_fifo (get_fifo id r) f -> fifo_rep f (Q id) -> regs_rep (put_fifo id f r) Q.
Proof.
  intros HQ Hs Hf. eapply regs_rep_ext; [|by eapply regs_rep_put]. intros id'. cbn.
  destruct (decide (id = id')) as [->|]; [by rewrite fn_lookup_insert|by rewrite fn_lookup_insert_ne].
Qed.

(** A message has two words at least. *)
Lemma layout_count r a ms e :
  Forall good_msg ms -> layout r a ms e -> a + 2 * Z.of_nat (length ms) <= e.
Proof.
  revert a. induction ms as [|m ms IH]; cbn [layout length]; [intros; lia|].
  intros a [Hg Hgs]%Forall_cons [_ Hl]. pose proof (good_length m Hg). apply IH in Hl; [lia|done].
Qed.
Lemma fifo_count f ms : fifo_rep f ms -> 2 * Z.of_nat (length ms) < fifo_words f.
Proof.
  intros Hf. pose proof (rep_good _ _ Hf) as Hg.
  destruct (rep_indexes _ _ Hf) as [ms Hr Hw Hl Hz Hq Hu | ms1 ms2 w Hr Hw Hl1 Hmark Hl2 Hu Hpos].
  - apply layout_count in Hl; [|done]. unfold read_msg, write_msg in *. lia.
  - apply Forall_app in Hg as [Hg1 Hg2]. rewrite length_app.
    apply layout_count in Hl1; [|done]. apply layout_count in Hl2; [|done].
    unfold read_msg, write_msg in *. lia.
Qed.
Lemma fifo_count_bound r Q id : regs_rep r Q -> 2 * Z.of_nat (length (Q id)) < region_words id.
Proof. intros HQ. rewrite <- (get_fifo_words id r). by apply fifo_count. Qed.

(** ** One send, one receive *)
Lemma mbx_send_cases cpu m d Q id irq :
  regs_rep (base_global d) Q -> good_msg m ->
  mbx_for cpu (header_type (data_word m 0)) = Some (id, irq) ->
  exists res m' regs',
    (ifx_mpsdrv_mbx_send cpu m d = (res, m', raise_irq (id, irq) (set_regs regs' d)) /\
     res = OK /\ regs_rep regs' (<[id := (Q id ++ [m])%list]> Q)) \/
    (ifx_mpsdrv_mbx_send cpu m d = (res, m', set_regs regs' d) /\
     (res = - ENOMEM \/ res = - EAGAIN) /\ regs_rep regs' Q).
Proof.
  intros HQ Hg Hid. unfold ifx_mpsdrv_mbx_send. rewrite Hid.
  fold (message_bytes m). change (<[1%nat := _]> m) with (marked m).
  destruct (ifx_mpsdrv_fifo_mem_request _ _).
  - pose proof (fifo_write_rep _ _ m (HQ id) Hg) as Hw.
    destruct (ifx_mpsdrv_fifo_write _ _ _) as [r f']. destruct Hw as [Hs Hw].
    cbn [fst snd] in *. destruct Hw as [[-> Hf]|[-> Hf]]; do 3 eexists; [left|right];
      (split; [reflexivity|]).
    + split; [done|]. by apply regs_rep_put.
    + split; [by left|]. by apply regs_rep_same.
  - exists (- EAGAIN), m, (base_global d). right. split; [by destruct d|]. split; [by right|done].
Qed.

Lemma fifo_read_cases f ms :
  fifo_rep f ms ->
  exists f', ifx_mpsdrv_fifo_read f = (match ms with [] => None | _ => Some (read_msg f') end, f') /\
    f' = follow_wrap f /\ same_fifo f f' /\ fifo_rep f' ms /\ head_at f' ms.
Proof.
  intros Hrep. exists (follow_wrap f). destruct (follow_wrap_rep f ms Hrep) as [Hrep' Hh].
  split; [|split; [done|by split; [apply follow_wrap_same|]]]. unfold ifx_mpsdrv_fifo_read. f_equal.
  destruct ms as [|m ms]; cbn [head_at] in Hh; [by rewrite Hh|].
  pose proof (rep_good _ _ Hrep) as [Hg _]%Forall_cons. by rewrite (block_ready _ _ _ Hg Hh).
Qed.

Lemma rcv_cases cpu type d Q id :
  regs_rep (base_global d) Q -> mbx_from cpu type = Some id ->
  exists regs', match Q id with
  | [] => ifx_mpsdrv_mbx_rcv cpu type d = (ERROR, [], set_regs regs' d) /\ regs_rep regs' Q
  | m :: ms => ifx_mpsdrv_mbx_rcv cpu type d = (OK, marked m, set_regs regs' d) /\
      regs_rep regs' (<[id := ms]> Q)
  end.
Proof.
  intros HQ Hid. unfold ifx_mpsdrv_mbx_rcv. rewrite Hid.
  destruct (fifo_read_cases _ _ (HQ id)) as (f' & -> & _ & Hs & Hf & Hh).
  destruct (Q id) as [|m ms] eqn:HQid.
  - eexists. split; [reflexivity|]. apply regs_rep_same; [done..|]. by rewrite HQid.
  - pose proof (rep_good _ _ Hf) as [Hg _]%Forall_cons. cbn [head_at] in Hh.
    rewrite (block_words _ _ _ Hg Hh), Nat2Z.id.
    rewrite (block_read _ _ _ (length m) Hh), take_ge by (rewrite marked_length; lia).
    destruct (read_ptr_inc_rep f' m ms Hf Hh) as [Hf2 Hs2].
    eexists. split; [reflexivity|]. apply regs_rep_put; [done| |done]. by eapply same_fifo_trans.
Qed.

(** C18. The four message FIFOs of the SRAM, with their indexes, ready bits and wrap marks,
    are four independent lists of messages: ifx_mpsdrv_mbx_send adds a message at the end of
    the list of its FIFO and raises its interrupt, or refuses with -ENOMEM or -EAGAIN and
    changes no list; ifx_mpsdrv_mbx_rcv takes the first message, whole, and fails exactly
    when there is none. Messages of different lengths, and wrapping around with some unread,
    are included. *)
Theorem mailbox_refines_queues cpu m type d Q :
  regs_rep (base_global d) Q -> good_msg m ->
  match mbx_for cpu (header_type (data_word m 0)) with
  | None => ifx_mpsdrv_mbx_send cpu m d = (- ENOMSG, m, d)
  | Some (id, irq) =>
      exists res m' d', ifx_mpsdrv_mbx_send cpu m d = (res, m', d') /\
        ((res = OK /\ irqs d' = (irqs d ++ [(id, irq)])%list /\
          regs_rep (base_global d') (<[id := (Q id ++ [m])%list]> Q)) \/
         ((res = - ENOMEM \/ res = - EAGAIN) /\ irqs d' = irqs d /\ regs_rep (base_global d') Q))
  end /\
  match mbx_from cpu type with
  | None => ifx_mpsdrv_mbx_rcv cpu type d = (ERROR, [], d)
  | Some id =>
      exists d', irqs d' = irqs d /\
        match Q id with
        | [] => ifx_mpsdrv_mbx_rcv cpu type d = (ERROR, [], d') /\ regs_rep (base_global d') Q
        | m' :: ms => ifx_mpsdrv_mbx_rcv cpu type d = (OK, marked m', d') /\
            regs_rep (base_global d') (<[id := ms]> Q)
        end
  end.
Proof.
  intros HQ Hg. split.
  - destruct (mbx_for cpu (header_type (data_word m 0))) as [[id irq]|] eqn:Hid.
    + destruct (mbx_send_cases cpu m d Q id irq HQ Hg Hid) as (res & m' & regs' & [(Hs & Hr & Hq)|(Hs & Hr & Hq)]);
        do 3 eexists; (split; [exact Hs|]); [by left|by right].
    + unfold ifx_mpsdrv_mbx_send. by rewrite Hid.
  - destruct (mbx_from cpu type) as [id|] eqn:Hid.
    + destruct (rcv_cases cpu type d Q id HQ Hid) as [regs' H].
      exists (set_regs regs' d). split; [done|]. by destruct (Q id).
    + unfold ifx_mpsdrv_mbx_rcv. by rewrite Hid.
Qed.

(** ** The SRAM as it is first, and a run of two processors on it *)
Definition start_dev : mps_comm_dev :=
  ifx_mpsdrv_initial_structures (mk_dev (mk_mbx_reg (0, 0) (0, 0) (0, 0) (0, 0) ∅) []
    (mk_datamsg_list [] 0 0) (mk_datamsg_list [] 0 0) ∅ [4096; 4128; 4160] [] [] []).

Lemma start_rep : regs_rep (base_global start_dev) (fun _ => []).
Proof.
  intros id. split; [by destruct id | done |]. apply Straight; destruct id; cbn; try done; by left.
Qed.

(** A data message for the packet at [addr], 8 bytes after the header; a response without
    content. *)
Definition data_msg (seq addr len : Z) : list Z :=
  [0x01000000 + Z.shiftl seq 16 + 0x201; 8; addr; len].
Definition response_msg (seq : Z) : list Z := [0x05000000 + Z.shiftl seq 16; 0].

Lemma data_msg_good seq addr len : good_msg (data_msg seq addr len).
Proof. by split. Qed.

Lemma mailbox_refines_queues_witness :
  (exists res m' d', ifx_mpsdrv_mbx_send 1 (data_msg 20 0x1000 60) start_dev = (res, m', d') /\
     ((res = OK /\ irqs d' = [(UPSTR_DATA, 2)] /\
       regs_rep (base_global d') (<[UPSTR_DATA := [data_msg 20 0x1000 60]]> (fun _ => []))) \/
      ((res = - ENOMEM \/ res = - EAGAIN) /\ irqs d' = [] /\
       regs_rep (base_global d') (fun _ => [])))) /\
  exists d', irqs d' = [] /\
    ifx_mpsdrv_mbx_rcv 1 MPS_CMD_MSG_TYPE start_dev = (ERROR, [], d') /\
    regs_rep (base_global d') (fun _ => []).
Proof.
  exact (mailbox_refines_queues 1 (data_msg 20 0x1000 60) MPS_CMD_MSG_TYPE start_dev (fun _ => [])
    start_rep (data_msg_good _ _ _)).
Defined.

(** ** An empty FIFO the reader has looked at *)
Lemma drained_indexes f :
  fifo_rep f [] ->
  let g := follow_wrap f in
  pread_off g = pwrite_off g /\ 0 <= pwrite_off g /\ pwrite_off g + 2 < fifo_words g /\
  msg_ready (sram g) (write_msg g) = false /\
  (pread_off g = 0 \/ 2 <= pread_off g /\ msg_ready (sram g) (pstart g) = false).
Proof.
  intros Hrep g. subst g. unfold follow_wrap. pose proof (rep_indexes _ _ Hrep) as Hi.
  inversion Hi as [l Hr Hw Hl Hz Hq Hu Heql|ms1 ms2 w Hr Hw Hl1 Hmark Hl2 Hu Hpos Heq].
  - cbn [layout] in Hl. unfold read_msg, write_msg in Hl.
    assert (Hp : pread_off f = pwrite_off f) by lia.
    destruct (msg_next_wrapped (sram f) (read_msg f)) eqn:Hm; [|by split_and!; try lia].
    rewrite set_pread_same; [by split_and!; try lia|]. destruct Hu as [Hu|Hu]; [lia|].
    unfold read_msg in Hm. rewrite Hp in Hm. unfold write_msg in Hu. congruence.
  - apply app_nil in Heq as [-> ->]. cbn [layout] in *. rewrite Hl1, Hmark.
    destruct Hpos as [[Hpos Hq]|(_ & _ & Hne)]; [|done].
    unfold read_msg, write_msg, fifo_words in *.
    cbn [set_pread pstart fifo_size pwrite_off pread_off sram] in *.
    assert (pwrite_off f = 0) as Hp0 by lia. rewrite Hp0 in *. split_and!; first [done | lia | by left].
Qed.

Lemma write_accepted f m :
  fifo_rep f [] -> good_msg m -> 2 * Z.of_nat (length m) + 3 < fifo_words f ->
  (ifx_mpsdrv_fifo_write (follow_wrap f) (marked m) (message_bytes m)).1 = OK.
Proof.
  intros Hrep Hg Hn. pose proof (good_length m Hg) as Hlen.
  destruct (follow_wrap_rep f [] Hrep) as [Hrep' _]. pose proof (rep_size _ _ Hrep') as Hsz.
  destruct (drained_indexes f Hrep) as (Hp & H0 & Hw & Hq & Hz). unfold fifo_words in Hn.
  rewrite <- (same_size _ _ (follow_wrap_same f)) in Hn. fold (fifo_words (follow_wrap f)) in Hn.
  revert Hrep' Hsz Hp H0 Hw Hq Hz Hn. generalize (follow_wrap f). clear f Hrep.
  intros f Hrep Hsz Hp H0 Hw Hq Hz Hn. unfold ifx_mpsdrv_fifo_write.
  assert (Hb : message_bytes m <= fifo_size f).
  { pose proof (header_len_range (data_word m 1)). pose proof (good_words m Hg) as Hgw.
    rewrite header_words_eq in Hgw. unfold message_bytes, MPS_MSGHDR_LEN.
    rewrite u32_small by lia. pose proof (Z.div_mod (header_len (data_word m 1) + 11) 4).
    pose proof (Z.mod_pos_bound (header_len (data_word m 1) + 11) 4). lia. }
  destruct (Z.ltb_spec (fifo_size f) (message_bytes m)); [lia|]. rewrite Hq.
  destruct (Z.ltb_spec (pwrite_off f) (pread_off f)); [lia|].
  rewrite (room_eq f m) by (done || lia). fold (fifo_words f).
  destruct (Z.leb_spec (fifo_words f) (pwrite_off f + Z.of_nat (length m) + 2)); [|done].
  change (set_pwrite 0 _) with (wrap_writer f). rewrite (room_eq (wrap_writer f) m)
    by (done || cbn [wrap_writer set_pwrite pwrite_off]; lia).
  change (pwrite_off (wrap_writer f)) with 0. change (pread_off (wrap_writer f)) with (pread_off f).
  destruct Hz as [Hz|[Hz Hq0]]; [lia|].
  assert (Hs : msg_ready (sram (wrap_writer f)) (pstart (wrap_writer f)) = false).
  { eapply quiet_changes; [exact Hq0|apply changes_insert|]. unfold write_msg. cbn. lia. }
  rewrite Hs. destruct (Z.ltb_spec (pread_off f) (0 + Z.of_nat (length m) + 2)); [lia|done].
Qed.

Lemma message_bytes_range m : good_msg m -> 0 <= message_bytes m <= 4 * Z.of_nat (length m).
Proof.
  intros Hg. pose proof (header_len_range (data_word m 1)). pose proof (good_words m Hg) as Hgw.
  rewrite header_words_eq in Hgw. unfold message_bytes, MPS_MSGHDR_LEN.
  rewrite u32_small by lia. pose proof (Z.div_mod (header_len (data_word m 1) + 11) 4).
  pose proof (Z.mod_pos_bound (header_len (data_word m 1) + 11) 4). lia.
Qed.

Lemma rcv_empty cpu type d Q id :
  regs_rep (base_global d) Q -> mbx_from cpu type = Some id -> Q id = [] ->
  ifx_mpsdrv_mbx_rcv cpu type d =
    (ERROR, [], set_regs (put_fifo id (follow_wrap (get_fifo id (base_global d))) (base_global d)) d).
Proof.
  intros HQ Hid HQid. unfold ifx_mpsdrv_mbx_rcv. rewrite Hid.
  destruct (fifo_read_cases _ _ (HQ id)) as (f' & -> & -> & _). by rewrite HQid.
Qed.

(** A message to a FIFO that was found empty. *)
Lemma drained_accepts cpu cpu' type m d Q id irq :
  regs_rep (base_global d) Q -> good_msg m -> Q id = [] -> mbx_from cpu' type = Some id ->
  mbx_for cpu (header_type (data_word m 0)) = Some (id, irq) ->
  2 * Z.of_nat (length m) + 3 < region_words id ->
  exists m' d1 d2, ifx_mpsdrv_mbx_rcv cpu' type d = (ERROR, [], d1) /\
    ifx_mpsdrv_mbx_send cpu m d1 = (OK, m', d2) /\
    regs_rep (base_global d2) (<[id := [m]]> Q) /\ irqs d2 = (irqs d ++ [(id, irq)])%list.
Proof.
  intros HQ Hg HQid Hfrom Hfor Hn. pose proof (HQ id) as Hf. rewrite HQid in Hf.
  destruct (follow_wrap_rep _ _ Hf) as [Hf' _]. pose proof (follow_wrap_same (get_fifo id (base_global d))) as Hs.
  set (r1 := put_fifo id (follow_wrap (get_fifo id (base_global d))) (base_global d)).
  assert (HQ1 : regs_rep r1 Q) by (apply regs_rep_same; [done..|by rewrite HQid]).
  rewrite (rcv_empty cpu' type d Q id) by done. fold r1.
  assert (Hget : get_fifo id r1 = follow_wrap (get_fifo id (base_global d))) by by apply get_put_same.
  destruct (mbx_send_cases cpu m (set_regs r1 d) Q id irq) as (res & m' & regs' & H); [done..|].
  destruct H as [(Hsend & -> & Hr)|(Hsend & Hres & _)].
  { rewrite HQid in Hr. do 3 eexists. split; [reflexivity|]. by split. }
  exfalso. unfold ifx_mpsdrv_mbx_send in Hsend. rewrite Hfor in Hsend.
  change (base_global (set_regs r1 d)) with r1 in Hsend. rewrite Hget in Hsend.
  fold (message_bytes m) in Hsend. change (<[1%nat := _]> m) with (marked m) in Hsend.
  pose proof (message_bytes_range m Hg). destruct (drained_indexes _ Hf) as (Hp & H0 & Hw & _).
  assert (Hroom : ifx_mpsdrv_fifo_mem_request (follow_wrap (get_fifo id (base_global d))) (message_bytes m) = true).
  { unfold ifx_mpsdrv_fifo_mem_request, ifx_mpsdrv_fifo_mem_available. rewrite Hp, Z.ltb_irrefl, Z.sub_diag.
    change (Z.shiftl (u32 0) 2) with 0. rewrite (same_size _ _ Hs), get_fifo_size, Z.sub_0_r.
    rewrite u32_small by (destruct id; cbn; lia). apply Z.leb_le. lia. }
  rewrite Hroom in Hsend. pose proof (write_accepted _ m Hf Hg) as Hok.
  rewrite get_fifo_words in Hok. specialize (Hok Hn).
  destruct (ifx_mpsdrv_fifo_write _ _ _) as [r f2]. cbn [fst] in Hok. subst r.
  injection Hsend as <- _ _. destruct Hres; discriminate.
Qed.

(** When the reader has found a FIFO empty, the next message of fewer than half the
    words of the FIFO is accepted, wherever the indexes stand: a sender that is refused is
    not refused for ever. The driver sends at most six words, and the smallest FIFO has
    sixteen. *)
Theorem drained_mailbox_accepts cpu cpu' type m d Q id irq :
  regs_rep (base_global d) Q -> good_msg m -> Q id = [] -> mbx_from cpu' type = Some id ->
  mbx_for cpu (header_type (data_word m 0)) = Some (id, irq) ->
  2 * Z.of_nat (length m) + 3 < region_words id ->
  exists m' d1 d2, ifx_mpsdrv_mbx_rcv cpu' type d = (ERROR, [], d1) /\
    ifx_mpsdrv_mbx_send cpu m d1 = (OK, m', d2) /\
    regs_rep (base_global d2) (<[id := [m]]> Q) /\ irqs d2 = (irqs d ++ [(id, irq)])%list.
Proof. apply drained_accepts. Qed.

Lemma drained_mailbox_accepts_witness :
  exists m' d1 d2, ifx_mpsdrv_mbx_rcv 0 MPS_CMD_MSG_TYPE start_dev = (ERROR, [], d1) /\
    ifx_mpsdrv_mbx_send 1 (response_msg 20) d1 = (OK, m', d2) /\
    regs_rep (base_global d2) (<[UPSTR_CMD := [response_msg 20]]> (fun _ => [])) /\
    irqs d2 = [(UPSTR_CMD, 1)].
Proof.
  apply (drained_mailbox_accepts 1 0 MPS_CMD_MSG_TYPE (response_msg 20) start_dev (fun _ => [])
    UPSTR_CMD 1 start_rep); [by split|reflexivity..].
Defined.

(** ** What goes wrong *)
(** The words [ifx_mpsdrv_fifo_write] copies before and after the [k]th turn of its loop. *)
Lemma copy_words_split m p ws k :
  copy_words (copy_words m p (take k ws)) (p + Z.of_nat (length (take k ws))) (drop k ws) =
  copy_words m p ws.
Proof.
  revert m p ws. induction k as [|k IH]; intros m p [|w ws]; cbn [take drop length copy_words];
    rewrite ?Z.add_0_r; try done.
  replace (p + Z.of_nat (S (length (take k ws)))) with (p + 1 + Z.of_nat (length (take k ws))) by lia.
  apply IH.
Qed.

(** The SRAM after [k] turns of the loop, the indexes being moved later. *)
Definition copied_to (k : nat) (id : mbx_fifo) (m : list Z) (r : mps_mbx_reg) : mps_mbx_reg :=
  let f := get_fifo id r in
  put_fifo id (set_sram (copy_words (sram f) (write_msg f) (take k (marked m))) f) r.

(** ifx_mpsdrv_mbx_send sets the ready bit before the message is copied to the SRAM.
    Once the loop of ifx_mpsdrv_fifo_write has copied the two words of the header, the other
    processor receives the message: the words copied so far and, for the rest, what the FIFO
    held before. *)
Theorem published_before_copied cpu type d Q id m k :
  regs_rep (base_global d) Q -> mbx_from cpu type = Some id -> Q id = [] -> good_msg m ->
  follow_wrap (get_fifo id (base_global d)) = get_fifo id (base_global d) ->
  (2 <= k <= length m)%nat ->
  let f := get_fifo id (base_global d) in
  let old := sram f in
  let p := write_msg f in
  ifx_mpsdrv_fifo_write f (marked m) (message_bytes m) =
    (OK, put_message f (marked m) (Z.of_nat (length m))) ->
  copy_words (MBX_DATA (copied_to k id m (base_global d))) (p + Z.of_nat k) (drop k (marked m)) =
    copy_words old p (marked m) /\
  exists d', ifx_mpsdrv_mbx_rcv cpu type (set_regs (copied_to k id m (base_global d)) d) =
    (OK, (take k (marked m) ++ read_words old (p + Z.of_nat k) (length m - k))%list, d').
Proof.
  intros HQ Hid HQid Hg Hfw Hk f old p _. split.
  { rewrite <- (copy_words_split old p (marked m) k), length_take, marked_length.
    by replace (k `min` length m)%nat with k by lia. }
  pose proof (HQ id) as Hf. rewrite HQid in Hf.
  destruct (drained_indexes _ Hf) as (Hp & _). rewrite Hfw in Hp. fold f in Hp, Hfw.
  unfold ifx_mpsdrv_mbx_rcv. rewrite Hid.
  change (base_global (set_regs ?r d)) with r. unfold copied_to. fold f. rewrite get_put by done.
  set (ws := take k (marked m)). set (g := set_sram (copy_words (sram f) (write_msg f) ws) f).
  destruct (copy_words_spec (sram f) (write_msg f) ws) as [Hb Hc].
  assert (Hws : length ws = k) by (unfold ws; rewrite length_take, marked_length; lia).
  assert (Hread : read_msg g = write_msg f) by (unfold read_msg, write_msg; by rewrite <- Hp).
  assert (Hh : word (sram g) (write_msg f + 1) = set_ready (data_word m 1)).
  { change 1 with (Z.of_nat 1). apply Hb. unfold ws. rewrite lookup_take_lt by lia. by apply marked_header. }
  assert (Hfw' : follow_wrap g = g).
  { unfold follow_wrap, msg_next_wrapped. rewrite Hread, Hh, header_wrapped_set. by rewrite good_wrap. }
  unfold ifx_mpsdrv_fifo_read. rewrite Hfw', Hread. unfold msg_ready. rewrite Hh, header_ready_set.
  assert (Hn : msg_4bytes (sram g) (write_msg f) = Z.of_nat (length m)).
  { unfold msg_4bytes, msg_len. rewrite Hh, header_len_set. symmetry. apply good_words, Hg. }
  rewrite Hn, Nat2Z.id. eexists. do 2 f_equal.
  replace (length m) with (k + (length m - k))%nat at 1 by lia. rewrite read_words_app. f_equal.
  - rewrite (block_read _ _ ws) by (exact Hb || lia). apply take_ge. lia.
  - apply read_words_changes with (1 := Hc). lia.
Qed.

(** The reader gets the header of the message with a packet at address 0. *)
Lemma published_before_copied_witness :
  exists d', ifx_mpsdrv_mbx_rcv 0 MPS_DATA_MSG_TYPE
    (set_regs (copied_to 2 UPSTR_DATA (data_msg 20 0x1000 60) (base_global start_dev)) start_dev) =
    (OK, [data_word (data_msg 20 0x1000 60) 0; set_ready 8; 0; 0], d').
Proof.
  destruct (published_before_copied 0 MPS_DATA_MSG_TYPE start_dev (fun _ => []) UPSTR_DATA
    (data_msg 20 0x1000 60) 2 start_rep eq_refl eq_refl (data_msg_good _ _ _) eq_refl) as (_ & d' & H);
    [cbn; lia | reflexivity |].
  exists d'. exact H.
Defined.

(** ifx_mpsdrv_reset_structures sets the indexes to 0 and leaves the ready bits: when
    the first unread message stands at the start of its FIFO, it is received again after the
    reset, and every message sent before that is refused. *)
Theorem reset_keeps_messages cpu cpu' type m' d Q id irq m ms :
  regs_rep (base_global d) Q -> Q id = m :: ms -> (offsets id (base_global d)).1 = 0 ->
  mbx_from cpu type = Some id -> mbx_for cpu' (header_type (data_word m' 0)) = Some (id, irq) ->
  good_msg m' ->
  let d0 := ifx_mpsdrv_reset_structures d in
  offsets id (base_global d0) = (0, 0) /\
  (exists d1, ifx_mpsdrv_mbx_rcv cpu type d0 = (OK, marked m, d1)) /\
  (exists res m1 d1, ifx_mpsdrv_mbx_send cpu' m' d0 = (res, m1, d1) /\
     (res = - ENOMEM \/ res = - EAGAIN)).
Proof.
  intros HQ HQid Hr0 Hfrom Hfor Hg d0. pose proof (HQ id) as Hf. rewrite HQid in Hf.
  destruct (follow_wrap_rep _ _ Hf) as [_ Hb]. cbn [head_at] in Hb.
  pose proof (rep_good _ _ Hf) as [Hgm _]%Forall_cons.
  assert (Hfw : follow_wrap (get_fifo id (base_global d)) = get_fifo id (base_global d)).
  { unfold follow_wrap. case_match; [|done]. by apply set_pread_same. }
  rewrite Hfw in Hb.
  assert (Hget : get_fifo id (base_global d0) =
    mk_fifo (fifo_base id) (fifo_bytes id) 0 0 (MBX_DATA (base_global d))).
  { unfold d0, ifx_mpsdrv_reset_structures. by destruct id, (base_global d). }
  unfold read_msg in Hb. cbn [get_fifo pstart pread_off sram] in Hb. rewrite Hr0, Z.add_0_r in Hb.
  assert (Hrd : msg_ready (MBX_DATA (base_global d)) (fifo_base id) = true) by by eapply block_ready.
  assert (Hfw0 : follow_wrap (get_fifo id (base_global d0)) = get_fifo id (base_global d0)).
  { rewrite Hget. unfold follow_wrap. case_match; [|done]. by apply set_pread_same. }
  split; [|split].
  - unfold d0, ifx_mpsdrv_reset_structures. by destruct id, (base_global d).
  - unfold ifx_mpsdrv_mbx_rcv, ifx_mpsdrv_fifo_read. rewrite Hfrom, Hfw0, Hget.
    unfold read_msg. cbn [pstart pread_off sram]. rewrite Z.add_0_r, Hrd.
    rewrite (block_words _ _ _ Hgm Hb), Nat2Z.id, (block_read _ _ _ (length m) Hb)
      by (rewrite marked_length; lia).
    rewrite take_ge by (rewrite marked_length; lia). by eexists.
  - unfold ifx_mpsdrv_mbx_send. rewrite Hfor. case_match; [|by do 3 eexists; split; [|right]].
    unfold ifx_mpsdrv_fifo_write. rewrite Hget. unfold write_msg.
    cbn [pstart fifo_size pwrite_off sram]. rewrite Z.add_0_r, Hrd.
    destruct (_ <? _); (do 3 eexists; split; [|by left]); reflexivity.
Qed.

(** A message that waits for the reader, seen through a reset. *)
Definition waiting_dev : mps_comm_dev :=
  (ifx_mpsdrv_mbx_send 1 (data_msg 20 0x1000 60) start_dev).2.

Lemma waiting_rep :
  regs_rep (base_global waiting_dev) (<[UPSTR_DATA := [data_msg 20 0x1000 60]]> (fun _ => [])).
Proof.
  destruct (mbx_send_cases 1 (data_msg 20 0x1000 60) start_dev (fun _ => []) UPSTR_DATA 2 start_rep
    (data_msg_good _ _ _) eq_refl) as (res & m' & regs' & [(Hs & _ & Hr)|(Hs & [-> | ->] & _)]).
  - unfold waiting_dev. rewrite Hs. exact Hr.
  - vm_compute in Hs. discriminate.
  - vm_compute in Hs. discriminate.
Qed.

Lemma reset_keeps_messages_witness :
  offsets UPSTR_DATA (base_global (ifx_mpsdrv_reset_structures waiting_dev)) = (0, 0) /\
  (exists d1, ifx_mpsdrv_mbx_rcv 0 MPS_DATA_MSG_TYPE (ifx_mpsdrv_reset_structures waiting_dev) =
    (OK, marked (data_msg 20 0x1000 60), d1)) /\
  (exists res m1 d1, ifx_mpsdrv_mbx_send 1 (data_msg 21 0x2000 80)
     (ifx_mpsdrv_reset_structures waiting_dev) = (res, m1, d1) /\ (res = - ENOMEM \/ res = - EAGAIN)).
Proof.
  apply (reset_keeps_messages 0 1 MPS_DATA_MSG_TYPE (data_msg 21 0x2000 80) waiting_dev
    (<[UPSTR_DATA := [data_msg 20 0x1000 60]]> (fun _ => [])) UPSTR_DATA 2 (data_msg 20 0x1000 60) []);
    [exact waiting_rep | reflexivity | vm_compute; reflexivity | reflexivity | reflexivity |
     apply data_msg_good].
Defined.
