(* ===== verification/MailboxDelivery.v ===== *)
(** * MailboxDelivery: from the SRAM to the callbacks

    The queues of received messages as lists of messages, the loop of the interrupt handler
    that fills them from a FIFO, the loop of the tasklets that empties them into the
    callbacks, and the two together. *)
From stdpp Require Import functions.
From S2P Require Import Prelude MpsBuffer MpsProps Mailbox MailboxProps MailboxDevice.
Import Mps Mbx.

(** ** The ring of received messages *)
(** The ring is a ring of MpsBuffer with a fixed capacity. *)
Definition as_head (q : MPS_DATAMSG_LIST) : MPS_BUFF_HEAD :=
  mk_head (Some (datamsg_buf q)) MAX_MPS_DATAMSG_QLEN (datamsg_rpos q) (datamsg_wpos q).
Definition datamsg_rep (q : MPS_DATAMSG_LIST) (l : list Z) : Prop := queue_rep (as_head q) l.

Definition datamsg_capacity : nat := Z.to_nat MAX_MPS_DATAMSG_QLEN.

Lemma datamsg_rep_init : datamsg_rep mps_datamsg_queue_init [].
Proof.
  split; [split; reflexivity || discriminate | split; reflexivity || discriminate | cbn [length]; lia
    | reflexivity |]. eexists. split; [reflexivity|].
  split; [apply length_replicate|]. intros i x [=].
Qed.

Lemma datamsg_full q l :
  datamsg_rep q l -> MPS_DATAMSG_IS_Q_FULL q = bool_decide (length l = datamsg_capacity).
Proof. exact (rep_full (as_head q) l). Qed.
Lemma datamsg_empty q l : datamsg_rep q l -> MPS_DATAMSG_IS_Q_EMPTY q = bool_decide (l = []).
Proof. exact (rep_empty (as_head q) l). Qed.

Lemma datamsg_push_rep q l x :
  datamsg_rep q l -> (length l < datamsg_capacity)%nat ->
  exists q', datamsg_push x q = Some q' /\ datamsg_rep q' (l ++ [x]).
Proof.
  intros Hr Hl. destruct (rep_push (as_head q) l x Hr Hl) as (h1 & Hset & _ & _ & Hr').
  unfold MPS_SET_Q_ITEM, ring_set in Hset. cbn [as_head circular_buf wpos mbind option_bind] in Hset.
  unfold datamsg_push. destruct (datamsg_buf q !! Z.to_nat (datamsg_wpos q)) as [y|]; [|done].
  cbn [mbind option_bind] in *. injection Hset as <-. eexists. split; [reflexivity|exact Hr'].
Qed.

Lemma datamsg_pop_rep q x l :
  datamsg_rep q (x :: l) ->
  exists q', mps_datamsg_dequeue_head q = Some (x, q') /\ datamsg_rep q' l.
Proof.
  intros Hr. destruct (rep_pop (as_head q) x l x Hr) as (Hget & h1 & Hset & _ & _ & Hr').
  unfold MPS_GET_Q_ITEM, ring_get, ring_set in *.
  cbn [as_head circular_buf rpos mbind option_bind] in *. rewrite Hget in Hset.
  cbn [mbind option_bind] in Hset. injection Hset as <-. rewrite list_insert_id in Hr' by done.
  unfold mps_datamsg_dequeue_head. rewrite (datamsg_empty _ _ Hr), bool_decide_eq_false_2 by done.
  rewrite Hget. eexists. split; [reflexivity|exact Hr'].
Qed.

(** ** A message and its copy *)
(** The copy has the six words of an [mps_data_message]: the message, and what stands
    behind it in the SRAM when it is shorter. *)
Definition copied (m c : list Z) : Prop :=
  length c = data_message_words /\ take (length m) c = take data_message_words (marked m).

Lemma read_words_length m a n : length (read_words m a n) = n.
Proof. unfold read_words. by rewrite length_map, length_seq. Qed.

Lemma block_copied r a m : block r a (marked m) -> copied m (read_words r a data_message_words).
Proof.
  intros Hb. split; [apply read_words_length|].
  destruct (decide (data_message_words <= length m)%nat) as [Hle|Hgt].
  - rewrite (block_read _ _ _ _ Hb) by (by rewrite marked_length). apply take_ge.
    rewrite length_take. lia.
  - replace data_message_words with (length m + (data_message_words - length m))%nat at 1 by lia.
    rewrite read_words_app, take_app_length' by by rewrite read_words_length.
    rewrite (block_read _ _ _ _ Hb), !take_ge by (rewrite marked_length; lia). done.
Qed.

Lemma copied_header m c : good_msg m -> copied m c -> data_word c 0 = data_word m 0.
Proof.
  intros Hg [_ Hc]. pose proof (good_length m Hg). unfold data_word. f_equal.
  assert (H0 : take (length m) c !! 0%nat = take data_message_words (marked m) !! 0%nat) by by rewrite Hc.
  rewrite !lookup_take_lt in H0 by (unfold data_message_words; lia). rewrite H0.
  unfold marked. by rewrite list_lookup_insert_ne.
Qed.

(** ** The device and the messages it holds *)
#[export] Instance datamsg_queue_eq_dec : EqDecision datamsg_queue.
Proof. solve_decision. Defined.

(** At the address [a] of the heap stands a copy of [m]. *)
Definition held (h : gmap Z (list Z)) (a : Z) (m : list Z) : Prop :=
  a <> 0 /\ exists c, h !! a = Some c /\ copied m c.

Abbreviation queued := (datamsg_queue -> list (list Z)).

(** The FIFOs stand for [Q], the queues for [D], the messages of queue [q] being at the
    addresses [L q]. *)
Record dev_rep (d : mps_comm_dev) (Q : mailboxes) (D : queued) (L : datamsg_queue -> list Z) : Prop := {
  dev_regs : regs_rep (base_global d) Q;
  dev_queue q : datamsg_rep (get_queue q d) (L q);
  dev_held q : Forall2 (held (heap d)) (L q) (D q);
  dev_apart : NoDup (L DataQ ++ L CmdQ);
  dev_good q : Forall good_msg (D q);
  dev_callbacks : length (callback_function d) = Z.to_nat MPSDRV_TOTAL_SEQ_NUMBERS }.

(** [kmalloc] returns [n] buffers that are not in use, each once. *)
Definition can_alloc (n : nat) (d : mps_comm_dev) : Prop :=
  exists ks rest, kmallocs d = (ks ++ rest)%list /\ length ks = n /\ NoDup ks /\
    Forall (fun k => k <> 0 /\ heap d !! k = None) ks.

(** What only the tasklets change. *)
Record untouched (d d' : mps_comm_dev) : Prop := {
  same_callbacks : callback_function d' = callback_function d;
  same_calls : calls d' = calls d;
  same_skbs : freed_skbs d' = freed_skbs d }.
#[export] Instance untouched_preorder : PreOrder untouched.
Proof. split; [by split|intros ??? [] []; split; congruence]. Qed.

Lemma dev_rep_ext d Q D L Q' D' L' :
  (forall id, Q id = Q' id) -> (forall q, D q = D' q) -> (forall q, L q = L' q) ->
  dev_rep d Q D L -> dev_rep d Q' D' L'.
Proof.
  intros HQ HD HL [Hr Hq Hh Ha Hg Hc]. split; try done.
  - by eapply regs_rep_ext.
  - intros q. rewrite <- HL. apply Hq.
  - intros q. rewrite <- HD, <- HL. apply Hh.
  - by rewrite <- !HL.
  - intros q. rewrite <- HD. apply Hg.
Qed.

Lemma Forall2_impl_l {A B} (P P' : A -> B -> Prop) l k :
  Forall2 P l k -> (forall x y, x ∈ l -> P x y -> P' x y) -> Forall2 P' l k.
Proof. induction 1; intros HP; constructor; [apply HP; [left|done]|]. set_solver. Qed.

Lemma held_insert h k c a m : a <> k -> held h a m -> held (<[k := c]> h) a m.
Proof. intros Hne (Ha & c' & Hc & Hm). split; [done|]. exists c'. by rewrite lookup_insert_ne. Qed.
Lemma held_delete h k a m : a <> k -> held h a m -> held (delete k h) a m.
Proof. intros Hne (Ha & c' & Hc & Hm). split; [done|]. exists c'. by rewrite lookup_delete_ne. Qed.

Lemma dev_held_in d Q D L q a : dev_rep d Q D L -> a ∈ L q -> is_Some (heap d !! a).
Proof.
  intros Hd (i & Hi)%list_elem_of_lookup. pose proof (dev_held _ _ _ _ Hd q) as Hh.
  destruct (Forall2_lookup_l _ _ _ _ _ Hh Hi) as (m & _ & _ & c & Hc & _). by exists c.
Qed.

(** ** The loop of the interrupt handler *)
(** A new copy of a message at the end of a queue. *)
Lemma dev_rep_receive d Q D L q a m c l regs ks ms id :
  dev_rep d Q D L -> regs_rep regs (<[id := ms]> Q) -> good_msg m -> copied m c ->
  a <> 0 -> heap d !! a = None -> datamsg_rep l (L q ++ [a]) ->
  dev_rep (set_regs regs (set_queue q l (set_heap (<[a := c]> (heap d)) ks d)))
    (<[id := ms]> Q) (<[q := (D q ++ [m])%list]> D) (<[q := (L q ++ [a])%list]> L).
Proof.
  intros Hd Hr Hg Hc Ha Hfree Hl.
  assert (Hout : forall q', a ∉ L q').
  { intros q' Hin. destruct (dev_held_in _ _ _ _ _ _ Hd Hin) as [x Hx]. congruence. }
  assert (Hheld : forall q', Forall2 (held (<[a := c]> (heap d))) (L q') (D q')).
  { intros q'. pose proof (dev_held _ _ _ _ Hd q') as Hh. eapply Forall2_impl_l; [exact Hh|].
    intros x y Hx. apply held_insert. intros ->. by apply (Hout q'). }
  pose proof (dev_apart _ _ _ _ Hd) as Hnd.
  split; cbn [set_regs set_heap set_queue base_global heap callback_function].
  - exact Hr.
  - intros q'. destruct (decide (q = q')) as [<-|Hne].
    + rewrite fn_lookup_insert. by destruct q.
    + rewrite fn_lookup_insert_ne by done. pose proof (dev_queue _ _ _ _ Hd q').
      by destruct q, q'.
  - intros q'. destruct (decide (q = q')) as [<-|Hne].
    + rewrite !fn_lookup_insert. apply Forall2_app; [apply Hheld|]. constructor; [|constructor].
      split; [done|]. exists c. by rewrite lookup_insert_eq.
    + rewrite !fn_lookup_insert_ne by done. apply Hheld.
  - apply NoDup_app in Hnd as (HN1 & Hap & HN2). pose proof (Hout DataQ). pose proof (Hout CmdQ).
    destruct q; rewrite ?fn_lookup_insert, ?fn_lookup_insert_ne by done; apply NoDup_app;
      rewrite ?NoDup_app; set_solver by apply NoDup_singleton.
  - intros q'. destruct (decide (q = q')) as [<-|Hne].
    + rewrite fn_lookup_insert. apply Forall_app. split; [apply Hd|by constructor].
    + rewrite fn_lookup_insert_ne by done. apply Hd.
  - apply Hd.
Qed.

(** One turn, up to the queue. *)
Lemma read_turn fuel id q num d Q D L m ms a ks :
  dev_rep d Q D L -> Q id = m :: ms -> kmallocs d = a :: ks -> a <> 0 ->
  exists f1 f2 c, copied m c /\ fifo_rep f2 ms /\ same_fifo (get_fifo id (base_global d)) f2 /\
    mbx_read_loop (S fuel) id q num d =
      ('(_, d2) ← mps_datamsg_enqueue_tail a q
          (set_regs (put_fifo id f1 (base_global d)) (set_heap (<[a := c]> (heap d)) ks d));
       mbx_read_loop fuel id q (u32 (num + 1)) (set_regs (put_fifo id f2 (base_global d2)) d2)).
Proof.
  intros Hd HQ Hks Ha. cbn [mbx_read_loop].
  pose proof (dev_regs _ _ _ _ Hd id) as Hf. rewrite HQ in Hf.
  set (f := get_fifo id (base_global d)) in *.
  destruct (follow_wrap_rep f _ Hf) as [Hf1 Hh]. pose proof (follow_wrap_same f) as Hs1.
  cbn [head_at] in Hh. pose proof (rep_good _ _ Hf) as [Hg _]%Forall_cons.
  unfold ifx_mpsdrv_fifo_not_empty, ifx_mpsdrv_fifo_read. set (f1 := follow_wrap f) in *.
  assert (Hf1w : follow_wrap f1 = f1).
  { unfold follow_wrap at 1. by rewrite (block_unwrapped _ _ _ Hg Hh). }
  rewrite Hf1w, (block_ready _ _ _ Hg Hh). cbn [mbind option_bind set_regs kmallocs heap base_global].
  rewrite Hks. cbn [hd tl]. destruct (Z.eqb_spec a 0); [done|].
  rewrite (block_words _ _ _ Hg Hh), put_put.
  destruct (read_ptr_inc_rep f1 m ms Hf1 Hh) as [Hf2 Hs2].
  exists f1, (ifx_mpsdrv_fifo_read_ptr_inc f1 (Z.of_nat (length m))). eexists.
  split; [by apply block_copied|]. split; [done|]. split; [by eapply same_fifo_trans|]. reflexivity.
Qed.

Lemma can_alloc_cons n d :
  can_alloc (S n) d ->
  exists a ks, kmallocs d = a :: ks /\ a <> 0 /\ heap d !! a = None /\
    forall d' c, kmallocs d' = ks -> heap d' = <[a := c]> (heap d) -> can_alloc n d'.
Proof.
  intros ([|a ks] & rest & Hks & Hlen & Hnd & Hfree); [done|].
  apply NoDup_cons in Hnd as [Hna Hnd]. apply Forall_cons in Hfree as [[Ha Hfa] Hfree].
  exists a, (ks ++ rest)%list. do 3 (split; [done|]). intros d' c Hk Hh.
  exists ks, rest. split; [done|]. cbn [length] in Hlen. split; [lia|]. split; [done|].
  apply Forall_forall. intros x Hx. rewrite Forall_forall in Hfree. destruct (Hfree x Hx).
  split; [done|]. rewrite Hh, lookup_insert_ne; [done|]. by intros ->.
Qed.

Lemma read_step fuel id q num d Q D L m ms n :
  dev_rep d Q D L -> Q id = m :: ms -> can_alloc (S n) d -> (length (D q) < datamsg_capacity)%nat ->
  exists d' L', mbx_read_loop (S fuel) id q num d = mbx_read_loop fuel id q (u32 (num + 1)) d' /\
    dev_rep d' (<[id := ms]> Q) (<[q := (D q ++ [m])%list]> D) L' /\
    can_alloc n d' /\ untouched d d'.
Proof.
  intros Hd HQ (a & ks & Hks & Ha & Hfa & Halloc)%can_alloc_cons Hroom.
  destruct (read_turn fuel id q num d Q D L m ms a ks) as (f1 & f2 & c & Hc & Hf2 & Hs2 & ->);
    try done.
  pose proof (dev_queue _ _ _ _ Hd q) as Hq. pose proof (Forall2_length _ _ _ (dev_held _ _ _ _ Hd q)) as HL.
  pose proof (rep_good _ _ (dev_regs _ _ _ _ Hd id)) as Hg. rewrite HQ in Hg.
  apply Forall_cons in Hg as [Hg _]. unfold mps_datamsg_enqueue_tail.
  set (d1 := set_regs _ _). change (get_queue q d1) with (get_queue q d).
  rewrite (datamsg_full _ _ Hq), bool_decide_eq_false_2 by lia.
  destruct (datamsg_push_rep _ _ a Hq) as (l & -> & Hl); [lia|]. cbn [mbind option_bind].
  change (base_global (set_queue q l d1)) with (put_fifo id f1 (base_global d)). rewrite put_put.
  exists (set_regs (put_fifo id f2 (base_global d)) (set_queue q l (set_heap (<[a := c]> (heap d)) ks d))).
  eexists. split; [done|]. split; [|split; [by eapply Halloc|done]].
  eapply dev_rep_receive; try done. apply regs_rep_put; [apply Hd|done..].
Qed.

(** When the queue is full the handler still takes the message out of the FIFO: its
    third word is freed as a packet, the message is in neither the FIFO nor the queue, and
    the buffer it was copied to stays allocated with no pointer to it. *)
Theorem full_queue_loses_message fuel id q num d Q D L m ms n :
  dev_rep d Q D L -> Q id = m :: ms -> can_alloc (S n) d -> length (D q) = datamsg_capacity ->
  exists d' a c, mbx_read_loop (S fuel) id q num d = mbx_read_loop fuel id q (u32 (num + 1)) d' /\
    dev_rep d' (<[id := ms]> Q) D L /\ callback_function d' = callback_function d /\
    freed_skbs d' = (freed_skbs d ++ [(data_word c 2, header_seqno (data_word m 0))])%list /\
    heap d' !! a = Some c /\ copied m c /\ heap d !! a = None /\ (a ∉ L DataQ) /\ (a ∉ L CmdQ).
Proof.
  intros Hd HQ (a & ks & Hks & Ha & Hfa & _)%can_alloc_cons Hfull.
  destruct (read_turn fuel id q num d Q D L m ms a ks) as (f1 & f2 & c & Hc & Hf2 & Hs2 & ->);
    try done.
  pose proof (dev_queue _ _ _ _ Hd q) as Hq. pose proof (Forall2_length _ _ _ (dev_held _ _ _ _ Hd q)) as HL.
  pose proof (rep_good _ _ (dev_regs _ _ _ _ Hd id)) as Hg. rewrite HQ in Hg.
  apply Forall_cons in Hg as [Hg _]. unfold mps_datamsg_enqueue_tail.
  set (d1 := set_regs _ _). change (get_queue q d1) with (get_queue q d).
  rewrite (datamsg_full _ _ Hq), bool_decide_eq_true_2 by lia.
  assert (Hout : forall q', a ∉ L q').
  { intros q' Hin. destruct (dev_held_in _ _ _ _ _ _ Hd Hin) as [x Hx]. congruence. }
  change (heap d1) with (<[a := c]> (heap d)). rewrite lookup_insert_eq. cbn [mbind option_bind].
  change (base_global (drop_skb _ d1)) with (put_fifo id f1 (base_global d)). rewrite put_put.
  do 3 eexists. split; [reflexivity|]. split; [|split; [done|split]].
  - destruct Hd as [Hr Hqs Hh Hap Hgs Hcb]. split; try done.
    + apply regs_rep_put; done.
    + intros q'. eapply Forall2_impl_l; [apply Hh|]. intros x y Hx. apply held_insert.
      intros ->. by apply (Hout q').
  - cbn. by rewrite (copied_header m c Hg Hc).
  - cbn. rewrite lookup_insert_eq. repeat split; try done; try apply Hc; apply Hout.
Qed.

Lemma read_done fuel id q num d Q D L :
  dev_rep d Q D L -> Q id = [] ->
  exists d', mbx_read_loop (S fuel) id q num d = Some (num, d') /\ dev_rep d' Q D L /\
    kmallocs d' = kmallocs d /\ heap d' = heap d /\ untouched d d'.
Proof.
  intros Hd HQ. cbn [mbx_read_loop]. pose proof (dev_regs _ _ _ _ Hd id) as Hf. rewrite HQ in Hf.
  destruct (follow_wrap_rep _ _ Hf) as [Hf1 Hh]. cbn [head_at] in Hh.
  unfold ifx_mpsdrv_fifo_not_empty. rewrite Hh. eexists. split; [reflexivity|]. split; [|by repeat split].
  destruct Hd as [Hr Hq Hh' Ha Hg Hc]. split; try done. cbn.
  apply regs_rep_same; [done|apply follow_wrap_same|]. by rewrite HQ.
Qed.

Lemma read_loop_rep fuel id q num d Q D L n :
  dev_rep d Q D L -> (length (Q id) < fuel)%nat -> can_alloc (length (Q id) + n) d ->
  (length (D q) + length (Q id) <= datamsg_capacity)%nat ->
  0 <= num -> num + Z.of_nat (length (Q id)) < 2 ^ 32 ->
  exists d' L', mbx_read_loop fuel id q num d = Some (num + Z.of_nat (length (Q id)), d') /\
    dev_rep d' (<[id := []]> Q) (<[q := (D q ++ Q id)%list]> D) L' /\
    can_alloc n d' /\ untouched d d'.
Proof.
  remember (Q id) as ms eqn:HQ. symmetry in HQ. revert fuel num d Q D L HQ.
  induction ms as [|m ms IH]; intros fuel num d Q D L HQ Hd Hfuel Ha Hcap Hnum Hlt;
    (destruct fuel as [|fuel]; [cbn in Hfuel; lia|]); cbn [length Nat.add] in *.
  - destruct (read_done fuel id q num d Q D L Hd HQ) as (d' & -> & Hd' & Hk & Hheap & Hu).
    exists d', L. rewrite Z.add_0_r. split; [done|]. split; [|split; [|done]].
    + eapply dev_rep_ext; [| |done|exact Hd']; cbn; intros x.
      * destruct (decide (id = x)) as [<-|]; [by rewrite fn_lookup_insert|by rewrite fn_lookup_insert_ne].
      * rewrite app_nil_r. destruct (decide (q = x)) as [<-|]; [by rewrite fn_lookup_insert|by rewrite fn_lookup_insert_ne].
    + unfold can_alloc. by rewrite Hk, Hheap.
  - destruct (read_step fuel id q num d Q D L m ms (length ms + n)) as (d1 & L1 & -> & Hd1 & Ha1 & Hu1);
      try done; [lia|]. rewrite u32_small by lia.
    destruct (IH fuel (num + 1) d1 (<[id := ms]> Q) (<[q := (D q ++ [m])%list]> D) L1) as (d' & L' & -> & Hd' & Ha' & Hu');
      try done; rewrite ?fn_lookup_insert, ?length_app; cbn [length]; [done|lia..|].
    exists d', L'. split; [do 2 f_equal; lia|]. split; [|split; [done|by etrans]].
    eapply dev_rep_ext; [| |done|exact Hd']; cbn; intros x.
    + destruct (decide (id = x)) as [<-|]; [by rewrite !fn_lookup_insert|by rewrite !fn_lookup_insert_ne].
    + destruct (decide (q = x)) as [<-|]; [rewrite !fn_lookup_insert|by rewrite !fn_lookup_insert_ne].
      by rewrite <- app_assoc.
Qed.

(** The fuel of the loop is enough. *)
Lemma read_fuel_enough d Q D L id : dev_rep d Q D L -> (length (Q id) < read_fuel)%nat.
Proof.
  intros Hd. pose proof (fifo_count _ _ (dev_regs _ _ _ _ Hd id)) as H.
  rewrite get_fifo_words in H. unfold read_fuel. destruct id; cbn in H; lia.
Qed.

(** ** The loop of the tasklets *)
(** The calls made for the messages [ms]: for each one whose sequence number has a
    callback, in order, the callback with a copy of the message. *)
Fixpoint delivered (cbs : list Z) (ms : list (list Z)) (cs : list (Z * list Z)) : Prop :=
  match ms with
  | [] => cs = []
  | m :: ms' =>
      let callback := default 0 (cbs !! Z.to_nat (header_seqno (data_word m 0))) in
      if callback =? 0 then delivered cbs ms' cs
      else exists c cs', cs = (callback, c) :: cs' /\ copied m c /\ delivered cbs ms' cs'
  end.

Lemma header_seqno_range v : 0 <= header_seqno v <= 255.
Proof.
  unfold header_seqno. change 0xff with (Z.ones 8). rewrite Z.land_ones by lia.
  pose proof (Z.mod_pos_bound (Z.shiftr v 16) (2 ^ 8)). change (Z.ones 8) with 255. lia.
Qed.

(** The first message of a queue leaves it, and its buffer is freed. *)
Lemma dev_rep_take d Q D L q m ms a l d' :
  dev_rep d Q D L -> D q = m :: ms -> L q = a :: l ->
  base_global d' = base_global d -> datamsg_rep (get_queue q d') l ->
  (forall x, x <> q -> get_queue x d' = get_queue x d) ->
  heap d' = delete a (heap d) -> callback_function d' = callback_function d ->
  dev_rep d' Q (<[q := ms]> D) (<[q := l]> L).
Proof.
  intros [Hr Hq Hh Hap Hg Hcb] HD HL Hr' Hq' Hqx Hheap Hcb'.
  assert (Hout : (a ∉ l) /\ forall x, x <> q -> a ∉ L x).
  { apply NoDup_app in Hap as (HN1 & Hap & HN2).
    destruct q; rewrite HL in *; (split; [by apply NoDup_cons in HN1 as [? _] || apply NoDup_cons in HN2 as [? _]|]);
      intros [] Hx; try done; set_solver. }
  destruct Hout as [Hal Hax]. split.
  - by rewrite Hr'.
  - intros x. destruct (decide (q = x)) as [<-|Hne]; [by rewrite fn_lookup_insert|].
    rewrite fn_lookup_insert_ne, Hqx by done. apply Hq.
  - intros x. rewrite Hheap. destruct (decide (q = x)) as [<-|Hne].
    + rewrite !fn_lookup_insert. pose proof (Hh q) as Hhq. rewrite HL, HD in Hhq.
      apply Forall2_cons in Hhq as [_ Hhq]. eapply Forall2_impl_l; [exact Hhq|].
      intros y z Hy. apply held_delete. by intros ->.
    + rewrite !fn_lookup_insert_ne by done. eapply Forall2_impl_l; [apply Hh|].
      intros y z Hy. apply held_delete. intros ->. by apply (Hax x).
  - apply NoDup_app in Hap as (HN1 & Hap & HN2).
    destruct q; rewrite ?fn_lookup_insert, ?fn_lookup_insert_ne by done; rewrite HL in *; apply NoDup_app;
      split_and!; try done; try (by eapply NoDup_cons_1_2); set_solver.
  - intros x. destruct (decide (q = x)) as [<-|Hne]; [|by rewrite fn_lookup_insert_ne].
    rewrite fn_lookup_insert. pose proof (Hg q) as Hgq. rewrite HD in Hgq. by apply Forall_cons in Hgq as [_ ?].
  - by rewrite Hcb'.
Qed.

Lemma dispatch_step fuel q d Q D L m ms a l :
  dev_rep d Q D L -> D q = m :: ms -> L q = a :: l ->
  exists d' cs, dispatch_loop (S fuel) q d = dispatch_loop fuel q d' /\
    dev_rep d' Q (<[q := ms]> D) (<[q := l]> L) /\ heap d' = delete a (heap d) /\
    kmallocs d' = kmallocs d /\ callback_function d' = callback_function d /\
    freed_skbs d' = freed_skbs d /\ calls d' = (calls d ++ cs)%list /\
    forall cs', delivered (callback_function d) ms cs' ->
      delivered (callback_function d) (m :: ms) (cs ++ cs').
Proof.
  intros Hd HD HL. cbn [dispatch_loop]. pose proof (dev_queue _ _ _ _ Hd q) as Hq. rewrite HL in Hq.
  destruct (datamsg_pop_rep _ _ _ Hq) as (q' & -> & Hq'). cbn [mbind option_bind].
  pose proof (dev_held _ _ _ _ Hd q) as Hh. rewrite HL, HD in Hh.
  apply Forall2_cons in Hh as [(Ha & c & Hc & Hcopy) Hh]. destruct (Z.eqb_spec a 0); [done|].
  change (heap (set_queue q q' d)) with (heap d). rewrite Hc. cbn [mbind option_bind].
  pose proof (dev_good _ _ _ _ Hd q) as Hg. rewrite HD in Hg. apply Forall_cons in Hg as [Hgm Hg].
  rewrite (copied_header m c Hgm Hcopy). set (seq := header_seqno (data_word m 0)).
  assert (is_Some (callback_function d !! Z.to_nat seq)) as [cb Hcb].
  { apply lookup_lt_is_Some_2. rewrite (dev_callbacks _ _ _ _ Hd). unfold MPSDRV_TOTAL_SEQ_NUMBERS.
    pose proof (header_seqno_range (data_word m 0)). unfold seq. lia. }
  change (callback_function (set_queue q q' d)) with (callback_function d). rewrite Hcb.
  cbn [mbind option_bind]. set (d1 := if negb (cb =? 0) then _ else _).
  assert (Hd1 : base_global d1 = base_global d /\ (forall x, get_queue x d1 = get_queue x (set_queue q q' d)) /\
    heap d1 = heap d /\ kmallocs d1 = kmallocs d /\ callback_function d1 = callback_function d /\
    freed_skbs d1 = freed_skbs d /\ calls d1 = (calls d ++ if cb =? 0 then [] else [(cb, c)])%list).
  { unfold d1. destruct (cb =? 0); cbn; rewrite ?app_nil_r; split_and!; try done; by intros []. }
  destruct Hd1 as (Hr1 & Hq1 & Hh1 & Hk1 & Hc1 & Hs1 & Hcs1).
  exists (set_heap (delete a (heap d)) (kmallocs d) d1), (if cb =? 0 then [] else [(cb, c)]).
  rewrite Hh1, Hk1. split; [done|]. split; [|split_and!; try done].
  - eapply dev_rep_take; try done.
    + change (datamsg_rep (get_queue q d1) l). rewrite Hq1. by destruct q.
    + intros x Hx. change (get_queue x d1 = get_queue x d). rewrite Hq1. by destruct q, x.
  - intros cs' Hcs'. cbn [delivered]. fold seq. rewrite Hcb.
    change (default 0 (Some cb)) with cb. destruct (cb =? 0); [done|]. exists c, cs'. by split_and!.
Qed.

Lemma dispatch_loop_rep fuel q d Q D L :
  dev_rep d Q D L -> (length (D q) < fuel)%nat ->
  exists d' cs, dispatch_loop fuel q d = Some d' /\
    dev_rep d' Q (<[q := []]> D) (<[q := []]> L) /\
    (forall a, heap d' !! a = if decide (a ∈ L q) then None else heap d !! a) /\
    kmallocs d' = kmallocs d /\ callback_function d' = callback_function d /\
    freed_skbs d' = freed_skbs d /\ calls d' = (calls d ++ cs)%list /\
    delivered (callback_function d) (D q) cs.
Proof.
  remember (D q) as ms eqn:HD. symmetry in HD. revert fuel d D L HD.
  induction ms as [|m ms IH]; intros fuel d D L HD Hd Hfuel;
    (destruct fuel as [|fuel]; [cbn in Hfuel; lia|]);
    pose proof (dev_held _ _ _ _ Hd q) as Hh; rewrite HD in Hh.
  - apply Forall2_nil_inv_r in Hh. pose proof (dev_queue _ _ _ _ Hd q) as Hq. rewrite Hh in Hq.
    cbn [dispatch_loop]. unfold mps_datamsg_dequeue_head.
    rewrite (datamsg_empty _ _ Hq), bool_decide_eq_true_2 by done. cbn [mbind option_bind].
    eexists. exists []. split; [reflexivity|]. rewrite Hh. split.
    + assert (Hx : forall x, get_queue x (set_queue q (get_queue q d) d) = get_queue x d)
        by (intros []; by destruct q).
      destruct Hd as [Hr Hqs Hheld Hap Hg Hcb].
      assert (HL : forall x, (<[q := []]> L) x = L x).
      { intros x. destruct (decide (q = x)) as [<-|]; [by rewrite fn_lookup_insert|by rewrite fn_lookup_insert_ne]. }
      assert (HDx : forall x, (<[q := []]> D) x = D x).
      { intros x. destruct (decide (q = x)) as [<-|]; [by rewrite fn_lookup_insert|by rewrite fn_lookup_insert_ne]. }
      split; try done; intros; by rewrite ?HL, ?HDx, ?Hx.
    + rewrite app_nil_r. by split_and!.
  - apply Forall2_cons_inv_r in Hh as (a & l & _ & _ & Hl).
    destruct (dispatch_step fuel q d Q D L m ms a l Hd HD Hl)
      as (d1 & cs & -> & Hd1 & Hheap & Hk & Hcb & Hs & Hcs & Hdel).
    cbn [length] in Hfuel.
    destruct (IH fuel d1 (<[q := ms]> D) (<[q := l]> L)) as (d' & cs' & -> & Hd' & Hh' & Hk' & Hcb' & Hs' & Hcs' & Hdel');
      [by rewrite fn_lookup_insert|done|lia|].
    exists d', (cs ++ cs')%list. split; [done|]. rewrite Hcb in Hdel'.
    split_and!; try congruence; [| | |by apply Hdel].
    + eapply dev_rep_ext; [done| | |exact Hd']; intros x;
        (destruct (decide (q = x)) as [<-|]; [by rewrite !fn_lookup_insert|by rewrite !fn_lookup_insert_ne]).
    + intros x. rewrite Hh', fn_lookup_insert, Hheap, Hl.
      destruct (decide (x = a)) as [->|Hne].
      * rewrite lookup_delete_eq, (decide_True (P := a ∈ a :: l)) by left. by case_decide.
      * rewrite lookup_delete_ne by done.
        rewrite (decide_ext (x ∈ a :: l) (x ∈ l)); [done|]. rewrite elem_of_cons. split; [by intros [?|?] | by right].
    + by rewrite Hcs', Hcs, app_assoc.
Qed.

(** ** Interrupt and tasklets together *)
Lemma delivered_queue_room d Q D L q : dev_rep d Q D L -> (length (D q) <= datamsg_capacity)%nat.
Proof.
  intros Hd. rewrite <- (Forall2_length _ _ _ (dev_held _ _ _ _ Hd q)).
  exact (rep_len _ _ (dev_queue _ _ _ _ Hd q)).
Qed.
Lemma fn_insert_twice {B} (q : datamsg_queue) (f : datamsg_queue -> B) v w x :
  (<[q := v]> (<[q := w]> f)) x = (<[q := v]> f) x.
Proof.
  destruct (decide (q = x)) as [<-|]; [by rewrite !fn_lookup_insert|by rewrite !fn_lookup_insert_ne].
Qed.

(** The tasklet of a queue. *)
Lemma dispatch_all q d Q D L :
  dev_rep d Q D L ->
  exists d' cs, dispatch_loop dispatch_fuel q d = Some d' /\
    dev_rep d' Q (<[q := []]> D) (<[q := []]> L) /\
    callback_function d' = callback_function d /\ freed_skbs d' = freed_skbs d /\
    calls d' = (calls d ++ cs)%list /\ delivered (callback_function d) (D q) cs.
Proof.
  intros Hd. pose proof (delivered_queue_room _ _ _ _ q Hd).
  destruct (dispatch_loop_rep dispatch_fuel q d Q D L Hd) as (d' & cs & H1 & H2 & _ & _ & H3 & H4 & H5 & H6).
  { unfold dispatch_fuel, datamsg_capacity, MAX_MPS_DATAMSG_QLEN in *. lia. }
  exists d', cs. by split_and!.
Qed.

(** The interrupt, with both of its bits set. *)
Lemma irq_reads_all d Q D L :
  dev_rep d Q D L ->
  (length (D DataQ) + length (Q UPSTR_DATA) <= datamsg_capacity)%nat ->
  (length (D CmdQ) + length (Q UPSTR_CMD) <= datamsg_capacity)%nat ->
  can_alloc (length (Q UPSTR_DATA) + (length (Q UPSTR_CMD) + 0)) d ->
  exists d' L', ifx_mpsdrv_cmd0_irq 3 d =
      Some (negb (Z.of_nat (length (Q UPSTR_DATA)) =? 0), negb (Z.of_nat (length (Q UPSTR_CMD)) =? 0), d') /\
    dev_rep d' (<[UPSTR_CMD := []]> (<[UPSTR_DATA := []]> Q))
      (<[CmdQ := (D CmdQ ++ Q UPSTR_CMD)%list]> (<[DataQ := (D DataQ ++ Q UPSTR_DATA)%list]> D)) L' /\
    untouched d d'.
Proof.
  intros Hd Hdata Hcmd Ha.
  pose proof (read_fuel_enough _ _ _ _ UPSTR_DATA Hd) as Hf1.
  pose proof (read_fuel_enough _ _ _ _ UPSTR_CMD Hd) as Hf2.
  destruct (read_loop_rep read_fuel UPSTR_DATA DataQ 0 d Q D L _ Hd Hf1 Ha) as (d1 & L1 & Hr1 & Hd1 & Ha1 & Hu1);
    [done|done|unfold read_fuel in *; lia|].
  set (Q1 := <[UPSTR_DATA := []]> Q) in *.
  set (D1 := <[DataQ := (D DataQ ++ Q UPSTR_DATA)%list]> D) in *.
  assert (HQ1 : Q1 UPSTR_CMD = Q UPSTR_CMD) by by unfold Q1; rewrite fn_lookup_insert_ne.
  assert (HD1 : D1 CmdQ = D CmdQ) by by unfold D1; rewrite fn_lookup_insert_ne.
  rewrite <- HQ1 in Ha1, Hf2, Hcmd. rewrite <- HD1 in Hcmd.
  destruct (read_loop_rep read_fuel UPSTR_CMD CmdQ 0 d1 Q1 D1 L1 0 Hd1 Hf2 Ha1 Hcmd) as (d2 & L2 & Hr2 & Hd2 & _ & Hu2);
    [done|unfold read_fuel in *; lia|].
  exists d2, L2. split; [|split; [by rewrite <- HQ1, <- HD1|by etrans]].
  unfold ifx_mpsdrv_cmd0_irq, _ifx_mpsdrv_mbx_read_usdMsg, _ifx_mpsdrv_mbx_read_uscMsg.
  change (Z.testbit 3 1) with true. change (Z.testbit 3 0) with true.
  rewrite Hr1. cbn [mbind option_bind]. rewrite Hr2. cbn [mbind option_bind]. by rewrite HQ1.
Qed.

(** C19. The interrupt handler of CPU0 and its two tasklets together, when what waits in
    each queue and its FIFO is at most 1024 messages and kmalloc succeeds for each message:
    every message that waits in the upstream FIFOs or in the queues reaches the callback of
    its sequence number, if one is registered for it, complete up to the six words of an
    mps_data_message, in the order of the sends; FIFOs and queues end empty, every buffer of
    the queues is freed, no packet is dropped, and the fuel of the loops is enough. Without
    the room a packet is lost (full_queue_loses_message). *)
Theorem messages_delivered d Q D L :
  dev_rep d Q D L ->
  (length (D DataQ) + length (Q UPSTR_DATA) <= datamsg_capacity)%nat ->
  (length (D CmdQ) + length (Q UPSTR_CMD) <= datamsg_capacity)%nat ->
  can_alloc (length (Q UPSTR_DATA) + (length (Q UPSTR_CMD) + 0)) d ->
  exists data cmd d1 d2 d3 cs1 cs2 L',
    ifx_mpsdrv_cmd0_irq 3 d = Some (data, cmd, d1) /\
    ifx_mpsdrv_mbx_data_upstream d1 = Some d2 /\ ifx_mpsdrv_mbx_cmd_upstream d2 = Some d3 /\
    (data = false <-> Q UPSTR_DATA = []) /\ (cmd = false <-> Q UPSTR_CMD = []) /\
    calls d3 = (calls d ++ cs1 ++ cs2)%list /\
    delivered (callback_function d) (D DataQ ++ Q UPSTR_DATA) cs1 /\
    delivered (callback_function d) (D CmdQ ++ Q UPSTR_CMD) cs2 /\
    freed_skbs d3 = freed_skbs d /\
    dev_rep d3 (<[UPSTR_CMD := []]> (<[UPSTR_DATA := []]> Q)) (fun _ => []) L'.
Proof.
  intros Hd Hdata Hcmd Ha.
  destruct (irq_reads_all d Q D L Hd Hdata Hcmd Ha) as (d1 & L1 & Hirq & Hd1 & [Hcb1 Hc1 Hs1]).
  destruct (dispatch_all DataQ _ _ _ _ Hd1) as (d2 & cs1 & Hr2 & Hd2 & Hcb2 & Hs2 & Hc2 & Hdel1).
  destruct (dispatch_all CmdQ _ _ _ _ Hd2) as (d3 & cs2 & Hr3 & Hd3 & Hcb3 & Hs3 & Hc3 & Hdel2).
  rewrite fn_lookup_insert_ne, fn_lookup_insert in Hdel1 by done.
  rewrite fn_lookup_insert_ne, fn_lookup_insert in Hdel2 by done.
  assert (Hlen : forall l : list (list Z), negb (Z.of_nat (length l) =? 0) = false <-> l = []).
  { intros l. rewrite negb_false_iff, Z.eqb_eq. split; [|by intros ->]. destruct l; [done|cbn; lia]. }
  do 7 eexists. eexists. split; [exact Hirq|]. split; [exact Hr2|]. split; [exact Hr3|].
  split; [apply Hlen|]. split; [apply Hlen|].
  split; [rewrite Hc3, Hc2, Hc1; by rewrite app_assoc|].
  rewrite Hcb2, Hcb1 in Hdel2. rewrite Hcb1 in Hdel1. do 2 (split; [done|]). split; [congruence|].
  eapply dev_rep_ext; [done| |done|exact Hd3]. intros []; done.
Qed.

(** ** Devices the theorems apply to *)
Lemma dev_rep_regs d Q D L r Q' :
  dev_rep d Q D L -> regs_rep r Q' -> dev_rep (set_regs r d) Q' D L.
Proof. by intros [] Hr. Qed.
Lemma dev_rep_callbacks d Q D L c :
  dev_rep d Q D L -> length c = Z.to_nat MPSDRV_TOTAL_SEQ_NUMBERS ->
  dev_rep (set_callbacks c d) Q D L.
Proof. by intros [] Hc. Qed.

Lemma start_dev_rep : dev_rep start_dev (fun _ => []) (fun _ => []) (fun _ => []).
Proof.
  split; [exact start_rep|intros []; exact datamsg_rep_init|constructor|constructor|constructor|].
  apply length_replicate.
Qed.

(** A callback at 0x80010000 for the sequence number 20, a data message for it waiting. *)
Definition client_dev : mps_comm_dev :=
  set_callbacks (<[20%nat := 0x80010000]> no_callbacks) (set_regs (base_global waiting_dev) start_dev).

Lemma client_rep :
  dev_rep client_dev (<[UPSTR_DATA := [data_msg 20 0x1000 60]]> (fun _ => [])) (fun _ => []) (fun _ => []).
Proof.
  apply dev_rep_callbacks; [apply (dev_rep_regs _ _ _ _ _ _ start_dev_rep waiting_rep)|].
  unfold no_callbacks. by rewrite length_insert, length_replicate.
Qed.

Lemma messages_delivered_witness :
  exists d1 d2 d3 c cs2 L', ifx_mpsdrv_cmd0_irq 3 client_dev = Some (true, false, d1) /\
    ifx_mpsdrv_mbx_data_upstream d1 = Some d2 /\ ifx_mpsdrv_mbx_cmd_upstream d2 = Some d3 /\
    calls d3 = ((0x80010000, c) :: cs2)%list /\ copied (data_msg 20 0x1000 60) c /\
    dev_rep d3 (<[UPSTR_CMD := []]> (<[UPSTR_DATA := []]>
      (<[UPSTR_DATA := [data_msg 20 0x1000 60]]> (fun _ => [])))) (fun _ => []) L'.
Proof.
  destruct (messages_delivered client_dev (<[UPSTR_DATA := [data_msg 20 0x1000 60]]> (fun _ => []))
    (fun _ => []) (fun _ => []) client_rep) as
    (data & cmd & d1 & d2 & d3 & cs1 & cs2 & L' & Hirq & H2 & H3 & Hdata & Hcmd & Hc & Hd1 & _ & _ & Hrep).
  - apply Nat.leb_le. reflexivity.
  - apply Nat.leb_le. reflexivity.
  - exists [4096], [4128; 4160]. split; [reflexivity|]. split; [reflexivity|].
    split; [apply NoDup_singleton|]. repeat constructor. discriminate.
  - assert (data = true) as ->.
    { clear -Hdata. destruct data; [reflexivity|]. discriminate (proj1 Hdata eq_refl). }
    assert (cmd = false) as -> by exact (proj2 Hcmd eq_refl).
    destruct Hd1 as (c & cs' & -> & Hcopy & ->).
    exists d1, d2, d3, c, cs2, L'. split; [exact Hirq|]. split; [exact H2|]. split; [exact H3|].
    split; [exact Hc|]. split; [exact Hcopy|exact Hrep].
Defined.

(** A queue with a message in each of its slots. *)
Definition full_addresses : list Z := map Z.of_nat (seq 1 datamsg_capacity).
Definition sample_copy : list Z := (marked (data_msg 20 0x1000 60) ++ [0; 0])%list.
Definition full_dev : mps_comm_dev :=
  mk_dev (base_global waiting_dev) no_callbacks (mk_datamsg_list (full_addresses ++ [0]) 0 MAX_MPS_DATAMSG_QLEN)
    mps_datamsg_queue_init (list_to_map (map (fun a => (a, sample_copy)) full_addresses)) [4096] [] [] [].

Lemma full_addresses_length : length full_addresses = datamsg_capacity.
Proof. unfold full_addresses. by rewrite length_map, length_seq. Qed.
Lemma full_addresses_NoDup : NoDup full_addresses.
Proof. apply NoDup_fmap_2; [intros ???; lia|apply NoDup_seq]. Qed.
Lemma full_addresses_pos a : a ∈ full_addresses -> 0 < a.
Proof. intros (i & -> & Hi%elem_of_seq)%list_elem_of_fmap. lia. Qed.

Lemma full_rep :
  dev_rep full_dev (<[UPSTR_DATA := [data_msg 20 0x1000 60]]> (fun _ => []))
    (fun q => match q with DataQ => replicate datamsg_capacity (data_msg 20 0x1000 60) | CmdQ => [] end)
    (fun q => match q with DataQ => full_addresses | CmdQ => [] end).
Proof.
  split; [exact waiting_rep| | | | |apply length_replicate].
  - intros []; [|exact datamsg_rep_init]. unfold datamsg_rep.
    split; [split; reflexivity || discriminate | split; reflexivity || discriminate
      | rewrite full_addresses_length; reflexivity | rewrite full_addresses_length; reflexivity |].
    exists (full_addresses ++ [0])%list. split; [reflexivity|].
    assert (Hl : length (full_addresses ++ [0]) = S datamsg_capacity).
    { rewrite length_app, full_addresses_length. cbn [length]. lia. }
    split; [exact Hl|]. intros i x Hi. pose proof (lookup_lt_Some _ _ _ Hi) as Hlt.
    rewrite full_addresses_length in Hlt. change (Z.to_nat (rpos _)) with 0%nat.
    unfold slot. rewrite decide_True by (rewrite Hl; lia).
    rewrite lookup_app_l; [exact Hi|]. rewrite full_addresses_length. lia.
  - intros []; [|constructor]. apply Forall2_same_length_lookup_2;
      [by rewrite full_addresses_length, length_replicate|].
    intros i a m Ha [-> _]%lookup_replicate. apply list_elem_of_lookup_2 in Ha.
    pose proof (full_addresses_pos a Ha). split; [lia|]. exists sample_copy. split; [|by split].
    apply elem_of_list_to_map_1; [|by apply (list_elem_of_fmap_2 (fun a => (a, sample_copy)))].
    rewrite <- list_fmap_compose. cbn. rewrite list_fmap_id. apply full_addresses_NoDup.
  - rewrite app_nil_r. apply full_addresses_NoDup.
  - intros []; [|constructor]. apply Forall_replicate, data_msg_good.
Qed.

Lemma full_queue_loses_message_witness :
  exists d' a c, mbx_read_loop 2 UPSTR_DATA DataQ 0 full_dev =
      mbx_read_loop 1 UPSTR_DATA DataQ (u32 (0 + 1)) d' /\
    freed_skbs d' = [(data_word c 2, 20)] /\ heap d' !! a = Some c /\ a ∉ full_addresses.
Proof.
  destruct (full_queue_loses_message 1 UPSTR_DATA DataQ 0 full_dev _ _ _ (data_msg 20 0x1000 60) [] 0 full_rep)
    as (d' & a & c & Hr & _ & _ & Hs & Hh & _ & _ & Hout & _).
  - reflexivity.
  - exists [4096], []. split; [reflexivity|]. split; [reflexivity|]. split; [apply NoDup_singleton|].
    constructor; [|constructor]. split; [discriminate|]. vm_compute. reflexivity.
  - apply length_replicate.
  - exists d', a, c. split; [exact Hr|]. split; [exact Hs|]. split; [exact Hh|exact Hout].
Defined.
