(* ===== verification/MpsClient.v ===== *)
(** * MpsClient: the services of one processor to the other

    arch/mips/infineon/danube/mps/mps_tpe_linux.c of the twinpass board support, on top of
    the mailboxes (Mailbox.v) and of the buffer queues (MpsBuffer.v): packets are sent with a
    back log for those the mailbox refuses (CONFIG_MPS_FLOW_CONTROL, which the makefile
    sets), commands ask the other processor for buffers or its version, and two callbacks
    take what comes in.

    The file is compiled for each of the two processors: [cpu_id] is what
    [ifx_mpsdrv_get_cpu_id] returns.  The kernel's allocators and the functions on its packet
    buffers are the list [answers] of what they will return; that they are called, and with
    what, is recorded.  [None] says that the code follows a null pointer, or reads what was
    never written.  Caches are not modelled, and what stands between spin_lock_irqsave and
    spin_unlock_irqrestore is one step. *)
From S2P Require Import Prelude MpsBuffer Mailbox.

Module Client.
Import Mps Mbx.

Definition EFAIL : Z := -1.
Definition MPS_DATA_SIZE : Z := 512.

(** ** Commands *)
Definition MPS_CMD_CPU0_DATAMSG : Z := 0x101.
Definition MPS_CMD_CPU0_DATALISTMSG : Z := 0x102.
Definition MPS_CMD_CPU0_APPMSG : Z := 0x103.
Definition MPS_CMD_CPU0_GET_REMOTE_VER : Z := 0x116.
Definition MPS_CMD_CPU1_DATAMSG : Z := 0x201.
Definition MPS_CMD_CPU1_DATALISTMSG : Z := 0x202.
Definition MPS_CMD_CPU1_APPMSG : Z := 0x203.
Definition MPS_CMD_CPU1_DATA_ALLOC : Z := 0x204.
Definition MPS_CMD_CPU1_DATA_FREE : Z := 0x205.
Definition MPS_CMD_CPU1_SKB_ALLOC : Z := 0x206.
Definition MPS_CMD_CPU1_SKB_FREE : Z := 0x207.
Definition MPS_CMD_CPU1_DATALIST_ALLOC : Z := 0x208.
Definition MPS_CMD_CPU1_DATALIST_FREE : Z := 0x209.
Definition MPS_CMD_CPU1_GET_REMOTE_VER : Z := 0x216.
Definition MPS_CMD_CPU1_IFX_ALLOC_SKB : Z := 0x217.
Definition MPS_CMD_CPU1_IFX_SKB_CLONE : Z := 0x218.
Definition MPS_CMD_CPU1_IFX_SKB_COPY : Z := 0x219.
Definition MPS_CMD_CPU1_IFX_PSKB_EXPAND_HEAD : Z := 0x21a.
Definition MPS_CMD_CPU1_IFX_SKB_REALLOC_HEADROOM : Z := 0x21b.
Definition MPS_CMD_CPU1_IFX_SKB_COPY_EXPAND : Z := 0x21c.
Definition MPS_CMD_CPU1_IFX_SKB_TRIM : Z := 0x21d.
Definition MPS_CMD_CPU1_IFX_DEV_ALLOC_SKB : Z := 0x21e.

(** An [mps_data_message]: the two words of its header, and a content of four. *)
Definition header_cmd (val0 : Z) : Z := Z.land val0 0xffff.
Definition header_val0 (type seqno cmd : Z) : Z :=
  (type mod 2 ^ 8) * 2 ^ 24 + (seqno mod 2 ^ 8) * 2 ^ 16 + cmd mod 2 ^ 16.
Definition content4 (content : list Z) : list Z := map (fun i => u32 (data_word content i)) (seq 0 4).
Definition data_message (type seqno cmd len : Z) (content : list Z) : list Z :=
  [header_val0 type seqno cmd; len] ++ content4 content.
Definition empty_message : list Z := replicate 6 0.
Definition payload (m : list Z) : Z := data_word m 2.

(** ** The state *)
(** A call of the kernel. *)
Inductive kcall :=
| Kmalloc (size : Z) | Kfree (p : Z)
| AllocSkb (size prio : Z) | KfreeSkb (skb : Z)
| SkbClone (skb prio : Z) | SkbCopy (skb prio : Z)
| PskbExpandHead (skb nhead ntail qfp_mask : Z) | SkbReallocHeadroom (skb headroom : Z)
| SkbCopyExpand (skb newheadroom newtailroom prio : Z)
| SkbReserve (skb len : Z) | SkbTrim (skb len : Z).

(** A packet of the back log, [list_elem] being the address of the element. *)
Record mps_data_list := mk_data_list {
  list_elem : Z; service_sequence_number : Z; datapointer : Z; len : Z }.

(** The mailboxes and the queues of buffers; the back log, the number of its packets and its
    lock; the callbacks of the clients, by sequence number (NULL is 0), and the calls made to
    them; [mps_cmd_control]: the last response, its flag, and the balance of requests; the
    memory of the lists of buffers, the answers of the kernel and the calls made to it. *)
Record client := mk_client {
  dev : mps_comm_dev; pools : mps;
  bklog_mps_data_list : list mps_data_list; bklog_pkts : Z; bklog_q_lock : Z;
  data_callback_funct : list Z; data_calls : list (Z * Z * Z);
  msg_data : list Z; cmd_callback_flag : Z; cmd_wakeuplist_balance : Z;
  mem : gmap Z Z; answers : list Z; kernel_calls : list kcall }.

Definition set_dev (d : mps_comm_dev) (c : client) : client :=
  mk_client d (pools c) (bklog_mps_data_list c) (bklog_pkts c) (bklog_q_lock c) (data_callback_funct c)
    (data_calls c) (msg_data c) (cmd_callback_flag c) (cmd_wakeuplist_balance c) (mem c) (answers c)
    (kernel_calls c).
Definition set_pools (p : mps) (c : client) : client :=
  mk_client (dev c) p (bklog_mps_data_list c) (bklog_pkts c) (bklog_q_lock c) (data_callback_funct c)
    (data_calls c) (msg_data c) (cmd_callback_flag c) (cmd_wakeuplist_balance c) (mem c) (answers c)
    (kernel_calls c).
Definition set_bklog (l : list mps_data_list) (n : Z) (c : client) : client :=
  mk_client (dev c) (pools c) l n (bklog_q_lock c) (data_callback_funct c)
    (data_calls c) (msg_data c) (cmd_callback_flag c) (cmd_wakeuplist_balance c) (mem c) (answers c)
    (kernel_calls c).
Definition set_lock (n : Z) (c : client) : client :=
  mk_client (dev c) (pools c) (bklog_mps_data_list c) (bklog_pkts c) n (data_callback_funct c)
    (data_calls c) (msg_data c) (cmd_callback_flag c) (cmd_wakeuplist_balance c) (mem c) (answers c)
    (kernel_calls c).
Definition set_data_callbacks (f : list Z) (c : client) : client :=
  mk_client (dev c) (pools c) (bklog_mps_data_list c) (bklog_pkts c) (bklog_q_lock c) f
    (data_calls c) (msg_data c) (cmd_callback_flag c) (cmd_wakeuplist_balance c) (mem c) (answers c)
    (kernel_calls c).
Definition log_data_call (x : Z * Z * Z) (c : client) : client :=
  mk_client (dev c) (pools c) (bklog_mps_data_list c) (bklog_pkts c) (bklog_q_lock c) (data_callback_funct c)
    (data_calls c ++ [x]) (msg_data c) (cmd_callback_flag c) (cmd_wakeuplist_balance c) (mem c)
    (answers c) (kernel_calls c).
Definition set_control (m : list Z) (flag balance : Z) (c : client) : client :=
  mk_client (dev c) (pools c) (bklog_mps_data_list c) (bklog_pkts c) (bklog_q_lock c) (data_callback_funct c)
    (data_calls c) m flag balance (mem c) (answers c) (kernel_calls c).
Definition set_mem (m : gmap Z Z) (c : client) : client :=
  mk_client (dev c) (pools c) (bklog_mps_data_list c) (bklog_pkts c) (bklog_q_lock c) (data_callback_funct c)
    (data_calls c) (msg_data c) (cmd_callback_flag c) (cmd_wakeuplist_balance c) m (answers c)
    (kernel_calls c).

(** A call of the kernel that returns something, and one that does not. *)
Definition kernel_do (k : kcall) (c : client) : client :=
  mk_client (dev c) (pools c) (bklog_mps_data_list c) (bklog_pkts c) (bklog_q_lock c) (data_callback_funct c)
    (data_calls c) (msg_data c) (cmd_callback_flag c) (cmd_wakeuplist_balance c) (mem c) (answers c)
    (kernel_calls c ++ [k]).
Definition kernel (k : kcall) (c : client) : Z * client :=
  (hd 0 (answers c),
   mk_client (dev c) (pools c) (bklog_mps_data_list c) (bklog_pkts c) (bklog_q_lock c) (data_callback_funct c)
     (data_calls c) (msg_data c) (cmd_callback_flag c) (cmd_wakeuplist_balance c) (mem c)
     (tl (answers c)) (kernel_calls c ++ [k])).

(** The word at [p + off]; [None] through the null pointer or where nothing was written. *)
Definition load (p off : Z) (c : client) : option Z := if p =? 0 then None else mem c !! (p + off).
Definition store (p off v : Z) (c : client) : option client :=
  if p =? 0 then None else Some (set_mem (<[p + off := u32 v]> (mem c)) c).

(** An operation on the queues of buffers. *)
Definition on_pools {A} (f : M A) (c : client) : option (A * client) :=
  '(a, p) ← f (pools c); Some (a, set_pools p c).

Section Cpu.
(** The processor, the addresses of the two callbacks of this file, and the version of the
    driver. *)
Context (cpu_id : Z) (ifx_mbx_data_rcv_callback_addr ifx_mps_cmd_rcv_callback_addr : Z)
  (MPSDRV_VERSION_NUM : Z).

Definition on_cpu_0 : bool := cpu_id =? MPS_CPU_0_ID.
Definition mbx_send (m : list Z) (c : client) : Z * client :=
  let '(r, _, d) := ifx_mpsdrv_mbx_send cpu_id m (dev c) in (r, set_dev d c).

(** ** Packets and their back log *)
Definition packet_message (seqno ptr len : Z) : list Z :=
  if on_cpu_0
  then data_message MPS_TYPE_DOWNSTREAM_DATA seqno MPS_CMD_CPU0_DATAMSG 8 [ptr; len]
  else data_message MPS_TYPE_UPSTREAM_DATA seqno MPS_CMD_CPU1_DATAMSG 8 [ptr; len].

(** The queues of buffers of the sequence number, after a packet on CPU0. *)
Definition keep_book (seqno : Z) (c : client) : option client :=
  '(_, c) ← on_pools (ifx_cpu0_release_q_lists cpu_id seqno) c;
  '(_, c) ← on_pools (ifx_cpu0_topup_q_lists cpu_id seqno) c;
  Some c.

Definition ifx_mps_data_send2 (seqno ptr len : Z) (c : client) : option (Z * client) :=
  let (retval, c) := mbx_send (packet_message seqno ptr len) c in
  c ← (if on_cpu_0 then keep_book seqno c else Some c);
  Some (if retval =? OK then 0 else EFAIL, c).

Definition ifx_mps_data_enqueue (seqno ptr len : Z) (c : client) : Z * client :=
  let (p, c) := kernel (Kmalloc 20) c in
  if p =? 0 then (EFAIL, c)
  else (OK, set_bklog (bklog_mps_data_list c ++ [mk_data_list p seqno ptr len]) (bklog_pkts c + 1) c).

(** [list_del], [kfree] and [atomic_dec] on the element at the head of the list. *)
Definition bklog_remove (e : mps_data_list) (c : client) : client :=
  let c := kernel_do (Kfree (list_elem e)) c in
  set_bklog (tl (bklog_mps_data_list c)) (bklog_pkts c - 1) c.

(** [list_for_each_safe]: every element of the list, until one is refused. *)
Fixpoint bklog_loop (l : list mps_data_list) (c : client) : option client :=
  match l with
  | [] => Some c
  | e :: l' =>
      '(r, c) ← ifx_mps_data_send2 (service_sequence_number e) (datapointer e) (len e) c;
      if r =? OK then bklog_loop l' (bklog_remove e c) else Some c
  end.

Definition ifx_mps_send_from_bklog_q (c : client) : option (Z * client) :=
  let c := set_lock (bklog_q_lock c - 1) c in
  if negb (bklog_q_lock c =? 0) then Some (EFAIL, set_lock (bklog_q_lock c + 1) c)
  else
    c ← bklog_loop (bklog_mps_data_list c) c;
    Some (OK, set_lock (bklog_q_lock c + 1) c).

(** [flush_bklog_q], and the timer handler, which also starts its timer again. *)
Definition flush_bklog_q (c : client) : option client :=
  if nz (bklog_pkts c) then snd <$> ifx_mps_send_from_bklog_q c else Some c.
Definition flush_bklog_timer_handler (c : client) : option client := flush_bklog_q c.

Definition list_empty (c : client) : bool :=
  match bklog_mps_data_list c with [] => true | _ => false end.

(** From the packet that could not be sent at once to the end. *)
Definition data_send_later (seqno ptr len : Z) (c : client) : option (Z * client) :=
  let (r, c) := ifx_mps_data_enqueue seqno ptr len c in
  if r =? EFAIL then Some (EFAIL, c) else ifx_mps_send_from_bklog_q c.

Definition ifx_mps_data_send (seqno ptr len : Z) (c : client) : option (Z * client) :=
  if list_empty c then
    '(r, c) ← ifx_mps_data_send2 seqno ptr len c;
    if r =? OK then Some (OK, c) else data_send_later seqno ptr len c
  else data_send_later seqno ptr len c.

(** ** Messages of the applications and lists of buffers *)
(** The result of [ifx_mpsdrv_mbx_send] is not used. *)
Definition ifx_mps_app_message_send (seqno pmessage len : Z) (c : client) : Z * client :=
  let cmd := if on_cpu_0 then MPS_CMD_CPU0_APPMSG else if cpu_id =? MPS_CPU_1_ID then MPS_CMD_CPU1_APPMSG else 0 in
  (0, snd (mbx_send (data_message MPS_TYPE_DOWNSTREAM_APP_CMD seqno cmd 8 [pmessage; len]) c)).

(** [no] and [datalist] are the fields of the structure that is passed. *)
Definition ifx_mps_datalist_send (seqno no datalist : Z) (c : client) : Z * client :=
  mbx_send (if on_cpu_0
    then data_message MPS_TYPE_DOWNSTREAM_DATA seqno MPS_CMD_CPU0_DATALISTMSG 8 [datalist; 4 * no]
    else data_message MPS_TYPE_UPSTREAM_DATA seqno MPS_CMD_CPU1_DATALISTMSG 8 [datalist; 4 * no]) c.

(** The nodes have [data] at 0, [len] at 4 and [next] at 8; the head [no] at 0 and
    [datalist] at 4. *)
Fixpoint datalist_alloc_loop (n : nat) (r : Z) (c : client) : option (Z * client) :=
  match n with
  | O => Some (r, c)
  | S n' =>
      let (list_ptr, c) := kernel (Kmalloc 12) c in
      let (data, c) := kernel (Kmalloc MPS_DATA_SIZE) c in
      c ← store list_ptr 0 data c;
      c ← store list_ptr 4 0 c;
      c ← store r 8 list_ptr c;
      datalist_alloc_loop n' list_ptr c
  end.

Definition ifx_mps_cpu0_datalist_alloc (n : Z) (c : client) : option (Z * client) :=
  let (p, c) := kernel (Kmalloc 8) c in
  let (r, c) := kernel (Kmalloc 12) c in
  c ← store p 4 r c;
  let (data, c) := kernel (Kmalloc MPS_DATA_SIZE) c in
  c ← store r 0 data c;
  '(r, c) ← datalist_alloc_loop (Z.to_nat n) r c;
  c ← store r 8 0 c;
  c ← store p 0 n c;
  Some (p, c).

Fixpoint datalist_free_loop (fuel : nat) (i : Z) (p : Z) (c : client) : option client :=
  match fuel with
  | O => None
  | S fuel' =>
      no ← load p 0 c;
      if i <? int32 no then
        node ← load p 4 c;
        data ← load node 0 c;
        let c := kernel_do (Kfree data) c in
        c ← store node 4 0 c;
        next ← load node 8 c;
        c ← store p 4 next c;
        datalist_free_loop fuel' (i + 1) p c
      else Some c
  end.

(** One turn for each node the head counts, and the test that ends the loop. *)
Definition ifx_mps_cpu0_datalist_free (p : Z) (c : client) : option client :=
  no ← load p 0 c;
  c ← datalist_free_loop (S (Z.to_nat (int32 no))) 0 p c;
  c ← store p 0 0 c;
  Some (kernel_do (Kfree p) c).

Definition GFP_ATOMIC : Z := 0x20.
Definition ifx_mps_cpu0_skbuff_alloc (bufsize : Z) (c : client) : Z * client :=
  kernel (AllocSkb bufsize GFP_ATOMIC) c.
Definition ifx_mps_cpu0_skbuff_free (skb : Z) (c : client) : client := kernel_do (KfreeSkb skb) c.
Definition ifx_mps_cpu0_buff_alloc (bufsize : Z) (c : client) : Z * client := kernel (Kmalloc bufsize) c.
Definition ifx_mps_cpu0_buff_free (p : Z) (c : client) : client := kernel_do (Kfree p) c.

(** ** Asking the other processor *)
(** The type, the length and the content of the message for a command: the value passed, or
    words of the parameters it points to. *)
Definition cmd_request (cmd optParam : Z) (pcmd_param : list Z) : option (Z * Z * list Z) :=
  if bool_decide (cmd ∈ [MPS_CMD_CPU1_DATALIST_ALLOC; MPS_CMD_CPU1_DATALIST_FREE; MPS_CMD_CPU1_SKB_ALLOC;
       MPS_CMD_CPU1_SKB_FREE; MPS_CMD_CPU1_DATA_ALLOC; MPS_CMD_CPU1_DATA_FREE])
  then Some (MPS_TYPE_DOWNSTREAM_CMD, 4, [optParam])
  else if bool_decide (cmd ∈ [MPS_CMD_CPU0_GET_REMOTE_VER; MPS_CMD_CPU1_GET_REMOTE_VER])
  then Some (if on_cpu_0 then MPS_TYPE_DOWNSTREAM_CMD else MPS_TYPE_UPSTREAM_CMD, 0, [])
  else if bool_decide (cmd ∈ [MPS_CMD_CPU1_IFX_ALLOC_SKB; MPS_CMD_CPU1_IFX_SKB_CLONE;
       MPS_CMD_CPU1_IFX_SKB_COPY; MPS_CMD_CPU1_IFX_SKB_REALLOC_HEADROOM; MPS_CMD_CPU1_IFX_SKB_TRIM;
       MPS_CMD_CPU1_IFX_DEV_ALLOC_SKB])
  then Some (MPS_TYPE_UPSTREAM_CMD, 8, take 2 pcmd_param)
  else if bool_decide (cmd ∈ [MPS_CMD_CPU1_IFX_PSKB_EXPAND_HEAD; MPS_CMD_CPU1_IFX_SKB_COPY_EXPAND])
  then Some (MPS_TYPE_UPSTREAM_CMD, 16, take 4 pcmd_param)
  else None.

Definition ifx_cmd_process (dir cmd optParam : Z) (pcmd_param : list Z) (c : client) : Z * client :=
  if dir =? 0 then
    match cmd_request cmd optParam pcmd_param with
    | None => (-1, c)
    | Some (type, len, content) => mbx_send (data_message type 0 cmd len content) c
    end
  else (0, c).

(** What the functions that ask do before they wait: whatever [ifx_cmd_process] returns. *)
Definition remote_request (cmd optParam : Z) (c : client) : client :=
  let c := set_control empty_message (cmd_callback_flag c) (cmd_wakeuplist_balance c) c in
  let (_, c) := ifx_cmd_process 0 cmd optParam [] c in
  set_control (msg_data c) (cmd_callback_flag c) (u32 (cmd_wakeuplist_balance c + 1)) c.

(** [wait_event_interruptible]: it goes on when the flag is set or a signal is pending. *)
Definition wait_done (signal : bool) (c : client) : bool := nz (cmd_callback_flag c) || signal.
(** What they do after it. *)
Definition remote_result (c : client) : Z * client :=
  let c := set_control (msg_data c) 0 (cmd_wakeuplist_balance c) c in
  (payload (msg_data c), c).

(** The functions that ask, up to the wait: [inl] the result when they need not ask, [inr]
    the state in which they wait for [remote_result]. *)
Definition ifx_mps_get_version (cpu : Z) (c : client) : Z + client :=
  if cpu_id =? cpu then inl MPSDRV_VERSION_NUM
  else
    inr (if on_cpu_0 then remote_request MPS_CMD_CPU0_GET_REMOTE_VER 0 c
         else remote_request MPS_CMD_CPU1_GET_REMOTE_VER 0 c).
Definition ifx_mps_datalist_alloc (n : Z) (c : client) : option (Z * client + client) :=
  if on_cpu_0 then inl <$> ifx_mps_cpu0_datalist_alloc n c
  else Some (inr (remote_request MPS_CMD_CPU1_DATALIST_ALLOC n c)).
Definition ifx_mps_skbuff_alloc (bufsize : Z) (c : client) : Z * client + client :=
  if on_cpu_0 then inl (ifx_mps_cpu0_skbuff_alloc bufsize c)
  else if cpu_id =? MPS_CPU_1_ID then inr (remote_request MPS_CMD_CPU1_SKB_ALLOC bufsize c)
  else inl (0, c).
Definition ifx_mps_app_buff_kmalloc (bufsize : Z) (c : client) : Z * client + client :=
  if on_cpu_0 then inl (ifx_mps_cpu0_buff_alloc bufsize c)
  else if cpu_id =? MPS_CPU_1_ID then inr (remote_request MPS_CMD_CPU1_DATA_ALLOC bufsize c)
  else inl (0, c).

Definition ifx_mps_datalist_free (p : Z) (c : client) : option client :=
  if on_cpu_0 then ifx_mps_cpu0_datalist_free p c
  else Some (snd (ifx_cmd_process 0 MPS_CMD_CPU1_DATALIST_FREE p [] c)).
Definition ifx_mps_skbuff_free (p : Z) (c : client) : client :=
  if on_cpu_0 then ifx_mps_cpu0_skbuff_free p c
  else if cpu_id =? MPS_CPU_1_ID then snd (ifx_cmd_process 0 MPS_CMD_CPU1_SKB_FREE p [] c)
  else c.
Definition ifx_mps_app_buff_kfree (p : Z) (c : client) : client :=
  if on_cpu_0 then ifx_mps_cpu0_buff_free p c
  else if cpu_id =? MPS_CPU_1_ID then snd (ifx_cmd_process 0 MPS_CMD_CPU1_DATA_FREE p [] c)
  else c.

(** ** The callbacks of the mailboxes *)
Definition ifx_mbx_data_rcv_callback (m : list Z) (c : client) : option client :=
  let seqno := header_seqno (data_word m 0) in
  let call (c : client) : option client :=
    f ← data_callback_funct c !! Z.to_nat seqno;
    if f =? 0 then None else Some (log_data_call (f, data_word m 2, data_word m 3) c) in
  let cmd := header_cmd (data_word m 0) in
  if bool_decide (cmd ∈ [MPS_CMD_CPU0_DATAMSG; MPS_CMD_CPU1_DATAMSG]) then
    c ← call c;
    if on_cpu_0 then keep_book seqno c else Some c
  else if bool_decide (cmd ∈ [MPS_CMD_CPU0_APPMSG; MPS_CMD_CPU1_APPMSG; MPS_CMD_CPU0_DATALISTMSG;
            MPS_CMD_CPU1_DATALISTMSG])
  then call c
  else Some c.

(** The commands whose response is waited for. *)
Definition known_responses : list Z :=
  [MPS_CMD_CPU1_DATALIST_ALLOC; MPS_CMD_CPU1_SKB_ALLOC; MPS_CMD_CPU1_DATA_ALLOC;
   MPS_CMD_CPU0_GET_REMOTE_VER; MPS_CMD_CPU1_GET_REMOTE_VER; MPS_CMD_CPU1_IFX_ALLOC_SKB;
   MPS_CMD_CPU1_IFX_SKB_CLONE; MPS_CMD_CPU1_IFX_SKB_COPY; MPS_CMD_CPU1_IFX_PSKB_EXPAND_HEAD;
   MPS_CMD_CPU1_IFX_SKB_REALLOC_HEADROOM; MPS_CMD_CPU1_IFX_SKB_COPY_EXPAND;
   MPS_CMD_CPU1_IFX_SKB_TRIM; MPS_CMD_CPU1_IFX_DEV_ALLOC_SKB].

(** A response of one word, the result of a function on packet buffers. *)
Definition skb_response (r : Z * client) : (Z * Z * list Z) * client :=
  ((MPS_TYPE_DOWNSTREAM_CMD, 4, [r.1]), r.2).

(** The requests, with the type, the length and the content of the response; no response is
    sent to a command that is not known. *)
Definition serve_skb (cmd : Z) (m : list Z) (c : client) : option ((Z * Z * list Z) * client) :=
  let w i := data_word m (2 + i) in
  if cmd =? MPS_CMD_CPU1_IFX_ALLOC_SKB then Some (skb_response (kernel (AllocSkb (w 0%nat) (w 1%nat)) c))
  else if cmd =? MPS_CMD_CPU1_IFX_SKB_CLONE then Some (skb_response (kernel (SkbClone (w 0%nat) (w 1%nat)) c))
  else if cmd =? MPS_CMD_CPU1_IFX_SKB_COPY then Some (skb_response (kernel (SkbCopy (w 0%nat) (w 1%nat)) c))
  else if cmd =? MPS_CMD_CPU1_IFX_PSKB_EXPAND_HEAD then
    Some (skb_response (kernel (PskbExpandHead (w 0%nat) (w 1%nat) (w 2%nat) (w 3%nat)) c))
  else if cmd =? MPS_CMD_CPU1_IFX_SKB_REALLOC_HEADROOM then
    Some (skb_response (kernel (SkbReallocHeadroom (w 0%nat) (w 1%nat)) c))
  else if cmd =? MPS_CMD_CPU1_IFX_SKB_COPY_EXPAND then
    Some (skb_response (kernel (SkbCopyExpand (w 0%nat) (w 1%nat) (w 2%nat) (w 3%nat)) c))
  else if cmd =? MPS_CMD_CPU1_IFX_DEV_ALLOC_SKB then
    let (skb, c) := kernel (AllocSkb (u32 (w 0%nat + 16)) (w 1%nat)) c in
    Some (skb_response (skb, if skb =? 0 then c else kernel_do (SkbReserve skb 16) c))
  else if cmd =? MPS_CMD_CPU1_IFX_SKB_TRIM then
    Some ((MPS_TYPE_DOWNSTREAM_CMD, 0, []), kernel_do (SkbTrim (w 0%nat) (w 1%nat)) c)
  else None.

Definition no_response : Z * Z * list Z := (0, 0, []).
Definition buffer_response (size : Z) (r : Z * client) : (Z * Z * list Z) * client :=
  ((MPS_TYPE_DOWNSTREAM_CMD, 8, [r.1; size]), r.2).

Definition serve (cmd : Z) (m : list Z) (c : client) : option (option ((Z * Z * list Z) * client)) :=
  let arg := payload m in
  if cmd =? MPS_CMD_CPU1_DATALIST_ALLOC then
    r ← ifx_mps_cpu0_datalist_alloc (int32 arg) c;
    Some (Some (buffer_response 0 r))
  else if cmd =? MPS_CMD_CPU1_DATALIST_FREE then
    c ← ifx_mps_cpu0_datalist_free arg c; Some (Some (no_response, c))
  else if cmd =? MPS_CMD_CPU1_SKB_ALLOC then
    Some (Some (buffer_response arg (ifx_mps_cpu0_skbuff_alloc arg c)))
  else if cmd =? MPS_CMD_CPU1_SKB_FREE then Some (Some (no_response, ifx_mps_cpu0_skbuff_free arg c))
  else if cmd =? MPS_CMD_CPU1_DATA_ALLOC then
    Some (Some (buffer_response arg (ifx_mps_cpu0_buff_alloc arg c)))
  else if cmd =? MPS_CMD_CPU1_DATA_FREE then Some (Some (no_response, ifx_mps_cpu0_buff_free arg c))
  else if cmd =? MPS_CMD_CPU0_GET_REMOTE_VER then
    Some (Some ((MPS_TYPE_DOWNSTREAM_CMD, 4, [MPSDRV_VERSION_NUM]), c))
  else if cmd =? MPS_CMD_CPU1_GET_REMOTE_VER then
    Some (Some ((MPS_TYPE_UPSTREAM_CMD, 4, [MPSDRV_VERSION_NUM]), c))
  else Some (serve_skb cmd m c).

Definition ifx_mps_cmd_rcv_callback (m : list Z) (c : client) : option client :=
  let cmd := header_cmd (data_word m 0) in
  if 0x1000 <? cmd then
    Some (if bool_decide (cmd - 0x1000 ∈ known_responses)
          then set_control m 1 (u32 (cmd_wakeuplist_balance c - 1)) c else c)
  else
    r ← serve cmd m c;
    match r with
    | None => Some c
    | Some ((type, len, content), c) =>
        Some (snd (mbx_send
          (data_message type (header_seqno (data_word m 0)) (cmd + 0x1000) len content) c))
    end.

(** ** Registration *)
(** The result of the registration in the driver is not used. *)
Definition ifx_mps_register_callback (seqno callback : Z) (c : client) : option (Z * client) :=
  if seqno =? 0 then Some (ERROR, c)
  else
    f ← data_callback_funct c !! Z.to_nat seqno;
    if negb (f =? 0) then Some (ERROR, c)
    else
      let c := set_data_callbacks (<[Z.to_nat seqno := callback]> (data_callback_funct c)) c in
      '(_, d) ← ifx_mpsdrv_register_callback seqno ifx_mbx_data_rcv_callback_addr (dev c);
      Some (0, set_dev d c).
Definition ifx_mps_unregister_callback (seqno : Z) (c : client) : option (Z * client) :=
  if seqno =? 0 then Some (ERROR, c)
  else
    f ← data_callback_funct c !! Z.to_nat seqno;
    if f =? 0 then Some (ERROR, c)
    else
      let c := set_data_callbacks (<[Z.to_nat seqno := 0]> (data_callback_funct c)) c in
      '(_, d) ← ifx_mpsdrv_unregister_callback seqno (dev c);
      Some (OK, set_dev d c).

(** What [ifx_mps_init_module] does to the state when nothing fails. *)
Definition ifx_mps_init_module (c : client) : option client :=
  let c := set_control empty_message 0 0 c in
  let c := set_dev (ifx_mpsdrv_initial_structures (dev c)) c in
  '(_, d) ← ifx_mpsdrv_register_callback 0 ifx_mps_cmd_rcv_callback_addr (dev c);
  Some (set_lock 1 (set_bklog (bklog_mps_data_list c) 0 (set_dev d c))).

(** ** The tasklets with the two callbacks *)
(** [callback_function[seq_num](pMsg)]: the callbacks of this file run, one of another file
    is recorded. *)
Definition run_callback (callback : Z) (m : list Z) (c : client) : option client :=
  if callback =? ifx_mbx_data_rcv_callback_addr then ifx_mbx_data_rcv_callback m c
  else if callback =? ifx_mps_cmd_rcv_callback_addr then ifx_mps_cmd_rcv_callback m c
  else Some (set_dev (log_call (callback, m) (dev c)) c).

(** The loop of the four tasklets ([Mbx.dispatch_loop]), calling the callbacks. *)
Fixpoint dispatch_run (fuel : nat) (q : datamsg_queue) (c : client) : option client :=
  match fuel with
  | O => None
  | S fuel' =>
      '(pMsg, l) ← mps_datamsg_dequeue_head (get_queue q (dev c));
      let c := set_dev (set_queue q l (dev c)) c in
      if pMsg =? 0 then Some c
      else
        m ← heap (dev c) !! pMsg;
        callback ← callback_function (dev c) !! Z.to_nat (header_seqno (data_word m 0));
        c ← (if negb (callback =? 0) then run_callback callback m c else Some c);
        dispatch_run fuel' q
          (set_dev (set_heap (delete pMsg (heap (dev c))) (kmallocs (dev c)) (dev c)) c)
  end.
End Cpu.

(** The other processor sees the SRAM as this one left it. *)
Definition share (a b : client) : client :=
  set_dev (set_regs (base_global (dev a)) (dev b)) b.

End Client.
