(* ===== verification/MpsBacklog.v ===== *)
(** * MpsBacklog: the packets of [ifx_mps_data_send], and their back log

    On CPU0, while calls of the function, the timer and the other processor follow each other
    in any order, packets leave in the order in which they were accepted; the back log empties
    when the mailbox does.  With interrupts inside a call every packet still leaves once, but
    one that was queued can be reported as refused, and two insertions into the list can lose
    one. *)
From stdpp Require Import functions.
From S2P Require Import Prelude MpsBuffer MpsProps Mailbox MailboxProps MailboxDevice MpsClient.
Import Mps Mbx Client.

(** ** A message of six words in the mailbox *)
(** The words of it that are sent. *)
Definition wire (m : list Z) : list Z := take (Z.to_nat (header_words (data_word m 1))) m.

Lemma header_words_nat v : (2 <= Z.to_nat (header_words v))%nat.
Proof. pose proof (header_words_range v). lia. Qed.
Lemma wire_word m i : (i < 2)%nat -> data_word (wire m) i = data_word m i.
Proof.
  intros Hi. unfold data_word, wire. rewrite lookup_take_lt; [done|].
  pose proof (header_words_nat (default 0 (m !! 1%nat))). unfold data_word in *. lia.
Qed.
Lemma wire_good m :
  header_words (data_word m 1) <= Z.of_nat (length m) -> header_wrapped (data_word m 1) = false ->
  good_msg (wire m).
Proof.
  intros Hl Hw. pose proof (header_words_range (data_word m 1)).
  split; rewrite wire_word by lia; [|done]. unfold wire. rewrite length_take. lia.
Qed.

Lemma fifo_write_wire f m :
  ifx_mpsdrv_fifo_write f (marked (wire m)) (message_bytes m) =
  ifx_mpsdrv_fifo_write f (marked m) (message_bytes m).
Proof.
  assert (Hm : forall g, put_message g (marked (wire m)) (to_4bytes (message_bytes m)) =
                    put_message g (marked m) (to_4bytes (message_bytes m))).
  { intros g. unfold put_message. do 4 f_equal.
    all: unfold marked; rewrite wire_word by lia;
      change (to_4bytes (message_bytes m)) with (header_words (data_word m 1));
      rewrite !take_insert_lt by (apply header_words_nat || (pose proof (header_words_nat (data_word m 1)); lia));
      unfold wire; by rewrite take_take, Nat.min_id. }
  unfold ifx_mpsdrv_fifo_write. by rewrite !Hm.
Qed.

(** A message is sent as its words are. *)
Lemma mbx_send_wire cpu m d :
  (ifx_mpsdrv_mbx_send cpu m d).1.1 = (ifx_mpsdrv_mbx_send cpu (wire m) d).1.1 /\
  (ifx_mpsdrv_mbx_send cpu m d).2 = (ifx_mpsdrv_mbx_send cpu (wire m) d).2.
Proof.
  unfold ifx_mpsdrv_mbx_send. rewrite !wire_word by lia.
  destruct (mbx_for _ _) as [[id irq]|]; [|done]. fold (message_bytes m).
  destruct (ifx_mpsdrv_fifo_mem_request _ _); [|done].
  change (<[1%nat := set_ready (data_word m 1)]> m) with (marked m).
  replace (<[1%nat := set_ready (data_word m 1)]> (wire m)) with (marked (wire m))
    by (unfold marked; by rewrite wire_word by lia).
  rewrite fifo_write_wire. by destruct (ifx_mpsdrv_fifo_write _ _ _) as [r f], (r =? OK).
Qed.

Lemma client_send_cases cpu m c Q id irq :
  regs_rep (base_global (dev c)) Q ->
  header_words (data_word m 1) <= Z.of_nat (length m) -> header_wrapped (data_word m 1) = false ->
  mbx_for cpu (header_type (data_word m 0)) = Some (id, irq) ->
  exists r d, mbx_send cpu m c = (r, set_dev d c) /\
    (exists i, d = set_regs (base_global d) (foldr raise_irq (dev c) i)) /\
    ((r = OK /\ regs_rep (base_global d) (<[id := (Q id ++ [wire m])%list]> Q)) \/
     (r <> OK /\ regs_rep (base_global d) Q)).
Proof.
  intros HQ Hl Hw Hid.
  destruct (mbx_send_cases cpu (wire m) (dev c) Q id irq HQ) as (r & m' & regs & H);
    [by apply wire_good | by rewrite wire_word by lia |].
  destruct (mbx_send_wire cpu m (dev c)) as [H1 H2].
  unfold mbx_send. destruct (ifx_mpsdrv_mbx_send cpu m (dev c)) as [[r0 m0] d0]. cbn in H1, H2. subst r0 d0.
  destruct H as [(-> & -> & Hr)|(-> & Hres & Hr)]; do 2 eexists; (split; [reflexivity|]).
  - split; [exists [(id, irq)]; by destruct (dev c)|]. by left.
  - split; [exists []; by destruct (dev c)|]. right. split; [|done].
    by destruct Hres as [-> | ->].
Qed.

(** ** Keeping the queues of buffers *)
Lemma keep_book_ok seqno c :
  pools_ok (pools c) ->
  exists p, keep_book MPS_CPU_0_ID seqno c = Some (set_pools p c) /\ pools_ok p.
Proof.
  intros [Hs Hx]. unfold keep_book, on_pools.
  assert (Hrel : exists a p, ifx_cpu0_release_q_lists MPS_CPU_0_ID seqno (pools c) = Some (a, p) /\ pools_ok p).
  { destruct (mps_buff_pool_array (pools c) !! seqno) as [pl|] eqn:Hp.
    - destruct (release_lists_ok seqno pl (pools c) Hp (Hs _ _ Hp) Hx) as (a & p & l & -> & Hok).
      do 2 eexists. split; [reflexivity|].
      replace (set_freed l (pools c)) with (set_allocs (allocs (pools c)) (set_freed l (pools c)))
        by by destruct (pools c).
      by apply pools_ok_set.
    - exists (- ENOMEM), (pools c). split; [|done].
      unfold ifx_cpu0_release_q_lists. cbn [on_cpu0 negb Z.eqb MPS_CPU_0_ID].
      erewrite bind_eq by reflexivity. by rewrite Hp. }
  destruct Hrel as (a & p & -> & Hs1 & Hx1). cbn [mbind option_bind set_pools pools].
  destruct (mps_buff_pool_array p !! seqno) as [pl|] eqn:Hp.
  - destruct (topup_lists_ok seqno pl p Hp (Hs1 _ _ Hp) Hx1) as (b & p' & l & -> & Hok).
    cbn [mbind option_bind]. eexists. split; [reflexivity|].
    replace (set_allocs l p) with (set_allocs l (set_freed (freed p) p)) by by destruct p.
    by apply pools_ok_set.
  - exists p. split; [|done]. unfold ifx_cpu0_topup_q_lists. cbn [on_cpu0 negb Z.eqb MPS_CPU_0_ID].
    erewrite bind_eq by reflexivity. by rewrite Hp.
Qed.

(** ** One packet *)
Abbreviation packet := (Z * Z * Z)%type.
Definition as_packet (e : mps_data_list) : packet := (service_sequence_number e, datapointer e, len e).
(** The words of a packet in the mailbox, before and after they are marked. *)
Definition packet_wire (p : packet) : list Z :=
  let '(seqno, ptr, len) := p in wire (packet_message MPS_CPU_0_ID seqno ptr len).
Definition on_wire (p : packet) : list Z := marked (packet_wire p).

Lemma packet_header seqno ptr len :
  header_words (data_word (packet_message MPS_CPU_0_ID seqno ptr len) 1) = 4 /\
  header_wrapped (data_word (packet_message MPS_CPU_0_ID seqno ptr len) 1) = false /\
  length (packet_message MPS_CPU_0_ID seqno ptr len) = 6%nat.
Proof. done. Qed.
Lemma header_type_val0 type seqno cmd :
  0 <= type < 2 ^ 8 -> header_type (header_val0 type seqno cmd) = type.
Proof.
  intros Ht. unfold header_type, header_val0. change 0xff with (Z.ones 8). rewrite Z.land_ones by lia.
  rewrite Z.shiftr_div_pow2, (Z.mod_small type) by lia.
  pose proof (Z.mod_pos_bound seqno (2 ^ 8)). pose proof (Z.mod_pos_bound cmd (2 ^ 16)).
  rewrite <- (Z.div_unique _ (2 ^ 24) type ((seqno mod 2 ^ 8) * 2 ^ 16 + cmd mod 2 ^ 16));
    [by apply Z.mod_small | left; lia | ring].
Qed.
Lemma packet_mailbox seqno ptr len :
  mbx_for MPS_CPU_0_ID (header_type (data_word (packet_message MPS_CPU_0_ID seqno ptr len) 0)) =
    Some (DNSTR_DATA, 0x20).
Proof.
  change (data_word (packet_message MPS_CPU_0_ID seqno ptr len) 0)
    with (header_val0 MPS_TYPE_DOWNSTREAM_DATA seqno MPS_CMD_CPU0_DATAMSG).
  by rewrite header_type_val0.
Qed.

(** What sending a packet changes. *)
Definition sent_only (c c' : client) : Prop := exists d p, c' = set_pools p (set_dev d c).

Lemma send2_cases c Q seqno ptr len :
  regs_rep (base_global (dev c)) Q -> pools_ok (pools c) ->
  exists r c', ifx_mps_data_send2 MPS_CPU_0_ID seqno ptr len c = Some (r, c') /\
    sent_only c c' /\ pools_ok (pools c') /\
    (r = OK /\ regs_rep (base_global (dev c'))
        (<[DNSTR_DATA := (Q DNSTR_DATA ++ [packet_wire (seqno, ptr, len)])%list]> Q) \/
     r = EFAIL /\ regs_rep (base_global (dev c')) Q).
Proof.
  intros HQ Hp. destruct (packet_header seqno ptr len) as (Hw & Hwr & Hl).
  destruct (client_send_cases MPS_CPU_0_ID (packet_message MPS_CPU_0_ID seqno ptr len) c Q DNSTR_DATA 0x20 HQ)
    as (r & d & Hs & _ & H); [by rewrite Hw, Hl | done | apply packet_mailbox |].
  unfold ifx_mps_data_send2. rewrite Hs. change (on_cpu_0 MPS_CPU_0_ID) with true. cbv iota.
  destruct (keep_book_ok seqno (set_dev d c)) as (p & -> & Hp'); [done|].
  cbn [mbind option_bind]. do 2 eexists. split; [reflexivity|]. split; [by do 2 eexists|].
  split; [done|]. destruct H as [[-> Hr]|[Hne Hr]].
  - left. by split.
  - right. by destruct (Z.eqb_spec r OK).
Qed.

(** ** The invariant of a processor between two calls *)
(** The mailboxes stand for [Q], the queues of buffers are in order, the count is that of the
    list, and nobody holds the lock. *)
Record backlog_ok (c : client) (Q : mailboxes) : Prop := {
  backlog_regs : regs_rep (base_global (dev c)) Q;
  backlog_pools : pools_ok (pools c);
  backlog_count : bklog_pkts c = Z.of_nat (length (bklog_mps_data_list c)) }.

(** The packets that have not reached the other processor, in order, as messages. *)
Definition under_way (c : client) (Q : mailboxes) : list (list Z) :=
  (map marked (Q DNSTR_DATA) ++ map on_wire (map as_packet (bklog_mps_data_list c)))%list.

Lemma backlog_ok_sent c c' Q Q' :
  backlog_ok c Q -> sent_only c c' -> regs_rep (base_global (dev c')) Q' -> pools_ok (pools c') ->
  backlog_ok c' Q'.
Proof. intros [_ _ Hn] (d & p & ->) HQ Hp. by split. Qed.
Lemma sent_only_lock c c' : sent_only c c' -> bklog_q_lock c' = bklog_q_lock c.
Proof. by intros (d & p & ->). Qed.
Lemma sent_only_list c c' : sent_only c c' -> bklog_mps_data_list c' = bklog_mps_data_list c.
Proof. by intros (d & p & ->). Qed.
Lemma sent_only_answers c c' : sent_only c c' -> answers c' = answers c.
Proof. by intros (d & p & ->). Qed.

Lemma under_way_sent c c' Q e l :
  bklog_mps_data_list c = e :: l -> bklog_mps_data_list c' = l ->
  under_way c' (<[DNSTR_DATA := (Q DNSTR_DATA ++ [packet_wire (as_packet e)])%list]> Q) = under_way c Q.
Proof.
  intros Hl Hl'. unfold under_way. rewrite fn_lookup_insert, Hl, Hl'. cbn [map].
  by rewrite map_app, <- (assoc_L app).
Qed.

(** The loop over the back log moves packets to the mailbox, in order. *)
Lemma bklog_loop_ok l c Q :
  backlog_ok c Q -> bklog_mps_data_list c = l ->
  exists c' Q', bklog_loop MPS_CPU_0_ID l c = Some c' /\ backlog_ok c' Q' /\
    under_way c' Q' = under_way c Q /\ bklog_q_lock c' = bklog_q_lock c /\ answers c' = answers c.
Proof.
  revert c Q. induction l as [|e l IH]; intros c Q Hc Hl; cbn [bklog_loop].
  { exists c, Q. by split_and!. }
  destruct (send2_cases c Q (service_sequence_number e) (datapointer e) (len e)) as
    (r & c1 & -> & Hs & Hp & H); [apply Hc..|]. cbn [mbind option_bind].
  pose proof (sent_only_list _ _ Hs) as Hl1. pose proof (sent_only_answers _ _ Hs) as Ha1.
  destruct H as [[-> HQ1]|[-> HQ1]]; cbn [Z.eqb OK EFAIL].
  - set (Q1 := <[DNSTR_DATA := _]> Q) in HQ1.
    destruct (IH (bklog_remove e c1) Q1) as (c' & Q' & -> & Hc' & Hu & Hk & Ha).
    + split; [done|done|]. cbn. pose proof (backlog_count _ _ Hc) as Hn.
      destruct Hs as (d & p & ->). cbn. rewrite Hn, Hl. cbn [length tl]. lia.
    + cbn. by rewrite Hl1, Hl.
    + exists c', Q'. split; [done|]. split; [done|]. split; [|split].
      * rewrite Hu. apply (under_way_sent c (bklog_remove e c1) Q e l Hl). cbn. by rewrite Hl1, Hl.
      * rewrite Hk. cbn. by apply sent_only_lock.
      * by rewrite Ha.
  - exists c1, Q. split; [done|]. split; [by eapply backlog_ok_sent|]. split; [|split; [|done]].
    + unfold under_way. by rewrite Hl1.
    + by apply sent_only_lock.
Qed.

Lemma send_from_bklog_ok c Q :
  backlog_ok c Q -> bklog_q_lock c = 1 ->
  exists c' Q', ifx_mps_send_from_bklog_q MPS_CPU_0_ID c = Some (OK, c') /\ backlog_ok c' Q' /\
    under_way c' Q' = under_way c Q /\ bklog_q_lock c' = 1 /\ answers c' = answers c.
Proof.
  intros Hc Hk. unfold ifx_mps_send_from_bklog_q. cbn [set_lock bklog_q_lock]. rewrite Hk.
  destruct (bklog_loop_ok (bklog_mps_data_list c) (set_lock (1 - 1) c) Q)
    as (c' & Q' & Hr & Hc' & Hu & Hk' & Ha); [by destruct Hc|done|].
  change (bklog_mps_data_list (set_lock (1 - 1) c)) with (bklog_mps_data_list c). rewrite Hr.
  change (negb (1 - 1 =? 0)) with false. cbn [mbind option_bind].
  eexists _, Q'. split; [reflexivity|]. split; [by destruct Hc'|]. split; [done|].
  split; [|done]. cbn. by rewrite Hk'.
Qed.

(** A packet at the end of the back log. *)
Lemma enqueue_cases c Q seqno ptr len :
  backlog_ok c Q ->
  exists r c', ifx_mps_data_enqueue seqno ptr len c = (r, c') /\ answers c' = tl (answers c) /\
    bklog_q_lock c' = bklog_q_lock c /\ backlog_ok c' Q /\
    (hd 0 (answers c) = 0 /\ r = EFAIL /\ under_way c' Q = under_way c Q \/
     hd 0 (answers c) <> 0 /\ r = OK /\
       under_way c' Q = (under_way c Q ++ [on_wire (seqno, ptr, len)])%list).
Proof.
  intros Hc. unfold ifx_mps_data_enqueue, kernel.
  destruct (Z.eqb_spec (hd 0 (answers c)) 0) as [He|He]; do 2 eexists; (split; [reflexivity|]);
    do 2 (split; [done|]); (split; [by destruct Hc; split; cbn; rewrite ?length_app; cbn; try lia|]).
  - left. by split_and!.
  - right. do 2 (split; [done|]). unfold under_way. cbn. by rewrite !map_app, (assoc_L app).
Qed.

Lemma data_send_later_ok c Q seqno ptr len :
  backlog_ok c Q -> bklog_q_lock c = 1 ->
  exists r c' Q', data_send_later MPS_CPU_0_ID seqno ptr len c = Some (r, c') /\ backlog_ok c' Q' /\
    bklog_q_lock c' = 1 /\ (answers c' = answers c \/ answers c' = tl (answers c)) /\
    (r = EFAIL /\ hd 0 (answers c) = 0 /\ under_way c' Q' = under_way c Q \/
     r = OK /\ under_way c' Q' = (under_way c Q ++ [on_wire (seqno, ptr, len)])%list).
Proof.
  intros Hc Hk. unfold data_send_later.
  destruct (enqueue_cases c Q seqno ptr len Hc) as (r & c1 & -> & Ha1 & Hk1 & Hc1 & H).
  destruct H as [(He & -> & Hu)|(He & -> & Hu)]; cbn [Z.eqb EFAIL OK].
  - do 3 eexists. split; [reflexivity|]. split; [exact Hc1|]. split; [congruence|]. split; [by right|].
    left. by split_and!.
  - destruct (send_from_bklog_ok c1 Q Hc1) as (c' & Q' & -> & Hc' & Hu' & Hk' & Ha'); [congruence|].
    do 3 eexists. split; [reflexivity|]. split; [exact Hc'|]. split; [done|].
    split; [right; congruence|]. right. by rewrite Hu'.
Qed.

Lemma data_send_ok c Q seqno ptr len :
  backlog_ok c Q -> bklog_q_lock c = 1 ->
  exists r c' Q', ifx_mps_data_send MPS_CPU_0_ID seqno ptr len c = Some (r, c') /\ backlog_ok c' Q' /\
    bklog_q_lock c' = 1 /\ (answers c' = answers c \/ answers c' = tl (answers c)) /\
    (r = EFAIL /\ hd 0 (answers c) = 0 /\ under_way c' Q' = under_way c Q \/
     r = OK /\ under_way c' Q' = (under_way c Q ++ [on_wire (seqno, ptr, len)])%list).
Proof.
  intros Hc Hk. unfold ifx_mps_data_send, list_empty.
  destruct (bklog_mps_data_list c) as [|e l] eqn:Hl; [|by apply data_send_later_ok].
  destruct (send2_cases c Q seqno ptr len) as (r & c1 & -> & Hs & Hp & H); [apply Hc..|].
  cbn [mbind option_bind]. pose proof (sent_only_lock _ _ Hs). pose proof (sent_only_list _ _ Hs) as Hl1.
  destruct H as [[-> HQ1]|[-> HQ1]]; cbn [Z.eqb OK EFAIL].
  - do 3 eexists. split; [reflexivity|]. split; [by eapply backlog_ok_sent|]. split; [congruence|].
    split; [left; by apply sent_only_answers|]. right. split; [done|]. unfold under_way. rewrite Hl1, Hl, fn_lookup_insert, map_app. cbn [map].
    by rewrite !app_nil_r.
  - pose proof (backlog_ok_sent _ _ _ _ Hc Hs HQ1 Hp) as Hc1.
    destruct (data_send_later_ok c1 Q seqno ptr len Hc1) as (r & c' & Q' & -> & Hc' & Hk' & Ha' & H');
      [congruence|]. do 3 eexists. split; [reflexivity|]. split; [exact Hc'|]. split; [done|].
    rewrite (sent_only_answers _ _ Hs) in Ha', H'. split; [done|].
    assert (under_way c1 Q = under_way c Q) as <- by (unfold under_way; by rewrite Hl1). done.
Qed.

Lemma flush_ok c Q :
  backlog_ok c Q -> bklog_q_lock c = 1 ->
  exists c' Q', flush_bklog_q MPS_CPU_0_ID c = Some c' /\ backlog_ok c' Q' /\
    under_way c' Q' = under_way c Q /\ bklog_q_lock c' = 1 /\ answers c' = answers c.
Proof.
  intros Hc Hk. unfold flush_bklog_q. destruct (nz (bklog_pkts c)).
  - destruct (send_from_bklog_ok c Q Hc Hk) as (c' & Q' & -> & Hc' & Hu & Hk' & Ha). by exists c', Q'.
  - by exists c, Q.
Qed.

(** ** What happens to the processor *)
(** A call of [ifx_mps_data_send], the timer, and the other processor looking for a packet. *)
Inductive event := Send (p : packet) | Tick | Take.

(** The state after it, the packets accepted and the messages taken. *)
Definition happen (e : event) (c : client) : option (client * list packet * list (list Z)) :=
  match e with
  | Send (seqno, ptr, len) =>
      '(r, c) ← ifx_mps_data_send MPS_CPU_0_ID seqno ptr len c;
      Some (c, if r =? OK then [(seqno, ptr, len)] else [], [])
  | Tick => c ← flush_bklog_timer_handler MPS_CPU_0_ID c; Some (c, [], [])
  | Take =>
      let '(r, m, d) := ifx_mpsdrv_mbx_rcv MPS_CPU_1_ID MPS_DATA_MSG_TYPE (dev c) in
      Some (set_dev d c, [], if r =? OK then [m] else [])
  end.
Fixpoint run (es : list event) (c : client) : option (client * list packet * list (list Z)) :=
  match es with
  | [] => Some (c, [], [])
  | e :: es' =>
      '(c, acc, tk) ← happen e c;
      '(c, acc', tk') ← run es' c;
      Some (c, acc ++ acc', tk ++ tk')%list
  end.

Lemma take_ok c Q :
  regs_rep (base_global (dev c)) Q ->
  exists r m d, ifx_mpsdrv_mbx_rcv MPS_CPU_1_ID MPS_DATA_MSG_TYPE (dev c) = (r, m, set_regs d (dev c)) /\
    match Q DNSTR_DATA with
    | [] => r = ERROR /\ regs_rep d Q
    | x :: ms => r = OK /\ m = marked x /\ regs_rep d (<[DNSTR_DATA := ms]> Q)
    end.
Proof.
  intros HQ. destruct (rcv_cases MPS_CPU_1_ID MPS_DATA_MSG_TYPE (dev c) Q DNSTR_DATA HQ eq_refl) as [d H].
  destruct (Q DNSTR_DATA) as [|x ms]; destruct H as [-> H]; do 3 eexists; by split.
Qed.

(** The packets sent. *)
Definition sends (es : list event) : list packet :=
  concat (map (fun e => match e with Send p => [p] | _ => [] end) es).
(** The kernel has memory for [n] elements. *)
Definition memory_for (n : nat) (c : client) : Prop :=
  forall i, (i < n)%nat -> exists a, answers c !! i = Some a /\ a <> 0.
Lemma memory_for_step n c c' :
  memory_for (S n) c -> answers c' = answers c \/ answers c' = tl (answers c) ->
  hd 0 (answers c) <> 0 /\ memory_for n c'.
Proof.
  intros Hm Hc'. split.
  - destruct (Hm 0%nat) as (a & Ha & Hne); [lia|]. destruct (answers c); [done|].
    by injection Ha as ->.
  - intros i Hi. destruct Hc' as [-> | ->]; [apply Hm; lia|].
    destruct (Hm (S i)) as (a & Ha & Hne); [lia|]. exists a. by destruct (answers c).
Qed.

Lemma happen_ok e c Q :
  backlog_ok c Q -> bklog_q_lock c = 1 ->
  exists c' Q' acc tk, happen e c = Some (c', acc, tk) /\ backlog_ok c' Q' /\ bklog_q_lock c' = 1 /\
    (tk ++ under_way c' Q' = under_way c Q ++ map on_wire acc)%list /\
    forall n, memory_for (length (sends [e]) + n) c -> memory_for n c' /\ acc = sends [e].
Proof.
  intros Hc Hk. destruct e as [[[seqno ptr] len]| |]; cbn [happen].
  - destruct (data_send_ok c Q seqno ptr len Hc Hk) as (r & c' & Q' & -> & Hc' & Hk' & Ha & H).
    cbn [mbind option_bind]. do 4 eexists. split; [reflexivity|]. split; [exact Hc'|]. split; [done|].
    destruct H as [(-> & Hhd & ->)|(-> & ->)]; (split; [cbn; by rewrite ?app_nil_r|]); intros n Hm;
      (destruct (memory_for_step n c c' Hm Ha) as [Hne Hm']); by split.
  - destruct (flush_ok c Q Hc Hk) as (c' & Q' & Hr & Hc' & Hu & Hk' & Ha).
    unfold flush_bklog_timer_handler. rewrite Hr. cbn [mbind option_bind].
    do 4 eexists. split; [reflexivity|]. split; [exact Hc'|]. split; [done|].
    split; [cbn; by rewrite Hu, app_nil_r|]. intros n Hm. unfold memory_for. by rewrite Ha.
  - destruct (take_ok c Q (backlog_regs _ _ Hc)) as (r & m & d & -> & H).
    destruct (Q DNSTR_DATA) as [|x ms] eqn:HQ.
    + destruct H as [-> HQ']. exists (set_dev (set_regs d (dev c)) c), Q, [], [].
      split; [done|]. split; [by destruct Hc|]. split; [done|]. split; [|done]. cbn. by rewrite app_nil_r.
    + destruct H as (-> & -> & HQ'). eexists _, _, [], [marked x].
      split; [reflexivity|]. split; [by destruct Hc; split|]. split; [done|]. split; [|done].
      unfold under_way. rewrite fn_lookup_insert, HQ. cbn. by rewrite app_nil_r.
Qed.

Lemma run_ok es c Q :
  backlog_ok c Q -> bklog_q_lock c = 1 ->
  exists c' Q' acc tk, run es c = Some (c', acc, tk) /\ backlog_ok c' Q' /\ bklog_q_lock c' = 1 /\
    (tk ++ under_way c' Q' = under_way c Q ++ map on_wire acc)%list /\
    (memory_for (length (sends es)) c -> acc = sends es).
Proof.
  revert c Q. induction es as [|e es IH]; intros c Q Hc Hk; cbn [run].
  { exists c, Q, [], []. cbn. by rewrite app_nil_r. }
  destruct (happen_ok e c Q Hc Hk) as (c1 & Q1 & acc & tk & -> & Hc1 & Hk1 & H1 & Hm1).
  destruct (IH c1 Q1 Hc1 Hk1) as (c' & Q' & acc' & tk' & Hr & Hc' & Hk' & H' & Hm').
  cbn [mbind option_bind]. rewrite Hr. cbn [mbind option_bind]. do 4 eexists. split; [reflexivity|].
  split; [exact Hc'|]. split; [done|].
  split; [by rewrite <- (assoc_L app), H', (assoc_L app), H1, map_app, (assoc_L app)|].
  change (e :: es) with ([e] ++ es)%list. unfold sends in *.
  rewrite map_app, concat_app, length_app. intros Hm.
  destruct (Hm1 _ Hm) as [Hm2 ->]. by rewrite Hm'.
Qed.

(** ** Order, and progress *)
(** C20. Packets sent by ifx_mps_data_send on CPU0, the timer and the other processor's
    receiving, in any sequence: the packets that have been taken, followed by those in the
    data FIFO and those in the back log, are exactly the packets accepted, each once, in the
    order they were sent, however often the mailbox refused; with memory for the elements of
    the list every packet is accepted. The count of the back log is the length of its list
    and the lock is free after each call. *)
Theorem packets_in_order es c Q :
  backlog_ok c Q -> bklog_q_lock c = 1 ->
  exists c' Q' acc tk, run es c = Some (c', acc, tk) /\
    (tk ++ map marked (Q' DNSTR_DATA) ++ map on_wire (map as_packet (bklog_mps_data_list c')) =
     map marked (Q DNSTR_DATA) ++ map on_wire (map as_packet (bklog_mps_data_list c)) ++
     map on_wire acc)%list /\
    (memory_for (length (sends es)) c -> acc = sends es) /\
    backlog_ok c' Q' /\ bklog_q_lock c' = 1.
Proof.
  intros Hc Hk. destruct (run_ok es c Q Hc Hk) as (c' & Q' & acc & tk & Hr & Hc' & Hk' & H & Hm).
  exists c', Q', acc, tk. split; [done|]. split; [|done]. unfold under_way in H.
  by rewrite <- (assoc_L app) in H.
Qed.

(** The other processor takes what it finds, until it finds nothing. *)
Definition drain : list event := replicate 16 Take.

Lemma drain_ok n c Q :
  backlog_ok c Q -> (length (Q DNSTR_DATA) < n)%nat ->
  exists d0 d Q', run (replicate n Take) c = Some (set_dev d c, [], map marked (Q DNSTR_DATA)) /\
    Q' DNSTR_DATA = [] /\ backlog_ok (set_dev d c) Q' /\ regs_rep (base_global d0) Q' /\
    ifx_mpsdrv_mbx_rcv MPS_CPU_1_ID MPS_DATA_MSG_TYPE d0 = (ERROR, [], d).
Proof.
  revert c Q. induction n as [|n IH]; intros c Q Hc Hn; [lia|]. cbn [replicate run happen].
  destruct (rcv_cases MPS_CPU_1_ID MPS_DATA_MSG_TYPE (dev c) Q DNSTR_DATA (backlog_regs _ _ Hc) eq_refl)
    as [r H].
  destruct (Q DNSTR_DATA) as [|m ms] eqn:HQ; destruct H as [H HQ']; rewrite H; cbn [Z.eqb OK ERROR].
  - set (c1 := set_dev (set_regs r (dev c)) c).
    assert (Hc1 : backlog_ok c1 Q) by by destruct Hc.
    destruct n as [|n].
    + exists (dev c), (set_regs r (dev c)), Q. split; [reflexivity|]. split; [exact HQ|].
      split; [exact Hc1|]. split; [apply Hc|exact H].
    + destruct (IH c1 Q Hc1) as (d0 & d & Q' & Hr & H1 & H2 & H3 & H4); [rewrite HQ; apply Nat.lt_0_succ|].
      cbn [mbind option_bind]. rewrite Hr, HQ. cbn [mbind option_bind]. exists d0, d, Q'. by split_and!.
  - set (c1 := set_dev (set_regs r (dev c)) c). set (Q1 := <[DNSTR_DATA := ms]> Q) in *.
    assert (Hc1 : backlog_ok c1 Q1) by by destruct Hc.
    destruct (IH c1 Q1 Hc1) as (d0 & d & Q' & Hr & H1 & H2 & H3 & H4);
      [unfold Q1; rewrite fn_lookup_insert; cbn in Hn; lia|].
    cbn [mbind option_bind]. rewrite Hr. unfold Q1. rewrite fn_lookup_insert. cbn [mbind option_bind].
    exists d0, d, Q'. by split_and!.
Qed.

(** A packet to a mailbox the other processor has found empty. *)
Lemma send2_drained d0 c Q seqno ptr len :
  regs_rep (base_global d0) Q -> Q DNSTR_DATA = [] -> pools_ok (pools c) ->
  ifx_mpsdrv_mbx_rcv MPS_CPU_1_ID MPS_DATA_MSG_TYPE d0 = (ERROR, [], dev c) ->
  exists c', ifx_mps_data_send2 MPS_CPU_0_ID seqno ptr len c = Some (OK, c').
Proof.
  intros HQ HQ0 Hp Hrcv. destruct (packet_header seqno ptr len) as (Hw & Hwr & Hl).
  destruct (drained_accepts MPS_CPU_0_ID MPS_CPU_1_ID MPS_DATA_MSG_TYPE
    (wire (packet_message MPS_CPU_0_ID seqno ptr len)) d0 Q DNSTR_DATA 0x20)
    as (m' & d1 & d2 & Hr & Hs & _); [done| |done|done| | |].
  - apply wire_good; [by rewrite Hw, Hl|done].
  - rewrite wire_word by lia. apply packet_mailbox.
  - unfold wire. rewrite Hw, length_take, Hl. done.
  - rewrite Hrcv in Hr. injection Hr as <-.
    destruct (mbx_send_wire MPS_CPU_0_ID (packet_message MPS_CPU_0_ID seqno ptr len) (dev c)) as [H1 H2].
    rewrite Hs in H1, H2. unfold ifx_mps_data_send2, mbx_send.
    destruct (ifx_mpsdrv_mbx_send MPS_CPU_0_ID (packet_message MPS_CPU_0_ID seqno ptr len) (dev c))
      as [[r m] d]. cbn in H1, H2. subst r d.
    change (on_cpu_0 MPS_CPU_0_ID) with true. cbv iota.
    destruct (keep_book_ok seqno (set_dev d2 c)) as (p & -> & _); [done|]. by eexists.
Qed.

Lemma bklog_loop_length l c c' :
  bklog_mps_data_list c = l -> bklog_loop MPS_CPU_0_ID l c = Some c' ->
  (length (bklog_mps_data_list c') <= length l)%nat.
Proof.
  revert c. induction l as [|e l IH]; intros c Hl; cbn [bklog_loop]; [intros [= <-]; by rewrite Hl|].
  unfold ifx_mps_data_send2, mbx_send. destruct (ifx_mpsdrv_mbx_send _ _ _) as [[r m] d].
  change (on_cpu_0 MPS_CPU_0_ID) with true. cbv iota. unfold keep_book, on_pools.
  destruct (ifx_cpu0_release_q_lists _ _ _) as [[a p]|]; [|done]. cbn [mbind option_bind].
  destruct (ifx_cpu0_topup_q_lists _ _ _) as [[b p']|]; [|done]. cbn [mbind option_bind].
  destruct (r =? OK); cbn.
  - intros H. apply IH in H; cbn; [lia|by rewrite Hl].
  - intros [= <-]. cbn. by rewrite Hl.
Qed.

Lemma tick_progress d0 c Q :
  backlog_ok c Q -> bklog_q_lock c = 1 -> regs_rep (base_global d0) Q -> Q DNSTR_DATA = [] ->
  ifx_mpsdrv_mbx_rcv MPS_CPU_1_ID MPS_DATA_MSG_TYPE d0 = (ERROR, [], dev c) ->
  exists c' Q', happen Tick c = Some (c', [], []) /\ backlog_ok c' Q' /\ bklog_q_lock c' = 1 /\
    under_way c' Q' = under_way c Q /\
    (length (bklog_mps_data_list c') <= pred (length (bklog_mps_data_list c)))%nat.
Proof.
  intros Hc Hk HQ HQ0 Hrcv. destruct (flush_ok c Q Hc Hk) as (c' & Q' & Hr & Hc' & Hu & Hk' & _).
  exists c', Q'. cbn [happen]. unfold flush_bklog_timer_handler. rewrite Hr. split; [done|].
  do 3 (split; [done|]). pose proof (backlog_count _ _ Hc) as Hn.
  unfold flush_bklog_q, ifx_mps_send_from_bklog_q in Hr. cbn [set_lock bklog_q_lock] in Hr. rewrite Hk in Hr.
  change (negb (1 - 1 =? 0)) with false in Hr. cbv iota in Hr.
  change (bklog_mps_data_list (set_lock (1 - 1) c)) with (bklog_mps_data_list c) in Hr.
  destruct (bklog_mps_data_list c) as [|e l] eqn:Hl.
  { rewrite Hn in Hr. injection Hr as <-. by rewrite Hl. }
  assert (nz (bklog_pkts c) = true) as Hnz by (rewrite Hn; cbn; done). rewrite Hnz in Hr.
  cbn [bklog_loop] in Hr.
  destruct (send2_drained d0 (set_lock (1 - 1) c) Q (service_sequence_number e) (datapointer e) (len e))
    as (c1 & Hs); [done..|apply Hc|done|]. rewrite Hs in Hr. cbn [mbind option_bind Z.eqb OK] in Hr.
  destruct (send2_cases (set_lock (1 - 1) c) Q (service_sequence_number e) (datapointer e) (len e))
    as (r & c2 & Hs2 & Hso & _); [apply Hc..|]. rewrite Hs in Hs2. injection Hs2 as <- <-.
  destruct (bklog_loop _ _ _) as [c3|] eqn:Hloop; [|done]. injection Hr as <-. cbn [length pred].
  apply bklog_loop_length in Hloop; [done|]. cbn. rewrite (sent_only_list _ _ Hso). cbn. by rewrite Hl.
Qed.

Lemma run_app es es' c :
  run (es ++ es') c =
    ('(c, acc, tk) ← run es c; '(c, acc', tk') ← run es' c; Some (c, acc ++ acc', tk ++ tk')%list).
Proof.
  revert c. induction es as [|e es IH]; intros c; cbn [app run mbind option_bind].
  { by destruct (run es' c) as [[[c' acc] tk]|]. }
  destruct (happen e c) as [[[c1 acc1] tk1]|]; [|done]. cbn [mbind option_bind]. rewrite IH.
  destruct (run es c1) as [[[c2 acc2] tk2]|]; [|done]. cbn [mbind option_bind].
  destruct (run es' c2) as [[[c3 acc3] tk3]|]; [|done]. cbn. by rewrite !(assoc_L app).
Qed.

(** C21. A back log of n packets is empty after at most n rounds in which the other
    processor takes what is in the data FIFO and the timer fires once: every packet has then
    been handed over, in order, and the count is 0. No packet stays behind because the
    mailbox has refused it. *)
Theorem backlog_drains n c Q :
  backlog_ok c Q -> bklog_q_lock c = 1 -> (length (bklog_mps_data_list c) <= n)%nat ->
  exists c' Q' tk, run (concat (replicate n (drain ++ [Tick])%list)) c = Some (c', [], tk) /\
    bklog_mps_data_list c' = [] /\ bklog_pkts c' = 0 /\ bklog_q_lock c' = 1 /\
    regs_rep (base_global (dev c')) Q' /\
    (tk ++ map marked (Q' DNSTR_DATA))%list =
    (map marked (Q DNSTR_DATA) ++ map on_wire (map as_packet (bklog_mps_data_list c)))%list.
Proof.
  revert c Q. induction n as [|n IH]; intros c Q Hc Hk Hn.
  { exists c, Q, []. destruct Hc as [HQ Hp Hcnt]. destruct (bklog_mps_data_list c); [|cbn in Hn; lia].
    cbn. by rewrite app_nil_r. }
  cbn [replicate concat]. rewrite <- (assoc_L app), run_app.
  destruct (drain_ok 16 c Q Hc) as (d0 & d & Q1 & Hr1 & HQ1 & Hc1 & Hd0 & Hrcv).
  { pose proof (fifo_count_bound _ _ DNSTR_DATA (backlog_regs _ _ Hc)) as H. cbn in H. lia. }
  unfold drain. rewrite Hr1. cbn [mbind option_bind]. rewrite run_app. cbn [run].
  destruct (tick_progress d0 (set_dev d c) Q1 Hc1 Hk Hd0 HQ1 Hrcv)
    as (c2 & Q2 & Hr2 & Hc2 & Hk2 & Hu2 & Hlen). rewrite Hr2. cbn [mbind option_bind].
  destruct (IH c2 Q2 Hc2 Hk2) as (c' & Q' & tk & Hr & Hb & Hp & Hk' & HQ' & Htk); [cbn in Hlen; lia|].
  unfold drain in Hr. rewrite Hr. cbn [mbind option_bind app].
  exists c', Q', (map marked (Q DNSTR_DATA) ++ tk)%list. split_and!; try done.
  rewrite <- (assoc_L app), Htk. f_equal. unfold under_way in Hu2. rewrite Hu2, HQ1. done.
Qed.

(** ** A processor the theorems apply to *)
(** After the initialisation, with memory for two packets; and with a packet in the back log. *)
Definition start_client : client :=
  mk_client start_dev pool_mps [] 0 1 [] [] empty_message 0 0 ∅ [0x8000; 0x8040] [].
Definition behind_client : client := set_bklog [mk_data_list 0x8080 10 0x2000 60] 1 start_client.

Lemma start_client_ok : backlog_ok start_client (fun _ => []).
Proof. split; [exact start_rep|exact pool_mps_ok|reflexivity]. Qed.
Lemma behind_client_ok : backlog_ok behind_client (fun _ => []).
Proof. split; [exact start_rep|exact pool_mps_ok|reflexivity]. Qed.
Lemma start_memory : memory_for 2 start_client.
Proof. intros [|[|i]] Hi; [by eexists..|lia]. Qed.

Lemma packets_in_order_witness :
  exists c' Q' tk, run [Send (10, 0x1000, 60); Take; Tick; Send (10, 0x3000, 60)] behind_client =
      Some (c', [(10, 0x1000, 60); (10, 0x3000, 60)], tk) /\
    (tk ++ map marked (Q' DNSTR_DATA) ++ map on_wire (map as_packet (bklog_mps_data_list c')) =
     [on_wire (10, 0x2000, 60); on_wire (10, 0x1000, 60); on_wire (10, 0x3000, 60)])%list.
Proof.
  destruct (packets_in_order [Send (10, 0x1000, 60); Take; Tick; Send (10, 0x3000, 60)] behind_client
    (fun _ => []) behind_client_ok eq_refl) as (c' & Q' & acc & tk & Hr & Ho & Hm & _ & _).
  rewrite (Hm start_memory) in Hr, Ho. exists c', Q', tk. split; [exact Hr|exact Ho].
Defined.

Lemma backlog_drains_witness :
  exists c' Q' tk, run (concat (replicate 1 (drain ++ [Tick])%list)) behind_client = Some (c', [], tk) /\
    bklog_mps_data_list c' = [] /\ (tk ++ map marked (Q' DNSTR_DATA))%list = [on_wire (10, 0x2000, 60)].
Proof.
  destruct (backlog_drains 1 behind_client (fun _ => []) behind_client_ok eq_refl (le_n 1))
    as (c' & Q' & tk & Hr & Hl & _ & _ & _ & Htk).
  exists c', Q', tk. split; [exact Hr|]. split; [exact Hl|exact Htk].
Defined.
