(* ===== verification/MpsPreempt.v ===== *)
(** * MpsPreempt: [ifx_mps_data_send] with interrupts inside it

    A call made by a process is cut into its steps: the test of the list, the send, which
    runs with interrupts disabled, [kmalloc], [list_add_tail], [atomic_inc], the lock, the
    reads of [list_for_each_safe], [list_del], [kfree], [atomic_dec].  Between any two of them
    an interrupt can make a whole call of its own, the timer can run, and the other processor
    can take a message; the count of the back log is then one off the length of its list.
    [steps_of_send] and [steps_of_flush] say that the steps, uninterrupted, are the functions
    of MpsClient.v.  Only the stores to the pointers inside [list_add_tail] and [list_del] are
    not cut; the last section shows what becomes of the list when they are interrupted
    there. *)
From stdpp Require Import functions sorting.
From S2P Require Import Prelude MpsBuffer MpsProps Mailbox MailboxProps MailboxDevice MpsClient MpsBacklog.
Import Mps Mbx Client.

(** ** The steps *)
(** Where the process is: before the operation the constructor names.  [Insert e] is before
    [list_add_tail] of the new element, [Count] before [atomic_inc]; [First] is before
    [head->next] is read, [Next n] before the turn for [n] (None is the head of the list)
    begins, by reading the element after it; [Body curr n] is before [ifx_mps_data_send2] on
    [curr], with [n] what was read; [Delete], [Free] and [CountDown] are before [list_del],
    [kfree] and [atomic_dec]. *)
Inductive pc :=
| Idle
| Test (p : packet) | SendNow (p : packet) | Queue (p : packet)
| Insert (e : mps_data_list) | Count
| Lock | GiveUp | First
| Next (n : option mps_data_list)
| Body (curr : mps_data_list) (n : option mps_data_list)
| Delete (curr : mps_data_list) (n : option mps_data_list)
| Free (curr : mps_data_list) (n : option mps_data_list)
| CountDown (n : option mps_data_list)
| Unlock.

Record outcome := mk_outcome { at_pc : pc; state : client; taken_in : list packet; result : option Z }.

Definition goes (at_pc : pc) (c : client) : option outcome := Some (mk_outcome at_pc c [] None).
Definition returns (r : Z) (c : client) (acc : list packet) : option outcome :=
  Some (mk_outcome Idle c acc (Some r)).

(** [atomic_inc] and [atomic_dec] on [bklog_pkts]. *)
Definition add_pkts (k : Z) (c : client) : client := set_bklog (bklog_mps_data_list c) (bklog_pkts c + k) c.

Definition step (at_pc : pc) (c : client) : option outcome :=
  match at_pc with
  | Idle => None
  | Test p => goes (if list_empty c then SendNow p else Queue p) c
  | SendNow p =>
      let '(seqno, ptr, len) := p in
      '(r, c) ← ifx_mps_data_send2 MPS_CPU_0_ID seqno ptr len c;
      if r =? OK then returns OK c [p] else goes (Queue p) c
  | Queue p =>
      let '(seqno, ptr, len) := p in
      let (a, c) := kernel (Kmalloc 20) c in
      if a =? 0 then returns EFAIL c [] else goes (Insert (mk_data_list a seqno ptr len)) c
  | Insert e =>
      Some (mk_outcome Count (set_bklog (bklog_mps_data_list c ++ [e]) (bklog_pkts c) c) [as_packet e] None)
  | Count => goes Lock (add_pkts 1 c)
  | Lock =>
      let c := set_lock (bklog_q_lock c - 1) c in
      goes (if negb (bklog_q_lock c =? 0) then GiveUp else First) c
  | GiveUp => returns EFAIL (set_lock (bklog_q_lock c + 1) c) []
  | First => goes (Next (head (bklog_mps_data_list c))) c
  | Next n =>
      goes (match n with None => Unlock | Some e => Body e (head (tl (bklog_mps_data_list c))) end) c
  | Body curr n =>
      '(r, c) ← ifx_mps_data_send2 MPS_CPU_0_ID (service_sequence_number curr) (datapointer curr) (len curr) c;
      goes (if r =? OK then Delete curr n else Unlock) c
  | Delete curr n => goes (Free curr n) (set_bklog (tl (bklog_mps_data_list c)) (bklog_pkts c) c)
  | Free curr n => goes (CountDown n) (kernel_do (Kfree (list_elem curr)) c)
  | CountDown n => goes (Next n) (add_pkts (-1) c)
  | Unlock => returns OK (set_lock (bklog_q_lock c + 1) c) []
  end.

(** Steps without an interrupt, to the end of the call. *)
Inductive steps : pc -> client -> client -> list packet -> Z -> Prop :=
| steps_end pc c o r : step pc c = Some o -> result o = Some r -> steps pc c (state o) (taken_in o) r
| steps_more pc c o c' acc r : step pc c = Some o -> result o = None ->
    steps (at_pc o) (state o) c' acc r -> steps pc c c' (taken_in o ++ acc) r.

Lemma steps_goes at_ at' c c1 c' acc r :
  step at_ c = goes at' c1 -> steps at' c1 c' acc r -> steps at_ c c' acc r.
Proof. intros Hs H. exact (steps_more at_ c _ c' acc r Hs eq_refl H). Qed.
Lemma steps_returns at_ c r c' acc : step at_ c = returns r c' acc -> steps at_ c c' acc r.
Proof. intros Hs. exact (steps_end at_ c _ r Hs eq_refl). Qed.

Lemma send2_list seqno ptr len c r c1 :
  ifx_mps_data_send2 MPS_CPU_0_ID seqno ptr len c = Some (r, c1) -> bklog_mps_data_list c1 = bklog_mps_data_list c.
Proof.
  unfold ifx_mps_data_send2, mbx_send. destruct (ifx_mpsdrv_mbx_send _ _ _) as [[r0 m] d].
  change (on_cpu_0 MPS_CPU_0_ID) with true. cbv iota. unfold keep_book, on_pools.
  destruct (ifx_cpu0_release_q_lists _ _ _) as [[a p]|]; [|done]. cbn [mbind option_bind].
  destruct (ifx_cpu0_topup_q_lists _ _ _) as [[b p']|]; [|done]. cbn. by intros [= _ <-].
Qed.

Lemma steps_of_loop l c c' :
  bklog_mps_data_list c = l -> bklog_loop MPS_CPU_0_ID l c = Some c' ->
  steps (Next (head l)) c (set_lock (bklog_q_lock c' + 1) c') [] OK.
Proof.
  revert c. induction l as [|e l IH]; intros c Hl; cbn [bklog_loop].
  { intros [= <-]. eapply steps_goes; [reflexivity|]. by apply steps_returns. }
  destruct (ifx_mps_data_send2 _ _ _ _ c) as [[r c1]|] eqn:Hs; [|done]. cbn [mbind option_bind].
  pose proof (send2_list _ _ _ _ _ _ Hs) as Hl1. rewrite Hl in Hl1.
  intros Hloop. eapply steps_goes; [reflexivity|]. rewrite Hl. cbn [head tl].
  eapply steps_goes; [cbn [step]; rewrite Hs; reflexivity|]. destruct (r =? OK).
  - do 3 (eapply steps_goes; [reflexivity|]). rewrite Hl1. cbn [tl].
    replace (add_pkts _ _) with (bklog_remove e c1); [by apply IH; [cbn; rewrite Hl1|]|].
    unfold bklog_remove, add_pkts. cbn. by rewrite Hl1.
  - injection Hloop as <-. by apply steps_returns.
Qed.

Lemma steps_of_flush c c' r :
  ifx_mps_send_from_bklog_q MPS_CPU_0_ID c = Some (r, c') -> steps Lock c c' [] r.
Proof.
  unfold ifx_mps_send_from_bklog_q. intros H. eapply steps_goes; [reflexivity|].
  destruct (bklog_q_lock _ =? 0); cbn [negb] in *.
  - destruct (bklog_loop _ _ _) as [c1|] eqn:Hl; [|done]. injection H as <- <-.
    eapply steps_goes; [reflexivity|]. by eapply steps_of_loop.
  - injection H as <- <-. by apply steps_returns.
Qed.

(** The steps, uninterrupted, are [ifx_mps_data_send]. *)
Lemma steps_of_send seqno ptr len c c' r :
  ifx_mps_data_send MPS_CPU_0_ID seqno ptr len c = Some (r, c') ->
  exists acc, steps (Test (seqno, ptr, len)) c c' acc r.
Proof.
  assert (Hlater : forall c, data_send_later MPS_CPU_0_ID seqno ptr len c = Some (r, c') ->
                     exists acc, steps (Queue (seqno, ptr, len)) c c' acc r).
  { intros c0. unfold data_send_later, ifx_mps_data_enqueue, kernel.
    destruct (hd 0 (answers c0) =? 0) eqn:Ha.
    - intros [= <- <-]. eexists. apply steps_returns. cbn [step]. unfold kernel. by rewrite Ha.
    - intros H%steps_of_flush. eexists. eapply steps_goes; [cbn [step]; unfold kernel; rewrite Ha; reflexivity|].
      eapply steps_more; [reflexivity|done|]. eapply steps_goes; [reflexivity|exact H]. }
  unfold ifx_mps_data_send. destruct (list_empty c) eqn:Hemp.
  - destruct (ifx_mps_data_send2 _ _ _ _ c) as [[r1 c1]|] eqn:Hs; [|done]. cbn [mbind option_bind].
    destruct (r1 =? OK) eqn:Hr.
    + intros [= <- <-]. eexists. eapply steps_goes; [cbn [step]; rewrite Hemp; reflexivity|].
      apply steps_returns. cbn [step]. rewrite Hs. cbn. by rewrite Hr.
    + intros (acc & H)%Hlater. exists acc. eapply steps_goes; [cbn [step]; rewrite Hemp; reflexivity|].
      eapply steps_goes; [|exact H]. cbn [step]. rewrite Hs. cbn. by rewrite Hr.
  - intros (acc & H)%Hlater. exists acc. eapply steps_goes; [cbn [step]; rewrite Hemp; reflexivity|exact H].
Qed.

(** ** A call of an interrupt *)
(** Whether a call of [ifx_mps_data_send] takes the packet over: it is sent at once, or there
    is memory for an element of the list. *)
Definition entered (seqno ptr len : Z) (c : client) : bool :=
  (list_empty c &&
   match ifx_mps_data_send2 MPS_CPU_0_ID seqno ptr len c with Some (r, _) => r =? OK | None => false end) ||
  nz (hd 0 (answers c)).

Lemma later_cases seqno ptr len c Q :
  backlog_ok c Q ->
  (exists c1, data_send_later MPS_CPU_0_ID seqno ptr len c = Some (EFAIL, c1) /\ backlog_ok c1 Q /\
     bklog_mps_data_list c1 = bklog_mps_data_list c /\ bklog_q_lock c1 = bklog_q_lock c /\
     nz (hd 0 (answers c)) = false) \/
  (exists c1 e, data_send_later MPS_CPU_0_ID seqno ptr len c = ifx_mps_send_from_bklog_q MPS_CPU_0_ID c1 /\
     backlog_ok c1 Q /\ bklog_mps_data_list c1 = (bklog_mps_data_list c ++ [e])%list /\
     as_packet e = (seqno, ptr, len) /\ bklog_q_lock c1 = bklog_q_lock c /\
     answers c1 = tl (answers c) /\ nz (hd 0 (answers c)) = true).
Proof.
  intros [HQ Hp Hn]. unfold data_send_later, ifx_mps_data_enqueue, kernel, nz.
  destruct (Z.eqb_spec (hd 0 (answers c)) 0) as [He|He].
  - left. eexists. split; [reflexivity|]. by split_and!.
  - right. eexists _, _. split; [reflexivity|]. split_and!; try done. split; [done..|].
    cbn. rewrite length_app, Hn. cbn. lia.
Qed.

Lemma send_cases seqno ptr len c Q :
  backlog_ok c Q ->
  (exists c1, list_empty c = true /\ ifx_mps_data_send MPS_CPU_0_ID seqno ptr len c = Some (OK, c1) /\
     sent_only c c1 /\
     backlog_ok c1 (<[DNSTR_DATA := (Q DNSTR_DATA ++ [packet_wire (seqno, ptr, len)])%list]> Q) /\
     entered seqno ptr len c = true) \/
  (exists c1, ifx_mps_data_send MPS_CPU_0_ID seqno ptr len c = Some (EFAIL, c1) /\ backlog_ok c1 Q /\
     bklog_mps_data_list c1 = bklog_mps_data_list c /\ bklog_q_lock c1 = bklog_q_lock c /\
     entered seqno ptr len c = false) \/
  (exists c1 e, ifx_mps_data_send MPS_CPU_0_ID seqno ptr len c = ifx_mps_send_from_bklog_q MPS_CPU_0_ID c1 /\
     backlog_ok c1 Q /\ bklog_mps_data_list c1 = (bklog_mps_data_list c ++ [e])%list /\
     as_packet e = (seqno, ptr, len) /\ bklog_q_lock c1 = bklog_q_lock c /\
     answers c1 = tl (answers c) /\ entered seqno ptr len c = true).
Proof.
  intros Hc. unfold ifx_mps_data_send, entered. destruct (list_empty c) eqn:Hemp; cbn [andb].
  - destruct (send2_cases c Q seqno ptr len) as (r & c1 & -> & Hs & Hp & H); [apply Hc..|].
    cbn [mbind option_bind]. destruct H as [[-> HQ]|[-> HQ]]; cbn [Z.eqb OK EFAIL orb].
    + left. exists c1. split_and!; try done. by eapply backlog_ok_sent.
    + right. pose proof (backlog_ok_sent _ _ _ _ Hc Hs HQ Hp) as Hc1.
      destruct Hs as (d & p & ->). destruct (later_cases seqno ptr len _ Q Hc1) as [H|H]; [by left|by right].
  - right. cbn [orb]. destruct (later_cases seqno ptr len c Q Hc) as [H|H]; [by left|by right].
Qed.

(** While the lock is held, the list of a call is left alone but for its end. *)
Lemma flush_locked c :
  bklog_q_lock c = 0 -> ifx_mps_send_from_bklog_q MPS_CPU_0_ID c = Some (EFAIL, set_lock 0 c).
Proof. intros Hk. unfold ifx_mps_send_from_bklog_q. cbn [set_lock bklog_q_lock]. by rewrite Hk. Qed.

(** ** A process and its interrupts *)
Inductive action := CallSend (p : packet) | Step | IrqSend (p : packet) | IrqTick | PeerTake.

Record sys := mk_sys { process : pc; cl : client }.
(** What an action adds: the packets taken over and the messages the other processor takes. *)
Definition moves (at_ : pc) (c : client) (acc : list packet) (tk : list (list Z)) :
    option (sys * list packet * list (list Z)) := Some (mk_sys at_ c, acc, tk).

Definition sys_act (a : action) (s : sys) : option (sys * list packet * list (list Z)) :=
  match a with
  | CallSend p => match process s with Idle => moves (Test p) (cl s) [] [] | _ => None end
  | Step => o ← step (process s) (cl s); moves (at_pc o) (state o) (taken_in o) []
  | IrqSend (seqno, ptr, len) =>
      '(_, c) ← ifx_mps_data_send MPS_CPU_0_ID seqno ptr len (cl s);
      moves (process s) c (if entered seqno ptr len (cl s) then [(seqno, ptr, len)] else []) []
  | IrqTick => c ← flush_bklog_timer_handler MPS_CPU_0_ID (cl s); moves (process s) c [] []
  | PeerTake =>
      let '(r, m, d) := ifx_mpsdrv_mbx_rcv MPS_CPU_1_ID MPS_DATA_MSG_TYPE (dev (cl s)) in
      moves (process s) (set_dev d (cl s)) [] (if r =? OK then [m] else [])
  end.
(** The process can begin a call when it is in none, and go on when it is in one. *)
Definition possible (a : action) (at_ : pc) : bool :=
  match a, at_ with
  | CallSend _, Idle => true | CallSend _, _ => false
  | Step, Idle => false | _, _ => true
  end.

Fixpoint acts (l : list action) (s : sys) : option (sys * list packet * list (list Z)) :=
  match l with
  | [] => moves (process s) (cl s) [] []
  | a :: l' =>
      if possible a (process s) then
        '(s, acc, tk) ← sys_act a s; '(s, acc', tk') ← acts l' s; Some (s, acc ++ acc', tk ++ tk')%list
      else acts l' s
  end.

(** ** Calls and the count *)
(** The calls neither read the count nor depend on it, the test of the timer apart. *)
Definition counted {A} (k : Z) (r : option (A * client)) : option (A * client) :=
  (fun x => (x.1, add_pkts k x.2)) <$> r.

Lemma send2_counted k seqno ptr len c :
  ifx_mps_data_send2 MPS_CPU_0_ID seqno ptr len (add_pkts k c) =
  counted k (ifx_mps_data_send2 MPS_CPU_0_ID seqno ptr len c).
Proof.
  unfold ifx_mps_data_send2, mbx_send. cbn [add_pkts set_bklog dev].
  destruct (ifx_mpsdrv_mbx_send _ _ _) as [[r m] d].
  change (on_cpu_0 MPS_CPU_0_ID) with true. cbv iota. unfold keep_book, on_pools. cbn [set_dev pools].
  destruct (ifx_cpu0_release_q_lists _ _ _) as [[a p]|]; [|done]. cbn [mbind option_bind set_pools pools].
  by destruct (ifx_cpu0_topup_q_lists _ _ _) as [[b p']|].
Qed.
Lemma remove_counted k e c : bklog_remove e (add_pkts k c) = add_pkts k (bklog_remove e c).
Proof. unfold bklog_remove, add_pkts, kernel_do, set_bklog. cbn. f_equal. lia. Qed.
Lemma loop_counted k l c :
  bklog_loop MPS_CPU_0_ID l (add_pkts k c) = add_pkts k <$> bklog_loop MPS_CPU_0_ID l c.
Proof.
  revert c. induction l as [|e l IH]; intros c; [done|]. cbn [bklog_loop]. rewrite send2_counted.
  destruct (ifx_mps_data_send2 _ _ _ _ c) as [[r c1]|]; [|done]. cbn.
  destruct (r =? OK); [|done]. by rewrite remove_counted, IH.
Qed.
Lemma flush_counted k c :
  ifx_mps_send_from_bklog_q MPS_CPU_0_ID (add_pkts k c) = counted k (ifx_mps_send_from_bklog_q MPS_CPU_0_ID c).
Proof.
  unfold ifx_mps_send_from_bklog_q.
  change (set_lock (bklog_q_lock (add_pkts k c) - 1) (add_pkts k c)) with (add_pkts k (set_lock (bklog_q_lock c - 1) c)).
  set (c0 := set_lock _ c). change (bklog_q_lock (add_pkts k c0)) with (bklog_q_lock c0).
  destruct (negb _); [done|]. change (bklog_mps_data_list (add_pkts k c0)) with (bklog_mps_data_list c0).
  rewrite loop_counted. by destruct (bklog_loop _ _ c0).
Qed.
Lemma later_counted k seqno ptr len c :
  data_send_later MPS_CPU_0_ID seqno ptr len (add_pkts k c) = counted k (data_send_later MPS_CPU_0_ID seqno ptr len c).
Proof.
  unfold data_send_later, ifx_mps_data_enqueue, kernel. cbn [add_pkts set_bklog answers].
  destruct (hd 0 (answers c) =? 0); [done|]. cbn [Z.eqb OK EFAIL]. rewrite <- flush_counted. f_equal.
  unfold add_pkts, set_bklog. cbn. f_equal. lia.
Qed.
Lemma send_counted k seqno ptr len c :
  ifx_mps_data_send MPS_CPU_0_ID seqno ptr len (add_pkts k c) = counted k (ifx_mps_data_send MPS_CPU_0_ID seqno ptr len c).
Proof.
  unfold ifx_mps_data_send. change (list_empty (add_pkts k c)) with (list_empty c).
  destruct (list_empty c); [|apply later_counted]. rewrite send2_counted.
  destruct (ifx_mps_data_send2 _ _ _ _ c) as [[r c1]|]; [|done]. cbn. destruct (r =? OK); [done|apply later_counted].
Qed.
Lemma entered_counted k seqno ptr len c : entered seqno ptr len (add_pkts k c) = entered seqno ptr len c.
Proof.
  unfold entered. change (list_empty (add_pkts k c)) with (list_empty c). rewrite send2_counted.
  by destruct (ifx_mps_data_send2 _ _ _ _ c) as [[]|].
Qed.
Lemma add_pkts_add j k c : add_pkts j (add_pkts k c) = add_pkts (k + j) c.
Proof. unfold add_pkts, set_bklog. cbn. f_equal. lia. Qed.
Lemma add_pkts_0 c : add_pkts 0 c = c.
Proof. unfold add_pkts. rewrite Z.add_0_r. by destruct c. Qed.

(** ** What holds whatever the interrupts *)
Definition holding (at_ : pc) : bool :=
  match at_ with
  | First | Next _ | Body _ _ | Delete _ _ | Free _ _ | CountDown _ | Unlock => true
  | _ => false
  end.
(** How far the count is ahead of the list. *)
Definition ahead (at_ : pc) : Z :=
  match at_ with Count => -1 | Free _ _ | CountDown _ => 1 | _ => 0 end.
(** The element that has been sent is still in the list. *)
Definition pending (at_ : pc) (c : client) : list mps_data_list :=
  match at_ with Delete _ _ => tl (bklog_mps_data_list c) | _ => bklog_mps_data_list c end.
Definition in_flight (at_ : pc) (c : client) (Q : mailboxes) : list (list Z) :=
  (map marked (Q DNSTR_DATA) ++ map on_wire (map as_packet (pending at_ c)))%list.

(** The elements a call still looks at are in the list, at its head. *)
Definition cursor_ok (at_ : pc) (l : list mps_data_list) : Prop :=
  match at_ with
  | Body e n | Delete e n => exists l', l = e :: l' /\ (n = None \/ n = head l')
  | Free _ n | CountDown n | Next n => n = None \/ n = head l
  | GiveUp => False
  | _ => True
  end.

(** With the count made up for what the call has still to do to it. *)
Record held_ok (at_ : pc) (c : client) (Q : mailboxes) : Prop := {
  sys_backlog : backlog_ok c Q;
  sys_lock : bklog_q_lock c = if holding at_ then 0 else 1;
  sys_cursor : cursor_ok at_ (bklog_mps_data_list c) }.
Definition sys_ok (at_ : pc) (c : client) (Q : mailboxes) : Prop := held_ok at_ (add_pkts (- ahead at_) c) Q.

Lemma sys_held at_ c Q : ahead at_ = 0 -> sys_ok at_ c Q -> held_ok at_ c Q.
Proof. intros H. unfold sys_ok. by rewrite H, add_pkts_0. Qed.
Lemma held_sys at_ c Q : ahead at_ = 0 -> held_ok at_ c Q -> sys_ok at_ c Q.
Proof. intros H. unfold sys_ok. by rewrite H, add_pkts_0. Qed.
Lemma settled at_ c : c = add_pkts (ahead at_) (add_pkts (- ahead at_) c).
Proof. by rewrite add_pkts_add, Z.add_opp_diag_l, add_pkts_0. Qed.
Lemma sys_ok_ahead at_ c Q : held_ok at_ c Q -> sys_ok at_ (add_pkts (ahead at_) c) Q.
Proof. intros H. unfold sys_ok. by rewrite add_pkts_add, Z.add_opp_diag_r, add_pkts_0. Qed.
Lemma in_flight_counted at_ k c Q : in_flight at_ (add_pkts k c) Q = in_flight at_ c Q.
Proof. by destruct at_. Qed.

(** The list grows at its end. *)
Lemma cursor_ok_grows at_ l l' : cursor_ok at_ l -> cursor_ok at_ (l ++ l').
Proof.
  assert (Hhead : forall (n : option mps_data_list) k, n = None \/ n = head k -> n = None \/ n = head (k ++ l')%list)
    by (intros n [|e k] [Hn|Hn]; auto).
  destruct at_; cbn [cursor_ok]; try done; try apply Hhead;
    intros (l0 & -> & Hn); exists (l0 ++ l')%list; (split; [done|by apply Hhead]).
Qed.
Lemma cursor_grows at_ c c' Q Q' l :
  held_ok at_ c Q -> backlog_ok c' Q' -> bklog_q_lock c' = bklog_q_lock c ->
  bklog_mps_data_list c' = (bklog_mps_data_list c ++ l)%list -> held_ok at_ c' Q'.
Proof.
  intros [_ Hk Hcur] Hc' Hk' Hl. split; [done|congruence|]. rewrite Hl. by apply cursor_ok_grows.
Qed.
Lemma pending_grows at_ c c' Q l :
  held_ok at_ c Q -> bklog_mps_data_list c' = (bklog_mps_data_list c ++ l)%list ->
  pending at_ c' = (pending at_ c ++ l)%list.
Proof.
  intros [_ _ Hcur] Hl. unfold pending. rewrite Hl. destruct at_; try done.
  by destruct Hcur as (l0 & -> & _).
Qed.

Lemma not_holding at_ c : holding at_ = false -> pending at_ c = bklog_mps_data_list c.
Proof. by destruct at_. Qed.
Lemma held_ok_free at_ c c' Q Q' :
  holding at_ = false -> held_ok at_ c Q -> backlog_ok c' Q' -> bklog_q_lock c' = 1 -> held_ok at_ c' Q'.
Proof. intros Hh [_ _ Hcur] Hc' Hk'. split; [done|by rewrite Hh|]. by destruct at_. Qed.
Lemma in_flight_free at_ c Q : holding at_ = false -> in_flight at_ c Q = under_way c Q.
Proof. intros Hh. unfold in_flight. by rewrite not_holding. Qed.
Lemma locked_ok at_ c Q : holding at_ = true -> held_ok at_ c Q -> held_ok at_ (set_lock 0 c) Q.
Proof. intros Hh [[HQ Hp Hn] Hk Hcur]. split; [by split|by rewrite Hh|done]. Qed.

Lemma irq_send_held at_ c Q p :
  held_ok at_ c Q ->
  exists c' Q' acc, sys_act (IrqSend p) (mk_sys at_ c) = Some (mk_sys at_ c', acc, []) /\ held_ok at_ c' Q' /\
    in_flight at_ c' Q' = (in_flight at_ c Q ++ map on_wire acc)%list.
Proof.
  intros Hok. pose proof Hok as [Hc Hk Hcur]. destruct p as [[seqno ptr] len]. cbn [sys_act process cl].
  destruct (send_cases seqno ptr len c Q Hc) as
    [(c1 & Hemp & -> & Hs & Hc1 & ->)|[(c1 & -> & Hc1 & Hl & Hk1 & ->)|(c1 & e & -> & Hc1 & Hl & He & Hk1 & _ & ->)]].
  - cbn [mbind option_bind]. do 3 eexists. split; [reflexivity|].
    pose proof (sent_only_list _ _ Hs) as Hl1. unfold list_empty in Hemp.
    destruct (bklog_mps_data_list c) eqn:Hl; [|done].
    split; [eapply (cursor_grows at_ c c1 Q _ []); try done; [by apply sent_only_lock|by rewrite Hl1, Hl]|].
    unfold in_flight. rewrite fn_lookup_insert.
    assert (forall c0, bklog_mps_data_list c0 = [] -> pending at_ c0 = []) as Hpend
      by (intros c0 H0; unfold pending; rewrite H0; by destruct at_).
    rewrite !Hpend by congruence. cbn [map]. by rewrite map_app, !app_nil_r.
  - cbn [mbind option_bind]. exists c1, Q, []. split; [reflexivity|].
    split; [eapply (cursor_grows at_ c c1 Q Q []); try done; by rewrite Hl, app_nil_r|].
    unfold in_flight. rewrite (pending_grows at_ c c1 Q []) by (done || by rewrite Hl, app_nil_r).
    by rewrite !app_nil_r.
  - pose proof (cursor_grows at_ c c1 Q Q [e] Hok Hc1 Hk1 Hl) as Hok1.
    assert (Hf : in_flight at_ c1 Q = (in_flight at_ c Q ++ map on_wire [(seqno, ptr, len)])%list).
    { unfold in_flight. rewrite (pending_grows at_ c c1 Q [e] Hok Hl), !map_app, <- He. by rewrite (assoc_L app). }
    destruct (holding at_) eqn:Hh.
    + rewrite flush_locked by congruence. cbn [mbind option_bind]. exists (set_lock 0 c1), Q, [(seqno, ptr, len)].
      split; [reflexivity|]. split; [by apply locked_ok|]. by rewrite <- Hf.
    + destruct (send_from_bklog_ok c1 Q Hc1) as (c' & Q' & -> & Hc' & Hu & Hk' & _); [congruence|].
      cbn [mbind option_bind]. exists c', Q', [(seqno, ptr, len)]. split; [reflexivity|].
      split; [by eapply held_ok_free|]. by rewrite <- Hf, !in_flight_free.
Qed.

Lemma irq_send_ok at_ c Q p :
  sys_ok at_ c Q ->
  exists c' Q' acc, sys_act (IrqSend p) (mk_sys at_ c) = Some (mk_sys at_ c', acc, []) /\ sys_ok at_ c' Q' /\
    in_flight at_ c' Q' = (in_flight at_ c Q ++ map on_wire acc)%list.
Proof.
  intros Hok. destruct (irq_send_held at_ _ Q p Hok) as (c' & Q' & acc & Hact & Hok' & Hf).
  exists (add_pkts (ahead at_) c'), Q', acc. rewrite in_flight_counted in Hf |- *.
  split; [|split; [by apply sys_ok_ahead|exact Hf]].
  replace c with (add_pkts (ahead at_) (add_pkts (- ahead at_) c)) by (symmetry; apply settled).
  revert Hact. generalize (add_pkts (- ahead at_) c) as c0. intros c0. destruct p as [[seqno ptr] len]. cbn [sys_act process cl].
  rewrite send_counted, entered_counted. destruct (ifx_mps_data_send _ _ _ _ _) as [[r c1]|]; [|done].
  cbn. unfold moves. intros Heq. by injection Heq as -> ->.
Qed.

Lemma flush_held at_ c Q :
  held_ok at_ c Q ->
  exists r c' Q', ifx_mps_send_from_bklog_q MPS_CPU_0_ID c = Some (r, c') /\ held_ok at_ c' Q' /\
    in_flight at_ c' Q' = in_flight at_ c Q.
Proof.
  intros Hok. pose proof Hok as [Hc Hk Hcur]. destruct (holding at_) eqn:Hh.
  - rewrite flush_locked by done. exists EFAIL, (set_lock 0 c), Q. split; [done|]. by split; [apply locked_ok|].
  - destruct (send_from_bklog_ok c Q Hc Hk) as (c' & Q' & -> & Hc' & Hu & Hk' & _).
    exists OK, c', Q'. split; [done|]. split; [by eapply held_ok_free|]. by rewrite !in_flight_free.
Qed.
Lemma irq_tick_ok at_ c Q :
  sys_ok at_ c Q ->
  exists c' Q', sys_act IrqTick (mk_sys at_ c) = Some (mk_sys at_ c', [], []) /\ sys_ok at_ c' Q' /\
    in_flight at_ c' Q' = in_flight at_ c Q.
Proof.
  intros Hok. cbn [sys_act process cl]. unfold flush_bklog_timer_handler, flush_bklog_q.
  destruct (nz (bklog_pkts c)); [|by exists c, Q].
  destruct (flush_held at_ _ Q Hok) as (r & c' & Q' & Hr & Hok' & Hf).
  exists (add_pkts (ahead at_) c'), Q'. rewrite in_flight_counted in Hf |- *.
  split; [|split; [by apply sys_ok_ahead|exact Hf]].
  replace (ifx_mps_send_from_bklog_q MPS_CPU_0_ID c) with (counted (ahead at_) (Some (r, c')));
    [done|]. by rewrite <- Hr, <- flush_counted, <- settled.
Qed.

Lemma peer_take_ok at_ c Q :
  sys_ok at_ c Q ->
  exists c' Q' tk, sys_act PeerTake (mk_sys at_ c) = Some (mk_sys at_ c', [], tk) /\ sys_ok at_ c' Q' /\
    (tk ++ in_flight at_ c' Q')%list = in_flight at_ c Q.
Proof.
  intros [[HQ Hp Hn] Hk Hcur]. cbn [sys_act process cl].
  destruct (take_ok c Q HQ) as (r & m & d & -> & H). destruct (Q DNSTR_DATA) as [|x ms] eqn:HQD.
  - destruct H as [-> HQ']. exists (set_dev (set_regs d (dev c)) c), Q, []. split; [done|].
    by split; [split; [split|done|done]|].
  - destruct H as (-> & -> & HQ'). eexists _, _, [marked x]. split; [reflexivity|].
    split; [split; [by split|done|done]|]. unfold in_flight. by rewrite fn_lookup_insert, HQD.
Qed.

(** A packet between those of the mailbox and those of the list. *)
Lemma in_flight_sent at_ c Q p :
  in_flight at_ c (<[DNSTR_DATA := (Q DNSTR_DATA ++ [packet_wire p])%list]> Q) ≡ₚ
  (in_flight at_ c Q ++ [on_wire p])%list.
Proof.
  unfold in_flight. rewrite fn_lookup_insert, map_app, <- !(assoc_L app). apply Permutation_app_head.
  apply Permutation_app_comm.
Qed.

(** A step leads on. *)
Definition leads (at_ : pc) (c : client) (Q : mailboxes) : Prop :=
  exists o Q', step at_ c = Some o /\ sys_ok (at_pc o) (state o) Q' /\
    in_flight (at_pc o) (state o) Q' ≡ₚ (in_flight at_ c Q ++ map on_wire (taken_in o))%list.

(** One that takes no packet over. *)
Lemma leads_goes at_ c at' c1 Q Q1 :
  step at_ c = goes at' c1 -> sys_ok at' c1 Q1 -> in_flight at' c1 Q1 ≡ₚ in_flight at_ c Q -> leads at_ c Q.
Proof. intros Hs Hok Hf. do 2 eexists. split; [exact Hs|]. split; [done|]. cbn. by rewrite app_nil_r. Qed.

Lemma send_leads p c Q : sys_ok (SendNow p) c Q -> leads (SendNow p) c Q.
Proof.
  intros Hok%sys_held; [|done]. pose proof Hok as [Hc Hk Hcur]. destruct p as [[seqno ptr] len].
  destruct (send2_cases c Q seqno ptr len) as (r & c1 & Hr & Hs & Hp & H); [apply Hc..|].
  pose proof (sent_only_lock _ _ Hs) as Hk1. pose proof (sent_only_list _ _ Hs) as Hl1.
  destruct H as [[-> HQ1]|[-> HQ1]].
  - eexists _, _. split; [cbn [step]; rewrite Hr; reflexivity|]. cbn [at_pc state taken_in map].
    split; [apply held_sys; [done|split; [by eapply backlog_ok_sent|cbn in Hk |- *; congruence|done]]|].
    rewrite <- in_flight_sent. unfold in_flight, pending. by rewrite Hl1.
  - eapply (leads_goes _ _ (Queue (seqno, ptr, len)) c1); [cbn [step]; rewrite Hr; reflexivity| |].
    + apply held_sys; [done|]. split; [by eapply backlog_ok_sent|cbn in Hk |- *; congruence|done].
    + unfold in_flight, pending. by rewrite Hl1.
Qed.

Lemma queue_leads at_ c Q :
  match at_ with Queue _ | Insert _ | Count => True | _ => False end -> sys_ok at_ c Q -> leads at_ c Q.
Proof.
  intros Hat Hok. destruct at_ as [| | |[[seqno ptr] len]|e| | | | | | | | | |]; try done.
  - apply sys_held in Hok as [[HQ Hp Hn] Hk _]; [|done].
    destruct (hd 0 (answers c) =? 0) eqn:Ha.
    + eexists _, Q. split; [cbn [step]; unfold kernel; rewrite Ha; reflexivity|]. cbn.
      rewrite app_nil_r. split; [|done]. by apply held_sys; [|split; [split|..]].
    + eapply (leads_goes _ _ _ _ _ Q); [cbn [step]; unfold kernel; rewrite Ha; reflexivity| |done].
      by apply held_sys; [|split; [split|..]].
  - apply sys_held in Hok as [[HQ Hp Hn] Hk _]; [|done].
    eexists _, Q. split; [reflexivity|]. cbn [at_pc state taken_in map]. split.
    + split; [split; [done|done|]|done|done]. cbn. rewrite length_app, Hn. cbn. lia.
    + unfold in_flight, pending. cbn. by rewrite !map_app, (assoc_L app).
  - eapply (leads_goes _ _ _ _ _ Q); [reflexivity| |done]. apply held_sys; [done|].
    destruct Hok as [[HQ Hp Hn] Hk _]. by split; [split|..].
Qed.

Lemma body_leads e n c Q : sys_ok (Body e n) c Q -> leads (Body e n) c Q.
Proof.
  intros Hok%sys_held; [|done]. pose proof Hok as [Hc Hk (l & Hl & Hn)].
  destruct (send2_cases c Q (service_sequence_number e) (datapointer e) (MpsClient.Client.len e))
    as (r & c1 & Hr & Hs & Hp & H); [apply Hc..|].
  pose proof (sent_only_lock _ _ Hs) as Hk1. pose proof (sent_only_list _ _ Hs) as Hl1.
  destruct H as [[-> HQ1]|[-> HQ1]].
  - eapply (leads_goes _ _ (Delete e n) c1); [cbn [step]; rewrite Hr; reflexivity| |].
    + apply held_sys; [done|]. split; [by eapply backlog_ok_sent|cbn in Hk |- *; congruence|].
      exists l. by rewrite Hl1.
    + unfold in_flight, pending. by rewrite fn_lookup_insert, Hl1, Hl, map_app, <- (assoc_L app).
  - eapply (leads_goes _ _ Unlock c1); [cbn [step]; rewrite Hr; reflexivity| |].
    + apply held_sys; [done|]. split; [by eapply backlog_ok_sent|cbn in Hk |- *; congruence|done].
    + unfold in_flight, pending. by rewrite Hl1.
Qed.

Lemma remove_leads at_ c Q :
  match at_ with Delete _ _ | Free _ _ | CountDown _ => True | _ => False end -> sys_ok at_ c Q -> leads at_ c Q.
Proof.
  intros Hat [[HQ Hp Hn] Hk Hcur]. destruct at_ as [| | | | | | | | | | |e n|e n|n|]; try done.
  - destruct Hcur as (l & Hl & Hnx). cbn in Hl. eapply (leads_goes _ _ _ _ _ Q); [reflexivity| |].
    + split; [split; [done|done|]|done|]; cbn in *; rewrite Hl in *; cbn in *; [lia|done].
    + unfold in_flight, pending. cbn. by rewrite Hl.
  - eapply (leads_goes _ _ _ _ _ Q); [reflexivity| |done]. by split; [split|..].
  - eapply (leads_goes _ _ _ _ _ Q); [reflexivity| |done]. apply held_sys; [done|]. by split; [split|..].
Qed.

Lemma step_ok at_ c Q : at_ <> Idle -> sys_ok at_ c Q -> leads at_ c Q.
Proof.
  intros Hidle Hok. destruct at_ as [|p|p|p|e| | | | |n|e n|e n|e n|n|]; try done;
    try (by apply send_leads); try (by apply queue_leads); try (by apply body_leads); try (by apply remove_leads);
    apply sys_held in Hok as [Hc Hk Hcur]; try done; cbn [holding] in Hk.
  - eapply (leads_goes _ _ _ _ _ Q); [reflexivity| |by destruct (list_empty c)].
    apply held_sys; by destruct (list_empty c).
  - eapply (leads_goes _ _ _ _ _ Q); [cbn [step set_lock bklog_q_lock]; rewrite Hk; reflexivity| |done].
    apply held_sys; [done|]. by split; [destruct Hc|..].
  - eapply (leads_goes _ _ _ _ _ Q); [reflexivity| |done]. apply held_sys; [done|]. split; [done|done|by right].
  - destruct n as [e|]; (eapply (leads_goes _ _ _ _ _ Q); [reflexivity| |done]); (apply held_sys; [done|]);
      split; try done. destruct Hcur as [Hn|Hn]; [done|].
    destruct (bklog_mps_data_list c) as [|e' l]; [done|]. injection Hn as ->. exists l. split; [done|by right].
  - eexists _, Q. split; [reflexivity|]. cbn [at_pc state taken_in map]. rewrite app_nil_r.
    split; [|done]. apply held_sys; [done|]. split; [by destruct Hc|cbn; by rewrite Hk|done].
Qed.

Lemma sys_act_ok a at_ c Q :
  possible a at_ = true -> sys_ok at_ c Q ->
  exists at' c' Q' acc tk, sys_act a (mk_sys at_ c) = Some (mk_sys at' c', acc, tk) /\ sys_ok at' c' Q' /\
    tk ++ in_flight at' c' Q' ≡ₚ in_flight at_ c Q ++ map on_wire acc.
Proof.
  intros Ha Hok. destruct a as [p| |p| |].
  - destruct at_; try done. exists (Test p), c, Q, [], []. split; [done|].
    split; [by destruct Hok|]. cbn. by rewrite app_nil_r.
  - destruct (step_ok at_ c Q) as ([at' c' acc r] & Q' & Hs & Hok' & Hp); [by destruct at_|done|].
    cbn [sys_act process cl]. rewrite Hs. cbn [at_pc state taken_in] in *. exists at', c', Q', acc, [].
    by split_and!.
  - destruct (irq_send_ok at_ c Q p Hok) as (c' & Q' & acc & Hs & Hok' & Hp).
    exists at_, c', Q', acc, []. split; [done|]. split; [done|]. cbn. by rewrite Hp.
  - destruct (irq_tick_ok at_ c Q Hok) as (c' & Q' & Hs & Hok' & Hp).
    exists at_, c', Q', [], []. split; [done|]. split; [done|]. cbn. by rewrite Hp, app_nil_r.
  - destruct (peer_take_ok at_ c Q Hok) as (c' & Q' & tk & Hs & Hok' & Hp).
    exists at_, c', Q', [], tk. split; [done|]. split; [done|]. cbn. by rewrite Hp, app_nil_r.
Qed.

(** C22. From a state where the count, the lock and the list agree with the step the process
    is at: a call of ifx_mps_data_send on CPU0 cut into its steps - the test of the list,
    the send, kmalloc, list_add_tail, atomic_inc, the lock, the reads of the loop, list_del,
    kfree, atomic_dec - with interrupts that send packets of their own, the timer, and the
    other processor receiving between any two of them, but not between the stores to the
    pointers inside list_add_tail and list_del, where interrupted_add_loses and
    interrupted_del_loses show a packet lost: the packets received, in the FIFO and in the
    back log are those taken over, each exactly once, though no longer in order. The lock
    keeps the list to one call, the count of the back log is made up when the call ends, and
    no such interleaving leaves the lock held for ever or makes the call follow an element
    that has been freed. *)
Theorem interrupted_exactly_once l at_ c Q :
  sys_ok at_ c Q ->
  exists at' c' Q' acc tk, acts l (mk_sys at_ c) = Some (mk_sys at' c', acc, tk) /\ sys_ok at' c' Q' /\
    tk ++ in_flight at' c' Q' ≡ₚ in_flight at_ c Q ++ map on_wire acc.
Proof.
  revert at_ c Q. induction l as [|a l IH]; intros at_ c Q Hok; cbn [acts].
  { exists at_, c, Q, [], []. split; [done|]. split; [done|]. cbn. by rewrite app_nil_r. }
  cbn [process]. destruct (possible a at_) eqn:Ha; [|by apply IH].
  destruct (sys_act_ok a at_ c Q Ha Hok) as (at1 & c1 & Q1 & acc & tk & -> & Hok1 & Hp1).
  destruct (IH at1 c1 Q1 Hok1) as (at' & c' & Q' & acc' & tk' & Hr & Hok' & Hp').
  cbn [mbind option_bind]. rewrite Hr. cbn [mbind option_bind]. do 5 eexists. split; [reflexivity|].
  split; [exact Hok'|]. rewrite <- (assoc_L app), Hp', (assoc_L app), Hp1, map_app. by rewrite (assoc_L app).
Qed.

(** A packet that arrives while the back log is being sent. *)
Lemma held_send_settled at_ c Q seqno ptr len :
  held_ok at_ c Q -> holding at_ = true -> bklog_mps_data_list c <> [] -> hd 0 (answers c) <> 0 ->
  exists c1 e, ifx_mps_data_send MPS_CPU_0_ID seqno ptr len c = Some (EFAIL, c1) /\
    bklog_mps_data_list c1 = (bklog_mps_data_list c ++ [e])%list /\ as_packet e = (seqno, ptr, len) /\
    answers c1 = tl (answers c) /\ held_ok at_ c1 Q.
Proof.
  intros Hok Hh Hne Hm. pose proof Hok as [Hc Hk Hcur]. rewrite Hh in Hk.
  destruct (send_cases seqno ptr len c Q Hc) as
    [(c1 & Hemp & _)|[(c1 & _ & _ & _ & _ & He)|(c1 & e & -> & Hc1 & Hl & He & Hk1 & Ha & _)]].
  - unfold list_empty in Hemp. by destruct (bklog_mps_data_list c).
  - unfold entered in He. apply orb_false_iff in He as [_ He]. unfold nz in He.
    by destruct (Z.eqb_spec (hd 0 (answers c)) 0).
  - rewrite flush_locked by congruence. exists (set_lock 0 c1), e. split_and!; try done.
    apply locked_ok; [done|]. by eapply cursor_grows.
Qed.
Lemma held_send at_ c Q seqno ptr len :
  sys_ok at_ c Q -> holding at_ = true -> bklog_mps_data_list c <> [] -> hd 0 (answers c) <> 0 ->
  exists c1 e, ifx_mps_data_send MPS_CPU_0_ID seqno ptr len c = Some (EFAIL, c1) /\
    bklog_mps_data_list c1 = (bklog_mps_data_list c ++ [e])%list /\ as_packet e = (seqno, ptr, len) /\
    answers c1 = tl (answers c) /\ sys_ok at_ c1 Q.
Proof.
  intros Hok Hh Hne Hm.
  destruct (held_send_settled at_ _ Q seqno ptr len Hok Hh Hne Hm) as (c1 & e & Hs & Hl & He & Ha & Hok1).
  exists (add_pkts (ahead at_) c1), e. split; [|split_and!; [done..|by apply sys_ok_ahead]].
  replace (ifx_mps_data_send MPS_CPU_0_ID seqno ptr len c) with (counted (ahead at_) (Some (EFAIL, c1)));
    [done|]. by rewrite <- Hs, <- send_counted, <- settled.
Qed.

(** A packet that arrives while another call holds the lock of the back log is queued
    and will be sent, but ifx_mps_data_send returns EFAIL. A caller that takes EFAIL for a
    refusal and sends the packet again, as the transmit function of a network device makes
    the kernel do, has it delivered twice. *)
Theorem refused_but_queued at_ c Q seqno ptr len :
  sys_ok at_ c Q -> holding at_ = true -> bklog_mps_data_list c <> [] ->
  memory_for 2 c ->
  exists c1 c2, ifx_mps_data_send MPS_CPU_0_ID seqno ptr len c = Some (EFAIL, c1) /\
    ifx_mps_data_send MPS_CPU_0_ID seqno ptr len c1 = Some (EFAIL, c2) /\ sys_ok at_ c2 Q /\
    in_flight at_ c2 Q =
      (in_flight at_ c Q ++ [on_wire (seqno, ptr, len); on_wire (seqno, ptr, len)])%list.
Proof.
  intros Hok Hh Hne Hm.
  destruct (memory_for_step 1 c (set_lock 0 c) Hm) as [Hm0 _]; [by left|].
  destruct (held_send at_ c Q seqno ptr len Hok Hh Hne Hm0) as (c1 & e1 & H1 & Hl1 & He1 & Ha1 & Hok1).
  destruct (memory_for_step 1 c c1 Hm) as [_ Hm1]; [by right|].
  destruct (memory_for_step 0 c1 c1 Hm1) as [Hm2 _]; [by left|].
  destruct (held_send at_ c1 Q seqno ptr len Hok1 Hh) as (c2 & e2 & H2 & Hl2 & He2 & _ & Hok2);
    [rewrite Hl1; by destruct (bklog_mps_data_list c)|done|].
  exists c1, c2. do 3 (split; [done|]). unfold in_flight.
  rewrite (pending_grows at_ (add_pkts (- ahead at_) c) c2 Q [e1; e2] Hok) by (rewrite Hl2, Hl1, <- (assoc_L app); done).
  rewrite !map_app. cbn [map]. by rewrite He1, He2, (assoc_L app).
Qed.

(** ** [list_add_tail] itself *)
(** The two fields of the list heads, by address. *)
Record links := mk_links { next : gmap Z Z; prev : gmap Z Z }.
Definition set_next (a v : Z) (m : links) : links := mk_links (<[a := v]> (next m)) (prev m).
Definition set_prev (a v : Z) (m : links) : links := mk_links (next m) (<[a := v]> (prev m)).

Definition __list_add (new prv nxt : Z) (m : links) : links :=
  set_next prv new (set_prev new prv (set_next new nxt (set_prev nxt new m))).
Definition list_add_tail (new head : Z) (m : links) : option links :=
  p ← prev m !! head; Some (__list_add new p head m).

(** [list_add_tail(new, head)], an interrupt doing [list_add_tail(other, head)] once
    [head->prev] has been read. *)
Definition interrupted_add (new other head : Z) (m : links) : option links :=
  p ← prev m !! head;
  m ← list_add_tail other head m;
  Some (__list_add new p head m).

(** [list_del(e)], and with an interrupt doing [list_add_tail(other, head)] between its two
    stores. *)
Definition __list_del (prv nxt : Z) (m : links) : links := set_next prv nxt (set_prev nxt prv m).
Definition list_del (e : Z) (m : links) : option links :=
  p ← prev m !! e; n ← next m !! e; Some (__list_del p n m).
Definition interrupted_del (e other head : Z) (m : links) : option links :=
  p ← prev m !! e; n ← next m !! e;
  m ← list_add_tail other head (set_prev n p m);
  Some (set_next p n m).

(** From [a] the pointers lead through the nodes of [l] to [b]. *)
Fixpoint forward (nx : gmap Z Z) (a : Z) (l : list Z) (b : Z) : Prop :=
  match l with
  | [] => nx !! a = Some b
  | x :: l' => nx !! a = Some x /\ forward nx x l' b
  end.
Fixpoint last_of (a : Z) (l : list Z) : Z := match l with [] => a | x :: l' => last_of x l' end.
Record list_rep (head : Z) (l : list Z) (m : links) : Prop := {
  rep_forward : forward (next m) head l head;
  rep_last : prev m !! head = Some (last_of head l);
  rep_apart : NoDup (head :: l) }.

Lemma last_of_in a l : last_of a l ∈ a :: l.
Proof. revert a. induction l as [|x l IH]; intros a; [by left|]. right. apply IH. Qed.
Lemma last_of_snoc a l x : last_of a (l ++ [x]) = x.
Proof. revert a. induction l as [|y l IH]; intros a; [done|apply IH]. Qed.

(** The pointers after an insertion behind the last node. *)
Lemma forward_snoc nx a l b x :
  forward nx a l b -> NoDup (a :: l) -> x ∉ a :: l ->
  forward (<[last_of a l := x]> (<[x := b]> nx)) a (l ++ [x]) b.
Proof.
  revert a. induction l as [|y l IH]; intros a Hf Hnd Hx; cbn [last_of app forward].
  - rewrite lookup_insert_eq. split; [done|]. rewrite lookup_insert_ne, lookup_insert_eq; [done|].
    intros ->. apply Hx. by left.
  - destruct Hf as [Ha Hf]. apply NoDup_cons in Hnd as [Hna Hnd]. split.
    + rewrite lookup_insert_ne; [rewrite lookup_insert_ne; [done|]|].
      * intros ->. apply Hx. by left.
      * intros Heq. apply Hna. rewrite <- Heq. apply last_of_in.
    + apply IH; [done|done|]. intros Hin. apply Hx. by right.
Qed.
Lemma forward_ext nx nx' a l b :
  (forall y, y ∈ a :: l -> nx !! y = nx' !! y) -> forward nx a l b -> forward nx' a l b.
Proof.
  revert a. induction l as [|y l IH]; intros a He; cbn [forward]; rewrite <- He by left; [done|].
  intros [Ha Hf]. split; [done|]. apply IH; [|done]. intros z Hz. apply He. by right.
Qed.

Lemma add_tail_rep head l m new :
  list_rep head l m -> new ∉ head :: l ->
  exists m', list_add_tail new head m = Some m' /\ list_rep head (l ++ [new])%list m' /\
    m' = __list_add new (last_of head l) head m.
Proof.
  intros [Hf Hl Hnd] Hnew. unfold list_add_tail. rewrite Hl. cbn [mbind option_bind].
  eexists. split; [reflexivity|]. split; [|done]. split.
  - by apply forward_snoc.
  - rewrite last_of_snoc. cbn. rewrite lookup_insert_ne, lookup_insert_eq; [done|].
    intros ->. apply Hnew. by left.
  - apply (NoDup_app (head :: l) [new]). split; [done|]. split; [|apply NoDup_singleton].
    intros x Hx ->%list_elem_of_singleton. done.
Qed.

(** list_add_tail on the list of the back log is called without a lock. Two insertions
    one after the other put both elements at the end, in order; when an interrupt inserts
    its element after the first call has read head->prev, the list ends with the element of
    the interrupted call alone: the packet of the interrupt is never sent. *)
Theorem interrupted_add_loses head l m new other :
  list_rep head l m -> new ∉ head :: l -> other ∉ head :: l -> new <> other ->
  (exists m1, list_add_tail other head m = Some m1 /\ list_rep head (l ++ [other])%list m1 /\
     exists m2, list_add_tail new head m1 = Some m2 /\ list_rep head (l ++ [other; new])%list m2) /\
  (exists m', interrupted_add new other head m = Some m' /\ list_rep head (l ++ [new])%list m' /\
     next m' !! other = Some head).
Proof.
  intros Hrep Hnew Hother Hne. pose proof Hrep as [Hf Hl Hnd].
  destruct (add_tail_rep head l m other Hrep Hother) as (m1 & H1 & Hr1 & ->). split.
  - eexists. split; [exact H1|]. split; [exact Hr1|].
    destruct (add_tail_rep head (l ++ [other])%list _ new Hr1) as (m2 & H2 & Hr2 & _).
    + rewrite app_comm_cons, elem_of_app, list_elem_of_singleton. naive_solver.
    + exists m2. split; [done|]. by rewrite <- (assoc_L app) in Hr2.
  - unfold interrupted_add. rewrite H1, Hl. cbn [mbind option_bind]. eexists. split; [reflexivity|].
    assert (Hol : last_of head l <> other) by (intros <-; apply Hother, last_of_in).
    split; [split|].
    + cbn. apply (forward_ext (<[last_of head l := new]> (<[new := head]> (next m))));
        [|by apply forward_snoc].
      intros y Hy. assert (y <> other) as Hyo.
      { intros ->. rewrite app_comm_cons, elem_of_app, list_elem_of_singleton in Hy. naive_solver. }
      destruct (decide (y = last_of head l)) as [->|Hyl]; [by rewrite !lookup_insert_eq|].
      rewrite !(lookup_insert_ne _ (last_of head l)) by done.
      destruct (decide (y = new)) as [->|Hyn]; [by rewrite !lookup_insert_eq|].
      rewrite !(lookup_insert_ne _ new) by done. by rewrite !lookup_insert_ne by done.
    + rewrite last_of_snoc. cbn. rewrite lookup_insert_ne, lookup_insert_eq; [done|].
      intros ->. apply Hnew. by left.
    + destruct (add_tail_rep head l m new Hrep Hnew) as (? & _ & Hr2 & _). apply Hr2.
    + cbn. rewrite lookup_insert_ne by done. rewrite lookup_insert_ne by done.
      rewrite lookup_insert_ne by done. by rewrite lookup_insert_eq.
Qed.

(** list_del of the only element of the back log, with an interrupt inside it that inserts
    another: the list is empty and the element of the interrupt is lost. *)
Theorem interrupted_del_loses head m e other :
  list_rep head [e] m -> prev m !! e = Some head -> other ∉ [head; e] ->
  exists m', interrupted_del e other head m = Some m' /\ forward (next m') head [] head /\
    next m' !! other = Some head.
Proof.
  intros [[Hhe Heh] _ _] Hp Hother. cbn [forward] in Heh. unfold interrupted_del, list_add_tail. rewrite Hp, Heh.
  cbn [mbind option_bind]. cbn [set_prev prev]. rewrite lookup_insert_eq. cbn [mbind option_bind].
  eexists. split; [reflexivity|]. assert (head <> other) by (intros ->; apply Hother; by left). cbn.
  rewrite !lookup_insert_eq. split; [done|]. rewrite !lookup_insert_ne by done. by rewrite lookup_insert_eq.
Qed.

(** ** States the theorems apply to *)
Lemma idle_ok : sys_ok Idle behind_client (fun _ => []).
Proof. split; [exact behind_client_ok|reflexivity|exact I]. Qed.

(** An interrupt sends between [list_del] and [atomic_dec]; the timer runs there too. *)
Definition interrupted_call : list action :=
  [CallSend (10, 0x1000, 60); Step; Step; Step; PeerTake; Step; Step; Step; Step; Step; Step;
   IrqSend (10, 0x3000, 60); IrqTick; Step; Step; PeerTake; Step].
Lemma interrupted_exactly_once_witness :
  exists at' c' Q' acc tk,
    acts interrupted_call
      (mk_sys Idle behind_client) = Some (mk_sys at' c', acc, tk) /\
    tk ++ in_flight at' c' Q' ≡ₚ on_wire (10, 0x2000, 60) :: map on_wire acc.
Proof.
  destruct (interrupted_exactly_once
    interrupted_call
    Idle behind_client (fun _ => []) idle_ok) as (at' & c' & Q' & acc & tk & Hr & _ & Hp).
  exists at', c', Q', acc, tk. split; [exact Hr|exact Hp].
Defined.

(** The timer is sending the packet of the back log. *)
Definition flushing : client := set_lock 0 behind_client.
Definition flushing_pc : pc := Body (mk_data_list 0x8080 10 0x2000 60) None.
Lemma flushing_ok : sys_ok flushing_pc flushing (fun _ => []).
Proof. split; [by destruct behind_client_ok|reflexivity|exists []; split; [reflexivity|by left]]. Qed.

Lemma refused_but_queued_witness :
  exists c1 c2, ifx_mps_data_send MPS_CPU_0_ID 10 0x1000 60 flushing = Some (EFAIL, c1) /\
    ifx_mps_data_send MPS_CPU_0_ID 10 0x1000 60 c1 = Some (EFAIL, c2) /\
    in_flight flushing_pc c2 (fun _ => []) =
      [on_wire (10, 0x2000, 60); on_wire (10, 0x1000, 60); on_wire (10, 0x1000, 60)].
Proof.
  destruct (refused_but_queued flushing_pc flushing (fun _ => []) 10 0x1000 60 flushing_ok eq_refl)
    as (c1 & c2 & H1 & H2 & _ & Hf); [discriminate|exact start_memory|].
  exists c1, c2. split; [exact H1|]. split; [exact H2|exact Hf].
Defined.

(** A list with one node. *)
Definition one_node : links := mk_links {[ 1 := 2; 2 := 1 ]} {[ 1 := 2; 2 := 1 ]}.
Lemma one_node_rep : list_rep 1 [2] one_node.
Proof.
  split; [by split|reflexivity|]. apply NoDup_cons. split; [|apply NoDup_singleton].
  by intros ?%list_elem_of_singleton.
Qed.

Lemma interrupted_add_loses_witness :
  exists m', interrupted_add 3 4 1 one_node = Some m' /\ list_rep 1 [2; 3] m' /\ next m' !! 4 = Some 1.
Proof.
  destruct (interrupted_add_loses 1 [2] one_node 3 4 one_node_rep) as (_ & m' & H1 & H2 & H3).
  - apply (bool_decide_unpack _). reflexivity.
  - apply (bool_decide_unpack _). reflexivity.
  - discriminate.
  - exists m'. split; [exact H1|]. split; [exact H2|exact H3].
Defined.
