(* ===== verification/MpsRemote.v ===== *)
(** * MpsRemote: a command from one processor to the other, and its answer

    The processor that asks sends a command, the other one's interrupt handler and tasklet
    give it to [ifx_mps_cmd_rcv_callback], which serves it and sends the response, and the
    asker's handler and tasklet bring the response to where it is waited for.  Two
    processors, four FIFOs, two queues and two callbacks together return what the kernel of
    the other processor answered, whatever the turns in which the two run, if the callback
    flag was clear; a flag that was set is taken for the answer. *)
From stdpp Require Import functions.
From S2P Require Import Prelude MpsBuffer MpsProps Mailbox MailboxProps MailboxDevice MailboxDelivery.
From S2P Require Import MpsClient MpsBacklog.
Import Mps Mbx Client.

(** ** A FIFO whose reader has caught up *)
Definition caught_up (id : mbx_fifo) (r : mps_mbx_reg) : Prop := (offsets id r).1 = (offsets id r).2.

Lemma caught_up_follow id r :
  fifo_rep (get_fifo id r) [] -> caught_up id r -> follow_wrap (get_fifo id r) = get_fifo id r.
Proof.
  intros Hf Hc. unfold follow_wrap.
  destruct (msg_next_wrapped _ _) eqn:Hm; [|done]. apply set_pread_same.
  assert (Hp : pread_off (get_fifo id r) = pwrite_off (get_fifo id r)) by exact Hc.
  pose proof (rep_indexes _ _ Hf) as Hi.
  inversion Hi as [l Hr Hw Hl Hz Hq Hu Heql|ms1 ms2 w Hr Hw Hl1 Hmark Hl2 Hu Hpos Heq].
  - destruct Hu as [Hu|Hu]; [congruence|]. unfold read_msg in Hm. rewrite Hp in Hm.
    unfold write_msg in Hu. congruence.
  - apply app_nil in Heq as [-> ->]. destruct Hpos as [[Hpos _]|(_ & _ & Hne)]; [lia|done].
Qed.

Lemma offsets_put id id' f r : id <> id' -> offsets id' (put_fifo id f r) = offsets id' r.
Proof. by destruct id, id'. Qed.
Lemma caught_up_put id f r :
  pread_off f = pwrite_off f -> caught_up id (put_fifo id f r).
Proof. intros H. unfold caught_up. by destruct id. Qed.

(** A message of fewer than half the words of the FIFO is accepted. *)
Lemma send_caught_up cpu m d Q id irq :
  regs_rep (base_global d) Q -> good_msg m -> Q id = [] -> caught_up id (base_global d) ->
  mbx_for cpu (header_type (data_word m 0)) = Some (id, irq) ->
  2 * Z.of_nat (length m) + 3 < region_words id ->
  exists m' r, ifx_mpsdrv_mbx_send cpu m d = (OK, m', raise_irq (id, irq) (set_regs r d)) /\
    regs_rep r (<[id := [m]]> Q) /\ forall id', id <> id' -> offsets id' r = offsets id' (base_global d).
Proof.
  intros HQ Hg HQid Hc Hfor Hn. pose proof (HQ id) as Hf. rewrite HQid in Hf.
  pose proof (caught_up_follow _ _ Hf Hc) as Hfw. unfold ifx_mpsdrv_mbx_send. rewrite Hfor.
  fold (message_bytes m). change (<[1%nat := _]> m) with (marked m).
  pose proof (message_bytes_range m Hg).
  assert (Hp : pread_off (get_fifo id (base_global d)) = pwrite_off (get_fifo id (base_global d))) by exact Hc.
  assert (Hroom : ifx_mpsdrv_fifo_mem_request (get_fifo id (base_global d)) (message_bytes m) = true).
  { unfold ifx_mpsdrv_fifo_mem_request, ifx_mpsdrv_fifo_mem_available.
    rewrite Hp, Z.ltb_irrefl, Z.sub_diag. change (Z.shiftl (u32 0) 2) with 0.
    rewrite get_fifo_size, Z.sub_0_r. rewrite u32_small by (destruct id; cbn; lia). apply Z.leb_le. lia. }
  rewrite Hroom. pose proof (write_accepted _ m Hf Hg) as Hok. rewrite get_fifo_words, Hfw in Hok.
  specialize (Hok Hn). pose proof (fifo_write_rep _ _ m Hf Hg) as [Hs Hw].
  destruct (ifx_mpsdrv_fifo_write _ _ _) as [r f2]. cbn [fst snd] in *. subst r. cbn [Z.eqb OK].
  destruct Hw as [[_ Hw]|[Hw _]]; [|done]. do 2 eexists. split; [reflexivity|].
  split; [by apply regs_rep_put|]. intros id' Hne. by apply offsets_put.
Qed.

(** ** One message through the interrupt handler *)
Lemma read_turn_offsets fuel id q num d num' d' id' :
  id <> id' -> mbx_read_loop fuel id q num d = Some (num', d') ->
  offsets id' (base_global d') = offsets id' (base_global d).
Proof.
  intros Hne. revert num d. induction fuel as [|fuel IH]; intros num d; cbn [mbx_read_loop]; [done|].
  destruct (ifx_mpsdrv_fifo_not_empty _) as [[] f1]; [|intros [= _ <-]; by apply offsets_put].
  destruct (ifx_mpsdrv_fifo_read f1) as [[p|] f2]; [|done]. cbn [mbind option_bind].
  destruct (_ =? 0).
  { intros [= _ <-]. cbn. by rewrite !offsets_put. }
  match goal with |- context [mps_datamsg_enqueue_tail ?a ?q ?d0] =>
    destruct (mps_datamsg_enqueue_tail a q d0) as [[e d1]|] eqn:He end; [|done].
  cbn [mbind option_bind]. intros H. apply IH in H. rewrite H. cbn. rewrite offsets_put by done.
  assert (Hb : base_global d1 = put_fifo id f2 (put_fifo id f1 (base_global d))).
  { revert He. unfold mps_datamsg_enqueue_tail. destruct (MPS_DATAMSG_IS_Q_FULL _).
    - destruct (heap _ !! _) as [m|]; [|done]. cbn. by intros [= _ <-].
    - destruct (datamsg_push _ _) as [l|]; [|done]. cbn. by intros [= _ <-]. }
  by rewrite Hb, !offsets_put.
Qed.

Lemma read_done_caught_up fuel id q num d Q D L :
  dev_rep d Q D L -> Q id = [] ->
  exists d', mbx_read_loop (S fuel) id q num d = Some (num, d') /\ dev_rep d' Q D L /\
    caught_up id (base_global d') /\ untouched d d'.
Proof.
  intros Hd HQ. destruct (read_done fuel id q num d Q D L Hd HQ) as (d' & Hr & Hd' & _ & _ & Hu).
  exists d'. do 2 (split; [done|]). split; [|done]. revert Hr. cbn [mbx_read_loop].
  pose proof (dev_regs _ _ _ _ Hd id) as Hf. rewrite HQ in Hf.
  destruct (follow_wrap_rep _ _ Hf) as [Hf1 Hh]. cbn [head_at] in Hh.
  unfold ifx_mpsdrv_fifo_not_empty. rewrite Hh. intros [= <-]. apply caught_up_put.
  by destruct (drained_indexes _ Hf) as [Hp _].
Qed.

(** The handler moves the only message of a command FIFO to the empty queue. *)
Lemma read_one id d Q D L m :
  dev_rep d Q D L -> Q id = [m] -> D CmdQ = [] -> can_alloc 1 d ->
  exists d' L', mbx_read_loop read_fuel id CmdQ 0 d = Some (1, d') /\
    dev_rep d' (<[id := []]> Q) (<[CmdQ := [m]]> D) L' /\ caught_up id (base_global d') /\
    (forall id', id <> id' -> offsets id' (base_global d') = offsets id' (base_global d)) /\
    callback_function d' = callback_function d.
Proof.
  intros Hd HQ HD Ha. change read_fuel with (S (S 15)).
  destruct (read_step (S 15) id CmdQ 0 d Q D L m [] 0 Hd HQ) as (d1 & L1 & Hr1 & Hd1 & _ & Hu1);
    [done|rewrite HD; unfold datamsg_capacity, MAX_MPS_DATAMSG_QLEN; cbn [length]; lia|]. rewrite HD in Hd1.
  destruct (read_done_caught_up 15 id CmdQ (u32 (0 + 1)) d1 _ _ _ Hd1) as (d' & Hr & Hd' & Hc & Hu);
    [by rewrite fn_lookup_insert|].
  exists d', L1. rewrite <- Hr1 in Hr. split; [exact Hr|]. split; [done|]. split; [done|].
  split; [intros id' Hne; by eapply read_turn_offsets|].
  destruct Hu, Hu1. congruence.
Qed.

(** ** Messages of commands *)
Lemma copied_word w msg i :
  good_msg w -> copied w msg -> (i < length w)%nat -> (i < 6)%nat -> i <> 1%nat ->
  data_word msg i = data_word w i.
Proof.
  intros Hg [_ Hc] Hi H6 H1. unfold data_word. f_equal.
  assert (H0 : take (length w) msg !! i = take data_message_words (marked w) !! i) by by rewrite Hc.
  rewrite !lookup_take_lt in H0 by (unfold data_message_words; lia). rewrite H0.
  unfold marked. by rewrite list_lookup_insert_ne.
Qed.

Lemma header_cmd_val0 type seqno cmd : header_cmd (header_val0 type seqno cmd) = cmd mod 2 ^ 16.
Proof.
  unfold header_cmd, header_val0. change 0xffff with (Z.ones 16). rewrite Z.land_ones by lia.
  set (t := type mod 2 ^ 8). set (s := seqno mod 2 ^ 8).
  replace (t * 2 ^ 24 + s * 2 ^ 16 + cmd mod 2 ^ 16) with (cmd mod 2 ^ 16 + (t * 2 ^ 8 + s) * 2 ^ 16) by ring.
  rewrite Z_mod_plus_full. by apply Z.mod_mod.
Qed.
Lemma header_seqno_val0 type seqno cmd : header_seqno (header_val0 type seqno cmd) = seqno mod 2 ^ 8.
Proof.
  unfold header_seqno, header_val0. change 0xff with (Z.ones 8). rewrite Z.land_ones, Z.shiftr_div_pow2 by lia.
  set (t := type mod 2 ^ 8). pose proof (Z.mod_pos_bound cmd (2 ^ 16)).
  rewrite <- (Z.div_unique _ (2 ^ 16) (seqno mod 2 ^ 8 + t * 2 ^ 8) (cmd mod 2 ^ 16)) by (lia || ring).
  rewrite Z_mod_plus_full. by apply Z.mod_mod.
Qed.

(** A command with a content of at most four words. *)
Record command (m : list Z) (type seqno cmd len : Z) (content : list Z) : Prop := {
  command_eq : m = data_message type seqno cmd len content;
  command_type : type = MPS_TYPE_UPSTREAM_CMD \/ type = MPS_TYPE_DOWNSTREAM_CMD;
  command_len : len ∈ [0; 4; 8; 16] }.

Lemma command_words m type seqno cmd len content :
  command m type seqno cmd len content ->
  good_msg (wire m) /\ Z.of_nat (length (wire m)) = 2 + len / 4 /\
  forall i, (S (S i) < length (wire m))%nat -> data_word (wire m) (S (S i)) = u32 (data_word content i).
Proof.
  intros [-> _ Hlen].
  assert (Hl : header_words len = 2 + len / 4 /\ header_wrapped len = false /\ 0 <= len / 4 <= 4).
  { repeat (apply elem_of_cons in Hlen as [->|Hlen]; [by repeat split|]). by apply elem_of_nil in Hlen. }
  destruct Hl as (Hw & Hwr & H4).
  assert (Hwire : wire (data_message type seqno cmd len content) =
    take (Z.to_nat (2 + len / 4)) (data_message type seqno cmd len content)) by (unfold wire; by rewrite <- Hw).
  assert (Hlen6 : length (data_message type seqno cmd len content) = 6%nat) by done.
  split; [|split].
  - apply wire_good; [|done]. change (data_word _ 1) with len. rewrite Hw. rewrite Hlen6. lia.
  - rewrite Hwire, length_take, Hlen6. lia.
  - intros i Hi. rewrite Hwire in Hi |- *. rewrite length_take in Hi.
    rewrite Hlen6 in Hi. unfold data_word at 1. rewrite lookup_take_lt by lia.
    assert (i < 4)%nat as Hi4 by lia. clear -Hi4.
    do 4 (destruct i as [|i]; [reflexivity|]). lia.
Qed.

(** The FIFO a processor sends its commands to, and the one it receives them from. *)
Definition out (x : Z) : mbx_fifo := if x =? MPS_CPU_0_ID then DNSTR_CMD else UPSTR_CMD.
Definition inn (y : Z) : mbx_fifo := if y =? MPS_CPU_0_ID then UPSTR_CMD else DNSTR_CMD.

(** A command to a reader that has caught up. *)
Lemma command_sent x m type seqno cmd len content c Q :
  command m type seqno cmd len content -> regs_rep (base_global (dev c)) Q -> Q (out x) = [] ->
  caught_up (out x) (base_global (dev c)) ->
  exists r i, mbx_send x m c = (OK, set_dev (raise_irq i (set_regs r (dev c))) c) /\
    regs_rep r (<[out x := [wire m]]> Q) /\
    forall id', out x <> id' -> offsets id' r = offsets id' (base_global (dev c)).
Proof.
  intros Hm HQ HQo Hc. destruct (command_words _ _ _ _ _ _ Hm) as (Hg & Hl & _).
  assert (Hid : exists irq, mbx_for x (header_type (data_word (wire m) 0)) = Some (out x, irq)).
  { rewrite wire_word by lia. destruct Hm as [-> Ht _].
    change (data_word _ 0) with (header_val0 type seqno cmd).
    rewrite header_type_val0 by by destruct Ht as [-> | ->].
    unfold out. destruct Ht as [-> | ->]; destruct (Z.eqb_spec x MPS_CPU_0_ID); subst; eexists;
      try reflexivity; unfold mbx_for; cbn; by destruct (Z.eqb_spec x MPS_CPU_0_ID). }
  destruct Hid as [irq Hid].
  destruct (send_caught_up x (wire m) (dev c) Q (out x) irq HQ Hg HQo Hc Hid) as (m' & r & Hs & HQ' & Ho).
  { rewrite Hl. destruct Hm as [_ _ Hlen]. assert (len / 4 <= 4).
    { repeat (apply elem_of_cons in Hlen as [->|Hlen]; [done|]). by apply elem_of_nil in Hlen. }
    unfold out. destruct (_ =? _); cbn; lia. }
  exists r, (out x, irq). split; [|done]. unfold mbx_send.
  destruct (mbx_send_wire x m (dev c)) as [H1 H2]. rewrite Hs in H1, H2.
  destruct (ifx_mpsdrv_mbx_send x m (dev c)) as [[r0 m0] d0]. cbn in H1, H2. by subst.
Qed.

(** ** The two processors *)
(** What the two kernel images fix: the addresses of the callbacks, and the version. *)
Record image := mk_image { data_cb : Z; cmd_cb : Z; version : Z }.

(** The interrupt handler of the command FIFO, then the tasklet. *)
Definition receive_commands (x : Z) (c : client) : option client :=
  '(_, d) ← (if x =? MPS_CPU_0_ID then _ifx_mpsdrv_mbx_read_uscMsg (dev c)
             else _ifx_mpsdrv_mbx_read_dscMsg (dev c));
  Some (set_dev d c).
Definition tasklet (x : Z) (i : image) (c : client) : option client :=
  dispatch_run x (data_cb i) (cmd_cb i) (version i) dispatch_fuel CmdQ c.
Definition handle (x : Z) (i : image) (c : client) : option client :=
  c ← receive_commands x c; tasklet x i c.

(** What a client asks for: a packet buffer, a buffer, the version of the other processor. *)
Inductive question := SkbuffAlloc (bufsize : Z) | AppBuffKmalloc (bufsize : Z) | GetVersion.

(** The function it calls, up to the wait. *)
Definition ask (x : Z) (i : image) (k : question) (c : client) : Z * client + client :=
  match k with
  | SkbuffAlloc n => ifx_mps_skbuff_alloc x n c
  | AppBuffKmalloc n => ifx_mps_app_buff_kmalloc x n c
  | GetVersion =>
      match ifx_mps_get_version x (version i) (MPS_CPU_1_ID - x) c with
      | inl v => inl (v, c)
      | inr c => inr c
      end
  end.

(** A turn of the other processor, or of the one that waits: its interrupt handler and its
    tasklet. *)
Inductive turn := Other | Own.
#[export] Instance turn_eq_dec : EqDecision turn.
Proof. solve_decision. Defined.

(** [wait_event_interruptible] of [a], the processor [x], and what follows it: the condition is
    tested at once, and again after each turn of [a] or of [b], the processor [y]; [None] also
    says that [a] still waits when the turns are over. *)
Fixpoint waits (x : Z) (ix : image) (y : Z) (iy : image) (turns : list turn) (a b : client)
    : option (Z * client * client) :=
  if wait_done false a then let (v, a) := remote_result a in Some (v, a, b)
  else
    match turns with
    | [] => None
    | Other :: l => b ← handle y iy (share a b); waits x ix y iy l (share b a) b
    | Own :: l => a ← handle x ix a; waits x ix y iy l a (share a b)
    end.

(** [a], the processor [x], asks, and waits. *)
Definition exchange (x : Z) (ix : image) (y : Z) (iy : image) (k : question) (turns : list turn) (a b : client)
    : option (Z * client * client) :=
  match ask x ix k a with
  | inl (v, a) => Some (v, a, b)
  | inr a => waits x ix y iy turns a b
  end.

(** The other processor gets a turn, and the asker one after it. *)
Definition served (turns : list turn) : Prop :=
  exists before after : list turn, turns = (before ++ after)%list /\ Other ∈ before /\ Own ∈ after.

(** A processor with no command in its queue, its callback registered, and memory for one
    message. *)
Record ready (i : image) (c : client) (Q : mailboxes) (D : queued) (L : datamsg_queue -> list Z) : Prop := {
  ready_dev : dev_rep (dev c) Q D L;
  ready_queue : D CmdQ = [];
  ready_callback : callback_function (dev c) !! 0%nat = Some (cmd_cb i);
  ready_apart : cmd_cb i <> 0 /\ cmd_cb i <> data_cb i;
  ready_memory : can_alloc 1 (dev c) }.

Lemma ready_share i c Q D L r Q' :
  ready i c Q D L -> regs_rep r Q' -> ready i (set_dev (set_regs r (dev c)) c) Q' D L.
Proof. intros [Hd HD Hcb Ha Hm] Hr. split; try done. by apply (dev_rep_regs _ Q). Qed.

Lemma dispatch_fuel_two : exists n, dispatch_fuel = S (S n).
Proof. exists 1023%nat. vm_compute. reflexivity. Qed.

(** The tasklet with one command in its queue: the callback runs once, on a copy of it. *)
Lemma tasklet_one x i c Q D L m :
  dev_rep (dev c) Q D L -> D CmdQ = [m] -> header_seqno (data_word m 0) = 0 ->
  callback_function (dev c) !! 0%nat = Some (cmd_cb i) -> cmd_cb i <> 0 -> cmd_cb i <> data_cb i ->
  exists msg l, copied m msg /\
    forall c2, ifx_mps_cmd_rcv_callback x (version i) msg (set_dev (set_queue CmdQ l (dev c)) c) = Some c2 ->
      get_queue CmdQ (dev c2) = l ->
      exists d3, tasklet x i c = Some (set_dev d3 c2) /\ base_global d3 = base_global (dev c2) /\
        callback_function d3 = callback_function (dev c2) /\ MPS_DATAMSG_IS_Q_EMPTY (get_queue CmdQ d3) = true.
Proof.
  intros Hd HD Hseq Hcb H0 Hne. destruct dispatch_fuel_two as [n Hn].
  pose proof (dev_held _ _ _ _ Hd CmdQ) as Hh. rewrite HD in Hh.
  apply Forall2_cons_inv_r in Hh as (p & l0 & (Hp & msg & Hmsg & Hcopy) & Hnil & HL).
  apply Forall2_nil_inv_r in Hnil as ->.
  pose proof (dev_queue _ _ _ _ Hd CmdQ) as Hq. rewrite HL in Hq.
  destruct (datamsg_pop_rep _ _ _ Hq) as (l & Hpop & Hl).
  pose proof (dev_good _ _ _ _ Hd CmdQ) as Hg. rewrite HD in Hg. apply Forall_cons in Hg as [Hg _].
  exists msg, l. split; [done|]. intros c2 Hc2 Hq2. unfold tasklet. rewrite Hn.
  cbn [dispatch_run]. rewrite Hpop. cbn [mbind option_bind].
  destruct (Z.eqb_spec p 0); [done|]. set (c1 := set_dev (set_queue CmdQ l (dev c)) c) in *.
  change (heap (dev c1)) with (heap (dev c)). rewrite Hmsg. cbn [mbind option_bind].
  rewrite (copied_header m msg Hg Hcopy), Hseq.
  change (callback_function (dev c1)) with (callback_function (dev c)).
  change (Z.to_nat 0) with 0%nat. rewrite Hcb. cbn [mbind option_bind].
  destruct (Z.eqb_spec (cmd_cb i) 0); [done|]. cbn [negb]. unfold run_callback.
  destruct (Z.eqb_spec (cmd_cb i) (data_cb i)); [done|]. rewrite Z.eqb_refl, Hc2.
  cbn [mbind option_bind]. set (c3 := set_dev (set_heap _ _ _) c2).
  change (get_queue CmdQ (dev c3)) with (get_queue CmdQ (dev c2)). rewrite Hq2.
  unfold mps_datamsg_dequeue_head. rewrite (datamsg_empty _ _ Hl), bool_decide_eq_true_2 by done.
  cbn [mbind option_bind Z.eqb]. eexists. split; [reflexivity|]. do 2 (split; [done|]).
  change (MPS_DATAMSG_IS_Q_EMPTY l = true). by rewrite (datamsg_empty _ _ Hl).
Qed.

(** The handler and the tasklet on the only command of the FIFO. *)
Lemma handle_one y i c Q D L m :
  ready i c Q D L -> Q (inn y) = [m] -> header_seqno (data_word m 0) = 0 ->
  exists c1 msg, copied m msg /\ (exists d1, c1 = set_dev d1 c) /\
    regs_rep (base_global (dev c1)) (<[inn y := []]> Q) /\ caught_up (inn y) (base_global (dev c1)) /\
    (forall id', inn y <> id' -> offsets id' (base_global (dev c1)) = offsets id' (base_global (dev c))) /\
    forall c2, ifx_mps_cmd_rcv_callback y (version i) msg c1 = Some c2 ->
      get_queue CmdQ (dev c2) = get_queue CmdQ (dev c1) ->
      exists d3, handle y i c = Some (set_dev d3 c2) /\ base_global d3 = base_global (dev c2) /\
        MPS_DATAMSG_IS_Q_EMPTY (get_queue CmdQ d3) = true.
Proof.
  intros [Hd HD Hcb [H0 Hne] Ha] HQ Hseq.
  destruct (read_one (inn y) (dev c) Q D L m Hd HQ HD Ha) as (d' & L' & Hr & Hd' & Hc & Ho & Hcb').
  destruct (tasklet_one y i (set_dev d' c) _ _ _ m Hd') as (msg & l & Hcopy & Ht); try done.
  { change (callback_function d' !! 0%nat = Some (cmd_cb i)). by rewrite Hcb'. }
  exists (set_dev (set_queue CmdQ l d') c), msg. split; [done|]. split; [by eexists|].
  split; [apply Hd'|]. do 2 (split; [done|]). intros c2 Hc2 Hq2.
  destruct (Ht c2 Hc2 Hq2) as (d3 & Htask & Hb & _ & He). exists d3. split; [|done].
  unfold handle, receive_commands. unfold inn in Hr.
  unfold _ifx_mpsdrv_mbx_read_uscMsg, _ifx_mpsdrv_mbx_read_dscMsg.
  destruct (y =? MPS_CPU_0_ID); rewrite Hr; cbn [mbind option_bind]; exact Htask.
Qed.

(** What the receiver's copy of a command says. *)
Lemma command_copied m type seqno cmd len content msg :
  command m type seqno cmd len content -> copied (wire m) msg ->
  header_cmd (data_word msg 0) = cmd mod 2 ^ 16 /\ header_seqno (data_word msg 0) = seqno mod 2 ^ 8 /\
  forall i, Z.of_nat i < len / 4 -> data_word msg (S (S i)) = u32 (data_word content i).
Proof.
  intros Hm Hc. destruct (command_words _ _ _ _ _ _ Hm) as (Hg & Hl & Hw).
  assert (Hlen : 0 <= len / 4 <= 4).
  { destruct Hm as [_ _ H]. repeat (apply elem_of_cons in H as [->|H]; [done|]). by apply elem_of_nil in H. }
  assert (H0 : data_word msg 0 = header_val0 type seqno cmd).
  { rewrite (copied_word (wire m) msg 0 Hg Hc) by lia. rewrite wire_word by lia. by destruct Hm as [-> _ _]. }
  rewrite H0, header_cmd_val0, header_seqno_val0. do 2 (split; [done|]). intros i Hi.
  rewrite (copied_word (wire m) msg (S (S i)) Hg Hc) by lia. apply Hw. lia.
Qed.

Lemma ready_raise i c Q D L irq d :
  ready i (set_dev d c) Q D L -> ready i (set_dev (raise_irq irq d) c) Q D L.
Proof.
  intros [Hd HD Hcb Ha Hm]. cbn in *. split; try done.
  destruct Hd as [H1 H2 H3 H4 H5]. by split.
Qed.

Lemma ready_same i c c' Q D L : ready i c Q D L -> dev c' = dev c -> ready i c' Q D L.
Proof. intros [H1 H2 H3 H4 H5] He. rewrite <- He in H1, H3, H5. by split. Qed.

(** The wire message of a command, at the head of it. *)
Lemma command_seqno m type seqno cmd len content :
  command m type seqno cmd len content -> header_seqno (data_word (wire m) 0) = seqno mod 2 ^ 8.
Proof.
  intros Hm. destruct (command_words _ _ _ _ _ _ Hm) as (Hg & Hl & Hw).
  assert (Hlen : 0 <= len / 4).
  { destruct Hm as [_ _ H]. repeat (apply elem_of_cons in H as [->|H]; [done|]). by apply elem_of_nil in H. }
  rewrite wire_word by lia. destruct Hm as [-> _ _]. apply header_seqno_val0.
Qed.

(** ** The two halves of an exchange *)
(** A request in the FIFO of [y] that it can serve: the response is in the other FIFO. *)
Lemma request_served y iy c Q D L m type cmd len content rtype rlen rcontent c2 :
  ready iy c Q D L -> command m type 0 cmd len content -> 0 <= cmd <= 0x1000 ->
  Q (inn y) = [wire m] -> Q (out y) = [] -> inn y <> out y ->
  caught_up (out y) (base_global (dev c)) ->
  (forall d msg, (forall i, Z.of_nat i < len / 4 -> data_word msg (S (S i)) = u32 (data_word content i)) ->
    serve (version iy) cmd msg (set_dev d c) = Some (Some ((rtype, rlen, rcontent), set_dev d c2))) ->
  command (data_message rtype 0 (cmd + 0x1000) rlen rcontent) rtype 0 (cmd + 0x1000) rlen rcontent ->
  exists d', handle y iy c = Some (set_dev d' c2) /\
    regs_rep (base_global d')
      (<[out y := [wire (data_message rtype 0 (cmd + 0x1000) rlen rcontent)]]> (<[inn y := []]> Q)) /\
    caught_up (inn y) (base_global d') /\ MPS_DATAMSG_IS_Q_EMPTY (get_queue CmdQ d') = true.
Proof.
  intros Hr Hm Hcmd HQ HQo Hne Hcu Hserve Hans.
  destruct (handle_one y iy c Q D L (wire m) Hr HQ) as (c1 & msg & Hcopy & [d1 ->] & Hregs & Hci & Hoff & Hh).
  { by rewrite (command_seqno _ _ _ _ _ _ Hm). }
  destruct (command_copied _ _ _ _ _ _ _ Hm Hcopy) as (Hc & Hs & Hw).
  rewrite Z.mod_small in Hc, Hs by lia.
  destruct (command_sent y _ _ _ _ _ _ (set_dev d1 c2) _ Hans Hregs) as (r2 & irq & Hsend & Hregs2 & Hoff2).
  { by rewrite fn_lookup_insert_ne. }
  { unfold caught_up. change (dev (set_dev d1 c2)) with (dev (set_dev d1 c)). rewrite Hoff by done. exact Hcu. }
  set (c3 := set_dev (raise_irq irq (set_regs r2 d1)) c2).
  destruct (Hh c3) as (d3 & Hhandle & Hb & He).
  { unfold ifx_mps_cmd_rcv_callback. rewrite Hc, Hs.
    destruct (Z.ltb_spec 0x1000 cmd); [lia|]. rewrite Hserve by done. cbn [mbind option_bind].
    by rewrite Hsend. }
  { done. }
  exists d3. split; [exact Hhandle|]. rewrite Hb. split; [exact Hregs2|]. split; [|exact He].
  unfold caught_up. change (base_global (dev c3)) with r2. rewrite Hoff2 by done. exact Hci.
Qed.

(** A response in the FIFO of [x]: the asker finds it when it wakes up. *)
Lemma response_taken x ix c Q D L type cmd len content :
  ready ix c Q D L -> command (data_message type 0 (cmd + 0x1000) len content) type 0 (cmd + 0x1000) len content ->
  0 < cmd <= 0x1000 -> cmd ∈ known_responses -> 4 <= len ->
  Q (inn x) = [wire (data_message type 0 (cmd + 0x1000) len content)] ->
  exists c', handle x ix c = Some c' /\ wait_done false c' = true /\
    (remote_result c').1 = u32 (data_word content 0) /\ kernel_calls c' = kernel_calls c /\
    cmd_wakeuplist_balance c' = u32 (cmd_wakeuplist_balance c - 1) /\
    regs_rep (base_global (dev c')) (<[inn x := []]> Q) /\ caught_up (inn x) (base_global (dev c')) /\
    (forall id', inn x <> id' -> offsets id' (base_global (dev c')) = offsets id' (base_global (dev c))).
Proof.
  intros Hr Hm Hcmd Hknown Hlen HQ.
  destruct (handle_one x ix c Q D L _ Hr HQ) as (c1 & msg & Hcopy & [d1 ->] & Hregs & Hci & Hoff & Hh).
  { by rewrite (command_seqno _ _ _ _ _ _ Hm). }
  destruct (command_copied _ _ _ _ _ _ _ Hm Hcopy) as (Hc & _ & Hw).
  rewrite Z.mod_small in Hc by lia.
  destruct (Hh (set_control msg 1 (u32 (cmd_wakeuplist_balance c - 1)) (set_dev d1 c))) as (d3 & Hhandle & Hb & _).
  { unfold ifx_mps_cmd_rcv_callback. rewrite Hc.
    destruct (Z.ltb_spec 0x1000 (cmd + 0x1000)); [|lia].
    rewrite Z.add_simpl_r, bool_decide_eq_true_2 by done. done. }
  { done. }
  eexists. split; [exact Hhandle|]. cbn [dev set_dev] in *. rewrite Hb. split; [done|].
  split; [|done]. apply (Hw 0%nat). pose proof (Z.div_le_mono 4 len 4). change (4 / 4) with 1 in *. lia.
Qed.

(** ** Turns that find nothing *)
Definition idle (x : Z) (c : client) : Prop :=
  (exists Q, regs_rep (base_global (dev c)) Q /\ Q (inn x) = []) /\
  caught_up (inn x) (base_global (dev c)) /\ MPS_DATAMSG_IS_Q_EMPTY (get_queue CmdQ (dev c)) = true.

Lemma put_get_fifo id r : put_fifo id (get_fifo id r) r = r.
Proof. destruct r as [[] [] [] [] m]. by destruct id. Qed.
Lemma read_idle id fuel q d Q :
  regs_rep (base_global d) Q -> Q id = [] -> caught_up id (base_global d) ->
  mbx_read_loop (S fuel) id q 0 d = Some (0, d).
Proof.
  intros HQ HQid Hc. cbn [mbx_read_loop]. pose proof (HQ id) as Hf. rewrite HQid in Hf.
  destruct (follow_wrap_rep _ _ Hf) as [_ Hh]. cbn [head_at] in Hh.
  unfold ifx_mpsdrv_fifo_not_empty. rewrite Hh, (caught_up_follow _ _ Hf Hc), put_get_fifo. by destruct d.
Qed.
Lemma handle_idle x i c : idle x c -> handle x i c = Some c.
Proof.
  intros ((Q & HQ & HQx) & Hc & He). destruct dispatch_fuel_two as [n Hn].
  assert (Ht : tasklet x i c = Some c).
  { unfold tasklet. rewrite Hn. cbn [dispatch_run]. unfold mps_datamsg_dequeue_head. rewrite He.
    cbn [mbind option_bind Z.eqb]. f_equal. by destruct c as [[]]. }
  unfold handle, receive_commands, _ifx_mpsdrv_mbx_read_uscMsg, _ifx_mpsdrv_mbx_read_dscMsg.
  unfold inn in HQx, Hc. change read_fuel with (S 16).
  destruct (x =? MPS_CPU_0_ID); rewrite (read_idle _ 16 CmdQ _ Q HQ HQx Hc); cbn [mbind option_bind];
    (replace (set_dev (dev c) c) with c by by destruct c); exact Ht.
Qed.
Lemma ready_idle x i c Q D L :
  ready i c Q D L -> Q (inn x) = [] -> caught_up (inn x) (base_global (dev c)) -> idle x c.
Proof.
  intros [Hd HD _ _ _] HQ Hc. split; [by exists Q; split; [apply Hd|]|]. split; [done|].
  pose proof (dev_queue _ _ _ _ Hd CmdQ) as Hq.
  rewrite (datamsg_empty _ _ Hq). apply bool_decide_eq_true_2.
  pose proof (dev_held _ _ _ _ Hd CmdQ) as Hh. rewrite HD in Hh. by apply Forall2_nil_inv_r in Hh.
Qed.

Lemma share_equal a b : base_global (dev a) = base_global (dev b) -> share a b = b.
Proof. intros H. unfold share. rewrite H. by destruct b as [[]]. Qed.

(** Before the other processor has had a turn, turns of the asker change nothing. *)
Lemma waits_before x ix y iy before after a b :
  idle x a -> cmd_callback_flag a = 0 -> Other ∈ before -> exists l,
    waits x ix y iy (before ++ after)%list a b =
      (b ← handle y iy (share a b); waits x ix y iy (l ++ after)%list (share b a) b).
Proof.
  intros Hi Hf. revert b. induction before as [|[] before IH]; intros b Hin; [by apply elem_of_nil in Hin| |].
  - exists before. cbn [app waits]. unfold wait_done. by rewrite Hf.
  - apply elem_of_cons in Hin as [?|Hin]; [done|]. destruct (IH (share a b) Hin) as [l Hl].
    exists l. cbn [app waits]. unfold wait_done at 1. rewrite Hf, handle_idle by done. exact Hl.
Qed.
(** After it has answered, its turns change nothing until the asker has one. *)
Lemma waits_after x ix y iy turns a b :
  idle y b -> base_global (dev a) = base_global (dev b) -> cmd_callback_flag a = 0 -> Own ∈ turns -> exists l,
    waits x ix y iy turns a b = (a ← handle x ix a; waits x ix y iy l a (share a b)).
Proof.
  intros Hi Hs Hf. induction turns as [|[] turns IH]; intros Hin; [by apply elem_of_nil in Hin| |].
  - apply elem_of_cons in Hin as [?|Hin]; [done|]. destruct (IH Hin) as [l Hl]. exists l. rewrite <- Hl.
    cbn [waits]. unfold wait_done. rewrite Hf. cbn [nz orb]. rewrite share_equal, handle_idle by done.
    cbn [mbind option_bind]. by rewrite share_equal by done.
  - exists turns. cbn [waits]. unfold wait_done. by rewrite Hf.
Qed.

(** An exchange that gets a response, from the two halves. *)
Lemma exchange_answers x ix y iy k turns a b Q Da La Qb Db Lb cmd arg type len content rtype rlen rcontent b2 :
  ready ix a Q Da La -> ready iy b Qb Db Lb -> cmd_callback_flag a = 0 -> served turns ->
  out x = inn y -> out y = inn x -> inn y <> inn x -> Q (inn x) = [] -> Q (inn y) = [] ->
  caught_up (inn x) (base_global (dev a)) -> caught_up (inn y) (base_global (dev a)) ->
  ask x ix k a = inr (remote_request x cmd arg a) ->
  cmd_request x cmd arg [] = Some (type, len, content) ->
  command (data_message type 0 cmd len content) type 0 cmd len content ->
  command (data_message rtype 0 (cmd + 0x1000) rlen rcontent) rtype 0 (cmd + 0x1000) rlen rcontent ->
  0 < cmd <= 0x1000 -> cmd ∈ known_responses -> 4 <= rlen ->
  (forall d msg, (forall i, Z.of_nat i < len / 4 -> data_word msg (S (S i)) = u32 (data_word content i)) ->
    serve (version iy) cmd msg (set_dev d b) = Some (Some ((rtype, rlen, rcontent), set_dev d b2))) ->
  exists a' d', exchange x ix y iy k turns a b = Some (u32 (data_word rcontent 0), a', set_dev d' b2) /\
    kernel_calls a' = kernel_calls a /\ cmd_callback_flag a' = 0 /\
    cmd_wakeuplist_balance a' = u32 (u32 (cmd_wakeuplist_balance a + 1) - 1) /\
    regs_rep (base_global (dev a')) Q /\
    caught_up (inn x) (base_global (dev a')) /\ caught_up (inn y) (base_global (dev a')).
Proof.
  intros Ha Hb Hflag (before & after & -> & Hother & Hown) Hxy Hyx Hne HQx HQy Hcx Hcy Hask Hreq Hm Hr Hcmd Hknown Hrl Hserve.
  set (a0 := set_control empty_message (cmd_callback_flag a) (cmd_wakeuplist_balance a) a).
  destruct (command_sent x _ _ _ _ _ _ a0 Q Hm) as (r1 & irq & Hsend & Hr1 & Ho1).
  { apply Ha. } { by rewrite Hxy. } { by rewrite Hxy. }
  unfold exchange. rewrite Hask. unfold remote_request. fold a0. unfold ifx_cmd_process.
  cbn [Z.eqb]. rewrite Hreq, Hsend. set (a1 := set_control _ _ _ (set_dev _ a0)).
  assert (Hra1 : ready ix a1 (<[out x := [wire (data_message type 0 cmd len content)]]> Q) Da La).
  { apply (ready_same _ (set_dev (raise_irq irq (set_regs r1 (dev a))) a)); [|done].
    apply ready_raise. by apply (ready_share _ _ Q). }
  destruct (waits_before x ix y iy before after a1 b) as [l Hl]; [|done|done|].
  { eapply ready_idle; [exact Hra1|by rewrite Hxy, fn_lookup_insert_ne|].
    unfold caught_up. change (base_global (dev a1)) with r1. rewrite Ho1 by (by rewrite Hxy). exact Hcx. }
  rewrite Hl.
  destruct (request_served y iy (share a1 b) _ Db Lb _ type cmd len content rtype rlen rcontent
    (set_dev (dev (share a1 b)) b2)
    (ready_share _ _ _ _ _ r1 _ Hb Hr1) Hm) as (d2 & Hh & Hr2 & Hc2 & He2).
  all: rewrite ?Hxy, ?Hyx, ?fn_lookup_insert, ?fn_lookup_insert_ne by done; try done; try lia.
  { unfold caught_up. change (base_global (dev (share a1 b))) with r1. rewrite Ho1 by (by rewrite Hxy). exact Hcx. }
  rewrite Hh. cbn [mbind option_bind]. rewrite Hxy, Hyx in *.
  set (b' := set_dev d2 b2). change (set_dev d2 (set_dev _ b2)) with b'.
  destruct (waits_after x ix y iy (l ++ after)%list (share b' a1) b') as [l' Hl'];
    [|done|done|apply elem_of_app; by right|].
  { split; [|done]. eexists. split; [exact Hr2|]. by rewrite fn_lookup_insert_ne, fn_lookup_insert. }
  rewrite Hl'. assert (Ha1 : ready ix (share b' a1) _ Da La) by (eapply ready_share; [exact Hra1|exact Hr2]).
  destruct (response_taken x ix (share b' a1) _ Da La rtype cmd rlen rcontent Ha1
    Hr Hcmd Hknown Hrl) as (a2 & Hh2 & Hw & Hres & Hk & Hbal & Hr3 & Hc3 & Ho3).
  { by rewrite fn_lookup_insert. }
  rewrite Hh2. cbn [mbind option_bind].
  assert (Hend : waits x ix y iy l' a2 (share a2 b') =
    let (v, a3) := remote_result a2 in Some (v, a3, share a2 b')) by (by destruct l'; cbn [waits]; rewrite Hw).
  rewrite Hend. unfold remote_result in Hres |- *. cbn [fst] in Hres.
  rewrite Hres. do 2 eexists. split; [reflexivity|]. do 2 (split; [done|]). split; [exact Hbal|].
  split; [|split; [exact Hc3|]].
  - intros id. specialize (Hr3 id). destruct (decide (inn x = id)) as [<-|Hx].
    { rewrite fn_lookup_insert in Hr3. by rewrite HQx. }
    rewrite !fn_lookup_insert_ne in Hr3 by done. destruct (decide (inn y = id)) as [<-|Hy].
    { rewrite fn_lookup_insert in Hr3. by rewrite HQy. }
    by rewrite !fn_lookup_insert_ne in Hr3.
  - unfold caught_up. change (base_global _) with (base_global (dev a2)). rewrite Ho3 by done. exact Hc2.
Qed.

(** What the processor that is asked does for a question, and the answer. *)
Definition answer (i : image) (k : question) (c : client) : Z * client :=
  match k with
  | SkbuffAlloc n => kernel (AllocSkb (u32 n) GFP_ATOMIC) c
  | AppBuffKmalloc n => kernel (Kmalloc (u32 n)) c
  | GetVersion => (version i, c)
  end.

(** Every question has its command, and the response carries the answer. *)
Definition asker (x y : Z) (k : question) : Prop :=
  x = MPS_CPU_1_ID /\ y = MPS_CPU_0_ID \/ x = MPS_CPU_0_ID /\ y = MPS_CPU_1_ID /\ k = GetVersion.

Lemma question_command x y iy k b :
  asker x y k -> exists cmd arg type len content rtype rlen rcontent,
    (forall ix a, ask x ix k a = inr (remote_request x cmd arg a)) /\
    cmd_request x cmd arg [] = Some (type, len, content) /\
    command (data_message type 0 cmd len content) type 0 cmd len content /\
    command (data_message rtype 0 (cmd + 0x1000) rlen rcontent) rtype 0 (cmd + 0x1000) rlen rcontent /\
    0 < cmd <= 0x1000 /\ cmd ∈ known_responses /\ 4 <= rlen /\
    (forall d msg, (forall i, Z.of_nat i < len / 4 -> data_word msg (S (S i)) = u32 (data_word content i)) ->
      serve (version iy) cmd msg (set_dev d b) =
        Some (Some ((rtype, rlen, rcontent), set_dev d (answer iy k b).2))) /\
    data_word rcontent 0 = (answer iy k b).1.
Proof.
  assert (Hcommand : forall t cmd len content, t = MPS_TYPE_UPSTREAM_CMD \/ t = MPS_TYPE_DOWNSTREAM_CMD ->
    len ∈ [0; 4; 8; 16] -> command (data_message t 0 cmd len content) t 0 cmd len content) by (by split).
  assert (Harg : forall n msg,
    (forall i, Z.of_nat i < 4 / 4 -> data_word msg (S (S i)) = u32 (data_word [n] i)) -> payload msg = u32 n)
    by (intros n msg H; by apply (H 0%nat)).
  intros [[-> ->]|(-> & -> & ->)]; [destruct k as [n|n|]|].
  1: exists MPS_CMD_CPU1_SKB_ALLOC, n, MPS_TYPE_DOWNSTREAM_CMD, 4, [n], MPS_TYPE_DOWNSTREAM_CMD, 8,
       [hd 0 (answers b); u32 n].
  2: exists MPS_CMD_CPU1_DATA_ALLOC, n, MPS_TYPE_DOWNSTREAM_CMD, 4, [n], MPS_TYPE_DOWNSTREAM_CMD, 8,
       [hd 0 (answers b); u32 n].
  3: exists MPS_CMD_CPU1_GET_REMOTE_VER, 0, MPS_TYPE_UPSTREAM_CMD, 0, [], MPS_TYPE_UPSTREAM_CMD, 4, [version iy].
  4: exists MPS_CMD_CPU0_GET_REMOTE_VER, 0, MPS_TYPE_DOWNSTREAM_CMD, 0, [], MPS_TYPE_DOWNSTREAM_CMD, 4, [version iy].
  all: split; [reflexivity|]; split; [reflexivity|];
    split; [apply Hcommand; [auto|set_solver]|]; split; [apply Hcommand; [auto|set_solver]|];
    split; [done|]; split; [set_solver|]; split; [done|]; split; [|reflexivity].
  1, 2: intros d msg H; unfold serve; rewrite (Harg n msg H); reflexivity.
  all: reflexivity.
Qed.

(** C23. A question of one processor to the other, through the command FIFOs, the interrupt
    handlers, the tasklets and the command callbacks of both, when the command FIFOs and
    queues are empty, the callbacks registered, there is memory for a message on each side,
    the callback flag of the asker is clear, and no signal ends the wait; and whatever the
    turns of the two processors, as long as the asked one gets a turn and the asker one
    after it: ifx_mps_skbuff_alloc and ifx_mps_app_buff_kmalloc on CPU1 return what the
    allocator of CPU0 returned for the size asked for, and call it once; ifx_mps_get_version
    returns the version of the other processor, either way. The asker wakes up with its flag
    cleared and the balance of requests as before, and both FIFOs are empty and ready for
    the next question. A flag that is set ends the wait at once (stale_flag_answers). *)
Theorem remote_call_answers x ix y iy k turns a b Q Da La Qb Db Lb :
  asker x y k -> ready ix a Q Da La -> ready iy b Qb Db Lb ->
  Q UPSTR_CMD = [] -> Q DNSTR_CMD = [] ->
  caught_up UPSTR_CMD (base_global (dev a)) -> caught_up DNSTR_CMD (base_global (dev a)) ->
  cmd_callback_flag a = 0 -> served turns ->
  exists a' d', exchange x ix y iy k turns a b = Some (u32 (answer iy k b).1, a', set_dev d' (answer iy k b).2) /\
    kernel_calls a' = kernel_calls a /\ cmd_callback_flag a' = 0 /\
    cmd_wakeuplist_balance a' = u32 (cmd_wakeuplist_balance a) /\
    regs_rep (base_global (dev a')) Q /\
    caught_up UPSTR_CMD (base_global (dev a')) /\ caught_up DNSTR_CMD (base_global (dev a')).
Proof.
  intros Hwho Ha Hb Hu Hd Hcu Hcd Hflag Hturns.
  destruct (question_command x y iy k b Hwho) as (cmd & arg & type & len & content & rtype & rlen & rcontent &
    Hask & Hreq & Hm & Hr & Hcmd & Hknown & Hlen & Hserve & <-).
  destruct (exchange_answers x ix y iy k turns a b Q Da La Qb Db Lb cmd arg type len content rtype rlen rcontent
    (answer iy k b).2 Ha Hb Hflag Hturns) as (a' & d' & He & Hk & Hf & Hbal & Hregs & Hcx & Hcy); try done.
  all: destruct Hwho as [[-> ->]|(-> & -> & _)]; try done.
  all: exists a', d'; split; [exact He|]; do 2 (split; [done|]); split; [|split; [exact Hregs|split; first [exact Hcx|exact Hcy]]].
  all: rewrite Hbal; unfold u32; by rewrite Zminus_mod_idemp_l, Z.add_simpl_r.
Qed.

(** A flag that is set before the question, by the late response to one whose wait a signal
    ended, is taken for the response: the asker does not wait, whatever the turns, and returns
    the 0 of the message it has just cleared. *)
Theorem stale_flag_answers x ix y iy k turns a b :
  asker x y k -> cmd_callback_flag a <> 0 ->
  exists a', exchange x ix y iy k turns a b = Some (0, a', b) /\ cmd_callback_flag a' = 0.
Proof.
  intros Hwho Hflag.
  destruct (question_command x y iy k b Hwho) as (cmd & arg & type & len & content & _ & _ & _ & Hask & Hreq & _).
  unfold exchange. rewrite Hask. unfold remote_request, ifx_cmd_process. cbn [Z.eqb]. rewrite Hreq.
  set (a0 := set_control empty_message _ _ a). unfold mbx_send.
  destruct (ifx_mpsdrv_mbx_send x _ (dev a0)) as [[r m] d].
  assert (Hend : forall a1, wait_done false a1 = true ->
    waits x ix y iy turns a1 b = let (v, a2) := remote_result a1 in Some (v, a2, b))
    by (intros a1 Hw; by destruct turns; cbn [waits]; rewrite Hw).
  rewrite Hend; [eexists; by split|].
  unfold wait_done, nz. change (cmd_callback_flag _) with (cmd_callback_flag a). by destruct (Z.eqb_spec (cmd_callback_flag a) 0).
Qed.

(** ** Two processors after the initialisation of the module *)
Definition two_images : image := mk_image 0x80011000 0x80012000 0x01020304.
Definition started : client := default start_client (ifx_mps_init_module (cmd_cb two_images) start_client).

Lemma started_ready : ready two_images started (fun _ => []) (fun _ => []) (fun _ => []).
Proof.
  split; [|done..|].
  - apply (dev_rep_callbacks start_dev); [exact start_dev_rep|reflexivity].
  - exists [4096], [4128; 4160]. do 2 (split; [reflexivity|]). split; [apply NoDup_singleton|].
    by apply Forall_singleton.
Qed.

(** CPU1 asks for a packet buffer of 1536 bytes: CPU0's kernel allocates it at 0x8000. *)
Lemma remote_call_answers_witness :
  exists a' d', exchange 1 two_images 0 two_images (SkbuffAlloc 1536) [Own; Other; Other; Own] started started =
      Some (0x8000, a', set_dev d' (kernel (AllocSkb 1536 GFP_ATOMIC) started).2) /\
    cmd_callback_flag a' = 0.
Proof.
  destruct (remote_call_answers 1 two_images 0 two_images (SkbuffAlloc 1536) [Own; Other; Other; Own] started started
    (fun _ => []) (fun _ => []) (fun _ => []) (fun _ => []) (fun _ => []) (fun _ => [])
    (or_introl (conj eq_refl eq_refl)) started_ready started_ready eq_refl eq_refl eq_refl eq_refl eq_refl)
    as (a' & d' & He & _ & Hf & _).
  { exists [Own; Other], [Other; Own]. split; [reflexivity|]. split; apply list_elem_of_In; cbn; tauto. }
  exists a', d'. split; [exact He|exact Hf].
Defined.
