(* ===== verification/Deu.v ===== *)
(** * Deu: the encryption unit, its drivers, and the functions of the IPsec stack on them

    drivers/crypto of the twinpass board support: ifxdeu-sha1.c and ifxdeu-md5.c feed the hash
    unit, ifxdeu-aes.c and ifxdeu-des.c the two ciphers, and sec_api.c makes keyed hashes and
    CBC encryption of them for the IPsec stack.  The build is the one without
    CONFIG_CRYPTO_DEV_DANUBE_DMA.

    sec_api.c declares the functions of ifxdeu-sha1.c, which are static there; the model takes
    them to be the ones meant.

    A block of memory is the list of its bytes; the processor is big endian.  What the unit
    computes is a parameter: the initial digest and the compression function of a hash, one
    step of a cipher.  The waits for its busy flags are left out, and so is the one for the flag
    that says that the key is ready for decryption.  [None] says that the code
    reads or writes outside a buffer, or follows a null pointer. *)
From S2P Require Import Prelude.

Module Deu.

(** ** Memory *)
Definition u32 (z : Z) : Z := z mod 2 ^ 32.
Definition u64 (z : Z) : Z := z mod 2 ^ 64.
Definition is_byte (b : Z) : Prop := 0 <= b < 256.

Definition byte_at (b : list Z) (i : nat) : Z := nth i b 0.
Definition be32 (b : list Z) : Z :=
  byte_at b 0 * 2 ^ 24 + byte_at b 1 * 2 ^ 16 + byte_at b 2 * 2 ^ 8 + byte_at b 3.
(** The bytes of a number, the most significant one first. *)
Fixpoint be_bytes (n : nat) (w : Z) : list Z :=
  match n with O => [] | S n' => be_bytes n' (w / 256) ++ [w mod 256] end%list.
Definition bytes32 : Z -> list Z := be_bytes 4.
(** [cpu_to_le32] and [le32_to_cpu]. *)
Definition cpu_to_le32 (w : Z) : Z := be32 (rev (bytes32 w)).
(** [((u32 * ) b)[i]]. *)
Definition word_at (b : list Z) (i : nat) : Z := be32 (drop (4 * i) b).
Definition words (n : nat) (b : list Z) : list Z := map (word_at b) (seq 0 n).

(** [memcpy(&b[j], x, length x)]. *)
Definition put (j : nat) (x b : list Z) : list Z := (take j b ++ x ++ drop (j + length x) b)%list.
Definition zeros (n : nat) : list Z := replicate n 0.

(** ** The registers *)
(** The hash unit: start mode and algorithm, the words of the message register since the last
    block, the digest D1R to D5R. *)
Record deu_hash_t := mk_hash { h_SM : Z; h_ALGO : Z; h_MR : list Z; h_D : list Z }.
(** The fields of [aes_controlr], the keys K7R to K0R, IV3R to IV0R, ID3R to ID0R and OD3R to
    OD0R. *)
Record aes_t := mk_aes {
  a_SM : Z; a_ARS : Z; a_DAU : Z; a_K : Z; a_E_D : Z; a_O : Z;
  a_keys : list Z; a_IV : list Z; a_ID : list Z; a_OD : list Z }.
(** The fields of [des_controlr], K1HR to K3LR, the IV, the input and the output. *)
Record des_t := mk_des {
  d_M : Z; d_SM : Z; d_ARS : Z; d_E_D : Z; d_O : Z;
  d_keys : list Z; d_IV : list Z; d_I : list Z; d_out : list Z }.
(** The unit, and whether the processor takes interrupts. *)
Record deu := mk_deu { hash : deu_hash_t; aes : aes_t; des : des_t; irqs : bool }.

Definition set_hash (h : deu_hash_t) (s : deu) : deu := mk_deu h (aes s) (des s) (irqs s).
Definition set_aes (a : aes_t) (s : deu) : deu := mk_deu (hash s) a (des s) (irqs s).
Definition set_des (d : des_t) (s : deu) : deu := mk_deu (hash s) (aes s) d (irqs s).
Definition set_irqs (b : bool) (s : deu) : deu := mk_deu (hash s) (aes s) (des s) b.

(** Between [local_irq_save(flag)] and [local_irq_restore(flag)]. *)
Definition without_irqs (f : deu -> deu) (s : deu) : deu :=
  let flag := irqs s in set_irqs flag (f (set_irqs false s)).

Definition EINVAL : Z := 22.
Definition CRYPTO_TFM_MODE_ECB : Z := 1.
Definition CRYPTO_TFM_MODE_CBC : Z := 2.
Definition CRYPTO_TFM_REQ_WEAK_KEY : Z := 0x100.
Definition CRYPTO_TFM_RES_WEAK_KEY : Z := 0x100000.
Definition CRYPTO_TFM_RES_BAD_KEY_LEN : Z := 0x200000.
Definition TWINPASS_REV14 : Z := 5.

Section Unit.
(** What the unit computes: the digest INIT sets and the digest after a block of sixteen words,
    by algorithm; the output and the next IV of a step of AES, from the length and the words of
    the key, the direction, the mode, the IV and the input; of a step of DES, from M and the
    words of the keys.  The version of the chip. *)
Context (hash_iv : Z -> list Z) (compress : Z -> list Z -> list Z -> list Z)
  (aes_step : Z -> list Z -> Z -> Z -> list Z -> list Z -> list Z * list Z)
  (des_step : Z -> list Z -> Z -> Z -> list Z -> list Z -> list Z * list Z)
  (chip_id : Z).

(** [controlr.INIT = 1], and a word written to MR: the sixteenth completes a block. *)
Definition write_INIT (e : deu_hash_t) : deu_hash_t := mk_hash (h_SM e) (h_ALGO e) [] (hash_iv (h_ALGO e)).
Definition write_MR (w : Z) (e : deu_hash_t) : deu_hash_t :=
  let m := (h_MR e ++ [w])%list in
  if (length m =? 16)%nat then mk_hash (h_SM e) (h_ALGO e) [] (compress (h_ALGO e) (h_D e) m)
  else mk_hash (h_SM e) (h_ALGO e) m (h_D e).
Definition write_MRs (ws : list Z) (s : deu) : deu :=
  set_hash (fold_left (fun e w => write_MR w e) ws (hash s)) s.
(** [SM = 1; ALGO = algo; INIT = 1], and [SM = 0]. *)
Definition start_hash (algo : Z) (s : deu) : deu :=
  set_hash (write_INIT (mk_hash 1 algo (h_MR (hash s)) (h_D (hash s)))) s.
Definition stop_hash (s : deu) : deu :=
  set_hash (mk_hash 0 (h_ALGO (hash s)) (h_MR (hash s)) (h_D (hash s))) s.

(** ** SHA1 *)
Definition SHA1_DIGEST_SIZE : Z := 20.
Definition SHA1_HMAC_BLOCK_SIZE : Z := 64.
Record sha1_hw_ctx := mk_sha1 { count : Z; buffer : list Z }.

Definition sha1_transform (block : list Z) : deu -> deu := without_irqs (write_MRs (words 16 block)).

Definition sha1_init (s : deu) : sha1_hw_ctx * deu :=
  (mk_sha1 0 (zeros 64), without_irqs (start_hash 0) s).

(** The loop over the blocks of [data] from [i] on. *)
Fixpoint sha1_blocks (fuel : nat) (i : Z) (data : list Z) (s : deu) : option (Z * deu) :=
  match fuel with
  | O => None
  | S fuel' =>
      if u32 (i + 63) <? Z.of_nat (length data)
      then sha1_blocks fuel' (u32 (i + 64)) data (sha1_transform (drop (Z.to_nat i) data) s)
      else Some (i, s)
  end.

Definition sha1_update (data : list Z) (sctx : sha1_hw_ctx) (s : deu) : option (sha1_hw_ctx * deu) :=
  let len := Z.of_nat (length data) in
  let j := Z.land (Z.shiftr (count sctx) 3) 0x3f in
  let count' := u64 (count sctx + u32 (Z.shiftl len 3)) in
  if 63 <? u32 (j + len) then
    let i := 64 - j in
    let buf := put (Z.to_nat j) (take (Z.to_nat i) data) (buffer sctx) in
    let s := sha1_transform buf s in
    '(i, s) ← sha1_blocks (S (length data)) i data s;
    Some (mk_sha1 count' (put 0 (drop (Z.to_nat i) data) buf), s)
  else Some (mk_sha1 count' (put (Z.to_nat j) data (buffer sctx)), s).

Definition sha1_padding : list Z := 0x80 :: zeros 63.

(** The digest and the wiped context. *)
Definition sha1_final (sctx : sha1_hw_ctx) (s : deu) : option (list Z * sha1_hw_ctx * deu) :=
  let bits := be_bytes 8 (count sctx) in
  let index := Z.land (Z.shiftr (count sctx) 3) 0x3f in
  let padlen := if index <? 56 then 56 - index else 64 + 56 - index in
  '(sctx, s) ← sha1_update (take (Z.to_nat padlen) sha1_padding) sctx s;
  '(sctx, s) ← sha1_update bits sctx s;
  let out := concat (map bytes32 (take 5 (h_D (hash s)))) in
  Some (out, mk_sha1 0 (zeros 64), without_irqs stop_hash s).

(** ** MD5 *)
Definition MD5_BLOCK_WORDS : Z := 16.
Definition MD5_HMAC_BLOCK_SIZE : Z := 64.
(** [hash] is not used; [block] as bytes. *)
Record md5_ctx := mk_md5 { byte_count : Z; block : list Z }.

Definition md5_transform (block : list Z) : deu -> deu :=
  without_irqs (write_MRs (map cpu_to_le32 (words 16 block))).

(** The block is not cleared. *)
Definition md5_init (mctx : md5_ctx) (s : deu) : md5_ctx * deu :=
  (mk_md5 0 (block mctx), without_irqs (start_hash 1) s).

(** The loop over whole blocks, each copied to the context first. *)
Fixpoint md5_blocks (fuel : nat) (data blk : list Z) (s : deu) : option (list Z * list Z * deu) :=
  match fuel with
  | O => None
  | S fuel' =>
      if 64 <=? Z.of_nat (length data) then
        let blk := put 0 (take 64 data) blk in
        md5_blocks fuel' (drop 64 data) blk (md5_transform blk s)
      else Some (data, blk, s)
  end.

Definition md5_update (data : list Z) (mctx : md5_ctx) (s : deu) : option (md5_ctx * deu) :=
  let len := Z.of_nat (length data) in
  let avail := 64 - Z.land (byte_count mctx) 0x3f in
  let byte_count' := u64 (byte_count mctx + len) in
  if len <? avail then
    Some (mk_md5 byte_count' (put (Z.to_nat (64 - avail)) data (block mctx)), s)
  else
    let blk := put (Z.to_nat (64 - avail)) (take (Z.to_nat avail) data) (block mctx) in
    let s := md5_transform blk s in
    '(data, blk, s) ← md5_blocks (S (length data)) (drop (Z.to_nat avail) data) blk s;
    Some (mk_md5 byte_count' (put 0 data blk), s).

Definition md5_final (mctx : md5_ctx) (s : deu) : list Z * md5_ctx * deu :=
  let offset := Z.land (byte_count mctx) 0x3f in
  let blk := put (Z.to_nat offset) [0x80] (block mctx) in
  let p := Z.to_nat (offset + 1) in
  let padding := 56 - (offset + 1) in
  let '(p, padding, blk, s) :=
    if padding <? 0 then
      let blk := put p (zeros (Z.to_nat (padding + 8))) blk in
      (0%nat, 56, blk, md5_transform blk s)
    else (p, padding, blk, s) in
  let blk := put p (zeros (Z.to_nat padding)) blk in
  let blk := put 56 (bytes32 (cpu_to_le32 (u32 (Z.shiftl (byte_count mctx) 3)))) blk in
  let blk := put 60 (bytes32 (cpu_to_le32 (u32 (Z.shiftr (byte_count mctx) 29)))) blk in
  let s := md5_transform blk s in
  let out := concat (map (fun w => bytes32 (cpu_to_le32 w)) (take 4 (h_D (hash s)))) in
  (out, mk_md5 0 (zeros 64), without_irqs stop_hash s).

(** ** Keyed hashes *)
(** [k_opad] and [k_ipad], each with a byte more than the block. *)
Record hmac_context := mk_hmac { k_opad : list Z; k_ipad : list Z }.

(** [key_] is on the stack: what is behind the key in it is never looked at. *)
Definition store_pads (key : list Z) : hmac_context :=
  let pad := put 0 key (zeros 65) in
  let xor v := imap (fun i b => if (i <? 64)%nat then Z.lxor b v else b) pad in
  mk_hmac (xor 0x5c) (xor 0x36).

(** [mctx] is on the stack too: [stack] is what its block holds. *)
Definition _md5_twinpass_hmac_set_key (stack key : list Z) (s : deu) : option (hmac_context * deu) :=
  if MD5_HMAC_BLOCK_SIZE <? Z.of_nat (length key) then
    let (mctx, s) := md5_init (mk_md5 0 stack) s in
    '(mctx, s) ← md5_update key mctx s;
    let '(key_, _, s) := md5_final mctx s in
    Some (store_pads (take (Z.to_nat MD5_BLOCK_WORDS) key_), s)
  else Some (store_pads key, s).

(** [hash] is the memory from the pointer on. *)
Definition _md5_twinpass_hmac_hash (stack : list Z) (ctx : hmac_context) (dat hash : list Z) (hashlen : Z)
    (s : deu) : option (list Z * deu) :=
  let (mctx, s) := md5_init (mk_md5 0 stack) s in
  '(mctx, s) ← md5_update (take (Z.to_nat MD5_HMAC_BLOCK_SIZE) (k_ipad ctx)) mctx s;
  '(mctx, s) ← md5_update dat mctx s;
  let '(digest, mctx, s) := md5_final mctx s in
  let (mctx, s) := md5_init mctx s in
  '(mctx, s) ← md5_update (take (Z.to_nat MD5_HMAC_BLOCK_SIZE) (k_opad ctx)) mctx s;
  '(mctx, s) ← md5_update digest mctx s;
  let '(digest, _, s) := md5_final mctx s in
  Some (put 0 digest hash, s).

Definition _sha1_twinpass_hmac_set_key (key : list Z) (s : deu) : option (hmac_context * deu) :=
  if SHA1_HMAC_BLOCK_SIZE <? Z.of_nat (length key) then
    let (mctx, s) := sha1_init s in
    '(mctx, s) ← sha1_update key mctx s;
    '(key_, _, s) ← sha1_final mctx s;
    Some (store_pads (take (Z.to_nat SHA1_DIGEST_SIZE) key_), s)
  else Some (store_pads key, s).

Definition _sha1_twinpass_hmac_hash (ctx : hmac_context) (dat hash : list Z) (hashlen : Z)
    (s : deu) : option (list Z * deu) :=
  let (mctx, s) := sha1_init s in
  '(mctx, s) ← sha1_update (take (Z.to_nat SHA1_HMAC_BLOCK_SIZE) (k_ipad ctx)) mctx s;
  '(mctx, s) ← sha1_update dat mctx s;
  '(digest, _, s) ← sha1_final mctx s;
  let (mctx, s) := sha1_init s in
  '(mctx, s) ← sha1_update (take (Z.to_nat SHA1_HMAC_BLOCK_SIZE) (k_opad ctx)) mctx s;
  '(mctx, s) ← sha1_update digest mctx s;
  if hashlen =? SHA1_DIGEST_SIZE then
    '(digest, _, s) ← sha1_final mctx s;
    Some (put 0 digest hash, s)
  else
    '(hash_buf, _, s) ← sha1_final mctx s;
    if (0 <=? hashlen) && (hashlen <=? SHA1_DIGEST_SIZE)
    then Some (put 0 (take (Z.to_nat hashlen) hash_buf) hash, s) else None.

(** ** AES *)
Definition AES_BLOCK_SIZE : Z := 16.
Definition ENDIAN_SWAP (x : Z) : Z := if TWINPASS_REV14 <=? chip_id then cpu_to_le32 x else x.

Definition aes_keys (ks : list Z) (a : aes_t) : aes_t :=
  mk_aes (a_SM a) (a_ARS a) (a_DAU a) (a_K a) (a_E_D a) (a_O a)
    (put (8 - length ks) ks (a_keys a)) (a_IV a) (a_ID a) (a_OD a).

(** The result, the flags, and whether the processor takes interrupts again, which it does not
    when the length of the key is refused. *)
Definition aes_set_key (in_key : list Z) (key_len flags : Z) (s : deu) : Z * Z * deu :=
  let flag := irqs s in
  let s := set_irqs false s in
  let a := aes s in
  let s := set_aes (mk_aes 1 1 (a_DAU a) (u32 (key_len / 8 - 2) mod 4) (a_E_D a) (a_O a) (a_keys a)
    (a_IV a) (a_ID a) (a_OD a)) s in
  if negb (key_len =? 16) && negb (key_len =? 24) && negb (key_len =? 32)
  then (- EINVAL, Z.lor flags CRYPTO_TFM_RES_BAD_KEY_LEN, s)
  else (0, flags, set_irqs flag (set_aes (aes_keys (words (Z.to_nat (key_len / 4)) in_key) (aes s)) s)).

(** The words written to ID3R to ID0R, by the number of bytes; none for another number. *)
Definition aes_input (nbytes : Z) (in_arg : list Z) : list Z :=
  if nbytes =? 16 then map ENDIAN_SWAP (words 4 in_arg)
  else if nbytes =? 8 then map ENDIAN_SWAP (words 2 in_arg)
  else if nbytes =? 4 then map ENDIAN_SWAP (words 1 in_arg)
  else if nbytes =? 2 then [ENDIAN_SWAP (byte_at in_arg 0 * 256 + byte_at in_arg 1)]
  else if nbytes =? 1 then [ENDIAN_SWAP (byte_at in_arg 0)]
  else [].

(** A write to ID0R starts a step. *)
Definition aes_start (ids : list Z) (a : aes_t) : aes_t :=
  match ids with
  | [] => a
  | _ =>
      let id := put (4 - length ids) ids (a_ID a) in
      let (od, ivs) := aes_step (a_K a) (a_keys a) (a_E_D a) (a_O a) (a_IV a) id in
      mk_aes (a_SM a) (a_ARS a) (a_DAU a) (a_K a) (a_E_D a) (a_O a) (a_keys a) ivs id od
  end.

(** The sixteen bytes written to [out_arg], whatever [nbytes] is. *)
Definition aes_ifxdeu (in_arg : list Z) (iv_arg : option (list Z)) (nbytes encdec mode : Z) (s : deu)
    : option (list Z * deu) :=
  let flag := irqs s in
  let a := aes s in
  let E_D := if encdec =? 0 then 1 else 0 in
  ivs ← (if (1 <? mode) && (negb (a_DAU a =? 0) || bool_decide (is_Some iv_arg))
         then words 4 <$> iv_arg else Some (a_IV a));
  let a := mk_aes (a_SM a) (a_ARS a) (a_DAU a) (a_K a) E_D ((mode - 1) mod 8) (a_keys a) ivs
             (a_ID a) (a_OD a) in
  let a := aes_start (aes_input nbytes in_arg) a in
  Some (concat (map bytes32 (a_OD a)), set_irqs flag (set_aes a (set_irqs false s))).

Definition aes_ifxdeu_cbc (src : list Z) (iv : option (list Z)) (nbytes encdec : Z) : deu -> option (list Z * deu) :=
  aes_ifxdeu src iv nbytes encdec CRYPTO_TFM_MODE_CBC.
Definition aes_encrypt (in_ : list Z) : deu -> option (list Z * deu) :=
  aes_ifxdeu in_ None AES_BLOCK_SIZE 1 CRYPTO_TFM_MODE_ECB.
Definition aes_decrypt (in_ : list Z) : deu -> option (list Z * deu) :=
  aes_ifxdeu in_ None AES_BLOCK_SIZE 0 CRYPTO_TFM_MODE_ECB.

Record aes_context := mk_aes_ctx { aes_key_len : Z; aes_key : list Z }.

(** The context as it was when the size is refused. *)
Definition _aes_twinpass_set_key (key : list Z) (keysize : Z) (ctx : aes_context) : Z * aes_context :=
  if negb (keysize =? 32) && negb (keysize =? 24) && negb (keysize =? 16) then (-1, ctx)
  else (0, mk_aes_ctx keysize (put 0 (take (Z.to_nat keysize) key) (aes_key ctx))).

(** The loop over the blocks: [p_out] and [p_in] move by a block. *)
Fixpoint aes_blocks (fuel : nat) (len block_no : Z) (p_in iv : list Z) (encrypt : Z) (p_out : list Z)
    (s : deu) : option (list Z * deu) :=
  match fuel with
  | O => None
  | S fuel' =>
      if AES_BLOCK_SIZE <=? len then
        '(o, s) ← aes_ifxdeu_cbc p_in (if block_no =? 0 then Some iv else None) AES_BLOCK_SIZE encrypt s;
        let n := Z.to_nat AES_BLOCK_SIZE in
        '(rest, s) ← aes_blocks fuel' (len - AES_BLOCK_SIZE) (block_no + 1) (drop n p_in) iv encrypt
                       (drop n p_out) s;
        Some (o ++ rest, s)%list
      else Some (p_out, s)
  end.

(** [in_] is the [ilen] bytes; what it holds afterwards, and the result. *)
Definition _aes_twinpass_cbc_encrypt (ctx : aes_context) (in_ iv : list Z) (encrypt : Z) (s : deu)
    : option (Z * list Z * deu) :=
  let ilen := Z.of_nat (length in_) in
  let '(ret, _, s) := aes_set_key (aes_key ctx) (aes_key_len ctx) 0 s in
  '(out, s) ← aes_blocks (S (length in_)) ilen 0 in_ iv encrypt (zeros (length in_)) s;
  Some (if ret =? 0 then ilen else -1, out, s).

(** ** DES *)
Definition DES_KEY_SIZE : Z := 8.
Definition DES3_EDE_KEY_SIZE : Z := 24.

Definition parity : list Z := [
  8;1;0;8;0;8;8;0;0;8;8;0;8;0;2;8;0;8;8;0;8;0;0;8;8;0;0;8;0;8;8;3;
  0;8;8;0;8;0;0;8;8;0;0;8;0;8;8;0;8;0;0;8;0;8;8;0;0;8;8;0;8;0;0;8;
  0;8;8;0;8;0;0;8;8;0;0;8;0;8;8;0;8;0;0;8;0;8;8;0;0;8;8;0;8;0;0;8;
  8;0;0;8;0;8;8;0;0;8;8;0;8;0;0;8;0;8;8;0;8;0;0;8;8;0;0;8;0;8;8;0;
  0;8;8;0;8;0;0;8;8;0;0;8;0;8;8;0;8;0;0;8;0;8;8;0;0;8;8;0;8;0;0;8;
  8;0;0;8;0;8;8;0;0;8;8;0;8;0;0;8;0;8;8;0;8;0;0;8;8;0;0;8;0;8;8;0;
  8;0;0;8;0;8;8;0;0;8;8;0;8;0;0;8;0;8;8;0;8;0;0;8;8;0;0;8;0;8;8;0;
  4;8;8;0;8;0;0;8;8;0;0;8;0;8;8;0;8;5;0;8;0;8;8;0;0;8;8;0;8;0;6;8 ].

Definition initdes (s : deu) : deu :=
  let d := des s in
  set_des (mk_des (d_M d) (d_SM d) 1 (d_E_D d) (d_O d) (d_keys d) (d_IV d) (d_I d) (d_out d)) s.
(** [controlr.M = m; controlr.SM = 1]. *)
Definition des_mode (m : Z) (s : deu) : deu :=
  let d := des s in
  set_des (mk_des m 1 (d_ARS d) (d_E_D d) (d_O d) (d_keys d) (d_IV d) (d_I d) (d_out d)) s.
Definition des_keys (j : nat) (ks : list Z) (s : deu) : deu :=
  let d := des s in
  set_des (mk_des (d_M d) (d_SM d) (d_ARS d) (d_E_D d) (d_O d) (put j ks (d_keys d)) (d_IV d)
    (d_I d) (d_out d)) s.

(** The parities of the eight bytes, four bits each. *)
Definition parities (key : list Z) : Z :=
  fold_left (fun n i => Z.lor (Z.shiftl n 4) (byte_at parity (Z.to_nat (byte_at key i)))) (seq 0 8) 0.

(** The search for a weak key, on the parities. *)
Definition is_weak (n : Z) : bool :=
  let w := 0x88888888 in
  (Z.land (u32 (n - Z.shiftr w 3)) w =? 0) &&
  (if n <? 0x41415151 then
     if n <? 0x31312121 then
       if n <? 0x14141515 then (n =? 0x11111111) || (n =? 0x13131212)
       else (n =? 0x14141515) || (n =? 0x16161616)
     else
       if n <? 0x34342525 then (n =? 0x31312121) || (n =? 0x33332222)
       else (n =? 0x34342525) || (n =? 0x36362626)
   else
     if n <? 0x61616161 then
       if n <? 0x44445555 then (n =? 0x41415151) || (n =? 0x43435252)
       else (n =? 0x44445555) || (n =? 0x46465656)
     else
       if n <? 0x64646565 then (n =? 0x61616161) || (n =? 0x63636262)
       else (n =? 0x64646565) || (n =? 0x66666666)).

(** The result and the flags. *)
Definition setkey (key : list Z) (keylen flags : Z) (s : deu) : Z * Z * deu :=
  let s := without_irqs (fun s => initdes (des_mode 0 s)) s in
  if negb (keylen =? 8) then (- EINVAL, flags, s)
  else if negb (Z.land flags CRYPTO_TFM_REQ_WEAK_KEY =? 0) && is_weak (parities key)
  then (- EINVAL, Z.lor flags CRYPTO_TFM_RES_WEAK_KEY, s)
  else (0, flags, without_irqs (des_keys 0 (words 2 key)) s).
Definition des_setkey (key : list Z) (keylen flags : Z) (s : deu) : Z * Z * deu := setkey key keylen flags s.

(** An unsupported length leaves the interrupts off. *)
Definition des3_ede_setkey (key : list Z) (keylen flags : Z) (s : deu) : Z * Z * deu :=
  let flag := irqs s in
  let s := set_irqs false s in
  let key_words j s := des_keys (2 * j) (words 2 (drop (8 * j) key)) s in
  if keylen =? 24 then (0, flags, set_irqs flag (initdes (des_mode (24 / 8 + 1) (key_words 0%nat (key_words 1%nat (key_words 2%nat s))))))
  else if keylen =? 16 then (0, flags, set_irqs flag (initdes (des_mode (16 / 8 + 1) (key_words 0%nat (key_words 1%nat s)))))
  else if keylen =? 8 then (0, flags, set_irqs flag (initdes (des_mode (8 / 8 + 1) (key_words 0%nat s))))
  else (- EINVAL, flags, s).

(** Two words into IHR and ILR, which starts a step, and two out of OHR and OLR. *)
Definition des_start (ws : list Z) (d : des_t) : des_t :=
  let i := map ENDIAN_SWAP ws in
  let (o, ivs) := des_step (d_M d) (d_keys d) (d_E_D d) (d_O d) (d_IV d) i in
  mk_des (d_M d) (d_SM d) (d_ARS d) (d_E_D d) (d_O d) (d_keys d) ivs i o.

(** The loop: two words of [in_] at a time, while [i] is below the number of words. *)
Fixpoint des_blocks (fuel : nat) (i nblocks : Z) (in_ : list Z) (d : des_t) : option (list Z * des_t) :=
  match fuel with
  | O => None
  | S fuel' =>
      if i <? nblocks then
        if (length in_ <? 8)%nat then None
        else
          let d := des_start (words 2 in_) d in
          '(out, d') ← des_blocks fuel' (i + 2) nblocks (drop 8 in_) d;
          Some (concat (map bytes32 (d_out d)) ++ out, d')%list
      else Some ([], d)
  end.

(** The bytes written to [out_arg]; both buffers have [nbytes] bytes. *)
Definition des_incaip1 (in_arg : list Z) (iv_arg : option (list Z)) (nbytes encdec mode : Z) (s : deu)
    : option (list Z * deu) :=
  let flag := irqs s in
  let d := des s in
  let E_D := if encdec =? 0 then 1 else 0 in
  ivs ← (if 1 <? mode then words 2 <$> iv_arg else Some (d_IV d));
  let d := mk_des (d_M d) (d_SM d) (d_ARS d) E_D ((mode - 1) mod 8) (d_keys d) ivs (d_I d) (d_out d) in
  '(out, d) ← des_blocks (S (length in_arg)) 0 (nbytes / 4) in_arg d;
  Some (out, set_irqs flag (set_des d (set_irqs false s))).

Definition des_incaip1_cbc (src : list Z) (iv : list Z) (nbytes encdec : Z) : deu -> option (list Z * deu) :=
  des_incaip1 src (Some iv) nbytes encdec CRYPTO_TFM_MODE_CBC.
Definition des_encrypt (in_ : list Z) : deu -> option (list Z * deu) :=
  des_incaip1 in_ None 8 1 CRYPTO_TFM_MODE_ECB.
Definition des_decrypt (in_ : list Z) : deu -> option (list Z * deu) :=
  des_incaip1 in_ None 8 0 CRYPTO_TFM_MODE_ECB.

Definition _des_twinpass_set_key (key_e key : list Z) (keysize : Z) : Z * list Z :=
  (0, put 0 (take (Z.to_nat keysize) key) key_e).

(** What [in_] holds afterwards, and the result; what [out] held is copied behind the bytes
    the unit wrote. *)
Definition cbc_encrypt (setkey : deu -> Z * Z * deu) (stack in_ iv : list Z) (encrypt : Z) (s : deu)
    : option (Z * list Z * deu) :=
  let ilen := Z.of_nat (length in_) in
  let '(ret, _, s) := setkey s in
  '(out, s) ← des_incaip1_cbc in_ (take 8 iv) ilen encrypt s;
  Some (if ret =? 0 then ilen else -1, put 0 out stack, s).
Definition _1des_twinpass_cbc_encrypt (key_e : list Z) : list Z -> list Z -> list Z -> Z -> deu -> option (Z * list Z * deu) :=
  cbc_encrypt (des_setkey key_e DES_KEY_SIZE 0).
Definition _3des_twinpass_cbc_encrypt (key_e : list Z) : list Z -> list Z -> list Z -> Z -> deu -> option (Z * list Z * deu) :=
  cbc_encrypt (des3_ede_setkey key_e DES3_EDE_KEY_SIZE 0).
End Unit.
End Deu.
