(* ===== verification/DeuHash.v ===== *)
(** * DeuHash: what the hash drivers of the encryption unit compute

    A reference definition of a padded block hash; an interface [HashDriver] that says what
    the three functions of a driver promise about it, implemented by those of ifxdeu-sha1.c and
    of ifxdeu-md5.c. *)
From S2P Require Import Prelude Deu.
Import Deu.

(** ** Bytes *)
Lemma byte_at_drop b n k : byte_at (drop n b) k = byte_at b (n + k).
Proof. unfold byte_at. revert n. induction b as [|x b IH]; intros [|n]; cbn; try done. by destruct k. Qed.
Lemma byte_at_app_l b x k : (k < length b)%nat -> byte_at (b ++ x) k = byte_at b k.
Proof. apply app_nth1. Qed.

Lemma words_app n b x : (length b = 4 * n)%nat -> words n (b ++ x) = words n b.
Proof.
  intros Hb. apply map_ext_in. intros i [_ Hi]%in_seq. unfold word_at, be32. rewrite !byte_at_drop.
  rewrite !byte_at_app_l by lia. done.
Qed.
Lemma words_length n b : length (words n b) = n.
Proof. unfold words. by rewrite length_map, length_seq. Qed.

Lemma put_prefix j x b : (j + length x <= length b)%nat -> take (j + length x) (put j x b) = (take j b ++ x)%list.
Proof.
  intros H. unfold put. rewrite (assoc_L app), take_app_length'; [done|].
  rewrite length_app, length_take. lia.
Qed.
Lemma put_length j x b : (j + length x <= length b)%nat -> length (put j x b) = length b.
Proof. intros H. unfold put. rewrite !length_app, length_take, length_drop. lia. Qed.

Lemma be_bytes_length n w : length (be_bytes n w) = n.
Proof. revert w. induction n; intros w; cbn; [done|]. rewrite length_app, IHn. cbn. lia. Qed.

Lemma bytes32_be32 a b c d :
  is_byte a -> is_byte b -> is_byte c -> is_byte d -> bytes32 (be32 [a; b; c; d]) = [a; b; c; d].
Proof.
  unfold is_byte. intros. unfold bytes32, be32, byte_at. cbn [be_bytes nth app].
  change (2 ^ 24) with 16777216. change (2 ^ 16) with 65536. change (2 ^ 8) with 256.
  repeat f_equal; Z.to_euclidean_division_equations; lia.
Qed.
Lemma bytes32_le w : bytes32 (cpu_to_le32 w) = rev (bytes32 w).
Proof. unfold cpu_to_le32. apply bytes32_be32; apply Z.mod_pos_bound; lia. Qed.

Lemma mod_div a b c : 0 < b -> 0 < c -> (a mod (b * c)) / b = (a / b) mod c.
Proof.
  intros. rewrite Z.rem_mul_r by lia. rewrite (Z.mul_comm b), Z.div_add by lia.
  rewrite Z.div_small by (apply Z.mod_pos_bound; lia). lia.
Qed.
Lemma be_bytes_mod n : forall w, be_bytes n (w mod 256 ^ Z.of_nat n) = be_bytes n w.
Proof.
  induction n as [|n IH]; intros w; [done|]. cbn [be_bytes].
  rewrite Nat2Z.inj_succ, Z.pow_succ_r by lia. rewrite mod_div by (try apply Z.pow_pos_nonneg; lia).
  rewrite IH. do 2 f_equal. rewrite Z.rem_mul_r by (try apply Z.pow_nonzero; lia).
  rewrite (Z.mul_comm 256), Z_mod_plus_full. apply Z.mod_mod. lia.
Qed.
Lemma be_bytes_app n k : forall w, be_bytes (n + k) w = (be_bytes n (w / 256 ^ Z.of_nat k) ++ be_bytes k w)%list.
Proof.
  induction k as [|k IH]; intros w.
  { cbn [be_bytes]. by rewrite Nat.add_0_r, Z.div_1_r, app_nil_r. }
  rewrite Nat.add_succ_r. cbn [be_bytes]. rewrite IH, <- (assoc_L app). do 2 f_equal.
  by rewrite Z.div_div, Nat2Z.inj_succ, Z.pow_succ_r by (try apply Z.pow_pos_nonneg; lia).
Qed.
Lemma bytes32_mod w : bytes32 (u32 w) = bytes32 w.
Proof. apply (be_bytes_mod 4). Qed.

(** ** Messages in blocks of 64 bytes *)
Fixpoint chunks (n : nat) (m : list Z) : list (list Z) :=
  match n with O => [] | S n' => take 64 m :: chunks n' (drop 64 m) end.
Definition blocks (m : list Z) : list (list Z) := chunks (length m / 64) m.
(** What is left behind the last whole block. *)
Definition rest (m : list Z) : list Z := drop (64 * (length m / 64)) m.

Lemma blocks_ind (P : list Z -> Prop) :
  (forall m, (length m < 64)%nat -> P m) ->
  (forall b m, length b = 64%nat -> P m -> P (b ++ m)%list) -> forall m, P m.
Proof.
  intros Hs Hb m. remember (length m) as n eqn:Hn. revert m Hn.
  induction n as [n IH] using lt_wf_ind. intros m ->. destruct (decide (length m < 64)%nat); [by apply Hs|].
  rewrite <- (take_drop 64 m). apply Hb; [rewrite length_take; lia|].
  eapply IH; [|done]. rewrite length_drop. lia.
Qed.

Lemma blocks_short m : (length m < 64)%nat -> blocks m = [].
Proof. intros H. unfold blocks. by rewrite Nat.div_small. Qed.
Lemma rest_short m : (length m < 64)%nat -> rest m = m.
Proof. intros H. unfold rest. by rewrite Nat.div_small. Qed.
Lemma div_block (b m : list Z) : length b = 64%nat -> (length (b ++ m) / 64 = S (length m / 64))%nat.
Proof.
  intros H. rewrite length_app, H. replace (64 + length m)%nat with (length m + 1 * 64)%nat by lia.
  rewrite Nat.div_add by lia. lia.
Qed.
Lemma blocks_cons b m : length b = 64%nat -> blocks (b ++ m) = b :: blocks m.
Proof.
  intros H. unfold blocks. rewrite div_block by done. cbn [chunks].
  rewrite take_app_length', drop_app_length' by done. done.
Qed.
Lemma rest_cons b m : length b = 64%nat -> rest (b ++ m) = rest m.
Proof.
  intros H. unfold rest. rewrite div_block by done. rewrite Nat.mul_succ_r, Nat.add_comm, <- drop_drop.
  by rewrite drop_app_length'.
Qed.

Lemma rest_length m : length (rest m) = (length m mod 64)%nat.
Proof.
  unfold rest. rewrite length_drop. pose proof (Nat.div_mod_eq (length m) 64). lia.
Qed.
Lemma rest_app m x : rest (m ++ x) = rest (rest m ++ x).
Proof.
  revert m. apply blocks_ind; intros.
  - by rewrite (rest_short m).
  - rewrite <- (assoc_L app), (rest_cons b), (rest_cons b) by done. done.
Qed.
Lemma blocks_app m x : blocks (m ++ x) = (blocks m ++ blocks (rest m ++ x))%list.
Proof.
  revert m. apply blocks_ind; intros.
  - rewrite (rest_short m), (blocks_short m) by done. done.
  - rewrite <- (assoc_L app), (blocks_cons b), (blocks_cons b), (rest_cons b) by done. cbn. by f_equal.
Qed.

Section Unit.
Context (hash_iv : Z -> list Z) (compress : Z -> list Z -> list Z -> list Z).

(** ** The reference *)
(** The number of an algorithm in the unit, how the words of a block are taken from memory and
    those of the digest put there, the bytes of the length, the words of the digest. *)
Record scheme := mk_scheme {
  number : Z; load : Z -> Z; save : Z -> list Z; length_field : Z -> list Z; digest_words : nat }.
Definition SHA1 : scheme := mk_scheme 0 id bytes32 (be_bytes 8) 5.
Definition MD5 : scheme :=
  mk_scheme 1 cpu_to_le32 (fun w => bytes32 (cpu_to_le32 w)) (fun n => rev (be_bytes 8 n)) 4.

(** One more block, and the blocks of a message; [h_MR] is empty between them. *)
Definition absorb (a : scheme) (h : deu_hash_t) (b : list Z) : deu_hash_t :=
  mk_hash (h_SM h) (h_ALGO h) [] (compress (h_ALGO h) (h_D h) (map (load a) (words 16 b))).
Definition absorbs (a : scheme) (h : deu_hash_t) (m : list Z) : deu_hash_t :=
  fold_left (absorb a) (blocks m) h.
Definition start (a : scheme) : deu_hash_t := mk_hash 1 (number a) [] (hash_iv (number a)).
Definition digest (a : scheme) (h : deu_hash_t) : list Z :=
  concat (map (save a) (take (digest_words a) (h_D h))).
(** A one, zeros, and the number of bits modulo [2 ^ 64], to the end of a block. *)
Definition padding (a : scheme) (n : Z) : list Z :=
  (0x80 :: zeros (Z.to_nat ((55 - n) mod 64)) ++ length_field a (u64 (8 * n)))%list.
Definition hash_of (a : scheme) (m : list Z) : list Z :=
  digest a (absorbs a (start a) (m ++ padding a (Z.of_nat (length m)))).

Lemma absorbs_app a h m x : absorbs a h (m ++ x) = absorbs a (absorbs a h m) (rest m ++ x).
Proof. unfold absorbs. by rewrite blocks_app, fold_left_app. Qed.
Lemma absorbs_cons a h b m : length b = 64%nat -> absorbs a h (b ++ m) = absorbs a (absorb a h b) m.
Proof. intros H. unfold absorbs. by rewrite blocks_cons. Qed.
Lemma absorbs_short a h m : (length m < 64)%nat -> absorbs a h m = h.
Proof. intros H. unfold absorbs. by rewrite blocks_short. Qed.
Lemma absorbs_idle a h m : h_MR h = [] -> h_MR (absorbs a h m) = [].
Proof. unfold absorbs. revert h. induction (blocks m); cbn; [done|]. intros h _. by apply IHl. Qed.

(** Sixteen words through the message register. *)
Lemma write_block ws s :
  length ws = 16%nat -> h_MR (hash s) = [] ->
  write_MRs compress ws s =
    set_hash (mk_hash (h_SM (hash s)) (h_ALGO (hash s)) [] (compress (h_ALGO (hash s)) (h_D (hash s)) ws)) s.
Proof.
  intros Hl Hm. unfold write_MRs. f_equal. destruct (hash s) as [sm al mr d]. cbn in Hm. subst mr.
  do 16 (destruct ws as [|? ws]; [discriminate Hl|]). destruct ws; [reflexivity|discriminate Hl].
Qed.
Lemma without_irqs_hash f s h :
  f (set_irqs false s) = set_hash h (set_irqs false s) -> without_irqs f s = set_hash h s.
Proof. intros H. unfold without_irqs. rewrite H. by destruct s. Qed.

Lemma sha1_transform_absorbs b s :
  h_MR (hash s) = [] -> sha1_transform compress b s = set_hash (absorb SHA1 (hash s) b) s.
Proof.
  intros H. apply without_irqs_hash. rewrite write_block; [|apply words_length|done].
  unfold absorb. cbn [load SHA1]. by rewrite map_id.
Qed.
Lemma md5_transform_absorbs b s :
  h_MR (hash s) = [] -> md5_transform compress b s = set_hash (absorb MD5 (hash s) b) s.
Proof.
  intros H. apply without_irqs_hash. rewrite write_block; [done| |done].
  by rewrite length_map, words_length.
Qed.
Lemma absorb_app a h b x : length b = 64%nat -> absorb a h (b ++ x) = absorb a h b.
Proof. intros H. unfold absorb. by rewrite words_app. Qed.

(** ** What a driver promises *)
(** [holds m c]: the context [c] has been given [m], whose whole blocks the unit has taken. *)
Class HashDriver (a : scheme) (C : Type) := {
  init : C -> deu -> C * deu;
  update : list Z -> C -> deu -> option (C * deu);
  final : C -> deu -> option (list Z * C * deu);
  chunk_limit : Z;
  holds : list Z -> C -> Prop;
  fresh : C -> Prop;
  init_ok c s : fresh c -> exists c', init c s = (c', set_hash (start a) s) /\ holds [] c';
  update_ok m c s data :
    holds m c -> h_MR (hash s) = [] -> Z.of_nat (length data) < chunk_limit ->
    exists c', update data c s = Some (c', set_hash (absorbs a (hash s) (rest m ++ data)) s) /\
      holds (m ++ data) c';
  final_ok m c s :
    holds m c -> h_MR (hash s) = [] ->
    let h := absorbs a (hash s) (rest m ++ padding a (Z.of_nat (length m))) in
    exists c', final c s = Some (digest a h, c', set_hash (mk_hash 0 (h_ALGO h) (h_MR h) (h_D h)) s) /\ fresh c' }.

(** ** SHA1 *)
Lemma count_index n : 0 <= n -> Z.land (Z.shiftr (u64 (8 * n)) 3) 0x3f = n mod 64.
Proof.
  intros Hn. change 0x3f with (Z.ones 6). rewrite Z.land_ones, Z.shiftr_div_pow2 by lia.
  unfold u64. change (2 ^ 64) with (8 * 2 ^ 61). rewrite Z.mul_mod_distr_l by lia.
  change (2 ^ 3) with 8. rewrite (Z.mul_comm 8), Z.div_mul by lia.
  change (2 ^ 61) with (2 ^ 6 * 2 ^ 55). rewrite Z.rem_mul_r by lia.
  rewrite (Z.mul_comm (2 ^ 6)), Z_mod_plus_full. by apply Z.mod_mod.
Qed.
Lemma rest_index m : Z.of_nat (length m) mod 64 = Z.of_nat (length (rest m)).
Proof. rewrite rest_length. by rewrite Nat2Z.inj_mod. Qed.

Record sha1_holds (m : list Z) (c : sha1_hw_ctx) : Prop := {
  sha1_count : count c = u64 (8 * Z.of_nat (length m));
  sha1_size : length (buffer c) = 64%nat;
  sha1_buffer : take (length (rest m)) (buffer c) = rest m }.

Lemma sha1_blocks_run data : Z.of_nat (length data) < 2 ^ 29 -> forall fuel i s,
  h_MR (hash s) = [] -> (i <= length data)%nat -> (length data - i < 64 * fuel)%nat ->
  exists i', sha1_blocks compress fuel (Z.of_nat i) data s =
      Some (Z.of_nat i', set_hash (absorbs SHA1 (hash s) (drop i data)) s) /\
    drop i' data = rest (drop i data).
Proof.
  intros Hd. induction fuel as [|fuel IH]; intros i s Hm Hi Hf; [lia|]. cbn [sha1_blocks].
  unfold u32. rewrite !Z.mod_small by lia.
  destruct (Z.ltb_spec (Z.of_nat i + 63) (Z.of_nat (length data))).
  - rewrite Nat2Z.id, sha1_transform_absorbs by done.
    replace (Z.of_nat i + 64) with (Z.of_nat (i + 64)) by lia.
    rewrite <- (take_drop 64 (drop i data)). rewrite drop_drop.
    assert (Hl : length (take 64 (drop i data)) = 64%nat) by (rewrite length_take, length_drop; lia).
    rewrite absorb_app, absorbs_cons, rest_cons by done.
    apply (IH (i + 64)%nat (set_hash (absorb SHA1 (hash s) (take 64 (drop i data))) s)); [done|lia..].
  - exists i. rewrite absorbs_short, rest_short by (rewrite length_drop; lia). by destruct s.
Qed.

Lemma sha1_update_ok m c s data :
  sha1_holds m c -> h_MR (hash s) = [] -> Z.of_nat (length data) < 2 ^ 29 ->
  exists c', sha1_update compress data c s = Some (c', set_hash (absorbs SHA1 (hash s) (rest m ++ data)) s) /\
    sha1_holds (m ++ data) c'.
Proof.
  intros [Hc Hs Hb] Hm Hd. unfold sha1_update. rewrite Hc, count_index, rest_index by lia.
  pose proof (rest_length m) as Hr. pose proof (Nat.mod_upper_bound (length m) 64).
  assert (Hcount : u64 (u64 (8 * Z.of_nat (length m)) + u32 (Z.shiftl (Z.of_nat (length data)) 3)) =
    u64 (8 * Z.of_nat (length (m ++ data)))).
  { unfold u64, u32. rewrite Z.shiftl_mul_pow2 by lia. rewrite (Z.mod_small (_ * 2 ^ 3)) by lia.
    rewrite Zplus_mod_idemp_l, length_app. f_equal. lia. }
  rewrite Hcount. unfold u32. rewrite (Z.mod_small (_ + _)) by lia.
  destruct (Z.ltb_spec 63 (Z.of_nat (length (rest m)) + Z.of_nat (length data))).
  - set (n := length (rest m)) in *. replace (64 - Z.of_nat n) with (Z.of_nat (64 - n)) by lia.
    rewrite !Nat2Z.id.
    assert (Ht : length (take (64 - n) data) = (64 - n)%nat) by (rewrite length_take; lia).
    assert (Hbuf : put n (take (64 - n) data) (buffer c) = (rest m ++ take (64 - n) data)%list).
    { unfold put. rewrite Hb, Ht, drop_ge by lia. by rewrite app_nil_r. }
    assert (Hl : length (rest m ++ take (64 - n) data) = 64%nat) by (rewrite length_app, Ht; lia).
    rewrite Hbuf, sha1_transform_absorbs by done.
    destruct (sha1_blocks_run data Hd (S (length data)) (64 - n)
      (set_hash (absorb SHA1 (hash s) (rest m ++ take (64 - n) data)) s)) as (i' & Hrun & Hi'); [done|lia..|].
    rewrite Hrun. cbn [mbind option_bind]. rewrite Nat2Z.id.
    assert (Hsplit : (rest m ++ data = (rest m ++ take (64 - n) data) ++ drop (64 - n) data)%list).
    { by rewrite <- (assoc_L app), take_drop. }
    eexists. rewrite Hsplit, absorbs_cons by done. split; [reflexivity|].
    assert (Hrest : rest (m ++ data) = drop i' data) by (by rewrite rest_app, Hsplit, rest_cons, Hi').
    assert (length (drop i' data) <= 64)%nat.
    { rewrite <- Hrest, rest_length. pose proof (Nat.mod_upper_bound (length (m ++ data)) 64). lia. }
    split; cbn [count buffer]; [done|rewrite put_length; lia|].
    rewrite Hrest. apply (put_prefix 0 (drop i' data)). lia.
  - rewrite Nat2Z.id. eexists. rewrite absorbs_short by (rewrite length_app; lia).
    split; [by destruct s|]. split; cbn [count buffer]; [done|rewrite put_length; lia|].
    rewrite rest_app, rest_short by (rewrite length_app; lia).
    rewrite length_app, put_prefix by lia. by rewrite Hb.
Qed.

Lemma sha1_padding_length n : 0 <= n ->
  Z.to_nat (if n mod 64 <? 56 then 56 - n mod 64 else 64 + 56 - n mod 64) = S (Z.to_nat ((55 - n) mod 64)).
Proof.
  intros Hn. assert ((55 - n) mod 64 = (55 - n mod 64) mod 64) as -> by (by rewrite Zminus_mod_idemp_r).
  pose proof (Z.mod_pos_bound n 64). destruct (Z.ltb_spec (n mod 64) 56).
  - rewrite (Z.mod_small (55 - _)) by lia. lia.
  - rewrite <- (Z_mod_plus_full (55 - _) 1), (Z.mod_small (55 - _ + _)) by lia. lia.
Qed.
Lemma sha1_padding_take k : (k < 64)%nat -> take (S k) sha1_padding = 0x80 :: zeros k.
Proof. intros H. unfold sha1_padding, zeros. cbn [take]. by rewrite take_replicate, Nat.min_l by lia. Qed.

Lemma sha1_final_ok m c s :
  sha1_holds m c -> h_MR (hash s) = [] ->
  let h := absorbs SHA1 (hash s) (rest m ++ padding SHA1 (Z.of_nat (length m))) in
  exists c', sha1_final compress c s =
    Some (digest SHA1 h, c', set_hash (mk_hash 0 (h_ALGO h) (h_MR h) (h_D h)) s) /\ True.
Proof.
  intros Hh Hm h. pose proof Hh as [Hc _ _]. unfold sha1_final. rewrite Hc, count_index by lia.
  rewrite sha1_padding_length by lia. set (n := Z.of_nat (length m)) in *.
  pose proof (Z.mod_pos_bound (55 - n) 64). rewrite sha1_padding_take by lia.
  set (p := 0x80 :: zeros (Z.to_nat ((55 - n) mod 64))).
  assert (Hp : Z.of_nat (length p) < 2 ^ 29) by (unfold p, zeros; cbn; rewrite length_replicate; lia).
  destruct (sha1_update_ok m c s p Hh Hm Hp) as (c1 & Hu1 & Hh1). rewrite Hu1. cbn [mbind option_bind].
  edestruct (sha1_update_ok _ c1 (set_hash (absorbs SHA1 (hash s) (rest m ++ p)) s) (be_bytes 8 (u64 (8 * n))) Hh1)
    as (c2 & Hu2 & _); [by apply absorbs_idle|rewrite be_bytes_length; lia|].
  rewrite Hu2. cbn [mbind option_bind hash set_hash].
  assert (Habs : absorbs SHA1 (absorbs SHA1 (hash s) (rest m ++ p)) (rest (m ++ p) ++ be_bytes 8 (u64 (8 * n))) = h).
  { rewrite rest_app, <- absorbs_app, <- (assoc_L app). done. }
  rewrite Habs. by eexists.
Qed.

Lemma sha1_init_ok (c : sha1_hw_ctx) s :
  True -> exists c', sha1_init hash_iv s = (c', set_hash (start SHA1) s) /\ sha1_holds [] c'.
Proof. intros _. eexists. split; [unfold sha1_init; f_equal; by apply without_irqs_hash|by split]. Qed.

#[global] Instance sha1_driver : HashDriver SHA1 sha1_hw_ctx := {
  init _ s := sha1_init hash_iv s; update := sha1_update compress; final := sha1_final compress;
  chunk_limit := 2 ^ 29; holds := sha1_holds; fresh _ := True;
  init_ok := sha1_init_ok; update_ok := sha1_update_ok; final_ok := sha1_final_ok }.

(** ** MD5 *)
Record md5_holds (m : list Z) (c : md5_ctx) : Prop := {
  md5_count : byte_count c = u64 (Z.of_nat (length m));
  md5_size : length (block c) = 64%nat;
  md5_block : take (length (rest m)) (block c) = rest m }.

Lemma byte_index n : 0 <= n -> Z.land (u64 n) 0x3f = n mod 64.
Proof.
  intros Hn. change 0x3f with (Z.ones 6). rewrite Z.land_ones by lia. unfold u64.
  change (2 ^ 64) with (2 ^ 6 * 2 ^ 58). rewrite Z.rem_mul_r by lia.
  rewrite (Z.mul_comm (2 ^ 6)), Z_mod_plus_full. by apply Z.mod_mod.
Qed.
Lemma put_all x b : length x = length b -> put 0 x b = x.
Proof. intros H. unfold put. cbn [take plus app]. rewrite drop_ge by lia. by rewrite app_nil_r. Qed.

Lemma md5_blocks_run fuel : forall data blk s,
  h_MR (hash s) = [] -> length blk = 64%nat -> (length data < 64 * fuel)%nat ->
  exists blk', md5_blocks compress fuel data blk s =
      Some (rest data, blk', set_hash (absorbs MD5 (hash s) data) s) /\ length blk' = 64%nat.
Proof.
  induction fuel as [|fuel IH]; intros data blk s Hm Hb Hf; [lia|]. cbn [md5_blocks].
  destruct (Z.leb_spec 64 (Z.of_nat (length data))).
  - assert (Hl : length (take 64 data) = 64%nat) by (rewrite length_take; lia).
    rewrite put_all by congruence. rewrite md5_transform_absorbs by done.
    destruct (IH (drop 64 data) (take 64 data) (set_hash (absorb MD5 (hash s) (take 64 data)) s))
      as (blk' & Hrun & Hl'); [done|done|rewrite length_drop; lia|].
    exists blk'. split; [|done]. rewrite Hrun.
    rewrite <- (rest_cons (take 64 data) (drop 64 data)) by done.
    cbn [hash set_hash]. by rewrite <- (absorbs_cons MD5 _ (take 64 data)), take_drop by done.
  - exists blk. rewrite rest_short, absorbs_short by lia. by destruct s.
Qed.

Lemma md5_update_ok m c s data :
  md5_holds m c -> h_MR (hash s) = [] -> Z.of_nat (length data) < 2 ^ 32 ->
  exists c', md5_update compress data c s = Some (c', set_hash (absorbs MD5 (hash s) (rest m ++ data)) s) /\
    md5_holds (m ++ data) c'.
Proof.
  intros [Hc Hs Hb] Hm _. unfold md5_update. rewrite Hc, byte_index, rest_index by lia.
  pose proof (rest_length m) as Hr. pose proof (Nat.mod_upper_bound (length m) 64).
  assert (Hcount : u64 (u64 (Z.of_nat (length m)) + Z.of_nat (length data)) = u64 (Z.of_nat (length (m ++ data)))).
  { unfold u64. rewrite Zplus_mod_idemp_l, length_app. f_equal. lia. }
  rewrite Hcount. set (n := length (rest m)) in *.
  replace (64 - (64 - Z.of_nat n)) with (Z.of_nat n) by lia. rewrite Nat2Z.id.
  destruct (Z.ltb_spec (Z.of_nat (length data)) (64 - Z.of_nat n)).
  - eexists. rewrite absorbs_short by (rewrite length_app; lia).
    split; [by destruct s|]. split; cbn [byte_count block]; [done|rewrite put_length; lia|].
    rewrite rest_app, rest_short by (rewrite length_app; lia).
    rewrite length_app, put_prefix by lia. by rewrite Hb.
  - replace (64 - Z.of_nat n) with (Z.of_nat (64 - n)) by lia. rewrite !Nat2Z.id.
    assert (Ht : length (take (64 - n) data) = (64 - n)%nat) by (rewrite length_take; lia).
    assert (Hbuf : put n (take (64 - n) data) (block c) = (rest m ++ take (64 - n) data)%list).
    { unfold put. rewrite Hb, Ht, drop_ge by lia. by rewrite app_nil_r. }
    assert (Hl : length (rest m ++ take (64 - n) data) = 64%nat) by (rewrite length_app, Ht; lia).
    rewrite Hbuf, md5_transform_absorbs by done.
    destruct (md5_blocks_run (S (length data)) (drop (64 - n) data) (rest m ++ take (64 - n) data)%list
      (set_hash (absorb MD5 (hash s) (rest m ++ take (64 - n) data)) s)) as (blk' & Hrun & Hl');
      [done|done|rewrite length_drop; lia|].
    rewrite Hrun. cbn [mbind option_bind].
    assert (Hsplit : (rest m ++ data = (rest m ++ take (64 - n) data) ++ drop (64 - n) data)%list).
    { by rewrite <- (assoc_L app), take_drop. }
    eexists. rewrite Hsplit, absorbs_cons by done. split; [reflexivity|].
    assert (Hrest : rest (m ++ data) = rest (drop (64 - n) data)) by (by rewrite rest_app, Hsplit, rest_cons).
    pose proof (rest_length (drop (64 - n) data)). pose proof (Nat.mod_upper_bound (length (drop (64 - n) data)) 64).
    split; cbn [byte_count block]; [done|rewrite put_length; lia|].
    rewrite Hrest. apply (put_prefix 0 (rest (drop (64 - n) data))). lia.
Qed.

Lemma md5_init_ok c s :
  length (block c) = 64%nat -> exists c', md5_init hash_iv c s = (c', set_hash (start MD5) s) /\ md5_holds [] c'.
Proof. intros Hl. eexists. split; [unfold md5_init; f_equal; by apply without_irqs_hash|by split]. Qed.

(** The length of an MD5 message, as the two words of its last block. *)
Lemma md5_length_words n : 0 <= n ->
  (bytes32 (cpu_to_le32 (u32 (Z.shiftl (u64 n) 3))) ++ bytes32 (cpu_to_le32 (u32 (Z.shiftr (u64 n) 29))))%list =
  length_field MD5 (u64 (8 * n)).
Proof.
  intros Hn. rewrite !bytes32_le. cbn [length_field MD5].
  rewrite (be_bytes_app 4 4), rev_app_distr. change (256 ^ Z.of_nat 4) with (2 ^ 32).
  change (be_bytes 4) with bytes32. rewrite Z.shiftl_mul_pow2, Z.shiftr_div_pow2 by lia. f_equal; f_equal.
  - rewrite <- (bytes32_mod (u64 _)). f_equal. unfold u32, u64.
    change (2 ^ 64) with (2 ^ 32 * 2 ^ 32). rewrite !Z.rem_mul_r by lia.
    rewrite Z.mul_add_distr_r. change (2 ^ 3) with 8.
    replace (n mod 2 ^ 32 * 8 + 2 ^ 32 * ((n / 2 ^ 32) mod 2 ^ 32) * 8)
      with (8 * (n mod 2 ^ 32) + ((n / 2 ^ 32) mod 2 ^ 32 * 8) * 2 ^ 32) by ring.
    rewrite (Z.mul_comm (2 ^ 32) ((8 * n / 2 ^ 32) mod 2 ^ 32)), !Z_mod_plus_full.
    by rewrite Z.mod_mod, Z.mul_mod_idemp_r by lia.
  - unfold u64. change (2 ^ 64) with (2 ^ 29 * 2 ^ 35) at 1. rewrite mod_div by lia.
    change (2 ^ 64) with (2 ^ 32 * 2 ^ 32). rewrite mod_div by lia.
    replace (8 * n / 2 ^ 32) with (n / 2 ^ 29)
      by (change (2 ^ 32) with (8 * 2 ^ 29); by rewrite Z.div_mul_cancel_l).
    unfold u32. change (2 ^ 35) with (2 ^ 32 * 8). rewrite Z.rem_mul_r by lia.
    by rewrite (Z.mul_comm (2 ^ 32)), Z_mod_plus_full, Z.mod_mod by lia.
Qed.

Lemma put_last w1 w2 b :
  length b = 64%nat -> length w1 = 4%nat -> length w2 = 4%nat ->
  put 60 w2 (put 56 w1 b) = (take 56 b ++ w1 ++ w2)%list.
Proof.
  intros Hb H1 H2. unfold put at 1. rewrite drop_ge by (rewrite put_length; lia).
  replace 60%nat with (56 + length w1)%nat by lia. rewrite put_prefix by lia.
  by rewrite app_nil_r, <- (assoc_L app).
Qed.

(** The two shapes of the last blocks. *)
Lemma md5_padding_zeros n : 0 <= n ->
  let o := Z.to_nat (n mod 64) in
  Z.to_nat ((55 - n) mod 64) = if (o <=? 55)%nat then (55 - o)%nat else ((63 - o) + 56)%nat.
Proof.
  intros Hn o. assert ((55 - n) mod 64 = (55 - n mod 64) mod 64) as -> by (by rewrite Zminus_mod_idemp_r).
  pose proof (Z.mod_pos_bound n 64). destruct (Nat.leb_spec o 55); unfold o in *.
  - rewrite (Z.mod_small (55 - _)) by lia. lia.
  - rewrite <- (Z_mod_plus_full (55 - _) 1), (Z.mod_small (55 - _ + _)) by lia. lia.
Qed.

Lemma md5_last_block r z blk w1 w2 :
  take (length r + 1 + length z) blk = (r ++ [0x80] ++ z)%list -> length blk = 64%nat ->
  (length r + 1 + length z = 56)%nat -> length w1 = 4%nat -> length w2 = 4%nat ->
  put 60 w2 (put 56 w1 blk) = (r ++ (0x80 :: z) ++ w1 ++ w2)%list.
Proof.
  intros Ht Hb Hl H1 H2. rewrite put_last by done. rewrite <- Hl, Ht. by rewrite <- !(assoc_L app).
Qed.

Lemma absorbs_one a h b : length b = 64%nat -> absorbs a h b = absorb a h b.
Proof. intros H. rewrite <- (app_nil_r b) at 1. rewrite absorbs_cons, absorbs_short by (done || (cbn; lia)). done. Qed.

Lemma md5_final_ok m c s :
  md5_holds m c -> h_MR (hash s) = [] ->
  let h := absorbs MD5 (hash s) (rest m ++ padding MD5 (Z.of_nat (length m))) in
  exists c', Some (md5_final compress c s) =
      Some (digest MD5 h, c', set_hash (mk_hash 0 (h_ALGO h) (h_MR h) (h_D h)) s) /\
    length (block c') = 64%nat.
Proof.
  intros [Hc Hs Hb] Hm h. unfold md5_final. rewrite Hc, byte_index, rest_index by lia.
  assert (Ho : (length (rest m) < 64)%nat) by (rewrite rest_length; by apply Nat.mod_upper_bound).
  pose proof (md5_padding_zeros (Z.of_nat (length m))) as Hz. cbn zeta in Hz. rewrite rest_index in Hz.
  set (o := length (rest m)) in *. rewrite Nat2Z.id in Hz |- *. specialize (Hz ltac:(lia)).
  replace (Z.of_nat o + 1) with (Z.of_nat (o + 1)) by lia. rewrite Nat2Z.id.
  set (blk := put o [0x80] (block c)).
  assert (Hblk : take (o + 1) blk = (rest m ++ [0x80])%list). { rewrite <- Hb. apply (put_prefix o [0x80]). cbn [length]. lia. }
  assert (Hlen : length blk = 64%nat) by (unfold blk; rewrite put_length; cbn [length]; lia).
  pose proof (md5_length_words (Z.of_nat (length m)) ltac:(lia)) as Hw.
  set (w1 := bytes32 (cpu_to_le32 (u32 (Z.shiftl _ _)))) in *.
  set (w2 := bytes32 (cpu_to_le32 (u32 (Z.shiftr _ _)))) in *.
  assert (Hw1 : length w1 = 4%nat) by apply be_bytes_length.
  assert (Hw2 : length w2 = 4%nat) by apply be_bytes_length.
  destruct (Nat.leb_spec o 55) as [Ho5|Ho5].
  - destruct (Z.ltb_spec (56 - Z.of_nat (o + 1)) 0); [lia|].
    replace (Z.to_nat (56 - Z.of_nat (o + 1))) with (55 - o)%nat by lia.
    assert (Hp : take (o + 1 + length (zeros (55 - o))) (put (o + 1) (zeros (55 - o)) blk) =
      (rest m ++ [0x80] ++ zeros (55 - o))%list).
    { rewrite put_prefix by (unfold zeros; rewrite length_replicate; lia).
      rewrite Hblk. by rewrite <- (assoc_L app). }
    rewrite (md5_last_block (rest m) (zeros (55 - o))); try done.
    2: rewrite put_length; [done|unfold zeros; rewrite length_replicate; lia].
    2: unfold zeros; rewrite length_replicate; fold o; lia.
    rewrite Hw. rewrite md5_transform_absorbs by done.
    assert (Hh : absorb MD5 (hash s) (rest m ++ (0x80 :: zeros (55 - o)) ++ length_field MD5 (u64 (8 * Z.of_nat (length m)))) = h).
    { unfold h, padding. rewrite Hz. symmetry. apply absorbs_one. rewrite <- Hw, !length_app.
      cbn [length]. unfold zeros. rewrite length_replicate. fold o. lia. }
    rewrite Hh. by eexists.
  - destruct (Z.ltb_spec (56 - Z.of_nat (o + 1)) 0); [|lia].
    replace (Z.to_nat (56 - Z.of_nat (o + 1) + 8)) with (63 - o)%nat by lia.
    change (Z.to_nat 56) with 56%nat.
    assert (Hfull : put (o + 1) (zeros (63 - o)) blk = (rest m ++ 0x80 :: zeros (63 - o))%list).
    { unfold put. unfold zeros at 2. rewrite length_replicate, Hblk, drop_ge by lia.
      by rewrite app_nil_r, <- (assoc_L app). }
    assert (Hfl : length (rest m ++ 0x80 :: zeros (63 - o)) = 64%nat).
    { rewrite length_app. cbn [length]. unfold zeros. rewrite length_replicate. fold o. lia. }
    rewrite Hfull, (md5_transform_absorbs _ s) by done.
    rewrite put_last; [|rewrite put_length; [done|rewrite Hfl; unfold zeros; rewrite length_replicate; lia]|done..].
    rewrite (put_prefix 0 (zeros 56)) by (rewrite Hfl; unfold zeros; rewrite length_replicate; lia).
    change (take 0 ?l ++ zeros 56)%list with (zeros 56). rewrite Hw, md5_transform_absorbs by done.
    assert (Hh : absorb MD5 (absorb MD5 (hash s) (rest m ++ 0x80 :: zeros (63 - o)))
      (zeros 56 ++ length_field MD5 (u64 (8 * Z.of_nat (length m)))) = h).
    { unfold h, padding. rewrite Hz.
      set (L := length_field MD5 _). unfold zeros at 3. rewrite replicate_add. fold (zeros (63 - o)) (zeros 56).
      rewrite <- (absorbs_one _ _ (zeros 56 ++ L)), <- absorbs_cons; [|done|].
      - f_equal. by rewrite <- !(assoc_L app).
      - unfold L. rewrite <- Hw, !length_app, Hw1, Hw2. done. }
    cbn [hash set_hash]. rewrite Hh. by eexists.
Qed.

#[global] Instance md5_driver : HashDriver MD5 md5_ctx := {
  init := md5_init hash_iv; update := md5_update compress; final c s := Some (md5_final compress c s);
  chunk_limit := 2 ^ 32; holds := md5_holds; fresh c := length (block c) = 64%nat;
  init_ok := md5_init_ok; update_ok := md5_update_ok; final_ok := md5_final_ok }.

(** ** A digest, through any driver *)
Section Driver.
Context (a : scheme) (C : Type) `{HashDriver a C}.

Fixpoint updates (ms : list (list Z)) (c : C) (s : deu) : option (C * deu) :=
  match ms with
  | [] => Some (c, s)
  | m :: ms' => '(c, s) ← update m c s; updates ms' c s
  end.
Definition digests (ms : list (list Z)) (c : C) (s : deu) : option (list Z * C * deu) :=
  let (c, s) := init c s in '(c, s) ← updates ms c s; final c s.

Lemma updates_ok ms : forall m c s,
  holds m c -> h_MR (hash s) = [] -> Forall (fun x => Z.of_nat (length x) < chunk_limit) ms ->
  exists c', updates ms c s = Some (c', set_hash (absorbs a (hash s) (rest m ++ concat ms)) s) /\
    holds (m ++ concat ms) c'.
Proof.
  induction ms as [|x ms IH]; intros m c s Hc Hm Hf; cbn [updates concat].
  { exists c. rewrite !app_nil_r. split; [|done]. do 2 f_equal.
    rewrite absorbs_short; [by destruct s|]. rewrite rest_length. by apply Nat.mod_upper_bound. }
  apply Forall_cons in Hf as [Hx Hf]. destruct (update_ok m c s x Hc Hm Hx) as (c1 & -> & Hc1).
  cbn [mbind option_bind].
  destruct (IH (m ++ x)%list c1 (set_hash (absorbs a (hash s) (rest m ++ x)) s) Hc1) as (c' & -> & Hc');
    [by apply absorbs_idle|done|].
  exists c'. split; [|by rewrite <- (assoc_L app) in Hc'].
  change (hash (set_hash ?x _)) with x. rewrite rest_app, <- absorbs_app, <- (assoc_L app). done.
Qed.

Lemma digests_ok ms c s :
  fresh c -> Forall (fun x => Z.of_nat (length x) < chunk_limit) ms ->
  exists c' s', digests ms c s = Some (hash_of a (concat ms), c', s') /\ fresh c'.
Proof.
  intros Hc Hf. unfold digests. destruct (init_ok c s Hc) as (c1 & -> & Hc1).
  destruct (updates_ok ms [] c1 (set_hash (start a) s) Hc1 eq_refl Hf) as (c2 & -> & Hc2).
  cbn [mbind option_bind app] in *. change (rest [] ++ concat ms)%list with (concat ms).
  destruct (final_ok _ c2 (set_hash (absorbs a (start a) (concat ms)) s) Hc2) as (c3 & Hfin & Hc3);
    [by apply absorbs_idle|].
  change (set_hash (absorbs a (hash (set_hash (start a) s)) (concat ms)) (set_hash (start a) s))
    with (set_hash (absorbs a (start a) (concat ms)) s).
  rewrite Hfin. change (hash (set_hash ?x _)) with x. rewrite <- absorbs_app. by do 2 eexists.
Qed.
End Driver.
End Unit.
