(* ===== verification/DeuProps.v ===== *)
(** * DeuProps: digests, keyed hashes, and a computation that is interrupted

    Both hash drivers compute the reference of DeuHash.v, however the message is cut; the
    keyed hashes of sec_api.c are HMAC; the MD5 one writes its whole digest whatever room it is
    given; and a computation during which the unit is used for another one loses what it had
    hashed. *)
From S2P Require Import Prelude Deu DeuHash.
Import Deu.

Section Unit.
Context (hash_iv : Z -> list Z) (compress : Z -> list Z -> list Z -> list Z).
#[local] Existing Instances sha1_driver md5_driver.
#[local] Abbreviation hash_of := (hash_of hash_iv compress).
#[local] Abbreviation start := (start hash_iv).

(** ** Digests *)
(** The three calls of a client, the message in pieces. *)
Definition sha1_digest (ms : list (list Z)) (s : deu) : option (list Z * sha1_hw_ctx * deu) :=
  digests hash_iv compress SHA1 sha1_hw_ctx ms (mk_sha1 0 []) s.
Definition md5_digest (ms : list (list Z)) (mctx : md5_ctx) (s : deu) : option (list Z * md5_ctx * deu) :=
  digests hash_iv compress MD5 md5_ctx ms mctx s.

(** C24. The SHA1 and the MD5 driver compute the digest of the whole message, defined by
    padding it, cutting it into blocks and folding the compression function of the unit,
    however the caller cuts the message into pieces: buffering across pieces, the loops over
    whole blocks, the padding over one block or two and the byte orders of the length and
    the digest are right. *)
Theorem digest_of_pieces ms mctx s :
  length (block mctx) = 64%nat -> Forall (fun m => Z.of_nat (length m) < 2 ^ 29) ms ->
  (exists c s', sha1_digest ms s = Some (hash_of SHA1 (concat ms), c, s')) /\
  (exists c s', md5_digest ms mctx s = Some (hash_of MD5 (concat ms), c, s')).
Proof.
  intros Hb Hf. split.
  - destruct (digests_ok hash_iv compress SHA1 sha1_hw_ctx ms (mk_sha1 0 []) s) as (c & s' & Hr & _);
      [exact I|exact Hf|by exists c, s'].
  - destruct (digests_ok hash_iv compress MD5 md5_ctx ms mctx s) as (c & s' & Hr & _);
      [exact Hb| |by exists c, s'].
    eapply Forall_impl; [exact Hf|]. cbn. lia.
Qed.

(** ** Keyed hashes *)
Definition pad_key (v : Z) (key : list Z) : list Z := map (fun b => Z.lxor b v) (key ++ zeros (64 - length key)).
(** RFC 2104. *)
Definition hmac (a : scheme) (key dat : list Z) : list Z :=
  let key := if (64 <? length key)%nat then hash_of a key else key in
  hash_of a (pad_key 0x5c key ++ hash_of a (pad_key 0x36 key ++ dat)).

Lemma digest_length a h : (forall w, length (save a w) = 4%nat) -> (length (digest a h) <= 4 * digest_words a)%nat.
Proof.
  intros Hs. unfold digest. generalize (digest_words a) as n. induction (h_D h) as [|w d IH]; intros [|n]; cbn; try lia.
  rewrite length_app, Hs. specialize (IH n). lia.
Qed.
Lemma sha1_length m : (length (hash_of SHA1 m) <= 20)%nat.
Proof. apply (digest_length SHA1). intros w. apply be_bytes_length. Qed.
Lemma md5_length m : (length (hash_of MD5 m) <= 16)%nat.
Proof. apply (digest_length MD5). intros w. apply be_bytes_length. Qed.

Lemma store_pads_ok key : (length key <= 64)%nat ->
  take 64 (k_ipad (store_pads key)) = pad_key 0x36 key /\ take 64 (k_opad (store_pads key)) = pad_key 0x5c key.
Proof.
  intros Hk. assert (H : forall v, take 64 (imap (fun i b => if (i <? 64)%nat then Z.lxor b v else b) (put 0 key (zeros 65))) = pad_key v key).
  { intros v. apply list_eq. intros i. unfold pad_key. rewrite list_lookup_fmap.
    destruct (decide (i < 64)%nat) as [Hi|Hi].
    - rewrite lookup_take_lt, list_lookup_imap by done.
      assert (put 0 key (zeros 65) !! i = (key ++ zeros (64 - length key))%list !! i) as ->.
      { unfold put, zeros. rewrite drop_replicate. change (take 0 ?l ++ ?x)%list with x.
        destruct (decide (i < length key)%nat); [rewrite (lookup_app_l key), (lookup_app_l key) by done; done|].
        rewrite !lookup_app_r, !lookup_replicate_2 by lia. done. }
      destruct (_ !! i); cbn [fmap option_fmap option_map]; [|done].
      destruct (Nat.ltb_spec i 64); [done|lia].
    - rewrite lookup_take_ge by lia. symmetry. apply fmap_None, lookup_ge_None.
      unfold zeros. rewrite length_app, length_replicate. lia. }
  split; apply H.
Qed.

(** The calls the two files make, in the order they make them. *)
Lemma sha1_calls ms s : Forall (fun m => Z.of_nat (length m) < 2 ^ 29) ms ->
  let (c, s1) := sha1_init hash_iv s in
  exists c1 s2 c2 s3, updates hash_iv compress SHA1 sha1_hw_ctx ms c s1 = Some (c1, s2) /\
    sha1_final compress c1 s2 = Some (hash_of SHA1 (concat ms), c2, s3).
Proof.
  intros Hf. destruct (digests_ok hash_iv compress SHA1 sha1_hw_ctx ms (mk_sha1 0 []) s) as (c2 & s3 & H & _); [exact I|exact Hf|].
  unfold digests in H. cbn [init sha1_driver] in H. destruct (sha1_init hash_iv s) as [c s1].
  destruct (updates _ _ _ _ ms c s1) as [[c1 s2]|]; [|done]. by exists c1, s2, c2, s3.
Qed.
Lemma md5_calls ms mctx s : length (block mctx) = 64%nat -> Forall (fun m => Z.of_nat (length m) < 2 ^ 29) ms ->
  let (c, s1) := md5_init hash_iv mctx s in
  exists c1 s2 c2 s3, updates hash_iv compress MD5 md5_ctx ms c s1 = Some (c1, s2) /\
    md5_final compress c1 s2 = (hash_of MD5 (concat ms), c2, s3) /\ length (block c2) = 64%nat.
Proof.
  intros Hb Hf. destruct (digests_ok hash_iv compress MD5 md5_ctx ms mctx s) as (c2 & s3 & H & Hc2);
    [exact Hb|eapply Forall_impl; [exact Hf|]; cbn; lia|].
  unfold digests in H. cbn [init md5_driver] in H. destruct (md5_init hash_iv mctx s) as [c s1].
  destruct (updates _ _ _ _ ms c s1) as [[c1 s2]|]; [|done]. cbn in H. injection H as H.
  exists c1, s2, c2, s3. split; [done|]. split; [exact H|exact Hc2].
Qed.

(** The key as [set_key] leaves it. *)
Definition hmac_key (a : scheme) (key : list Z) : list Z :=
  if (64 <? length key)%nat then hash_of a key else key.
Lemma key_length a key : (forall m, (length (hash_of a m) <= 64)%nat) -> (length (hmac_key a key) <= 64)%nat.
Proof. intros H. unfold hmac_key. by destruct (Nat.ltb_spec 64 (length key)). Qed.

Lemma sha1_set_key key s : Z.of_nat (length key) < 2 ^ 29 -> exists s',
  _sha1_twinpass_hmac_set_key hash_iv compress key s = Some (store_pads (hmac_key SHA1 key), s').
Proof.
  intros Hk. unfold _sha1_twinpass_hmac_set_key, hmac_key, SHA1_HMAC_BLOCK_SIZE, SHA1_DIGEST_SIZE.
  destruct (Z.ltb_spec 64 (Z.of_nat (length key))), (Nat.ltb_spec 64 (length key)); try lia; [|by eexists].
  pose proof (sha1_calls [key] s) as Hc. destruct (sha1_init hash_iv s) as [c s1].
  destruct Hc as (c1 & s2 & c2 & s3 & Hu & Hf); [by repeat constructor|]. cbn in Hu.
  destruct (sha1_update compress key c s1) as [[c1' s2']|]; [|done]. injection Hu as -> ->.
  cbn [mbind option_bind]. rewrite Hf. cbn [mbind option_bind concat]. rewrite app_nil_r.
  rewrite take_ge; [by eexists|]. change (Z.to_nat 20) with 20%nat. pose proof (sha1_length key). lia.
Qed.
Lemma md5_set_key stack key s : length stack = 64%nat -> Z.of_nat (length key) < 2 ^ 29 -> exists s',
  _md5_twinpass_hmac_set_key hash_iv compress stack key s = Some (store_pads (hmac_key MD5 key), s').
Proof.
  intros Hst Hk. unfold _md5_twinpass_hmac_set_key, hmac_key, MD5_HMAC_BLOCK_SIZE, MD5_BLOCK_WORDS.
  destruct (Z.ltb_spec 64 (Z.of_nat (length key))), (Nat.ltb_spec 64 (length key)); try lia; [|by eexists].
  pose proof (md5_calls [key] (mk_md5 0 stack) s Hst) as Hc. destruct (md5_init hash_iv _ s) as [c s1].
  destruct Hc as (c1 & s2 & c2 & s3 & Hu & Hf & _); [by repeat constructor|]. cbn in Hu.
  destruct (md5_update compress key c s1) as [[c1' s2']|]; [|done]. injection Hu as -> ->.
  cbn [mbind option_bind]. rewrite Hf. cbn [concat]. rewrite app_nil_r.
  rewrite take_ge; [by eexists|]. change (Z.to_nat 16) with 16%nat. pose proof (md5_length key). lia.
Qed.

(** Two pieces. *)
Lemma sha1_two p dat s : Z.of_nat (length p) < 2 ^ 29 -> Z.of_nat (length dat) < 2 ^ 29 ->
  let (c, s1) := sha1_init hash_iv s in
  exists c0 s2 c1 s3 c2 s4, sha1_update compress p c s1 = Some (c0, s2) /\
    sha1_update compress dat c0 s2 = Some (c1, s3) /\
    sha1_final compress c1 s3 = Some (hash_of SHA1 (p ++ dat), c2, s4).
Proof.
  intros Hp Hd. pose proof (sha1_calls [p; dat] s) as H. destruct (sha1_init hash_iv s) as [c s1].
  destruct H as (c1 & s3 & c2 & s4 & Hu & Hf); [by repeat constructor|]. cbn in Hu.
  destruct (sha1_update compress p c s1) as [[c0 s2]|] eqn:H1; [|done]. cbn [mbind option_bind] in Hu.
  destruct (sha1_update compress dat c0 s2) as [[? ?]|] eqn:H2; [|done]. injection Hu as -> ->.
  cbn [concat] in Hf. rewrite app_nil_r in Hf. by exists c0, s2, c1, s3, c2, s4.
Qed.
Lemma md5_two p dat mctx s :
  length (block mctx) = 64%nat -> Z.of_nat (length p) < 2 ^ 29 -> Z.of_nat (length dat) < 2 ^ 29 ->
  let (c, s1) := md5_init hash_iv mctx s in
  exists c0 s2 c1 s3 c2 s4, md5_update compress p c s1 = Some (c0, s2) /\
    md5_update compress dat c0 s2 = Some (c1, s3) /\
    md5_final compress c1 s3 = (hash_of MD5 (p ++ dat), c2, s4) /\ length (block c2) = 64%nat.
Proof.
  intros Hb Hp Hd. pose proof (md5_calls [p; dat] mctx s Hb) as H. destruct (md5_init hash_iv mctx s) as [c s1].
  destruct H as (c1 & s3 & c2 & s4 & Hu & Hf & Hc2); [by repeat constructor|]. cbn in Hu.
  destruct (md5_update compress p c s1) as [[c0 s2]|] eqn:H1; [|done]. cbn [mbind option_bind] in Hu.
  destruct (md5_update compress dat c0 s2) as [[? ?]|] eqn:H2; [|done]. injection Hu as -> ->.
  cbn [concat] in Hf. rewrite app_nil_r in Hf. by exists c0, s2, c1, s3, c2, s4.
Qed.
Lemma pad_key_length v key : (length key <= 64)%nat -> Z.of_nat (length (pad_key v key)) < 2 ^ 29.
Proof. intros H. unfold pad_key, zeros. rewrite length_map, length_app, length_replicate. lia. Qed.

Lemma sha1_hmac_hash key dat out hashlen s :
  (length key <= 64)%nat -> Z.of_nat (length dat) < 2 ^ 29 -> 0 <= hashlen <= SHA1_DIGEST_SIZE ->
  exists s', _sha1_twinpass_hmac_hash hash_iv compress (store_pads key) dat out hashlen s =
    Some (put 0 (take (Z.to_nat hashlen)
      (hash_of SHA1 (pad_key 0x5c key ++ hash_of SHA1 (pad_key 0x36 key ++ dat)))) out, s').
Proof.
  intros Hk Hd Hl. destruct (store_pads_ok key Hk) as [Hi Ho].
  unfold _sha1_twinpass_hmac_hash, SHA1_HMAC_BLOCK_SIZE, SHA1_DIGEST_SIZE in *.
  change (Z.to_nat 64) with 64%nat. rewrite Hi, Ho.
  pose proof (sha1_two _ dat s (pad_key_length 0x36 key Hk) Hd) as H. destruct (sha1_init hash_iv s) as [c s1].
  destruct H as (c0 & s2 & c1 & s3 & c2 & s4 & -> & H2 & H3). cbn [mbind option_bind]. rewrite H2.
  cbn [mbind option_bind]. rewrite H3. cbn [mbind option_bind].
  set (inner := hash_of SHA1 _). assert (Hin : (length inner <= 20)%nat) by apply sha1_length.
  pose proof (sha1_two _ inner s4 (pad_key_length 0x5c key Hk)) as H. destruct (sha1_init hash_iv s4) as [d t1].
  destruct H as (d0 & t2 & d1 & t3 & d2 & t4 & -> & H5 & H6); [lia|]. cbn [mbind option_bind]. rewrite H5.
  cbn [mbind option_bind]. rewrite H6. cbn [mbind option_bind].
  destruct (Z.eqb_spec hashlen 20) as [->|_].
  - rewrite take_ge; [by eexists|]. pose proof (sha1_length (pad_key 0x5c key ++ inner)). lia.
  - destruct (Z.leb_spec 0 hashlen), (Z.leb_spec hashlen 20); try lia. by eexists.
Qed.
Lemma md5_hmac_hash stack key dat out hashlen s :
  length stack = 64%nat -> (length key <= 64)%nat -> Z.of_nat (length dat) < 2 ^ 29 ->
  exists s', _md5_twinpass_hmac_hash hash_iv compress stack (store_pads key) dat out hashlen s =
    Some (put 0 (hash_of MD5 (pad_key 0x5c key ++ hash_of MD5 (pad_key 0x36 key ++ dat))) out, s').
Proof.
  intros Hst Hk Hd. destruct (store_pads_ok key Hk) as [Hi Ho].
  unfold _md5_twinpass_hmac_hash, MD5_HMAC_BLOCK_SIZE.
  change (Z.to_nat 64) with 64%nat. rewrite Hi, Ho.
  pose proof (md5_two _ dat (mk_md5 0 stack) s Hst (pad_key_length 0x36 key Hk) Hd) as H.
  destruct (md5_init hash_iv _ s) as [c s1].
  destruct H as (c0 & s2 & c1 & s3 & c2 & s4 & -> & H2 & H3 & Hc2). cbn [mbind option_bind]. rewrite H2.
  cbn [mbind option_bind]. rewrite H3.
  set (inner := hash_of MD5 _). assert (Hin : (length inner <= 16)%nat) by apply md5_length.
  pose proof (md5_two _ inner c2 s4 Hc2 (pad_key_length 0x5c key Hk)) as H. destruct (md5_init hash_iv c2 s4) as [d t1].
  destruct H as (d0 & t2 & d1 & t3 & d2 & t4 & -> & H5 & H6 & _); [lia|]. cbn [mbind option_bind]. rewrite H5.
  cbn [mbind option_bind]. rewrite H6. by eexists.
Qed.

(** C25. The keyed hashes of sec_api.c are HMAC (RFC 2104): set_key followed by hash
    returns, for keys shorter and longer than a block, the first hashlen bytes of HMAC-SHA1,
    and the whole of HMAC-MD5, in front of what the memory of the result held; the MD5
    function writes all its bytes whatever hashlen is. *)
Theorem twinpass_hmac stack key dat out hashlen s :
  length stack = 64%nat -> Z.of_nat (length key) < 2 ^ 29 -> Z.of_nat (length dat) < 2 ^ 29 ->
  0 <= hashlen <= SHA1_DIGEST_SIZE ->
  (exists ctx s1 s2, _sha1_twinpass_hmac_set_key hash_iv compress key s = Some (ctx, s1) /\
     _sha1_twinpass_hmac_hash hash_iv compress ctx dat out hashlen s1 =
       Some (put 0 (take (Z.to_nat hashlen) (hmac SHA1 key dat)) out, s2)) /\
  (exists ctx s1 s2, _md5_twinpass_hmac_set_key hash_iv compress stack key s = Some (ctx, s1) /\
     _md5_twinpass_hmac_hash hash_iv compress stack ctx dat out hashlen s1 =
       Some (put 0 (hmac MD5 key dat) out, s2)).
Proof.
  intros Hst Hk Hd Hl. split.
  - destruct (sha1_set_key key s Hk) as [s1 Hset].
    destruct (sha1_hmac_hash (hmac_key SHA1 key) dat out hashlen s1) as [s2 Hh]; [|done..|by do 3 eexists].
    apply key_length. intros m. pose proof (sha1_length m). lia.
  - destruct (md5_set_key stack key s Hst Hk) as [s1 Hset].
    destruct (md5_hmac_hash stack (hmac_key MD5 key) dat out hashlen s1) as [s2 Hh]; [done| |done|by do 3 eexists].
    apply key_length. intros m. pose proof (md5_length m). lia.
Qed.

(** ** The room for the result *)
(** The unit has five digest registers. *)
Definition five_registers : Prop :=
  (forall a, length (hash_iv a) = 5%nat) /\ (forall a d b, length (compress a d b) = 5%nat).

Lemma absorbs_five a h m : five_registers -> length (h_D h) = 5%nat -> length (h_D (absorbs compress a h m)) = 5%nat.
Proof.
  intros [_ Hc]. unfold absorbs. revert h. induction (blocks m) as [|b bs IH]; intros h Hh; cbn [fold_left]; [done|].
  apply IH. apply Hc.
Qed.
Lemma digest_full a h : (forall w, length (save a w) = 4%nat) -> (digest_words a <= length (h_D h))%nat ->
  length (digest a h) = (4 * digest_words a)%nat.
Proof.
  intros Hs. unfold digest. generalize (digest_words a) as n.
  induction (h_D h) as [|w d IH]; intros [|n]; cbn [length take map concat]; try lia.
  intros Hn. rewrite length_app, Hs, IH by lia. lia.
Qed.
Lemma hash_full a m : five_registers -> (forall w, length (save a w) = 4%nat) -> (digest_words a <= 5)%nat ->
  length (hash_of a m) = (4 * digest_words a)%nat.
Proof. intros Hf Hs Hn. apply digest_full; [done|]. rewrite absorbs_five; [done|done|]. apply Hf. Qed.

Lemma put_take x b : (length x <= length b)%nat ->
  take (length x) (put 0 x b) = x /\ drop (length x) (put 0 x b) = drop (length x) b.
Proof.
  intros H. unfold put. change (take 0 b ++ ?l)%list with l. split.
  - by apply take_app_length'.
  - by apply drop_app_length'.
Qed.

(** hmac_room *)
Theorem hmac_room stack key dat out hashlen s :
  five_registers -> length stack = 64%nat -> (length key <= 64)%nat -> Z.of_nat (length dat) < 2 ^ 29 ->
  0 <= hashlen <= 16 -> (16 <= length out)%nat ->
  let n := Z.to_nat hashlen in
  (exists out' s', _sha1_twinpass_hmac_hash hash_iv compress (store_pads key) dat out hashlen s = Some (out', s') /\
     take n out' = take n (hmac SHA1 key dat) /\ drop n out' = drop n out) /\
  (exists out' s', _md5_twinpass_hmac_hash hash_iv compress stack (store_pads key) dat out hashlen s = Some (out', s') /\
     take 16 out' = hmac MD5 key dat /\ drop 16 out' = drop 16 out).
Proof.
  intros Hf Hst Hk Hd Hl Ho n. unfold hmac. destruct (Nat.ltb_spec 64 (length key)); [lia|]. split.
  - destruct (sha1_hmac_hash key dat out hashlen s) as [s' ->]; [done..|unfold SHA1_DIGEST_SIZE; lia|].
    set (d := hash_of SHA1 _). assert (Hn : length (take n d) = n).
    { rewrite length_take. unfold d. rewrite hash_full; [|done|intros w; apply be_bytes_length|cbn; lia].
      cbn [digest_words SHA1]. lia. }
    do 2 eexists. split; [reflexivity|]. fold n.
    destruct (put_take (take n d) out) as [H1 H2]; [lia|]. by rewrite Hn in H1, H2.
  - destruct (md5_hmac_hash stack key dat out hashlen s) as [s' ->]; [done..|].
    set (d := hash_of MD5 _). assert (Hn : length d = 16%nat).
    { unfold d. rewrite hash_full; [done|done|intros w; apply be_bytes_length|cbn; lia]. }
    do 2 eexists. split; [reflexivity|]. destruct (put_take d out) as [H1 H2]; [lia|]. by rewrite Hn in H1, H2.
Qed.

(** ** An interrupted computation *)
(** The unit is in the state [s'] when the computation goes on: another one has used it. *)
Definition sha1_interrupted (m1 m2 : list Z) (s s' : deu) : option (list Z) :=
  let (c, s) := sha1_init hash_iv s in
  '(c, s) ← sha1_update compress m1 c s;
  '(c, s) ← sha1_update compress m2 c s';
  '(out, _, _) ← sha1_final compress c s;
  Some out.

Lemma sha1_interrupted_run m1 m2 s s' :
  Z.of_nat (length m1) < 2 ^ 29 -> Z.of_nat (length m2) < 2 ^ 29 -> h_MR (hash s') = [] ->
  sha1_interrupted m1 m2 s s' = Some (digest SHA1 (absorbs compress SHA1 (hash s')
    (rest m1 ++ m2 ++ padding SHA1 (Z.of_nat (length m1) + Z.of_nat (length m2))))).
Proof.
  intros H1 H2 Hm. unfold sha1_interrupted.
  destruct (sha1_init_ok hash_iv (mk_sha1 0 []) s I) as (c & -> & Hc).
  destruct (sha1_update_ok compress [] c (set_hash (start SHA1) s) m1 Hc eq_refl H1) as (c1 & -> & Hc1).
  cbn [mbind option_bind]. destruct (sha1_update_ok compress _ c1 s' m2 Hc1 Hm H2) as (c2 & -> & Hc2).
  cbn [mbind option_bind app] in *.
  edestruct (sha1_final_ok compress _ c2 (set_hash (absorbs compress SHA1 (hash s') (rest m1 ++ m2)) s') Hc2)
    as (c3 & Hfin & _); [by apply absorbs_idle|].
  rewrite Hfin. cbn [mbind option_bind]. change (hash (set_hash ?x _)) with x.
  rewrite rest_app, <- absorbs_app, <- (assoc_L app), length_app, Nat2Z.inj_add. done.
Qed.

(** C30. The digest so far is in the unit and not in the context: a SHA1 computation between
    whose two updates the unit was used by another one returns a value that does not depend
    on the whole blocks hashed before, so that two messages that differ only there get the
    same digest. *)
Theorem interrupted_hash_forgets m1 m1' m2 s s' :
  length m1 = length m1' -> rest m1 = rest m1' ->
  Z.of_nat (length m1) < 2 ^ 29 -> Z.of_nat (length m2) < 2 ^ 29 -> h_MR (hash s') = [] ->
  sha1_interrupted m1 m2 s s' = Some (digest SHA1 (absorbs compress SHA1 (hash s')
    (rest m1 ++ m2 ++ padding SHA1 (Z.of_nat (length m1) + Z.of_nat (length m2))))) /\
  sha1_interrupted m1' m2 s s' = sha1_interrupted m1 m2 s s'.
Proof.
  intros Hl Hr H1 H2 Hm. rewrite sha1_interrupted_run by done. split; [reflexivity|].
  rewrite sha1_interrupted_run by (congruence || lia). by rewrite Hl, Hr.
Qed.
End Unit.

(** ** A unit to run the theorems on *)
Definition toy_iv (algo : Z) : list Z := map (fun i => Z.of_nat i + algo) (seq 1 5).
Definition toy_compress (algo : Z) (d b : list Z) : list Z :=
  map (fun i => u32 (3 * nth i d 0 + nth i b 0 + fold_left Z.add b algo)) (seq 0 5).
Definition toy_unit : deu :=
  mk_deu (mk_hash 0 0 [] [1; 2; 3; 4; 5]) (mk_aes 0 0 0 0 0 0 [] [] [] []) (mk_des 0 0 0 0 0 [] [] [] []) true.
Definition toy_text (n : nat) : list Z := map (fun i => Z.of_nat i mod 256) (seq 250 n).
Lemma toy_five : five_registers toy_iv toy_compress.
Proof. split; reflexivity. Qed.

Lemma digest_of_pieces_witness :
  (exists c s', sha1_digest toy_iv toy_compress [toy_text 10; toy_text 130; toy_text 61] toy_unit =
     Some (hash_of toy_iv toy_compress SHA1 (toy_text 10 ++ toy_text 130 ++ toy_text 61 ++ []), c, s'))%list /\
  (exists c s', md5_digest toy_iv toy_compress [toy_text 10; toy_text 130; toy_text 61] (mk_md5 0 (zeros 64)) toy_unit =
     Some (hash_of toy_iv toy_compress MD5 (toy_text 10 ++ toy_text 130 ++ toy_text 61 ++ []), c, s'))%list.
Proof. apply (digest_of_pieces toy_iv toy_compress); [reflexivity|]. by repeat constructor. Defined.

Lemma twinpass_hmac_witness :
  (exists ctx s1 s2, _sha1_twinpass_hmac_set_key toy_iv toy_compress (toy_text 80) toy_unit = Some (ctx, s1) /\
     _sha1_twinpass_hmac_hash toy_iv toy_compress ctx (toy_text 100) (zeros 20) 12 s1 =
       Some (put 0 (take 12 (hmac toy_iv toy_compress SHA1 (toy_text 80) (toy_text 100))) (zeros 20), s2)) /\
  (exists ctx s1 s2, _md5_twinpass_hmac_set_key toy_iv toy_compress (zeros 64) (toy_text 80) toy_unit = Some (ctx, s1) /\
     _md5_twinpass_hmac_hash toy_iv toy_compress (zeros 64) ctx (toy_text 100) (zeros 20) 12 s1 =
       Some (put 0 (hmac toy_iv toy_compress MD5 (toy_text 80) (toy_text 100)) (zeros 20), s2)).
Proof.
  apply (twinpass_hmac toy_iv toy_compress (zeros 64) (toy_text 80) (toy_text 100) (zeros 20) 12 toy_unit);
    [reflexivity|reflexivity|reflexivity|unfold SHA1_DIGEST_SIZE; lia].
Defined.

Lemma hmac_room_witness :
  (exists out' s', _sha1_twinpass_hmac_hash toy_iv toy_compress (store_pads (toy_text 20)) (toy_text 100) (zeros 20) 12 toy_unit = Some (out', s') /\
     take 12 out' = take 12 (hmac toy_iv toy_compress SHA1 (toy_text 20) (toy_text 100)) /\ drop 12 out' = zeros 8) /\
  (exists out' s', _md5_twinpass_hmac_hash toy_iv toy_compress (zeros 64) (store_pads (toy_text 20)) (toy_text 100) (zeros 20) 12 toy_unit = Some (out', s') /\
     take 16 out' = hmac toy_iv toy_compress MD5 (toy_text 20) (toy_text 100) /\ drop 16 out' = zeros 4).
Proof.
  apply (hmac_room toy_iv toy_compress (zeros 64) (toy_text 20) (toy_text 100) (zeros 20) 12 toy_unit toy_five);
    [reflexivity|vm_compute; lia|reflexivity|lia|vm_compute; lia].
Defined.

(** Two messages whose first blocks differ, cut behind the seventieth byte. *)
Lemma interrupted_hash_forgets_witness :
  sha1_interrupted toy_iv toy_compress (toy_text 64 ++ toy_text 6) (toy_text 9) toy_unit toy_unit =
    Some (digest SHA1 (absorbs toy_compress SHA1 (hash toy_unit) (rest (toy_text 64 ++ toy_text 6) ++ toy_text 9 ++ padding SHA1 79))) /\
  sha1_interrupted toy_iv toy_compress (zeros 64 ++ toy_text 6) (toy_text 9) toy_unit toy_unit =
    sha1_interrupted toy_iv toy_compress (toy_text 64 ++ toy_text 6) (toy_text 9) toy_unit toy_unit.
Proof.
  by apply (interrupted_hash_forgets toy_iv toy_compress (toy_text 64 ++ toy_text 6) (zeros 64 ++ toy_text 6) (toy_text 9) toy_unit toy_unit).
Defined.
