(* ===== verification/DeuCipher.v ===== *)
(** * DeuCipher: CBC encryption with the ciphers of the encryption unit

    What the three functions of sec_api.c that encrypt compute, against a reference
    definition of cipher block chaining, the weak keys of DES, and the keys that are refused. *)
From S2P Require Import Prelude Deu DeuHash.
Import Deu.

(** ** Cipher block chaining, on blocks of words *)
Definition xor_words (a b : list Z) : list Z := zip_with Z.lxor a b.
Section Cbc.
Context (E D : list Z -> list Z).
Fixpoint cbc_encrypt_blocks (iv : list Z) (xs : list (list Z)) : list (list Z) :=
  match xs with
  | [] => []
  | x :: xs' => let y := E (xor_words x iv) in y :: cbc_encrypt_blocks y xs'
  end.
Fixpoint cbc_decrypt_blocks (iv : list Z) (ys : list (list Z)) : list (list Z) :=
  match ys with
  | [] => []
  | y :: ys' => xor_words (D y) iv :: cbc_decrypt_blocks y ys'
  end.
(** [encrypt] as the code passes it. *)
Definition cbc (encrypt : Z) : list Z -> list (list Z) -> list (list Z) :=
  if encrypt =? 0 then cbc_decrypt_blocks else cbc_encrypt_blocks.

Definition word_block (n : nat) (x : list Z) : Prop := length x = n /\ Forall (fun w => 0 <= w < 2 ^ 32) x.

Lemma xor_words_block n a b : word_block n a -> word_block n b -> word_block n (xor_words a b).
Proof.
  intros [Ha Hfa] [Hb Hfb]. split; [unfold xor_words; rewrite length_zip_with; lia|].
  apply Forall_lookup. intros i w H. apply lookup_zip_with_Some in H as (x & y & -> & Hx & Hy).
  rewrite Forall_lookup in Hfa, Hfb. specialize (Hfa i x Hx). specialize (Hfb i y Hy).
  rewrite <- (Z.mod_small x (2 ^ 32)), <- (Z.mod_small y (2 ^ 32)) by lia. rewrite <- !Z.land_ones by lia.
  assert (Z.lxor (Z.land x (Z.ones 32)) (Z.land y (Z.ones 32)) = Z.land (Z.lxor x y) (Z.ones 32)) as ->.
  { apply Z.bits_inj'. intros k Hk. rewrite Z.lxor_spec, !Z.land_spec, Z.lxor_spec.
    by destruct (Z.testbit x k), (Z.testbit y k), (Z.testbit (Z.ones 32) k). }
  rewrite Z.land_ones by lia. apply Z.mod_pos_bound. lia.
Qed.
Lemma xor_words_cancel n a b : length a = n -> length b = n -> xor_words (xor_words a b) b = a.
Proof.
  revert a b. induction n as [|n IH]; intros [|x a] [|y b] Ha Hb; try done.
  cbn. rewrite Z.lxor_assoc, Z.lxor_nilpotent, Z.lxor_0_r. f_equal. apply IH; [by injection Ha|by injection Hb].
Qed.

Lemma cbc_inverse n iv xs :
  (forall x, word_block n x -> word_block n (E x) /\ D (E x) = x) ->
  word_block n iv -> Forall (word_block n) xs ->
  cbc_decrypt_blocks iv (cbc_encrypt_blocks iv xs) = xs.
Proof.
  intros HE. revert iv. induction xs as [|x xs IH]; intros iv Hiv Hx; [done|].
  apply Forall_cons in Hx as [Hx Hxs]. destruct (HE (xor_words x iv) (xor_words_block n x iv Hx Hiv)) as [Hb HD].
  cbn [cbc_encrypt_blocks cbc_decrypt_blocks]. rewrite HD, IH by done.
  f_equal. apply (xor_words_cancel n); [apply Hx|apply Hiv].
Qed.
Lemma cbc_encrypt_length n iv xs :
  (forall x, word_block n x -> word_block n (E x)) -> word_block n iv -> Forall (word_block n) xs ->
  Forall (word_block n) (cbc_encrypt_blocks iv xs) /\ length (cbc_encrypt_blocks iv xs) = length xs.
Proof.
  intros HE. revert iv. induction xs as [|x xs IH]; intros iv Hiv Hx; [done|].
  apply Forall_cons in Hx as [Hx Hxs]. pose proof (HE _ (xor_words_block n x iv Hx Hiv)) as Hb.
  destruct (IH _ Hb Hxs) as [Hf Hl]. cbn. split; [by constructor|by rewrite Hl].
Qed.
End Cbc.

(** ** Bytes in blocks *)
Fixpoint word_blocks (n k : nat) (m : list Z) : list (list Z) :=
  match k with O => [] | S k' => words n m :: word_blocks n k' (drop (4 * n) m) end.
Definition block_bytes (x : list Z) : list Z := concat (map bytes32 x).
Definition all_bytes (xs : list (list Z)) : list Z := concat (map block_bytes xs).

Lemma block_bytes_length x : length (block_bytes x) = (4 * length x)%nat.
Proof. unfold block_bytes. induction x; cbn [map concat]; [done|]. rewrite length_app, IHx. unfold bytes32. rewrite be_bytes_length. cbn. lia. Qed.

Lemma be32_range b : Forall is_byte b -> 0 <= be32 b < 2 ^ 32.
Proof.
  intros Hb. assert (H : forall i, is_byte (byte_at b i)).
  { intros i. unfold byte_at. destruct (nth_in_or_default i b 0) as [Hi| ->]; [|done].
    rewrite List.Forall_forall in Hb. by apply Hb. }
  pose proof (H 0%nat) as H0. pose proof (H 1%nat) as H1. pose proof (H 2%nat) as H2. pose proof (H 3%nat) as H3.
  unfold is_byte, be32 in *. lia.
Qed.
Lemma words_block n m : Forall is_byte m -> word_block n (words n m).
Proof.
  intros Hm. split; [apply words_length|]. apply Forall_map, Forall_true. intros i. apply be32_range. by apply Forall_drop.
Qed.
Lemma word_blocks_ok n k m : Forall is_byte m -> Forall (word_block n) (word_blocks n k m) /\ length (word_blocks n k m) = k.
Proof.
  revert m. induction k as [|k IH]; intros m Hm; [by split|]. cbn [word_blocks length].
  destruct (IH (drop (4 * n) m)) as [Hf Hl]; [by apply Forall_drop|]. split; [constructor; [by apply words_block|done]|by rewrite Hl].
Qed.

(** Words and their bytes. *)
Lemma bytes32_words w : 0 <= w < 2 ^ 32 -> be32 (bytes32 w) = w.
Proof.
  intros H. unfold bytes32, be32, byte_at. cbn [be_bytes nth app].
  change (2 ^ 24) with 16777216. change (2 ^ 16) with 65536. change (2 ^ 8) with 256. change (2 ^ 32) with 4294967296 in H.
  Z.to_euclidean_division_equations; lia.
Qed.
Lemma be32_app4 b x : length b = 4%nat -> be32 (b ++ x) = be32 b.
Proof. intros H. unfold be32. by rewrite !byte_at_app_l by lia. Qed.
Lemma words_cons n b m : length b = 4%nat -> words (S n) (b ++ m) = be32 b :: words n m.
Proof.
  intros H. unfold words. cbn [seq map]. f_equal; [by apply be32_app4|]. rewrite <- seq_shift, map_map.
  apply map_ext. intros i. unfold word_at. f_equal. replace (4 * S i)%nat with (length b + 4 * i)%nat by lia.
  by rewrite <- drop_drop, drop_app_length.
Qed.
Lemma words_bytes n x m : word_block n x -> words n (block_bytes x ++ m) = x.
Proof.
  intros [Hl Hf]. subst n. induction x as [|w x IH]; [done|]. apply Forall_cons in Hf as [Hw Hf].
  unfold block_bytes. cbn [map concat length]. rewrite <- (assoc_L app), words_cons by apply be_bytes_length.
  rewrite bytes32_words by done. f_equal. by apply IH.
Qed.
Lemma bytes32_of b : length b = 4%nat -> Forall is_byte b -> bytes32 (be32 b) = b.
Proof.
  intros Hl Hf. destruct b as [|b0 [|b1 [|b2 [|b3 [|]]]]]; try discriminate Hl.
  rewrite !Forall_cons in Hf. destruct Hf as (H0 & H1 & H2 & H3 & _).
  apply bytes32_be32; done.
Qed.
Lemma bytes_words n m : Forall is_byte m -> (4 * n <= length m)%nat -> block_bytes (words n m) = take (4 * n) m.
Proof.
  revert m. induction n as [|n IH]; intros m Hm Hl; [done|].
  rewrite <- (take_drop 4 m) at 1. rewrite words_cons by (rewrite length_take; lia).
  unfold block_bytes in *. cbn [map concat]. rewrite IH by (try apply Forall_drop; try (rewrite length_drop; lia); done).
  rewrite bytes32_of by (try apply Forall_take; try (rewrite length_take; lia); done).
  replace (4 * S n)%nat with (4 + 4 * n)%nat by lia. by rewrite <- take_take_drop.
Qed.

Lemma all_bytes_blocks n k m : Forall is_byte m -> (4 * n * k <= length m)%nat ->
  all_bytes (word_blocks n k m) = take (4 * n * k) m.
Proof.
  revert m. induction k as [|k IH]; intros m Hm Hl; [by rewrite Nat.mul_0_r|].
  unfold all_bytes in *. cbn [word_blocks map concat]. rewrite bytes_words by (try done; lia).
  rewrite IH by (try apply Forall_drop; try (rewrite length_drop; lia); done).
  replace (4 * n * S k)%nat with (4 * n + 4 * n * k)%nat by lia. by rewrite <- take_take_drop.
Qed.
Lemma blocks_all_bytes n xs m : Forall (word_block n) xs -> word_blocks n (length xs) (all_bytes xs ++ m) = xs.
Proof.
  revert m. induction xs as [|x xs IH]; intros m Hf; [done|]. apply Forall_cons in Hf as [Hx Hf].
  unfold all_bytes. cbn [map concat length word_blocks]. rewrite <- (assoc_L app), words_bytes by done.
  rewrite drop_app_length' by (rewrite block_bytes_length, (proj1 Hx); lia). f_equal. by apply IH.
Qed.
Lemma all_bytes_length n xs : Forall (word_block n) xs -> length (all_bytes xs) = (4 * n * length xs)%nat.
Proof.
  induction xs as [|x xs IH]; intros Hf; [by rewrite Nat.mul_0_r|]. apply Forall_cons in Hf as [Hx Hf].
  unfold all_bytes in *. cbn [map concat length]. rewrite length_app, IH, block_bytes_length, (proj1 Hx) by done. lia.
Qed.

Lemma put_end j x b : (j + length x = length b)%nat -> put j x b = (take j b ++ x)%list.
Proof. intros H. unfold put. rewrite drop_ge by lia. by rewrite app_nil_r. Qed.

(** ** AES *)
Section Aes.
Context (aes_step : Z -> list Z -> Z -> Z -> list Z -> list Z -> list Z * list Z) (chip_id : Z).
(** A block cipher and its inverse, by the words of the key. *)
Context (E D : list Z -> list Z -> list Z).
(** The words of the key, by the length field: the last four, six or eight registers. *)
Definition key_words (k : Z) (ks : list Z) : list Z := drop (4 - 2 * Z.to_nat k) ks.

(** The unit in its mode 1, as its manual has it, on words in the order the chip takes them. *)
Definition aes_cbc_unit : Prop := forall k ks iv x, 0 <= k <= 2 -> length ks = 8%nat ->
  aes_step k ks 0 1 iv (map (ENDIAN_SWAP chip_id) x) =
    (E (key_words k ks) (xor_words x iv), E (key_words k ks) (xor_words x iv)) /\
  aes_step k ks 1 1 iv (map (ENDIAN_SWAP chip_id) x) = (xor_words (D (key_words k ks) x) iv, x).

(** The IV is kept by the unit, and the registers have their sizes. *)
Record aes_regs (a : aes_t) : Prop := {
  good_DAU : a_DAU a = 0; good_ID : length (a_ID a) = 4%nat; good_keys : length (a_keys a) = 8%nat }.
(** A key is set. *)
Definition aes_good (a : aes_t) : Prop := aes_regs a /\ 0 <= a_K a <= 2.
Definition aes_cbc (a : aes_t) : Z -> list Z -> list (list Z) -> list (list Z) :=
  cbc (E (key_words (a_K a) (a_keys a))) (D (key_words (a_K a) (a_keys a))).
Definition same_key (a a' : aes_t) : Prop := a_K a' = a_K a /\ a_keys a' = a_keys a.

Lemma aes_one p_in ivo encrypt s :
  aes_cbc_unit -> aes_good (aes s) ->
  let cur := match ivo with Some iv => words 4 iv | None => a_IV (aes s) end in
  exists y next s', aes_ifxdeu_cbc aes_step chip_id p_in ivo AES_BLOCK_SIZE encrypt s = Some (block_bytes y, s') /\
    (forall xs, aes_cbc (aes s) encrypt cur (words 4 p_in :: xs) = y :: aes_cbc (aes s) encrypt next xs) /\
    a_IV (aes s') = next /\ aes_good (aes s') /\ same_key (aes s) (aes s') /\ irqs s' = irqs s.
Proof.
  intros Hu [[HD HI HK] HKr] cur. unfold aes_ifxdeu_cbc, aes_ifxdeu, CRYPTO_TFM_MODE_CBC. rewrite HD.
  change (1 <? 2) with true. change (negb (0 =? 0)) with false. cbn [andb orb].
  assert (Hiv : (if bool_decide (is_Some ivo) then words 4 <$> ivo else Some (a_IV (aes s))) = Some cur).
  { unfold cur. by destruct ivo. }
  rewrite Hiv. cbn [mbind option_bind]. change ((2 - 1) mod 8) with 1.
  unfold aes_input, AES_BLOCK_SIZE. change (16 =? 16) with true. cbv iota.
  unfold aes_start. cbn [a_SM a_ARS a_DAU a_K a_E_D a_O a_keys a_IV a_ID a_OD].
  set (x := words 4 p_in). change (map (ENDIAN_SWAP chip_id) x) with
    (ENDIAN_SWAP chip_id (word_at p_in 0) :: map (ENDIAN_SWAP chip_id) (map (word_at p_in) [1; 2; 3]%nat)).
  cbv iota. change (ENDIAN_SWAP chip_id (word_at p_in 0) :: _) with (map (ENDIAN_SWAP chip_id) x).
  assert (Hput : put (4 - length (map (ENDIAN_SWAP chip_id) x)) (map (ENDIAN_SWAP chip_id) x) (a_ID (aes s)) =
    map (ENDIAN_SWAP chip_id) x) by (apply put_all; by rewrite HI).
  rewrite Hput. unfold aes_cbc, cbc. destruct (Hu (a_K (aes s)) (a_keys (aes s)) cur x HKr HK) as [H0 H1].
  destruct (encrypt =? 0); rewrite ?H0, ?H1; do 3 eexists;
    (split; [reflexivity|split; [intros xs; reflexivity|split; [reflexivity|]]]);
    (split; [split; [by constructor|exact HKr]|by repeat split]).
Qed.

Lemma aes_blocks_run encrypt iv : aes_cbc_unit -> forall fuel len block_no p_in p_out s,
  aes_good (aes s) -> 0 <= len -> len < 16 * Z.of_nat fuel -> 0 <= block_no ->
  let cur := if block_no =? 0 then words 4 iv else a_IV (aes s) in
  let k := Z.to_nat (len / 16) in
  exists s', aes_blocks aes_step chip_id fuel len block_no p_in iv encrypt p_out s =
      Some (all_bytes (aes_cbc (aes s) encrypt cur (word_blocks 4 k p_in)) ++ drop (16 * k) p_out, s')%list /\
    aes_good (aes s') /\ same_key (aes s) (aes s') /\ irqs s' = irqs s.
Proof.
  intros Hu. induction fuel as [|fuel IH]; intros len bn p_in p_out s Hg Hl Hf Hb cur k; [lia|].
  cbn [aes_blocks]. unfold AES_BLOCK_SIZE at 1. destruct (Z.leb_spec 16 len).
  - destruct (aes_one p_in (if bn =? 0 then Some iv else None) encrypt s Hu Hg)
      as (y & next & s1 & -> & Hc & Hn & Hg1 & [HK1 Hk1] & Hi1). cbn [mbind option_bind].
    unfold AES_BLOCK_SIZE. change (Z.to_nat 16) with 16%nat.
    destruct (IH (len - 16) (bn + 1) (drop 16 p_in) (drop 16 p_out) s1 Hg1) as (s' & -> & Hg' & [HK' Hk'] & Hi'); [lia..|].
    cbn [mbind option_bind]. destruct (Z.eqb_spec (bn + 1) 0); [lia|].
    assert (Hk : k = S (Z.to_nat ((len - 16) / 16))).
    { unfold k. replace (len / 16) with ((len - 16) / 16 + 1) by (rewrite <- Z.div_add by lia; f_equal; lia).
      pose proof (Z.div_pos (len - 16) 16). lia. }
    eexists. split; [|split; [done|split; [split; congruence|congruence]]]. f_equal. f_equal.
    rewrite Hk. cbn [word_blocks]. change (4 * 4)%nat with 16%nat.
    assert (Hcur : cur = match (if bn =? 0 then Some iv else None) with Some iv => words 4 iv | None => a_IV (aes s) end)
      by (unfold cur; by destruct (bn =? 0)).
    rewrite Hcur, Hc. unfold all_bytes at 2. cbn [map concat]. rewrite <- (assoc_L app). do 2 f_equal.
    + unfold all_bytes, aes_cbc. by rewrite HK1, Hk1, Hn.
    + rewrite drop_drop. f_equal. lia.
  - exists s. assert (Hk : k = 0%nat) by (unfold k; by rewrite Z.div_small).
    rewrite Hk. cbn [word_blocks]. rewrite drop_0. unfold aes_cbc, cbc.
    split; [by destruct (encrypt =? 0)|]. by split_and!.
Qed.

(** The key: what [aes_set_key] leaves in the unit. *)
Definition good_key (key : list Z) (key_len : Z) : Prop :=
  (key_len = 16 \/ key_len = 24 \/ key_len = 32) /\ (Z.to_nat key_len <= length key)%nat.
Definition key_of (key : list Z) (key_len : Z) : list Z := words (Z.to_nat (key_len / 4)) key.

Lemma aes_set_key_ok key key_len flags s : aes_regs (aes s) -> good_key key key_len ->
  exists s', aes_set_key key key_len flags s = (0, flags, s') /\ irqs s' = irqs s /\
    aes_good (aes s') /\ key_words (a_K (aes s')) (a_keys (aes s')) = key_of key key_len.
Proof.
  intros [HD HI HK] [Hl Hn]. unfold aes_set_key, key_of, aes_keys. eexists.
  split; [by destruct Hl as [-> |[-> | ->]]|]. split; [done|].
  cbn [aes set_irqs set_aes a_K a_keys a_DAU a_ID].
  assert (Hks : length (words (Z.to_nat (key_len / 4)) key) = (4 + 2 * Z.to_nat (u32 (key_len / 8 - 2) mod 4))%nat).
  { rewrite words_length. by destruct Hl as [-> |[-> | ->]]. }
  assert (Hk : 0 <= u32 (key_len / 8 - 2) mod 4 <= 2) by (destruct Hl as [-> |[-> | ->]]; vm_compute; split; discriminate).
  split.
  - split; [|exact Hk]. constructor; [exact HD|exact HI|]. cbn [a_keys].
    rewrite put_length; lia.
  - unfold key_words. rewrite put_end by lia. rewrite drop_app_length'; [done|]. rewrite length_take. lia.
Qed.

(** The blocks of a message, and what [_aes_twinpass_cbc_encrypt] makes of it. *)
Definition aes_result (ctx : aes_context) (in_ iv : list Z) (encrypt : Z) : list Z :=
  let k := Z.of_nat (length in_) / 16 in
  let key := key_of (aes_key ctx) (aes_key_len ctx) in
  (all_bytes (cbc (E key) (D key) encrypt (words 4 iv) (word_blocks 4 (Z.to_nat k) in_)) ++
   zeros (length in_ mod 16))%list.

Lemma aes_encrypt_run ctx in_ iv encrypt s :
  aes_cbc_unit -> aes_regs (aes s) -> good_key (aes_key ctx) (aes_key_len ctx) ->
  exists s', _aes_twinpass_cbc_encrypt aes_step chip_id ctx in_ iv encrypt s =
      Some (Z.of_nat (length in_), aes_result ctx in_ iv encrypt, s') /\
    aes_good (aes s') /\ irqs s' = irqs s.
Proof.
  intros Hu Hr Hk. unfold _aes_twinpass_cbc_encrypt.
  destruct (aes_set_key_ok _ _ 0 s Hr Hk) as (s1 & -> & Hi1 & Hg1 & Hkey).
  destruct (aes_blocks_run encrypt iv Hu (S (length in_)) (Z.of_nat (length in_)) 0 in_
    (zeros (length in_)) s1 Hg1) as (s2 & Hrun & Hg2 & _ & Hi2); [lia..|].
  rewrite Hrun. cbn [mbind option_bind]. change (0 =? 0) with true. cbv iota.
  exists s2. split; [|split; [done|congruence]]. do 3 f_equal. unfold aes_result, aes_cbc.
  rewrite Hkey. f_equal. unfold zeros. rewrite drop_replicate. f_equal.
  pose proof (Z.div_mod (Z.of_nat (length in_)) 16). pose proof (Nat.div_mod (length in_) 16).
  rewrite <- (Nat2Z.inj_div _ 16), Nat2Z.id. lia.
Qed.

(** Encryption undone by decryption. *)
Lemma aes_result_length ctx in_ iv encrypt :
  (forall key x, word_block 4 x -> word_block 4 (E key x)) -> encrypt <> 0 ->
  Forall is_byte in_ -> Forall is_byte iv -> length (aes_result ctx in_ iv encrypt) = length in_.
Proof.
  intros HE He Hin Hiv. unfold aes_result, cbc, zeros. destruct (Z.eqb_spec encrypt 0); [done|].
  destruct (word_blocks_ok 4 (Z.to_nat (Z.of_nat (length in_) / 16)) in_ Hin) as [Hf Hl].
  destruct (cbc_encrypt_length (E (key_of (aes_key ctx) (aes_key_len ctx))) 4 (words 4 iv) _ (HE _)
    (words_block 4 iv Hiv) Hf) as [Hf' Hl'].
  rewrite length_app, length_replicate, (all_bytes_length 4), Hl', Hl by done.
  rewrite <- (Nat2Z.inj_div _ 16), Nat2Z.id. pose proof (Nat.div_mod (length in_) 16). lia.
Qed.

Definition block_cipher (n : nat) : Prop := forall key x, word_block n x -> word_block n (E key x) /\ D key (E key x) = x.

Lemma aes_result_inverse ctx in_ iv encrypt :
  block_cipher 4 -> encrypt <> 0 -> Forall is_byte in_ -> Forall is_byte iv ->
  aes_result ctx (aes_result ctx in_ iv encrypt) iv 0 =
    (take (16 * (length in_ / 16)) in_ ++ zeros (length in_ mod 16))%list.
Proof.
  intros HE He Hin Hiv.
  assert (HE' : forall key x, word_block 4 x -> word_block 4 (E key x)) by (intros key x Hx; by apply HE).
  pose proof (aes_result_length ctx in_ iv encrypt HE' He Hin Hiv) as Hlen.
  unfold aes_result at 1. rewrite Hlen. f_equal. unfold aes_result, cbc.
  change (0 =? 0) with true. cbv iota. destruct (Z.eqb_spec encrypt 0); [done|].
  rewrite <- (Nat2Z.inj_div _ 16), Nat2Z.id. set (k := (length in_ / 16)%nat). set (key := key_of _ _).
  destruct (word_blocks_ok 4 k in_ Hin) as [Hf Hl].
  destruct (cbc_encrypt_length (E key) 4 (words 4 iv) _ (HE' _) (words_block 4 iv Hiv) Hf) as [Hf' Hl'].
  replace k with (length (cbc_encrypt_blocks (E key) (words 4 iv) (word_blocks 4 k in_))) at 1 by lia.
  rewrite blocks_all_bytes by done.
  rewrite (cbc_inverse _ _ 4) by (try apply words_block; try apply HE; done).
  change 16%nat with (4 * 4)%nat at 1. apply all_bytes_blocks; [done|].
  pose proof (Nat.div_mod (length in_) 16). fold k in H. lia.
Qed.
End Aes.
