(* ===== verification/DeuDes.v ===== *)
(** * DeuDes: CBC encryption with DES and 3DES, and the weak keys

    The loop of [des_incaip1] against the reference of DeuCipher.v, with the lengths for which
    it stays inside the buffers, and the search for a weak key against the list of them. *)
From S2P Require Import Prelude Deu DeuHash DeuCipher.
Import Deu.

Section Des.
Context (des_step : Z -> list Z -> Z -> Z -> list Z -> list Z -> list Z * list Z) (chip_id : Z).
(** A block cipher and its inverse, by the words of the key. *)
Context (E D : list Z -> list Z -> list Z).

(** The words of the key: two in the mode of DES, six in that of EDE3. *)
Definition des_key_words (m : Z) (ks : list Z) : list Z := take (if m =? 0 then 2 else 6) ks.
(** The unit in its mode 1, as its manual has it. *)
Definition des_cbc_unit : Prop := forall m ks iv x, m = 0 \/ m = 4 -> length ks = 6%nat ->
  des_step m ks 0 1 iv (map (ENDIAN_SWAP chip_id) x) =
    (E (des_key_words m ks) (xor_words x iv), E (des_key_words m ks) (xor_words x iv)) /\
  des_step m ks 1 1 iv (map (ENDIAN_SWAP chip_id) x) = (xor_words (D (des_key_words m ks) x) iv, x).

Record des_good (d : des_t) : Prop := {
  des_good_M : d_M d = 0 \/ d_M d = 4; des_good_keys : length (d_keys d) = 6%nat }.
Definition des_cbc (d : des_t) : Z -> list Z -> list (list Z) -> list (list Z) :=
  let key := des_key_words (d_M d) (d_keys d) in cbc (E key) (D key).

(** One step of the loop. *)
Lemma des_start_ok d x encrypt :
  des_cbc_unit -> des_good d -> d_O d = 1 -> d_E_D d = (if encrypt =? 0 then 1 else 0) ->
  let d' := des_start des_step chip_id x d in
  des_good d' /\ d_O d' = 1 /\ d_E_D d' = d_E_D d /\ d_M d' = d_M d /\ d_keys d' = d_keys d /\
  forall xs, des_cbc d encrypt (d_IV d) (x :: xs) = d_out d' :: des_cbc d encrypt (d_IV d') xs.
Proof.
  intros Hu [HM HK] HO HE. unfold des_start. rewrite HO, HE.
  destruct (Hu (d_M d) (d_keys d) (d_IV d) x HM HK) as [H0 H1]. unfold des_cbc, cbc.
  destruct (encrypt =? 0); rewrite ?H0, ?H1; (split; [by constructor|]); by repeat split.
Qed.

Lemma des_blocks_run encrypt : des_cbc_unit -> forall k r fuel i in_ d,
  des_good d -> d_O d = 1 -> d_E_D d = (if encrypt =? 0 then 1 else 0) ->
  length in_ = (8 * k + r)%nat -> (r < 8)%nat -> (k < fuel)%nat ->
  (r < 4)%nat /\ (exists d', des_blocks des_step chip_id fuel i (i + 2 * Z.of_nat k) in_ d =
     Some (all_bytes (des_cbc d encrypt (d_IV d) (word_blocks 2 k in_)), d') /\ d_M d' = d_M d /\ d_keys d' = d_keys d) \/
  (4 <= r)%nat /\ des_blocks des_step chip_id fuel i (i + 2 * Z.of_nat k + 1) in_ d = None.
Proof.
  intros Hu. induction k as [|k IH]; intros r fuel i in_ d Hd HO HE Hl Hr Hf; (destruct fuel as [|fuel]; [lia|]); cbn [des_blocks].
  - destruct (decide (r < 4)%nat) as [Hr4|Hr4]; [left|right]; (split; [lia|]).
    + destruct (Z.ltb_spec i (i + 2 * Z.of_nat 0)); [lia|]. exists d. cbn [word_blocks].
      split; [|done]. unfold des_cbc, cbc. by destruct (encrypt =? 0).
    + destruct (Z.ltb_spec i (i + 2 * Z.of_nat 0 + 1)); [|lia]. by destruct (Nat.ltb_spec (length in_) 8); [|lia].
  - destruct (des_start_ok d (words 2 in_) encrypt Hu Hd HO HE) as (Hd' & HO' & HE' & HM' & HK' & Hc).
    set (d1 := des_start _ _ _ _) in *.
    destruct (IH r fuel (i + 2) (drop 8 in_) d1 Hd' HO') as [[Hr4 (d2 & Hrun & HM2 & HK2)]|[Hr4 Hrun]];
      [congruence|rewrite length_drop; lia|done|lia| |]; [left|right]; (split; [done|]).
    + replace (i + 2 * Z.of_nat (S k)) with (i + 2 + 2 * Z.of_nat k) by lia.
      destruct (Z.ltb_spec i (i + 2 + 2 * Z.of_nat k)); [|lia]. destruct (Nat.ltb_spec (length in_) 8); [lia|].
      rewrite Hrun. cbn [mbind option_bind]. exists d2. split; [|split; congruence]. do 2 f_equal.
      cbn [word_blocks]. change (4 * 2)%nat with 8%nat. rewrite Hc. unfold all_bytes at 2. cbn [map concat]. f_equal.
      unfold all_bytes, des_cbc. by rewrite HM', HK'.
    + replace (i + 2 * Z.of_nat (S k) + 1) with (i + 2 + 2 * Z.of_nat k + 1) by lia.
      destruct (Z.ltb_spec i (i + 2 + 2 * Z.of_nat k + 1)); [|lia]. destruct (Nat.ltb_spec (length in_) 8); [lia|].
      by rewrite Hrun.
Qed.

(** What both DES functions make of a message. *)
Definition des_result (key in_ iv : list Z) (encrypt : Z) (stack : list Z) : list Z :=
  let k := (length in_ / 8)%nat in
  (all_bytes (cbc (E key) (D key) encrypt (words 2 iv) (word_blocks 2 k in_)) ++ drop (8 * k) stack)%list.
Definition des_regs (d : des_t) : Prop := length (d_keys d) = 6%nat.

(** A set_key that succeeds. *)
Definition sets_key (setkey : deu -> Z * Z * deu) (key : list Z) (s : deu) : Prop :=
  exists fl s', setkey s = (0, fl, s') /\ irqs s' = irqs s /\ des_good (des s') /\
    des_key_words (d_M (des s')) (d_keys (des s')) = key.

Lemma words_take_iv iv : (8 <= length iv)%nat -> words 2 (take 8 iv) = words 2 iv.
Proof.
  intros H. rewrite <- (take_drop 8 iv) at 2. unfold words, word_at. cbn [seq map Nat.mul Nat.add].
  rewrite !drop_0, drop_app_le by (rewrite length_take; lia). f_equal; [|f_equal]; symmetry.
  - unfold be32. by rewrite !byte_at_app_l by (rewrite length_take; lia).
  - apply be32_app4. rewrite length_drop, length_take. lia.
Qed.

Lemma all_bytes_cbc_length key n iv xs encrypt : (forall x, length x = n -> length (E key x) = n) -> (forall x, length x = n -> length (D key x) = n) ->
  length iv = n -> Forall (fun x => length x = n) xs -> length (all_bytes (cbc (E key) (D key) encrypt iv xs)) = (4 * n * length xs)%nat.
Proof.
  intros HE HD. revert iv. induction xs as [|x xs IH]; intros iv Hiv Hx.
  { unfold cbc. destruct (encrypt =? 0); cbn; lia. }
  apply Forall_cons in Hx as [Hx Hxs]. pose proof (HD x Hx) as HDx.
  assert (HEx : length (E key (xor_words x iv)) = n) by (apply HE; unfold xor_words; rewrite length_zip_with; lia).
  unfold cbc, all_bytes in *. destruct (encrypt =? 0);
    cbn [cbc_encrypt_blocks cbc_decrypt_blocks map concat length]; rewrite length_app, block_bytes_length, IH by done.
  - unfold xor_words. rewrite length_zip_with. lia.
  - lia.
Qed.
Lemma word_blocks_lengths n k m : Forall (fun x => length x = n) (word_blocks n k m) /\ length (word_blocks n k m) = k.
Proof.
  revert m. induction k as [|k IH]; intros m; [done|]. destruct (IH (drop (4 * n) m)) as [Hf Hl].
  cbn [word_blocks length]. split; [constructor; [apply words_length|done]|by rewrite Hl].
Qed.

Definition two_words : Prop := forall key x, length x = 2%nat -> length (E key x) = 2%nat /\ length (D key x) = 2%nat.

Lemma cbc_encrypt_run setkey key stack in_ iv encrypt s :
  des_cbc_unit -> two_words -> sets_key setkey key s -> (8 <= length iv)%nat ->
  (length in_ mod 8 < 4)%nat /\ (exists s', cbc_encrypt des_step chip_id setkey stack in_ iv encrypt s =
      Some (Z.of_nat (length in_), des_result key in_ iv encrypt stack, s') /\ irqs s' = irqs s) \/
  (4 <= length in_ mod 8)%nat /\ cbc_encrypt des_step chip_id setkey stack in_ iv encrypt s = None.
Proof.
  intros Hu Ht (fl & s1 & Hset & Hi1 & Hg1 & Hkey) Hiv. unfold cbc_encrypt. rewrite Hset.
  unfold des_incaip1_cbc, des_incaip1, CRYPTO_TFM_MODE_CBC. change (1 <? 2) with true. cbn [fmap option_fmap option_map mbind option_bind].
  change ((2 - 1) mod 8) with 1. rewrite words_take_iv by done. set (d0 := mk_des _ _ _ _ _ _ _ _ _).
  set (k := (length in_ / 8)%nat). set (r := (length in_ mod 8)%nat).
  assert (Hl : length in_ = (8 * k + r)%nat) by (apply Nat.div_mod; lia).
  assert (Hr : (r < 8)%nat) by (apply Nat.mod_upper_bound; lia).
  destruct (des_blocks_run encrypt Hu k r (S (length in_)) 0 in_ d0) as [[Hr4 (d1 & Hrun & _)]|[Hr4 Hrun]];
    [by destruct Hg1|done|done|done|done|lia| |]; [left|right]; (split; [done|]).
  - replace (Z.of_nat (length in_) / 4) with (0 + 2 * Z.of_nat k)
      by (rewrite Hl; rewrite Nat2Z.inj_add, Nat2Z.inj_mul; apply (Z.div_unique _ _ _ (Z.of_nat r)); lia).
    rewrite Hrun. cbn [mbind option_bind]. change (0 =? 0) with true. cbv iota.
    eexists. split; [refine (f_equal (fun o => Some (_, o, _)) _)|exact Hi1].
    unfold des_result, des_cbc. fold k. change (des_key_words (d_M d0) (d_keys d0)) with (des_key_words (d_M (des s1)) (d_keys (des s1))).
    rewrite Hkey. change (d_IV d0) with (words 2 iv). unfold put. rewrite (all_bytes_cbc_length key 2).
    + by rewrite (proj2 (word_blocks_lengths 2 k in_)).
    + intros x Hx. by apply Ht.
    + intros x Hx. by apply Ht.
    + apply words_length.
    + apply word_blocks_lengths.
  - replace (Z.of_nat (length in_) / 4) with (0 + 2 * Z.of_nat k + 1)
      by (rewrite Hl; rewrite Nat2Z.inj_add, Nat2Z.inj_mul; apply (Z.div_unique _ _ _ (Z.of_nat r - 4)); lia).
    by rewrite Hrun.
Qed.

(** The two set_keys sec_api.c uses. *)
Lemma des_setkey_ok key s : des_regs (des s) -> sets_key (des_setkey key DES_KEY_SIZE 0) (words 2 key) s.
Proof.
  intros Hr. unfold des_regs in Hr. do 2 eexists. split; [reflexivity|]. split; [reflexivity|].
  cbn [des without_irqs set_irqs des_keys des_mode initdes set_des d_M d_keys]. split.
  - constructor; [by left|]. cbn [d_keys]. rewrite put_length; [done|]. rewrite words_length. lia.
  - unfold des_key_words, put. change (0 =? 0) with true. cbv iota. change (take 0 ?l ++ ?x)%list with x.
    by apply take_app_length'.
Qed.
Lemma des3_ede_setkey_ok key s : des_regs (des s) ->
  sets_key (des3_ede_setkey key DES3_EDE_KEY_SIZE 0) (words 6 key) s.
Proof.
  intros Hr. unfold des_regs in Hr. do 2 eexists. split; [reflexivity|]. split; [reflexivity|].
  cbn [des set_irqs des_keys des_mode initdes set_des d_M d_keys]. split.
  - constructor; [by right|]. cbn [d_keys]. rewrite !put_length; [done|rewrite ?put_length; rewrite ?put_length; rewrite ?words_length; lia..].
  - destruct (d_keys (des s)) as [|? [|? [|? [|? [|? [|? [|]]]]]]]; try discriminate Hr.
    unfold des_key_words, words, word_at. cbn -[be32 drop Z.div]. rewrite !drop_drop. reflexivity.
Qed.

Lemma des_result_inverse key in_ iv encrypt stack stack' :
  block_cipher E D 2 -> encrypt <> 0 -> Forall is_byte in_ -> Forall is_byte iv ->
  (length in_ mod 8 = 0)%nat -> length stack = length in_ -> length stack' = length in_ ->
  des_result key (des_result key in_ iv encrypt stack) iv 0 stack' = in_.
Proof.
  intros HE He Hin Hiv Hm Hs Hs'. set (k := (length in_ / 8)%nat).
  assert (Hl : length in_ = (8 * k)%nat) by (pose proof (Nat.div_mod (length in_) 8) as H; fold k in H; lia).
  destruct (word_blocks_ok 2 k in_ Hin) as [Hf Hk].
  destruct (cbc_encrypt_length (E key) 2 (words 2 iv) (word_blocks 2 k in_)) as [Hf' Hl'];
    [intros x Hx; by apply HE|by apply words_block|done|].
  assert (Hr : des_result key in_ iv encrypt stack = all_bytes (cbc_encrypt_blocks (E key) (words 2 iv) (word_blocks 2 k in_))).
  { unfold des_result, cbc. fold k. destruct (Z.eqb_spec encrypt 0); [done|]. rewrite drop_ge by lia. apply app_nil_r. }
  rewrite Hr. unfold des_result at 1. unfold cbc. change (0 =? 0) with true. cbv iota.
  rewrite (all_bytes_length 2), Hl', Hk by done. replace (4 * 2 * k / 8)%nat with k by (rewrite (Nat.mul_comm _ k), Nat.div_mul; lia).
  rewrite (drop_ge stack') by lia. rewrite app_nil_r.
  rewrite <- (app_nil_r (all_bytes (cbc_encrypt_blocks _ _ _))).
  replace k with (length (cbc_encrypt_blocks (E key) (words 2 iv) (word_blocks 2 k in_))) at 1 by lia.
  rewrite blocks_all_bytes by done. rewrite (cbc_inverse _ _ 2) by (try apply words_block; try apply HE; done).
  rewrite all_bytes_blocks by (try done; lia). rewrite take_ge; [done|lia].
Qed.

Lemma des_roundtrip_run setkey key stack stack' in_ iv encrypt s t :
  (forall s, des_regs (des s) -> sets_key setkey key s) ->
  des_cbc_unit -> block_cipher E D 2 -> two_words -> des_regs (des s) -> des_regs (des t) ->
  Forall is_byte in_ -> Forall is_byte iv -> (8 <= length iv)%nat -> encrypt <> 0 -> (length in_ mod 8 = 0)%nat ->
  length stack = length in_ -> length stack' = length in_ ->
  exists c s' t', cbc_encrypt des_step chip_id setkey stack in_ iv encrypt s = Some (Z.of_nat (length in_), c, s') /\
    cbc_encrypt des_step chip_id setkey stack' c iv 0 t = Some (Z.of_nat (length in_), in_, t').
Proof.
  intros Hset Hu Hb Ht Hs Ht' Hin Hiv Hl He Hm Hst Hst'.
  destruct (cbc_encrypt_run setkey key stack in_ iv encrypt s Hu Ht (Hset s Hs) Hl) as [[_ (s' & Hrun & _)]|]; [|lia].
  assert (Hlen : length (des_result key in_ iv encrypt stack) = length in_).
  { unfold des_result. destruct (word_blocks_lengths 2 (length in_ / 8) in_) as [Hw Hn].
    pose proof (Nat.div_mod (length in_) 8). rewrite length_app, (all_bytes_cbc_length key 2), Hn, length_drop;
      [lia|intros x Hx; by apply Ht..|apply words_length|done]. }
  destruct (cbc_encrypt_run setkey key stack' (des_result key in_ iv encrypt stack) iv 0 t Hu Ht (Hset t Ht') Hl)
    as [[_ (t' & Hrun' & _)]|[Hm' _]]; [|rewrite Hlen in Hm'; lia].
  rewrite Hlen, des_result_inverse in Hrun' by done. by do 3 eexists.
Qed.
End Des.

(** ** Weak keys *)
(** The four weak and the twelve semi-weak keys of DES, as the comments of the code list them. *)
Definition weak_keys : list (list Z) := [
  [0x01;0x01;0x01;0x01;0x01;0x01;0x01;0x01]; [0x01;0x1F;0x01;0x1F;0x01;0x0E;0x01;0x0E];
  [0x01;0xE0;0x01;0xE0;0x01;0xF1;0x01;0xF1]; [0x01;0xFE;0x01;0xFE;0x01;0xFE;0x01;0xFE];
  [0x1F;0x01;0x1F;0x01;0x0E;0x01;0x0E;0x01]; [0x1F;0x1F;0x1F;0x1F;0x0E;0x0E;0x0E;0x0E];
  [0x1F;0xE0;0x1F;0xE0;0x0E;0xF1;0x0E;0xF1]; [0x1F;0xFE;0x1F;0xFE;0x0E;0xFE;0x0E;0xFE];
  [0xE0;0x01;0xE0;0x01;0xF1;0x01;0xF1;0x01]; [0xE0;0x1F;0xE0;0x1F;0xF1;0x0E;0xF1;0x0E];
  [0xE0;0xE0;0xE0;0xE0;0xF1;0xF1;0xF1;0xF1]; [0xE0;0xFE;0xE0;0xFE;0xF1;0xFE;0xF1;0xFE];
  [0xFE;0x01;0xFE;0x01;0xFE;0x01;0xFE;0x01]; [0xFE;0x1F;0xFE;0x1F;0xFE;0x0E;0xFE;0x0E];
  [0xFE;0xE0;0xFE;0xE0;0xFE;0xF1;0xFE;0xF1]; [0xFE;0xFE;0xFE;0xFE;0xFE;0xFE;0xFE;0xFE]].

(** What the parities say of a byte: below 16, and from 1 to 6 they tell it. *)
Definition parity_of (b : Z) : Z := byte_at parity (Z.to_nat b).
Definition special (b : Z) : bool := (1 <=? parity_of b) && (parity_of b <=? 6).
Definition all_bytes_list : list Z := map Z.of_nat (seq 0 256).
Lemma byte_in_list b : is_byte b -> b ∈ all_bytes_list.
Proof.
  intros H. unfold is_byte in H. unfold all_bytes_list. apply list_elem_of_In, in_map_iff.
  exists (Z.to_nat b). rewrite in_seq. lia.
Qed.
Lemma parity_table :
  Forall (fun b => 0 <= parity_of b < 16 /\ forall c, c ∈ all_bytes_list -> special b -> parity_of c = parity_of b -> c = b) all_bytes_list.
Proof.
  assert (H : forallb (fun b => (0 <=? parity_of b) && (parity_of b <? 16) &&
    forallb (fun c => negb (special b) || negb (parity_of c =? parity_of b) || (c =? b)) all_bytes_list) all_bytes_list = true)
    by (vm_compute; reflexivity).
  rewrite forallb_forall in H. apply Forall_forall. intros b Hb. apply list_elem_of_In in Hb. specialize (H b Hb).
  apply andb_prop in H as [H1 H2]. split; [lia|]. intros c Hc Hs Hp. rewrite forallb_forall in H2.
  apply list_elem_of_In in Hc. specialize (H2 c Hc). destruct (special b); [|done]. rewrite Hp, Z.eqb_refl in H2. cbn in H2. lia.
Qed.

(** The number is the one with the parities as its digits. *)
Lemma lor_digit n p : 0 <= p < 16 -> Z.lor (Z.shiftl n 4) p = n * 16 + p.
Proof.
  intros H. assert (Hz : Z.land (Z.shiftl n 4) p = 0).
  { rewrite <- (Z.mod_small p (2 ^ 4)) by (change (2 ^ 4) with 16; lia). apply Z.bits_inj'. intros i Hi.
    rewrite Z.land_spec, Z.bits_0. destruct (Z.ltb_spec i 4).
    - by rewrite Z.shiftl_spec_low.
    - rewrite Z.mod_pow2_bits_high by lia. apply andb_false_r. }
  rewrite <- Z.lxor_lor, <- Z.add_nocarry_lxor by done. by rewrite Z.shiftl_mul_pow2.
Qed.
Definition digits (ps : list Z) : Z := fold_left (fun n p => n * 16 + p) ps 0.
Definition parities_of (key : list Z) : list Z := map parity_of key.

Lemma byte_parity b : is_byte b -> 0 <= parity_of b < 16.
Proof. intros Hb. pose proof parity_table as H. rewrite Forall_forall in H. apply (H b (byte_in_list b Hb)). Qed.
Lemma parities_digits key : length key = 8%nat -> Forall is_byte key -> parities key = digits (parities_of key).
Proof.
  intros Hl Hf. destruct key as [|b0 [|b1 [|b2 [|b3 [|b4 [|b5 [|b6 [|b7 [|]]]]]]]]]; try discriminate Hl.
  rewrite !Forall_cons in Hf. destruct Hf as (H0 & H1 & H2 & H3 & H4 & H5 & H6 & H7 & _).
  unfold parities, digits, parities_of. cbn [seq fold_left map]. unfold byte_at at 2 4 6 8 10 12 14 16. cbn [nth].
  fold (parity_of b0) (parity_of b1) (parity_of b2) (parity_of b3) (parity_of b4) (parity_of b5) (parity_of b6) (parity_of b7).
  by rewrite !lor_digit by (by apply byte_parity).
Qed.
Lemma digits_app ps p : digits (ps ++ [p]) = digits ps * 16 + p.
Proof. unfold digits. by rewrite fold_left_app. Qed.
Lemma digits_inj ps qs : length ps = length qs -> Forall (fun p => 0 <= p < 16) ps -> Forall (fun p => 0 <= p < 16) qs ->
  digits ps = digits qs -> ps = qs.
Proof.
  revert qs. induction ps as [|p ps IH] using rev_ind; intros qs Hl Hp Hq He.
  { by destruct qs. }
  destruct qs as [|q qs _] using rev_ind; rewrite !length_app in Hl; cbn in Hl; [lia|].
  apply Forall_app in Hp as [Hp Hp1], Hq as [Hq Hq1]. rewrite Forall_singleton in Hp1, Hq1.
  rewrite !digits_app in He. f_equal; [apply IH; try done; lia|f_equal; lia].
Qed.

(** A key of special bytes is told by its number. *)
Lemma parities_inj k key : length k = 8%nat -> length key = 8%nat -> Forall is_byte k -> Forall is_byte key ->
  forallb special k = true -> parities key = parities k -> key = k.
Proof.
  intros Hlk Hl Hfk Hf Hs He. rewrite !parities_digits in He by done.
  apply digits_inj in He; [|unfold parities_of; rewrite !length_map; congruence| |];
    [|apply Forall_map; eapply Forall_impl; [done|]; apply byte_parity..].
  clear Hlk Hl. revert key Hf He. induction k as [|b k IH]; intros [|c key] Hf He; try done.
  apply Forall_cons in Hfk as [Hb Hfk], Hf as [Hc Hf]. cbn in Hs, He. apply andb_prop in Hs as [Hs Hsk].
  injection He as He1 He2. f_equal; [|by apply IH].
  pose proof parity_table as H. rewrite Forall_forall in H.
  destruct (H b (byte_in_list b Hb)) as [_ H']. apply H'; [by apply byte_in_list|by rewrite Hs|done].
Qed.

(** The numbers the search tells apart. *)
Lemma is_weak_numbers n : is_weak n = true -> n ∈ map parities weak_keys.
Proof.
  intros H. assert (Hin : In n [0x11111111; 0x13131212; 0x14141515; 0x16161616; 0x31312121; 0x33332222; 0x34342525;
    0x36362626; 0x41415151; 0x43435252; 0x44445555; 0x46465656; 0x61616161; 0x63636262; 0x64646565; 0x66666666]).
  { unfold is_weak in H. apply andb_prop in H as [_ H]. cbn [In].
    repeat case_match; apply orb_prop in H as [H|H]; apply Z.eqb_eq in H; subst n; tauto. }
  apply list_elem_of_In. exact Hin.
Qed.
Lemma weak_keys_ok : forallb (fun k => (length k =? 8)%nat && forallb (fun b => (0 <=? b) && (b <? 256)) k &&
  forallb special k && is_weak (parities k)) weak_keys = true.
Proof. vm_compute. reflexivity. Qed.

Lemma weak_key_is k : k ∈ weak_keys -> length k = 8%nat /\ Forall is_byte k /\ forallb special k = true /\ is_weak (parities k) = true.
Proof.
  intros Hk. pose proof weak_keys_ok as H. rewrite forallb_forall in H. apply list_elem_of_In in Hk. specialize (H k Hk).
  apply andb_prop in H as [H Hw]. apply andb_prop in H as [H Hs]. apply andb_prop in H as [Hl Hb].
  split_and!; [by apply Nat.eqb_eq|apply Forall_forall; intros b Hin|done|done].
  rewrite forallb_forall in Hb. apply list_elem_of_In in Hin. specialize (Hb b Hin). unfold is_byte. lia.
Qed.
