(* ===== verification/DeuSec.v ===== *)
(** * DeuSec: what the IPsec stack gets from the ciphers

    The CBC functions of sec_api.c against the reference of DeuCipher.v, decryption after
    encryption, the weak keys that [des_setkey] refuses, and the keys whose refusal leaves the
    processor without interrupts. *)
From S2P Require Import Prelude Deu DeuHash DeuCipher DeuDes.
Import Deu.

(** ** A cipher to run the theorems on *)
Module Toy.
Definition word0 (key : list Z) : Z := nth 0 key 0.
Definition E (key x : list Z) : list Z := map (fun w => (w + word0 key) mod 2 ^ 32) (rev x).
Definition D (key y : list Z) : list Z := rev (map (fun w => (w - word0 key) mod 2 ^ 32) y).
(** A unit that takes the words as they are: the chip is an old one. *)
Definition chip_id : Z := 0.
Definition cbc_step (key : list Z) (e_d : Z) (iv x : list Z) : list Z * list Z :=
  if e_d =? 0 then (E key (xor_words x iv), E key (xor_words x iv)) else (xor_words (D key x) iv, x).
Definition aes_step (k : Z) (ks : list Z) (e_d o : Z) : list Z -> list Z -> list Z * list Z :=
  cbc_step (key_words k ks) e_d.
Definition des_step (m : Z) (ks : list Z) (e_d o : Z) : list Z -> list Z -> list Z * list Z :=
  cbc_step (des_key_words m ks) e_d.
Definition unit : deu :=
  mk_deu (mk_hash 0 0 [] []) (mk_aes 0 0 0 0 0 0 (zeros 8) (zeros 4) (zeros 4) (zeros 4))
    (mk_des 0 0 0 0 0 (zeros 6) (zeros 2) (zeros 2) (zeros 2)) true.
Definition key : list Z := map Z.of_nat (seq 3 32).
Definition iv : list Z := map Z.of_nat (seq 100 16).
Definition text (n : nat) : list Z := map (fun i => Z.of_nat i mod 256) (seq 200 n).

Lemma block_cipher_ok n : block_cipher E D n.
Proof.
  intros k x [Hl Hf]. split.
  - split; [unfold E; by rewrite length_map, length_rev|]. unfold E. apply Forall_map, Forall_true. intros w. apply Z.mod_pos_bound. lia.
  - unfold D, E. rewrite map_map. rewrite <- (rev_involutive x) at 2. f_equal.
    rewrite <- map_id. apply map_ext_in. intros w Hw. rewrite <- in_rev in Hw.
    rewrite List.Forall_forall in Hf. rewrite Zminus_mod_idemp_l. rewrite Z.add_simpl_r. apply Z.mod_small. by apply Hf.
Qed.
Lemma aes_unit_ok : aes_cbc_unit aes_step chip_id E D.
Proof. intros k ks v x _ _. assert (map (ENDIAN_SWAP chip_id) x = x) as -> by apply map_id. done. Qed.
Lemma des_unit_ok : des_cbc_unit des_step chip_id E D.
Proof. intros k ks v x _ _. assert (map (ENDIAN_SWAP chip_id) x = x) as -> by apply map_id. done. Qed.
Lemma two_words_ok : two_words E D.
Proof. intros k x H. unfold E, D. by rewrite length_rev, !length_map, length_rev. Qed.
End Toy.

Section Unit.
Context (aes_step des_step : Z -> list Z -> Z -> Z -> list Z -> list Z -> list Z * list Z) (chip_id : Z).
Context (AE AD DE DD : list Z -> list Z -> list Z).

(** ** Encryption *)
(** C27. _aes_twinpass_cbc_encrypt is cipher block chaining, in either direction, with the
    cipher of the unit under the key of the context, although the IV is passed for the first
    block only and the unit keeps it afterwards: the whole blocks are chained, the bytes
    behind them become zeros, the length is returned, and the interrupts are as before. *)
Theorem twinpass_aes_cbc ctx in_ iv encrypt s :
  aes_cbc_unit aes_step chip_id AE AD -> aes_regs (aes s) -> good_key (aes_key ctx) (aes_key_len ctx) ->
  let key := key_of (aes_key ctx) (aes_key_len ctx) in
  let blocks := word_blocks 4 (Z.to_nat (Z.of_nat (length in_) / 16)) in_ in
  exists s', _aes_twinpass_cbc_encrypt aes_step chip_id ctx in_ iv encrypt s =
      Some (Z.of_nat (length in_),
        all_bytes (cbc (AE key) (AD key) encrypt (words 4 iv) blocks) ++ zeros (length in_ mod 16), s')%list /\
    aes_regs (aes s') /\ irqs s' = irqs s.
Proof.
  intros Hu Hr Hk. destruct (aes_encrypt_run aes_step chip_id AE AD ctx in_ iv encrypt s Hu Hr Hk) as (s' & Hrun & [Hg _] & Hi).
  by exists s'.
Qed.

(** C28. The DES and 3DES functions are cipher block chaining on the whole blocks and stay
    inside their buffers when fewer than four bytes follow the last one, which keep what the
    stack held; with four or more, they read and write behind the buffers. *)
Theorem twinpass_des_cbc key stack in_ iv encrypt s :
  des_cbc_unit des_step chip_id DE DD -> two_words DE DD -> des_regs (des s) -> (8 <= length iv)%nat ->
  let k := (length in_ / 8)%nat in
  let out kw := (all_bytes (cbc (DE kw) (DD kw) encrypt (words 2 iv) (word_blocks 2 k in_)) ++ drop (8 * k) stack)%list in
  ((length in_ mod 8 < 4)%nat -> exists s1 s3,
     _1des_twinpass_cbc_encrypt des_step chip_id key stack in_ iv encrypt s =
       Some (Z.of_nat (length in_), out (words 2 key), s1) /\ irqs s1 = irqs s /\
     _3des_twinpass_cbc_encrypt des_step chip_id key stack in_ iv encrypt s =
       Some (Z.of_nat (length in_), out (words 6 key), s3) /\ irqs s3 = irqs s) /\
  ((4 <= length in_ mod 8)%nat ->
     _1des_twinpass_cbc_encrypt des_step chip_id key stack in_ iv encrypt s = None /\
     _3des_twinpass_cbc_encrypt des_step chip_id key stack in_ iv encrypt s = None).
Proof.
  intros Hu Ht Hr Hiv k out. unfold _1des_twinpass_cbc_encrypt, _3des_twinpass_cbc_encrypt.
  pose proof (cbc_encrypt_run des_step chip_id DE DD _ _ stack in_ iv encrypt s Hu Ht (des_setkey_ok key s Hr) Hiv) as H1.
  pose proof (cbc_encrypt_run des_step chip_id DE DD _ _ stack in_ iv encrypt s Hu Ht (des3_ede_setkey_ok key s Hr) Hiv) as H3.
  destruct H1 as [[Hm (s1 & H1 & Hi1)]|[Hm H1]], H3 as [[Hm' (s3 & H3 & Hi3)]|[Hm' H3]]; try lia;
    (split; intros; try lia); [by exists s1, s3|done].
Qed.

(** ** Decryption after encryption *)
(** C26. Decryption undoes encryption, whatever state the unit is in before each: AES with
    16, 24 or 32 bytes of key gives the message back up to its last whole block, and zeros
    behind it; DES and 3DES give messages of a multiple of eight bytes back. *)
Theorem twinpass_cbc_roundtrip ctx key stack stack' in_ iv encrypt s t :
  aes_cbc_unit aes_step chip_id AE AD -> block_cipher AE AD 4 -> aes_regs (aes s) -> aes_regs (aes t) ->
  good_key (aes_key ctx) (aes_key_len ctx) ->
  des_cbc_unit des_step chip_id DE DD -> block_cipher DE DD 2 -> two_words DE DD -> des_regs (des s) -> des_regs (des t) ->
  Forall is_byte in_ -> Forall is_byte iv -> (8 <= length iv)%nat -> encrypt <> 0 ->
  length stack = length in_ -> length stack' = length in_ ->
  let n := Z.of_nat (length in_) in
  (exists c s' t', _aes_twinpass_cbc_encrypt aes_step chip_id ctx in_ iv encrypt s = Some (n, c, s') /\
     _aes_twinpass_cbc_encrypt aes_step chip_id ctx c iv 0 t =
       Some (n, take (16 * (length in_ / 16)) in_ ++ zeros (length in_ mod 16), t')%list) /\
  ((length in_ mod 8 = 0)%nat ->
   (exists c s' t', _1des_twinpass_cbc_encrypt des_step chip_id key stack in_ iv encrypt s = Some (n, c, s') /\
      _1des_twinpass_cbc_encrypt des_step chip_id key stack' c iv 0 t = Some (n, in_, t')) /\
   (exists c s' t', _3des_twinpass_cbc_encrypt des_step chip_id key stack in_ iv encrypt s = Some (n, c, s') /\
      _3des_twinpass_cbc_encrypt des_step chip_id key stack' c iv 0 t = Some (n, in_, t'))).
Proof.
  intros Hau Ha Has Hat Hk Hdu Hd Ht Hds Hdt Hin Hiv Hl He Hst Hst' n. split.
  - destruct (aes_encrypt_run aes_step chip_id AE AD ctx in_ iv encrypt s Hau Has Hk) as (s' & Hrun & _).
    destruct (aes_encrypt_run aes_step chip_id AE AD ctx (aes_result AE AD ctx in_ iv encrypt) iv 0 t Hau Hat Hk)
      as (t' & Hrun' & _).
    rewrite (aes_result_inverse AE AD ctx in_ iv encrypt), (aes_result_length AE AD ctx in_ iv encrypt) in Hrun';
      [by do 3 eexists|..]; try done; intros kw x Hx; by apply Ha.
  - intros Hm. split; [pose proof (des_setkey_ok key) as Hset|pose proof (des3_ede_setkey_ok key) as Hset];
      eapply des_roundtrip_run; eauto.
Qed.

(** ** Weak keys *)
(** C29. The search of des_setkey, on the parities of the bytes, finds exactly the sixteen
    weak and semi-weak keys of DES. When the caller asks for the check such a key is refused
    with -EINVAL and its flag and the key registers keep the old key; in every other case
    the key is installed. *)
Theorem weak_key_search key flags s :
  length key = 8%nat -> Forall is_byte key ->
  (is_weak (parities key) = true <-> key ∈ weak_keys) /\
  (let refused := negb (Z.land flags CRYPTO_TFM_REQ_WEAK_KEY =? 0) && is_weak (parities key) in
   exists s', des_setkey key DES_KEY_SIZE flags s =
     (if refused then - EINVAL else 0, if refused then Z.lor flags CRYPTO_TFM_RES_WEAK_KEY else flags, s') /\
   irqs s' = irqs s /\ d_keys (des s') = if refused then d_keys (des s) else put 0 (words 2 key) (d_keys (des s))).
Proof.
  intros Hl Hf. split.
  - split; intros H.
    + apply is_weak_numbers in H. apply list_elem_of_fmap in H as (k & He & Hk).
      destruct (weak_key_is k Hk) as (Hlk & Hfk & Hs & _). by rewrite (parities_inj k key).
    + by apply weak_key_is.
  - intros refused. unfold des_setkey, setkey, DES_KEY_SIZE. change (negb (8 =? 8)) with false. cbv iota.
    fold refused. destruct refused; eexists; (split; [reflexivity|done]).
Qed.

(** ** Refused keys *)
Lemma aes_blocks_irqs fuel : forall len block_no p_in iv encrypt p_out s,
  a_DAU (aes s) = 0 -> 0 <= block_no -> 0 <= len < 16 * Z.of_nat fuel ->
  exists out s', aes_blocks aes_step chip_id fuel len block_no p_in iv encrypt p_out s = Some (out, s') /\ irqs s' = irqs s.
Proof.
  induction fuel as [|fuel IH]; intros len bn p_in iv encrypt p_out s Hd Hb Hl; [lia|]. cbn [aes_blocks].
  unfold AES_BLOCK_SIZE at 1. destruct (Z.leb_spec 16 len); [|by do 2 eexists].
  assert (Hone : exists o s1, aes_ifxdeu_cbc aes_step chip_id p_in (if bn =? 0 then Some iv else None) AES_BLOCK_SIZE encrypt s =
    Some (o, s1) /\ irqs s1 = irqs s /\ a_DAU (aes s1) = 0).
  { unfold aes_ifxdeu_cbc, aes_ifxdeu. rewrite Hd. destruct (bn =? 0);
      (do 2 eexists; split; [reflexivity|split; [reflexivity|]]);
      unfold aes_start; cbn [aes set_irqs set_aes a_DAU]; destruct (aes_input _ _ _); cbn [a_DAU]; try case_match; done. }
  destruct Hone as (o & s1 & -> & Hi & Hd1). cbn [mbind option_bind].
  destruct (IH (len - AES_BLOCK_SIZE) (bn + 1) (drop (Z.to_nat AES_BLOCK_SIZE) p_in) iv encrypt
    (drop (Z.to_nat AES_BLOCK_SIZE) p_out) s1) as (out & s' & -> & Hi'); [done|lia|unfold AES_BLOCK_SIZE; lia|].
  cbn [mbind option_bind]. do 2 eexists. split; [reflexivity|congruence].
Qed.

(** A key of a length that is not supported: the AES function of sec_api.c returns -1
    and leaves the processor without interrupts, des3_ede_setkey returns -EINVAL and leaves
    it without interrupts and the key registers alone; des_setkey returns -EINVAL with the
    interrupts as before. *)
Theorem refused_key_irqs ctx in_ iv encrypt key keylen flags s :
  a_DAU (aes s) = 0 -> aes_key_len ctx <> 16 -> aes_key_len ctx <> 24 -> aes_key_len ctx <> 32 ->
  keylen <> 8 -> keylen <> 16 -> keylen <> 24 -> encrypt <> 0 ->
  (exists out s', _aes_twinpass_cbc_encrypt aes_step chip_id ctx in_ iv encrypt s = Some (-1, out, s') /\ irqs s' = false) /\
  (exists s', des3_ede_setkey key keylen flags s = (- EINVAL, flags, s') /\ irqs s' = false /\ des s' = des s) /\
  (exists s', des_setkey key keylen flags s = (- EINVAL, flags, s') /\ irqs s' = irqs s).
Proof.
  intros Hd H16 H24 H32 K8 K16 K24 _. split_and!.
  - unfold _aes_twinpass_cbc_encrypt, aes_set_key.
    rewrite (proj2 (Z.eqb_neq _ _) H16), (proj2 (Z.eqb_neq _ _) H24), (proj2 (Z.eqb_neq _ _) H32). cbn [negb andb].
    set (s0 := set_aes _ _). destruct (aes_blocks_irqs (S (length in_)) (Z.of_nat (length in_)) 0 in_ iv encrypt
      (zeros (length in_)) s0) as (out & s' & -> & Hi); [done|lia..|].
    cbn [mbind option_bind]. do 2 eexists. split; [reflexivity|exact Hi].
  - unfold des3_ede_setkey.
    rewrite (proj2 (Z.eqb_neq _ _) K24), (proj2 (Z.eqb_neq _ _) K16), (proj2 (Z.eqb_neq _ _) K8). by eexists.
  - unfold des_setkey, setkey. rewrite (proj2 (Z.eqb_neq _ _) K8). by eexists.
Qed.
End Unit.

(** ** The theorems on the toy unit *)
Lemma twinpass_aes_cbc_witness : exists s',
  _aes_twinpass_cbc_encrypt Toy.aes_step Toy.chip_id (mk_aes_ctx 24 Toy.key) (Toy.text 37) Toy.iv 1 Toy.unit =
    Some (37, all_bytes (cbc_encrypt_blocks (Toy.E (key_of Toy.key 24)) (words 4 Toy.iv) (word_blocks 4 2 (Toy.text 37))) ++ zeros 5, s')%list /\
  aes_regs (aes s') /\ irqs s' = true.
Proof.
  apply (twinpass_aes_cbc Toy.aes_step Toy.chip_id Toy.E Toy.D (mk_aes_ctx 24 Toy.key) (Toy.text 37) Toy.iv 1 Toy.unit
    Toy.aes_unit_ok).
  - by constructor.
  - split; [right; by left|]. vm_compute. lia.
Defined.
Lemma twinpass_des_cbc_witness :
  (exists s1 s3,
     _1des_twinpass_cbc_encrypt Toy.des_step Toy.chip_id Toy.key (zeros 19) (Toy.text 19) Toy.iv 1 Toy.unit =
       Some (19, all_bytes (cbc_encrypt_blocks (Toy.E (words 2 Toy.key)) (words 2 Toy.iv) (word_blocks 2 2 (Toy.text 19))) ++ zeros 3, s1)%list /\
     irqs s1 = true /\
     _3des_twinpass_cbc_encrypt Toy.des_step Toy.chip_id Toy.key (zeros 19) (Toy.text 19) Toy.iv 1 Toy.unit =
       Some (19, all_bytes (cbc_encrypt_blocks (Toy.E (words 6 Toy.key)) (words 2 Toy.iv) (word_blocks 2 2 (Toy.text 19))) ++ zeros 3, s3)%list /\
     irqs s3 = true) /\
  _1des_twinpass_cbc_encrypt Toy.des_step Toy.chip_id Toy.key (zeros 20) (Toy.text 20) Toy.iv 1 Toy.unit = None.
Proof.
  split.
  - apply (twinpass_des_cbc Toy.des_step Toy.chip_id Toy.E Toy.D Toy.key (zeros 19) (Toy.text 19) Toy.iv 1 Toy.unit
      Toy.des_unit_ok Toy.two_words_ok); [reflexivity|vm_compute; lia..].
  - apply (twinpass_des_cbc Toy.des_step Toy.chip_id Toy.E Toy.D Toy.key (zeros 20) (Toy.text 20) Toy.iv 1 Toy.unit
      Toy.des_unit_ok Toy.two_words_ok); [reflexivity|vm_compute; lia..].
Defined.

Lemma twinpass_cbc_roundtrip_witness :
  (exists c s' t', _aes_twinpass_cbc_encrypt Toy.aes_step Toy.chip_id (mk_aes_ctx 32 Toy.key) (Toy.text 40) Toy.iv 1 Toy.unit = Some (40, c, s') /\
     _aes_twinpass_cbc_encrypt Toy.aes_step Toy.chip_id (mk_aes_ctx 32 Toy.key) c Toy.iv 0 Toy.unit =
       Some (40, take 32 (Toy.text 40) ++ zeros 8, t')%list) /\
  (exists c s' t', _3des_twinpass_cbc_encrypt Toy.des_step Toy.chip_id Toy.key (zeros 40) (Toy.text 40) Toy.iv 1 Toy.unit = Some (40, c, s') /\
     _3des_twinpass_cbc_encrypt Toy.des_step Toy.chip_id Toy.key (zeros 40) c Toy.iv 0 Toy.unit = Some (40, Toy.text 40, t')).
Proof.
  assert (Hb : forall l, forallb (fun b => (0 <=? b) && (b <? 256)) l = true -> Forall is_byte l).
  { intros l H. rewrite forallb_forall in H. apply Forall_forall. intros b Hin. apply list_elem_of_In in Hin.
    specialize (H b Hin). unfold is_byte. lia. }
  destruct (twinpass_cbc_roundtrip Toy.aes_step Toy.des_step Toy.chip_id Toy.E Toy.D Toy.E Toy.D (mk_aes_ctx 32 Toy.key)
    Toy.key (zeros 40) (zeros 40) (Toy.text 40) Toy.iv 1 Toy.unit Toy.unit Toy.aes_unit_ok (Toy.block_cipher_ok 4)) as [Ha Hd];
    [by constructor|by constructor|split; [by right; right|vm_compute; lia]|exact Toy.des_unit_ok|exact (Toy.block_cipher_ok 2)|
     exact Toy.two_words_ok|reflexivity|reflexivity|by apply Hb|by apply Hb|vm_compute; lia|done|done|done|].
  split; [exact Ha|]. apply Hd. reflexivity.
Defined.

Lemma weak_key_search_witness :
  (is_weak (parities [0xE0;0x01;0xE0;0x01;0xF1;0x01;0xF1;0x01]) = true <->
     [0xE0;0x01;0xE0;0x01;0xF1;0x01;0xF1;0x01] ∈ weak_keys) /\
  (exists s', des_setkey [0xE0;0x01;0xE0;0x01;0xF1;0x01;0xF1;0x01] 8 0x100 Toy.unit = (- EINVAL, 0x100100, s') /\
     irqs s' = true /\ d_keys (des s') = zeros 6).
Proof.
  apply (weak_key_search [0xE0;0x01;0xE0;0x01;0xF1;0x01;0xF1;0x01] 0x100 Toy.unit); [reflexivity|].
  repeat constructor; discriminate.
Defined.

Lemma refused_key_irqs_witness :
  (exists out s', _aes_twinpass_cbc_encrypt Toy.aes_step Toy.chip_id (mk_aes_ctx 0 Toy.key) (Toy.text 32) Toy.iv 1 Toy.unit =
     Some (-1, out, s') /\ irqs s' = false) /\
  (exists s', des3_ede_setkey Toy.key 32 0 Toy.unit = (- EINVAL, 0, s') /\ irqs s' = false /\ des s' = des Toy.unit) /\
  (exists s', des_setkey Toy.key 32 0 Toy.unit = (- EINVAL, 0, s') /\ irqs s' = true).
Proof.
  by apply (refused_key_irqs Toy.aes_step Toy.chip_id (mk_aes_ctx 0 Toy.key) (Toy.text 32) Toy.iv 1 Toy.key 32 0 Toy.unit).
Defined.
