(* ===== verification/Switch.v ===== *)
(** * Switch: the driver of the Ethernet switch

    admmod.c and adm6996.h: the settings of the ADM6996 switch (bandwidth limits, filters,
    queues, snooping, virtual LANs), each a few bits of a register behind the MDIO access
    register, and the handlers of the files in /proc that set them.  The build is the one with
    CONFIG_SWITCH_ADM6996_MDIO.

    The switch is the file of its 1024 registers of 16 bits; one access is one word written to
    the access register.  Integers of C are of 32 bits, and a shift uses the low five bits of
    its count, as the processor's does.  The waits for the busy flags are left out. *)
From S2P Require Import Prelude.

Module Switch.

(** ** Integers of C *)
Definition u32 (z : Z) : Z := z mod 2 ^ 32.
Definition not32 (z : Z) : Z := u32 (Z.lnot z).
Definition shl (x n : Z) : Z := u32 (Z.shiftl (u32 x) (n mod 32)).
Definition shr (x n : Z) : Z := Z.shiftr (u32 x) (n mod 32).

(** ** Access to a register *)
Definition switch := Z -> Z.
Definition upd (a v : Z) (s : switch) : switch := fun b => if b =? a then v else s b.

(** What the access register does with a word: bit 30 asks for reading, the address is in the
    bits from 16 on. *)
Definition mdio_acc (w : Z) (s : switch) : Z * switch :=
  let a := Z.land (shr w 16) 0x3ff in
  if Z.testbit w 30 then (s a, s) else (Z.land w 0xffff, upd a (Z.land w 0xffff) s).

Definition ifx_sw_read (addr : Z) (s : switch) : Z :=
  Z.land (mdio_acc (Z.lor 0xC0000000 (Z.land (shl addr 16) 0x3ff0000)) s).1 0xffff.
Definition ifx_sw_write (addr dat : Z) (s : switch) : switch :=
  (mdio_acc (Z.lor (Z.lor (Z.land (shl addr 16) 0x3ff0000) (u32 dat)) 0x80000000) s).2.

(** ** Registers *)
Definition ADM_SW_SYSCTL1 : Z := 0xb.
Definition ADM_SW_IGMPCTL : Z := 0xc.
Definition ADM_SW_VLAN_MODE : Z := 0x11.
Definition ADM_SW_VLAN0_CONF : Z := 0x13.
Definition ADM_SW_QUEUE_CONF1 : Z := 0x25.
Definition ADM_SW_PHY_RESET : Z := 0x2f.
Definition ADM_SW_BNDWTH_CTL0 : Z := 0x31.
Definition ADM_SW_BNDWTH_CTL1 : Z := 0x32.
Definition ADM_SW_BNDWTH_CTL_ENA : Z := 0x33.
Definition ADM_SW_BNDWTH_EXTCTL0 : Z := 0x34.
Definition ADM_SW_BNDWTH_EXTCTL1 : Z := 0x35.
Definition ADM_SW_BNDWTH_EXTCTL2 : Z := 0x36.
Definition ADM_SW_BNDWTH_EXTCTL3 : Z := 0x37.
Definition ADM_SW_BNDWTH_EXTCTL4 : Z := 0x38.
Definition ADM_SW_BNDWTH_EXTCTL5 : Z := 0x39.
Definition ADM_SW_BNDWTH_EXTCTL6 : Z := 0x3A.
Definition ADM_SW_VLAN_FILTER0_LOW : Z := 0x40.
Definition ADM_SW_TCPUDP_FILTER0 : Z := 0x8C.
Definition ADM_SW_TCPUDP_ACT0 : Z := 0x96.
Definition ADM_SW_TCPUDP_ACT1 : Z := 0x97.
Definition ADM_SW_TCPUDP_ACT2 : Z := 0x98.
Definition ADM_SW_PORTSTS0 : Z := 0xA2.
Definition ADM_SW_PORTSTS1 : Z := 0xA3.
Definition ADM_SW_PORTSTS2 : Z := 0xA4.
Definition ADM_SW_MAX_PORT_NUM : Z := 5.
Definition ADM_SW_MAX_VLAN_NUM : Z := 15.
(** PORT0_CONF to PORT5_CONF, and the low halves of the counters of the six ports. *)
Definition ifx_sw_conf : list Z := [0x1; 0x3; 0x5; 0x7; 0x8; 0x9].
Definition RXCNTL : list Z := [0xA8; 0xAC; 0xB0; 0xB4; 0xB6; 0xB8].
Definition TXCNTL : list Z := [0xCC; 0xD0; 0xD4; 0xD8; 0xDA; 0xDC].
Definition COLCNTL : list Z := [0xF0; 0xF4; 0xF8; 0xFC; 0xFE; 0x100].
Definition ERRCNTL : list Z := [0x102; 0x106; 0x10A; 0x10E; 0x110; 0x112].
(** An element of a table, for a port that is in range. *)
Definition port_entry (l : list Z) (port : Z) : Z := nth (Z.to_nat port) l 0.

(** [~BIT_n]: the macro has no parentheses, and the complement is taken before the shift. *)
Definition BIT (n : Z) : Z := shl 1 n.
Definition not_BIT (n : Z) : Z := shl (not32 1) n.

(** ** Snooping, proxy, virtual LANs *)
Definition ifx_sw_set_igmp (bit : Z) (s : switch) : switch :=
  if negb (bit =? 0) then ifx_sw_write ADM_SW_IGMPCTL (Z.lor (ifx_sw_read ADM_SW_IGMPCTL s) (BIT 1)) s
  else ifx_sw_write ADM_SW_IGMPCTL (Z.land (ifx_sw_read ADM_SW_IGMPCTL s) (not_BIT 1)) s.
Definition ifx_sw_get_igmp (s : switch) : Z :=
  if negb (Z.land (ifx_sw_read ADM_SW_IGMPCTL s) (BIT 1) =? 0) then 1 else 0.
Definition ifx_sw_set_vlanmode (bit : Z) (s : switch) : switch :=
  if negb (bit =? 0) then ifx_sw_write ADM_SW_VLAN_MODE (Z.lor (ifx_sw_read ADM_SW_VLAN_MODE s) (BIT 5)) s
  else ifx_sw_write ADM_SW_VLAN_MODE (Z.land (ifx_sw_read ADM_SW_VLAN_MODE s) (not_BIT 5)) s.
Definition ifx_sw_get_vlanmode (s : switch) : Z :=
  if negb (Z.land (ifx_sw_read ADM_SW_VLAN_MODE s) (BIT 5) =? 0) then 1 else 0.
Definition ifx_sw_set_igmp_proxy (bit : Z) (s : switch) : switch :=
  if negb (bit =? 0) then ifx_sw_write ADM_SW_IGMPCTL (Z.lor (ifx_sw_read ADM_SW_IGMPCTL s) (BIT 0)) s
  else ifx_sw_write ADM_SW_IGMPCTL (Z.land (ifx_sw_read ADM_SW_IGMPCTL s) (not_BIT 0)) s.
Definition ifx_sw_get_igmp_proxy (s : switch) : Z :=
  if negb (Z.land (ifx_sw_read ADM_SW_IGMPCTL s) (BIT 0) =? 0) then 1 else 0.
Definition ifx_sw_get_additional_snoop_ctr (s : switch) : Z :=
  shr (Z.land (ifx_sw_read ADM_SW_SYSCTL1 s) 0x3000) 12.
Definition ifx_sw_set_additional_snoop_ctr (bit : Z) (s : switch) : switch :=
  if negb (bit =? 0) then ifx_sw_write ADM_SW_SYSCTL1 (Z.lor (Z.land (ifx_sw_read ADM_SW_SYSCTL1 s) 0xCFFF) 0x1000) s
  else ifx_sw_write ADM_SW_SYSCTL1 (Z.land (ifx_sw_read ADM_SW_SYSCTL1 s) 0xC000) s.

(** ** Counters: the low half; [None] for a port the switch statement does not know *)
Definition low_count (l : list Z) (port : Z) (s : switch) : option Z :=
  if (0 <=? port) && (port <=? 5) then Some (ifx_sw_read (port_entry l port) s) else None.
Definition ifx_sw_get_RXCNT : Z -> switch -> option Z := low_count RXCNTL.
Definition ifx_sw_get_TXCNT : Z -> switch -> option Z := low_count TXCNTL.
Definition ifx_sw_get_COLCNT : Z -> switch -> option Z := low_count COLCNTL.
Definition ifx_sw_get_ECL : Z -> switch -> option Z := low_count ERRCNTL.

(** ** Bandwidth *)
Definition ifx_sw_ena_bndctl (port txrx : Z) (s : switch) : switch :=
  let ena := ifx_sw_read ADM_SW_BNDWTH_CTL_ENA s in
  if port <? 3 then
    ifx_sw_write ADM_SW_BNDWTH_CTL_ENA (Z.lor (Z.lor ena (shl (shl 1 (port * 2)) txrx)) (BIT 12)) s
  else if negb (txrx =? 0) then
    ifx_sw_write ADM_SW_BNDWTH_CTL_ENA (Z.lor (Z.lor ena (shl (shl 1 9) (port - 3))) (BIT 12)) s
  else
    ifx_sw_write ADM_SW_BNDWTH_CTL_ENA (Z.lor (Z.lor ena (shl (shl 1 6) (port - 3))) (BIT 12)) s.

Definition ifx_sw_dis_bndctl (port txrx : Z) (s : switch) : switch :=
  let ena := ifx_sw_read ADM_SW_BNDWTH_CTL_ENA s in
  if port <? 3 then
    ifx_sw_write ADM_SW_BNDWTH_CTL_ENA (Z.land ena (not32 (shl (shl 1 (port * 2)) txrx))) s
  else if negb (txrx =? 0) then
    ifx_sw_write ADM_SW_BNDWTH_CTL_ENA (Z.land ena (not32 (shl (shl 1 9) (port - 3)))) s
  else
    ifx_sw_write ADM_SW_BNDWTH_CTL_ENA (Z.land ena (not32 (shl (shl 1 6) (port - 3)))) s.

(** A group of bits read, and one replaced. *)
Definition bits_of (r sh mask : Z) (s : switch) : Z := Z.land (shr (ifx_sw_read r s) sh) mask.
Definition put_bits (r sh mask x : Z) (s : switch) : switch :=
  ifx_sw_write r (Z.lor (Z.land (ifx_sw_read r s) (not32 (shl mask sh))) (shl x sh)) s.

Definition ifx_sw_get_bndwth (port txrx : Z) (s : switch) : Z :=
  if negb (txrx =? 0) then
    if port <? 2 then
      (bits_of ADM_SW_BNDWTH_CTL1 (port * 4 + 8) 0xf s +
       shl (bits_of ADM_SW_BNDWTH_EXTCTL2 (port * 4 + 8) 0xf s) 4 +
       shl (bits_of ADM_SW_BNDWTH_EXTCTL5 (port * 3 + 3) 0x7 s) 8) * 64
    else
      let bandwidth :=
        (bits_of ADM_SW_BNDWTH_EXTCTL0 ((port - 2) * 4) 0xf s +
         shl (bits_of ADM_SW_BNDWTH_EXTCTL3 ((port - 2) * 4) 0xf s) 4) * 64 in
      if port <? 4 then bandwidth + shl (bits_of ADM_SW_BNDWTH_EXTCTL5 (port * 3 + 3) 0x7 s) 8 * 64
      else bandwidth + shl (bits_of ADM_SW_BNDWTH_EXTCTL6 ((port - 4) * 3) 0x7 s) 8 * 64
  else
    if port <? 4 then
      (bits_of ADM_SW_BNDWTH_CTL0 (port * 4) 0xf s +
       shl (bits_of ADM_SW_BNDWTH_EXTCTL1 (port * 4) 0xf s) 4 +
       shl (bits_of ADM_SW_BNDWTH_EXTCTL4 (port * 3) 0x7 s) 8) * 64
    else if port =? 4 then
      (Z.land (ifx_sw_read ADM_SW_BNDWTH_CTL1 s) 0xf +
       shl (Z.land (ifx_sw_read ADM_SW_BNDWTH_EXTCTL2 s) 0xf) 4 +
       shl (bits_of ADM_SW_BNDWTH_EXTCTL4 (port * 3) 0x7 s) 8) * 64
    else
      (bits_of ADM_SW_BNDWTH_CTL1 4 0xf s +
       shl (bits_of ADM_SW_BNDWTH_EXTCTL2 4 0xf s) 4 +
       shl (Z.land (ifx_sw_read ADM_SW_BNDWTH_EXTCTL5 s) 0x7) 8) * 64.

Definition ifx_sw_set_bndwth (port txrx limit : Z) (s : switch) : switch :=
  if (limit <=? 0) || (102400 <=? limit) then ifx_sw_dis_bndctl port txrx s
  else
    let limit64k := limit / 64 in
    let reg1 := Z.land limit64k 0xf in
    let reg2 := Z.land (shr limit64k 4) 0xf in
    let reg3 := Z.land (shr limit64k 8) 0x7 in
    let s := ifx_sw_ena_bndctl port txrx s in
    if negb (txrx =? 0) then
      if (port =? 0) || (port =? 1) then
        let s := put_bits ADM_SW_BNDWTH_CTL1 (port * 4 + 8) 0xf reg1 s in
        let s := put_bits ADM_SW_BNDWTH_EXTCTL2 (port * 4 + 8) 0xf reg2 s in
        put_bits ADM_SW_BNDWTH_EXTCTL5 (port * 3 + 3) 0x7 reg3 s
      else if (port =? 2) || (port =? 3) then
        let s := put_bits ADM_SW_BNDWTH_EXTCTL0 ((port - 2) * 4) 0xf reg1 s in
        let s := put_bits ADM_SW_BNDWTH_EXTCTL3 ((port - 2) * 4) 0xf reg2 s in
        put_bits ADM_SW_BNDWTH_EXTCTL5 (port * 3 + 3) 0x7 reg3 s
      else if (port =? 4) || (port =? 5) then
        let s := put_bits ADM_SW_BNDWTH_EXTCTL0 ((port - 2) * 4) 0xf reg1 s in
        let s := put_bits ADM_SW_BNDWTH_EXTCTL3 ((port - 2) * 4) 0xf reg2 s in
        put_bits ADM_SW_BNDWTH_EXTCTL6 ((port - 4) * 3) 0x7 reg3 s
      else s
    else
      if (0 <=? port) && (port <=? 3) then
        let s := put_bits ADM_SW_BNDWTH_CTL0 (port * 4) 0xf reg1 s in
        let s := put_bits ADM_SW_BNDWTH_EXTCTL1 (port * 4) 0xf reg2 s in
        put_bits ADM_SW_BNDWTH_EXTCTL4 (port * 3) 0x7 reg3 s
      else if (port =? 4) || (port =? 5) then
        let s := put_bits ADM_SW_BNDWTH_CTL1 ((port - 4) * 4) 0xf reg1 s in
        let s := put_bits ADM_SW_BNDWTH_EXTCTL2 ((port - 4) * 4) 0xf reg2 s in
        if port =? 4 then put_bits ADM_SW_BNDWTH_EXTCTL4 (port * 3) 0x7 reg3 s
        else ifx_sw_write ADM_SW_BNDWTH_EXTCTL5
               (Z.lor (Z.land (ifx_sw_read ADM_SW_BNDWTH_EXTCTL5 s) (not32 0x7)) reg3) s
      else s.

Definition ifx_sw_chk_bndctl (port txrx : Z) (s : switch) : Z :=
  let ena := ifx_sw_read ADM_SW_BNDWTH_CTL_ENA s in
  if port <? 3 then Z.land (shr (shr ena (port * 2)) txrx) 1
  else if negb (txrx =? 0) then Z.land (shr (shr ena 9) (port - 3)) 1
  else Z.land (shr (shr ena 6) (port - 3)) 1.

(** ** TCP and UDP filters, queues, flow control *)
(** The port, the queue ([q] when the switch statement has no case) and whether it is set. *)
Definition ifx_sw_get_tcpudp_filter (filterno q : Z) (s : switch) : Z * Z * Z :=
  let port := ifx_sw_read (ADM_SW_TCPUDP_FILTER0 + filterno) s in
  let queueno :=
    if (0 <=? filterno) && (filterno <=? 3) then bits_of ADM_SW_TCPUDP_ACT0 (filterno * 4) 0x3 s
    else if (4 <=? filterno) && (filterno <=? 7) then bits_of ADM_SW_TCPUDP_ACT1 ((filterno - 4) * 4) 0x3 s
    else q in
  (port, queueno, bits_of ADM_SW_TCPUDP_ACT2 filterno 0x1 s).

Definition ifx_sw_set_tcpudp_filter (filterno port queueno : Z) (s : switch) : switch :=
  if port =? 0 then
    ifx_sw_write ADM_SW_TCPUDP_ACT2 (Z.land (ifx_sw_read ADM_SW_TCPUDP_ACT2 s) (not32 (shl 1 filterno))) s
  else
    let s := ifx_sw_write (ADM_SW_TCPUDP_FILTER0 + filterno) port s in
    let s :=
      if filterno <? 3 then put_bits ADM_SW_TCPUDP_ACT0 (filterno * 4) 0x3 queueno s
      else put_bits ADM_SW_TCPUDP_ACT1 ((filterno - 4) * 4) 0x3 queueno s in
    ifx_sw_write ADM_SW_TCPUDP_ACT2 (Z.lor (ifx_sw_read ADM_SW_TCPUDP_ACT2 s) (shl 1 filterno)) s.

Definition ifx_sw_set_qos_control (qos : Z) (s : switch) : switch :=
  ifx_sw_write ADM_SW_BNDWTH_CTL_ENA
    (Z.lor (Z.land (ifx_sw_read ADM_SW_BNDWTH_CTL_ENA s) (not_BIT 12)) (shl qos 12)) s.
Definition ifx_sw_get_qos_control (s : switch) : Z :=
  if negb (Z.land (ifx_sw_read ADM_SW_BNDWTH_CTL_ENA s) (BIT 12) =? 0) then 1 else 0.

Definition ifx_sw_setq (port qno : Z) (s : switch) : switch :=
  put_bits (port_entry ifx_sw_conf port) 8 0x3 qno s.
Definition ifx_sw_getq (port : Z) (s : switch) : Z := bits_of (port_entry ifx_sw_conf port) 8 0x3 s.

Definition ifx_sw_set_queue_weight (qno weight : Z) (s : switch) : switch :=
  if qno =? 0 then s else put_bits (ADM_SW_QUEUE_CONF1 + qno - 1) 12 0xf weight s.
Definition ifx_sw_get_queue_weight (qno : Z) (s : switch) : Z :=
  if qno =? 0 then 0 else bits_of (ADM_SW_QUEUE_CONF1 + qno - 1) 12 0xf s.

Definition ifx_sw_ena_fc (port : Z) (s : switch) : switch :=
  let r := port_entry ifx_sw_conf port in ifx_sw_write r (Z.lor (ifx_sw_read r s) (BIT 0)) s.
Definition ifx_sw_dis_fc (port : Z) (s : switch) : switch :=
  let r := port_entry ifx_sw_conf port in ifx_sw_write r (Z.land (ifx_sw_read r s) (not_BIT 0)) s.

Definition ifx_sw_get_portsts (port status : Z) (s : switch) : Z :=
  if port =? 0 then Z.land (ifx_sw_read ADM_SW_PORTSTS0 s) status
  else if port =? 1 then Z.land (shr (ifx_sw_read ADM_SW_PORTSTS0 s) 8) status
  else if port =? 2 then Z.land (ifx_sw_read ADM_SW_PORTSTS1 s) status
  else if port =? 3 then Z.land (shr (ifx_sw_read ADM_SW_PORTSTS1 s) 8) status
  else if port =? 4 then Z.land (shr (ifx_sw_read ADM_SW_PORTSTS1 s) 12) status
  else if port =? 5 then
    if status <? 2 then Z.land (ifx_sw_read ADM_SW_PORTSTS2 s) status
    else Z.land (shr (ifx_sw_read ADM_SW_PORTSTS2 s) 1) status
  else 0.

(** The word it prints the bits of; [None] where it returns -1. *)
Definition ifx_check_port_status (port : Z) (s : switch) : option Z :=
  if (port <? 0) || (ADM_SW_MAX_PORT_NUM <? port) then None
  else
    let r := port_entry ifx_sw_conf port in
    let val := ifx_sw_read r s in
    let val := if negb (r mod 2 =? 0) then shr val 16 else val in
    Some (Z.land val 0xFFFF).

(** ** Virtual LANs, reset, defaults *)
Definition ifx_sw_reset (s : switch) : Z * switch := (0, ifx_sw_write ADM_SW_PHY_RESET 0 s).

Definition vlan_range (port filter_id : Z) : bool :=
  (port <? 0) || (ADM_SW_MAX_PORT_NUM <? port) || (filter_id <? 0) || (ADM_SW_MAX_VLAN_NUM <? filter_id).
Definition ifx_sw_vlan_add (port filter_id fid : Z) (s : switch) : Z * switch :=
  if vlan_range port filter_id then (-1, s)
  else
    let r := ADM_SW_VLAN_FILTER0_LOW + filter_id * 2 in
    (0, ifx_sw_write r (Z.lor (Z.lor (ifx_sw_read r s) (shl 1 port)) (shl fid 12)) s).
Definition ifx_sw_vlan_del (port filter_id : Z) (s : switch) : Z * switch :=
  if vlan_range port filter_id then (-1, s)
  else
    let r := ADM_SW_VLAN_FILTER0_LOW + filter_id * 2 in
    (0, ifx_sw_write r (Z.land (ifx_sw_read r s) (not32 (shl 1 port))) s).

Definition ifx_sw_get_cpu_port (s : switch) : Z := shr (Z.land (ifx_sw_read ADM_SW_VLAN_MODE s) 0xe000) 13.
Definition ifx_sw_set_cpu_port (port : Z) (s : switch) : Z * switch :=
  if (port <? 0) || (ADM_SW_MAX_PORT_NUM + 1 <? port) then (-1, s)
  else (0, ifx_sw_write ADM_SW_VLAN_MODE (shl port 13) s).
Definition ifx_sw_disable_cpu_port (s : switch) : Z * switch :=
  (0, ifx_sw_write ADM_SW_VLAN_MODE (shl 0x7 13) s).

Definition ifx_sw_init (s : switch) : Z * switch :=
  let s := ifx_sw_write ADM_SW_VLAN_MODE 0xff30 s in
  let s := ifx_sw_write (port_entry ifx_sw_conf 0) 0x840f s in
  let s := ifx_sw_write (port_entry ifx_sw_conf 1) 0x840f s in
  let s := ifx_sw_write (port_entry ifx_sw_conf 2) 0x840f s in
  let s := ifx_sw_write (port_entry ifx_sw_conf 3) 0x840f s in
  let s := ifx_sw_write (port_entry ifx_sw_conf 5) 0x880f s in
  (0, ifx_sw_write (ADM_SW_VLAN0_CONF + 1) 0x0155 s).

(** ** Protocol filters *)
Inductive filter_cmd := FILTER_ADD | FILTER_DEL | FILTER_GET.
Record PROTOCOLFILTER := mk_filter { protocol_filter_num : Z; ip_p : Z; action : Z }.
(** A value stored in the field [action], a signed field of two bits. *)
Definition action_field (z : Z) : Z := (z + 2) mod 4 - 2.
(** [int / 2] and [int % 2]. *)
Definition adm_process_protocol_filter_request (cmd : filter_cmd) (f : PROTOCOLFILTER) (s : switch)
    : PROTOCOLFILTER * switch :=
  let f := match cmd with FILTER_DEL => mk_filter (protocol_filter_num f) 0 0 | _ => f end in
  let n := protocol_filter_num f in
  let r := Z.quot n 2 + 0x68 in
  let val := ifx_sw_read r s in
  let even := Z.rem n 2 =? 0 in
  match cmd with
  | FILTER_GET =>
      let p := if even then Z.land val 0x00ff else shr val 8 in
      let a := Z.land (shr (ifx_sw_read 0x95 s) (n * 2)) 0x3 in
      (mk_filter n p (action_field a), s)
  | _ =>
      let val := if even then Z.lor (Z.land val 0xff00) (u32 (ip_p f))
                 else Z.lor (Z.land val 0x00ff) (shl (ip_p f) 8) in
      let s := ifx_sw_write r val s in
      let val := ifx_sw_read 0x95 s in
      let val := Z.lor (Z.land val (not32 (shl 0x03 (n * 2)))) (shl (Z.land (u32 (action f)) 0x03) (n * 2)) in
      (f, ifx_sw_write 0x95 val s)
  end.

(** ** The files in /proc *)
(** A handler ends with a result, or leaves early with one, or writes or reads outside a
    buffer; the switch is as it was left. *)
Inductive outcome (A : Type) := Done (x : A) | Ret (e : Z) | Bad.
Arguments Done {A} x.
Arguments Ret {A} e.
Arguments Bad {A}.
Definition M (A : Type) : Type := switch -> outcome A * switch.
Definition ret {A} (x : A) : M A := fun s => (Done x, s).
Definition return_ {A} (e : Z) : M A := fun s => (Ret e, s).
Definition bad {A} : M A := fun s => (Bad, s).
Definition bind {A B} (m : M A) (k : A -> M B) : M B := fun s =>
  match m s with
  | (Done x, s') => k x s'
  | (Ret e, s') => (Ret e, s')
  | (Bad, s') => (Bad, s')
  end.
Definition modify (f : switch -> switch) : M unit := fun s => (Done tt, f s).

(** The memory of the user from a pointer on, as far as it can be read. *)
Definition user := list Z.
Definition EFAULT : Z := 14.
Definition BUF : nat := 80.
Definition separator (c : Z) : bool :=
  (c =? 34) || (c =? 10) || (c =? 13) || (c =? 9) || (c =? 32) || (c =? 44).

Fixpoint strn_len (maxlen : nat) (u : user) : Z :=
  match maxlen with
  | O => 0
  | S n =>
      match u with
      | [] => - EFAULT
      | c :: u' => if separator c then 0 else let r := strn_len n u' in if r <? 0 then r else 1 + r
      end
  end.
Fixpoint count_trail_chars (maxlen : nat) (u : user) : Z :=
  match maxlen with
  | O => 0
  | S n =>
      match u with
      | [] => - EFAULT
      | c :: u' =>
          if separator c || (c =? 61) then let r := count_trail_chars n u' in if r <? 0 then r else 1 + r
          else 0
      end
  end.

(** The next argument: [strn_len], [copy_from_user], and the zero behind it in [buf]. *)
Definition argument (u : user) : M (list Z * user) :=
  let len := strn_len BUF u in
  if len <? 0 then return_ len
  else if len <? Z.of_nat BUF then ret (take (Z.to_nat len) u, drop (Z.to_nat len) u)
  else bad.
Definition trail (u : user) : M user :=
  let len := count_trail_chars BUF u in
  if len <? 0 then return_ len else ret (drop (Z.to_nat len) u).

(** [buf] as a string of C, [strstr] and [strchr] on it, [buf[len - 1] - '0'],
    [simple_strtoul(buf, &ptr, 10)] as an [int]. *)
Fixpoint c_string (buf : list Z) : list Z :=
  match buf with [] => [] | c :: b => if c =? 0 then [] else c :: c_string b end.
Fixpoint prefix_of (p b : list Z) : bool :=
  match p, b with
  | [], _ => true
  | c :: p', d :: b' => (c =? d) && prefix_of p' b'
  | _ :: _, [] => false
  end.
Fixpoint occurs (p b : list Z) : bool :=
  prefix_of p b || match b with [] => false | _ :: b' => occurs p b' end.
Definition chars (t : string) : list Z := map code (String.list_ascii_of_string t).
Definition strstr (buf : list Z) (t : string) : bool := occurs (chars t) (c_string buf).
Definition strchr (buf : list Z) (c : Z) : bool := existsb (Z.eqb c) (c_string buf).
Definition last_digit (buf : list Z) : M Z :=
  match last buf with Some c => ret ((c + 128) mod 256 - 128 - 48) | None => bad end.
Fixpoint strtoul (result : Z) (cp : list Z) : Z :=
  match cp with
  | c :: cp' => if (48 <=? c) && (c <=? 57) then strtoul (u32 (result * 10 + (c - 48))) cp' else result
  | [] => result
  end.
Definition number (buf : list Z) : Z := int32 (strtoul 0 buf).

#[local] Notation "x <- m ;; k" := (bind m (fun x => k)) (at level 60, m at next level, right associativity).
#[local] Notation "' p <- m ;; k" := (bind m (fun p => k)) (at level 60, p pattern, m at next level, right associativity).

(** The loop over the ports: a number, what separates it, and what is done with it. *)
Fixpoint bdhctl_loop (txrx : Z) (ports : list Z) (u : user) : M unit :=
  match ports with
  | [] => ret tt
  | port :: ports' =>
      '(buf, u) <- argument u;;
      let speed := number buf in
      u <- trail u;;
      _ <- modify (ifx_sw_set_bndwth port txrx speed);;
      bdhctl_loop txrx ports' u
  end.
Definition six_ports : list Z := [0; 1; 2; 3; 4; 5].
Definition ifx_sw_bdhctl_write_proc (u : user) (count : Z) : M Z :=
  '(buf, u) <- argument u;;
  let len := Z.of_nat (length buf) in
  txrx <- (if strstr buf "TX" then ret 1 else if strstr buf "RX" then ret 0 else return_ len);;
  u <- trail u;;
  _ <- bdhctl_loop txrx six_ports u;;
  ret count.

Definition ifx_sw_tcpudpctl_write_proc (u : user) (count : Z) : M Z :=
  '(buf, u) <- argument u;;
  fn <- last_digit buf;;
  u <- trail u;;
  '(buf, u) <- argument u;;
  let port := number buf in
  u <- trail u;;
  '(buf, u) <- argument u;;
  let qno := number buf in
  u <- trail u;;
  _ <- modify (ifx_sw_set_tcpudp_filter fn port qno);;
  ret count.

Definition ifx_sw_qosctl_write_proc (u : user) (count : Z) : M Z :=
  '(buf, _) <- argument u;;
  _ <- modify (ifx_sw_set_qos_control (if strchr buf 49 then 1 else 0));;
  ret count.

Fixpoint qctl_loop (queues : list Z) (u : user) : M unit :=
  match queues with
  | [] => ret tt
  | n :: queues' =>
      '(buf, u) <- argument u;;
      _ <- modify (ifx_sw_set_queue_weight n (number buf));;
      u <- trail u;;
      qctl_loop queues' u
  end.
Definition ifx_sw_qctl_write_proc (u : user) (count : Z) : M Z :=
  _ <- qctl_loop [0; 1; 2; 3] u;; ret count.

Definition port_control (ppfc : bool) (n value : Z) : switch -> switch :=
  if ppfc then ifx_sw_setq n value
  else if negb (value =? 0) then ifx_sw_ena_fc n else ifx_sw_dis_fc n.
Fixpoint pctl_loop (ppfc : bool) (ports : list Z) (u : user) : M unit :=
  match ports with
  | [] => ret tt
  | n :: ports' =>
      '(buf, u) <- argument u;;
      _ <- modify (port_control ppfc n (number buf));;
      u <- trail u;;
      pctl_loop ppfc ports' u
  end.
(** The part behind the first argument, which device_control has too. *)
Definition pctl_values (buf : list Z) (u : user) (count : Z) : M Z :=
  let len := Z.of_nat (length buf) in
  ppfc <- (if strstr buf "PP" then ret true else if strstr buf "FC" then ret false else return_ len);;
  u <- trail u;;
  _ <- pctl_loop ppfc six_ports u;;
  ret count.
Definition ifx_sw_pctl_write_proc (u : user) (count : Z) : M Z :=
  '(buf, u) <- argument u;; pctl_values buf u count.

Definition ifx_sw_igmpctl_write_proc (u : user) (count : Z) : M Z :=
  '(buf, u) <- argument u;;
  if strstr buf "PROXY" then
    u <- trail u;;
    '(buf, _) <- argument u;;
    bit <- last_digit buf;;
    _ <- modify (ifx_sw_set_igmp_proxy bit);;
    ret count
  else if strstr buf "AD_SNOOP" then
    u <- trail u;;
    '(buf, _) <- argument u;;
    bit <- last_digit buf;;
    _ <- modify (ifx_sw_set_additional_snoop_ctr bit);;
    ret count
  else
    bit <- last_digit buf;;
    _ <- modify (ifx_sw_set_igmp bit);;
    ret count.

Inductive vlan_setting := no_setting | ifx_vlan_set_mode | ifx_vlan_set_cpu_port
  | ifx_vlan_set_filter_add | ifx_vlan_set_filter_del.
Definition vlan_setting_of (buf : list Z) : vlan_setting :=
  if strstr buf "mode" then ifx_vlan_set_mode
  else if strstr buf "cpu" then ifx_vlan_set_cpu_port
  else if strstr buf "filter_add" then ifx_vlan_set_filter_add
  else if strstr buf "filter_del" then ifx_vlan_set_filter_del
  else no_setting.
(** The members of a filter are parsed and dropped; [buffer[i]] is read without [get_user]. *)
Fixpoint vlan_members (idx : nat) (u : user) : M unit :=
  match idx with
  | O => ret tt
  | S idx' =>
      let len := count_trail_chars BUF u in
      if len <? 0 then return_ len
      else
        match u with
        | c :: u' =>
            if c =? 0 then ret tt
            else
              match u' with
              | d :: _ =>
                  if d =? 0 then ret tt
                  else
                    '(_, u) <- argument (drop (Z.to_nat len) u);;
                    vlan_members idx' u
              | [] => bad
              end
        | [] => bad
        end
  end.
Definition run_int (f : switch -> Z * switch) : M unit := modify (fun s => (f s).2).
Definition ifx_sw_vlanctl_write_proc (u : user) (count : Z) : M Z :=
  '(buf, u) <- argument u;;
  let setting_type := vlan_setting_of buf in
  u <- trail u;;
  '(buf, u) <- argument u;;
  match setting_type with
  | ifx_vlan_set_mode =>
      bit <- last_digit buf;; _ <- modify (ifx_sw_set_vlanmode bit);; ret count
  | ifx_vlan_set_cpu_port =>
      if strstr buf "disable" then _ <- run_int ifx_sw_disable_cpu_port;; ret count
      else port <- last_digit buf;; _ <- run_int (ifx_sw_set_cpu_port port);; ret count
  | ifx_vlan_set_filter_add | ifx_vlan_set_filter_del =>
      _ <- last_digit buf;; _ <- vlan_members 6 u;; ret count
  | no_setting => ret count
  end.

(** [mac] has twenty bytes; adm6996_set_mac_priority does nothing. *)
Definition ifx_sw_devctl_write_proc (u : user) (count : Z) : M Z :=
  '(buf, u) <- argument u;;
  if strstr buf "ADD" || strstr buf "DEL" then
    u <- trail u;;
    '(mac, u) <- argument u;;
    _ <- (if (20 <? length mac)%nat then bad else ret tt);;
    u <- trail u;;
    '(_, _) <- argument u;;
    ret count
  else pctl_values buf u count.
End Switch.
