(* ===== verification/SwitchBits.v ===== *)
(** * SwitchBits: settings as groups of bits

    A place is a group of bits of a register.  The reads and the read-modify-writes of the
    driver are reads and writes of places, and writes of one place are seen by the reads that
    overlap it only. *)
From S2P Require Import Prelude Switch.
Import Switch.

(** ** Groups of bits of a number *)
Definition get (v sh n : Z) : Z := Z.land (Z.shiftr v sh) (Z.ones n).
Definition set (v sh n x : Z) : Z := Z.lor (Z.ldiff v (Z.shiftl (Z.ones n) sh)) (Z.shiftl x sh).
Definition word16 (v : Z) : Prop := 0 <= v < 2 ^ 16.

Lemma high_bit v n i : 0 <= v < 2 ^ n -> n <= i -> Z.testbit v i = false.
Proof.
  intros Hv Hi. destruct (Z.le_gt_cases 0 n).
  - rewrite <- (Z.mod_small v (2 ^ n)) by done. by apply Z.mod_pow2_bits_high.
  - rewrite Z.pow_neg_r in Hv by done. lia.
Qed.
Lemma bits_bound v n : 0 <= n -> 0 <= v -> (forall i, n <= i -> Z.testbit v i = false) -> v < 2 ^ n.
Proof.
  intros Hn Hv H. assert (v mod 2 ^ n = v) as <-; [|apply Z.mod_pos_bound; lia].
  apply Z.bits_inj'. intros i Hi. destruct (Z.lt_ge_cases i n); [by apply Z.mod_pow2_bits_low|].
  by rewrite Z.mod_pow2_bits_high, H.
Qed.
Lemma ones_spec n i : 0 <= n -> 0 <= i -> Z.testbit (Z.ones n) i = (i <? n).
Proof. intros Hn Hi. destruct (Z.ltb_spec i n); [apply Z.ones_spec_low|apply Z.ones_spec_high]; lia. Qed.
Lemma shiftl_bit x n i : 0 <= i -> Z.testbit (Z.shiftl x n) i = (n <=? i) && Z.testbit x (i - n).
Proof.
  intros Hi. rewrite Z.shiftl_spec by done. destruct (Z.leb_spec n i); [done|]. by apply Z.testbit_neg_r; lia.
Qed.

Lemma get_spec v sh n i : 0 <= sh -> 0 <= n -> 0 <= i -> Z.testbit (get v sh n) i = (i <? n) && Z.testbit v (i + sh).
Proof. intros Hs Hn Hi. unfold get. rewrite Z.land_spec, Z.shiftr_spec, ones_spec by done. apply andb_comm. Qed.
Lemma set_spec v sh n x i : 0 <= sh -> 0 <= n -> 0 <= x < 2 ^ n -> 0 <= i ->
  Z.testbit (set v sh n x) i = if (sh <=? i) && (i <? sh + n) then Z.testbit x (i - sh) else Z.testbit v i.
Proof.
  intros Hs Hn Hx Hi. unfold set. rewrite Z.lor_spec, Z.ldiff_spec, !shiftl_bit by done.
  destruct (Z.leb_spec sh i); cbn [andb negb]; [|by rewrite andb_true_r, orb_false_r].
  rewrite ones_spec by lia. destruct (Z.ltb_spec (i - sh) n), (Z.ltb_spec i (sh + n)); try lia; cbn [negb].
  - by rewrite andb_false_r.
  - by rewrite andb_true_r, (high_bit x n), orb_false_r by lia.
Qed.
Lemma set_word16 v sh n x : word16 v -> 0 <= sh -> 0 <= n -> sh + n <= 16 -> 0 <= x < 2 ^ n -> word16 (set v sh n x).
Proof.
  intros Hv Hs Hn Hsn Hx. assert (H0 : 0 <= set v sh n x).
  { unfold set. apply Z.lor_nonneg. split; [apply Z.ldiff_nonneg; left; apply Hv|apply Z.shiftl_nonneg; lia]. }
  split; [done|]. apply bits_bound; [lia|done|]. intros i Hi. rewrite set_spec by lia.
  destruct (Z.leb_spec sh i), (Z.ltb_spec i (sh + n)); cbn [andb]; try lia; (apply (high_bit v 16); [apply Hv|lia]).
Qed.
Lemma get_range v sh n : 0 <= n -> 0 <= get v sh n < 2 ^ n.
Proof. intros Hn. unfold get. rewrite Z.land_ones by done. apply Z.mod_pos_bound. lia. Qed.
Lemma get_small x n : 0 <= n -> 0 <= x < 2 ^ n -> get x 0 n = x.
Proof. intros Hn Hx. unfold get. rewrite Z.shiftr_0_r, Z.land_ones by done. by apply Z.mod_small. Qed.
Lemma get_set_inside v sh n x sh' n' : 0 <= sh -> 0 <= n -> 0 <= n' -> 0 <= x < 2 ^ n -> sh <= sh' -> sh' + n' <= sh + n ->
  get (set v sh n x) sh' n' = get x (sh' - sh) n'.
Proof.
  intros. apply Z.bits_inj'. intros i Hi. rewrite !get_spec, set_spec by lia.
  destruct (Z.ltb_spec i n'); [|done]. cbn [andb].
  destruct (Z.leb_spec sh (i + sh')), (Z.ltb_spec (i + sh') (sh + n)); cbn [andb]; try lia. f_equal. lia.
Qed.
Lemma get_set_other v sh n x sh' n' : 0 <= sh -> 0 <= n -> 0 <= sh' -> 0 <= n' -> 0 <= x < 2 ^ n ->
  sh + n <= sh' \/ sh' + n' <= sh -> get (set v sh n x) sh' n' = get v sh' n'.
Proof.
  intros Hs Hn Hs' Hn' Hx Hd. apply Z.bits_inj'. intros i Hi. rewrite !get_spec, set_spec by lia.
  destruct (Z.ltb_spec i n'); [|done]. cbn [andb].
  destruct (Z.leb_spec sh (i + sh')), (Z.ltb_spec (i + sh') (sh + n)); cbn [andb]; try done; lia.
Qed.

(** ** Integers of C *)
Lemma u32_bit z i : 0 <= i -> Z.testbit (u32 z) i = (i <? 32) && Z.testbit z i.
Proof.
  intros Hi. unfold u32. destruct (Z.ltb_spec i 32); [by apply Z.mod_pow2_bits_low|].
  by apply Z.mod_pow2_bits_high.
Qed.
Lemma shl_bit x n i : 0 <= n < 32 -> 0 <= i ->
  Z.testbit (shl x n) i = (i <? 32) && ((n <=? i) && Z.testbit (u32 x) (i - n)).
Proof. intros Hn Hi. unfold shl. by rewrite u32_bit, (Z.mod_small n), shiftl_bit by lia. Qed.
Lemma u32_fits z : 0 <= z < 2 ^ 32 -> u32 z = z.
Proof. intros H. by apply Z.mod_small. Qed.
Lemma shl_small x n k : 0 <= n -> 0 <= k -> n + k <= 32 -> 0 <= x < 2 ^ k -> shl x n = Z.shiftl x n.
Proof.
  intros Hn Hk Hnk Hx. destruct (Z.eq_dec n 32) as [->|].
  - assert (k = 0) as -> by lia. assert (x = 0) as -> by lia. done.
  - assert (2 ^ n * 2 ^ k <= 2 ^ 32) by (rewrite <- Z.pow_add_r by lia; apply Z.pow_le_mono_r; lia).
    assert (0 < 2 ^ n) by lia. unfold shl. rewrite (Z.mod_small n) by lia. rewrite (u32_fits x) by nia.
    rewrite Z.shiftl_mul_pow2 by done. apply u32_fits. nia.
Qed.
Lemma not32_bit z i : 0 <= i -> Z.testbit (not32 z) i = (i <? 32) && negb (Z.testbit z i).
Proof. intros Hi. unfold not32. by rewrite u32_bit, Z.lnot_spec by done. Qed.
Lemma shr_ok v sh : word16 v -> 0 <= sh < 32 -> shr v sh = Z.shiftr v sh.
Proof. intros [H0 H1] Hs. unfold shr. rewrite u32_fits, Z.mod_small by lia. done. Qed.

(** The three shapes of a change of a register. *)
Lemma code_put v mask n sh x : word16 v -> mask = Z.ones n -> 0 <= sh -> 0 <= n -> sh + n <= 16 -> 0 <= x < 2 ^ n ->
  Z.lor (Z.land v (not32 (shl mask sh))) (shl x sh) = set v sh n x.
Proof.
  intros Hv -> Hs Hn Hsn Hx. rewrite (shl_small x sh n) by lia. unfold set. f_equal.
  apply Z.bits_inj'. intros i Hi. rewrite Z.land_spec, Z.ldiff_spec, not32_bit by done.
  rewrite (shl_small (Z.ones n) sh n) by (try rewrite Z.ones_equiv; lia).
  destruct (Z.ltb_spec i 32); [done|]. by rewrite (high_bit v 16) by (unfold word16 in *; lia).
Qed.
Lemma code_or v k : word16 v -> 0 <= k < 16 -> Z.lor v (shl 1 k) = set v k 1 1.
Proof.
  intros Hv Hk. rewrite (shl_small 1 k 1) by lia. apply Z.bits_inj'. intros i Hi.
  rewrite set_spec, Z.lor_spec, shiftl_bit by (try done; lia).
  destruct (Z.leb_spec k i), (Z.ltb_spec i (k + 1)); cbn [andb]; try lia.
  - replace (i - k) with 0 by lia. apply orb_true_r.
  - rewrite (high_bit 1 1), orb_false_r by lia. done.
  - apply orb_false_r.
Qed.
Lemma code_clear v k : word16 v -> 0 <= k < 16 -> Z.land v (not32 (shl 1 k)) = set v k 1 0.
Proof.
  intros Hv Hk. rewrite <- (code_put v 1 1 k 0) by (try done; lia).
  replace (shl 0 k) with 0; [by rewrite Z.lor_0_r|]. unfold shl. by rewrite Z.shiftl_0_l.
Qed.
Lemma code_clear_low v k : word16 v -> 0 <= k < 16 -> Z.land v (not_BIT k) = set v 0 (k + 1) 0.
Proof.
  intros Hv Hk. unfold not_BIT. apply Z.bits_inj'. intros i Hi.
  rewrite set_spec, Z.land_spec, shl_bit by lia. rewrite Z.testbit_0_l.
  destruct (Z.leb_spec 0 i), (Z.ltb_spec i (0 + (k + 1))); cbn [andb]; try lia.
  - destruct (Z.leb_spec k i); [|by rewrite !andb_false_r]. replace (i - k) with 0 by lia. by rewrite !andb_false_r.
  - destruct (Z.ltb_spec i 32); [|by rewrite (high_bit v 16) by (unfold word16 in *; lia)].
    destruct (Z.leb_spec k i); [|lia]. cbn [andb]. rewrite u32_bit, not32_bit by lia.
    destruct (Z.ltb_spec (i - k) 32); [|lia]. cbn [andb]. rewrite (high_bit 1 1) by lia. apply andb_true_r.
Qed.
Lemma code_test v k : word16 v -> 0 <= k < 16 ->
  (if negb (Z.land v (BIT k) =? 0) then 1 else 0) = get v k 1.
Proof.
  intros Hv Hk. unfold BIT. rewrite (shl_small 1 k 1) by lia.
  assert (H : get v k 1 = Z.b2z (Z.testbit v k)).
  { apply Z.bits_inj'. intros i Hi. rewrite get_spec by lia. destruct (Z.ltb_spec i 1).
    - replace i with 0 by lia. cbn [andb Z.add]. by rewrite Z.b2z_bit0.
    - rewrite (high_bit (Z.b2z _) 1); [done|destruct (Z.testbit v k); cbn; lia|lia]. }
  rewrite H. destruct (Z.eqb_spec (Z.land v (Z.shiftl 1 k)) 0) as [He|He]; cbn [negb].
  - apply (f_equal (fun z => Z.testbit z k)) in He. rewrite Z.land_spec, shiftl_bit, Z.bits_0 in He by lia.
    rewrite Z.leb_refl, Z.sub_diag, andb_true_r in He. by rewrite He.
  - destruct (Z.testbit v k) eqn:E; [done|]. destruct He. apply Z.bits_inj'. intros i Hi.
    rewrite Z.land_spec, shiftl_bit, Z.bits_0 by lia. destruct (Z.leb_spec k i); cbn [andb]; [|apply andb_false_r].
    destruct (Z.eq_dec i k) as [->|]; [by rewrite E|]. by rewrite (high_bit 1 1), andb_false_r by lia.
Qed.

(** ** Places of the switch *)
Definition wf (s : switch) : Prop := forall a, 0 <= a < 1024 -> word16 (s a).
Record place := mk_place { reg : Z; low : Z; width : Z }.
Definition good_place (p : place) : Prop :=
  0 <= reg p < 1024 /\ 0 <= low p /\ 0 <= width p /\ low p + width p <= 16.
Definition fits (p : place) (x : Z) : Prop := 0 <= x < 2 ^ width p.
Definition look (p : place) (s : switch) : Z := get (s (reg p)) (low p) (width p).
Definition store (p : place) (x : Z) (s : switch) : switch := upd (reg p) (set (s (reg p)) (low p) (width p) x) s.
Definition stores (ws : list (place * Z)) (s : switch) : switch := fold_left (fun s w => store w.1 w.2 s) ws s.
Definition good_write (w : place * Z) : Prop := good_place w.1 /\ fits w.1 w.2.

(** [q] is apart from [p], or inside it. *)
Definition apart (p q : place) : bool :=
  negb (reg p =? reg q) || (low p + width p <=? low q) || (low q + width q <=? low p).
Definition inside (p q : place) : bool :=
  (reg p =? reg q) && (low p <=? low q) && (low q + width q <=? low p + width p).

Lemma upd_same a v s : upd a v s a = v.
Proof. unfold upd. by rewrite Z.eqb_refl. Qed.
Lemma upd_other a b v s : b <> a -> upd a v s b = s b.
Proof. intros H. unfold upd. by destruct (Z.eqb_spec b a). Qed.
Lemma wf_upd a v s : wf s -> word16 v -> wf (upd a v s).
Proof. intros Hs Hv b Hb. unfold upd. destruct (b =? a); [done|by apply Hs]. Qed.
Lemma wf_store p x s : wf s -> good_place p -> fits p x -> wf (store p x s).
Proof. intros Hs (Hr & Hl & Hw & Hlw) Hx. apply wf_upd; [done|]. apply set_word16; [by apply Hs|done..]. Qed.
Lemma wf_stores ws s : wf s -> Forall good_write ws -> wf (stores ws s).
Proof.
  revert s. induction ws as [|w ws IH]; intros s Hs Hw; [done|]. apply Forall_cons in Hw as [[Hp Hx] Hw].
  cbn [stores fold_left]. apply IH; [by apply wf_store|done].
Qed.

Lemma look_store_apart p q x s : good_place p -> good_place q -> fits p x -> apart p q = true -> look q (store p x s) = look q s.
Proof.
  intros (_ & Hl & Hw & _) (_ & Hl' & Hw' & _) Hx Ha. unfold look, store, apart in *.
  destruct (Z.eqb_spec (reg p) (reg q)) as [He|He]; [|by rewrite upd_other by congruence].
  rewrite <- He, upd_same. apply get_set_other; try done. cbn in Ha. apply orb_true_iff in Ha. rewrite !Z.leb_le in Ha. lia.
Qed.
Lemma look_store_inside p q x s : good_place p -> good_place q -> fits p x -> inside p q = true ->
  look q (store p x s) = get x (low q - low p) (width q).
Proof.
  intros (_ & Hl & Hw & _) (_ & Hl' & Hw' & _) Hx Hi. unfold look, store, inside in *.
  apply andb_prop in Hi as [Hi Hi3]. apply andb_prop in Hi as [Hi1 Hi2].
  apply Z.eqb_eq in Hi1. apply Z.leb_le in Hi2, Hi3. rewrite <- Hi1, upd_same. by apply get_set_inside.
Qed.
Lemma look_store_same p x s : good_place p -> fits p x -> look p (store p x s) = x.
Proof.
  intros Hp Hx. rewrite look_store_inside by (try done; unfold inside; rewrite Z.eqb_refl, !Z.leb_refl; done).
  rewrite Z.sub_diag. apply get_small; [apply Hp|done].
Qed.
Lemma look_stores_apart ws q s : Forall good_write ws -> good_place q ->
  forallb (fun w => apart w.1 q) ws = true -> look q (stores ws s) = look q s.
Proof.
  revert s. induction ws as [|w ws IH]; intros s Hw Hq Ha; [done|].
  apply Forall_cons in Hw as [[Hp Hx] Hw]. cbn in Ha. apply andb_prop in Ha as [Ha1 Ha].
  cbn [stores fold_left]. change (look q (stores ws (store w.1 w.2 s)) = look q s).
  rewrite IH by done. by apply look_store_apart.
Qed.

(** ** Accesses of the driver *)
Lemma read_ok a s : wf s -> 0 <= a < 1024 -> ifx_sw_read a s = s a.
Proof.
  intros Hs Ha. unfold ifx_sw_read, mdio_acc.
  assert (Hw : Z.land (shl a 16) 0x3ff0000 = Z.shiftl a 16).
  { rewrite (shl_small a 16 10) by lia. apply Z.bits_inj'. intros i Hi. rewrite Z.land_spec, shiftl_bit by done.
    change 0x3ff0000 with (Z.shiftl (Z.ones 10) 16). rewrite shiftl_bit by done.
    destruct (Z.leb_spec 16 i); [|done]. rewrite ones_spec by lia. cbn [andb].
    destruct (Z.ltb_spec (i - 16) 10); [by rewrite andb_true_r|]. by rewrite (high_bit a 10) by lia. }
  rewrite Hw. assert (H30 : Z.testbit (Z.lor 0xC0000000 (Z.shiftl a 16)) 30 = true) by (rewrite Z.lor_spec; reflexivity).
  rewrite H30. cbn [fst].
  assert (Hb : Z.lor 0xC0000000 (Z.shiftl a 16) < 2 ^ 32).
  { apply bits_bound; [lia|apply Z.lor_nonneg; split; [lia|apply Z.shiftl_nonneg; lia]|]. intros i Hi.
    rewrite Z.lor_spec, shiftl_bit by lia. rewrite (high_bit 0xC0000000 32) by lia. rewrite (high_bit a 10) by lia. apply andb_false_r. }
  assert (Haddr : Z.land (shr (Z.lor 0xC0000000 (Z.shiftl a 16)) 16) 0x3ff = a).
  { unfold shr. rewrite u32_fits by (split; [apply Z.lor_nonneg; split; [lia|apply Z.shiftl_nonneg; lia]|done]).
    change (16 mod 32) with 16. apply Z.bits_inj'. intros i Hi. rewrite Z.land_spec, Z.shiftr_spec, Z.lor_spec, shiftl_bit by lia.
    change 0x3ff with (Z.ones 10). rewrite ones_spec by lia. change 0xC0000000 with (Z.shiftl 3 30). rewrite shiftl_bit by lia.
    replace (i + 16 - 16) with i by lia. destruct (Z.ltb_spec i 10).
    - destruct (Z.leb_spec 30 (i + 16)), (Z.leb_spec 16 (i + 16)); try lia. cbn [andb orb]. apply andb_true_r.
    - by rewrite andb_false_r, (high_bit a 10) by lia. }
  rewrite Haddr. change 0xffff with (Z.ones 16). rewrite Z.land_ones by lia. apply Z.mod_small. by apply Hs.
Qed.

(** A value of more than sixteen bits runs into the address. *)
Lemma write_wide a d s : 0 <= a < 1024 -> 0 <= d < 2 ^ 32 -> Z.testbit d 30 = false ->
  ifx_sw_write a d s = upd (Z.lor a (Z.land (Z.shiftr d 16) 0x3ff)) (Z.land d 0xffff) s.
Proof.
  intros Ha Hd H30. unfold ifx_sw_write, mdio_acc. rewrite (u32_fits d) by done.
  set (w := Z.lor (Z.lor (Z.land (shl a 16) 0x3ff0000) d) 0x80000000).
  assert (Hbit : forall i, 0 <= i -> Z.testbit w i = ((16 <=? i) && Z.testbit a (i - 16)) || Z.testbit d i || (i =? 31)).
  { intros i Hi. unfold w. rewrite !Z.lor_spec. f_equal; [f_equal|].
    - rewrite (shl_small a 16 10) by lia. rewrite Z.land_spec, shiftl_bit by done.
      change 0x3ff0000 with (Z.shiftl (Z.ones 10) 16). rewrite shiftl_bit by done.
      destruct (Z.leb_spec 16 i); [|done]. rewrite ones_spec by lia. cbn [andb].
      destruct (Z.ltb_spec (i - 16) 10); [by rewrite andb_true_r|]. by rewrite (high_bit a 10) by lia.
    - change 0x80000000 with (Z.shiftl 1 31). rewrite shiftl_bit by done.
      destruct (Z.eqb_spec i 31) as [->|]; [done|]. destruct (Z.leb_spec 31 i); [|done]. by rewrite (high_bit 1 1) by lia. }
  assert (Hw : 0 <= w < 2 ^ 32).
  { assert (0 <= w). { unfold w. rewrite !Z.lor_nonneg. split; [split|]; [apply Z.land_nonneg; by right|lia|done]. }
    split; [done|]. apply bits_bound; [lia|done|]. intros i Hi. rewrite Hbit by lia.
    rewrite (high_bit a 10), (high_bit d 32) by lia. destruct (Z.eqb_spec i 31); [lia|]. by rewrite andb_false_r. }
  rewrite Hbit, H30 by lia. change ((16 <=? 30) && Z.testbit a (30 - 16) || false || (30 =? 31)) with (Z.testbit a 14 || false || false).
  rewrite (high_bit a 10) by lia. cbn [orb snd].
  assert (Haddr : Z.land (shr w 16) 0x3ff = Z.lor a (Z.land (Z.shiftr d 16) 0x3ff)).
  { unfold shr. rewrite u32_fits by done. change (16 mod 32) with 16. change 0x3ff with (Z.ones 10).
    apply Z.bits_inj'. intros i Hi. rewrite Z.lor_spec, !Z.land_spec, !Z.shiftr_spec, Hbit, ones_spec by lia.
    replace (i + 16 - 16) with i by lia. destruct (Z.leb_spec 16 (i + 16)); [|lia]. cbn [andb].
    destruct (Z.ltb_spec i 10).
    - rewrite !andb_true_r. destruct (Z.eqb_spec (i + 16) 31); [lia|]. apply orb_false_r.
    - by rewrite !andb_false_r, (high_bit a 10) by lia. }
  assert (Hdat : Z.land w 0xffff = Z.land d 0xffff).
  { change 0xffff with (Z.ones 16). apply Z.bits_inj'. intros i Hi. rewrite !Z.land_spec, Hbit, ones_spec by lia.
    destruct (Z.ltb_spec i 16); [|by rewrite !andb_false_r]. rewrite !andb_true_r.
    destruct (Z.leb_spec 16 i), (Z.eqb_spec i 31); try lia. cbn [andb orb]. apply orb_false_r. }
  by rewrite Haddr, Hdat.
Qed.
Lemma write_ok a d s : 0 <= a < 1024 -> word16 d -> ifx_sw_write a d s = upd a d s.
Proof.
  intros Ha [H0 H1]. rewrite write_wide; [|done|lia|apply (high_bit d 16); lia].
  rewrite Z.shiftr_div_pow2, Z.div_small by lia. change (Z.land 0 0x3ff) with 0. rewrite Z.lor_0_r.
  change 0xffff with (Z.ones 16). rewrite Z.land_ones, Z.mod_small by lia. done.
Qed.

(** Reads and changes of places. *)
Lemma bits_of_ok r sh n s : wf s -> good_place (mk_place r sh n) -> bits_of r sh (Z.ones n) s = look (mk_place r sh n) s.
Proof.
  intros Hs (Hr & Hl & Hw & Hlw). cbn in *. unfold bits_of, look, get. cbn.
  rewrite read_ok by done. rewrite shr_ok; [done|by apply Hs|lia].
Qed.
Lemma put_bits_ok r sh n x s : wf s -> good_place (mk_place r sh n) -> fits (mk_place r sh n) x ->
  put_bits r sh (Z.ones n) x s = store (mk_place r sh n) x s.
Proof.
  intros Hs (Hr & Hl & Hw & Hlw) Hx. cbn in *. unfold put_bits, store. cbn. rewrite read_ok by done.
  rewrite (code_put _ (Z.ones n) n) by (try done; by apply Hs). apply write_ok; [done|].
  apply set_word16; [by apply Hs|done..].
Qed.
Lemma test_bit_ok r k s : wf s -> 0 <= r < 1024 -> 0 <= k < 16 ->
  (if negb (Z.land (ifx_sw_read r s) (BIT k) =? 0) then 1 else 0) = look (mk_place r k 1) s.
Proof. intros Hs Hr Hk. rewrite read_ok by done. apply code_test; [by apply Hs|done]. Qed.
Lemma or_bit_ok r k s : wf s -> 0 <= r < 1024 -> 0 <= k < 16 ->
  ifx_sw_write r (Z.lor (ifx_sw_read r s) (BIT k)) s = store (mk_place r k 1) 1 s.
Proof.
  intros Hs Hr Hk. rewrite read_ok by done. unfold BIT. rewrite code_or by (try done; by apply Hs).
  apply write_ok; [done|]. apply set_word16; try done; [by apply Hs|lia..].
Qed.
Lemma clear_bit_ok r k s : wf s -> 0 <= r < 1024 -> 0 <= k < 16 ->
  ifx_sw_write r (Z.land (ifx_sw_read r s) (not32 (shl 1 k))) s = store (mk_place r k 1) 0 s.
Proof.
  intros Hs Hr Hk. rewrite read_ok by done. rewrite code_clear by (try done; by apply Hs).
  apply write_ok; [done|]. apply set_word16; try done; [by apply Hs|lia..].
Qed.
(** [& ~BIT_k] clears the bits below [k] too. *)
Lemma clear_low_ok r k s : wf s -> 0 <= r < 1024 -> 0 <= k < 16 ->
  ifx_sw_write r (Z.land (ifx_sw_read r s) (not_BIT k)) s = store (mk_place r 0 (k + 1)) 0 s.
Proof.
  intros Hs Hr Hk. rewrite read_ok by done. rewrite code_clear_low by (try done; by apply Hs).
  apply write_ok; [done|]. apply set_word16; try done; [by apply Hs|cbn; lia..].
Qed.

(** ** Equal switches *)
Definition same (s s' : switch) : Prop := forall a, s a = s' a.
Lemma look_equal p s s' : same s s' -> look p s = look p s'.
Proof. intros H. unfold look. by rewrite H. Qed.
Lemma wf_equal s s' : same s s' -> wf s' -> wf s.
Proof. intros H Hw a Ha. rewrite H. by apply Hw. Qed.
Lemma store_equal p x s s' : same s s' -> same (store p x s) (store p x s').
Proof. intros H b. unfold store, upd. rewrite H. by destruct (b =? reg p). Qed.
Lemma store_twice r l w x l' w' x' s :
  same (upd r (set (set (s r) l w x) l' w' x') s) (store (mk_place r l' w') x' (store (mk_place r l w) x s)).
Proof. intros b. unfold store. cbn. rewrite upd_same. unfold upd. by destruct (b =? r). Qed.

Lemma set_whole v x : word16 v -> word16 x -> set v 0 16 x = x.
Proof.
  intros Hv Hx. apply Z.bits_inj'. intros i Hi. rewrite set_spec by (unfold word16 in *; lia). rewrite Z.sub_0_r.
  destruct (Z.leb_spec 0 i), (Z.ltb_spec i (0 + 16)); cbn [andb]; try lia; [done|].
  rewrite (high_bit v 16), (high_bit x 16) by (unfold word16 in *; lia). done.
Qed.
Lemma write_whole r x s : wf s -> 0 <= r < 1024 -> word16 x -> ifx_sw_write r x s = store (mk_place r 0 16) x s.
Proof. intros Hs Hr Hx. rewrite write_ok by done. unfold store. cbn. by rewrite set_whole by (try done; by apply Hs). Qed.
Lemma code_or_field v k n x : word16 v -> 0 <= k -> 0 <= n -> k + n <= 16 -> 0 <= x < 2 ^ n ->
  Z.lor v (shl x k) = set v k n (Z.lor (get v k n) x).
Proof.
  intros Hv Hk Hn Hkn Hx. rewrite (shl_small x k n) by lia.
  assert (Hg : 0 <= Z.lor (get v k n) x < 2 ^ n).
  { pose proof (get_range v k n Hn). assert (0 <= Z.lor (get v k n) x) by (apply Z.lor_nonneg; lia).
    split; [done|]. apply bits_bound; [done|done|]. intros i Hi. rewrite Z.lor_spec, (high_bit _ n), (high_bit x n) by lia. done. }
  apply Z.bits_inj'. intros i Hi. rewrite Z.lor_spec, shiftl_bit, set_spec by lia.
  destruct (Z.leb_spec k i), (Z.ltb_spec i (k + n)); cbn [andb]; try (by rewrite orb_false_r).
  - rewrite Z.lor_spec, get_spec by lia. destruct (Z.ltb_spec (i - k) n); [|lia]. cbn [andb]. do 2 f_equal. lia.
  - by rewrite (high_bit x n), orb_false_r by lia.
Qed.
Lemma lor_fits x y n : 0 <= n -> 0 <= x < 2 ^ n -> 0 <= y < 2 ^ n -> 0 <= Z.lor x y < 2 ^ n.
Proof.
  intros Hn Hx Hy. assert (0 <= Z.lor x y) by (apply Z.lor_nonneg; lia). split; [done|].
  apply bits_bound; [done|done|]. intros i Hi. rewrite Z.lor_spec, (high_bit x n), (high_bit y n) by lia. done.
Qed.
Lemma stores_equal ws s s' : same s s' -> same (stores ws s) (stores ws s').
Proof.
  revert s s'. induction ws as [|w ws IH]; intros s s' H; [done|]. cbn [stores fold_left].
  apply IH. by apply store_equal.
Qed.
Lemma put_bits_eq r sh m x p s : wf s -> good_place p -> fits p x -> m = Z.ones (width p) -> r = reg p -> sh = low p ->
  put_bits r sh m x s = store p x s.
Proof. intros Hs Hp Hx -> -> ->. by destruct p; apply put_bits_ok. Qed.
Lemma put_low r m n x s : wf s -> 0 <= r < 1024 -> m = Z.ones n -> 0 <= n <= 16 -> 0 <= x < 2 ^ n ->
  ifx_sw_write r (Z.lor (Z.land (ifx_sw_read r s) (not32 m)) x) s = store (mk_place r 0 n) x s.
Proof.
  intros Hs Hr -> Hn Hx. rewrite <- (put_bits_eq r 0 (Z.ones n) x (mk_place r 0 n) s) by (try done; unfold good_place; cbn; lia).
  unfold put_bits. rewrite (shl_small (Z.ones n) 0 n) by (try rewrite Z.ones_equiv; lia).
  by rewrite (shl_small x 0 n), !Z.shiftl_0_r by lia.
Qed.
Lemma land_fits k n : 0 <= n -> 0 <= Z.land k (Z.ones n) < 2 ^ n.
Proof. intros Hn. rewrite Z.land_ones by done. apply Z.mod_pos_bound. lia. Qed.
