(* ===== verification/SwitchProps.v ===== *)
(** * SwitchProps: the settings of the switch

    The switch as a map from settings to values: what each operation of the driver does to
    it, the settings it was not asked to change included. *)
From S2P Require Import Prelude Switch SwitchBits.
Import Switch.

(** ** Settings and operations *)
Inductive setting :=
| Limit (port txrx : Z) | Limited (port txrx : Z) | Qos | Igmp | Proxy | Snoop | VlanMode | CpuPort
| FilterPort (f : Z) | FilterQueue (f : Z) | FilterOn (f : Z) | PortQueue (port : Z) | FlowControl (port : Z)
| Weight (q : Z) | Member (v port : Z) | Fid (v : Z).
(** What the driver says a setting is; three of them have no function and are read off the
    register. *)
Definition value (x : setting) (s : switch) : Z :=
  match x with
  | Limit p t => ifx_sw_get_bndwth p t s
  | Limited p t => ifx_sw_chk_bndctl p t s
  | Qos => ifx_sw_get_qos_control s
  | Igmp => ifx_sw_get_igmp s
  | Proxy => ifx_sw_get_igmp_proxy s
  | Snoop => ifx_sw_get_additional_snoop_ctr s
  | VlanMode => ifx_sw_get_vlanmode s
  | CpuPort => ifx_sw_get_cpu_port s
  | FilterPort f => (ifx_sw_get_tcpudp_filter f 0 s).1.1
  | FilterQueue f => (ifx_sw_get_tcpudp_filter f 0 s).1.2
  | FilterOn f => (ifx_sw_get_tcpudp_filter f 0 s).2
  | PortQueue p => ifx_sw_getq p s
  | FlowControl p => bits_of (port_entry ifx_sw_conf p) 0 1 s
  | Weight q => ifx_sw_get_queue_weight q s
  | Member v p => bits_of (ADM_SW_VLAN_FILTER0_LOW + v * 2) p 1 s
  | Fid v => bits_of (ADM_SW_VLAN_FILTER0_LOW + v * 2) 12 0xf s
  end.

Inductive operation :=
| SetBandwidth (port txrx limit : Z) | SetFilter (f port queue : Z) | SetQos (b : bool) | SetQueue (port q : Z)
| SetWeight (q w : Z) | SetFlowControl (port : Z) (b : bool) | SetIgmp (b : bool) | SetProxy (b : bool)
| SetSnoop (b : bool) | SetVlanMode (b : bool) | SetCpuPort (port : Z) | DisableCpuPort
| VlanAdd (port v fid : Z) | VlanDel (port v : Z).
Definition run_operation (o : operation) : switch -> switch :=
  match o with
  | SetBandwidth p t l => ifx_sw_set_bndwth p t l
  | SetFilter f p q => ifx_sw_set_tcpudp_filter f p q
  | SetQos b => ifx_sw_set_qos_control (Z.b2z b)
  | SetQueue p q => ifx_sw_setq p q
  | SetWeight q w => ifx_sw_set_queue_weight q w
  | SetFlowControl p b => if b then ifx_sw_ena_fc p else ifx_sw_dis_fc p
  | SetIgmp b => ifx_sw_set_igmp (Z.b2z b)
  | SetProxy b => ifx_sw_set_igmp_proxy (Z.b2z b)
  | SetSnoop b => ifx_sw_set_additional_snoop_ctr (Z.b2z b)
  | SetVlanMode b => ifx_sw_set_vlanmode (Z.b2z b)
  | SetCpuPort p => fun s => (ifx_sw_set_cpu_port p s).2
  | DisableCpuPort => fun s => (ifx_sw_disable_cpu_port s).2
  | VlanAdd p v fid => fun s => (ifx_sw_vlan_add p v fid s).2
  | VlanDel p v => fun s => (ifx_sw_vlan_del p v s).2
  end.

Definition is_port (p : Z) : Prop := 0 <= p <= 5.
Definition is_dir (t : Z) : Prop := t = 0 \/ t = 1.
Definition good_setting (x : setting) : Prop :=
  match x with
  | Limit p t | Limited p t => is_port p /\ is_dir t
  | FilterPort f | FilterQueue f | FilterOn f => 0 <= f <= 7
  | PortQueue p | FlowControl p => is_port p
  | Weight q => 1 <= q <= 3
  | Member v p => 0 <= v <= 15 /\ is_port p
  | Fid v => 0 <= v <= 15
  | _ => True
  end.
Definition good_operation (o : operation) : Prop :=
  match o with
  | SetBandwidth p t l => is_port p /\ is_dir t
  | SetFilter f p q => 0 <= f <= 7 /\ 0 <= p < 65536 /\ 0 <= q <= 3
  | SetQueue p q => is_port p /\ 0 <= q <= 3
  | SetWeight q w => 1 <= q <= 3 /\ 0 <= w <= 15
  | SetFlowControl p _ => is_port p
  | SetCpuPort p => is_port p
  | VlanAdd p v fid => is_port p /\ 0 <= v <= 15 /\ 0 <= fid <= 15
  | VlanDel p v => is_port p /\ 0 <= v <= 15
  | _ => True
  end.

(** What an operation does: the settings it changes with their new values. *)
Definition all_limited : list (setting * Z) :=
  flat_map (fun p => [(Limited p 0, 0); (Limited p 1, 0)]) six_ports.
Definition effect (o : operation) (s : switch) : list (setting * Z) :=
  match o with
  | SetBandwidth p t l =>
      if (0 <? l) && (l <? 102400) then [(Limit p t, 64 * (l / 64)); (Limited p t, 1); (Qos, 1)]
      else [(Limited p t, 0)]
  | SetFilter f p q =>
      if p =? 0 then [(FilterOn f, 0)]
      else [(FilterPort f, p); (FilterOn f, 1)] ++ (if f =? 3 then [] else [(FilterQueue f, q)])
  | SetQos b => (Qos, Z.b2z b) :: all_limited
  | SetQueue p q => [(PortQueue p, q)]
  | SetWeight q w => [(Weight q, w)]
  | SetFlowControl p b => [(FlowControl p, Z.b2z b)]
  | SetIgmp b => (Igmp, Z.b2z b) :: if b then [] else [(Proxy, 0)]
  | SetProxy b => [(Proxy, Z.b2z b)]
  | SetSnoop b => [(Snoop, Z.b2z b)]
  | SetVlanMode b => [(VlanMode, Z.b2z b)]
  | SetCpuPort p => [(CpuPort, p); (VlanMode, 0)]
  | DisableCpuPort => [(CpuPort, 7); (VlanMode, 0)]
  | VlanAdd p v fid => [(Member v p, 1); (Fid v, Z.lor (value (Fid v) s) fid)]
  | VlanDel p v => [(Member v p, 0)]
  end%list.

(** ** The places *)
Definition limit_places (p t : Z) : place * place * place :=
  if t =? 0 then
    if p <? 4 then (mk_place 0x31 (p * 4) 4, mk_place 0x35 (p * 4) 4, mk_place 0x38 (p * 3) 3)
    else if p =? 4 then (mk_place 0x32 0 4, mk_place 0x36 0 4, mk_place 0x38 12 3)
    else (mk_place 0x32 4 4, mk_place 0x36 4 4, mk_place 0x39 0 3)
  else
    if p <? 2 then (mk_place 0x32 (p * 4 + 8) 4, mk_place 0x36 (p * 4 + 8) 4, mk_place 0x39 (p * 3 + 3) 3)
    else if p <? 4 then (mk_place 0x34 ((p - 2) * 4) 4, mk_place 0x37 ((p - 2) * 4) 4, mk_place 0x39 (p * 3 + 3) 3)
    else (mk_place 0x34 ((p - 2) * 4) 4, mk_place 0x37 ((p - 2) * 4) 4, mk_place 0x3A ((p - 4) * 3) 3).
Definition limited_place (p t : Z) : place :=
  mk_place 0x33 (if p <? 3 then p * 2 + t else if t =? 0 then 6 + (p - 3) else 9 + (p - 3)) 1.
Definition places (x : setting) : list place :=
  match x with
  | Limit p t => let '(a, b, c) := limit_places p t in [a; b; c]
  | Limited p t => [limited_place p t]
  | Qos => [mk_place 0x33 12 1]
  | Igmp => [mk_place 0xc 1 1]
  | Proxy => [mk_place 0xc 0 1]
  | Snoop => [mk_place 0xb 12 2]
  | VlanMode => [mk_place 0x11 5 1]
  | CpuPort => [mk_place 0x11 13 3]
  | FilterPort f => [mk_place (0x8C + f) 0 16]
  | FilterQueue f => [if f <? 4 then mk_place 0x96 (f * 4) 2 else mk_place 0x97 ((f - 4) * 4) 2]
  | FilterOn f => [mk_place 0x98 f 1]
  | PortQueue p => [mk_place (port_entry ifx_sw_conf p) 8 2]
  | FlowControl p => [mk_place (port_entry ifx_sw_conf p) 0 1]
  | Weight q => [mk_place (0x25 + q - 1) 12 4]
  | Member v p => [mk_place (0x40 + v * 2) p 1]
  | Fid v => [mk_place (0x40 + v * 2) 12 4]
  end.
(** A limit is made of three groups of bits and counts in units of 64. *)
Definition assemble (x : setting) (vs : list Z) : Z :=
  match x, vs with
  | Limit _ _, [a; b; c] => 64 * (a + 16 * b + 256 * c)
  | _, [a] => a
  | _, _ => 0
  end.

Ltac each_port :=
  repeat match goal with
  | H : is_port ?p |- _ => assert (p = 0 \/ p = 1 \/ p = 2 \/ p = 3 \/ p = 4 \/ p = 5) as [->|[->|[->|[->|[->| ->]]]]]
                             by (unfold is_port in H; lia); clear H
  | H : is_dir ?t |- _ => destruct H as [-> | ->]
  end.

Lemma shl_look p n s : good_place p -> 0 <= n -> n + width p <= 32 -> shl (look p s) n = look p s * 2 ^ n.
Proof.
  intros (_ & _ & Hw & _) Hn H. rewrite (shl_small _ n (width p)) by (try done; apply get_range, Hw).
  by apply Z.shiftl_mul_pow2.
Qed.
Lemma land_low_ok r n s : wf s -> 0 <= r < 1024 -> 0 <= n <= 16 ->
  Z.land (ifx_sw_read r s) (Z.ones n) = look (mk_place r 0 n) s.
Proof. intros Hs Hr Hn. rewrite read_ok by done. unfold look, get. cbn. by rewrite Z.shiftr_0_r. Qed.

Create HintDb adm.
#[export] Hint Unfold
  ADM_SW_SYSCTL1 ADM_SW_IGMPCTL ADM_SW_VLAN_MODE ADM_SW_VLAN0_CONF ADM_SW_QUEUE_CONF1
  ADM_SW_PHY_RESET ADM_SW_BNDWTH_CTL0 ADM_SW_BNDWTH_CTL1 ADM_SW_BNDWTH_CTL_ENA
  ADM_SW_BNDWTH_EXTCTL0 ADM_SW_BNDWTH_EXTCTL1 ADM_SW_BNDWTH_EXTCTL2 ADM_SW_BNDWTH_EXTCTL3
  ADM_SW_BNDWTH_EXTCTL4 ADM_SW_BNDWTH_EXTCTL5 ADM_SW_BNDWTH_EXTCTL6
  ADM_SW_VLAN_FILTER0_LOW ADM_SW_TCPUDP_FILTER0 ADM_SW_TCPUDP_ACT0 ADM_SW_TCPUDP_ACT1
  ADM_SW_TCPUDP_ACT2 ADM_SW_PORTSTS0 ADM_SW_PORTSTS1 ADM_SW_PORTSTS2 ADM_SW_MAX_PORT_NUM
  ADM_SW_MAX_VLAN_NUM : adm.
(** Closed places are computed. *)
Ltac compute_places :=
  repeat match goal with
  | |- context [mk_place ?r ?l ?w] =>
      let p := constr:(mk_place r l w) in let p' := eval cbv in p in progress change p with p'
  end.
Ltac place_arith := autounfold with adm; unfold good_place, fits, is_port in *; cbn [reg low width] in *; lia.

Lemma limit_value p t s : wf s -> is_port p -> is_dir t -> value (Limit p t) s =
  assemble (Limit p t) (map (fun q => look q s) (places (Limit p t))).
Proof.
  intros Hs Hp Ht. cbn [value]. unfold ifx_sw_get_bndwth.
  each_port; cbn -[bits_of shl ifx_sw_read Z.mul Z.add Z.land look];
    change 15 with (Z.ones 4); change 7 with (Z.ones 3);
    rewrite ?bits_of_ok, ?land_low_ok by (try done; place_arith);
    rewrite !shl_look by place_arith; change (2 ^ 4) with 16; change (2 ^ 8) with 256; compute_places; ring.
Qed.
Lemma shr_word v n : word16 v -> 0 <= n < 16 -> word16 (shr v n).
Proof.
  intros Hv Hn. rewrite shr_ok by (try done; lia). split; [by apply Z.shiftr_nonneg, Hv|].
  apply bits_bound; [lia|by apply Z.shiftr_nonneg, Hv|]. intros i Hi. rewrite Z.shiftr_spec by lia.
  apply (high_bit v 16); [apply Hv|lia].
Qed.
Lemma double_shift v m n : word16 v -> 0 <= m < 16 -> 0 <= n < 16 -> Z.land (shr (shr v m) n) 1 = get v (m + n) 1.
Proof.
  intros Hv Hm Hn. rewrite (shr_ok (shr v m)) by (try (by apply shr_word); lia). rewrite (shr_ok v) by (try done; lia).
  rewrite Z.shiftr_shiftr by lia. done.
Qed.
Lemma limited_value p t s : wf s -> is_port p -> is_dir t -> ifx_sw_chk_bndctl p t s = look (limited_place p t) s.
Proof.
  intros Hs Hp Ht. unfold ifx_sw_chk_bndctl. autounfold with adm. rewrite read_ok by (try done; lia).
  assert (Hv : word16 (s 0x33)) by (apply Hs; lia).
  each_port; cbn -[shr look Z.land Z.add Z.mul Z.sub]; rewrite double_shift by (try done; lia); done.
Qed.
Lemma masked_shift r m k n s : wf s -> 0 <= r < 1024 -> m = Z.shiftl (Z.ones n) k -> 0 <= k -> 0 <= n -> k + n <= 16 ->
  shr (Z.land (ifx_sw_read r s) m) k = look (mk_place r k n) s.
Proof.
  intros Hs Hr -> Hk Hn Hkn. rewrite read_ok by done. unfold look, get. cbn.
  assert (H : word16 (Z.land (s r) (Z.shiftl (Z.ones n) k))).
  { assert (0 <= Z.land (s r) (Z.shiftl (Z.ones n) k)) by (apply Z.land_nonneg; left; by apply Hs).
    split; [done|]. apply bits_bound; [lia|done|]. intros i Hi. rewrite Z.land_spec, (high_bit (s r) 16); [done|by apply Hs|lia]. }
  rewrite shr_ok by (try done; lia). apply Z.bits_inj'. intros i Hi.
  rewrite Z.shiftr_spec, !Z.land_spec, Z.shiftr_spec, shiftl_bit, ones_spec by lia.
  destruct (Z.leb_spec k (i + k)); [|lia]. cbn [andb]. replace (i + k - k) with i by lia. by rewrite ones_spec.
Qed.

Lemma bits_of_eq r sh m p s : wf s -> good_place p -> m = Z.ones (width p) -> r = reg p -> sh = low p ->
  bits_of r sh m s = look p s.
Proof. intros Hs Hp -> -> ->. by destruct p; apply bits_of_ok. Qed.
Lemma conf_range p : is_port p -> 0 <= port_entry ifx_sw_conf p < 1024.
Proof. intros Hp. each_port; vm_compute; split; discriminate || done. Qed.
Lemma conf_place p l w : is_port p -> 0 <= l -> 0 <= w -> l + w <= 16 -> good_place (mk_place (port_entry ifx_sw_conf p) l w).
Proof. intros Hp. pose proof (conf_range p Hp). place_arith. Qed.

Lemma value_places x s : wf s -> good_setting x -> value x s = assemble x (map (fun q => look q s) (places x)).
Proof.
  intros Hs Hx. destruct x; cbn [value places map assemble good_setting] in *.
  - destruct Hx. by apply limit_value.
  - destruct Hx. by apply limited_value.
  - apply test_bit_ok; [done|autounfold with adm; lia..].
  - apply test_bit_ok; [done|autounfold with adm; lia..].
  - apply test_bit_ok; [done|autounfold with adm; lia..].
  - apply masked_shift; [done|autounfold with adm; lia|done|lia..].
  - apply test_bit_ok; [done|autounfold with adm; lia..].
  - apply masked_shift; [done|autounfold with adm; lia|done|lia..].
  - unfold ifx_sw_get_tcpudp_filter. cbn [fst snd]. autounfold with adm. rewrite read_ok by (try done; lia).
    unfold look. cbn [reg low width]. symmetry. apply get_small; [lia|]. apply Hs. lia.
  - unfold ifx_sw_get_tcpudp_filter. cbn [fst snd].
    destruct (Z.leb_spec 0 f), (Z.leb_spec f 3), (Z.ltb_spec f 4); cbn [andb]; try lia.
    + apply bits_of_eq; [done|place_arith|done..].
    + destruct (Z.leb_spec 4 f), (Z.leb_spec f 7); cbn [andb]; try lia. apply bits_of_eq; [done|place_arith|done..].
  - apply bits_of_eq; [done|place_arith|done..].
  - unfold ifx_sw_getq. assert (Hp := conf_place port 8 2 Hx). apply (bits_of_eq _ _ _ (mk_place _ 8 2) s Hs); [apply Hp; lia|reflexivity..].
  - assert (Hp := conf_place port 0 1 Hx). apply (bits_of_eq _ _ _ (mk_place _ 0 1) s Hs); [apply Hp; lia|reflexivity..].
  - unfold ifx_sw_get_queue_weight. destruct (Z.eqb_spec q 0); [lia|]. apply bits_of_eq; [done|place_arith|done..].
  - destruct Hx. apply bits_of_eq; [done|place_arith|done..].
  - apply bits_of_eq; [done|place_arith|done..].
Qed.

(** ** The operations as changes of places *)
Definition ena_writes (p t : Z) : list (place * Z) := [(limited_place p t, 1); (mk_place 0x33 12 1, 1)].
Definition limit_writes (p t k : Z) : list (place * Z) :=
  let '(a, b, c) := limit_places p t in
  [(a, Z.land k 0xf); (b, Z.land (shr k 4) 0xf); (c, Z.land (shr k 8) 0x7)].
Definition valid_limit (l : Z) : bool := (0 <? l) && (l <? 102400).
Definition writes (o : operation) (s : switch) : list (place * Z) :=
  match o with
  | SetBandwidth p t l => if valid_limit l then ena_writes p t ++ limit_writes p t (l / 64) else [(limited_place p t, 0)]
  | SetFilter f p q =>
      if p =? 0 then [(mk_place 0x98 f 1, 0)]
      else [(mk_place (0x8C + f) 0 16, p)] ++
           (if f <? 3 then [(mk_place 0x96 (f * 4) 2, q)] else if f =? 3 then [] else [(mk_place 0x97 ((f - 4) * 4) 2, q)]) ++
           [(mk_place 0x98 f 1, 1)]
  | SetQos b => [(mk_place 0x33 0 13, 0); (mk_place 0x33 12 1, Z.b2z b)]
  | SetQueue p q => [(mk_place (port_entry ifx_sw_conf p) 8 2, q)]
  | SetWeight q w => [(mk_place (0x25 + q - 1) 12 4, w)]
  | SetFlowControl p b => [(mk_place (port_entry ifx_sw_conf p) 0 1, Z.b2z b)]
  | SetIgmp b => [if b then (mk_place 0xc 1 1, 1) else (mk_place 0xc 0 2, 0)]
  | SetProxy b => [(mk_place 0xc 0 1, Z.b2z b)]
  | SetSnoop b => [if b then (mk_place 0xb 12 2, 1) else (mk_place 0xb 0 14, 0)]
  | SetVlanMode b => [if b then (mk_place 0x11 5 1, 1) else (mk_place 0x11 0 6, 0)]
  | SetCpuPort p => [(mk_place 0x11 0 16, Z.shiftl p 13)]
  | DisableCpuPort => [(mk_place 0x11 0 16, 0xe000)]
  | VlanAdd p v fid => [(mk_place (0x40 + v * 2) p 1, 1); (mk_place (0x40 + v * 2) 12 4, Z.lor (value (Fid v) s) fid)]
  | VlanDel p v => [(mk_place (0x40 + v * 2) p 1, 0)]
  end%list.

Lemma limited_good p t : is_port p -> is_dir t -> good_place (limited_place p t).
Proof. intros Hp Ht. each_port; vm_compute; split_and!; discriminate || done. Qed.

Lemma ena_same p t s : wf s -> is_port p -> is_dir t -> same (ifx_sw_ena_bndctl p t s) (stores (ena_writes p t) s).
Proof.
  intros Hs Hp Ht. pose proof (limited_good p t Hp Ht) as (_ & Hl & _ & Hl').
  change (width (limited_place p t)) with 1 in Hl'.
  assert (He : ifx_sw_ena_bndctl p t s =
    upd 0x33 (set (set (s 0x33) (low (limited_place p t)) 1 1) 12 1 1) s).
  { unfold ifx_sw_ena_bndctl, BIT. autounfold with adm. rewrite read_ok by (try done; lia).
    assert (Hv : word16 (s 0x33)) by (apply Hs; lia).
    assert (Hbit : forall m, m = shl 1 (low (limited_place p t)) ->
      ifx_sw_write 0x33 (Z.lor (Z.lor (s 0x33) m) (shl 1 12)) s =
      upd 0x33 (set (set (s 0x33) (low (limited_place p t)) 1 1) 12 1 1) s).
    { intros m ->. rewrite (code_or (s 0x33)) by (try done; lia).
      assert (word16 (set (s 0x33) (low (limited_place p t)) 1 1)) by (apply set_word16; try done; lia).
      rewrite code_or by (try done; lia). apply write_ok; [lia|]. apply set_word16; try done; lia. }
    each_port; apply Hbit; reflexivity. }
  rewrite He. unfold ena_writes, stores. cbn [fold_left fst snd].
  apply (store_twice 0x33 (low (limited_place p t)) 1 1 12 1 1).
Qed.
Lemma dis_store p t s : wf s -> is_port p -> is_dir t -> ifx_sw_dis_bndctl p t s = store (limited_place p t) 0 s.
Proof.
  intros Hs Hp Ht. pose proof (limited_good p t Hp Ht) as (_ & Hl & _ & Hl').
  change (width (limited_place p t)) with 1 in Hl'.
  assert (Hc := clear_bit_ok 0x33 (low (limited_place p t)) s Hs ltac:(lia) ltac:(lia)).
  unfold ifx_sw_dis_bndctl. autounfold with adm. each_port; exact Hc.
Qed.

Lemma limit_places_good p t : is_port p -> is_dir t -> let '(a, b, c) := limit_places p t in
  (good_place a /\ width a = 4) /\ (good_place b /\ width b = 4) /\ (good_place c /\ width c = 3).
Proof. intros Hp Ht. each_port; vm_compute; split_and!; discriminate || done. Qed.
Lemma limit_writes_good p t k : is_port p -> is_dir t -> Forall good_write (limit_writes p t k).
Proof.
  intros Hp Ht. pose proof (limit_places_good p t Hp Ht) as H. unfold limit_writes.
  destruct (limit_places p t) as [[a b] c]. destruct H as ((Ha & Wa) & (Hb & Wb) & (Hc & Wc)).
  assert (Hf : forall q x n, width q = n -> 0 <= n -> fits q (Z.land x (Z.ones n))) by (intros q x n <- Hn; by apply land_fits).
  rewrite !Forall_cons. unfold good_write. cbn [fst snd].
  split_and!; [done|by apply (Hf _ _ 4)|done|by apply (Hf _ _ 4)|done|by apply (Hf _ _ 3)|by apply Forall_nil].
Qed.
Lemma bit_fits r k b : fits (mk_place r k 1) (Z.b2z b).
Proof. unfold fits. cbn. destruct b; cbn; lia. Qed.
Lemma ena_good p t : is_port p -> is_dir t -> Forall good_write (ena_writes p t).
Proof.
  intros Hp Ht. repeat apply Forall_cons_2; [split..|by apply Forall_nil].
  - by apply limited_good.
  - exact (bit_fits 0 0 true).
  - cbn [fst]. place_arith.
  - exact (bit_fits 0 0 true).
Qed.
Lemma set_bndwth_valid p t l s : wf s -> is_port p -> is_dir t -> valid_limit l = true ->
  ifx_sw_set_bndwth p t l s = stores (limit_writes p t (l / 64)) (ifx_sw_ena_bndctl p t s).
Proof.
  intros Hs Hp Ht Hl. assert (Hn : (l <=? 0) || (102400 <=? l) = false).
  { unfold valid_limit in Hl. apply andb_prop in Hl as [H1 H2]. apply Z.ltb_lt in H1, H2.
    by destruct (Z.leb_spec l 0), (Z.leb_spec 102400 l); try lia. }
  pose proof (limit_writes_good p t (l / 64) Hp Ht) as Hg.
  assert (Hs1 : wf (ifx_sw_ena_bndctl p t s)).
  { eapply wf_equal; [by apply ena_same|]. apply wf_stores; [done|].
    by apply ena_good. }
  unfold ifx_sw_set_bndwth. rewrite Hn. cbv zeta. set (k := l / 64) in *. set (s1 := ifx_sw_ena_bndctl p t s) in *.
  clearbody s1 k. clear Hn Hl Hs s. unfold limit_writes in *.
  each_port; cbn -[put_bits store Z.land shr ifx_sw_write ifx_sw_read] in *;
    rewrite !Forall_cons in Hg; destruct Hg as ([Ga Fa] & [Gb Fb] & [Gc Fc] & _);
    cbn [fst snd] in *; cbv zeta;
    rewrite (put_bits_eq _ _ _ _ _ s1 Hs1 Ga Fa) by reflexivity;
    rewrite (put_bits_eq _ _ _ _ _ _ (wf_store _ _ _ Hs1 Ga Fa) Gb Fb) by reflexivity;
    first [ by rewrite (put_bits_eq _ _ _ _ _ _ (wf_store _ _ _ (wf_store _ _ _ Hs1 Ga Fa) Gb Fb) Gc Fc) by reflexivity
          | apply (put_low 0x39 7 3); [apply (wf_store _ _ _ (wf_store _ _ _ Hs1 Ga Fa) Gb Fb)|lia|done|lia|apply Fc] ].
Qed.

Lemma good_write_intro p x : good_place p -> fits p x -> good_write (p, x).
Proof. by split. Qed.

(** Filter 3: the shift by -4 puts the queue outside the register. *)
Lemma filter3_queue q s : wf s -> 0 <= q <= 3 -> same (put_bits ADM_SW_TCPUDP_ACT1 ((3 - 4) * 4) 0x3 q s) s.
Proof.
  intros Hs Hq. unfold put_bits. autounfold with adm. rewrite read_ok by (try done; lia).
  assert (Hv : word16 (s 0x97)) by (apply Hs; lia).
  assert (Hm : Z.land (s 0x97) (not32 (shl 0x3 ((3 - 4) * 4))) = s 0x97).
  { change (shl 0x3 ((3 - 4) * 4)) with 0x30000000. apply Z.bits_inj'. intros i Hi. rewrite Z.land_spec, not32_bit by done.
    destruct (Z.lt_ge_cases i 16); [|by rewrite (high_bit (s 0x97) 16) by (unfold word16 in *; lia)].
    assert (Z.testbit 0x30000000 i = false) as ->.
    { change 0x30000000 with (Z.shiftl 3 28). rewrite shiftl_bit by done. by destruct (Z.leb_spec 28 i); [lia|]. }
    destruct (Z.ltb_spec i 32); [|lia]. apply andb_true_r. }
  rewrite Hm. change (shl q ((3 - 4) * 4)) with (shl q 28).
  rewrite (shl_small q 28 2) by lia.
  assert (Hb : forall i, 0 <= i -> Z.testbit (Z.lor (s 0x97) (Z.shiftl q 28)) i = Z.testbit (s 0x97) i || ((28 <=? i) && Z.testbit q (i - 28)))
    by (intros i Hi; by rewrite Z.lor_spec, shiftl_bit).
  assert (H0 : 0 <= Z.lor (s 0x97) (Z.shiftl q 28)) by (apply Z.lor_nonneg; split; [apply Hv|apply Z.shiftl_nonneg; lia]).
  rewrite write_wide; [|lia| |].
  - intros a. unfold upd.
    assert (Ha : Z.lor 0x97 (Z.land (Z.shiftr (Z.lor (s 0x97) (Z.shiftl q 28)) 16) 0x3ff) = 0x97).
    { replace (Z.land _ 0x3ff) with 0; [done|]. symmetry. apply Z.bits_inj'. intros i Hi.
      change 0x3ff with (Z.ones 10). rewrite Z.land_spec, Z.shiftr_spec, Hb, ones_spec, Z.bits_0 by lia.
      rewrite (high_bit (s 0x97) 16) by (unfold word16 in *; lia).
      destruct (Z.leb_spec 28 (i + 16)), (Z.ltb_spec i 10); cbn [andb orb]; try lia; try done; apply andb_false_r. }
    rewrite Ha. destruct (Z.eqb_spec a 0x97) as [->|]; [|done].
    change 0xffff with (Z.ones 16). apply Z.bits_inj'. intros i Hi. rewrite Z.land_spec, Hb, ones_spec by lia.
    destruct (Z.ltb_spec i 16); [|by rewrite andb_false_r, (high_bit (s 0x97) 16) by (unfold word16 in *; lia)].
    destruct (Z.leb_spec 28 i); [lia|]. cbn [andb]. by rewrite orb_false_r, andb_true_r.
  - split; [done|]. apply bits_bound; [lia|done|]. intros i Hi. rewrite Hb by lia.
    rewrite (high_bit (s 0x97) 16), (high_bit q 2) by (unfold word16 in *; lia). apply andb_false_r.
  - rewrite Hb by lia. rewrite (high_bit (s 0x97) 16), (high_bit q 2) by (unfold word16 in *; lia). done.
Qed.

Lemma set_filter_same f p q s : wf s -> good_operation (SetFilter f p q) ->
  same (ifx_sw_set_tcpudp_filter f p q s) (stores (writes (SetFilter f p q) s) s).
Proof.
  intros Hs (Hf & Hp & Hq). unfold ifx_sw_set_tcpudp_filter. cbn [writes].
  destruct (Z.eqb_spec p 0).
  - autounfold with adm. rewrite (clear_bit_ok 0x98 f) by (done || lia). done.
  - autounfold with adm.
    rewrite (write_whole (0x8C + f) p) by (done || lia || (unfold word16; lia)).
    assert (Hs1 : wf (store (mk_place (0x8C + f) 0 16) p s)) by (apply wf_store; [done|place_arith|unfold fits; cbn; lia]).
    set (s1 := store _ p s) in *. change (stores ([(mk_place (0x8C + f) 0 16, p)] ++ ?l)%list s) with (stores l s1).
    destruct (Z.ltb_spec f 3).
    + rewrite (put_bits_eq _ _ _ _ (mk_place 0x96 (f * 4) 2) s1) by (done || place_arith).
      pose proof (or_bit_ok 0x98 f (store (mk_place 0x96 (f * 4) 2) q s1)) as Hor. unfold BIT in Hor.
      rewrite Hor by (done || lia || (apply wf_store; [done|place_arith..])). done.
    + destruct (Z.eqb_spec f 3) as [->|].
      * pose proof (filter3_queue q s1 Hs1 Hq) as H3. autounfold with adm in H3.
        pose proof (or_bit_ok 0x98 3 (put_bits 0x97 ((3 - 4) * 4) 0x3 q s1)) as Hor. unfold BIT in Hor.
        rewrite Hor by (lia || by (eapply wf_equal; [exact H3|exact Hs1])). by apply store_equal.
      * rewrite (put_bits_eq _ _ _ _ (mk_place 0x97 ((f - 4) * 4) 2) s1) by (done || place_arith).
        pose proof (or_bit_ok 0x98 f (store (mk_place 0x97 ((f - 4) * 4) 2) q s1)) as Hor. unfold BIT in Hor.
        rewrite Hor by (done || lia || (apply wf_store; [done|place_arith..])). done.
Qed.

Lemma put_field r m n k x s : wf s -> 0 <= r < 1024 -> m = Z.lnot (Z.shiftl (Z.ones n) k) \/ m = Z.ldiff 0xffff (Z.shiftl (Z.ones n) k) ->
  0 <= k -> 0 <= n -> k + n <= 16 -> 0 <= x < 2 ^ n ->
  ifx_sw_write r (Z.lor (Z.land (ifx_sw_read r s) m) (Z.shiftl x k)) s = store (mk_place r k n) x s.
Proof.
  intros Hs Hr Hm Hk Hn Hkn Hx. rewrite read_ok by done. assert (Hv : word16 (s r)) by (by apply Hs).
  assert (Z.lor (Z.land (s r) m) (Z.shiftl x k) = set (s r) k n x) as ->.
  { unfold set. f_equal. destruct Hm as [-> | ->]; [by rewrite Z.ldiff_land|].
    apply Z.bits_inj'. intros i Hi. rewrite Z.land_spec, !Z.ldiff_spec. change 0xffff with (Z.ones 16). rewrite ones_spec by lia.
    destruct (Z.ltb_spec i 16); [done|]. by rewrite (high_bit (s r) 16) by (unfold word16 in *; lia). }
  apply write_ok; [done|]. by apply set_word16.
Qed.
Lemma qos_same b s : wf s -> same (ifx_sw_set_qos_control (Z.b2z b) s) (stores (writes (SetQos b) s) s).
Proof.
  intros Hs. unfold ifx_sw_set_qos_control. autounfold with adm. rewrite read_ok by (done || lia).
  assert (Hv : word16 (s 0x33)) by (apply Hs; lia). rewrite code_clear_low by (done || lia).
  assert (Hv1 : word16 (set (s 0x33) 0 (12 + 1) 0)) by (apply set_word16; done || lia).
  assert (Hd : set (set (s 0x33) 0 (12 + 1) 0) 12 1 (Z.b2z b) = Z.lor (set (s 0x33) 0 (12 + 1) 0) (shl (Z.b2z b) 12)).
  { rewrite (code_or_field _ 12 1) by (done || lia || (destruct b; cbn; lia)). f_equal.
    rewrite (get_set_inside _ 0 (12 + 1) 0 12 1) by lia. destruct b; reflexivity. }
  rewrite <- Hd, write_ok; [|lia|apply set_word16; try done; destruct b; cbn; lia].
  apply store_twice.
Qed.
Lemma vlan_add_same p v fid s : wf s -> is_port p -> 0 <= v <= 15 -> 0 <= fid <= 15 ->
  same (ifx_sw_vlan_add p v fid s).2 (stores (writes (VlanAdd p v fid) s) s).
Proof.
  intros Hs Hp Hv Hf. unfold ifx_sw_vlan_add, vlan_range. autounfold with adm.
  destruct (Z.ltb_spec p 0), (Z.ltb_spec 5 p), (Z.ltb_spec v 0), (Z.ltb_spec 15 v); cbn [orb snd]; unfold is_port in *; try lia.
  cbn [writes value]. autounfold with adm. rewrite read_ok by (done || lia).
  assert (Hw : word16 (s (0x40 + v * 2))) by (apply Hs; lia). rewrite code_or by (done || lia).
  assert (Hw1 : word16 (set (s (0x40 + v * 2)) p 1 1)) by (apply set_word16; done || lia).
  rewrite (code_or_field _ 12 4) by (done || lia).
  rewrite (bits_of_eq _ _ _ (mk_place (0x40 + v * 2) 12 4)) by (done || place_arith). unfold look. cbn [reg low width].
  rewrite (get_set_other _ p 1 1 12 4) by lia.
  rewrite write_ok; [apply store_twice|lia|]. apply set_word16; try done.
  apply lor_fits; [done| |lia]. by apply get_range.
Qed.
Lemma operation_writes o s : wf s -> good_operation o ->
  Forall good_write (writes o s) /\ same (run_operation o s) (stores (writes o s) s).
Proof.
  intros Hs Ho. destruct o; cbn [run_operation good_operation] in *; cbn [writes].
  - destruct Ho as [Hp Ht]. destruct (valid_limit limit) eqn:Hl.
    + split; [apply Forall_app; split; [by apply ena_good|by apply limit_writes_good]|].
      rewrite set_bndwth_valid by done. unfold stores. rewrite fold_left_app. by apply stores_equal, ena_same.
    + split; [apply Forall_singleton; split; [by apply limited_good|exact (bit_fits 0 0 false)]|].
      intros a. unfold ifx_sw_set_bndwth. assert ((limit <=? 0) || (102400 <=? limit) = true) as ->.
      { unfold valid_limit in Hl. by destruct (Z.leb_spec limit 0), (Z.leb_spec 102400 limit), (Z.ltb_spec 0 limit), (Z.ltb_spec limit 102400); try lia. }
      by rewrite dis_store.
  - split; [|by apply set_filter_same]. destruct Ho as (Hf & Hp & Hq).
    destruct (Z.eqb_spec port 0); [|destruct (Z.ltb_spec f 3), (Z.eqb_spec f 3); try lia];
      repeat apply Forall_cons_2; try apply Forall_nil_2; try done; apply good_write_intro; place_arith.
  - split; [|by apply qos_same]. repeat apply Forall_cons_2; [..|apply Forall_nil_2]; apply good_write_intro; try place_arith; by apply bit_fits.
  - destruct Ho as [Hp Hq]. assert (Hc := conf_place port 8 2 Hp ltac:(lia) ltac:(lia) ltac:(lia)).
    split; [apply Forall_singleton, good_write_intro; [done|place_arith]|]. intros a. unfold ifx_sw_setq.
    by rewrite (put_bits_eq _ _ _ _ (mk_place (port_entry ifx_sw_conf port) 8 2)) by (done || place_arith).
  - split; [apply Forall_singleton, good_write_intro; place_arith|]. intros a. unfold ifx_sw_set_queue_weight.
    destruct (Z.eqb_spec q 0); [lia|].
    by rewrite (put_bits_eq _ _ _ _ (mk_place (0x25 + q - 1) 12 4)) by (done || place_arith).
  - assert (Hc := conf_place port 0 1 Ho ltac:(lia) ltac:(lia) ltac:(lia)). assert (Hr := conf_range port Ho).
    split; [apply Forall_singleton; split; [done|by apply bit_fits]|]. intros a.
    destruct b; [unfold ifx_sw_ena_fc|unfold ifx_sw_dis_fc]; cbv zeta; [by rewrite or_bit_ok by (done || lia)|by rewrite clear_low_ok by (done || lia)].
  - split; [apply Forall_singleton; destruct b; apply good_write_intro; place_arith|]. intros a.
    destruct b; unfold ifx_sw_set_igmp; cbn [Z.b2z Z.eqb negb]; autounfold with adm;
      [by rewrite or_bit_ok by (done || lia)|by rewrite clear_low_ok by (done || lia)].
  - split; [apply Forall_singleton, good_write_intro; [place_arith|by apply bit_fits]|]. intros a.
    destruct b; unfold ifx_sw_set_igmp_proxy; cbn [Z.b2z Z.eqb negb]; autounfold with adm;
      [by rewrite or_bit_ok by (done || lia)|by rewrite clear_low_ok by (done || lia)].
  - split; [apply Forall_singleton; destruct b; apply good_write_intro; place_arith|]. intros a.
    destruct b; unfold ifx_sw_set_additional_snoop_ctr; cbn [Z.b2z Z.eqb negb]; autounfold with adm.
    + change 0x1000 with (Z.shiftl 1 12).
      by rewrite (put_field 0xb 0xCFFF 2 12 1) by (done || lia || by right).
    + pose proof (put_field 0xb 0xC000 14 0 0 s Hs) as Hput. rewrite Z.lor_0_r in Hput. 
      by rewrite Hput by (done || lia || by right).
  - split; [apply Forall_singleton; destruct b; apply good_write_intro; place_arith|]. intros a.
    destruct b; unfold ifx_sw_set_vlanmode; cbn [Z.b2z Z.eqb negb]; autounfold with adm;
      [by rewrite or_bit_ok by (done || lia)|by rewrite clear_low_ok by (done || lia)].
  - assert (Hx : shl port 13 = Z.shiftl port 13) by (apply (shl_small port 13 3); unfold is_port in *; lia).
    assert (Hx' : 0 <= Z.shiftl port 13 < 2 ^ 16) by (rewrite Z.shiftl_mul_pow2 by done; unfold is_port in *; lia).
    split; [apply Forall_singleton, good_write_intro; [place_arith|done]|]. intros a. unfold ifx_sw_set_cpu_port. autounfold with adm.
    destruct (Z.ltb_spec port 0), (Z.ltb_spec (5 + 1) port); cbn [orb snd]; unfold is_port in *; try lia.
    by rewrite Hx, write_whole by (done || lia).
  - split; [apply Forall_singleton, good_write_intro; place_arith|]. intros a. unfold ifx_sw_disable_cpu_port. autounfold with adm.
    cbn [snd]. change (shl 0x7 13) with 0xe000. by rewrite write_whole by (done || lia || (unfold word16; lia)).
  - destruct Ho as (Hp & Hv & Hf). split; [|by apply vlan_add_same].
    repeat apply Forall_cons_2; [apply good_write_intro; place_arith| |apply Forall_nil_2].
    apply good_write_intro; [place_arith|]. cbn [value]. apply (lor_fits _ _ 4); [done| |lia].
    rewrite (bits_of_eq _ _ _ (mk_place (0x40 + v * 2) 12 4)) by (done || place_arith). by apply get_range.
  - destruct Ho as (Hp & Hv). split; [apply Forall_singleton, good_write_intro; place_arith|]. intros a.
    unfold ifx_sw_vlan_del, vlan_range. autounfold with adm.
    destruct (Z.ltb_spec port 0), (Z.ltb_spec 5 port), (Z.ltb_spec v 0), (Z.ltb_spec 15 v); cbn [orb snd]; unfold is_port in *; try lia.
    by rewrite clear_bit_ok by (done || lia).
Qed.

(** ** What the places hold afterwards *)
#[export] Instance setting_eq_dec : EqDecision setting.
Proof. solve_decision. Defined.
Fixpoint last_write (q : place) (ws : list (place * Z)) : option Z :=
  match ws with
  | [] => None
  | w :: ws' =>
      match last_write q ws' with
      | Some x => Some x
      | None => if inside w.1 q then Some (get w.2 (low q - low w.1) (width q)) else None
      end
  end.
Definition clear (q : place) (ws : list (place * Z)) : bool := forallb (fun w => apart w.1 q || inside w.1 q) ws.
Lemma look_stores q ws s : Forall good_write ws -> good_place q -> clear q ws = true ->
  look q (stores ws s) = default (look q s) (last_write q ws).
Proof.
  intros Hw Hq. revert s. induction ws as [|w ws IH]; intros s Hc; [done|].
  apply Forall_cons in Hw as [[Hp Hx] Hw]. cbn in Hc. apply andb_prop in Hc as [Hc1 Hc].
  cbn [stores fold_left]. change (look q (stores ws (store w.1 w.2 s)) = default (look q s) (last_write q (w :: ws))).
  rewrite IH by done. cbn [last_write]. destruct (last_write q ws); [done|]. cbn [default].
  destruct (inside w.1 q) eqn:Hi; [by apply look_store_inside|].
  rewrite orb_false_r in Hc1. by apply look_store_apart.
Qed.
Lemma places_good x : good_setting x -> Forall good_place (places x).
Proof.
  intros Hx. destruct x; cbn [places good_setting] in *;
    try (apply Forall_singleton; place_arith).
  - destruct Hx as [Hp Ht]. pose proof (limit_places_good port txrx Hp Ht) as H.
    destruct (limit_places port txrx) as [[a b] c]. destruct H as ((Ha & _) & (Hb & _) & (Hc & _)).
    by repeat apply Forall_cons_2; try apply Forall_nil_2.
  - destruct Hx. by apply Forall_singleton, limited_good.
  - apply Forall_singleton. destruct (Z.ltb_spec f 4); place_arith.
  - apply Forall_singleton, conf_place; done || lia.
  - apply Forall_singleton, conf_place; done || lia.
Qed.
(** The value of a setting after an operation, from what was written. *)
Lemma value_after o x s : wf s -> good_operation o -> good_setting x ->
  forallb (fun q => clear q (writes o s)) (places x) = true ->
  value x (run_operation o s) =
  assemble x (map (fun q => default (look q s) (last_write q (writes o s))) (places x)).
Proof.
  intros Hs Ho Hx Hc. pose proof (operation_writes o s Hs Ho) as [Hw Hsame].
  assert (Hs' : wf (run_operation o s)) by (eapply wf_equal; [done|by apply wf_stores]).
  rewrite value_places by done. f_equal. pose proof (places_good x Hx) as Hg.
  induction (places x) as [|q qs IH]; [done|]. cbn in Hc. apply andb_prop in Hc as [Hc1 Hc].
  apply Forall_cons in Hg as [Hq Hg]. cbn [map]. f_equal; [|by apply IH].
  rewrite (look_equal q _ _ Hsame). by apply look_stores.
Qed.

(** ** Settings an operation leaves alone *)
Definition below (n : nat) : list Z := map Z.of_nat (seq 0 n).
Lemma below_elem n z : 0 <= z < Z.of_nat n -> In z (below n).
Proof. intros H. apply in_map_iff. exists (Z.to_nat z). rewrite in_seq. lia. Qed.
Definition all_settings : list setting :=
  [Qos; Igmp; Proxy; Snoop; VlanMode; CpuPort] ++
  flat_map (fun p => flat_map (fun t => [Limit p t; Limited p t]) (below 2)) (below 6) ++
  flat_map (fun f => [FilterPort f; FilterQueue f; FilterOn f]) (below 8) ++
  flat_map (fun p => [PortQueue p; FlowControl p]) (below 6) ++
  map Weight (below 4) ++
  flat_map (fun v => Fid v :: map (Member v) (below 6)) (below 16).
Definition all_operations : list operation :=
  [SetQos true; SetIgmp true; SetIgmp false; SetProxy true; SetSnoop true; SetSnoop false;
   SetVlanMode true; SetVlanMode false; SetCpuPort 0; DisableCpuPort] ++
  flat_map (fun p => flat_map (fun t => [SetBandwidth p t 0; SetBandwidth p t 64]) (below 2)) (below 6) ++
  flat_map (fun f => [SetFilter f 0 0; SetFilter f 1 0]) (below 8) ++
  flat_map (fun p => [SetQueue p 0; SetFlowControl p true]) (below 6) ++
  map (fun q => SetWeight q 0) (below 4) ++
  flat_map (fun v => flat_map (fun p => [VlanAdd p v 0; VlanDel p v]) (below 6)) (below 16).
(** An operation with the values that do not choose the places. *)
Definition shape (o : operation) : operation :=
  match o with
  | SetBandwidth p t l => SetBandwidth p t (if valid_limit l then 64 else 0)
  | SetFilter f p q => SetFilter f (if p =? 0 then 0 else 1) 0
  | SetQos _ => SetQos true
  | SetQueue p _ => SetQueue p 0
  | SetWeight q _ => SetWeight q 0
  | SetFlowControl p _ => SetFlowControl p true
  | SetProxy _ => SetProxy true
  | SetCpuPort _ => SetCpuPort 0
  | VlanAdd p v _ => VlanAdd p v 0
  | _ => o
  end.
Definition dark : switch := fun _ => 0.
Lemma shape_places o s : map fst (writes o s) = map fst (writes (shape o) dark).
Proof.
  destruct o; cbn [shape writes]; try done; try (by destruct b).
  - destruct (valid_limit limit); cbn [map]; [|done]. change (valid_limit 64) with true. cbn [map].
    rewrite !map_app. unfold limit_writes. by destruct (limit_places port txrx) as [[? ?] ?].
  - destruct (port =? 0); [done|]. change (1 =? 0) with false. cbn [map]. by destruct (f <? 3), (f =? 3).
Qed.
Lemma shape_keys o s : map fst (effect o s) = map fst (effect (shape o) dark).
Proof.
  destruct o; cbn [shape effect]; try done; try (by destruct b).
  - change ((0 <? limit) && (limit <? 102400)) with (valid_limit limit). by destruct (valid_limit limit).
  - destruct (port =? 0); [done|]. by destruct (f =? 3).
Qed.
Lemma all_settings_complete x : good_setting x -> In x all_settings.
Proof.
  intros Hx. unfold all_settings. rewrite !in_app_iff, !in_flat_map.
  destruct x; cbn [good_setting] in Hx; try (left; cbn; tauto); right.
  - destruct Hx. left. exists port. split; [apply below_elem; unfold is_port in *; lia|]. apply in_flat_map.
    exists txrx. split; [apply below_elem; unfold is_dir in *; lia|cbn; tauto].
  - destruct Hx. left. exists port. split; [apply below_elem; unfold is_port in *; lia|]. apply in_flat_map.
    exists txrx. split; [apply below_elem; unfold is_dir in *; lia|cbn; tauto].
  - right; left. exists f. split; [apply below_elem; lia|cbn; tauto].
  - right; left. exists f. split; [apply below_elem; lia|cbn; tauto].
  - right; left. exists f. split; [apply below_elem; lia|cbn; tauto].
  - right; right; left. exists port. split; [apply below_elem; unfold is_port in *; lia|cbn; tauto].
  - right; right; left. exists port. split; [apply below_elem; unfold is_port in *; lia|cbn; tauto].
  - right; right; right; left. apply in_map, below_elem. lia.
  - right; right; right; right. exists v. destruct Hx. split; [apply below_elem; lia|].
    right. apply in_map, below_elem. unfold is_port in *; lia.
  - right; right; right; right. exists v. split; [apply below_elem; lia|by left].
Qed.
Lemma all_operations_complete o : good_operation o -> In (shape o) all_operations.
Proof.
  intros Ho. unfold all_operations. rewrite !in_app_iff, !in_flat_map.
  destruct o; cbn [good_operation shape] in *; try (left; destruct b; cbn; tauto); try (left; cbn; tauto); right.
  - destruct Ho. left. exists port. split; [apply below_elem; unfold is_port in *; lia|]. apply in_flat_map.
    exists txrx. split; [apply below_elem; unfold is_dir in *; lia|destruct (valid_limit limit); cbn; tauto].
  - right; left. exists f. split; [apply below_elem; lia|destruct (port =? 0); cbn; tauto].
  - right; right; left. exists port. split; [apply below_elem; unfold is_port in *; lia|cbn; tauto].
  - right; right; right; left. apply (in_map (fun q => SetWeight q 0)), below_elem. lia.
  - right; right; left. exists port. split; [apply below_elem; unfold is_port in *; lia|cbn; tauto].
  - right; right; right; right. exists v. destruct Ho as (? & ? & ?). split; [apply below_elem; lia|]. apply in_flat_map.
    exists port. split; [apply below_elem; unfold is_port in *; lia|cbn; tauto].
  - right; right; right; right. exists v. destruct Ho as (? & ?). split; [apply below_elem; lia|]. apply in_flat_map.
    exists port. split; [apply below_elem; unfold is_port in *; lia|cbn; tauto].
Qed.

(** Every setting is among those changed, or apart from all that is written. *)
Definition apart_all (ps : list place) (x : setting) : bool :=
  forallb (fun q => forallb (fun p => apart p q) ps) (places x).
Definition named (x : setting) (xs : list setting) : bool := existsb (fun y => bool_decide (x = y)) xs.
Definition clear_all (ps : list place) (x : setting) : bool :=
  forallb (fun q => forallb (fun p => apart p q || inside p q) ps) (places x).
Definition framed (o : operation) : bool :=
  let ps := map fst (writes o dark) in let ks := map fst (effect o dark) in
  forallb (fun x => clear_all ps x && (named x ks || apart_all ps x)) all_settings.
Lemma all_framed : forallb framed all_operations = true.
Proof. vm_compute. done. Qed.
Lemma framed_ok o s x : good_operation o -> good_setting x ->
  clear_all (map fst (writes o s)) x = true /\
  (named x (map fst (effect o s)) = true \/ apart_all (map fst (writes o s)) x = true).
Proof.
  intros Ho Hx. pose proof all_framed as H. rewrite forallb_forall in H.
  specialize (H _ (all_operations_complete o Ho)). unfold framed in H. rewrite forallb_forall in H.
  specialize (H x (all_settings_complete x Hx)). rewrite <- (shape_places o s), <- (shape_keys o s) in H.
  apply andb_prop in H as [H1 H2]. split; [done|]. by apply orb_prop.
Qed.
Lemma clear_map q ws : forallb (fun p => apart p q || inside p q) (map fst ws) = clear q ws.
Proof. induction ws as [|w ws IH]; cbn; [done|]. by rewrite IH. Qed.
Lemma settings_clear o s x : good_operation o -> good_setting x ->
  forallb (fun q => clear q (writes o s)) (places x) = true.
Proof.
  intros Ho Hx. destruct (framed_ok o s x Ho Hx) as [H _]. unfold clear_all in H. rewrite forallb_forall in *.
  intros q Hq. rewrite <- clear_map. by apply H.
Qed.
Lemma named_spec x xs : named x xs = true <-> In x xs.
Proof.
  unfold named. rewrite existsb_exists. split.
  - intros (y & Hy & He). apply bool_decide_eq_true in He. by subst.
  - intros H. exists x. split; [done|]. by apply bool_decide_eq_true.
Qed.
Lemma unnamed_kept o x s : wf s -> good_operation o -> good_setting x -> ~ In x (map fst (effect o s)) ->
  value x (run_operation o s) = value x s.
Proof.
  intros Hs Ho Hx Hn. pose proof (operation_writes o s Hs Ho) as [Hw Hsame].
  assert (Hs' : wf (run_operation o s)) by (eapply wf_equal; [done|by apply wf_stores]).
  destruct (framed_ok o s x Ho Hx) as [_ [H|H]]; [by apply named_spec in H|].
  rewrite !value_places by done. f_equal. unfold apart_all in H. rewrite forallb_forall in H.
  apply map_ext_in. intros q Hq. rewrite (look_equal q _ _ Hsame).
  pose proof (places_good x Hx) as Hg. rewrite List.Forall_forall in Hg.
  apply look_stores_apart; [done|by apply Hg|]. specialize (H q Hq).
  clear -H. induction (writes o s) as [|w ws IH]; cbn in *; [done|].
  apply andb_prop in H as [H1 H2]. by rewrite H1, IH.
Qed.

(** ** The settings that change *)
Lemma inside_refl p : inside p p = true.
Proof. unfold inside. by rewrite Z.eqb_refl, !Z.leb_refl. Qed.
Lemma last_same q x : good_write (q, x) -> last_write q [(q, x)] = Some x.
Proof.
  intros [Hq Hx]. cbn. rewrite inside_refl, Z.sub_diag. f_equal. apply get_small; [apply Hq|done].
Qed.
Lemma last_app q ws ws' : last_write q (ws ++ ws') = match last_write q ws' with Some x => Some x | None => last_write q ws end.
Proof.
  induction ws as [|w ws IH]; cbn; [by destruct (last_write q ws')|].
  rewrite IH. by destruct (last_write q ws').
Qed.
Lemma get_land k n : 0 <= n -> get (Z.land k (Z.ones n)) 0 n = Z.land k (Z.ones n).
Proof. intros Hn. apply get_small; [done|]. by apply land_fits. Qed.
Lemma limit_digits k : 0 <= k < 2048 ->
  Z.land k 15 + 16 * Z.land (shr k 4) 15 + 256 * Z.land (shr k 8) 7 = k.
Proof.
  intros Hk. assert (Hw : word16 k) by (unfold word16; lia). rewrite !shr_ok by (done || lia).
  change 15 with (Z.ones 4). change 7 with (Z.ones 3). rewrite !Z.land_ones, !Z.shiftr_div_pow2 by lia.
  change (2 ^ 4) with 16. change (2 ^ 8) with 256. change (2 ^ 3) with 8.
  rewrite (Z.mod_small (k / 256)) by (split; [apply Z.div_pos; lia|apply Z.div_lt_upper_bound; lia]).
  change 256 with (16 * 16). rewrite <- Z.div_div by lia.
  pose proof (Z.div_mod k 16). pose proof (Z.div_mod (k / 16) 16). lia.
Qed.
Lemma bandwidth_effect p t l s : wf s -> is_port p -> is_dir t ->
  Forall (fun xv => value xv.1 (run_operation (SetBandwidth p t l) s) = xv.2) (effect (SetBandwidth p t l) s).
Proof.
  intros Hs Hp Ht. assert (Hgo : good_operation (SetBandwidth p t l)) by done.
  assert (Hv : forall x, good_setting x -> value x (run_operation (SetBandwidth p t l) s) =
     assemble x (map (fun q => default (look q s) (last_write q (writes (SetBandwidth p t l) s))) (places x)))
    by (intros x Hx; apply value_after; try done; by apply settings_clear).
  cbn [effect]. change ((0 <? l) && (l <? 102400)) with (valid_limit l). cbn [writes] in Hv.
  destruct (valid_limit l) eqn:Hl.
  - assert (Hk : 0 <= l / 64 < 2048).
    { unfold valid_limit in Hl. apply andb_prop in Hl as [H1 H2]. apply Z.ltb_lt in H1, H2. split; [apply Z.div_pos; lia|].
      apply Z.div_lt_upper_bound; lia. }
    set (k := l / 64) in *. clearbody k. pose proof (limit_digits k Hk) as Hd.
    repeat apply Forall_cons_2; [..|apply Forall_nil_2]; cbn [fst snd]; rewrite Hv by (done || by split); clear Hv Hgo;
      each_port; cbn -[get Z.land shr Z.mul]; rewrite ?(get_land k 4), ?(get_land _ 4), ?(get_land _ 3) by lia;
      try reflexivity; f_equal; exact Hd.
  - apply Forall_singleton. cbn [fst snd]. rewrite Hv by (by split). cbn [places map assemble].
    by rewrite last_same by (split; [by apply limited_good|exact (bit_fits 0 0 false)]).
Qed.
Lemma value_one x q y o s : wf s -> good_operation o -> good_setting x -> places x = [q] -> assemble x [y] = y ->
  last_write q (writes o s) = Some y -> value x (run_operation o s) = y.
Proof.
  intros Hs Ho Hx Hp Ha Hl. rewrite value_after by (done || by apply settings_clear). by rewrite Hp; cbn [map]; rewrite Hl.
Qed.
Lemma good_single w : Forall good_write [w] -> good_write w.
Proof. by rewrite Forall_singleton. Qed.
Lemma filter_effect f p q s : wf s -> good_operation (SetFilter f p q) ->
  Forall (fun xv => value xv.1 (run_operation (SetFilter f p q) s) = xv.2) (effect (SetFilter f p q) s).
Proof.
  intros Hs Ho. pose proof Ho as (Hf & Hp & Hq). cbn [effect].
  pose proof (proj1 (operation_writes _ s Hs Ho)) as Hg. cbn [writes] in Hg.
  destruct (Z.eqb_spec p 0) as [->|Hp0].
  - apply Forall_singleton. eapply value_one; try done. cbn [writes Z.eqb]. apply last_same.
    by apply good_single.
  - assert (H0 : (p =? 0) = false) by by apply Z.eqb_neq.
    repeat apply Forall_cons_2; [..|destruct (Z.eqb_spec f 3); repeat apply Forall_cons_2; try apply Forall_nil_2];
      cbn [fst snd]; (eapply value_one; [done|done|done|reflexivity|done|]); cbn [writes]; rewrite H0.
    + assert (f = 0 \/ f = 1 \/ f = 2 \/ f = 3 \/ f = 4 \/ f = 5 \/ f = 6 \/ f = 7) as Hc by lia.
      destruct_or! Hc; subst f; cbv -[get Z.le Z.lt Z.pow]; by rewrite get_small by lia.
    + rewrite app_assoc, last_app. by rewrite last_same by (apply good_write_intro; place_arith).
    + assert (f = 0 \/ f = 1 \/ f = 2 \/ f = 4 \/ f = 5 \/ f = 6 \/ f = 7) as Hc by lia.
      destruct_or! Hc; subst f; cbv -[get Z.le Z.lt Z.pow]; by rewrite get_small by lia.
Qed.
Lemma qos_effect b s : wf s ->
  Forall (fun xv => value xv.1 (run_operation (SetQos b) s) = xv.2) (effect (SetQos b) s).
Proof.
  intros Hs. apply Forall_cons_2.
  - cbn [fst snd]. eapply value_one; try done. by destruct b.
  - unfold all_limited, six_ports. cbn [flat_map app].
    repeat apply Forall_cons_2; try apply Forall_nil_2; cbn [fst snd];
      (eapply value_one; [done|done|split; [unfold is_port; lia|unfold is_dir; lia]|reflexivity|done|by destruct b]).
Qed.
Lemma vlan_member_write p v x : is_port p ->
  last_write (mk_place (0x40 + v * 2) p 1) [(mk_place (0x40 + v * 2) p 1, 1); (mk_place (0x40 + v * 2) 12 4, x)] = Some 1.
Proof. intros Hp. cbn [last_write]. unfold inside. cbn. rewrite !Z.eqb_refl. by each_port. Qed.
Lemma effect_values o s : wf s -> good_operation o ->
  Forall (fun xv => value xv.1 (run_operation o s) = xv.2) (effect o s).
Proof.
  intros Hs Ho. pose proof (proj1 (operation_writes _ s Hs Ho)) as Hg.
  destruct o; [by apply bandwidth_effect; destruct Ho|by apply filter_effect|by apply qos_effect|..];
    cbn [writes good_operation] in *; cbn [effect]; try (destruct b); repeat apply Forall_cons_2; try apply Forall_nil_2;
    cbn [fst snd]; (eapply value_one; [done|done|cbn; tauto|reflexivity|done|]); cbn [writes];
    try (apply last_same; by apply good_single); try reflexivity.
  - each_port; reflexivity.
  - each_port; reflexivity.
  - destruct Ho as (Hp & _ & _). apply (vlan_member_write port v _ Hp).
  - change [?a; ?b] with ([a] ++ [b])%list. rewrite last_app, last_same; [done|].
    by apply Forall_cons in Hg as [_ Hg]; apply good_single.
Qed.

(** C31. The Ethernet switch as a map of 181 settings: with arguments in range each of the
    fourteen operations of admmod.c, read-modify-writes of shared registers behind the MDIO
    access register, gives the settings it changes the values it says and leaves every other
    setting as it was. Among what it changes are settings nobody asked about: setting the
    flag of the new bandwidth control takes away every limit, turning snooping off turns the
    proxy off, setting the CPU port clears the tag mode, and a fid is or-ed to the old one.
    *)
Theorem switch_settings o s x : wf s -> good_operation o -> good_setting x ->
  wf (run_operation o s) /\
  (forall v, In (x, v) (effect o s) -> value x (run_operation o s) = v) /\
  (~ In x (map fst (effect o s)) -> value x (run_operation o s) = value x s).
Proof.
  intros Hs Ho Hx. split_and!.
  - destruct (operation_writes o s Hs Ho) as [Hw Hsame]. eapply wf_equal; [done|by apply wf_stores].
  - intros v Hin. pose proof (effect_values o s Hs Ho) as H. rewrite List.Forall_forall in H. by apply (H (x, v)).
  - by apply unnamed_kept.
Qed.
Lemma switch_settings_witness :
  value (Fid 2) (run_operation (VlanAdd 3 2 4) (upd 0x44 0x1000 dark)) = 5 /\
  value (Member 2 0) (run_operation (VlanAdd 3 2 4) (upd 0x44 0x1000 dark)) = 0.
Proof.
  assert (Hs : wf (upd 0x44 0x1000 dark)) by (apply wf_upd; [intros a _; unfold word16, dark; lia|unfold word16; lia]).
  assert (Ho : good_operation (VlanAdd 3 2 4)) by (cbn; unfold is_port; lia).
  split.
  - assert (Hx : good_setting (Fid 2)) by (cbn; lia).
    apply (proj1 (proj2 (switch_settings _ _ _ Hs Ho Hx))). right. left. reflexivity.
  - assert (Hx : good_setting (Member 2 0)) by (cbn; unfold is_port; lia).
    rewrite (proj2 (proj2 (switch_settings _ _ _ Hs Ho Hx))); [reflexivity|]. cbn. intuition congruence.
Defined.
