(* ===== verification/SwitchText.v ===== *)
(** * SwitchText: what is written to the files of the switch

    The text of the file bandwidth_control and the six limits it sets; a queue weight that
    does not fit; protocol filters set and read. *)
From S2P Require Import Prelude Switch SwitchBits SwitchProps.
Import Switch.
#[local] Open Scope list_scope.
#[local] Open Scope Z_scope.

(** ** Reading words *)
Definition gap_char (c : Z) : bool := separator c || (c =? 61).
Lemma strn_len_word n t c u : Forall (fun d => separator d = false) t -> (length t < n)%nat -> separator c = true ->
  strn_len n (t ++ c :: u) = Z.of_nat (length t).
Proof.
  revert n. induction t as [|d t IH]; intros n Ht Hn Hc; destruct n as [|n]; cbn in *; try lia.
  - by rewrite Hc.
  - apply Forall_cons in Ht as [Hd Ht]. rewrite Hd, IH by (done || lia).
    destruct (Z.ltb_spec (Z.of_nat (length t)) 0); lia.
Qed.
Lemma count_trail_gap n g c u : Forall (fun d => separator d = true) g -> (length g < n)%nat -> gap_char c = false ->
  count_trail_chars n (g ++ c :: u) = Z.of_nat (length g).
Proof.
  revert n. induction g as [|d g IH]; intros n Hg Hn Hc; destruct n as [|n]; cbn in *; try lia.
  - unfold gap_char in Hc. by rewrite Hc.
  - apply Forall_cons in Hg as [Hd Hg]. rewrite Hd, IH by (done || lia). cbn [orb].
    destruct (Z.ltb_spec (Z.of_nat (length g)) 0); lia.
Qed.
Lemma argument_word t c u s : Forall (fun d => separator d = false) t -> (length t < BUF)%nat -> separator c = true ->
  argument (t ++ c :: u) s = (Done (t, c :: u), s).
Proof.
  intros Ht Hn Hc. unfold argument. rewrite strn_len_word by done.
  destruct (Z.ltb_spec (Z.of_nat (length t)) 0), (Z.ltb_spec (Z.of_nat (length t)) (Z.of_nat BUF)); try lia.
  unfold ret. by rewrite Nat2Z.id, take_app_length, drop_app_length.
Qed.
Lemma trail_gap g c u s : Forall (fun d => separator d = true) g -> (length g < BUF)%nat -> gap_char c = false ->
  trail (g ++ c :: u) s = (Done (c :: u), s).
Proof.
  intros Hg Hn Hc. unfold trail. rewrite count_trail_gap by done. cbv zeta.
  destruct (Z.ltb_spec (Z.of_nat (length g)) 0); [lia|]. unfold ret. by rewrite Nat2Z.id, drop_app_length.
Qed.

(** ** Numbers in decimal *)
Definition decimal (ds : list Z) : Z := fold_left (fun r d => r * 10 + d) ds 0.
Definition digits (ds : list Z) : list Z := map (Z.add 48) ds.
Definition is_digit (d : Z) : Prop := 0 <= d <= 9.
Lemma strtoul_digits ds r : Forall is_digit ds -> strtoul (u32 r) (digits ds) = u32 (fold_left (fun r d => r * 10 + d) ds r).
Proof.
  revert r. induction ds as [|d ds IH]; intros r Hd; [done|]. apply Forall_cons in Hd as [Hd Hds]. unfold is_digit in Hd.
  cbn [digits map strtoul fold_left].
  destruct (Z.leb_spec 48 (48 + d)), (Z.leb_spec (48 + d) 57); cbn [andb]; try lia.
  replace (48 + d - 48) with d by lia. rewrite <- IH by done. unfold digits. f_equal. unfold u32.
  rewrite <- Zplus_mod_idemp_l, Zmult_mod_idemp_l, Zplus_mod_idemp_l. done.
Qed.
(** simple_strtoul counts modulo 2^32, and the result is kept in an [int]. *)
Lemma int32_u32 z : int32 (u32 z) = int32 z.
Proof. unfold int32, u32. by rewrite Zplus_mod_idemp_l. Qed.
Lemma number_digits ds : Forall is_digit ds -> number (digits ds) = int32 (decimal ds).
Proof.
  intros Hd. unfold number. change 0 with (u32 0). rewrite strtoul_digits by done. apply int32_u32.
Qed.
Lemma digit_word ds : Forall is_digit ds -> Forall (fun d => separator d = false) (digits ds).
Proof.
  intros Hd. apply Forall_map. eapply Forall_impl; [exact Hd|]. intros d Hr. unfold is_digit in Hr. unfold separator, compose.
  assert (d = 0 \/ d = 1 \/ d = 2 \/ d = 3 \/ d = 4 \/ d = 5 \/ d = 6 \/ d = 7 \/ d = 8 \/ d = 9) as Hc by lia.
  by destruct_or! Hc; subst d.
Qed.

(** ** The text of bandwidth_control *)
(** A number of the text: its digits and the separators behind it. *)
Record entry := mk_entry { num : list Z; gap : list Z }.
Definition good_entry (e : entry) : Prop :=
  num e <> [] /\ Forall is_digit (num e) /\ (length (num e) < BUF)%nat /\
  gap e <> [] /\ Forall (fun d => separator d = true) (gap e) /\ (length (gap e) < BUF)%nat.
Fixpoint text (es : list entry) : list Z :=
  match es with [] => [] | e :: es' => digits (num e) ++ gap e ++ text es' end.
(** The limit a number asks for. *)
Definition asked_limit (e : entry) : Z := int32 (decimal (num e)).
Definition set_all (txrx : Z) (ls : list (Z * Z)) (s : switch) : switch :=
  fold_left (fun s pl => ifx_sw_set_bndwth pl.1 txrx pl.2 s) ls s.

Lemma text_starts es c u : Forall good_entry es -> gap_char c = false ->
  exists d u', text es ++ c :: u = d :: u' /\ gap_char d = false.
Proof.
  intros He Hc. destruct es as [|e es]; [by exists c, u|]. apply Forall_cons in He as [(Hn & Hd & _) _].
  cbn [text]. destruct (num e) as [|d ds]; [done|]. cbn [digits map app]. do 2 eexists. split; [reflexivity|].
  pose proof (digit_word (d :: ds) Hd) as Hw. apply Forall_cons in Hw as [Hw _]. cbv beta in Hw. unfold gap_char. rewrite Hw. cbn [orb].
  apply Forall_cons in Hd as [Hd _]. unfold is_digit in Hd. apply Z.eqb_neq. lia.
Qed.
Lemma entry_parsed e es c u s : good_entry e -> Forall good_entry es -> gap_char c = false ->
  exists g, argument (text (e :: es) ++ c :: u) s = (Done (digits (num e), g), s) /\ trail g s = (Done (text es ++ c :: u), s).
Proof.
  intros (Hn & Hd & Hl & Hg & Hgs & Hgl) He Hc.
  destruct (gap e) as [|d g] eqn:Eg; [done|]. exists (d :: g ++ text es ++ c :: u).
  cbn [text]. rewrite Eg, <- !app_assoc. cbn [app]. split.
  - rewrite argument_word; [done|by apply digit_word|unfold digits; by rewrite length_map|by apply Forall_cons in Hgs as [Hgs _]].
  - destruct (text_starts es c u He Hc) as (d' & u' & -> & Hd'). by apply (trail_gap (d :: g)).
Qed.
Lemma loop_parsed tx es ports c u s : Forall good_entry es -> gap_char c = false -> length ports = length es ->
  bdhctl_loop tx ports (text es ++ c :: u) s = (Done tt, set_all tx (zip ports (map asked_limit es)) s).
Proof.
  intros He Hc. revert ports s. induction es as [|e es IH]; intros ports s Hl; destruct ports as [|p ports]; try done.
  apply Forall_cons in He as [H1 He]. destruct (entry_parsed e es c u s H1 He Hc) as (g & Ha & Ht).
  cbn [bdhctl_loop]. unfold bind at 1. rewrite Ha. unfold bind at 1. rewrite Ht. unfold bind at 1, modify at 1.
  rewrite IH by (done || (cbn in Hl; lia)). destruct H1 as (_ & Hd & _). by rewrite number_digits.
Qed.

(** ** Six limits *)
Definition of_direction (txrx : Z) (x : setting) : Prop :=
  exists p, x = Limit p txrx \/ x = Limited p txrx.
Lemma set_one tx p l s : wf s -> is_port p -> is_dir tx ->
  let s' := ifx_sw_set_bndwth p tx l s in
  wf s' /\
  (if valid_limit l then value (Limit p tx) s' = 64 * (l / 64) /\ value (Limited p tx) s' = 1
   else value (Limited p tx) s' = 0) /\
  (forall x, good_setting x -> x <> Limit p tx -> x <> Limited p tx -> x <> Qos -> value x s' = value x s).
Proof.
  intros Hs Hp Ht. assert (Ho : good_operation (SetBandwidth p tx l)) by done.
  cbv zeta. change (ifx_sw_set_bndwth p tx l) with (run_operation (SetBandwidth p tx l)). split_and!.
  - destruct (operation_writes _ s Hs Ho) as [Hw Hsame]. eapply wf_equal; [done|by apply wf_stores].
  - pose proof (effect_values _ s Hs Ho) as H. cbn [effect] in H.
    change ((0 <? l) && (l <? 102400)) with (valid_limit l) in H. destruct (valid_limit l);
      rewrite ?Forall_cons in H; cbn [fst snd] in H; tauto.
  - intros x Hx H1 H2 H3. apply unnamed_kept; try done. cbn [effect].
    destruct ((0 <? l) && (l <? 102400)); cbn; intuition congruence.
Qed.
Lemma set_many tx ls s : wf s -> is_dir tx -> Forall (fun pl => is_port pl.1) ls -> NoDup (map fst ls) ->
  let s' := set_all tx ls s in
  wf s' /\
  Forall (fun pl => if valid_limit pl.2 then value (Limit pl.1 tx) s' = 64 * (pl.2 / 64) /\ value (Limited pl.1 tx) s' = 1
                    else value (Limited pl.1 tx) s' = 0) ls /\
  (forall x, good_setting x -> (forall p, In p (map fst ls) -> x <> Limit p tx /\ x <> Limited p tx) -> x <> Qos ->
     value x s' = value x s).
Proof.
  intros Hs Ht Hl Hn. cbv zeta. revert s Hs. induction ls as [|[p l] ls IH]; intros s Hs; [by split_and!|].
  apply Forall_cons in Hl as [Hp Hl]. cbn [map fst snd] in *. apply NoDup_cons in Hn as [Hpn Hn]. rewrite list_elem_of_In in Hpn.
  destruct (set_one tx p l s Hs Hp Ht) as (Hw & Hv & Hk). cbn [set_all fold_left fst snd].
  destruct (IH Hl Hn _ Hw) as (Hw' & Hv' & Hk'). fold (set_all tx ls (ifx_sw_set_bndwth p tx l s)) in *.
  assert (Hsame : forall x, x = Limit p tx \/ x = Limited p tx ->
    value x (set_all tx ls (ifx_sw_set_bndwth p tx l s)) = value x (ifx_sw_set_bndwth p tx l s)).
  { intros x Hx. apply Hk'; [destruct Hx as [-> | ->]; by split| |destruct Hx as [-> | ->]; done].
    intros p' Hp'. destruct Hx as [-> | ->]; split; intros [=]; by subst. }
  split_and!; [done| |].
  - apply Forall_cons_2; [|done]. cbn [fst snd]. rewrite !Hsame by tauto. done.
  - intros x Hx Hp' Hq. rewrite Hk' by (try done; intros q Hin; apply Hp'; by right).
    destruct (Hp' p) as [H1 H2]; [by left|]. by apply Hk.
Qed.

(** C32. Writing TX or RX and six decimal numbers to bandwidth_control, with separators
    behind each word, the last one too, a character that is none behind them, and each word
    and gap shorter than the buffer of 80, sets the limits of the six ports in that
    direction. A number counts modulo 2^32 and as a signed integer: between 1 and 102399 it
    sets the limit rounded down to a multiple of 64, otherwise it takes the limit of the
    port away. Every other setting of the switch is as it was, but that limiting as a whole
    may be on afterwards. *)
Theorem bandwidth_control tx g es c u count s :
  wf s -> is_dir tx -> length es = 6%nat -> Forall good_entry es ->
  g <> [] -> Forall (fun d => separator d = true) g -> (length g < BUF)%nat -> gap_char c = false ->
  let '(r, s') := ifx_sw_bdhctl_write_proc (chars (if tx =? 0 then "RX" else "TX") ++ g ++ text es ++ c :: u) count s in
  r = Done count /\ wf s' /\
  (forall p e, nth_error es p = Some e ->
     let l := asked_limit e in
     if valid_limit l
     then ifx_sw_get_bndwth (Z.of_nat p) tx s' = 64 * (l / 64) /\ ifx_sw_chk_bndctl (Z.of_nat p) tx s' = 1
     else ifx_sw_chk_bndctl (Z.of_nat p) tx s' = 0) /\
  (forall x, good_setting x -> (forall p, x <> Limit p tx /\ x <> Limited p tx) -> x <> Qos -> value x s' = value x s).
Proof.
  intros Hs Ht Hes He Hg Hgs Hgl Hc.
  assert (Hrun : ifx_sw_bdhctl_write_proc (chars (if tx =? 0 then "RX" else "TX") ++ g ++ text es ++ c :: u) count s =
    (Done count, set_all tx (zip six_ports (map asked_limit es)) s)).
  { unfold ifx_sw_bdhctl_write_proc. destruct g as [|d g]; [done|].
    destruct (text_starts es c u He Hc) as (d' & u' & Hd & Hd').
    pose proof (trail_gap (d :: g) d' u' s Hgs Hgl Hd') as Htr. rewrite <- Hd in Htr. cbn [app] in Htr.
    unfold bind at 1. cbn [app]. rewrite argument_word;
      [|destruct Ht as [-> | ->]; by repeat apply Forall_cons_2; try apply Forall_nil_2|destruct Ht as [-> | ->]; cbn; unfold BUF; lia
       |by apply Forall_cons in Hgs as [Hgs _]].
    assert (Hw : (if strstr (chars (if tx =? 0 then "RX" else "TX")) "TX" then ret 1
                  else if strstr (chars (if tx =? 0 then "RX" else "TX")) "RX" then ret 0
                  else return_ (Z.of_nat (length (chars (if tx =? 0 then "RX" else "TX"))))) = @ret Z tx)
      by (destruct Ht as [-> | ->]; reflexivity).
    cbv zeta. rewrite Hw. unfold bind at 1, ret at 1. unfold bind at 1. rewrite Htr. unfold bind at 1.
    rewrite loop_parsed by (done || by rewrite Hes). done. }
  rewrite Hrun.
  destruct es as [|e0 [|e1 [|e2 [|e3 [|e4 [|e5 [|]]]]]]]; try done.
  destruct (set_many tx (zip six_ports (map asked_limit [e0; e1; e2; e3; e4; e5])) s Hs Ht) as (Hw & Hv & Hk).
  { cbn. repeat apply Forall_cons_2; try apply Forall_nil_2; cbn; unfold is_port; lia. }
  { cbn [fst map zip six_ports]. repeat (apply NoDup_cons; split; [rewrite list_elem_of_In; cbn; lia|]). apply NoDup_nil_2. }
  split_and!; [done|done| |].
  - intros p e Hp. rewrite List.Forall_forall in Hv. apply (Hv (Z.of_nat p, asked_limit e)).
    do 6 (destruct p as [|p]; [injection Hp as ->; cbn; tauto|]). by destruct p.
  - intros x Hx Hne Hq. apply Hk; [done|intros p _; apply Hne|done].
Qed.

(** ** A weight that does not fit *)
(** What is left of the register under the weight, and what runs into the address. *)
Lemma weight_word v w : word16 v -> 0 <= w < 2 ^ 18 ->
  Z.lor (Z.land v (not32 (shl 0xf 12))) (shl w 12) = Z.lor (set v 12 4 (w mod 16)) (Z.shiftl (w / 16) 16).
Proof.
  intros Hv Hw. rewrite (shl_small w 12 18) by lia. unfold set. rewrite <- Z.lor_assoc. f_equal.
  - rewrite <- (Z.lor_0_r (Z.land _ _)). change 0 with (shl 0 12). rewrite (code_put _ 0xf 4) by (done || lia).
    unfold set. by rewrite Z.shiftl_0_l, Z.lor_0_r.
  - change 16 with (2 ^ 4) at 1 2. rewrite <- Z.shiftr_div_pow2, <- Z.land_ones by lia. apply Z.bits_inj'. intros i Hi.
    rewrite Z.lor_spec, !shiftl_bit, Z.land_spec by done.
    destruct (Z.leb_spec 12 i); cbn [andb orb]; [|by destruct (Z.leb_spec 16 i); [lia|]].
    rewrite ones_spec by lia. destruct (Z.leb_spec 16 i), (Z.ltb_spec (i - 12) 4); try lia; cbn [andb].
    + rewrite andb_false_r, Z.shiftr_spec by lia. cbn [orb]. f_equal. lia.
    + by rewrite andb_true_r, orb_false_r.
Qed.
(** A word of more than sixteen bits is a value and a part of an address. *)
Lemma write_split a v h s : 0 <= a < 1024 -> word16 v -> 0 <= h < 2 ^ 14 ->
  ifx_sw_write a (Z.lor v (Z.shiftl h 16)) s = upd (Z.lor a (h mod 1024)) v s.
Proof.
  intros Ha Hv Hh. set (d := Z.lor v (Z.shiftl h 16)).
  assert (Hbit : forall i, 0 <= i -> Z.testbit d i = Z.testbit v i || ((16 <=? i) && Z.testbit h (i - 16)))
    by (intros i Hi; unfold d; by rewrite Z.lor_spec, shiftl_bit).
  assert (Hd0 : 0 <= d) by (apply Z.lor_nonneg; split; [apply Hv|apply Z.shiftl_nonneg; lia]).
  assert (Hv16 : forall i, 16 <= i -> Z.testbit v i = false) by (intros i Hi; by apply (high_bit v 16)).
  rewrite write_wide; [|done| |].
  - f_equal.
    + f_equal. change 0x3ff with (Z.ones 10). change 1024 with (2 ^ 10). rewrite <- Z.land_ones by lia.
      apply Z.bits_inj'. intros i Hi. rewrite !Z.land_spec, Z.shiftr_spec, Hbit, Hv16 by lia.
      destruct (Z.leb_spec 16 (i + 16)); [|lia]. cbn [andb orb]. do 2 f_equal. lia.
    + change 0xffff with (Z.ones 16). apply Z.bits_inj'. intros i Hi. rewrite Z.land_spec, Hbit, ones_spec by lia.
      destruct (Z.ltb_spec i 16), (Z.leb_spec 16 i); try lia; cbn [andb].
      * by rewrite orb_false_r, andb_true_r.
      * by rewrite andb_false_r, Hv16 by lia.
  - split; [done|]. apply bits_bound; [lia|done|]. intros i Hi. rewrite Hbit, Hv16, (high_bit h 14) by lia. apply andb_false_r.
  - rewrite Hbit, Hv16, (high_bit h 14) by lia. done.
Qed.

(** C33. A queue weight of up to eighteen bits is cut to four, and what was cut off goes
    into the address of the access: the register written is the queue's own only when those
    bits are in its address already, and the queue keeps its weight otherwise. *)
Theorem queue_weight_spills q w s :
  wf s -> 1 <= q <= 3 -> 0 <= w < 2 ^ 18 ->
  let r := ADM_SW_QUEUE_CONF1 + q - 1 in
  let r' := Z.lor r ((w / 16) mod 1024) in
  let s' := ifx_sw_set_queue_weight q w s in
  s' = upd r' (set (s r) 12 4 (w mod 16)) s /\
  (w < 16 -> r' = r) /\
  ifx_sw_get_queue_weight q s' = (if r' =? r then w mod 16 else ifx_sw_get_queue_weight q s).
Proof.
  intros Hs Hq Hw. cbv zeta. set (r := ADM_SW_QUEUE_CONF1 + q - 1).
  assert (Hr : 0 <= r < 1024) by (unfold r; autounfold with adm; lia).
  assert (Hv : word16 (s r)) by by apply Hs.
  assert (Hlow : 0 <= w mod 16 < 2 ^ 4) by (apply Z.mod_pos_bound; lia).
  assert (Hset : word16 (set (s r) 12 4 (w mod 16))) by (apply set_word16; done || lia).
  assert (Heq : ifx_sw_set_queue_weight q w s = upd (Z.lor r ((w / 16) mod 1024)) (set (s r) 12 4 (w mod 16)) s).
  { unfold ifx_sw_set_queue_weight. destruct (Z.eqb_spec q 0); [lia|]. fold r. unfold put_bits. rewrite read_ok by done.
    rewrite weight_word by done. apply write_split; [done..|].
    split; [apply Z.div_pos; lia|apply Z.div_lt_upper_bound; lia]. }
  rewrite Heq. split_and!; [done| |].
  - intros H. by rewrite Z.div_small, Z.mod_0_l, Z.lor_0_r by lia.
  - unfold ifx_sw_get_queue_weight. destruct (Z.eqb_spec q 0); [lia|]. fold r.
    set (r' := Z.lor r _) in *.
    assert (Hwf : wf (upd r' (set (s r) 12 4 (w mod 16)) s)) by (by apply wf_upd).
    rewrite !(bits_of_eq r 12 0xf (mk_place r 12 4)) by (done || place_arith). unfold look. cbn [reg low width].
    destruct (Z.eqb_spec r' r) as [->|Hne].
    + rewrite upd_same, (get_set_inside _ 12 4 _ 12 4), Z.sub_diag by lia. by apply get_small.
    + by rewrite upd_other by congruence.
Qed.

(** ** Protocol filters *)
Definition filter_places (n : Z) : place * place :=
  (mk_place (n / 2 + 0x68) (if n mod 2 =? 0 then 0 else 8) 8, mk_place 0x95 (n * 2) 2).
Lemma filter_address n : 0 <= n <= 7 -> 0 <= n / 2 + 0x68 < 0x6c.
Proof. intros Hn. pose proof (Z.div_pos n 2). pose proof (Z.div_lt_upper_bound n 2 4). lia. Qed.
Lemma filter_places_good n : 0 <= n <= 7 -> good_place (filter_places n).1 /\ good_place (filter_places n).2.
Proof.
  intros Hn. pose proof (filter_address n Hn). unfold filter_places. destruct (n mod 2 =? 0); cbn [fst snd]; split; place_arith.
Qed.
Lemma filter_get f s : wf s -> 0 <= protocol_filter_num f <= 7 ->
  let n := protocol_filter_num f in
  adm_process_protocol_filter_request FILTER_GET f s =
  (mk_filter n (look (filter_places n).1 s) (action_field (look (filter_places n).2 s)), s).
Proof.
  intros Hs Hn. destruct f as [n ip a]. cbn [protocol_filter_num] in *. cbv zeta.
  unfold adm_process_protocol_filter_request. cbn [protocol_filter_num]. cbv zeta.
  rewrite Z.quot_div_nonneg, Z.rem_mod_nonneg by lia. pose proof (filter_address n Hn) as Hr.
  pose proof (filter_places_good n Hn) as [_ H2]. f_equal. f_equal.
  - rewrite read_ok by (done || lia). assert (Hv : word16 (s (n / 2 + 104))) by (apply Hs; lia).
    unfold filter_places, look. cbn [fst reg low width]. destruct (n mod 2 =? 0).
    + unfold get. rewrite Z.shiftr_0_r. done.
    + rewrite shr_ok by (done || lia). unfold get. change 0xff with (Z.ones 8). apply Z.bits_inj'. intros i Hi.
      rewrite Z.land_spec, Z.shiftr_spec, ones_spec by lia. destruct (Z.ltb_spec i 8); [by rewrite andb_true_r|].
      by rewrite (high_bit (s _) 16) by (unfold word16 in *; lia).
  - f_equal. by apply bits_of_eq.
Qed.
(** Two bits of the action, whatever its sign. *)
Lemma action_low a : Z.land (u32 a) 3 = a mod 4.
Proof.
  change 3 with (Z.ones 2). rewrite Z.land_ones by lia. unfold u32. change (2 ^ 32) with (2 ^ 2 * 2 ^ 30).
  by rewrite Z.rem_mul_r, Zmult_comm, Z_mod_plus_full, Zmod_mod by lia.
Qed.
Definition filter_writes (f : PROTOCOLFILTER) : list (place * Z) :=
  [((filter_places (protocol_filter_num f)).1, ip_p f); ((filter_places (protocol_filter_num f)).2, action f mod 4)].
Definition asked (cmd : filter_cmd) (f : PROTOCOLFILTER) : PROTOCOLFILTER :=
  match cmd with FILTER_DEL => mk_filter (protocol_filter_num f) 0 0 | _ => f end.
Definition good_filter (f : PROTOCOLFILTER) : Prop := 0 <= protocol_filter_num f <= 7 /\ 0 <= ip_p f <= 255.
Lemma filter_writes_good f : good_filter f -> Forall good_write (filter_writes f).
Proof.
  intros [Hn Hp]. pose proof (filter_places_good _ Hn) as [H1 H2]. pose proof (Z.mod_pos_bound (action f) 4).
  unfold filter_writes. repeat apply Forall_cons_2; [split; [done|]..|apply Forall_nil_2];
    unfold fits, filter_places; cbn [fst snd width]; lia.
Qed.
Lemma filter_put cmd f s : wf s -> cmd <> FILTER_GET -> good_filter (asked cmd f) ->
  adm_process_protocol_filter_request cmd f s = (asked cmd f, stores (filter_writes (asked cmd f)) s).
Proof.
  intros Hs Hc Hg. pose proof (filter_writes_good _ Hg) as Hw.
  assert (He : adm_process_protocol_filter_request cmd f s = adm_process_protocol_filter_request FILTER_ADD (asked cmd f) s)
    by by destruct cmd.
  rewrite He. clear He Hc. set (f1 := asked cmd f) in *. clearbody f1. destruct f1 as [n ip a]. destruct Hg as [Hn Hp].
  cbn [protocol_filter_num ip_p] in *. unfold adm_process_protocol_filter_request. cbn [protocol_filter_num ip_p action]. cbv zeta.
  rewrite Z.quot_div_nonneg, Z.rem_mod_nonneg by lia. pose proof (filter_address n Hn) as Hr. f_equal.
  assert (H1 : ifx_sw_write (n / 2 + 104)
      (if n mod 2 =? 0 then Z.lor (Z.land (ifx_sw_read (n / 2 + 104) s) 0xff00) (u32 ip)
       else Z.lor (Z.land (ifx_sw_read (n / 2 + 104) s) 0x00ff) (shl ip 8)) s = store (filter_places n).1 ip s).
  { unfold filter_places. cbn [fst]. destruct (n mod 2 =? 0).
    - rewrite u32_fits, <- (Z.shiftl_0_r ip) at 1 by lia.
      by rewrite (put_field (n / 2 + 104) 0xff00 8 0 ip s) by (done || lia || by right).
    - rewrite (shl_small ip 8 8) by lia. by rewrite (put_field (n / 2 + 104) 0xff 8 8 ip s) by (done || lia || by right). }
  rewrite H1. clear H1. apply Forall_cons in Hw as [[G1 F1] Hw]. apply good_single in Hw as [G2 F2].
  cbn [fst snd protocol_filter_num ip_p action] in *.
  pose proof (put_bits_eq 0x95 (n * 2) 0x3 (a mod 4) _ _ (wf_store _ _ _ Hs G1 F1) G2 F2 eq_refl eq_refl eq_refl) as H2.
  unfold put_bits in H2. rewrite action_low. exact H2.
Qed.
Lemma filter_apart n m : 0 <= n <= 7 -> 0 <= m <= 7 ->
  apart (filter_places n).1 (filter_places m).2 = true /\ apart (filter_places n).2 (filter_places m).1 = true /\
  (n <> m -> apart (filter_places n).1 (filter_places m).1 = true /\ apart (filter_places n).2 (filter_places m).2 = true).
Proof.
  intros Hn Hm.
  assert (n = 0 \/ n = 1 \/ n = 2 \/ n = 3 \/ n = 4 \/ n = 5 \/ n = 6 \/ n = 7) as Hcn by lia.
  assert (m = 0 \/ m = 1 \/ m = 2 \/ m = 3 \/ m = 4 \/ m = 5 \/ m = 6 \/ m = 7) as Hcm by lia.
  clear Hn Hm. destruct_or! Hcn; subst n; destruct_or! Hcm; subst m;
    (split; [reflexivity|split; [reflexivity|intros Hne; first [by destruct Hne|by split]]]).
Qed.
Lemma action_back a : - 2 <= a <= 1 -> action_field (a mod 4) = a.
Proof. intros Ha. unfold action_field. rewrite Zplus_mod_idemp_l, Z.mod_small; lia. Qed.

(** A protocol filter that is added is what is read back for its number, one that is
    deleted is read back as empty, and the seven others read as before. *)
Theorem protocol_filter_roundtrip cmd f g s :
  wf s -> cmd <> FILTER_GET -> good_filter (asked cmd f) -> - 2 <= action f <= 1 -> 0 <= protocol_filter_num g <= 7 ->
  let s' := (adm_process_protocol_filter_request cmd f s).2 in
  wf s' /\
  (adm_process_protocol_filter_request FILTER_GET g s').1 =
  (if protocol_filter_num g =? protocol_filter_num f then asked cmd f
   else (adm_process_protocol_filter_request FILTER_GET g s).1).
Proof.
  intros Hs Hc Hf Ha Hm. cbv zeta. rewrite filter_put by done. cbn [snd].
  pose proof (filter_writes_good _ Hf) as Hw.
  assert (Hs' : wf (stores (filter_writes (asked cmd f)) s)) by by apply wf_stores.
  split; [done|]. rewrite !filter_get by done. cbn [fst].
  assert (Hn : protocol_filter_num (asked cmd f) = protocol_filter_num f) by by destruct cmd.
  assert (Hact : - 2 <= action (asked cmd f) <= 1) by (destruct cmd; cbn; lia). rewrite <- Hn. clear Hn Ha Hc.
  destruct (asked cmd f) as [n ip a]. destruct Hf as [Hn Hp]. cbn [protocol_filter_num ip_p action] in *.
  destruct (filter_apart n (protocol_filter_num g) Hn Hm) as (A12 & A21 & Ane).
  pose proof (filter_places_good _ Hm) as [M1 M2].
  destruct (Z.eqb_spec (protocol_filter_num g) n) as [E|Hne]; [subst n|].
  - apply Forall_cons in Hw as [[G1 F1] Hw]. apply good_single in Hw as [G2 F2].
    cbn [filter_writes stores fold_left fst snd protocol_filter_num ip_p action] in *. f_equal.
    + rewrite look_store_apart by done. by apply look_store_same.
    + rewrite look_store_same by done. by apply action_back.
  - destruct (Ane (not_eq_sym Hne)) as [A11 A22].
    rewrite !look_stores_apart by (try done; unfold filter_writes; cbn [forallb fst snd protocol_filter_num]; rewrite ?A11, ?A12, ?A21, ?A22; done). done.
Qed.

(** ** Instances *)
Lemma dark_wf : wf dark.
Proof. intros a _. unfold word16, dark. lia. Qed.
Definition example_text : list entry :=
  [mk_entry [6; 4; 0] [32]; mk_entry [4; 2; 9; 4; 9; 6; 7; 4; 2; 4] [32]; mk_entry [0] [32]; mk_entry [1; 0; 0] [44; 32];
   mk_entry [9; 9; 9; 9; 9] [32]; mk_entry [2; 0; 0; 0; 0; 0] [10]].
Lemma example_good : Forall good_entry example_text.
Proof.
  unfold example_text. repeat apply Forall_cons_2; try apply Forall_nil_2; unfold good_entry; cbn [num gap];
    split_and!; try done; try (cbn; unfold BUF; lia); repeat apply Forall_cons_2; try apply Forall_nil_2; unfold is_digit; try lia; try done; vm_compute; split; done || discriminate.
Qed.
Lemma bandwidth_control_witness :
  let '(r, s') := ifx_sw_bdhctl_write_proc (chars "TX" ++ [32] ++ text example_text ++ [0]) 40 dark in
  r = Done 40 /\ wf s' /\
  (forall p e, nth_error example_text p = Some e ->
     let l := asked_limit e in
     if valid_limit l
     then ifx_sw_get_bndwth (Z.of_nat p) 1 s' = 64 * (l / 64) /\ ifx_sw_chk_bndctl (Z.of_nat p) 1 s' = 1
     else ifx_sw_chk_bndctl (Z.of_nat p) 1 s' = 0) /\
  (forall x, good_setting x -> (forall p, x <> Limit p 1 /\ x <> Limited p 1) -> x <> Qos -> value x s' = value x dark).
Proof.
  apply (bandwidth_control 1 [32] example_text 0 [] 40 dark);
    [exact dark_wf|by right|done|exact example_good|done|by apply Forall_singleton|cbn; unfold BUF; lia|done].
Defined.
Lemma queue_weight_spills_witness :
  ifx_sw_get_queue_weight 2 (ifx_sw_set_queue_weight 2 16 (upd 0x26 0x5000 dark)) = 5.
Proof.
  assert (Hs : wf (upd 0x26 0x5000 dark)) by (apply wf_upd; [exact dark_wf|unfold word16; lia]).
  exact (proj2 (proj2 (queue_weight_spills 2 16 _ Hs ltac:(lia) ltac:(lia)))).
Defined.
Lemma protocol_filter_roundtrip_witness :
  let s' := (adm_process_protocol_filter_request FILTER_ADD (mk_filter 5 17 (-2)) dark).2 in
  wf s' /\ (adm_process_protocol_filter_request FILTER_GET (mk_filter 5 0 0) s').1 = mk_filter 5 17 (-2).
Proof.
  apply (protocol_filter_roundtrip FILTER_ADD (mk_filter 5 17 (-2)) (mk_filter 5 0 0) dark dark_wf);
    [discriminate|split; cbn; lia|cbn; lia|cbn; lia].
Defined.
